(* ===== verification/_CoqProject ===== *)
-Q . S2P
Prelude.v
JsString.v
JsValue.v
Schema.v
Transaction.v
AuditChain.v
AccessLog.v
AdminLog.v
Schedule.v
Identity.v
Cidr.v
Access.v
Sessions.v
Settings.v
Gateway.v
RateLimit.v
Tenant.v
Directory.v
Connector.v
SignIn.v
Passkeys.v
People.v
AuditQuery.v
Recordings.v
Live.v
Mobile.v
Provider.v
Workspaces.v
Anchor.v
Sites.v
Authority.v
WallClock.v
Config.v
Dashboard.v
Overview.v
Centre.v
Notices.v
Crypto.v
Input.v
SiteForm.v
Recorder.v
PolicyForm.v
GrantForm.v
Transfer.v
Console.v
Tunnel.v
Install.v
