(* ===== verification/Prelude.v ===== *)
(** * Captivo Access: a verification of the manager's core

    Captivo Access gives outside people (vendors) time-limited, recorded access
    to inside web applications and desktops.  The program verified here is the
    *manager* (src/src, TypeScript on Next.js and Prisma): it keeps users,
    grants, sessions, connectors and two hash-chained audit logs in PostgreSQL,
    serves the console and the portal, and answers the Go data plane, which
    proxies every vendor request and asks the manager whether to let it through.

    ** How the parts interact

    A vendor request reaches the data plane, which posts user, site and address
    to internal/access/check.  That route checks the shared secret, finds the
    site's tenant, applies the tenant's address allowlist and evaluates the
    user's grants.  Grants come from console admins, from self-service requests
    an approver decides, or from the directory's groups at sign-in.  What
    happened is posted back in batches and chained into each tenant's access
    log; console actions are chained into the admin log.  Connectors, which
    reach the inside network, enrol with a one-time code and then authenticate
    with a bearer token.  A running remote session is kept by the data plane,
    where an administrator may watch it, take it over or end it; its recording
    stays on the customer's connector and the manager keeps the index.  On the
    hosted service one deployment serves many workspaces (tenants), which the
    platform console creates, limits and deletes.

    ** Files

    - [Prelude]: notations, tactics, the hint database.
    - [JsString], [JsValue]: the strings, numbers, JSON values and dates of
      JavaScript that the sources use ([trim], [split], [Number],
      [toISOString], ...), with their lemmas.  Strings are lists of 8-bit
      characters (in [Crypto], where it matters, lists of UTF-16 code units);
      numbers are the exact values in [jsnum].
    - [Schema]: rows of prisma/schema.prisma, route answers, queries
      ([find_row], [update_where], [order_by]).
    - [AuditChain]: src/lib/audit/chain.ts and verify.ts, for any event type
      with a canonical text (class [Chainable]).
    - [AccessLog]: append.ts, canonicalize, the verify route with its paging
      loop, the retention job.  [AdminLog]: admin.ts, admin-chain.ts,
      admin-backfill.ts and the admin-verify route.
    - [Schedule]: src/lib/access/schedule.ts over an interface of Intl time
      zones (class [Intl] and its laws [IntlLaws]).
    - [Identity]: src/lib/auth (roles, centre roles, amr, oidc claims, return
      targets), the client address.  [Cidr]: src/lib/net/cidr.ts over an
      interface of node:net (class [Net]).
    - [Access]: src/lib/access (evaluate, grants, decisions), the grant routes of
      the console, the portal and the app, and the route that answers the data
      plane.  [Authority]: the history of the grants table under all its writers,
      those of [Directory], [Live], [People] and [Sites] included.
    - [Sessions]: console sessions and policy, app sign-in, support sessions,
      invites.  [SignIn]: the identity provider's callback, from saved state to
      session.  [Passkeys]: the WebAuthn and recovery routes.  [Provider]: the
      choice and storage of the identity provider, the start of a login, the
      centre's membership webhook.  [People]: users, invites, own settings.
      [Mobile]: the administrators' app, push messages.
    - [Settings]: src/lib/settings/platform.ts.  [RateLimit]: rate-limit.ts.
      [Config]: the console's configuration routes (policy, directory, mail,
      splash image, update check, the centre's settings) and their stores.
      [WallClock]: src/lib/time/datetime-local.ts.
    - [Transaction]: src/lib/tenant/scope.ts and src/lib/db.ts, on which
      connection a query runs and what a failed callback leaves behind.
    - [Tenant]: hosts and slugs, plan limits, and the audit ingest that files
      one batch into many tenants' logs.  [Workspaces]: src/lib/platform and
      src/lib/signup, the platform console and the making of a workspace.
    - [Directory]: group mappings and the reconciliation at sign-in.
    - [Connector]: enrolment, authentication and the connector routes.
    - [Sites]: sites, their credentials, domains and health, and the descriptor
      of a remote session.  [Gateway]: Guacamole parameters, what is recorded.
    - [Recordings]: the index, erasure, retention, search and replay.
    - [Live]: running sessions, over a model of the data plane's registry.
    - [AuditQuery]: reading and exporting the logs.  [Anchor]: RFC 3161
      anchors of both logs.  [Dashboard]: statistics and the activity feed.
      [Overview]: the platform's statistics, health and heartbeats of jobs.
      [Console]: the snapshot of the console's home page, extending a grant.
    - [Centre]: the client of Captivo ID and the product menu.  [Notices]: the
      texts of mails, notices, the bell and the navigation.
    - [Crypto]: src/lib/crypto.ts, secrets at rest, over an interface of the
      cipher (class [Aead]).
    - [Transfer]: replay and file transfer through the data plane, with the relay
      (dataplane/kasmfiles.go).  [Tunnel]: the calls that cross a connector's
      tunnel, with the data plane's registry of tunnels (registry.go, wss.go,
      proxy.go, ldap.go).  [Recorder]: the recorder in a page and the store of its
      chunks on the connector (recstore.go).
    - [Input]: keyboard and clipboard of a remote session in the browser.
    - [SiteForm], [PolicyForm], [GrantForm]: the forms of the console and the
      portal, from what a page seeds to what its route stores.
    - [Install]: the commands for a connector's host and how they are printed.

    ** How code is represented

    Pure functions are functions.  A handler is a function from its inputs and
    the rows it may see to the rows after it and its answer ([response]); a
    throw is [None] or a [Fail].  Everything a request draws from outside is an
    argument: the clock, new identifiers and tokens, hashes (SHA-256, argon2,
    HMAC), the parse of a date or URL, the answer of a directory or of an
    identity provider, whether a database read fails.  Properties of those
    arguments, where needed, are hypotheses of the theorem (for SHA-256 none:
    the theorems end in "or a collision is exhibited").  A transaction or a
    single statement is one step; where a handler reads and later writes, an
    argument [between] stands for whatever other requests commit in the gap.
    Row-level security is represented by giving a handler its tenant's rows.
    Dates are integral milliseconds and database integers unbounded [Z]; the
    32 and 64 bit columns of the access log are checked ([int4], [int8]).

    ** What is shown

    - Access decisions: when the data plane's check answers "allow"
      ([accessCheck_sound]), exactly which grants admit
      ([evaluateAccess_allow_iff]), which refusal is reported
      ([evaluateAccess_reason]), what a schedule means
      ([isWithinSchedule_spec], [validateSchedule_roundtrip]) and what an
      allowlist enforces ([allowlist_enforced]).
    - Grants: the routes refine an abstract life cycle
      ([routes_refine_lifecycle]); nobody is admitted without an approver or
      a group mapping, whoever writes the table ([access_needs_approver]); closed grants stay closed
      ([closed_grant_stays_closed]); a request is decided once
      ([decide_once]); the duration cap, measured by an edit from the edit where a
      grant has no start, and the single pending request ([grant_cap_enforced],
      [edit_measures_anew], [one_pending_per_pair]).
    - Audit logs: genuine logs verify whatever happened to them
      ([audit_reachable_verifies], [admin_reachable_verifies]); an accepted
      log attests the texts that were chained, up to its old end or a collision of
      the hash ([access_tamper_evident], [admin_tamper_evident],
      [access_cut_detected]); a text fixes every field of its row when no field
      holds the unit separator, and only then ([canonicalize_ambiguous]); append, retention, paging, backfill, the
      canonical texts, and the separation of tenants at ingest
      ([append_spec], [retention_spec], [page_loop_complete],
      [backfill_complete], [canonicalize_injective], [stableStringify_store],
      [ingest_isolated]).
    - Identity and sessions: what a session of the callback is founded on
      ([oidc_sign_in_sound]), what a token proves, also when the policy cannot be
      read or the visit not saved ([getSessionUser_sound]),
      single-use codes, caps, cookies, the second factor, the centre's role
      ceiling, the client address ([mobile_code_single_use],
      [concurrent_cap_enforced], [handoff_roundtrip],
      [second_factor_enforced], [reconcile_ceiling], [accessGrantFor_sound],
      [clientIp_unspoofable]), and what a directory answer does
      ([sync_reconciles]).
    - Accounts: what a passkey ceremony founds ([registration_sound],
      [passkey_sign_in_sound], [accounts_wf]); a workspace keeps someone who can
      configure it ([configurer_kept]); the app's sign-in and whom a push
      reaches ([app_sign_in], [push_recipients]); which provider is used and what
      the centre may change ([provider_coherent], [membership_sound]).
    - Connectors: what an enrolment hands out ([enroll_sound]), that a
      revoked connector never authenticates again ([revocation_final]) and that
      the kick cuts it off ([revoked_cut]); that there is one open tunnel for a
      connector ([tunnels_kept]) and a policy reaches its own
      ([policy_delivered]); what a probe, a test and a look-up in a directory
      tell ([probe_reaches], [preview_is_prefix], [refusal_is_definite]); that the
      printed command is the copied one ([printed_is_copied]).
    - Sites and sessions: stored sites stay well formed ([sites_kept_wf]),
      domains marked verified point here ([verified_domains_point_here]), what a
      descriptor carries ([descriptor_sound]), who may watch, in both
      modes and of both kinds of session, who controls one that is not isolated
      ([watchers_sound], [control_exclusive], [vendor_liveness_dropped]), and
      whose sessions are listed and ended ([live_isolated], [terminate_sticks]).
    - Recordings, files and anchors: an accepted erasure removes the bytes when its
      connector is reached, or the row went in one of four other ways
      ([erasure_completes]); what a visit recorded is what is replayed
      ([visit_replays], [snapshot_sent_at_once]); replay and files are for those
      who may ([replay_guarded], [files_guarded]); anchors verify, and a token
      that the authority issued for a head pins what was before it
      ([anchors_verify], [anchor_pins_history]); secrets at rest are read back
      through UTF-8 ([secrets_roundtrip]).
    - In the browser: no key stays down on the remote side, the clipboard keeps to
      the policy and a paste arrives ([no_stuck_keys], [clipboard_gated],
      [paste_inserts]); opening a form and saving it changes nothing
      ([reopen_changes_nothing], [policy_untouched], [session_untouched],
      [editor_untouched]); a grant is enforced as it was typed, and hours that
      never open are refused ([grant_as_typed]).
    - Deployment: tenants' settings never mix ([settings_isolated]), resolved
      settings are in range ([resolved_bounds]), a console host names one
      tenant ([console_host_slug]), the limiter limits
      ([rate_limit_enforced]); workspaces are made whole or not at all, for
      those entitled, and a deletion can be undone until it is carried out
      ([create_all_or_nothing], [provisioning_sound], [deletion_recoverable],
      [platform_tables_wf]).
    - Configuration and views: who may write it and what is stored
      ([configuration_guarded], [configuration_wf], [centre_owns_zone],
      [mail_saved_used]); wall times ([wall_time_round_trip], [day_bounds]); what
      the dashboard shows ([trend_complete], [heatmap_local], [feed_complete]) and
      what the home page shows and does ([console_honest], [extend_exact]); the six
      mails carry no markup of others ([mail_markup_fixed]) and the navigation offers
      what a role may open ([nav_honest]).

    Each theorem with hypotheses is followed by a [_witness] that applies it to
    a concrete input.  Theorems such as [policy_cache_leaks],
    [repair_race_unrevokes] or [blank_prefix_admits_all] record behaviour of the
    code that differs from what it intends.

    ** Fuel and bounds

    The paging loop of the verify routes takes fuel; [page_loop_complete] shows
    that one unit per row and one more is enough for every page size and that
    more changes nothing.  Every other recursion is structural.  Date arithmetic
    is proved on the range of valid JavaScript dates.

    ** Not modelled

    The markup of the React pages and tables: presentation over the functions
    modelled here; of the client code, the session, resource, policy and grant forms
    are modelled.  Touch gestures and zoom (floating-point geometry), the formats of
    ages and percentages.  The Go programs, but for the registries of running
    sessions and of tunnels, the internal calls, the store of recordings and the
    file relay; so the proxying of browser traffic is not.  Of the platform console,
    the search and the export of a workspace, which only read.  The isolated
    browser's image, deployment files and scripts. *)

From stdpp Require Export base option list sorting relations gmap strings pretty.
From Stdlib Require Export ZArith Lia Bool.

#[global] Set Default Proof Using "Type".
#[global] Open Scope Z_scope.

(** ** Notations

    [a ?? b] is JavaScript's nullish coalescing on a value that may be
    [null]/[undefined]: the model writes such a value as an [option]. *)

Declare Scope js_scope.
Delimit Scope js_scope with js.
Notation "a ?? b" := (default b a) (at level 60, right associativity) : js_scope.
Notation "s =s t" := (bool_decide (s = t)) (at level 70, no associativity) : js_scope.
#[global] Open Scope js_scope.

(** The database of hints shared by the components. *)
Create HintDb captivo.

(** ** Tactics *)

(** Turns the boolean tests a translated [if] leaves in hypotheses into
    propositions, one at a time. *)
Ltac reflect_bool :=
  repeat match goal with
  | H : (_ && _)%bool = true |- _ => apply andb_true_iff in H as [? ?]
  | H : (_ || _)%bool = false |- _ => apply orb_false_iff in H as [? ?]
  | H : negb _ = true |- _ => apply negb_true_iff in H
  | H : negb _ = false |- _ => apply negb_false_iff in H
  | H : bool_decide _ = true |- _ => apply bool_decide_eq_true_1 in H
  | H : bool_decide _ = false |- _ => apply bool_decide_eq_false_1 in H
  | H : (_ <=? _) = true |- _ => apply Z.leb_le in H
  | H : (_ <=? _) = false |- _ => apply Z.leb_gt in H
  | H : (_ <? _) = true |- _ => apply Z.ltb_lt in H
  | H : (_ <? _) = false |- _ => apply Z.ltb_ge in H
  | H : (_ =? _) = true |- _ => apply Z.eqb_eq in H
  | H : (_ =? _) = false |- _ => apply Z.eqb_neq in H
  end.

(** Splits every [if] and [match] of the goal, keeping the equations. *)
Ltac cases := repeat (case_match; simplify_eq/=).

(** Splits and closes by reflection and arithmetic. *)
Ltac crush := cases; reflect_bool; simplify_eq/=; try done; try lia; eauto with captivo.
