(* ===== verification/JsString.v ===== *)
(** * JavaScript strings

    A JavaScript string is a sequence of UTF-16 code units.  The model keeps
    the code units below 256 (one [ascii] each) and gives every string method
    the sources call on exactly that alphabet: [trim] strips the ECMAScript
    white space of that range, [toLowerCase] maps the Latin-1 letters,
    [split], [join], [slice], [includes], [startsWith] and [endsWith] work on
    code units.  The lemmas are the ones the components share: a join over a
    separator that occurs in no element can be split back ([split_join]), so
    it is injective ([join_inj]). *)

From Stdlib Require Import Ascii String.
From S2P Require Import Prelude.

(** ** Code units *)

Definition chars (s : string) : list ascii := list_ascii_of_string s.
Definition unchars (l : list ascii) : string := string_of_list_ascii l.
Definition code (c : ascii) : Z := Z.of_N (N_of_ascii c).
Definition js_length (s : string) : Z := Z.of_nat (length (chars s)).

(** A string in a boolean position is true when it is not empty. *)
Definition truthy (s : string) : bool := negb (s =s "").
Definition truthy_opt (o : option string) : bool :=
  match o with Some s => truthy s | None => false end.

(** ECMAScript WhiteSpace and LineTerminator below 256. *)
Definition is_ws (c : ascii) : bool :=
  ((9 <=? code c) && (code c <=? 13)) || (code c =? 32) || (code c =? 160).

Definition is_digit (c : ascii) : bool := (48 <=? code c) && (code c <=? 57).
Definition digit_val (c : ascii) : Z := code c - 48.

Fixpoint drop_ws (l : list ascii) : list ascii :=
  match l with
  | c :: l' => if is_ws c then drop_ws l' else l
  | [] => []
  end.

Definition trim_chars (l : list ascii) : list ascii :=
  reverse (drop_ws (reverse (drop_ws l))).
Definition trim (s : string) : string := unchars (trim_chars (chars s)).

Definition lower_char (c : ascii) : ascii :=
  let n := code c in
  if ((65 <=? n) && (n <=? 90)) || ((192 <=? n) && (n <=? 222) && negb (n =? 215))
  then ascii_of_N (Z.to_N (n + 32)) else c.
Definition toLowerCase (s : string) : string := unchars (map lower_char (chars s)).

(** ** Splitting and joining *)

Fixpoint split_chars (sep : ascii) (l : list ascii) : list (list ascii) :=
  match l with
  | [] => [[]]
  | c :: l' =>
      if bool_decide (c = sep) then [] :: split_chars sep l'
      else match split_chars sep l' with
           | [] => [[c]]
           | w :: ws => (c :: w) :: ws
           end
  end.
Definition split (sep : ascii) (s : string) : list string :=
  map unchars (split_chars sep (chars s)).

Fixpoint join_chars (sep : list ascii) (ls : list (list ascii)) : list ascii :=
  match ls with
  | [] => []
  | [l] => l
  | l :: ls' => l ++ sep ++ join_chars sep ls'
  end.
Definition join (sep : string) (ss : list string) : string :=
  unchars (join_chars (chars sep) (map chars ss)).

(** ** Searching and slicing *)

Fixpoint starts_chars (p l : list ascii) : bool :=
  match p, l with
  | [], _ => true
  | a :: p', b :: l' => bool_decide (a = b) && starts_chars p' l'
  | _ :: _, [] => false
  end.
Definition startsWith (p s : string) : bool := starts_chars (chars p) (chars s).
Definition endsWith (p s : string) : bool :=
  starts_chars (reverse (chars p)) (reverse (chars s)).

Fixpoint includes_chars (p l : list ascii) : bool :=
  starts_chars p l || match l with [] => false | _ :: l' => includes_chars p l' end.
Definition includes (p s : string) : bool := includes_chars (chars p) (chars s).
Definition includes_char (c : ascii) (s : string) : bool :=
  existsb (λ d, bool_decide (d = c)) (chars s).

(** [s.slice(0, n)] and [s.slice(n)] for a non-negative [n]. *)
Definition slice_to (n : nat) (s : string) : string := unchars (take n (chars s)).
Definition slice_from (n : nat) (s : string) : string := unchars (drop n (chars s)).

(** [s.indexOf(c)] when it is not [-1]. *)
Fixpoint index_chars (c : ascii) (l : list ascii) : option nat :=
  match l with
  | [] => None
  | d :: l' => if bool_decide (d = c) then Some 0%nat else S <$> index_chars c l'
  end.
Definition indexOf (c : ascii) (s : string) : option nat := index_chars c (chars s).

(** The decimal rendering [Z.toString] and [BigInt.toString] produce. *)
Definition dec (z : Z) : string := pretty z.

(** ** Lemmas *)

Lemma chars_unchars l : chars (unchars l) = l.
Proof. apply list_ascii_of_string_of_list_ascii. Qed.
Lemma unchars_chars s : unchars (chars s) = s.
Proof. apply string_of_list_ascii_of_string. Qed.

#[global] Instance chars_inj : Inj (=) (=) chars.
Proof. intros s t H. by rewrite <-(unchars_chars s), <-(unchars_chars t), H. Qed.
#[global] Instance unchars_inj : Inj (=) (=) unchars.
Proof. intros s t H. by rewrite <-(chars_unchars s), <-(chars_unchars t), H. Qed.

Lemma chars_append s t : chars (s +:+ t) = chars s ++ chars t.
Proof. induction s as [|c s IH]; simpl; [done|]. by f_equal. Qed.

Lemma append_assoc_r s t u : (s +:+ t) +:+ u = s +:+ (t +:+ u).
Proof. apply (inj chars). by rewrite !chars_append, (assoc_L (++)). Qed.

Lemma append_inj_l s t u : s +:+ t = s +:+ u → t = u.
Proof.
  intros H%(f_equal chars). rewrite !chars_append in H.
  by apply (inj _), (inj chars) in H.
Qed.

Lemma split_chars_nonempty sep l : split_chars sep l ≠ [].
Proof. destruct l; simpl; repeat case_match; done. Qed.

Lemma split_chars_free sep w : sep ∉ w → split_chars sep w = [w].
Proof.
  induction w as [|c w IH]; intros Hf; simpl; [done|].
  rewrite not_elem_of_cons in Hf. destruct Hf as [Hc Hw].
  rewrite bool_decide_eq_false_2 by congruence. by rewrite IH.
Qed.

Lemma split_chars_app sep w l :
  sep ∉ w → split_chars sep (w ++ sep :: l) = w :: split_chars sep l.
Proof.
  induction w as [|c w IH]; intros Hf; simpl.
  - by rewrite bool_decide_eq_true_2.
  - rewrite not_elem_of_cons in Hf. destruct Hf as [Hc Hw].
    rewrite bool_decide_eq_false_2 by congruence. by rewrite IH.
Qed.

Lemma split_join_chars sep ls :
  ls ≠ [] → Forall (λ w, sep ∉ w) ls → split_chars sep (join_chars [sep] ls) = ls.
Proof.
  intros Hne Hall. induction ls as [|w ls IH]; [done|].
  apply Forall_cons in Hall as [Hw Hls].
  destruct ls as [|w' ls]; simpl; [by apply split_chars_free|].
  rewrite split_chars_app by done. f_equal. by apply IH.
Qed.

(** What stands before the first separator. *)
Lemma cut_eq {A} (sep : A) l1 l2 r1 r2 :
  sep ∉ l1 → sep ∉ l2 → l1 ++ sep :: r1 = l2 ++ sep :: r2 → l1 = l2 ∧ r1 = r2.
Proof.
  revert l2. induction l1 as [|x l1 IH]; intros [|y l2] H1 H2 Heq; simplify_eq/=; [done|set_solver..|].
  destruct (IH l2) as [-> ->]; [set_solver..|done|done].
Qed.

(** [sep_free sep s]: the separator does not occur in [s]. *)
Definition sep_free (sep : ascii) (s : string) : Prop := sep ∉ chars s.
#[global] Instance sep_free_dec sep s : Decision (sep_free sep s).
Proof. unfold sep_free. apply _. Defined.

Lemma sep_free_append sep s t : sep_free sep (s +:+ t) ↔ sep_free sep s ∧ sep_free sep t.
Proof. unfold sep_free. rewrite chars_append, elem_of_app. tauto. Qed.

Lemma join_split_chars sep l : join_chars [sep] (split_chars sep l) = l.
Proof.
  induction l as [|c l IH]; [done|]. cbn. pose proof (split_chars_nonempty sep l) as Hn.
  case_bool_decide; destruct (split_chars sep l) as [|w ws]; try done; cbn in *; [by subst|]. destruct ws; cbn in *; by rewrite <-IH.
Qed.

(** Two segments: the separator stood between them. *)
Lemma split_two sep t a b : split sep t = [a; b] → t = a +:+ unchars [sep] +:+ b.
Proof.
  unfold split. intros H. rewrite <-(unchars_chars t), <-(join_split_chars sep (chars t)).
  destruct (split_chars sep (chars t)) as [|x [|y [|]]]; try done. injection H as <- <-. cbn.
  apply (inj chars). by rewrite !chars_append, !chars_unchars.
Qed.

(** Splitting undoes joining when the separator occurs in no element. *)
Lemma split_join sep ss :
  ss ≠ [] → Forall (sep_free sep) ss → split sep (join (unchars [sep]) ss) = ss.
Proof.
  intros Hne Hall. unfold split, join. rewrite !chars_unchars.
  rewrite split_join_chars.
  - rewrite map_map. rewrite (map_ext _ id); [apply map_id|apply unchars_chars].
  - by destruct ss.
  - by apply Forall_fmap.
Qed.

Lemma join_inj sep ss ts :
  ss ≠ [] → ts ≠ [] → Forall (sep_free sep) ss → Forall (sep_free sep) ts →
  join (unchars [sep]) ss = join (unchars [sep]) ts → ss = ts.
Proof.
  intros Hs Ht Fs Ft H.
  by rewrite <-(split_join sep ss), <-(split_join sep ts), H.
Qed.

(** Every character of a decimal rendering is a digit or the minus sign. *)
Definition dec_char (c : ascii) : bool := is_digit c || (code c =? 45).

Lemma pretty_N_char_digit x : is_digit (pretty_N_char x) = true.
Proof. unfold pretty_N_char. by repeat case_match. Qed.

Lemma pretty_N_go_digits x s :
  Forall (λ c, is_digit c) (chars s) → Forall (λ c, is_digit c) (chars (pretty_N_go x s)).
Proof.
  revert s. induction (N.lt_wf_0 x) as [x _ IH]; intros s Hs.
  assert (x = 0 ∨ 0 < x)%N as [->|Hx] by lia; [by rewrite pretty_N_go_0|].
  rewrite pretty_N_go_step by done. apply IH; [by apply N.div_lt|].
  simpl. constructor; [|done]. by rewrite pretty_N_char_digit.
Qed.

Lemma pretty_N_digits (x : N) : Forall (λ c, is_digit c) (chars (pretty x)).
Proof.
  unfold pretty, pretty_N. case_decide; [by repeat constructor|].
  by apply pretty_N_go_digits.
Qed.

Lemma dec_digits z : 0 ≤ z → Forall (λ c, is_digit c) (chars (dec z)).
Proof.
  intros Hz. destruct z as [|p|p]; [by repeat constructor| |lia].
  apply (pretty_N_digits (Npos p)).
Qed.

Lemma dec_chars z : Forall (λ c, dec_char c) (chars (dec z)).
Proof.
  assert (∀ l, Forall (λ c, is_digit c) l → Forall (λ c, dec_char c) l) as H.
  { intros l Hl. eapply Forall_impl; [exact Hl|]. intros c Hc. unfold dec_char.
    apply Is_true_eq_true in Hc. by rewrite Hc. }
  destruct z as [|p|p]; [by repeat constructor|apply H, (pretty_N_digits (Npos p))|].
  unfold dec, pretty, pretty_Z. rewrite chars_append. apply Forall_app.
  split; [by repeat constructor|]. apply H, (pretty_N_digits (Npos p)).
Qed.

Lemma dec_sep_free sep z : dec_char sep = false → sep_free sep (dec z).
Proof.
  intros Hs Hin. pose proof (dec_chars z) as H. rewrite Forall_forall in H.
  specialize (H _ Hin). by rewrite Hs in H.
Qed.

#[global] Instance dec_inj : Inj (=) (=) dec.
Proof. intros x y. apply (inj (pretty (A:=Z))). Qed.

(** ** Trimming *)

Lemma drop_ws_suffix l : ∃ p, l = p ++ drop_ws l ∧ Forall (λ c, is_ws c) p.
Proof.
  induction l as [|c l (p & Hp & Hw)]; simpl; [by exists []|].
  destruct (is_ws c) eqn:E; [|by exists []].
  exists (c :: p). split; [simpl; by f_equal|]. constructor; [by rewrite E|done].
Qed.

Lemma drop_ws_idemp l : drop_ws (drop_ws l) = drop_ws l.
Proof. induction l as [|c l IH]; simpl; [done|]. destruct (is_ws c) eqn:E; simpl; by rewrite ?E. Qed.

Lemma drop_ws_prefix l l1 l2 : drop_ws l = l1 ++ l2 → drop_ws l1 = l1.
Proof.
  intros H. destruct l1 as [|c l1]; [done|]. simpl.
  destruct (is_ws c) eqn:E; [|done]. exfalso.
  pose proof (drop_ws_idemp l) as Hi. rewrite H in Hi. simpl in Hi. rewrite E in Hi.
  destruct (drop_ws_suffix (l1 ++ l2)) as (p & Hp & _).
  apply (f_equal length) in Hi, Hp. rewrite !length_app in Hp. simpl in Hi. rewrite length_app in Hi. lia.
Qed.

Lemma trim_chars_prefix l : ∃ q, drop_ws l = trim_chars l ++ q.
Proof.
  unfold trim_chars. destruct (drop_ws_suffix (reverse (drop_ws l))) as (p & Hp & _).
  exists (reverse p). rewrite <-reverse_app, <-Hp. by rewrite reverse_involutive.
Qed.

Lemma trim_chars_idemp l : trim_chars (trim_chars l) = trim_chars l.
Proof.
  destruct (trim_chars_prefix l) as [q Hq].
  unfold trim_chars at 1. rewrite (drop_ws_prefix l _ q Hq).
  unfold trim_chars. by rewrite reverse_involutive, drop_ws_idemp.
Qed.

Lemma trim_idemp s : trim (trim s) = trim s.
Proof. unfold trim. by rewrite chars_unchars, trim_chars_idemp. Qed.

(** A text without blanks is its own trimming. *)
Lemma trim_no_ws s : Forall (λ c, is_ws c = false) (chars s) → trim s = s.
Proof.
  intros H. assert (∀ l, Forall (λ c, is_ws c = false) l → drop_ws l = l) as Hd by (intros l [|c l' Hc _]; simpl; [done|by rewrite Hc]).
  unfold trim, trim_chars. rewrite (Hd (chars s)) by done. rewrite Hd by by apply Forall_reverse.
  by rewrite reverse_involutive, unchars_chars.
Qed.

Lemma trim_chars_length l : (length (trim_chars l) ≤ length l)%nat.
Proof.
  destruct (trim_chars_prefix l) as [q Hq]. destruct (drop_ws_suffix l) as (p & Hp & _).
  apply (f_equal length) in Hp, Hq. rewrite length_app in Hp, Hq. lia.
Qed.

Lemma trim_sep_free sep s : sep_free sep s → sep_free sep (trim s).
Proof.
  unfold sep_free, trim. rewrite chars_unchars. intros H Hin. apply H.
  destruct (trim_chars_prefix (chars s)) as [q Hq]. destruct (drop_ws_suffix (chars s)) as (p & Hp & _).
  rewrite Hp, Hq, !elem_of_app. auto.
Qed.

Lemma lower_char_idemp c : lower_char (lower_char c) = lower_char c.
Proof. by destruct c as [[] [] [] [] [] [] [] []]. Qed.

Lemma toLowerCase_idemp s : toLowerCase (toLowerCase s) = toLowerCase s.
Proof.
  unfold toLowerCase. rewrite chars_unchars, map_map. f_equal. apply map_ext, lower_char_idemp.
Qed.

(** Lowering the case neither makes nor removes white space. *)
Lemma is_ws_lower c : is_ws (lower_char c) = is_ws c.
Proof. by destruct c as [[] [] [] [] [] [] [] []]. Qed.

Lemma drop_ws_lower l : drop_ws (map lower_char l) = map lower_char (drop_ws l).
Proof. induction l as [|c l IH]; simpl; [done|]. rewrite is_ws_lower. by destruct (is_ws c). Qed.

Lemma trim_toLowerCase s : trim (toLowerCase s) = toLowerCase (trim s).
Proof.
  unfold trim, toLowerCase, trim_chars. rewrite !chars_unchars. f_equal.
  by rewrite drop_ws_lower, <-!(fmap_reverse lower_char), drop_ws_lower, (fmap_reverse lower_char).
Qed.

(** ** A text, a line break and a join of fields

    The shape of every text hashed for an audit row: any predecessor, one line
    break, the fields joined by a separator.  It can be taken apart when the
    separator is in no field and the first field has no line break. *)

Lemma length_split_chars sep l : length (split_chars sep l) = S (length (filter (λ c, c = sep) l)).
Proof.
  induction l as [|c l IH]; [done|]. simpl. rewrite filter_cons.
  case_bool_decide as E; [rewrite decide_True by done|rewrite decide_False by done]; simpl; [by rewrite IH|].
  pose proof (split_chars_nonempty sep l). destruct (split_chars sep l); [done|]. simpl in *. lia.
Qed.

Lemma split_chars_prefix sep k l :
  sep ∉ k → ∃ w ws, split_chars sep l = w :: ws ∧ split_chars sep (k ++ l) = (k ++ w) :: ws.
Proof.
  intros Hk. pose proof (split_chars_nonempty sep l) as Hne.
  destruct (split_chars sep l) as [|w ws] eqn:Hl; [done|]. exists w, ws. split; [done|].
  induction k as [|c k IH]; [done|]. rewrite not_elem_of_cons in Hk. simpl.
  rewrite bool_decide_eq_false_2 by (intros ->; by destruct Hk). by rewrite IH by apply Hk.
Qed.

Lemma joined_not_shifted sep nl f fs g gs k :
  length fs = length gs → Forall (λ w, sep ∉ w) (f :: fs) → Forall (λ w, sep ∉ w) (g :: gs) →
  nl ∉ g → join_chars [sep] (g :: gs) ≠ k ++ nl :: join_chars [sep] (f :: fs).
Proof.
  intros Hlen Hf Hg Hnl Heq.
  pose proof (split_join_chars sep (f :: fs) ltac:(done) Hf) as Sf.
  pose proof (split_join_chars sep (g :: gs) ltac:(done) Hg) as Sg.
  destruct (decide (sep ∈ k ++ [nl])) as [Hin|Hout].
  - apply (f_equal (split_chars sep)), (f_equal length) in Heq. rewrite Sg in Heq.
    rewrite length_split_chars, (cons_middle nl), (assoc_L (++)), filter_app, length_app in Heq.
    pose proof (length_split_chars sep (join_chars [sep] (f :: fs))) as Lf. rewrite Sf in Lf.
    simpl in *. assert (length (filter (λ c, c = sep) (k ++ [nl])) ≠ 0%nat) as H0; [|lia].
    intros H0%length_zero_iff_nil. apply (not_elem_of_nil sep). rewrite <-H0.
    by apply list_elem_of_filter.
  - rewrite (cons_middle nl), (assoc_L (++)) in Heq. apply (f_equal (split_chars sep)) in Heq. rewrite Sg in Heq.
    destruct (split_chars_prefix sep (k ++ [nl]) (join_chars [sep] (f :: fs)) Hout) as (w & ws & _ & Hs).
    rewrite Hs in Heq. simplify_eq. apply Hnl. rewrite !elem_of_app. left; right. by left.
Qed.

Lemma joined_preimage_inj sep nl f fs g gs p q :
  length fs = length gs → Forall (λ w, sep ∉ w) (f :: fs) → Forall (λ w, sep ∉ w) (g :: gs) →
  nl ∉ f → nl ∉ g →
  p ++ nl :: join_chars [sep] (f :: fs) = q ++ nl :: join_chars [sep] (g :: gs) →
  p = q ∧ f :: fs = g :: gs.
Proof.
  intros Hlen Hf Hg Nf Ng.
  pose proof (split_join_chars sep (f :: fs) ltac:(done) Hf) as Sf.
  pose proof (split_join_chars sep (g :: gs) ltac:(done) Hg) as Sg.
  pose proof (λ k, joined_not_shifted sep nl f fs g gs k Hlen Hf Hg Ng) as N1.
  pose proof (λ k, joined_not_shifted sep nl g gs f fs k (eq_sym Hlen) Hg Hf Nf) as N2.
  revert Sf Sg N1 N2. generalize (join_chars [sep] (f :: fs)), (join_chars [sep] (g :: gs)).
  intros jf jg Sf Sg N1 N2 Heq.
  apply app_eq_inv in Heq as [(k & -> & Heq)|(k & -> & Heq)]; destruct k as [|c k]; simpl in Heq; simplify_eq.
  - rewrite app_nil_r. split; congruence.
  - by edestruct N1.
  - rewrite app_nil_r. split; congruence.
  - by edestruct N2.
Qed.

Lemma joined_text_inj sep nl (f g : string) (fs gs : list string) (p q : string) :
  length fs = length gs → Forall (sep_free sep) (f :: fs) → Forall (sep_free sep) (g :: gs) →
  sep_free nl f → sep_free nl g →
  p +:+ unchars [nl] +:+ join (unchars [sep]) (f :: fs)
    = q +:+ unchars [nl] +:+ join (unchars [sep]) (g :: gs) →
  p = q ∧ f :: fs = g :: gs.
Proof.
  intros Hlen Hf Hg Nf Ng Heq. apply (f_equal chars) in Heq. unfold join in Heq.
  rewrite !chars_append, !chars_unchars in Heq. rewrite !map_cons in Heq.
  apply joined_preimage_inj in Heq as [Hp Hl].
  - apply (inj chars) in Hp. split; [done|]. rewrite <-!map_cons in Hl.
    by apply (inj (map chars)) in Hl.
  - by rewrite !length_map.
  - by apply (Forall_fmap chars (λ w, sep ∉ w) (f :: fs)).
  - by apply (Forall_fmap chars (λ w, sep ∉ w) (g :: gs)).
  - done.
  - done.
Qed.

(** ** Prefixes and suffixes *)

Lemma starts_chars_spec p l : starts_chars p l = true ↔ ∃ q, l = p ++ q.
Proof.
  revert l. induction p as [|a p IH]; intros l; simpl; [naive_solver|].
  destruct l as [|b l]; [naive_solver|]. rewrite andb_true_iff, bool_decide_eq_true, IH. naive_solver.
Qed.

Lemma endsWith_spec p s : endsWith p s = true ↔ ∃ q, chars s = q ++ chars p.
Proof.
  unfold endsWith. rewrite starts_chars_spec. split; intros [q Hq].
  - exists (reverse q). apply (f_equal reverse) in Hq. by rewrite reverse_involutive, reverse_app, reverse_involutive in Hq.
  - exists (reverse q). by rewrite Hq, reverse_app.
Qed.
