(* ===== verification/JsValue.v ===== *)
(** * JavaScript values: numbers, JSON, dates

    [jsnum] is a JavaScript number up to what the sources ask of it: an
    integer, a finite non-integer with its floor, the infinities or NaN.
    [Number] is the ECMAScript StringToNumber conversion by exact value (the
    rounding of the result to a double is not modelled).  [json] is a parsed
    request body or a Json column.  A [Date] is its time value in
    milliseconds, [InvalidDate] the one whose time value is NaN;
    [toISOString] is computed by the proleptic Gregorian calendar and shown
    injective on the whole ECMAScript time range. *)

From Stdlib Require Import Ascii String.
From S2P Require Import Prelude JsString.

(** ** Numbers *)

Inductive jsnum :=
  | NInt (z : Z)
  | NFrac (fl : Z)
  | NPosInf
  | NNegInf
  | NNaN.

#[global] Instance jsnum_eq_dec : EqDecision jsnum.
Proof. solve_decision. Defined.

Definition isInteger (n : jsnum) : bool := match n with NInt _ => true | _ => false end.
Definition isFinite (n : jsnum) : bool :=
  match n with NInt _ | NFrac _ => true | _ => false end.

(** [n < k], [n > k], [n >= k] against an integer constant. *)
Definition num_lt (n : jsnum) (k : Z) : bool :=
  match n with NInt z | NFrac z => z <? k | NNegInf => true | _ => false end.
Definition num_gt (n : jsnum) (k : Z) : bool :=
  match n with NInt z => k <? z | NFrac z => k <=? z | NPosInf => true | _ => false end.
Definition num_ge (n : jsnum) (k : Z) : bool :=
  match n with NInt z => k <=? z | NFrac z => k <=? z | NPosInf => true | _ => false end.

(** [Math.floor] and [Math.trunc] of a finite number. *)
Definition num_floor (n : jsnum) : option Z :=
  match n with NInt z | NFrac z => Some z | _ => None end.
Definition num_trunc (n : jsnum) : option Z :=
  match n with
  | NInt z => Some z
  | NFrac z => Some (if z <? 0 then z + 1 else z)
  | _ => None
  end.

(** *** [Number(string)] *)

Fixpoint take_digits (l : list ascii) (acc : Z) (n : nat) : Z * nat * list ascii :=
  match l with
  | c :: l' => if is_digit c then take_digits l' (10 * acc + digit_val c) (S n)
               else (acc, n, l)
  | [] => (acc, n, [])
  end.

(** [m * 10 ^ e] as a number. *)
Definition scale10 (m e : Z) : jsnum :=
  if 0 <=? e then NInt (m * 10 ^ e)
  else let d := 10 ^ (- e) in
       if m mod d =? 0 then NInt (m / d) else NFrac (m / d).

Definition take_sign (l : list ascii) : Z * list ascii :=
  match l with
  | c :: l' => if code c =? 45 then (-1, l') else if code c =? 43 then (1, l') else (1, l)
  | [] => (1, [])
  end.

Definition decimal_number (l0 : list ascii) : jsnum :=
  let '(sg, l) := take_sign l0 in
  if bool_decide (unchars l = "Infinity"%string) then (if sg <? 0 then NNegInf else NPosInf)
  else
  let '(a, na, l1) := take_digits l 0 0 in
  let '(m, nd, nb, l2) :=
    match l1 with
    | c :: l1' => if code c =? 46
                  then let '(b, nb, l2) := take_digits l1' a 0 in (b, (na + nb)%nat, Z.of_nat nb, l2)
                  else (a, na, 0, l1)
    | [] => (a, na, 0, [])
    end in
  if Nat.eqb nd 0 then NNaN else
  match l2 with
  | [] => scale10 (sg * m) (- nb)
  | c :: l3 =>
      if (code c =? 101) || (code c =? 69) then
        let '(esg, l4) := take_sign l3 in
        let '(ex, ne, l5) := take_digits l4 0 0 in
        if Nat.eqb ne 0 then NNaN
        else match l5 with [] => scale10 (sg * m) (esg * ex - nb) | _ => NNaN end
      else NNaN
  end.

Definition radix_digit (c : ascii) : Z :=
  let n := code (lower_char c) in
  if (48 <=? n) && (n <=? 57) then n - 48
  else if (97 <=? n) && (n <=? 102) then n - 87 else 99.
Fixpoint radix_number (r : Z) (l : list ascii) (acc : Z) : jsnum :=
  match l with
  | [] => NInt acc
  | c :: l' => if radix_digit c <? r then radix_number r l' (r * acc + radix_digit c) else NNaN
  end.

Definition Number (s : string) : jsnum :=
  match trim_chars (chars s) with
  | [] => NInt 0
  | (c0 :: c1 :: c2 :: l) as all =>
      if code c0 =? 48 then
        let k := code (lower_char c1) in
        if k =? 120 then radix_number 16 (c2 :: l) 0
        else if k =? 111 then radix_number 8 (c2 :: l) 0
        else if k =? 98 then radix_number 2 (c2 :: l) 0
        else decimal_number all
      else decimal_number all
  | all => decimal_number all
  end.

(** ** JSON values *)

Inductive json :=
  | JUndefined
  | JNull
  | JBool (b : bool)
  | JNum (n : jsnum)
  | JStr (s : string)
  | JArr (l : list json)
  | JObj (fields : list (string * json)).

(** [v.k] on a value known to be an object: an array has none of the names the
    sources read, an object has at most one binding per key. *)
Definition obj_get (v : json) (k : string) : json :=
  match v with
  | JObj fs => match list_find (λ p, p.1 = k) fs with
               | Some (_, (_, x)) => x
               | None => JUndefined
               end
  | _ => JUndefined
  end.
Definition has_key (v : json) (k : string) : bool :=
  match v with JObj fs => existsb (λ p, p.1 =s k) fs | _ => false end.
Definition is_object (v : json) : bool := match v with JArr _ | JObj _ => true | _ => false end.
(** [typeof v === "string" ? v : ""] *)
Definition str_or_empty (v : json) : string := match v with JStr s => s | _ => ""%string end.
Definition is_nullish (v : json) : bool := match v with JUndefined | JNull => true | _ => false end.
(** A value in a boolean position. *)
Definition json_truthy (v : json) : bool :=
  match v with
  | JUndefined | JNull => false
  | JBool b => b
  | JNum n => negb (bool_decide (n = NInt 0)) && negb (bool_decide (n = NNaN))
  | JStr s => truthy s
  | JArr _ | JObj _ => true
  end.
(** [typeof v === "string"] *)
Definition as_string (v : json) : option string := match v with JStr s => Some s | _ => None end.

(** [String(v)]; [frac_text] gives the digits of a non-integral number. *)
Fixpoint js_String (frac_text : Z → string) (v : json) : string :=
  match v with
  | JUndefined => "undefined"
  | JNull => "null"
  | JBool b => if b then "true" else "false"
  | JNum (NInt z) => dec z
  | JNum (NFrac fl) => frac_text fl
  | JNum NPosInf => "Infinity"
  | JNum NNegInf => "-Infinity"
  | JNum NNaN => "NaN"
  | JStr s => s
  | JArr l => join "," (map (λ x, if is_nullish x then ""%string else js_String frac_text x) l)
  | JObj _ => "[object Object]"
  end.

(** ** Dates *)

Inductive jsdate := ValidDate (ms : Z) | InvalidDate.
#[global] Instance jsdate_eq_dec : EqDecision jsdate.
Proof. solve_decision. Defined.

Definition ms_per_day : Z := 86400000.
Definition hour_ms : Z := 3600000.

(** The Gregorian date of a day number (days since 1970-01-01). *)
Definition civil_from_days (z0 : Z) : Z * Z * Z :=
  let z := z0 + 719468 in
  let era := z / 146097 in
  let doe := z mod 146097 in
  let yoe := (doe - doe / 1460 + doe / 36524 - doe / 146096) / 365 in
  let doy := doe - (365 * yoe + yoe / 4 - yoe / 100) in
  let mp := (5 * doy + 2) / 153 in
  let d := doy - (153 * mp + 2) / 5 + 1 in
  let m := if mp <? 10 then mp + 3 else mp - 9 in
  (yoe + era * 400 + (if m <=? 2 then 1 else 0), m, d).

Definition digit_char (z : Z) : ascii := ascii_of_N (Z.to_N (48 + z)).
(** The last [n] decimal digits of [z], zero padded. *)
Fixpoint pad (n : nat) (z : Z) : list ascii :=
  match n with
  | O => []
  | S n' => pad n' (z / 10) ++ [digit_char (z mod 10)]
  end.

Definition year_chars (y : Z) : list ascii :=
  if (0 <=? y) && (y <=? 9999) then pad 4 y
  else chars (if y <? 0 then "-"%string else "+"%string) ++ pad 6 (Z.abs y).

Definition toISOString (ms : Z) : string :=
  let '(y, mo, d) := civil_from_days (ms / ms_per_day) in
  let t := ms mod ms_per_day in
  unchars (year_chars y ++ chars "-" ++ pad 2 mo ++ chars "-" ++ pad 2 d ++ chars "T"
    ++ pad 2 (t / hour_ms) ++ chars ":" ++ pad 2 (t / 60000 mod 60) ++ chars ":"
    ++ pad 2 (t / 1000 mod 60) ++ chars "." ++ pad 3 (t mod 1000) ++ chars "Z").

(** The range of an ECMAScript time value. *)
Definition valid_time (ms : Z) : Prop := -8640000000000000 ≤ ms ≤ 8640000000000000.

Example iso_epoch : toISOString 0 = "1970-01-01T00:00:00.000Z"%string.
Proof. reflexivity. Qed.
Example iso_leap : toISOString 1709210096789 = "2024-02-29T12:34:56.789Z"%string.
Proof. reflexivity. Qed.
Example iso_before : toISOString (-62198755200001) = "-000002-12-31T23:59:59.999Z"%string.
Proof. vm_compute. reflexivity. Qed.
Example number_examples :
  map Number [" 12 "; "1.5"; "-0.25"; "2.5e1"; "0x1F"; "abc"; ""; "-Infinity"; "1e"]%string
  = [NInt 12; NFrac 1; NFrac (-1); NInt 25; NInt 31; NNaN; NInt 0; NNegInf; NNaN].
Proof. reflexivity. Qed.

(** ** Injectivity of [toISOString] *)

Lemma length_pad n z : length (pad n z) = n.
Proof. revert z. induction n as [|n IH]; intros z; simpl; [done|]. rewrite length_app, IH. simpl. lia. Qed.

Lemma digit_char_inj x y : 0 ≤ x < 10 → 0 ≤ y < 10 → digit_char x = digit_char y → x = y.
Proof.
  intros Hx Hy H. unfold digit_char in H. apply (f_equal N_of_ascii) in H.
  rewrite !N_ascii_embedding in H by lia. lia.
Qed.

Lemma pad_inj n x y : 0 ≤ x < 10 ^ Z.of_nat n → 0 ≤ y < 10 ^ Z.of_nat n → pad n x = pad n y → x = y.
Proof.
  revert x y. induction n as [|n IH]; intros x y Hx Hy H; simpl in H; [simpl in *; lia|].
  rewrite Nat2Z.inj_succ, Z.pow_succ_r in Hx, Hy by lia.
  apply app_inj_2 in H as [H1 [= H2]]; [|done].
  apply IH in H1; [|split; [apply Z.div_pos; lia|apply Z.div_lt_upper_bound; lia]..].
  apply digit_char_inj in H2; [|apply Z.mod_pos_bound; lia..].
  rewrite (Z.div_mod x 10), (Z.div_mod y 10) by lia. lia.
Qed.

Ltac dlia := Z.to_euclidean_division_equations; lia.

(** Year and day of the year within the 400-year cycle. *)
Definition yoe_of (doe : Z) : Z := (doe - doe / 1460 + doe / 36524 - doe / 146096) / 365.
Definition doy_of (doe : Z) : Z :=
  let yoe := yoe_of doe in doe - (365 * yoe + yoe / 4 - yoe / 100).

Lemma yoe_bound doe : 0 ≤ doe < 146097 → 0 ≤ yoe_of doe < 400.
Proof. unfold yoe_of. intros. dlia. Qed.

Lemma doy_bound doe : 0 ≤ doe < 146097 → 0 ≤ doy_of doe ≤ 365.
Proof.
  intros H. destruct (decide (doe = 146096)) as [->|]; [done|].
  unfold doy_of, yoe_of. replace (doe / 146096) with 0 by dlia. cbv zeta.
  remember (doe / 36524) as b eqn:Eb. remember (doe / 1460) as a eqn:Ea.
  remember ((doe - a + b - 0) / 365) as y eqn:Ey.
  assert (36524 * b ≤ doe < 36524 * b + 36524) by dlia.
  assert (1460 * a ≤ doe < 1460 * a + 1460) by dlia.
  assert (365 * y ≤ doe - a + b < 365 * y + 365) by dlia.
  clear Eb Ea Ey. assert (0 ≤ b ≤ 3) by lia.
  assert (100 * b ≤ y ≤ 100 * b + 99) by lia.
  assert (y / 100 = b) as -> by dlia.
  remember (y / 4) as k eqn:Ek. assert (4 * k ≤ y < 4 * k + 4) by dlia. lia.
Qed.

(** A date determines the day of the year and the year of the cycle. *)
Lemma doy_of_inj x y : yoe_of x = yoe_of y → doy_of x = doy_of y → x = y.
Proof. unfold doy_of. intros ->. lia. Qed.

Lemma civil_from_days_unfold z :
  let doe := (z + 719468) mod 146097 in
  let mp := (5 * doy_of doe + 2) / 153 in
  let m := if mp <? 10 then mp + 3 else mp - 9 in
  civil_from_days z =
    (yoe_of doe + (z + 719468) / 146097 * 400 + (if m <=? 2 then 1 else 0), m,
     doy_of doe - (153 * mp + 2) / 5 + 1).
Proof. reflexivity. Qed.

(** The month index 0..11 (March first) of a day of the year, and the civil
    month it is printed as. *)
Lemma month_inj mp mp' :
  0 ≤ mp ≤ 11 → 0 ≤ mp' ≤ 11 →
  (if mp <? 10 then mp + 3 else mp - 9) = (if mp' <? 10 then mp' + 3 else mp' - 9) → mp = mp'.
Proof. intros. cases; reflect_bool; lia. Qed.

Lemma civil_from_days_inj : Inj (=) (=) civil_from_days.
Proof.
  intros a b H. rewrite !civil_from_days_unfold in H. cbv zeta in H.
  set (da := (a + 719468) mod 146097) in *. set (db := (b + 719468) mod 146097) in *.
  assert (0 ≤ da < 146097) as Hda by (subst da; apply Z.mod_pos_bound; lia).
  assert (0 ≤ db < 146097) as Hdb by (subst db; apply Z.mod_pos_bound; lia).
  pose proof (yoe_bound _ Hda). pose proof (yoe_bound _ Hdb).
  pose proof (doy_bound _ Hda). pose proof (doy_bound _ Hdb).
  apply pair_eq in H as [[Hy Hm]%pair_eq Hd].
  apply month_inj in Hm as Hmp; [|dlia..].
  rewrite Hmp in Hy, Hd. assert (doy_of da = doy_of db) as Hdoy by lia.
  assert (yoe_of da = yoe_of db ∧ (a + 719468) / 146097 = (b + 719468) / 146097) as [Hyoe Hera] by lia.
  pose proof (doy_of_inj _ _ Hyoe Hdoy) as Hdoe. subst da db.
  pose proof (Z.div_mod (a + 719468) 146097). pose proof (Z.div_mod (b + 719468) 146097). lia.
Qed.

(** The fields of a date in the ECMAScript range fit their printed widths. *)
Lemma civil_bounds ms y m d :
  valid_time ms → civil_from_days (ms / ms_per_day) = (y, m, d) →
  -1000000 < y < 1000000 ∧ 0 ≤ m < 100 ∧ 0 ≤ d < 100.
Proof.
  unfold valid_time, ms_per_day. intros Hms H. rewrite civil_from_days_unfold in H. cbv zeta in H.
  assert (-100000000 ≤ ms / 86400000 ≤ 100000000) as Hday by dlia.
  remember (ms / 86400000) as z eqn:Ez. clear Ez Hms.
  set (doe := (z + 719468) mod 146097) in *.
  assert (0 ≤ doe < 146097) as Hd by (subst doe; apply Z.mod_pos_bound; lia).
  pose proof (yoe_bound _ Hd). pose proof (doy_bound _ Hd) as Hdoy.
  apply pair_eq in H as [[Hy Hm]%pair_eq Hd'].
  assert (-700 ≤ (z + 719468) / 146097 ≤ 700) by dlia.
  remember (doy_of doe) as doy eqn:E. clear E.
  split_and!; cases; reflect_bool; dlia.
Qed.

Lemma year_chars_inj y y' l l' :
  -1000000 < y < 1000000 → -1000000 < y' < 1000000 → length l = length l' →
  year_chars y ++ l = year_chars y' ++ l' → y = y' ∧ l = l'.
Proof.
  intros Hy Hy' Hl H. unfold year_chars in H.
  assert (length (year_chars y) = length (year_chars y')) as Hlen.
  { apply (f_equal length) in H. unfold year_chars. rewrite !length_app in H. lia. }
  unfold year_chars in Hlen. apply app_inj_1 in H as [H ->]; [|done]. split; [|done].
  destruct ((0 <=? y) && (y <=? 9999)) eqn:E, ((0 <=? y') && (y' <=? 9999)) eqn:E'.
  - reflect_bool. apply pad_inj in H; simpl; lia.
  - rewrite length_app, !length_pad in Hlen. by destruct (y' <? 0).
  - rewrite length_app, !length_pad in Hlen. by destruct (y <? 0).
  - apply app_inj_2 in H as [Hs Hp]; [|by rewrite !length_pad].
    apply pad_inj in Hp; [|simpl; lia..].
    destruct (y <? 0) eqn:S1, (y' <? 0) eqn:S2; reflect_bool; try done; lia.
Qed.

(** Peels a fixed-width field off two equal renderings. *)
Lemma field_inj n x y (sep : list ascii) l l' :
  0 ≤ x < 10 ^ Z.of_nat n → 0 ≤ y < 10 ^ Z.of_nat n →
  pad n x ++ sep ++ l = pad n y ++ sep ++ l' → x = y ∧ l = l'.
Proof.
  intros Hx Hy H. apply app_inj_1 in H as [Hp H]; [|by rewrite !length_pad].
  apply app_inv_head in H. split; [|done]. by apply (pad_inj n).
Qed.

(** Two times of the ECMAScript range printed alike are the same time. *)
Lemma toISOString_inj a b :
  valid_time a → valid_time b → toISOString a = toISOString b → a = b.
Proof.
  intros Ha Hb H. unfold toISOString in H.
  destruct (civil_from_days (a / ms_per_day)) as [[ya ma] da] eqn:Ca.
  destruct (civil_from_days (b / ms_per_day)) as [[yb mb] db] eqn:Cb.
  destruct (civil_bounds _ _ _ _ Ha Ca) as (?&?&?). destruct (civil_bounds _ _ _ _ Hb Cb) as (?&?&?).
  apply (inj unchars) in H. apply year_chars_inj in H as [-> H]; [|lia|lia|].
  2:{ rewrite !length_app, !length_pad. done. }
  apply app_inv_head in H.
  assert (0 ≤ a mod ms_per_day < 86400000) by (apply Z.mod_pos_bound; done).
  assert (0 ≤ b mod ms_per_day < 86400000) by (apply Z.mod_pos_bound; done).
  apply field_inj in H as [-> H]; [|simpl; lia..].
  apply field_inj in H as [-> H]; [|simpl; lia..].
  unfold hour_ms in H. apply field_inj in H as [Hh H]; [|simpl; dlia..].
  apply field_inj in H as [Hm H]; [|simpl; dlia..].
  apply field_inj in H as [Hs H]; [|simpl; dlia..].
  apply app_inj_2 in H as [Hms _]; [|done]. apply pad_inj in Hms; [|simpl; dlia..].
  assert (a / ms_per_day = b / ms_per_day) as Hd by (apply civil_from_days_inj; congruence).
  assert (a mod ms_per_day = b mod ms_per_day) as Ht by dlia.
  pose proof (Z.div_mod a ms_per_day). pose proof (Z.div_mod b ms_per_day).
  unfold ms_per_day in *. lia.
Qed.

(** Characters of an ISO rendering. *)
Definition iso_char (c : ascii) : bool :=
  is_digit c || existsb (λ d, bool_decide (c = d)) (chars "-+:.TZ").

Lemma pad_digits n z : 0 ≤ z → Forall (λ c, iso_char c) (pad n z).
Proof.
  revert z. induction n as [|n IH]; intros z Hz; simpl; [constructor|].
  apply Forall_app. split; [apply IH, Z.div_pos; lia|]. repeat constructor.
  assert (0 ≤ z mod 10 < 10) as H by (apply Z.mod_pos_bound; lia).
  remember (z mod 10) as d eqn:E. clear E.
  assert (d = 0 ∨ d = 1 ∨ d = 2 ∨ d = 3 ∨ d = 4 ∨ d = 5 ∨ d = 6 ∨ d = 7 ∨ d = 8 ∨ d = 9) as Hd by lia.
  by destruct_or! Hd; subst.
Qed.

Lemma toISOString_chars ms : valid_time ms → Forall (λ c, iso_char c) (chars (toISOString ms)).
Proof.
  intros Hv. unfold toISOString.
  destruct (civil_from_days (ms / ms_per_day)) as [[y m] d] eqn:C.
  destruct (civil_bounds _ _ _ _ Hv C) as (Hy & Hm & Hd). rewrite chars_unchars.
  assert (0 ≤ ms mod ms_per_day < 86400000) by (apply Z.mod_pos_bound; done).
  assert (Forall (λ c, iso_char c) (year_chars y)) as Hyear.
  { unfold year_chars. case_match; reflect_bool; [apply pad_digits; lia|].
    apply Forall_app. split; [|apply pad_digits; lia]. by destruct (y <? 0); repeat constructor. }
  rewrite !Forall_app.
  repeat split; try done; try (apply pad_digits; unfold hour_ms; dlia); by repeat constructor.
Qed.

Lemma iso_sep_free sep ms : valid_time ms → iso_char sep = false → sep_free sep (toISOString ms).
Proof.
  intros Hv Hs Hin. pose proof (toISOString_chars ms Hv) as H. rewrite Forall_forall in H.
  specialize (H _ Hin). by rewrite Hs in H.
Qed.

(** ** Decimal text *)

(** The value of a list of digits. *)
Definition digits_val (l : list ascii) (acc : Z) : Z := foldl (λ a c, 10 * a + digit_val c) acc l.

Lemma take_digits_all l acc n :
  Forall (λ c, is_digit c) l → take_digits l acc n = (digits_val l acc, (n + length l)%nat, []).
Proof.
  intros Hl. revert acc n. induction Hl as [|c l Hc Hl IH]; intros acc n; simpl.
  { by rewrite Nat.add_0_r. }
  destruct (is_digit c); [|done]. rewrite IH. by rewrite <-plus_n_Sm.
Qed.

Lemma digit_code c : is_digit c → 48 ≤ code c ≤ 57.
Proof. unfold is_digit. intros H%Is_true_true. reflect_bool. lia. Qed.
Lemma digit_not_ws c : is_digit c → is_ws c = false.
Proof.
  intros Hc%digit_code. unfold is_ws.
  destruct (Z.leb_spec (code c) 13), (Z.eqb_spec (code c) 32), (Z.eqb_spec (code c) 160); lia.
Qed.

Lemma drop_ws_digits l : Forall (λ c, is_digit c) l → drop_ws l = l.
Proof. destruct 1 as [|c l Hc Hl]; simpl; [done|]. by rewrite digit_not_ws. Qed.
Lemma trim_digits l : Forall (λ c, is_digit c) l → trim_chars l = l.
Proof.
  intros Hl. unfold trim_chars. rewrite (drop_ws_digits l) by done.
  rewrite (drop_ws_digits (reverse l)) by by apply Forall_reverse. by rewrite reverse_involutive.
Qed.

Lemma decimal_digits l : l ≠ [] → Forall (λ c, is_digit c) l → decimal_number l = NInt (digits_val l 0).
Proof.
  intros Hne Hl. unfold decimal_number.
  assert (take_sign l = (1, l)) as ->.
  { destruct Hl as [|c l Hc Hl]; [done|]. apply digit_code in Hc. simpl.
    destruct (Z.eqb_spec (code c) 45); [lia|]. by destruct (Z.eqb_spec (code c) 43); [lia|]. }
  rewrite bool_decide_eq_false_2.
  2: { intros Heq. apply (f_equal chars) in Heq. rewrite chars_unchars in Heq. subst.
       apply Forall_cons in Hl as [Hc _]. done. }
  rewrite take_digits_all by done. destruct l as [|c l]; [done|]. simpl length. cbn [Nat.add Nat.eqb].
  unfold scale10. simpl (0 <=? - 0). rewrite Z.mul_1_l, Z.mul_1_r. done.
Qed.

Lemma radix_letter c : is_digit c → code (lower_char c) = code c.
Proof.
  intros Hc%digit_code. unfold lower_char.
  destruct (Z.leb_spec 65 (code c)); [lia|]. simpl. by destruct (Z.leb_spec 192 (code c)); [lia|].
Qed.

(** [Number] reads back a run of digits, leading zeros included. *)
Lemma Number_digits l : l ≠ [] → Forall (λ c, is_digit c) l → Number (unchars l) = NInt (digits_val l 0).
Proof.
  intros Hne Hl. unfold Number. rewrite chars_unchars, trim_digits by done.
  destruct l as [|c0 [|c1 [|c2 l]]]; [done|by apply decimal_digits|by apply decimal_digits|].
  destruct (code c0 =? 48); [|by apply decimal_digits].
  rewrite !Forall_cons in Hl. destruct Hl as (H0 & H1 & H2 & H3).
  rewrite radix_letter by done. pose proof (digit_code _ H1).
  destruct (Z.eqb_spec (code c1) 120), (Z.eqb_spec (code c1) 111), (Z.eqb_spec (code c1) 98); try lia.
  apply decimal_digits; [done|]. by rewrite !Forall_cons.
Qed.

Lemma digits_val_acc l acc : digits_val l acc = acc * 10 ^ Z.of_nat (length l) + digits_val l 0.
Proof.
  unfold digits_val. revert acc. induction l as [|c l IH]; intros acc; simpl; [lia|].
  rewrite IH, (IH (10 * 0 + digit_val c)).
  replace (Z.of_nat (S (length l))) with (1 + Z.of_nat (length l)) by lia.
  rewrite Z.pow_add_r by lia. lia.
Qed.

Lemma pretty_char_val x : (x < 10)%N → digit_val (pretty_N_char x) = Z.of_N x.
Proof.
  intros Hx. assert (x = 0 ∨ x = 1 ∨ x = 2 ∨ x = 3 ∨ x = 4 ∨ x = 5 ∨ x = 6 ∨ x = 7 ∨ x = 8 ∨ x = 9)%N as Hc by lia.
  by destruct_or!; subst.
Qed.

Lemma pretty_go_val x s :
  digits_val (chars (pretty_N_go x s)) 0 =
  Z.of_N x * 10 ^ Z.of_nat (length (chars s)) + digits_val (chars s) 0.
Proof.
  revert s. induction (N.lt_wf_0 x) as [x _ IH]; intros s.
  destruct (decide (x = 0)%N) as [->|Hx]; [rewrite pretty_N_go_0; simpl; lia|].
  rewrite pretty_N_go_step by lia. rewrite IH by (apply N.div_lt; lia).
  assert (chars (String (pretty_N_char (x `mod` 10)) s) = pretty_N_char (x `mod` 10) :: chars s) as -> by done.
  assert (∀ c l, digits_val (c :: l) 0 = digit_val c * 10 ^ Z.of_nat (length l) + digits_val l 0) as Hcons.
  { intros c l. unfold digits_val at 1. simpl. change (digits_val l (digit_val c) = digit_val c * 10 ^ Z.of_nat (length l) + digits_val l 0).
    apply digits_val_acc. }
  rewrite Hcons, pretty_char_val by (apply N.mod_lt; lia).
  simpl length. replace (Z.of_nat (S (length (chars s)))) with (1 + Z.of_nat (length (chars s))) by lia.
  rewrite Z.pow_add_r by lia. change (10 ^ 1) with 10.
  rewrite N2Z.inj_div, N2Z.inj_mod. change (Z.of_N 10) with 10.
  pose proof (Z.div_mod (Z.of_N x) 10 ltac:(lia)).
  set (k := 10 ^ Z.of_nat (length (chars s))). nia.
Qed.

Lemma dec_val z : 0 ≤ z → digits_val (chars (dec z)) 0 = z.
Proof.
  intros Hz. destruct z as [|p|p]; [done| |lia].
  change (dec (Z.pos p)) with (pretty (N.pos p)). unfold pretty, pretty_N.
  case_decide; [done|]. rewrite pretty_go_val. simpl. lia.
Qed.

Lemma Number_dec z : 0 ≤ z → Number (dec z) = NInt z.
Proof.
  intros Hz. rewrite <-(unchars_chars (dec z)), Number_digits; [by rewrite dec_val| |by apply dec_digits].
  intros Hn. pose proof (dec_val z Hz) as Hv. rewrite Hn in Hv. simpl in Hv. subst. by vm_compute in Hn.
Qed.
