(* ===== verification/Schema.v ===== *)
(** * Tables (prisma/schema.prisma) and the shapes handlers answer with

    One record per table the components read or write, with the columns they
    use; a nullable column is an [option], a date its time value.  A handler
    runs inside one tenant's scope, so the tables here are that tenant's rows
    (row-level security shows it no others). *)

From S2P Require Import Prelude JsString JsValue.

(** ** Enumerations *)

Inductive Role := ADMIN | OPERATOR | AUDITOR | STAFF | VENDOR | PLATFORM.
#[global] Instance Role_eq_dec : EqDecision Role.
Proof. solve_decision. Defined.

Definition role_name (r : Role) : string :=
  match r with
  | ADMIN => "ADMIN" | OPERATOR => "OPERATOR" | AUDITOR => "AUDITOR" | STAFF => "STAFF" | VENDOR => "VENDOR"
  | PLATFORM => "PLATFORM"
  end.

Inductive UserStatus := UActive | UDisabled.
#[global] Instance UserStatus_eq_dec : EqDecision UserStatus.
Proof. solve_decision. Defined.

Inductive GrantStatus := GActive | GRevoked | GDenied.
#[global] Instance GrantStatus_eq_dec : EqDecision GrantStatus.
Proof. solve_decision. Defined.

Inductive ConnectorStatus := CPending | COnline | COffline | CRevoked.
#[global] Instance ConnectorStatus_eq_dec : EqDecision ConnectorStatus.
Proof. solve_decision. Defined.

(** ** Rows *)

Record User := {
  u_id : string;
  u_email : string;
  u_name : string;
  u_phone : option string;
  u_company : option string;
  u_timezone : option string;
  u_role : Role;
  u_status : UserStatus;
  u_directoryManaged : bool;
  u_directoryLastVerifiedAt : option Z;
  u_centerRole : option string;
}.

Record Site := {
  site_id : string;
  site_name : string;
  site_hostname : option string;
}.

Record AccessGrant := {
  g_id : string;
  g_userId : string;
  g_siteId : string;
  g_startsAt : option Z;
  g_endsAt : option Z;
  g_status : GrantStatus;
  g_note : option string;
  g_denyReason : option string;
  g_requiresApproval : bool;
  g_approvedAt : option Z;
  g_approvedById : option string;
  g_schedule : json;
  g_createdById : option string;
  g_directoryManaged : bool;
}.

(** ** Route answers *)

(** What a route handler returns: an error body with its status, or a value. *)
Inductive response (A : Type) :=
  | Fail (status : Z) (error : string)
  | Reply (status : Z) (body : A).
Arguments Fail {A} _ _.
Arguments Reply {A} _ _.

Definition replies {A} (r : response A) : bool := match r with Reply _ _ => true | Fail _ _ => false end.

(** ** Queries *)

(** [findUnique] / [findFirst]: the first row satisfying the condition. *)
Definition find_row {A} (p : A → bool) (rows : list A) : option A := List.find p rows.
(** [updateMany]: rewrites the rows satisfying the condition; the count it
    reports is the number of such rows. *)
Definition update_where {A} (p : A → bool) (f : A → A) (rows : list A) : list A :=
  map (λ r, if p r then f r else r) rows.
Definition count_where {A} (p : A → bool) (rows : list A) : Z :=
  Z.of_nat (length (List.filter p rows)).
Definition delete_where {A} (p : A → bool) (rows : list A) : list A :=
  List.filter (λ r, negb (p r)) rows.

(** [[...new Set(xs)]]: first occurrences, in order. *)
Fixpoint uniq {A} `{EqDecision A} (seen : list A) (l : list A) : list A :=
  match l with
  | [] => []
  | x :: l' => if bool_decide (x ∈ seen) then uniq seen l' else x :: uniq (x :: seen) l'
  end.
Definition set_of {A} `{EqDecision A} (l : list A) : list A := uniq [] l.

(** [new Map(pairs)]: a later binding of a key replaces an earlier one. *)
Definition map_of {V} (l : list (string * V)) : gmap string V :=
  foldl (λ m p, <[p.1 := p.2]> m) ∅ l.

(** [orderBy: { key: "asc" }] on an integer or date column. *)
Definition key_le {A} (key : A → Z) (a b : A) : Prop := key a ≤ key b.
#[global] Instance key_le_dec {A} (key : A → Z) a b : Decision (key_le key a b).
Proof. unfold key_le. apply _. Defined.
Definition order_by {A} (key : A → Z) (rows : list A) : list A := merge_sort (key_le key) rows.

(** ** Lemmas *)

Section rows.
Context {A : Type}.
Implicit Types (p : A → bool) (rows : list A).

Lemma find_row_Some p rows r : find_row p rows = Some r → r ∈ rows ∧ p r = true.
Proof. intros [? ?]%find_some. by rewrite list_elem_of_In. Qed.
Lemma find_row_None p rows : find_row p rows = None ↔ ∀ r, r ∈ rows → p r = false.
Proof.
  split; [intros Hf r Hr%list_elem_of_In; by eapply find_none|].
  induction rows as [|x rows IH]; intros Hp; [done|]. simpl.
  rewrite Hp by set_solver. apply IH. intros r Hr. apply Hp. set_solver.
Qed.

Lemma count_where_0 p rows : count_where p rows = 0 ↔ ∀ r, r ∈ rows → p r = false.
Proof.
  unfold count_where. split.
  - intros H r Hr. destruct (p r) eqn:E; [|done].
    assert (In r (List.filter p rows)) as Hin by (apply filter_In; by rewrite <-list_elem_of_In).
    destruct (List.filter p rows); [done|]. simpl in H. lia.
  - intros H. destruct (List.filter p rows) as [|x l] eqn:E; [done|].
    assert (In x (List.filter p rows)) as [Hx%list_elem_of_In Hp]%filter_In by (rewrite E; by left).
    by rewrite H in Hp.
Qed.

Lemma count_delete_where p rows :
  count_where p rows + Z.of_nat (length (delete_where p rows)) = Z.of_nat (length rows).
Proof.
  unfold count_where, delete_where. induction rows as [|x rows IH]; simpl; [done|].
  destruct (p x); simpl; lia.
Qed.

Lemma count_where_nonneg p rows : 0 ≤ count_where p rows.
Proof. unfold count_where. lia. Qed.

Lemma update_where_id p f rows : (∀ r, r ∈ rows → p r = false) → update_where p f rows = rows.
Proof.
  unfold update_where. induction rows as [|x rows IH]; intros H; [done|]. simpl.
  rewrite H by set_solver. f_equal. apply IH. intros r Hr. apply H. set_solver.
Qed.

Lemma elem_of_update_where p f rows r :
  r ∈ update_where p f rows ↔ ∃ x, x ∈ rows ∧ r = (if p x then f x else x).
Proof. unfold update_where. rewrite list_elem_of_fmap. split; intros (x & ? & ?); by exists x. Qed.

Lemma elem_of_delete_where p rows r : r ∈ delete_where p rows ↔ r ∈ rows ∧ p r = false.
Proof.
  unfold delete_where. rewrite !list_elem_of_In, filter_In, negb_true_iff. done.
Qed.

Context `{!EqDecision A}.
Implicit Types (seen l : list A) (x : A).

Lemma uniq_elem_of seen l x : x ∈ uniq seen l ↔ x ∈ l ∧ x ∉ seen.
Proof.
  revert seen. induction l as [|y l IH]; intros seen; simpl; [set_solver|].
  case_bool_decide as E.
  - rewrite IH. set_solver.
  - rewrite !elem_of_cons, IH. rewrite not_elem_of_cons. destruct (decide (x = y)); naive_solver.
Qed.
Lemma set_of_elem_of l x : x ∈ set_of l ↔ x ∈ l.
Proof. unfold set_of. rewrite uniq_elem_of. set_solver. Qed.
Lemma uniq_NoDup seen l : NoDup (uniq seen l).
Proof.
  revert seen. induction l as [|y l IH]; intros seen; simpl; [constructor|].
  case_bool_decide; [done|]. constructor; [|done]. rewrite uniq_elem_of. set_solver.
Qed.
Lemma set_of_NoDup l : NoDup (set_of l).
Proof. apply uniq_NoDup. Qed.
End rows.

(** ** Filters *)

Lemma filter_andb {A} (p q : A → bool) l :
  List.filter (λ x, p x && q x) l = List.filter q (List.filter p l).
Proof. induction l as [|x l IH]; simpl; [done|]. destruct (p x); simpl; [destruct (q x)|]; congruence. Qed.

Lemma NoDup_filter_fmap {A B} (f : A → B) (p : A → bool) l : NoDup (f <$> l) → NoDup (f <$> List.filter p l).
Proof.
  induction l as [|r l IH]; simpl; [done|]. intros [Hr Hn]%NoDup_cons.
  case_match; [|by apply IH]. simpl. constructor; [|by apply IH].
  rewrite !list_elem_of_fmap in Hr |- *. intros (x & ? & [? _]%list_elem_of_In%filter_In).
  apply Hr. exists x. rewrite list_elem_of_In. done.
Qed.

(** A column with unique values identifies the row. *)
Lemma NoDup_fmap_eq {A B} (f : A → B) (l : list A) x y :
  NoDup (f <$> l) → x ∈ l → y ∈ l → f x = f y → x = y.
Proof.
  intros Hnd Hx Hy Hxy. induction l as [|z l IH]; [by apply elem_of_nil in Hx|].
  rewrite fmap_cons in Hnd. apply NoDup_cons in Hnd as [Hz Hnd].
  apply elem_of_cons in Hx as [->|Hx], Hy as [->|Hy]; [done|..|by apply IH].
  - destruct Hz. rewrite Hxy. by apply list_elem_of_fmap_2.
  - destruct Hz. rewrite <-Hxy. by apply list_elem_of_fmap_2.
Qed.

Lemma NoDup_fmap_snoc {A B} (f : A → B) l x : NoDup (f <$> l) → f x ∉ f <$> l → NoDup (f <$> l ++ [x]).
Proof.
  intros Hn Hx. rewrite fmap_app. apply NoDup_app. split_and!; [done| |apply NoDup_singleton].
  by intros y Hy ->%list_elem_of_singleton.
Qed.

(** An update that keeps a column keeps the column's list. *)
Lemma update_where_column {A B} (g : A → B) p f (l : list A) :
  (∀ x, g (f x) = g x) → g <$> update_where p f l = g <$> l.
Proof.
  intros Hg. unfold update_where. rewrite <-list_fmap_compose. apply list_fmap_ext. intros i x _. simpl.
  by destruct (p x).
Qed.

(** ** Ordered queries *)

Section ordered.
Context {A : Type} (key : A → Z).
Implicit Types (rows : list A) (q : A → bool).

(** Rows with strictly increasing keys. *)
Definition increasing (rows : list A) : Prop := StronglySorted (λ a b, key a < key b) rows.

#[global] Instance key_le_trans : Transitive (key_le key).
Proof. intros a b c. unfold key_le. lia. Qed.
#[global] Instance key_le_total : Total (key_le key).
Proof. intros a b. unfold key_le. lia. Qed.

Lemma list_filter_Permutation q rows rows' : rows ≡ₚ rows' → List.filter q rows ≡ₚ List.filter q rows'.
Proof.
  induction 1; simpl; repeat case_match; eauto using Permutation.
Qed.

Lemma increasing_filter q rows : increasing rows → increasing (List.filter q rows).
Proof.
  induction 1 as [|r rows Hs IH Hf]; simpl; [constructor|].
  case_match; [|done]. constructor; [done|]. rewrite Forall_forall in Hf |- *.
  intros x [Hx _]%list_elem_of_In%filter_In. apply Hf. by apply list_elem_of_In.
Qed.

Lemma increasing_unique rows rows' : increasing rows → increasing rows' → rows ≡ₚ rows' → rows = rows'.
Proof. intros. eapply StronglySorted_unique_strong; [|done..]. intros; simpl in *; lia. Qed.

Lemma order_by_increasing rows : NoDup (key <$> rows) → increasing (order_by key rows).
Proof.
  intros Hnd. unfold increasing, order_by.
  assert (NoDup (key <$> merge_sort (key_le key) rows)) as Hnd' by by rewrite merge_sort_Permutation.
  pose proof (StronglySorted_merge_sort (key_le key) rows) as Hs.
  induction Hs as [|r l Hs IH Hf]; [constructor|].
  rewrite fmap_cons in Hnd'. apply NoDup_cons in Hnd' as [Hr Hnd'].
  constructor; [by apply IH|]. rewrite Forall_forall in Hf |- *. intros x Hx.
  specialize (Hf x Hx). unfold key_le in Hf.
  assert (key r ≠ key x); [|lia]. intros Heq. apply Hr. rewrite Heq. by apply list_elem_of_fmap_2.
Qed.

Lemma increasing_NoDup rows : increasing rows → NoDup (key <$> rows).
Proof.
  induction 1 as [|r l Hs IH Hf]; [constructor|]. rewrite fmap_cons. constructor; [|done].
  intros (x & Hx & Hin)%list_elem_of_fmap. rewrite Forall_forall in Hf. specialize (Hf x Hin). lia.
Qed.

Lemma order_by_id rows : increasing rows → order_by key rows = rows.
Proof.
  intros Hi. apply increasing_unique; [|done|apply merge_sort_Permutation].
  by apply order_by_increasing, increasing_NoDup.
Qed.

(** Filtering before or after ordering is the same when keys are unique. *)
Lemma order_by_filter q rows :
  NoDup (key <$> rows) → order_by key (List.filter q rows) = List.filter q (order_by key rows).
Proof.
  intros Hnd. pose proof (order_by_increasing rows Hnd) as Hi.
  apply increasing_unique; [|by apply increasing_filter|].
  - apply order_by_increasing. apply (increasing_filter q), increasing_NoDup in Hi.
    by rewrite <-(list_filter_Permutation q _ _ (merge_sort_Permutation (key_le key) rows)).
  - unfold order_by. rewrite merge_sort_Permutation. apply list_filter_Permutation.
    by rewrite merge_sort_Permutation.
Qed.

(** The rows after the [k]-th of an increasing list are those above its key. *)
Lemma increasing_after rows k r :
  increasing rows → rows !! k = Some r → List.filter (λ x, key r <? key x) rows = drop (S k) rows.
Proof.
  intros Hi. revert k. induction Hi as [|x l Hs IH Hf]; intros k Hk; [done|].
  rewrite Forall_forall in Hf. destruct k as [|k]; simpl in *; simplify_eq.
  - rewrite Z.ltb_irrefl. rewrite (List.filter_ext_in _ (λ _, true)).
    + clear. induction l as [|y l IH]; simpl; [done|by f_equal].
    + intros y Hy%list_elem_of_In. specialize (Hf y Hy). lia.
  - assert (key x < key r) as Hlt by (apply Hf; by eapply list_elem_of_lookup_2).
    destruct (Z.ltb_spec (key r) (key x)); [lia|]. by apply IH.
Qed.

Lemma increasing_drop rows k : increasing rows → increasing (drop k rows).
Proof.
  intros Hi. rewrite <-(take_drop k rows) in Hi. unfold increasing in *.
  by apply StronglySorted_app_1_r in Hi.
Qed.

(** Deleting everything up to a key removes a prefix of an increasing list. *)
Lemma increasing_delete_below rows c :
  increasing rows → ∃ k, delete_where (λ r, key r <=? c) rows = drop k rows.
Proof.
  induction 1 as [|x l Hs IH Hf]; [by exists 0%nat|]. simpl.
  destruct (Z.leb_spec (key x) c) as [Hle|Hgt]; simpl.
  - destruct IH as [k IH]. exists (S k). done.
  - exists 0%nat. rewrite drop_0. f_equal. unfold delete_where.
    rewrite (List.filter_ext_in _ (λ _, true)).
    + clear. induction l as [|y l IH]; simpl; [done|by f_equal].
    + intros y Hy%list_elem_of_In. rewrite Forall_forall in Hf. specialize (Hf y Hy). lia.
Qed.
End ordered.

#[export] Hint Resolve count_where_nonneg set_of_NoDup NoDup_filter_fmap NoDup_fmap_snoc : captivo.
#[export] Hint Resolve increasing_filter increasing_drop increasing_NoDup increasing_delete_below : captivo.
