(* ===== verification/Transaction.v ===== *)
(** * Tenant scopes and transactions (src/lib/tenant/context.ts, scope.ts,
    ambient.ts, src/lib/db.ts)

    In cloud every query must run on a connection whose tenant setting is the
    acting tenant: the scope of [withTenant] opens one transaction for the
    request, and [db] routes each operation onto it, or, outside a scope, onto
    a transaction of its own for the tenant of the request's host.  Self-hosted,
    [db] is the plain client.

    [Tx] is the code of a [db.$transaction] callback: it transforms rows and
    returns, throws, or meets a database error.  What a failed callback leaves
    behind depends on the transaction it runs on ([db_transaction]). *)

From S2P Require Import Prelude JsString JsValue Schema.

(** ** The ambient scope *)

Record TenantScope := { sc_tenantId : string; sc_tx : bool }.
Definition DEFAULT_TENANT : string := "default".

Definition currentTenantId (als : option TenantScope) : string := (sc_tenantId <$> als) ?? DEFAULT_TENANT.
Definition currentTx (als : option TenantScope) : bool := match als with Some s => sc_tx s | None => false end.

(** The scope [withTenant] establishes: with a transaction in cloud only. *)
Definition tenant_scope (multi : bool) (tenantId : string) : TenantScope :=
  {| sc_tenantId := tenantId; sc_tx := multi |}.

(** [None] is [TenantScopeRequiredError]; the argument is what
    [resolveRequestTenant] found, [None] also when it threw. *)
Definition resolveAmbientRequestTenant (requestTenant : option string) : option string :=
  match requestTenant with Some t => if truthy t then Some t else None | None => None end.

(** ** Where an operation runs *)

(** The connection, and the tenant set on it if any. *)
Inductive Connection :=
  | Plain
  | Ambient (guc : string)
  | Own (guc : string).

Definition guc_of (c : Connection) : option string :=
  match c with Plain => None | Ambient t | Own t => Some t end.

(** [db.model.op(...)], [db.$queryRaw ...] and [db.$transaction(fn)];
    [None]: the operation throws. *)
Definition db_route (multi : bool) (als : option TenantScope) (requestTenant : option string) : option Connection :=
  if negb multi then Some Plain
  else if currentTx als then Some (Ambient (currentTenantId als))
  else Own <$> resolveAmbientRequestTenant requestTenant.

(** The tenant routes enter a scope first (Tenant.withTenantRoute). *)
Definition scoped_route (multi : bool) (tenantId : string) (requestTenant : option string) : option Connection :=
  db_route multi (Some (tenant_scope multi tenantId)) requestTenant.

(** ** Transactions *)

Inductive failure := Threw (message : string) | DbFailed.

Definition Tx (S A : Type) : Type := S → S * (failure + A).
#[global] Instance tx_ret S : MRet (Tx S) := λ A a s, (s, inr a).
#[global] Instance tx_bind S : MBind (Tx S) := λ A B f t s,
  match t s with
  | (s', inr a) => f a s'
  | (s', inl e) => (s', inl e)
  end.
Definition tx_throw {S A} (message : string) : Tx S A := λ s, (s, inl (Threw message)).
(** A statement, refused by the database when [ok] does not hold of the rows. *)
Definition tx_write {S} (ok : S → bool) (f : S → S) : Tx S unit := λ s,
  if ok s then (f s, inr tt) else (s, inl DbFailed).
Definition tx_read {S A} (f : S → A) : Tx S A := λ s, (s, inr (f s)).

(** [db.$transaction(fn)] and what the rows are when its promise settles.  On a
    transaction of its own every failure rolls back.  On the ambient one the
    callback merely runs: a throw undoes nothing, while a database error
    aborts the request's transaction, whose rows are those it started with
    (no handler here writes before its transaction). *)
Definition db_transaction {S A} (ambient : bool) (fn : Tx S A) (s : S) : S * (failure + A) :=
  match fn s with
  | (s', inr a) => (s', inr a)
  | (s', inl (Threw m)) => (if ambient then s' else s, inl (Threw m))
  | (_, inl DbFailed) => (s, inl DbFailed)
  end.

(** ** Theorems *)

(** In cloud no operation runs without a tenant, inside a scope it is the
    scope's, and outside it is the one the request's host names. *)
Theorem cloud_ops_scoped als requestTenant c :
  db_route true als requestTenant = Some c →
  guc_of c = Some (if currentTx als then currentTenantId als else requestTenant ?? DEFAULT_TENANT) ∧
  (currentTx als = false → is_Some requestTenant).
Proof.
  unfold db_route, resolveAmbientRequestTenant. simpl. destruct (currentTx als); [by intros [= <-]|].
  destruct requestTenant as [t|]; [|done]. destruct (truthy t); [|done]. simpl. intros [= <-]. by split; [|eexists].
Qed.

Lemma scoped_route_cloud tid rt : scoped_route true tid rt = Some (Ambient tid).
Proof. done. Qed.

Section transactions.
Context {S A : Type}.
Implicit Types (fn : Tx S A) (s : S).

(** A transaction that failed left nothing, unless it was the ambient one and
    the failure was a throw. *)
Lemma transaction_failed ambient fn s s' e :
  db_transaction ambient fn s = (s', inl e) →
  s' = s ∨ (ambient = true ∧ ∃ m, e = Threw m ∧ s' = (fn s).1).
Proof.
  unfold db_transaction. destruct (fn s) as [s1 [[m|]|a]]; intros [= <- <-]; [|by left].
  destruct ambient; [right; eauto|by left].
Qed.

Lemma transaction_done ambient fn s s' a :
  db_transaction ambient fn s = (s', inr a) → fn s = (s', inr a).
Proof. unfold db_transaction. by destruct (fn s) as [s1 [[m|]|a1]]. Qed.

Lemma transaction_state ambient fn s :
  (db_transaction ambient fn s).1 = s ∨ (db_transaction ambient fn s).1 = (fn s).1.
Proof. unfold db_transaction. destruct (fn s) as [s1 [[m|]|a]]; [destruct ambient|..]; auto. Qed.

Lemma tx_write_failed (ok : S → bool) (f : S → S) s s' e : tx_write ok f s = (s', inl e) → s' = s.
Proof. unfold tx_write. by destruct (ok s) as []; intros [= <-]. Qed.

Lemma tx_write_done (ok : S → bool) (f : S → S) s s' u :
  tx_write ok f s = (s', inr u) → ok s = true ∧ s' = f s.
Proof. unfold tx_write. destruct (ok s); [|done]. by intros [= <- <-]. Qed.
End transactions.

Lemma tx_bind_done {S A B} (f : A → Tx S B) (t : Tx S A) s s' b :
  (t ≫= f) s = (s', inr b) → ∃ s1 a, t s = (s1, inr a) ∧ f a s1 = (s', inr b).
Proof. unfold mbind, tx_bind. destruct (t s) as [s1 [e|a]]; [done|eauto]. Qed.

#[export] Hint Resolve transaction_done tx_write_done : captivo.
