(* ===== verification/AuditChain.v ===== *)
(** * The tamper-evident hash chain (src/lib/audit/chain.ts, verify.ts)

    The two audit logs (access events and admin actions) are two instances of
    one construction: a row stores the hash of its predecessor and its own
    hash over that and its canonical text.  This file holds the construction
    once, against the interface [Chainable] (what an event type must give: its
    sequence number and its canonical text) and its law [ChainableLaws] (the
    text determines the event); [AccessLog.v] and [AdminLog.v] provide the two
    instances.  [sha256] is Node's digest, a parameter: no theorem assumes it
    collision free, each one ends in "or here is a collision". *)

From S2P Require Import Prelude JsString JsValue Schema.

(** ** Interface *)

Class Chainable (E : Type) := { seq_of : E → Z; canonical : E → string }.

(** [StoredEvent] of verify.ts: an event with its two hash columns. *)
Record Stored (E : Type) := MkStored { s_event : E; s_prevHash : string; s_hash : string }.
Arguments MkStored {E} _ _ _.
Arguments s_event {E} _.
Arguments s_prevHash {E} _.
Arguments s_hash {E} _.

Record ChainHead := { lastSeq : Z; lastHash : string }.
#[global] Instance chain_head_eq_dec : EqDecision ChainHead.
Proof. solve_decision. Defined.

Inductive break_reason := hash_mismatch | prev_hash_mismatch | head_mismatch.

Record ChainVerifyResult := {
  ok : bool;
  count : Z;
  firstSeq : option string;
  lastSeqStr : option string;
  retentionBoundary : bool;
  brokenAtSeq : option string;
  reason : option break_reason;
}.

Definition GENESIS_PREV_HASH : string := "".
(** The [AuditChainState] column defaults: what an upsert creates. *)
Definition genesis_head : ChainHead := {| lastSeq := 0; lastHash := GENESIS_PREV_HASH |}.

Definition newline : string := unchars [Ascii.ascii_of_N 10].

(** ** Operations *)

Section chain.
Context {E : Type} `{Chainable E}.
Context (sha256 : string → string).

Definition chainHash (prevHash canon : string) : string :=
  sha256 (prevHash +:+ newline +:+ canon).

Definition computeHash (prevHash : string) (e : E) : string := chainHash prevHash (canonical e).

Definition seq_str (s : Stored E) : string := dec (seq_of (s_event s)).

(** The loop of [verifyChain]: the first row that breaks, with why. *)
Fixpoint verify_loop (prevHash : option string) (events : list (Stored E))
    : option (Stored E * break_reason) :=
  match events with
  | [] => None
  | e :: events' =>
      if negb (computeHash (s_prevHash e) (s_event e) =s s_hash e) then Some (e, hash_mismatch)
      else if match prevHash with Some p => negb (s_prevHash e =s p) | None => false end
      then Some (e, prev_hash_mismatch)
      else verify_loop (Some (s_hash e)) events'
  end.

Definition broken (events : list (Stored E)) (first lst : Stored E) (at_ : Stored E)
    (why : break_reason) : ChainVerifyResult :=
  {| ok := false; count := Z.of_nat (length events); firstSeq := Some (seq_str first);
     lastSeqStr := Some (seq_str lst);
     retentionBoundary := negb (s_prevHash first =s GENESIS_PREV_HASH);
     brokenAtSeq := Some (seq_str at_); reason := Some why |}.

Definition verifyChain (events : list (Stored E)) (expectedHead : option ChainHead)
    : ChainVerifyResult :=
  match events with
  | [] => {| ok := true; count := 0; firstSeq := None; lastSeqStr := None;
             retentionBoundary := false; brokenAtSeq := None; reason := None |}
  | first :: _ =>
      let lst := default first (last events) in
      match verify_loop None events with
      | Some (e, why) => broken events first lst e why
      | None =>
          if match expectedHead with
             | Some h => negb (seq_of (s_event lst) =? lastSeq h) || negb (s_hash lst =s lastHash h)
             | None => false
             end
          then broken events first lst lst head_mismatch
          else {| ok := true; count := Z.of_nat (length events); firstSeq := Some (seq_str first);
                  lastSeqStr := Some (seq_str lst);
                  retentionBoundary := negb (s_prevHash first =s GENESIS_PREV_HASH);
                  brokenAtSeq := None; reason := None |}
      end
  end.

(** The row-building loop shared by the appenders ([normalized.map] of
    append.ts, the [for] loop of admin-backfill.ts): each event is numbered
    after the head and hashed over it, and becomes the new head. *)
Fixpoint chain_rows (head : ChainHead) (mk : list (Z → E)) : list (Stored E) * ChainHead :=
  match mk with
  | [] => ([], head)
  | f :: mk' =>
      let e := f (lastSeq head + 1) in
      let h := computeHash (lastHash head) e in
      let row := MkStored e (lastHash head) h in
      let '(rows, head') := chain_rows {| lastSeq := lastSeq head + 1; lastHash := h |} mk' in
      (row :: rows, head')
  end.

(** ** Specification *)

(** [linked h rows h']: the rows continue the head [h] one number at a time,
    each hashed over its predecessor, and end at the head [h']. *)
Inductive linked : ChainHead → list (Stored E) → ChainHead → Prop :=
  | linked_nil h : linked h [] h
  | linked_cons h e rows h' :
      seq_of (s_event e) = lastSeq h + 1 →
      s_prevHash e = lastHash h →
      s_hash e = computeHash (lastHash h) (s_event e) →
      linked {| lastSeq := lastSeq h + 1; lastHash := s_hash e |} rows h' →
      linked h (e :: rows) h'.

(** [consistent p rows]: what the verifier checks of the rows themselves; [p]
    is the hash the first row must point to, if any. *)
Inductive consistent : option string → list (Stored E) → Prop :=
  | consistent_nil p : consistent p []
  | consistent_cons p e rows :
      s_hash e = computeHash (s_prevHash e) (s_event e) →
      match p with Some h => s_prevHash e = h | None => True end →
      consistent (Some (s_hash e)) rows →
      consistent p (e :: rows).

(** Two distinct texts with one digest. *)
Definition collision : Prop := ∃ x y, x ≠ y ∧ sha256 x = sha256 y.

(** ** Lemmas *)

Lemma verify_loop_spec p rows : verify_loop p rows = None ↔ consistent p rows.
Proof.
  revert p. induction rows as [|e rows IH]; intros p; simpl; [by split; [constructor|]|].
  split.
  - intros Hv. destruct (negb _) eqn:E1 in Hv; [done|].
    destruct (match p with Some _ => _ | None => false end) eqn:E2 in Hv; [done|].
    reflect_bool. constructor; [done| |by apply IH].
    destruct p; reflect_bool; done.
  - inversion 1 as [|? ? ? Hh Hp Hr]; subst.
    rewrite <-Hh, bool_decide_eq_true_2 by done. simpl.
    destruct p as [q|]; [rewrite bool_decide_eq_true_2 by done|]; by apply IH.
Qed.

Lemma verifyChain_ok rows head :
  ok (verifyChain rows head) = true ↔
    consistent None rows ∧
    (∀ r h, last rows = Some r → head = Some h →
      seq_of (s_event r) = lastSeq h ∧ s_hash r = lastHash h).
Proof.
  destruct rows as [|e rows]; [by split; [split; [constructor|done]|]|].
  unfold verifyChain. rewrite <-verify_loop_spec.
  assert (last (e :: rows) = Some (default e (last (e :: rows)))) as Hl.
  { rewrite last_cons. by destruct (last rows). }
  revert Hl. generalize (default e (last (e :: rows))). intros r Hl.
  destruct (verify_loop None (e :: rows)) as [[]|] eqn:Eq.
  { split; [done|]. intros [? _]. done. }
  rewrite Hl. destruct head as [h|]; simpl ok.
  - destruct (_ || _) eqn:E2; reflect_bool; simpl.
    + split; [done|]. intros [_ Hh]. specialize (Hh _ h eq_refl eq_refl) as [H1 H2].
      rewrite H1, H2, Z.eqb_refl, bool_decide_eq_true_2 in E2 by done. done.
    + split; [|done]. intros _. split; [done|]. intros ? ? [= <-] [= <-]. done.
  - split; [|done]. intros _. split; [done|]. intros ? ? _ [=].
Qed.

Lemma chain_rows_linked head mk rows head' :
  (∀ f n, f ∈ mk → seq_of (f n) = n) →
  chain_rows head mk = (rows, head') → linked head rows head'.
Proof.
  revert head rows. induction mk as [|f mk IH]; intros head rows Hmk Hc; simpl in Hc.
  { simplify_eq. constructor. }
  destruct (chain_rows _ mk) as [rs h'] eqn:Eq. simplify_eq.
  constructor; simpl; [apply Hmk; set_solver|done|done|].
  apply IH; [|done]. intros g n Hg. apply Hmk. set_solver.
Qed.

Lemma chain_rows_length head mk rows head' :
  chain_rows head mk = (rows, head') → length rows = length mk.
Proof.
  revert head rows. induction mk as [|f mk IH]; intros head rows Hc; simpl in Hc; [by simplify_eq|].
  destruct (chain_rows _ mk) as [rs h'] eqn:Eq. simplify_eq. simpl. f_equal. by eapply IH.
Qed.

Lemma chain_rows_lookup head mk rows head' i f :
  chain_rows head mk = (rows, head') → mk !! i = Some f →
  ∃ r, rows !! i = Some r ∧ s_event r = f (lastSeq head + 1 + Z.of_nat i).
Proof.
  revert head rows i. induction mk as [|g mk IH]; intros head rows i Hc Hi; simpl in Hc; [done|].
  destruct (chain_rows _ mk) as [rs h'] eqn:Eq. simplify_eq. destruct i as [|i]; simpl in *; simplify_eq.
  - eexists. split; [done|]. simpl. f_equal. lia.
  - destruct (IH _ _ i Eq Hi) as (r & Hr & He). exists r. split; [done|]. rewrite He. f_equal. simpl. lia.
Qed.

Lemma linked_app h1 h2 h3 l1 l2 : linked h1 l1 h2 → linked h2 l2 h3 → linked h1 (l1 ++ l2) h3.
Proof. induction 1; intros; simpl; [done|]. constructor; auto. Qed.

Lemma linked_app_inv h l1 l2 h' :
  linked h (l1 ++ l2) h' → ∃ hm, linked h l1 hm ∧ linked hm l2 h'.
Proof.
  revert h. induction l1 as [|e l1 IH]; intros h Hl; simpl in Hl.
  { exists h. split; [constructor|done]. }
  inversion Hl; subst. edestruct IH as (hm & ? & ?); [done|].
  exists hm. split; [by constructor|done].
Qed.

Lemma linked_consistent h l h' : linked h l h' → consistent (Some (lastHash h)) l.
Proof. induction 1 as [|h e l h' Hs Hp Hh Hl IH]; constructor; [congruence|done|]. done. Qed.

Lemma consistent_weaken p l : consistent p l → consistent None l.
Proof. inversion 1; constructor; auto. Qed.

Lemma linked_last h l h' r :
  linked h l h' → last l = Some r → seq_of (s_event r) = lastSeq h' ∧ s_hash r = lastHash h'.
Proof.
  induction 1 as [|h e l h' Hs Hp Hh Hl IH]; intros Hr; [done|].
  destruct l as [|e' l]; [|apply IH; by rewrite last_cons_cons in Hr].
  inversion Hl; subst. simpl in Hr. by simplify_eq/=.
Qed.

Lemma linked_length h l h' : linked h l h' → lastSeq h' = lastSeq h + Z.of_nat (length l).
Proof. induction 1 as [|h e l h' Hs Hp Hh Hl IH]; simpl in *; lia. Qed.

(** A chain grown from a head always passes the verifier, against its end. *)
Lemma linked_verifies h l h' : linked h l h' → ok (verifyChain l (Some h')) = true.
Proof.
  intros Hl. apply verifyChain_ok. split; [by eapply consistent_weaken, linked_consistent|].
  intros r h0 Hr [= <-]. by eapply linked_last.
Qed.

Lemma linked_seqs h l h' r :
  linked h l h' → r ∈ l → lastSeq h < seq_of (s_event r) ≤ lastSeq h'.
Proof.
  induction 1 as [|h e l h' Hs Hp Hh Hl IH]; intros Hr; [by apply elem_of_nil in Hr|].
  apply elem_of_cons in Hr as [->|Hr].
  - pose proof (linked_length _ _ _ Hl). simpl in *. lia.
  - specialize (IH Hr). simpl in IH. lia.
Qed.

Lemma linked_increasing h l h' : linked h l h' → increasing (λ r, seq_of (s_event r)) l.
Proof.
  induction 1 as [|h e l h' Hs Hp Hh Hl IH]; constructor; [done|].
  apply Forall_forall. intros r Hr. pose proof (linked_seqs _ _ _ _ Hl Hr). simpl in *. lia.
Qed.

(** What remains of a chain after its oldest rows are gone is a chain. *)
Lemma linked_drop h l h' k : linked h l h' → ∃ hm, linked hm (drop k l) h'.
Proof.
  intros Hl. rewrite <-(take_drop k l) in Hl. apply linked_app_inv in Hl as (hm & _ & ?). by exists hm.
Qed.

Lemma consistent_app_inv p l1 l2 : consistent p (l1 ++ l2) → consistent p l1 ∧ consistent None l2.
Proof.
  revert p. induction l1 as [|e l1 IH]; intros p Hc; simpl in Hc.
  { split; [constructor|]. by eapply consistent_weaken. }
  inversion Hc; subst. edestruct IH as [? ?]; [done|]. split; [by constructor|done].
Qed.

Lemma consistent_snoc p l e :
  consistent p (l ++ [e]) →
  s_hash e = computeHash (s_prevHash e) (s_event e) ∧
  match last l with Some r => s_prevHash e = s_hash r | None => match p with Some h => s_prevHash e = h | None => True end end.
Proof.
  revert p. induction l as [|x l IH]; intros p Hc; simpl in Hc; inversion Hc; subst; [done|].
  edestruct IH as [? Hp]; [done|]. split; [done|].
  rewrite last_cons. by destruct (last l).
Qed.

End chain.

(** ** The law of a chainable event

    [same_event] is equality up to what the canonical text records (a null
    field and an empty one print alike).  The law: the text hashed for a row,
    predecessor hash included, determines the predecessor hash and the event. *)

Class ChainableLaws (E : Type) `{Chainable E} := {
  wf_event : E → Prop;
  same_event : relation E;
  same_event_equiv :: Equivalence same_event;
  same_event_seq a b : same_event a b → seq_of a = seq_of b;
  preimage_inj p q a b :
    wf_event a → wf_event b →
    p +:+ newline +:+ canonical a = q +:+ newline +:+ canonical b →
    p = q ∧ same_event a b;
}.

Section evidence.
Context {E : Type} `{ChainableLaws E}.
Context (sha256 : string → string).

Definition same_row (a b : Stored E) : Prop :=
  same_event (s_event a) (s_event b) ∧ s_prevHash a = s_prevHash b ∧ s_hash a = s_hash b.

#[global] Instance same_row_equiv : Equivalence same_row.
Proof.
  split.
  - intros a. by split_and!.
  - intros a b (?&?&?). by split_and!.
  - intros a b c (?&?&?) (?&?&?). split_and!; [by etrans|congruence..].
Qed.

Definition wf_rows (rows : list (Stored E)) : Prop := Forall (λ r, wf_event (s_event r)) rows.

(** [older_prefix rows rows']: [rows'] is [rows], row for row, behind some
    older rows. *)
Definition older_prefix (rows rows' : list (Stored E)) : Prop :=
  ∃ pre suf, rows' = pre ++ suf ∧ Forall2 same_row rows suf.

Lemma older_prefix_snoc rows rows' a b :
  same_row a b → older_prefix rows rows' → older_prefix (rows ++ [a]) (rows' ++ [b]).
Proof.
  intros Hab (pre & suf & -> & Hs). exists pre, (suf ++ [b]). rewrite (assoc_L (++)).
  split; [done|]. apply Forall2_app; [done|]. constructor; [done|apply Forall2_nil_2].
Qed.

(** One digest, one row: rows that recompute to the same hash are the same
    row, or a collision is in hand. *)
Lemma row_determined (a b : Stored E) :
  wf_event (s_event a) → wf_event (s_event b) →
  s_hash a = computeHash sha256 (s_prevHash a) (s_event a) →
  s_hash b = computeHash sha256 (s_prevHash b) (s_event b) →
  s_hash a = s_hash b → collision sha256 ∨ same_row a b.
Proof.
  intros Wa Wb Ha Hb Hab. unfold computeHash, chainHash in *.
  destruct (decide (s_prevHash a +:+ newline +:+ canonical (s_event a)
    = s_prevHash b +:+ newline +:+ canonical (s_event b))) as [Heq|Hne].
  - right. apply preimage_inj in Heq as [? ?]; [by split_and!|done..].
  - left. eexists _, _. split; [exact Hne|congruence].
Qed.

Lemma histories_agree_rev (l1 : list (Stored E)) : ∀ l2 r1 r2,
  wf_rows l1 → wf_rows l2 → consistent sha256 None l1 → consistent sha256 None l2 →
  last l1 = Some r1 → last l2 = Some r2 → s_hash r1 = s_hash r2 →
  collision sha256 ∨ older_prefix l1 l2 ∨ older_prefix l2 l1.
Proof.
  induction l1 as [|a l1 IH] using rev_ind; intros l2 r1 r2 W1 W2 C1 C2 L1 L2 Hr; [done|].
  destruct l2 as [|b l2 _] using rev_ind; [done|].
  rewrite last_snoc in L1, L2. simplify_eq.
  apply Forall_app in W1 as [W1 [Wa _]%Forall_cons], W2 as [W2 [Wb _]%Forall_cons].
  pose proof (consistent_snoc _ _ _ _ C1) as [Ha Pa]. pose proof (consistent_snoc _ _ _ _ C2) as [Hb Pb].
  destruct (row_determined r1 r2 Wa Wb Ha Hb Hr) as [?|Hsame]; [by left|].
  apply consistent_app_inv in C1 as [C1 _], C2 as [C2 _].
  destruct (last l1) as [x1|] eqn:X1; [destruct (last l2) as [x2|] eqn:X2|].
  - destruct (IH l2 x1 x2) as [?|[?|?]]; [done..| |by left| |].
    + destruct Hsame as (_ & Hp & _). congruence.
    + right; left. by apply older_prefix_snoc.
    + right; right. by apply older_prefix_snoc.
  - apply last_None in X2 as ->. right; right. exists l1, [r1]. split; [done|].
    constructor; [by symmetry|apply Forall2_nil_2].
  - apply last_None in X1 as ->. right; left. exists l2, [r2]. split; [done|].
    constructor; [done|apply Forall2_nil_2].
Qed.

(** *** Without assumptions on the rows

    A field may hold the separator of the canonical text; such an event shares its
    text with others.  What the hash of a row fixes in every case is the text that
    was hashed, and the event itself when no field of either row is ambiguous. *)

Definition attested (r : Stored E) : string := s_prevHash r +:+ newline +:+ canonical (s_event r).
Definition same_attested (a b : Stored E) : Prop :=
  attested a = attested b ∧ s_hash a = s_hash b ∧ (wf_event (s_event a) → wf_event (s_event b) → same_row a b).
(** [rows'] attests what [rows] attests, row for row, behind some older rows. *)
Definition older_attested (rows rows' : list (Stored E)) : Prop :=
  ∃ pre suf, rows' = pre ++ suf ∧ Forall2 same_attested rows suf.

(** Digests are one line (SHA-256 in hexadecimal). *)
Definition one_line_digest : Prop := ∀ x, sep_free (Ascii.ascii_of_N 10) (sha256 x).

Lemma same_attested_sym a b : same_attested a b → same_attested b a.
Proof. intros (? & ? & Hw). split_and!; [done..|]. intros ? ?. symmetry. by apply Hw. Qed.
Lemma older_attested_snoc rows rows' a b :
  same_attested a b → older_attested rows rows' → older_attested (rows ++ [a]) (rows' ++ [b]).
Proof.
  intros Hab (pre & suf & -> & Hs). exists pre, (suf ++ [b]). rewrite (assoc_L (++)).
  split; [done|]. apply Forall2_app; [done|]. constructor; [done|apply Forall2_nil_2].
Qed.
Lemma older_attested_one pre a b : same_attested a b → older_attested [a] (pre ++ [b]).
Proof. intros Hab. exists pre, [b]. split; [done|]. constructor; [done|apply Forall2_nil_2]. Qed.

Lemma text_determined (a b : Stored E) :
  s_hash a = computeHash sha256 (s_prevHash a) (s_event a) →
  s_hash b = computeHash sha256 (s_prevHash b) (s_event b) →
  s_hash a = s_hash b → collision sha256 ∨ same_attested a b.
Proof.
  intros Ha Hb Hab. unfold computeHash, chainHash in *. destruct (decide (attested a = attested b)) as [Heq|Hne].
  - right. split_and!; [done..|]. intros Wa Wb. unfold attested in Heq. apply preimage_inj in Heq as [? ?]; [by split_and!|done..].
  - left. eexists _, _. split; [exact Hne|]. unfold attested. congruence.
Qed.
Lemma attested_prev a b :
  sep_free (Ascii.ascii_of_N 10) (s_prevHash a) → sep_free (Ascii.ascii_of_N 10) (s_prevHash b) →
  attested a = attested b → s_prevHash a = s_prevHash b.
Proof.
  unfold attested, sep_free. intros Ha Hb Heq. apply (f_equal chars) in Heq. rewrite !chars_append in Heq.
  change (chars newline) with [Ascii.ascii_of_N 10] in Heq. cbn [app] in Heq. apply cut_eq in Heq as [Heq _]; [|done..].
  by apply (f_equal unchars) in Heq; rewrite !unchars_chars in Heq.
Qed.

(** Two lists of rows that are consistent and end in the same hash attest the same
    history, as far as both go back, or a collision is in hand. *)
Lemma attested_agree (l1 : list (Stored E)) : one_line_digest → ∀ l2 r1 r2,
  consistent sha256 None l1 → consistent sha256 None l2 →
  last l1 = Some r1 → last l2 = Some r2 → s_hash r1 = s_hash r2 →
  collision sha256 ∨ older_attested l1 l2 ∨ older_attested l2 l1.
Proof.
  intros Hline. induction l1 as [|a l1 IH] using rev_ind; intros l2 r1 r2 C1 C2 L1 L2 Hr; [done|].
  destruct l2 as [|b l2 _] using rev_ind; [done|]. rewrite last_snoc in L1, L2. simplify_eq.
  pose proof (consistent_snoc _ _ _ _ C1) as [Ha Pa]. pose proof (consistent_snoc _ _ _ _ C2) as [Hb Pb].
  destruct (text_determined r1 r2 Ha Hb Hr) as [?|Hsame]; [by left|].
  apply consistent_app_inv in C1 as [C1 _], C2 as [C2 _].
  destruct (last l1) as [x1|] eqn:X1; [destruct (last l2) as [x2|] eqn:X2|].
  - assert (∀ l x, consistent sha256 None l → last l = Some x → sep_free (Ascii.ascii_of_N 10) (s_hash x)) as Hclean.
    { intros l x Hc Hl. apply last_Some in Hl as [l' ->]. apply consistent_snoc in Hc as [-> _]. apply Hline. }
    destruct (IH l2 x1 x2) as [?|[?|?]]; [done..| |by left| |].
    + rewrite <- Pa, <- Pb. destruct Hsame as [Ht _]. apply attested_prev in Ht; [done| |].
      * rewrite Pa. by apply (Hclean l1).
      * rewrite Pb. by apply (Hclean l2).
    + right; left. by apply older_attested_snoc.
    + right; right. apply older_attested_snoc; [by apply same_attested_sym|done].
  - apply last_None in X2 as ->. right; right. by apply older_attested_one, same_attested_sym.
  - apply last_None in X1 as ->. right; left. by apply older_attested_one.
Qed.

(** Removing rows from the middle of a genuine chain cannot be hidden. *)
Lemma interior_deletion (h h' : ChainHead) (a b c : list (Stored E)) :
  linked sha256 h (a ++ b ++ c) h' → wf_rows (a ++ b ++ c) →
  a ≠ [] → b ≠ [] → c ≠ [] → consistent sha256 None (a ++ c) → collision sha256.
Proof.
  intros Hl Hw Ha Hb Hc Hcons.
  destruct (exists_last Ha) as (a' & ra & ->), (exists_last Hb) as (b' & rb & ->).
  destruct c as [|rc c]; [done|].
  assert (s_prevHash rc = s_hash ra) as P1.
  { rewrite (cons_middle rc), (assoc_L (++)) in Hcons.
    apply consistent_app_inv, proj1, consistent_snoc, proj2 in Hcons. by rewrite last_snoc in Hcons. }
  assert (s_prevHash rc = s_hash rb) as P2.
  { apply linked_consistent, consistent_weaken in Hl. rewrite (assoc_L (++)), (cons_middle rc), (assoc_L (++)) in Hl.
    apply consistent_app_inv, proj1, consistent_snoc, proj2 in Hl.
    by rewrite (assoc_L (++)), last_snoc in Hl. }
  apply linked_app_inv in Hl as (h1 & L1 & L2). apply linked_app_inv in L2 as (h2 & L2 & _).
  assert (wf_event (s_event ra)) as Wa by (eapply (proj1 (Forall_forall _ _) Hw); set_solver).
  assert (wf_event (s_event rb)) as Wb by (eapply (proj1 (Forall_forall _ _) Hw); set_solver).
  assert (s_hash ra = computeHash sha256 (s_prevHash ra) (s_event ra)) as Ra.
  { by apply linked_consistent, consistent_snoc, proj1 in L1. }
  assert (s_hash rb = computeHash sha256 (s_prevHash rb) (s_event rb)) as Rb.
  { by apply linked_consistent, consistent_snoc, proj1 in L2. }
  destruct (row_determined ra rb Wa Wb Ra Rb) as [?|(Hs & _)]; [congruence|done|].
  apply same_event_seq in Hs.
  pose proof (linked_seqs _ _ _ _ ra L1 ltac:(set_solver)).
  pose proof (linked_seqs _ _ _ _ rb L2 ltac:(set_solver)). lia.
Qed.

End evidence.
