(* ===== verification/AccessLog.v ===== *)
(** * The access audit log

    src/lib/audit/chain.ts ([canonicalize]), append.ts ([normalizeAuditInput],
    [appendAuditEvents]), the verify route with its paging, the retention job
    (src/app/api/cron/audit-retention) and the data plane's ingest route
    (src/app/api/internal/audit/log).  The state is one tenant's rows of
    AuditEvent and its AuditChainState head. *)

From S2P Require Import Prelude JsString JsValue Schema AuditChain.

(** ** Events *)

(** The columns of an AuditEvent, hash columns aside. *)
Record AuditEvent := {
  ae_seq : Z;
  ae_timestamp : Z;
  ae_userId : option string;
  ae_userEmail : option string;
  ae_userName : option string;
  ae_company : option string;
  ae_siteId : option string;
  ae_siteName : option string;
  ae_host : string;
  ae_method : string;
  ae_path : string;
  ae_status : Z;
  ae_bytesOut : Z;
  ae_decision : string;
  ae_reason : option string;
  ae_clientIp : option string;
  ae_userAgent : option string;
}.

Definition US : Ascii.ascii := Ascii.ascii_of_N 31.

(** The attested fields, in the frozen order of [canonicalize]. *)
Definition attested (e : AuditEvent) : list string :=
  [ dec (ae_seq e); toISOString (ae_timestamp e); ae_userId e ?? ""; ae_siteId e ?? "";
    ae_host e; ae_method e; ae_path e; dec (ae_status e); dec (ae_bytesOut e); ae_decision e;
    ae_reason e ?? ""; ae_clientIp e ?? ""; ae_userAgent e ?? "" ].

Definition canonicalize (e : AuditEvent) : string := join (unchars [US]) (attested e).

#[global] Instance access_chainable : Chainable AuditEvent :=
  {| seq_of := ae_seq; canonical := canonicalize |}.

(** ** Ingest *)

Record AuditInput := {
  i_timestamp : option string;
  i_userId : option string;
  i_siteId : option string;
  i_host : option string;
  i_method : option string;
  i_path : option string;
  i_status : option jsnum;
  i_bytesOut : option jsnum;
  i_decision : option string;
  i_reason : option string;
  i_clientIp : option string;
  i_userAgent : option string;
}.

Record AuditLookups := {
  emailById : gmap string (option string);
  userNameById : gmap string (option string);
  companyById : gmap string (option string);
  siteNameById : gmap string (option string);
}.

Record NormalizedAuditRow := {
  n_timestamp : jsdate;
  n_userId : option string;
  n_userEmail : option string;
  n_userName : option string;
  n_company : option string;
  n_siteId : option string;
  n_siteName : option string;
  n_host : string;
  n_method : string;
  n_path : string;
  n_status : jsnum;
  n_bytesOut : Z;
  n_decision : string;
  n_reason : option string;
  n_clientIp : option string;
  n_userAgent : option string;
}.

(** [id ? map.get(id) ?? null : null] *)
Definition lookup_by (id : option string) (m : gmap string (option string)) : option string :=
  match id with
  | Some i => if truthy i then mjoin (m !! i) else None
  | None => None
  end.

Section ingest.
(** [Date.parse] on the strings it accepts, [InvalidDate] elsewhere. *)
Context (date_parse : string → jsdate).
Context (sha256 : string → string).

(** [BigInt(typeof b === "number" ? Math.max(0, Math.trunc(b)) : 0)]: NaN and
    Infinity make BigInt throw, which [None] stands for; minus infinity is
    raised to 0 first. *)
Definition bytes_of (b : option jsnum) : option Z :=
  match b with
  | None => Some 0
  | Some NNegInf => Some 0
  | Some n => (λ z, Z.max 0 z) <$> num_trunc n
  end.

Definition normalizeAuditInput (now : Z) (e : AuditInput) (l : AuditLookups)
    : option NormalizedAuditRow :=
  bytesOut ← bytes_of (i_bytesOut e);
  Some {|
    n_timestamp := match i_timestamp e with
                   | Some t => if truthy t then date_parse t else ValidDate now
                   | None => ValidDate now
                   end;
    n_userId := i_userId e;
    n_userEmail := lookup_by (i_userId e) (emailById l);
    n_userName := lookup_by (i_userId e) (userNameById l);
    n_company := lookup_by (i_userId e) (companyById l);
    n_siteId := i_siteId e;
    n_siteName := lookup_by (i_siteId e) (siteNameById l);
    n_host := i_host e ?? "";
    n_method := i_method e ?? "";
    n_path := i_path e ?? "";
    n_status := i_status e ?? NInt 0;
    n_bytesOut := bytesOut;
    n_decision := if bool_decide (i_decision e = Some "DENY"%string) then "DENY" else "ALLOW";
    n_reason := i_reason e;
    n_clientIp := i_clientIp e;
    n_userAgent := i_userAgent e;
  |}.

(** The column types of AuditEvent: a row whose date is invalid (toISOString
    throws), whose status is no 32-bit integer or whose bytesOut is no 64-bit
    integer (the insert throws) aborts the transaction. *)
Definition int4 (z : Z) : bool := (-2147483648 <=? z) && (z <=? 2147483647).
Definition int8 (z : Z) : bool := (-9223372036854775808 <=? z) && (z <=? 9223372036854775807).

Definition columns (n : NormalizedAuditRow) : option (Z → AuditEvent) :=
  match n_timestamp n, n_status n with
  | ValidDate ts, NInt st =>
      if int4 st && int8 (n_bytesOut n) then
        Some (λ seq, {|
          ae_seq := seq; ae_timestamp := ts; ae_userId := n_userId n; ae_userEmail := n_userEmail n;
          ae_userName := n_userName n; ae_company := n_company n; ae_siteId := n_siteId n;
          ae_siteName := n_siteName n; ae_host := n_host n; ae_method := n_method n;
          ae_path := n_path n; ae_status := st; ae_bytesOut := n_bytesOut n;
          ae_decision := n_decision n; ae_reason := n_reason n; ae_clientIp := n_clientIp n;
          ae_userAgent := n_userAgent n |})
      else None
  | _, _ => None
  end.

Record AuditDb := {
  auditEvents : list (Stored AuditEvent);
  chainState : option ChainHead;
}.

Definition audit_init : AuditDb := {| auditEvents := []; chainState := None |}.

(** Display names for the users and sites a batch mentions. *)
Definition lookups_for (users : list User) (sites : list Site) (events : list AuditInput) : AuditLookups :=
  let userIds := set_of (List.filter truthy (omap i_userId events)) in
  let siteIds := set_of (List.filter truthy (omap i_siteId events)) in
  let us := List.filter (λ u, bool_decide (u_id u ∈ userIds)) users in
  let ss := List.filter (λ s, bool_decide (site_id s ∈ siteIds)) sites in
  {| emailById := map_of (map (λ u, (u_id u, Some (u_email u))) us);
     userNameById := map_of (map (λ u, (u_id u, Some (u_name u))) us);
     companyById := map_of (map (λ u, (u_id u, u_company u)) us);
     siteNameById := map_of (map (λ s, (site_id s, Some (site_name s))) ss) |}.

(** [appendAuditEvents]: the advisory lock makes the read of the head and the
    writes one step.  [None]: it threw, and the transaction left no trace. *)
Definition appendAuditEvents (users : list User) (sites : list Site) (now : Z)
    (db : AuditDb) (events : list AuditInput) : option (AuditDb * Z) :=
  match events with
  | [] => Some (db, 0)
  | _ =>
      let lookups := lookups_for users sites events in
      normalized ← mapM (λ e, normalizeAuditInput now e lookups) events;
      mk ← mapM columns normalized;
      let head := chainState db ?? genesis_head in
      let '(rows, head') := chain_rows sha256 head mk in
      Some ({| auditEvents := auditEvents db ++ rows; chainState := Some head' |},
            Z.of_nat (length rows))
  end.

(** ** Retention *)

(** One tenant's pass of the retention job: the highest number among the rows
    older than the cutoff, and everything up to it deleted. *)
Definition max_seq (rows : list (Stored AuditEvent)) : option Z :=
  foldr (λ r m, Some (match m with Some z => Z.max (ae_seq (s_event r)) z | None => ae_seq (s_event r) end))
    None rows.

Definition auditRetention (now retentionDays : Z) (db : AuditDb) : AuditDb * Z :=
  let cutoff := now - retentionDays * 24 * 60 * 60 * 1000 in
  let old := List.filter (λ r, ae_timestamp (s_event r) <? cutoff) (auditEvents db) in
  match max_seq old with
  | None => (db, 0)
  | Some cutoffSeq =>
      let p := λ r, ae_seq (s_event r) <=? cutoffSeq in
      ({| auditEvents := delete_where p (auditEvents db); chainState := chainState db |},
       count_where p (auditEvents db))
  end.

(** ** The verify route *)

Definition PAGE : nat := 1000.

Definition row_seq (r : Stored AuditEvent) : Z := ae_seq (s_event r).
(** Rows in sequence order: what [orderBy: { seq: "asc" }] returns. *)
Definition by_seq : list (Stored AuditEvent) → list (Stored AuditEvent) := order_by row_seq.

(** One page: the rows within the head's range and after the cursor. *)
Definition page_query (page : nat) (rows : list (Stored AuditEvent)) (head : option ChainHead)
    (cursorSeq : option Z) : list (Stored AuditEvent) :=
  take page (by_seq (List.filter (λ r,
    match head with Some h => row_seq r <=? lastSeq h | None => true end &&
    match cursorSeq with Some c => c <? row_seq r | None => true end) rows)).

(** The paging loop; [fuel] bounds the number of pages. *)
Fixpoint page_loop (page : nat) (fuel : nat) (rows : list (Stored AuditEvent)) (head : option ChainHead)
    (cursorSeq : option Z) (acc : list (Stored AuditEvent)) : option (list (Stored AuditEvent)) :=
  match fuel with
  | O => None
  | S fuel' =>
      let batch := page_query page rows head cursorSeq in
      match last batch with
      | None => Some acc
      | Some b =>
          let acc' := acc ++ batch in
          if (length batch <? page)%nat then Some acc'
          else page_loop page fuel' rows head (Some (row_seq b)) acc'
      end
  end.

Definition verify_rows (db : AuditDb) : option ChainVerifyResult :=
  (λ events, verifyChain sha256 events (chainState db)) <$>
    page_loop PAGE (S (length (auditEvents db))) (auditEvents db) (chainState db) None [].
End ingest.

(** ** The canonical text determines the event *)

(** The fields the comment of chain.ts relies on: no unit separator in any
    text, a date of the ECMAScript range. *)
Definition wf_access (e : AuditEvent) : Prop :=
  valid_time (ae_timestamp e) ∧
  Forall (sep_free US) [ae_userId e ?? ""; ae_siteId e ?? ""; ae_host e; ae_method e; ae_path e;
    ae_decision e; ae_reason e ?? ""; ae_clientIp e ?? ""; ae_userAgent e ?? ""]%string.
#[global] Instance wf_access_dec e : Decision (wf_access e).
Proof. unfold wf_access, valid_time. apply _. Defined.

(** Equal in every attested field, null and empty identified. *)
Definition same_access (a b : AuditEvent) : Prop :=
  ae_seq a = ae_seq b ∧ ae_timestamp a = ae_timestamp b ∧
  (ae_userId a ?? "") = (ae_userId b ?? "") ∧ (ae_siteId a ?? "") = (ae_siteId b ?? "") ∧
  ae_host a = ae_host b ∧ ae_method a = ae_method b ∧ ae_path a = ae_path b ∧
  ae_status a = ae_status b ∧ ae_bytesOut a = ae_bytesOut b ∧ ae_decision a = ae_decision b ∧
  (ae_reason a ?? "") = (ae_reason b ?? "") ∧ (ae_clientIp a ?? "") = (ae_clientIp b ?? "") ∧
  (ae_userAgent a ?? "") = (ae_userAgent b ?? "").

#[global] Instance same_access_equiv : Equivalence same_access.
Proof.
  split.
  - intros a. unfold same_access. by split_and!.
  - intros a b H. unfold same_access in *. destruct_and!. by split_and!.
  - intros a b c H1 H2. unfold same_access in *. destruct_and!. split_and!; congruence.
Qed.

Lemma attested_sep_free e : wf_access e → Forall (sep_free US) (attested e).
Proof.
  intros [Ht Hf]. unfold attested. rewrite !Forall_cons in Hf. destruct_and!.
  repeat (apply Forall_cons; split); try done;
    first [by apply dec_sep_free | by apply iso_sep_free].
Qed.

Lemma attested_inj a b : wf_access a → wf_access b → attested a = attested b → same_access a b.
Proof.
  intros [Ha _] [Hb _] [= Hs Ht]. unfold same_access.
  apply (inj dec) in Hs. apply toISOString_inj in Ht; [|done..].
  repeat match goal with H : dec _ = dec _ |- _ => apply (inj dec) in H end.
  by split_and!.
Qed.

Lemma access_preimage_inj p q a b :
  wf_access a → wf_access b →
  p +:+ newline +:+ canonicalize a = q +:+ newline +:+ canonicalize b → p = q ∧ same_access a b.
Proof.
  intros Wa Wb H.
  apply (joined_text_inj US (Ascii.ascii_of_N 10) (dec (ae_seq a)) (dec (ae_seq b))
    (tail (attested a)) (tail (attested b))) in H as [-> Hf].
  - split; [done|]. by apply attested_inj.
  - done.
  - by apply attested_sep_free.
  - by apply attested_sep_free.
  - by apply dec_sep_free.
  - by apply dec_sep_free.
Qed.

#[global] Instance access_laws : ChainableLaws AuditEvent.
Proof.
  refine {| wf_event := wf_access; same_event := same_access |}.
  - by intros a b [? _].
  - apply access_preimage_inj.
Defined.

(** ** Paging reads every row once *)

Section paging.
Implicit Types (rows : list (Stored AuditEvent)) (head : option ChainHead) (cursor : option Z).

Definition in_head (head : option ChainHead) (r : Stored AuditEvent) : bool :=
  match head with Some h => row_seq r <=? lastSeq h | None => true end.
Definition after (cursor : option Z) (r : Stored AuditEvent) : bool :=
  match cursor with Some c => c <? row_seq r | None => true end.

(** The reference: all rows within the head, in sequence order. *)
Definition rows_in_head rows head : list (Stored AuditEvent) := by_seq (List.filter (in_head head) rows).

Lemma page_query_spec page rows head cursor :
  NoDup (row_seq <$> rows) →
  page_query page rows head cursor = take page (List.filter (after cursor) (rows_in_head rows head)).
Proof.
  intros Hnd. unfold page_query, rows_in_head, by_seq. f_equal.
  rewrite filter_andb. rewrite <-order_by_filter; [done|by apply NoDup_filter_fmap].
Qed.

Lemma last_take_drop {A} (l : list A) k n b :
  last (take n (drop k l)) = Some b → (n ≤ length (drop k l))%nat → l !! (k + n - 1)%nat = Some b.
Proof.
  rewrite last_lookup, length_take. intros Hb Hn.
  rewrite Nat.min_l in Hb by done. apply lookup_take_Some in Hb as [Hb ?].
  rewrite lookup_drop in Hb. by replace (k + n - 1)%nat with (k + pred n)%nat by lia.
Qed.

Lemma page_loop_from page rows head fuel k cursor :
  (0 < page)%nat → NoDup (row_seq <$> rows) →
  List.filter (after cursor) (rows_in_head rows head) = drop k (rows_in_head rows head) →
  (length (rows_in_head rows head) < k + fuel)%nat → (k ≤ length (rows_in_head rows head))%nat →
  page_loop page fuel rows head cursor (take k (rows_in_head rows head)) = Some (rows_in_head rows head).
Proof.
  intros Hp Hnd. assert (increasing row_seq (rows_in_head rows head)) as Hi.
  { by apply order_by_increasing, NoDup_filter_fmap. }
  revert k cursor. induction fuel as [|fuel IH]; intros k cursor Hc Hf Hk; [lia|].
  simpl. rewrite page_query_spec, Hc by done.
  set (all := rows_in_head rows head) in *.
  pose proof (length_drop all k) as Hd.
  destruct (last (take page (drop k all))) as [b|] eqn:Hl.
  - rewrite take_take_drop, length_take. destruct (Nat.ltb_spec (page `min` length (drop k all)) page).
    + f_equal. apply take_ge. lia.
    + apply last_take_drop in Hl; [|lia]. apply IH; [|lia..].
      etrans; [exact (increasing_after _ _ _ _ Hi Hl)|]. f_equal. lia.
  - apply last_None in Hl. f_equal. apply take_ge.
    apply (f_equal length) in Hl. rewrite length_take in Hl. simpl in Hl. lia.
Qed.

Lemma length_rows_in_head rows head : (length (rows_in_head rows head) ≤ length rows)%nat.
Proof.
  unfold rows_in_head, by_seq, order_by. rewrite merge_sort_Permutation. apply List.filter_length_le.
Qed.

Lemma page_loop_all (page fuel : nat) rows head :
  (0 < page)%nat → (length rows < fuel)%nat → NoDup (row_seq <$> rows) →
  page_loop page fuel rows head None [] = Some (rows_in_head rows head).
Proof.
  intros Hp Hf Hnd. pose proof (length_rows_in_head rows head).
  apply (page_loop_from page rows head fuel 0 None); [done..| |simpl; lia|lia].
  simpl. rewrite drop_0. generalize (rows_in_head rows head). intros l. induction l; simpl; congruence.
Qed.

Lemma elem_of_rows_in_head rows head r : r ∈ rows_in_head rows head ↔ r ∈ rows ∧ in_head head r = true.
Proof.
  unfold rows_in_head, by_seq, order_by. rewrite merge_sort_Permutation.
  by rewrite !list_elem_of_In, filter_In.
Qed.

(** C40: the paging loop of the verify routes, whatever the page size, ends
    within one page per row; the list it collects is in strictly increasing
    sequence order and holds exactly the rows the head covers, each once. *)
Theorem page_loop_complete (page fuel : nat) rows head :
  (0 < page)%nat → (length rows < fuel)%nat → NoDup (row_seq <$> rows) →
  ∃ l, page_loop page fuel rows head None [] = Some l ∧ increasing row_seq l ∧
       ∀ r, r ∈ l ↔ r ∈ rows ∧ in_head head r = true.
Proof.
  intros Hp Hf Hnd. exists (rows_in_head rows head).
  split_and!; [by apply page_loop_all|by apply order_by_increasing, NoDup_filter_fmap|].
  apply elem_of_rows_in_head.
Qed.
End paging.

(** ** The log as a state machine *)

Section log.
Context (date_parse : string → jsdate).
Context (sha256 : string → string).
Implicit Types (db : AuditDb) (events : list AuditInput).

Inductive audit_step : AuditDb → AuditDb → Prop :=
  | step_append users sites now events db db' n :
      appendAuditEvents date_parse sha256 users sites now db events = Some (db', n) → audit_step db db'
  | step_retention now retentionDays db db' n :
      auditRetention now retentionDays db = (db', n) → audit_step db db'.

(** The rows are a chain that ends at the stored head, and there are none
    before the head row exists. *)
Definition audit_inv db : Prop :=
  (∃ h, linked sha256 h (auditEvents db) (chainState db ?? genesis_head)) ∧
  (chainState db = None → auditEvents db = []).

(** What the database accepts of an event, independently of the lookups. *)
Definition storable (e : AuditInput) : bool :=
  match i_timestamp e with
  | Some t => negb (truthy t) || negb (bool_decide (date_parse t = InvalidDate))
  | None => true
  end &&
  match i_status e with None => true | Some (NInt z) => int4 z | Some _ => false end &&
  match bytes_of (i_bytesOut e) with Some b => int8 b | None => false end.

Definition to_columns (now : Z) (l : AuditLookups) (e : AuditInput) : option (Z → AuditEvent) :=
  normalizeAuditInput date_parse now e l ≫= columns.

Lemma to_columns_storable now l e : is_Some (to_columns now l e) ↔ storable e = true.
Proof.
  unfold to_columns, normalizeAuditInput, storable, columns.
  destruct (bytes_of (i_bytesOut e)) as [b|]; simpl;
    [|rewrite andb_false_r; split; [by intros []|done]].
  destruct (i_status e) as [[]|], (i_timestamp e) as [t|]; simpl;
    try destruct (truthy t); simpl; try destruct (date_parse t); simpl;
    repeat case_bool_decide; simpl; rewrite ?andb_true_r, ?andb_false_r; simpl;
    try destruct (int4 _); simpl; try destruct (int8 b); simpl; split; try done; try (by intros []);
    by eexists.
Qed.

Lemma to_columns_seq now l e f n : to_columns now l e = Some f → ae_seq (f n) = n.
Proof.
  unfold to_columns, columns. destruct (normalizeAuditInput _ _ _ _) as [r|]; simpl; [|done].
  intros. by repeat case_match; simplify_eq/=.
Qed.

Lemma mapM_bind {A B C} (f : A → option B) (g : B → option C) l :
  mapM f l ≫= mapM g = mapM (λ x, f x ≫= g) l.
Proof.
  induction l as [|x l IH]; [done|]. simpl. rewrite <-IH.
  destruct (f x) as [y|]; simpl; [|done]. destruct (mapM f l) as [ys|]; simpl.
  - destruct (g y); simpl; [|done]. by destruct (mapM g ys).
  - by destruct (g y).
Qed.

Lemma append_unfold users sites now db events :
  appendAuditEvents date_parse sha256 users sites now db events =
    match events with
    | [] => Some (db, 0)
    | _ => mk ← mapM (to_columns now (lookups_for users sites events)) events;
           let '(rows, head') := chain_rows sha256 (chainState db ?? genesis_head) mk in
           Some ({| auditEvents := auditEvents db ++ rows; chainState := Some head' |},
                 Z.of_nat (length rows))
    end.
Proof.
  unfold appendAuditEvents. destruct events as [|e events]; [done|].
  generalize (lookups_for users sites (e :: events)). intros l.
  unfold to_columns. rewrite <-mapM_bind.
  by destruct (mapM (λ e0, normalizeAuditInput _ _ e0 l) (e :: events)).
Qed.

Lemma mapM_columns_seq now l events mk f n :
  mapM (to_columns now l) events = Some mk → f ∈ mk → ae_seq (f n) = n.
Proof.
  intros Hm Hf. apply mapM_Some_1 in Hm. apply list_elem_of_lookup_1 in Hf as [i Hi].
  destruct (Forall2_lookup_r _ _ _ _ _ Hm Hi) as (e & _ & He). by eapply to_columns_seq.
Qed.

(** The rows an accepted batch adds continue the chain. *)
Lemma append_rows users sites now db events db' n :
  appendAuditEvents date_parse sha256 users sites now db events = Some (db', n) →
  ∃ rows, auditEvents db' = auditEvents db ++ rows ∧ length rows = length events ∧
    n = Z.of_nat (length events) ∧
    linked sha256 (chainState db ?? genesis_head) rows (chainState db' ?? genesis_head) ∧
    (chainState db' = None → rows = [] ∧ chainState db = None).
Proof.
  rewrite append_unfold. destruct events as [|e events].
  { intros [= <- <-]. exists []. rewrite app_nil_r. split_and!; try done. constructor. }
  destruct (mapM _ _) as [mk|] eqn:Hm; simpl; [|done].
  destruct (chain_rows _ _ _) as [rows head'] eqn:Hr. intros [= <- <-]. exists rows.
  pose proof (chain_rows_length _ _ _ _ _ Hr) as Hlen. apply length_mapM in Hm as Hlen'.
  simpl in Hlen'. simpl. split_and!; [done|simpl; lia|lia| |done].
  eapply chain_rows_linked; [|done]. intros f k Hf. by eapply mapM_columns_seq.
Qed.

Lemma linked_row_seq h l h' : linked sha256 h l h' → increasing row_seq l.
Proof. exact (linked_increasing sha256 h l h'). Qed.

Lemma retention_drop now days db db' n :
  audit_inv db → auditRetention now days db = (db', n) →
  chainState db' = chainState db ∧
  ∃ k, auditEvents db' = drop k (auditEvents db) ∧ (k ≤ length (auditEvents db))%nat.
Proof.
  intros [[h Hl] _]. unfold auditRetention.
  destruct (max_seq _) as [c|].
  2: { intros [= <- <-]. split; [done|]. exists 0%nat. split; [done|lia]. }
  intros [= <- <-]; simpl. split; [done|].
  destruct (increasing_delete_below row_seq (auditEvents db) c) as [k Hk]; [by eapply linked_row_seq|].
  unfold row_seq in Hk. rewrite Hk. destruct (decide (k ≤ length (auditEvents db))%nat); [by exists k|].
  exists (length (auditEvents db)). split; [|done]. rewrite !drop_ge by lia. done.
Qed.

Lemma audit_step_inv db db' : audit_inv db → audit_step db db' → audit_inv db'.
Proof.
  intros Hinv Hs. destruct Hs as [users sites now events db db' n Ha|now days db db' n Hr].
  - destruct Hinv as [[h Hl] Hn]. apply append_rows in Ha as (rows & Hrows & _ & _ & Hr & Hs).
    split; [exists h; rewrite Hrows; by eapply linked_app|]. rewrite Hrows. intros Hn'.
    destruct (Hs Hn') as [-> ?]. rewrite Hn by done. done.
  - destruct (retention_drop _ _ _ _ _ Hinv Hr) as (Hc & k & Hk & _). destruct Hinv as [[h Hl] Hn].
    unfold audit_inv. rewrite Hk, Hc. split; [by eapply linked_drop|].
    intros Hn'. by rewrite Hn, drop_nil.
Qed.

Lemma audit_reachable_inv db : rtc audit_step audit_init db → audit_inv db.
Proof.
  assert (audit_inv audit_init) as H0 by (split; [exists genesis_head; constructor|done]).
  intros Hr. revert H0. induction Hr; eauto using audit_step_inv.
Qed.

Lemma linked_rows_in_head h l head h' :
  linked sha256 h l h' → match head with Some x => x = h' | None => True end → rows_in_head l head = l.
Proof.
  intros Hl Hh. unfold rows_in_head, by_seq.
  rewrite (List.filter_ext_in _ (λ _, true)).
  - assert (List.filter (λ _, true) l = l) as -> by (clear; induction l; simpl; congruence).
    apply order_by_id. by eapply linked_row_seq.
  - intros r Hr%list_elem_of_In. unfold in_head. destruct head; [subst|done].
    pose proof (linked_seqs _ _ _ _ _ Hl Hr). simpl in *. unfold row_seq. lia.
Qed.

Lemma verify_rows_inv db :
  audit_inv db → verify_rows sha256 db = Some (verifyChain sha256 (auditEvents db) (chainState db)).
Proof.
  intros [[h Hl] _]. unfold verify_rows. rewrite page_loop_all.
  - simpl. erewrite linked_rows_in_head; [done..|]. by destruct (chainState db).
  - unfold PAGE. lia.
  - lia.
  - by eapply increasing_NoDup, linked_row_seq.
Qed.

Lemma verifyChain_count (E : Type) `{Chainable E} (l : list (Stored E)) head :
  count (verifyChain sha256 l head) = Z.of_nat (length l).
Proof. destruct l; [done|]. unfold verifyChain. by repeat case_match. Qed.

(** C6: whatever batches the data plane appended and however often the
    retention job ran since the log was empty, the verify route ends, reports
    the log intact and counts every row. *)
Theorem audit_reachable_verifies db :
  rtc audit_step audit_init db →
  ∃ r, verify_rows sha256 db = Some r ∧ ok r = true ∧ count r = Z.of_nat (length (auditEvents db)).
Proof.
  intros Hinv%audit_reachable_inv. eexists. split; [by apply verify_rows_inv|].
  split; [|apply verifyChain_count]. destruct Hinv as [[h Hl] _].
  destruct (chainState db); [by eapply linked_verifies|].
  apply verifyChain_ok. split; [by eapply consistent_weaken, linked_consistent|]. by intros ? ? ? [=].
Qed.

(** C2: tamper evidence of the access log.  Take a log with rows that the program produced
    and any other contents of its table (sequence numbers unique, as the index
    enforces) under the same stored head: if the verify route accepts them and
    sees at least one row, then what it read attests, row for row, the very texts
    that the genuine log attests, save for rows missing or added at the old end
    (where retention purges), or two texts with one SHA-256 digest are in hand.  A
    row and its genuine counterpart are equal in every attested field whenever in
    both the date is a JavaScript date and no field holds the unit separator; a
    separator in a field (a decoded path may have one) leaves the row fixed up to
    its text only.  The digest is assumed to be one line, as hexadecimal is. *)
Theorem access_tamper_evident db rows' r :
  one_line_digest sha256 →
  rtc audit_step audit_init db → auditEvents db ≠ [] →
  NoDup (row_seq <$> rows') → rows_in_head rows' (chainState db) ≠ [] →
  verify_rows sha256 {| auditEvents := rows'; chainState := chainState db |} = Some r → ok r = true →
  collision sha256 ∨ older_attested (rows_in_head rows' (chainState db)) (auditEvents db)
                   ∨ older_attested (auditEvents db) (rows_in_head rows' (chainState db)).
Proof.
  intros Hline Hinv%audit_reachable_inv Hne Hnd Hne' Hv Hok.
  unfold verify_rows in Hv. rewrite page_loop_all in Hv; [|unfold PAGE; lia|simpl; lia|done].
  simpl in Hv. simplify_eq. apply verifyChain_ok in Hok as [Hc Hh]. destruct Hinv as [[h Hl] Hn].
  destruct (last (rows_in_head rows' (chainState db))) as [x|] eqn:Lx; [|by apply last_None in Lx].
  destruct (last (auditEvents db)) as [y|] eqn:Ly; [|by apply last_None in Ly].
  pose proof (linked_last _ _ _ _ _ Hl Ly) as [Hys Hyh].
  destruct (chainState db) as [hd|] eqn:Hhd; [simpl in *|by rewrite Hn in Hne].
  destruct (Hh x hd eq_refl eq_refl) as [_ Hxh].
  eapply attested_agree; [done|done|by eapply consistent_weaken, linked_consistent|done..|congruence].
Qed.

(** Cutting rows out of a log the program produced is reported.  Rows
    taken from the middle are noticed unless a SHA-256 collision exists; rows
    taken from the new end are always noticed. *)
Theorem access_cut_detected db (a b c : list (Stored AuditEvent)) :
  rtc audit_step audit_init db → auditEvents db = a ++ b ++ c → a ≠ [] → b ≠ [] →
  (c ≠ [] → wf_rows (auditEvents db) → ok (verifyChain sha256 (a ++ c) (chainState db)) = true →
     collision sha256) ∧
  (c = [] → ok (verifyChain sha256 a (chainState db)) = false).
Proof.
  intros Hinv%audit_reachable_inv Heq Ha Hb. destruct Hinv as [[h Hl] Hn]. rewrite Heq in *. split.
  - intros Hc Hw Hok. apply verifyChain_ok in Hok as [Hok _]. by eapply interior_deletion.
  - intros ->. apply not_true_iff_false. intros [_ Hh]%verifyChain_ok. rewrite app_nil_r in *.
    destruct (exists_last Ha) as (a' & ra & ->), (exists_last Hb) as (b' & rb & ->).
    destruct (chainState db) as [hd|]; [|by destruct a'; specialize (Hn eq_refl)].
    destruct (Hh ra hd) as [Hs _]; [by rewrite last_snoc|done|].
    apply linked_app_inv in Hl as (hm & L1 & L2). simpl in *.
    pose proof (linked_seqs _ _ _ _ ra L1 ltac:(set_solver)).
    pose proof (linked_length _ _ _ _ L2) as Hlen. rewrite length_app in Hlen. simpl in *. lia.
Qed.

(** Deleting every row is the cut that goes unreported: an empty table
    verifies against any head. *)
Lemma wiped_log_verifies db :
  ∃ r, verify_rows sha256 {| auditEvents := []; chainState := chainState db |} = Some r ∧ ok r = true.
Proof. eexists. split; reflexivity. Qed.

(** What a stored row keeps of the event it was made from. *)
Definition records (users : list User) (sites : list Site) (events : list AuditInput) (now seq : Z)
    (e : AuditInput) (r : AuditEvent) : Prop :=
  ae_seq r = seq ∧
  (∀ t, i_timestamp e = Some t → truthy t = true → date_parse t = ValidDate (ae_timestamp r)) ∧
  ((i_timestamp e ?? "") = "" → ae_timestamp r = now) ∧
  ae_userId r = i_userId e ∧ ae_siteId r = i_siteId e ∧
  ae_host r = i_host e ?? "" ∧ ae_method r = i_method e ?? "" ∧ ae_path r = i_path e ?? "" ∧
  NInt (ae_status r) = i_status e ?? NInt 0 ∧ 0 ≤ ae_bytesOut r ∧
  (ae_decision r = "DENY"%string ↔ i_decision e = Some "DENY"%string) ∧
  (ae_decision r = "DENY"%string ∨ ae_decision r = "ALLOW"%string) ∧
  ae_reason r = i_reason e ∧ ae_clientIp r = i_clientIp e ∧ ae_userAgent r = i_userAgent e ∧
  ae_userEmail r = lookup_by (i_userId e) (emailById (lookups_for users sites events)) ∧
  ae_siteName r = lookup_by (i_siteId e) (siteNameById (lookups_for users sites events)).

Lemma bytes_of_nonneg b z : bytes_of b = Some z → 0 ≤ z.
Proof. destruct b as [[]|]; simpl; intros; simplify_eq; lia. Qed.

Lemma to_columns_records users sites events now seq e f :
  to_columns now (lookups_for users sites events) e = Some f →
  records users sites events now seq e (f seq).
Proof.
  unfold to_columns, normalizeAuditInput. destruct (bytes_of _) as [b|] eqn:Hb; simpl; [|done].
  apply bytes_of_nonneg in Hb. unfold columns; simpl. intros Hc.
  destruct (match i_timestamp e with Some _ => _ | None => _ end) as [ts|] eqn:Ht in Hc; [|done].
  destruct (i_status e ?? NInt 0) as [st| | | |] eqn:Hst; try done.
  destruct (int4 st && int8 b); [|done]. simplify_eq. unfold records; simpl.
  split_and!; try done.
  - intros t Ht' Htr. rewrite Ht', Htr in Ht. done.
  - destruct (i_timestamp e); simpl in *; [|by simplify_eq]. intros ->. by simplify_eq/=.
  - case_bool_decide; by split.
  - case_bool_decide; tauto.
Qed.

Lemma mapM_None_storable now l events :
  mapM (to_columns now l) events = None → ∃ e, e ∈ events ∧ storable e = false.
Proof.
  intros Hm%mapM_None_1. apply Exists_exists in Hm as (e & He & Hn). exists e. split; [done|].
  apply not_true_iff_false. intros Hs%(to_columns_storable now l). rewrite Hn in Hs. by destruct Hs.
Qed.

Lemma append_None users sites now db events :
  appendAuditEvents date_parse sha256 users sites now db events = None ↔
  ∃ e, e ∈ events ∧ storable e = false.
Proof.
  rewrite append_unfold. destruct events as [|e0 es].
  { split; [done|]. by intros (? & ?%not_elem_of_nil & _). }
  destruct (mapM _ _) as [mk|] eqn:Hm; simpl; [|split; [by intros; eapply mapM_None_storable|done]].
  destruct (chain_rows _ _ _). split; [done|]. intros (e & He & Hs).
  apply mapM_Some_1 in Hm. apply list_elem_of_lookup_1 in He as [i Hi].
  destruct (Forall2_lookup_l _ _ _ _ _ Hm Hi) as (f & _ & Hf).
  assert (storable e = true) by (eapply to_columns_storable; by eexists). congruence.
Qed.

(** [appendAuditEvents] either throws, and then some event of the batch is
    one the row cannot hold (unparsable date, status outside 32 bits, byte
    count not an integer of 64), or it stores every event of the batch, in
    order, numbered after the head without a gap, each row keeping its event's
    fields, and returns their number. *)
Theorem append_spec users sites now db events :
  match appendAuditEvents date_parse sha256 users sites now db events with
  | None => ∃ e, e ∈ events ∧ storable e = false
  | Some (db', n) =>
      Forall (λ e, storable e = true) events ∧ n = Z.of_nat (length events) ∧
      ∃ rows, auditEvents db' = auditEvents db ++ rows ∧ length rows = length events ∧
        ∀ i e, events !! i = Some e → ∃ r, rows !! i = Some r ∧
          records users sites events now
            (lastSeq (chainState db ?? genesis_head) + 1 + Z.of_nat i) e (s_event r)
  end.
Proof.
  rewrite append_unfold. destruct events as [|e0 es] eqn:Hev.
  { split_and!; [done..|]. exists []. rewrite app_nil_r. done. }
  rewrite <-Hev. clear Hev.
  destruct (mapM _ _) as [mk|] eqn:Hm; simpl; [|by eapply mapM_None_storable].
  destruct (chain_rows _ _ _) as [rows head'] eqn:Hr.
  pose proof (chain_rows_length _ _ _ _ _ Hr) as Hlen. apply length_mapM in Hm as Hlen'.
  apply mapM_Some_1 in Hm. split_and!; [|lia|].
  - apply Forall_forall. intros e He. apply list_elem_of_lookup_1 in He as [i Hi].
    destruct (Forall2_lookup_l _ _ _ _ _ Hm Hi) as (f & _ & Hf).
    eapply to_columns_storable. by eexists.
  - exists rows. split_and!; [done|lia|]. intros i e He.
    destruct (Forall2_lookup_l _ _ _ _ _ Hm He) as (f & Hf & Hc).
    destruct (chain_rows_lookup _ _ _ _ _ _ _ Hr Hf) as (r & Hri & Hre). exists r.
    split; [done|]. rewrite Hre. by apply to_columns_records.
Qed.

Lemma max_seq_Some rows c :
  max_seq rows = Some c → (∃ r, r ∈ rows ∧ row_seq r = c) ∧ ∀ r, r ∈ rows → row_seq r ≤ c.
Proof.
  revert c. induction rows as [|x rows IH]; intros c; simpl; [done|].
  destruct (max_seq rows) as [m|] eqn:Hm; intros [= <-].
  - destruct (IH m eq_refl) as [(r & Hr & Hc) Hall]. split.
    + destruct (Z.max_spec (ae_seq (s_event x)) m) as [[_ ->]|[_ ->]];
        [exists r|exists x]; unfold row_seq in *; set_solver.
    + intros y [->|Hy]%elem_of_cons; [unfold row_seq; lia|]. specialize (Hall y Hy). lia.
  - split; [exists x; set_solver|]. intros y [->|Hy]%elem_of_cons; [done|].
    destruct rows; simpl in Hm; [set_solver|done].
Qed.
Lemma max_seq_None rows : max_seq rows = None → rows = [].
Proof. by destruct rows. Qed.

(** The retention job on a log the program produced removes a prefix of
    the chain, reports its length, leaves no row older than the cutoff, and
    cuts no further than it must: the newest row it removes is older than the
    cutoff. *)
Theorem retention_spec now days db db' n :
  rtc audit_step audit_init db → auditRetention now days db = (db', n) →
  ∃ k, auditEvents db' = drop k (auditEvents db) ∧ n = Z.of_nat k ∧ (k ≤ length (auditEvents db))%nat ∧
    (∀ r, r ∈ auditEvents db' → now - days * 24 * 60 * 60 * 1000 ≤ ae_timestamp (s_event r)) ∧
    (∀ r, auditEvents db !! pred k = Some r → (0 < k)%nat →
       ae_timestamp (s_event r) < now - days * 24 * 60 * 60 * 1000).
Proof.
  intros [[h Hl] _]%audit_reachable_inv. apply linked_row_seq in Hl as Hi. unfold auditRetention.
  set (cutoff := now - _). set (old := List.filter _ _).
  destruct (max_seq old) as [c|] eqn:Hm; intros [= <- <-]; simpl.
  - apply max_seq_Some in Hm as [(b & [Hb Hbt]%list_elem_of_In%filter_In & Hbc) Hall].
    apply list_elem_of_In, list_elem_of_lookup_1 in Hb as [j Hj].
    assert (delete_where (λ r, ae_seq (s_event r) <=? c) (auditEvents db) = drop (S j) (auditEvents db)) as Hd.
    { rewrite <-(increasing_after _ _ _ _ Hi Hj), Hbc. apply List.filter_ext.
      intros r. unfold row_seq; simpl. by rewrite Z.leb_antisym, negb_involutive. }
    pose proof (count_delete_where (λ r, ae_seq (s_event r) <=? c) (auditEvents db)) as Hn.
    apply lookup_lt_Some in Hj as Hlt. rewrite Hd, length_drop in Hn. exists (S j).
    split_and!; [done|lia|lia| |].
    + intros r [Hr Hp]%elem_of_delete_where. destruct (Z.lt_ge_cases (ae_timestamp (s_event r)) cutoff); [|done].
      assert (r ∈ old) as Ho by (apply list_elem_of_In, filter_In; rewrite <-list_elem_of_In; split; [done|lia]).
      specialize (Hall r Ho). unfold row_seq in Hall. lia.
    + simpl. intros r Hr _. simplify_eq. reflect_bool. lia.
  - apply max_seq_None in Hm. exists 0%nat. split_and!; [done..|lia| |lia].
    intros r Hr. destruct (Z.lt_ge_cases (ae_timestamp (s_event r)) cutoff); [|done].
    assert (r ∈ old) as Ho by (apply list_elem_of_In, filter_In; rewrite <-list_elem_of_In; split; [done|lia]).
    rewrite Hm in Ho. by apply elem_of_nil in Ho.
Qed.
End log.

(** ** The canonical text *)

(** The canonical text of an access event determines the event: two events
    without the unit separator in their text have one text exactly when they
    agree in every attested field, null and empty text identified. *)
Theorem canonicalize_injective a b :
  wf_access a → wf_access b → canonicalize a = canonicalize b ↔ same_access a b.
Proof.
  intros Wa Wb. split.
  - intros H. eapply (access_preimage_inj "" ""); [done..|]. by rewrite H.
  - unfold same_access, canonicalize, attested. intros H. destruct_and!. congruence.
Qed.

(** ** Concrete runs *)

(** A digest for examples: the text itself on one line. *)
Definition demo_digest (s : string) : string :=
  unchars (concat (map (λ c, if bool_decide (c = Ascii.ascii_of_N 10) then chars "\n" else if bool_decide (c = Ascii.ascii_of_N 92) then chars "\\" else [c])
    (chars s))).
Lemma demo_digest_line : one_line_digest demo_digest.
Proof.
  intros x. unfold sep_free, demo_digest. rewrite chars_unchars. induction (chars x) as [|c l IH]; cbn [map concat]; [by apply not_elem_of_nil|].
  apply not_elem_of_app. split; [|done]. repeat case_bool_decide; cbn; set_solver.
Qed.
Definition demo_parse (s : string) : jsdate :=
  if (s =s "2026-01-02T03:04:05.000Z") then ValidDate 1767323045000 else InvalidDate.
Definition demo_event (ts path decision : string) : AuditInput :=
  {| i_timestamp := Some ts; i_userId := Some "u1"%string; i_siteId := Some "s1"%string;
     i_host := Some "wiki.example"%string; i_method := Some "GET"%string; i_path := Some path;
     i_status := Some (NInt 200); i_bytesOut := Some (NFrac 12); i_decision := Some decision;
     i_reason := None; i_clientIp := Some "10.0.0.1"%string; i_userAgent := None |}.
Definition demo_batch : list AuditInput :=
  [demo_event "2026-01-02T03:04:05.000Z" "/a" "ALLOW"; demo_event "" "/b" "DENY"; demo_event "" "/c" "ALLOW"].
Definition demo_db : AuditDb :=
  match appendAuditEvents demo_parse demo_digest [] [] 1800000000000 audit_init demo_batch with
  | Some (d, _) => d
  | None => audit_init
  end.

Lemma demo_db_reachable : rtc (audit_step demo_parse demo_digest) audit_init demo_db.
Proof. apply rtc_once. apply (step_append _ _ [] [] 1800000000000 demo_batch _ _ 3). vm_compute. reflexivity. Qed.

Lemma wf_rows_check rows : forallb (λ r, bool_decide (wf_access (s_event r))) rows = true → wf_rows rows.
Proof.
  intros H. apply Forall_forall. intros r Hr. rewrite forallb_forall in H.
  apply (bool_decide_eq_true_1 (wf_access (s_event r))), H. by apply list_elem_of_In.
Qed.

Lemma page_loop_complete_witness :
  ∃ l, page_loop 2 9 (auditEvents demo_db) (chainState demo_db) None [] = Some l ∧ length l = 3%nat ∧
    increasing row_seq l.
Proof.
  destruct (page_loop_complete 2 9 (auditEvents demo_db) (chainState demo_db)) as (l & Hl & Hi & _).
  - lia.
  - vm_compute. lia.
  - apply (bool_decide_unpack _). vm_compute. exact I.
  - exists l. split; [exact Hl|]. split; [|exact Hi]. vm_compute in Hl. injection Hl as <-. reflexivity.
Defined.

Lemma audit_reachable_verifies_witness :
  ∃ r, verify_rows demo_digest demo_db = Some r ∧ ok r = true ∧ count r = 3.
Proof. exact (audit_reachable_verifies demo_parse demo_digest demo_db demo_db_reachable). Defined.

Lemma access_tamper_evident_witness :
  collision demo_digest ∨
  older_attested (rows_in_head (drop 1 (auditEvents demo_db)) (chainState demo_db)) (auditEvents demo_db) ∨
  older_attested (auditEvents demo_db) (rows_in_head (drop 1 (auditEvents demo_db)) (chainState demo_db)).
Proof.
  eapply (access_tamper_evident demo_parse demo_digest demo_db (drop 1 (auditEvents demo_db))).
  - exact demo_digest_line.
  - exact demo_db_reachable.
  - vm_compute. discriminate.
  - apply (bool_decide_unpack _). vm_compute. exact I.
  - vm_compute. discriminate.
  - vm_compute. reflexivity.
  - reflexivity.
Defined.

Lemma access_cut_detected_witness :
  ok (verifyChain demo_digest (take 2 (auditEvents demo_db)) (chainState demo_db)) = false.
Proof.
  apply (access_cut_detected demo_parse demo_digest demo_db (take 2 (auditEvents demo_db))
    (drop 2 (auditEvents demo_db)) []).
  - exact demo_db_reachable.
  - vm_compute. reflexivity.
  - vm_compute. discriminate.
  - vm_compute. discriminate.
  - reflexivity.
Defined.

Lemma retention_spec_witness :
  ∃ k, drop 1 (auditEvents demo_db) = drop k (auditEvents demo_db) ∧ 1 = Z.of_nat k ∧
    (k ≤ length (auditEvents demo_db))%nat ∧
    (∀ r, r ∈ drop 1 (auditEvents demo_db) → 1800000000000 - 90 * 24 * 60 * 60 * 1000 ≤ ae_timestamp (s_event r)) ∧
    (∀ r, auditEvents demo_db !! pred k = Some r → (0 < k)%nat →
       ae_timestamp (s_event r) < 1800000000000 - 90 * 24 * 60 * 60 * 1000).
Proof.
  apply (retention_spec demo_parse demo_digest 1800000000000 90 demo_db
    {| auditEvents := drop 1 (auditEvents demo_db); chainState := chainState demo_db |} 1).
  - exact demo_db_reachable.
  - vm_compute. reflexivity.
Defined.

Definition demo_row (user : option string) (path : string) : AuditEvent :=
  {| ae_seq := 1; ae_timestamp := 0; ae_userId := user; ae_userEmail := None; ae_userName := None;
     ae_company := None; ae_siteId := None; ae_siteName := None; ae_host := "h";
     ae_method := "GET"; ae_path := path; ae_status := 200; ae_bytesOut := 7;
     ae_decision := "ALLOW"; ae_reason := None; ae_clientIp := None; ae_userAgent := None |}.
Lemma canonicalize_injective_witness :
  canonicalize (demo_row None "/a") = canonicalize (demo_row (Some ""%string) "/a") ↔
  same_access (demo_row None "/a") (demo_row (Some ""%string) "/a").
Proof. apply canonicalize_injective; apply (bool_decide_unpack _); vm_compute; exact I. Defined.

(** Without the assumption the text is ambiguous: a unit separator inside the
    path lets text move between neighbouring fields. *)
Definition ambiguous_a : AuditEvent := demo_row None (unchars [US] +:+ "x").
Definition ambiguous_b : AuditEvent :=
  {| ae_seq := 1; ae_timestamp := 0; ae_userId := None; ae_userEmail := None; ae_userName := None;
     ae_company := None; ae_siteId := None; ae_siteName := None; ae_host := "h";
     ae_method := "GET" +:+ unchars [US]; ae_path := "x"; ae_status := 200; ae_bytesOut := 7;
     ae_decision := "ALLOW"; ae_reason := None; ae_clientIp := None; ae_userAgent := None |}.
Lemma canonicalize_ambiguous :
  canonicalize ambiguous_a = canonicalize ambiguous_b ∧ ae_path ambiguous_a ≠ ae_path ambiguous_b.
Proof. split; [vm_compute; reflexivity|done]. Qed.
