(* ===== verification/AdminLog.v ===== *)
(** * The admin audit log

    src/lib/audit/admin-chain.ts ([stableStringify], [canonicalizeAdmin],
    [verifyAdminChain]), admin.ts ([recordAdminAction]), admin-backfill.ts
    ([backfillAdminChain]) and the admin-verify route.  The state is one
    tenant's AdminAuditEvent rows and its "admin" AuditChainState head.

    A row's metadata goes through a jsonb column between hashing and
    verifying.  The column is not part of the program: [json_store] stands for
    it, and what the program relies on is [json_store_ok], which says that a
    value without [undefined] comes back equal up to the order of object keys. *)

From S2P Require Import Prelude JsString JsValue Schema AuditChain AccessLog.

(** ** JSON text *)

Definition hex_digit (n : Z) : Ascii.ascii :=
  Ascii.ascii_of_N (Z.to_N (if n <? 10 then 48 + n else 87 + n)).

(** One character inside a [JSON.stringify]'d string. *)
Definition quote_char (c : Ascii.ascii) : list Ascii.ascii :=
  let n := code c in
  let esc x := [Ascii.ascii_of_N 92; x] in
  if n =? 34 then esc c
  else if n =? 92 then esc c
  else if n =? 8 then esc (Ascii.ascii_of_N 98)
  else if n =? 9 then esc (Ascii.ascii_of_N 116)
  else if n =? 10 then esc (Ascii.ascii_of_N 110)
  else if n =? 12 then esc (Ascii.ascii_of_N 102)
  else if n =? 13 then esc (Ascii.ascii_of_N 114)
  else if n <? 32 then chars "\u00" ++ [hex_digit (n / 16); hex_digit (n mod 16)]
  else [c].
Definition quote (s : string) : string :=
  let q := Ascii.ascii_of_N 34 in unchars (q :: concat (map quote_char (chars s)) ++ [q]).

(** A member of an object, ordered by its key alone. *)
Definition member_le (a b : string * string) : Prop := String.le a.1 b.1.
#[global] Instance member_le_dec a b : Decision (member_le a b).
Proof. unfold member_le. apply _. Defined.
#[global] Instance member_le_trans : Transitive member_le.
Proof. intros a b c. unfold member_le. apply transitivity. Qed.
#[global] Instance member_le_total : Total member_le.
Proof. intros a b. unfold member_le. apply (total String.le). Qed.

Section text.
(** The digits of a non-integral number; integers print as [dec] (below 10^21,
    where the exponent form starts). *)
Context (frac_text : Z → string).

Definition num_text (n : jsnum) : string :=
  match n with NInt z => dec z | NFrac fl => frac_text fl | _ => "null" end.

(** [stableStringify]: the members are printed, then put in key order, which
    is the order of [Object.keys(o).sort()]. *)
Fixpoint stableStringify (v : json) : string :=
  match v with
  | JUndefined | JNull => "null"
  | JBool b => if b then "true" else "false"
  | JNum n => num_text n
  | JStr s => quote s
  | JArr l => "[" +:+ join "," (map stableStringify l) +:+ "]"
  | JObj fs =>
      let members := map (λ p, (p.1, quote p.1 +:+ ":" +:+ stableStringify p.2)) fs in
      "{" +:+ join "," (map snd (merge_sort member_le members)) +:+ "}"
  end.

(** ** Events *)

(** The fields of an admin event, its sequence number aside. *)
Record AdminBody := {
  ab_timestamp : Z;
  ab_actorId : option string;
  ab_actorEmail : option string;
  ab_action : string;
  ab_targetType : option string;
  ab_targetId : option string;
  ab_summary : string;
  ab_metadata : json;
  ab_clientIp : option string;
}.

Record AdminChainable := { ac_seq : Z; ac_body : AdminBody }.

(** [metadata ?? null] *)
Definition or_null (v : json) : json := if is_nullish v then JNull else v.

Definition attestedAdmin (e : AdminChainable) : list string :=
  let b := ac_body e in
  [ dec (ac_seq e); toISOString (ab_timestamp b); ab_actorId b ?? ""; ab_actorEmail b ?? "";
    ab_action b; ab_targetType b ?? ""; ab_targetId b ?? ""; ab_summary b;
    stableStringify (or_null (ab_metadata b)); ab_clientIp b ?? "" ].

Definition canonicalizeAdmin (e : AdminChainable) : string := join (unchars [US]) (attestedAdmin e).
End text.

(** A row of AdminAuditEvent; rows written before the chain existed have no
    number and empty hashes. *)
Record AdminRow := {
  ar_id : string;
  ar_createdAt : Z;
  ar_body : AdminBody;
  ar_seq : option Z;
  ar_prevHash : string;
  ar_hash : string;
}.

Record AdminDb := { adminRows : list AdminRow; adminHead : option ChainHead }.

Record AdminActor := { actor_id : string; actor_email : option string }.
Record AdminAction := {
  in_actor : AdminActor;
  in_action : string;
  in_targetType : option string;
  in_targetId : option string;
  in_summary : string;
  in_metadata : json;
  in_clientIp : option string;
}.

Definition to_stored (r : AdminRow) : option (Stored AdminChainable) :=
  (λ s, MkStored {| ac_seq := s; ac_body := ar_body r |} (ar_prevHash r) (ar_hash r)) <$> ar_seq r.

(** [orderBy: [{ createdAt: "asc" }, { id: "asc" }]] *)
Definition created_le (a b : AdminRow) : Prop :=
  ar_createdAt a < ar_createdAt b ∨ (ar_createdAt a = ar_createdAt b ∧ String.le (ar_id a) (ar_id b)).
#[global] Instance created_le_dec a b : Decision (created_le a b).
Proof. unfold created_le. apply _. Defined.

(** ** The text of a JSON value *)

Section json_induction.
Context (P : json → Prop).
Context (Hundef : P JUndefined) (Hnull : P JNull) (Hbool : ∀ b, P (JBool b))
  (Hnum : ∀ n, P (JNum n)) (Hstr : ∀ s, P (JStr s))
  (Harr : ∀ l, Forall P l → P (JArr l))
  (Hobj : ∀ fs, Forall (λ p, P p.2) fs → P (JObj fs)).

(** Induction with the hypothesis on every element and member. *)
Fixpoint json_nested_ind (v : json) : P v :=
  match v with
  | JUndefined => Hundef
  | JNull => Hnull
  | JBool b => Hbool b
  | JNum n => Hnum n
  | JStr s => Hstr s
  | JArr l => Harr l ((fix go l : Forall P l :=
      match l with
      | [] => List.Forall_nil P
      | x :: l' => List.Forall_cons P x l' (json_nested_ind x) (go l')
      end) l)
  | JObj fs => Hobj fs ((fix go fs : Forall (λ p, P p.2) fs :=
      match fs with
      | [] => List.Forall_nil _
      | p :: fs' => List.Forall_cons (λ p, P p.2) p fs' (json_nested_ind p.2) (go fs')
      end) fs)
  end.
End json_induction.

(** Equal up to the order of object members. *)
Inductive json_eqv : json → json → Prop :=
  | eqv_refl v : json_eqv v v
  | eqv_arr l l' : Forall2 json_eqv l l' → json_eqv (JArr l) (JArr l')
  | eqv_obj fs gs hs :
      Forall2 (λ p q, p.1 = q.1 ∧ json_eqv p.2 q.2) fs gs → gs ≡ₚ hs → json_eqv (JObj fs) (JObj hs).

(** What JSON can express: no [undefined], finite numbers, one member per key. *)
Fixpoint json_clean (v : json) : bool :=
  match v with
  | JUndefined => false
  | JNum n => isFinite n
  | JArr l => forallb json_clean l
  | JObj fs => bool_decide (NoDup (map fst fs)) && forallb (λ p, json_clean p.2) fs
  | _ => true
  end.

(** What [JSON.stringify] keeps of a value: an [undefined] member disappears,
    an [undefined] element and a number that is not finite become [null]. *)
Fixpoint json_wire (v : json) : json :=
  match v with
  | JUndefined => JNull
  | JNum n => if isFinite n then v else JNull
  | JArr l => JArr (map json_wire l)
  | JObj fs => JObj (flat_map (λ p, match p.2 with JUndefined => [] | _ => [(p.1, json_wire p.2)] end) fs)
  | _ => v
  end.

(** The assumption on the column. *)
Definition json_store_ok (store : json → json) : Prop :=
  ∀ v, json_clean v = true → json_eqv v (store v).

Lemma json_wire_clean v : json_clean v = true → json_wire v = v.
Proof.
  induction v as [| | | | |l IH|fs IH] using json_nested_ind; simpl; try done.
  - by intros ->.
  - intros Hc. f_equal. rewrite forallb_forall in Hc.
    induction IH as [|x l Hx Hl IHl]; simpl; [done|]. rewrite Hx by (apply Hc; by left).
    f_equal. apply IHl. intros y Hy. apply Hc. by right.
  - intros [_ Hc]%andb_true_iff. f_equal. rewrite forallb_forall in Hc.
    induction IH as [|[k x] fs Hx Hl IHl]; simpl; [done|].
    pose proof (Hc (k, x) (or_introl eq_refl)) as Hcx. simpl in *.
    rewrite (Hx Hcx), IHl by (intros y Hy; apply Hc; by right). by destruct x.
Qed.
Lemma json_wire_ok : json_store_ok json_wire.
Proof. intros v Hc. rewrite json_wire_clean by done. constructor. Qed.

Lemma sort_members_unique (l l' : list (string * string)) :
  l ≡ₚ l' → NoDup l.*1 → merge_sort member_le l = merge_sort member_le l'.
Proof.
  intros Hp Hnd. apply (StronglySorted_unique_strong member_le).
  - intros [k1 t1] [k2 t2] H1 H2 Hle Hle'. rewrite merge_sort_Permutation in H1.
    rewrite merge_sort_Permutation, <-Hp in H2. unfold member_le in *; simpl in *.
    assert (k1 = k2) as <- by by apply (anti_symm String.le).
    f_equal. clear -H1 H2 Hnd. induction l as [|[k t] l IH]; [set_solver|].
    rewrite fmap_cons in Hnd. apply NoDup_cons in Hnd as [Hk Hnd].
    apply elem_of_cons in H1 as [H1|H1], H2 as [H2|H2]; simplify_eq/=; [done|..|auto].
    + destruct Hk. by apply (list_elem_of_fmap_2 fst l (k, t2)).
    + destruct Hk. by apply (list_elem_of_fmap_2 fst l (k, t1)).
  - apply StronglySorted_merge_sort; apply _.
  - apply StronglySorted_merge_sort; apply _.
  - by rewrite !merge_sort_Permutation.
Qed.

Section stable.
Context (frac_text : Z → string).

(** Key order does not reach the text. *)
Lemma stable_eqv v w :
  json_clean v = true → json_eqv v w → stableStringify frac_text v = stableStringify frac_text w.
Proof.
  revert w. induction v as [| | | | |l IH|fs IH] using json_nested_ind; intros w Hc Hv;
    inversion Hv as [|? l' Hl|? gs hs Hg Hp]; subst; try done; simpl.
  - f_equal. f_equal. f_equal. simpl in Hc. rewrite forallb_forall in Hc. clear Hv.
    induction Hl as [|x y l l' Hxy Hl IHl]; simpl; [done|].
    apply Forall_cons in IH as [Hx IH]. f_equal; [apply Hx; [apply Hc; by left|done]|].
    apply IHl; [done|]. intros z Hz. apply Hc. by right.
  - simpl in Hc. apply andb_true_iff in Hc as [Hnd Hc]. apply bool_decide_eq_true_1 in Hnd.
    f_equal. f_equal. f_equal. f_equal.
    set (f := λ p : string * json, (p.1, quote p.1 +:+ ":" +:+ stableStringify frac_text p.2)).
    assert (map f fs = map f gs) as ->.
    { rewrite forallb_forall in Hc. clear Hp Hv Hnd.
      induction Hg as [|p q fs gs [Hk Hpq] Hg IHg]; simpl; [done|].
      apply Forall_cons in IH as [Hx IH]. f_equal.
      - unfold f. rewrite Hk, (Hx q.2); [done|apply Hc; by left|done].
      - apply IHg; [done|]. intros z Hz. apply Hc. by right. }
    apply sort_members_unique; [by apply Permutation_map|].
    assert (map fst fs = map fst gs) as Hk.
    { clear -Hg. induction Hg as [|p q fs gs [Hk _] _ IHg]; simpl; [done|by f_equal]. }
    rewrite Hk in Hnd. change ((map f gs).*1) with (map fst (map f gs)). by rewrite map_map.
Qed.

(** *** No unit separator in the text *)

Lemma quote_char_free c : US ∉ quote_char c.
Proof. destruct c as [[] [] [] [] [] [] [] []]; apply (bool_decide_unpack _); vm_compute; exact I. Qed.

Lemma quote_sep_free s : sep_free US (quote s).
Proof.
  unfold sep_free, quote. rewrite chars_unchars, elem_of_cons, elem_of_app, list_elem_of_singleton.
  intros [?|[Hin|?]]; [done| |done]. apply list_elem_of_In, in_concat in Hin as (l & Hl & Hin).
  apply in_map_iff in Hl as (c & <- & _). apply list_elem_of_In in Hin. by eapply quote_char_free.
Qed.

Lemma join_sep_free sep s ss : sep_free sep s → Forall (sep_free sep) ss → sep_free sep (join s ss).
Proof.
  unfold sep_free, join. intros Hs Hss. rewrite chars_unchars.
  induction Hss as [|x ss Hx Hss IH]; simpl; [apply not_elem_of_nil|].
  destruct (map chars ss) eqn:E; [done|]. rewrite !elem_of_app. tauto.
Qed.

Lemma stable_sep_free v :
  (∀ z, sep_free US (frac_text z)) → sep_free US (stableStringify frac_text v).
Proof.
  intros Hf. induction v as [| |b|n|t|l IH|fs IH] using json_nested_ind; simpl.
  1-2: by apply (bool_decide_unpack _).
  - destruct b; by apply (bool_decide_unpack _).
  - destruct n; simpl; [by apply dec_sep_free|done|by apply (bool_decide_unpack _)..].
  - apply quote_sep_free.
  - rewrite !sep_free_append. split_and!; [by apply (bool_decide_unpack _)| |by apply (bool_decide_unpack _)].
    apply join_sep_free; [by apply (bool_decide_unpack _)|]. by apply Forall_map.
  - rewrite !sep_free_append. split_and!; [by apply (bool_decide_unpack _)| |by apply (bool_decide_unpack _)].
    apply join_sep_free; [by apply (bool_decide_unpack _)|].
    apply Forall_map. rewrite merge_sort_Permutation. apply Forall_map.
    eapply Forall_impl; [exact IH|]. intros p Hp; simpl. rewrite !sep_free_append.
    split_and!; [apply quote_sep_free|by apply (bool_decide_unpack _)|done].
Qed.
End stable.

Section operations.
Context (frac_text : Z → string).
Context (sha256 : string → string).
(** The value a jsonb column returns for the value written to it. *)
Context (json_store : json → json).

#[local] Instance admin_chainable : Chainable AdminChainable :=
  {| seq_of := ac_seq; canonical := canonicalizeAdmin frac_text |}.

Definition computeAdminHash (prevHash : string) (e : AdminChainable) : string :=
  chainHash sha256 prevHash (canonicalizeAdmin frac_text e).

(** [verifyAdminChain]: admin-chain.ts repeats the loop of verify.ts. *)
Definition verifyAdminChain (events : list (Stored AdminChainable)) (head : option ChainHead)
    : ChainVerifyResult := verifyChain sha256 events head.

(** The event that is hashed, and the row that is stored: the same but for the
    metadata, which the column keeps its own way. *)
Definition action_body (now : Z) (i : AdminAction) : AdminBody :=
  {| ab_timestamp := now; ab_actorId := Some (actor_id (in_actor i));
     ab_actorEmail := actor_email (in_actor i); ab_action := in_action i;
     ab_targetType := in_targetType i; ab_targetId := in_targetId i; ab_summary := in_summary i;
     ab_metadata := or_null (in_metadata i); ab_clientIp := in_clientIp i |}.
Definition stored_body (b : AdminBody) : AdminBody :=
  {| ab_timestamp := ab_timestamp b; ab_actorId := ab_actorId b; ab_actorEmail := ab_actorEmail b;
     ab_action := ab_action b; ab_targetType := ab_targetType b; ab_targetId := ab_targetId b;
     ab_summary := ab_summary b;
     ab_metadata := if is_nullish (ab_metadata b) then JNull else json_store (ab_metadata b);
     ab_clientIp := ab_clientIp b |}.

(** [recordAdminAction].  [dbError]: the transaction failed; the error is
    logged, never thrown, and nothing is written. *)
Definition recordAdminAction (dbError : bool) (id : string) (now : Z) (db : AdminDb) (i : AdminAction)
    : AdminDb :=
  if dbError then db else
  let head := adminHead db ?? genesis_head in
  let seq := lastSeq head + 1 in
  let hash := computeAdminHash (lastHash head) {| ac_seq := seq; ac_body := action_body now i |} in
  {| adminRows := adminRows db ++
       [{| ar_id := id; ar_createdAt := now; ar_body := stored_body (action_body now i);
           ar_seq := Some seq; ar_prevHash := lastHash head; ar_hash := hash |}];
     adminHead := Some {| lastSeq := seq; lastHash := hash |} |}.

(** One iteration of the backfill loop: number, hash and update one row. *)
Definition chain_row (id : string) (seq : Z) (prevHash hash : string) (r : AdminRow) : AdminRow :=
  if ar_id r =s id
  then {| ar_id := ar_id r; ar_createdAt := ar_createdAt r; ar_body := ar_body r;
          ar_seq := Some seq; ar_prevHash := prevHash; ar_hash := hash |}
  else r.
Fixpoint backfill_loop (pending : list AdminRow) (head : ChainHead) (rows : list AdminRow)
    : list AdminRow * ChainHead :=
  match pending with
  | [] => (rows, head)
  | r :: pending' =>
      let seq := lastSeq head + 1 in
      let hash := computeAdminHash (lastHash head) {| ac_seq := seq; ac_body := ar_body r |} in
      backfill_loop pending' {| lastSeq := seq; lastHash := hash |}
        (map (chain_row (ar_id r) seq (lastHash head) hash) rows)
  end.

Definition unchained (r : AdminRow) : bool := bool_decide (ar_seq r = None).

Definition backfillAdminChain (db : AdminDb) : AdminDb * Z :=
  let pending := merge_sort created_le (List.filter unchained (adminRows db)) in
  match pending with
  | [] => (db, 0)
  | _ =>
      let '(rows, head) := backfill_loop pending (adminHead db ?? genesis_head) (adminRows db) in
      ({| adminRows := rows; adminHead := Some head |}, Z.of_nat (length pending))
  end.

(** The rows the admin-verify route reads, and its answer. *)
Definition admin_events (db : AdminDb) : list (Stored AdminChainable) :=
  order_by (λ s, ac_seq (s_event s))
    (List.filter (λ s, match adminHead db with
                       | Some h => ac_seq (s_event s) <=? lastSeq h
                       | None => true
                       end)
       (omap to_stored (adminRows db))).
Definition adminVerify (db : AdminDb) : ChainVerifyResult :=
  verifyAdminChain (admin_events db) (adminHead db).

(** *** The canonical text determines the event *)

Definition wf_admin (e : AdminChainable) : Prop :=
  let b := ac_body e in
  valid_time (ab_timestamp b) ∧
  Forall (sep_free US) [ab_actorId b ?? ""; ab_actorEmail b ?? ""; ab_action b; ab_targetType b ?? "";
    ab_targetId b ?? ""; ab_summary b; ab_clientIp b ?? ""]%string.

Definition same_admin (x y : AdminChainable) : Prop :=
  let a := ac_body x in let b := ac_body y in
  ac_seq x = ac_seq y ∧ ab_timestamp a = ab_timestamp b ∧
  (ab_actorId a ?? "") = (ab_actorId b ?? "") ∧ (ab_actorEmail a ?? "") = (ab_actorEmail b ?? "") ∧
  ab_action a = ab_action b ∧ (ab_targetType a ?? "") = (ab_targetType b ?? "") ∧
  (ab_targetId a ?? "") = (ab_targetId b ?? "") ∧ ab_summary a = ab_summary b ∧
  stableStringify frac_text (or_null (ab_metadata a)) = stableStringify frac_text (or_null (ab_metadata b)) ∧
  (ab_clientIp a ?? "") = (ab_clientIp b ?? "").

#[local] Instance same_admin_equiv : Equivalence same_admin.
Proof.
  split.
  - intros a. unfold same_admin. by split_and!.
  - intros a b H. unfold same_admin in *. destruct_and!. by split_and!.
  - intros a b c H1 H2. unfold same_admin in *. destruct_and!. split_and!; congruence.
Qed.

(** *** The log as a state machine *)

Inductive admin_step : AdminDb → AdminDb → Prop :=
  | step_record dbError id now i db :
      id ∉ ar_id <$> adminRows db → admin_step db (recordAdminAction dbError id now db i)
  | step_backfill db n db' : backfillAdminChain db = (db', n) → admin_step db db'.

(** The steps whose metadata holds no [undefined]: its column gives it back. *)
Inductive clean_step : AdminDb → AdminDb → Prop :=
  | clean_record dbError id now i db :
      id ∉ ar_id <$> adminRows db → json_clean (or_null (in_metadata i)) = true →
      clean_step db (recordAdminAction dbError id now db i)
  | clean_backfill db n db' : backfillAdminChain db = (db', n) → clean_step db db'.

(** Before the first chained row: only rows from before the chain. *)
Definition admin_legacy (db : AdminDb) : Prop :=
  NoDup (ar_id <$> adminRows db) ∧ Forall (λ r, ar_seq r = None) (adminRows db) ∧ adminHead db = None.

Definition admin_inv (db : AdminDb) : Prop :=
  NoDup (ar_id <$> adminRows db) ∧
  ∃ l, linked sha256 genesis_head l (adminHead db ?? genesis_head) ∧ omap to_stored (adminRows db) ≡ₚ l.

Lemma stored_canonical seq b :
  json_store_ok json_store → json_clean (ab_metadata b) = true →
  canonicalizeAdmin frac_text {| ac_seq := seq; ac_body := stored_body b |} =
  canonicalizeAdmin frac_text {| ac_seq := seq; ac_body := b |}.
Proof.
  intros Hst Hc. unfold canonicalizeAdmin, attestedAdmin; simpl. do 2 f_equal. do 7 f_equal.
  f_equal. unfold or_null. destruct (is_nullish (ab_metadata b)) eqn:Hn; [done|].
  pose proof (stable_eqv frac_text _ _ Hc (Hst _ Hc)) as Heq. rewrite Heq.
  destruct (is_nullish (json_store (ab_metadata b))) eqn:Hn'; [|done].
  by destruct (json_store (ab_metadata b)).
Qed.

Lemma record_inv dbError id now i db :
  json_store_ok json_store → json_clean (or_null (in_metadata i)) = true →
  id ∉ ar_id <$> adminRows db → admin_inv db →
  admin_inv (recordAdminAction dbError id now db i).
Proof.
  intros Hst Hc Hid [Hnd (l & Hl & Hp)]. unfold recordAdminAction. destruct dbError; [by split; [|exists l]|].
  split; simpl.
  - rewrite fmap_app. apply NoDup_app. split_and!; [done|set_solver|apply NoDup_singleton].
  - rewrite omap_app. simpl. eexists (l ++ [_]). split; [|by rewrite Hp].
    eapply linked_app; [done|]. constructor; simpl; [done..| |constructor].
    unfold computeAdminHash, computeHash, chainHash; simpl. by rewrite stored_canonical.
Qed.

Lemma chain_row_other id seq p h r : ar_id r ≠ id → chain_row id seq p h r = r.
Proof. intros. unfold chain_row. by rewrite bool_decide_eq_false_2. Qed.
Lemma chain_row_id id seq p h r : ar_id (chain_row id seq p h r) = ar_id r.
Proof. unfold chain_row. by case_bool_decide. Qed.

Lemma map_chain_row_absent id seq p h rows :
  id ∉ ar_id <$> rows → map (chain_row id seq p h) rows = rows.
Proof.
  induction rows as [|r rows IH]; simpl; [done|]. rewrite not_elem_of_cons. intros [Hr Hrs].
  rewrite chain_row_other by congruence. by rewrite IH.
Qed.

Lemma omap_chain_row r seq p h rows :
  NoDup (ar_id <$> rows) → r ∈ rows → ar_seq r = None →
  omap to_stored (map (chain_row (ar_id r) seq p h) rows) ≡ₚ
  omap to_stored rows ++ [MkStored {| ac_seq := seq; ac_body := ar_body r |} p h].
Proof.
  intros Hnd Hr Hs. induction rows as [|x rows IH]; [set_solver|].
  rewrite fmap_cons in Hnd. apply NoDup_cons in Hnd as [Hx Hnd]. simpl.
  apply elem_of_cons in Hr as [->|Hr].
  - rewrite map_chain_row_absent by done. unfold chain_row. rewrite bool_decide_eq_true_2 by done. simpl.
    assert (to_stored x = None) as -> by (unfold to_stored; by rewrite Hs). apply Permutation_cons_append.
  - assert (ar_id x ≠ ar_id r) as Hne.
    { intros Heq. apply Hx. rewrite Heq. by apply list_elem_of_fmap_2. }
    rewrite chain_row_other by done. destruct (to_stored x); simpl; [f_equiv|]; by apply IH.
Qed.

Lemma backfill_loop_spec pending : ∀ head rows rows' head',
  NoDup (ar_id <$> rows) → NoDup (ar_id <$> pending) →
  Forall (λ r, r ∈ rows ∧ ar_seq r = None) pending →
  backfill_loop pending head rows = (rows', head') →
  ar_id <$> rows' = ar_id <$> rows ∧
  ∃ new, linked sha256 head new head' ∧ length new = length pending ∧
    omap to_stored rows' ≡ₚ omap to_stored rows ++ new.
Proof.
  induction pending as [|r pending IH]; intros head rows rows' head' Hnd Hndp Hall Hb; simpl in Hb.
  { simplify_eq. split; [done|]. exists []. rewrite app_nil_r. split_and!; [constructor|done..]. }
  apply Forall_cons in Hall as [[Hr Hs] Hall]. rewrite fmap_cons in Hndp.
  apply NoDup_cons in Hndp as [Hrp Hndp].
  set (seq := lastSeq head + 1) in *. set (hash := computeAdminHash _ _) in *.
  set (rows1 := map _ rows) in Hb.
  assert (ar_id <$> rows1 = ar_id <$> rows) as Hids.
  { unfold rows1. rewrite <-list_fmap_compose. apply list_fmap_ext. intros ? x _. apply chain_row_id. }
  apply IH in Hb as (Hids' & new & Hl & Hlen & Hp); [|congruence|done|].
  - split; [congruence|]. eexists (MkStored {| ac_seq := seq; ac_body := ar_body r |} (lastHash head) hash :: new).
    split_and!; [constructor; simpl; try done|simpl; congruence|].
    rewrite Hp. unfold rows1. rewrite omap_chain_row by done. by rewrite <-(assoc_L (++)).
  - rewrite Forall_forall in Hall |- *. intros x Hx. destruct (Hall x Hx) as [Hxr Hxs]. split; [|done].
    unfold rows1. apply list_elem_of_In, in_map_iff. exists x. rewrite <-list_elem_of_In. split; [|done].
    apply chain_row_other. intros Heq. apply Hrp. rewrite <-Heq. by apply list_elem_of_fmap_2.
Qed.

(** What the backfill does, on any table with unique ids. *)
Lemma backfill_spec db db' n :
  NoDup (ar_id <$> adminRows db) → backfillAdminChain db = (db', n) →
  ar_id <$> adminRows db' = ar_id <$> adminRows db ∧
  ∃ new, linked sha256 (adminHead db ?? genesis_head) new (adminHead db' ?? genesis_head) ∧
    omap to_stored (adminRows db') ≡ₚ omap to_stored (adminRows db) ++ new ∧
    Z.of_nat (length new) = n ∧ n = count_where unchained (adminRows db).
Proof.
  intros Hnd. unfold backfillAdminChain.
  set (pending := merge_sort created_le (List.filter unchained (adminRows db))).
  assert (pending ≡ₚ List.filter unchained (adminRows db)) as Hp by apply merge_sort_Permutation.
  assert (n = Z.of_nat (length pending) → n = count_where unchained (adminRows db)) as Hn.
  { intros ->. unfold count_where. by rewrite Hp. }
  destruct pending as [|r pending'] eqn:Hpe; rewrite <-?Hpe in *.
  { intros [= <- <-]. split; [done|]. exists []. rewrite app_nil_r. rewrite Hpe in Hn.
    split_and!; [constructor|done|done|by apply Hn]. }
  destruct (backfill_loop _ _ _) as [rows head] eqn:Hb. intros [= <- <-]. simpl.
  apply backfill_loop_spec in Hb as (Hids & new & Hl & Hlen & Hperm); [|done|..].
  - split; [done|]. exists new. split_and!; [done|done|lia|by apply Hn].
  - rewrite Hp. by apply NoDup_filter_fmap.
  - rewrite Forall_forall. intros x Hx. rewrite Hp in Hx.
    apply list_elem_of_In, filter_In in Hx as [Hx Hu]. apply list_elem_of_In in Hx.
    unfold unchained in Hu. by reflect_bool.
Qed.

Lemma clean_step_inv db db' :
  json_store_ok json_store → admin_inv db → clean_step db db' → admin_inv db'.
Proof.
  intros Hst Hinv Hs. destruct Hs as [dbError id now i db Hid Hc|db n db' Hb].
  - by apply record_inv.
  - destruct Hinv as [Hnd (l & Hl & Hp)]. apply backfill_spec in Hb as (Hids & new & Hl' & Hp' & _); [|done].
    split; [congruence|]. exists (l ++ new). split; [by eapply linked_app|]. by rewrite Hp', Hp.
Qed.

Lemma omap_legacy rows : Forall (λ r, ar_seq r = None) rows → omap to_stored rows = [].
Proof.
  induction 1 as [|r rows Hr Hall IH]; simpl; [done|].
  assert (to_stored r = None) as -> by (unfold to_stored; by rewrite Hr). done.
Qed.

Lemma admin_legacy_inv db : admin_legacy db → admin_inv db.
Proof.
  intros (Hnd & Hall & Hh). split; [done|]. exists []. rewrite Hh, omap_legacy by done.
  split; [constructor|done].
Qed.

Lemma admin_events_sorted db l :
  increasing (λ s : Stored AdminChainable, ac_seq (s_event s)) l →
  (∀ s h, s ∈ l → adminHead db = Some h → ac_seq (s_event s) ≤ lastSeq h) →
  omap to_stored (adminRows db) ≡ₚ l → admin_events db = l.
Proof.
  intros Hi Hle Hp. unfold admin_events.
  assert (∀ s, s ∈ omap to_stored (adminRows db) →
    match adminHead db with Some h => ac_seq (s_event s) <=? lastSeq h | None => true end = true) as Hall.
  { intros s Hs. rewrite Hp in Hs. destruct (adminHead db) as [h|]; [|done]. apply Z.leb_le. by apply Hle. }
  rewrite (List.filter_ext_in _ (λ _, true)) by (intros s Hs%list_elem_of_In; by apply Hall).
  assert (∀ r : list (Stored AdminChainable), List.filter (λ _, true) r = r) as Hf
    by (intros r; induction r; simpl; congruence).
  rewrite Hf. apply (increasing_unique (λ s : Stored AdminChainable, ac_seq (s_event s))).
  - apply order_by_increasing. rewrite Hp. by apply increasing_NoDup.
  - done.
  - unfold order_by. by rewrite merge_sort_Permutation.
Qed.
Lemma admin_events_inv db l :
  linked sha256 genesis_head l (adminHead db ?? genesis_head) → omap to_stored (adminRows db) ≡ₚ l →
  admin_events db = l.
Proof.
  intros Hl Hp. apply admin_events_sorted; [exact (linked_increasing _ _ _ _ Hl)| |done].
  intros s h Hs Hh. pose proof (linked_seqs _ _ _ _ _ Hl Hs) as [_ Hle]. rewrite Hh in Hle. exact Hle.
Qed.

(** *** What was attested, and what is stored of it

    The hash is taken over the action as it was recorded; the row keeps the metadata
    as its column gives it back. *)

Definition kept_as (a s : Stored AdminChainable) : Prop :=
  ac_seq (s_event s) = ac_seq (s_event a) ∧ s_prevHash s = s_prevHash a ∧ s_hash s = s_hash a ∧
  (ac_body (s_event s) = ac_body (s_event a) ∨ ac_body (s_event s) = stored_body (ac_body (s_event a))).
Definition admin_history (att : list (Stored AdminChainable)) (db : AdminDb) : Prop :=
  NoDup (ar_id <$> adminRows db) ∧ linked sha256 genesis_head att (adminHead db ?? genesis_head) ∧
  ∃ l, omap to_stored (adminRows db) ≡ₚ l ∧ Forall2 kept_as att l.

Lemma kept_self l : Forall2 kept_as l l.
Proof. induction l; constructor; [|done]. split_and!; try done. by left. Qed.
Lemma history_step att db db' : admin_history att db → admin_step db db' → ∃ new, admin_history (att ++ new) db'.
Proof.
  intros (Hnd & Hl & l & Hp & Hk) Hs. destruct Hs as [dbError id now i db Hid|db n db' Hb].
  - unfold recordAdminAction. destruct dbError; [exists []; rewrite app_nil_r; by split_and!; [..|exists l]|].
    set (head := adminHead db ?? genesis_head) in *.
    set (e := {| ac_seq := lastSeq head + 1; ac_body := action_body now i |}).
    exists [MkStored e (lastHash head) (computeAdminHash (lastHash head) e)]. split_and!; cbn [adminRows adminHead].
    + rewrite fmap_app. apply NoDup_app. split_and!; [done|set_solver|apply NoDup_singleton].
    + eapply linked_app; [done|]. by repeat constructor.
    + rewrite omap_app. simpl. eexists (l ++ [_]). split; [by rewrite Hp|]. apply Forall2_app; [done|]. constructor; [|constructor].
      split_and!; try done. by right.
  - apply backfill_spec in Hb as (Hids & new & Hl' & Hp' & _); [|done]. exists new. split_and!; [congruence|by eapply linked_app|].
    exists (l ++ new). split; [by rewrite Hp', Hp|]. apply Forall2_app; [done|apply kept_self].
Qed.
Lemma history_reached db0 db : admin_legacy db0 → rtc admin_step db0 db → ∃ att, admin_history att db.
Proof.
  intros (Hnd & Hall & Hh) Hr. assert (∃ att, admin_history att db0) as H0.
  { exists []. split_and!; [done|rewrite Hh; constructor|]. exists []. by rewrite omap_legacy. }
  clear Hnd Hall Hh. induction Hr as [db|x y z Hs _ IH]; [done|]. apply IH. destruct H0 as [att Ha].
  destruct (history_step _ _ _ Ha Hs) as [new ?]. by exists (att ++ new).
Qed.
Lemma kept_increasing att l :
  increasing (λ s : Stored AdminChainable, ac_seq (s_event s)) att → Forall2 kept_as att l → increasing (λ s : Stored AdminChainable, ac_seq (s_event s)) l.
Proof.
  intros Hi. revert l. induction Hi as [|a att Hi IH Hf]; intros l Hk; inversion Hk as [|? s ? l' Hs Hk']; subst; constructor; [by apply IH|].
  apply Forall_forall. intros x Hx. apply list_elem_of_lookup_1 in Hx as [j Hj]. destruct (Forall2_lookup_r _ _ _ _ _ Hk' Hj) as (b & Hb & Hbx).
  destruct Hs as (-> & _), Hbx as (-> & _). rewrite Forall_forall in Hf. apply Hf. by eapply list_elem_of_lookup_2.
Qed.
Lemma history_events att db : admin_history att db → Forall2 kept_as att (admin_events db).
Proof.
  intros (Hnd & Hl & l & Hp & Hk). rewrite (admin_events_sorted db l); [done| | |done].
  - eapply kept_increasing; [exact (linked_increasing _ _ _ _ Hl)|done].
  - intros s h Hs Hh. apply list_elem_of_lookup_1 in Hs as [j Hj]. destruct (Forall2_lookup_r _ _ _ _ _ Hk Hj) as (b & Hb & (-> & _)).
    pose proof (linked_seqs _ _ _ _ b Hl ltac:(by eapply list_elem_of_lookup_2)) as [_ Hle]. by rewrite Hh in Hle.
Qed.
(** *** Evidence *)

Context (Hfrac : ∀ z, sep_free US (frac_text z)).

Lemma attestedAdmin_sep_free e : wf_admin e → Forall (sep_free US) (attestedAdmin frac_text e).
Proof using Hfrac.
  intros [Ht Hf]. unfold attestedAdmin. rewrite !Forall_cons in Hf. destruct_and!.
  repeat (apply Forall_cons; split); try done;
    first [by apply dec_sep_free | by apply iso_sep_free | by apply stable_sep_free].
Qed.

Lemma attestedAdmin_inj a b :
  wf_admin a → wf_admin b → attestedAdmin frac_text a = attestedAdmin frac_text b → same_admin a b.
Proof.
  intros [Ha _] [Hb _] [= Hs Ht]. unfold same_admin.
  apply (inj dec) in Hs. apply toISOString_inj in Ht; [|done..]. by split_and!.
Qed.

Lemma admin_preimage_inj p q a b :
  wf_admin a → wf_admin b →
  p +:+ newline +:+ canonicalizeAdmin frac_text a = q +:+ newline +:+ canonicalizeAdmin frac_text b →
  p = q ∧ same_admin a b.
Proof using Hfrac.
  intros Wa Wb H.
  apply (joined_text_inj US (Ascii.ascii_of_N 10) (dec (ac_seq a)) (dec (ac_seq b))
    (tail (attestedAdmin frac_text a)) (tail (attestedAdmin frac_text b))) in H as [-> Hf].
  - split; [done|]. by apply attestedAdmin_inj.
  - done.
  - by apply attestedAdmin_sep_free.
  - by apply attestedAdmin_sep_free.
  - by apply dec_sep_free.
  - by apply dec_sep_free.
Qed.

#[local] Instance admin_laws : ChainableLaws AdminChainable.
Proof using Hfrac.
  refine {| wf_event := wf_admin; same_event := same_admin |}.
  - by intros a b [? _].
  - apply admin_preimage_inj.
Defined.


(** C16: tamper evidence of the admin log.  Take a log with rows that the program
    produced (after the backfill of rows from before the chain), whatever the recorded metadata: behind it stands the chain of the actions as
    they were hashed, each stored in its row but for what the column makes of its
    metadata.  Any other non-empty list of rows that the verifier accepts against the same
    head attests, row for row, the very texts of that chain, save for rows missing
    or added at the old end, or two texts with one SHA-256 digest are in hand.  A
    row is equal to the recorded action in every attested field (metadata up to its
    canonical text) whenever in both the date is a JavaScript date and no field
    holds the unit separator.  The digest is assumed to be one line, as hexadecimal
    is, and the text of a fraction to hold no separator. *)
Theorem admin_tamper_evident db0 db l' :
  one_line_digest sha256 → admin_legacy db0 → rtc admin_step db0 db →
  admin_events db ≠ [] → l' ≠ [] → ok (verifyAdminChain l' (adminHead db)) = true →
  ∃ att, linked sha256 genesis_head att (adminHead db ?? genesis_head) ∧ Forall2 kept_as att (admin_events db) ∧
    (collision sha256 ∨ older_attested l' att ∨ older_attested att l').
Proof using Hfrac.
  intros Hline H0 Hr Hne Hne' [Hc Hh]%verifyChain_ok. destruct (history_reached db0 db H0 Hr) as [att Hatt].
  pose proof (history_events _ _ Hatt) as Hk. destruct Hatt as (_ & Hl & _). exists att. split_and!; [done..|].
  destruct (last l') as [x|] eqn:Lx; [|by apply last_None in Lx].
  destruct (last att) as [y|] eqn:Ly; [|by apply last_None in Ly; subst att; apply Forall2_nil_inv_l in Hk].
  pose proof (linked_last _ _ _ _ _ Hl Ly) as [Hys Hyh].
  destruct (adminHead db) as [hd|] eqn:Hhd.
  - destruct (Hh x hd eq_refl eq_refl) as [_ Hxh].
    apply (attested_agree sha256 l' Hline att x y); try done.
    + by eapply consistent_weaken, linked_consistent.
    + simpl in *. congruence.
  - pose proof (linked_seqs _ _ _ _ y Hl (last_Some_elem_of _ _ Ly)). simpl in *. lia.
Qed.
End operations.

Section properties.
Context (frac_text : Z → string) (sha256 : string → string) (json_store : json → json).

(** The text of a metadata value survives its jsonb column: whatever the
    column does to the order of keys, at any depth, the value read back has
    the canonical text of the value written. *)
Theorem stableStringify_store v :
  json_store_ok json_store → json_clean v = true →
  stableStringify frac_text (json_store v) = stableStringify frac_text v.
Proof. intros Hst Hc. symmetry. apply stable_eqv; [done|]. by apply Hst. Qed.

(** From a table of unchained rows, however recording and backfilling
    interleave and whichever writes fail, the admin-verify route reports the
    log intact and counts every chained row, provided metadata holds no
    [undefined]. *)
Theorem admin_reachable_verifies db0 db :
  json_store_ok json_store → admin_legacy db0 → rtc (clean_step frac_text sha256 json_store) db0 db →
  ok (adminVerify frac_text sha256 db) = true ∧
  count (adminVerify frac_text sha256 db) = Z.of_nat (length (omap to_stored (adminRows db))).
Proof.
  intros Hst H0 Hr. assert (admin_inv frac_text sha256 db) as [Hnd (l & Hl & Hp)].
  { apply (admin_legacy_inv frac_text sha256) in H0. revert H0. induction Hr; eauto using clean_step_inv. }
  unfold adminVerify, verifyAdminChain. rewrite (admin_events_inv _ _ _ _ Hl Hp).
  split; [|by rewrite verifyChain_count, Hp].
  destruct (adminHead db) as [hd|]; [by eapply linked_verifies|].
  apply verifyChain_ok. split; [by eapply consistent_weaken, linked_consistent|]. by intros ? ? ? [=].
Qed.

Lemma omap_length_chained rows :
  Z.of_nat (length (omap to_stored rows)) + count_where unchained rows = Z.of_nat (length rows).
Proof.
  unfold count_where, unchained. induction rows as [|r rows IH]; [done|]. simpl.
  destruct (to_stored r) as [x|] eqn:Hx; unfold to_stored in Hx;
    destruct (ar_seq r); simplify_eq/=; lia.
Qed.

(** The backfill numbers every unchained row, in place and only those,
    reports how many, and a second run changes nothing and reports 0. *)
Theorem backfill_complete db db' n :
  NoDup (ar_id <$> adminRows db) → backfillAdminChain frac_text sha256 db = (db', n) →
  n = count_where unchained (adminRows db) ∧
  ar_id <$> adminRows db' = ar_id <$> adminRows db ∧
  (∀ s, s ∈ omap to_stored (adminRows db) → s ∈ omap to_stored (adminRows db')) ∧
  (∀ r, r ∈ adminRows db' → ar_seq r ≠ None) ∧
  backfillAdminChain frac_text sha256 db' = (db', 0).
Proof.
  intros Hnd Hb. apply backfill_spec in Hb as (Hids & new & Hl & Hp & Hn & Hcnt); [|done].
  assert (count_where unchained (adminRows db') = 0) as H0.
  { pose proof (omap_length_chained (adminRows db)). pose proof (omap_length_chained (adminRows db')).
    apply (f_equal length) in Hids. rewrite !length_fmap in Hids. rewrite Hp, length_app in *. lia. }
  assert (∀ r, r ∈ adminRows db' → unchained r = false) as Hall by by apply count_where_0.
  split_and!; [done|done|intros s Hs; rewrite Hp; set_solver| |].
  - intros r Hr. specialize (Hall r Hr). unfold unchained in Hall. by reflect_bool.
  - unfold backfillAdminChain.
    assert (List.filter unchained (adminRows db') = []) as ->; [|done].
    unfold count_where in H0. destruct (List.filter _ _); [done|]. simpl in H0. lia.
Qed.
End properties.

(** ** [undefined] in metadata

    A grant edit that only changes the note records the metadata
    [{ endsAt: undefined }] (src/app/api/admin/grants/[id]/route.ts).  The
    hash is taken over [{"endsAt":null}]; the column holds [{}].  The verify
    route then reports the untouched log as broken. *)

Definition note_only_edit : AdminAction :=
  {| in_actor := {| actor_id := "a1"; actor_email := Some "admin@example.test"%string |};
     in_action := "grant.update"; in_targetType := Some "grant"%string; in_targetId := Some "g1"%string;
     in_summary := "Updated access grant g1"; in_metadata := JObj [("endsAt"%string, JUndefined)];
     in_clientIp := None |}.

Definition frac_digits (fl : Z) : string := dec fl +:+ ".5".

(** The false alarm, for any digest that does not collide. *)
Theorem undefined_metadata_breaks sha256 :
  let db := recordAdminAction frac_digits sha256 json_wire false "r1" 0
              {| adminRows := []; adminHead := None |} note_only_edit in
  collision sha256 ∨
  (ok (adminVerify frac_digits sha256 db) = false ∧
   reason (adminVerify frac_digits sha256 db) = Some hash_mismatch).
Proof.
  intros db.
  set (e := {| ac_seq := 1; ac_body := action_body 0 note_only_edit |}).
  set (e' := {| ac_seq := 1; ac_body := stored_body json_wire (action_body 0 note_only_edit) |}).
  destruct (decide (computeAdminHash frac_digits sha256 "" e' = computeAdminHash frac_digits sha256 "" e))
    as [Heq|Hne].
  - left. eexists _, _. split; [|exact Heq]. vm_compute. discriminate.
  - right. unfold adminVerify, verifyAdminChain.
    assert (admin_events db = [MkStored e' "" (computeAdminHash frac_digits sha256 "" e)]) as -> by reflexivity.
    unfold verifyChain, verify_loop.
    assert (negb (computeHash (H := admin_chainable frac_digits) sha256 "" e' =s
      computeAdminHash frac_digits sha256 "" e) = true) as Hn.
    { apply negb_true_iff. by apply bool_decide_eq_false_2. }
    simpl s_prevHash. simpl s_event. simpl s_hash. rewrite Hn. done.
Qed.

(** ** Concrete runs *)

(** A column that hands members back in the opposite order. *)
Definition reversing_store (v : json) : json := match v with JObj fs => JObj (reverse fs) | _ => v end.
Lemma reversing_store_ok : json_store_ok reversing_store.
Proof.
  intros v _. destruct v as [| | | | | |fs]; try constructor. simpl.
  apply (eqv_obj fs fs); [|by rewrite reverse_Permutation].
  induction fs; constructor; [by split; constructor|done].
Qed.

Definition demo_meta : json :=
  JObj [("userId", JStr "u1"); ("n", JNum (NInt 3)); ("siteId", JArr [JNull; JBool true])]%string.
Definition demo_action : AdminAction :=
  {| in_actor := {| actor_id := "a1"; actor_email := None |}; in_action := "grant.create";
     in_targetType := Some "grant"%string; in_targetId := Some "g1"%string;
     in_summary := "Granted access"; in_metadata := demo_meta; in_clientIp := None |}.
Definition legacy_row : AdminRow :=
  {| ar_id := "r0"; ar_createdAt := 0; ar_body := action_body 0 demo_action;
     ar_seq := None; ar_prevHash := ""; ar_hash := "" |}.
Definition demo_legacy : AdminDb := {| adminRows := [legacy_row]; adminHead := None |}.
Definition demo_backfilled : AdminDb := (backfillAdminChain frac_digits demo_digest demo_legacy).1.
Definition demo_admin : AdminDb :=
  recordAdminAction frac_digits demo_digest reversing_store false "r1" 1000 demo_backfilled demo_action.

Lemma demo_legacy_ok : admin_legacy demo_legacy.
Proof.
  split_and!; [apply (bool_decide_unpack _); vm_compute; exact I| |done].
  constructor; [done|apply Forall_nil_2].
Qed.
Lemma demo_admin_reachable : rtc (clean_step frac_digits demo_digest reversing_store) demo_legacy demo_admin.
Proof.
  eapply rtc_l; [apply (clean_backfill _ _ _ demo_legacy 1 demo_backfilled); vm_compute; reflexivity|].
  apply rtc_once, clean_record; [apply (bool_decide_unpack _)|]; vm_compute; done.
Qed.
Lemma frac_digits_free z : sep_free US (frac_digits z).
Proof. apply sep_free_append. split; [by apply dec_sep_free|]. apply (bool_decide_unpack _). vm_compute. exact I. Qed.
Lemma wf_admin_check rows :
  forallb (λ r, bool_decide (valid_time (ab_timestamp (ac_body (s_event r))) ∧
    Forall (sep_free US) (let b := ac_body (s_event r) in
      [ab_actorId b ?? ""; ab_actorEmail b ?? ""; ab_action b; ab_targetType b ?? "";
       ab_targetId b ?? ""; ab_summary b; ab_clientIp b ?? ""]%string))) rows = true →
  wf_rows (H0 := admin_laws frac_digits frac_digits_free) rows.
Proof.
  intros H. apply Forall_forall. intros r Hr%list_elem_of_In. rewrite forallb_forall in H.
  apply H in Hr. by apply bool_decide_eq_true_1 in Hr.
Qed.

Lemma stableStringify_store_witness :
  stableStringify frac_digits (reversing_store demo_meta) = stableStringify frac_digits demo_meta.
Proof. apply stableStringify_store; [exact reversing_store_ok|vm_compute; reflexivity]. Defined.

Lemma admin_reachable_verifies_witness :
  ok (adminVerify frac_digits demo_digest demo_admin) = true ∧
  count (adminVerify frac_digits demo_digest demo_admin) = 2.
Proof.
  exact (admin_reachable_verifies frac_digits demo_digest reversing_store demo_legacy demo_admin
    reversing_store_ok demo_legacy_ok demo_admin_reachable).
Defined.

Lemma backfill_complete_witness :
  1 = count_where unchained (adminRows demo_legacy) ∧
  backfillAdminChain frac_digits demo_digest demo_backfilled = (demo_backfilled, 0).
Proof.
  destruct (backfill_complete frac_digits demo_digest demo_legacy demo_backfilled 1) as (H1 & _ & _ & _ & H2).
  - apply demo_legacy_ok.
  - vm_compute. reflexivity.
  - exact (conj H1 H2).
Defined.

(** A log with an edit that only changes a note, whose metadata its column does not
    give back. *)
Definition demo_edited : AdminDb := recordAdminAction frac_digits demo_digest json_wire false "r1" 1000 demo_backfilled note_only_edit.
Definition demo_forged : list (Stored AdminChainable) :=
  (λ s, match ac_seq (s_event s) with
        | 2 => MkStored {| ac_seq := 2; ac_body := action_body 1000 note_only_edit |} (s_prevHash s) (s_hash s)
        | _ => s
        end) <$> admin_events demo_edited.
Lemma admin_tamper_evident_witness :
  ∃ att, linked (H := admin_chainable frac_digits) demo_digest genesis_head att (adminHead demo_edited ?? genesis_head) ∧
    Forall2 (kept_as json_wire) att (admin_events demo_edited) ∧
    (collision demo_digest ∨ older_attested (H0 := admin_laws frac_digits frac_digits_free) demo_forged att ∨
     older_attested (H0 := admin_laws frac_digits frac_digits_free) att demo_forged).
Proof.
  apply (admin_tamper_evident frac_digits demo_digest json_wire frac_digits_free demo_legacy demo_edited demo_forged demo_digest_line demo_legacy_ok).
  - eapply rtc_l; [apply (step_backfill _ _ _ demo_legacy 1 demo_backfilled); vm_compute; reflexivity|].
    apply rtc_once, step_record. apply (bool_decide_unpack _). vm_compute. exact I.
  - vm_compute. discriminate.
  - vm_compute. discriminate.
  - vm_compute. reflexivity.
Defined.
