(* ===== verification/Schedule.v ===== *)
(** * Weekly access windows (src/lib/access/schedule.ts)

    A grant may carry a weekly schedule, validated when it is written and
    parsed again each time access is decided.  The time zone database is
    Node's [Intl], outside the program: the class [Intl] is the part of it the
    code calls, and [IntlLaws] what ECMA-402 documents of those calls (the
    parts spell the weekday, hour and minute of the zone's local time, midnight
    as "24" or "00"). *)

From S2P Require Import Prelude JsString JsValue Schema.

Record Schedule := {
  timezone : string;
  days : list Z;
  start : string;
  end_ : string;
}.
#[global] Instance Schedule_eq_dec : EqDecision Schedule.
Proof. solve_decision. Defined.

(** ** The host's [Intl.DateTimeFormat] *)

Class Intl := {
  isValidTimeZone : string → bool;
  (** [formatToParts] for the options of [isWithinSchedule]: type and value. *)
  formatToParts : string → Z → list (string * string);
}.

(** ** Operations *)

(** [TIME_RE] and the conversion of its two groups. *)
Definition timeToMinutes (t : string) : option Z :=
  match chars t with
  | [h1; h0; colon; m1; m0] =>
      let d := digit_val in
      if (((is_digit h1 && (d h1 <=? 1)) && is_digit h0) || ((code h1 =? 50) && is_digit h0 && (d h0 <=? 3)))
         && (code colon =? 58) && (is_digit m1 && (d m1 <=? 5)) && is_digit m0
      then Some ((10 * d h1 + d h0) * 60 + (10 * d m1 + d m0))
      else None
  | _ => None
  end.

(** The loop over [v.days]: [None] is the early [bad_days] return. *)
Fixpoint collect_days (l : list json) (acc : list Z) : option (list Z) :=
  match l with
  | [] => Some acc
  | JNum (NInt d) :: l' =>
      if (d <? 0) || (6 <? d) then None
      else collect_days l' (if bool_decide (d ∈ acc) then acc else acc ++ [d])
  | _ => None
  end.

Section schedule.
Context `{Intl}.

Definition validateSchedule (value : json) : string + Schedule :=
  if negb (is_object value) then inl "not_object" else
  match obj_get value "timezone" with
  | JStr tz =>
      if negb (isValidTimeZone tz) then inl "bad_timezone" else
      match obj_get value "days" with
      | JArr ((_ :: _) as ds) =>
          match collect_days ds [] with
          | None => inl "bad_days"
          | Some days0 =>
              let days := order_by (λ d : Z, d) days0 in
              match obj_get value "start", obj_get value "end" with
              | JStr st, JStr en =>
                  match timeToMinutes st, timeToMinutes en with
                  | Some s, Some e =>
                      if e <=? s then inl "start_after_end"
                      else inr {| timezone := tz; days := days; start := st; end_ := en |}
                  | _, _ => inl "bad_time"
                  end
              | _, _ => inl "bad_time"
              end
          end
      | _ => inl "bad_days"
      end
  | _ => inl "bad_timezone"
  end.

Definition parseSchedule (value : json) : option Schedule :=
  match validateSchedule value with inr s => Some s | inl _ => None end.

Definition WEEKDAY_INDEX : list (string * Z) :=
  [("Sun", 0); ("Mon", 1); ("Tue", 2); ("Wed", 3); ("Thu", 4); ("Fri", 5); ("Sat", 6)]%string.
Definition weekday_of (s : string) : Z :=
  match list_find (λ p, p.1 = s) WEEKDAY_INDEX with Some (_, (_, d)) => d | None => -1 end.

(** The loop over the parts: weekday, hour, minute, later parts overriding. *)
Fixpoint read_parts (parts : list (string * string)) (acc : Z * jsnum * jsnum) : Z * jsnum * jsnum :=
  match parts with
  | [] => acc
  | (ty, v) :: parts' =>
      let '(w, h, m) := acc in
      read_parts parts'
        (if ty =s "weekday" then (weekday_of v, h, m)
         else if ty =s "hour" then (w, Number (if v =s "24" then "0" else v), m)
         else if ty =s "minute" then (w, h, Number v)
         else acc)
  end.

Definition isWithinSchedule (schedule : Schedule) (now : Z) : bool :=
  let '(weekday, hour, minute) := read_parts (formatToParts (timezone schedule) now) (-1, NInt 0, NInt 0) in
  if (weekday <? 0) || negb (bool_decide (weekday ∈ days schedule)) then false else
  match timeToMinutes (start schedule), timeToMinutes (end_ schedule), hour, minute with
  | Some s, Some e, NInt h, NInt m => let nowMin := h * 60 + m in (s <=? nowMin) && (nowMin <=? e)
  | _, _, _, _ => false
  end.

(** The Json column a schedule is stored in. *)
Definition schedule_json (s : Schedule) : json :=
  JObj [("timezone", JStr (timezone s)); ("days", JArr (map (λ d, JNum (NInt d)) (days s)));
        ("start", JStr (start s)); ("end", JStr (end_ s))]%string.
End schedule.

(** ** Local time *)

(** Weekday (0 = Sunday), hour and minute of a local time in milliseconds;
    1970-01-01 was a Thursday. *)
Definition weekday_at (ms : Z) : Z := (ms / ms_per_day + 4) mod 7.
Definition minute_of_day (ms : Z) : Z := ms mod ms_per_day / 60000.

Definition two_digits (z : Z) : string := unchars (pad 2 z).
Definition day_name (d : Z) : string :=
  match list_find (λ p, p.2 = d) WEEKDAY_INDEX with Some (_, (n, _)) => n | None => ""%string end.

(** The local time in a zone, and that the parts spell it. *)
Class IntlLaws `{Intl} := {
  local_time : string → Z → Z;
  parts_spell tz now :
    isValidTimeZone tz = true →
    let t := local_time tz now in
    let h := minute_of_day t / 60 in
    ∃ hour, (hour = two_digits h ∨ (h = 0 ∧ hour = "24"%string)) ∧
    formatToParts tz now =
      [("weekday", day_name (weekday_at t)); ("literal", " "); ("hour", hour);
       ("literal", ":"); ("minute", two_digits (minute_of_day t mod 60))]%string;
}.

(** A host that knows UTC only. *)
#[global] Instance utc_intl : Intl | 100 := {|
  isValidTimeZone tz := tz =s "UTC";
  formatToParts tz now :=
    let h := minute_of_day now / 60 in
    let hour := if h =? 0 then "24"%string else two_digits h in
    [("weekday", day_name (weekday_at now)); ("literal", " "); ("hour", hour);
     ("literal", ":"); ("minute", two_digits (minute_of_day now mod 60))]%string |}.
#[global] Instance utc_laws : IntlLaws (H := utc_intl) | 100.
Proof.
  refine {| local_time _ now := now |}. intros tz now _. simpl. eexists. split; [|reflexivity].
  destruct (Z.eqb_spec (minute_of_day now / 60) 0); auto.
Defined.

(** ** Lemmas *)

Definition day_ok (d : Z) : Prop := 0 ≤ d ≤ 6.

Lemma collect_days_sound l acc r :
  collect_days l acc = Some r → NoDup acc → Forall day_ok acc →
  NoDup r ∧ Forall day_ok r ∧ (∀ d, d ∈ r ↔ d ∈ acc ∨ JNum (NInt d) ∈ l).
Proof.
  revert acc. induction l as [|x l IH]; intros acc Hc Hnd Hok; simpl in Hc.
  { simplify_eq. split_and!; [done..|]. intros d. rewrite elem_of_nil. tauto. }
  destruct x as [| | |[d| | | |]| | |]; try done.
  destruct ((d <? 0) || (6 <? d)) eqn:Hr; [done|]. reflect_bool.
  case_bool_decide as Hd; apply IH in Hc as (H1 & H2 & H3); try done.
  - split_and!; [done..|]. intros y. rewrite H3, elem_of_cons.
    destruct (decide (y = d)) as [->|]; naive_solver.
  - split_and!; [done..|]. intros y. rewrite H3, elem_of_app, list_elem_of_singleton, elem_of_cons. naive_solver.
  - apply NoDup_app. split_and!; [done| |apply NoDup_singleton]. set_solver.
  - apply Forall_app. split; [done|]. apply Forall_singleton. unfold day_ok. lia.
Qed.

Lemma collect_days_nonempty x l r : collect_days (x :: l) [] = Some r → r ≠ [].
Proof.
  intros Hc ->. assert (∃ d, x = JNum (NInt d)) as [d ->].
  { destruct x as [| | |[]| | |]; simpl in Hc; try done. by eexists. }
  apply collect_days_sound in Hc as (_ & _ & Hin); [|constructor|done].
  apply (not_elem_of_nil d), Hin. right. by left.
Qed.

Lemma collect_days_json ds acc :
  NoDup (acc ++ ds) → Forall day_ok ds →
  collect_days (map (λ d, JNum (NInt d)) ds) acc = Some (acc ++ ds).
Proof.
  revert acc. induction ds as [|d ds IH]; intros acc Hnd Hok; simpl; [by rewrite app_nil_r|].
  apply Forall_cons in Hok as [Hd Hok]. unfold day_ok in Hd.
  destruct ((d <? 0) || (6 <? d)) eqn:Hr.
  { apply orb_true_iff in Hr as [Hr|Hr]; reflect_bool; lia. }
  rewrite bool_decide_eq_false_2.
  - rewrite IH; [by rewrite <-(assoc_L (++))|by rewrite <-(assoc_L (++))|done].
  - apply NoDup_app in Hnd as (_ & Hn & _). intros Hin. apply (Hn d Hin). by left.
Qed.

Section facts.
Context `{Intl}.

Definition wf_schedule (s : Schedule) : Prop :=
  isValidTimeZone (timezone s) = true ∧ days s ≠ [] ∧ increasing (λ d, d) (days s) ∧
  Forall day_ok (days s) ∧
  ∃ a b, timeToMinutes (start s) = Some a ∧ timeToMinutes (end_ s) = Some b ∧ a < b.

Lemma schedule_json_parses s : wf_schedule s → validateSchedule (schedule_json s) = inr s.
Proof.
  intros (Htz & Hne & Hinc & Hok & a & b & Ha & Hb & Hab). unfold validateSchedule; simpl.
  rewrite Htz. simpl. destruct s as [tz ds st en]; simpl in *.
  destruct ds as [|d ds]; [done|]. apply increasing_NoDup in Hinc as Hnd. rewrite list_fmap_id in Hnd.
  pose proof (collect_days_json (d :: ds) [] Hnd Hok) as Hc. cbn [map] in Hc |- *. rewrite Hc. simpl.
  rewrite Ha, Hb. destruct (Z.leb_spec b a); [lia|]. do 2 f_equal. by apply order_by_id.
Qed.

Lemma validate_wf v s :
  validateSchedule v = inr s →
  wf_schedule s ∧ ∃ l, obj_get v "days" = JArr l ∧ ∀ d, d ∈ days s ↔ JNum (NInt d) ∈ l.
Proof.
  unfold validateSchedule. intros Hv. destruct (is_object v); [simpl in Hv|done].
  destruct (obj_get v "timezone") as [| | | |tz| |]; try done.
  destruct (isValidTimeZone tz) eqn:Htz; [simpl in Hv|done].
  destruct (obj_get v "days") as [| | | | |[|d0 ds]|] eqn:Hd; try done.
  destruct (collect_days (d0 :: ds) []) as [r|] eqn:Hc; [|done].
  destruct (obj_get v "start") as [| | | |st| |]; try done.
  destruct (obj_get v "end") as [| | | |en| |]; try done.
  destruct (timeToMinutes st) as [a|] eqn:Ha; [|done].
  destruct (timeToMinutes en) as [b|] eqn:Hb; [|done].
  destruct (Z.leb_spec b a); [done|]. simplify_eq.
  apply collect_days_nonempty in Hc as Hne.
  apply collect_days_sound in Hc as (Hnd & Hok & Hin); [|constructor|done].
  assert (order_by (λ d, d) r ≡ₚ r) as Hp by apply merge_sort_Permutation.
  split; [|exists (d0 :: ds); split; [done|]; intros d; simpl; rewrite Hp, Hin, elem_of_nil; tauto].
  split_and!; simpl; [done| |apply order_by_increasing; by rewrite list_fmap_id|by rewrite Hp|by exists a, b].
  intros Hnil. rewrite Hnil in Hp. by apply Permutation_nil in Hp.
Qed.

(** What [validateSchedule] accepts is well formed (a known zone, each
    requested day once, in order and within the week, a window that opens
    before it closes), and survives its trip through the database: the stored
    Json parses back to exactly the validated schedule. *)
Theorem validateSchedule_roundtrip v s :
  validateSchedule v = inr s →
  wf_schedule s ∧ parseSchedule (schedule_json s) = Some s ∧
  ∃ l, obj_get v "days" = JArr l ∧ ∀ d, d ∈ days s ↔ JNum (NInt d) ∈ l.
Proof.
  intros [Hwf Hl]%validate_wf. split_and!; [done| |done].
  unfold parseSchedule. by rewrite schedule_json_parses.
Qed.
End facts.

Lemma Number_two_digits_all :
  forallb (λ n, bool_decide (Number (two_digits (Z.of_nat n)) = NInt (Z.of_nat n))) (seq 0 60) = true.
Proof. vm_compute. reflexivity. Qed.
Lemma Number_two_digits z : 0 ≤ z < 60 → Number (two_digits z) = NInt z.
Proof.
  intros Hz. pose proof Number_two_digits_all as Hall. rewrite forallb_forall in Hall.
  specialize (Hall (Z.to_nat z)). rewrite Z2Nat.id in Hall by lia.
  eapply bool_decide_eq_true_1, Hall. apply in_seq. lia.
Qed.
Lemma weekday_of_name d : 0 ≤ d ≤ 6 → weekday_of (day_name d) = d.
Proof.
  intros Hd. assert (d = 0 ∨ d = 1 ∨ d = 2 ∨ d = 3 ∨ d = 4 ∨ d = 5 ∨ d = 6) as Hc by lia.
  by destruct_or!; subst.
Qed.
Lemma weekday_at_range ms : 0 ≤ weekday_at ms ≤ 6.
Proof. unfold weekday_at. pose proof (Z.mod_pos_bound (ms / ms_per_day + 4) 7). lia. Qed.
Lemma minute_of_day_range ms : 0 ≤ minute_of_day ms < 1440.
Proof. unfold minute_of_day, ms_per_day. Z.to_euclidean_division_equations; lia. Qed.

Section window.
Context `{IntlLaws}.

Lemma read_parts_local tz now :
  isValidTimeZone tz = true →
  let t := local_time tz now in
  read_parts (formatToParts tz now) (-1, NInt 0, NInt 0) =
    (weekday_at t, NInt (minute_of_day t / 60), NInt (minute_of_day t mod 60)).
Proof.
  intros Htz t. destruct (parts_spell tz now Htz) as (hour & Hh & ->). fold t in Hh |- *. simpl.
  pose proof (minute_of_day_range t). rewrite weekday_of_name by apply weekday_at_range.
  rewrite Number_two_digits by (apply Z.mod_pos_bound; lia).
  assert (Number (if hour =s "24" then "0" else hour) = NInt (minute_of_day t / 60)) as ->; [|done].
  destruct Hh as [->|[-> ->]]; [|done].
  assert (0 ≤ minute_of_day t / 60 < 24) by (Z.to_euclidean_division_equations; lia).
  case_bool_decide as E; [|by apply Number_two_digits; lia].
  apply (f_equal Number) in E. rewrite Number_two_digits in E by lia.
  assert (Number "24" = NInt 24) as H24 by reflexivity. rewrite H24 in E. simplify_eq. lia.
Qed.

(** A schedule that validates admits an instant exactly when, in its own
    zone's local time, the weekday is one of its days and the minute of the
    day is between its start and its end, both included. *)
Theorem isWithinSchedule_spec s now :
  wf_schedule s →
  isWithinSchedule s now = true ↔
    ∃ a b, timeToMinutes (start s) = Some a ∧ timeToMinutes (end_ s) = Some b ∧
      weekday_at (local_time (timezone s) now) ∈ days s ∧
      a ≤ minute_of_day (local_time (timezone s) now) ≤ b.
Proof.
  intros (Htz & _ & _ & _ & a & b & Ha & Hb & Hab). unfold isWithinSchedule.
  rewrite read_parts_local by done. rewrite Ha, Hb.
  set (t := local_time (timezone s) now). pose proof (weekday_at_range t).
  destruct (Z.ltb_spec (weekday_at t) 0); [lia|]. simpl.
  replace (minute_of_day t / 60 * 60 + minute_of_day t mod 60) with (minute_of_day t)
    by (Z.to_euclidean_division_equations; lia).
  case_bool_decide as Hin; simpl.
  - rewrite andb_true_iff, !Z.leb_le. split; [intros; by exists a, b|].
    intros (? & ? & ? & ? & ? & ?). by simplify_eq.
  - split; [done|]. by intros (? & ? & ? & ? & ? & ?).
Qed.
End window.

(** ** Concrete runs *)

Definition office_hours : Schedule :=
  {| timezone := "UTC"; days := [1; 2; 3; 4; 5]; start := "09:00"; end_ := "17:30" |}.
Definition office_hours_body : json :=
  JObj [("days", JArr (map (λ d, JNum (NInt d)) [5; 1; 2; 2; 4; 3])); ("timezone", JStr "UTC");
        ("start", JStr "09:00"); ("end", JStr "17:30")]%string.

Lemma validateSchedule_roundtrip_witness :
  parseSchedule (schedule_json office_hours) = Some office_hours.
Proof. apply (validateSchedule_roundtrip office_hours_body). vm_compute. reflexivity. Defined.

(** 1767323045000 is Friday 2026-01-02 03:04:05 UTC. *)
Lemma isWithinSchedule_spec_witness :
  isWithinSchedule office_hours 1767323045000 = true ↔
    ∃ a b, timeToMinutes "09:00" = Some a ∧ timeToMinutes "17:30" = Some b ∧
      weekday_at 1767323045000 ∈ days office_hours ∧ a ≤ minute_of_day 1767323045000 ≤ b.
Proof.
  refine (isWithinSchedule_spec (H0 := utc_laws) office_hours 1767323045000 _).
  apply (validate_wf office_hours_body). vm_compute. reflexivity.
Defined.
Example office_hours_closed : isWithinSchedule office_hours 1767323045000 = false.
Proof. vm_compute. reflexivity. Qed.
Example office_hours_open : isWithinSchedule office_hours (1767323045000 + 7 * hour_ms) = true.
Proof. vm_compute. reflexivity. Qed.
