(* ===== verification/Identity.v ===== *)
(** * Who may do what, and what a sign-in proved

    src/lib/auth/roles.ts, center-role.ts, amr.ts, oidc.ts (the claim checks
    and grant selection), setup-role.ts, return-to.ts, rp.ts, email.ts,
    display-name.ts, session-select.ts, src/lib/secure-compare.ts and
    src/lib/request-ip.ts: the pure decisions of authentication.  A verified ID
    token's claims are a [json] value; the environment (COOKIE_DOMAIN, the
    WHATWG URL parser) is passed in. *)

From S2P Require Import Prelude JsString JsValue Schema.

(** ** Roles *)

Inductive Capability := configure | approve_grants | read_console | manage_tenants.
#[global] Instance Capability_eq_dec : EqDecision Capability.
Proof. solve_decision. Defined.

Definition ROLE_CAPS (r : Role) : list Capability :=
  match r with
  | ADMIN => [configure; approve_grants; read_console]
  | OPERATOR => [approve_grants; read_console]
  | AUDITOR => [read_console]
  | STAFF => []
  | VENDOR => []
  | PLATFORM => [manage_tenants]
  end.
Definition can (r : Role) (c : Capability) : bool := bool_decide (c ∈ ROLE_CAPS r).
Definition isConsoleUser (r : Role) : bool := bool_decide (read_console ∈ ROLE_CAPS r).
Definition ASSIGNABLE_ROLES : list Role := [ADMIN; OPERATOR; AUDITOR; STAFF; VENDOR].

(** ** The centre's word on a role *)

Inductive CenterRole := COwner | CAdmin | CMember.
#[global] Instance CenterRole_eq_dec : EqDecision CenterRole.
Proof. solve_decision. Defined.
Definition center_name (c : CenterRole) : string :=
  match c with COwner => "OWNER" | CAdmin => "ADMIN" | CMember => "MEMBER" end.

Definition centerRoleOf (role : json) : CenterRole :=
  match role with
  | JStr s => if s =s "OWNER" then COwner else if s =s "ADMIN" then CAdmin else CMember
  | _ => CMember
  end.
Definition accessRoleForGrant (role : json) : Role :=
  match role with
  | JStr s => if (s =s "OWNER") || (s =s "ADMIN") then ADMIN else STAFF
  | _ => STAFF
  end.
Definition consoleRolesFor (c : CenterRole) : list Role :=
  match c with
  | CMember => [OPERATOR; AUDITOR; STAFF]
  | _ => [ADMIN; OPERATOR; AUDITOR; STAFF]
  end.
Definition consoleRoleAllowed (c : CenterRole) (r : Role) : bool := bool_decide (r ∈ consoleRolesFor c).

Inductive Reconciled := RUnchanged | RRevoked | RUpdate (role : Role) (centerRole : CenterRole).

(** [user.centerRole] is the stored text, [None] when the centre never spoke. *)
Definition reconcileCenterRole (role : Role) (centerRole : option string) (status : UserStatus)
    (grantRole : json) : Reconciled :=
  if bool_decide (role = PLATFORM) then RUnchanged else
  if is_nullish grantRole then (if truthy_opt centerRole then RRevoked else RUnchanged) else
  let c := centerRoleOf grantRole in
  let changed := negb (bool_decide (centerRole = Some (center_name c))) in
  let role' := if changed || negb (consoleRoleAllowed c role)
               then accessRoleForGrant (JStr (center_name c)) else role in
  if bool_decide (role' = role) && negb changed && bool_decide (status = UActive) then RUnchanged
  else RUpdate role' c.

(** ** Authentication methods *)

Definition SECOND_FACTOR : list string := ["otp"; "mfa"; "hwk"; "swk"; "sc"; "fido"]%string.
Definition MAX_METHOD_LENGTH : Z := 32.
Definition MAX_METHODS : nat := 16.

(** The loop of [readAmr], with [break] at the sixteenth method. *)
Fixpoint read_methods (raw : list json) (out : list string) : list string :=
  match raw with
  | [] => out
  | JStr v :: raw' =>
      let m := toLowerCase (trim v) in
      if negb (truthy m) || (MAX_METHOD_LENGTH <? js_length m) || bool_decide (m ∈ out)
      then read_methods raw' out
      else let out' := out ++ [m] in
           if (length out' =? MAX_METHODS)%nat then out' else read_methods raw' out'
  | _ :: raw' => read_methods raw' out
  end.
Definition readAmr (claims : json) : list string :=
  match obj_get claims "amr" with JArr raw => read_methods raw [] | _ => [] end.
Definition hasSecondFactor (amr : list string) : bool :=
  existsb (λ m, bool_decide (m ∈ SECOND_FACTOR)) amr.
Definition passkeyAmr (userVerified : bool) : list string :=
  if userVerified then ["passkey"; "mfa"]%string else ["passkey"]%string.

Inductive SecondFactorGate := GateAllow | GateStepUp | GateRefuse.
#[global] Instance SecondFactorGate_eq_dec : EqDecision SecondFactorGate.
Proof. solve_decision. Defined.
Definition secondFactorGate (required : bool) (amr : list string) (steppedUp : bool) : SecondFactorGate :=
  if negb required then GateAllow
  else if hasSecondFactor amr then GateAllow
  else if steppedUp then GateRefuse else GateStepUp.

(** ** Claims of an ID token *)

Definition json_str_is (v : json) (s : string) : bool := match v with JStr t => t =s s | _ => false end.

(** [inl reason] is a refusal, [inr email] the verified address. *)
Definition checkClaims (claims : json) (issuer clientId nonce : string) : string + string :=
  if negb (json_str_is (obj_get claims "iss") issuer) then inl "iss" else
  let aud := obj_get claims "aud" in
  let audOk := match aud with
               | JArr l => existsb (λ a, json_str_is a clientId) l
               | _ => json_str_is aud clientId
               end in
  if negb audOk then inl "aud" else
  if match aud with JArr (_ :: _ :: _) => negb (json_str_is (obj_get claims "azp") clientId) | _ => false end
  then inl "azp" else
  if negb (truthy (str_or_empty (obj_get claims "nonce"))) ||
     negb (json_str_is (obj_get claims "nonce") nonce) then inl "nonce" else
  match obj_get claims "email_verified" with
  | JBool true =>
      let email := toLowerCase (trim (str_or_empty (obj_get claims "email"))) in
      if truthy email then inr email else inl "email"
  | _ => inl "email_verified"
  end.

Record OrgGrant := { og_org : string; og_name : string; og_role : string }.

Definition captivo_grants (claims : json) : list json :=
  match obj_get (obj_get claims "captivo") "grants" with JArr l => l | _ => [] end.
Definition trimmed (v : json) : string := trim (str_or_empty v).

(** The first usable ACCESS grant, whatever its organisation. *)
Definition accessGrant (claims : json) : option OrgGrant :=
  head (omap (λ g,
    if negb (is_object g) || negb (json_str_is (obj_get g "product") "ACCESS") then None else
    let org := trimmed (obj_get g "org") in
    let orgName := trimmed (obj_get g "orgName") in
    if negb (truthy org) || negb (truthy orgName) then None
    else Some {| og_org := org; og_name := orgName; og_role := str_or_empty (obj_get g "role") |})
    (captivo_grants claims)).

(** The first usable ACCESS grant for one organisation. *)
Definition accessGrantFor (claims : json) (org : string) : option OrgGrant :=
  if negb (truthy org) then None else
  head (omap (λ g,
    if negb (is_object g) || negb (json_str_is (obj_get g "product") "ACCESS") then None else
    if match obj_get g "org" with JStr o => negb (trim o =s org) | _ => true end then None else
    let orgName := trimmed (obj_get g "orgName") in
    if negb (truthy orgName) then None
    else Some {| og_org := org; og_name := orgName; og_role := str_or_empty (obj_get g "role") |})
    (captivo_grants claims)).

Definition CAPTIVO_SCOPE : string := "captivo".
Definition authorizationScope (scopesSupported : json) : string :=
  let supported := match scopesSupported with JArr l => l | _ => [] end in
  join " " (["openid"; "email"; "profile"]%string ++
            (if existsb (λ s, json_str_is s CAPTIVO_SCOPE) supported then [CAPTIVO_SCOPE] else [])).

(** ** First run *)

Definition PLATFORM_TENANT_ID : string := "platform".
(** [None]: disallowed. *)
Definition resolveSetupRole (multiTenant : bool) (tenantId : string) : option Role :=
  if negb multiTenant then Some ADMIN
  else if tenantId =s PLATFORM_TENANT_ID then Some PLATFORM else None.

(** ** Secrets and addresses *)

(** [timingSafeEqualStr]: equality of the bytes, false on an empty side. *)
Definition timingSafeEqualStr (a b : option string) : bool :=
  match a, b with
  | Some x, Some y => truthy x && truthy y && (js_length x =? js_length y) && (x =s y)
  | _, _ => false
  end.

Definition comma : Ascii.ascii := Ascii.ascii_of_N 44.
Definition clientIp (x_real_ip x_forwarded_for : option string) : option string :=
  let real := match x_real_ip with Some r => if truthy r && truthy (trim r) then Some (trim r) else None
                                 | None => None end in
  match real with
  | Some r => Some r
  | None => match x_forwarded_for with
            | Some xff => if truthy xff then last (List.filter truthy (map trim (split comma xff))) else None
            | None => None
            end
  end.

Definition normalizeEmail (email : string) : string := toLowerCase (trim email).
Definition isPlaceholderName (name email : string) : bool :=
  toLowerCase (trim name) =s toLowerCase (trim email).
Definition sessionIdsToRevoke (requested : list string) (currentId : option string) : list string :=
  List.filter (λ id, negb (id =s "") && negb (bool_decide (Some id = currentId))) requested.

(** [value.replace(/\s+/g, " ")]: each run of white space becomes one space. *)
Fixpoint collapse_ws (l : list Ascii.ascii) (in_run : bool) : list Ascii.ascii :=
  match l with
  | [] => []
  | c :: l' =>
      if is_ws c then (if in_run then collapse_ws l' true else Ascii.ascii_of_N 32 :: collapse_ws l' true)
      else c :: collapse_ws l' false
  end.
Definition DISPLAY_NAME_MAX : Z := 100.
Definition normalizeDisplayName (value : json) : option string :=
  match value with
  | JStr s => let v := trim (unchars (collapse_ws (chars s) false)) in
              if negb (truthy v) || (DISPLAY_NAME_MAX <? js_length v) then None else Some v
  | _ => None
  end.

(** ** Redirect targets *)

(** What the code reads of a parsed URL; [None] is the parser's throw. *)
Record Url := { u_protocol : string; u_host : string; u_hostname : string; u_href : string }.

Section urls.
Context (parse_url : string → option Url).

Definition safeReturnTo (COOKIE_DOMAIN : option string) (raw : option string) : string :=
  match raw with
  | None => "/"
  | Some r =>
      if negb (truthy r) then "/" else
      if startsWith "/" r && negb (startsWith "//" r) then r else
      let domain := trim (COOKIE_DOMAIN ?? "") in
      if negb (truthy domain) then "/" else
      match parse_url r with
      | None => "/"
      | Some u =>
          let suffix := if startsWith "." domain then domain else ("." +:+ domain) in
          let bare := if startsWith "." domain then slice_from 1 domain else domain in
          if (u_protocol u =s "https:") && ((u_host u =s bare) || endsWith suffix (u_host u))
          then u_href u else "/"
      end
  end.

Definition originMatchesRp (origin rpId : string) : bool :=
  match parse_url origin with
  | None => false
  | Some u => (u_hostname u =s rpId) || endsWith ("." +:+ rpId) (u_hostname u)
  end.
End urls.

(** ** Theorems: roles *)

Lemma reconcile_stable role grantRole :
  role ≠ PLATFORM → is_nullish grantRole = false → consoleRoleAllowed (centerRoleOf grantRole) role = true →
  reconcileCenterRole role (Some (center_name (centerRoleOf grantRole))) UActive grantRole = RUnchanged.
Proof.
  intros Hp Hn Hal. unfold reconcileCenterRole. rewrite (bool_decide_eq_false_2 _ Hp), Hn, Hal.
  rewrite (bool_decide_eq_true_2 (Some _ = Some _)) by done. simpl.
  by rewrite (bool_decide_eq_true_2 (role = role)).
Qed.

Lemma mapped_role_allowed c :
  let r := accessRoleForGrant (JStr (center_name c)) in
  consoleRoleAllowed c r = true ∧ r ≠ VENDOR ∧ r ≠ PLATFORM ∧ (c = CMember → r ≠ ADMIN).
Proof. by destruct c. Qed.

Lemma allowed_role c r :
  consoleRoleAllowed c r = true → r ≠ VENDOR ∧ r ≠ PLATFORM ∧ (c = CMember → r ≠ ADMIN).
Proof.
  unfold consoleRoleAllowed. intros Hal%bool_decide_eq_true_1. destruct c; simpl in Hal; set_solver.
Qed.

(** The centre's ceiling.  Whatever a token says, the console role it
    results in is one the centre role allows (a member is never an ADMIN, an
    organisation member never a VENDOR or PLATFORM), platform staff are left
    alone, only a user the centre manages can be revoked, and applying the
    verdict once is enough: the same token then changes nothing. *)
Theorem reconcile_ceiling role centerRole status grantRole :
  match reconcileCenterRole role centerRole status grantRole with
  | RUpdate role' c =>
      role ≠ PLATFORM ∧ consoleRoleAllowed c role' = true ∧ role' ≠ VENDOR ∧ role' ≠ PLATFORM ∧
      (c = CMember → role' ≠ ADMIN) ∧ c = centerRoleOf grantRole ∧
      reconcileCenterRole role' (Some (center_name c)) UActive grantRole = RUnchanged
  | RRevoked => role ≠ PLATFORM ∧ truthy_opt centerRole = true ∧ is_nullish grantRole = true
  | RUnchanged => True
  end.
Proof.
  unfold reconcileCenterRole at 1. case_bool_decide as Hp; [done|].
  destruct (is_nullish grantRole) eqn:Hn; [by destruct (truthy_opt centerRole)|].
  set (c := centerRoleOf grantRole). set (changed := negb (bool_decide (centerRole = _))).
  destruct (changed || negb (consoleRoleAllowed c role)) eqn:Hc;
    (destruct (_ && _ && _); [done|]).
  - destruct (mapped_role_allowed c) as (H1 & H2 & H3 & H4). split_and!; try done. by apply reconcile_stable.
  - apply orb_false_iff in Hc as [_ Hal%negb_false_iff]. destruct (allowed_role _ _ Hal) as (H1 & H2 & H3).
    split_and!; try done. by apply reconcile_stable.
Qed.

(** ** Theorems: second factor *)

Definition method_of (v : json) : option string :=
  match v with JStr s => Some (toLowerCase (trim s)) | _ => None end.

Lemma read_methods_sound raw out m :
  m ∈ read_methods raw out → m ∈ out ∨ (∃ v, v ∈ raw ∧ method_of v = Some m).
Proof.
  revert out. induction raw as [|x raw IH]; intros out Hm; simpl in Hm; [by left|].
  assert (∀ o, m ∈ read_methods raw o → m ∈ o ∨ (∃ v, v ∈ x :: raw ∧ method_of v = Some m)) as IH'.
  { intros o Ho. destruct (IH _ Ho) as [?|(v & ? & ?)]; [by left|]. right. exists v. split; [by right|done]. }
  destruct x; try by apply IH'. repeat case_match; try (by apply IH').
  - apply elem_of_app in Hm as [?|Hm%list_elem_of_singleton]; [by left|].
    right. eexists. split; [by left|]. simpl. by rewrite Hm.
  - apply IH' in Hm as [[?|Hm%list_elem_of_singleton]%elem_of_app|?]; [by left| |by right].
    right. eexists. split; [by left|]. simpl. by rewrite Hm.
Qed.

Definition clean_methods (out : list string) : Prop :=
  NoDup out ∧ (length out ≤ MAX_METHODS)%nat ∧
  Forall (λ m, truthy m = true ∧ js_length m ≤ MAX_METHOD_LENGTH) out.

Lemma read_methods_clean raw out :
  clean_methods out → (length out < MAX_METHODS)%nat → clean_methods (read_methods raw out).
Proof.
  revert out. induction raw as [|x raw IH]; intros out Hc Hl; simpl; [done|].
  destruct x; try by apply IH.
  destruct (_ || _ || _) eqn:Hb; [by apply IH|]. reflect_bool.
  assert (clean_methods (out ++ [toLowerCase (trim s)])) as Hc'.
  { destruct Hc as (Hnd & _ & Hall). split_and!.
    - apply NoDup_app. split_and!; [done|set_solver|apply NoDup_singleton].
    - rewrite length_app. simpl. lia.
    - apply Forall_app. split; [done|]. apply Forall_singleton. split; [done|lia]. }
  destruct (Nat.eqb_spec (length (out ++ [toLowerCase (trim s)])) MAX_METHODS); [done|].
  apply IH; [done|]. rewrite length_app in *. simpl in *. lia.
Qed.

(** Under a policy that requires a second factor, a sign-in is let in only
    if the token's [amr] claim is a list that states one (any spelling of
    otp, mfa, hwk, swk, sc or fido); a claim of any other shape is never
    enough.  A person is sent back to authenticate again at most once, and the
    recorded methods are bounded: at most 16, distinct, 1 to 32 characters. *)
Theorem second_factor_enforced claims steppedUp :
  (secondFactorGate true (readAmr claims) steppedUp = GateAllow →
     ∃ raw v m, obj_get claims "amr" = JArr raw ∧ v ∈ raw ∧ method_of v = Some m ∧ m ∈ SECOND_FACTOR) ∧
  secondFactorGate true (readAmr claims) true ≠ GateStepUp ∧
  clean_methods (readAmr claims).
Proof.
  split_and!.
  - unfold secondFactorGate, hasSecondFactor. simpl. destruct (existsb _ _) eqn:He.
    2: by destruct steppedUp.
    intros _. apply existsb_exists in He as (m & Hm & Hs). apply bool_decide_eq_true_1 in Hs.
    unfold readAmr in Hm. destruct (obj_get claims "amr") as [| | | | |raw|]; try done.
    apply list_elem_of_In, read_methods_sound in Hm as [Hm|(v & Hv & Hm)]; [by apply elem_of_nil in Hm|].
    by exists raw, v, m.
  - unfold secondFactorGate. simpl. by destruct (hasSecondFactor _).
  - assert (clean_methods []) as H0 by (split_and!; [constructor|simpl; lia|constructor]).
    unfold readAmr. destruct (obj_get claims "amr"); try exact H0.
    apply read_methods_clean; [done|]. unfold MAX_METHODS. simpl. lia.
Qed.

(** ** Theorems: grants of the centre *)

(** The grant found for an organisation is for that organisation: it comes
    from an ACCESS entry of the token's grant list that names it. *)
Theorem accessGrantFor_sound claims org g :
  accessGrantFor claims org = Some g →
  og_org g = org ∧ org ≠ ""%string ∧ og_name g ≠ ""%string ∧
  ∃ rec o, rec ∈ captivo_grants claims ∧ obj_get rec "product" = JStr "ACCESS" ∧
    obj_get rec "org" = JStr o ∧ trim o = org.
Proof.
  unfold accessGrantFor. destruct (truthy org) eqn:Ho; [simpl|done].
  intros Hg. apply head_Some_elem_of in Hg. apply list_elem_of_omap in Hg as (rec & Hr & Hg).
  destruct (is_object rec); [simpl in Hg|done].
  destruct (json_str_is (obj_get rec "product") "ACCESS") eqn:Hp; [simpl in Hg|done].
  destruct (obj_get rec "org") as [| | | |o| |] eqn:Horg; try done.
  case_bool_decide as Ht; [simpl in Hg|done].
  destruct (truthy (trimmed (obj_get rec "orgName"))) eqn:Hn; [simpl in Hg|done]. simplify_eq. simpl.
  unfold truthy in *. reflect_bool. split_and!; try done. exists rec, o. split_and!; try done.
  destruct (obj_get rec "product"); try done. simpl in Hp. reflect_bool. by subst.
Qed.

(** ** Theorems: addresses *)

Lemma normalizeEmail_idemp e : normalizeEmail (normalizeEmail e) = normalizeEmail e.
Proof. unfold normalizeEmail. by rewrite trim_toLowerCase, toLowerCase_idemp, trim_idemp. Qed.

Lemma split_chars_snoc sep l w :
  sep ∉ w → split_chars sep (l ++ sep :: w) = split_chars sep l ++ [w].
Proof.
  intros Hw. induction l as [|c l IH]; simpl.
  { rewrite bool_decide_eq_true_2 by done. by rewrite split_chars_free. }
  rewrite IH. case_bool_decide; [done|].
  pose proof (split_chars_nonempty sep l). by destruct (split_chars sep l).
Qed.

Lemma trim_leading_space c s : is_ws c = true → trim (unchars (c :: s)) = trim (unchars s).
Proof. intros Hc. unfold trim. rewrite !chars_unchars. unfold trim_chars. simpl. by rewrite Hc. Qed.

(** The recorded client address cannot be chosen by the client.  When the
    proxy sends no X-Real-IP and appends the peer address to X-Forwarded-For,
    the result is that address, whatever the client put in the header before. *)
Theorem clientIp_unspoofable (spoofed ip : string) :
  trim ip = ip → ip ≠ ""%string → sep_free comma ip →
  clientIp None (Some (spoofed +:+ ", " +:+ ip)) = Some ip.
Proof.
  intros Ht Hne Hc. unfold clientIp.
  assert (split comma (spoofed +:+ ", " +:+ ip) =
    split comma spoofed ++ [unchars (Ascii.ascii_of_N 32 :: chars ip)]) as Hs.
  { unfold split. rewrite !chars_append. change (chars ", ") with [comma; Ascii.ascii_of_N 32].
    simpl. rewrite split_chars_snoc, map_app; [done|]. apply not_elem_of_cons. by split. }
  assert (truthy (spoofed +:+ ", " +:+ ip) = true) as ->.
  { unfold truthy. apply negb_true_iff, bool_decide_eq_false_2. by destruct spoofed. }
  rewrite Hs, map_app, List.filter_app. cbn [map List.filter].
  rewrite trim_leading_space by done. rewrite unchars_chars, Ht.
  assert (truthy ip = true) as -> by (unfold truthy; by rewrite bool_decide_eq_false_2).
  by rewrite last_snoc.
Qed.

(** The guard on relative paths lets a backslash through: browsers read it as
    a slash, so the target is another host. *)
Lemma safeReturnTo_backslash parse_url dom :
  safeReturnTo parse_url dom (Some "/\evil.example"%string) = "/\evil.example"%string.
Proof. reflexivity. Qed.

(** ** Concrete runs *)

Definition demo_claims : json :=
  JObj [("captivo", JObj [("grants", JArr [
    JObj [("product", JStr "PORTAL"); ("org", JStr "o1")];
    JObj [("product", JStr "ACCESS"); ("org", JStr "o2"); ("orgName", JStr "Two")];
    JObj [("product", JStr "ACCESS"); ("org", JStr " o1 "); ("orgName", JStr "One"); ("role", JStr "OWNER")]])]);
    ("amr", JArr [JStr "pwd"; JStr " OTP "; JNull])]%string.

Lemma accessGrantFor_sound_witness :
  ∃ rec o, rec ∈ captivo_grants demo_claims ∧ obj_get rec "product" = JStr "ACCESS" ∧
    obj_get rec "org" = JStr o ∧ trim o = "o1"%string.
Proof.
  destruct (accessGrantFor_sound demo_claims "o1" {| og_org := "o1"; og_name := "One"; og_role := "OWNER" |})
    as (_ & _ & _ & H); [vm_compute; reflexivity|exact H].
Defined.

Lemma clientIp_unspoofable_witness :
  clientIp None (Some ("6.6.6.6,," +:+ ", " +:+ "10.0.0.7")) = Some "10.0.0.7"%string.
Proof. apply clientIp_unspoofable; [reflexivity|discriminate|apply (bool_decide_unpack _); vm_compute; exact I]. Defined.

Example demo_amr : readAmr demo_claims = ["pwd"; "otp"]%string.
Proof. vm_compute. reflexivity. Qed.
Example demo_gate : secondFactorGate true (readAmr demo_claims) false = GateAllow.
Proof. vm_compute. reflexivity. Qed.
Example demo_reconcile :
  reconcileCenterRole ADMIN (Some "OWNER"%string) UActive (JStr "MEMBER") = RUpdate STAFF CMember.
Proof. reflexivity. Qed.
