(* ===== verification/Cidr.v ===== *)
(** * The source-address allowlist (src/lib/net/cidr.ts)

    Node's [net.BlockList] and [isIP] are outside the program: [Net] holds what
    the code calls of them.  A block list is the list of rules added to it; an
    out-of-range prefix makes [addSubnet] throw, which the code turns into
    "not added".  The module-level [cached] slot is explicit state. *)

From S2P Require Import Prelude JsString JsValue.

Inductive family := IPv4 | IPv6.
Inductive rule := Subnet (f : family) (addr : string) (prefix : Z) | Address (f : family) (addr : string).

Class Net := {
  (** [isIP]: [None] for 0. *)
  isIP : string → option family;
  (** Whether a rule of a block list covers an address. *)
  rule_covers : rule → family → string → bool;
}.

Definition max_prefix (f : family) : Z := match f with IPv4 => 32 | IPv6 => 128 end.

Section cidr.
Context `{Net}.

(** [raw.split(/[\s,]+/).map(trim).filter(Boolean)]: the maximal runs of
    characters other than white space and commas. *)
Definition is_sep (c : Ascii.ascii) : bool := is_ws c || (code c =? 44).
Fixpoint runs (l : list Ascii.ascii) (cur : list Ascii.ascii) : list (list Ascii.ascii) :=
  match l with
  | [] => [cur]
  | c :: l' => if is_sep c then cur :: runs l' [] else runs l' (cur ++ [c])
  end.
Definition entriesOf (raw : string) : list string :=
  List.filter truthy (map (λ w, trim (unchars w)) (runs (chars raw) [])).

Definition slash : Ascii.ascii := Ascii.ascii_of_N 47.

(** The rule an entry adds; [None] when [addEntry] returns false. *)
Definition addEntry (entry : string) : option rule :=
  match indexOf slash entry with
  | Some i =>
      let addr := slice_to i entry in
      match isIP addr, Number (slice_from (S i) entry) with
      | Some f, NInt prefix =>
          if (0 <=? prefix) && (prefix <=? max_prefix f) then Some (Subnet f addr prefix) else None
      | _, _ => None
      end
  | None => (λ f, Address f entry) <$> isIP entry
  end.

Definition validateAllowlist (raw : string) : list string :=
  List.filter (λ e, negb (bool_decide (is_Some (addEntry e)))) (entriesOf raw).

(** [build]: [None] is the [null] list, no restriction. *)
Definition build (raw : string) : option (list rule) :=
  match omap addEntry (entriesOf raw) with [] => None | rules => Some rules end.

(** IPv4 inside ::ffff:, the regular expression of [normalizeIp]. *)
Definition is_quad_part (w : list Ascii.ascii) : bool :=
  forallb is_digit w && (1 <=? length w)%nat && (length w <=? 3)%nat.
Definition normalizeIp (ip : string) : string :=
  let rest := drop 7 (chars ip) in
  let parts := split_chars (Ascii.ascii_of_N 46) rest in
  if bool_decide (map lower_char (take 7 (chars ip)) = chars "::ffff:") &&
     (length parts =? 4)%nat && forallb is_quad_part parts
  then unchars rest else ip.

Definition check (rules : list rule) (f : family) (ip : string) : bool :=
  existsb (λ r, rule_covers r f ip) rules.

(** The [cached] variable: the last raw list and its compiled form. *)
Definition Cached : Type := option (string * option (list rule)).

Definition ipAllowed (cached : Cached) (raw ip : string) : Cached * bool :=
  let c := match cached with
           | Some (r, bl) => if r =s raw then (r, bl) else (raw, build raw)
           | None => (raw, build raw)
           end in
  (Some c,
   match c.2 with
   | None => true
   | Some rules => match isIP (normalizeIp ip) with
                   | Some f => check rules f (normalizeIp ip)
                   | None => false
                   end
   end).

(** ** Specification *)

(** The cache holds what [build] returns for its key. *)
Definition cache_ok (cached : Cached) : Prop :=
  match cached with Some (r, bl) => bl = build r | None => True end.

(** The policy of a raw list, without a cache. *)
Definition allowed_by (raw ip : string) : bool :=
  match build raw with
  | None => true
  | Some rules => match isIP (normalizeIp ip) with
                  | Some f => check rules f (normalizeIp ip)
                  | None => false
                  end
  end.

Lemma ipAllowed_cached cached raw ip :
  cache_ok cached →
  cache_ok (ipAllowed cached raw ip).1 ∧ (ipAllowed cached raw ip).2 = allowed_by raw ip.
Proof.
  intros Hok. unfold ipAllowed, allowed_by. destruct cached as [[r bl]|]; simpl in *; [|done].
  case_bool_decide; simpl; by subst.
Qed.

(** Answering a sequence of checks, each with its own list, from one process. *)
Fixpoint answers (cached : Cached) (qs : list (string * string)) : list bool :=
  match qs with
  | [] => []
  | (raw, ip) :: qs' => let '(c, b) := ipAllowed cached raw ip in b :: answers c qs'
  end.

Lemma answers_cached cached qs :
  cache_ok cached → answers cached qs = map (λ q, allowed_by q.1 q.2) qs.
Proof.
  revert cached. induction qs as [|[raw ip] qs IH]; intros cached Hok; cbn [answers map]; [done|].
  pose proof (ipAllowed_cached cached raw ip Hok) as [H1 H2].
  destruct (ipAllowed cached raw ip) as [c b]. simpl in *. subst. f_equal. by apply IH.
Qed.

Lemma validate_nil raw :
  validateAllowlist raw = [] → ∀ e, e ∈ entriesOf raw → is_Some (addEntry e).
Proof.
  unfold validateAllowlist. intros Hv e He.
  destruct (decide (is_Some (addEntry e))) as [|Hn]; [done|].
  assert (In e (List.filter (λ e, negb (bool_decide (is_Some (addEntry e)))) (entriesOf raw))) as Hin.
  { apply filter_In. split; [by apply list_elem_of_In|]. by rewrite bool_decide_eq_false_2. }
  by rewrite Hv in Hin.
Qed.

(** C37: the allowlist as enforced.  One process answers checks for many lists
    through one cached compilation; every answer is that of the list asked
    about.  A list accepted at save time and not blank restricts: an address
    is let in only if it parses and one of the list's entries covers it. *)
Theorem allowlist_enforced (qs : list (string * string)) raw ip :
  answers None qs = map (λ q, allowed_by q.1 q.2) qs ∧
  (validateAllowlist raw = [] → entriesOf raw ≠ [] → allowed_by raw ip = true →
   ∃ f e r, isIP (normalizeIp ip) = Some f ∧ e ∈ entriesOf raw ∧ addEntry e = Some r ∧
     rule_covers r f (normalizeIp ip) = true).
Proof.
  split; [by apply answers_cached|]. intros Hv Hne Ha. unfold allowed_by, build in Ha.
  destruct (omap addEntry (entriesOf raw)) as [|r0 rs] eqn:Ho.
  - exfalso. destruct (entriesOf raw) as [|e es] eqn:He; [done|].
    destruct (validate_nil raw Hv e) as [r Hr]; [rewrite He; by left|]. simpl in Ho. by rewrite Hr in Ho.
  - destruct (isIP (normalizeIp ip)) as [f|] eqn:Hf; [|done].
    unfold check in Ha. apply existsb_exists in Ha as (r & Hr & Hc). apply list_elem_of_In in Hr.
    rewrite <-Ho in Hr. apply list_elem_of_omap in Hr as (e & He & Hr). by exists f, e, r.
Qed.
End cidr.

(** ** A blank prefix

    [Number("")] is 0, so an entry that ends in a slash is accepted, as a
    subnet of prefix 0: an allowlist of "10.0.0.0/" admits every IPv4 address. *)
#[global] Instance quad_net : Net | 100 := {|
  isIP s := if (length (split_chars (Ascii.ascii_of_N 46) (chars s)) =? 4)%nat &&
               forallb is_quad_part (split_chars (Ascii.ascii_of_N 46) (chars s)) then Some IPv4 else None;
  rule_covers r f ip := match r with
                        | Subnet _ a p => (p =? 0) || (a =s ip)
                        | Address _ a => a =s ip
                        end |}.

Theorem blank_prefix_admits_all :
  validateAllowlist (H := quad_net) "10.0.0.0/" = [] ∧
  addEntry (H := quad_net) "10.0.0.0/" = Some (Subnet IPv4 "10.0.0.0" 0).
Proof. split; vm_compute; reflexivity. Qed.

Lemma allowlist_enforced_witness :
  ∃ f e r, isIP (normalizeIp "::FFFF:10.0.0.9") = Some f ∧ e ∈ entriesOf "10.0.0.9, 10.0.0.8" ∧
    addEntry e = Some r ∧ rule_covers r f (normalizeIp "::FFFF:10.0.0.9") = true.
Proof.
  apply (proj2 (allowlist_enforced [] "10.0.0.9, 10.0.0.8" "::FFFF:10.0.0.9")).
  - vm_compute. reflexivity.
  - vm_compute. discriminate.
  - vm_compute. reflexivity.
Defined.
