(* ===== verification/Access.v ===== *)
(** * Access grants and the access decision

    src/lib/access/evaluate.ts ([classifyGrant], [evaluateAccess]), grants.ts,
    grant-edit.ts, deny-reason.ts, decision.ts, and the routes that call them:
    src/app/api/admin/grants (POST, DELETE), admin/grants/[id] (PATCH),
    admin/grants/[id]/decision, admin/grants/check, access/requests (POST),
    access/requests/[id] (DELETE), access/my-grants, access/sites and the data
    plane's internal/access/check.

    The state is one tenant's users, sites and grants with its admin log.  A
    handler that reads and then writes in two statements takes [between], what
    other requests did to the grants in between; a single [updateMany] is one
    step.  E-mail and push notices are best effort and leave no state.  A
    request body is a JSON object. *)

From S2P Require Import Prelude JsString JsValue Schema AuditChain AdminLog Schedule Identity Cidr.

(** ** Decisions *)

Inductive DecisionReason :=
  | r_allow | r_user_disabled | r_no_grant | r_revoked | r_denied | r_not_yet | r_off_schedule
  | r_expired | r_pending_approval | r_ip_not_allowed.
#[global] Instance DecisionReason_eq_dec : EqDecision DecisionReason.
Proof. solve_decision. Defined.

Record Decision := { allow : bool; dreason : DecisionReason }.

Definition DENY_PRIORITY (r : DecisionReason) : Z :=
  match r with
  | r_pending_approval => 5 | r_not_yet => 4 | r_off_schedule => 3 | r_expired => 2
  | r_revoked => 1 | r_denied => 1 | _ => 0
  end.

Section evaluate.
Context `{Intl}.

Definition classifyGrant (g : AccessGrant) (now : Z) : DecisionReason :=
  if bool_decide (g_status g = GRevoked) then r_revoked else
  if bool_decide (g_status g = GDenied) then r_denied else
  if match g_startsAt g with Some s => now <? s | None => false end then r_not_yet else
  if match g_endsAt g with Some e => e <? now | None => false end then r_expired else
  if g_requiresApproval g && bool_decide (g_approvedAt g = None) then r_pending_approval else
  if negb (is_nullish (g_schedule g)) &&
     match parseSchedule (g_schedule g) with None => true | Some s => negb (isWithinSchedule s now) end
  then r_off_schedule else r_allow.

(** The loop of [evaluateAccess]: early return on an allowing grant, otherwise
    the first of the reasons with the highest priority. *)
Fixpoint evaluate_loop (now : Z) (grants : list AccessGrant) (best : option DecisionReason) : Decision :=
  match grants with
  | [] => {| allow := false; dreason := best ?? r_no_grant |}
  | g :: grants' =>
      let d := classifyGrant g now in
      if bool_decide (d = r_allow) then {| allow := true; dreason := r_allow |} else
      evaluate_loop now grants'
        (match best with
         | None => Some d
         | Some b => if DENY_PRIORITY b <? DENY_PRIORITY d then Some d else Some b
         end)
  end.

Definition for_pair (userId siteId : string) (g : AccessGrant) : bool :=
  (g_userId g =s userId) && (g_siteId g =s siteId).

Definition evaluateAccess (users : list User) (grants : list AccessGrant) (userId siteId : string) (now : Z)
    : Decision :=
  match find_row (λ u, u_id u =s userId) users with
  | Some u =>
      if negb (bool_decide (u_status u = UActive)) then {| allow := false; dreason := r_user_disabled |} else
      match List.filter (for_pair userId siteId) grants with
      | [] => {| allow := false; dreason := r_no_grant |}
      | gs => evaluate_loop now gs None
      end
  | None => {| allow := false; dreason := r_user_disabled |}
  end.
End evaluate.

(** ** Grant operations *)

Record World := { users : list User; sites : list Site; grants : list AccessGrant; admin : AdminDb }.

Definition with_grants (w : World) (gs : list AccessGrant) : World :=
  {| users := users w; sites := sites w; grants := gs; admin := admin w |}.

Record GrantInput := {
  gi_userId : string;
  gi_siteId : string;
  gi_startsAt : option Z;
  gi_endsAt : option Z;
  gi_note : option string;
  gi_schedule : option Schedule;
}.

Definition schedule_column (s : option Schedule) : json :=
  match s with Some x => schedule_json x | None => JNull end.

Definition createGrant (id createdById : string) (i : GrantInput) (gs : list AccessGrant) : list AccessGrant :=
  gs ++ [{| g_id := id; g_userId := gi_userId i; g_siteId := gi_siteId i; g_startsAt := gi_startsAt i;
            g_endsAt := gi_endsAt i; g_status := GActive; g_note := gi_note i; g_denyReason := None;
            g_requiresApproval := false; g_approvedAt := None; g_approvedById := None;
            g_schedule := schedule_column (gi_schedule i); g_createdById := Some createdById;
            g_directoryManaged := false |}].

Definition set_status (st : GrantStatus) (g : AccessGrant) : AccessGrant :=
  {| g_id := g_id g; g_userId := g_userId g; g_siteId := g_siteId g; g_startsAt := g_startsAt g;
     g_endsAt := g_endsAt g; g_status := st; g_note := g_note g; g_denyReason := g_denyReason g;
     g_requiresApproval := g_requiresApproval g; g_approvedAt := g_approvedAt g;
     g_approvedById := g_approvedById g; g_schedule := g_schedule g; g_createdById := g_createdById g;
     g_directoryManaged := g_directoryManaged g |}.

Definition revokeGrant (id : string) (gs : list AccessGrant) : list AccessGrant :=
  update_where (λ g, g_id g =s id) (set_status GRevoked) gs.

(** [PENDING_WHERE] *)
Definition is_pending (g : AccessGrant) : bool :=
  bool_decide (g_status g = GActive) && g_requiresApproval g && bool_decide (g_approvedAt g = None).

(** [createAccessRequest]; [between]: what other transactions committed after
    the check and before the insert (READ COMMITTED). *)
Definition createAccessRequest (between : list AccessGrant → list AccessGrant) (id : string)
    (i : GrantInput) (gs : list AccessGrant) : list AccessGrant * option string :=
  if existsb (λ g, for_pair (gi_userId i) (gi_siteId i) g && is_pending g) gs then (gs, None) else
  (between gs ++
     [{| g_id := id; g_userId := gi_userId i; g_siteId := gi_siteId i; g_startsAt := gi_startsAt i;
         g_endsAt := gi_endsAt i; g_status := GActive; g_note := gi_note i; g_denyReason := None;
         g_requiresApproval := true; g_approvedAt := None; g_approvedById := None;
         g_schedule := schedule_column (gi_schedule i); g_createdById := Some (gi_userId i);
         g_directoryManaged := false |}], Some id).

Inductive verdict := Approve | Deny.
#[global] Instance verdict_eq_dec : EqDecision verdict.
Proof. solve_decision. Defined.

Definition decided (v : verdict) (now : Z) (adminId : string) (reason : option string) (g : AccessGrant)
    : AccessGrant :=
  {| g_id := g_id g; g_userId := g_userId g; g_siteId := g_siteId g; g_startsAt := g_startsAt g;
     g_endsAt := g_endsAt g; g_status := (match v with Approve => g_status g | Deny => GDenied end);
     g_note := g_note g;
     g_denyReason := (match v with Approve => g_denyReason g | Deny => reason end);
     g_requiresApproval := g_requiresApproval g; g_approvedAt := Some now;
     g_approvedById := Some adminId; g_schedule := g_schedule g; g_createdById := g_createdById g;
     g_directoryManaged := g_directoryManaged g |}.

Definition decideGrant (id : string) (v : verdict) (adminId : string) (reason : option string) (now : Z)
    (gs : list AccessGrant) : list AccessGrant * Z :=
  let p := λ g, (g_id g =s id) && is_pending g in
  (update_where p (decided v now adminId reason) gs, count_where p gs).

Definition countPendingGrants (gs : list AccessGrant) : Z := count_where is_pending gs.

Definition normalizeDenyReason (raw : json) : option string :=
  match raw with
  | JStr s => let t := trim s in if truthy t then Some (slice_to 500 t) else None
  | _ => None
  end.

(** [grantEndsAtError] / [grantCapError]: [None] is no error. *)
Definition grantEndsAtError (endsAt : jsdate) (startsAt : option Z) (now : Z) : option string :=
  match endsAt with
  | InvalidDate => Some "invalid_ends_at"%string
  | ValidDate e =>
      if e <=? now then Some "ends_at_in_past"%string else
      match startsAt with
      | Some s => if e <=? s then Some "ends_at_before_start"%string else None
      | None => None
      end
  end.
Definition grantCapError (startsAt endsAt : option Z) (now maxGrantDays : Z) : option string :=
  if maxGrantDays <=? 0 then None else
  match endsAt with
  | None => Some "grant_requires_end"%string
  | Some e =>
      let start := startsAt ?? now in
      let maxMs := maxGrantDays * 24 * 60 * 60 * 1000 in
      if maxMs <? e - start then Some "grant_exceeds_max"%string else None
  end.

Section listing.
Context `{Intl}.

Definition done_reason (r : DecisionReason) : bool :=
  bool_decide (r = r_revoked) || bool_decide (r = r_denied) || bool_decide (r = r_expired).

(** The sites a user may still request. *)
Definition listSitesForRequest (userId : string) (now : Z) (w : World) : list Site :=
  let mine := List.filter (λ g, g_userId g =s userId) (grants w) in
  let held := map g_siteId (List.filter (λ g, negb (done_reason (classifyGrant g now))) mine) in
  List.filter (λ s, negb (bool_decide (site_id s ∈ held))) (sites w).

(** The grants of access/my-grants. *)
Definition my_grants (userId : string) (now : Z) (w : World) : list AccessGrant :=
  List.filter (λ g, bool_decide (classifyGrant g now = r_allow))
    (List.filter (λ g, g_userId g =s userId) (grants w)).
End listing.

(** ** Routes *)

(** What a request brings: the signed-in user, the clock, the database's next
    ids, whether the audit transaction fails, the caller's address. *)
Record Req := {
  rq_user : option User;
  rq_now : Z;
  rq_id : string;
  rq_auditId : string;
  rq_auditFails : bool;
  rq_clientIp : option string;
}.

Definition NOTE_MAX : Z := 500.

Section routes.
Context `{Intl}.
Context (date_parse : string → jsdate).
Context (frac_text : Z → string) (sha256 : string → string) (json_store : json → json).

(** [parseDate]: [None] is [{ ok: false }]. *)
Definition parseDate (v : json) : option (option Z) :=
  match v with
  | JUndefined | JNull => Some None
  | JStr s => if s =s "" then Some None else
              match date_parse s with ValidDate d => Some (Some d) | InvalidDate => None end
  | _ => None
  end.

(** [body.schedule] when present and not null; [None] is invalid_schedule. *)
Definition parse_body_schedule (v : json) : option (option Schedule) :=
  if is_nullish v then Some None
  else match validateSchedule v with inr s => Some (Some s) | inl _ => None end.

Definition audit (rq : Req) (u : User) (action targetId summary : string) (metadata : json) (w : World) : World :=
  {| users := users w; sites := sites w; grants := grants w;
     admin := recordAdminAction frac_text sha256 json_store (rq_auditFails rq) (rq_auditId rq) (rq_now rq)
       (admin w)
       {| in_actor := {| actor_id := u_id u; actor_email := Some (u_email u) |}; in_action := action;
          in_targetType := Some "grant"%string; in_targetId := Some targetId; in_summary := summary;
          in_metadata := metadata; in_clientIp := rq_clientIp rq |} |}.

Definition adminGrantsPost (maxGrantDays : Z) (rq : Req) (body : json) (w : World) : World * response string :=
  match rq_user rq with
  | None => (w, Fail 401 "unauthorized")
  | Some me =>
      if negb (can (u_role me) approve_grants) then (w, Fail 403 "forbidden") else
      let userId := trim (str_or_empty (obj_get body "userId")) in
      let siteId := trim (str_or_empty (obj_get body "siteId")) in
      if negb (truthy userId) || negb (truthy siteId) then (w, Fail 400 "user_site_required") else
      match parseDate (obj_get body "startsAt"), parseDate (obj_get body "endsAt") with
      | Some startsAt, Some endsAt =>
          match grantCapError startsAt endsAt (rq_now rq) maxGrantDays with
          | Some e => (w, Fail 400 e)
          | None =>
              let note := let t := trim (str_or_empty (obj_get body "note")) in
                          if truthy t then Some t else None in
              match parse_body_schedule (obj_get body "schedule") with
              | None => (w, Fail 400 "invalid_schedule")
              | Some schedule =>
                  match find_row (λ u, u_id u =s userId) (users w), find_row (λ s, site_id s =s siteId) (sites w) with
                  | None, _ => (w, Fail 400 "invalid_user")
                  | _, None => (w, Fail 400 "invalid_site")
                  | Some _, Some _ =>
                      let w1 := with_grants w (createGrant (rq_id rq) (u_id me)
                        {| gi_userId := userId; gi_siteId := siteId; gi_startsAt := startsAt;
                           gi_endsAt := endsAt; gi_note := note; gi_schedule := schedule |} (grants w)) in
                      (audit rq me "grant.create" (rq_id rq) ("Created access grant " +:+ rq_id rq)
                         (JObj [("userId"%string, JStr userId); ("siteId"%string, JStr siteId)]) w1,
                       Reply 201 (rq_id rq))
                  end
              end
          end
      | _, _ => (w, Fail 400 "invalid_date")
      end
  end.

Definition adminGrantsDelete (rq : Req) (id : option string) (w : World) : World * response unit :=
  match rq_user rq with
  | None => (w, Fail 401 "unauthorized")
  | Some me =>
      if negb (can (u_role me) approve_grants) then (w, Fail 403 "forbidden") else
      match id with
      | Some i =>
          if truthy i then
            (audit rq me "grant.revoke" i ("Revoked access grant " +:+ i) JUndefined
               (with_grants w (revokeGrant i (grants w))), Reply 200 tt)
          else (w, Fail 400 "id_required")
      | None => (w, Fail 400 "id_required")
      end
  end.

(** What PATCH writes: an absent field is left alone. *)
Record GrantEdit := { ed_endsAt : option Z; ed_note : option (option string) }.
Definition edit_grant (d : GrantEdit) (g : AccessGrant) : AccessGrant :=
  {| g_id := g_id g; g_userId := g_userId g; g_siteId := g_siteId g; g_startsAt := g_startsAt g;
     g_endsAt := (match ed_endsAt d with Some e => Some e | None => g_endsAt g end);
     g_status := g_status g; g_note := (match ed_note d with Some n => n | None => g_note g end);
     g_denyReason := g_denyReason g; g_requiresApproval := g_requiresApproval g;
     g_approvedAt := g_approvedAt g; g_approvedById := g_approvedById g; g_schedule := g_schedule g;
     g_createdById := g_createdById g; g_directoryManaged := g_directoryManaged g |}.

(** The validated edit, or the error of its 400 answer. *)
Definition read_edit (maxGrantDays : Z) (now : Z) (startsAt : option Z) (body : json) : string + GrantEdit :=
  let raw := trim (str_or_empty (obj_get body "endsAt")) in
  let hasNote := has_key body "note" in
  let ends : string + option Z :=
    if truthy raw then
      match grantEndsAtError (date_parse raw) startsAt now with
      | Some e => inl e
      | None => match date_parse raw with
                | ValidDate d => match grantCapError startsAt (Some d) now maxGrantDays with
                                 | Some e => inl e
                                 | None => inr (Some d)
                                 end
                | InvalidDate => inl "invalid_ends_at"%string
                end
      end
    else inr None in
  match ends with
  | inl e => inl e
  | inr endsAt =>
      if hasNote then
        match obj_get body "note" with
        | JStr s => let note := trim s in
                    if NOTE_MAX <? js_length note then inl "note_too_long"%string
                    else inr {| ed_endsAt := endsAt; ed_note := Some (if truthy note then Some note else None) |}
        | _ => inl "invalid_note"%string
        end
      else inr {| ed_endsAt := endsAt; ed_note := None |}
  end.

Definition adminGrantPatch (maxGrantDays : Z) (between : list AccessGrant → list AccessGrant)
    (rq : Req) (id : string) (body : json) (w : World) : World * response unit :=
  match rq_user rq with
  | None => (w, Fail 401 "unauthorized")
  | Some me =>
      if negb (can (u_role me) configure) then (w, Fail 403 "forbidden") else
      let hasEndsAt := truthy (trim (str_or_empty (obj_get body "endsAt"))) in
      if negb hasEndsAt && negb (has_key body "note") then (w, Fail 400 "nothing_to_update") else
      match find_row (λ g, g_id g =s id) (grants w) with
      | None => (w, Fail 404 "not_found")
      | Some g =>
          if negb (bool_decide (g_status g = GActive)) then (w, Fail 409 "not_active") else
          match read_edit maxGrantDays (rq_now rq) (g_startsAt g) body with
          | inl e => (w, Fail 400 e)
          | inr d =>
              let gs := between (grants w) in
              let p := λ g, (g_id g =s id) && bool_decide (g_status g = GActive) in
              if count_where p gs =? 0 then (with_grants w gs, Fail 409 "not_active") else
              (audit rq me "grant.update" id ("Updated access grant " +:+ id)
                 (JObj [("endsAt"%string,
                    match ed_endsAt d with Some e => JStr (toISOString e) | None => JUndefined end)])
                 (with_grants w (update_where p (edit_grant d) gs)), Reply 200 tt)
          end
      end
  end.

(** [applyGrantDecision]: shared by the console and the app. *)
Definition applyGrantDecision (rq : Req) (actor : User) (id : string) (v : verdict) (reason : json)
    (viaApp : bool) (w : World) : World * bool :=
  let '(gs, count) := decideGrant id v (u_id actor) (normalizeDenyReason reason) (rq_now rq) (grants w) in
  if count =? 0 then (w, false) else
  (audit rq actor (match v with Approve => "grant.approve" | Deny => "grant.deny" end) id
     ((match v with Approve => "Approved" | Deny => "Denied" end) +:+ " access request " +:+ id +:+
      (if viaApp then " (Captivo Admin app)" else "")) JUndefined (with_grants w gs), true).

Definition read_verdict (v : json) : option verdict :=
  match v with
  | JStr s => if s =s "approve" then Some Approve else if s =s "deny" then Some Deny else None
  | _ => None
  end.

(** The decision route of the console; the app's differs in [viaApp] and in
    how the caller was authenticated. *)
Definition decisionPost (viaApp : bool) (rq : Req) (id : string) (body : json) (w : World)
    : World * response unit :=
  match rq_user rq with
  | None => (w, Fail 401 "unauthorized")
  | Some me =>
      if negb (can (u_role me) approve_grants) then (w, Fail 403 "forbidden") else
      match read_verdict (obj_get body "decision") with
      | None => (w, Fail 400 "invalid_decision")
      | Some v =>
          let '(w', done) := applyGrantDecision rq me id v (obj_get body "reason") viaApp w in
          (w', if done then Reply 200 tt else Fail 409 "not_pending")
      end
  end.

Definition requestsPost (maxGrantDays : Z) (requireJustification : bool)
    (between : list AccessGrant → list AccessGrant) (rq : Req) (body : json) (w : World)
    : World * response string :=
  match rq_user rq with
  | None => (w, Fail 401 "unauthorized")
  | Some me =>
      let siteId := trim (str_or_empty (obj_get body "siteId")) in
      if negb (truthy siteId) then (w, Fail 400 "site_required") else
      let note := trim (str_or_empty (obj_get body "note")) in
      if negb (truthy note) && requireJustification then (w, Fail 400 "note_required") else
      match parseDate (obj_get body "startsAt"), parseDate (obj_get body "endsAt") with
      | Some startsAt, Some endsAt =>
          if match startsAt, endsAt with Some s, Some e => e <? s | _, _ => false end
          then (w, Fail 400 "invalid_date") else
          match grantCapError startsAt endsAt (rq_now rq) maxGrantDays with
          | Some e => (w, Fail 400 e)
          | None =>
              match parse_body_schedule (obj_get body "schedule") with
              | None => (w, Fail 400 "invalid_schedule")
              | Some schedule =>
                  match find_row (λ s, site_id s =s siteId) (sites w) with
                  | None => (w, Fail 400 "invalid_site")
                  | Some _ =>
                      let held := existsb (λ g, (g_userId g =s u_id me) && (g_siteId g =s siteId) &&
                        negb (done_reason (classifyGrant g (rq_now rq)))) (grants w) in
                      if held then (w, Fail 409 "already_have_access") else
                      match createAccessRequest between (rq_id rq)
                        {| gi_userId := u_id me; gi_siteId := siteId; gi_startsAt := startsAt;
                           gi_endsAt := endsAt; gi_note := Some note; gi_schedule := schedule |} (grants w) with
                      | (gs, Some id) => (with_grants w gs, Reply 201 id)
                      | (gs, None) => (with_grants w gs, Fail 409 "request_pending")
                      end
                  end
              end
          end
      | _, _ => (w, Fail 400 "invalid_date")
      end
  end.

Definition requestDelete (between : list AccessGrant → list AccessGrant) (rq : Req) (id : string) (w : World)
    : World * response unit :=
  match rq_user rq with
  | None => (w, Fail 401 "unauthorized")
  | Some me =>
      match find_row (λ g, g_id g =s id) (grants w) with
      | None => (w, Fail 404 "not_found")
      | Some g =>
          if negb (g_userId g =s u_id me) then (w, Fail 404 "not_found") else
          if negb (is_pending g) then (w, Fail 409 "not_pending") else
          let gs := between (grants w) in
          let p := λ g, (g_id g =s id) && (g_userId g =s u_id me) && is_pending g in
          if count_where p gs =? 0 then (with_grants w gs, Fail 409 "not_pending")
          else (with_grants w (delete_where p gs), Reply 200 tt)
      end
  end.

(** ** The decision the data plane asks for *)

(** admin/grants/check: the console's "would this be allowed" probe. *)
Definition grantsCheck (rq : Req) (body : json) (w : World) : response Decision :=
  match rq_user rq with
  | None => Fail 401 "unauthorized"
  | Some me =>
      if negb (can (u_role me) read_console) then Fail 403 "forbidden" else
      let userId := trim (str_or_empty (obj_get body "userId")) in
      let siteId := trim (str_or_empty (obj_get body "siteId")) in
      if negb (truthy userId) || negb (truthy siteId) then Fail 400 "invalid_body" else
      Reply 200 (evaluateAccess (users w) (grants w) userId siteId (rq_now rq))
  end.

Context `{Net}.

(** What internal/access/check reads besides the database. *)
Record CheckEnv := {
  DATAPLANE_SECRET : option string;
  multiTenant : bool;
  resolveTenantBySite : string → option string;
  vendorIpAllowlist : string → string;
}.

(** [requireDataplaneSecret]: the outermost gate of the internal routes. *)
Definition requireDataplaneSecret {A} (secret header : option string) (h : response A) : response A :=
  if timingSafeEqualStr header secret then h else Fail 403 "forbidden".

(** [withTenantFrom]: the handler under the tenant its payload resolves to. *)
Definition withTenantFrom {A} (multi : bool) (tid : option string) (h : string → response A) : response A :=
  if negb multi then h "default" else
  match tid with
  | Some t => if truthy t then h t else Fail 404 "unknown_tenant"
  | None => Fail 404 "unknown_tenant"
  end.

Definition access_check_handler (env : CheckEnv) (header : option string) (body : json) (cached : Cached)
    (now : Z) (w : World) (tid : string) : response Decision :=
  if negb (timingSafeEqualStr header (DATAPLANE_SECRET env)) then Fail 403 "forbidden" else
  let userId := str_or_empty (obj_get body "userId") in
  let siteId := str_or_empty (obj_get body "siteId") in
  let clientIp := str_or_empty (obj_get body "clientIp") in
  if negb (truthy userId) || negb (truthy siteId) then Fail 400 "invalid_body" else
  let allowlist := vendorIpAllowlist env tid in
  if truthy allowlist && negb (ipAllowed cached allowlist clientIp).2
  then Reply 200 {| allow := false; dreason := r_ip_not_allowed |}
  else Reply 200 (evaluateAccess (users w) (grants w) userId siteId now).

Definition accessCheckPost (env : CheckEnv) (header : option string) (body : json) (cached : Cached)
    (now : Z) (worlds : string → World) : response Decision :=
  requireDataplaneSecret (DATAPLANE_SECRET env) header
    (withTenantFrom (multiTenant env) (resolveTenantBySite env (str_or_empty (obj_get body "siteId")))
       (λ tid, access_check_handler env header body cached now (worlds tid) tid)).
End routes.

(** ** Theorems: the decision *)

Section decision.
Context `{Intl}.
Implicit Types (g : AccessGrant) (gs : list AccessGrant) (now : Z).

(** When a grant lets its user in, in the terms of the policy. *)
Definition admits g now : Prop :=
  g_status g = GActive ∧
  (∀ s, g_startsAt g = Some s → s ≤ now) ∧ (∀ e, g_endsAt g = Some e → now ≤ e) ∧
  (g_requiresApproval g = true → is_Some (g_approvedAt g)) ∧
  (is_nullish (g_schedule g) = true ∨
   ∃ s, parseSchedule (g_schedule g) = Some s ∧ isWithinSchedule s now = true).

Lemma classify_allow g now : classifyGrant g now = r_allow ↔ admits g now.
Proof.
  unfold classifyGrant, admits. split.
  - intros Hc. case_bool_decide as Hst1; [done|]. case_bool_decide as Hst2; [done|].
    destruct (match g_startsAt g with Some _ => _ | None => _ end) eqn:Hs; [done|].
    destruct (match g_endsAt g with Some _ => _ | None => _ end) eqn:He; [done|].
    destruct (g_requiresApproval g && _) eqn:Ha; [done|].
    destruct (negb (is_nullish (g_schedule g)) && _) eqn:Hsch; [done|]. split_and!.
    + by destruct (g_status g).
    + intros x Hx. rewrite Hx in Hs. lia.
    + intros x Hx. rewrite Hx in He. lia.
    + intros Hr. rewrite Hr in Ha. simpl in Ha. reflect_bool. by apply not_eq_None_Some.
    + destruct (is_nullish (g_schedule g)); [by left|right]. simpl in Hsch.
      destruct (parseSchedule (g_schedule g)) as [sc|]; [|done]. exists sc. split; [done|].
      by reflect_bool.
  - intros (Hst & Hs & He & Ha & Hsch). rewrite Hst. simpl.
    assert (match g_startsAt g with Some s => now <? s | None => false end = false) as ->.
    { destruct (g_startsAt g) as [s|]; [|done]. specialize (Hs s eq_refl). lia. }
    assert (match g_endsAt g with Some e => e <? now | None => false end = false) as ->.
    { destruct (g_endsAt g) as [e|]; [|done]. specialize (He e eq_refl). lia. }
    assert (g_requiresApproval g && bool_decide (g_approvedAt g = None) = false) as ->.
    { destruct (g_requiresApproval g); [|done]. destruct Ha as [a ->]; done. }
    destruct Hsch as [->|(sc & -> & ->)]; [done|]. by rewrite andb_false_r.
Qed.

Lemma evaluate_loop_spec now gs best :
  let d := evaluate_loop now gs best in
  (allow d = true ↔ ∃ g, g ∈ gs ∧ classifyGrant g now = r_allow) ∧
  (allow d = false → (best ≠ None ∨ gs ≠ []) →
     (Some (dreason d) = best ∨ ∃ g, g ∈ gs ∧ classifyGrant g now = dreason d) ∧
     (∀ b, best = Some b → DENY_PRIORITY b ≤ DENY_PRIORITY (dreason d)) ∧
     (∀ g, g ∈ gs → DENY_PRIORITY (classifyGrant g now) ≤ DENY_PRIORITY (dreason d))).
Proof.
  revert best. induction gs as [|g gs IH]; intros best; simpl.
  - split; [split; [done|]; intros (g & Hg & _); by apply elem_of_nil in Hg|].
    intros _ [Hb|]; [|done]. destruct best as [b|]; [simpl|done].
    split_and!; [by left|intros ? [= ->]; lia|]. intros g Hg. by apply elem_of_nil in Hg.
  - case_bool_decide as Hd; simpl.
    { split; [|done]. split; [|done]. intros _. exists g. split; [by left|done]. }
    set (best' := match best with Some _ => _ | None => _ end). destruct (IH best') as [IH1 IH2]. split.
    + rewrite IH1. split; intros (x & Hx & Hc); exists x; [by split; [right|]|].
      apply elem_of_cons in Hx as [->|Hx]; done.
    + intros Ha _. assert (∃ b', best' = Some b' ∧ (Some b' = best ∨ b' = classifyGrant g now) ∧
        DENY_PRIORITY (classifyGrant g now) ≤ DENY_PRIORITY b' ∧
        (∀ b, best = Some b → DENY_PRIORITY b ≤ DENY_PRIORITY b')) as (b' & Hb' & Hor & Hge & Hall).
      { unfold best'. destruct best as [b|]; [case_match; reflect_bool|]; eexists;
          (split_and!; [reflexivity|tauto|lia|intros ? [=]; subst; lia]). }
      destruct IH2 as (H1 & H2 & H3); [done|left; by rewrite Hb'|]. specialize (H2 b' Hb'). split_and!.
      * destruct H1 as [H1|(x & Hx & Hc)]; [|right; exists x; by split; [right|]].
        rewrite Hb' in H1. simplify_eq. destruct Hor as [Hor|Hor]; [left; congruence|].
        right. exists g. split; [by left|congruence].
      * intros b Hb. specialize (Hall b Hb). lia.
      * intros x [->|Hx]%elem_of_cons; [lia|by apply H3].
Qed.

Lemma elem_of_pair u s gs g :
  g ∈ List.filter (for_pair u s) gs ↔ g ∈ gs ∧ g_userId g = u ∧ g_siteId g = s.
Proof.
  rewrite !list_elem_of_In, filter_In. unfold for_pair. rewrite andb_true_iff, !bool_decide_eq_true. tauto.
Qed.

Lemma evaluate_allow us gs userId siteId now :
  allow (evaluateAccess us gs userId siteId now) = true ↔
  ∃ u g, find_row (λ u, u_id u =s userId) us = Some u ∧ u_status u = UActive ∧
    g ∈ gs ∧ g_userId g = userId ∧ g_siteId g = siteId ∧ admits g now.
Proof.
  unfold evaluateAccess. destruct (find_row _ us) as [u|]; [|split; [done|by intros (? & ? & ? & _)]].
  case_bool_decide as Hu; cbn [negb]; [|split; [done|intros (? & ? & ? & ? & _); by simplify_eq]].
  assert (allow match List.filter (for_pair userId siteId) gs with
    | [] => {| allow := false; dreason := r_no_grant |}
    | g :: l => evaluate_loop now (g :: l) None
    end = allow (evaluate_loop now (List.filter (for_pair userId siteId) gs) None)) as Heq
    by by destruct (List.filter _ _).
  rewrite Heq. destruct (evaluate_loop_spec now (List.filter (for_pair userId siteId) gs) None) as [-> _].
  split.
  - intros (g & (? & ? & ?)%elem_of_pair & ?%classify_allow). by exists u, g.
  - intros (u' & g & ? & ? & ? & ? & ? & ?). exists g. rewrite elem_of_pair, classify_allow. done.
Qed.

(** C5: access is allowed exactly when the user exists and is active and one
    of their grants for the site is active, started and not ended, approved if
    it needs approval, and within its schedule if it has one; an unreadable
    schedule never lets anyone in. *)
Theorem evaluateAccess_allow_iff us gs userId siteId now :
  allow (evaluateAccess us gs userId siteId now) = true ↔
  ∃ u g, find_row (λ u, u_id u =s userId) us = Some u ∧ u_status u = UActive ∧
    g ∈ gs ∧ g_userId g = userId ∧ g_siteId g = siteId ∧ admits g now.
Proof. apply evaluate_allow. Qed.

(** When an active user is refused despite having grants for the site, the
    reason reported is that of one of those grants and no other grant has a
    more promising one; and neither the answer nor the rank of its reason
    depends on the order the database returns the grants in. *)
Theorem evaluateAccess_reason us gs gs' userId siteId now u :
  find_row (λ u, u_id u =s userId) us = Some u → u_status u = UActive → gs ≡ₚ gs' →
  let d := evaluateAccess us gs userId siteId now in
  let d' := evaluateAccess us gs' userId siteId now in
  (allow d = false → List.filter (for_pair userId siteId) gs ≠ [] →
     (∃ g, g ∈ gs ∧ for_pair userId siteId g = true ∧ classifyGrant g now = dreason d) ∧
     (∀ g, g ∈ gs → for_pair userId siteId g = true →
        DENY_PRIORITY (classifyGrant g now) ≤ DENY_PRIORITY (dreason d))) ∧
  allow d' = allow d ∧ DENY_PRIORITY (dreason d') = DENY_PRIORITY (dreason d).
Proof.
  intros Hu Hact Hperm d d'.
  assert (∀ l, evaluateAccess us l userId siteId now =
    match List.filter (for_pair userId siteId) l with
    | [] => {| allow := false; dreason := r_no_grant |}
    | x => evaluate_loop now x None
    end) as Hd.
  { intros l. unfold evaluateAccess. rewrite Hu, bool_decide_eq_true_2 by done. done. }
  subst d d'. rewrite !Hd.
  assert (List.filter (for_pair userId siteId) gs ≡ₚ List.filter (for_pair userId siteId) gs') as Hp
    by by apply list_filter_Permutation.
  assert (∀ g, g ∈ List.filter (for_pair userId siteId) gs ↔ g ∈ gs ∧ for_pair userId siteId g = true) as Hin.
  { intros g. by rewrite !list_elem_of_In, filter_In. }
  revert Hp Hin. generalize (List.filter (for_pair userId siteId) gs) as l.
  generalize (List.filter (for_pair userId siteId) gs') as l'. intros l' l Hp Hin.
  destruct l as [|x l]; [apply Permutation_nil in Hp as ->; done|].
  destruct l' as [|x' l']; [symmetry in Hp; by apply Permutation_nil in Hp|].
  destruct (evaluate_loop_spec now (x :: l) None) as [Ha1 Hr1].
  destruct (evaluate_loop_spec now (x' :: l') None) as [Ha2 Hr2]. split.
  - intros Hal _. destruct Hr1 as (H1 & _ & H3); [done|by right|]. split.
    + destruct H1 as [?|(g & [? ?]%Hin & ?)]; [done|]. by exists g.
    + intros g Hg Hf. apply H3. by apply Hin.
  - assert (allow (evaluate_loop now (x' :: l') None) = allow (evaluate_loop now (x :: l) None)) as Heq.
    { apply eq_true_iff_eq. rewrite Ha1, Ha2. by setoid_rewrite Hp. }
    split; [done|]. destruct (allow (evaluate_loop now (x :: l) None)) eqn:Hal.
    + assert (∀ l b, allow (evaluate_loop now l b) = true → dreason (evaluate_loop now l b) = r_allow) as Hres.
      { clear. induction l as [|y l IH]; intros b; [done|]. cbn [evaluate_loop]. case_bool_decide; [done|]. apply IH. }
      by rewrite !Hres.
    + destruct Hr1 as (H1 & _ & H3); [done|by right|]. destruct Hr2 as (H1' & _ & H3'); [done|by right|].
      destruct H1 as [?|(g & Hg & Hc)]; [done|]. destruct H1' as [?|(g' & Hg' & Hc')]; [done|].
      rewrite Hp in Hg. rewrite <-Hp in Hg'. specialize (H3 _ Hg'). specialize (H3' _ Hg).
      rewrite Hc' in H3. rewrite Hc in H3'. lia.
Qed.
End decision.

Section data_plane.
Context `{Intl} `{Net}.

(** C1: what an "allow" from the data plane's check means.  The caller holds
    the data-plane secret, which is set; the site resolved to a tenant (cloud);
    the address is covered by that tenant's allowlist, unless it has none; and
    in that tenant the user is active and holds a grant for the site that
    admits them now. *)
Theorem accessCheck_sound env header body cached now worlds st d :
  cache_ok cached → accessCheckPost env header body cached now worlds = Reply st d → allow d = true →
  (∃ s, header = Some s ∧ DATAPLANE_SECRET env = Some s ∧ s ≠ ""%string) ∧
  ∃ tid, (if multiTenant env then resolveTenantBySite env (str_or_empty (obj_get body "siteId")) = Some tid
          else tid = "default"%string) ∧
    (vendorIpAllowlist env tid = ""%string ∨
     allowed_by (vendorIpAllowlist env tid) (str_or_empty (obj_get body "clientIp")) = true) ∧
    ∃ u g, find_row (λ u, u_id u =s str_or_empty (obj_get body "userId")) (users (worlds tid)) = Some u ∧
      u_status u = UActive ∧ g ∈ grants (worlds tid) ∧
      g_userId g = str_or_empty (obj_get body "userId") ∧
      g_siteId g = str_or_empty (obj_get body "siteId") ∧ admits g now.
Proof.
  intros Hok Hp Ha. unfold accessCheckPost, requireDataplaneSecret, withTenantFrom in Hp.
  destruct (timingSafeEqualStr header (DATAPLANE_SECRET env)) eqn:Hsec; [|done]. split.
  { unfold timingSafeEqualStr in Hsec. destruct header as [h|], (DATAPLANE_SECRET env) as [s|]; try done.
    unfold truthy in Hsec. reflect_bool. subst. by exists s. }
  assert (∀ tid, access_check_handler env header body cached now (worlds tid) tid = Reply st d →
    (vendorIpAllowlist env tid = ""%string ∨
     allowed_by (vendorIpAllowlist env tid) (str_or_empty (obj_get body "clientIp")) = true) ∧
    ∃ u g, find_row (λ u, u_id u =s str_or_empty (obj_get body "userId")) (users (worlds tid)) = Some u ∧
      u_status u = UActive ∧ g ∈ grants (worlds tid) ∧
      g_userId g = str_or_empty (obj_get body "userId") ∧
      g_siteId g = str_or_empty (obj_get body "siteId") ∧ admits g now) as Hh.
  { intros tid Hh. unfold access_check_handler in Hh. rewrite Hsec in Hh. cbn [negb] in Hh.
    destruct (_ || _); [done|].
    destruct (truthy (vendorIpAllowlist env tid) && _) eqn:Hip; simplify_eq. split.
    - destruct (ipAllowed_cached cached (vendorIpAllowlist env tid)
        (str_or_empty (obj_get body "clientIp")) Hok) as [_ Heq]. rewrite Heq in Hip.
      apply andb_false_iff in Hip as [Ht|Hn]; [left|right; by reflect_bool].
      unfold truthy in Ht. by reflect_bool.
    - by apply evaluate_allow. }
  destruct (multiTenant env); cbn [negb] in Hp.
  - destruct (resolveTenantBySite env _) as [t|]; [|done]. destruct (truthy t); [|done].
    exists t. split; [done|]. by apply Hh.
  - exists "default"%string. split; [done|]. by apply Hh.
Qed.
End data_plane.

(** ** The life of a grant

    The specification: what may happen to the grants table, one committed
    statement at a time.  [approver] is the set of accounts that hold
    [approve_grants] when they act. *)

Section life.
Context (approver : string → Prop).
Implicit Types (gs : list AccessGrant) (g : AccessGrant).

Definition fresh (id : string) gs : Prop := id ∉ g_id <$> gs.

(** A row as it may first appear: active and undecided. *)
Definition new_row (id : string) g : Prop :=
  g_id g = id ∧ g_status g = GActive ∧ g_denyReason g = None ∧ g_approvedAt g = None ∧ g_approvedById g = None ∧
  g_directoryManaged g = false.

(** What never changes in a row: whose access to what, from when, and how it
    came about. *)
Definition same_grant g g' : Prop :=
  g_id g' = g_id g ∧ g_userId g' = g_userId g ∧ g_siteId g' = g_siteId g ∧ g_startsAt g' = g_startsAt g ∧
  g_schedule g' = g_schedule g ∧ g_requiresApproval g' = g_requiresApproval g ∧
  g_createdById g' = g_createdById g ∧ g_directoryManaged g' = g_directoryManaged g.

(** What may happen to one row. *)
Inductive row_step g g' : Prop :=
  | row_revoke :
      same_grant g g' → g_status g' = GRevoked →
      g_approvedAt g' = g_approvedAt g → g_approvedById g' = g_approvedById g → row_step g g'
  | row_decide a now :
      approver a → same_grant g g' → g_endsAt g' = g_endsAt g →
      g_status g = GActive → g_requiresApproval g = true → g_approvedAt g = None →
      g_approvedAt g' = Some now → g_approvedById g' = Some a →
      g_status g' = GActive ∨ g_status g' = GDenied → row_step g g'
  | row_edit :
      same_grant g g' → g_status g = GActive → g_status g' = GActive →
      g_approvedAt g' = g_approvedAt g → g_approvedById g' = g_approvedById g → row_step g g'.

Inductive grant_step gs : list AccessGrant → Prop :=
  | gs_create id g a :
      approver a → fresh id gs → new_row id g → g_createdById g = Some a → grant_step gs (gs ++ [g])
  | gs_request id g :
      fresh id gs → new_row id g → g_requiresApproval g = true → grant_step gs (gs ++ [g])
  | gs_update id gs' :
      Forall2 (λ g g', g' = g ∨ g_id g = id ∧ row_step g g') gs gs' → grant_step gs gs'
  | gs_withdraw id u :
      grant_step gs (delete_where (λ g, (g_id g =s id) && (g_userId g =s u) && is_pending g) gs).

Lemma gs_update_where id p f gs :
  (∀ g, p g = true → g_id g = id ∧ row_step g (f g)) → grant_step gs (update_where p f gs).
Proof.
  intros Hf. apply (gs_update _ id). unfold update_where. apply Forall2_fmap_r, Forall_Forall2_diag.
  apply Forall_forall. intros g _. simpl. destruct (p g) eqn:Hp; [right; by apply Hf|by left].
Qed.

(** Every grant was given, or approved, by an approver. *)
Definition authorised g : Prop :=
  (g_requiresApproval g = false → ∃ a, g_createdById g = Some a ∧ approver a) ∧
  (is_Some (g_approvedAt g) → ∃ a, g_approvedById g = Some a ∧ approver a).

Lemma row_step_authorised g g' : row_step g g' → authorised g → authorised g'.
Proof.
  intros [Hs _ Ha Hb|a now Hap Hs _ _ Hreq _ Ha Hb _|Hs _ _ Ha Hb] [H1 H2];
    destruct Hs as (_ & _ & _ & _ & _ & Hr & Hc & _); split; rewrite ?Hr, ?Hc, ?Ha, ?Hb; auto.
  intros _. by exists a.
Qed.

Lemma grant_step_authorised gs gs' :
  Forall authorised gs → grant_step gs gs' → Forall authorised gs'.
Proof.
  intros Hall [id g a Ha _ (_ & _ & _ & Hn & _) Hc|id g _ (_ & _ & _ & Hn & _) Hr|id gs1 Hu|id u].
  - apply Forall_app. split; [done|]. apply Forall_singleton. split; [intros _; by exists a|rewrite Hn; by intros []].
  - apply Forall_app. split; [done|]. apply Forall_singleton. split; [by rewrite Hr|rewrite Hn; by intros []].
  - induction Hu as [|g g' l l' Hg Hu IH]; [done|]. apply Forall_cons in Hall as [Hgg Hall].
    apply Forall_cons. split; [|by apply IH]. destruct Hg as [->|[_ Hst]]; [done|by eapply row_step_authorised].
  - rewrite Forall_forall in Hall |- *. intros g [Hg _]%elem_of_delete_where. by apply Hall.
Qed.

#[local] Hint Resolve grant_step_authorised : captivo.

Lemma reachable_authorised gs : rtc grant_step [] gs → Forall authorised gs.
Proof.
  intros Hr. assert (Forall authorised []) as H0 by constructor. revert H0.
  induction Hr; eauto with captivo.
Qed.

Lemma row_step_id g g' : row_step g g' → g_id g' = g_id g.
Proof. by intros [(-> & _)|? ? ? (-> & _)|(-> & _)]. Qed.

Lemma grant_step_ids gs gs' : NoDup (g_id <$> gs) → grant_step gs gs' → NoDup (g_id <$> gs').
Proof.
  assert (∀ id g, fresh id gs → g_id g = id → NoDup (g_id <$> gs) → NoDup (g_id <$> gs ++ [g])) as Hsnoc.
  { intros id g Hf <- Hnd. rewrite fmap_app. apply NoDup_app. split_and!; [done| |apply NoDup_singleton].
    intros x Hx Hin. apply list_elem_of_singleton in Hin. subst. by apply Hf. }
  intros Hnd [id g a _ Hf (Hid & _) _|id g Hf (Hid & _) _|id gs1 Hu|id u]; [by eapply Hsnoc..| |].
  - replace (g_id <$> gs1) with (g_id <$> gs); [done|]. clear Hnd Hsnoc.
    induction Hu as [|g g' l l' Hg Hu IH]; [done|]. rewrite !fmap_cons. f_equal.
    + destruct Hg as [->|[_ Hst]]; [done|symmetry; by apply row_step_id].
    + apply IH.
  - unfold delete_where. by apply NoDup_filter_fmap.
Qed.

(** A grant that is no longer active keeps its row, and stays so. *)
Definition closed_in (id : string) gs : Prop := ∃ g, g ∈ gs ∧ g_id g = id ∧ g_status g ≠ GActive.

Lemma row_step_closed g g' : row_step g g' → g_status g ≠ GActive → g_status g' ≠ GActive.
Proof. by intros [? Hs ? ?|? ? ? ? ? ? ? ? ? ? ?|? ? ? ? ?] Hc; [rewrite Hs|..]. Qed.

Lemma closed_app id gs l : closed_in id gs → closed_in id (gs ++ l).
Proof. intros (g & Hg & ?). exists g. split; [apply elem_of_app; by left|done]. Qed.

Lemma grant_step_closed id gs gs' : grant_step gs gs' → closed_in id gs → closed_in id gs'.
Proof.
  intros [id' g a _ _ _ _|id' g _ _ _|id' gs1 Hu|id' u] Hc; [by apply closed_app..| |];
    destruct Hc as (g & Hg & Hi & Hs).
  - apply list_elem_of_lookup_1 in Hg as [i Hg]. destruct (Forall2_lookup_l _ _ _ _ _ Hu Hg) as (g' & Hg' & Hst).
    exists g'. split; [by eapply list_elem_of_lookup_2|]. destruct Hst as [->|[_ Hst]]; [done|].
    rewrite (row_step_id _ _ Hst). split; [done|]. by eapply row_step_closed.
  - exists g. split; [|done]. apply elem_of_delete_where. split; [done|].
    unfold is_pending. rewrite (bool_decide_eq_false_2 _ Hs). by rewrite andb_false_r.
Qed.

#[local] Hint Resolve grant_step_ids grant_step_closed : captivo.

Lemma grant_steps_ids gs gs' : rtc grant_step gs gs' → NoDup (g_id <$> gs) → NoDup (g_id <$> gs').
Proof. induction 1; eauto with captivo. Qed.

Lemma grant_steps_closed id gs gs' :
  rtc grant_step gs gs' → NoDup (g_id <$> gs) → closed_in id gs → NoDup (g_id <$> gs') ∧ closed_in id gs'.
Proof. induction 1; eauto with captivo. Qed.
End life.

(** ** The routes refine the specification *)

Section refinement.
Context `{Intl}.
Context (date_parse : string → jsdate).
Context (frac_text : Z → string) (sha256 : string → string) (json_store : json → json).
Context (approver : string → Prop).

(** A request to one of the grant routes of the console, the portal and the app.
    The other writers of the table (directory sync at sign-in, terminating a live
    session, and the deletion of users and sites) are not requests to these and are
    added to them in [Authority]. *)
Inductive call :=
  | CallCreate (maxGrantDays : Z) (body : json)
  | CallRevoke (id : option string)
  | CallEdit (maxGrantDays : Z) (between : list AccessGrant → list AccessGrant) (id : string) (body : json)
  | CallDecide (viaApp : bool) (id : string) (body : json)
  | CallRequest (maxGrantDays : Z) (justify : bool) (between : list AccessGrant → list AccessGrant) (body : json)
  | CallWithdraw (between : list AccessGrant → list AccessGrant) (id : string).

Definition run (c : call) (rq : Req) (w : World) : World :=
  match c with
  | CallCreate m body => (adminGrantsPost date_parse frac_text sha256 json_store m rq body w).1
  | CallRevoke id => (adminGrantsDelete frac_text sha256 json_store rq id w).1
  | CallEdit m between id body =>
      (adminGrantPatch date_parse frac_text sha256 json_store m between rq id body w).1
  | CallDecide viaApp id body => (decisionPost frac_text sha256 json_store viaApp rq id body w).1
  | CallRequest m j between body => (requestsPost date_parse m j between rq body w).1
  | CallWithdraw between id => (requestDelete between rq id w).1
  end.

Definition call_between (c : call) : list AccessGrant → list AccessGrant :=
  match c with
  | CallEdit _ between _ _ | CallRequest _ _ between _ | CallWithdraw between _ => between
  | _ => id
  end.

(** The signed-in user is an approver if their role says so, the new id is
    unused, and the other requests' statements are themselves steps. *)
Definition call_ok (c : call) (rq : Req) (w : World) : Prop :=
  (∀ me, rq_user rq = Some me → can (u_role me) approve_grants = true → approver (u_id me)) ∧
  fresh (rq_id rq) (call_between c (grants w)) ∧
  rtc (grant_step approver) (grants w) (call_between c (grants w)).

(** One request served. *)
Definition served (w w' : World) : Prop := ∃ c rq, call_ok c rq w ∧ w' = run c rq w.

Lemma revoke_refines gs id : grant_step approver gs (revokeGrant id gs).
Proof.
  apply (gs_update_where _ id). intros g Hp. reflect_bool. split; [done|]. by apply row_revoke.
Qed.

Lemma create_refines m rq body w :
  call_ok (CallCreate m body) rq w →
  rtc (grant_step approver) (grants w) (grants (run (CallCreate m body) rq w)).
Proof.
  intros (Hap & Hf & _). cbn [run]. unfold adminGrantsPost.
  destruct (rq_user rq) as [me|]; [|done]. destruct (can (u_role me) approve_grants) eqn:Hc; [cbn [negb]|done].
  repeat (case_match; try done); apply rtc_once; unfold createGrant;
    (eapply (gs_create _ _ (rq_id rq) _ (u_id me)); [by apply Hap|done|done|done]).
Qed.

Lemma edit_refines m between id body rq w :
  call_ok (CallEdit m between id body) rq w →
  rtc (grant_step approver) (grants w) (grants (run (CallEdit m between id body) rq w)).
Proof.
  intros (_ & _ & Hb). cbn [run call_between] in *. unfold adminGrantPatch.
  destruct (rq_user rq) as [me|]; [|done]. destruct (negb _); [done|]. destruct (negb _ && _); [done|].
  destruct (find_row _ _) as [g0|]; [|done]. destruct (negb _); [done|].
  destruct (read_edit _ _ _ _ _) as [|d]; [done|]. destruct (_ =? 0); [done|]. simpl.
  eapply rtc_r; [exact Hb|]. apply (gs_update_where _ id). intros g Hp. reflect_bool. split; [done|].
  by apply row_edit.
Qed.

Lemma decide_refines viaApp id body rq w :
  call_ok (CallDecide viaApp id body) rq w →
  rtc (grant_step approver) (grants w) (grants (run (CallDecide viaApp id body) rq w)).
Proof.
  intros (Hap & _ & _). cbn [run]. unfold decisionPost, applyGrantDecision.
  destruct (rq_user rq) as [me|]; [|done]. destruct (can (u_role me) approve_grants) eqn:Hc; [cbn [negb]|done].
  destruct (read_verdict _) as [v|]; [|done]. destruct (decideGrant _ _ _ _ _ _) as [gs n] eqn:Hd.
  destruct (n =? 0); [done|]. apply rtc_once. unfold decideGrant in Hd. injection Hd as <- _.
  apply (gs_update_where _ id). intros g Hp. unfold is_pending in Hp. reflect_bool. split; [done|].
  eapply row_decide; [by apply (Hap me)|done..|destruct v; auto].
Qed.

Lemma request_refines m j between body rq w :
  call_ok (CallRequest m j between body) rq w →
  rtc (grant_step approver) (grants w) (grants (run (CallRequest m j between body) rq w)).
Proof.
  intros (_ & Hf & Hb). cbn [run call_between] in *. unfold requestsPost, createAccessRequest.
  destruct (rq_user rq) as [me|]; [|done]. repeat (case_match; try done); simplify_eq/=; try done.
  all: eapply rtc_r; [exact Hb|]; by eapply (gs_request _ _ (rq_id rq)).
Qed.

Lemma withdraw_refines between id rq w :
  call_ok (CallWithdraw between id) rq w →
  rtc (grant_step approver) (grants w) (grants (run (CallWithdraw between id) rq w)).
Proof.
  intros (_ & _ & Hb). cbn [run call_between] in *. unfold requestDelete.
  repeat (case_match; try done). eapply rtc_r; [exact Hb|]. apply gs_withdraw.
Qed.

(** One request takes the table through steps of the specification. *)
Lemma run_refines c rq w :
  call_ok c rq w → rtc (grant_step approver) (grants w) (grants (run c rq w)).
Proof.
  destruct c as [m body|id|m between id body|viaApp id body|m j between body|between id]; intros Hok.
  - by apply create_refines.
  - cbn [run]. unfold adminGrantsDelete. repeat (case_match; try done). apply rtc_once, revoke_refines.
  - by apply edit_refines.
  - by apply decide_refines.
  - by apply request_refines.
  - by apply withdraw_refines.
Qed.

Lemma served_refines w w' : rtc served w w' → rtc (grant_step approver) (grants w) (grants w').
Proof.
  induction 1 as [|w w1 w2 (c & rq & Hok & ->) _ IH]; [done|]. etrans; [by apply run_refines|done].
Qed.

(** C4: the routes implement the grant life cycle.  Whatever requests to the
    grant routes of the console, the portal and the app are served, in whatever order, and whatever other
    requests' statements come between the read and the write of one (those
    being life-cycle steps themselves), the table only takes steps of the
    specification; its identifiers stay unique, and a grant that was revoked or
    denied keeps its row. *)
Theorem routes_refine_lifecycle w w' :
  rtc served w w' → NoDup (g_id <$> grants w) →
  rtc (grant_step approver) (grants w) (grants w') ∧ NoDup (g_id <$> grants w') ∧
  ∀ g, g ∈ grants w → g_id g ∉ g_id <$> grants w' → g_status g = GActive.
Proof.
  intros Hs%served_refines Hnd. split_and!; [done|by eapply grant_steps_ids|]. intros g Hg Hgone.
  destruct (decide (g_status g = GActive)) as [|Hc]; [done|]. destruct Hgone.
  destruct (grant_steps_closed approver (g_id g) _ _ Hs Hnd) as [_ (x & Hx & <- & _)]; [by exists g|].
  by apply list_elem_of_fmap_2.
Qed.

(** Revoked and denied are final.  Whatever requests the routes that
    write grants serve and however they interleave, a grant that is no longer
    active is never active again, so it never admits anyone again. *)
Theorem closed_grant_stays_closed w w' g g' now :
  NoDup (g_id <$> grants w) → rtc served w w' → g ∈ grants w → g_status g ≠ GActive →
  g' ∈ grants w' → g_id g' = g_id g → ¬ admits g' now.
Proof.
  intros Hnd Hr%served_refines Hg Hs Hg' Hid (Hact & _).
  destruct (grant_steps_closed approver (g_id g) _ _ Hr Hnd) as [Hnd' (x & Hx & Hxi & Hxs)].
  { by exists g. }
  rewrite (NoDup_fmap_eq g_id (grants w') g' x) in Hact; [done..|congruence].
Qed.

(** A request is decided once.  The first decision of a pending request
    takes effect; any later decision on it, by whomever, is answered
    not_pending and changes nothing, in the table or in the admin log. *)
Theorem decide_once viaApp viaApp' rq rq' id body body' w w1 r1 :
  decisionPost frac_text sha256 json_store viaApp rq id body w = (w1, Reply 200 r1) →
  (∃ g, g ∈ grants w ∧ g_id g = id ∧ is_pending g = true) ∧
  (∀ g, g ∈ grants w1 → g_id g = id → is_pending g = false) ∧
  ∀ me, rq_user rq' = Some me → can (u_role me) approve_grants = true →
    read_verdict (obj_get body' "decision") ≠ None →
    decisionPost frac_text sha256 json_store viaApp' rq' id body' w1 = (w1, Fail 409 "not_pending").
Proof.
  unfold decisionPost, applyGrantDecision, decideGrant. intros Hd.
  destruct (rq_user rq) as [me|]; [|done]. destruct (negb _); [done|].
  destruct (read_verdict _) as [v|]; [|done].
  destruct (count_where _ (grants w) =? 0) eqn:Hn; simplify_eq; simpl.
  assert (∀ x, x ∈ update_where (λ g, (g_id g =s id) && is_pending g)
    (decided v (rq_now rq) (u_id me) (normalizeDenyReason (obj_get body "reason"))) (grants w) →
    ((g_id x =s id) && is_pending x) = false) as Hno.
  { intros x (y & Hy & ->)%elem_of_update_where. destruct ((g_id y =s id) && is_pending y) eqn:Hp; [|done].
    unfold is_pending, decided; simpl. by rewrite !andb_false_r. }
  split_and!.
  - apply Z.eqb_neq in Hn. destruct (List.filter (λ g, (g_id g =s id) && is_pending g) (grants w)) as [|g l] eqn:Hf.
    { unfold count_where in Hn. by rewrite Hf in Hn. }
    assert (In g (List.filter (λ g, (g_id g =s id) && is_pending g) (grants w))) as Hin by (rewrite Hf; by left).
    apply filter_In in Hin as [Hin Hp]. reflect_bool. exists g. by rewrite list_elem_of_In.
  - intros g Hg Hid. specialize (Hno g Hg). by rewrite bool_decide_eq_true_2 in Hno.
  - intros me' -> -> Hv. simpl. destruct (read_verdict (obj_get body' "decision")) as [v'|]; [|done].
    rewrite (proj2 (count_where_0 _ _)); done.
Qed.

Definition call_cap (c : call) : option Z :=
  match c with CallCreate m _ | CallEdit m _ _ _ | CallRequest m _ _ _ => Some m | _ => None end.

(** Within [m] days of its start, or of [now] when it has none. *)
Definition capped (m now : Z) (g : AccessGrant) : Prop :=
  ∃ e, g_endsAt g = Some e ∧ e - (g_startsAt g ?? now) ≤ m * 24 * 60 * 60 * 1000.
(** No row's start is moved between two states of the table. *)
Definition starts_kept (gs gs' : list AccessGrant) : Prop :=
  ∀ g g', g ∈ gs → g' ∈ gs' → g_id g' = g_id g → g_startsAt g' = g_startsAt g.
Lemma starts_kept_refl gs : NoDup (g_id <$> gs) → starts_kept gs gs.
Proof. intros Hnd g g' Hg Hg' Hid. by rewrite (NoDup_fmap_eq g_id gs g' g). Qed.

Lemma cap_no_error m now startsAt endsAt :
  0 < m → grantCapError startsAt endsAt now m = None →
  ∃ e, endsAt = Some e ∧ e - (startsAt ?? now) ≤ m * 24 * 60 * 60 * 1000.
Proof.
  intros Hm. unfold grantCapError. destruct (Z.leb_spec m 0); [lia|]. destruct endsAt as [e|]; [|done].
  destruct (Z.ltb_spec (m * 24 * 60 * 60 * 1000) (e - (startsAt ?? now))); [done|]. intros _. by exists e.
Qed.

Lemma cap_capped m now g :
  0 < m → grantCapError (g_startsAt g) (g_endsAt g) now m = None → capped m now g.
Proof. intros Hm Hc. by apply cap_no_error in Hc. Qed.

Lemma read_edit_capped m now startsAt body d :
  0 < m → read_edit date_parse m now startsAt body = inr d →
  ∀ e, ed_endsAt d = Some e → e - (startsAt ?? now) ≤ m * 24 * 60 * 60 * 1000.
Proof.
  intros Hm. unfold read_edit. intros Hd e He.
  destruct (truthy _); [|repeat case_match; by simplify_eq/=].
  destruct (grantEndsAtError _ _ _); [done|]. destruct (date_parse _) as [x|]; [|done].
  destruct (grantCapError _ _ _ _) eqn:Hc; [done|].
  apply cap_no_error in Hc as (e' & ? & ?); [|done]. repeat case_match; by simplify_eq/=.
Qed.

(** C39: under a duration cap of [m] days no grant route writes an end date beyond
    it.  After a console grant, a user's request or an edit, with whatever other
    requests commit between its read and its write as long as they move no row's
    start (no route does), every row either has an end date it had when the
    request began or that the others gave it meanwhile, or it ends within [m] days
    of its start.  A row without a start is measured from the time of the request:
    when it is created that is when its access begins, but an edit measures anew,
    so each edit may put its end up to [m] days after the edit. *)
Theorem grant_cap_enforced c rq w m g :
  0 < m → call_cap c = Some m → starts_kept (grants w) (call_between c (grants w)) →
  g ∈ grants (run c rq w) →
  (∃ g0, (g0 ∈ grants w ∨ g0 ∈ call_between c (grants w)) ∧ g_id g0 = g_id g ∧ g_endsAt g0 = g_endsAt g) ∨ capped m (rq_now rq) g.
Proof.
  intros Hm Hcap Hb Hg. set (goal := _ ∨ _).
  assert (g ∈ grants w → goal) as Hold by (intros; left; exists g; split; [by left|done]).
  assert (g ∈ call_between c (grants w) → goal) as Hmid by (intros; left; exists g; split; [by right|done]). unfold goal in *. clear goal.
  destruct c as [m' body| |m' between id body| |m' j between body|]; simplify_eq/=.
  - unfold adminGrantsPost in Hg. repeat (case_match; try by apply Hold); simpl in Hg;
      (apply elem_of_app in Hg as [Hg|Hg%list_elem_of_singleton]; [by apply Hold|]); right; subst g;
      by apply cap_capped.
  - unfold adminGrantPatch in Hg. destruct (rq_user rq); [|by apply Hold].
    destruct (negb _); [by apply Hold|]. destruct (negb _ && _); [by apply Hold|].
    destruct (find_row _ _) as [g0|] eqn:Hf; [|by apply Hold]. destruct (negb _); [by apply Hold|].
    destruct (read_edit _ _ _ _ _) as [|d] eqn:Hd; [by apply Hold|].
    destruct (_ =? 0); [by apply Hmid|]. simpl in Hg. apply elem_of_update_where in Hg as (x & Hx & ->).
    destruct (_ && _) eqn:Hp; [|by apply Hmid]. reflect_bool.
    destruct (ed_endsAt d) as [e|] eqn:He; [right|left; exists x; simpl; rewrite He; split; [by right|done]].
    apply find_row_Some in Hf as [Hg0 Hid]. reflect_bool.
    exists e. simpl. rewrite He. split; [done|]. rewrite (Hb g0 x) by (done || congruence). by eapply read_edit_capped.
  - unfold requestsPost, createAccessRequest in Hg.
    repeat (case_match; try by apply Hold); simplify_eq/=; try by apply Hold.
    all: apply elem_of_app in Hg as [Hg|Hg%list_elem_of_singleton]; [by apply Hmid|]; right; subst g;
      by apply cap_capped.
Qed.

(** *** One pending request per user and site *)

Definition pending_pairs (gs : list AccessGrant) : list (string * string) :=
  map (λ g, (g_userId g, g_siteId g)) (List.filter is_pending gs).

Lemma pending_update p f gs :
  (∀ x, g_userId (f x) = g_userId x ∧ g_siteId (f x) = g_siteId x) →
  (∀ x, is_pending (f x) = true → is_pending x = true) →
  sublist (pending_pairs (update_where p f gs)) (pending_pairs gs).
Proof.
  intros Hpair Hpend. unfold pending_pairs, update_where.
  induction gs as [|g gs IH]; simpl; [constructor|]. destruct (p g).
  - destruct (Hpair g) as [Hu Hs]. destruct (is_pending (f g)) eqn:E.
    + rewrite (Hpend _ E). simpl. rewrite Hu, Hs. by constructor.
    + destruct (is_pending g); simpl; [by constructor|done].
  - destruct (is_pending g); simpl; [by constructor|done].
Qed.

Lemma pending_delete p gs : sublist (pending_pairs (delete_where p gs)) (pending_pairs gs).
Proof.
  unfold pending_pairs, delete_where. induction gs as [|g gs IH]; simpl; [constructor|].
  destruct (p g); simpl; destruct (is_pending g); simpl; first [done|by constructor].
Qed.

Lemma pending_pairs_app gs l : pending_pairs (gs ++ l) = pending_pairs gs ++ pending_pairs l.
Proof. unfold pending_pairs. by rewrite List.filter_app, map_app. Qed.

Lemma edit_pending d x : is_pending (edit_grant d x) = is_pending x.
Proof. done. Qed.
Lemma decided_pending v now a r x : is_pending (decided v now a r x) = true → is_pending x = true.
Proof. unfold is_pending. simpl. by rewrite andb_false_r. Qed.
Lemma revoked_pending x : is_pending (set_status GRevoked x) = true → is_pending x = true.
Proof. done. Qed.

Lemma request_pairs id i gs gs' r :
  createAccessRequest (λ gs, gs) id i gs = (gs', r) → NoDup (pending_pairs gs) → NoDup (pending_pairs gs').
Proof.
  unfold createAccessRequest. destruct (existsb _ gs) eqn:He; intros [= <- <-]; [done|]. intros Hnd.
  rewrite pending_pairs_app. apply NoDup_app. split_and!; [done| |apply NoDup_singleton].
  intros x Hx Hin. apply list_elem_of_singleton in Hin. simpl in Hin. subst x.
  unfold pending_pairs in Hx. apply list_elem_of_In, in_map_iff in Hx as (g & [= Hu Hs] & [Hg Hp]%filter_In).
  assert (existsb (λ g, for_pair (gi_userId i) (gi_siteId i) g && is_pending g) gs = true) as Ht; [|congruence].
  apply existsb_exists. exists g. split; [done|]. unfold for_pair. rewrite Hp, Hu, Hs.
  by rewrite !bool_decide_eq_true_2.
Qed.

(** Served one at a time, the routes keep at most one pending request per
    user and site. *)
Theorem one_pending_per_pair c rq w :
  call_between c = (λ gs, gs) → NoDup (pending_pairs (grants w)) →
  NoDup (pending_pairs (grants (run c rq w))).
Proof.
  intros Hb Hnd.
  destruct c as [m body|id|m between id body|viaApp id body|m j between body|between id]; simpl in Hb; subst; cbn [run].
  - unfold adminGrantsPost. repeat (case_match; try done); simpl; unfold createGrant;
      rewrite pending_pairs_app; by rewrite app_nil_r.
  - unfold adminGrantsDelete. repeat (case_match; try done). simpl.
    eapply sublist_NoDup; [exact Hnd|]. by apply pending_update.
  - unfold adminGrantPatch. destruct (rq_user rq) as [me|]; [|done]. destruct (negb _); [done|].
    destruct (negb _ && _); [done|]. destruct (find_row _ _); [|done]. destruct (negb _); [done|].
    destruct (read_edit _ _ _ _ _); [done|]. destruct (_ =? 0); [done|]. simpl.
    eapply sublist_NoDup; [exact Hnd|]. by apply pending_update.
  - unfold decisionPost, applyGrantDecision, decideGrant. destruct (rq_user rq) as [me|]; [|done].
    destruct (negb _); [done|]. destruct (read_verdict _) as [v|]; [|done]. destruct (_ =? 0); [done|]. simpl.
    eapply sublist_NoDup; [exact Hnd|]. apply pending_update; [done|]. intros x. apply decided_pending.
  - unfold requestsPost. repeat (case_match; try done); simpl; by eapply request_pairs.
  - unfold requestDelete. repeat (case_match; try done). simpl.
    eapply sublist_NoDup; [exact Hnd|]. apply pending_delete.
Qed.
End refinement.

(** Interleaved, they do not: two requests that both pass the check insert two
    pending rows for one user and site. *)
Definition demo_request (note : string) : GrantInput :=
  {| gi_userId := "u1"; gi_siteId := "s1"; gi_startsAt := None; gi_endsAt := None;
     gi_note := Some note; gi_schedule := None |}.
Theorem one_pending_race :
  ∃ between, between [] = (createAccessRequest (λ gs, gs) "g1" (demo_request "a") []).1 ∧
    pending_pairs (createAccessRequest between "g2" (demo_request "b") []).1
      = [("u1", "s1"); ("u1", "s1")]%string.
Proof.
  exists (λ gs, (createAccessRequest (λ gs, gs) "g1" (demo_request "a") gs).1). split; reflexivity.
Qed.

(** ** Concrete runs *)

Definition demo_user (id : string) (r : Role) : User :=
  {| u_id := id; u_email := id +:+ "@example.test"; u_name := id; u_company := None; u_phone := None; u_timezone := None; u_role := r;
     u_status := UActive; u_directoryManaged := false; u_directoryLastVerifiedAt := None; u_centerRole := None |}.
Definition demo_site : Site := {| site_id := "s1"; site_name := "Wiki"; site_hostname := None |}.
(** The row of a self-service request. *)
Definition request_row (id : string) (i : GrantInput) : AccessGrant :=
  {| g_id := id; g_userId := gi_userId i; g_siteId := gi_siteId i; g_startsAt := gi_startsAt i;
     g_endsAt := gi_endsAt i; g_status := GActive; g_note := gi_note i; g_denyReason := None;
     g_requiresApproval := true; g_approvedAt := None; g_approvedById := None;
     g_schedule := schedule_column (gi_schedule i); g_createdById := Some (gi_userId i);
     g_directoryManaged := false |}.

Definition pending_grant : AccessGrant := request_row "g1" (demo_request "please").
Definition demo_world (gs : list AccessGrant) : World :=
  {| users := [demo_user "admin" ADMIN; demo_user "u1" VENDOR]; sites := [demo_site]; grants := gs;
     admin := {| adminRows := []; adminHead := None |} |}.
Definition demo_req (who : User) (now : Z) : Req :=
  {| rq_user := Some who; rq_now := now; rq_id := "g9"; rq_auditId := "r9"; rq_auditFails := false;
     rq_clientIp := None |}.
Definition approve_body : json := JObj [("decision", JStr "approve")]%string.
Definition demo_decide (now : Z) (w : World) :=
  decisionPost frac_digits (λ s, s) json_wire false (demo_req (demo_user "admin" ADMIN) now) "g1" approve_body w.
Definition approved_world : World := (demo_decide 1000 (demo_world [pending_grant])).1.
Definition is_admin (id : string) : Prop := id = "admin"%string.

(** A request whose end date passed before anyone decided it frees the site in
    the list of sites to request, but the request itself is refused as still
    pending. *)
Definition expired_request : AccessGrant :=
  request_row "g1" {| gi_userId := "u1"; gi_siteId := "s1"; gi_startsAt := None; gi_endsAt := Some 500;
                      gi_note := None; gi_schedule := None |}.
Theorem expired_request_blocks :
  let w := demo_world [expired_request] in
  map site_id (listSitesForRequest "u1" 1000 w) = ["s1"%string] ∧
  (requestsPost (λ _, InvalidDate) 0 false (λ gs, gs) (demo_req (demo_user "u1" VENDOR) 1000)
     (JObj [("siteId", JStr "s1"); ("note", JStr "again")]%string) w).2 = Fail 409 "request_pending".
Proof. split; vm_compute; reflexivity. Qed.

Lemma evaluateAccess_reason_witness :
  let gs := [set_status GRevoked pending_grant; pending_grant] in
  dreason (evaluateAccess [demo_user "u1" VENDOR] gs "u1" "s1" 0) = r_pending_approval ∧
  allow (evaluateAccess [demo_user "u1" VENDOR] (reverse gs) "u1" "s1" 0) =
  allow (evaluateAccess [demo_user "u1" VENDOR] gs "u1" "s1" 0).
Proof.
  split; [vm_compute; reflexivity|].
  apply (evaluateAccess_reason [demo_user "u1" VENDOR] [set_status GRevoked pending_grant; pending_grant]
    (reverse [set_status GRevoked pending_grant; pending_grant]) "u1" "s1" 0 (demo_user "u1" VENDOR)).
  - vm_compute. reflexivity.
  - reflexivity.
  - symmetry. apply reverse_Permutation.
Defined.

Definition demo_env : CheckEnv :=
  {| DATAPLANE_SECRET := Some "secret"%string; multiTenant := true;
     resolveTenantBySite := λ s, if s =s "s1" then Some "t1"%string else None;
     vendorIpAllowlist := λ _, "10.0.0.7"%string |}.
Definition demo_check_body : json :=
  JObj [("userId", JStr "u1"); ("siteId", JStr "s1"); ("clientIp", JStr "10.0.0.7")]%string.
Lemma accessCheck_sound_witness :
  ∃ u g, find_row (λ u, u_id u =s "u1") (users approved_world) = Some u ∧ u_status u = UActive ∧
    g ∈ grants approved_world ∧ g_userId g = "u1"%string ∧ g_siteId g = "s1"%string ∧ admits g 2000.
Proof.
  destruct (accessCheck_sound demo_env (Some "secret"%string) demo_check_body None 2000 (λ _, approved_world)
    200 {| allow := true; dreason := r_allow |}) as (_ & tid & _ & _ & H).
  - exact I.
  - vm_compute. reflexivity.
  - reflexivity.
  - exact H.
Defined.

(** A request made, then approved. *)
Notation demo_run := (run (λ _, InvalidDate) frac_digits (λ s, s) json_wire).
Notation demo_served := (served (λ _, InvalidDate) frac_digits (λ s, s) json_wire is_admin).
Definition request_call : call :=
  CallRequest 0 false (λ gs, gs) (JObj [("siteId", JStr "s1"); ("note", JStr "please")]%string).
Definition request_req : Req :=
  {| rq_user := Some (demo_user "u1" VENDOR); rq_now := 500; rq_id := "g1"; rq_auditId := "r1"; rq_auditFails := false;
     rq_clientIp := None |}.
Definition admin_req (now : Z) : Req := demo_req (demo_user "admin" ADMIN) now.
Definition requested_world : World := demo_run request_call request_req (demo_world []).
Definition admitted_world : World := demo_run (CallDecide false "g1" approve_body) (admin_req 1000) requested_world.
Definition revoked_world : World := demo_run (CallRevoke (Some "g1"%string)) (admin_req 1500) admitted_world.
Definition redecided_world : World := demo_run (CallDecide false "g1" approve_body) (admin_req 1700) revoked_world.

Lemma request_served : demo_served (demo_world []) requested_world.
Proof.
  exists request_call, request_req. split; [|done]. split_and!.
  - intros me [= <-] Hc. vm_compute in Hc. discriminate.
  - apply not_elem_of_nil.
  - apply rtc_refl.
Qed.

Lemma admin_served c now w :
  call_between c = id → fresh "g9" (grants w) → demo_served w (demo_run c (admin_req now) w).
Proof.
  intros Hb Hf. exists c, (admin_req now). split; [|done]. split_and!; [by intros me [= <-] _|by rewrite Hb..].
Qed.

Lemma admitted_served : rtc demo_served (demo_world []) admitted_world.
Proof.
  eapply rtc_l; [apply request_served|]. apply rtc_once, admin_served; [done|].
  apply (bool_decide_unpack _). vm_compute. exact I.
Qed.

Lemma routes_refine_lifecycle_witness :
  rtc (grant_step is_admin) [] (grants admitted_world) ∧ NoDup (g_id <$> grants admitted_world).
Proof.
  destruct (routes_refine_lifecycle (λ _, InvalidDate) frac_digits (λ s, s) json_wire is_admin
    (demo_world []) admitted_world admitted_served) as (Hr & Hn & _); [by apply NoDup_nil|]. by split.
Defined.

Definition redecided_grant : AccessGrant := hd pending_grant (grants redecided_world).

Lemma closed_grant_stays_closed_witness :
  grants redecided_world = [redecided_grant] ∧ ¬ admits redecided_grant 2000.
Proof.
  split; [vm_compute; reflexivity|].
  apply (closed_grant_stays_closed (λ _, InvalidDate) frac_digits (λ s, s) json_wire is_admin
    revoked_world redecided_world (hd pending_grant (grants revoked_world)) redecided_grant 2000).
  - apply (bool_decide_unpack _). vm_compute. exact I.
  - apply rtc_once, admin_served; [done|]. apply (bool_decide_unpack _). vm_compute. exact I.
  - vm_compute. left.
  - vm_compute. discriminate.
  - vm_compute. left.
  - vm_compute. reflexivity.
Defined.

Lemma decide_once_witness :
  demo_decide 3000 approved_world = (approved_world, Fail 409 "not_pending").
Proof.
  apply (decide_once frac_digits (λ s, s) json_wire false false (demo_req (demo_user "admin" ADMIN) 1000)
    (demo_req (demo_user "admin" ADMIN) 3000) "g1" approve_body approve_body (demo_world [pending_grant])
    approved_world tt) with (me := demo_user "admin" ADMIN).
  - vm_compute. reflexivity.
  - reflexivity.
  - vm_compute. reflexivity.
  - vm_compute. discriminate.
Defined.

Definition demo_capped_call : call :=
  CallRequest 7 false (λ gs, gs) (JObj [("siteId", JStr "s1"); ("endsAt", JStr "soon")]%string).
Definition demo_soon (s : string) : jsdate := if s =s "soon" then ValidDate 86400000 else InvalidDate.
Definition demo_capped_world : World :=
  run demo_soon frac_digits (λ s, s) json_wire demo_capped_call (demo_req (demo_user "u1" VENDOR) 0) (demo_world []).
Lemma grant_cap_enforced_witness :
  ∃ g, grants demo_capped_world = [g] ∧ capped 7 0 g.
Proof.
  eexists. split; [vm_compute; reflexivity|].
  refine (or_ind (λ x, _) (λ x, x) (grant_cap_enforced demo_soon frac_digits (λ s, s) json_wire demo_capped_call
    (demo_req (demo_user "u1" VENDOR) 0) (demo_world []) 7 _ _ _ _ _)).
  - destruct x as (g0 & [Hg0|Hg0] & _); by apply elem_of_nil in Hg0.
  - lia.
  - reflexivity.
  - apply starts_kept_refl. constructor.
  - by left.
Defined.

(** An edit measures the cap of a grant without a start from the edit, not from
    when its access began: a grant created for the allowed seven days is extended
    to thirteen by an edit on the sixth day. *)
Definition cap_day : Z := 24 * 60 * 60 * 1000.
Definition cap_date (s : string) : jsdate := if s =s "7" then ValidDate (7 * cap_day) else if s =s "13" then ValidDate (13 * cap_day) else InvalidDate.
Definition cap_created : World :=
  run cap_date frac_digits (λ s, s) json_wire
    (CallCreate 7 (JObj [("userId", JStr "u1"); ("siteId", JStr "s1"); ("endsAt", JStr "7")]%string))
    (demo_req (demo_user "admin" ADMIN) 0) (demo_world []).
Theorem edit_measures_anew :
  map (λ g, (g_startsAt g, g_endsAt g)) (grants cap_created) = [(None, Some (7 * cap_day))] ∧
  match grants cap_created with
  | [g] =>
      map (λ g, (g_startsAt g, g_endsAt g)) (grants (run cap_date frac_digits (λ s, s) json_wire
        (CallEdit 7 (λ gs, gs) (g_id g) (JObj [("endsAt", JStr "13")]%string)) (demo_req (demo_user "admin" ADMIN) (6 * cap_day)) cap_created))
      = [(None, Some (13 * cap_day))]
  | _ => False
  end.
Proof. split; vm_compute; reflexivity. Qed.

Lemma one_pending_per_pair_witness : NoDup (pending_pairs (grants demo_capped_world)).
Proof.
  apply (one_pending_per_pair demo_soon frac_digits (λ s, s) json_wire demo_capped_call
    (demo_req (demo_user "u1" VENDOR) 0) (demo_world [])).
  - reflexivity.
  - constructor.
Defined.

(** Editing only the note of a grant leaves an admin log the verifier reports
    as tampered with (the metadata is [{ endsAt: undefined }]). *)
Theorem note_edit_breaks_admin_chain :
  let w := run (λ _, InvalidDate) frac_digits (λ s, s) json_wire
    (CallEdit 0 (λ gs, gs) "g1" (JObj [("note", JStr "renewed")]%string))
    (demo_req (demo_user "admin" ADMIN) 1000) (demo_world [pending_grant]) in
  map g_note (grants w) = [Some "renewed"%string] ∧
  ok (adminVerify frac_digits (λ s, s) (admin w)) = false ∧
  reason (adminVerify frac_digits (λ s, s) (admin w)) = Some hash_mismatch.
Proof. split_and!; vm_compute; reflexivity. Qed.
