(* ===== verification/Sessions.v ===== *)
(** * Sessions

    src/lib/auth/session.ts, src/lib/policy/session-policy.ts (with its
    30-second cache), src/lib/mobile/session.ts and handoff.ts (the app's
    PKCE hand-off), src/lib/support/session.ts, src/lib/auth/invite.ts and the
    admin routes policy/session and sessions/revoke.

    [sha256], the base64url digests and HMAC of node:crypto, and argon2, are
    parameters.  Tokens and row ids are drawn by the host and passed in.  A
    handler that reads and then writes takes [between], as in [Access]. *)

From S2P Require Import Prelude JsString JsValue Schema AuditChain AdminLog Identity.

(** ** Rows *)

Record Session := {
  se_id : string;
  se_userId : string;
  se_tokenHash : string;
  se_expiresAt : Z;
  se_createdAt : Z;
  se_lastSeenAt : Z;
  se_userAgent : option string;
  se_ip : option string;
  se_amr : list string;
  se_mobile : bool;
  se_mobileChallenge : option string;
}.

Record SessionPolicy := {
  idleTimeoutMinutes : option Z;
  maxSessionHours : option Z;
  maxConcurrentPerUser : option Z;
  requireSecondFactor : bool;
}.
#[global] Instance SessionPolicy_eq_dec : EqDecision SessionPolicy.
Proof. solve_decision. Defined.

Definition EMPTY_POLICY : SessionPolicy :=
  {| idleTimeoutMinutes := None; maxSessionHours := None; maxConcurrentPerUser := None;
     requireSecondFactor := false |}.

(** ** The policy and its cache *)

(** [x && x > 0] on a nullable integer. *)
Definition positive (o : option Z) : option Z :=
  match o with Some z => if 0 <? z then Some z else None | None => None end.

Definition sessionTtlMs (policyHours : option Z) (envHours : Z) : Z :=
  (positive policyHours ?? envHours) * 3600000.
Definition idleExpired (lastSeen now : Z) (idleMinutes : option Z) : bool :=
  match positive idleMinutes with Some m => m * 60000 <? now - lastSeen | None => false end.
Definition evictionIds (activeOldestFirst : list string) (cap : option Z) : list string :=
  match positive cap with
  | None => []
  | Some c => let excess := Z.of_nat (length activeOldestFirst) - (c - 1) in
              if excess <=? 0 then [] else take (Z.to_nat excess) activeOldestFirst
  end.

(** The rows by tenant, and the module's one cache slot. *)
Record PolicyStore := {
  policyRows : gmap string SessionPolicy;
  policyCache : option (SessionPolicy * Z);
}.

(** [dbError]: the read threw; the answer is no enforcement and is not cached. *)
Definition getSessionPolicy (tenantId : string) (now : Z) (dbError : bool) (st : PolicyStore)
    : PolicyStore * SessionPolicy :=
  match match policyCache st with
        | Some (p, at_) => if now - at_ <? 30000 then Some p else None
        | None => None
        end with
  | Some p => (st, p)
  | None =>
      if dbError then (st, EMPTY_POLICY) else
      let p := policyRows st !! tenantId ?? EMPTY_POLICY in
      ({| policyRows := policyRows st; policyCache := Some (p, now) |}, p)
  end.

Definition saveSessionPolicy (tenantId : string) (input : SessionPolicy) (st : PolicyStore) : PolicyStore :=
  {| policyRows := <[tenantId := input]> (policyRows st); policyCache := None |}.

(** ** Console sessions *)

Record Auth := { a_users : list User; a_sessions : list Session; a_policy : PolicyStore }.
Definition with_sessions (a : Auth) (ss : list Session) : Auth :=
  {| a_users := a_users a; a_sessions := ss; a_policy := a_policy a |}.
Definition with_policy (a : Auth) (p : PolicyStore) : Auth :=
  {| a_users := a_users a; a_sessions := a_sessions a; a_policy := p |}.

Definition set_lastSeen (now : Z) (s : Session) : Session :=
  {| se_id := se_id s; se_userId := se_userId s; se_tokenHash := se_tokenHash s;
     se_expiresAt := se_expiresAt s; se_createdAt := se_createdAt s; se_lastSeenAt := now;
     se_userAgent := se_userAgent s; se_ip := se_ip s; se_amr := se_amr s; se_mobile := se_mobile s;
     se_mobileChallenge := se_mobileChallenge s |}.

(** What may go wrong in a lookup of a session without failing it: the policy
    could not be read, and none is enforced; the write that records the visit,
    or drops the idle session, failed and changed nothing. *)
Record SessionFaults := { policyUnread : bool; visitUnsaved : bool }.
Definition no_faults : SessionFaults := {| policyUnread := false; visitUnsaved := false |}.

Section console.
Context (sha256 : string → string).

(** The live console sessions of a user, oldest first. *)
Definition live_console (userId : string) (now : Z) (s : Session) : bool :=
  (se_userId s =s userId) && (now <? se_expiresAt s) && negb (se_mobile s).

Record SessionMeta := { m_userAgent : option string; m_ip : option string; m_amr : list string }.

(** [unread]: its read of the policy failed. *)
Definition createSession (unread : bool) (tenantId : string) (envHours now : Z) (id token userId : string)
    (meta : SessionMeta) (a : Auth) : Auth :=
  let '(pst, policy) := getSessionPolicy tenantId now unread (a_policy a) in
  let ttl := sessionTtlMs (maxSessionHours policy) envHours in
  let kept :=
    match positive (maxConcurrentPerUser policy) with
    | Some _ =>
        let active := order_by se_createdAt (List.filter (live_console userId now) (a_sessions a)) in
        let evict := evictionIds (map se_id active) (maxConcurrentPerUser policy) in
        delete_where (λ s, bool_decide (se_id s ∈ evict)) (a_sessions a)
    | None => a_sessions a
    end in
  {| a_users := a_users a;
     a_sessions := kept ++
       [{| se_id := id; se_userId := userId; se_tokenHash := sha256 token; se_expiresAt := now + ttl;
           se_createdAt := now; se_lastSeenAt := now; se_userAgent := m_userAgent meta;
           se_ip := m_ip meta; se_amr := m_amr meta; se_mobile := false; se_mobileChallenge := None |}];
     a_policy := pst |}.

Definition getSessionUser (f : SessionFaults) (tenantId : string) (now : Z) (token : string) (a : Auth)
    : Auth * option User :=
  if negb (truthy token) then (a, None) else
  match find_row (λ s, se_tokenHash s =s sha256 token) (a_sessions a) with
  | None => (a, None)
  | Some s =>
      if se_expiresAt s <? now then (a, None) else
      if se_mobile s then (a, None) else
      match find_row (λ u, u_id u =s se_userId s) (a_users a) with
      | None => (a, None)
      | Some u =>
          if negb (bool_decide (u_status u = UActive)) then (a, None) else
          let '(pst, policy) := getSessionPolicy tenantId now (policyUnread f) (a_policy a) in
          let a1 := with_policy a pst in
          let written x := negb (visitUnsaved f) && (se_id x =s se_id s) in
          if idleExpired (se_lastSeenAt s) now (idleTimeoutMinutes policy)
          then (with_sessions a1 (delete_where written (a_sessions a1)), None)
          else (with_sessions a1 (update_where written (set_lastSeen now) (a_sessions a1)), Some u)
      end
  end.

Definition destroySession (token : string) (a : Auth) : Auth :=
  with_sessions a (delete_where (λ s, se_tokenHash s =s sha256 token) (a_sessions a)).
Definition revokeSession (sessionId : string) (a : Auth) : Auth :=
  with_sessions a (delete_where (λ s, se_id s =s sessionId) (a_sessions a)).
Definition sessionCookieMaxAgeSeconds (policy : SessionPolicy) (envHours : Z) : Z :=
  sessionTtlMs (maxSessionHours policy) envHours / 1000.
Definition currentSessionId (cookie : option string) (a : Auth) : option string :=
  match cookie with
  | Some t => if truthy t then se_id <$> find_row (λ s, se_tokenHash s =s sha256 t) (a_sessions a) else None
  | None => None
  end.

(** [getCurrentUser]: a live support session wins over the console cookie.
    [fs]: the faults of its two lookups. *)
Definition getCurrentUser (fs : SessionFaults * SessionFaults) (tenantId : string) (now : Z) (support session : option string) (a : Auth)
    : Auth * option User :=
  let '(a1, u) := match support with
                  | Some t => if truthy t then getSessionUser fs.1 tenantId now t a else (a, None)
                  | None => (a, None)
                  end in
  match u with
  | Some _ => (a1, u)
  | None => match session with
            | Some t => getSessionUser fs.2 tenantId now t a1
            | None => (a1, None)
            end
  end.

(** ** App sessions *)

Definition MOBILE_SESSION_DAYS : Z := 30.
Definition CODE_TTL_MS : Z := 2 * 60 * 1000.

Definition issueMobileCode (now : Z) (id code userId challenge : string) (meta : SessionMeta) (a : Auth) : Auth :=
  with_sessions a (a_sessions a ++
    [{| se_id := id; se_userId := userId; se_tokenHash := sha256 code; se_expiresAt := now + CODE_TTL_MS;
        se_createdAt := now; se_lastSeenAt := now; se_userAgent := m_userAgent meta; se_ip := m_ip meta;
        se_amr := m_amr meta; se_mobile := true; se_mobileChallenge := Some challenge |}]).

(** [/^[A-Za-z0-9._~-]{43,128}$/] and [/^[A-Za-z0-9_-]{43}$/] *)
Definition is_alnum (c : Ascii.ascii) : bool :=
  is_digit c || ((65 <=? code c) && (code c <=? 90)) || ((97 <=? code c) && (code c <=? 122)).
Definition is_b64url (c : Ascii.ascii) : bool := is_alnum c || (code c =? 95) || (code c =? 45).
Definition is_unreserved (c : Ascii.ascii) : bool := is_b64url c || (code c =? 46) || (code c =? 126).
Definition is_verifier (s : string) : bool :=
  forallb is_unreserved (chars s) && (43 <=? js_length s) && (js_length s <=? 128).
Definition isPkceChallenge (s : string) : bool := forallb is_b64url (chars s) && (js_length s =? 43).

Context (sha256_b64url : string → string).

Definition pkceMatches (verifier : json) (challenge : string) : bool :=
  match verifier with
  | JStr v => is_verifier v && (sha256_b64url v =s challenge)
  | _ => false
  end.

Definition redeemed (now : Z) (hash : string) (device : option string) (s : Session) : Session :=
  {| se_id := se_id s; se_userId := se_userId s; se_tokenHash := hash;
     se_expiresAt := now + MOBILE_SESSION_DAYS * (24 * 60 * 60 * 1000); se_createdAt := se_createdAt s;
     se_lastSeenAt := now;
     se_userAgent := (match device with
                      | Some d => if truthy d then Some (slice_to 200 d) else se_userAgent s
                      | None => se_userAgent s
                      end);
     se_ip := se_ip s; se_amr := se_amr s; se_mobile := se_mobile s; se_mobileChallenge := None |}.

Definition redeemMobileCode (between : list Session → list Session) (now : Z) (token : string)
    (code verifier : json) (device : option string) (ss : list Session)
    : list Session * option (string * string) :=
  let c := str_or_empty code in
  if negb (truthy c) then (ss, None) else
  match find_row (λ s, (se_tokenHash s =s sha256 c) && se_mobile s &&
                       negb (bool_decide (se_mobileChallenge s = None))) ss with
  | None => (ss, None)
  | Some row =>
      match se_mobileChallenge row with
      | None => (ss, None)
      | Some challenge =>
          if negb (truthy challenge) then (ss, None) else
          let ss1 := between ss in
          if (se_expiresAt row <? now) || negb (pkceMatches verifier challenge)
          then (delete_where (λ s, se_id s =s se_id row) ss1, None)
          else
            let p := λ s, (se_id s =s se_id row) && (se_tokenHash s =s sha256 c) in
            (update_where p (redeemed now (sha256 token) device) ss1,
             if count_where p ss1 =? 1 then Some (token, se_userId row) else None)
      end
  end.

(** [/^Bearer ([A-Za-z0-9_-]{20,200})$/] on the trimmed header. *)
Definition bearerToken (authorization : option string) : option string :=
  let h := trim (authorization ?? "") in
  let t := slice_from 7 h in
  if startsWith "Bearer " h && forallb is_b64url (chars t) && (20 <=? js_length t) && (js_length t <=? 200)
  then Some t else None.

(** [unsaved]: the write that records the visit failed. *)
Definition mobileSessionFromRequest (unsaved : bool) (now : Z) (authorization : option string) (a : Auth)
    : Auth * option (string * User) :=
  match bearerToken authorization with
  | None => (a, None)
  | Some token =>
      match find_row (λ s, (se_tokenHash s =s sha256 token) && se_mobile s &&
                           bool_decide (se_mobileChallenge s = None)) (a_sessions a) with
      | None => (a, None)
      | Some s =>
          match find_row (λ u, u_id u =s se_userId s) (a_users a) with
          | None => (a, None)
          | Some u =>
              if (se_expiresAt s <? now) || negb (bool_decide (u_status u = UActive)) then (a, None)
              else (with_sessions a (update_where (λ x, negb unsaved && (se_id x =s se_id s)) (set_lastSeen now) (a_sessions a)),
                    Some (se_id s, u))
          end
      end
  end.
Definition endMobileSession (sessionId : string) (a : Auth) : Auth :=
  with_sessions a (delete_where (λ s, (se_id s =s sessionId) && se_mobile s) (a_sessions a)).
End console.

(** ** The hand-off cookie *)

Section handoff.
(** HMAC-SHA-256 under SESSION_SECRET, base64url. *)
Context (hmac : string → string).
Definition HANDOFF_TTL_SEC : Z := 10 * 60.
Definition dot : Ascii.ascii := Ascii.ascii_of_N 46.

Definition mac (payload : string) : string := hmac ("mobile-handoff:" +:+ payload).
Definition signHandoff (challenge : string) (now : Z) : string :=
  let payload := challenge +:+ "." +:+ dec (now / 1000 + HANDOFF_TTL_SEC) in
  payload +:+ "." +:+ mac payload.
Definition readHandoff (value : option string) (now : Z) : option string :=
  match value with
  | None => None
  | Some v =>
      if negb (truthy v) then None else
      match split dot v with
      | [challenge; exp; sig] =>
          if negb (mac (challenge +:+ "." +:+ exp) =s sig) then None else
          if negb (truthy exp && forallb is_digit (chars exp)) then None else
          match Number exp with
          | NInt e => if e * 1000 <? now then None
                      else if isPkceChallenge challenge then Some challenge else None
          | _ => None
          end
      | _ => None
      end
  end.
End handoff.

(** ** Support access *)

Record SupportHandoff := {
  h_id : string;
  h_tokenHash : string;
  h_actorEmail : string;
  h_reason : string;
  h_expiresAt : Z;
  h_usedAt : option Z;
  h_sessionId : option string;
}.

Definition SUPPORT_SESSION_MS : Z := 60 * 60000.
Definition SUPPORT_USER_EMAIL : string := "platform-support@captivo.local".
Definition SUPPORT_USER_NAME : string := "Captivo Support".

Record SupportDb := { s_auth : Auth; s_handoffs : list SupportHandoff; s_admin : AdminDb }.

Section support.
Context (sha256 : string → string).
Context (frac_text : Z → string) (digest : string → string) (json_store : json → json).

(** [None]: the account exists and is disabled. *)
Definition ensureSupportUser (newId : string) (us : list User) : option (list User * string) :=
  match find_row (λ u, u_email u =s SUPPORT_USER_EMAIL) us with
  | Some u => if bool_decide (u_status u = UActive) then Some (us, u_id u) else None
  | None =>
      Some (us ++ [{| u_id := newId; u_email := SUPPORT_USER_EMAIL; u_name := SUPPORT_USER_NAME;
                      u_company := None; u_phone := None; u_timezone := None; u_role := ADMIN; u_status := UActive; u_directoryManaged := true;
                      u_directoryLastVerifiedAt := None; u_centerRole := None |}], newId)
  end.

Definition use_handoff (now : Z) (sessionId : string) (h : SupportHandoff) : SupportHandoff :=
  {| h_id := h_id h; h_tokenHash := h_tokenHash h; h_actorEmail := h_actorEmail h; h_reason := h_reason h;
     h_expiresAt := h_expiresAt h; h_usedAt := Some now; h_sessionId := Some sessionId |}.

Record SupportReq := {
  sr_now : Z; sr_userId : string; sr_sessionId : string; sr_token : string; sr_auditId : string;
  sr_auditFails : bool; sr_userAgent : option string; sr_ip : option string;
}.

(** [startSupportSession]: [inl] is the error.  [between]: what other requests
    did to the hand-offs between the read and the conditional update. *)
Definition startSupportSession (between : list SupportHandoff → list SupportHandoff) (rq : SupportReq)
    (token : string) (db : SupportDb) : SupportDb * (string + string) :=
  match find_row (λ h, h_tokenHash h =s sha256 token) (s_handoffs db) with
  | None => (db, inl "invalid"%string)
  | Some h =>
      if negb (bool_decide (h_usedAt h = None)) then (db, inl "used"%string) else
      if h_expiresAt h <? sr_now rq then (db, inl "expired"%string) else
      match ensureSupportUser (sr_userId rq) (a_users (s_auth db)) with
      | None => (db, inl "support_user_disabled"%string)
      | Some (us, userId) =>
          let session :=
            {| se_id := sr_sessionId rq; se_userId := userId; se_tokenHash := sha256 (sr_token rq);
               se_expiresAt := sr_now rq + SUPPORT_SESSION_MS; se_createdAt := sr_now rq;
               se_lastSeenAt := sr_now rq; se_userAgent := sr_userAgent rq; se_ip := sr_ip rq;
               se_amr := []; se_mobile := false; se_mobileChallenge := None |} in
          let auth1 := {| a_users := us; a_sessions := a_sessions (s_auth db) ++ [session];
                          a_policy := a_policy (s_auth db) |} in
          let hs := between (s_handoffs db) in
          let p := λ x, (h_id x =s h_id h) && bool_decide (h_usedAt x = None) in
          if count_where p hs =? 0
          then ({| s_auth := with_sessions auth1 (delete_where (λ s, se_id s =s sr_sessionId rq) (a_sessions auth1));
                   s_handoffs := hs; s_admin := s_admin db |}, inl "used"%string)
          else
            ({| s_auth := auth1;
                s_handoffs := update_where p (use_handoff (sr_now rq) (sr_sessionId rq)) hs;
                s_admin := recordAdminAction frac_text digest json_store (sr_auditFails rq) (sr_auditId rq)
                  (sr_now rq) (s_admin db)
                  {| in_actor := {| actor_id := userId; actor_email := Some (h_actorEmail h) |};
                     in_action := "platform.support.session_start"; in_targetType := Some "tenant"%string;
                     in_targetId := None;
                     in_summary := "[Captivo platform] Support session started by " +:+ h_actorEmail h
                                     +:+ ": " +:+ h_reason h;
                     in_metadata := JObj [("platformActor", JStr (h_actorEmail h)); ("reason", JStr (h_reason h));
                       ("expiresAt", JStr (toISOString (se_expiresAt session)))]%string;
                     in_clientIp := None |} |}, inr (sr_token rq))
      end
  end.

Definition endSupportSession (rq : SupportReq) (cookie : option string) (db : SupportDb) : SupportDb * bool :=
  match cookie with
  | None => (db, false)
  | Some token =>
      if negb (truthy token) then (db, false) else
      match find_row (λ s, se_tokenHash s =s sha256 token) (a_sessions (s_auth db)) with
      | None => (db, false)
      | Some s =>
          let actor := h_actorEmail <$> find_row (λ h, bool_decide (h_sessionId h = Some (se_id s))) (s_handoffs db) in
          ({| s_auth := with_sessions (s_auth db) (delete_where (λ x, se_id x =s se_id s) (a_sessions (s_auth db)));
              s_handoffs := s_handoffs db;
              s_admin := recordAdminAction frac_text digest json_store (sr_auditFails rq) (sr_auditId rq)
                (sr_now rq) (s_admin db)
                {| in_actor := {| actor_id := se_userId s; actor_email := actor |};
                   in_action := "platform.support.session_end"; in_targetType := Some "tenant"%string;
                   in_targetId := None;
                   in_summary := "[Captivo platform] Support session ended (" +:+ (actor ?? "platform") +:+ ")";
                   in_metadata := JObj [("platformActor"%string,
                     match actor with Some e => JStr e | None => JUndefined end)];
                   in_clientIp := None |} |}, true)
      end
  end.
End support.

(** ** Invites *)

Record Invite := {
  inv_id : string;
  inv_email : string;
  inv_name : string;
  inv_phone : option string;
  inv_company : option string;
  inv_createdById : option string;
  inv_role : Role;
  inv_tokenHash : string;
  inv_expiresAt : Z;
  inv_usedAt : option Z;
}.

Section invites.
(** argon2 [hash] and [verify]. *)
Context (argon2hash : string → string) (argon2verify : string → string → bool).

Definition createInvite (ttlHours now : Z) (id token email name : string) (role : Role)
    (createdById phone company : option string) (invs : list Invite) : list Invite :=
  invs ++ [{| inv_id := id; inv_email := normalizeEmail email; inv_name := name; inv_phone := phone;
              inv_company := company; inv_createdById := createdById; inv_role := role;
              inv_tokenHash := argon2hash token; inv_expiresAt := now + ttlHours * 3600000; inv_usedAt := None |}].

(** The scan over the unused, unexpired invites. *)
Definition verifyInvite (now : Z) (token : string) (invs : list Invite) : option Invite :=
  find_row (λ i, argon2verify (inv_tokenHash i) token)
    (List.filter (λ i, bool_decide (inv_usedAt i = None) && (now <? inv_expiresAt i)) invs).
End invites.

(** ** Admin routes *)

(** [toInt] of the policy route. *)
Definition toInt (v : json) : option Z :=
  let n := match v with JNum n => n | JStr s => Number s | _ => NNaN end in
  if num_gt n 0 then num_floor n else None.

Section admin_routes.
Context (sha256 : string → string).
Context (frac_text : Z → string) (digest : string → string) (json_store : json → json).

Record ARq := {
  q_user : option User; q_now : Z; q_tenant : string; q_cookie : option string; q_auditId : string;
  q_auditFails : bool; q_clientIp : option string;
}.

Definition sessionPolicyPost (rq : ARq) (body : json) (a : Auth) (log : AdminDb)
    : Auth * AdminDb * response unit :=
  match q_user rq with
  | None => (a, log, Fail 401 "unauthorized")
  | Some me =>
      if negb (can (u_role me) configure) then (a, log, Fail 403 "forbidden") else
      let require2 := match obj_get body "requireSecondFactor" with JBool true => true | _ => false end in
      let own := currentSessionId sha256 (q_cookie rq) a ≫=
                 λ sid, find_row (λ s, se_id s =s sid) (a_sessions a) in
      if require2 && match own with Some s => negb (hasSecondFactor (se_amr s)) | None => true end
      then (a, log, Fail 409 "own_session_lacks_second_factor") else
      (with_policy a (saveSessionPolicy (q_tenant rq)
         {| idleTimeoutMinutes := toInt (obj_get body "idleTimeoutMinutes");
            maxSessionHours := toInt (obj_get body "maxSessionHours");
            maxConcurrentPerUser := toInt (obj_get body "maxConcurrentPerUser");
            requireSecondFactor := require2 |} (a_policy a)),
       recordAdminAction frac_text digest json_store (q_auditFails rq) (q_auditId rq) (q_now rq) log
         {| in_actor := {| actor_id := u_id me; actor_email := Some (u_email me) |};
            in_action := "config.session_policy_update"; in_targetType := None; in_targetId := None;
            in_summary := "Updated session policy (two-step verification " +:+
                            (if require2 then "required" else "not required") +:+ ")";
            in_metadata := JObj [("requireSecondFactor"%string, JBool require2)];
            in_clientIp := q_clientIp rq |}, Reply 200 tt)
  end.

Definition sessionsRevokePost (rq : ARq) (body : json) (a : Auth) (log : AdminDb)
    : Auth * AdminDb * response Z :=
  match q_user rq with
  | None => (a, log, Fail 401 "unauthorized")
  | Some me =>
      if negb (can (u_role me) configure) then (a, log, Fail 403 "forbidden") else
      let ids := match obj_get body "ids" with
                 | JArr l => omap (λ x, match x with JStr s => Some s | _ => None end) l
                 | _ => []
                 end in
      let toRevoke := sessionIdsToRevoke ids (currentSessionId sha256 (q_cookie rq) a) in
      match toRevoke with
      | [] => (a, log, Reply 200 0)
      | _ =>
          let p := λ s, bool_decide (se_id s ∈ toRevoke) in
          let n := count_where p (a_sessions a) in
          (with_sessions a (delete_where p (a_sessions a)),
           recordAdminAction frac_text digest json_store (q_auditFails rq) (q_auditId rq) (q_now rq) log
             {| in_actor := {| actor_id := u_id me; actor_email := Some (u_email me) |};
                in_action := "authsession.revoke"; in_targetType := Some "session"%string; in_targetId := None;
                in_summary := "Revoked " +:+ dec n +:+ " auth session" +:+ (if n =? 1 then "" else "s");
                in_metadata := JObj [("revoked"%string, JNum (NInt n))]; in_clientIp := q_clientIp rq |},
           Reply 200 n)
      end
  end.
End admin_routes.

(** ** Theorems: who a token is *)

Section gate.
Context (sha256 : string → string).
Implicit Types (a : Auth) (ss : list Session).

(** C18: what a console token proves.  It is let in only as an active user who
    owns an unexpired, non-app session with that token's hash, seen within the
    idle limit of the policy the call could read.  When it could not read one
    and has none cached, it enforces none, so no idle limit applies.  The call
    records the visit, unless that write failed: then the sessions are as they
    were and the person is let in all the same.  The same token is refused as an
    app bearer (hashes being unique), so neither kind of token stands in for the
    other. *)
Theorem getSessionUser_sound f tenantId now token a a' u :
  NoDup (se_tokenHash <$> a_sessions a) →
  getSessionUser sha256 f tenantId now token a = (a', Some u) →
  (∃ s, s ∈ a_sessions a ∧ se_tokenHash s = sha256 token ∧ now ≤ se_expiresAt s ∧ se_mobile s = false ∧
     u ∈ a_users a ∧ u_id u = se_userId s ∧ u_status u = UActive ∧
     idleExpired (se_lastSeenAt s) now
       (idleTimeoutMinutes (getSessionPolicy tenantId now (policyUnread f) (a_policy a)).2) = false ∧
     if visitUnsaved f then a_sessions a' = a_sessions a else set_lastSeen now s ∈ a_sessions a') ∧
  ∀ unsaved authorization, bearerToken authorization = Some token →
    (mobileSessionFromRequest sha256 unsaved now authorization a).2 = None.
Proof.
  intros Hnd Hg. unfold getSessionUser in Hg. destruct (negb (truthy token)); [done|].
  destruct (find_row _ (a_sessions a)) as [s|] eqn:Hs; [|done].
  apply find_row_Some in Hs as [Hin Hh]. apply bool_decide_eq_true_1 in Hh.
  destruct (Z.ltb_spec (se_expiresAt s) now); [done|]. destruct (se_mobile s) eqn:Hm; [done|].
  destruct (find_row _ (a_users a)) as [v|] eqn:Hv; [|done].
  apply find_row_Some in Hv as [Hvin Hvid]. apply bool_decide_eq_true_1 in Hvid.
  case_bool_decide as Hact; [cbn [negb] in Hg|done].
  destruct (getSessionPolicy tenantId now (policyUnread f) (a_policy a)) as [pst policy] eqn:Hp.
  destruct (idleExpired _ _ _) eqn:Hi; simplify_eq. split.
  - exists s. split_and!; try done. simpl. destruct (visitUnsaved f); cbn [negb andb].
    + by apply update_where_id.
    + apply elem_of_update_where. exists s. split; [done|]. by rewrite bool_decide_eq_true_2.
  - intros unsaved auth Hb. unfold mobileSessionFromRequest. rewrite Hb.
    destruct (find_row _ (a_sessions a)) as [s'|] eqn:Hs'; [|done].
    apply find_row_Some in Hs' as [Hin' Hp']. reflect_bool.
    rewrite (NoDup_fmap_eq se_tokenHash (a_sessions a) s s') in Hm; congruence.
Qed.

(** ** Theorems: the concurrent-session cap *)

Lemma filter_not_taken {A} (f : A → string) (l : list A) k :
  NoDup (map f l) → List.filter (λ x, negb (bool_decide (f x ∈ take k (map f l)))) l = drop k l.
Proof.
  revert k. induction l as [|x l IH]; intros k Hnd; [by destruct k|].
  simpl in Hnd. apply NoDup_cons in Hnd as [Hx Hnd]. destruct k as [|k].
  - simpl. f_equal. clear. induction l as [|y l IHl]; simpl; [done|by f_equal].
  - cbn [map take drop List.filter]. rewrite bool_decide_eq_true_2 by by left. cbn [negb].
    rewrite <-IH by done. apply List.filter_ext_in. intros y Hy%list_elem_of_In. f_equal.
    apply bool_decide_ext. rewrite elem_of_cons. split; [|by right]. intros [Heq|?]; [|done].
    destruct Hx. rewrite <-Heq. by apply list_elem_of_fmap_2.
Qed.

Lemma kept_live userId now c ss :
  NoDup (map se_id ss) → 0 < c →
  let active := order_by se_createdAt (List.filter (live_console userId now) ss) in
  count_where (live_console userId now)
    (delete_where (λ s, bool_decide (se_id s ∈ evictionIds (map se_id active) (Some c))) ss) ≤ c - 1.
Proof.
  intros Hnd Hc active. set (ev := evictionIds _ _).
  assert (active ≡ₚ List.filter (live_console userId now) ss) as Hp by apply merge_sort_Permutation.
  assert (count_where (live_console userId now) (delete_where (λ s, bool_decide (se_id s ∈ ev)) ss)
    = Z.of_nat (length (List.filter (λ s, negb (bool_decide (se_id s ∈ ev))) active))) as ->.
  { unfold count_where, delete_where. f_equal. rewrite (list_filter_Permutation _ _ _ Hp).
    rewrite <-!filter_andb. f_equal. apply List.filter_ext. intros s. apply andb_comm. }
  assert (NoDup (map se_id active)) as Hnd'.
  { change (NoDup (se_id <$> active)). rewrite Hp. by apply NoDup_filter_fmap. }
  unfold ev, evictionIds, positive. destruct (Z.ltb_spec 0 c); [|lia].
  rewrite length_map. destruct (Z.leb_spec (Z.of_nat (length active) - (c - 1)) 0).
  - etrans; [apply Nat2Z.inj_le, List.filter_length_le|]. lia.
  - rewrite filter_not_taken by done. rewrite length_drop. lia.
Qed.

(** Under a policy of at most [c] sessions per user, right after a sign-in
    the user holds at most [c] live console sessions, the new one among them:
    the oldest made room. *)
Theorem concurrent_cap_enforced unread tenantId envHours now id token userId meta a c :
  NoDup (map se_id (a_sessions a)) →
  maxConcurrentPerUser (getSessionPolicy tenantId now unread (a_policy a)).2 = Some c → 0 < c →
  let a' := createSession sha256 unread tenantId envHours now id token userId meta a in
  count_where (live_console userId now) (a_sessions a') ≤ c ∧
  ∃ s, s ∈ a_sessions a' ∧ se_tokenHash s = sha256 token ∧ se_userId s = userId ∧
    se_mobile s = false ∧ se_amr s = m_amr meta.
Proof.
  intros Hnd Hpol Hc. unfold createSession.
  destruct (getSessionPolicy tenantId now unread (a_policy a)) as [pst policy]. simpl in Hpol. rewrite Hpol.
  unfold positive at 1. destruct (Z.ltb_spec 0 c); [|lia]. cbn [a_sessions]. split.
  - pose proof (kept_live userId now c (a_sessions a) Hnd Hc) as Hk. simpl in Hk.
    unfold count_where in *. rewrite List.filter_app, length_app. simpl.
    destruct (live_console _ _ _); simpl; lia.
  - eexists. split; [apply elem_of_app; right; by left|]. done.
Qed.
End gate.

(** ** Theorems: the app's one-time code *)

Section codes.
Context (sha256 sha256_b64url : string → string).
Implicit Types (ss : list Session).

Definition redeem := redeemMobileCode sha256 sha256_b64url.

Lemma redeem_Some now token code verifier device ss ss' r :
  redeem (λ x, x) now token code verifier device ss = (ss', Some r) →
  ∃ c row challenge v, code = JStr c ∧ verifier = JStr v ∧ row ∈ ss ∧ se_tokenHash row = sha256 c ∧
    se_mobile row = true ∧ se_mobileChallenge row = Some challenge ∧ sha256_b64url v = challenge ∧
    now ≤ se_expiresAt row ∧ r = (token, se_userId row) ∧
    ss' = update_where (λ s, (se_id s =s se_id row) && (se_tokenHash s =s sha256 c))
            (redeemed now (sha256 token) device) ss.
Proof.
  unfold redeem, redeemMobileCode. intros Hr. destruct (negb (truthy _)) eqn:Ht; [done|].
  destruct code as [| | | |c| |]; try done. simpl in Hr.
  destruct (find_row _ ss) as [row|] eqn:Hf; [|done]. apply find_row_Some in Hf as [Hin Hp].
  destruct (se_mobileChallenge row) as [challenge|] eqn:Hc; [|done].
  destruct (negb (truthy challenge)); [done|].
  destruct (_ || _) eqn:Hb; [done|]. case_match; simplify_eq. reflect_bool.
  unfold pkceMatches in *. destruct verifier as [| | | |v| |]; try done. reflect_bool.
  exists c, row, challenge, v. split_and!; try done; lia.
Qed.

Lemma redeem_no_row between now token c verifier device ss :
  (∀ s, s ∈ ss → se_tokenHash s = sha256 c → se_mobileChallenge s = None) →
  redeem between now token (JStr c) verifier device ss = (ss, None).
Proof.
  intros Hno. unfold redeem, redeemMobileCode. simpl. destruct (negb _); [done|].
  destruct (find_row _ ss) as [row|] eqn:Hf; [|done]. apply find_row_Some in Hf as [Hin Hp].
  reflect_bool. naive_solver.
Qed.

(** A one-time code buys one bearer token.  A redemption that succeeds was
    made with the verifier of the code's own challenge, in time.  After it,
    every further redemption of the code fails; and one that read the code
    before it, and writes after it, fails too (the new token's hash being a
    different one). *)
Theorem mobile_code_single_use now token code verifier device ss ss' r :
  NoDup (se_tokenHash <$> ss) → sha256 token ≠ sha256 (str_or_empty code) →
  redeem (λ x, x) now token code verifier device ss = (ss', Some r) →
  (∃ row v, row ∈ ss ∧ verifier = JStr v ∧ se_mobileChallenge row = Some (sha256_b64url v) ∧
     now ≤ se_expiresAt row ∧ r = (token, se_userId row)) ∧
  ∀ between now2 token2 verifier2 device2,
    (redeem between now2 token2 code verifier2 device2 ss').2 = None ∧
    (redeem (λ _, ss') now2 token2 code verifier2 device2 ss).2 = None.
Proof.
  intros Hnd Htok Hr. apply redeem_Some in Hr as (c & row & challenge & v & -> & -> & Hin & Hh & Hm & Hc & Hv & He & -> & ->).
  simpl in Htok. split; [exists row, v; by subst|].
  intros between now2 token2 verifier2 device2. split.
  - rewrite redeem_no_row; [done|]. intros s (x & Hx & ->)%elem_of_update_where Hs.
    destruct (_ && _) eqn:Hp; [by simpl|]. exfalso.
    assert (x = row) as -> by (apply (NoDup_fmap_eq se_tokenHash ss); congruence).
    by rewrite Hh, !bool_decide_eq_true_2 in Hp.
  - unfold redeem, redeemMobileCode. simpl. destruct (negb _); [done|].
    destruct (find_row _ ss) as [row'|] eqn:Hf; [|done]. apply find_row_Some in Hf as [Hin' Hp']. reflect_bool.
    assert (row' = row) as -> by (apply (NoDup_fmap_eq se_tokenHash ss); congruence).
    rewrite Hc. destruct (negb _); [done|]. destruct (_ || _); [done|]. simpl.
    rewrite (proj2 (count_where_0 _ _)); [done|].
    intros s (x & Hx & ->)%elem_of_update_where. destruct ((se_id x =s se_id row) && _) eqn:Hp; [|done].
    simpl. rewrite (bool_decide_eq_false_2 (sha256 token = sha256 c)) by done. by rewrite andb_false_r.
Qed.
End codes.

(** ** Theorems: the hand-off cookie *)

Section cookie.
Context (hmac : string → string).
(** base64url has no dot. *)
Context (hmac_no_dot : ∀ s, sep_free dot (hmac s)).

Lemma split_three a b c :
  sep_free dot a → sep_free dot b → sep_free dot c →
  split dot (a +:+ "." +:+ b +:+ "." +:+ c) = [a; b; c].
Proof.
  intros Ha Hb Hc. unfold split, sep_free in *. rewrite !chars_append.
  change (chars ".") with [dot]. simpl. rewrite split_chars_app by done. simpl.
  rewrite split_chars_app, split_chars_free by done. simpl. by rewrite !unchars_chars.
Qed.

Lemma split_join_three v a b c : split dot v = [a; b; c] → v = a +:+ "." +:+ b +:+ "." +:+ c.
Proof.
  unfold split. intros Hs. apply (inj chars). rewrite !chars_append. change (chars ".") with [dot].
  rewrite <-(join_split_chars dot (chars v)). destruct (split_chars dot (chars v)) as [|w1 [|w2 [|w3 [|]]]]; try done.
  simpl in Hs. simplify_eq. by rewrite !chars_unchars.
Qed.

Lemma challenge_no_dot c : isPkceChallenge c = true → sep_free dot c.
Proof.
  unfold isPkceChallenge. intros [Hf _]%andb_true_iff Hin. rewrite forallb_forall in Hf.
  apply list_elem_of_In, Hf in Hin. by vm_compute in Hin.
Qed.

(** The hand-off cookie.  A signed challenge reads back, unchanged, until
    ten minutes after the second it was signed in and not after; and whatever
    reads back carries a valid MAC over exactly that challenge and an expiry
    that has not passed. *)
Theorem handoff_roundtrip challenge signedAt now v c :
  0 ≤ signedAt → isPkceChallenge challenge = true →
  (readHandoff hmac (Some (signHandoff hmac challenge signedAt)) now = Some challenge ↔
     now ≤ (signedAt / 1000 + HANDOFF_TTL_SEC) * 1000) ∧
  (readHandoff hmac (Some v) now = Some c →
     isPkceChallenge c = true ∧ ∃ e exp, Number exp = NInt e ∧ now ≤ e * 1000 ∧
       v = c +:+ "." +:+ exp +:+ "." +:+ mac hmac (c +:+ "." +:+ exp)).
Proof using hmac_no_dot.
  intros Hs Hch. split.
  - unfold readHandoff, signHandoff. set (e := signedAt / 1000 + HANDOFF_TTL_SEC).
    assert (0 ≤ e) as He by (unfold e, HANDOFF_TTL_SEC; Z.to_euclidean_division_equations; lia).
    rewrite !append_assoc_r.
    rewrite split_three; [|by apply challenge_no_dot|by apply dec_sep_free|apply hmac_no_dot].
    assert (truthy (challenge +:+ "." +:+ dec e +:+ "." +:+ mac hmac (challenge +:+ "." +:+ dec e)) = true) as ->.
    { unfold truthy. apply negb_true_iff, bool_decide_eq_false_2. by destruct challenge. }
    rewrite bool_decide_eq_true_2 by done. cbn [negb].
    assert (truthy (dec e) && forallb is_digit (chars (dec e)) = true) as ->.
    { apply andb_true_iff. split.
      - unfold truthy. apply negb_true_iff, bool_decide_eq_false_2. intros Hd.
        pose proof (Number_dec e He) as Hn. pose proof (dec_val e He) as Hv. rewrite Hd in Hv. simpl in Hv.
        rewrite <-Hv in Hd. by vm_compute in Hd.
      - apply forallb_forall. intros x Hx. pose proof (dec_digits e He) as Hd. rewrite Forall_forall in Hd.
        by apply Is_true_true, Hd, list_elem_of_In. }
    cbn [negb]. rewrite Number_dec by done. destruct (Z.ltb_spec (e * 1000) now).
    + split; [done|lia].
    + rewrite Hch. split; [lia|done].
  - unfold readHandoff. destruct (negb (truthy v)); [done|].
    destruct (split dot v) as [|a [|b [|d [|]]]] eqn:Hsp; try done.
    case_bool_decide as Hm; [cbn [negb]|done]. destruct (negb _); [done|].
    destruct (Number b) as [e| | | |] eqn:Hn; try done. destruct (Z.ltb_spec (e * 1000) now); [done|].
    destruct (isPkceChallenge a) eqn:Hp; [|done]. intros [= <-]. split; [done|].
    exists e, b. split_and!; [done|lia|]. rewrite Hm. by apply split_join_three.
Qed.
End cookie.

(** ** The policy cache is one slot for all tenants *)

(** For thirty seconds after one tenant's policy was read, every other tenant
    is given that policy, its second-factor requirement included. *)
Theorem policy_cache_leaks (t1 t2 : string) (p1 p2 : SessionPolicy) (now d : Z) (st : PolicyStore) :
  t1 ≠ t2 → policyRows st !! t1 = Some p1 → policyRows st !! t2 = Some p2 → policyCache st = None →
  0 ≤ d < 30000 →
  (getSessionPolicy t2 (now + d) false (getSessionPolicy t1 now false st).1).2 = p1.
Proof.
  intros Hne H1 H2 Hc Hd. unfold getSessionPolicy at 2. rewrite Hc, H1. simpl.
  unfold getSessionPolicy; simpl. by destruct (Z.ltb_spec (now + d - now) 30000); [|lia].
Qed.

(** ** Concrete runs *)

Definition tag (s : string) : string := "#" +:+ s.
Definition demo_session (id token : string) (created : Z) : Session :=
  {| se_id := id; se_userId := "u1"; se_tokenHash := tag token; se_expiresAt := 100000; se_createdAt := created;
     se_lastSeenAt := created; se_userAgent := None; se_ip := None; se_amr := []; se_mobile := false;
     se_mobileChallenge := None |}.
Definition demo_account : User :=
  {| u_id := "u1"; u_email := "u1@example.test"; u_name := "U"; u_company := None; u_phone := None; u_timezone := None; u_role := ADMIN;
     u_status := UActive; u_directoryManaged := false; u_directoryLastVerifiedAt := None; u_centerRole := None |}.
Definition two_sessions : PolicyStore :=
  {| policyRows := {["t1"%string := {| idleTimeoutMinutes := Some 15; maxSessionHours := None;
                              maxConcurrentPerUser := Some 2; requireSecondFactor := true |}]};
     policyCache := None |}.
Definition demo_auth : Auth :=
  {| a_users := [demo_account];
     a_sessions := [demo_session "a" "newer" 20; demo_session "b" "older" 10; demo_session "c" "newest" 30];
     a_policy := two_sessions |}.
Definition demo_session_meta : SessionMeta := {| m_userAgent := None; m_ip := None; m_amr := ["passkey"%string] |}.

Lemma getSessionUser_sound_witness :
  ∃ s, s ∈ a_sessions demo_auth ∧ se_tokenHash s = tag "older" ∧ se_mobile s = false.
Proof.
  destruct (getSessionUser_sound tag no_faults "t1" 1000 "older" demo_auth
    (getSessionUser tag no_faults "t1" 1000 "older" demo_auth).1 demo_account) as [(s & H1 & H2 & _ & H3 & _) _].
  - apply (bool_decide_unpack _). vm_compute. exact I.
  - vm_compute. reflexivity.
  - exists s. split; [exact H1|]. split; [exact H2|exact H3].
Defined.

Lemma concurrent_cap_enforced_witness :
  count_where (live_console "u1" 1000)
    (a_sessions (createSession tag false "t1" 12 1000 "d" "fresh" "u1" demo_session_meta demo_auth)) ≤ 2.
Proof.
  apply (concurrent_cap_enforced tag false "t1" 12 1000 "d" "fresh" "u1" demo_session_meta demo_auth 2).
  - apply (bool_decide_unpack _). vm_compute. exact I.
  - vm_compute. reflexivity.
  - lia.
Defined.
Example demo_evicted :
  map se_id (a_sessions (createSession tag false "t1" 12 1000 "d" "fresh" "u1" demo_session_meta demo_auth)) = ["c"; "d"]%string.
Proof. vm_compute. reflexivity. Qed.

Definition verifier43 : string := "abcdefghijklmnopqrstuvwxyz0123456789_-ABCDE".
Definition coded : list Session :=
  a_sessions (issueMobileCode tag 0 "m" "code" "u1" (tag verifier43) demo_session_meta demo_auth).
Lemma mobile_code_single_use_witness :
  (redeem tag tag (λ x, x) 2000 "token2" (JStr "code") (JStr verifier43) None
     (redeem tag tag (λ x, x) 1000 "token" (JStr "code") (JStr verifier43) None coded).1).2 = None.
Proof.
  destruct (mobile_code_single_use tag tag 1000 "token" (JStr "code") (JStr verifier43) None coded
    (redeem tag tag (λ x, x) 1000 "token" (JStr "code") (JStr verifier43) None coded).1
    ("token", "u1")%string) as [_ H].
  - apply (bool_decide_unpack _). vm_compute. exact I.
  - discriminate.
  - vm_compute. reflexivity.
  - apply (H (λ x, x) 2000 "token2"%string (JStr verifier43) None).
Defined.

Definition const_mac (_ : string) : string := "mac".
Lemma const_mac_no_dot s : sep_free dot (const_mac s).
Proof. apply (bool_decide_unpack _). vm_compute. exact I. Qed.
Lemma handoff_roundtrip_witness :
  readHandoff const_mac (Some (signHandoff const_mac verifier43 1500)) 601000 = Some verifier43 ↔
  601000 ≤ (1500 / 1000 + HANDOFF_TTL_SEC) * 1000.
Proof.
  apply (handoff_roundtrip const_mac const_mac_no_dot verifier43 1500 601000 "" "").
  - lia.
  - vm_compute. reflexivity.
Defined.
Lemma policy_cache_leaks_run :
  (getSessionPolicy "t2" 5000 false (getSessionPolicy "t1" 0 false two_sessions).1).2
  = {| idleTimeoutMinutes := Some 15; maxSessionHours := None; maxConcurrentPerUser := Some 2;
       requireSecondFactor := true |}.
Proof. vm_compute. reflexivity. Qed.
