(* ===== verification/Settings.v ===== *)
(** * Tenant settings (src/lib/settings/platform.ts)

    Operational settings per tenant, read through a 30-second cache keyed by
    tenant and resolved as database value, then environment, then default.
    The module's [cache] map is explicit state next to the rows; [env] stands
    for [process.env]. *)

From S2P Require Import Prelude JsString JsValue.

Record PlatformSettings := {
  auditRetentionDays : option Z;
  inviteTtlHours : option Z;
  notificationWebhookUrl : option string;
  vendorIpAllowlist : option string;
  maxGrantDays : option Z;
  recordingConsentRequired : option bool;
  watermarkDefault : option bool;
  clipboardDefault : option string;
  displayTimezone : option string;
  recordingRetentionDays : option Z;
  defaultConnectorLogLevel : option string;
  externalAnchorEnabled : option bool;
  anchorTsaUrl : option string;
  anchorTsaAuth : option string;
  notifySiteHealth : option bool;
  notifyAccessRequests : option bool;
  notifyAccessDecisions : option bool;
  requireRequestJustification : option bool;
  keystrokeLoggingMode : option string;
  recordingMode : option string;
}.

Definition EMPTY_SETTINGS : PlatformSettings :=
  {| auditRetentionDays := None; inviteTtlHours := None; notificationWebhookUrl := None;
     vendorIpAllowlist := None; maxGrantDays := None; recordingConsentRequired := None;
     watermarkDefault := None; clipboardDefault := None; displayTimezone := None;
     recordingRetentionDays := None; defaultConnectorLogLevel := None; externalAnchorEnabled := None;
     anchorTsaUrl := None; anchorTsaAuth := None; notifySiteHealth := None; notifyAccessRequests := None;
     notifyAccessDecisions := None; requireRequestJustification := None; keystrokeLoggingMode := None;
     recordingMode := None |}.

Definition set_displayTimezone (z : string) (s : PlatformSettings) : PlatformSettings :=
  {| auditRetentionDays := auditRetentionDays s; inviteTtlHours := inviteTtlHours s;
     notificationWebhookUrl := notificationWebhookUrl s; vendorIpAllowlist := vendorIpAllowlist s;
     maxGrantDays := maxGrantDays s; recordingConsentRequired := recordingConsentRequired s;
     watermarkDefault := watermarkDefault s; clipboardDefault := clipboardDefault s;
     displayTimezone := Some z; recordingRetentionDays := recordingRetentionDays s;
     defaultConnectorLogLevel := defaultConnectorLogLevel s; externalAnchorEnabled := externalAnchorEnabled s;
     anchorTsaUrl := anchorTsaUrl s; anchorTsaAuth := anchorTsaAuth s; notifySiteHealth := notifySiteHealth s;
     notifyAccessRequests := notifyAccessRequests s; notifyAccessDecisions := notifyAccessDecisions s;
     requireRequestJustification := requireRequestJustification s;
     keystrokeLoggingMode := keystrokeLoggingMode s; recordingMode := recordingMode s |}.

(** ** The keyed cache *)

Record SettingsStore := {
  settingsRows : gmap string PlatformSettings;
  settingsCache : gmap string (PlatformSettings * Z);
}.

Definition getPlatformSettings (tid : string) (now : Z) (dbError : bool) (st : SettingsStore)
    : SettingsStore * PlatformSettings :=
  match match settingsCache st !! tid with
        | Some (s, at_) => if now - at_ <? 30000 then Some s else None
        | None => None
        end with
  | Some s => (st, s)
  | None =>
      if dbError then (st, EMPTY_SETTINGS) else
      let s := settingsRows st !! tid ?? EMPTY_SETTINGS in
      ({| settingsRows := settingsRows st; settingsCache := <[tid := (s, now)]> (settingsCache st) |}, s)
  end.

Definition savePlatformSettings (tid : string) (input : PlatformSettings) (st : SettingsStore) : SettingsStore :=
  {| settingsRows := <[tid := input]> (settingsRows st); settingsCache := delete tid (settingsCache st) |}.

Definition saveDisplayTimezone (tid zone : string) (st : SettingsStore) : SettingsStore :=
  {| settingsRows := <[tid := set_displayTimezone zone (settingsRows st !! tid ?? EMPTY_SETTINGS)]> (settingsRows st);
     settingsCache := delete tid (settingsCache st) |}.

(** ** Resolved values *)

Section resolved.
Context (env : string → option string).

Definition envInt (name : string) : option jsnum :=
  let raw := trim (env name ?? "") in
  if negb (truthy raw) then None
  else let n := Number raw in if isFinite n && num_ge n 0 then Some n else None.

Definition db_or_env (v : option Z) (name : string) : option jsnum :=
  match v with Some z => Some (NInt z) | None => envInt name end.

Definition resolvedAuditRetentionDays (s : PlatformSettings) : jsnum :=
  match db_or_env (auditRetentionDays s) "AUDIT_RETENTION_DAYS" with
  | Some v => if num_ge v 0 then v else NInt 730
  | None => NInt 730
  end.
Definition resolvedInviteTtlHours (s : PlatformSettings) : jsnum :=
  match db_or_env (inviteTtlHours s) "INVITE_TTL_HOURS" with
  | Some v => if num_gt v 0 then v else NInt 48
  | None => NInt 48
  end.
Definition resolvedNotificationWebhookUrl (s : PlatformSettings) : string :=
  trim (match notificationWebhookUrl s with
        | Some u => u
        | None => env "NOTIFICATION_WEBHOOK_URL" ?? ""
        end).
Definition resolvedVendorIpAllowlist (s : PlatformSettings) : string := trim (vendorIpAllowlist s ?? "").
Definition resolvedMaxGrantDays (s : PlatformSettings) : Z :=
  match maxGrantDays s with Some d => if 0 <? d then d else 0 | None => 0 end.

(** [v === "1" || v === "true" || v === "on" || v === "yes"] on the trimmed,
    lower-cased variable. *)
Definition env_yes (name : string) : bool :=
  match env name with
  | Some raw => let v := toLowerCase (trim raw) in
                (v =s "1") || (v =s "true") || (v =s "on") || (v =s "yes")
  | None => false
  end.
Definition resolvedRecordingConsentRequired (s : PlatformSettings) : bool :=
  match recordingConsentRequired s with Some b => b | None => env_yes "RECORDING_CONSENT_REQUIRED" end.
Definition resolvedWatermarkDefault (s : PlatformSettings) : bool :=
  match watermarkDefault s with Some b => b | None => env_yes "WATERMARK_DEFAULT" end.

Definition one_of (v : option string) (allowed : list string) (fallback : string) : string :=
  match v with
  | Some x => if truthy x && bool_decide (x ∈ allowed) then x else fallback
  | None => fallback
  end.
Definition CLIPBOARD_MODES : list string := ["allow"; "no_copy"; "no_paste"; "none"]%string.
Definition coerceClipboardDefault (v : option string) : string := one_of v CLIPBOARD_MODES "allow".
Definition resolvedClipboardDefault (s : PlatformSettings) : string := coerceClipboardDefault (clipboardDefault s).

(** The platform's cap on recording retention, from the tenant's envelope. *)
Definition capRecordingRetention (max : option Z) (days : Z) : Z :=
  match max with
  | None => days
  | Some m => if days =? 0 then m else Z.min days m
  end.
Definition resolvedRecordingRetentionDays (max : option Z) (s : PlatformSettings) : Z :=
  capRecordingRetention max
    (match recordingRetentionDays s with Some d => if 0 <? d then d else 0 | None => 0 end).

Definition LOG_LEVELS : list string := ["debug"; "info"; "warn"; "error"]%string.
Definition resolvedDefaultConnectorLogLevel (s : PlatformSettings) : string :=
  one_of (defaultConnectorLogLevel s) LOG_LEVELS "info".
Definition resolvedConnectorLogLevel (own : option string) (s : PlatformSettings) : string :=
  one_of own LOG_LEVELS (resolvedDefaultConnectorLogLevel s).

Definition resolvedExternalAnchorEnabled (s : PlatformSettings) : bool :=
  bool_decide (externalAnchorEnabled s = Some true).
Definition resolvedRequireRequestJustification (s : PlatformSettings) : bool :=
  negb (bool_decide (requireRequestJustification s = Some false)).

Definition KEYSTROKE_MODES : list string := ["off"; "per_resource"; "required"]%string.
Definition resolvedKeystrokeLoggingMode (s : PlatformSettings) : string :=
  one_of (keystrokeLoggingMode s) KEYSTROKE_MODES "per_resource".

Definition RECORDING_MODES : list string := ["off"; "per_resource"; "required"]%string.
Definition resolvedRecordingMode (recordingAllowed : bool) (s : PlatformSettings) : string :=
  if negb recordingAllowed then "off" else
  one_of (recordingMode s) RECORDING_MODES
    (one_of ((λ v, toLowerCase (trim v)) <$> env "RECORDING_MODE") RECORDING_MODES "per_resource").

Definition resolvedAnchorTsaUrl (s : PlatformSettings) : string := trim (anchorTsaUrl s ?? "").
Definition resolvedAnchorTsaAuth (s : PlatformSettings) : string := trim (anchorTsaAuth s ?? "").
End resolved.

(** ** Theorems *)

(** What a process does with the module, for any tenants, in any order. *)
Inductive settings_op :=
  | OpRead (tid : string) (now : Z) (dbError : bool)
  | OpSave (tid : string) (input : PlatformSettings)
  | OpZone (tid zone : string).

Definition apply_op (st : SettingsStore) (op : settings_op) : SettingsStore :=
  match op with
  | OpRead tid now e => (getPlatformSettings tid now e st).1
  | OpSave tid input => savePlatformSettings tid input st
  | OpZone tid zone => saveDisplayTimezone tid zone st
  end.

(** The last settings a tenant saved, from the operations alone. *)
Definition saved_by (tid : string) (ops : list settings_op) (s0 : PlatformSettings) : PlatformSettings :=
  foldl (λ s op, match op with
                 | OpSave t input => if t =s tid then input else s
                 | OpZone t z => if t =s tid then set_displayTimezone z s else s
                 | OpRead _ _ _ => s
                 end) s0 ops.

(** A cached entry is its tenant's current row. *)
Definition coherent (st : SettingsStore) : Prop :=
  ∀ tid s at_, settingsCache st !! tid = Some (s, at_) → settingsRows st !! tid ?? EMPTY_SETTINGS = s.

Lemma read_coherent tid now e st : coherent st → coherent (getPlatformSettings tid now e st).1.
Proof.
  intros Hc. unfold getPlatformSettings. destruct (match settingsCache st !! tid with Some _ => _ | None => _ end); [done|].
  destruct e; [done|]. intros t s at_ Hl. simpl in *.
  apply lookup_insert_Some in Hl as [[-> Heq]|[_ Hl]]; [by simplify_eq|by eapply Hc].
Qed.
Lemma write_coherent tid s st :
  coherent st →
  coherent {| settingsRows := <[tid := s]> (settingsRows st); settingsCache := delete tid (settingsCache st) |}.
Proof.
  intros Hc t s' at_ Hl. simpl in *. apply lookup_delete_Some in Hl as [Hne Hl].
  rewrite lookup_insert_ne by done. by eapply Hc.
Qed.

Lemma apply_coherent st op : coherent st → coherent (apply_op st op).
Proof. intros Hc. destruct op; simpl; [by apply read_coherent|by apply write_coherent|by apply write_coherent]. Qed.

Lemma apply_row tid st op s0 :
  settingsRows st !! tid ?? EMPTY_SETTINGS = s0 →
  settingsRows (apply_op st op) !! tid ?? EMPTY_SETTINGS = saved_by tid [op] s0.
Proof.
  intros <-. destruct op as [t now e|t input|t z]; simpl.
  - unfold getPlatformSettings. by repeat case_match.
  - case_bool_decide; subst; [by rewrite lookup_insert_eq|by rewrite lookup_insert_ne].
  - case_bool_decide; subst; [by rewrite lookup_insert_eq|by rewrite lookup_insert_ne].
Qed.

Lemma apply_ops tid ops : ∀ st s0,
  coherent st → settingsRows st !! tid ?? EMPTY_SETTINGS = s0 →
  coherent (foldl apply_op st ops) ∧
  settingsRows (foldl apply_op st ops) !! tid ?? EMPTY_SETTINGS = saved_by tid ops s0.
Proof.
  induction ops as [|op ops IH]; intros st s0 Hc Hr; simpl; [done|].
  apply IH; [by apply apply_coherent|]. by apply apply_row.
Qed.

Lemma read_row tid now st :
  coherent st → (getPlatformSettings tid now false st).2 = settingsRows st !! tid ?? EMPTY_SETTINGS.
Proof.
  intros Hc. unfold getPlatformSettings. destruct (settingsCache st !! tid) as [[s at_]|] eqn:Hl; [|done].
  destruct (now - at_ <? 30000); [|done]. simpl. symmetry. by eapply Hc.
Qed.

(** Settings never cross tenants.  After any sequence of reads and saves
    by any tenants in one process, a tenant that reads its settings gets
    exactly what that tenant saved last, cached or not. *)
Theorem settings_isolated (ops : list settings_op) tid now :
  (getPlatformSettings tid now false
     (foldl apply_op {| settingsRows := ∅; settingsCache := ∅ |} ops)).2 = saved_by tid ops EMPTY_SETTINGS.
Proof.
  destruct (apply_ops tid ops {| settingsRows := ∅; settingsCache := ∅ |} EMPTY_SETTINGS) as [Hc Hr].
  - intros t s at_ Hl. simpl in Hl. by rewrite lookup_empty in Hl.
  - simpl. by rewrite lookup_empty.
  - by rewrite read_row.
Qed.

(** The resolved values are usable whatever the database row and the
    environment hold: retention is a finite, non-negative number of days (an
    empty or non-numeric variable never purges the log), an invite lives for a
    positive time, the grant cap is not negative, a platform cap bounds
    recording retention, and each mode is one of its known values. *)
Theorem resolved_bounds env s allowed :
  (isFinite (resolvedAuditRetentionDays env s) = true ∧ num_ge (resolvedAuditRetentionDays env s) 0 = true) ∧
  (isFinite (resolvedInviteTtlHours env s) = true ∧ num_gt (resolvedInviteTtlHours env s) 0 = true) ∧
  0 ≤ resolvedMaxGrantDays s ∧
  (∀ m, 0 < m → 0 < resolvedRecordingRetentionDays (Some m) s ≤ m) ∧
  resolvedClipboardDefault s ∈ CLIPBOARD_MODES ∧ resolvedDefaultConnectorLogLevel s ∈ LOG_LEVELS ∧
  resolvedKeystrokeLoggingMode s ∈ KEYSTROKE_MODES ∧ resolvedRecordingMode env allowed s ∈ RECORDING_MODES.
Proof.
  assert (∀ v l d, d ∈ l → one_of v l d ∈ l) as Hone.
  { intros v l d Hd. unfold one_of. destruct v as [x|]; [|done]. destruct (truthy x); [simpl|done].
    by case_bool_decide. }
  assert (∀ name n, envInt env name = Some n → isFinite n = true ∧ num_ge n 0 = true) as Henv.
  { intros name n. unfold envInt. destruct (negb _); [done|]. destruct (_ && _) eqn:Hb; [|done].
    intros [= <-]. by reflect_bool. }
  split_and!.
  - unfold resolvedAuditRetentionDays, db_or_env. destruct (auditRetentionDays s); [by case_match|].
    destruct (envInt env _) eqn:He; [|done]. apply Henv in He as [He _]. by case_match.
  - unfold resolvedAuditRetentionDays, db_or_env. destruct (auditRetentionDays s); [by case_match|].
    destruct (envInt env _) eqn:He; [|done]. by case_match.
  - unfold resolvedInviteTtlHours, db_or_env. destruct (inviteTtlHours s); [by case_match|].
    destruct (envInt env _) eqn:He; [|done]. apply Henv in He as [He _]. by case_match.
  - unfold resolvedInviteTtlHours, db_or_env. destruct (inviteTtlHours s); [by case_match|].
    destruct (envInt env _) eqn:He; [|done]. by case_match.
  - unfold resolvedMaxGrantDays. repeat case_match; reflect_bool; lia.
  - intros m Hm. unfold resolvedRecordingRetentionDays, capRecordingRetention.
    destruct (recordingRetentionDays s) as [d|]; [|simpl; lia].
    destruct (Z.ltb_spec 0 d); [|simpl; lia]. destruct (Z.eqb_spec d 0); lia.
  - apply Hone. set_solver.
  - apply Hone. set_solver.
  - apply Hone. set_solver.
  - unfold resolvedRecordingMode. destruct allowed; simpl; [|set_solver]. apply Hone, Hone. set_solver.
Qed.
