(* ===== verification/Gateway.v ===== *)
(** * Remote sessions: connection parameters and what is recorded

    The curated Guacamole parameters (src/lib/gateway/guac-params.ts): reading
    them from untrusted JSON, the tenant's defaults behind a resource's own
    values, and the arguments handed to guacd; the two directions of the
    clipboard (gateway/clipboard-caps.ts); and the decisions whether a session
    is recorded (recording/mode.ts, effective.ts) and its keystrokes logged
    (keystroke/policy.ts). *)

From S2P Require Import Prelude JsString JsValue Schema Settings.

(** ** Parameters *)

Record GuacParams := {
  serverLayout : option string;
  colorDepth : option Z;
  enableWallpaper : option bool;
  enableTheming : option bool;
  enableFontSmoothing : option bool;
  enableFullWindowDrag : option bool;
  enableFileTransfer : option bool;
  blockUpload : option bool;
  blockDownload : option bool;
  sftpRoot : option string;
  rdpSecurity : option string;
  disableAudio : option bool;
  enablePrinting : option bool;
  terminalFontSize : option Z;
  terminalColorScheme : option string;
  terminalScrollback : option Z;
}.

Definition SCHEMES : list string := ["gray-black"; "black-white"; "green-black"; "white-black"]%string.
Definition LAYOUTS : list string :=
  ["en-us-qwerty"; "en-gb-qwerty"; "tr-tr-qwerty"; "de-de-qwertz"; "de-ch-qwertz"; "fr-fr-azerty"; "fr-be-azerty";
   "fr-ch-qwertz"; "es-es-qwerty"; "es-latam-qwerty"; "it-it-qwerty"; "ja-jp-qwerty"; "pt-br-qwerty"; "sv-se-qwerty";
   "no-no-qwerty"; "hu-hu-qwertz"]%string.
Definition DEPTHS : list Z := [8; 16; 24].
Definition RDP_SECURITY : list string := ["any"; "nla"; "tls"; "rdp"]%string.

Definition member_of (set : list string) (v : json) : option string :=
  match v with JStr s => if bool_decide (s ∈ set) then Some s else None | _ => None end.
Definition as_bool (v : json) : option bool := match v with JBool b => Some b | _ => None end.
Definition read_depth (v : json) : option Z :=
  match v with JNum (NInt z) => if bool_decide (z ∈ DEPTHS) then Some z else None | _ => None end.
Definition is_control (c : Ascii.ascii) : bool := code c <? 32.
Definition read_root (v : json) : option string :=
  match v with
  | JStr s => let t := trim s in
              if startsWith "/" t && (js_length t <=? 1024) && negb (existsb is_control (chars t)) then Some t else None
  | _ => None
  end.
(** A number, or a text that is not blank converted to one, in a range. *)
Definition read_int (lo hi : Z) (v : json) : option Z :=
  let n := match v with
           | JStr s => if truthy (trim s) then Some (Number s) else None
           | JNum n => Some n
           | _ => None
           end in
  match n with Some (NInt z) => if (lo <=? z) && (z <=? hi) then Some z else None | _ => None end.

Definition parseGuacParams (o : json) : GuacParams :=
  {| serverLayout := member_of LAYOUTS (obj_get o "serverLayout");
     colorDepth := read_depth (obj_get o "colorDepth");
     enableWallpaper := as_bool (obj_get o "enableWallpaper");
     enableTheming := as_bool (obj_get o "enableTheming");
     enableFontSmoothing := as_bool (obj_get o "enableFontSmoothing");
     enableFullWindowDrag := as_bool (obj_get o "enableFullWindowDrag");
     enableFileTransfer := as_bool (obj_get o "enableFileTransfer");
     blockUpload := as_bool (obj_get o "blockUpload");
     blockDownload := as_bool (obj_get o "blockDownload");
     sftpRoot := read_root (obj_get o "sftpRoot");
     rdpSecurity := member_of RDP_SECURITY (obj_get o "rdpSecurity");
     disableAudio := as_bool (obj_get o "disableAudio");
     enablePrinting := as_bool (obj_get o "enablePrinting");
     terminalFontSize := read_int 8 32 (obj_get o "terminalFontSize");
     terminalColorScheme := member_of SCHEMES (obj_get o "terminalColorScheme");
     terminalScrollback := read_int 100 100000 (obj_get o "terminalScrollback") |}.

(** The object that is stored: the fields that are set. *)
Definition guac_fields (p : GuacParams) : list (string * option json) :=
  [("serverLayout", JStr <$> serverLayout p); ("colorDepth", (λ z, JNum (NInt z)) <$> colorDepth p);
   ("enableWallpaper", JBool <$> enableWallpaper p); ("enableTheming", JBool <$> enableTheming p);
   ("enableFontSmoothing", JBool <$> enableFontSmoothing p); ("enableFullWindowDrag", JBool <$> enableFullWindowDrag p);
   ("enableFileTransfer", JBool <$> enableFileTransfer p); ("blockUpload", JBool <$> blockUpload p);
   ("blockDownload", JBool <$> blockDownload p); ("disableAudio", JBool <$> disableAudio p);
   ("enablePrinting", JBool <$> enablePrinting p); ("sftpRoot", JStr <$> sftpRoot p);
   ("rdpSecurity", JStr <$> rdpSecurity p); ("terminalFontSize", (λ z, JNum (NInt z)) <$> terminalFontSize p);
   ("terminalColorScheme", JStr <$> terminalColorScheme p);
   ("terminalScrollback", (λ z, JNum (NInt z)) <$> terminalScrollback p)]%string.
Definition guac_json (p : GuacParams) : json := JObj (omap (λ f, pair f.1 <$> f.2) (guac_fields p)).

(** [a ?? b] on fields. *)
Definition or_policy {A} (resource policy : option A) : option A :=
  match resource with Some x => Some x | None => policy end.

Definition resolveGuacParams (r q : GuacParams) : GuacParams :=
  {| serverLayout := or_policy (serverLayout r) (serverLayout q);
     colorDepth := or_policy (colorDepth r) (colorDepth q);
     enableWallpaper := or_policy (enableWallpaper r) (enableWallpaper q);
     enableTheming := or_policy (enableTheming r) (enableTheming q);
     enableFontSmoothing := or_policy (enableFontSmoothing r) (enableFontSmoothing q);
     enableFullWindowDrag := or_policy (enableFullWindowDrag r) (enableFullWindowDrag q);
     enableFileTransfer := or_policy (enableFileTransfer r) (enableFileTransfer q);
     blockUpload := or_policy (blockUpload r) (blockUpload q);
     blockDownload := or_policy (blockDownload r) (blockDownload q);
     sftpRoot := or_policy (sftpRoot r) (sftpRoot q);
     rdpSecurity := or_policy (rdpSecurity r) (rdpSecurity q);
     disableAudio := or_policy (disableAudio r) (disableAudio q);
     enablePrinting := or_policy (enablePrinting r) (enablePrinting q);
     terminalFontSize := or_policy (terminalFontSize r) (terminalFontSize q);
     terminalColorScheme := or_policy (terminalColorScheme r) (terminalColorScheme q);
     terminalScrollback := or_policy (terminalScrollback r) (terminalScrollback q) |}.

(** ** Arguments of guacd *)

Inductive VaultProtocol := RDP | SSH | VNC.
#[global] Instance VaultProtocol_eq_dec : EqDecision VaultProtocol.
Proof. solve_decision. Defined.
Definition protocol_name (p : VaultProtocol) : string := match p with RDP => "RDP" | SSH => "SSH" | VNC => "VNC" end.

Definition sshHome (username : option string) : string :=
  match username with
  | Some u => if u =s "root" then "/root" else if truthy u then "/home/" +:+ u else "/"
  | None => "/"
  end.

Definition when {A} (b : bool) (l : list A) : list A := if b then l else [].
(** A field in a boolean position. *)
Definition on (o : option bool) : bool := o ?? false.
Definition text_arg (key : string) (o : option string) : list (string * string) :=
  match o with Some s => when (truthy s) [(key, s)] | None => [] end.
Definition int_arg (key : string) (o : option Z) : list (string * string) :=
  match o with Some z => when (negb (z =? 0)) [(key, dec z)] | None => [] end.
Definition flag (key : string) (b : bool) : list (string * string) := when b [(key, "true"%string)].

Definition no_copy_out (mode : string) : bool := (mode =s "no_copy") || (mode =s "none").
Definition no_paste_in (mode : string) : bool := (mode =s "no_paste") || (mode =s "none").

Definition display_args (p : GuacParams) : list (string * string) :=
  text_arg "server-layout" (serverLayout p) ++ int_arg "color-depth" (colorDepth p) ++
  flag "enable-wallpaper" (on (enableWallpaper p)) ++ flag "enable-theming" (on (enableTheming p)) ++
  flag "enable-font-smoothing" (on (enableFontSmoothing p)) ++
  flag "enable-full-window-drag" (on (enableFullWindowDrag p)).
Definition clipboard_args (mode : string) : list (string * string) :=
  flag "disable-copy" (no_copy_out mode) ++ flag "disable-paste" (no_paste_in mode).
Definition rdp_args (p : GuacParams) : list (string * string) :=
  text_arg "security" (rdpSecurity p) ++ flag "disable-audio" (on (disableAudio p)) ++
  when (on (enablePrinting p)) [("enable-printing", "true"); ("printer-name", "Captivo Printer")]%string.
Definition ssh_args (p : GuacParams) : list (string * string) :=
  int_arg "font-size" (terminalFontSize p) ++ text_arg "color-scheme" (terminalColorScheme p) ++
  int_arg "scrollback" (terminalScrollback p).
Definition drive_args (p : GuacParams) : list (string * string) :=
  [("enable-drive", "true"); ("create-drive-path", "true"); ("drive-name", "Captivo")]%string ++
  flag "disable-upload" (on (blockUpload p)) ++ flag "disable-download" (on (blockDownload p)).
Definition sftp_root (p : GuacParams) (username : option string) : string :=
  match sftpRoot p with Some s => if truthy (trim s) then trim s else sshHome username | None => sshHome username end.
Definition sftp_args (p : GuacParams) (username : option string) : list (string * string) :=
  [("enable-sftp", "true"); ("sftp-root-directory", sftp_root p username)]%string ++
  flag "sftp-disable-upload" (on (blockUpload p)) ++ flag "sftp-disable-download" (on (blockDownload p)).

Definition toGuacArgs (p : GuacParams) (clipboardMode : string) (protocol : VaultProtocol) (username : option string)
    : list (string * string) :=
  display_args p ++ clipboard_args clipboardMode ++
  when (bool_decide (protocol = RDP)) (rdp_args p) ++ when (bool_decide (protocol = SSH)) (ssh_args p) ++
  when (on (enableFileTransfer p))
    (when (bool_decide (protocol = RDP)) (drive_args p) ++ when (bool_decide (protocol = SSH)) (sftp_args p username)).

(** What the browser client allows itself. *)
Record ClipboardCaps := { allowCopyOut : bool; allowPasteIn : bool }.
Definition clipboardCaps (mode : string) : ClipboardCaps :=
  {| allowCopyOut := negb (mode =s "no_copy") && negb (mode =s "none");
     allowPasteIn := negb (mode =s "no_paste") && negb (mode =s "none") |}.

(** ** Recording *)

Definition effectiveRecordSessions (mode : string) (siteToggle : bool) : bool :=
  if mode =s "off" then false else if mode =s "required" then true else siteToggle.
Definition recordToggleLock (mode : string) : bool * option bool :=
  if mode =s "required" then (true, Some true) else if mode =s "off" then (true, Some false) else (false, None).
(** [effectiveSiteRecording]: the deployment's switch and the tenant's mode. *)
Definition effectiveSiteRecording (recordingEnabled : bool) (mode : string) (recordSessions : bool) : bool :=
  recordingEnabled && effectiveRecordSessions mode recordSessions.
Definition effectiveKeystrokeLogging (mode : string) (recordingEnabled recordSessions siteFlag : bool) : bool :=
  if negb (recordingEnabled && recordSessions) then false else
  if mode =s "off" then false else if mode =s "required" then true else siteFlag.

(** ** Theorems: reading and storing parameters *)

Section members.
Implicit Types (fs : list (string * option json)) (k : string).

Definition members fs : json := JObj (omap (λ f, pair f.1 <$> f.2) fs).

Lemma obj_get_cons k x v l :
  obj_get (JObj ((x, v) :: l)) k = if decide (x = k) then v else obj_get (JObj l) k.
Proof.
  unfold obj_get. cbn [list_find]. destruct (decide (x = k)) as [->|Hne].
  - rewrite decide_True by done. done.
  - rewrite decide_False by done. by destruct (list_find _ l) as [[? [? ?]]|].
Qed.

#[local] Arguments obj_get : simpl never.

(** Reading a member of the object built from distinct optional members. *)
Lemma obj_get_members fs k v : NoDup fs.*1 → (k, v) ∈ fs → obj_get (members fs) k = v ?? JUndefined.
Proof.
  unfold members. induction fs as [|[x w] fs IH]; intros Hnd Hin; [by apply elem_of_nil in Hin|].
  rewrite fmap_cons in Hnd. apply NoDup_cons in Hnd as [Hx Hnd]. apply elem_of_cons in Hin as [[= -> ->]|Hin].
  - cbn [omap list_omap fst snd]. destruct w as [w|]; cbn.
    + unfold obj_get. cbn. by rewrite decide_True.
    + assert (∀ fs', x ∉ fs'.*1 → obj_get (JObj (omap (λ f, pair f.1 <$> f.2) fs')) x = JUndefined) as Hno.
      { clear. induction fs' as [|[y [w|]] fs' IH]; intros H; cbn in *; [done| |set_solver].
        rewrite obj_get_cons. rewrite decide_False by set_solver. apply IH. set_solver. }
      apply Hno, Hx.
  - assert (x ≠ k) as Hne. { intros ->. apply Hx. by apply (list_elem_of_fmap_2 fst) in Hin. }
    cbn [omap list_omap fst snd]. destruct w as [w|]; cbn; [rewrite obj_get_cons, decide_False by done|]; by apply IH.
Qed.
End members.

(** A set of parameters within the curated values. *)
Record wf_guac (p : GuacParams) : Prop := {
  wg_layout : ∀ s, serverLayout p = Some s → s ∈ LAYOUTS;
  wg_depth : ∀ z, colorDepth p = Some z → z ∈ DEPTHS;
  wg_root : ∀ s, sftpRoot p = Some s →
    trim s = s ∧ startsWith "/" s = true ∧ js_length s ≤ 1024 ∧ existsb is_control (chars s) = false;
  wg_security : ∀ s, rdpSecurity p = Some s → s ∈ RDP_SECURITY;
  wg_font : ∀ z, terminalFontSize p = Some z → 8 ≤ z ≤ 32;
  wg_scheme : ∀ s, terminalColorScheme p = Some s → s ∈ SCHEMES;
  wg_scrollback : ∀ z, terminalScrollback p = Some z → 100 ≤ z ≤ 100000;
}.

Lemma member_of_Some set v s : member_of set v = Some s → s ∈ set.
Proof. destruct v; cbn; try done. by case_bool_decide; intros [= <-]. Qed.
Lemma read_int_Some lo hi v z : read_int lo hi v = Some z → lo ≤ z ≤ hi.
Proof.
  unfold read_int. destruct (match v with JStr s => _ | JNum n => _ | _ => _ end) as [[]|]; try done.
  destruct (_ && _) eqn:E; [|done]. intros [= <-]. reflect_bool. lia.
Qed.

Lemma parse_wf o : wf_guac (parseGuacParams o).
Proof.
  split; cbn; eauto using member_of_Some, read_int_Some.
  - intros z. destruct (obj_get o "colorDepth") as [| | |[]| | |]; cbn; try done. by case_bool_decide; intros [= <-].
  - intros s. destruct (obj_get o "sftpRoot") as [| | | |t| |]; cbn; try done.
    destruct (_ && _) eqn:E; [|done]. intros [= <-]. reflect_bool. split_and!; [apply trim_idemp|done|done|done].
Qed.

Lemma resolve_wf r q : wf_guac r → wf_guac q → wf_guac (resolveGuacParams r q).
Proof.
  intros [R1 R2 R3 R4 R5 R6 R7] [Q1 Q2 Q3 Q4 Q5 Q6 Q7].
  split; cbn; intros x; unfold or_policy; case_match; simplify_eq; intros ?; simplify_eq; eauto.
Qed.

Lemma guac_fields_NoDup p : NoDup (guac_fields p).*1.
Proof. apply (bool_decide_unpack _). by vm_compute. Qed.

Lemma as_bool_back o : as_bool ((JBool <$> o) ?? JUndefined) = o.
Proof. by destruct o. Qed.
Lemma member_of_back set o : (∀ s, o = Some s → s ∈ set) → member_of set ((JStr <$> o) ?? JUndefined) = o.
Proof. destruct o as [s|]; intros H; cbn; [|done]. by rewrite bool_decide_eq_true_2 by auto. Qed.
Lemma read_depth_back o : (∀ z, o = Some z → z ∈ DEPTHS) → read_depth (((λ z, JNum (NInt z)) <$> o) ?? JUndefined) = o.
Proof. destruct o as [s|]; intros H; cbn; [|done]. by rewrite bool_decide_eq_true_2 by auto. Qed.
Lemma read_int_back lo hi o :
  (∀ z, o = Some z → lo ≤ z ≤ hi) → read_int lo hi (((λ z, JNum (NInt z)) <$> o) ?? JUndefined) = o.
Proof.
  destruct o as [z|]; intros H; cbn; [|done]. unfold read_int. specialize (H z eq_refl).
  destruct (Z.leb_spec lo z), (Z.leb_spec z hi); [done|lia..].
Qed.
Lemma read_root_back o :
  (∀ s, o = Some s → trim s = s ∧ startsWith "/" s = true ∧ js_length s ≤ 1024 ∧ existsb is_control (chars s) = false) →
  read_root ((JStr <$> o) ?? JUndefined) = o.
Proof.
  destruct o as [s|]; intros H; [|done]. destruct (H s eq_refl) as (H1 & H2 & H3 & H4).
  change (read_root (JStr s) = Some s). unfold read_root. rewrite H1. apply Z.leb_le in H3. by rewrite H2, H3, H4.
Qed.

Lemma parse_stored p : wf_guac p → parseGuacParams (guac_json p) = p.
Proof.
  intros [W1 W2 W3 W4 W5 W6 W7].
  pose proof (λ k v, obj_get_members (guac_fields p) k v (guac_fields_NoDup p)) as Hget.
  change (members (guac_fields p)) with (guac_json p) in Hget. unfold parseGuacParams.
  repeat (erewrite Hget by (unfold guac_fields; repeat first [apply list_elem_of_here|apply list_elem_of_further])).
  rewrite !as_bool_back, !member_of_back, read_depth_back, read_root_back, !read_int_back by done.
  by destruct p.
Qed.

(** Reading connection parameters keeps only curated values whatever the
    request holds, resource over policy stays curated, and what is stored reads
    back as itself: nothing the console accepted is lost or widened later. *)
Theorem guac_params_roundtrip (p q : GuacParams) (o : json) :
  wf_guac (parseGuacParams o) ∧ (wf_guac p → wf_guac q → wf_guac (resolveGuacParams p q)) ∧
  (wf_guac p → parseGuacParams (guac_json p) = p).
Proof. split; [apply parse_wf|]. split; [apply resolve_wf|apply parse_stored]. Qed.

(** ** Theorems: arguments of guacd *)

Lemma elem_of_when {A} (b : bool) (l : list A) x : x ∈ when b l ↔ b = true ∧ x ∈ l.
Proof. destruct b; cbn; [naive_solver|]. rewrite elem_of_nil. naive_solver. Qed.
Lemma elem_of_flag k b x v : (k, v) ∈ flag x b ↔ k = x ∧ v = "true"%string ∧ b = true.
Proof. unfold flag. rewrite elem_of_when, list_elem_of_singleton. naive_solver. Qed.

(** Every argument name, in the order they are added. *)
Definition DISPLAY_KEYS : list string :=
  ["server-layout"; "color-depth"; "enable-wallpaper"; "enable-theming"; "enable-font-smoothing";
   "enable-full-window-drag"]%string.
Definition CLIPBOARD_KEYS : list string := ["disable-copy"; "disable-paste"]%string.
Definition RDP_KEYS : list string := ["security"; "disable-audio"; "enable-printing"; "printer-name"]%string.
Definition SSH_KEYS : list string := ["font-size"; "color-scheme"; "scrollback"]%string.
Definition DRIVE_KEYS : list string :=
  ["enable-drive"; "create-drive-path"; "drive-name"; "disable-upload"; "disable-download"]%string.
Definition SFTP_KEYS : list string :=
  ["enable-sftp"; "sftp-root-directory"; "sftp-disable-upload"; "sftp-disable-download"]%string.
Definition GUACD_KEYS : list string :=
  DISPLAY_KEYS ++ CLIPBOARD_KEYS ++ RDP_KEYS ++ SSH_KEYS ++ DRIVE_KEYS ++ SFTP_KEYS.

Lemma when_sublist {A B} (f : A → B) b l keys : (f <$> l) `sublist_of` keys → (f <$> when b l) `sublist_of` keys.
Proof. destruct b; [done|]. intros _. apply sublist_nil_l. Qed.
Lemma flag_sublist k b : ((flag k b).*1) `sublist_of` [k].
Proof. unfold flag. by apply when_sublist. Qed.
Lemma text_arg_sublist k o : ((text_arg k o).*1) `sublist_of` [k].
Proof. destruct o; cbn; [by apply when_sublist|apply sublist_nil_l]. Qed.
Lemma int_arg_sublist k o : ((int_arg k o).*1) `sublist_of` [k].
Proof. destruct o; cbn; [by apply when_sublist|apply sublist_nil_l]. Qed.
Lemma chunk_sublist {A B} (f : A → B) l l' ks ks' :
  (f <$> l) `sublist_of` ks → (f <$> l') `sublist_of` ks' → (f <$> l ++ l') `sublist_of` (ks ++ ks').
Proof. intros. rewrite fmap_app. by apply sublist_app. Qed.

(** Cuts a list of arguments along the list of names. *)
Ltac chunk k := match k with
  | [] => idtac
  | ?x :: ?k' => apply (chunk_sublist fst _ _ [x] k'); [first [apply flag_sublist|apply text_arg_sublist|apply int_arg_sublist]|]
  end.
Ltac chunks := repeat match goal with
  | |- (fst <$> _ ++ _) `sublist_of` ?k => chunk k
  end.

Lemma display_keys p : (display_args p).*1 `sublist_of` DISPLAY_KEYS.
Proof. unfold display_args, DISPLAY_KEYS. chunks. apply flag_sublist. Qed.
Lemma clipboard_keys m : (clipboard_args m).*1 `sublist_of` CLIPBOARD_KEYS.
Proof. unfold clipboard_args, CLIPBOARD_KEYS. chunks. apply flag_sublist. Qed.
Lemma rdp_keys p : (rdp_args p).*1 `sublist_of` RDP_KEYS.
Proof. unfold rdp_args, RDP_KEYS. chunks. by apply when_sublist. Qed.
Lemma ssh_keys p : (ssh_args p).*1 `sublist_of` SSH_KEYS.
Proof. unfold ssh_args, SSH_KEYS. chunks. apply int_arg_sublist. Qed.
Lemma drive_keys p : (drive_args p).*1 `sublist_of` DRIVE_KEYS.
Proof.
  unfold drive_args. apply (chunk_sublist fst _ _ ["enable-drive"; "create-drive-path"; "drive-name"]%string
    ["disable-upload"; "disable-download"]%string); [done|]. chunks. apply flag_sublist.
Qed.
Lemma sftp_keys p u : (sftp_args p u).*1 `sublist_of` SFTP_KEYS.
Proof.
  unfold sftp_args. apply (chunk_sublist fst _ _ ["enable-sftp"; "sftp-root-directory"]%string
    ["sftp-disable-upload"; "sftp-disable-download"]%string); [done|]. chunks. apply flag_sublist.
Qed.

Lemma args_keys p m proto u : (toGuacArgs p m proto u).*1 `sublist_of` GUACD_KEYS.
Proof.
  unfold toGuacArgs, GUACD_KEYS. apply chunk_sublist; [apply display_keys|].
  apply chunk_sublist; [apply clipboard_keys|]. apply chunk_sublist; [apply when_sublist, rdp_keys|].
  apply chunk_sublist; [apply when_sublist, ssh_keys|]. apply when_sublist.
  apply chunk_sublist; apply when_sublist; [apply drive_keys|apply sftp_keys].
Qed.

(** An argument of one group comes from that group. *)
Lemma key_of_group {A} (l : list (string * A)) keys k v : l.*1 `sublist_of` keys → (k, v) ∈ l → k ∈ keys.
Proof. intros Hs Hin. eapply elem_of_sublist; [|done]. by apply (list_elem_of_fmap_2 fst) in Hin. Qed.

Lemma args_of_group p m proto u k v :
  (k, v) ∈ toGuacArgs p m proto u ↔
  (k ∈ DISPLAY_KEYS ∧ (k, v) ∈ display_args p) ∨ (k ∈ CLIPBOARD_KEYS ∧ (k, v) ∈ clipboard_args m) ∨
  (k ∈ RDP_KEYS ∧ proto = RDP ∧ (k, v) ∈ rdp_args p) ∨ (k ∈ SSH_KEYS ∧ proto = SSH ∧ (k, v) ∈ ssh_args p) ∨
  (on (enableFileTransfer p) = true ∧
     ((k ∈ DRIVE_KEYS ∧ proto = RDP ∧ (k, v) ∈ drive_args p) ∨ (k ∈ SFTP_KEYS ∧ proto = SSH ∧ (k, v) ∈ sftp_args p u))).
Proof.
  unfold toGuacArgs. rewrite !elem_of_app, !elem_of_when, !elem_of_app, !elem_of_when, !bool_decide_eq_true.
  pose proof (key_of_group _ _ k v (display_keys p)) as K1. pose proof (key_of_group _ _ k v (clipboard_keys m)) as K2.
  pose proof (key_of_group _ _ k v (rdp_keys p)) as K3. pose proof (key_of_group _ _ k v (ssh_keys p)) as K4.
  pose proof (key_of_group _ _ k v (drive_keys p)) as K5. pose proof (key_of_group _ _ k v (sftp_keys p u)) as K6.
  tauto.
Qed.

(** A name decides the groups it is in by computation. *)
Ltac which_group := rewrite args_of_group; repeat match goal with
  | |- context [?k ∈ ?ks] => match ks with DISPLAY_KEYS => idtac | CLIPBOARD_KEYS => idtac | RDP_KEYS => idtac
      | SSH_KEYS => idtac | DRIVE_KEYS => idtac | SFTP_KEYS => idtac end;
      let H := fresh in
      first [ assert (k ∈ ks ↔ True) as H by (split; [done|]; intros _; apply (bool_decide_unpack _); vm_compute; exact I)
            | assert (k ∈ ks ↔ False) as H by (split; [|done]; apply (bool_decide_unpack (¬ k ∈ ks)); vm_compute; exact I) ];
      rewrite H; clear H
  end.

Lemma copy_arg p m proto u v :
  ("disable-copy"%string, v) ∈ toGuacArgs p m proto u ↔ v = "true"%string ∧ no_copy_out m = true.
Proof. which_group. unfold clipboard_args. rewrite elem_of_app, !elem_of_flag. naive_solver. Qed.
Lemma paste_arg p m proto u v :
  ("disable-paste"%string, v) ∈ toGuacArgs p m proto u ↔ v = "true"%string ∧ no_paste_in m = true.
Proof. which_group. unfold clipboard_args. rewrite elem_of_app, !elem_of_flag. naive_solver. Qed.

Lemma drive_arg p m proto u :
  ("enable-drive", "true")%string ∈ toGuacArgs p m proto u ↔ on (enableFileTransfer p) = true ∧ proto = RDP.
Proof. which_group. unfold drive_args. rewrite !elem_of_app, !elem_of_flag, elem_of_cons. naive_solver. Qed.
Lemma sftp_arg p m proto u :
  ("enable-sftp", "true")%string ∈ toGuacArgs p m proto u ↔ on (enableFileTransfer p) = true ∧ proto = SSH.
Proof. which_group. unfold sftp_args. rewrite !elem_of_app, !elem_of_flag, elem_of_cons. naive_solver. Qed.

Definition upload_blocked (proto : VaultProtocol) : string :=
  match proto with SSH => "sftp-disable-upload" | _ => "disable-upload" end.
Definition download_blocked (proto : VaultProtocol) : string :=
  match proto with SSH => "sftp-disable-download" | _ => "disable-download" end.

Lemma block_args p m proto u :
  on (enableFileTransfer p) = true → proto ≠ VNC →
  ((upload_blocked proto, "true"%string) ∈ toGuacArgs p m proto u ↔ on (blockUpload p) = true) ∧
  ((download_blocked proto, "true"%string) ∈ toGuacArgs p m proto u ↔ on (blockDownload p) = true).
Proof.
  intros Hft Hv. destruct proto; [| |done]; cbn [upload_blocked download_blocked]; split; which_group;
    unfold drive_args, sftp_args; rewrite !elem_of_app, !elem_of_flag, ?elem_of_cons, elem_of_nil; naive_solver.
Qed.

(** What guacd is told.  Each argument is given once and is one of the known
    ones; the clipboard directions are cut exactly as the resource's mode says,
    which is also what the browser client allows itself; a file channel is open
    exactly when file transfer is on and the protocol has one, and then each
    direction is blocked exactly when the parameters block it. *)
Theorem guac_args_sound p mode proto user :
  let args := toGuacArgs p mode proto user in
  NoDup args.*1 ∧ (∀ k v, (k, v) ∈ args → k ∈ GUACD_KEYS) ∧
  (allowCopyOut (clipboardCaps mode) = true ↔ "disable-copy"%string ∉ args.*1) ∧
  (allowPasteIn (clipboardCaps mode) = true ↔ "disable-paste"%string ∉ args.*1) ∧
  ((("enable-drive", "true")%string ∈ args ∨ ("enable-sftp", "true")%string ∈ args) ↔
     enableFileTransfer p = Some true ∧ proto ≠ VNC) ∧
  (enableFileTransfer p = Some true → proto ≠ VNC →
     ((upload_blocked proto, "true"%string) ∈ args ↔ blockUpload p = Some true) ∧
     ((download_blocked proto, "true"%string) ∈ args ↔ blockDownload p = Some true)).
Proof.
  intros args. assert (∀ o, on o = true ↔ o = Some true) as Hon by (intros [[]|]; split; by intros).
  split_and!.
  - eapply sublist_NoDup; [|apply args_keys]. apply (bool_decide_unpack _). by vm_compute.
  - intros k v Hin. by eapply key_of_group; [apply args_keys|].
  - rewrite list_elem_of_fmap. unfold clipboardCaps. cbn [allowCopyOut]. rewrite <-negb_orb, negb_true_iff. split.
    + intros Hm ([k v] & Hk & Hin). cbn in Hk. subst k. apply copy_arg in Hin as [_ Hin]. unfold no_copy_out in Hin. congruence.
    + intros Hno. apply not_true_iff_false. intros Hm. apply Hno. exists ("disable-copy", "true")%string.
      split; [done|]. by apply copy_arg.
  - rewrite list_elem_of_fmap. unfold clipboardCaps. cbn [allowPasteIn]. rewrite <-negb_orb, negb_true_iff. split.
    + intros Hm ([k v] & Hk & Hin). cbn in Hk. subst k. apply paste_arg in Hin as [_ Hin]. unfold no_paste_in in Hin. congruence.
    + intros Hno. apply not_true_iff_false. intros Hm. apply Hno. exists ("disable-paste", "true")%string.
      split; [done|]. by apply paste_arg.
  - unfold args. rewrite drive_arg, sftp_arg, Hon. destruct proto; naive_solver.
  - intros Hft%Hon Hv. rewrite <-!Hon. by apply block_args.
Qed.

(** ** Concrete runs *)

Definition demo_guac : GuacParams :=
  parseGuacParams (JObj [("serverLayout", JStr "tr-tr-qwerty"); ("colorDepth", JNum (NInt 15)); ("evil", JStr "x");
    ("enableFileTransfer", JBool true); ("blockUpload", JBool true); ("sftpRoot", JStr " /srv ");
    ("terminalFontSize", JStr "14")]%string).
Example demo_guac_args :
  toGuacArgs demo_guac "no_copy" SSH (Some "root"%string) =
  [("server-layout", "tr-tr-qwerty"); ("disable-copy", "true"); ("font-size", "14"); ("enable-sftp", "true");
   ("sftp-root-directory", "/srv"); ("sftp-disable-upload", "true")]%string.
Proof. vm_compute. reflexivity. Qed.

Lemma guac_params_roundtrip_witness : parseGuacParams (guac_json demo_guac) = demo_guac ∧ colorDepth demo_guac = None.
Proof.
  split; [|vm_compute; reflexivity].
  destruct (guac_params_roundtrip demo_guac demo_guac JNull) as (_ & _ & H). apply H. apply parse_wf.
Defined.

Lemma guac_args_sound_witness :
  ("sftp-disable-upload", "true")%string ∈ toGuacArgs demo_guac "no_copy" SSH (Some "root"%string).
Proof.
  destruct (guac_args_sound demo_guac "no_copy" SSH (Some "root"%string)) as (_ & _ & _ & _ & _ & H).
  destruct H as [H _]; [vm_compute; reflexivity|discriminate|]. apply H. vm_compute. reflexivity.
Defined.
