(* ===== verification/RateLimit.v ===== *)
(** * The in-memory rate limiter (src/lib/rate-limit.ts)

    A fixed-window counter per key with a sweep of expired entries at most
    once a second.  [hits] and [lastSweep] are the module's variables. *)

From S2P Require Import Prelude.

Record Limiter := { hits : gmap string (Z * Z); lastSweep : Z }.

(** [sweep]: drop the entries whose window ended. *)
Definition sweep (now : Z) (l : Limiter) : Limiter :=
  if now - lastSweep l <? 1000 then l
  else {| hits := filter (λ kv, ¬ (kv.2.2 < now)) (hits l); lastSweep := now |}.

(** The entry part of [checkRateLimit], after the sweep. *)
Definition hit (now : Z) (key : string) (limit windowMs : Z) (m : gmap string (Z * Z))
    : gmap string (Z * Z) * bool :=
  match m !! key with
  | Some (count, reset) =>
      if reset <? now then (<[key := (1, now + windowMs)]> m, true)
      else if limit <=? count then (m, false)
      else (<[key := (count + 1, reset)]> m, true)
  | None => (<[key := (1, now + windowMs)]> m, true)
  end.

Definition checkRateLimit (now : Z) (key : string) (limit windowMs : Z) (l : Limiter) : Limiter * bool :=
  let l1 := sweep now l in
  let '(m, ok) := hit now key limit windowMs (hits l1) in
  ({| hits := m; lastSweep := lastSweep l1 |}, ok).

(** ** Runs *)

Record rcall := { c_now : Z; c_key : string; c_limit : Z; c_window : Z }.

Fixpoint answers (l : Limiter) (cs : list rcall) : list bool :=
  match cs with
  | [] => []
  | c :: cs' => let '(l', b) := checkRateLimit (c_now c) (c_key c) (c_limit c) (c_window c) l in b :: answers l' cs'
  end.

(** The reference: the same counters, never swept. *)
Fixpoint reference (m : gmap string (Z * Z)) (cs : list rcall) : list bool :=
  match cs with
  | [] => []
  | c :: cs' => let '(m', b) := hit (c_now c) (c_key c) (c_limit c) (c_window c) m in b :: reference m' cs'
  end.

(** Calls in clock order, not before [now]. *)
Definition clocked (now : Z) (cs : list rcall) : Prop :=
  StronglySorted (λ a b, c_now a ≤ c_now b) cs ∧ Forall (λ c, now ≤ c_now c) cs.

(** ** The sweep is invisible *)

(** Equal up to entries that expired before [now]. *)
Definition same_live (now : Z) (m m' : gmap string (Z * Z)) : Prop :=
  ∀ k, m !! k = m' !! k ∨ (m !! k = None ∧ ∃ c r, m' !! k = Some (c, r) ∧ r < now).

Lemma same_live_weaken now now' m m' : now ≤ now' → same_live now m m' → same_live now' m m'.
Proof.
  intros Hn Hs k. destruct (Hs k) as [?|(? & c & r & ? & ?)]; [by left|right].
  split; [done|]. exists c, r. split; [done|lia].
Qed.

Lemma sweep_same now l m' : same_live now (hits l) m' → same_live now (hits (sweep now l)) m'.
Proof.
  intros Hs. unfold sweep. destruct (_ <? _); [done|]. intros k. simpl.
  destruct (filter _ (hits l) !! k) as [v|] eqn:Hf.
  - apply map_lookup_filter_Some in Hf as [Hk _]. destruct (Hs k) as [Heq|[Hn _]]; [left; congruence|congruence].
  - apply map_lookup_filter_None in Hf as [Hk|Hk].
    + destruct (Hs k) as [Heq|[_ ?]]; [left; congruence|by right].
    + destruct (hits l !! k) as [[c r]|] eqn:Hl.
      * right. split; [done|]. exists c, r. specialize (Hk _ eq_refl). simpl in Hk.
        destruct (Hs k) as [Heq|[Hn _]]; [|congruence]. split; [congruence|lia].
      * destruct (Hs k) as [Heq|[_ ?]]; [left; congruence|by right].
Qed.

Lemma hit_same now key limit w m m' :
  same_live now m m' →
  (hit now key limit w m).2 = (hit now key limit w m').2 ∧
  same_live now (hit now key limit w m).1 (hit now key limit w m').1.
Proof.
  intros Hs. assert (∀ v, same_live now (<[key := v]> m) (<[key := v]> m')) as Hins.
  { intros v k. destruct (decide (k = key)) as [->|Hne]; [left; by rewrite !lookup_insert_eq|].
    rewrite !lookup_insert_ne by done. apply Hs. }
  unfold hit. destruct (Hs key) as [Heq|(Hn & c & r & Hk & Hr)].
  - rewrite <-Heq. destruct (m !! key) as [[c r]|]; [|by split; [|apply Hins]].
    destruct (r <? now); [by split; [|apply Hins]|].
    destruct (limit <=? c); [done|by split; [|apply Hins]].
  - rewrite Hn, Hk. destruct (Z.ltb_spec r now); [by split; [|apply Hins]|lia].
Qed.

Lemma answers_reference cs : ∀ now l m',
  same_live now (hits l) m' → clocked now cs → answers l cs = reference m' cs.
Proof.
  induction cs as [|c cs IH]; intros now l m' Hs [Hso Hall]; [done|]. cbn [answers reference].
  apply StronglySorted_inv in Hso as [Hso Hle]. apply Forall_cons in Hall as [Hc Hall].
  assert (same_live (c_now c) (hits (sweep (c_now c) l)) m') as Hs'
    by by eapply sweep_same, same_live_weaken.
  destruct (hit_same (c_now c) (c_key c) (c_limit c) (c_window c) _ _ Hs') as [Hb Hm].
  unfold checkRateLimit. destruct (hit _ _ _ _ (hits (sweep _ l))) as [m1 b1].
  destruct (hit _ _ _ _ m') as [m2 b2]. simpl in *. subst. f_equal. by apply (IH (c_now c)).
Qed.

(** ** What one window allows *)

(** The calls for [key] up to the end of a window, and those of them allowed. *)
Definition in_window (key : string) (reset : Z) (c : rcall) : bool := (c_key c =s key) && (c_now c <=? reset).
Definition calls_in (key : string) (reset : Z) (cs : list rcall) : Z := Z.of_nat (length (List.filter (in_window key reset) cs)).
Definition allowed_in (key : string) (reset : Z) (cs : list rcall) (bs : list bool) : Z :=
  Z.of_nat (length (List.filter (λ p, in_window key reset p.1 && p.2) (zip cs bs))).
(** A call for [key] at [now] opens a window: there is no entry, or it is over. *)
Definition window_over (now : Z) (key : string) (m : gmap string (Z * Z)) : Prop :=
  ∀ count reset, m !! key = Some (count, reset) → reset < now.

Lemma hit_other now key key' limit w m : key ≠ key' → (hit now key limit w m).1 !! key' = m !! key'.
Proof.
  intros Hne. unfold hit. repeat case_match; simpl; first [done|by rewrite lookup_insert_ne].
Qed.

Lemma hit_opens now key limit w m : window_over now key m → hit now key limit w m = (<[key := (1, now + w)]> m, true).
Proof.
  intros Ho. unfold hit. destruct (m !! key) as [[n r]|] eqn:E; [|done]. specialize (Ho n r E). by destruct (Z.ltb_spec r now); [|lia].
Qed.

Lemma in_window_false key reset c : c_key c ≠ key ∨ reset < c_now c → in_window key reset c = false.
Proof.
  intros [H|H]; unfold in_window; [by rewrite bool_decide_eq_false_2|]. destruct (Z.leb_spec (c_now c) reset); [lia|]. apply andb_false_r.
Qed.
Lemma in_window_true key reset c : in_window key reset c = true ↔ c_key c = key ∧ c_now c ≤ reset.
Proof. unfold in_window. rewrite andb_true_iff, bool_decide_eq_true, Z.leb_le. done. Qed.

Lemma allowed_cons key reset c cs b bs :
  allowed_in key reset (c :: cs) (b :: bs) = (if in_window key reset c && b then 1 else 0) + allowed_in key reset cs bs.
Proof. unfold allowed_in. cbn [zip zip_with List.filter fst snd]. destruct (_ && _); cbn [length]; lia. Qed.
Lemma calls_cons key reset c cs : calls_in key reset (c :: cs) = (if in_window key reset c then 1 else 0) + calls_in key reset cs.
Proof. unfold calls_in. cbn [List.filter]. destruct (in_window _ _ _); cbn [length]; lia. Qed.
Lemma none_in key reset cs bs : Forall (λ c, reset < c_now c) cs → allowed_in key reset cs bs = 0 ∧ calls_in key reset cs = 0.
Proof.
  intros H. revert bs. induction H as [|c cs Hc H IH]; intros bs; [by destruct bs|].
  assert (in_window key reset c = false) as Hf by (apply in_window_false; by right).
  rewrite calls_cons, Hf. split; [|apply (IH [])]. destruct bs as [|b bs]; [done|]. rewrite allowed_cons, Hf. apply (IH bs).
Qed.

(** What is left of a window that counted [count] calls: no more than up to the
    largest limit asked with, and exactly that when all ask with the same. *)
Lemma window_budget cs : ∀ m key limit reset count,
  m !! key = Some (count, reset) → 0 ≤ count ≤ limit → StronglySorted (λ a b, c_now a ≤ c_now b) cs →
  (Forall (λ c, in_window key reset c → c_limit c ≤ limit) cs → allowed_in key reset cs (reference m cs) ≤ limit - count) ∧
  (Forall (λ c, in_window key reset c → c_limit c = limit) cs →
   allowed_in key reset cs (reference m cs) = Z.min (limit - count) (calls_in key reset cs)).
Proof.
  induction cs as [|c cs IH]; intros m key limit reset count Hm Hc Hso; [unfold allowed_in, calls_in; cbn; lia|].
  apply StronglySorted_inv in Hso as [Hso Hle]. cbn [reference].
  destruct (hit (c_now c) (c_key c) (c_limit c) (c_window c) m) as [m' b] eqn:Hh. rewrite allowed_cons, calls_cons.
  destruct (decide (c_key c = key)) as [Hk|Hk].
  2: { rewrite (in_window_false key reset c) by (by left). cbn [andb]. rewrite !Z.add_0_l.
    assert (m' !! key = Some (count, reset)) as Hm'.
    { pose proof (hit_other (c_now c) (c_key c) key (c_limit c) (c_window c) m Hk) as Ho. rewrite Hh in Ho. cbn in Ho. congruence. }
    destruct (IH m' key limit reset count Hm' Hc Hso) as [I1 I2].
    split; intros [_ Hall]%Forall_cons; [by apply I1|by apply I2]. }
  destruct (decide (reset < c_now c)) as [Hr|Hr].
  { rewrite (in_window_false key reset c) by (by right). cbn [andb].
    destruct (none_in key reset cs (reference m' cs)) as [-> ->]; [eapply Forall_impl; [exact Hle|]; cbn; lia|]. lia. }
  assert (in_window key reset c = true) as Hin by (apply in_window_true; split; [done|lia]). rewrite Hin. cbn [andb].
  unfold hit in Hh. rewrite Hk, Hm in Hh. destruct (Z.ltb_spec reset (c_now c)); [lia|].
  destruct (Z.leb_spec (c_limit c) count); injection Hh as <- <-.
  - destruct (IH m key limit reset count Hm Hc Hso) as [I1 I2]. split; intros [Hl Hall]%Forall_cons.
    + rewrite Z.add_0_l. by apply I1.
    + specialize (Hl (Is_true_true_2 _ Hin)). rewrite (I2 Hall). unfold calls_in. lia.
  - assert (c_limit c ≤ limit → 0 ≤ count + 1 ≤ limit) as Hn by lia.
    split; intros [Hl Hall]%Forall_cons; specialize (Hl (Is_true_true_2 _ Hin)).
    + destruct (IH (<[key := (count + 1, reset)]> m) key limit reset (count + 1)) as [I1 _]; [by rewrite lookup_insert_eq|by apply Hn|done|].
      specialize (I1 Hall). lia.
    + destruct (IH (<[key := (count + 1, reset)]> m) key limit reset (count + 1)) as [_ I2]; [by rewrite lookup_insert_eq|apply Hn; lia|done|].
      specialize (I2 Hall). lia.
Qed.

(** C38: the limiter limits.  Take any state of the limiter and any calls in
    clock order.  Sweeping never changes an answer: the run answers as counters
    that are never swept.  A call that opens a window, because its key has no entry
    or one that is over and perhaps not swept yet, is allowed; and of the later
    calls for that key until that window ends at most limit - 1 are allowed,
    whatever other keys do meanwhile and whatever comes after, where limit (at
    least 1) is the largest that those calls ask with.  When they all ask with the
    same limit, exactly as many are allowed as there are such calls, up to
    limit - 1. *)
Theorem rate_limit_enforced l c cs :
  clocked (c_now c) cs →
  answers l (c :: cs) = reference (hits l) (c :: cs) ∧
  (window_over (c_now c) (c_key c) (hits l) →
   let reset := c_now c + c_window c in
   head (answers l (c :: cs)) = Some true ∧
   ∀ limit, 1 ≤ limit →
    (Forall (λ x, in_window (c_key c) reset x → c_limit x ≤ limit) cs →
     allowed_in (c_key c) reset cs (tail (answers l (c :: cs))) ≤ limit - 1) ∧
    (Forall (λ x, in_window (c_key c) reset x → c_limit x = limit) cs →
     allowed_in (c_key c) reset cs (tail (answers l (c :: cs))) = Z.min (limit - 1) (calls_in (c_key c) reset cs))).
Proof.
  intros [Hso Hall]. assert (answers l (c :: cs) = reference (hits l) (c :: cs)) as Heq.
  { apply (answers_reference _ (c_now c)); [intros k; by left|]. split; [by constructor|]. by constructor. }
  split; [done|]. intros Ho reset. rewrite Heq. cbn [reference]. rewrite hit_opens by done. cbn [head tail]. split; [done|].
  intros limit Hl. apply window_budget; [by rewrite lookup_insert_eq|lia|done].
Qed.

(** ** Concrete run *)

Definition at_ (now : Z) : rcall := {| c_now := now; c_key := "ip"; c_limit := 2; c_window := 60000 |}.
Definition empty_limiter : Limiter := {| hits := ∅; lastSweep := 0 |}.
(** An entry that is over and was not swept, since the last sweep is recent. *)
Definition stale_limiter : Limiter := {| hits := {[ "ip"%string := (2, 99500) ]}; lastSweep := 99900 |}.
Lemma rate_limit_enforced_witness :
  allowed_in "ip" 160000 [at_ 100010; at_ 100020; at_ 170000]
    (tail (answers stale_limiter [at_ 100000; at_ 100010; at_ 100020; at_ 170000])) = 1.
Proof.
  destruct (rate_limit_enforced stale_limiter (at_ 100000) [at_ 100010; at_ 100020; at_ 170000]) as [_ H].
  { split; repeat constructor; simpl; lia. }
  destruct H as [_ H]; [intros n r E; vm_compute in E; injection E as <- <-; reflexivity|].
  destruct (H 2) as [_ H2]; [lia|]. exact (H2 ltac:(repeat constructor)).
Defined.
Example limited_run : answers empty_limiter [at_ 0; at_ 10; at_ 20; at_ 60001] = [true; true; false; true].
Proof. vm_compute. reflexivity. Qed.
