(* ===== verification/Tenant.v ===== *)
(** * Tenancy

    Which tenant a request is for (src/lib/tenant/console-domain.ts,
    constants.ts, resolve.ts, request.ts, internal.ts), what the platform
    allows that tenant (src/lib/platform/tenant-shape.ts, plan-usage.ts and
    src/lib/tenant/envelope.ts), and the data plane's audit ingest, which files
    one batch into many tenants' logs (src/app/api/internal/audit/log). *)

From S2P Require Import Prelude JsString JsValue Schema AuditChain AccessLog Identity Cidr Access.

(** ** Hosts and slugs *)

Definition RESERVED : list string := ["manager"; "www"; "app"; "admin"; "api"; "connect"; "sites"]%string.
Definition RESERVED_SLUGS : list string :=
  ["platform"; "manager"; "www"; "app"; "admin"; "api"; "connect"; "sites"]%string.

Definition isReservedSlug (slug : string) : bool := bool_decide (slug ∈ RESERVED_SLUGS).

Definition colon : Ascii.ascii := Ascii.ascii_of_N 58.
Definition period : Ascii.ascii := Ascii.ascii_of_N 46.
Definition hyphen : Ascii.ascii := Ascii.ascii_of_N 45.

(** [/[a-z0-9]/] *)
Definition is_slug_char (c : Ascii.ascii) : bool := is_digit c || ((97 <=? code c) && (code c <=? 122)).

(** [/^[a-z0-9](?:[a-z0-9-]{0,61}[a-z0-9])?$/] *)
Definition slug_re (s : string) : bool :=
  match chars s with
  | [] => false
  | c :: rest =>
      is_slug_char c &&
      match reverse rest with
      | [] => true
      | d :: mid => is_slug_char d && forallb (λ x, is_slug_char x || bool_decide (x = hyphen)) mid
                    && (Z.of_nat (length mid) <=? 61)
      end
  end.
Definition isValidTenantSlug (slug : string) : bool := slug_re slug && negb (isReservedSlug slug).

Fixpoint drop_digits (l : list Ascii.ascii) : list Ascii.ascii :=
  match l with
  | c :: l' => if is_digit c then drop_digits l' else l
  | [] => []
  end.

(** [s.replace(/:\d+$/, "")] *)
Definition strip_port_chars (l : list Ascii.ascii) : list Ascii.ascii :=
  match reverse l with
  | d :: _ =>
      if is_digit d then
        match drop_digits (reverse l) with
        | c :: rest => if bool_decide (c = colon) then reverse rest else l
        | [] => l
        end
      else l
  | [] => l
  end.
(** [s.replace(/\.$/, "")] *)
Definition strip_dot_chars (l : list Ascii.ascii) : list Ascii.ascii :=
  match reverse l with
  | c :: rest => if bool_decide (c = period) then reverse rest else l
  | [] => l
  end.

Definition slugFromHost (host : string) (domain : option string) : option string :=
  match domain with
  | None => None
  | Some d =>
      if negb (truthy host) || negb (truthy d) then None else
      let h := unchars (strip_dot_chars (strip_port_chars (chars (toLowerCase host)))) in
      let suffix := "." +:+ toLowerCase d in
      if negb (endsWith suffix h) then None else
      let label := slice_to (length (chars h) - length (chars suffix)) h in
      if negb (truthy label) || includes_char period label || bool_decide (label ∈ RESERVED)
      then None else Some label
  end.

(** ** The console's domain *)

Section domain.
(** [url_hostname s]: [new URL(s).hostname], [None] when the constructor throws. *)
Context (url_hostname : string → option string).

Definition accessDomain (managerPublicUrl accessDomainEnv : option string) : option string :=
  let explicit := trim (accessDomainEnv ?? "") in
  if truthy explicit
  then Some (toLowerCase (if startsWith "*." explicit then slice_from 2 explicit else explicit))
  else
    let raw := trim (managerPublicUrl ?? "") in
    if negb (truthy raw) then None else
    match url_hostname raw with
    | None => None
    | Some h =>
        let host := toLowerCase h in
        if (host =s "localhost") || (host =s "127.0.0.1") || negb (startsWith "manager." host) then None
        else let domain := slice_from (String.length "manager.") host in
             if includes "." domain then Some domain else None
    end.

Definition consoleDomain (env : string → option string) : option string :=
  let own := trim (env "CONSOLE_DOMAIN" ?? "") in
  if truthy own then Some own else accessDomain (env "MANAGER_PUBLIC_URL") (env "ACCESS_DOMAIN").
End domain.

(** A capability variable of the environment, with its default. *)
Definition flagOn (raw : option string) (defaultValue : bool) : bool :=
  match raw with
  | None => defaultValue
  | Some r =>
      let v := toLowerCase (trim r) in
      if bool_decide (v ∈ ["1"; "true"; "on"; "yes"]%string) then true
      else if bool_decide (v ∈ ["0"; "false"; "off"; "no"]%string) then false
      else defaultValue
  end.

Definition multiTenantEnabled (env : string → option string) : bool := flagOn (env "MULTI_TENANT") false.

(** ** The tenants table *)

Record TenantRow := {
  t_id : string;
  t_slug : string;
  t_status : string;
  t_deletedAt : option Z;
  t_plan : string;
  t_limits : json;
  t_capabilities : json;
}.

Definition live_tenant (t : TenantRow) : bool :=
  (t_status t =s "ACTIVE") && bool_decide (t_deletedAt t = None).

(** [resolve_tenant_by_slug] *)
Definition resolveTenantBySlug (ts : list TenantRow) (slug : string) : option string :=
  t_id <$> find_row (λ t, (t_slug t =s slug) && live_tenant t) ts.

(** [list_active_tenant_ids] *)
Definition listActiveTenantIds (ts : list TenantRow) : list string :=
  map t_id (List.filter (λ t, live_tenant t && negb (bool_decide (t_id t ∈ ["platform"; "default"]%string))) ts).

Definition resolveRequestTenant (url_hostname : string → option string) (env : string → option string)
    (ts : list TenantRow) (forwardedHost hostHeader : option string) : option string :=
  let host := match forwardedHost with Some h => h | None => hostHeader ?? "" end in
  match slugFromHost host (consoleDomain url_hostname env) with
  | None => None
  | Some slug => resolveTenantBySlug ts slug
  end.

(** [withTenantRoute]: the handler under the tenant its host names. *)
Definition withTenantRoute {A} (multi : bool) (tenantId : option string) (h : string → response A) : response A :=
  if negb multi then h "default" else
  match tenantId with
  | Some t => if truthy t then h t else Fail 404 "unknown_tenant"
  | None => Fail 404 "unknown_tenant"
  end.

(** [forEachTenant]: the job once per active tenant, in order; state passed on. *)
Definition forEachTenant {S T} (multi : bool) (ts : list TenantRow) (job : string → S → S * T) (s : S) : S * list T :=
  foldl (λ st t, let '(s', x) := job t st.1 in (s', st.2 ++ [x])) (s, [])
        (if multi then listActiveTenantIds ts else ["default"%string]).

(** ** Plans, limits and capabilities *)

Definition PLANS : list string := ["free"; "pro"; "enterprise"]%string.
Definition isPlan (v : json) : bool := match v with JStr s => bool_decide (s ∈ PLANS) | _ => false end.

Inductive LimitKey := maxUsers | maxSites | maxConnectors | maxRecordingRetentionDays.
#[global] Instance LimitKey_eq_dec : EqDecision LimitKey.
Proof. solve_decision. Defined.
Definition LIMIT_KEYS : list LimitKey := [maxUsers; maxSites; maxConnectors; maxRecordingRetentionDays].
Definition limit_name (k : LimitKey) : string :=
  match k with
  | maxUsers => "maxUsers" | maxSites => "maxSites" | maxConnectors => "maxConnectors"
  | maxRecordingRetentionDays => "maxRecordingRetentionDays"
  end.

Inductive CapabilityKey := recording | isolated | gateway | vault.
#[global] Instance CapabilityKey_eq_dec : EqDecision CapabilityKey.
Proof. solve_decision. Defined.
Definition CAPABILITY_KEYS : list CapabilityKey := [recording; isolated; gateway; vault].
Definition capability_name (k : CapabilityKey) : string :=
  match k with recording => "recording" | isolated => "isolated" | gateway => "gateway" | vault => "vault" end.

(** The partial records, as the entries they hold in key order. *)
Definition TenantLimits := list (LimitKey * Z).
Definition TenantCapabilities := list (CapabilityKey * bool).

(** [o[k]] *)
Definition entry {K V} `{EqDecision K} (o : list (K * V)) (k : K) : option V :=
  snd <$> find_row (λ p, bool_decide (p.1 = k)) o.

Definition parse_limit (raw : json) : option Z :=
  let n := match raw with
           | JStr s => if truthy (trim s) then JNum (Number s) else raw
           | _ => raw
           end in
  match n with
  | JNum (NInt z) => if 0 <? z then Some z else None
  | _ => None
  end.

Definition parseLimits (v : json) : TenantLimits :=
  if negb (is_object v) then [] else
  omap (λ k, pair k <$> parse_limit (obj_get v (limit_name k))) LIMIT_KEYS.

Definition parseCapabilities (v : json) : TenantCapabilities :=
  if negb (is_object v) then [] else
  omap (λ k, match obj_get v (capability_name k) with JBool b => Some (k, b) | _ => None end) CAPABILITY_KEYS.

(** The column written: null when nothing is set. *)
Definition limitsForStorage (l : TenantLimits) : json :=
  match l with [] => JNull | _ => JObj (map (λ p, (limit_name p.1, JNum (NInt p.2))) l) end.
Definition capabilitiesForStorage (c : TenantCapabilities) : json :=
  match c with [] => JNull | _ => JObj (map (λ p, (capability_name p.1, JBool p.2)) c) end.

Definition withinLimit (limits : TenantLimits) (key : LimitKey) (count : Z) : bool :=
  match entry limits key with None => true | Some max => count <? max end.

(** ** The envelope and its cache *)

Record TenantEnvelope := { limits : TenantLimits; capabilities : TenantCapabilities }.
Definition EMPTY_ENVELOPE : TenantEnvelope := {| limits := []; capabilities := [] |}.
Definition CACHE_MS : Z := 15000.

Record EnvelopeStore := { e_tenants : list TenantRow; e_cache : gmap string (TenantEnvelope * Z) }.

(** [dbError]: the query throws, and the empty envelope is cached. *)
Definition tenantEnvelope (multi : bool) (tid : string) (now : Z) (dbError : bool) (st : EnvelopeStore)
    : EnvelopeStore * TenantEnvelope :=
  if negb multi then (st, EMPTY_ENVELOPE) else
  match match e_cache st !! tid with
        | Some (e, at_) => if now - at_ <? CACHE_MS then Some e else None
        | None => None
        end with
  | Some e => (st, e)
  | None =>
      let e := if dbError then EMPTY_ENVELOPE else
               match find_row (λ t, t_id t =s tid) (e_tenants st) with
               | Some t => {| limits := parseLimits (t_limits t); capabilities := parseCapabilities (t_capabilities t) |}
               | None => EMPTY_ENVELOPE
               end in
      ({| e_tenants := e_tenants st; e_cache := <[tid := (e, now)]> (e_cache st) |}, e)
  end.

Definition envDefault (env : string → option string) (key : CapabilityKey) : bool :=
  match key with
  | recording => flagOn (env "RECORDING_ENABLED") true
  | isolated => flagOn (env "ISOLATED_ENABLED") true
  | gateway => flagOn (env "NATIVE_GATEWAY") true
  | vault => flagOn (env "VAULT_ENABLED") true
  end.

Definition capabilityAllowed (env : string → option string) (e : TenantEnvelope) (key : CapabilityKey) : bool :=
  entry (capabilities e) key ?? envDefault env key.

(** [assertWithinLimit]: [inl (key, max)] is the LimitError it throws. *)
Definition assertWithinLimit (e : TenantEnvelope) (key : LimitKey) (currentCount : Z) : (LimitKey * Z) + unit :=
  match entry (limits e) key with
  | Some max => if withinLimit (limits e) key currentCount then inr tt else inl (key, max)
  | None => inr tt
  end.

Record PlanUsage := { used : Z; max : Z; plan : option string }.

Definition planUsage (multi : bool) (tid : string) (ts : list TenantRow) (planError : bool)
    (e : TenantEnvelope) (key : LimitKey) (n : Z) : option PlanUsage :=
  if negb multi then None else
  match entry (limits e) key with
  | None => None
  | Some m =>
      Some {| used := n; max := m;
              plan := if planError then None else t_plan <$> find_row (λ t, t_id t =s tid) ts |}
  end.

(** ** Audit ingest *)

(** The deployment's logs and the Site table across tenants: a row with its
    tenantId, which row-level security filters on. *)
Record Cloud := {
  c_logs : gmap string AuditDb;
  c_sites : list (string * Site);
  c_users : list (string * User);
}.

Definition of_tenant {A} (tid : string) (rows : list (string * A)) : list A :=
  map snd (List.filter (λ p, p.1 =s tid) rows).

Definition log_of (w : Cloud) (tid : string) : AuditDb :=
  c_logs w !! tid ?? {| auditEvents := []; chainState := None |}.

Definition set_log (w : Cloud) (tid : string) (db : AuditDb) : Cloud :=
  {| c_logs := <[tid := db]> (c_logs w); c_sites := c_sites w; c_users := c_users w |}.

(** [resolve_tenant_by_site], [resolve_tenant_by_hostname] *)
Definition tenant_by_site (w : Cloud) (id : string) : option string :=
  fst <$> find_row (λ p, site_id p.2 =s id) (c_sites w).
Definition tenant_by_hostname (w : Cloud) (host : string) : option string :=
  fst <$> find_row (λ p, bool_decide (site_hostname p.2 = Some (trim (toLowerCase host)))) (c_sites w).

(** A non-empty string of an optional one. *)
Definition some_truthy (o : option string) : option string :=
  match o with Some s => if truthy s then Some s else None | None => None end.

Definition resolveEventTenant (w : Cloud) (e : AuditInput) : option string :=
  match match some_truthy (i_siteId e) with
        | Some id => some_truthy (tenant_by_site w id)
        | None => None
        end with
  | Some tid => Some tid
  | None => match some_truthy (i_host e) with Some h => tenant_by_hostname w h | None => None end
  end.

(** The grouping loop: a Map keeps its keys in order of first insertion. *)
Fixpoint push_group (tid : string) (e : AuditInput) (groups : list (string * list AuditInput))
    : list (string * list AuditInput) :=
  match groups with
  | [] => [(tid, [e])]
  | (t, es) :: gs => if t =s tid then (t, es ++ [e]) :: gs else (t, es) :: push_group tid e gs
  end.

Definition group_step (w : Cloud) (acc : list (string * list AuditInput) * Z) (e : AuditInput)
    : list (string * list AuditInput) * Z :=
  match some_truthy (resolveEventTenant w e) with
  | None => (acc.1, acc.2 + 1)
  | Some tid => (push_group tid e acc.1, acc.2)
  end.
Definition group_events (w : Cloud) (events : list AuditInput) : list (string * list AuditInput) * Z :=
  foldl (group_step w) ([], 0) events.

Section ingest_route.
Context (date_parse : string → jsdate) (sha256 : string → string).

(** [withTenant(tid, () => appendAuditEvents(group))]: one transaction. *)
Definition append_for (now : Z) (w : Cloud) (tid : string) (es : list AuditInput) : option (AuditDb * Z) :=
  appendAuditEvents date_parse sha256 (of_tenant tid (c_users w)) (of_tenant tid (c_sites w)) now (log_of w tid) es.

(** The second loop.  A group whose append throws ends the request; the groups
    before it are committed. *)
Fixpoint append_groups (now : Z) (w : Cloud) (groups : list (string * list AuditInput)) (inserted : Z)
    : Cloud * option Z :=
  match groups with
  | [] => (w, Some inserted)
  | (tid, es) :: gs =>
      match append_for now w tid es with
      | None => (w, None)
      | Some (db, n) => append_groups now (set_log w tid db) gs (inserted + n)
      end
  end.

(** The answer: rows inserted and events dropped. *)
Definition ingest_handler (multi : bool) (now : Z) (events : list AuditInput) (w : Cloud)
    : Cloud * response (Z * Z) :=
  if negb multi then
    match append_for now w "default" events with
    | Some (db, n) => (set_log w "default" db, Reply 200 (n, 0))
    | None => (w, Fail 500 "error")
    end
  else
    let '(groups, dropped) := group_events w events in
    match append_groups now w groups 0 with
    | (w', Some inserted) => (w', Reply 200 (inserted, dropped))
    | (w', None) => (w', Fail 500 "error")
    end.

Definition auditLogPost (secret header : option string) (multi : bool) (now : Z) (events : list AuditInput)
    (w : Cloud) : Cloud * response (Z * Z) :=
  if timingSafeEqualStr header secret then ingest_handler multi now events w else (w, Fail 403 "forbidden").
End ingest_route.

(** ** Theorems: ingest *)

Section grouping.
Implicit Types (w : Cloud) (groups : list (string * list AuditInput)).

(** The tenant an event is filed under, and one tenant's part of a batch. *)
Definition filed_under w (e : AuditInput) : option string := some_truthy (resolveEventTenant w e).
Definition part_of w (tid : string) (events : list AuditInput) : list AuditInput :=
  List.filter (λ e, bool_decide (filed_under w e = Some tid)) events.
Definition unfiled w (events : list AuditInput) : list AuditInput :=
  List.filter (λ e, bool_decide (filed_under w e = None)) events.

Definition group_of groups (tid : string) : list AuditInput :=
  (snd <$> find_row (λ g, g.1 =s tid) groups) ?? [].

Lemma push_group_of tid e groups t :
  group_of (push_group tid e groups) t = if t =s tid then group_of groups t ++ [e] else group_of groups t.
Proof.
  unfold group_of. induction groups as [|[t0 es] gs IH]; simpl.
  - repeat case_bool_decide; simplify_eq/=; done.
  - repeat case_bool_decide; simplify_eq/=; try done; case_bool_decide; simplify_eq/=; done.
Qed.

Lemma push_group_keys tid e groups : ∀ t, t ∈ (push_group tid e groups).*1 ↔ t = tid ∨ t ∈ groups.*1.
Proof.
  intros t. induction groups as [|[t0 es] gs IH]; simpl; [set_solver|].
  case_bool_decide; simplify_eq/=; set_solver.
Qed.

Lemma push_group_NoDup tid e groups : NoDup groups.*1 → NoDup (push_group tid e groups).*1.
Proof.
  induction groups as [|[t0 es] gs IH]; simpl; intros Hn; [apply NoDup_singleton|].
  apply NoDup_cons in Hn as [Hn Hd]. case_bool_decide; simplify_eq/=; apply NoDup_cons; [done|].
  rewrite push_group_keys. split; [naive_solver|auto].
Qed.

Lemma group_events_spec w events groups dropped :
  group_events w events = (groups, dropped) →
  NoDup groups.*1 ∧ (∀ t, group_of groups t = part_of w t events) ∧
  (∀ t, t ∈ groups.*1 ↔ part_of w t events ≠ []) ∧ dropped = Z.of_nat (length (unfiled w events)).
Proof.
  unfold group_events. revert groups dropped.
  induction events as [|e events IH] using rev_ind; intros groups dropped.
  { intros [= <- <-]. split_and!; [by apply NoDup_nil|done|set_solver|done]. }
  rewrite foldl_app. simpl. destruct (foldl _ _ _) as [gs d]. destruct (IH gs d eq_refl) as (Hn & Hg & Hk & Hd).
  unfold group_step, part_of, unfiled. cbn [fst snd]. rewrite !List.filter_app. fold (filed_under w e). simpl.
  destruct (filed_under w e) as [tid|] eqn:Hf; intros [= <- <-]; rewrite ?bool_decide_eq_false_2, ?app_nil_r by done.
  - split_and!; [by apply push_group_NoDup| | |done].
    + intros t. rewrite push_group_of, Hg, List.filter_app. simpl.
      repeat case_bool_decide; simplify_eq; try done. by rewrite app_nil_r.
    + intros t. rewrite push_group_keys, Hk, List.filter_app. simpl. unfold part_of.
      case_bool_decide; simplify_eq; [split; [|by left]; intros _ []%app_nil; done|].
      rewrite app_nil_r. naive_solver.
  - split_and!; [done| | |].
    + intros t. rewrite Hg, List.filter_app. simpl. rewrite Hf. simpl. by rewrite app_nil_r.
    + intros t. rewrite Hk, List.filter_app. simpl. rewrite Hf. simpl. by rewrite app_nil_r.
    + rewrite length_app. simpl. fold (unfiled w events). lia.
Qed.

Lemma group_of_elem groups t es : NoDup groups.*1 → (t, es) ∈ groups → group_of groups t = es.
Proof.
  unfold group_of. induction groups as [|[t0 es0] gs IH]; simpl; intros Hn Hin; [by apply not_elem_of_nil in Hin|].
  apply NoDup_cons in Hn as [Hni Hn]. apply elem_of_cons in Hin as [[= -> ->]|Hin];
    [by rewrite bool_decide_eq_true_2|].
  rewrite bool_decide_eq_false_2; [by apply IH|]. intros ->. apply Hni.
  apply list_elem_of_fmap. by exists (t, es).
Qed.

Definition batch_size groups : Z := foldr (λ g n, Z.of_nat (length g.2) + n) 0 groups.

Lemma batch_size_push tid e groups : batch_size (push_group tid e groups) = batch_size groups + 1.
Proof.
  induction groups as [|[t0 es] gs IH]; simpl; [done|].
  case_bool_decide; simpl; rewrite ?length_app; simpl; lia.
Qed.

Lemma group_events_size w events groups dropped :
  group_events w events = (groups, dropped) → batch_size groups + dropped = Z.of_nat (length events).
Proof.
  unfold group_events. revert groups dropped.
  induction events as [|e events IH] using rev_ind; intros groups dropped; [by intros [= <- <-]|].
  rewrite foldl_app, length_app. simpl. destruct (foldl _ _ _) as [gs d]. specialize (IH gs d eq_refl).
  unfold group_step. simpl. case_match; intros [= <- <-]; rewrite ?batch_size_push; lia.
Qed.
End grouping.

Section filing.
Context (date_parse : string → jsdate) (sha256 : string → string).
Implicit Types (w : Cloud) (groups : list (string * list AuditInput)).

Notation append_for := (append_for date_parse sha256).

Lemma log_of_set w t db t' : log_of (set_log w t db) t' = if t' =s t then db else log_of w t'.
Proof.
  unfold log_of, set_log. simpl. case_bool_decide; simplify_eq; [by rewrite lookup_insert_eq|].
  by rewrite lookup_insert_ne.
Qed.

Lemma append_for_set now w t db t' es : t' ≠ t → append_for now (set_log w t db) t' es = append_for now w t' es.
Proof. intros Hn. unfold Tenant.append_for. rewrite log_of_set, bool_decide_eq_false_2 by done. done. Qed.

(** The writing loop: every group it reached is filed whole, under its own
    tenant and on top of that tenant's log as the request found it. *)
Lemma append_groups_spec now w groups n0 w' r :
  NoDup groups.*1 → append_groups date_parse sha256 now w groups n0 = (w', r) →
  (∀ t, t ∉ groups.*1 → log_of w' t = log_of w t) ∧
  (∀ t es, (t, es) ∈ groups → log_of w' t = log_of w t ∨ ∃ k, append_for now w t es = Some (log_of w' t, k)) ∧
  match r with
  | Some n => n = n0 + batch_size groups ∧
      ∀ t es, (t, es) ∈ groups → append_for now w t es = Some (log_of w' t, Z.of_nat (length es))
  | None => ∃ t es, (t, es) ∈ groups ∧ append_for now w t es = None ∧ log_of w' t = log_of w t
  end.
Proof.
  revert w n0. induction groups as [|[t0 es0] gs IH]; intros w n0 Hn; simpl.
  { intros [= <- <-]. split_and!; try done; try lia; intros t es H; by apply not_elem_of_nil in H. }
  apply NoDup_cons in Hn as [Hni Hn]. simpl in Hni.
  destruct (append_for now w t0 es0) as [[db k]|] eqn:Ha.
  - intros Hg. destruct (IH _ _ Hn Hg) as (Hout & Hall & Hr). clear IH.
    assert (log_of w' t0 = db) as Ht0 by (rewrite Hout, log_of_set, bool_decide_eq_true_2; done).
    assert (k = Z.of_nat (length es0)) as -> by (by apply append_rows in Ha as (? & _ & _ & -> & _)).
    assert (∀ t es, (t, es) ∈ gs → t ≠ t0) as Hne.
    { intros t es Hin ->. apply Hni. apply list_elem_of_fmap. by exists (t0, es). }
    assert (∀ t, t ≠ t0 → log_of (set_log w t0 db) t = log_of w t) as Hlog
      by (intros t Ht; by rewrite log_of_set, bool_decide_eq_false_2).
    split_and!.
    + intros t [Hx Hy]%not_elem_of_cons. by rewrite Hout, Hlog.
    + intros t es [[= -> ->]|Hin]%elem_of_cons; [right; subst db; by eexists|].
      specialize (Hne _ _ Hin). rewrite <-(Hlog t), <-(append_for_set now w t0 db) by done. by apply Hall.
    + destruct r as [n|].
      * destruct Hr as [-> Hr]. split; [lia|]. intros t es [[= -> ->]|Hin]%elem_of_cons; [by rewrite Ht0|].
        rewrite <-(append_for_set now w t0 db) by by eapply Hne. by apply Hr.
      * destruct Hr as (t & es & Hin & Hnone & Hl). exists t, es. specialize (Hne _ _ Hin).
        rewrite append_for_set in Hnone by done. rewrite Hlog in Hl by done.
        split_and!; [by right|done..].
  - intros [= <- <-]. split_and!; [done|by left|]. exists t0, es0. split_and!; [by left|done..].
Qed.

Lemma append_for_nil now w t : append_for now w t [] = Some (log_of w t, 0).
Proof. done. Qed.

(** C10: one batch from the shared data plane is filed into each tenant's log
    separately.  When the request succeeds, every tenant's log is exactly what
    appending that tenant's own events, in batch order, to the log it had
    gives; the other tenants' logs are untouched, and the answer's counts add
    up to the batch.  When it fails, an event of the batch cannot be stored, and
    each tenant has either all of its events or none. *)
Theorem ingest_isolated now events w :
  match ingest_handler date_parse sha256 true now events w with
  | (w', Reply st (inserted, dropped)) =>
      st = 200 ∧ inserted + dropped = Z.of_nat (length events) ∧
      dropped = Z.of_nat (length (unfiled w events)) ∧
      ∀ t, append_for now w t (part_of w t events)
           = Some (log_of w' t, Z.of_nat (length (part_of w t events)))
  | (w', Fail _ _) =>
      (∃ e, e ∈ events ∧ storable date_parse e = false) ∧
      ∀ t, log_of w' t = log_of w t ∨
           ∃ k, append_for now w t (part_of w t events) = Some (log_of w' t, k)
  end.
Proof.
  unfold ingest_handler. simpl. destruct (group_events w events) as [groups dropped] eqn:Hg.
  destruct (group_events_spec _ _ _ _ Hg) as (Hn & Hof & Hk & Hd). pose proof (group_events_size _ _ _ _ Hg) as Hsz.
  destruct (append_groups _ _ _ _ _ _) as [w' r] eqn:Ha.
  destruct (append_groups_spec _ _ _ _ _ _ Hn Ha) as (Hout & Hall & Hr).
  assert (∀ t, t ∈ groups.*1 → (t, part_of w t events) ∈ groups) as Hin.
  { intros t Ht. apply list_elem_of_fmap in Ht as ([t' es] & -> & Hin). simpl.
    by rewrite <-Hof, (group_of_elem groups t' es). }
  destruct r as [n|].
  - destruct Hr as [-> Hr]. split_and!; [done|lia|done|]. intros t.
    destruct (decide (t ∈ groups.*1)) as [Ht|Ht]; [by apply Hr, Hin|].
    rewrite Hout by done. destruct (part_of w t events) eqn:Hp; [done|]. destruct Ht. apply Hk. by rewrite Hp.
  - split.
    + destruct Hr as (t & es & Hte & Hnone & _). unfold Tenant.append_for in Hnone.
      apply append_None in Hnone as (e & He & Hs). exists e. split; [|done].
      rewrite <-(group_of_elem _ _ _ Hn Hte), Hof in He. unfold part_of in He.
      by apply list_elem_of_In, filter_In in He as [He%list_elem_of_In _].
    + intros t. destruct (decide (t ∈ groups.*1)) as [Ht|Ht]; [by apply Hall, Hin|left; by apply Hout].
Qed.
End filing.

(** ** Theorems: hosts *)

Lemma drop_digits_suffix l : ∃ p, l = p ++ drop_digits l.
Proof.
  induction l as [|c l [p IH]]; simpl; [by exists []|]. destruct (is_digit c); [|by exists []].
  exists (c :: p). simpl. by f_equal.
Qed.

Lemma drop_digits_port p c l : Forall (λ d, is_digit d) p → is_digit c = false → drop_digits (p ++ c :: l) = c :: l.
Proof.
  intros Hp Hc. induction Hp as [|d p Hd Hp IH]; simpl; [by rewrite Hc|].
  apply Is_true_true in Hd. by rewrite Hd.
Qed.

Lemma strip_port_none l : colon ∉ l → strip_port_chars l = l.
Proof.
  intros Hl. unfold strip_port_chars. destruct (reverse l) as [|d r] eqn:Hr; [done|]. rewrite <-Hr.
  destruct (is_digit d); [|done]. destruct (drop_digits (reverse l)) as [|c rest] eqn:Hd; [done|].
  case_bool_decide; [|done]. destruct Hl. subst c. apply elem_of_reverse.
  destruct (drop_digits_suffix (reverse l)) as [p ->]. rewrite Hd. set_solver.
Qed.

Lemma strip_port_some l port :
  port ≠ [] → Forall (λ d, is_digit d) port → strip_port_chars (l ++ colon :: port) = l.
Proof.
  intros Hne Hp. unfold strip_port_chars. rewrite reverse_app, reverse_cons, <-app_assoc. simpl.
  destruct port as [|d port _] using rev_ind; [done|]. rewrite reverse_app. simpl.
  apply Forall_app in Hp as [Hp [Hd _]%Forall_cons]. apply Is_true_true in Hd. rewrite Hd.
  rewrite drop_digits_port; [|by apply Forall_reverse|done]. cbn. apply reverse_involutive.
Qed.

Lemma strip_dot_none l : last l ≠ Some period → strip_dot_chars l = l.
Proof.
  intros Hl. unfold strip_dot_chars.
  destruct l as [|c l _] using rev_ind; [done|]. rewrite last_snoc in Hl. rewrite reverse_app. simpl.
  case_bool_decide; [naive_solver|done].
Qed.

Lemma lower_char_punct c : (lower_char c = colon → c = colon) ∧ (lower_char c = period → c = period).
Proof. destruct c as [[] [] [] [] [] [] [] []]; vm_compute; split; congruence. Qed.

Lemma slug_char_lower c : is_slug_char c = true ∨ c = hyphen → lower_char c = c ∧ c ≠ colon ∧ c ≠ period.
Proof.
  intros H. destruct c as [[] [] [] [] [] [] [] []]; vm_compute in H |- *;
    destruct H as [H|H]; try discriminate H; split_and!; done.
Qed.

Lemma slug_re_chars slug : slug_re slug = true →
  chars slug ≠ [] ∧ ∀ c, c ∈ chars slug → is_slug_char c = true ∨ c = hyphen.
Proof.
  unfold slug_re. destruct (chars slug) as [|c rest]; [done|]. intros [Hc Hm]%andb_true_iff. split; [done|].
  intros x [->|Hx]%elem_of_cons; [by left|]. apply elem_of_reverse in Hx.
  destruct (reverse rest) as [|d mid]; [by apply not_elem_of_nil in Hx|].
  apply andb_true_iff in Hm as [[Hd Hmid]%andb_true_iff _].
  apply elem_of_cons in Hx as [->|Hx]; [by left|]. rewrite forallb_forall in Hmid.
  apply list_elem_of_In, Hmid, orb_true_iff in Hx as [?|?%bool_decide_eq_true]; auto.
Qed.

(** The host without its port and final dot, in lower case. *)
Definition bare_host (h : string) : string := unchars (strip_dot_chars (strip_port_chars (chars (toLowerCase h)))).

Lemma slugFromHost_sound h d s :
  slugFromHost h (Some d) = Some s →
  bare_host h = s +:+ "." +:+ toLowerCase d ∧ s ≠ ""%string ∧ period ∉ chars s ∧ s ∉ RESERVED.
Proof.
  unfold slugFromHost. fold (bare_host h). destruct (_ || _); [done|].
  destruct (endsWith _ (bare_host h)) eqn:He; [|done]. cbn [negb].
  apply endsWith_spec in He as [q Hq].
  assert (slice_to (length (chars (bare_host h)) - length (chars ("." +:+ toLowerCase d))) (bare_host h) = unchars q) as ->.
  { unfold slice_to. rewrite Hq, length_app. f_equal.
    replace (_ + _ - _)%nat with (length q) by lia. by rewrite take_app_length. }
  destruct (_ || _) eqn:Hg; [done|]. intros [= <-].
  apply orb_false_iff in Hg as [[Ht%negb_false_iff Hp]%orb_false_iff Hr%bool_decide_eq_false].
  split_and!; [| | |done].
  - apply (inj chars). by rewrite Hq, (chars_append (unchars q)), chars_unchars.
  - intros Heq. by rewrite Heq in Ht.
  - rewrite chars_unchars. intros Hin. unfold includes_char in Hp. rewrite chars_unchars in Hp.
    apply not_true_iff_false in Hp. apply Hp, existsb_exists. exists period.
    split; [by apply list_elem_of_In|by apply bool_decide_eq_true].
Qed.

Lemma slugFromHost_complete h d s :
  truthy h = true → d ≠ ""%string → isValidTenantSlug s = true →
  bare_host h = s +:+ "." +:+ toLowerCase d → slugFromHost h (Some d) = Some s.
Proof.
  intros Hh Hd [Hre Hres]%andb_true_iff Hb. unfold slugFromHost. fold (bare_host h). rewrite Hh.
  unfold truthy. rewrite (bool_decide_eq_false_2 (d = _)) by done. cbn [negb orb].
  assert (endsWith ("." +:+ toLowerCase d) (bare_host h) = true) as ->
    by (apply endsWith_spec; exists (chars s); by rewrite Hb, chars_append).
  cbn [negb]. unfold slice_to. rewrite Hb, chars_append, length_app, Nat.add_sub, take_app_length, unchars_chars.
  destruct (slug_re_chars s Hre) as [Hne Hall].
  rewrite bool_decide_eq_false_2 by (intros ->; done). cbn [negb orb].
  replace (includes_char period s) with false; cbn [orb].
  - rewrite bool_decide_eq_false_2; [done|]. intros Hin. unfold isReservedSlug in Hres.
    apply negb_true_iff, bool_decide_eq_false in Hres. apply Hres. by right.
  - symmetry. apply not_true_iff_false. unfold includes_char. intros (c & Hc & ->%bool_decide_eq_true)%existsb_exists.
    apply list_elem_of_In, Hall, slug_char_lower in Hc as (_ & _ & Hc). done.
Qed.

(** The host's own characters survive the clean-up. *)
Lemma bare_host_of s d :
  slug_re s = true → colon ∉ chars d → last (chars d) ≠ Some period → d ≠ ""%string →
  let host := s +:+ "." +:+ d in
  bare_host host = s +:+ "." +:+ toLowerCase d ∧
  ∀ port, port ≠ ""%string → Forall (λ c, is_digit c) (chars port) →
    bare_host (host +:+ ":" +:+ port) = s +:+ "." +:+ toLowerCase d.
Proof.
  intros Hs Hc Hl Hd host. destruct (slug_re_chars s Hs) as [_ Hall].
  assert (map lower_char (chars host) = chars (s +:+ "." +:+ toLowerCase d)) as Hlow.
  { unfold host, toLowerCase. rewrite !chars_append, chars_unchars, !map_app. f_equal.
    rewrite <-(map_id (chars s)) at 2. apply map_ext_in. intros c Hin%list_elem_of_In.
    by apply Hall, slug_char_lower in Hin as []. }
  assert (strip_dot_chars (chars (s +:+ "." +:+ toLowerCase d)) = chars (s +:+ "." +:+ toLowerCase d)) as Hdot.
  { apply strip_dot_none. unfold toLowerCase. rewrite !chars_append, chars_unchars, !last_app, (fmap_last lower_char).
    destruct (last (chars d)) as [c|] eqn:Hlast; simpl.
    - intros [= Hx%lower_char_punct]. naive_solver.
    - apply last_None in Hlast. destruct Hd. by apply (inj chars). }
  split.
  - unfold bare_host, toLowerCase at 1. rewrite chars_unchars, Hlow, strip_port_none, Hdot; [apply unchars_chars|].
    unfold toLowerCase. rewrite !chars_append, chars_unchars.
    intros [Hin|[Hin|(c & Hx & Hin)%list_elem_of_fmap]%elem_of_app]%elem_of_app.
    + by apply Hall, slug_char_lower in Hin as (_ & [] & _).
    + by apply list_elem_of_singleton in Hin.
    + destruct (lower_char_punct c) as [Hlc _]. apply Hc. by rewrite <-(Hlc (eq_sym Hx)).
  - intros port Hp Hdig. unfold bare_host, toLowerCase at 1.
    rewrite chars_unchars, (chars_append host), map_app, Hlow. cbn [chars].
    replace (map lower_char (chars (":" +:+ port))) with (colon :: chars port).
    + rewrite strip_port_some, Hdot by (first [done|by intros H; apply Hp, (inj chars)]).
      apply unchars_chars.
    + rewrite chars_append. simpl. f_equal. rewrite <-(map_id (chars port)) at 1.
      apply map_ext_in. intros c Hin%list_elem_of_In. rewrite Forall_forall in Hdig.
      apply Hdig, Is_true_true in Hin. symmetry. apply slug_char_lower. left. unfold is_slug_char. by rewrite Hin.
Qed.

(** A console host names exactly one tenant.  A valid slug is what the
    server reads back from that tenant's host, with or without a port and in
    any domain the deployment may use; and whatever host is sent, a slug read
    from it has no dot, is no infrastructure label, and is all that stands
    before the domain. *)
Theorem console_host_slug slug d port :
  isValidTenantSlug slug = true → d ≠ ""%string → colon ∉ chars d → last (chars d) ≠ Some period →
  port ≠ ""%string → Forall (λ c, is_digit c) (chars port) →
  let host := slug +:+ "." +:+ d in
  slugFromHost host (Some d) = Some slug ∧
  slugFromHost (host +:+ ":" +:+ port) (Some d) = Some slug ∧
  ∀ h s, slugFromHost h (Some d) = Some s →
    bare_host h = s +:+ "." +:+ toLowerCase d ∧ s ≠ ""%string ∧ period ∉ chars s ∧ s ∉ RESERVED.
Proof.
  intros Hv Hd Hc Hl Hp Hdig host. pose proof Hv as [Hre _]%andb_true_iff.
  destruct (bare_host_of slug d Hre Hc Hl Hd) as [Hb Hbp].
  assert (∀ t, truthy (host +:+ t) = true) as Ht.
  { intros t. destruct (slug_re_chars slug Hre) as [Hne _]. unfold truthy.
    rewrite bool_decide_eq_false_2; [done|]. intros Heq. apply Hne. apply (f_equal chars) in Heq.
    unfold host in Heq. rewrite !chars_append, <-!app_assoc in Heq. by apply app_nil in Heq as []. }
  split_and!; [..|intros h s; apply slugFromHost_sound].
  - apply slugFromHost_complete; try done. specialize (Ht ""%string).
    rewrite <-(unchars_chars (host +:+ "")), chars_append in Ht. simpl in Ht. by rewrite app_nil_r, unchars_chars in Ht.
  - apply slugFromHost_complete; auto.
Qed.

Lemma console_host_slug_witness :
  slugFromHost "acme.access.example.com:8443" (Some "access.example.com"%string) = Some "acme"%string.
Proof.
  apply (console_host_slug "acme" "access.example.com" "8443"); try done;
    apply (bool_decide_unpack _); vm_compute; exact I.
Defined.

(** ** Theorems: limits *)

Lemma parse_limit_stored z : 0 < z → parse_limit (JNum (NInt z)) = Some z.
Proof. intros Hz. unfold parse_limit. by rewrite (proj2 (Z.ltb_lt 0 z)). Qed.

Lemma parse_limit_pos raw z : parse_limit raw = Some z → 0 < z.
Proof. unfold parse_limit. repeat case_match; intros; simplify_eq; by reflect_bool. Qed.

(** What the platform console stores reads back as the limits it parsed. *)
Lemma limits_roundtrip v : parseLimits (limitsForStorage (parseLimits v)) = parseLimits v.
Proof.
  unfold parseLimits at 2 3. destruct (is_object v); [|done]. simpl.
  destruct (parse_limit (obj_get v "maxUsers")) as [a|] eqn:Ha,
    (parse_limit (obj_get v "maxSites")) as [b|] eqn:Hb,
    (parse_limit (obj_get v "maxConnectors")) as [c|] eqn:Hc,
    (parse_limit (obj_get v "maxRecordingRetentionDays")) as [d|] eqn:Hd;
    try done; cbn -[parse_limit obj_get]; unfold parseLimits; cbn -[parse_limit obj_get];
    repeat match goal with
    | |- context [obj_get (JObj ?l) ?k] =>
        let r := eval vm_compute in (obj_get (JObj l) k) in change (obj_get (JObj l) k) with r
    end;
    repeat (rewrite parse_limit_stored; [|by eapply parse_limit_pos]); done.
Qed.

(** A limit refuses exactly the additions that would pass it. *)
Lemma assertWithinLimit_spec e key n :
  assertWithinLimit e key n = inr tt ↔ ∀ m, entry (limits e) key = Some m → n + 1 ≤ m.
Proof.
  unfold assertWithinLimit, withinLimit. destruct (entry (limits e) key) as [m|] eqn:He; [|naive_solver].
  destruct (n <? m) eqn:Hn; reflect_bool; split; intros H; simplify_eq; try done.
  - intros m' [= <-]. lia.
  - specialize (H m eq_refl). lia.
Qed.
