(* ===== verification/Directory.v ===== *)
(** * Directory synchronisation

    The group mappings an admin keeps (src/lib/directory/mappings.ts), the
    decision they give for the groups a directory answers with (reconcile.ts),
    the reconciliation a sign-in runs before its session exists (sync.ts and
    sync-throttle.ts), and the stored connection settings (config.ts).

    The directory server is outside the program: its answer is an argument. *)

From S2P Require Import Prelude JsString JsValue Schema AuditChain AccessLog Identity Access.

(** ** Distinguished names *)

Definition comma_char : Ascii.ascii := Ascii.ascii_of_N 44.
Definition equals_char : Ascii.ascii := Ascii.ascii_of_N 61.

Definition normalizeDN (dn : string) : string := toLowerCase (join "," (map trim (split comma_char dn))).

Definition cnOf (dn : string) : string :=
  let first := trim (hd ""%string (split comma_char dn)) in
  toLowerCase (trim (match indexOf equals_char first with Some eq => slice_from (eq + 1) first | None => first end)).

Definition isBareName (v : string) : bool :=
  truthy v && negb (includes_char equals_char v) && negb (includes_char comma_char v).

(** ** Mappings *)

Inductive MappingLite :=
  | MRole (groupDN : string) (role : Role) (enabled : bool)
  | MSite (groupDN : string) (siteId : string) (enabled : bool).

Definition m_groupDN (m : MappingLite) : string := match m with MRole d _ _ | MSite d _ _ => d end.
Definition m_enabled (m : MappingLite) : bool := match m with MRole _ _ e | MSite _ _ e => e end.

Definition CONSOLE_ROLES : list Role := [ADMIN; OPERATOR; AUDITOR].

Record GroupMapping := {
  gm_id : string;
  gm_groupDN : string;
  gm_kind : string;
  gm_role : option Role;
  gm_siteId : option string;
  gm_enabled : bool;
}.

(** Only well-formed rows: a console role, or a site. *)
Definition lite_row (r : GroupMapping) : option MappingLite :=
  if gm_kind r =s "ROLE" then
    match gm_role r with
    | Some ro => if bool_decide (ro ∈ CONSOLE_ROLES) then Some (MRole (gm_groupDN r) ro (gm_enabled r)) else None
    | None => None
    end
  else if gm_kind r =s "SITE" then
    match gm_siteId r with
    | Some s => if truthy s then Some (MSite (gm_groupDN r) s (gm_enabled r)) else None
    | None => None
    end
  else None.

(** [dbError]: the read throws and is answered with no mapping. *)
Definition listGroupMappingsLite (dbError : bool) (rows : list GroupMapping) : list MappingLite :=
  if dbError then [] else omap lite_row rows.

Record MappingInput := {
  mi_groupDN : string; mi_kind : string; mi_role : option Role; mi_siteId : option string; mi_enabled : bool;
}.

Definition same_target (kind : string) (i : MappingInput) (e : GroupMapping) : bool :=
  if kind =s "ROLE" then (gm_kind e =s "ROLE") && bool_decide (gm_role e = mi_role i)
  else (gm_kind e =s "SITE") && bool_decide (gm_siteId e = mi_siteId i).

Definition createGroupMapping (id : string) (i : MappingInput) (rows : list GroupMapping)
    : list GroupMapping * (string + unit) :=
  let groupDN := trim (mi_groupDN i) in
  if negb (truthy groupDN) then (rows, inl "Group DN is required."%string) else
  let is_role := mi_kind i =s "ROLE" in
  if is_role && match mi_role i with Some r => negb (bool_decide (r ∈ CONSOLE_ROLES)) | None => true end
  then (rows, inl "Choose a console role (Admin, Operator, or Auditor)."%string) else
  if negb is_role && negb (truthy_opt (mi_siteId i)) then (rows, inl "Choose a site."%string) else
  if existsb (same_target (mi_kind i) i) (List.filter (λ e, gm_groupDN e =s groupDN) rows)
  then (rows, inl "That group is already mapped to this target."%string) else
  (rows ++ [{| gm_id := id; gm_groupDN := groupDN; gm_kind := mi_kind i;
               gm_role := if is_role then mi_role i else None;
               gm_siteId := if mi_kind i =s "SITE" then mi_siteId i else None;
               gm_enabled := mi_enabled i |}], inr tt).

(** [updateGroupMapping]: a field left [undefined] keeps its value; [None] when
    no row has the id, and the update throws. *)
Definition updateGroupMapping (id : string) (groupDN : option string) (enabled : option bool)
    (role : option (option Role)) (siteId : option (option string)) (rows : list GroupMapping)
    : option (list GroupMapping) :=
  if existsb (λ r, gm_id r =s id) rows
  then Some (update_where (λ r, gm_id r =s id)
         (λ r, {| gm_id := gm_id r; gm_groupDN := (trim <$> groupDN) ?? gm_groupDN r; gm_kind := gm_kind r;
                  gm_role := role ?? gm_role r; gm_siteId := siteId ?? gm_siteId r;
                  gm_enabled := enabled ?? gm_enabled r |}) rows)
  else None.

Definition deleteGroupMapping (id : string) (rows : list GroupMapping) : list GroupMapping :=
  delete_where (λ r, gm_id r =s id) rows.

(** ** The decision *)

Record ReconcileDecision := { deprovision : bool; d_role : option Role; grantSiteIds : list string }.

Definition ROLE_RANK (r : Role) : Z := match r with ADMIN => 3 | OPERATOR => 2 | AUDITOR => 1 | _ => 0 end.

Definition m_role (m : MappingLite) : option Role := match m with MRole _ r _ => Some r | MSite _ _ _ => None end.
Definition m_site (m : MappingLite) : option string := match m with MSite _ s _ => Some s | MRole _ _ _ => None end.

Definition mapping_matches (groups : list string) (m : MappingLite) : bool :=
  if negb (m_enabled m) then false else
  let g := trim (m_groupDN m) in
  if isBareName g then bool_decide (toLowerCase g ∈ map cnOf groups)
  else bool_decide (normalizeDN g ∈ map normalizeDN groups).

Definition best_role (best r : Role) : Role := if ROLE_RANK best <? ROLE_RANK r then r else best.

Definition computeReconcile (resolvedGroups : list string) (mappings : list MappingLite) (directoryManaged : bool)
    : ReconcileDecision :=
  let matched := List.filter (mapping_matches resolvedGroups) mappings in
  match matched with
  | [] => {| deprovision := directoryManaged; d_role := None; grantSiteIds := [] |}
  | _ =>
      let roles := omap m_role matched in
      let siteMatches := omap m_site matched in
      {| deprovision := false;
         d_role := match roles with
                   | r :: _ => Some (foldl best_role r roles)
                   | [] => match siteMatches with [] => None | _ => Some STAFF end
                   end;
         grantSiteIds := set_of siteMatches |}
  end.

Definition planGrantChanges (current desired : list string) : list string * list string :=
  let cur := set_of current in
  let des := set_of desired in
  (List.filter (λ s, negb (bool_decide (s ∈ cur))) des, List.filter (λ s, negb (bool_decide (s ∈ des))) cur).

(** ** The throttle *)

Definition directorySyncThrottleMs (raw : option string) : Z :=
  let r := trim (raw ?? "") in
  let n := if truthy r then Number r else NNaN in
  if isFinite n && num_ge n 0 then (num_floor n ?? 0) * 1000 else 300000.

Definition shouldSkipSync (lastVerifiedAt : option Z) (now throttleMs : Z) : bool :=
  if throttleMs <=? 0 then false else
  let last := lastVerifiedAt ?? 0 in (0 <? last) && (now - last <? throttleMs).

(** ** The connection settings *)

Record DirectoryConfig := {
  dc_enabled : bool;
  dc_connectorId : option string;
  dc_host : string;
  dc_port : Z;
  dc_security : string;
  dc_insecureSkipVerify : bool;
  dc_caCertPem : string;
  dc_baseDN : string;
  dc_bindDN : string;
  dc_bindPassword : string;
  dc_lastTest : option (Z * bool * string);
}.

Definition asSecurity (v : string) : string := if (v =s "PLAIN") || (v =s "LDAPS") then v else "STARTTLS".

(** The settings handed to the rest of the program: the password only as a flag. *)
Record DirectoryConfigView := {
  v_enabled : bool; v_connectorId : option string; v_host : string; v_port : Z; v_security : string;
  v_insecureSkipVerify : bool; v_caCertPem : string; v_baseDN : string; v_bindDN : string;
  v_hasBindPassword : bool; v_lastTest : option (Z * bool * string);
}.

Definition getDirectoryConfig (dbError : bool) (row : option DirectoryConfig) : option DirectoryConfigView :=
  if dbError then None else
  c ← row;
  Some {| v_enabled := dc_enabled c; v_connectorId := dc_connectorId c; v_host := dc_host c; v_port := dc_port c;
          v_security := asSecurity (dc_security c); v_insecureSkipVerify := dc_insecureSkipVerify c;
          v_caCertPem := dc_caCertPem c; v_baseDN := dc_baseDN c; v_bindDN := dc_bindDN c;
          v_hasBindPassword := truthy (dc_bindPassword c); v_lastTest := dc_lastTest c |}.

Record DirectoryInput := {
  di_enabled : bool; di_connectorId : option string; di_host : string; di_port : jsnum; di_security : string;
  di_insecureSkipVerify : bool; di_caCertPem : option string; di_baseDN : string; di_bindDN : string;
  di_bindPassword : option string;
}.

Section secrets.
(** AES-256-GCM under the deployment's key; [decrypt] is [None] when it throws. *)
Context (encrypt : string → string) (decrypt : string → option string).

(** [None]: no password is stored. *)
Definition getDirectoryBindPassword (row : option DirectoryConfig) : option (option string) :=
  match row with
  | Some c => if truthy (dc_bindPassword c) then Some <$> decrypt (dc_bindPassword c) else Some None
  | None => Some None
  end.

Definition saveDirectoryConfig (i : DirectoryInput) (row : option DirectoryConfig) : DirectoryConfig :=
  let connectorId := match di_connectorId i with
                     | Some c => if truthy (trim c) then Some (trim c) else None
                     | None => None
                     end in
  let encSecret := match di_bindPassword i with
                   | Some p => if truthy p then Some (encrypt (trim p)) else None
                   | None => None
                   end in
  {| dc_enabled := di_enabled i; dc_connectorId := connectorId; dc_host := trim (di_host i);
     dc_port := if isFinite (di_port i) && num_gt (di_port i) 0 then num_floor (di_port i) ?? 389 else 389;
     dc_security := asSecurity (di_security i); dc_insecureSkipVerify := di_insecureSkipVerify i;
     dc_caCertPem := trim (di_caCertPem i ?? ""); dc_baseDN := trim (di_baseDN i); dc_bindDN := trim (di_bindDN i);
     dc_bindPassword := encSecret ?? match row with Some c => dc_bindPassword c | None => ""%string end;
     dc_lastTest := row ≫= dc_lastTest |}.
End secrets.

Definition recordDirectoryTest (now : Z) (ok : bool) (detail : string) (row : option DirectoryConfig)
    : option DirectoryConfig :=
  (λ c, {| dc_enabled := dc_enabled c; dc_connectorId := dc_connectorId c; dc_host := dc_host c;
           dc_port := dc_port c; dc_security := dc_security c; dc_insecureSkipVerify := dc_insecureSkipVerify c;
           dc_caCertPem := dc_caCertPem c; dc_baseDN := dc_baseDN c; dc_bindDN := dc_bindDN c;
           dc_bindPassword := dc_bindPassword c; dc_lastTest := Some (now, ok, slice_to 500 detail) |}) <$> row.

(** The connector the settings form shows selected. *)
Definition resolveConnectorChoice (savedId : option string) (connectors : list string) : string * bool :=
  let saved := savedId ?? "" in
  let exists_ := truthy saved && bool_decide (saved ∈ connectors) in
  if truthy saved && negb exists_ then (""%string, true)
  else (if truthy saved then saved else hd ""%string connectors, false).

(** ** Reconciling at sign-in *)

Record DirectoryUser := { du_id : string; du_email : string; du_role : Role; du_directoryManaged : bool }.

(** The data plane's answer to the LDAP search. *)
Inductive ldap_answer :=
  | LdapThrew
  | LdapAnswer (found : bool) (memberOf : option (list string)) (error : option string).

Record DirDb := {
  d_users : list User;
  d_sites : list Site;
  d_grants : list AccessGrant;
  d_mappings : list GroupMapping;
  d_config : option DirectoryConfig;
  d_log : AuditDb;
}.

Definition set_user (status : option UserStatus) (managed : option bool) (role : option Role) (verifiedAt : Z)
    (u : User) : User :=
  {| u_id := u_id u; u_email := u_email u; u_name := u_name u; u_company := u_company u; u_phone := u_phone u; u_timezone := u_timezone u;
     u_role := role ?? u_role u; u_status := status ?? u_status u;
     u_directoryManaged := managed ?? u_directoryManaged u; u_directoryLastVerifiedAt := Some verifiedAt;
     u_centerRole := u_centerRole u |}.

Definition with_rows (db : DirDb) (us : list User) (gs : list AccessGrant) : DirDb :=
  {| d_users := us; d_sites := d_sites db; d_grants := gs; d_mappings := d_mappings db; d_config := d_config db;
     d_log := d_log db |}.

Definition dir_grant (newId userId siteId : string) : AccessGrant :=
  {| g_id := newId; g_userId := userId; g_siteId := siteId; g_startsAt := None; g_endsAt := None;
     g_status := GActive; g_note := Some "Provisioned from AD group"%string; g_denyReason := None;
     g_requiresApproval := false; g_approvedAt := None; g_approvedById := None; g_schedule := JNull;
     g_createdById := None; g_directoryManaged := true |}.

(** [userId], ACTIVE and, for [managed], directory-managed. *)
Definition active_of (userId : string) (g : AccessGrant) : bool :=
  (g_userId g =s userId) && bool_decide (g_status g = GActive).
Definition dir_active_of (userId : string) (g : AccessGrant) : bool := active_of userId g && g_directoryManaged g.

Section sync.
Context (date_parse : string → jsdate) (sha256 : string → string).

(** [auditDirectory]: a failed append is logged and swallowed. *)
Definition auditDirectory (now : Z) (user : DirectoryUser) (decision path reason : string) (db : DirDb) : DirDb :=
  match appendAuditEvents date_parse sha256 (d_users db) (d_sites db) now (d_log db)
          [{| i_timestamp := None; i_userId := Some (du_id user); i_siteId := None; i_host := Some "manager"%string;
              i_method := Some "SYNC"%string; i_path := Some path; i_status := Some (NInt 200); i_bytesOut := None;
              i_decision := Some decision; i_reason := Some reason; i_clientIp := None; i_userAgent := None |}] with
  | Some (log, _) =>
      {| d_users := d_users db; d_sites := d_sites db; d_grants := d_grants db; d_mappings := d_mappings db;
         d_config := d_config db; d_log := log |}
  | None => db
  end.

(** [None]: the update found no user row, and the transaction threw. *)
Definition provisionUser (now : Z) (newId : string → string) (user : DirectoryUser) (decision : ReconcileDecision)
    (db : DirDb) : option DirDb :=
  let current := List.filter (dir_active_of (du_id user)) (d_grants db) in
  let '(toCreate, toRevoke) := planGrantChanges (map g_siteId current) (grantSiteIds decision) in
  let roleChanged := match d_role decision with Some r => negb (bool_decide (r = du_role user)) | None => false end in
  if negb (existsb (λ u, u_id u =s du_id user) (d_users db)) then None else
  let us := update_where (λ u, u_id u =s du_id user)
              (set_user None (Some true) (if roleChanged then d_role decision else None) now) (d_users db) in
  let gs := d_grants db ++ map (λ s, dir_grant (newId s) (du_id user) s) toCreate in
  let gs' := update_where (λ g, dir_active_of (du_id user) g && bool_decide (g_siteId g ∈ toRevoke))
               (set_status GRevoked) gs in
  let db' := with_rows db us gs' in
  Some (if roleChanged || negb (bool_decide (toCreate = [])) || negb (bool_decide (toRevoke = []))
        then auditDirectory now user "ALLOW" "directory.provision"
               ("role=" +:+ role_name (d_role decision ?? du_role user) +:+ "; +" +:+ dec (Z.of_nat (length toCreate))
                +:+ " grants, -" +:+ dec (Z.of_nat (length toRevoke)) +:+ " grants") db'
        else db').

Definition deprovisionUser (now : Z) (user : DirectoryUser) (db : DirDb) : option DirDb :=
  if negb (existsb (λ u, u_id u =s du_id user) (d_users db)) then None else
  Some (auditDirectory now user "DENY" "directory.deprovision" "removed from all mapped AD groups"
    (with_rows db
      (update_where (λ u, u_id u =s du_id user) (set_user (Some UDisabled) None None now) (d_users db))
      (update_where (active_of (du_id user)) (set_status GRevoked) (d_grants db)))).

(** What one sign-in observes besides the database: its clock, the throttle
    variable, whether the reads of the settings and of the mappings fail, the
    decryption of the bind password and the directory's answer. *)
Record SyncEnv := {
  s_now : Z;
  s_throttle : option string;
  s_configError : bool;
  s_mappingsError : bool;
  s_bindPasswordThrows : bool;
  s_answer : ldap_answer;
  s_newId : string → string;
}.

Definition verified_recently (env : SyncEnv) (user : DirectoryUser) (db : DirDb) : bool :=
  let throttleMs := directorySyncThrottleMs (s_throttle env) in
  (0 <? throttleMs) &&
  shouldSkipSync (find_row (λ u, u_id u =s du_id user) (d_users db) ≫= u_directoryLastVerifiedAt)
    (s_now env) throttleMs.

(** [syncUserAtLogin]: the database after it, and whether to refuse the
    sign-in.  [None]: it threw. *)
Definition syncUserAtLogin (env : SyncEnv) (user : DirectoryUser) (db : DirDb) : option (DirDb * bool) :=
  match getDirectoryConfig (s_configError env) (d_config db) with
  | None => Some (db, false)
  | Some cfg =>
      if negb (v_enabled cfg) || negb (truthy_opt (v_connectorId cfg)) then Some (db, false) else
      if verified_recently env user db then Some (db, false) else
      if s_bindPasswordThrows env then Some (db, false) else
      match s_answer env with
      | LdapThrew => Some (db, false)
      | LdapAnswer found memberOf error =>
          if truthy_opt error then Some (db, false) else
          let mappings := listGroupMappingsLite (s_mappingsError env) (d_mappings db) in
          let groups := if found then memberOf ?? [] else [] in
          let decision := computeReconcile groups mappings (du_directoryManaged user) in
          if deprovision decision then db' ← deprovisionUser (s_now env) user db; Some (db', true)
          else match d_role decision, grantSiteIds decision with
               | None, [] =>
                   Some (with_rows db (update_where (λ u, u_id u =s du_id user)
                                         (set_user None None None (s_now env)) (d_users db)) (d_grants db), false)
               | _, _ => db' ← provisionUser (s_now env) (s_newId env) user decision db; Some (db', false)
               end
      end
  end.
End sync.

(** ** Theorems: the decision *)

(** A site some enabled mapping grants for these groups. *)
Definition wanted (groups : list string) (ms : list MappingLite) (s : string) : Prop :=
  ∃ m, m ∈ ms ∧ mapping_matches groups m = true ∧ m_site m = Some s.

(** A console role some enabled mapping gives for these groups. *)
Definition offered (groups : list string) (ms : list MappingLite) (r : Role) : Prop :=
  ∃ m, m ∈ ms ∧ mapping_matches groups m = true ∧ m_role m = Some r.

Lemma elem_of_matched groups ms m :
  m ∈ List.filter (mapping_matches groups) ms ↔ m ∈ ms ∧ mapping_matches groups m = true.
Proof. by rewrite !list_elem_of_In, filter_In. Qed.

Lemma deprovision_iff groups ms managed :
  deprovision (computeReconcile groups ms managed) = true ↔
  managed = true ∧ ∀ m, m ∈ ms → mapping_matches groups m = false.
Proof.
  unfold computeReconcile. destruct (List.filter _ ms) as [|m0 l] eqn:Hf; simpl.
  - split; [intros ->; split; [done|]|by intros []]. intros m Hm. apply not_true_iff_false. intros Ht.
    assert (m ∈ List.filter (mapping_matches groups) ms) as H by by apply elem_of_matched.
    rewrite Hf in H. by apply not_elem_of_nil in H.
  - split; [done|]. intros [_ Hn]. assert (m0 ∈ List.filter (mapping_matches groups) ms) as H by (rewrite Hf; by left).
    apply elem_of_matched in H as [Hm Ht]. by rewrite Hn in Ht.
Qed.

Lemma grantSiteIds_iff groups ms managed s :
  s ∈ grantSiteIds (computeReconcile groups ms managed) ↔ wanted groups ms s.
Proof.
  transitivity (s ∈ omap m_site (List.filter (mapping_matches groups) ms)).
  - unfold computeReconcile. destruct (List.filter _ ms) as [|m0 l]; simpl; [done|]. by rewrite set_of_elem_of.
  - rewrite list_elem_of_omap. unfold wanted. setoid_rewrite elem_of_matched. naive_solver.
Qed.

Lemma best_role_fold rs r :
  (foldl best_role r rs ∈ r :: rs) ∧ ∀ x, x ∈ r :: rs → ROLE_RANK x ≤ ROLE_RANK (foldl best_role r rs).
Proof.
  revert r. induction rs as [|y rs IH]; intros r; simpl.
  { split; [set_solver|]. intros x ->%list_elem_of_singleton. lia. }
  destruct (IH (best_role r y)) as [Hin Hmax].
  assert (best_role r y ∈ [r; y] ∧ ROLE_RANK r ≤ ROLE_RANK (best_role r y) ∧ ROLE_RANK y ≤ ROLE_RANK (best_role r y))
    as (Hb & Hr & Hy).
  { unfold best_role. destruct (_ <? _) eqn:E; reflect_bool; (split; [set_solver|]); lia. }
  split.
  { clear Hmax Hr Hy. apply elem_of_cons in Hb as [Hb|Hb%list_elem_of_singleton];
    rewrite Hb in Hin |- *; apply elem_of_cons in Hin as [->|?]; rewrite !elem_of_cons; auto. }
  assert (ROLE_RANK (best_role r y) ≤ ROLE_RANK (foldl best_role (best_role r y) rs)) by (apply Hmax; by left).
  intros x [->|[->|Hx]%elem_of_cons]%elem_of_cons; [lia..|]. apply Hmax. by right.
Qed.

Lemma d_role_spec groups ms managed r :
  d_role (computeReconcile groups ms managed) = Some r →
  (offered groups ms r ∧ ∀ r', offered groups ms r' → ROLE_RANK r' ≤ ROLE_RANK r) ∨
  (r = STAFF ∧ (∀ r', ¬ offered groups ms r') ∧ ∃ s, wanted groups ms s).
Proof.
  assert (∀ x, x ∈ omap m_role (List.filter (mapping_matches groups) ms) ↔ offered groups ms x) as Ho.
  { intros x. rewrite list_elem_of_omap. unfold offered. setoid_rewrite elem_of_matched. naive_solver. }
  assert (∀ x, x ∈ omap m_site (List.filter (mapping_matches groups) ms) ↔ wanted groups ms x) as Hw.
  { intros x. rewrite list_elem_of_omap. unfold wanted. setoid_rewrite elem_of_matched. naive_solver. }
  unfold computeReconcile. destruct (List.filter _ ms) as [|m0 l] eqn:Hf; cbn [d_role]; [done|]. rewrite <-Hf in *.
  destruct (omap m_role _) as [|r0 rs] eqn:Hr.
  - destruct (omap m_site _) as [|s ss]; [done|]. intros [= <-]. right. split_and!; [done| |exists s; apply Hw; by left].
    intros r' H%Ho. by apply not_elem_of_nil in H.
  - intros [= <-]. left. destruct (best_role_fold (r0 :: rs) r0) as [Hin Hmax]. split.
    + apply Ho. set_solver.
    + intros r' H%Ho. apply Hmax. by right.
Qed.

Lemma planGrantChanges_spec cur des toCreate toRevoke :
  planGrantChanges cur des = (toCreate, toRevoke) →
  (∀ s, s ∈ toCreate ↔ s ∈ des ∧ s ∉ cur) ∧ (∀ s, s ∈ toRevoke ↔ s ∈ cur ∧ s ∉ des).
Proof.
  intros [= <- <-]. split; intros s; rewrite list_elem_of_In, filter_In, <-list_elem_of_In, set_of_elem_of,
    negb_true_iff, bool_decide_eq_false, set_of_elem_of; done.
Qed.

(** ** Theorems: the sign-in *)

(** The user's directory-managed access, as a set of sites. *)
Definition dir_access (user : DirectoryUser) (gs : list AccessGrant) (s : string) : Prop :=
  ∃ g, g ∈ gs ∧ dir_active_of (du_id user) g = true ∧ g_siteId g = s.

Lemma dir_access_fmap user gs s :
  s ∈ map g_siteId (List.filter (dir_active_of (du_id user)) gs) ↔ dir_access user gs s.
Proof.
  rewrite list_elem_of_fmap. unfold dir_access. setoid_rewrite list_elem_of_In. setoid_rewrite filter_In. naive_solver.
Qed.

Section sync_theorems.
Context (date_parse : string → jsdate) (sha256 : string → string).
Implicit Types (db : DirDb) (user : DirectoryUser) (env : SyncEnv).

Lemma audit_rows now user d p r db :
  d_users (auditDirectory date_parse sha256 now user d p r db) = d_users db ∧
  d_grants (auditDirectory date_parse sha256 now user d p r db) = d_grants db.
Proof. unfold auditDirectory. by case_match; [case_match|]. Qed.

(** The directory answered, and nothing allowed the sign-in to skip asking. *)
Definition definitive env user db (groups : list string) : Prop :=
  ∃ cfg found memberOf error,
    getDirectoryConfig (s_configError env) (d_config db) = Some cfg ∧ v_enabled cfg = true ∧
    truthy_opt (v_connectorId cfg) = true ∧ verified_recently env user db = false ∧
    s_bindPasswordThrows env = false ∧ s_answer env = LdapAnswer found memberOf error ∧
    truthy_opt error = false ∧ groups = (if found then memberOf ?? [] else []).

Lemma provision_spec now newId user dec db db' :
  provisionUser date_parse sha256 now newId user dec db = Some db' →
  (∀ s, dir_access user (d_grants db') s ↔ s ∈ grantSiteIds dec) ∧
  (∀ g, g ∈ d_grants db → dir_active_of (du_id user) g = false → g ∈ d_grants db') ∧
  (∀ g, g ∈ d_grants db' → g_userId g ≠ du_id user → g ∈ d_grants db).
Proof.
  unfold provisionUser. destruct (planGrantChanges _ _) as [toCreate toRevoke] eqn:Hp.
  apply planGrantChanges_spec in Hp as [Hc Hr]. setoid_rewrite dir_access_fmap in Hc. setoid_rewrite dir_access_fmap in Hr.
  destruct (negb _); [done|]. intros [= <-].
  set (us := update_where _ _ (d_users db)). set (gs := update_where _ _ (_ ++ _)).
  assert (∀ b (x y : DirDb), d_grants x = gs → d_grants y = gs → d_grants (if b : bool then x else y) = gs) as Hif
    by (by intros []).
  rewrite Hif by (rewrite ?(proj2 (audit_rows _ _ _ _ _ _)); done). clear Hif us.
  assert (∀ g, g ∈ gs ↔ ∃ g0, (g0 ∈ d_grants db ∨ ∃ s, s ∈ toCreate ∧ g0 = dir_grant (newId s) (du_id user) s) ∧
    g = if dir_active_of (du_id user) g0 && bool_decide (g_siteId g0 ∈ toRevoke)
        then set_status GRevoked g0 else g0) as Hgs.
  { intros g. unfold gs, update_where. rewrite list_elem_of_fmap. setoid_rewrite elem_of_app.
    setoid_rewrite list_elem_of_fmap. naive_solver. }
  assert (∀ g, dir_active_of (du_id user) (set_status GRevoked g) = false) as Hrev
    by (intros g; unfold dir_active_of, active_of; simpl; by rewrite andb_false_r).
  assert (∀ s, dir_active_of (du_id user) (dir_grant (newId s) (du_id user) s) = true) as Hnew.
  { intros s. unfold dir_active_of, active_of. simpl. by rewrite bool_decide_eq_true_2. }
  split_and!.
  - intros s. split.
    + intros (g & (g0 & Hg0 & ->)%Hgs & Hact & Hs).
      destruct (dir_active_of (du_id user) g0 && _) eqn:Hb; [by rewrite Hrev in Hact|].
      rewrite Hact in Hb. simpl in Hb. apply bool_decide_eq_false in Hb. rewrite Hs in Hb.
      destruct Hg0 as [Hg0|(s' & Hs' & ->)]; [|simpl in Hs; subst; by apply Hc in Hs' as []].
      destruct (decide (s ∈ grantSiteIds dec)) as [|Hn]; [done|]. destruct Hb. apply Hr. split; [|done].
      by exists g0.
    + intros Hs. destruct (decide (s ∈ map g_siteId (List.filter (dir_active_of (du_id user)) (d_grants db))))
        as [(g & Hg & Hact & <-)%dir_access_fmap|Hn].
      * exists g. split_and!; [|done..]. apply Hgs. exists g. split; [by left|].
        rewrite Hact, bool_decide_eq_false_2; [done|]. intros [_ H]%Hr. done.
      * rewrite dir_access_fmap in Hn. exists (dir_grant (newId s) (du_id user) s). split_and!; [|apply Hnew|done].
        apply Hgs. eexists. split; [right; exists s; split; [by apply Hc|done]|].
        rewrite bool_decide_eq_false_2; [by rewrite andb_false_r|]. simpl. intros [_ H]%Hr. done.
  - intros g Hg Hact. apply Hgs. exists g. split; [by left|]. by rewrite Hact.
  - intros g (g0 & Hg0 & ->)%Hgs Hu. destruct (dir_active_of _ g0 && _) eqn:Hb.
    + destruct Hu. apply andb_true_iff in Hb as [Hb _]. unfold dir_active_of, active_of in Hb. simpl. by reflect_bool.
    + destruct Hg0 as [?|(s & _ & ->)]; [done|]. by destruct Hu.
Qed.

Lemma provision_role now newId user dec db db' u :
  (∀ u, u ∈ d_users db → u_id u = du_id user → u_role u = du_role user) →
  provisionUser date_parse sha256 now newId user dec db = Some db' →
  u ∈ d_users db' → u_id u = du_id user → u_role u = d_role dec ?? du_role user.
Proof.
  intros Hsnap. unfold provisionUser. destruct (planGrantChanges _ _) as [toCreate toRevoke].
  destruct (negb _); [done|]. intros [= <-].
  set (us := update_where _ _ (d_users db)). set (gs := update_where _ _ (_ ++ _)).
  assert (∀ b (x y : DirDb), d_users x = us → d_users y = us → d_users (if b : bool then x else y) = us) as Hif
    by (by intros []).
  rewrite Hif by (rewrite ?(proj1 (audit_rows _ _ _ _ _ _)); done). clear Hif gs.
  unfold us. intros (u0 & Hu0 & ->)%elem_of_update_where. case_bool_decide as Hid; [|done]. intros _. simpl.
  destruct (d_role dec) as [r|]; simpl; [case_bool_decide; simplify_eq/=; by rewrite ?Hsnap|by rewrite Hsnap].
Qed.

Lemma deprovision_spec now user db db' :
  deprovisionUser date_parse sha256 now user db = Some db' →
  (∀ g, g ∈ d_grants db' → g_userId g = du_id user → g_status g ≠ GActive) ∧
  (∀ u, u ∈ d_users db' → u_id u = du_id user → u_status u = UDisabled).
Proof.
  unfold deprovisionUser. destruct (negb _); [done|]. intros [= <-].
  rewrite (proj1 (audit_rows _ _ _ _ _ _)), (proj2 (audit_rows _ _ _ _ _ _)). simpl. split.
  - intros g (g0 & Hg0 & ->)%elem_of_update_where Hu. destruct (active_of _ g0) eqn:Ha; [done|].
    unfold active_of in Ha. rewrite bool_decide_eq_true_2 in Ha by done. simpl in Ha. by reflect_bool.
  - intros u (u0 & Hu0 & ->)%elem_of_update_where. by case_bool_decide.
Qed.

Lemma definitive_unique env user db g1 g2 : definitive env user db g1 → definitive env user db g2 → g1 = g2.
Proof.
  intros (? & ? & ? & ? & _ & _ & _ & _ & _ & Ha & _ & ->) (? & ? & ? & ? & _ & _ & _ & _ & _ & Hb & _ & ->).
  rewrite Ha in Hb. by simplify_eq.
Qed.

(** Closes a branch of [syncUserAtLogin] that never learned the groups. *)
Ltac unlearned :=
  intros [= <- <-]; left; split_and!; [done..|];
  intros ? (? & ? & ? & ? & ?); destruct_and!; simplify_eq; try congruence.

Lemma matched_decision groups ms managed m :
  m ∈ ms → mapping_matches groups m = true → ∃ r, d_role (computeReconcile groups ms managed) = Some r.
Proof.
  intros Hm Hmm. assert (m ∈ List.filter (mapping_matches groups) ms) as Hin by by apply elem_of_matched.
  unfold computeReconcile. destruct (List.filter _ ms) as [|m0 l] eqn:Hf; [by apply not_elem_of_nil in Hin|].
  cbn [d_role]. destruct (omap m_role _) as [|r0 rs] eqn:Hr; [|by eexists].
  destruct (omap m_site (m0 :: l)) eqn:Hs; [|by eexists].
  destruct m0 as [? ? ?|? ? ?]; simpl in *; discriminate.
Qed.

(** The time of the check recorded on the account, and nothing else. *)
Definition stamped (now : Z) (user : DirectoryUser) (db : DirDb) : DirDb :=
  with_rows db (update_where (λ u, u_id u =s du_id user) (set_user None None None now) (d_users db)) (d_grants db).

Lemma unmatched_decision groups ms managed :
  (∀ m, m ∈ ms → mapping_matches groups m = false) →
  computeReconcile groups ms managed = {| deprovision := managed; d_role := None; grantSiteIds := [] |}.
Proof.
  intros Hno. unfold computeReconcile. destruct (List.filter _ ms) as [|m l] eqn:Hf; [done|].
  assert (m ∈ List.filter (mapping_matches groups) ms) as [Hm Hmm]%elem_of_matched by (rewrite Hf; left).
  by rewrite Hno in Hmm.
Qed.

(** The two ways through [syncUserAtLogin]: it did not learn the groups, or it
    did and the decision was carried out. *)
Lemma sync_cases env user db db' refused :
  syncUserAtLogin date_parse sha256 env user db = Some (db', refused) →
  (db' = db ∧ refused = false ∧ ∀ groups, ¬ definitive env user db groups) ∨
  ∃ groups, definitive env user db groups ∧
    let d := computeReconcile groups (listGroupMappingsLite (s_mappingsError env) (d_mappings db))
               (du_directoryManaged user) in
    (deprovision d = true ∧ deprovisionUser date_parse sha256 (s_now env) user db = Some db') ∨
    (refused = false ∧ deprovision d = false ∧
     match d_role d, grantSiteIds d with
     | None, [] => db' = stamped (s_now env) user db
     | _, _ => provisionUser date_parse sha256 (s_now env) (s_newId env) user d db = Some db'
     end).
Proof.
  unfold syncUserAtLogin.
  destruct (getDirectoryConfig _ _) as [cfg|] eqn:Hcfg;
    [|unlearned].
  destruct (_ || _) eqn:Hon;
    [unlearned; apply orb_true_iff in Hon as [?%negb_true_iff|?%negb_true_iff]; congruence|].
  apply orb_false_iff in Hon as [?%negb_false_iff ?%negb_false_iff].
  destruct (verified_recently _ _ _) eqn:Hv;
    [unlearned|].
  destruct (s_bindPasswordThrows env) eqn:Hbp;
    [unlearned|].
  destruct (s_answer env) as [|found memberOf error] eqn:Ha;
    [unlearned|].
  destruct (truthy_opt error) eqn:He;
    [unlearned|].
  set (d := computeReconcile _ _ _). intros Hs. right. exists (if found then memberOf ?? [] else []).
  split; [by exists cfg, found, memberOf, error|]. simpl. fold d. destruct (deprovision d).
  - left. destruct (deprovisionUser _ _ _ _ _); by simplify_eq/=.
  - right. destruct (d_role d), (grantSiteIds d); try (destruct (provisionUser _ _ _ _ _ _ _)); by simplify_eq/=.
Qed.

(** A sign-in that is not refused leaves every account's address and status. *)
Definition kept_user (u : User) (us : list User) : Prop :=
  ∃ u', u' ∈ us ∧ u_id u' = u_id u ∧ u_email u' = u_email u ∧ u_status u' = u_status u.

Lemma kept_update u us p managed role now :
  u ∈ us → kept_user u (update_where p (set_user None managed role now) us).
Proof.
  intros Hu. exists (if p u then set_user None managed role now u else u). split; [|by destruct (p u)].
  apply elem_of_update_where. by exists u.
Qed.

Lemma provision_kept now newId user dec db db' u :
  provisionUser date_parse sha256 now newId user dec db = Some db' → u ∈ d_users db → kept_user u (d_users db').
Proof.
  unfold provisionUser. destruct (planGrantChanges _ _) as [toCreate toRevoke]. destruct (negb _); [done|].
  intros [= <-] Hu.
  match goal with |- kept_user _ (d_users (if ?b then _ else _)) => destruct b end;
    rewrite ?(proj1 (audit_rows _ _ _ _ _ _)); by apply kept_update.
Qed.

Lemma sync_kept env user db db' u :
  syncUserAtLogin date_parse sha256 env user db = Some (db', false) → u ∈ d_users db → kept_user u (d_users db').
Proof.
  assert (u ∈ d_users db → kept_user u (d_users db)) as Hsame by (intros; by exists u).
  unfold syncUserAtLogin. intros Hs Hu. specialize (Hsame Hu).
  destruct (getDirectoryConfig _ _); [|by simplify_eq]. destruct (_ || _); [by simplify_eq|].
  destruct (verified_recently _ _ _); [by simplify_eq|]. destruct (s_bindPasswordThrows env); [by simplify_eq|].
  destruct (s_answer env); [by simplify_eq|]. destruct (truthy_opt _); [by simplify_eq|].
  set (dcn := computeReconcile _ _ _) in Hs. destruct (deprovision dcn); [by destruct (deprovisionUser _ _ _ _ _)|].
  destruct (d_role dcn), (grantSiteIds dcn); try (destruct (provisionUser _ _ _ _ _ _ _) eqn:Hp; simplify_eq/=;
    by eapply provision_kept). simplify_eq/=. by apply kept_update.
Qed.

(** No directory check renames a user: a column it does not write is kept. *)
Lemma sync_column {B} (g : User → B) env user db db' refused :
  (∀ st managed role at' u, g (set_user st managed role at' u) = g u) →
  syncUserAtLogin date_parse sha256 env user db = Some (db', refused) → g <$> d_users db' = g <$> d_users db.
Proof.
  intros Hg. unfold syncUserAtLogin. assert (∀ p st m r at' us, g <$> update_where p (set_user st m r at') us = g <$> us)
    as Hup by (intros; by apply update_where_column).
  destruct (getDirectoryConfig _ _); [|by intros [= <- <-]]. destruct (_ || _); [by intros [= <- <-]|].
  destruct (verified_recently _ _ _); [by intros [= <- <-]|]. destruct (s_bindPasswordThrows env); [by intros [= <- <-]|].
  destruct (s_answer env); [by intros [= <- <-]|]. destruct (truthy_opt _); [by intros [= <- <-]|].
  set (dcn := computeReconcile _ _ _). destruct (deprovision dcn).
  - unfold deprovisionUser. destruct (negb _); [done|]. intros [= <- <-].
    rewrite (proj1 (audit_rows _ _ _ _ _ _)). apply Hup.
  - assert (∀ db1, provisionUser date_parse sha256 (s_now env) (s_newId env) user dcn db = Some db1 →
      g <$> d_users db1 = g <$> d_users db) as Hprov.
    { intros db1. unfold provisionUser. destruct (planGrantChanges _ _). destruct (negb _); [done|]. intros [= <-].
      match goal with |- _ <$> d_users (if ?b then _ else _) = _ => destruct b end;
        rewrite ?(proj1 (audit_rows _ _ _ _ _ _)); apply Hup. }
    destruct (d_role dcn), (grantSiteIds dcn);
      try (destruct (provisionUser _ _ _ _ _ _ _) eqn:Hp; [|done]; simpl; intros [= <- <-]; by apply Hprov).
    intros [= <- <-]. apply Hup.
Qed.

End sync_theorems.

(** A failed read of the mappings is read as "no mapping", so a directory that
    answered normally then disables a managed account. *)
Theorem mapping_read_failure_disables date_parse sha256 env user db groups :
  definitive env user db groups → s_mappingsError env = true → du_directoryManaged user = true →
  existsb (λ u, u_id u =s du_id user) (d_users db) = true →
  ∃ db', syncUserAtLogin date_parse sha256 env user db = Some (db', true).
Proof.
  intros (cfg & found & memberOf & error & Hcfg & Hon & Hc & Hv & Hbp & Ha & He & ->) Hm Hman Hu.
  unfold syncUserAtLogin. rewrite Hcfg, Hon, Hc. cbn [negb orb]. rewrite Hv, Hbp, Ha, He, Hm.
  unfold listGroupMappingsLite, computeReconcile. cbn [List.filter deprovision]. rewrite Hman.
  unfold deprovisionUser. rewrite Hu. cbn [negb]. by eexists.
Qed.

(** The stored bind password: a blank field keeps the one there was, another
    replaces it, and what is read back is what was typed, trimmed. *)
Lemma bind_password_roundtrip encrypt decrypt i row :
  (∀ s, decrypt (encrypt s) = Some s) → (∀ s, truthy (encrypt s) = true) →
  getDirectoryBindPassword decrypt (Some (saveDirectoryConfig encrypt i row)) =
  match di_bindPassword i with
  | Some p => if truthy p then Some (Some (trim p)) else getDirectoryBindPassword decrypt row
  | None => getDirectoryBindPassword decrypt row
  end.
Proof.
  intros Hdec Htr. unfold getDirectoryBindPassword, saveDirectoryConfig. cbn [dc_bindPassword].
  destruct (di_bindPassword i) as [p|]; [destruct (truthy p)|]; simpl; rewrite ?Htr, ?Hdec; by destruct row.
Qed.

(** ** Concrete runs *)

Definition demo_dir_user : User :=
  {| u_id := "u1"; u_email := "ann@corp.example"; u_name := "Ann"; u_company := None; u_phone := None; u_timezone := None; u_role := STAFF;
     u_status := UActive; u_directoryManaged := true; u_directoryLastVerifiedAt := None; u_centerRole := None |}.
Definition demo_login : DirectoryUser :=
  {| du_id := "u1"; du_email := "ann@corp.example"; du_role := STAFF; du_directoryManaged := true |}.
Definition demo_dir_config : DirectoryConfig :=
  {| dc_enabled := true; dc_connectorId := Some "c1"%string; dc_host := "dc"; dc_port := 389;
     dc_security := "STARTTLS"; dc_insecureSkipVerify := false; dc_caCertPem := ""; dc_baseDN := "DC=corp";
     dc_bindDN := "CN=svc"; dc_bindPassword := ""; dc_lastTest := None |}.
Definition demo_dir_db : DirDb :=
  {| d_users := [demo_dir_user]; d_sites := []; d_grants := [dir_grant "g0" "u1" "old"];
     d_mappings := [{| gm_id := "m1"; gm_groupDN := "Captivo-Ops"; gm_kind := "ROLE"; gm_role := Some OPERATOR;
                       gm_siteId := None; gm_enabled := true |};
                    {| gm_id := "m2"; gm_groupDN := "CN=Plant, OU=Groups"; gm_kind := "SITE"; gm_role := None;
                       gm_siteId := Some "s1"%string; gm_enabled := true |}];
     d_config := Some demo_dir_config; d_log := {| auditEvents := []; chainState := None |} |}.
Definition demo_sync (groups : list string) : SyncEnv :=
  {| s_now := 1700000000000; s_throttle := None; s_configError := false; s_mappingsError := false;
     s_bindPasswordThrows := false; s_answer := LdapAnswer true (Some groups) None; s_newId := id |}.
Definition demo_groups : list string := ["CN=captivo-ops,OU=Groups,DC=corp"; "cn=plant,ou=groups"]%string.
Definition no_dates (_ : string) : jsdate := InvalidDate.

