(* ===== verification/Connector.v ===== *)
(** * Connectors

    Enrolment by one-time pairing code and bearer-token authentication
    (src/lib/connector/enrollment.ts), the routes that create, revoke, repair,
    delete and configure connectors (src/app/api/admin/connectors), and the data
    plane's status reports (src/app/api/internal/connector).

    The tables hold every tenant's rows; a handler running in a tenant's scope
    sees and writes the rows carrying its tenant id.  Calls to the data plane
    (dropping a live tunnel, pushing policy) change nothing here. *)

From S2P Require Import Prelude JsString JsValue Schema AuditChain AccessLog AdminLog Identity Cidr Access RateLimit Tenant.

Record Connector := {
  cn_id : string;
  cn_tenantId : string;
  cn_name : string;
  cn_tokenHash : string;
  cn_status : ConnectorStatus;
  cn_lastSeenAt : option Z;
  cn_version : option string;
  cn_remoteAddr : option string;
  cn_egressPolicy : option string;
  cn_logLevel : option string;
}.

Record ConnectorPairing := {
  cp_id : string;
  cp_tenantId : string;
  cp_codeHash : string;
  cp_name : string;
  cp_connectorId : option string;
  cp_expiresAt : Z;
  cp_usedAt : option Z;
}.

(** [f_sites]: the connector of each site, the [sites] relation. *)
Record Fleet := {
  f_connectors : list Connector;
  f_pairings : list ConnectorPairing;
  f_sites : list (string * string);
  f_admin : AdminDb;
}.

Definition with_connectors (f : Fleet) (cs : list Connector) : Fleet :=
  {| f_connectors := cs; f_pairings := f_pairings f; f_sites := f_sites f; f_admin := f_admin f |}.
Definition with_pairings (f : Fleet) (ps : list ConnectorPairing) : Fleet :=
  {| f_connectors := f_connectors f; f_pairings := ps; f_sites := f_sites f; f_admin := f_admin f |}.

(** [where: { id }] in a tenant's scope. *)
Definition is_connector (tid id : string) (c : Connector) : bool := (cn_id c =s id) && (cn_tenantId c =s tid).
Definition is_pairing (tid id : string) (p : ConnectorPairing) : bool := (cp_id p =s id) && (cp_tenantId p =s tid).
Definition not_revoked (c : Connector) : bool := negb (bool_decide (cn_status c = CRevoked)).

(** ** Enrolment *)

Section enrollment.
(** [verifyTokenHash]: argon2 verification, false when it throws. *)
Context (verifyTokenHash : string → string → bool).

(** The randomness of a request: identifiers and argon2 hashes of new tokens. *)
Definition createPairing (tid : string) (now : Z) (id codeHash name : string) (connectorId : option string)
    (ttlMinutes : Z) (f : Fleet) : Fleet :=
  with_pairings f (f_pairings f ++
    [{| cp_id := id; cp_tenantId := tid; cp_codeHash := codeHash; cp_name := name; cp_connectorId := connectorId;
        cp_expiresAt := now + ttlMinutes * 60000; cp_usedAt := None |}]).

Record Enroll := {
  en_now : Z;
  en_name : option string;
  en_version : option string;
  en_newId : string;
  en_tokenHash : string;
}.

Definition consume (now : Z) (p : ConnectorPairing) : ConnectorPairing :=
  {| cp_id := cp_id p; cp_tenantId := cp_tenantId p; cp_codeHash := cp_codeHash p; cp_name := cp_name p;
     cp_connectorId := cp_connectorId p; cp_expiresAt := cp_expiresAt p; cp_usedAt := Some now |}.

Definition rotate (tokenHash : string) (version : option string) (c : Connector) : Connector :=
  {| cn_id := cn_id c; cn_tenantId := cn_tenantId c; cn_name := cn_name c; cn_tokenHash := tokenHash;
     cn_status := CPending; cn_lastSeenAt := cn_lastSeenAt c;
     cn_version := match version with Some v => Some v | None => cn_version c end;
     cn_remoteAddr := cn_remoteAddr c; cn_egressPolicy := cn_egressPolicy c; cn_logLevel := cn_logLevel c |}.

Definition new_connector (tid : string) (rq : Enroll) (p : ConnectorPairing) : Connector :=
  {| cn_id := en_newId rq; cn_tenantId := tid;
     cn_name := match en_name rq with Some n => if truthy (trim n) then trim n else cp_name p | None => cp_name p end;
     cn_tokenHash := en_tokenHash rq; cn_status := CPending; cn_lastSeenAt := None; cn_version := en_version rq;
     cn_remoteAddr := None; cn_egressPolicy := None; cn_logLevel := None |}.

(** The transaction of [finishRedeem].  In cloud ([multi]) it runs on the
    request's own transaction, and its throw undoes nothing. *)
Definition finishRedeem (multi : bool) (tid : string) (rq : Enroll) (p : ConnectorPairing) (f : Fleet) : Fleet * option string :=
  let mine := λ q, is_pairing tid (cp_id p) q && bool_decide (cp_usedAt q = None) in
  if count_where mine (f_pairings f) =? 0 then (f, None) else
  let f1 := with_pairings f (update_where mine (consume (en_now rq)) (f_pairings f)) in
  match some_truthy (cp_connectorId p) with
  | Some cid =>
      let live := λ c, is_connector tid cid c && not_revoked c in
      if count_where live (f_connectors f1) =? 0 then ((if multi then f1 else f), None)
      else (with_connectors f1 (update_where live (rotate (en_tokenHash rq) (en_version rq)) (f_connectors f1)), Some cid)
  | None => (with_connectors f1 (f_connectors f1 ++ [new_connector tid rq p]), Some (en_newId rq))
  end.

Definition redeemable (code : string) (now : Z) (p : ConnectorPairing) : bool :=
  bool_decide (cp_usedAt p = None) && (now <? cp_expiresAt p) && verifyTokenHash code (cp_codeHash p).

(** [redeemPairing]; [between]: what other requests did to the tables after the
    scan and before the write. *)
Definition redeemPairing (multi : bool) (between : Fleet → Fleet) (code : string) (rq : Enroll) (f : Fleet)
    : Fleet * option string :=
  match find_row (redeemable code (en_now rq)) (f_pairings f) with
  | None => (f, None)
  | Some p =>
      let f1 := between f in
      if multi then
        match find_row (is_pairing (cp_tenantId p) (cp_id p)) (f_pairings f1) with
        | Some full =>
            if bool_decide (cp_usedAt full = None) && (en_now rq <? cp_expiresAt full)
            then finishRedeem multi (cp_tenantId p) rq full f1 else (f1, None)
        | None => (f1, None)
        end
      else finishRedeem multi (cp_tenantId p) rq p f1
  end.

(** The connector a bearer token belongs to, and in cloud its tenant. *)
Definition validateConnectorToken (multi : bool) (token : string) (f : Fleet) : option (string * option string) :=
  if multi then
    match find_row (λ c, verifyTokenHash token (cn_tokenHash c)) (f_connectors f) with
    | Some c =>
        match find_row (is_connector (cn_tenantId c) (cn_id c)) (f_connectors f) with
        | Some live => if not_revoked live then Some (cn_id c, Some (cn_tenantId c)) else None
        | None => None
        end
    | None => None
    end
  else
    match find_row (λ c, not_revoked c && verifyTokenHash token (cn_tokenHash c)) (f_connectors f) with
    | Some c => Some (cn_id c, None)
    | None => None
    end.

(** The agent's enrolment route, behind the rate limiter. *)
Definition enrollPost (multi : bool) (between : Fleet → Fleet) (ip : option string) (l : Limiter) (body : json)
    (rq : Enroll) (f : Fleet) : Limiter * Fleet * response string :=
  let '(l', ok) := checkRateLimit (en_now rq) ((ip ?? "unknown") +:+ ":/api/connector/enroll") 10 60000 l in
  if negb ok then (l', f, Fail 429 "rate_limited") else
  let pairCode := str_or_empty (obj_get body "pairCode") in
  if negb (truthy pairCode) then (l', f, Fail 400 "invalid_body") else
  let '(f', r) := redeemPairing multi between pairCode
                    {| en_now := en_now rq;
                       en_name := match obj_get body "name" with JStr s => Some s | _ => None end;
                       en_version := match obj_get body "version" with JStr s => Some s | _ => None end;
                       en_newId := en_newId rq; en_tokenHash := en_tokenHash rq |} f in
  (l', f', match r with Some cid => Reply 200 cid | None => Fail 401 "invalid_pairing" end).

Definition connectorAuthPost (multi : bool) (secret header : option string) (body : json) (f : Fleet)
    : response (string * option string) :=
  if negb (timingSafeEqualStr header secret) then Fail 403 "forbidden" else
  match validateConnectorToken multi (str_or_empty (obj_get body "token")) f with
  | Some r => Reply 200 r
  | None => Fail 401 "invalid_token"
  end.
End enrollment.

(** ** The console's routes *)

Definition canRepairConnector (status : ConnectorStatus) : bool := negb (bool_decide (status = CRevoked)).

(** [inl]: the reason a connector cannot be deleted. *)
Definition canDeleteConnector (status : ConnectorStatus) (siteCount : Z) : string + unit :=
  if negb (bool_decide (status = CRevoked)) then inl "not_revoked"%string
  else if 0 <? siteCount then inl "has_sites"%string else inr tt.

Definition set_cn_status (st : ConnectorStatus) (c : Connector) : Connector :=
  {| cn_id := cn_id c; cn_tenantId := cn_tenantId c; cn_name := cn_name c; cn_tokenHash := cn_tokenHash c;
     cn_status := st; cn_lastSeenAt := cn_lastSeenAt c; cn_version := cn_version c;
     cn_remoteAddr := cn_remoteAddr c; cn_egressPolicy := cn_egressPolicy c; cn_logLevel := cn_logLevel c |}.

Definition set_settings (name egress level : option (option string)) (c : Connector) : Connector :=
  {| cn_id := cn_id c; cn_tenantId := cn_tenantId c;
     cn_name := match name with Some (Some n) => n | _ => cn_name c end; cn_tokenHash := cn_tokenHash c;
     cn_status := cn_status c; cn_lastSeenAt := cn_lastSeenAt c; cn_version := cn_version c;
     cn_remoteAddr := cn_remoteAddr c; cn_egressPolicy := egress ?? cn_egressPolicy c;
     cn_logLevel := level ?? cn_logLevel c |}.

(** The double quote of a summary. *)
Definition dq : string := unchars [Ascii.ascii_of_N 34].

Section connector_routes.
Context (frac_text : Z → string) (digest : string → string) (json_store : json → json).

Definition conn_audit (rq : Req) (me : User) (action : string) (targetType targetId : option string)
    (summary : string) (f : Fleet) : Fleet :=
  {| f_connectors := f_connectors f; f_pairings := f_pairings f; f_sites := f_sites f;
     f_admin := recordAdminAction frac_text digest json_store (rq_auditFails rq) (rq_auditId rq) (rq_now rq)
       (f_admin f)
       {| in_actor := {| actor_id := u_id me; actor_email := Some (u_email me) |}; in_action := action;
          in_targetType := targetType; in_targetId := targetId; in_summary := summary; in_metadata := JUndefined;
          in_clientIp := rq_clientIp rq |} |}.

(** The two guards every route here opens with. *)
Definition configuring {A} (rq : Req) (f : Fleet) (h : User → Fleet * response A) : Fleet * response A :=
  match rq_user rq with
  | None => (f, Fail 401 "unauthorized")
  | Some me => if can (u_role me) configure then h me else (f, Fail 403 "forbidden")
  end.

Definition connectorsPost (tid : string) (e : TenantEnvelope) (rq : Req) (codeHash : string) (body : json) (f : Fleet)
    : Fleet * response unit :=
  configuring rq f (λ me,
    let name := trim (str_or_empty (obj_get body "name")) in
    if negb (truthy name) then (f, Fail 400 "name_required") else
    match assertWithinLimit e maxConnectors
            (count_where (λ c, (cn_tenantId c =s tid) && not_revoked c) (f_connectors f)) with
    | inl _ => (f, Fail 409 "limit_reached")
    | inr _ =>
        (conn_audit rq me "connector.create" (Some "connector"%string) None
           ("Created connector " +:+ dq +:+ name +:+ dq)
           (createPairing tid (rq_now rq) (rq_id rq) codeHash name None 15 f), Reply 200 tt)
    end).

(** Revocation. *)
Definition connectorsDelete (tid : string) (rq : Req) (id : option string) (f : Fleet) : Fleet * response unit :=
  configuring rq f (λ me,
    match some_truthy id with
    | None => (f, Fail 400 "id_required")
    | Some i =>
        if count_where (is_connector tid i) (f_connectors f) =? 0 then (f, Fail 404 "not_found") else
        (conn_audit rq me "connector.revoke" (Some "connector"%string) (Some i) ("Revoked connector " +:+ i)
           (with_connectors f (update_where (is_connector tid i) (set_cn_status CRevoked) (f_connectors f))),
         Reply 200 tt)
    end).

(** Re-pairing; [between]: what other requests did between the read of the
    connector and the writes.  A write to a row that is gone by then throws.  [throwaway]: the hash of a discarded token. *)
Definition repairPost (tid : string) (between : Fleet → Fleet) (rq : Req) (codeHash throwaway : string) (id : string)
    (body : json) (f : Fleet) : Fleet * response unit :=
  configuring rq f (λ me,
    match find_row (is_connector tid id) (f_connectors f) with
    | None => (f, Fail 404 "not_found")
    | Some c =>
        if negb (canRepairConnector (cn_status c)) then (f, Fail 409 "not_repairable") else
        let f0 := between f in
        (* the new pairing references the connector *)
        if count_where (is_connector tid id) (f_connectors f0) =? 0 then (f0, Fail 500 "error") else
        let f1 := createPairing tid (rq_now rq) (rq_id rq) codeHash (cn_name c) (Some id) 15 f0 in
        let f2 := match obj_get body "invalidateNow" with
                  | JBool true =>
                      with_connectors f1
                        (update_where (is_connector tid id) (rotate throwaway None) (f_connectors f1))
                  | _ => f1
                  end in
        (conn_audit rq me "connector.repair" (Some "connector"%string) (Some id) ("Repaired connector " +:+ id) f2,
         Reply 200 tt)
    end).

(** Deleting a connector removes its pairings (and would remove its sites). *)
Definition connectorDeletePost (tid : string) (between : Fleet → Fleet) (rq : Req) (id : string) (f : Fleet)
    : Fleet * response unit :=
  configuring rq f (λ me,
    match find_row (is_connector tid id) (f_connectors f) with
    | None => (f, Fail 404 "not_found")
    | Some c =>
        match canDeleteConnector (cn_status c) (count_where (λ s, s.2 =s id) (f_sites f)) with
        | inl reason => (f, Fail 409 reason)
        | inr _ =>
            let f1 := between f in
            if count_where (is_connector tid id) (f_connectors f1) =? 0 then (f1, Fail 500 "error") else
            (conn_audit rq me "connector.delete" (Some "connector"%string) (Some id) ("Deleted connector " +:+ id)
               {| f_connectors := delete_where (is_connector tid id) (f_connectors f1);
                  f_pairings := delete_where (λ p, bool_decide (cp_connectorId p = Some id)) (f_pairings f1);
                  f_sites := delete_where (λ s, s.2 =s id) (f_sites f1); f_admin := f_admin f1 |},
             Reply 200 tt)
        end
    end).

Definition pairingDeletePost (tid : string) (between : Fleet → Fleet) (rq : Req) (id : string) (f : Fleet)
    : Fleet * response unit :=
  configuring rq f (λ me,
    match find_row (is_pairing tid id) (f_pairings f) with
    | None => (f, Fail 404 "not_found")
    | Some p =>
        if negb (bool_decide (cp_usedAt p = None)) || negb (bool_decide (cp_connectorId p = None))
        then (f, Fail 404 "not_found") else
        let f1 := between f in
        if count_where (is_pairing tid id) (f_pairings f1) =? 0 then (f1, Fail 500 "error") else
        (conn_audit rq me "connector.pairing_delete" (Some "connector_pairing"%string) (Some id)
           ("Deleted pending connector pairing " +:+ dq +:+ cp_name p +:+ dq)
           (with_pairings f1 (delete_where (is_pairing tid id) (f_pairings f1))), Reply 200 tt)
    end).

Definition NAME_MAX : Z := 100.

Definition connectorPatch (tid : string) (rq : Req) (id : string) (body : json) (f : Fleet) : Fleet * response unit :=
  configuring rq f (λ _,
    match obj_get body "name" with
    | JStr s =>
        let name := trim s in
        if negb (truthy name) then (f, Fail 400 "invalid_name") else
        if NAME_MAX <? js_length name then (f, Fail 400 "name_too_long") else
        if count_where (is_connector tid id) (f_connectors f) =? 0 then (f, Fail 404 "not_found") else
        (with_connectors f (update_where (is_connector tid id) (set_settings (Some (Some name)) None None)
                              (f_connectors f)), Reply 200 tt)
    | _ => (f, Fail 400 "nothing_to_update")
    end).

Definition egressPolicyPost (tid : string) (rq : Req) (id : string) (body : json) (f : Fleet) : Fleet * response unit :=
  configuring rq f (λ me,
    let egress := trim (str_or_empty (obj_get body "egressAllowedTargets")) in
    if count_where (is_connector tid id) (f_connectors f) =? 0 then (f, Fail 404 "not_found") else
    (conn_audit rq me "connector.egress_update" (Some "connector"%string) (Some id)
       ("Updated egress policy for connector " +:+ id)
       (with_connectors f (update_where (is_connector tid id)
          (set_settings None (Some (if truthy egress then Some egress else None)) None) (f_connectors f))),
     Reply 200 tt)).

Definition LEVELS : list string := ["debug"; "info"; "warn"; "error"]%string.

Definition logLevelPost (tid : string) (rq : Req) (id : string) (body : json) (f : Fleet) : Fleet * response unit :=
  configuring rq f (λ me,
    let raw := str_or_empty (obj_get body "logLevel") in
    let level := if bool_decide (raw ∈ LEVELS) then Some raw else None in
    if count_where (is_connector tid id) (f_connectors f) =? 0 then (f, Fail 404 "not_found") else
    (conn_audit rq me "connector.log_level" (Some "connector"%string) (Some id) ("Set log level for connector " +:+ id)
       (with_connectors f (update_where (is_connector tid id) (set_settings None None (Some level))
          (f_connectors f))), Reply 200 tt)).

Definition logLevelResetPost (tid : string) (rq : Req) (f : Fleet) : Fleet * response Z :=
  configuring rq f (λ me,
    let set := λ c, (cn_tenantId c =s tid) && negb (bool_decide (cn_logLevel c = None)) in
    (conn_audit rq me "config.log_level_reset" None None "Reset all connector log levels"
       (with_connectors f (update_where set (set_settings None None (Some None)) (f_connectors f))),
     Reply 200 (count_where set (f_connectors f)))).
End connector_routes.

(** The data plane's report that a tunnel came up or went down. *)
Definition set_reported (st : ConnectorStatus) (now : Z) (addr version : json) (c : Connector) : Connector :=
  {| cn_id := cn_id c; cn_tenantId := cn_tenantId c; cn_name := cn_name c; cn_tokenHash := cn_tokenHash c;
     cn_status := st; cn_lastSeenAt := Some now;
     cn_version := match version with JStr v => Some v | _ => cn_version c end;
     cn_remoteAddr := match addr with JStr a => Some a | _ => cn_remoteAddr c end;
     cn_egressPolicy := cn_egressPolicy c; cn_logLevel := cn_logLevel c |}.

Definition connectorStatusPost (secret header : option string) (multi : bool) (now : Z) (body : json) (f : Fleet)
    : Fleet * response (option string) :=
  if negb (timingSafeEqualStr header secret) then (f, Fail 403 "forbidden") else
  let connectorId := str_or_empty (obj_get body "connectorId") in
  match (if multi then cn_tenantId <$> find_row (λ c, cn_id c =s connectorId) (f_connectors f)
         else Some "default"%string) with
  | None => (f, Fail 404 "unknown_tenant")
  | Some tid =>
      match match obj_get body "status" with
            | JStr s => if s =s "ONLINE" then Some COnline else if s =s "OFFLINE" then Some COffline else None
            | _ => None
            end with
      | None => (f, Fail 400 "invalid_body")
      | Some st =>
          if negb (truthy connectorId) then (f, Fail 400 "invalid_body") else
          let f' := with_connectors f (update_where (λ c, is_connector tid connectorId c && not_revoked c)
                      (set_reported st now (obj_get body "remoteAddr") (obj_get body "version")) (f_connectors f)) in
          (f', Reply 200 (find_row (is_connector tid connectorId) (f_connectors f') ≫= cn_egressPolicy))
      end
  end.

(** ** Theorems: enrolment *)

Lemma is_connector_spec tid id c : is_connector tid id c = true ↔ cn_id c = id ∧ cn_tenantId c = tid.
Proof. unfold is_connector. by rewrite andb_true_iff, !bool_decide_eq_true. Qed.
Lemma is_pairing_spec tid id p : is_pairing tid id p = true ↔ cp_id p = id ∧ cp_tenantId p = tid.
Proof. unfold is_pairing. by rewrite andb_true_iff, !bool_decide_eq_true. Qed.
Lemma not_revoked_spec c : not_revoked c = true ↔ cn_status c ≠ CRevoked.
Proof. unfold not_revoked. by rewrite negb_true_iff, bool_decide_eq_false. Qed.

Lemma count_where_ex {A} (p : A → bool) rows : (count_where p rows =? 0) = false → ∃ r, r ∈ rows ∧ p r = true.
Proof.
  intros H. reflect_bool. unfold count_where in H. destruct (List.filter p rows) as [|r l] eqn:Hf; [done|].
  exists r. assert (In r (List.filter p rows)) as [Hr Hp]%filter_In by (rewrite Hf; by left).
  by rewrite list_elem_of_In.
Qed.

(** What a redemption that answered with a connector did. *)
Lemma finishRedeem_spec multi tid rq p f f' cid :
  finishRedeem multi tid rq p f = (f', Some cid) →
  (∃ q, q ∈ f_pairings f ∧ is_pairing tid (cp_id p) q = true ∧ cp_usedAt q = None) ∧
  (∀ q, q ∈ f_pairings f' → is_pairing tid (cp_id p) q = true → cp_usedAt q ≠ None) ∧
  (∃ c, c ∈ f_connectors f' ∧ is_connector tid cid c = true ∧ cn_tokenHash c = en_tokenHash rq ∧
        cn_status c = CPending) ∧
  (∀ c, c ∈ f_connectors f → is_connector tid cid c = false ∨ cn_status c = CRevoked → c ∈ f_connectors f').
Proof.
  unfold finishRedeem. set (mine := λ q, _ && _).
  destruct (count_where mine _ =? 0) eqn:Hc; [done|]. apply count_where_ex in Hc as (q & Hq & Hm).
  unfold mine in Hm. reflect_bool.
  assert (∀ q', q' ∈ update_where mine (consume (en_now rq)) (f_pairings f) →
    is_pairing tid (cp_id p) q' = true → cp_usedAt q' ≠ None) as Hused.
  { intros q' (q0 & _ & ->)%elem_of_update_where. destruct (mine q0) eqn:Hm0; [done|]. intros Hid.
    unfold mine in Hm0. rewrite Hid in Hm0. simpl in Hm0. by reflect_bool. }
  destruct (some_truthy (cp_connectorId p)) as [c0|].
  - set (live := λ c, _ && _). destruct (count_where live _ =? 0) eqn:Hl; [done|].
    apply count_where_ex in Hl as (c & Hcin & Hlive). intros [= <- <-]. split_and!; [by exists q|done| |].
    + exists (rotate (en_tokenHash rq) (en_version rq) c). split_and!; [|by unfold live in Hlive; reflect_bool|done..].
      apply elem_of_update_where. exists c. by rewrite Hlive.
    + intros c1 Hc1 Hno. apply elem_of_update_where. exists c1. split; [done|].
      destruct (live c1) eqn:Hl1; [|done]. unfold live in Hl1. apply andb_true_iff in Hl1 as [Hl1 Hnr%not_revoked_spec].
      destruct Hno; congruence.
  - intros [= <- <-]. split_and!; [by exists q|done| |].
    + exists (new_connector tid rq p). split_and!; [set_solver| |done..]. by apply is_connector_spec.
    + intros c1 Hc1 _. set_solver.
Qed.

Section enrollment_theorems.
Context (verifyTokenHash : string → string → bool).

(** Enrolment.  Whatever other requests do between the scan and the write,
    a redemption that hands out a connector credential matched an unexpired,
    unused pairing by its code; that pairing was still unused when it
    committed and is used afterwards, so no code gives two credentials; the
    credential is the one stored for the connector answered, which belongs to
    the pairing's tenant; and no other connector, nor a revoked one, changed. *)
Theorem enroll_sound multi between code rq f f' cid :
  redeemPairing verifyTokenHash multi between code rq f = (f', Some cid) →
  ∃ p, p ∈ f_pairings f ∧ cp_usedAt p = None ∧ en_now rq < cp_expiresAt p ∧
    verifyTokenHash code (cp_codeHash p) = true ∧
    (∃ q, q ∈ f_pairings (between f) ∧ is_pairing (cp_tenantId p) (cp_id p) q = true ∧ cp_usedAt q = None) ∧
    (∀ q, q ∈ f_pairings f' → is_pairing (cp_tenantId p) (cp_id p) q = true → cp_usedAt q ≠ None) ∧
    (∃ c, c ∈ f_connectors f' ∧ is_connector (cp_tenantId p) cid c = true ∧ cn_tokenHash c = en_tokenHash rq ∧
          cn_status c = CPending) ∧
    (∀ c, c ∈ f_connectors (between f) →
          is_connector (cp_tenantId p) cid c = false ∨ cn_status c = CRevoked → c ∈ f_connectors f').
Proof.
  unfold redeemPairing. destruct (find_row _ _) as [p|] eqn:Hf; [|done].
  apply find_row_Some in Hf as [Hp Hr]. unfold redeemable in Hr. reflect_bool. intros Hrd. exists p.
  split_and!; try done; (destruct multi;
    [destruct (find_row (is_pairing _ _) _) as [full|] eqn:Hfull; [|done];
     apply find_row_Some in Hfull as [_ [Hid _]%is_pairing_spec]; case_match; [|done]|]);
    apply finishRedeem_spec in Hrd as (? & ? & ? & ?); rewrite ?Hid in *; done.
Qed.
End enrollment_theorems.

(** ** Theorems: revocation *)

Section revocation.
Context (verifyTokenHash : string → string → bool).
Context (frac_text : Z → string) (digest : string → string) (json_store : json → json).

(** What a deployment can do to its connectors after some moment.  A request
    that reads first and writes later may have any other requests in between
    ([f1] to [f2]); re-pairing runs here without such a gap.  No new connector
    is given the identifier [cid]. *)
Inductive reach (cid : string) : Fleet → Fleet → Prop :=
  | reach_refl f : reach cid f f
  | reach_enroll f f1 f2 multi ip l body rq : reach cid f f1 → reach cid f1 f2 → en_newId rq ≠ cid →
      reach cid f (enrollPost verifyTokenHash multi (λ _, f2) ip l body rq f1).1.2
  | reach_create f f1 tid e rq codeHash body : reach cid f f1 →
      reach cid f (connectorsPost frac_text digest json_store tid e rq codeHash body f1).1
  | reach_revoke f f1 tid rq id : reach cid f f1 →
      reach cid f (connectorsDelete frac_text digest json_store tid rq id f1).1
  | reach_repair f f1 tid rq codeHash throwaway id body : reach cid f f1 →
      reach cid f (repairPost frac_text digest json_store tid (λ x, x) rq codeHash throwaway id body f1).1
  | reach_delete f f1 f2 tid rq id : reach cid f f1 → reach cid f1 f2 →
      reach cid f (connectorDeletePost frac_text digest json_store tid (λ _, f2) rq id f1).1
  | reach_pairing_delete f f1 f2 tid rq id : reach cid f f1 → reach cid f1 f2 →
      reach cid f (pairingDeletePost frac_text digest json_store tid (λ _, f2) rq id f1).1
  | reach_rename f f1 tid rq id body : reach cid f f1 → reach cid f (connectorPatch tid rq id body f1).1
  | reach_egress f f1 tid rq id body : reach cid f f1 →
      reach cid f (egressPolicyPost frac_text digest json_store tid rq id body f1).1
  | reach_level f f1 tid rq id body : reach cid f f1 →
      reach cid f (logLevelPost frac_text digest json_store tid rq id body f1).1
  | reach_level_reset f f1 tid rq : reach cid f f1 →
      reach cid f (logLevelResetPost frac_text digest json_store tid rq f1).1
  | reach_status f f1 secret header multi now body : reach cid f f1 →
      reach cid f (connectorStatusPost secret header multi now body f1).1.

Definition revoked_rows (cid : string) (cs : list Connector) : Prop :=
  ∀ c, c ∈ cs → cn_id c = cid → cn_status c = CRevoked.

Lemma revoked_update cid p g cs :
  (∀ c, p c = true → cn_id (g c) = cn_id c ∧ (cn_id c = cid → cn_status c = CRevoked → cn_status (g c) = CRevoked)) →
  revoked_rows cid cs → revoked_rows cid (update_where p g cs).
Proof.
  intros Hg Hr c (c0 & Hc0 & ->)%elem_of_update_where. destruct (p c0) eqn:Hp; [|by apply Hr].
  destruct (Hg c0 Hp) as [-> Hst]. intros Hid. apply Hst; [done|]. by apply Hr.
Qed.

Lemma revoked_guarded cid tid id g cs :
  (∀ c, cn_id (g c) = cn_id c) → revoked_rows cid cs →
  revoked_rows cid (update_where (λ c, is_connector tid id c && not_revoked c) g cs).
Proof.
  intros Hg. apply revoked_update. intros c [_ Hnr%not_revoked_spec]%andb_true_iff. by split.
Qed.

Lemma revoked_sublist cid cs cs' : (∀ c, c ∈ cs' → c ∈ cs) → revoked_rows cid cs → revoked_rows cid cs'.
Proof. intros Hsub Hr c Hc. by apply Hr, Hsub. Qed.

Lemma finishRedeem_revoked cid multi tid rq p f :
  en_newId rq ≠ cid → revoked_rows cid (f_connectors f) → revoked_rows cid (f_connectors (finishRedeem multi tid rq p f).1).
Proof.
  intros Hn Hr. unfold finishRedeem. destruct (_ =? 0); [done|]. destruct (some_truthy _) as [c0|].
  - destruct (_ =? 0); [by destruct multi|]. by apply revoked_guarded.
  - intros c [Hc| ->%list_elem_of_singleton]%elem_of_app; [by apply Hr|done].
Qed.

Lemma redeem_revoked cid multi f2 code rq f :
  en_newId rq ≠ cid → revoked_rows cid (f_connectors f) → revoked_rows cid (f_connectors f2) →
  revoked_rows cid (f_connectors (redeemPairing verifyTokenHash multi (λ _, f2) code rq f).1).
Proof using verifyTokenHash.
  intros Hn Hr Hr2. unfold redeemPairing. destruct (find_row _ _); [|done]. destruct multi.
  - destruct (find_row _ _); [|done]. case_match; [|done]. by apply finishRedeem_revoked.
  - by apply finishRedeem_revoked.
Qed.

(** The handler of a guarded route, or nothing. *)
Lemma configuring_ind {A} (P : Fleet → Prop) rq f (h : User → Fleet * response A) :
  P f → (∀ me, P (h me).1) → P (configuring rq f h).1.
Proof. intros Hf Hh. unfold configuring. destruct (rq_user rq); [|done]. by destruct (can _ _). Qed.

(** Opens a guarded route and splits its branches. *)
Ltac open_route cid :=
  apply (configuring_ind (λ x, revoked_rows cid (f_connectors x))); [by auto|]; intros me; cbv zeta.

Lemma reach_revoked cid f f' :
  reach cid f f' → revoked_rows cid (f_connectors f) → revoked_rows cid (f_connectors f').
Proof.
  induction 1 as [f|f f1 f2 multi ip l body rq ? IH1 ? IH2 Hn|f f1 tid e rq ch body ? IH|f f1 tid rq id ? IH
    |f f1 tid rq ch tw id body ? IH|f f1 f2 tid rq id ? IH1 ? IH2|f f1 f2 tid rq id ? IH1 ? IH2
    |f f1 tid rq id body ? IH|f f1 tid rq id body ? IH|f f1 tid rq id body ? IH|f f1 tid rq ? IH
    |f f1 secret header multi now body ? IH]; intros Hr.
  - done.
  - unfold enrollPost. destruct (checkRateLimit _ _ _ _ _) as [l' ok]. destruct ok; [|by apply IH1].
    cbn [negb]. destruct (truthy _); [|by apply IH1]. cbn [negb].
    destruct (redeemPairing _ _ _ _ _ _) as [f' r] eqn:Hrd. cbn [fst snd].
    apply (f_equal fst) in Hrd. cbn [fst] in Hrd. rewrite <-Hrd. apply redeem_revoked; auto.
  - open_route cid.
    repeat case_match; auto.
  - open_route cid.
    repeat case_match; auto. apply revoked_update; [|auto]. done.
  - open_route cid.
    destruct (find_row _ _) as [c|] eqn:Hf; [|auto]. apply find_row_Some in Hf as [Hc [Hid _]%is_connector_spec].
    destruct (canRepairConnector _) eqn:Hrep; [|by apply IH].
    assert (id ≠ cid) as Hne.
    { intros ->. unfold canRepairConnector in Hrep. rewrite (IH Hr c Hc Hid) in Hrep. done. }
    cbn [negb]. repeat case_match; auto. apply revoked_update; [|by apply IH].
    intros c0 [? _]%is_connector_spec. split; [done|]. congruence.
  - open_route cid.
    repeat case_match; auto. cbn. eapply revoked_sublist; [|by apply IH2, IH1].
    intros c0 [? _]%elem_of_delete_where. done.
  - open_route cid. repeat case_match; auto.
  - open_route cid.
    repeat case_match; auto; apply revoked_update; auto.
  - open_route cid.
    case_match; auto. apply revoked_update; auto.
  - open_route cid.
    case_match; auto. apply revoked_update; auto.
  - open_route cid. apply revoked_update; auto.
  - unfold connectorStatusPost. destruct (negb _); [auto|]. repeat case_match; auto; by apply revoked_guarded; auto.
Qed.

(** C7: revocation is final.  Once a connector is revoked, no sequence of
    requests -- enrolments and re-pairings included, however enrolments and
    deletions overlap with others -- leads to a state where any token
    authenticates as that connector. *)
Theorem revocation_final cid f f' multi token i t :
  revoked_rows cid (f_connectors f) → reach cid f f' →
  validateConnectorToken verifyTokenHash multi token f' = Some (i, t) → i ≠ cid.
Proof.
  intros Hr Hreach Hv ->. apply reach_revoked in Hreach; [|done]. unfold validateConnectorToken in Hv.
  destruct multi; destruct (find_row _ _) as [c|] eqn:Hf; try done.
  - destruct (find_row (is_connector _ _) _) as [live|] eqn:Hl; [|done].
    apply find_row_Some in Hl as [Hin [Hid _]%is_connector_spec].
    destruct (not_revoked live) eqn:Hnr; [|done]. simplify_eq. apply not_revoked_spec in Hnr. by apply Hnr, Hreach.
  - apply find_row_Some in Hf as [Hin [Hnr%not_revoked_spec _]%andb_true_iff]. simplify_eq. by apply Hnr, Hreach.
Qed.
End revocation.

(** ** Concrete runs *)

Definition plain_verify (token hash : string) : bool := hash =s "#" +:+ token.
Definition demo_connector (st : ConnectorStatus) : Connector :=
  {| cn_id := "c1"; cn_tenantId := "default"; cn_name := "plant"; cn_tokenHash := "#old"; cn_status := st;
     cn_lastSeenAt := None; cn_version := None; cn_remoteAddr := None; cn_egressPolicy := None; cn_logLevel := None |}.
Definition demo_fleet (st : ConnectorStatus) : Fleet :=
  {| f_connectors := [demo_connector st]; f_pairings := []; f_sites := [];
     f_admin := {| adminRows := []; adminHead := None |} |}.
Definition demo_admin_user : User :=
  {| u_id := "a"; u_email := "a@b"; u_name := "A"; u_company := None; u_phone := None; u_timezone := None; u_role := ADMIN; u_status := UActive;
     u_directoryManaged := false; u_directoryLastVerifiedAt := None; u_centerRole := None |}.
Definition demo_req (id : string) : Req :=
  {| rq_user := Some demo_admin_user; rq_now := 1000; rq_id := id; rq_auditId := "x"; rq_auditFails := true;
     rq_clientIp := None |}.
Definition demo_enroll (id token : string) : Enroll :=
  {| en_now := 2000; en_name := None; en_version := None; en_newId := id; en_tokenHash := "#" +:+ token |}.
Definition pairing_for (cid : option string) (code : string) : Fleet :=
  createPairing "default" 1000 code ("#" +:+ code) "plant" cid 15 (demo_fleet COnline).

Lemma enroll_sound_witness :
  ∃ f', redeemPairing plain_verify false (λ f, f) "code" (demo_enroll "c2" "new") (pairing_for None "code")
        = (f', Some "c2"%string) ∧
    ∃ c, c ∈ f_connectors f' ∧ is_connector "default" "c2" c = true ∧ cn_tokenHash c = "#new"%string.
Proof.
  eexists. split; [reflexivity|].
  destruct (enroll_sound plain_verify false (λ f, f) "code" (demo_enroll "c2" "new") (pairing_for None "code") _ "c2"
    eq_refl) as (p & Hp%list_elem_of_singleton & _ & _ & _ & _ & _ & (c & Hc & Hid & Hh & _) & _).
  subst p. by exists c.
Defined.

Definition text_of (_ : Z) : string := "".

(** A revoked connector with a pairing bound to it, beside a live one:
    redeeming the code gives nothing, and only the live one authenticates. *)
Definition live_connector : Connector :=
  {| cn_id := "c3"; cn_tenantId := "default"; cn_name := "dock"; cn_tokenHash := "#t3"; cn_status := COnline;
     cn_lastSeenAt := None; cn_version := None; cn_remoteAddr := None; cn_egressPolicy := None; cn_logLevel := None |}.
Definition revoked_with_pairing : Fleet :=
  createPairing "default" 1000 "p" "#code" "plant" (Some "c1"%string) 15
    (with_connectors (demo_fleet CRevoked) [demo_connector CRevoked; live_connector]).
Definition enroll_body : json := JObj [("pairCode"%string, JStr "code")].
Definition after_enroll : Fleet :=
  (enrollPost plain_verify false (λ _, revoked_with_pairing) None empty_limiter enroll_body
     (demo_enroll "c2" "new") revoked_with_pairing).1.2.

Lemma revocation_final_witness :
  validateConnectorToken plain_verify false "t3" after_enroll = Some ("c3"%string, None) ∧ "c3"%string ≠ "c1"%string.
Proof.
  split; [vm_compute; reflexivity|].
  apply (revocation_final plain_verify text_of id id "c1" revoked_with_pairing after_enroll false "t3" "c3" None).
  - intros c [->| ->%list_elem_of_singleton]%elem_of_cons; [done|discriminate].
  - apply (reach_enroll plain_verify text_of id id "c1" revoked_with_pairing revoked_with_pairing revoked_with_pairing);
      [apply reach_refl|apply reach_refl|done].
  - vm_compute. reflexivity.
Defined.

(** The re-pair route's check-then-write: a revocation that lands between the
    check and the write is undone, and the code it issued enrols the revoked
    connector again. *)
Theorem repair_race_unrevokes :
  let revoke := λ f, (connectorsDelete text_of id id "default" (demo_req "r") (Some "c1"%string) f).1 in
  let f1 := (repairPost text_of id id "default" revoke (demo_req "p") "#code" "#gone" "c1"
               (JObj [("invalidateNow"%string, JBool true)]) (demo_fleet COnline)).1 in
  let f2 := (redeemPairing plain_verify false (λ f, f) "code" (demo_enroll "c2" "new") f1).1 in
  validateConnectorToken plain_verify false "old" (revoke (demo_fleet COnline)) = None ∧
  validateConnectorToken plain_verify false "new" f2 = Some ("c1"%string, None).
Proof. split; vm_compute; reflexivity. Qed.

(** The plan's connector limit is checked when a pairing is made, not when it
    is redeemed: two codes issued below a limit of two give three connectors. *)
Theorem connector_limit_passed :
  let e := {| limits := [(maxConnectors, 2)]; capabilities := [] |} in
  let post := λ code f, connectorsPost text_of id id "default" e (demo_req code) ("#" +:+ code)
                        (JObj [("name"%string, JStr "n")]) f in
  let f1 := (post "x"%string (demo_fleet COnline)).1 in
  let f2 := (post "y"%string f1).1 in
  let f3 := (redeemPairing plain_verify false (λ f, f) "x" (demo_enroll "c2" "t2") f2).1 in
  let f4 := (redeemPairing plain_verify false (λ f, f) "y" (demo_enroll "c3" "t3") f3).1 in
  replies (post "x"%string (demo_fleet COnline)).2 = true ∧ replies (post "y"%string f1).2 = true ∧
  count_where not_revoked (f_connectors f4) = 3.
Proof. split_and!; vm_compute; reflexivity. Qed.
