(* ===== verification/SignIn.v ===== *)
(** * Signing in through an identity provider
    (src/app/api/auth/oidc/callback/route.ts)

    The callback's handler from the saved state to the session: the claim
    checks, the second-factor gate, the centre's word on the role, the three
    ways in (an account, an invite, an organisation's grant) and the directory
    check.  What the network answers -- discovery, the token exchange and the
    signature check of the ID token by the jose library -- is an argument. *)

From S2P Require Import Prelude JsString JsValue Schema AuditChain AccessLog Identity Access Sessions Settings Directory.

Record OidcConfig := { oc_enabled : bool; oc_clientId : string; oc_isPlatform : bool }.
Record OidcState := { os_state : string; os_nonce : string; os_returnTo : string; os_stepUp : bool }.

(** One callback request.  [r_claims] is [None] when discovery, the exchange or
    the verification failed; [r_issuer] is the issuer discovery declared;
    [r_policyError]: the read of the session policy failed, and none applies;
    [r_startUnread]: so did the read that starting the session makes. *)
Record CallbackReq := {
  r_now : Z;
  r_tenant : string;
  r_cfg : option OidcConfig;
  r_saved : option OidcState;
  r_error : option string;
  r_code : option string;
  r_state : option string;
  r_issuer : string;
  r_secret : option string;
  r_claims : option json;
  r_captivoOrgId : option string;
  r_sync : SyncEnv;
  r_userId : string;
  r_createFails : bool;
  r_sessionId : string;
  r_token : string;
  r_envHours : Z;
  r_meta : option string * option string;
  r_existingSlug : option string;
  r_consoleDomain : option string;
  r_zoneFromCenter : bool;
  r_cookieDomain : option string;
  r_policyError : bool;
  r_startUnread : bool;
}.

Record SignInDb := {
  si_dir : DirDb;
  si_sessions : list Session;
  si_policy : PolicyStore;
  si_invites : list Invite;
  si_settings : SettingsStore;
}.

Inductive oidc_answer :=
  | OFail (error : string)
  | OStepUp
  | OSession (userId : string) (location : string)
  | OExisting (location : string)
  | OWorkspace (org orgName email : string) (name : json)
  | OThrew.

Definition with_dir (db : SignInDb) (d : DirDb) : SignInDb :=
  {| si_dir := d; si_sessions := si_sessions db; si_policy := si_policy db; si_invites := si_invites db;
     si_settings := si_settings db |}.
Definition with_users (db : SignInDb) (us : list User) : SignInDb :=
  with_dir db (with_rows (si_dir db) us (d_grants (si_dir db))).
Definition with_invites (db : SignInDb) (l : list Invite) : SignInDb :=
  {| si_dir := si_dir db; si_sessions := si_sessions db; si_policy := si_policy db; si_invites := l;
     si_settings := si_settings db |}.

Definition auth_of (db : SignInDb) : Auth :=
  {| a_users := d_users (si_dir db); a_sessions := si_sessions db; a_policy := si_policy db |}.

(** [equals, mode: "insensitive"] *)
Definition same_email (a b : string) : bool := toLowerCase a =s toLowerCase b.

Definition usable_invite (email : string) (now : Z) (i : Invite) : bool :=
  same_email (inv_email i) email && bool_decide (inv_usedAt i = None) && (now <? inv_expiresAt i).

Definition use_invite (now : Z) (i : Invite) : Invite :=
  {| inv_id := inv_id i; inv_email := inv_email i; inv_name := inv_name i; inv_phone := inv_phone i;
     inv_company := inv_company i; inv_createdById := inv_createdById i; inv_role := inv_role i;
     inv_tokenHash := inv_tokenHash i; inv_expiresAt := inv_expiresAt i; inv_usedAt := Some now |}.

Definition set_center (role : option (Role * CenterRole)) (status : UserStatus) (u : User) : User :=
  {| u_id := u_id u; u_email := u_email u; u_name := u_name u; u_company := u_company u; u_phone := u_phone u; u_timezone := u_timezone u;
     u_role := match role with Some (r, _) => r | None => u_role u end; u_status := status;
     u_directoryManaged := u_directoryManaged u; u_directoryLastVerifiedAt := u_directoryLastVerifiedAt u;
     u_centerRole := match role with Some (_, c) => Some (center_name c) | None => u_centerRole u end |}.

Definition new_user (id email name : string) (role : Role) (centerRole : option CenterRole) : User :=
  {| u_id := id; u_email := email; u_name := name; u_company := None; u_phone := None; u_timezone := None; u_role := role; u_status := UActive;
     u_directoryManaged := false; u_directoryLastVerifiedAt := None; u_centerRole := center_name <$> centerRole |}.

Definition at_char : Ascii.ascii := Ascii.ascii_of_N 64.
(** [a || email.split("@")[0]] *)
Definition name_or (a email : string) : string := if truthy a then a else hd ""%string (split at_char email).

Section callback.
Context (date_parse : string → jsdate) (sha256 : string → string) (isValidTimeZone : string → bool).
Context (parse_url : string → option Url).

(** The zone the ACCESS grant for [org] carries: the first such grant decides. *)
Definition grantTimeZone (claims : json) (org : string) : option string :=
  match find_row (λ g, is_object g && json_str_is (obj_get g "product") "ACCESS" && json_str_is (obj_get g "org") org)
          (captivo_grants claims) with
  | Some g => match obj_get g "timeZone" with
              | JStr z => if isValidTimeZone z then Some z else None
              | _ => None
              end
  | None => None
  end.

Definition applyCenterTimeZone (tid : string) (now : Z) (fromCenter : bool) (zone : string) (st : SettingsStore)
    : SettingsStore :=
  if negb (isValidTimeZone zone) then st else
  let '(st1, s) := getPlatformSettings tid now false st in
  if bool_decide (displayTimezone s = Some zone) && fromCenter then st1 else saveDisplayTimezone tid zone st1.

(** The directory check and the session of an account that may sign in. *)
Definition sync_and_start (rq : CallbackReq) (saved : OidcState) (amr : list string) (u : User) (db : SignInDb)
    : SignInDb * oidc_answer :=
  match syncUserAtLogin date_parse sha256 (r_sync rq)
          {| du_id := u_id u; du_email := u_email u; du_role := u_role u; du_directoryManaged := u_directoryManaged u |}
          (si_dir db) with
  | None => (db, OThrew)
  | Some (d, true) => (with_dir db d, OFail "revoked")
  | Some (d, false) =>
      let db1 := with_dir db d in
      let a := createSession sha256 (r_startUnread rq) (r_tenant rq) (r_envHours rq) (r_now rq) (r_sessionId rq) (r_token rq) (u_id u)
                 {| m_userAgent := (r_meta rq).1; m_ip := (r_meta rq).2; m_amr := amr |} (auth_of db1) in
      ({| si_dir := d; si_sessions := a_sessions a; si_policy := a_policy a; si_invites := si_invites db1;
          si_settings := si_settings db1 |}, OSession (u_id u) (safeReturnTo parse_url (r_cookieDomain rq) (Some (os_returnTo saved))))
  end.

(** Someone who already has an account. *)
Definition known_user (rq : CallbackReq) (saved : OidcState) (claims : json) (tenantOrg : option string)
    (amr : list string) (u : User) (db : SignInDb) : SignInDb * oidc_answer :=
  let verdict :=
    match tenantOrg with
    | Some org => reconcileCenterRole (u_role u) (u_centerRole u) (u_status u)
                    (match accessGrantFor claims org with Some g => JStr (og_role g) | None => JNull end)
    | None => RUnchanged
    end in
  match verdict with
  | RRevoked =>
      (with_users db (update_where (λ x, u_id x =s u_id u) (set_center None UDisabled) (d_users (si_dir db))),
       OFail "center_revoked")
  | RUpdate role c =>
      sync_and_start rq saved amr (set_center (Some (role, c)) UActive u)
        (with_users db (update_where (λ x, u_id x =s u_id u) (set_center (Some (role, c)) UActive) (d_users (si_dir db))))
  | RUnchanged =>
      if bool_decide (u_status u = UActive) then sync_and_start rq saved amr u db else (db, OFail "disabled")
  end.

(** [db.user.create], then the directory check and the session. *)
Definition create_and_start (rq : CallbackReq) (saved : OidcState) (amr : list string) (u : User) (db : SignInDb)
    : SignInDb * oidc_answer :=
  if r_createFails rq then (db, OFail "sso") else
  sync_and_start rq saved amr u (with_users db (d_users (si_dir db) ++ [u])).

(** Someone who has none.  [between]: what other requests did to the invites
    between the read and the conditional update. *)
Definition newcomer (between : list Invite → list Invite) (rq : CallbackReq) (cfg : OidcConfig) (saved : OidcState)
    (claims : json) (email : string) (tenantOrg : option string) (amr : list string) (db : SignInDb)
    : SignInDb * oidc_answer :=
  let claimed := str_or_empty (obj_get claims "name") in
  match find_row (usable_invite email (r_now rq)) (si_invites db) with
  | Some invite =>
      let invs := between (si_invites db) in
      let mine := λ i, (inv_id i =s inv_id invite) && bool_decide (inv_usedAt i = None) in
      if count_where mine invs =? 0 then (with_invites db invs, OFail "no_account") else
      create_and_start rq saved amr
        (new_user (r_userId rq) (inv_email invite)
           (if truthy (inv_name invite) then inv_name invite else name_or claimed email) (inv_role invite) None)
        (with_invites db (update_where mine (use_invite (r_now rq)) invs))
  | None =>
      if r_tenant rq =s PLATFORM_TENANT_ID then
        match accessGrant claims with
        | Some g =>
            match r_existingSlug rq, r_consoleDomain rq with
            | Some slug, Some domain =>
                if truthy slug && truthy domain then (db, OExisting ("https://" +:+ slug +:+ "." +:+ domain))
                else (db, OWorkspace (og_org g) (og_name g) email (obj_get claims "name"))
            | _, _ => (db, OWorkspace (og_org g) (og_name g) email (obj_get claims "name"))
            end
        | None => (db, OFail "no_account")
        end
      else
        match (if oc_isPlatform cfg then tenantOrg ≫= accessGrantFor claims else None) with
        | Some g =>
            create_and_start rq saved amr
              (new_user (r_userId rq) email (name_or claimed email) (accessRoleForGrant (JStr (og_role g)))
                 (Some (centerRoleOf (JStr (og_role g))))) db
        | None => (db, OFail "no_account")
        end
  end.

(** The organisation of the tenant whose console this is, [None] elsewhere. *)
Definition tenant_org (rq : CallbackReq) (cfg : OidcConfig) : option string :=
  if oc_isPlatform cfg && negb (r_tenant rq =s PLATFORM_TENANT_ID)
  then match r_captivoOrgId rq with Some o => if truthy o then Some o else None | None => None end
  else None.

(** After the claims were verified. *)
Definition after_claims (between : list Invite → list Invite) (rq : CallbackReq) (cfg : OidcConfig)
    (saved : OidcState) (claims : json) (db0 : SignInDb) : SignInDb * oidc_answer :=
  match checkClaims claims (r_issuer rq) (oc_clientId cfg) (os_nonce saved) with
  | inl reason => (db0, OFail (if (reason =s "email_verified") && oc_isPlatform cfg then "email_unverified" else "sso"))
  | inr email =>
      let amr := readAmr claims in
      let '(pst, policy) := getSessionPolicy (r_tenant rq) (r_now rq) (r_policyError rq) (si_policy db0) in
      let db := {| si_dir := si_dir db0; si_sessions := si_sessions db0; si_policy := pst; si_invites := si_invites db0;
                   si_settings := si_settings db0 |} in
      match secondFactorGate (requireSecondFactor policy) amr (os_stepUp saved) with
      | GateStepUp => (db, OStepUp)
      | GateRefuse => (db, OFail "mfa_required")
      | GateAllow =>
          let tenantOrg := tenant_org rq cfg in
          let db1 := match tenantOrg ≫= grantTimeZone claims with
                     | Some zone =>
                         {| si_dir := si_dir db; si_sessions := si_sessions db; si_policy := si_policy db;
                            si_invites := si_invites db;
                            si_settings := applyCenterTimeZone (r_tenant rq) (r_now rq) (r_zoneFromCenter rq) zone
                                             (si_settings db) |}
                     | None => db
                     end in
          match find_row (λ u, same_email (u_email u) email) (d_users (si_dir db1)) with
          | Some u => known_user rq saved claims tenantOrg amr u db1
          | None => newcomer between rq cfg saved claims email tenantOrg amr db1
          end
      end
  end.

Definition oidcCallback (between : list Invite → list Invite) (rq : CallbackReq) (db : SignInDb)
    : SignInDb * oidc_answer :=
  match r_cfg rq, r_saved rq with
  | Some cfg, Some saved =>
      if negb (oc_enabled cfg) then (db, OFail "sso") else
      if truthy_opt (r_error rq) then (db, OFail "sso") else
      if negb (truthy_opt (r_code rq)) || negb (truthy_opt (r_state rq)) ||
         negb (bool_decide (r_state rq = Some (os_state saved))) then (db, OFail "sso") else
      if negb (truthy_opt (r_secret rq)) then (db, OFail "sso") else
      match r_claims rq with
      | None => (db, OFail "sso")
      | Some claims => after_claims between rq cfg saved claims db
      end
  | _, _ => (db, OFail "sso")
  end.
End callback.

(** ** Theorems *)

Section callback_theorems.
Context (date_parse : string → jsdate) (sha256 : string → string) (isValidTimeZone : string → bool).
Context (parse_url : string → option Url).
Implicit Types (rq : CallbackReq) (db : SignInDb).

(** An ACTIVE account with this identifier and address. *)
Definition active_account (db : SignInDb) (uid email : string) : Prop :=
  ∃ u, u ∈ d_users (si_dir db) ∧ u_id u = uid ∧ same_email (u_email u) email = true ∧ u_status u = UActive.

Lemma start_spec rq saved amr u db db' uid loc :
  sync_and_start date_parse sha256 parse_url rq saved amr u db = (db', OSession uid loc) →
  u ∈ d_users (si_dir db) →
  uid = u_id u ∧ kept_user u (d_users (si_dir db')) ∧ si_invites db' = si_invites db ∧
  ∃ s, s ∈ si_sessions db' ∧ se_userId s = uid ∧ se_tokenHash s = sha256 (r_token rq) ∧ se_amr s = amr.
Proof.
  unfold sync_and_start. destruct (syncUserAtLogin _ _ _ _ _) as [[d []]|] eqn:Hs; [done| |done].
  unfold createSession. destruct (getSessionPolicy _ _ _ _) as [pst pol]. intros [= <- <- <-] Hu. cbn.
  split_and!; [done|by eapply sync_kept|done|].
  eexists. split; [apply elem_of_app; right; by left|done].
Qed.

(** How an account that holds a session came by it. *)
Definition justified rq (cfg : OidcConfig) (claims : json) (email uid : string) (db db' : SignInDb) : Prop :=
  (∃ u, u ∈ d_users (si_dir db) ∧ u_id u = uid ∧ same_email (u_email u) email = true ∧
     (∀ org, tenant_org rq cfg = Some org → truthy_opt (u_centerRole u) = true → u_role u ≠ PLATFORM →
             is_Some (accessGrantFor claims org))) ∨
  (∃ i, i ∈ si_invites db ∧ usable_invite email (r_now rq) i = true ∧
     ∀ j, j ∈ si_invites db' → inv_id j = inv_id i → inv_usedAt j ≠ None) ∨
  (∃ org, tenant_org rq cfg = Some org ∧ is_Some (accessGrantFor claims org)).

Definition opened rq (amr : list string) (email uid : string) (db' : SignInDb) : Prop :=
  active_account db' uid email ∧
  ∃ s, s ∈ si_sessions db' ∧ se_userId s = uid ∧ se_tokenHash s = sha256 (r_token rq) ∧ se_amr s = amr.

Lemma start_opened rq saved amr u email db db' uid loc :
  sync_and_start date_parse sha256 parse_url rq saved amr u db = (db', OSession uid loc) →
  u ∈ d_users (si_dir db) → same_email (u_email u) email = true → u_status u = UActive →
  uid = u_id u ∧ si_invites db' = si_invites db ∧ opened rq amr email uid db'.
Proof.
  intros Hs Hu He Hst. apply start_spec in Hs as (-> & (u' & Hu' & Hid & Hem & Hst') & Hinv & Hses); [|done].
  split_and!; [done..|]. split; [|done]. exists u'. split_and!; [done..| |congruence]. by rewrite Hem.
Qed.

Lemma reconcile_not_revoked role centerRole status :
  truthy_opt centerRole = true → role ≠ PLATFORM → reconcileCenterRole role centerRole status JNull = RRevoked.
Proof. intros Hc Hr. unfold reconcileCenterRole. rewrite bool_decide_eq_false_2 by done. simpl. by rewrite Hc. Qed.

Lemma known_user_spec rq cfg saved claims amr u email db db' uid loc :
  known_user date_parse sha256 parse_url rq saved claims (tenant_org rq cfg) amr u db = (db', OSession uid loc) →
  u ∈ d_users (si_dir db) → same_email (u_email u) email = true →
  opened rq amr email uid db' ∧ justified rq cfg claims email uid db db'.
Proof.
  intros Hk Hu He.
  assert (uid = u_id u ∧ opened rq amr email uid db') as [-> Ho].
  { unfold known_user in Hk. destruct (match tenant_org rq cfg with Some _ => _ | None => _ end) as [| |role c].
    - case_bool_decide; [|done]. by eapply start_opened in Hk as (-> & _ & ?).
    - done.
    - eapply start_opened in Hk as (-> & _ & ?); [done| |done|done].
      apply elem_of_update_where. exists u. split; [done|]. by rewrite bool_decide_eq_true_2. }
  split; [done|]. left. exists u. split_and!; [done..|]. intros org Horg Hc Hr.
  unfold known_user in Hk. rewrite Horg in Hk. destruct (accessGrantFor claims org); [by eexists|].
  by rewrite reconcile_not_revoked in Hk.
Qed.

Lemma create_spec rq saved amr u email db db' uid loc :
  create_and_start date_parse sha256 parse_url rq saved amr u db = (db', OSession uid loc) →
  same_email (u_email u) email = true → u_status u = UActive →
  si_invites db' = si_invites db ∧ opened rq amr email uid db'.
Proof.
  unfold create_and_start. destruct (r_createFails rq); [done|]. intros Hs He Hst.
  eapply start_opened in Hs as (_ & ? & ?); [done| |done|done]. cbn. apply elem_of_app. right. by left.
Qed.

Lemma newcomer_spec between rq cfg saved claims email amr db db' uid loc :
  newcomer date_parse sha256 parse_url between rq cfg saved claims email (tenant_org rq cfg) amr db
    = (db', OSession uid loc) →
  opened rq amr email uid db' ∧ justified rq cfg claims email uid db db'.
Proof.
  unfold newcomer. destruct (find_row (usable_invite _ _) _) as [inv|] eqn:Hinv.
  - apply find_row_Some in Hinv as [Hin Hus]. set (mine := λ i, _ && _).
    destruct (_ =? 0); [done|]. intros Hc. pose proof Hus as [[He _]%andb_true_iff _]%andb_true_iff.
    eapply (create_spec _ _ _ _ email) in Hc as [Hi Ho]; [|done..]. split; [done|]. right. left. exists inv.
    split_and!; [done..|]. rewrite Hi. cbn [si_invites with_invites].
    intros j (j0 & _ & ->)%elem_of_update_where Hid. destruct (mine j0) eqn:Hm; [done|]. unfold mine in Hm.
    rewrite bool_decide_eq_true_2 in Hm by done. simpl in Hm. by reflect_bool.
  - destruct (r_tenant rq =s _); [repeat case_match; done|].
    destruct (oc_isPlatform cfg); [|done]. destruct (tenant_org rq cfg) as [org|] eqn:Horg; [|done]. cbn [mbind option_bind].
    destruct (accessGrantFor claims org) as [g|] eqn:Hg; [|done]. intros Hc.
    eapply (create_spec _ _ _ _ email) in Hc as [_ Ho]; [|by apply bool_decide_eq_true|done].
    split; [done|]. right. right. exists org. by rewrite Hg.
Qed.

Lemma after_claims_spec between rq cfg saved claims db db' uid loc :
  after_claims date_parse sha256 isValidTimeZone parse_url between rq cfg saved claims db = (db', OSession uid loc) →
  ∃ email, checkClaims claims (r_issuer rq) (oc_clientId cfg) (os_nonce saved) = inr email ∧
    (requireSecondFactor (getSessionPolicy (r_tenant rq) (r_now rq) (r_policyError rq) (si_policy db)).2 = true →
     hasSecondFactor (readAmr claims) = true) ∧
    opened rq (readAmr claims) email uid db' ∧ justified rq cfg claims email uid db db'.
Proof.
  unfold after_claims. destruct (checkClaims _ _ _ _) as [|email]; [done|].
  destruct (getSessionPolicy _ _ _ _) as [pst policy]. cbn [snd].
  destruct (secondFactorGate _ _ _) eqn:Hg; [|done|done].
  set (db1 := match tenant_org rq cfg ≫= _ with Some _ => _ | None => _ end). intros Hf. exists email.
  assert (d_users (si_dir db1) = d_users (si_dir db) ∧ si_invites db1 = si_invites db) as [Hu1 Hi1]
    by (unfold db1; by destruct (tenant_org rq cfg ≫= _)).
  split; [done|]. split.
  { intros Hreq. unfold secondFactorGate in Hg. rewrite Hreq in Hg. simpl in Hg. by destruct (hasSecondFactor _), (os_stepUp saved). }
  assert (justified rq cfg claims email uid db1 db' → justified rq cfg claims email uid db db') as Hj
    by (unfold justified; by rewrite Hu1, Hi1).
  destruct (find_row _ (d_users (si_dir db1))) as [u|] eqn:Hfu.
  - apply find_row_Some in Hfu as [Hu He]. destruct (known_user_spec _ _ _ _ _ _ email _ _ _ _ Hf Hu He). auto.
  - apply newcomer_spec in Hf as [? ?]. auto.
Qed.

(** C3: a session opened by the identity provider's callback is justified.
    The request carried the state this browser started with; the verified
    token passed every claim check; when the policy the request read requires a
    second factor the token proves one, and the session records it.  The session is for an
    ACTIVE account whose address is the token's, and that account either was
    there (and, if the centre manages it, still holds a grant for this
    workspace's organisation), or was made from an unused, unexpired invite to
    that address that is used up now, or for a holder of the organisation's
    grant. *)
Theorem oidc_sign_in_sound between rq db db' uid loc :
  oidcCallback date_parse sha256 isValidTimeZone parse_url between rq db = (db', OSession uid loc) →
  ∃ cfg saved claims email,
    r_cfg rq = Some cfg ∧ r_saved rq = Some saved ∧ r_state rq = Some (os_state saved) ∧ r_claims rq = Some claims ∧
    checkClaims claims (r_issuer rq) (oc_clientId cfg) (os_nonce saved) = inr email ∧
    (requireSecondFactor (getSessionPolicy (r_tenant rq) (r_now rq) (r_policyError rq) (si_policy db)).2 = true →
     hasSecondFactor (readAmr claims) = true) ∧
    opened rq (readAmr claims) email uid db' ∧ justified rq cfg claims email uid db db'.
Proof.
  unfold oidcCallback. destruct (r_cfg rq) as [cfg|] eqn:Hcfg, (r_saved rq) as [saved|] eqn:Hsaved; try done.
  destruct (negb (oc_enabled cfg)); [done|]. destruct (truthy_opt (r_error rq)); [done|].
  destruct (_ || _ || _) eqn:Hst; [done|]. destruct (negb (truthy_opt (r_secret rq))); [done|].
  destruct (r_claims rq) as [claims|] eqn:Hcl; [|done]. apply orb_false_iff in Hst as [_ Hst]. reflect_bool.
  intros Hac. exists cfg, saved, claims. apply after_claims_spec in Hac as (email & Hck & H2 & Hrest).
  exists email. destruct Hrest. repeat (split; [done|]). done.
Qed.
End callback_theorems.

(** ** A concrete sign-in *)

Definition demo_claims : json :=
  JObj [("iss"%string, JStr "https://idp"); ("aud"%string, JStr "client"); ("nonce"%string, JStr "n");
        ("email_verified"%string, JBool true); ("email"%string, JStr "Ann@Corp.example");
        ("amr"%string, JArr [JStr "otp"])].
Definition demo_callback : CallbackReq :=
  {| r_now := 1700000000000; r_tenant := "default";
     r_cfg := Some {| oc_enabled := true; oc_clientId := "client"; oc_isPlatform := false |};
     r_saved := Some {| os_state := "st"; os_nonce := "n"; os_returnTo := "/console"; os_stepUp := false |};
     r_error := None; r_code := Some "code"%string; r_state := Some "st"%string; r_issuer := "https://idp";
     r_secret := Some "secret"%string; r_claims := Some demo_claims; r_captivoOrgId := None;
     r_sync := demo_sync []; r_userId := "u9"; r_createFails := false; r_sessionId := "s9"; r_token := "t";
     r_envHours := 12; r_meta := (None, None); r_existingSlug := None; r_consoleDomain := None;
     r_zoneFromCenter := false; r_cookieDomain := None; r_policyError := false; r_startUnread := false |}.
Definition demo_invited : SignInDb :=
  {| si_dir := {| d_users := []; d_sites := []; d_grants := []; d_mappings := []; d_config := None;
                  d_log := {| auditEvents := []; chainState := None |} |};
     si_sessions := []; si_policy := {| policyRows := ∅; policyCache := None |};
     si_invites := [{| inv_id := "i1"; inv_email := "ann@corp.example"; inv_name := "Ann"; inv_phone := None;
                       inv_company := None; inv_createdById := None; inv_role := VENDOR; inv_tokenHash := "h";
                       inv_expiresAt := 1800000000000; inv_usedAt := None |}];
     si_settings := {| settingsRows := ∅; settingsCache := ∅ |} |}.
Definition no_urls (_ : string) : option Url := None.

Lemma oidc_sign_in_sound_witness :
  ∃ db', oidcCallback no_dates id (λ _, true) no_urls (λ l, l) demo_callback demo_invited
         = (db', OSession "u9" "/console") ∧ active_account db' "u9" "ann@corp.example".
Proof.
  eexists. split; [reflexivity|].
  destruct (oidc_sign_in_sound no_dates id (λ _, true) no_urls (λ l, l) demo_callback demo_invited _ "u9" "/console"
    eq_refl) as (cfg & saved & claims & email & Hcfg & Hsaved & _ & Hcl & Hck & _ & [Hact _] & _).
  injection Hcfg as <-. injection Hsaved as <-. injection Hcl as <-. vm_compute in Hck. injection Hck as <-. exact Hact.
Defined.
