(* ===== verification/Passkeys.v ===== *)
(** * Passkeys, first-run setup and recovery

    The WebAuthn routes (src/app/api/auth/registration and authentication,
    options and verify), the recovery by one-time code (auth/recover,
    recovery), the removal of a passkey and signing out, with
    src/lib/auth/challenge.ts, recover-token.ts, webauthn.ts, rp.ts, totp.ts and
    bootstrap.ts.

    Signing and checking of cookie tokens (jose), the WebAuthn verification
    (@simplewebauthn/server), the one-time-code check (otplib) and the
    encryption of stored secrets are arguments. *)

From S2P Require Import Prelude JsString JsValue Schema Transaction AuditChain AccessLog AdminLog Identity Access Sessions Settings RateLimit Tenant Directory SignIn.

(** ** Signed cookie tokens *)

(** [SignJWT(fields).setExpirationTime(exp)] and [jwtVerify] at a time, [None]
    when it throws.  Times of a token are in seconds. *)
Class Jwt := {
  token : Type;
  signJwt : list (string * json) → Z → token;
  jwtVerify : Z → token → option json;
}.

(** What jose documents: a token verifies with the fields it was signed with,
    until it expires. *)
Class JwtLaws `{Jwt} := {
  jwt_live fields exp now : now / 1000 < exp →
    jwtVerify now (signJwt fields exp) = Some (JObj (fields ++ [("exp"%string, JNum (NInt exp))]));
  jwt_expired fields exp now : exp ≤ now / 1000 → jwtVerify now (signJwt fields exp) = None;
}.

Inductive Purpose := PReg | PAuth.
#[global] Instance Purpose_eq_dec : EqDecision Purpose.
Proof. solve_decision. Defined.
Definition purpose_name (p : Purpose) : string := match p with PReg => "reg" | PAuth => "auth" end.

Section cookies.
Context `{Jwt} (frac_text : Z → string).

(** The cookies these routes read and write. *)
Record Jar := {
  ca_challenge : option token;
  ca_recover : option token;
  ca_session : option string;
  ca_support : option string;
}.

Definition setChallenge (now : Z) (challenge : string) (purpose : Purpose) (uid : option string) (j : Jar) : Jar :=
  let payload := [("challenge"%string, JStr challenge); ("purpose"%string, JStr (purpose_name purpose))] ++
                 match uid with Some u => [("uid"%string, JStr u)] | None => [] end in
  {| ca_challenge := Some (signJwt payload (now / 1000 + 5 * 60)); ca_recover := ca_recover j;
     ca_session := ca_session j; ca_support := ca_support j |}.

(** The payload of a challenge cookie for this purpose. *)
Definition challenge_payload (now : Z) (purpose : Purpose) (j : Jar) : option json :=
  match ca_challenge j ≫= jwtVerify now with
  | Some payload => if json_str_is (obj_get payload "purpose") (purpose_name purpose) then Some payload else None
  | None => None
  end.
Definition readChallenge (now : Z) (purpose : Purpose) (j : Jar) : option string :=
  (λ payload, js_String frac_text (obj_get payload "challenge")) <$> challenge_payload now purpose j.
Definition readChallengeUid (now : Z) (purpose : Purpose) (j : Jar) : option string :=
  challenge_payload now purpose j ≫= λ payload, as_string (obj_get payload "uid").
Definition clearChallenge (j : Jar) : Jar :=
  {| ca_challenge := None; ca_recover := ca_recover j; ca_session := ca_session j; ca_support := ca_support j |}.

Definition setRecoverToken (now : Z) (userId : string) (j : Jar) : Jar :=
  {| ca_challenge := ca_challenge j;
     ca_recover := Some (signJwt [("userId"%string, JStr userId); ("purpose"%string, JStr "recover")] (now / 1000 + 10 * 60));
     ca_session := ca_session j; ca_support := ca_support j |}.
Definition readRecoverToken (now : Z) (j : Jar) : option string :=
  match ca_recover j ≫= jwtVerify now with
  | Some payload =>
      if json_str_is (obj_get payload "purpose") "recover" then as_string (obj_get payload "userId") else None
  | None => None
  end.
Definition clearRecoverToken (j : Jar) : Jar :=
  {| ca_challenge := ca_challenge j; ca_recover := None; ca_session := ca_session j; ca_support := ca_support j |}.
Definition set_session_cookie (t : option string) (j : Jar) : Jar :=
  {| ca_challenge := ca_challenge j; ca_recover := ca_recover j; ca_session := t; ca_support := ca_support j |}.
End cookies.

(** ** Rows *)

Record Passkey := {
  pk_id : string;
  pk_userId : string;
  pk_credentialId : string;
  pk_publicKey : string;
  pk_counter : Z;
  pk_transports : list string;
  pk_label : string;
  pk_lastUsedAt : option Z;
}.

Record TotpSecret := { ts_userId : string; ts_secret : string; ts_confirmedAt : option Z }.

Record AccountDb := { k_signin : SignInDb; k_passkeys : list Passkey; k_totp : list TotpSecret }.

Definition k_users (db : AccountDb) : list User := d_users (si_dir (k_signin db)).
Definition with_signin (db : AccountDb) (s : SignInDb) : AccountDb :=
  {| k_signin := s; k_passkeys := k_passkeys db; k_totp := k_totp db |}.
Definition with_passkeys (db : AccountDb) (ps : list Passkey) : AccountDb :=
  {| k_signin := k_signin db; k_passkeys := ps; k_totp := k_totp db |}.
Definition with_totp (db : AccountDb) (ts : list TotpSecret) : AccountDb :=
  {| k_signin := k_signin db; k_passkeys := k_passkeys db; k_totp := ts |}.
(** The sessions and the policy cache a session function leaves. *)
Definition put_auth (db : AccountDb) (a : Auth) : AccountDb :=
  let s := k_signin db in
  with_signin db {| si_dir := si_dir s; si_sessions := a_sessions a; si_policy := a_policy a;
                    si_invites := si_invites s; si_settings := si_settings s |}.

(** ** WebAuthn *)

Record Credential := {
  cr_id : string;
  cr_publicKey : string;
  cr_counter : option Z;
  cr_transports : option (list string);
}.
(** [registrationInfo]: the credential and [userVerified]. *)
Record RegResult := { rr_verified : bool; rr_info : option (Credential * bool) }.
Record AuthResult := { ar_verified : bool; ar_newCounter : Z; ar_userVerified : bool }.

(** The headers [requestOrigin] reads, and the server's own URL. *)
Record OriginHeaders := {
  h_origin : option string;
  h_xForwardedHost : option string;
  h_host : option string;
  h_xForwardedProto : option string;
  h_protocol : string;
  h_selfOrigin : string;
}.

Definition colon_char : Ascii.ascii := Ascii.ascii_of_N 58.
(** [s.replace(":", "")]: the first colon. *)
Definition drop_colon (s : string) : string :=
  match indexOf colon_char s with
  | Some i => slice_to i s +:+ slice_from (S i) s
  | None => s
  end.
Definition requestOrigin (h : OriginHeaders) : string :=
  match some_truthy (h_origin h) with
  | Some o => o
  | None =>
      let host := match h_xForwardedHost h with Some x => Some x | None => h_host h end in
      let fwd := match h_xForwardedProto h with Some p => trim (hd ""%string (split comma_char p)) | None => ""%string end in
      let proto := if truthy fwd then fwd else drop_colon (h_protocol h) in
      match some_truthy host with
      | Some hst => proto +:+ "://" +:+ hst
      | None => h_selfOrigin h
      end
  end.
Definition getRpId (WEBAUTHN_RP_ID : option string) : string :=
  match WEBAUTHN_RP_ID with Some v => if truthy (trim v) then trim v else "localhost" | None => "localhost" end.

Definition passkey_row (id userId : string) (c : Credential) (label : string) : Passkey :=
  {| pk_id := id; pk_userId := userId; pk_credentialId := cr_id c; pk_publicKey := cr_publicKey c;
     pk_counter := cr_counter c ?? 0; pk_transports := cr_transports c ?? []; pk_label := label; pk_lastUsedAt := None |}.

(** ** Statements *)

(** [dbFails]: the statement fails for a reason of its own. *)
Definition tx_create_user (dbFails : bool) (u : User) : Tx AccountDb unit :=
  tx_write (λ db, negb dbFails && negb (existsb (λ x, (u_email x =s u_email u) || (u_id x =s u_id u)) (k_users db)))
    (λ db, with_signin db (with_users (k_signin db) (k_users db ++ [u]))).
Definition tx_create_passkey (p : Passkey) : Tx AccountDb unit :=
  tx_write (λ db, negb (existsb (λ q, (pk_credentialId q =s pk_credentialId p) || (pk_id q =s pk_id p)) (k_passkeys db)))
    (λ db, with_passkeys db (k_passkeys db ++ [p])).
(** [updateMany({ where: { id, usedAt: null } })] and its count. *)
Definition tx_consume_invite (now : Z) (id : string) : Tx AccountDb Z := λ db,
  let mine := λ i, (inv_id i =s id) && bool_decide (inv_usedAt i = None) in
  let invs := si_invites (k_signin db) in
  (with_signin db (with_invites (k_signin db) (update_where mine (use_invite now) invs)), inr (count_where mine invs)).

Definition hasAnyUser (db : AccountDb) : bool := 0 <? count_where (λ _, true) (k_users db).

(** ** Requests *)

Record PkReq := {
  p_now : Z;
  p_tenant : string;
  p_multi : bool;
  p_envHours : Z;
  p_ip : option string;
  p_userAgent : option string;
  p_path : string;
  p_headers : OriginHeaders;
  p_rpEnv : option string;
  p_uuid : string;
  p_newUserId : string;
  p_newPasskeyId : string;
  p_sessionId : string;
  p_token : string;
  p_dbFails : bool;
  p_policyError : bool;
  p_startUnread : bool;
  p_faults : SessionFaults * SessionFaults;
  p_sync : SyncEnv;
}.

Record PkState `{Jwt} := { ps_db : AccountDb; ps_jar : Jar; ps_limiter : Limiter }.
Definition with_db `{Jwt} (st : PkState) (db : AccountDb) : PkState :=
  {| ps_db := db; ps_jar := ps_jar st; ps_limiter := ps_limiter st |}.
Definition with_jar `{Jwt} (st : PkState) (j : Jar) : PkState :=
  {| ps_db := ps_db st; ps_jar := j; ps_limiter := ps_limiter st |}.

(** [key = ip:path], ten a minute. *)
Definition limited `{Jwt} {A} (rq : PkReq) (st : PkState) (h : PkState → PkState * response A) : PkState * response A :=
  let key := (p_ip rq ?? "unknown") +:+ ":" +:+ p_path rq in
  let '(l, ok) := checkRateLimit (p_now rq) key 10 60000 (ps_limiter st) in
  let st1 := {| ps_db := ps_db st; ps_jar := ps_jar st; ps_limiter := l |} in
  if ok then h st1 else (st1, Fail 429 "rate_limited").

Section passkey_routes.
Context `{Jwt} (frac_text : Z → string) (sha256 : string → string) (date_parse : string → jsdate).
Context (parse_url : string → option Url).
(** argon2's [verify]. *)
Context (argon2verify : string → string → bool).
(** [verifyRegistrationResponse] on response, challenge, origin and relying
    party; [verifyAuthenticationResponse] also on the stored passkey; [None]
    when it throws. *)
Context (verifyRegistrationResponse : json → string → string → string → option RegResult).
Context (verifyAuthenticationResponse : json → string → string → string → Passkey → option AuthResult).
(** The row a Prisma filter object selects. *)
Context (find_by_filter : json → list Passkey → option Passkey).

Definition rpId (rq : PkReq) : string := getRpId (p_rpEnv rq).

(** [getCurrentUser] on the request's cookies. *)
Definition current_user (rq : PkReq) (st : PkState) : PkState * option User :=
  let '(a, u) := getCurrentUser sha256 (p_faults rq) (p_tenant rq) (p_now rq) (ca_support (ps_jar st)) (ca_session (ps_jar st))
                   (auth_of (k_signin (ps_db st))) in
  (with_db st (put_auth (ps_db st) a), u).

(** A handler that throws: in cloud the request's transaction is rolled back
    to the rows it started with. *)
Definition throws {A} (rq : PkReq) (start st : PkState) : PkState * response A :=
  (if p_multi rq then with_db st (ps_db start) else st, Fail 500 "error").

(** The steps every mode shares: the challenge of this browser, the origin, the
    authenticator's answer.  [inl] is the error to answer, [None] a throw. *)
Definition ceremony (rq : PkReq) (j : Jar) (response : json) : option (Z * string) + Credential * bool :=
  match readChallenge frac_text (p_now rq) PReg j with
  | None => inl (Some (401, "challenge_expired"%string))
  | Some ch =>
      if negb (truthy ch) then inl (Some (401, "challenge_expired"%string)) else
      let origin := requestOrigin (p_headers rq) in
      if negb (originMatchesRp parse_url origin (rpId rq)) then inl (Some (400, "origin_mismatch"%string)) else
      match verifyRegistrationResponse response ch origin (rpId rq) with
      | None => inl None
      | Some r =>
          match rr_verified r, rr_info r with
          | true, Some info => inr info
          | _, _ => inl (Some (401, "verification_failed"%string))
          end
      end
  end.

(** [createSession] and the session cookie. *)
Definition open_session (rq : PkReq) (userId : string) (amr : list string) (st : PkState) : PkState :=
  let db := ps_db st in
  let a := createSession sha256 (p_startUnread rq) (p_tenant rq) (p_envHours rq) (p_now rq) (p_sessionId rq) (p_token rq) userId
             {| m_userAgent := p_userAgent rq; m_ip := p_ip rq; m_amr := amr |} (auth_of (k_signin db)) in
  {| ps_db := put_auth db a; ps_jar := set_session_cookie (Some (p_token rq)) (ps_jar st); ps_limiter := ps_limiter st |}.

(** A passkey for the account of a signed-in user. *)
Definition register_add (rq : PkReq) (body : json) (st : PkState) : PkState * response unit :=
  let '(st1, who) := current_user rq st in
  let response := obj_get body "response" in
  let label := trim (str_or_empty (obj_get body "label")) in
  match who with
  | None => (st1, Fail 401 "unauthorized")
  | Some user =>
      if negb (json_truthy response) || negb (truthy label) then (st1, Fail 400 "invalid_body") else
      match ceremony rq (ps_jar st1) response with
      | inl None => throws rq st st1
      | inl (Some (s, e)) => (st1, Fail s e)
      | inr (cred, _) =>
          match tx_create_passkey (passkey_row (p_newPasskeyId rq) (u_id user) cred label) (ps_db st1) with
          | (db, inr _) => (with_jar (with_db st1 db) (clearChallenge (ps_jar st1)), Reply 200 tt)
          | (_, inl _) => throws rq st st1
          end
      end
  end.

(** A passkey for the account a recovery cookie names. *)
Definition register_recover (rq : PkReq) (body : json) (st : PkState) : PkState * response unit :=
  let response := obj_get body "response" in
  match some_truthy (readRecoverToken (p_now rq) (ps_jar st)) with
  | None => (st, Fail 401 "recover_invalid")
  | Some userId =>
      if negb (json_truthy response) then (st, Fail 401 "recover_invalid") else
      match find_row (λ u, u_id u =s userId) (k_users (ps_db st)) with
      | None => (st, Fail 401 "recover_invalid")
      | Some user =>
          if negb (bool_decide (u_status user = UActive)) then (st, Fail 401 "recover_invalid") else
          match ceremony rq (ps_jar st) response with
          | inl None => throws rq st st
          | inl (Some (s, e)) => (st, Fail s e)
          | inr (cred, uv) =>
              match tx_create_passkey (passkey_row (p_newPasskeyId rq) (u_id user) cred "Recovery passkey") (ps_db st) with
              | (_, inl _) => throws rq st st
              | (db, inr _) =>
                  let st1 := open_session rq (u_id user) (passkeyAmr uv) (with_db st db) in
                  (with_jar st1 (clearRecoverToken (clearChallenge (ps_jar st1))), Reply 200 tt)
              end
          end
      end
  end.

Definition invited_user (id name : string) (i : Invite) : User :=
  {| u_id := id; u_email := inv_email i; u_name := name; u_phone := inv_phone i; u_company := inv_company i;
     u_timezone := None; u_role := inv_role i; u_status := UActive; u_directoryManaged := false;
     u_directoryLastVerifiedAt := None; u_centerRole := None |}.

(** The transaction that turns an invite into an account. *)
Definition enrol (rq : PkReq) (u : User) (p : Passkey) (inviteId : string) : Tx AccountDb unit :=
  _ ← tx_create_user (p_dbFails rq) u;
  _ ← tx_create_passkey p;
  count ← tx_consume_invite (p_now rq) inviteId;
  if count =? 0 then tx_throw "INVITE_ALREADY_USED" else mret tt.

(** [User.id] is the identifier of the options step when there was one. *)
Definition account_id (rq : PkReq) (j : Jar) : string :=
  some_truthy (readChallengeUid (p_now rq) PReg j) ?? p_newUserId rq.

Definition passkey_label (body : json) : string :=
  let l := trim (str_or_empty (obj_get body "label")) in if truthy l then l else "Primary passkey".

(** An account from an invite; [between]: what other requests committed
    between the check of the invite and the transaction. *)
Definition register_invite (between : AccountDb → AccountDb) (rq : PkReq) (body : json) (st : PkState)
    : PkState * response unit :=
  let inviteToken := str_or_empty (obj_get body "inviteToken") in
  let response := obj_get body "response" in
  if negb (truthy inviteToken) || negb (json_truthy response) then (st, Fail 400 "invalid_body") else
  match verifyInvite argon2verify (p_now rq) inviteToken (si_invites (k_signin (ps_db st))) with
  | None => (st, Fail 410 "invite_invalid")
  | Some invite =>
      let name := obj_get body "name" in
      if negb (match name with JUndefined => true | _ => false end) && bool_decide (normalizeDisplayName name = None)
      then (st, Fail 400 "invalid_name") else
      let displayName := normalizeDisplayName name ?? inv_name invite in
      match ceremony rq (ps_jar st) response with
      | inl None => throws rq st st
      | inl (Some (s, e)) => (st, Fail s e)
      | inr (cred, uv) =>
          let id := account_id rq (ps_jar st) in
          let fn := enrol rq (invited_user id displayName invite)
                      (passkey_row (p_newPasskeyId rq) id cred (passkey_label body)) (inv_id invite) in
          match db_transaction (p_multi rq) fn (between (ps_db st)) with
          | (db, inl (Threw _)) => (with_db st db, Fail 410 "invite_invalid")
          | (db, inl DbFailed) => (with_db st db, Fail 409 "email_taken")
          | (db, inr _) =>
              let st1 := open_session rq id (passkeyAmr uv) (with_db st db) in
              (with_jar st1 (clearChallenge (ps_jar st1)), Reply 200 tt)
          end
      end
  end.

Definition setup_user (id email name : string) (role : Role) : User := new_user id email name role None.

(** The first account; [between] as above. *)
Definition register_setup (between : AccountDb → AccountDb) (rq : PkReq) (body : json) (st : PkState)
    : PkState * response unit :=
  let email := match obj_get body "email" with JStr s => normalizeEmail s | _ => ""%string end in
  let name := trim (str_or_empty (obj_get body "name")) in
  let response := obj_get body "response" in
  if negb (truthy email) || negb (truthy name) || negb (json_truthy response) then (st, Fail 400 "invalid_body") else
  match ceremony rq (ps_jar st) response with
  | inl None => throws rq st st
  | inl (Some (s, e)) => (st, Fail s e)
  | inr (cred, uv) =>
      match resolveSetupRole (p_multi rq) (p_tenant rq) with
      | None => (st, Fail 404 "setup_disabled")
      | Some role =>
          if hasAnyUser (ps_db st) then (st, Fail 409 "already_setup") else
          let id := account_id rq (ps_jar st) in
          let fn := (_ ← tx_create_user (p_dbFails rq) (setup_user id email name role);
                     tx_create_passkey (passkey_row (p_newPasskeyId rq) id cred (passkey_label body))) in
          match db_transaction (p_multi rq) fn (between (ps_db st)) with
          | (db, inl _) => (with_db st db, Fail 409 "email_taken")
          | (db, inr _) =>
              let st1 := open_session rq id (passkeyAmr uv) (with_db st db) in
              (with_jar st1 (clearChallenge (ps_jar st1)), Reply 200 tt)
          end
      end
  end.

Definition registrationVerify (between : AccountDb → AccountDb) (rq : PkReq) (body : json) (st : PkState)
    : PkState * response unit :=
  limited rq st (λ st1,
    let mode := obj_get body "mode" in
    if json_str_is mode "add" then register_add rq body st1 else
    if json_str_is mode "recover" then register_recover rq body st1 else
    if json_str_is mode "invite" then register_invite between rq body st1 else
    if json_str_is mode "setup" then register_setup between rq body st1
    else (st1, Fail 400 "invalid_mode")).

(** *** Options *)

(** What [genRegistrationOptions] is asked for: the user handle, the names and
    the credentials to exclude.  [challenge] is the library's fresh one. *)
Record RegOptions := {
  ro_challenge : string;
  ro_userId : string;
  ro_userName : string;
  ro_displayName : string;
  ro_exclude : list (string * list string);
}.

Definition passkeys_of (userId : string) (db : AccountDb) : list Passkey :=
  List.filter (λ p, pk_userId p =s userId) (k_passkeys db).
Definition excluded (ps : list Passkey) : list (string * list string) :=
  map (λ p, (pk_credentialId p, pk_transports p)) ps.

Definition offer (rq : PkReq) (challenge userId email name : string) (exclude : list (string * list string))
    (uid : option string) (st : PkState) : PkState * response RegOptions :=
  (with_jar st (setChallenge (p_now rq) challenge PReg uid (ps_jar st)),
   Reply 200 {| ro_challenge := challenge; ro_userId := userId; ro_userName := email; ro_displayName := name;
                ro_exclude := exclude |}).

Definition options_add (challenge : string) (rq : PkReq) (st : PkState) : PkState * response RegOptions :=
  let '(st1, who) := current_user rq st in
  match who with
  | None => (st1, Fail 401 "unauthorized")
  | Some u => offer rq challenge (u_id u) (u_email u) (u_name u) (excluded (passkeys_of (u_id u) (ps_db st1))) None st1
  end.

Definition options_recover (challenge : string) (rq : PkReq) (st : PkState) : PkState * response RegOptions :=
  match some_truthy (readRecoverToken (p_now rq) (ps_jar st)) ≫= (λ id, find_row (λ u, u_id u =s id) (k_users (ps_db st))) with
  | Some u =>
      if bool_decide (u_status u = UActive)
      then offer rq challenge (u_id u) (u_email u) (u_name u) (excluded (passkeys_of (u_id u) (ps_db st))) None st
      else (st, Fail 401 "recover_invalid")
  | None => (st, Fail 401 "recover_invalid")
  end.

Definition options_invite (challenge : string) (rq : PkReq) (body : json) (st : PkState) : PkState * response RegOptions :=
  let inviteToken := str_or_empty (obj_get body "inviteToken") in
  match (if truthy inviteToken
         then verifyInvite argon2verify (p_now rq) inviteToken (si_invites (k_signin (ps_db st))) else None) with
  | None => (st, Fail 410 "invite_invalid")
  | Some i =>
      offer rq challenge (p_uuid rq) (inv_email i) (normalizeDisplayName (obj_get body "name") ?? inv_name i) []
        (Some (p_uuid rq)) st
  end.

Definition options_setup (challenge : string) (rq : PkReq) (body : json) (st : PkState) : PkState * response RegOptions :=
  match resolveSetupRole (p_multi rq) (p_tenant rq) with
  | None => (st, Fail 404 "setup_disabled")
  | Some _ =>
      if hasAnyUser (ps_db st) then (st, Fail 409 "already_setup") else
      let email := trim (str_or_empty (obj_get body "email")) in
      let name := trim (str_or_empty (obj_get body "name")) in
      if negb (truthy email) || negb (truthy name) then (st, Fail 400 "email_and_name_required") else
      offer rq challenge (p_uuid rq) email name [] (Some (p_uuid rq)) st
  end.

Definition registrationOptions (challenge : string) (rq : PkReq) (body : json) (st : PkState)
    : PkState * response RegOptions :=
  limited rq st (λ st1,
    let mode := obj_get body "mode" in
    if json_str_is mode "add" then options_add challenge rq st1 else
    if json_str_is mode "recover" then options_recover challenge rq st1 else
    if json_str_is mode "invite" then options_invite challenge rq body st1 else
    if json_str_is mode "setup" then options_setup challenge rq body st1
    else (st1, Fail 400 "invalid_mode")).

Definition authenticationOptions (challenge : string) (rq : PkReq) (st : PkState) : PkState * response string :=
  limited rq st (λ st1,
    (with_jar st1 (setChallenge (p_now rq) challenge PAuth None (ps_jar st1)), Reply 200 challenge)).

(** *** Signing in *)

(** [findFirst({ where: { credentialId: response.id } })]: the identifier is
    whatever JSON value the client sent. *)
Definition find_passkey (id : json) (ps : list Passkey) : option Passkey :=
  match id with
  | JStr cid => find_row (λ p, pk_credentialId p =s cid) ps
  | _ => find_by_filter id ps
  end.

Definition set_counter (counter now : Z) (p : Passkey) : Passkey :=
  {| pk_id := pk_id p; pk_userId := pk_userId p; pk_credentialId := pk_credentialId p; pk_publicKey := pk_publicKey p;
     pk_counter := counter; pk_transports := pk_transports p; pk_label := pk_label p; pk_lastUsedAt := Some now |}.

(** After the authenticator's answer was verified. *)
Definition signed_in (rq : PkReq) (pk : Passkey) (user : User) (r : AuthResult) (start st : PkState)
    : PkState * response unit :=
  let db := ps_db st in
  let db1 := with_passkeys db (update_where (λ p, pk_id p =s pk_id pk) (set_counter (ar_newCounter r) (p_now rq)) (k_passkeys db)) in
  let amr := passkeyAmr (ar_userVerified r) in
  let '(pst, policy) := getSessionPolicy (p_tenant rq) (p_now rq) (p_policyError rq) (si_policy (k_signin db1)) in
  let st1 := with_db st (put_auth db1 {| a_users := k_users db1; a_sessions := si_sessions (k_signin db1); a_policy := pst |}) in
  match secondFactorGate (requireSecondFactor policy) amr true with
  | GateAllow =>
      match syncUserAtLogin date_parse sha256 (p_sync rq)
              {| du_id := u_id user; du_email := u_email user; du_role := u_role user;
                 du_directoryManaged := u_directoryManaged user |} (si_dir (k_signin (ps_db st1))) with
      | None => throws rq start st1
      | Some (d, true) => (with_db st1 (with_signin (ps_db st1) (with_dir (k_signin (ps_db st1)) d)), Fail 403 "revoked")
      | Some (d, false) =>
          let st2 := open_session rq (pk_userId pk) amr
                       (with_db st1 (with_signin (ps_db st1) (with_dir (k_signin (ps_db st1)) d))) in
          (with_jar st2 (clearChallenge (ps_jar st2)), Reply 200 tt)
      end
  | _ => (st1, Fail 403 "mfa_required")
  end.

Definition authenticationVerify (rq : PkReq) (body : json) (st0 : PkState) : PkState * response unit :=
  limited rq st0 (λ st,
    let response := obj_get body "response" in
    if negb (json_truthy (obj_get response "id")) then (st, Fail 401 "invalid_body") else
    match some_truthy (readChallenge frac_text (p_now rq) PAuth (ps_jar st)) with
    | None => (st, Fail 401 "challenge_expired")
    | Some ch =>
        match find_passkey (obj_get response "id") (k_passkeys (ps_db st)) with
        | None => (st, Fail 401 "verification_failed")
        | Some pk =>
            match find_row (λ u, u_id u =s pk_userId pk) (k_users (ps_db st)) with
            | None => (st, Fail 401 "verification_failed")
            | Some user =>
                if negb (bool_decide (u_status user = UActive)) then (st, Fail 401 "verification_failed") else
                let origin := requestOrigin (p_headers rq) in
                if negb (originMatchesRp parse_url origin (rpId rq)) then (st, Fail 400 "origin_mismatch") else
                match verifyAuthenticationResponse response ch origin (rpId rq) pk with
                | None => (st, Fail 401 "verification_failed")
                | Some r => if ar_verified r then signed_in rq pk user r st st
                            else (st, Fail 401 "verification_failed")
                end
            end
        end
    end).

(** *** Recovery by one-time code *)

(** otplib's check, [None] when it throws; AES-256-GCM under the deployment's
    key. *)
Context (verifySync : Z → string → string → option bool).
Context (encrypt : string → string) (decrypt : string → option string).

Definition verifyTotp (now : Z) (code secret : string) : bool := verifySync now code secret ?? false.

Definition recoverPost (rq : PkReq) (body : json) (st0 : PkState) : PkState * response unit :=
  limited rq st0 (λ st,
    let failed := (st, Fail 401 "recover_failed"%string) in
    let email := trim (str_or_empty (obj_get body "email")) in
    let totp := trim (str_or_empty (obj_get body "totp")) in
    if negb (truthy email) || negb (truthy totp) then failed else
    match find_row (λ u, u_email u =s email) (k_users (ps_db st)) with
    | None => failed
    | Some user =>
        match find_row (λ t, ts_userId t =s u_id user) (k_totp (ps_db st)) with
        | None => failed
        | Some t =>
            if negb (bool_decide (u_status user = UActive)) || bool_decide (ts_confirmedAt t = None) then failed else
            match decrypt (ts_secret t) with
            | None => failed
            | Some secret =>
                if negb (verifyTotp (p_now rq) totp secret) then failed else
                (with_jar st (setRecoverToken (p_now rq) (u_id user) (ps_jar st)), Reply 200 tt)
            end
        end
    end).

(** Setting up the code: the secret is stored once a code for it was shown. *)
Definition recoveryPost (rq : PkReq) (body : json) (st : PkState) : PkState * response unit :=
  let '(st1, who) := current_user rq st in
  match who with
  | None => (st1, Fail 401 "unauthorized")
  | Some user =>
      let c := trim (str_or_empty (obj_get body "code")) in
      let secret := str_or_empty (obj_get body "secret") in
      if negb (truthy c) || negb (truthy secret) then (st1, Fail 400 "invalid_body") else
      if negb (verifyTotp (p_now rq) c secret) then (st1, Fail 400 "invalid_code") else
      let row := {| ts_userId := u_id user; ts_secret := encrypt secret; ts_confirmedAt := Some (p_now rq) |} in
      let others := delete_where (λ t, ts_userId t =s u_id user) (k_totp (ps_db st1)) in
      (with_db st1 (with_totp (ps_db st1) (others ++ [row])), Reply 200 tt)
  end.

Definition recoveryDelete (rq : PkReq) (st : PkState) : PkState * response unit :=
  let '(st1, who) := current_user rq st in
  match who with
  | None => (st1, Fail 401 "unauthorized")
  | Some user =>
      (with_db st1 (with_totp (ps_db st1) (delete_where (λ t, ts_userId t =s u_id user) (k_totp (ps_db st1)))), Reply 200 tt)
  end.

(** *** Removing a passkey, signing out *)

Definition passkeyDelete (rq : PkReq) (id : string) (st : PkState) : PkState * response unit :=
  let '(st1, who) := current_user rq st in
  match who with
  | None => (st1, Fail 401 "unauthorized")
  | Some user =>
      match find_row (λ p, pk_id p =s id) (k_passkeys (ps_db st1)) with
      | None => (st1, Fail 404 "not_found")
      | Some p =>
          if negb (pk_userId p =s u_id user) then (st1, Fail 404 "not_found") else
          if count_where (λ q, pk_userId q =s u_id user) (k_passkeys (ps_db st1)) <=? 1 then (st1, Fail 400 "last_passkey") else
          (with_db st1 (with_passkeys (ps_db st1) (delete_where (λ q, pk_id q =s id) (k_passkeys (ps_db st1)))), Reply 200 tt)
      end
  end.

Definition logoutPost (st : PkState) : PkState * response unit :=
  let j := ps_jar st in
  let drop t a := match some_truthy t with Some x => destroySession sha256 x a | None => a end in
  let a := drop (ca_support j) (drop (ca_session j) (auth_of (k_signin (ps_db st)))) in
  ({| ps_db := put_auth (ps_db st) a;
      ps_jar := {| ca_challenge := ca_challenge j; ca_recover := ca_recover j; ca_session := None; ca_support := None |};
      ps_limiter := ps_limiter st |}, Reply 200 tt).
End passkey_routes.

(** ** Theorems *)

Section passkey_theorems.
Context `{Jwt} (frac_text : Z → string) (sha256 : string → string) (date_parse : string → jsdate).
Context (parse_url : string → option Url) (argon2verify : string → string → bool).
Context (verifyRegistrationResponse : json → string → string → string → option RegResult).
Context (verifyAuthenticationResponse : json → string → string → string → Passkey → option AuthResult).
Context (find_by_filter : json → list Passkey → option Passkey).
Implicit Types (rq : PkReq) (st : PkState) (db : AccountDb) (j : Jar).

Local Notation ceremony := (ceremony frac_text parse_url verifyRegistrationResponse).
Local Notation open_session := (open_session sha256).

(** The authenticator answered this browser's challenge for this site. *)
Definition attested rq (response : json) j (cred : Credential) (uv : bool) : Prop :=
  ∃ ch, readChallenge frac_text (p_now rq) PReg j = Some ch ∧
    originMatchesRp parse_url (requestOrigin (p_headers rq)) (rpId rq) = true ∧
    verifyRegistrationResponse response ch (requestOrigin (p_headers rq)) (rpId rq) =
      Some {| rr_verified := true; rr_info := Some (cred, uv) |}.

Lemma ceremony_attested rq j response cred uv :
  ceremony rq j response = inr (cred, uv) → attested rq response j cred uv.
Proof.
  unfold Passkeys.ceremony. destruct (readChallenge _ _ _ _) as [ch|] eqn:Hc; [|done].
  destruct (negb (truthy ch)); [done|]. destruct (originMatchesRp _ _ _) eqn:Ho; [|done]. simpl.
  destruct (verifyRegistrationResponse _ _ _ _) as [[[] [info|]]|] eqn:Hv; try done.
  intros [= ->]. by exists ch.
Qed.

(** Opening a session touches the sessions, the policy cache and a cookie. *)
Lemma open_session_rows rq uid amr st :
  k_users (ps_db (open_session rq uid amr st)) = k_users (ps_db st) ∧
  k_passkeys (ps_db (open_session rq uid amr st)) = k_passkeys (ps_db st) ∧
  k_totp (ps_db (open_session rq uid amr st)) = k_totp (ps_db st) ∧
  si_invites (k_signin (ps_db (open_session rq uid amr st))) = si_invites (k_signin (ps_db st)).
Proof. done. Qed.

(** A session of this request for the account, carrying the methods. *)
Definition holds_session rq (uid : string) (amr : list string) db : Prop :=
  ∃ s, s ∈ si_sessions (k_signin db) ∧ se_userId s = uid ∧ se_tokenHash s = sha256 (p_token rq) ∧ se_amr s = amr.

Lemma open_session_holds rq uid amr st : holds_session rq uid amr (ps_db (open_session rq uid amr st)).
Proof.
  unfold holds_session, Passkeys.open_session, createSession. destruct (getSessionPolicy _ _ _ _) as [pst pol]. cbn.
  eexists. split; [apply elem_of_app; right; by left|done].
Qed.

(** The two inserts, when the database accepted them. *)
Lemma tx_create_user_done fails u db db' x :
  tx_create_user fails u db = (db', inr x) →
  db' = with_signin db (with_users (k_signin db) (k_users db ++ [u])) ∧
  u_id u ∉ u_id <$> k_users db ∧ u_email u ∉ u_email <$> k_users db.
Proof.
  unfold tx_create_user. intros [Hok ->]%tx_write_done. apply andb_true_iff in Hok as [_ Hok%negb_true_iff]. split; [done|].
  rewrite <-not_true_iff_false, existsb_exists in Hok.
  split; intros (y & Hy & Hin)%list_elem_of_fmap; destruct Hok; exists y; (split; [by apply list_elem_of_In|]);
    rewrite orb_true_iff, !bool_decide_eq_true; auto.
Qed.
Lemma tx_create_passkey_done p db db' x :
  tx_create_passkey p db = (db', inr x) →
  db' = with_passkeys db (k_passkeys db ++ [p]) ∧
  pk_id p ∉ pk_id <$> k_passkeys db ∧ pk_credentialId p ∉ pk_credentialId <$> k_passkeys db.
Proof.
  unfold tx_create_passkey. intros [Hok%negb_true_iff ->]%tx_write_done. split; [done|].
  rewrite <-not_true_iff_false, existsb_exists in Hok.
  split; intros (y & Hy & Hin)%list_elem_of_fmap; destruct Hok; exists y; (split; [by apply list_elem_of_In|]);
    rewrite orb_true_iff, !bool_decide_eq_true; auto.
Qed.

(** An account's new passkey. *)
Definition has_credential (uid : string) (cred : Credential) db : Prop :=
  ∃ p, p ∈ k_passkeys db ∧ pk_userId p = uid ∧ pk_credentialId p = cr_id cred ∧ pk_publicKey p = cr_publicKey cred.

Lemma create_passkey_done id uid cred label db db' u :
  tx_create_passkey (passkey_row id uid cred label) db = (db', inr u) →
  has_credential uid cred db' ∧ k_signin db' = k_signin db.
Proof.
  intros (-> & _)%tx_create_passkey_done. split; [|done]. eexists. split; [apply elem_of_app; right; by left|done].
Qed.

(** What entitles an account to a new passkey. *)
Inductive entitled rq (body : json) st st' (uid : string) : Prop :=
  | EntAdd u : (current_user sha256 rq st).2 = Some u → u_id u = uid → k_users (ps_db st') = k_users (ps_db st) →
      entitled rq body st st' uid
  | EntRecover u : readRecoverToken (p_now rq) (ps_jar st) = Some uid → u ∈ k_users (ps_db st) → u_id u = uid →
      u_status u = UActive → ca_recover (ps_jar st') = None → entitled rq body st st' uid
  | EntInvite i u :
      verifyInvite argon2verify (p_now rq) (str_or_empty (obj_get body "inviteToken")) (si_invites (k_signin (ps_db st))) = Some i →
      u ∈ k_users (ps_db st') → u_id u = uid → u_email u = inv_email i → u_role u = inv_role i → u_status u = UActive →
      (∀ k, k ∈ si_invites (k_signin (ps_db st')) → inv_id k = inv_id i → inv_usedAt k ≠ None) →
      entitled rq body st st' uid
  | EntSetup role u : k_users (ps_db st) = [] → resolveSetupRole (p_multi rq) (p_tenant rq) = Some role →
      u ∈ k_users (ps_db st') → u_id u = uid → u_role u = role → u_status u = UActive →
      entitled rq body st st' uid.

Lemma current_user_rows rq st :
  k_users (ps_db (current_user sha256 rq st).1) = k_users (ps_db st) ∧
  k_passkeys (ps_db (current_user sha256 rq st).1) = k_passkeys (ps_db st) ∧
  k_totp (ps_db (current_user sha256 rq st).1) = k_totp (ps_db st) ∧
  si_invites (k_signin (ps_db (current_user sha256 rq st).1)) = si_invites (k_signin (ps_db st)) ∧
  ps_jar (current_user sha256 rq st).1 = ps_jar st.
Proof. unfold current_user. by destruct (getCurrentUser _ _ _ _ _ _ _). Qed.

Lemma hasAnyUser_false db : hasAnyUser db = false → k_users db = [].
Proof.
  unfold hasAnyUser, count_where. destruct (k_users db) as [|u us]; [done|]. simpl. intros Hlt. reflect_bool. lia.
Qed.

(** The step [ceremony] contributes to each mode: an error is no success. *)
Ltac ceremony_ok :=
  match goal with
  | |- context [Passkeys.ceremony ?a ?b ?c ?rq ?j ?r] =>
      destruct (Passkeys.ceremony a b c rq j r) as [[[? ?]|]|[cred uv]] eqn:Hcer;
      [done|by unfold throws|apply ceremony_attested in Hcer]
  end.

(** What every mode that answers 200 has done. *)
Definition registered rq (body : json) st st' : Prop :=
  ∃ cred uv uid, attested rq (obj_get body "response") (ps_jar st) cred uv ∧
    ca_challenge (ps_jar st') = None ∧ has_credential uid cred (ps_db st') ∧ entitled rq body st st' uid.

Lemma register_add_spec rq body st st' s x :
  register_add frac_text sha256 parse_url verifyRegistrationResponse rq body st = (st', Reply s x) →
  registered rq body st st'.
Proof.
  unfold register_add. pose proof (current_user_rows rq st) as Hr.
  destruct (current_user sha256 rq st) as [st1 [user|]] eqn:Hcu; [|done]. cbn [fst] in Hr.
  destruct Hr as (Hu & Hp & _ & _ & Hj). destruct (_ || _); [done|]. ceremony_ok. rewrite Hj in Hcer.
  destruct (tx_create_passkey _ _) as [db [|]] eqn:Htx; [by unfold throws|].
  apply create_passkey_done in Htx as [Hcred Hsi]. intros [= <- <- <-].
  exists cred, uv, (u_id user). split_and!; [done..|]. apply EntAdd with user; [by rewrite Hcu|done|].
  cbn. unfold k_users. rewrite Hsi. exact Hu.
Qed.

Lemma register_recover_spec rq body st st' s x :
  register_recover frac_text sha256 parse_url verifyRegistrationResponse rq body st = (st', Reply s x) →
  registered rq body st st'.
Proof.
  unfold register_recover. destruct (readRecoverToken _ _) as [uid|] eqn:Hrt; [|done]. simpl.
  destruct (truthy uid); [|done]. destruct (negb _); [done|].
  destruct (find_row _ _) as [u|] eqn:Hf; [|done]. apply find_row_Some in Hf as [Hu Hid]. reflect_bool.
  case_bool_decide as Hact; [|done]. simpl. ceremony_ok.
  destruct (tx_create_passkey _ _) as [db [|]] eqn:Htx; [by unfold throws|].
  apply create_passkey_done in Htx as [Hcred Hsi]. intros [= <- <- <-].
  exists cred, uv, (u_id u). split_and!; [done..|]. apply EntRecover with u; by rewrite ?Hid.
Qed.

Lemma enrol_done rq u p iid db db' x :
  enrol rq u p iid db = (db', inr x) →
  u ∈ k_users db' ∧ p ∈ k_passkeys db' ∧
  ∀ k, k ∈ si_invites (k_signin db') → inv_id k = iid → inv_usedAt k ≠ None.
Proof.
  unfold enrol. intros (db1 & [] & (-> & _)%tx_create_user_done & Hb)%tx_bind_done.
  apply tx_bind_done in Hb as (db2 & [] & (-> & _)%tx_create_passkey_done & Hb).
  apply tx_bind_done in Hb as (db3 & n & [= <- <-] & Hb).
  destruct (_ =? 0); [done|]. injection Hb as <- _. cbn. split_and!; [apply elem_of_app; right; by left..|].
  intros k (k0 & _ & ->)%elem_of_update_where Hid. case_match eqn:Hm; [done|].
  rewrite bool_decide_eq_true_2 in Hm by done. simpl in Hm. by reflect_bool.
Qed.

Lemma register_invite_spec between rq body st st' s x :
  register_invite frac_text sha256 parse_url argon2verify verifyRegistrationResponse between rq body st = (st', Reply s x) →
  registered rq body st st'.
Proof.
  unfold register_invite. destruct (_ || _); [done|]. destruct (verifyInvite _ _ _ _) as [i|] eqn:Hi; [|done].
  destruct (_ && _); [done|]. ceremony_ok. destruct (db_transaction _ _ _) as [db [[]|[]]] eqn:Htx; [done..|].
  apply transaction_done, enrol_done in Htx as (Hu & Hp & Hinv). intros [= <- <- <-].
  eexists cred, uv, _. split_and!; [done..| |by eapply EntInvite].
  eexists. split; [exact Hp|done].
Qed.

Lemma register_setup_spec between rq body st st' s x :
  register_setup frac_text sha256 parse_url verifyRegistrationResponse between rq body st = (st', Reply s x) →
  registered rq body st st'.
Proof.
  unfold register_setup. destruct (_ || _); [done|]. ceremony_ok.
  destruct (resolveSetupRole _ _) as [role|] eqn:Hrole; [|done].
  destruct (hasAnyUser _) eqn:Hany; [done|]. apply hasAnyUser_false in Hany.
  destruct (db_transaction _ _ _) as [db [|[]]] eqn:Htx; [done|]. intros [= <- <- <-].
  apply transaction_done, tx_bind_done in Htx as (db1 & [] & (-> & _)%tx_create_user_done & Hp).
  apply create_passkey_done in Hp as [Hcred Hsi]. eexists cred, uv, _. split_and!; [done..|].
  match type of Hsi with context [[setup_user ?a ?b ?c ?d]] =>
    refine (EntSetup _ _ _ _ _ role (setup_user a b c d) Hany Hrole _ _ _ _); [|done..] end.
  match goal with |- ?u ∈ _ => change (u ∈ d_users (si_dir (k_signin db))) end.
  rewrite Hsi. apply elem_of_app. right. by left.
Qed.

Lemma limited_done {A} rq st (h : PkState → PkState * response A) st' s (x : A) :
  limited rq st h = (st', Reply s x) →
  ∃ l, h {| ps_db := ps_db st; ps_jar := ps_jar st; ps_limiter := l |} = (st', Reply s x).
Proof. unfold limited. destruct (checkRateLimit _ _ _ _ _) as [l []]; [eauto|done]. Qed.

(** Nothing in [registered] looks at the rate limiter. *)
Lemma registered_limiter rq body st st' l :
  registered rq body {| ps_db := ps_db st; ps_jar := ps_jar st; ps_limiter := l |} st' → registered rq body st st'.
Proof.
  intros (cred & uv & uid & Hat & Hch & Hcr & He). exists cred, uv, uid. split_and!; [done..|].
  destruct He as [u Hcu|u|i u|role u]; [apply EntAdd with u|by apply EntRecover with u|
    by apply EntInvite with i u|by apply EntSetup with role u]; try done.
  revert Hcu. unfold current_user. cbn. by destruct (getCurrentUser _ _ _ _ _ _ _).
Qed.

(** C12: a passkey is registered only for someone entitled to it.  When the
    registration route answers 200, the authenticator's answer was verified
    against the challenge in this browser's cookie, for an origin of this
    relying party, and the cookie is gone; the new credential belongs to one
    account, and that account is the signed-in user's, or the ACTIVE one a
    recovery cookie names, or was just made ACTIVE from an unused and unexpired
    invite, with its address and role, and every copy of that invite is used
    now, or was just made where setup is allowed by a request that had read an
    empty table of accounts (another setup may commit between that read and the
    creation, so two of them can each make one). *)
Theorem registration_sound between rq body st st' s x :
  registrationVerify frac_text sha256 parse_url argon2verify verifyRegistrationResponse between rq body st
    = (st', Reply s x) →
  registered rq body st st'.
Proof.
  intros (l & Hh)%limited_done. apply (registered_limiter _ _ _ _ l). cbv zeta in Hh.
  destruct (json_str_is _ "add"); [by eapply register_add_spec|].
  destruct (json_str_is _ "recover"); [by eapply register_recover_spec|].
  destruct (json_str_is _ "invite"); [by eapply register_invite_spec|].
  destruct (json_str_is _ "setup"); [by eapply register_setup_spec|done].
Qed.

(** *** Signing in *)

Lemma passkey_gate required amr : secondFactorGate required amr true = GateAllow → required = true → hasSecondFactor amr = true.
Proof. intros Hg ->. unfold secondFactorGate in Hg. simpl in Hg. by destruct (hasSecondFactor amr). Qed.

(** C13: a passkey sign-in is founded.  When the route answers 200, the
    authenticator's answer was verified against an "auth" challenge of this
    browser with the key of a registered passkey; the account it belongs to is
    ACTIVE, before and after the directory check; when the policy the request
    read requires a second factor, the authenticator verified the person; the
    session is for that account and records the methods; the passkey's stored
    counter is the authenticator's, and the challenge cookie is gone. *)
Theorem passkey_sign_in_sound rq body st st' s x :
  authenticationVerify frac_text sha256 date_parse parse_url verifyAuthenticationResponse find_by_filter rq body st
    = (st', Reply s x) →
  ∃ ch pk user r,
    readChallenge frac_text (p_now rq) PAuth (ps_jar st) = Some ch ∧
    find_passkey find_by_filter (obj_get (obj_get body "response") "id") (k_passkeys (ps_db st)) = Some pk ∧
    user ∈ k_users (ps_db st) ∧ u_id user = pk_userId pk ∧ u_status user = UActive ∧
    kept_user user (k_users (ps_db st')) ∧
    originMatchesRp parse_url (requestOrigin (p_headers rq)) (rpId rq) = true ∧
    verifyAuthenticationResponse (obj_get body "response") ch (requestOrigin (p_headers rq)) (rpId rq) pk = Some r ∧
    ar_verified r = true ∧
    (requireSecondFactor (getSessionPolicy (p_tenant rq) (p_now rq) (p_policyError rq) (si_policy (k_signin (ps_db st)))).2
       = true → ar_userVerified r = true) ∧
    holds_session rq (pk_userId pk) (passkeyAmr (ar_userVerified r)) (ps_db st') ∧
    (∀ p, p ∈ k_passkeys (ps_db st') → pk_id p = pk_id pk → pk_counter p = ar_newCounter r) ∧
    ca_challenge (ps_jar st') = None.
Proof.
  intros (l & Hh)%limited_done. cbn [ps_db ps_jar] in Hh.
  destruct (negb (json_truthy _)); [done|].
  destruct (readChallenge _ _ _ _) as [ch|] eqn:Hch; [|done]. cbn [some_truthy] in Hh. destruct (truthy ch); [|done].
  destruct (find_passkey _ _ _) as [pk|] eqn:Hpk; [|done].
  destruct (find_row _ _) as [user|] eqn:Hf; [|done]. apply find_row_Some in Hf as [Hu Hid]. reflect_bool.
  case_bool_decide as Hact; [|done]. cbn [negb] in Hh.
  destruct (originMatchesRp _ _ _) eqn:Ho; [|done]. cbn [negb] in Hh.
  destruct (verifyAuthenticationResponse _ _ _ _ _) as [r|] eqn:Hv; [|done]. destruct (ar_verified r) eqn:Hver; [|done].
  exists ch, pk, user, r. unfold signed_in in Hh. cbn [ps_db k_signin with_passkeys] in Hh.
  destruct (getSessionPolicy _ _ _ _) as [pst policy]. destruct (secondFactorGate _ _ _) eqn:Hg; [|done|done].
  destruct (syncUserAtLogin _ _ _ _ _) as [[d []]|] eqn:Hs; [done| |by unfold throws in Hh].
  pose proof (open_session_holds rq (pk_userId pk) (passkeyAmr (ar_userVerified r))) as Hses.
  match type of Hh with (with_jar ?os _, _) = _ => set (stn := os) in Hh end.
  injection Hh as <- _ _. split_and!; try done.
  - by eapply sync_kept in Hs.
  - cbn [snd]. intros Hreq. specialize (passkey_gate _ _ Hg Hreq). by destruct (ar_userVerified r).
  - apply Hses.
  - intros p (p0 & _ & ->)%elem_of_update_where Hp. case_match eqn:Hm; [done|]. by reflect_bool.
Qed.

(** *** Well-formed accounts *)

(** What the tables' keys promise: users are identified by their id and by
    their address, passkeys by their id and by their credential, and every
    passkey belongs to a user. *)
Record wf_accounts db : Prop := {
  wf_ids : NoDup (u_id <$> k_users db);
  wf_emails : NoDup (u_email <$> k_users db);
  wf_pk_ids : NoDup (pk_id <$> k_passkeys db);
  wf_credentials : NoDup (pk_credentialId <$> k_passkeys db);
  wf_owners : ∀ p, p ∈ k_passkeys db → pk_userId p ∈ u_id <$> k_users db;
}.

(** Users and passkeys up to what a session, a directory check or a counter may
    change. *)
Record same_accounts db db' : Prop := {
  sa_ids : u_id <$> k_users db' = u_id <$> k_users db;
  sa_emails : u_email <$> k_users db' = u_email <$> k_users db;
  sa_keys : (λ p, (pk_id p, pk_userId p, pk_credentialId p)) <$> k_passkeys db' =
            (λ p, (pk_id p, pk_userId p, pk_credentialId p)) <$> k_passkeys db;
}.

Lemma same_column {B} (g : string * string * string → B) db db' :
  same_accounts db db' →
  (λ p, g (pk_id p, pk_userId p, pk_credentialId p)) <$> k_passkeys db' =
  (λ p, g (pk_id p, pk_userId p, pk_credentialId p)) <$> k_passkeys db.
Proof.
  intros [_ _ Hk]. apply (f_equal (fmap g)) in Hk. by rewrite <-!list_fmap_compose in Hk.
Qed.

Lemma same_accounts_refl db db' : k_users db' = k_users db → k_passkeys db' = k_passkeys db → same_accounts db db'.
Proof. intros Hu Hp. split; by rewrite ?Hu, ?Hp. Qed.

Lemma same_accounts_wf db db' : same_accounts db db' → wf_accounts db → wf_accounts db'.
Proof.
  intros Hs [Hi He Hp Hc Ho].
  assert (pk_id <$> k_passkeys db' = pk_id <$> k_passkeys db) as Hpi by apply (same_column (λ k, k.1.1) _ _ Hs).
  assert (pk_credentialId <$> k_passkeys db' = pk_credentialId <$> k_passkeys db) as Hpc
    by apply (same_column (λ k, k.2) _ _ Hs).
  assert (pk_userId <$> k_passkeys db' = pk_userId <$> k_passkeys db) as Hpo by apply (same_column (λ k, k.1.2) _ _ Hs).
  split; [by rewrite (sa_ids _ _ Hs)|by rewrite (sa_emails _ _ Hs)|by rewrite Hpi|by rewrite Hpc|].
  intros p Hin. rewrite (sa_ids _ _ Hs). assert (pk_userId p ∈ pk_userId <$> k_passkeys db) as Hq.
  { rewrite <-Hpo. by apply list_elem_of_fmap_2. }
  apply list_elem_of_fmap in Hq as (q & -> & Hq). by apply Ho.
Qed.

Lemma create_user_wf fails u db db' x :
  tx_create_user fails u db = (db', inr x) → wf_accounts db → wf_accounts db' ∧ u ∈ k_users db'.
Proof.
  intros (-> & Hid & Hem)%tx_create_user_done [Hi He Hp Hc Ho]. split; [|apply elem_of_app; right; by left].
  split; try done; cbn.
  - by apply NoDup_fmap_snoc.
  - by apply NoDup_fmap_snoc.
  - intros p Hin. rewrite fmap_app. apply elem_of_app. left. by apply Ho.
Qed.

Lemma create_passkey_wf p db db' x :
  tx_create_passkey p db = (db', inr x) → pk_userId p ∈ u_id <$> k_users db → wf_accounts db → wf_accounts db'.
Proof.
  intros (-> & Hid & Hcr)%tx_create_passkey_done Hu [Hi He Hp Hc Ho]. split; try done; cbn.
  - by apply NoDup_fmap_snoc.
  - by apply NoDup_fmap_snoc.
  - intros q [Hq| ->%list_elem_of_singleton]%elem_of_app; [by apply Ho|done].
Qed.

Lemma enrol_wf rq u p iid db :
  pk_userId p = u_id u → wf_accounts db → wf_accounts (enrol rq u p iid db).1.
Proof.
  intros Hp Hwf. unfold enrol, mbind, tx_bind.
  destruct (tx_create_user _ _ _) as [db1 [e|x]] eqn:Hu; [unfold tx_create_user in Hu; by apply tx_write_failed in Hu as ->|].
  apply create_user_wf in Hu as [Hwf1 Hin]; [|done].
  destruct (tx_create_passkey _ _) as [db2 [e|y]] eqn:Hk; [unfold tx_create_passkey in Hk; by apply tx_write_failed in Hk as ->|].
  apply create_passkey_wf in Hk; [|rewrite Hp; by apply list_elem_of_fmap_2|done].
  assert (wf_accounts (tx_consume_invite (p_now rq) iid db2).1) as Hc by (apply (same_accounts_wf db2); [by apply same_accounts_refl|done]).
  destruct (tx_consume_invite _ _ _) as [db3 [e|n]]; [done|]. by destruct (n =? 0).
Qed.

Lemma current_user_elem rq st st1 u : current_user sha256 rq st = (st1, Some u) → u ∈ k_users (ps_db st).
Proof.
  assert (∀ f tid now t a, ∃ a', a_users a' = a_users a ∧ ∃ r, getSessionUser sha256 f tid now t a = (a', r) ∧
    ∀ v, r = Some v → v ∈ a_users a) as Hg.
  { intros f tid now t a. unfold getSessionUser. destruct (negb _); [by eexists; split; [|eexists]|].
    destruct (find_row _ (a_sessions a)) as [s|]; [|by eexists; split; [|eexists]].
    destruct (_ <? now); [by eexists; split; [|eexists]|]. destruct (se_mobile s); [by eexists; split; [|eexists]|].
    destruct (find_row _ (a_users a)) as [v|] eqn:Hf; [|by eexists; split; [|eexists]].
    apply find_row_Some in Hf as [Hv _]. destruct (negb _); [by eexists; split; [|eexists]|].
    destruct (getSessionPolicy _ _ _ _) as [pst pol].
    destruct (idleExpired _ _ _); eexists; (split; [|eexists; split; [done|]]); [done..|done|by intros w [= <-]]. }
  unfold current_user, getCurrentUser. set (a := auth_of _).
  destruct (match ca_support _ with Some t => _ | None => _ end) as [a1 u1] eqn:H1.
  assert (a_users a1 = k_users (ps_db st) ∧ ∀ v, u1 = Some v → v ∈ k_users (ps_db st)) as [Ha1 Hu1].
  { destruct (ca_support _) as [t|]; [|by simplify_eq]. destruct (truthy t); [|by simplify_eq].
    destruct (Hg (p_faults rq).1 (p_tenant rq) (p_now rq) t a) as (a' & Ha & r & Hr & Hv). rewrite Hr in H1. by simplify_eq. }
  destruct u1 as [u1|]; [intros [= <- <-]; by apply Hu1|].
  destruct (ca_session _) as [t|]; [|done].
  destruct (Hg (p_faults rq).2 (p_tenant rq) (p_now rq) t a1) as (a' & Ha & r & Hr & Hv). rewrite Hr. intros [= <- ->].
  rewrite <-Ha1. by apply Hv.
Qed.

(** The passkey routes, as calls. *)
Inductive account_call :=
  | CallRegister (between : AccountDb → AccountDb) (body : json)
  | CallRegisterOptions (challenge : string) (body : json)
  | CallAuthenticate (body : json)
  | CallAuthenticateOptions (challenge : string)
  | CallRecover (body : json)
  | CallTotpSet (body : json)
  | CallTotpClear
  | CallPasskeyDelete (id : string)
  | CallLogout.

Context (verifySync : Z → string → string → option bool).
Context (encrypt : string → string) (decrypt : string → option string).

Definition run_account (c : account_call) rq st : PkState :=
  match c with
  | CallRegister between body =>
      (registrationVerify frac_text sha256 parse_url argon2verify verifyRegistrationResponse between rq body st).1
  | CallRegisterOptions challenge body => (registrationOptions sha256 argon2verify challenge rq body st).1
  | CallAuthenticate body =>
      (authenticationVerify frac_text sha256 date_parse parse_url verifyAuthenticationResponse find_by_filter rq body st).1
  | CallAuthenticateOptions challenge => (authenticationOptions challenge rq st).1
  | CallRecover body => (recoverPost verifySync decrypt rq body st).1
  | CallTotpSet body => (recoveryPost sha256 verifySync encrypt rq body st).1
  | CallTotpClear => (recoveryDelete sha256 rq st).1
  | CallPasskeyDelete id => (passkeyDelete sha256 rq id st).1
  | CallLogout => (logoutPost sha256 st).1
  end.

Lemma limited_db {A} rq st (h : PkState → PkState * response A) (P : AccountDb → Prop) :
  P (ps_db st) → (∀ l, P (ps_db (h {| ps_db := ps_db st; ps_jar := ps_jar st; ps_limiter := l |}).1)) →
  P (ps_db (limited rq st h).1).
Proof. intros Hp Hh. unfold limited. by destruct (checkRateLimit _ _ _ _ _) as [l []]; [apply Hh|]. Qed.

Lemma current_user_wf rq st : wf_accounts (ps_db st) → wf_accounts (ps_db (current_user sha256 rq st).1).
Proof.
  apply same_accounts_wf. destruct (current_user_rows rq st) as (? & ? & _). by apply same_accounts_refl.
Qed.

Lemma open_session_wf rq uid amr st : wf_accounts (ps_db st) → wf_accounts (ps_db (open_session rq uid amr st)).
Proof.
  apply same_accounts_wf. destruct (open_session_rows rq uid amr st) as (? & ? & _). by apply same_accounts_refl.
Qed.

Lemma throws_wf {A} rq start st :
  wf_accounts (ps_db start) → wf_accounts (ps_db st) → wf_accounts (ps_db (throws (A := A) rq start st).1).
Proof. intros ? ?. unfold throws. by destruct (p_multi rq). Qed.

Lemma register_add_wf rq body st :
  wf_accounts (ps_db st) →
  wf_accounts (ps_db (register_add frac_text sha256 parse_url verifyRegistrationResponse rq body st).1).
Proof.
  intros Hwf. pose proof (current_user_wf rq st Hwf) as Hwf1. pose proof (current_user_rows rq st) as (Hu & _).
  unfold register_add. destruct (current_user sha256 rq st) as [st1 [user|]] eqn:Hcu; [|done]. cbn [fst] in *.
  destruct (_ || _); [done|]. destruct (Passkeys.ceremony _ _ _ _ _ _) as [[[]|]|[cred uv]]; [done|by apply throws_wf|].
  destruct (tx_create_passkey _ _) as [db [|]] eqn:Htx; [by apply throws_wf|].
  apply create_passkey_wf in Htx; [done| |done]. rewrite Hu. apply (list_elem_of_fmap_2 u_id). by eapply current_user_elem.
Qed.

Lemma register_recover_wf rq body st :
  wf_accounts (ps_db st) →
  wf_accounts (ps_db (register_recover frac_text sha256 parse_url verifyRegistrationResponse rq body st).1).
Proof.
  intros Hwf. unfold register_recover. destruct (some_truthy _) as [uid|]; [|done]. destruct (negb _); [done|].
  destruct (find_row _ _) as [u|] eqn:Hf; [|done]. apply find_row_Some in Hf as [Hu _]. destruct (negb _); [done|].
  destruct (Passkeys.ceremony _ _ _ _ _ _) as [[[]|]|[cred uv]]; [done|by apply throws_wf|].
  destruct (tx_create_passkey _ _) as [db [|]] eqn:Htx; [by apply throws_wf|].
  apply create_passkey_wf in Htx; [|by apply (list_elem_of_fmap_2 u_id)|done].
  change (wf_accounts (ps_db (open_session rq (u_id u) (passkeyAmr uv) (with_db st db)))). by apply open_session_wf.
Qed.

Lemma register_invite_wf between rq body st :
  (∀ db, wf_accounts db → wf_accounts (between db)) → wf_accounts (ps_db st) →
  wf_accounts (ps_db (register_invite frac_text sha256 parse_url argon2verify verifyRegistrationResponse between rq body st).1).
Proof.
  intros Hb Hwf. unfold register_invite. destruct (_ || _); [done|]. destruct (verifyInvite _ _ _ _) as [i|]; [|done].
  destruct (_ && _); [done|]. destruct (Passkeys.ceremony _ _ _ _ _ _) as [[[]|]|[cred uv]]; [done|by apply throws_wf|].
  set (id := account_id _ _). set (fn := enrol _ _ _ _).
  assert (wf_accounts (db_transaction (p_multi rq) fn (between (ps_db st))).1) as Ht.
  { destruct (transaction_state (p_multi rq) fn (between (ps_db st))) as [-> | ->]; [by apply Hb|].
    apply enrol_wf; [done|by apply Hb]. }
  destruct (db_transaction _ _ _) as [db [[]|[]]]; [done|done|].
  change (wf_accounts (ps_db (open_session rq id (passkeyAmr uv) (with_db st db)))). by apply open_session_wf.
Qed.

Lemma register_setup_wf between rq body st :
  (∀ db, wf_accounts db → wf_accounts (between db)) → wf_accounts (ps_db st) →
  wf_accounts (ps_db (register_setup frac_text sha256 parse_url verifyRegistrationResponse between rq body st).1).
Proof.
  intros Hb Hwf. unfold register_setup. destruct (_ || _); [done|].
  destruct (Passkeys.ceremony _ _ _ _ _ _) as [[[]|]|[cred uv]]; [done|by apply throws_wf|].
  destruct (resolveSetupRole _ _) as [role|]; [|done]. destruct (hasAnyUser _); [done|].
  set (id := account_id _ _). set (fn := mbind (M := Tx AccountDb) _ _).
  assert (wf_accounts (db_transaction (p_multi rq) fn (between (ps_db st))).1) as Ht.
  { destruct (transaction_state (p_multi rq) fn (between (ps_db st))) as [-> | ->]; [by apply Hb|].
    unfold fn, mbind, tx_bind.
    destruct (tx_create_user _ _ _) as [db1 [e|x]] eqn:Hu;
      [unfold tx_create_user in Hu; apply tx_write_failed in Hu as ->; by apply Hb|].
    apply create_user_wf in Hu as [Hwf1 Hin]; [|by apply Hb].
    destruct (tx_create_passkey _ _) as [db2 [e|y]] eqn:Hk; [unfold tx_create_passkey in Hk; by apply tx_write_failed in Hk as ->|].
    apply create_passkey_wf in Hk; [done| |done]. by apply (list_elem_of_fmap_2 u_id) in Hin. }
  destruct (db_transaction _ _ _) as [db [|[]]]; [done|].
  change (wf_accounts (ps_db (open_session rq id (passkeyAmr uv) (with_db st db)))). by apply open_session_wf.
Qed.

Lemma signed_in_same rq pk user r st :
  same_accounts (ps_db st) (ps_db (signed_in sha256 date_parse rq pk user r st st).1).
Proof.
  unfold signed_in. destruct (getSessionPolicy _ _ _ _) as [pst policy].
  assert (∀ f (ps : list Passkey), (λ p, (pk_id p, pk_userId p, pk_credentialId p)) <$>
      update_where f (set_counter (ar_newCounter r) (p_now rq)) ps =
      (λ p, (pk_id p, pk_userId p, pk_credentialId p)) <$> ps) as Hk by (intros; by apply update_where_column).
  destruct (secondFactorGate _ _ _); [|by split; simpl..].
  destruct (syncUserAtLogin _ _ _ _ _) as [[d []]|] eqn:Hs.
  - split; simpl; [by eapply (sync_column _ _ u_id) in Hs|by eapply (sync_column _ _ u_email) in Hs|done].
  - split; simpl; [by eapply (sync_column _ _ u_id) in Hs|by eapply (sync_column _ _ u_email) in Hs|done].
  - unfold throws. destruct (p_multi rq); by split; simpl.
Qed.

Lemma same_rows_wf st st' :
  k_users (ps_db st') = k_users (ps_db st) → k_passkeys (ps_db st') = k_passkeys (ps_db st) →
  wf_accounts (ps_db st) → wf_accounts (ps_db st').
Proof. intros Hu Hp. apply same_accounts_wf. by apply same_accounts_refl. Qed.

Lemma delete_passkeys_wf f db : wf_accounts db → wf_accounts (with_passkeys db (delete_where f (k_passkeys db))).
Proof.
  intros [Hi He Hp Hc Ho]. split; try done; [by apply NoDup_filter_fmap..|].
  intros p [Hin _]%elem_of_delete_where. by apply Ho.
Qed.

(** The requests running alongside keep the accounts well formed. *)
Definition call_env_ok (c : account_call) : Prop :=
  match c with CallRegister between _ => ∀ db, wf_accounts db → wf_accounts (between db) | _ => True end.

Lemma register_wf between rq body st :
  (∀ db, wf_accounts db → wf_accounts (between db)) → wf_accounts (ps_db st) →
  wf_accounts (ps_db (run_account (CallRegister between body) rq st)).
Proof.
  intros Hb Hwf. cbn [run_account]. apply (limited_db rq st _ wf_accounts); [done|]. intros l. cbv zeta.
  destruct (json_str_is _ "add"); [by apply register_add_wf|].
  destruct (json_str_is _ "recover"); [by apply register_recover_wf|].
  destruct (json_str_is _ "invite"); [by apply register_invite_wf|].
  destruct (json_str_is _ "setup"); [by apply register_setup_wf|done].
Qed.

Lemma options_wf challenge body rq st :
  wf_accounts (ps_db st) → wf_accounts (ps_db (run_account (CallRegisterOptions challenge body) rq st)).
Proof.
  intros Hwf. cbn [run_account]. apply (limited_db rq st _ wf_accounts); [done|]. intros l. cbv zeta.
  set (st1 := {| ps_db := _; ps_jar := _; ps_limiter := l |}).
  destruct (json_str_is _ "add").
  { pose proof (current_user_wf rq st1 Hwf) as Hwf1. unfold options_add.
    by destruct (current_user sha256 rq st1) as [st2 [u|]]. }
  unfold options_recover, options_invite, options_setup. repeat case_match; done.
Qed.

Lemma authenticate_wf body rq st :
  wf_accounts (ps_db st) → wf_accounts (ps_db (run_account (CallAuthenticate body) rq st)).
Proof.
  intros Hwf. cbn [run_account]. apply (limited_db rq st _ wf_accounts); [done|]. intros l. cbv zeta.
  set (st1 := {| ps_db := _; ps_jar := _; ps_limiter := l |}). destruct (negb _); [done|].
  destruct (some_truthy _) as [ch|]; [|done]. destruct (find_passkey _ _ _) as [pk|]; [|done].
  destruct (find_row _ _) as [user|]; [|done]. destruct (negb _); [done|]. destruct (negb _); [done|].
  destruct (verifyAuthenticationResponse _ _ _ _ _) as [r|]; [|done]. destruct (ar_verified r); [|done].
  eapply same_accounts_wf; [apply signed_in_same|done].
Qed.

(** Whatever sequence of registration, sign-in, recovery and sign-out
    requests is served, the account tables stay well formed: no two users with
    one id or one address, no two passkeys with one id or one credential, and
    no passkey without its user, provided the requests running alongside keep
    them so. *)
Theorem accounts_wf (calls : list (account_call * PkReq)) st :
  wf_accounts (ps_db st) → Forall (λ cr, call_env_ok cr.1) calls →
  wf_accounts (ps_db (foldl (λ s cr, run_account cr.1 cr.2 s) st calls)).
Proof.
  intros Hwf Hok. revert st Hwf. induction Hok as [|[c rq] calls Hc _ IH]; intros st Hwf; [done|]. simpl. apply IH.
  destruct c; simpl in Hc.
  - by apply register_wf.
  - by apply options_wf.
  - by apply authenticate_wf.
  - cbn [run_account]. by apply (limited_db rq st _ wf_accounts).
  - cbn [run_account]. apply (limited_db rq st _ wf_accounts); [done|]. intros l. cbv zeta. repeat case_match; done.
  - pose proof (current_user_wf rq st Hwf) as Hwf1. cbn [run_account]. unfold recoveryPost.
    destruct (current_user sha256 rq st) as [st1 [u|]]; [|done]. destruct (_ || _); [done|].
    destruct (negb _); [done|]. by eapply same_rows_wf; [..|exact Hwf1].
  - pose proof (current_user_wf rq st Hwf) as Hwf1. cbn [run_account]. unfold recoveryDelete.
    destruct (current_user sha256 rq st) as [st1 [u|]]; [|done]. by eapply same_rows_wf; [..|exact Hwf1].
  - pose proof (current_user_wf rq st Hwf) as Hwf1. cbn [run_account]. unfold passkeyDelete.
    destruct (current_user sha256 rq st) as [st1 [u|]]; [|done]. destruct (find_row _ _) as [p|]; [|done].
    destruct (negb _); [done|]. destruct (_ <=? 1); [done|]. by apply (delete_passkeys_wf _ (ps_db st1)).
  - cbn [run_account]. by eapply same_rows_wf; [..|exact Hwf].
Qed.

(** The removal route leaves an account that had a passkey with one. *)
Theorem last_passkey_kept rq id st uid :
  NoDup (pk_id <$> k_passkeys (ps_db st)) →
  uid ∈ pk_userId <$> k_passkeys (ps_db st) →
  uid ∈ pk_userId <$> k_passkeys (ps_db (passkeyDelete sha256 rq id st).1).
Proof.
  intros Hnd Hin. pose proof (current_user_rows rq st) as (_ & Hp & _). unfold passkeyDelete.
  destruct (current_user sha256 rq st) as [st1 [u|]]; cbn [fst] in Hp; rewrite <-Hp in Hnd, Hin; [|done].
  destruct (find_row _ _) as [p|] eqn:Hf; [|done]. apply find_row_Some in Hf as [Hpin Hid].
  destruct (negb (pk_userId p =s u_id u)) eqn:Hown; [done|]. destruct (_ <=? 1) eqn:Hc; [done|]. reflect_bool. cbn.
  destruct (decide (uid = u_id u)) as [->|Hne].
  - unfold count_where in Hc. destruct (List.filter _ _) as [|a [|b l]] eqn:Hfil; simpl in Hc; [lia..|].
    assert (∀ x, x = a ∨ x = b → x ∈ k_passkeys (ps_db st1) ∧ pk_userId x = u_id u) as Hab.
    { intros x Hx. assert (In x (List.filter (λ q, pk_userId q =s u_id u) (k_passkeys (ps_db st1)))) as Hi
        by (rewrite Hfil; simpl; destruct Hx; auto).
      apply filter_In in Hi as [Hi Hu]. rewrite list_elem_of_In. by reflect_bool. }
    assert (pk_id a ≠ pk_id b) as Hneq.
    { apply (NoDup_filter_fmap pk_id (λ q, pk_userId q =s u_id u)) in Hnd. rewrite Hfil in Hnd. simpl in Hnd.
      apply NoDup_cons in Hnd as [Hn _]. set_solver. }
    destruct (decide (pk_id a = id)) as [Ha|Ha].
    + destruct (Hab b) as [Hbin <-]; [by right|]. apply list_elem_of_fmap_2, elem_of_delete_where. split; [done|].
      apply bool_decide_eq_false. congruence.
    + destruct (Hab a) as [Hain <-]; [by left|]. apply list_elem_of_fmap_2, elem_of_delete_where. split; [done|].
      by apply bool_decide_eq_false.
  - apply list_elem_of_fmap in Hin as (q & -> & Hq). apply list_elem_of_fmap_2, elem_of_delete_where. split; [done|].
    apply bool_decide_eq_false. intros Heq. apply Hne.
    by rewrite (NoDup_fmap_eq pk_id _ q p Hnd Hq Hpin) by congruence.
Qed.

(** *** Cookies *)

(** A challenge is read back by the step of its own purpose, with the
    identifier set along with it, for five minutes, and by no other. *)
Theorem challenge_roundtrip `{!JwtLaws} (t0 now : Z) (ch : string) (p q : Purpose) (uid : option string) j :
  let j' := setChallenge t0 ch p uid j in
  let live := bool_decide (p = q) && (now / 1000 <? t0 / 1000 + 300) in
  readChallenge frac_text now q j' = (if live then Some ch else None) ∧
  readChallengeUid now q j' = (if live then uid else None).
Proof.
  intros j' live. unfold readChallenge, readChallengeUid, challenge_payload, j', live, setChallenge. cbn [ca_challenge mbind option_bind].
  destruct (Z.ltb_spec (now / 1000) (t0 / 1000 + 300)) as [Hlt|Hge].
  - rewrite jwt_live by lia. by destruct p, q, uid.
  - rewrite jwt_expired by lia. by rewrite andb_false_r.
Qed.

(** *** Behaviour that differs from what the code intends *)

(** The comment at the transaction says that an invite found used rolls
    everything back.  So it does self-hosted; in cloud the account and its
    passkey stay, and the caller is told the invite is invalid. *)
Theorem invite_replay_cloud rq u p iid db :
  p_dbFails rq = false →
  u_id u ∉ u_id <$> k_users db → u_email u ∉ u_email <$> k_users db →
  pk_id p ∉ pk_id <$> k_passkeys db → pk_credentialId p ∉ pk_credentialId <$> k_passkeys db →
  (∀ i, i ∈ si_invites (k_signin db) → inv_id i = iid → inv_usedAt i ≠ None) →
  db_transaction false (enrol rq u p iid) db = (db, inl (Threw "INVITE_ALREADY_USED")) ∧
  ∃ db', db_transaction true (enrol rq u p iid) db = (db', inl (Threw "INVITE_ALREADY_USED")) ∧
         u ∈ k_users db' ∧ p ∈ k_passkeys db'.
Proof.
  intros Hf Hid Hem Hpid Hcr Hused. set (db1 := with_signin db (with_users (k_signin db) (k_users db ++ [u]))).
  assert (tx_create_user (p_dbFails rq) u db = (db1, inr tt)) as Hu.
  { unfold tx_create_user, tx_write. rewrite Hf. destruct (existsb _ _) eqn:He; [|done]. apply existsb_exists in He as (x & Hx & Heq).
    apply list_elem_of_In in Hx. apply orb_true_iff in Heq as [Heq|Heq]; reflect_bool;
      [destruct Hem; rewrite <-Heq|destruct Hid; rewrite <-Heq]; by apply list_elem_of_fmap_2. }
  assert (tx_create_passkey p db1 = (with_passkeys db1 (k_passkeys db ++ [p]), inr tt)) as Hk.
  { unfold tx_create_passkey, tx_write. destruct (existsb _ _) eqn:He; [|done]. apply existsb_exists in He as (x & Hx & Heq).
    apply list_elem_of_In in Hx. apply orb_true_iff in Heq as [Heq|Heq]; reflect_bool;
      [destruct Hcr; rewrite <-Heq|destruct Hpid; rewrite <-Heq]; by apply list_elem_of_fmap_2. }
  unfold db_transaction, enrol, mbind, tx_bind. rewrite Hu, Hk. unfold tx_consume_invite.
  assert (∀ l, (∀ i, i ∈ l → inv_id i = iid → inv_usedAt i ≠ None) →
    count_where (λ i, (inv_id i =s iid) && bool_decide (inv_usedAt i = None)) l = 0) as Hz.
  { intros l Hl. apply count_where_0. intros i Hi. apply andb_false_iff. destruct (decide (inv_id i = iid)).
    - right. apply bool_decide_eq_false. by apply Hl.
    - left. by apply bool_decide_eq_false. }
  cbn [k_signin with_passkeys with_signin db1 with_users with_dir si_invites]. rewrite Hz by done. split; [done|].
  eexists. split; [done|]. cbn. split; apply elem_of_app; right; by left.
Qed.

(** Addresses are stored in lower case; the recovery route looks up the address
    as typed, so one typed with a capital finds no account. *)
Theorem recover_case_sensitive rq body st email :
  obj_get body "email" = JStr email → trim email ∉ u_email <$> k_users (ps_db st) →
  replies (recoverPost verifySync decrypt rq body st).2 = false.
Proof.
  intros He Hno. unfold recoverPost, limited. destruct (checkRateLimit _ _ _ _ _) as [l []]; [|done].
  rewrite He. cbn [str_or_empty]. destruct (_ || _); [done|].
  destruct (find_row _ _) as [u|] eqn:Hf; [|done]. apply find_row_Some in Hf as [Hu Hm]. reflect_bool.
  destruct Hno. rewrite <-Hm. by apply list_elem_of_fmap_2.
Qed.
End passkey_theorems.

(** ** Concrete requests *)

#[global] Instance demo_jwt : Jwt :=
  {| token := list (string * json) * Z; signJwt := pair;
     jwtVerify := λ now t, if now / 1000 <? t.2 then Some (JObj (t.1 ++ [("exp"%string, JNum (NInt t.2))])) else None |}.
#[global] Instance demo_jwt_laws : JwtLaws.
Proof.
  split; intros fields exp now Hlt; simpl.
  - by rewrite (proj2 (Z.ltb_lt _ _)).
  - by rewrite (proj2 (Z.ltb_ge _ _)).
Qed.

Definition demo_cred : Credential :=
  {| cr_id := "cred1"; cr_publicKey := "key1"; cr_counter := None; cr_transports := None |}.
(** An authenticator that answers challenge "ch" of this site. *)
Definition demo_register (_ : json) (ch origin rp : string) : option RegResult :=
  Some {| rr_verified := (ch =s "ch") && (origin =s "https://access.example.com") && (rp =s "access.example.com");
          rr_info := Some (demo_cred, true) |}.
Definition demo_authenticate (_ : json) (ch origin rp : string) (p : Passkey) : option AuthResult :=
  Some {| ar_verified := (ch =s "ch") && (pk_publicKey p =s "key1"); ar_newCounter := pk_counter p + 1; ar_userVerified := true |}.
Definition demo_parse (s : string) : option Url :=
  if s =s "https://access.example.com"
  then Some {| u_protocol := "https:"; u_host := "access.example.com"; u_hostname := "access.example.com"; u_href := s |}
  else None.
Definition demo_pk_req (path : string) : PkReq :=
  {| p_now := 1700000000000; p_tenant := "default"; p_multi := false; p_envHours := 12; p_ip := Some "192.0.2.1"%string;
     p_userAgent := None; p_path := path;
     p_headers := {| h_origin := Some "https://access.example.com"%string; h_xForwardedHost := None; h_host := None;
                     h_xForwardedProto := None; h_protocol := "http:"; h_selfOrigin := "http://x" |};
     p_rpEnv := Some "access.example.com"%string; p_uuid := "u-42"; p_newUserId := "u-0"; p_newPasskeyId := "pk1";
     p_sessionId := "s1"; p_token := "tok"; p_dbFails := false; p_policyError := false; p_startUnread := false; p_faults := (no_faults, no_faults);
     p_sync := demo_sync [] |}.
Definition demo_accounts : AccountDb := {| k_signin := demo_invited; k_passkeys := []; k_totp := [] |}.
Definition demo_pk_state : PkState :=
  {| ps_db := demo_accounts;
     ps_jar := {| ca_challenge := None; ca_recover := None; ca_session := None; ca_support := None |};
     ps_limiter := {| hits := ∅; lastSweep := 0 |} |}.
Definition demo_invite_body : json :=
  JObj [("mode", JStr "invite"); ("inviteToken", JStr "tok"); ("response", JObj [("id", JStr "cred1")])]%string.
Definition demo_offered : PkState :=
  (registrationOptions id (λ _ _, true) "ch" (demo_pk_req "/o") demo_invite_body demo_pk_state).1.
Definition demo_registered : PkState * response unit :=
  registrationVerify (λ _, "0"%string) id demo_parse (λ _ _, true) demo_register (λ db, db) (demo_pk_req "/v")
    demo_invite_body demo_offered.

Lemma registration_sound_witness :
  demo_registered.2 = Reply 200 tt ∧
    registered (λ _, "0"%string) id demo_parse (λ _ _, true) demo_register (demo_pk_req "/v") demo_invite_body demo_offered
      demo_registered.1.
Proof.
  assert (demo_registered.2 = Reply 200 tt) as Hr by (vm_compute; reflexivity). split; [exact Hr|].
  apply (registration_sound (λ _, "0"%string) id demo_parse (λ _ _, true) demo_register (λ db, db) (demo_pk_req "/v")
           demo_invite_body demo_offered demo_registered.1 200 tt). rewrite <-Hr. apply surjective_pairing.
Defined.

Definition demo_login_state : PkState :=
  (authenticationOptions "ch" (demo_pk_req "/ao") demo_registered.1).1.
Definition demo_login_body : json := JObj [("response", JObj [("id", JStr "cred1")])]%string.
Definition demo_logged_in : PkState * response unit :=
  authenticationVerify (λ _, "0"%string) id no_dates demo_parse demo_authenticate (λ _ _, None) (demo_pk_req "/av")
    demo_login_body demo_login_state.

Lemma passkey_sign_in_sound_witness :
  demo_logged_in.2 = Reply 200 tt ∧
  ∃ pk, pk ∈ k_passkeys (ps_db demo_login_state) ∧
    holds_session id (demo_pk_req "/av") (pk_userId pk) (passkeyAmr true) (ps_db demo_logged_in.1).
Proof.
  assert (demo_logged_in.2 = Reply 200 tt) as Hr by (vm_compute; reflexivity). split; [exact Hr|].
  destruct (passkey_sign_in_sound (λ _, "0"%string) id no_dates demo_parse demo_authenticate (λ _ _, None) (demo_pk_req "/av")
    demo_login_body demo_login_state demo_logged_in.1 200 tt) as (ch & pk & u & r & _ & Hpk & _ & _ & _ & _ & _ & Hv & _ & _ & Hs & _).
  - rewrite <-Hr. apply surjective_pairing.
  - exists pk. split; [by apply find_row_Some in Hpk as [? _]|]. injection Hv as <-. exact Hs.
Defined.

Lemma accounts_wf_witness :
  wf_accounts (ps_db (foldl (λ s cr, run_account (λ _, "0"%string) id no_dates demo_parse (λ _ _, true) demo_register
    demo_authenticate (λ _ _, None) (λ _ _ _, Some true) id Some cr.1 cr.2 s) demo_offered
    [(CallRegister (λ db, db) demo_invite_body, demo_pk_req "/v"); (CallLogout, demo_pk_req "/l")])).
Proof.
  apply (accounts_wf (λ _, "0"%string) id no_dates demo_parse (λ _ _, true) demo_register
    demo_authenticate (λ _ _, None) (λ _ _ _, Some true) id Some
    [(CallRegister (λ db, db) demo_invite_body, demo_pk_req "/v"); (CallLogout, demo_pk_req "/l")] demo_offered).
  - split; [by apply (bool_decide_unpack _); vm_compute..|]. by intros p ?%elem_of_nil.
  - constructor; [by intros db|by constructor; [|constructor]].
Defined.
