(* ===== verification/People.v ===== *)
(** * People: users, invites and one's own profile

    The admin routes over accounts (src/app/api/admin/users/[id]), over invites
    (admin/invites, admin/invites/[id] and its resend) and the two self-service
    settings (settings/profile, settings/timezone).

    A handler reads, decides and then writes; [between] is what other requests
    committed before its write.  Mail is a parameter: what the mailer answered. *)

From S2P Require Import Prelude JsString JsValue Schema Transaction AuditChain AccessLog AdminLog Identity Access Sessions Settings RateLimit Tenant Directory SignIn Passkeys.

(** ** State and requests *)

Record PeopleDb := { pe_acc : AccountDb; pe_log : AdminDb }.
Definition with_acc (db : PeopleDb) (a : AccountDb) : PeopleDb := {| pe_acc := a; pe_log := pe_log db |}.

(** What [getSmtpConfig] and [sendMail] came to: no server or a disabled one, an
    answer, or a throw. *)
Inductive mail_result := MailOff | MailSent (sent : bool) | MailThrew.

Record PeopleReq := {
  pr_now : Z;
  pr_tenant : string;
  pr_multi : bool;
  pr_support : option string;
  pr_session : option string;
  pr_faults : SessionFaults * SessionFaults;
  pr_clientIp : option string;
  pr_inviteId : string;
  pr_token : string;
  pr_ttlHours : Z;
  pr_baseUrl : string;
  pr_org : option string;
  pr_envelope : TenantEnvelope;
  pr_mail : mail_result;
  pr_auditId : string;
  pr_auditFails : bool;
}.

(** ** Rows *)

Definition set_grants (db : AccountDb) (gs : list AccessGrant) : AccountDb :=
  let s := k_signin db in with_signin db (with_dir s (with_rows (si_dir s) (d_users (si_dir s)) gs)).
Definition k_grants (db : AccountDb) : list AccessGrant := d_grants (si_dir (k_signin db)).
Definition k_invites (db : AccountDb) : list Invite := si_invites (k_signin db).
Definition set_invites (db : AccountDb) (l : list Invite) : AccountDb := with_signin db (with_invites (k_signin db) l).
Definition set_users (db : AccountDb) (us : list User) : AccountDb := with_signin db (with_users (k_signin db) us).

(** [updateData]: the columns present in the request. *)
Definition patch_user (status : option UserStatus) (role : option Role) (u : User) : User :=
  {| u_id := u_id u; u_email := u_email u; u_name := u_name u; u_phone := u_phone u; u_company := u_company u;
     u_timezone := u_timezone u; u_role := role ?? u_role u; u_status := status ?? u_status u;
     u_directoryManaged := u_directoryManaged u; u_directoryLastVerifiedAt := u_directoryLastVerifiedAt u;
     u_centerRole := u_centerRole u |}.
Definition set_name (name : string) (u : User) : User :=
  {| u_id := u_id u; u_email := u_email u; u_name := name; u_phone := u_phone u; u_company := u_company u;
     u_timezone := u_timezone u; u_role := u_role u; u_status := u_status u;
     u_directoryManaged := u_directoryManaged u; u_directoryLastVerifiedAt := u_directoryLastVerifiedAt u;
     u_centerRole := u_centerRole u |}.
Definition set_timezone (tz : option string) (u : User) : User :=
  {| u_id := u_id u; u_email := u_email u; u_name := u_name u; u_phone := u_phone u; u_company := u_company u;
     u_timezone := tz; u_role := u_role u; u_status := u_status u;
     u_directoryManaged := u_directoryManaged u; u_directoryLastVerifiedAt := u_directoryLastVerifiedAt u;
     u_centerRole := u_centerRole u |}.

(** [db.user.update({ where: { id } })]: it throws when the row is gone. *)
Definition update_user (id : string) (f : User → User) : Tx AccountDb unit :=
  tx_write (λ db, existsb (λ u, u_id u =s id) (k_users db))
    (λ db, set_users db (update_where (λ u, u_id u =s id) f (k_users db))).

(** [onDelete: SetNull] on a column that names a user. *)
Definition unset (id : string) (c : option string) : option string :=
  match c with Some x => if x =s id then None else Some x | None => None end.
Definition forget_grant (id : string) (g : AccessGrant) : AccessGrant :=
  {| g_id := g_id g; g_userId := g_userId g; g_siteId := g_siteId g; g_startsAt := g_startsAt g;
     g_endsAt := g_endsAt g; g_status := g_status g; g_note := g_note g; g_denyReason := g_denyReason g;
     g_requiresApproval := g_requiresApproval g; g_approvedAt := g_approvedAt g;
     g_approvedById := unset id (g_approvedById g); g_schedule := g_schedule g;
     g_createdById := unset id (g_createdById g); g_directoryManaged := g_directoryManaged g |}.
Definition forget_invite (id : string) (i : Invite) : Invite :=
  {| inv_id := inv_id i; inv_email := inv_email i; inv_name := inv_name i; inv_phone := inv_phone i;
     inv_company := inv_company i; inv_createdById := unset id (inv_createdById i); inv_role := inv_role i;
     inv_tokenHash := inv_tokenHash i; inv_expiresAt := inv_expiresAt i; inv_usedAt := inv_usedAt i |}.

(** What deleting a user's row does to the tables that reference it. *)
Definition cascade_user (id : string) (db : AccountDb) : AccountDb :=
  let s := k_signin db in
  {| k_signin :=
       {| si_dir := with_rows (si_dir s) (delete_where (λ u, u_id u =s id) (d_users (si_dir s)))
                      (map (forget_grant id) (delete_where (λ g, g_userId g =s id) (d_grants (si_dir s))));
          si_sessions := delete_where (λ x, se_userId x =s id) (si_sessions s);
          si_policy := si_policy s; si_invites := map (forget_invite id) (si_invites s);
          si_settings := si_settings s |};
     k_passkeys := delete_where (λ p, pk_userId p =s id) (k_passkeys db);
     k_totp := delete_where (λ t, ts_userId t =s id) (k_totp db) |}.
(** [db.user.delete({ where: { id } })] *)
Definition delete_user (id : string) : Tx AccountDb unit :=
  tx_write (λ db, existsb (λ u, u_id u =s id) (k_users db)) (cascade_user id).

(** [deleteMany({ where: { id, usedAt: null } })] *)
Definition pending_invite (id : string) (i : Invite) : bool := (inv_id i =s id) && bool_decide (inv_usedAt i = None).

(** ** Bodies *)

Definition read_role (s : string) : option Role := find_row (λ r, role_name r =s s) ASSIGNABLE_ROLES.
Definition status_name (s : UserStatus) : string := match s with UActive => "ACTIVE" | UDisabled => "DISABLED" end.
Definition VALID_STATUSES : list UserStatus := [UActive; UDisabled].
Definition read_status (s : string) : option UserStatus := find_row (λ x, status_name x =s s) VALID_STATUSES.

Section people_routes.
Context (sha256 : string → string) (argon2hash : string → string).
Context (frac_text : Z → string) (digest : string → string) (json_store : json → json).
(** Whether [Intl.DateTimeFormat] accepts the zone. *)
Context (isValidTimeZone : string → bool).

Definition whoami (rq : PeopleReq) (db : PeopleDb) : PeopleDb * option User :=
  let '(a, u) := getCurrentUser sha256 (pr_faults rq) (pr_tenant rq) (pr_now rq) (pr_support rq) (pr_session rq)
                   (auth_of (k_signin (pe_acc db))) in
  (with_acc db (put_auth (pe_acc db) a), u).

Definition note (rq : PeopleReq) (me : User) (action targetType : string) (targetId : option string)
    (summary : string) (metadata : json) (db : PeopleDb) : PeopleDb :=
  {| pe_acc := pe_acc db;
     pe_log := recordAdminAction frac_text digest json_store (pr_auditFails rq) (pr_auditId rq) (pr_now rq) (pe_log db)
       {| in_actor := {| actor_id := u_id me; actor_email := Some (u_email me) |}; in_action := action;
          in_targetType := Some targetType; in_targetId := targetId; in_summary := summary;
          in_metadata := metadata; in_clientIp := pr_clientIp rq |} |}.

(** A statement that throws: what other requests committed stays; in cloud the
    request's own writes so far are rolled back. *)
Definition crashed {A} (between : AccountDb → AccountDb) (rq : PeopleReq) (start db : PeopleDb) : PeopleDb * response A :=
  let own := if pr_multi rq then start else db in
  (with_acc own (between (pe_acc own)), Fail 500 "error").

(** The two checks every admin route starts with. *)
Definition as_configurer {A} (rq : PeopleReq) (db : PeopleDb) (h : User → PeopleDb → PeopleDb * response A)
    : PeopleDb * response A :=
  let '(db1, who) := whoami rq db in
  match who with
  | None => (db1, Fail 401 "unauthorized")
  | Some me => if negb (can (u_role me) configure) then (db1, Fail 403 "forbidden") else h me db1
  end.

(** What the body asks: [inl] is the answer that refuses it. *)
Definition read_user_patch (me : User) (id : string) (body : json)
    : (Z * string) + (option UserStatus * option Role) :=
  let status := as_string (obj_get body "status") in
  let role := as_string (obj_get body "role") in
  if bool_decide (some_truthy status = None) && bool_decide (some_truthy role = None)
  then inl (400, "nothing_to_update"%string) else
  if match status with Some s => bool_decide (read_status s = None) | None => false end
  then inl (400, "invalid_status"%string) else
  let newStatus := status ≫= read_status in
  if (id =s u_id me) && bool_decide (newStatus = Some UDisabled)
  then inl (403, "cannot_disable_self"%string) else
  match role with
  | None => inr (newStatus, None)
  | Some r =>
      match read_role r with
      | None => inl (400, "invalid_role"%string)
      | Some r' => if id =s u_id me then inl (403, "cannot_change_own_role"%string) else inr (newStatus, Some r')
      end
  end.

Definition userPatch (between : AccountDb → AccountDb) (rq : PeopleReq) (id : string) (body : json) (db : PeopleDb)
    : PeopleDb * response unit :=
  as_configurer rq db (λ me db1,
    match read_user_patch me id body with
    | inl (s, e) => (db1, Fail s e)
    | inr (status, role) =>
        match find_row (λ u, u_id u =s id) (k_users (pe_acc db1)) with
        | None => (db1, Fail 404 "not_found")
        | Some target =>
            let center := some_truthy (u_centerRole target) in
            if bool_decide (center ≠ None) && bool_decide (status ≠ None)
            then (db1, Fail 403 "managed_by_center") else
            if match center, role with
               | Some c, Some r => negb (consoleRoleAllowed (centerRoleOf (JStr c)) r)
               | _, _ => false
               end
            then (db1, Fail 403 "center_role_ceiling") else
            let acc := between (pe_acc db1) in
            match update_user id (patch_user status role) acc with
            | (acc', inr _) =>
                (note rq me "user.update" "user" (Some id) ("Updated user " +:+ id) JUndefined (with_acc db1 acc'),
                 Reply 200 tt)
            | (_, inl _) => crashed between rq db db1
            end
        end
    end).

Definition userDelete (between : AccountDb → AccountDb) (rq : PeopleReq) (id : string) (db : PeopleDb)
    : PeopleDb * response unit :=
  as_configurer rq db (λ me db1,
    if id =s u_id me then (db1, Fail 403 "cannot_delete_self") else
    match find_row (λ u, u_id u =s id) (k_users (pe_acc db1)) with
    | None => (db1, Fail 404 "not_found")
    | Some target =>
        if bool_decide (u_role target = ADMIN) then (db1, Fail 403 "cannot_delete_admin") else
        if bool_decide (some_truthy (u_centerRole target) ≠ None) then (db1, Fail 403 "managed_by_center") else
        match delete_user id (between (pe_acc db1)) with
        | (acc', inr _) =>
            (note rq me "user.delete" "user" (Some id) ("Deleted user " +:+ id) JUndefined (with_acc db1 acc'),
             Reply 200 tt)
        | (_, inl _) => crashed between rq db db1
        end
    end).

(** ** Invites *)

Record InviteAnswer := { ia_link : string; ia_emailed : option bool }.

(** Best-effort mail: a throw is "not sent". *)
Definition mailed (m : mail_result) : bool := match m with MailSent b => b | _ => false end.
Definition invite_link (rq : PeopleReq) : string := pr_baseUrl rq +:+ "/invite/" +:+ pr_token rq.
Definition or_none (s : string) : option string := if truthy s then Some s else None.

Definition invitesPost (rq : PeopleReq) (body : json) (db : PeopleDb) : PeopleDb * response InviteAnswer :=
  as_configurer rq db (λ me db1,
    let name := trim (str_or_empty (obj_get body "name")) in
    let email := match obj_get body "email" with JStr s => normalizeEmail s | _ => ""%string end in
    let phone := trim (str_or_empty (obj_get body "phone")) in
    let company := trim (str_or_empty (obj_get body "company")) in
    let sendEmail := match obj_get body "sendEmail" with JBool true => true | _ => false end in
    let acc := pe_acc db1 in
    match as_string (obj_get body "role") ≫= read_role with
    | None => (db1, Fail 400 "name_email_role_required")
    | Some role =>
        if negb (truthy name) || negb (truthy email) then (db1, Fail 400 "name_email_role_required") else
        if negb (bool_decide (role = VENDOR)) && bool_decide (some_truthy (pr_org rq) ≠ None)
        then (db1, Fail 409 "members_come_from_center") else
        if existsb (λ u, same_email (u_email u) email) (k_users acc) then (db1, Fail 409 "email_registered") else
        match assertWithinLimit (pr_envelope rq) maxUsers (count_where (λ _, true) (k_users acc)) with
        | inl _ => (db1, Fail 409 "limit_reached")
        | inr _ =>
            let invs := createInvite argon2hash (pr_ttlHours rq) (pr_now rq) (pr_inviteId rq) (pr_token rq) email name
                          role (Some (u_id me)) (or_none phone) (or_none company) (k_invites acc) in
            (note rq me "invite.create" "invite" None ("Created invite for " +:+ email)
               (JObj [("email"%string, JStr email); ("role"%string, JStr (role_name role))])
               (with_acc db1 (set_invites acc invs)),
             Reply 200 {| ia_link := invite_link rq;
                          ia_emailed := if sendEmail then Some (mailed (pr_mail rq)) else None |})
        end
    end).

Definition inviteDelete (between : AccountDb → AccountDb) (rq : PeopleReq) (id : string) (db : PeopleDb)
    : PeopleDb * response unit :=
  as_configurer rq db (λ me db1,
    match find_row (λ i, inv_id i =s id) (k_invites (pe_acc db1)) with
    | None => (db1, Fail 404 "not_found")
    | Some invite =>
        if bool_decide (inv_usedAt invite ≠ None) then (db1, Fail 409 "already_used") else
        let acc := between (pe_acc db1) in
        let acc' := set_invites acc (delete_where (pending_invite id) (k_invites acc)) in
        if count_where (pending_invite id) (k_invites acc) =? 0 then (with_acc db1 acc', Fail 409 "already_used") else
        (note rq me "invite.revoke" "invite" (Some id) ("Revoked invite " +:+ id) JUndefined (with_acc db1 acc'),
         Reply 200 tt)
    end).

(** The new invite names its creator, who must still exist. *)
Definition inviteResend (between : AccountDb → AccountDb) (rq : PeopleReq) (id : string) (db : PeopleDb)
    : PeopleDb * response InviteAnswer :=
  as_configurer rq db (λ me db1,
    match find_row (λ i, inv_id i =s id) (k_invites (pe_acc db1)) with
    | None => (db1, Fail 404 "not_found")
    | Some old =>
        if bool_decide (inv_usedAt old ≠ None) then (db1, Fail 409 "already_used") else
        let acc := between (pe_acc db1) in
        let rest := delete_where (pending_invite id) (k_invites acc) in
        if count_where (pending_invite id) (k_invites acc) =? 0
        then (with_acc db1 (set_invites acc rest), Fail 409 "already_used") else
        if negb (existsb (λ u, u_id u =s u_id me) (k_users acc)) then
          (if pr_multi rq then crashed between rq db db1 else (with_acc db1 (set_invites acc rest), Fail 500 "error"))
        else
        (with_acc db1 (set_invites acc
           (createInvite argon2hash (pr_ttlHours rq) (pr_now rq) (pr_inviteId rq) (pr_token rq) (inv_email old)
              (inv_name old) (inv_role old) (Some (u_id me)) (inv_phone old) (inv_company old) rest)),
         Reply 200 {| ia_link := invite_link rq; ia_emailed := Some (mailed (pr_mail rq)) |})
    end).

(** ** One's own settings; without a session the answer is a redirect. *)

Definition profilePost (between : AccountDb → AccountDb) (rq : PeopleReq) (body : json) (db : PeopleDb)
    : PeopleDb * response string :=
  let '(db1, who) := whoami rq db in
  match who with
  | None => (db1, Fail 307 "/login")
  | Some me =>
      match normalizeDisplayName (obj_get body "name") with
      | None => (db1, Fail 400 "invalid_name")
      | Some name =>
          if negb (truthy name) then (db1, Fail 400 "invalid_name") else
          if match find_row (λ u, u_id u =s u_id me) (k_users (pe_acc db1)) with
             | Some u => u_directoryManaged u
             | None => false
             end
          then (db1, Fail 409 "directory_managed") else
          match update_user (u_id me) (set_name name) (between (pe_acc db1)) with
          | (acc', inr _) => (with_acc db1 acc', Reply 200 name)
          | (_, inl _) => crashed between rq db db1
          end
      end
  end.

Definition timezonePost (between : AccountDb → AccountDb) (rq : PeopleReq) (body : json) (db : PeopleDb)
    : PeopleDb * response unit :=
  let '(db1, who) := whoami rq db in
  match who with
  | None => (db1, Fail 307 "/login")
  | Some me =>
      let tz := some_truthy (as_string (obj_get body "timezone")) in
      if match tz with Some z => negb (isValidTimeZone z) | None => false end
      then (db1, Fail 400 "invalid_timezone") else
      match update_user (u_id me) (set_timezone tz) (between (pe_acc db1)) with
      | (acc', inr _) => (with_acc db1 acc', Reply 200 tt)
      | (_, inl _) => crashed between rq db db1
      end
  end.
End people_routes.

(** ** Theorems *)

Section people_theorems.
Context (sha256 : string → string) (argon2hash : string → string) (argon2verify : string → string → bool).
Context (frac_text : Z → string) (digest : string → string) (json_store : json → json).
Context (isValidTimeZone : string → bool).
Implicit Types (rq : PeopleReq) (db : PeopleDb) (acc : AccountDb) (between : AccountDb → AccountDb).

Inductive people_call :=
  | PPatch (between : AccountDb → AccountDb) (id : string) (body : json)
  | PDelete (between : AccountDb → AccountDb) (id : string)
  | PInvite (body : json)
  | PRevoke (between : AccountDb → AccountDb) (id : string)
  | PResend (between : AccountDb → AccountDb) (id : string)
  | PProfile (between : AccountDb → AccountDb) (body : json)
  | PTimezone (between : AccountDb → AccountDb) (body : json).

Definition run_people (c : people_call) rq db : PeopleDb :=
  match c with
  | PPatch b id body => (userPatch sha256 frac_text digest json_store b rq id body db).1
  | PDelete b id => (userDelete sha256 frac_text digest json_store b rq id db).1
  | PInvite body => (invitesPost sha256 argon2hash frac_text digest json_store rq body db).1
  | PRevoke b id => (inviteDelete sha256 frac_text digest json_store b rq id db).1
  | PResend b id => (inviteResend sha256 argon2hash b rq id db).1
  | PProfile b body => (profilePost sha256 b rq body db).1
  | PTimezone b body => (timezonePost sha256 isValidTimeZone b rq body db).1
  end.

Definition call_env (c : people_call) : AccountDb → AccountDb :=
  match c with
  | PPatch b _ _ | PDelete b _ | PRevoke b _ | PResend b _ | PProfile b _ | PTimezone b _ => b
  | PInvite _ => λ a, a
  end.

(** *** What looking up the session leaves *)

(** The sessions afterwards are some of those before, up to the visit recorded. *)
Definition touched (a a' : Auth) : Prop :=
  a_users a' = a_users a ∧
  ∀ s, s ∈ a_sessions a' → ∃ s0, s0 ∈ a_sessions a ∧ se_userId s = se_userId s0.

Lemma touched_refl a : touched a a.
Proof. split; eauto. Qed.
Lemma touched_trans a b c : touched a b → touched b c → touched a c.
Proof.
  intros [Hu1 H1] [Hu2 H2]. split; [congruence|]. intros s (s1 & Hs1 & ->)%H2. by apply H1.
Qed.

Lemma getSessionUser_touched f tid now t a :
  touched a (getSessionUser sha256 f tid now t a).1 ∧
  ∀ u, (getSessionUser sha256 f tid now t a).2 = Some u → u ∈ a_users a ∧ u_status u = UActive.
Proof.
  unfold getSessionUser. destruct (negb _); [by split; [apply touched_refl|]|].
  destruct (find_row _ (a_sessions a)) as [s|]; [|by split; [apply touched_refl|]].
  destruct (_ <? now); [by split; [apply touched_refl|]|]. destruct (se_mobile s); [by split; [apply touched_refl|]|].
  destruct (find_row _ (a_users a)) as [u|] eqn:Hu; [|by split; [apply touched_refl|]].
  apply find_row_Some in Hu as [Hu _].
  case_bool_decide as Hact; [cbn [negb]|by split; [apply touched_refl|]].
  destruct (getSessionPolicy _ _ _ _) as [pst policy]. destruct (idleExpired _ _ _); cbn.
  - split; [|done]. split; [done|]. intros x [Hx _]%elem_of_delete_where. eauto.
  - split; [|intros v [= <-]; done]. split; [done|]. intros x (y & Hy & ->)%elem_of_update_where.
    exists y. split; [done|]. by destruct (_ && _).
Qed.

Lemma getCurrentUser_touched fs tid now sup ses a :
  touched a (getCurrentUser sha256 fs tid now sup ses a).1 ∧
  ∀ u, (getCurrentUser sha256 fs tid now sup ses a).2 = Some u → u ∈ a_users a ∧ u_status u = UActive.
Proof.
  unfold getCurrentUser. set (first := match sup with Some t => _ | None => _ end).
  assert (touched a first.1 ∧ ∀ u, first.2 = Some u → u ∈ a_users a ∧ u_status u = UActive) as [Ht Hu].
  { unfold first. destruct sup as [t|]; [|by split; [apply touched_refl|]].
    destruct (truthy t); [apply getSessionUser_touched|by split; [apply touched_refl|]]. }
  destruct first as [a1 [u1|]]; [done|]. destruct ses as [t|]; [|done]. cbn [fst] in Ht.
  destruct (getSessionUser_touched fs.2 tid now t a1) as [Ht1 Hu1]. split; [by eapply touched_trans|].
  destruct Ht as [<- _]. done.
Qed.

(** The account tables up to the sessions. *)
Record looked_up acc acc' : Prop := {
  lu_users : k_users acc' = k_users acc;
  lu_grants : k_grants acc' = k_grants acc;
  lu_invites : k_invites acc' = k_invites acc;
  lu_passkeys : k_passkeys acc' = k_passkeys acc;
  lu_totp : k_totp acc' = k_totp acc;
  lu_sessions : ∀ s, s ∈ si_sessions (k_signin acc') → ∃ s0, s0 ∈ si_sessions (k_signin acc) ∧ se_userId s = se_userId s0;
}.

Lemma whoami_spec rq db :
  looked_up (pe_acc db) (pe_acc (whoami sha256 rq db).1) ∧
  pe_log (whoami sha256 rq db).1 = pe_log db ∧
  ∀ u, (whoami sha256 rq db).2 = Some u → u ∈ k_users (pe_acc db) ∧ u_status u = UActive.
Proof.
  unfold whoami.
  destruct (getCurrentUser_touched (pr_faults rq) (pr_tenant rq) (pr_now rq) (pr_support rq) (pr_session rq)
              (auth_of (k_signin (pe_acc db)))) as [[_ Hs] Hu].
  destruct (getCurrentUser _ _ _ _ _ _ _) as [a u]. cbn in *. split; [by split|done].
Qed.

(** *** What a call does to the users *)

Definition keeps_standing (f : User → User) : Prop := ∀ u,
  u_id (f u) = u_id u ∧ u_email (f u) = u_email u ∧ u_role (f u) = u_role u ∧ u_status (f u) = u_status u ∧
  u_centerRole (f u) = u_centerRole u.

Definition configurer (u : User) : Prop := u_status u = UActive ∧ can (u_role u) configure = true.

Inductive users_effect (us us' : list User) : Prop :=
  | ue_same : us' = us → users_effect us us'
  | ue_personal id f : keeps_standing f → us' = update_where (λ u, u_id u =s id) f us → users_effect us us'
  | ue_patch me target id status role :
      me ∈ us → configurer me → (id = u_id me → status ≠ Some UDisabled ∧ role = None) →
      find_row (λ u, u_id u =s id) us = Some target →
      (∀ c, some_truthy (u_centerRole target) = Some c →
         status = None ∧ ∀ r, role = Some r → consoleRoleAllowed (centerRoleOf (JStr c)) r = true) →
      us' = update_where (λ u, u_id u =s id) (patch_user status role) us → users_effect us us'
  | ue_delete me target id :
      me ∈ us → configurer me → id ≠ u_id me → find_row (λ u, u_id u =s id) us = Some target →
      u_role target ≠ ADMIN → some_truthy (u_centerRole target) = None →
      us' = delete_where (λ u, u_id u =s id) us → users_effect us us'.

Lemma as_configurer_cases {A} rq db (h : User → PeopleDb → PeopleDb * response A) (Q : PeopleDb * response A → Prop) :
  (∀ db1 s e, looked_up (pe_acc db) (pe_acc db1) → pe_log db1 = pe_log db → Q (db1, Fail s e)) →
  (∀ db1 me, looked_up (pe_acc db) (pe_acc db1) → pe_log db1 = pe_log db →
     me ∈ k_users (pe_acc db) → configurer me → Q (h me db1)) →
  Q (as_configurer sha256 rq db h).
Proof.
  intros Hfail Hok. unfold as_configurer. destruct (whoami_spec rq db) as (Hl & Hlog & Hu).
  destruct (whoami sha256 rq db) as [db1 [me|]]; cbn in *; [|by apply Hfail].
  destruct (Hu me eq_refl) as [Hin Hact]. destruct (can (u_role me) configure) eqn:Hc; [|by apply Hfail].
  by apply Hok.
Qed.

Lemma update_user_result id f acc :
  (update_user id f acc = (set_users acc (update_where (λ u, u_id u =s id) f (k_users acc)), inr tt)) ∨
  ((update_user id f acc).1 = acc ∧ ∃ e, (update_user id f acc).2 = inl e).
Proof. unfold update_user, tx_write. destruct (existsb _ _); [by left|right; eauto]. Qed.

Lemma patch_request me id body status role :
  read_user_patch me id body = inr (status, role) → id = u_id me → status ≠ Some UDisabled ∧ role = None.
Proof.
  unfold read_user_patch. intros H ->. rewrite (bool_decide_eq_true_2 (u_id me = u_id me)) in H by done.
  cbn [andb] in H. repeat (case_match; try done); simplify_eq; reflect_bool; done.
Qed.

Lemma crashed_users {A} rq db db1 :
  looked_up (pe_acc db) (pe_acc db1) →
  k_users (pe_acc (crashed (A := A) (λ a, a) rq db db1).1) = k_users (pe_acc db).
Proof. intros Hl. unfold crashed. destruct (pr_multi rq); cbn; [done|apply (lu_users _ _ Hl)]. Qed.

Lemma patch_effect rq id body db :
  users_effect (k_users (pe_acc db)) (k_users (pe_acc (run_people (PPatch (λ a, a) id body) rq db))).
Proof.
  cbn [run_people]. unfold userPatch.
  apply (as_configurer_cases rq db _ (λ r, users_effect _ (k_users (pe_acc r.1)))).
  { intros db1 s e Hl _. apply ue_same, (lu_users _ _ Hl). }
  intros db1 me Hl _ Hin Hme. pose proof (lu_users _ _ Hl) as Hus. rewrite <-Hus in Hin |- *.
  destruct (read_user_patch me id body) as [[s e]|[status role]] eqn:Hrd; [by apply ue_same|].
  destruct (find_row _ _) as [target|] eqn:Hf; [|by apply ue_same].
  destruct (_ && _) eqn:Hm; [by apply ue_same|].
  destruct (match some_truthy _ with Some c => _ | None => _ end) eqn:Hceil; [by apply ue_same|].
  destruct (update_user_result id (patch_user status role) (pe_acc db1)) as [->|[_ [e He]]]; cbv beta.
  - eapply (ue_patch _ _ me target id status role); [done..|by eapply patch_request|done| |done].
    intros c Hc. rewrite Hc in Hceil. apply andb_false_iff in Hm as [Hm|Hm]; [by rewrite Hc in Hm|].
    split; [by apply bool_decide_eq_false, dec_stable in Hm|]. intros r ->. by apply negb_false_iff in Hceil.
  - destruct (update_user _ _ _) as [acc' [e'|]]; [|done]. apply ue_same. rewrite Hus. by apply crashed_users.
Qed.

Lemma delete_effect rq id db :
  users_effect (k_users (pe_acc db)) (k_users (pe_acc (run_people (PDelete (λ a, a) id) rq db))).
Proof.
  cbn [run_people]. unfold userDelete.
  apply (as_configurer_cases rq db _ (λ r, users_effect _ (k_users (pe_acc r.1)))).
  { intros db1 s e Hl _. apply ue_same, (lu_users _ _ Hl). }
  intros db1 me Hl _ Hin Hme. pose proof (lu_users _ _ Hl) as Hus. rewrite <-Hus in Hin |- *.
  case_bool_decide as Hid; [by apply ue_same|]. destruct (find_row _ _) as [target|] eqn:Hf; [|by apply ue_same].
  case_bool_decide as Hr; [by apply ue_same|]. case_bool_decide as Hc; [by apply ue_same|].
  unfold delete_user, tx_write. destruct (existsb _ _).
  - by eapply (ue_delete _ _ me target id).
  - apply ue_same. rewrite Hus. by apply crashed_users.
Qed.

Lemma personal_effect rq id f db db1 :
  looked_up (pe_acc db) (pe_acc db1) → keeps_standing f →
  ∀ {A} (x : A), users_effect (k_users (pe_acc db))
    (k_users (pe_acc (match update_user id f (pe_acc db1) with
                      | (acc', inr _) => (with_acc db1 acc', Reply 200 x)
                      | (_, inl _) => crashed (λ a, a) rq db db1
                      end).1)).
Proof.
  intros Hl Hf A x. pose proof (lu_users _ _ Hl) as Hus.
  destruct (update_user_result id f (pe_acc db1)) as [->|[_ [e He]]].
  - apply (ue_personal _ _ id f); [done|]. cbn. by rewrite Hus.
  - destruct (update_user _ _ _) as [acc' [e'|]]; [|done]. apply ue_same. by apply crashed_users.
Qed.

Lemma run_people_users c rq db :
  call_env c = (λ a, a) → users_effect (k_users (pe_acc db)) (k_users (pe_acc (run_people c rq db))).
Proof.
  destruct c as [b id body|b id|body|b id|b id|b body|b body]; cbn [call_env]; intros Hb; subst b || clear Hb.
  - apply patch_effect.
  - apply delete_effect.
  - cbn [run_people]. unfold invitesPost. apply (as_configurer_cases rq db _ (λ r, users_effect _ (k_users (pe_acc r.1)))).
    { intros db1 s e Hl _. apply ue_same, (lu_users _ _ Hl). }
    intros db1 me Hl _ _ _. pose proof (lu_users _ _ Hl) as Hus. apply ue_same.
    repeat (case_match; try done).
  - cbn [run_people]. unfold inviteDelete. apply (as_configurer_cases rq db _ (λ r, users_effect _ (k_users (pe_acc r.1)))).
    { intros db1 s e Hl _. apply ue_same, (lu_users _ _ Hl). }
    intros db1 me Hl _ _ _. pose proof (lu_users _ _ Hl) as Hus. apply ue_same.
    repeat (case_match; try done).
  - cbn [run_people]. unfold inviteResend. apply (as_configurer_cases rq db _ (λ r, users_effect _ (k_users (pe_acc r.1)))).
    { intros db1 s e Hl _. apply ue_same, (lu_users _ _ Hl). }
    intros db1 me Hl _ _ _. pose proof (lu_users _ _ Hl) as Hus. apply ue_same.
    repeat (case_match; try done). by apply crashed_users.
  - cbn [run_people]. unfold profilePost. destruct (whoami_spec rq db) as (Hl & _ & _).
    destruct (whoami sha256 rq db) as [db1 [me|]]; cbn [fst] in Hl; [|apply ue_same, (lu_users _ _ Hl)].
    pose proof (lu_users _ _ Hl) as Hus.
    destruct (normalizeDisplayName _) as [name|]; [|by apply ue_same].
    destruct (negb _); [by apply ue_same|]. destruct (match find_row _ _ with Some u => _ | None => _ end); [by apply ue_same|].
    apply personal_effect; [done|]. by intros u.
  - cbn [run_people]. unfold timezonePost. destruct (whoami_spec rq db) as (Hl & _ & _).
    destruct (whoami sha256 rq db) as [db1 [me|]]; cbn [fst] in Hl; [|apply ue_same, (lu_users _ _ Hl)].
    pose proof (lu_users _ _ Hl) as Hus. cbv zeta. set (tz := some_truthy _). clearbody tz.
    destruct (match tz with Some z => _ | None => _ end); [by apply ue_same|].
    apply personal_effect; [done|]. by intros u.
Qed.
(** *** The console always has someone who can configure it *)

Definition has_configurer db : Prop := ∃ u, u ∈ k_users (pe_acc db) ∧ configurer u.

(** One request served with nothing else in between. *)
Definition people_step db db' : Prop := ∃ c rq, call_env c = (λ a, a) ∧ db' = run_people c rq db.

Lemma effect_configurer us us' :
  users_effect us us' → (∃ u, u ∈ us ∧ configurer u) → ∃ u, u ∈ us' ∧ configurer u.
Proof.
  intros He Hc. destruct He as [->|id f Hf ->|me target id status role Hin [Ha Hcan] Hself _ _ ->
    |me target id Hin Hme Hid _ _ _ ->]; [done|..].
  - destruct Hc as (u & Hu & Ha & Hcan). destruct (Hf u) as (_ & _ & Hr & Hs & _).
    exists (if u_id u =s id then f u else u). split; [apply elem_of_update_where; by exists u|].
    destruct (u_id u =s id); [|done]. split; congruence.
  - exists (if u_id me =s id then patch_user status role me else me).
    split; [apply elem_of_update_where; by exists me|]. case_bool_decide as Hid; [|done].
    destruct (Hself (eq_sym Hid)) as [Hst ->]. split; cbn; [|done]. by destruct status as [[]|].
  - exists me. split; [|done]. apply elem_of_delete_where. split; [done|]. by apply bool_decide_eq_false_2.
Qed.

(** Whatever the admin routes over users and invites and the self-service
    settings are asked, one request after the other, a workspace that has an
    active user who can configure it keeps one: nobody disables, demotes or
    deletes themselves, and only such a user changes others. *)
Theorem configurer_kept db db' : rtc people_step db db' → has_configurer db → has_configurer db'.
Proof.
  induction 1 as [|db db1 db' (c & rq & Hb & ->) _ IH]; [done|]. intros Hc. apply IH.
  unfold has_configurer in *. eapply effect_configurer; [|done]. by apply run_people_users.
Qed.

(** *** Members the centre manages *)

(** A user whose membership the organisation centre manages keeps, through
    every such request, a row with the same address, status and centre role, and
    a console role that is either untouched or one the centre role allows. *)
Theorem center_members_protected db db' c :
  NoDup (u_id <$> k_users (pe_acc db)) → rtc people_step db db' →
  ∀ u, u ∈ k_users (pe_acc db) → u_centerRole u = Some c → truthy c = true →
  ∃ u', u' ∈ k_users (pe_acc db') ∧ u_id u' = u_id u ∧ u_email u' = u_email u ∧ u_status u' = u_status u ∧
    u_centerRole u' = Some c ∧
    (u_role u' = u_role u ∨ consoleRoleAllowed (centerRoleOf (JStr c)) (u_role u') = true).
Proof.
  intros Hnd Hstar. induction Hstar as [db|db db1 db' (call & rq & Hb & ->) _ IH]; intros u Hu Hcr Htc; [by exists u; auto 10|].
  pose proof (run_people_users call rq db Hb) as He.
  assert (some_truthy (u_centerRole u) = Some c) as Hst by by rewrite Hcr; simpl; rewrite Htc.
  assert (NoDup (u_id <$> k_users (pe_acc (run_people call rq db))) ∧
    ∃ u1, u1 ∈ k_users (pe_acc (run_people call rq db)) ∧ u_id u1 = u_id u ∧ u_email u1 = u_email u ∧
      u_status u1 = u_status u ∧ u_centerRole u1 = Some c ∧
      (u_role u1 = u_role u ∨ consoleRoleAllowed (centerRoleOf (JStr c)) (u_role u1) = true)) as
    [Hnd1 (u1 & Hu1 & Hid & Hem & Hs & Hc1 & Hr)].
  { destruct He as [-> |id f Hf ->|me target id status role _ _ _ Hf Hcond ->|me target id _ _ _ Hf _ Hn ->].
    - split; [done|]. exists u. auto 10.
    - split; [rewrite update_where_column by (intros x; apply Hf); done|].
      exists (if u_id u =s id then f u else u). split; [apply elem_of_update_where; by exists u|].
      destruct (Hf u) as (H1 & H2 & H3 & H4 & H5). destruct (u_id u =s id); [|by auto 10].
      split_and!; [congruence..|left; congruence].
    - split; [by rewrite update_where_column|].
      exists (if u_id u =s id then patch_user status role u else u).
      split; [apply elem_of_update_where; by exists u|]. case_bool_decide as Hid; [|by auto 10].
      apply find_row_Some in Hf as [Ht Hti]. apply bool_decide_eq_true_1 in Hti.
      assert (target = u) as -> by (eapply (NoDup_fmap_eq u_id); [done..|congruence]).
      destruct (Hcond c Hst) as [-> Hrole]. cbn. split_and!; try done.
      destruct role as [r|]; [right; by apply Hrole|by left].
    - split; [by apply NoDup_filter_fmap|]. exists u. split; [|by auto 10].
      apply elem_of_delete_where. split; [done|]. apply bool_decide_eq_false_2. intros Hid.
      apply find_row_Some in Hf as [Ht Hti]. apply bool_decide_eq_true_1 in Hti.
      assert (target = u) as -> by (eapply (NoDup_fmap_eq u_id); [done..|congruence]). congruence. }
  destruct (IH Hnd1 u1 Hu1 Hc1 Htc) as (u2 & Hu2 & Hid2 & Hem2 & Hs2 & Hc2 & Hr2).
  exists u2. split_and!; [done|congruence..|]. destruct Hr2 as [Hr2|Hr2]; [rewrite Hr2; destruct Hr as [->|Hr]|]; auto.
Qed.
(** *** References to users *)

Definition names_user acc (c : option string) : Prop := ∀ id, c = Some id → id ∈ u_id <$> k_users acc.

(** What the foreign keys promise: every session, passkey, recovery secret and
    grant belongs to a user, and every recorded creator or approver is one. *)
Record refs_ok acc : Prop := {
  ro_sessions : ∀ s, s ∈ si_sessions (k_signin acc) → se_userId s ∈ u_id <$> k_users acc;
  ro_passkeys : ∀ p, p ∈ k_passkeys acc → pk_userId p ∈ u_id <$> k_users acc;
  ro_totp : ∀ x, x ∈ k_totp acc → ts_userId x ∈ u_id <$> k_users acc;
  ro_grants : ∀ g, g ∈ k_grants acc →
    g_userId g ∈ u_id <$> k_users acc ∧ names_user acc (g_createdById g) ∧ names_user acc (g_approvedById g);
  ro_invites : ∀ i, i ∈ k_invites acc → names_user acc (inv_createdById i);
}.

Lemma looked_up_refs acc acc' : looked_up acc acc' → refs_ok acc → refs_ok acc'.
Proof.
  intros [Hu Hg Hi Hp Ht Hs] [Rs Rp Rt Rg Ri]. split; unfold names_user in *; rewrite ?Hu, ?Hg, ?Hi, ?Hp, ?Ht; try done.
  intros s (s0 & Hs0 & ->)%Hs. by apply Rs.
Qed.

Lemma set_users_refs acc us :
  u_id <$> us = u_id <$> k_users acc → refs_ok acc → refs_ok (set_users acc us).
Proof. intros Hus [Rs Rp Rt Rg Ri]. split; unfold names_user in *; cbn; rewrite ?Hus; done. Qed.

Lemma set_invites_refs acc l :
  (∀ i, i ∈ l → names_user acc (inv_createdById i)) → refs_ok acc → refs_ok (set_invites acc l).
Proof. intros Hl [Rs Rp Rt Rg Ri]. by split. Qed.

Lemma create_invite_refs acc l ttl now id tok email name role by_ phone company :
  (∀ i, i ∈ l → names_user acc (inv_createdById i)) → by_ ∈ u_id <$> k_users acc → refs_ok acc →
  refs_ok (set_invites acc (createInvite argon2hash ttl now id tok email name role (Some by_) phone company l)).
Proof.
  intros Hl Hby. apply set_invites_refs. intros i [Hi| ->%list_elem_of_singleton]%elem_of_app; [by apply Hl|].
  intros x. cbn. by intros [= <-].
Qed.

Lemma unset_names id acc c :
  names_user acc c → names_user (cascade_user id acc) (unset id c).
Proof.
  intros Hn x. unfold unset. destruct c as [y|]; [|done]. case_bool_decide as Hy; [done|]. intros [= <-].
  specialize (Hn y eq_refl). apply list_elem_of_fmap in Hn as (u & -> & Hu).
  apply (list_elem_of_fmap_2 u_id). apply elem_of_delete_where. split; [done|]. by apply bool_decide_eq_false_2.
Qed.

Lemma cascade_owner id acc x : x ∈ u_id <$> k_users acc → x ≠ id → x ∈ u_id <$> k_users (cascade_user id acc).
Proof.
  intros (u & -> & Hu)%list_elem_of_fmap Hne. apply (list_elem_of_fmap_2 u_id). apply elem_of_delete_where.
  split; [done|]. by apply bool_decide_eq_false_2.
Qed.

Lemma cascade_refs id acc : refs_ok acc → refs_ok (cascade_user id acc).
Proof.
  intros [Rs Rp Rt Rg Ri]. split.
  - intros s [Hs Hne]%elem_of_delete_where. apply bool_decide_eq_false in Hne. apply cascade_owner; auto.
  - intros p [Hp Hne]%elem_of_delete_where. apply bool_decide_eq_false in Hne. apply cascade_owner; auto.
  - intros p [Hp Hne]%elem_of_delete_where. apply bool_decide_eq_false in Hne. apply cascade_owner; auto.
  - intros g (g0 & -> & [Hg Hne]%elem_of_delete_where)%list_elem_of_fmap. apply bool_decide_eq_false in Hne.
    destruct (Rg g0 Hg) as (H1 & H2 & H3). split_and!; [by apply cascade_owner|by apply unset_names..].
  - intros i (i0 & -> & Hi)%list_elem_of_fmap. apply unset_names. by apply Ri.
Qed.

Lemma crashed_refs {A} between rq db db1 :
  (∀ acc, refs_ok acc → refs_ok (between acc)) → refs_ok (pe_acc db) → refs_ok (pe_acc db1) →
  refs_ok (pe_acc (crashed (A := A) between rq db db1).1).
Proof. intros Hb H H1. unfold crashed. destruct (pr_multi rq); cbn; by apply Hb. Qed.

Lemma update_user_refs {A} between rq id f db db1 (g : PeopleDb → PeopleDb) (x : A) :
  (∀ u, u_id (f u) = u_id u) → (∀ d, pe_acc (g d) = pe_acc d) →
  (∀ acc, refs_ok acc → refs_ok (between acc)) → refs_ok (pe_acc db) → refs_ok (pe_acc db1) →
  refs_ok (pe_acc (match update_user id f (between (pe_acc db1)) with
                   | (acc', inr _) => (g (with_acc db1 acc'), Reply 200 x)
                   | (_, inl _) => crashed between rq db db1
                   end).1).
Proof.
  intros Hf Hg Hb H H1. destruct (update_user_result id f (between (pe_acc db1))) as [->|[_ [e He]]].
  - cbn. rewrite Hg. apply set_users_refs; [by apply update_where_column|by apply Hb].
  - destruct (update_user _ _ _) as [acc' [e'|]]; [|done]. by apply crashed_refs.
Qed.

Lemma user_calls_refs between rq id body db :
  (∀ acc, refs_ok acc → refs_ok (between acc)) → refs_ok (pe_acc db) →
  refs_ok (pe_acc (run_people (PPatch between id body) rq db)) ∧ refs_ok (pe_acc (run_people (PDelete between id) rq db)).
Proof.
  intros Hb H. cbn [run_people]. unfold userPatch, userDelete.
  split; apply (as_configurer_cases rq db _ (λ r, refs_ok (pe_acc r.1)));
    [by intros; eapply looked_up_refs| |by intros; eapply looked_up_refs|];
    intros db1 me Hl _ _ _; pose proof (looked_up_refs _ _ Hl H) as H1.
  - destruct (read_user_patch _ _ _) as [[]|[status role]]; [done|]. destruct (find_row _ _); [|done].
    destruct (_ && _); [done|]. destruct (match some_truthy _ with Some _ => _ | None => _ end); [done|].
    by apply (update_user_refs between rq id (patch_user status role) db db1).
  - destruct (id =s _); [done|]. destruct (find_row _ _); [|done]. do 2 (case_bool_decide; [done|]).
    unfold delete_user, tx_write. destruct (existsb _ _); [|by apply crashed_refs]. cbn. by apply cascade_refs, Hb.
Qed.

Lemma pending_rest_refs acc q :
  refs_ok acc → ∀ i, i ∈ delete_where q (k_invites acc) → names_user acc (inv_createdById i).
Proof. intros H i [Hi _]%elem_of_delete_where. by apply (ro_invites _ H). Qed.

Lemma invite_calls_refs between rq id db :
  (∀ acc, refs_ok acc → refs_ok (between acc)) → refs_ok (pe_acc db) →
  refs_ok (pe_acc (run_people (PRevoke between id) rq db)) ∧ refs_ok (pe_acc (run_people (PResend between id) rq db)).
Proof.
  intros Hb H. cbn [run_people]. unfold inviteDelete, inviteResend.
  split; apply (as_configurer_cases rq db _ (λ r, refs_ok (pe_acc r.1)));
    [by intros; eapply looked_up_refs| |by intros; eapply looked_up_refs|];
    intros db1 me Hl _ _ _; pose proof (looked_up_refs _ _ Hl H) as H1; pose proof (Hb _ H1) as H2;
    pose proof (pending_rest_refs _ (pending_invite id) H2) as H3; (destruct (find_row _ _) as [i|]; [|done]);
    (case_bool_decide; [done|]).
  - destruct (_ =? 0); cbn; by apply set_invites_refs.
  - destruct (_ =? 0); [by apply set_invites_refs|]. destruct (existsb _ _) eqn:Hex; cbn [negb].
    + apply create_invite_refs; [done| |done]. apply existsb_exists in Hex as (v & Hv%list_elem_of_In & Hid).
      apply bool_decide_eq_true_1 in Hid. rewrite <-Hid. by apply (list_elem_of_fmap_2 u_id).
    + destruct (pr_multi rq); [by apply crashed_refs|by apply set_invites_refs].
Qed.

(** No request over people leaves a row that names a missing user: deleting
    a user takes their sessions, passkeys, recovery secret and grants along and
    clears their name from what they created or approved; a request that other
    requests overtake fails instead of writing a dangling reference. *)
Theorem references_kept c rq db :
  (∀ acc, refs_ok acc → refs_ok (call_env c acc)) → refs_ok (pe_acc db) → refs_ok (pe_acc (run_people c rq db)).
Proof.
  intros Hb H. destruct c as [b id body|b id|body|b id|b id|b body|b body]; cbn [call_env] in Hb;
    [by apply user_calls_refs|by apply (user_calls_refs b rq id JNull)| |by apply invite_calls_refs..|  |].
  - cbn [run_people]. unfold invitesPost. apply (as_configurer_cases rq db _ (λ r, refs_ok (pe_acc r.1)));
      [by intros; eapply looked_up_refs|]. intros db1 me Hl _ Hin _. pose proof (looked_up_refs _ _ Hl H) as H1.
    destruct (_ ≫= _) as [role|]; [|done]. do 3 (destruct (_ : bool); [done|]).
    destruct (assertWithinLimit _ _ _); [done|]. cbn. apply create_invite_refs; [apply (ro_invites _ H1)| |done].
    rewrite (lu_users _ _ Hl). by apply (list_elem_of_fmap_2 u_id).
  - cbn [run_people]. unfold profilePost. destruct (whoami_spec rq db) as (Hl & _ & _).
    destruct (whoami sha256 rq db) as [db1 [me|]]; cbn [fst] in Hl; pose proof (looked_up_refs _ _ Hl H) as H1; [|done].
    destruct (normalizeDisplayName _) as [name|]; [|done]. destruct (negb _); [done|].
    destruct (match find_row _ _ with Some u => _ | None => _ end); [done|].
    by apply (update_user_refs b rq (u_id me) (set_name name) db db1 id).
  - cbn [run_people]. unfold timezonePost. destruct (whoami_spec rq db) as (Hl & _ & _).
    destruct (whoami sha256 rq db) as [db1 [me|]]; cbn [fst] in Hl; pose proof (looked_up_refs _ _ Hl H) as H1; [|done].
    cbv zeta. set (tz := some_truthy _). clearbody tz. destruct (match tz with Some z => _ | None => _ end); [done|].
    by apply (update_user_refs b rq (u_id me) (set_timezone tz) db db1 id).
Qed.
(** *** Invite links *)

Section links.
(** What the argon2 library documents, collisions aside. *)
Context (argon2_checks : ∀ t t', argon2verify (argon2hash t) t' = bool_decide (t = t')).

Lemma find_row_app {A} (p : A → bool) l l' :
  find_row p (l ++ l') = match find_row p l with Some x => Some x | None => find_row p l' end.
Proof. unfold find_row. induction l as [|x l IH]; simpl; [done|]. by destruct (p x). Qed.

(** A created invite answers to its token until it expires, and changes nothing
    for any other token. *)
Lemma create_verify ttl now id tok email name role by_ phone company l :
  (∀ i, i ∈ l → argon2verify (inv_tokenHash i) tok = false) →
  ∃ i, createInvite argon2hash ttl now id tok email name role by_ phone company l = l ++ [i] ∧
    inv_email i = normalizeEmail email ∧ inv_role i = role ∧ inv_usedAt i = None ∧ inv_expiresAt i = now + ttl * 3600000 ∧
    (∀ later, verifyInvite argon2verify later tok (l ++ [i]) = if later <? now + ttl * 3600000 then Some i else None) ∧
    (∀ later t, t ≠ tok → verifyInvite argon2verify later t (l ++ [i]) = verifyInvite argon2verify later t l).
Proof using argon2_checks. clear isValidTimeZone.
  intros Hno. eexists. split; [done|]. split_and!; try done.
  - intros later. unfold verifyInvite. rewrite List.filter_app, find_row_app.
    rewrite (proj2 (find_row_None _ _)).
    + cbn. destruct (Z.ltb_spec later (now + ttl * 3600000)); cbn; [|done].
      by rewrite argon2_checks, bool_decide_eq_true_2.
    + intros x [Hx _]%list_elem_of_In%filter_In. apply Hno. by apply list_elem_of_In.
  - intros later t Ht. unfold verifyInvite. rewrite List.filter_app, find_row_app.
    destruct (find_row _ (List.filter _ l)); [done|]. cbn. destruct (_ <? _); cbn; [|done].
    by rewrite argon2_checks, bool_decide_eq_false_2.
Qed.

Lemma within_limit_checked e key n u :
  assertWithinLimit e key (count_where (λ _ : User, true) n) = inr u →
  withinLimit (limits e) key (Z.of_nat (length n)) = true.
Proof.
  unfold assertWithinLimit, withinLimit, count_where. rewrite (forallb_filter_id _ n) by by apply forallb_forall.
  destruct (entry _ _) as [m|]; [|done]. by destruct (_ <? m).
Qed.

Lemma pending_present id l :
  (count_where (pending_invite id) l =? 0) = false → ∃ x, x ∈ l ∧ inv_id x = id ∧ inv_usedAt x = None.
Proof.
  unfold count_where. destruct (List.filter _ l) as [|x l'] eqn:E; [done|]. intros _. exists x.
  assert (In x (List.filter (pending_invite id) l)) as [Hx%list_elem_of_In Hp]%filter_In by (rewrite E; by left).
  unfold pending_invite in Hp. by reflect_bool.
Qed.

(** An invite the console issues is for an address nobody in the workspace
    has in any spelling, within the plan's user limit, and for a vendor when the
    members come from the centre; the link that is answered resolves to it until
    it expires and not after, and no other link changes.  Re-sending replaces a
    pending invite by one for the same address and role: of the invites only the
    pending one is gone, used ones are kept, and the new link resolves. *)
Theorem invite_links_sound between rq id body db db' s ans :
  (∀ i, i ∈ k_invites (pe_acc db) → argon2verify (inv_tokenHash i) (pr_token rq) = false) →
  (∀ i, i ∈ k_invites (between (pe_acc (whoami sha256 rq db).1)) → argon2verify (inv_tokenHash i) (pr_token rq) = false) →
  (invitesPost sha256 argon2hash frac_text digest json_store rq body db = (db', Reply s ans) →
     ∃ i, k_invites (pe_acc db') = k_invites (pe_acc db) ++ [i] ∧ ia_link ans = pr_baseUrl rq +:+ "/invite/" +:+ pr_token rq ∧
       (∀ u, u ∈ k_users (pe_acc db) → toLowerCase (u_email u) ≠ toLowerCase (inv_email i)) ∧
       withinLimit (limits (pr_envelope rq)) maxUsers (Z.of_nat (length (k_users (pe_acc db)))) = true ∧
       (some_truthy (pr_org rq) ≠ None → inv_role i = VENDOR) ∧ inv_role i ∈ ASSIGNABLE_ROLES ∧
       (∀ later, verifyInvite argon2verify later (pr_token rq) (k_invites (pe_acc db')) =
          if later <? pr_now rq + pr_ttlHours rq * 3600000 then Some i else None) ∧
       (∀ later t, t ≠ pr_token rq → verifyInvite argon2verify later t (k_invites (pe_acc db')) =
          verifyInvite argon2verify later t (k_invites (pe_acc db)))) ∧
  (inviteResend sha256 argon2hash between rq id db = (db', Reply s ans) →
     ∃ old i, old ∈ k_invites (pe_acc db) ∧ inv_id old = id ∧ inv_usedAt old = None ∧
       let before := k_invites (between (pe_acc (whoami sha256 rq db).1)) in
       (∃ x, x ∈ before ∧ inv_id x = id ∧ inv_usedAt x = None) ∧
       (∀ x, x ∈ k_invites (pe_acc db') ↔ x = i ∨ (x ∈ before ∧ ¬ (inv_id x = id ∧ inv_usedAt x = None))) ∧
       inv_email i = normalizeEmail (inv_email old) ∧ inv_role i = inv_role old ∧
       ∀ later, verifyInvite argon2verify later (pr_token rq) (k_invites (pe_acc db')) =
          if later <? pr_now rq + pr_ttlHours rq * 3600000 then Some i else None).
Proof using argon2_checks. clear isValidTimeZone.
  intros Hno Hno'. split.
  - unfold invitesPost.
    apply (as_configurer_cases rq db _ (λ r, r = (db', Reply s ans) → _)); [done|].
    intros db1 me Hl _ Hin _. cbv zeta. rewrite (lu_users _ _ Hl), (lu_invites _ _ Hl).
    set (email := match obj_get body "email" with JStr s => normalizeEmail s | _ => _ end).
    assert (normalizeEmail email = email) as He by (unfold email; case_match; auto using normalizeEmail_idemp).
    clearbody email. destruct (_ ≫= _) as [role|] eqn:Hrole; [|done].
    destruct (_ || _); [done|]. destruct (_ && _) eqn:Horg; [done|]. destruct (existsb _ _) eqn:Hem; [done|].
    destruct (assertWithinLimit _ _ _) eqn:Hlim; [done|]. intros [= <- <- <-].
    edestruct create_verify as (i & Hi & Hie & Hir & _ & _ & Hv & Hv'); [apply Hno|].
    exists i. cbn. rewrite Hi. split_and!; [done..| | | | |done|done].
    + intros v Hu Heq. rewrite Hie, He in Heq. apply not_true_iff_false in Hem. apply Hem.
      apply existsb_exists. exists v. split; [by apply list_elem_of_In|]. by apply bool_decide_eq_true_2.
    + by eapply within_limit_checked.
    + intros Hne. rewrite Hir. apply andb_false_iff in Horg as [Hv1|Hv1]; [by reflect_bool|].
      by apply bool_decide_eq_false in Hv1.
    + rewrite Hir. destruct (as_string _) as [r|]; [|done]. by apply find_row_Some in Hrole as [? _].
  - unfold inviteResend. destruct (whoami_spec rq db) as (Hl & _ & _). unfold as_configurer.
    destruct (whoami sha256 rq db) as [db1 [me|]]; cbn [fst] in *; [|done]. destruct (negb _); [done|].
    rewrite (lu_invites _ _ Hl). destruct (find_row _ _) as [old|] eqn:Hf; [|done].
    apply find_row_Some in Hf as [Hold Hid]. apply bool_decide_eq_true_1 in Hid.
    case_bool_decide as Hu; [done|]. destruct (_ =? 0) eqn:Hc; [done|].
    destruct (negb _); [by destruct (pr_multi rq)|]. intros [= <- <- <-].
    edestruct (create_verify (pr_ttlHours rq) (pr_now rq)) as (i & Hi & Hie & Hir & _ & _ & Hv & _);
      [by intros i [Hi _]%elem_of_delete_where; apply Hno'|].
    exists old, i. cbn. rewrite Hi. split_and!; try done.
    + by apply pending_present.
    + intros x. rewrite elem_of_app, list_elem_of_singleton, elem_of_delete_where. unfold pending_invite.
      rewrite <-not_true_iff_false, andb_true_iff, !bool_decide_eq_true. tauto.
Qed.
End links.
End people_theorems.

(** ** Concrete runs *)

Definition demo_person (id email : string) (role : Role) (center : option string) : User :=
  {| u_id := id; u_email := email; u_name := id; u_phone := None; u_company := None; u_timezone := None; u_role := role;
     u_status := UActive; u_directoryManaged := false; u_directoryLastVerifiedAt := None; u_centerRole := center |}.
Definition demo_sign_in (userId : string) : Session :=
  {| se_id := "s-" +:+ userId; se_userId := userId; se_tokenHash := "t-" +:+ userId; se_expiresAt := 100000;
     se_createdAt := 0; se_lastSeenAt := 0; se_userAgent := None; se_ip := None; se_amr := []; se_mobile := false;
     se_mobileChallenge := None |}.
Definition demo_grant_row : AccessGrant :=
  {| g_id := "g1"; g_userId := "vend"; g_siteId := "site"; g_startsAt := None; g_endsAt := None; g_status := GActive;
     g_note := None; g_denyReason := None; g_requiresApproval := false; g_approvedAt := None;
     g_approvedById := Some "bob"%string; g_schedule := JNull; g_createdById := Some "ann"%string;
     g_directoryManaged := false |}.
(** Two admins, a vendor with a grant, and a member the centre manages. *)
Definition demo_people : PeopleDb :=
  {| pe_acc :=
       {| k_signin :=
            {| si_dir := {| d_users := [demo_person "ann" "ann@corp.example" ADMIN None;
                                        demo_person "bob" "bob@corp.example" ADMIN None;
                                        demo_person "vend" "vend@corp.example" VENDOR None;
                                        demo_person "cen" "cen@corp.example" OPERATOR (Some "MEMBER"%string)];
                            d_sites := []; d_grants := [demo_grant_row]; d_mappings := []; d_config := None;
                            d_log := {| auditEvents := []; chainState := None |} |};
               si_sessions := [demo_sign_in "ann"; demo_sign_in "bob"; demo_sign_in "vend"];
               si_policy := {| policyRows := ∅; policyCache := None |};
               si_invites := [{| inv_id := "i1"; inv_email := "new@corp.example"; inv_name := "New"; inv_phone := None;
                                 inv_company := None; inv_createdById := Some "bob"%string; inv_role := VENDOR;
                                 inv_tokenHash := "old"; inv_expiresAt := 90000; inv_usedAt := None |}];
               si_settings := {| settingsRows := ∅; settingsCache := ∅ |} |};
          k_passkeys := []; k_totp := [] |};
     pe_log := {| adminRows := []; adminHead := None |} |}.
Definition demo_people_req (who : string) (cap : Z) : PeopleReq :=
  {| pr_now := 1000; pr_tenant := "default"; pr_multi := false; pr_support := None; pr_session := Some ("t-" +:+ who); pr_faults := (no_faults, no_faults);
     pr_clientIp := None; pr_inviteId := "i2"; pr_token := "fresh"; pr_ttlHours := 24; pr_baseUrl := "https://m.example";
     pr_org := None; pr_envelope := {| limits := [(maxUsers, cap)]; capabilities := [] |}; pr_mail := MailThrew;
     pr_auditId := "a1"; pr_auditFails := false |}.
Notation demo_serve := (run_people id id frac_digits id json_wire (λ _, true)).
Definition disable_body : json := JObj [("status", JStr "DISABLED")]%string.
Definition demo_after : PeopleDb := demo_serve (PDelete (λ a, a) "vend") (demo_people_req "bob" 9) demo_people.

Lemma demo_step : people_step id id frac_digits id json_wire (λ _, true) demo_people demo_after.
Proof. by exists (PDelete (λ a, a) "vend"), (demo_people_req "bob" 9). Qed.

(** Bob may delete the vendor, and the rows go along; nobody disables themselves. *)
Example demo_cascade :
  (map u_id (k_users (pe_acc demo_after)), k_grants (pe_acc demo_after), map se_id (si_sessions (k_signin (pe_acc demo_after))))
  = (["ann"; "bob"; "cen"], [], ["s-ann"; "s-bob"])%string.
Proof. vm_compute. reflexivity. Qed.
Example demo_self_disable :
  (userPatch id frac_digits id json_wire (λ a, a) (demo_people_req "bob" 9) "bob" disable_body demo_people).2
  = Fail 403 "cannot_disable_self".
Proof. vm_compute. reflexivity. Qed.

Lemma demo_has_configurer : has_configurer demo_people.
Proof. exists (demo_person "ann" "ann@corp.example" ADMIN None). split; [left|done]. Qed.

Lemma configurer_kept_witness : has_configurer demo_after.
Proof.
  apply (configurer_kept id id frac_digits id json_wire (λ _, true) demo_people demo_after).
  - apply rtc_once, demo_step.
  - apply demo_has_configurer.
Defined.

Lemma center_members_protected_witness :
  ∃ u', u' ∈ k_users (pe_acc demo_after) ∧ u_id u' = "cen"%string ∧ u_status u' = UActive.
Proof.
  destruct (center_members_protected id id frac_digits id json_wire (λ _, true) demo_people demo_after "MEMBER")
    with (u := demo_person "cen" "cen@corp.example" OPERATOR (Some "MEMBER"%string)) as (u' & H1 & H2 & _ & H3 & _).
  - apply (bool_decide_unpack _). vm_compute. exact I.
  - apply rtc_once, demo_step.
  - right; right; right; left.
  - reflexivity.
  - reflexivity.
  - exists u'. split; [exact H1|]. split; [exact H2|exact H3].
Defined.

Lemma demo_refs : refs_ok (pe_acc demo_people).
Proof.
  split.
  - intros s Hs. repeat (apply elem_of_cons in Hs as [->|Hs]; [cbn; set_solver|]). by apply elem_of_nil in Hs.
  - intros p Hp. by apply elem_of_nil in Hp.
  - intros p Hp. by apply elem_of_nil in Hp.
  - intros g ->%list_elem_of_singleton. unfold names_user. cbn. split_and!; [set_solver|..]; intros ? [= <-]; set_solver.
  - intros i ->%list_elem_of_singleton. intros ? [= <-]. cbn. set_solver.
Qed.

Lemma references_kept_witness : refs_ok (pe_acc demo_after).
Proof.
  apply (references_kept id id frac_digits id json_wire (λ _, true) (PDelete (λ a, a) "vend") (demo_people_req "bob" 9) demo_people).
  - intros acc H. exact H.
  - apply demo_refs.
Defined.

Definition demo_invite_form : json :=
  JObj [("name", JStr "Zed"); ("email", JStr " Zed@Corp.Example "); ("role", JStr "VENDOR")]%string.
Definition demo_argon (h t : string) : bool := h =s t.
Definition demo_issued : PeopleDb * response InviteAnswer :=
  invitesPost id id frac_digits id json_wire (demo_people_req "bob" 9) demo_invite_form demo_people.

Lemma invite_links_sound_witness :
  demo_issued.2 = Reply 200 {| ia_link := "https://m.example/invite/fresh"; ia_emailed := None |} ∧
  (verifyInvite demo_argon 2000 "fresh" (k_invites (pe_acc demo_issued.1))) ≠ None.
Proof.
  assert (demo_issued.2 = Reply 200 {| ia_link := "https://m.example/invite/fresh"; ia_emailed := None |}) as Hr
    by (vm_compute; reflexivity).
  split; [exact Hr|].
  destruct (invite_links_sound id id demo_argon frac_digits id json_wire (λ t t', eq_refl) (λ a, a) (demo_people_req "bob" 9) "i1"
    demo_invite_form demo_people demo_issued.1 200 {| ia_link := "https://m.example/invite/fresh"; ia_emailed := None |}) as [H _].
  - intros i ->%list_elem_of_singleton. vm_compute. reflexivity.
  - intros i ->%list_elem_of_singleton. vm_compute. reflexivity.
  - destruct H as (i & _ & _ & _ & _ & _ & _ & Hv & _); [rewrite <-Hr; apply surjective_pairing|].
    intros Hn. pose proof (eq_trans (eq_sym Hn) (Hv 2000)) as Hx. vm_compute in Hx. discriminate Hx.
Defined.

(** Two admins who disable each other at the same time lock the workspace: each
    guard looks at its own request only, and the session was checked before the
    other's write. *)
Theorem mutual_disable_locks_out :
  let bob_disables_ann a :=
    pe_acc (demo_serve (PPatch (λ x, x) "ann" disable_body) (demo_people_req "bob" 9) (with_acc demo_people a)) in
  let db' := demo_serve (PPatch bob_disables_ann "bob" disable_body) (demo_people_req "ann" 9) demo_people in
  has_configurer demo_people ∧ ¬ has_configurer db'.
Proof.
  split; [apply demo_has_configurer|]. intros (u & Hu & Ha & Hc).
  assert (∀ v, v ∈ k_users (pe_acc (demo_serve (PPatch (λ a, pe_acc (demo_serve (PPatch (λ x, x) "ann" disable_body)
      (demo_people_req "bob" 9) (with_acc demo_people a))) "bob" disable_body) (demo_people_req "ann" 9) demo_people)) →
    bool_decide (u_status v = UActive) && can (u_role v) configure = false) as Hall.
  { apply Forall_forall. vm_compute. repeat constructor. }
  specialize (Hall u Hu). by rewrite Ha, Hc in Hall.
Qed.

(** The user limit is compared when an invite is issued: with one seat left two
    invites can be issued, and both turn into accounts. *)
Definition seat_req (i tok : string) : PeopleReq :=
  {| pr_now := 1000; pr_tenant := "default"; pr_multi := false; pr_support := None; pr_session := Some "t-bob"%string; pr_faults := (no_faults, no_faults);
     pr_clientIp := None; pr_inviteId := i; pr_token := tok; pr_ttlHours := 24; pr_baseUrl := "https://m.example";
     pr_org := None; pr_envelope := {| limits := [(maxUsers, 5)]; capabilities := [] |}; pr_mail := MailOff;
     pr_auditId := "a1"; pr_auditFails := false |}.
Definition seat_form (email : string) : json :=
  JObj [("name", JStr "N"); ("email", JStr email); ("role", JStr "VENDOR")]%string.
Definition seat_enrol (id inviteId : string) (acc : AccountDb) : AccountDb :=
  match find_row (λ i, inv_id i =s inviteId) (k_invites acc) with
  | Some i => (enrol (demo_pk_req "/v") (invited_user id "N" i)
                 {| pk_id := id; pk_userId := id; pk_credentialId := id; pk_publicKey := ""; pk_counter := 0;
                    pk_transports := []; pk_label := ""; pk_lastUsedAt := None |} inviteId acc).1
  | None => acc
  end.
Theorem user_limit_passed :
  let r1 := invitesPost id id frac_digits id json_wire (seat_req "j1" "x1") (seat_form "x1@a") demo_people in
  let r2 := invitesPost id id frac_digits id json_wire (seat_req "j2" "x2") (seat_form "x2@a") r1.1 in
  replies r1.2 = true ∧ replies r2.2 = true ∧
  count_where (λ _, true) (k_users (seat_enrol "n2" "j2" (seat_enrol "n1" "j1" (pe_acc r2.1)))) = 6.
Proof. vm_compute. auto. Qed.
