(* ===== verification/AuditQuery.v ===== *)
(** * Reading the audit logs (src/lib/audit/filter.ts, query.ts,
    admin-query.ts, access-format.ts and the two routes of the access log)

    The query parameters become a filter, the filter a [where], the [where] a
    page of rows newest first, and the rows JSON or a CSV file.  The meaning
    of a [where] is Prisma's: [contains] in mode "insensitive" compares without
    case and a null column matches nothing.  Rows with one timestamp come in
    insertion order. *)

From S2P Require Import Prelude JsString JsValue Schema AuditChain AccessLog AdminLog Identity Access.

(** ** Transfers *)

Definition TRANSFER_VERBS : list string := ["DOWNLOAD"; "UPLOAD"; "DOWNLOAD-PARTIAL"; "UPLOAD-PARTIAL"]%string.

Inductive direction := Download | Upload.
Inductive TransferBadge := NoTransfer | Transfer (d : direction) (partial : bool) (label : string).

Definition transferBadge (method : string) : TransferBadge :=
  if method =s "DOWNLOAD" then Transfer Download false "Download" else
  if method =s "UPLOAD" then Transfer Upload false "Upload" else
  if method =s "DOWNLOAD-PARTIAL" then Transfer Download true "Download (partial)" else
  if method =s "UPLOAD-PARTIAL" then Transfer Upload true "Upload (partial)" else NoTransfer.

(** ** Filters *)

Record AuditFilter := {
  fl_q : option string;
  fl_userId : option string;
  fl_siteId : option string;
  fl_decision : option string;
  fl_file : bool;
  fl_from : option Z;
  fl_to : option Z;
  fl_limit : Z;
  fl_offset : Z;
}.

(** A Prisma [where] on AuditEvent: the conditions that are present. *)
Record AuditWhere := {
  w_userId : option string;
  w_siteId : option string;
  w_decision : option string;
  w_method : option (list string);
  w_gte : option Z;
  w_lte : option Z;
  w_or : option string;
}.

(** An optional string in a boolean position. *)
Definition present (o : option string) : option string :=
  match o with Some s => if truthy s then Some s else None | None => None end.

(** A [Date] object is always true. *)
Definition buildAuditWhere (f : AuditFilter) : AuditWhere :=
  {| w_userId := present (fl_userId f); w_siteId := present (fl_siteId f); w_decision := present (fl_decision f);
     w_method := if fl_file f then Some TRANSFER_VERBS else None;
     w_gte := fl_from f; w_lte := fl_to f;
     w_or := match trim <$> fl_q f with
             | Some q => if truthy q && (2 <=? js_length q) then Some q else None
             | None => None
             end |}.

Section parse.
Context (date_parse : string → jsdate).

Definition parse_date (value : option string) : option Z :=
  match present value with
  | Some s => match date_parse s with ValidDate d => Some d | InvalidDate => None end
  | None => None
  end.

(** [Number(sp.get(k))]: [null] is 0. *)
Definition number_param (v : option string) : jsnum := match v with Some s => Number s | None => NInt 0 end.

Definition read_limit (v : option string) (defaultLimit maxLimit : Z) : Z :=
  let n := number_param v in
  match num_floor n with
  | Some fl => if num_gt n 0 then Z.min fl maxLimit else defaultLimit
  | None => defaultLimit
  end.
Definition read_offset (v : option string) : Z :=
  let n := number_param v in
  match num_floor n with Some fl => if num_ge n 0 then fl else 0 | None => 0 end.

Definition parseAuditFilter (sp : string → option string) (defaultLimit maxLimit : Z) : AuditFilter :=
  {| fl_q := present (trim <$> sp "q"%string); fl_userId := present (trim <$> sp "userId"%string);
     fl_siteId := present (trim <$> sp "siteId"%string);
     fl_decision := match sp "decision"%string with
                    | Some d => if (d =s "ALLOW") || (d =s "DENY") then Some d else None
                    | None => None
                    end;
     fl_file := bool_decide (sp "kind"%string = Some "file"%string);
     fl_from := parse_date (sp "from"%string); fl_to := parse_date (sp "to"%string);
     fl_limit := read_limit (sp "limit"%string) defaultLimit maxLimit;
     fl_offset := read_offset (sp "offset"%string) |}.
End parse.

(** ** The query *)

Definition opt_is (w : option string) (column : option string) : bool :=
  match w with Some v => bool_decide (column = Some v) | None => true end.
(** [{ contains: q, mode: "insensitive" }] *)
Definition contains_ci (q : string) (column : option string) : bool :=
  match column with Some s => includes (toLowerCase q) (toLowerCase s) | None => false end.

Definition matches (w : AuditWhere) (e : AuditEvent) : bool :=
  opt_is (w_userId w) (ae_userId e) && opt_is (w_siteId w) (ae_siteId e) &&
  opt_is (w_decision w) (Some (ae_decision e)) &&
  match w_method w with Some ms => bool_decide (ae_method e ∈ ms) | None => true end &&
  match w_gte w with Some d => d <=? ae_timestamp e | None => true end &&
  match w_lte w with Some d => ae_timestamp e <=? d | None => true end &&
  match w_or w with
  | Some q => contains_ci q (Some (ae_path e)) || contains_ci q (Some (ae_host e)) || contains_ci q (ae_userEmail e) ||
              contains_ci q (ae_userName e) || contains_ci q (ae_company e)
  | None => true
  end.

(** A row as it is handed out; the database id is left out. *)
Record AuditRow := {
  r_timestamp : Z;
  r_userId : option string;
  r_userEmail : option string;
  r_userName : option string;
  r_company : option string;
  r_siteId : option string;
  r_siteName : option string;
  r_host : string;
  r_method : string;
  r_path : string;
  r_status : Z;
  r_bytesOut : string;
  r_decision : string;
  r_reason : option string;
  r_clientIp : option string;
  r_userAgent : option string;
}.
Definition to_row (e : AuditEvent) : AuditRow :=
  {| r_timestamp := ae_timestamp e; r_userId := ae_userId e; r_userEmail := ae_userEmail e; r_userName := ae_userName e;
     r_company := ae_company e; r_siteId := ae_siteId e; r_siteName := ae_siteName e; r_host := ae_host e;
     r_method := ae_method e; r_path := ae_path e; r_status := ae_status e; r_bytesOut := dec (ae_bytesOut e);
     r_decision := ae_decision e; r_reason := ae_reason e; r_clientIp := ae_clientIp e; r_userAgent := ae_userAgent e |}.

(** [orderBy: { key: "desc" }], then [skip] and [take]. *)
Definition newest_first {A} (key : A → Z) (rows : list A) : list A := order_by (λ r, - key r) rows.
Definition page {A} (limit offset : Z) (rows : list A) : list A := take (Z.to_nat limit) (drop (Z.to_nat offset) rows).

Definition found (f : AuditFilter) (db : AuditDb) : list AuditEvent :=
  newest_first ae_timestamp (List.filter (matches (buildAuditWhere f)) (map s_event (auditEvents db))).

Definition listAuditEvents (f : AuditFilter) (db : AuditDb) : list AuditRow * Z :=
  (map to_row (page (fl_limit f) (fl_offset f) (found f db)),
   count_where (matches (buildAuditWhere f)) (map s_event (auditEvents db))).

(** The admin log's list. *)
Definition listAdminAuditEvents (limit offset : Z) (action : option string) (db : AdminDb) : list AdminRow * Z :=
  let p := λ r, match present action with Some a => ab_action (ar_body r) =s a | None => true end in
  (page limit offset (newest_first (λ r, ab_timestamp (ar_body r)) (List.filter p (adminRows db))),
   count_where p (adminRows db)).

(** ** CSV *)

Definition dquote : Ascii.ascii := Ascii.ascii_of_N 34.
Definition CR : Ascii.ascii := Ascii.ascii_of_N 13.
Definition LF : Ascii.ascii := Ascii.ascii_of_N 10.
Definition apostrophe : Ascii.ascii := Ascii.ascii_of_N 39.

Definition CSV_HEADER : list string :=
  ["timestamp"; "userName"; "userEmail"; "company"; "siteName"; "host"; "method"; "path"; "status"; "decision";
   "reason"; "clientIp"; "bytesOut"]%string.

(** [/^[=+\-@\t\r]/] *)
Definition formula_char (c : Ascii.ascii) : bool :=
  bool_decide (c ∈ [Ascii.ascii_of_N 61; Ascii.ascii_of_N 43; Ascii.ascii_of_N 45; Ascii.ascii_of_N 64; Ascii.ascii_of_N 9; CR]).
Definition needs_guard (l : list Ascii.ascii) : bool := match l with c :: _ => formula_char c | [] => false end.
(** The characters that force quotes: a double quote, a comma, LF or CR. *)
Definition csv_special (c : Ascii.ascii) : bool := bool_decide (c ∈ [dquote; comma; LF; CR]).

(** The guarded value. *)
Definition guarded (l : list Ascii.ascii) : list Ascii.ascii := if needs_guard l then apostrophe :: l else l.
Definition double_quotes (l : list Ascii.ascii) : list Ascii.ascii :=
  concat (map (λ c, if bool_decide (c = dquote) then [dquote; dquote] else [c]) l).
Definition escape_chars (l : list Ascii.ascii) : list Ascii.ascii :=
  let e := guarded l in
  if existsb csv_special e then dquote :: double_quotes e ++ [dquote] else e.
Definition csvEscape (value : string) : string := unchars (escape_chars (chars value)).

Definition csv_fields (r : AuditRow) : list string :=
  [toISOString (r_timestamp r); r_userName r ?? ""; r_userEmail r ?? ""; r_company r ?? ""; r_siteName r ?? "";
   r_host r; r_method r; r_path r; dec (r_status r); r_decision r; r_reason r ?? ""; r_clientIp r ?? ""; r_bytesOut r]%string.

Definition toCsv (rows : list AuditRow) : string :=
  join (unchars [CR; LF])
    (join "," CSV_HEADER :: map (λ r, join "," (map csvEscape (csv_fields r))) rows).

(** ** Routes *)

Section audit_routes.
Context (date_parse : string → jsdate).

Definition reading {A} (user : option User) (h : response A) : response A :=
  match user with
  | None => Fail 401 "unauthorized"
  | Some u => if can (u_role u) read_console then h else Fail 403 "forbidden"
  end.
Definition auditGet (user : option User) (sp : string → option string) (db : AuditDb) : response (list AuditRow * Z) :=
  reading user (Reply 200 (listAuditEvents (parseAuditFilter date_parse sp 50 200) db)).
Definition EXPORT_LIMIT : Z := 10000.
Definition auditExport (user : option User) (sp : string → option string) (db : AuditDb) : response string :=
  reading user
    (Reply 200 (toCsv (listAuditEvents (parseAuditFilter date_parse sp EXPORT_LIMIT EXPORT_LIMIT) db).1)).
End audit_routes.

(** ** Reading a CSV file

    The reader RFC 4180 describes, independent of the writer: fields between
    commas, records between CRLFs, a field in double quotes with the quotes
    inside it doubled.  [None] is a malformed file. *)

Inductive csv_state := FieldStart | InBare | InQuotes | QuoteSeen.

Fixpoint csv_read (st : csv_state) (cur : list Ascii.ascii) (row : list (list Ascii.ascii)) (l : list Ascii.ascii)
    : option (list (list (list Ascii.ascii))) :=
  let field_end c l' :=
    if bool_decide (c = comma) then csv_read FieldStart [] (row ++ [cur]) l'
    else match l' with
         | d :: l'' => if bool_decide (c = CR) && bool_decide (d = LF)
                       then cons (row ++ [cur]) <$> csv_read FieldStart [] [] l'' else None
         | [] => None
         end in
  match l with
  | [] => match st with InQuotes => None | _ => Some [row ++ [cur]] end
  | c :: l' =>
      match st with
      | FieldStart => if bool_decide (c = dquote) then csv_read InQuotes cur row l'
                      else if csv_special c then field_end c l' else csv_read InBare (cur ++ [c]) row l'
      | InBare => if csv_special c then field_end c l' else csv_read InBare (cur ++ [c]) row l'
      | InQuotes => if bool_decide (c = dquote) then csv_read QuoteSeen cur row l' else csv_read InQuotes (cur ++ [c]) row l'
      | QuoteSeen => if bool_decide (c = dquote) then csv_read InQuotes (cur ++ [c]) row l' else field_end c l'
      end
  end.
Definition read_csv (s : string) : option (list (list string)) :=
  map (map unchars) <$> csv_read FieldStart [] [] (chars s).

(** ** Theorems: the CSV export *)

(** What follows a field: the end, another field or another record. *)
Inductive field_stop : list Ascii.ascii → Prop :=
  | StopEnd : field_stop []
  | StopComma l : field_stop (comma :: l)
  | StopRecord l : field_stop (CR :: LF :: l).

(** The reader at the end of the field [cur]. *)
Definition next_field (cur : list Ascii.ascii) (row : list (list Ascii.ascii)) (l : list Ascii.ascii)
    : option (list (list (list Ascii.ascii))) :=
  match l with
  | [] => Some [row ++ [cur]]
  | c :: l' => if bool_decide (c = comma) then csv_read FieldStart [] (row ++ [cur]) l'
               else match l' with
                    | _ :: l'' => cons (row ++ [cur]) <$> csv_read FieldStart [] [] l''
                    | [] => None
                    end
  end.

Lemma csv_stop st cur row l :
  st ≠ InQuotes → field_stop l → csv_read st cur row l = next_field cur row l.
Proof. intros Hst Hs. destruct Hs, st; done. Qed.

Lemma csv_bare w : ∀ cur row l,
  existsb csv_special w = false → csv_read InBare cur row (w ++ l) = csv_read InBare (cur ++ w) row l.
Proof.
  induction w as [|c w IH]; intros cur row l Hw; [by rewrite app_nil_r|]. simpl in Hw.
  apply orb_false_iff in Hw as [Hc Hw]. cbn [csv_read app]. rewrite Hc, IH by done. by rewrite <-(assoc_L (++)).
Qed.

Lemma csv_bare_start w row l :
  existsb csv_special w = false → field_stop l → csv_read FieldStart [] row (w ++ l) = next_field w row l.
Proof.
  destruct w as [|c w]; intros Hw Hs; [by apply csv_stop|]. pose proof Hw as Hc. cbn [existsb] in Hc.
  apply orb_false_iff in Hc as [Hc Hw']. cbn [csv_read app]. rewrite Hc.
  assert (bool_decide (c = dquote) = false) as ->.
  { apply bool_decide_eq_false. intros ->. by vm_compute in Hc. }
  rewrite csv_bare by done. by apply csv_stop.
Qed.

Lemma csv_quoted w : ∀ cur row l,
  csv_read InQuotes cur row (double_quotes w ++ dquote :: l) = csv_read QuoteSeen (cur ++ w) row l.
Proof.
  induction w as [|c w IH]; intros cur row l; unfold double_quotes; cbn [map concat app csv_read].
  - rewrite bool_decide_eq_true_2 by done. by rewrite app_nil_r.
  - fold (double_quotes w). case_bool_decide as Hc; cbn [app csv_read].
    + subst c. rewrite !bool_decide_eq_true_2 by done. rewrite IH. by rewrite <-(assoc_L (++)).
    + rewrite bool_decide_eq_false_2 by done. rewrite IH. by rewrite <-(assoc_L (++)).
Qed.

(** A written field is read back, guarded. *)
Lemma csv_field v row l :
  field_stop l → csv_read FieldStart [] row (escape_chars v ++ l) = next_field (guarded v) row l.
Proof.
  intros Hs. unfold escape_chars. destruct (existsb csv_special (guarded v)) eqn:He; [|by apply csv_bare_start].
  cbn [app csv_read]. rewrite bool_decide_eq_true_2 by done. rewrite <-(assoc_L (++)). cbn [app].
  rewrite csv_quoted. by apply csv_stop.
Qed.

(** A record, then the end of the file or another record. *)
Lemma csv_record (vs : list (list Ascii.ascii)) : ∀ row l,
  vs ≠ [] → l = [] ∨ (∃ l', l = CR :: LF :: l') →
  csv_read FieldStart [] row (join_chars [comma] (map escape_chars vs) ++ l) =
  match l with
  | _ :: _ :: l' => cons (row ++ map guarded vs) <$> csv_read FieldStart [] [] l'
  | _ => Some [row ++ map guarded vs]
  end.
Proof.
  induction vs as [|v vs IH]; intros row l Hne Hl; [done|]. destruct vs as [|v' vs].
  - cbn [map join_chars]. rewrite csv_field by (destruct Hl as [->|[l' ->]]; constructor).
    by destruct Hl as [->|[l' ->]].
  - change (join_chars [comma] (map escape_chars (v :: v' :: vs))) with
      (escape_chars v ++ [comma] ++ join_chars [comma] (map escape_chars (v' :: vs))).
    rewrite <-!(assoc_L (++)), csv_field by constructor. cbn [app next_field].
    rewrite bool_decide_eq_true_2 by done. rewrite IH by done.
    destruct Hl as [->|[l' ->]]; cbn [map]; by rewrite <-(assoc_L (++)).
Qed.

(** A whole file of non-empty records. *)
Lemma csv_file (recs : list (list (list Ascii.ascii))) :
  recs ≠ [] → Forall (λ r, r ≠ []) recs →
  csv_read FieldStart [] [] (join_chars [CR; LF] (map (λ r, join_chars [comma] (map escape_chars r)) recs)) =
  Some (map (map guarded) recs).
Proof.
  intros Hne Hall. induction recs as [|r recs IH]; [done|]. apply Forall_cons in Hall as [Hr Hall].
  destruct recs as [|r' recs].
  - cbn [map join_chars]. rewrite <-(app_nil_r (join_chars [comma] _)). by rewrite csv_record by auto.
  - change (join_chars [CR; LF] (map (λ r, join_chars [comma] (map escape_chars r)) (r :: r' :: recs))) with
      (join_chars [comma] (map escape_chars r) ++ CR :: LF ::
       join_chars [CR; LF] (map (λ r, join_chars [comma] (map escape_chars r)) (r' :: recs))).
    rewrite csv_record by eauto. by rewrite IH.
Qed.

(** No cell opens as a formula. *)
Lemma guarded_safe l : needs_guard (guarded l) = false.
Proof. unfold guarded. by destruct (needs_guard l) eqn:H. Qed.

(** The value a spreadsheet shows for a field. *)
Definition shown (v : string) : string := unchars (guarded (chars v)).

Lemma toCsv_chars rows :
  chars (toCsv rows) =
  join_chars [CR; LF] (map (λ r, join_chars [comma] (map escape_chars r))
    (map chars CSV_HEADER :: map (λ r, map chars (csv_fields r)) rows)).
Proof.
  unfold toCsv, join. rewrite !chars_unchars. f_equal. cbn [map]. f_equal.
  rewrite !map_map. apply map_ext. intros r. unfold join. rewrite chars_unchars. change (chars ",") with [comma].
  f_equal. rewrite !map_map. apply map_ext. intros v. unfold csvEscape. by rewrite chars_unchars.
Qed.

(** The CSV export is a well-formed CSV file that says what the rows say.
    Read back as RFC 4180 prescribes, it has the header and one record per
    row, in order, each with the thirteen fields of the row, whatever quotes,
    commas or line breaks they contain; a field that a spreadsheet would take
    for a formula comes back with an apostrophe before it, every other field
    as it was, and no field of the file starts a formula. *)
Theorem csv_roundtrip rows :
  read_csv (toCsv rows) = Some (CSV_HEADER :: map (λ r, map shown (csv_fields r)) rows) ∧
  (∀ v, needs_guard (chars (shown v)) = false) ∧
  (∀ v, shown v = if needs_guard (chars v) then unchars [apostrophe] +:+ v else v).
Proof.
  split_and!.
  - unfold read_csv. rewrite toCsv_chars, csv_file; [|done|].
    + cbn [fmap option_fmap option_map map]. f_equal. f_equal.
      rewrite !map_map. apply map_ext. intros r. by rewrite !map_map.
    + constructor; [done|]. apply Forall_forall. intros r (x & -> & _)%list_elem_of_fmap. done.
  - intros v. unfold shown. rewrite chars_unchars. apply guarded_safe.
  - intros v. unfold shown, guarded. destruct (needs_guard _); [|apply unchars_chars].
    apply (inj chars). by rewrite chars_unchars, chars_append.
Qed.

(** ** Theorems: the list *)

Lemma newest_first_Permutation {A} (key : A → Z) rows : newest_first key rows ≡ₚ rows.
Proof. apply merge_sort_Permutation. Qed.
Lemma newest_first_sorted {A} (key : A → Z) rows : StronglySorted (λ a b, key b ≤ key a) (newest_first key rows).
Proof.
  unfold newest_first, order_by. assert (StronglySorted (key_le (λ r, - key r)) (merge_sort (key_le (λ r, - key r)) rows)) as Hs
    by apply (StronglySorted_merge_sort _).
  induction Hs as [|a l Hs IH Hf]; constructor; [done|]. eapply Forall_impl; [exact Hf|].
  intros b Hab. unfold key_le in Hab. lia.
Qed.

(** Consecutive pages. *)
Lemma pages_concat {A} (n : Z) (rows : list A) (m : nat) :
  0 ≤ n → concat (map (λ k, page n (Z.of_nat k * n) rows) (seq 0 m)) = take (m * Z.to_nat n) rows.
Proof.
  intros Hn. induction m as [|m IH]; [done|]. rewrite seq_S, map_app, concat_app, IH. simpl. rewrite app_nil_r.
  unfold page. replace (Z.to_nat (Z.of_nat m * n)) with (m * Z.to_nat n)%nat by lia.
  rewrite take_take_drop. f_equal. lia.
Qed.

Lemma read_limit_bounds v d m : 0 ≤ d ≤ m → 0 ≤ read_limit v d m ≤ m.
Proof.
  intros Hd. unfold read_limit. destruct (number_param v) as [z|fl| | |]; simpl; try lia;
    case_match; reflect_bool; lia.
Qed.
Lemma read_offset_nonneg v : 0 ≤ read_offset v.
Proof. unfold read_offset. destruct (number_param v) as [z|fl| | |]; simpl; try lia; case_match; reflect_bool; lia. Qed.

Definition at_offset (f : AuditFilter) (o : Z) : AuditFilter :=
  {| fl_q := fl_q f; fl_userId := fl_userId f; fl_siteId := fl_siteId f; fl_decision := fl_decision f; fl_file := fl_file f;
     fl_from := fl_from f; fl_to := fl_to f; fl_limit := fl_limit f; fl_offset := o |}.

(** An event the query parameters ask for. *)
Definition asked_for (f : AuditFilter) (e : AuditEvent) : Prop :=
  (∀ u, present (fl_userId f) = Some u → ae_userId e = Some u) ∧
  (∀ s, present (fl_siteId f) = Some s → ae_siteId e = Some s) ∧
  (∀ d, present (fl_decision f) = Some d → ae_decision e = d) ∧
  (fl_file f = true → transferBadge (ae_method e) ≠ NoTransfer) ∧
  (∀ d, fl_from f = Some d → d ≤ ae_timestamp e) ∧
  (∀ d, fl_to f = Some d → ae_timestamp e ≤ d) ∧
  (∀ q, fl_q f = Some q → 2 ≤ js_length (trim q) →
     ∃ col, col ∈ [Some (ae_path e); Some (ae_host e); ae_userEmail e; ae_userName e; ae_company e] ∧
            contains_ci (trim q) col = true).

Lemma transfer_verbs m : bool_decide (m ∈ TRANSFER_VERBS) = true ↔ transferBadge m ≠ NoTransfer.
Proof.
  rewrite bool_decide_eq_true. unfold TRANSFER_VERBS, transferBadge. rewrite !elem_of_cons, elem_of_nil.
  repeat case_bool_decide; naive_solver.
Qed.

Lemma opt_is_spec w col : opt_is w col = true ↔ ∀ v, w = Some v → col = Some v.
Proof. unfold opt_is. destruct w as [v|]; rewrite ?bool_decide_eq_true; naive_solver. Qed.

Lemma search_spec q e :
  contains_ci q (Some (ae_path e)) || contains_ci q (Some (ae_host e)) || contains_ci q (ae_userEmail e) ||
    contains_ci q (ae_userName e) || contains_ci q (ae_company e) = true ↔
  ∃ col, col ∈ [Some (ae_path e); Some (ae_host e); ae_userEmail e; ae_userName e; ae_company e] ∧ contains_ci q col = true.
Proof.
  rewrite !orb_true_iff. split.
  - intros [[[[?|?]|?]|?]|?]; eexists; (split; [|eassumption]); set_solver.
  - intros (col & Hcol & Hc). rewrite !elem_of_cons, elem_of_nil in Hcol. naive_solver.
Qed.

Lemma matches_spec f e : matches (buildAuditWhere f) e = true ↔ asked_for f e.
Proof.
  unfold matches, asked_for. rewrite !andb_true_iff, !opt_is_spec. cbn [buildAuditWhere w_userId w_siteId w_decision w_method w_gte w_lte w_or].
  assert (∀ P, (∀ d, present (fl_decision f) = Some d → Some (ae_decision e) = Some d) ∧ P ↔
               (∀ d, present (fl_decision f) = Some d → ae_decision e = d) ∧ P) as Hd by naive_solver.
  assert ((match (if fl_file f then Some TRANSFER_VERBS else None) with Some ms => bool_decide (ae_method e ∈ ms) | None => true end = true) ↔
          (fl_file f = true → transferBadge (ae_method e) ≠ NoTransfer)) as Hm
    by (destruct (fl_file f); [rewrite transfer_verbs|]; naive_solver).
  assert ((match fl_from f with Some d => d <=? ae_timestamp e | None => true end = true) ↔
          (∀ d, fl_from f = Some d → d ≤ ae_timestamp e)) as Hf
    by (destruct (fl_from f); rewrite ?Z.leb_le; naive_solver).
  assert ((match fl_to f with Some d => ae_timestamp e <=? d | None => true end = true) ↔
          (∀ d, fl_to f = Some d → ae_timestamp e ≤ d)) as Ht
    by (destruct (fl_to f); rewrite ?Z.leb_le; naive_solver).
  assert ((match match trim <$> fl_q f with Some q => if truthy q && (2 <=? js_length q) then Some q else None | None => None end with
           | Some q => contains_ci q (Some (ae_path e)) || contains_ci q (Some (ae_host e)) || contains_ci q (ae_userEmail e) ||
                       contains_ci q (ae_userName e) || contains_ci q (ae_company e)
           | None => true end = true) ↔
          (∀ q, fl_q f = Some q → 2 ≤ js_length (trim q) →
             ∃ col, col ∈ [Some (ae_path e); Some (ae_host e); ae_userEmail e; ae_userName e; ae_company e] ∧
                    contains_ci (trim q) col = true)) as Hq.
  { destruct (fl_q f) as [q|]; [|naive_solver]. cbn [fmap option_fmap option_map].
    destruct (Z.leb_spec 2 (js_length (trim q))) as [Hl|Hl].
    - assert (truthy (trim q) = true) as ->.
      { unfold truthy. case_bool_decide as E; [|done]. rewrite E in Hl. by vm_compute in Hl. }
      cbn [andb]. rewrite search_spec. naive_solver.
    - rewrite andb_false_r. split; [|done]. intros _ q' [= <-] ?. lia. }
  rewrite Hm, Hf, Ht, Hq. naive_solver.
Qed.

(** What the audit list shows.  The parsed limit and offset are in
    range; an event is found exactly when the query parameters ask for it, and
    the total counts those; a page has at most the limit, and the pages at
    offsets 0, n, 2n, ... put together are every such event once, newest
    first. *)
Theorem audit_list_spec date_parse sp defaultLimit maxLimit db :
  0 ≤ defaultLimit ≤ maxLimit →
  let f := parseAuditFilter date_parse sp defaultLimit maxLimit in
  let n := fl_limit f in
  let total := (listAuditEvents f db).2 in
  0 ≤ n ≤ maxLimit ∧ 0 ≤ fl_offset f ∧
  (∀ e, e ∈ found f db ↔ e ∈ map s_event (auditEvents db) ∧ asked_for f e) ∧
  total = Z.of_nat (length (found f db)) ∧
  StronglySorted (λ a b, ae_timestamp b ≤ ae_timestamp a) (found f db) ∧
  Z.of_nat (length (listAuditEvents f db).1) ≤ n ∧
  ∀ m : nat, total ≤ Z.of_nat m * n →
    concat (map (λ k, (listAuditEvents (at_offset f (Z.of_nat k * n)) db).1) (seq 0 m)) = map to_row (found f db).
Proof.
  intros Hd f n total. pose proof (read_limit_bounds (sp "limit"%string) defaultLimit maxLimit Hd) as Hb.
  assert (total = Z.of_nat (length (found f db))) as Htot
    by (unfold total, found, listAuditEvents, count_where; cbn [snd]; by rewrite newest_first_Permutation).
  assert (0 ≤ n ≤ maxLimit) as Hn by done.
  split_and!; try done; try lia.
  - apply read_offset_nonneg.
  - intros e. unfold found. rewrite newest_first_Permutation, !list_elem_of_In, filter_In, matches_spec. done.
  - apply newest_first_sorted.
  - cbn. rewrite length_map. unfold page. rewrite length_take. lia.
  - intros m Hm. cbn [listAuditEvents fst at_offset fl_limit fl_offset].
    rewrite <-(map_map (λ k, page n (Z.of_nat k * n) (found f db)) (map to_row)), <-concat_map, pages_concat by lia.
    rewrite take_ge; [done|]. nia.
Qed.

(** ** A concrete query *)

Definition demo_event (seq : Z) (path : string) : AuditEvent :=
  {| ae_seq := seq; ae_timestamp := seq; ae_userId := None; ae_userEmail := None; ae_userName := None; ae_company := None;
     ae_siteId := None; ae_siteName := None; ae_host := "wiki"; ae_method := "GET"; ae_path := path; ae_status := 200;
     ae_bytesOut := 0; ae_decision := "ALLOW"; ae_reason := None; ae_clientIp := None; ae_userAgent := None |}.
Definition demo_log : AuditDb :=
  {| auditEvents := map (λ i, MkStored (demo_event i "/a") "" "") [1; 2; 3]; chainState := None |}.

Definition demo_params (k : string) : option string := if k =s "limit" then Some "2"%string else None.
Definition demo_filter : AuditFilter := parseAuditFilter (λ _, InvalidDate) demo_params 50 200.

Lemma audit_list_spec_witness :
  fl_limit demo_filter = 2 ∧
  concat (map (λ k, (listAuditEvents (at_offset demo_filter (Z.of_nat k * fl_limit demo_filter)) demo_log).1) (seq 0 2)) =
    map to_row (found demo_filter demo_log).
Proof.
  split; [by vm_compute|].
  apply (audit_list_spec (λ _, InvalidDate) demo_params 50 200 demo_log); [lia|]. by vm_compute.
Defined.
