(* ===== verification/Recordings.v ===== *)
(** * Session recordings

    The manager keeps an index of recordings; their bytes are on the
    customer's connector.  src/lib/recording (erasure, query, filter,
    remote-search, assemble, assemble-keys, command-search, connector-of,
    snapshot), src/lib/connector/policy.ts and the routes that report a
    chunk, confirm an erasure, apply the retention window, list, replay and ask
    for an erasure.

    What a connector answers to a search or a replay is an argument.  For
    erasures the connectors' disks and the messages both ways are part of the
    state ([RecSys]), with what the connector does with a pushed policy
    (connector/recretention.go). *)

From S2P Require Import Prelude JsString JsValue Schema AuditChain AccessLog AdminLog Identity Access Tenant AuditQuery.

(** ** Rows *)

Inductive RecordingFormat := RRWEB | GUAC | VIDEO.
#[global] Instance RecordingFormat_eq_dec : EqDecision RecordingFormat.
Proof. solve_decision. Defined.

Record SessionRecording := {
  sr_id : string;
  sr_key : string;
  sr_siteId : string;
  sr_userId : string;
  sr_host : string;
  sr_startedAt : Z;
  sr_lastEventAt : Z;
  sr_eventCount : Z;
  sr_bytes : Z;
  sr_format : RecordingFormat;
  sr_protocol : option string;
  sr_encrypted : bool;
  sr_truncated : bool;
  sr_purgePendingAt : option Z;
}.

(** One tenant's index, the connector of each site, the heartbeats of its jobs
    and its logs. *)
Record RecDb := {
  rd_rows : list SessionRecording;
  rd_connectors : list (string * option string);
  rd_cron : gmap string Z;
  rd_users : list User;
  rd_sites : list Site;
  rd_log : AuditDb;
  rd_admin : AdminDb;
}.
Definition with_recordings (db : RecDb) (rs : list SessionRecording) : RecDb :=
  {| rd_rows := rs; rd_connectors := rd_connectors db; rd_cron := rd_cron db; rd_users := rd_users db;
     rd_sites := rd_sites db; rd_log := rd_log db; rd_admin := rd_admin db |}.
Definition with_log (db : RecDb) (log : AuditDb) : RecDb :=
  {| rd_rows := rd_rows db; rd_connectors := rd_connectors db; rd_cron := rd_cron db; rd_users := rd_users db;
     rd_sites := rd_sites db; rd_log := log; rd_admin := rd_admin db |}.
Definition with_admin (db : RecDb) (a : AdminDb) : RecDb :=
  {| rd_rows := rd_rows db; rd_connectors := rd_connectors db; rd_cron := rd_cron db; rd_users := rd_users db;
     rd_sites := rd_sites db; rd_log := rd_log db; rd_admin := a |}.

Definition recordCronRun (job : string) (now : Z) (fails : bool) (db : RecDb) : RecDb :=
  if fails then db else
  {| rd_rows := rd_rows db; rd_connectors := rd_connectors db; rd_cron := <[job := now]> (rd_cron db);
     rd_users := rd_users db; rd_sites := rd_sites db; rd_log := rd_log db; rd_admin := rd_admin db |}.

(** ** Erasure *)

Definition mark_pending (now : Z) (r : SessionRecording) : SessionRecording :=
  {| sr_id := sr_id r; sr_key := sr_key r; sr_siteId := sr_siteId r; sr_userId := sr_userId r; sr_host := sr_host r;
     sr_startedAt := sr_startedAt r; sr_lastEventAt := sr_lastEventAt r; sr_eventCount := sr_eventCount r;
     sr_bytes := sr_bytes r; sr_format := sr_format r; sr_protocol := sr_protocol r; sr_encrypted := sr_encrypted r;
     sr_truncated := sr_truncated r; sr_purgePendingAt := Some now |}.

Definition requestErasure (now : Z) (id : string) (rs : list SessionRecording) : list SessionRecording * bool :=
  match find_row (λ r, sr_id r =s id) rs with
  | None => (rs, false)
  | Some _ => (update_where (λ r, sr_id r =s id) (mark_pending now) rs, true)
  end.

Definition is_purge_pending (r : SessionRecording) : bool := negb (bool_decide (sr_purgePendingAt r = None)).

(** [list.push] under a key of an insertion-ordered [Map]. *)
Fixpoint map_push (k x : string) (m : list (string * list string)) : list (string * list string) :=
  match m with
  | [] => [(k, [x])]
  | (k', xs) :: m' => if k' =s k then (k', xs ++ [x]) :: m' else (k', xs) :: map_push k x m'
  end.
Definition map_get (k : string) (m : list (string * list string)) : list string :=
  match find_row (λ e, e.1 =s k) m with Some e => e.2 | None => [] end.

(** The connector of a site, when both exist. *)
Definition connector_of (db : RecDb) (siteId : string) : option string :=
  some_truthy (find_row (λ s, s.1 =s siteId) (rd_connectors db) ≫= snd).
Definition connectorForRecording (db : RecDb) (siteId : string) : option string :=
  if truthy siteId then find_row (λ s, s.1 =s siteId) (rd_connectors db) ≫= snd else None.

Definition pendingErasuresByConnector (db : RecDb) : list (string * list string) :=
  foldl (λ out r, match connector_of db (sr_siteId r) with
                  | Some c => map_push c (sr_key r) out
                  | None => out
                  end) [] (List.filter is_purge_pending (rd_rows db)).

Definition confirmable (keys : list string) (r : SessionRecording) : bool :=
  bool_decide (sr_key r ∈ keys) && is_purge_pending r.
Definition confirmErasures (keys : list string) (rs : list SessionRecording) : list SessionRecording * Z :=
  match keys with
  | [] => (rs, 0)
  | _ => (delete_where (confirmable keys) rs, count_where (confirmable keys) rs)
  end.

Definition trimIndexAfterRetention (now days : Z) (rs : list SessionRecording) : list SessionRecording * Z :=
  if days <=? 0 then (rs, 0) else
  let p := λ r, sr_lastEventAt r <? now - days * 24 * 60 * 60 * 1000 in
  (delete_where p rs, count_where p rs).

(** ** What a policy push carries, and to whom *)

Record PolicyPush := {
  pp_connectorId : string;
  pp_egress : string;
  pp_logLevel : string;
  pp_tenantId : string;
  pp_retentionDays : Z;
  pp_purgeKeys : list string;
}.
Definition connectorPolicy (tenantId : string) (egress : option string) (logLevel : string) (retentionDays : Z)
    (connectorId : string) (db : RecDb) : PolicyPush :=
  {| pp_connectorId := connectorId; pp_egress := egress ?? ""; pp_logLevel := logLevel; pp_tenantId := tenantId;
     pp_retentionDays := retentionDays; pp_purgeKeys := map_get connectorId (pendingErasuresByConnector db) |}.
(** The connectors [reconcilePendingErasures] pushes to. *)
Definition reconcilePendingErasures (db : RecDb) : list string := map fst (pendingErasuresByConnector db).

Section recording_routes.
Context (date_parse : string → jsdate) (sha256 : string → string).

(** An append whose failure is logged and swallowed. *)
Definition log_event (now : Z) (e : AuditInput) (db : RecDb) : RecDb :=
  match appendAuditEvents date_parse sha256 (rd_users db) (rd_sites db) now (rd_log db) [e] with
  | Some (log, _) => with_log db log
  | None => db
  end.
Definition system_event (path reason : string) : AuditInput :=
  {| i_timestamp := None; i_userId := None; i_siteId := None; i_host := Some "manager"%string;
     i_method := Some "DELETE"%string; i_path := Some path; i_status := Some (NInt 200); i_bytesOut := None;
     i_decision := Some "ALLOW"%string; i_reason := Some reason; i_clientIp := None; i_userAgent := None |}.

Definition json_strings (v : json) : list string := match v with JArr l => omap as_string l | _ => [] end.

(** internal/recording/erasure-ack: what a connector did. *)
Definition erasureAck (now retentionDays : Z) (body : json) (db : RecDb) : RecDb * response (Z * Z) :=
  let purgedKeys := json_strings (obj_get body "purgedKeys") in
  let removed := match obj_get body "retentionRemoved" with JNum n => num_gt n 0 | _ => false end in
  let '(rs1, confirmed) := confirmErasures purgedKeys (rd_rows db) in
  let '(rs2, trimmed) := if removed then trimIndexAfterRetention now retentionDays rs1 else (rs1, 0) in
  let db1 := with_recordings db rs2 in
  let db2 :=
    if (0 <? confirmed) || (0 <? trimmed) then
      log_event now (system_event "/api/internal/recording/erasure-ack"
        ("Connector confirmed recording erasure: " +:+ dec confirmed +:+ " requested erasure(s) completed" +:+
         (if 0 <? trimmed then ", " +:+ dec trimmed +:+ " index row(s) trimmed after a retention sweep" else ""))) db1
    else db1 in
  (db2, Reply 200 (confirmed, trimmed)).

Definition erasureAckPost (secret header : option string) (multi : bool) (tenantByConnector : string → option string)
    (now : Z) (retentionDays : string → Z) (body : json) (dbs : string → RecDb) : response (Z * Z) :=
  requireDataplaneSecret secret header
    (withTenantFrom multi (tenantByConnector (str_or_empty (obj_get body "connectorId")))
       (λ tid, (erasureAck now (retentionDays tid) body (dbs tid)).2)).

(** One tenant's pass of the retention job. *)
Definition recordingRetention (now days : Z) (heartbeatFails : bool) (db : RecDb) : RecDb * Z :=
  let db0 := recordCronRun "recording-retention" now heartbeatFails db in
  if days <=? 0 then (db0, 0) else
  let p := λ r, sr_startedAt r <? now - days * 24 * 60 * 60 * 1000 in
  let n := count_where p (rd_rows db0) in
  let db1 := with_recordings db0 (delete_where p (rd_rows db0)) in
  (if 0 <? n then
     log_event now (system_event "/api/cron/recording-retention"
       ("Recording retention: deleted " +:+ dec n +:+ " session recording(s) older than " +:+ dec days +:+ " days")) db1
   else db1, n).

(** *** A chunk is reported *)

(** A column of type String given a JSON value: [undefined] and [null] take the
    default, anything else that is no string is refused. *)
Definition string_column (v : json) (dflt : string) : option string :=
  match v with JUndefined | JNull => Some dflt | JStr s => Some s | _ => None end.
(** [v || null] in a nullable String column. *)
Definition nullable_column (v : json) : option (option string) :=
  if negb (json_truthy v) then Some None else match v with JStr s => Some (Some s) | _ => None end.

Definition read_bytes (v : json) : jsnum := match v with JNum n => if num_ge n 0 then n else NInt 0 | _ => NInt 0 end.
Definition read_format (v : json) : RecordingFormat :=
  if json_str_is v "guac" then GUAC else if json_str_is v "video" then VIDEO else RRWEB.

Definition bump (truncated : bool) (bytes now : Z) (r : SessionRecording) : SessionRecording :=
  {| sr_id := sr_id r; sr_key := sr_key r; sr_siteId := sr_siteId r; sr_userId := sr_userId r; sr_host := sr_host r;
     sr_startedAt := sr_startedAt r;
     sr_lastEventAt := if truncated then sr_lastEventAt r else now;
     sr_eventCount := if truncated then sr_eventCount r else sr_eventCount r + 1;
     sr_bytes := if truncated then sr_bytes r else sr_bytes r + bytes;
     sr_format := sr_format r; sr_protocol := sr_protocol r; sr_encrypted := sr_encrypted r;
     sr_truncated := sr_truncated r || truncated; sr_purgePendingAt := sr_purgePendingAt r |}.

(** The [upsert]; [None] when the database or the client refuses it: the
    counters are 32-bit columns. *)
Definition upsert_recording (now : Z) (newId : string) (body : json) (key : string) (rs : list SessionRecording)
    : option (list SessionRecording) :=
  let truncated := match obj_get body "truncated" with JBool true => true | _ => false end in
  match string_column (obj_get body "userId") "", string_column (obj_get body "siteId") "",
        string_column (obj_get body "host") "", nullable_column (obj_get body "protocol"),
        (if truncated then NInt 0 else read_bytes (obj_get body "bytes")) with
  | Some userId, Some siteId, Some host, Some protocol, NInt bytes =>
      if negb (int4 bytes) then None else
      match find_row (λ r, sr_key r =s key) rs with
      | Some r =>
          if truncated || (int4 (sr_bytes r + bytes) && int4 (sr_eventCount r + 1))
          then Some (update_where (λ x, sr_key x =s key) (bump truncated bytes now) rs) else None
      | None =>
          Some (rs ++ [{| sr_id := newId; sr_key := key; sr_siteId := siteId; sr_userId := userId; sr_host := host;
                          sr_startedAt := now; sr_lastEventAt := now; sr_eventCount := if truncated then 0 else 1;
                          sr_bytes := bytes; sr_format := read_format (obj_get body "format"); sr_protocol := protocol;
                          sr_encrypted := true; sr_truncated := truncated; sr_purgePendingAt := None |}])
      end
  | _, _, _, _, _ => None
  end.

(** [contentLengthExceeds(req, 16 << 20)] *)
Definition contentLengthExceeds (contentLength : option string) (maxBytes : Z) : bool :=
  match some_truthy contentLength with
  | Some raw => let n := Number raw in isFinite n && num_gt n maxBytes
  | None => false
  end.

Definition recordingIngest (secret header : option string) (recordingOn : bool) (contentLength : option string)
    (now : Z) (newId : string) (body : json) (db : RecDb) : RecDb * response unit :=
  if negb (timingSafeEqualStr header secret) then (db, Fail 403 "forbidden") else
  if negb recordingOn then (db, Fail 403 "not found") else
  if contentLengthExceeds contentLength (16 * 1048576) then (db, Fail 413 "") else
  let key := obj_get body "recordingKey" in
  if negb (json_truthy key) then (db, Reply 204 tt) else
  match key with
  | JStr k => match upsert_recording now newId body k (rd_rows db) with
              | Some rs => (with_recordings db rs, Reply 204 tt)
              | None => (db, Fail 500 "")
              end
  | _ => (db, Fail 500 "")
  end.

(** *** An administrator asks for an erasure *)

Context (frac_text : Z → string) (digest : string → string) (json_store : json → json).

Definition recordingDelete (rq : Req) (userAgent : option string) (id : string) (db : RecDb) : RecDb * response unit :=
  match rq_user rq with
  | None => (db, Fail 401 "unauthorized")
  | Some me =>
      if negb (can (u_role me) configure) then (db, Fail 403 "forbidden") else
      match find_row (λ r, sr_id r =s id) (rd_rows db) with
      | None => (db, Fail 404 "not_found")
      | Some r =>
          let vendor := match find_row (λ u, u_id u =s sr_userId r) (rd_users db) with
                        | Some u => u_email u | None => sr_userId r end in
          let db1 := with_recordings db (requestErasure (rq_now rq) id (rd_rows db)).1 in
          let db2 := log_event (rq_now rq)
            {| i_timestamp := None; i_userId := Some (u_id me); i_siteId := Some (sr_siteId r); i_host := Some "manager"%string;
               i_method := Some "DELETE"%string; i_path := Some ("/admin/recordings/" +:+ id); i_status := Some (NInt 200);
               i_bytesOut := None; i_decision := Some "ALLOW"%string;
               i_reason := Some ("Requested erasure of session recording (vendor " +:+ vendor +:+ ", " +:+
                 dec (sr_eventCount r) +:+ " chunks, " +:+ dec (sr_bytes r) +:+ " bytes, started " +:+
                 toISOString (sr_startedAt r) +:+ "); the content is on the customer's connector and is removed when that connector confirms");
               i_clientIp := rq_clientIp rq; i_userAgent := userAgent |} db1 in
          (with_admin db2
             (recordAdminAction frac_text digest json_store (rq_auditFails rq) (rq_auditId rq) (rq_now rq) (rd_admin db2)
                {| in_actor := {| actor_id := u_id me; actor_email := Some (u_email me) |};
                   in_action := "recording.erasure_requested"; in_targetType := Some "recording"%string;
                   in_targetId := Some id;
                   in_summary := "Requested erasure of recording " +:+ id +:+ " (applied when its connector confirms)";
                   in_metadata := JUndefined; in_clientIp := rq_clientIp rq |}),
           Reply 202 tt)
      end
  end.
End recording_routes.

(** ** Lists and command search *)

Record RecordingFilter := {
  rf_q : option string;
  rf_cmd : option string;
  rf_userId : option string;
  rf_siteId : option string;
  rf_from : option Z;
  rf_to : option Z;
  rf_limit : Z;
  rf_offset : Z;
}.

(** [buildRecordingWhere] and its meaning. *)
Definition buildRecordingWhere (f : RecordingFilter) (r : SessionRecording) : bool :=
  opt_is (present (rf_userId f)) (Some (sr_userId r)) && opt_is (present (rf_siteId f)) (Some (sr_siteId r)) &&
  match rf_from f with Some d => d <=? sr_startedAt r | None => true end &&
  match rf_to f with Some d => sr_startedAt r <=? d | None => true end &&
  match trim <$> rf_q f with
  | Some q => if truthy q && (2 <=? js_length q) then contains_ci q (Some (sr_host r)) else true
  | None => true
  end.

Definition parseRecordingFilter (date_parse : string → jsdate) (sp : string → option string) (defaultLimit maxLimit : Z)
    : RecordingFilter :=
  {| rf_q := present (trim <$> sp "q"%string); rf_cmd := present (trim <$> sp "cmd"%string);
     rf_userId := present (trim <$> sp "userId"%string); rf_siteId := present (trim <$> sp "siteId"%string);
     rf_from := parse_date date_parse (sp "from"%string); rf_to := parse_date date_parse (sp "to"%string);
     rf_limit := read_limit (sp "limit"%string) defaultLimit maxLimit; rf_offset := read_offset (sp "offset"%string) |}.

(** What one connector answers to a search: [None] when it could not be asked. *)
Record RecSearchMatch := { sm_key : string; sm_seq : Z; sm_snippet : string }.
Definition SearchAnswer : Type := option (list RecSearchMatch * bool).

Record FanOutResult := {
  fo_matched : list string;
  fo_snippets : list (string * string);
  fo_truncated : bool;
  fo_partial : bool;
  fo_unreachable : list string;
}.
Definition fan_empty : FanOutResult :=
  {| fo_matched := []; fo_snippets := []; fo_truncated := false; fo_partial := false; fo_unreachable := [] |}.

(** Candidates by connector, and whether one has none. *)
Definition group_candidates (cs : list (string * option string)) : list (string * list string) * bool :=
  foldl (λ acc c, match some_truthy c.2 with
                  | Some cid => (map_push cid c.1 acc.1, acc.2)
                  | None => (acc.1, true)
                  end) ([], false) cs.

Definition add_match (acc : FanOutResult) (m : RecSearchMatch) : FanOutResult :=
  {| fo_matched := if bool_decide (sm_key m ∈ fo_matched acc) then fo_matched acc else fo_matched acc ++ [sm_key m];
     fo_snippets := if existsb (λ s, (s.1 =s sm_key m) && truthy s.2) (fo_snippets acc) then fo_snippets acc
                    else delete_where (λ s, s.1 =s sm_key m) (fo_snippets acc) ++ [(sm_key m, sm_snippet m)];
     fo_truncated := fo_truncated acc; fo_partial := fo_partial acc; fo_unreachable := fo_unreachable acc |}.
Definition add_answer (acc : FanOutResult) (ca : string * SearchAnswer) : FanOutResult :=
  match ca.2 with
  | None => {| fo_matched := fo_matched acc; fo_snippets := fo_snippets acc; fo_truncated := fo_truncated acc;
               fo_partial := true; fo_unreachable := fo_unreachable acc ++ [ca.1] |}
  | Some (ms, trunc) =>
      foldl add_match {| fo_matched := fo_matched acc; fo_snippets := fo_snippets acc;
                         fo_truncated := fo_truncated acc || trunc; fo_partial := fo_partial acc;
                         fo_unreachable := fo_unreachable acc |} ms
  end.

Section search.
(** What the connector answers for these recordings. *)
Context (search : string → list string → SearchAnswer).

Definition searchRecordingsOnConnectors (query : string) (cs : list (string * option string)) : FanOutResult :=
  let q := trim query in
  if negb (truthy q) || bool_decide (cs = []) then fan_empty else
  let '(groups, partial) := group_candidates cs in
  match groups with
  | [] => {| fo_matched := []; fo_snippets := []; fo_truncated := false; fo_partial := partial; fo_unreachable := [] |}
  | _ =>
      foldl add_answer
        {| fo_matched := []; fo_snippets := []; fo_truncated := false; fo_partial := partial; fo_unreachable := [] |}
        (map (λ g, (g.1, search g.1 g.2)) groups)
  end.

Record RecordingList := {
  rl_rows : list SessionRecording;
  rl_total : Z;
  rl_tooBroad : bool;
  rl_partial : bool;
  rl_unreachable : list string;
}.
Definition listed (p : SessionRecording → bool) (f : RecordingFilter) (db : RecDb) : RecordingList :=
  {| rl_rows := page (rf_limit f) (rf_offset f) (newest_first sr_startedAt (List.filter p (rd_rows db)));
     rl_total := count_where p (rd_rows db); rl_tooBroad := false; rl_partial := false; rl_unreachable := [] |}.
Definition nothing (tooBroad partial : bool) (unreachable : list string) : RecordingList :=
  {| rl_rows := []; rl_total := 0; rl_tooBroad := tooBroad; rl_partial := partial; rl_unreachable := unreachable |}.

(** Fields the code leaves out of its answer are false or empty here, as the
    route fills them in. *)
Definition listRecordings (f : RecordingFilter) (db : RecDb) : RecordingList :=
  let p := buildRecordingWhere f in
  match trim <$> rf_cmd f with
  | Some cmd =>
      if truthy cmd && (2 <=? js_length cmd) then
        let candidates := List.filter p (rd_rows db) in
        if bool_decide (length candidates = 0%nat) then nothing false false [] else
        let fan := searchRecordingsOnConnectors cmd
                     (map (λ c, (sr_key c, find_row (λ s, s.1 =s sr_siteId c) (rd_connectors db) ≫= snd)) candidates) in
        if fo_truncated fan && bool_decide (fo_matched fan = []) then nothing true false [] else
        if bool_decide (fo_matched fan = []) then nothing false (fo_partial fan) (fo_unreachable fan) else
        listed (λ r, p r && bool_decide (sr_key r ∈ fo_matched fan)) f db
      else listed p f db
  | None => listed p f db
  end.
End search.

(** [commandTextMatches]: the rule the connectors implement. *)
Definition commandTextMatches (decrypted query : string) : bool :=
  truthy query && includes (toLowerCase query) (toLowerCase decrypted).

(** ** Replay *)

Definition hasFullSnapshot (events : list json) : bool :=
  existsb (λ e, is_object e && match obj_get e "type" with JNum (NInt 2) => true | _ => false end) events.

Section replay.
Context (json_parse : string → option json).

(** One line of a replayed stream: its batch, [None] when blank or corrupt. *)
Definition parse_line (line : string) : option json :=
  let t := trim line in if truthy t then json_parse t else None.

Definition assembleEvents (text : string) : list json :=
  concat (map (λ line, match parse_line line with Some (JArr l) => l | Some v => [v] | None => [] end) (split LF text)).

(** A keystroke entry; its text is [None] when masked, which shows as bullets. *)
Record KeyEvent := { ke_atMs : jsnum; ke_command : bool; ke_masked : bool; ke_text : option string }.
Definition key_event (e : json) : option KeyEvent :=
  if negb (is_object e) then None else
  let masked := match obj_get e "masked" with JBool true => true | _ => false end in
  Some {| ke_atMs := match obj_get e "atMs" with JNum n => n | _ => NInt 0 end;
          ke_command := json_str_is (obj_get e "kind") "command"; ke_masked := masked;
          ke_text := if masked then None else Some (str_or_empty (obj_get e "text")) |}.
(** [out.sort((a, b) => a.atMs - b.atMs)] *)
Context (by_time : list KeyEvent → list KeyEvent).
Definition assembleKeyEvents (text : string) : list KeyEvent :=
  by_time (concat (map (λ line, match parse_line line with Some (JArr l) => omap key_event l | _ => [] end) (split LF text))).
End replay.

(** *** The video route *)

Fixpoint all_digits (l : list Ascii.ascii) : bool := match l with [] => true | c :: l' => is_digit c && all_digits l' end.
Definition hyphen_char : Ascii.ascii := Ascii.ascii_of_N 45.
Definition digits_to_Z (l : list Ascii.ascii) : Z := foldl (λ a c, 10 * a + digit_val c) 0 l.

(** The header's pattern: the word bytes, an equals sign, and two runs of digits,
    either of them empty, around a hyphen.  The two runs. *)
Definition parse_range (header : option string) : option (list Ascii.ascii * list Ascii.ascii) :=
  match some_truthy header with
  | Some h =>
      let t := trim h in
      if startsWith "bytes=" t then
        match split_chars hyphen_char (drop 6 (chars t)) with
        | [a; b] => if all_digits a && all_digits b then Some (a, b) else None
        | _ => None
        end
      else None
  | None => None
  end.

Record VideoAnswer := { va_status : Z; va_from : Z; va_to : Z; va_contentRange : option (Z * Z * Z); va_length : option Z }.

(** [got]: the connector's total for the bytes from [fromByte] to [toByte]
    ([toByte = 0]: to the end), [None] when it is offline. *)
Definition videoGet (user : option User) (range : option string) (got : Z → Z → option Z) (id : string) (db : RecDb)
    : response VideoAnswer :=
  match user with
  | None => Fail 401 "unauthorized"
  | Some u =>
      if negb (can (u_role u) configure) then Fail 403 "forbidden" else
      match find_row (λ r, sr_id r =s id) (rd_rows db) with
      | None => Fail 404 "not_found"
      | Some r =>
          if negb (bool_decide (sr_format r = VIDEO)) then Fail 404 "not_found" else
          match some_truthy (connectorForRecording db (sr_siteId r)) with
          | None => Fail 503 "no_connector"
          | Some _ =>
              let m := parse_range range in
              let wantsRange := match m with Some (a, b) => negb (bool_decide (a = []) && bool_decide (b = [])) | None => false end in
              let fromByte := match m with Some (a, _) => digits_to_Z a | None => 0 end in
              let toByte := match m with Some (_, b) => digits_to_Z b | None => 0 end in
              match got fromByte toByte with
              | None => Fail 503 "connector_offline"
              | Some total =>
                  if wantsRange && (0 <? total) then
                    let end_ := if (0 <? toByte) && (toByte <? total) then toByte else total - 1 in
                    Reply 206 {| va_status := 206; va_from := fromByte; va_to := toByte;
                                 va_contentRange := Some (fromByte, end_, total); va_length := None |}
                  else Reply 200 {| va_status := 200; va_from := fromByte; va_to := toByte; va_contentRange := None;
                                    va_length := if 0 <? total then Some total else None |}
              end
          end
      end
  end.

(** The rrweb replay route. *)
Definition eventsGet (json_parse : string → option json) (user : option User) (got : option string) (id : string) (db : RecDb)
    : response (string * Z * list json) :=
  match user with
  | None => Fail 401 "unauthorized"
  | Some u =>
      if negb (can (u_role u) configure) then Fail 403 "forbidden" else
      match find_row (λ r, sr_id r =s id) (rd_rows db) with
      | None => Fail 404 "not_found"
      | Some r =>
          match some_truthy (connectorForRecording db (sr_siteId r)) with
          | None => Fail 503 "no_connector"
          | Some _ => match got with
                      | None => Fail 503 "connector_offline"
                      | Some raw => Reply 200 (sr_id r, sr_startedAt r, assembleEvents json_parse raw)
                      end
          end
      end
  end.

(** ** Theorems: grouping by connector *)

Lemma map_get_push c k x m : map_get c (map_push k x m) = if k =s c then map_get c m ++ [x] else map_get c m.
Proof.
  unfold map_get, find_row. induction m as [|[k' xs] m IH]; simpl.
  - by case_bool_decide.
  - destruct (decide (k' = k)) as [->|Hk].
    + rewrite bool_decide_eq_true_2 by done. simpl. by case_bool_decide.
    + rewrite (bool_decide_eq_false_2 (k' = k)) by done. simpl. destruct (decide (k' = c)) as [->|Hc].
      * rewrite bool_decide_eq_true_2 by done. by rewrite bool_decide_eq_false_2 by done.
      * rewrite bool_decide_eq_false_2 by done. apply IH.
Qed.

Lemma map_push_keys c k x m : c ∈ (map_push k x m).*1 ↔ c = k ∨ c ∈ m.*1.
Proof.
  induction m as [|[k' xs] m IH]; simpl; [set_solver|]. case_bool_decide as E; simpl; rewrite ?elem_of_cons; [|rewrite IH]; naive_solver.
Qed.

Section grouping.
Context {A : Type} (conn : A → option string) (key : A → string).

Definition grouped (l : list A) : list (string * list string) :=
  foldl (λ out a, match conn a with Some c => map_push c (key a) out | None => out end) [] l.

Lemma grouped_from l : ∀ out c,
  map_get c (foldl (λ out a, match conn a with Some c => map_push c (key a) out | None => out end) out l) =
  map_get c out ++ map key (List.filter (λ a, bool_decide (conn a = Some c)) l).
Proof.
  induction l as [|a l IH]; intros out c; simpl; [by rewrite app_nil_r|]. rewrite IH. destruct (conn a) as [c'|].
  - rewrite map_get_push. destruct (decide (c' = c)) as [->|Hne].
    + rewrite !bool_decide_eq_true_2 by done. simpl. by rewrite <-(assoc_L (++)).
    + by rewrite !bool_decide_eq_false_2 by naive_solver.
  - by rewrite bool_decide_eq_false_2 by done.
Qed.

Lemma grouped_get l c : map_get c (grouped l) = map key (List.filter (λ a, bool_decide (conn a = Some c)) l).
Proof. apply grouped_from. Qed.

Lemma grouped_keys_from l : ∀ out c,
  c ∈ (foldl (λ out a, match conn a with Some c => map_push c (key a) out | None => out end) out l).*1 ↔
  c ∈ out.*1 ∨ ∃ a, a ∈ l ∧ conn a = Some c.
Proof.
  induction l as [|a l IH]; intros out c; simpl; [split; [auto|intros [?|(a & []%elem_of_nil & _)]; done]|].
  rewrite IH. destruct (conn a) as [c'|] eqn:Hc; [rewrite map_push_keys|]; set_solver.
Qed.

Lemma grouped_keys l c : c ∈ (grouped l).*1 ↔ ∃ a, a ∈ l ∧ conn a = Some c.
Proof. unfold grouped. rewrite grouped_keys_from. set_solver. Qed.
End grouping.

(** The recordings a connector is asked to erase. *)
Definition owed (c : string) (db : RecDb) : list SessionRecording :=
  List.filter (λ r, is_purge_pending r && bool_decide (connector_of db (sr_siteId r) = Some c)) (rd_rows db).

Lemma pending_keys c db : map_get c (pendingErasuresByConnector db) = map sr_key (owed c db).
Proof.
  unfold pendingErasuresByConnector, owed. rewrite filter_andb.
  apply (grouped_get (λ r, connector_of db (sr_siteId r)) sr_key).
Qed.

Lemma reconcile_reaches c db : c ∈ reconcilePendingErasures db ↔ owed c db ≠ [].
Proof.
  change (reconcilePendingErasures db) with
    (grouped (λ r, connector_of db (sr_siteId r)) sr_key (List.filter is_purge_pending (rd_rows db))).*1.
  unfold owed. rewrite (grouped_keys (λ r, connector_of db (sr_siteId r)) sr_key), filter_andb. split.
  - intros (r & Hr & Hc) Hnil. assert (In r []) as [].
    rewrite <-Hnil. apply filter_In. rewrite <-list_elem_of_In. by rewrite bool_decide_eq_true.
  - destruct (List.filter _ _) as [|r l] eqn:Hf; [done|]. intros _. exists r.
    assert (In r (r :: l)) as Hin by (by left). rewrite <-Hf in Hin. apply filter_In in Hin as [Hin Hc].
    rewrite list_elem_of_In. by reflect_bool.
Qed.

(** ** The index, the connectors' disks and the messages between them *)

(** What a connector reports after a push. *)
Record PolicyAck := { pa_retentionRemoved : Z; pa_purgedKeys : list string }.

(** [applyRecordingPolicy] of the connector, on the recordings it holds for the
    tenant: [old] are those whose directory was last written before the
    retention window, [fails] those the file system would not remove. *)
Definition applyRecordingPolicy (old fails : string → bool) (p : PolicyPush) (held : gset string) : gset string * PolicyAck :=
  if negb (truthy (pp_tenantId p)) then (held, {| pa_retentionRemoved := 0; pa_purgedKeys := [] |}) else
  let swept : gset string :=
    if 0 <? pp_retentionDays p then filter (λ k, old k = true ∧ fails k = false) held else ∅ in
  let purged := List.filter (λ k, negb (fails k)) (pp_purgeKeys p) in
  (held ∖ swept ∖ list_to_set purged, {| pa_retentionRemoved := Z.of_nat (size swept); pa_purgedKeys := purged |}).

(** [ReportErasureAck]: the body the data plane relays. *)
Definition ack_body (c : string) (a : PolicyAck) : json :=
  JObj [("connectorId", JStr c); ("retentionRemoved", JNum (NInt (pa_retentionRemoved a)));
        ("purgedKeys", JArr (map JStr (pa_purgedKeys a)))]%string.

(** The tenant's index, the recordings whose bytes each connector holds, and
    the messages on their way: pushes by the step that sent them and their
    connector, reports by the step that sent them. *)
Record RecSys := {
  y_db : RecDb;
  y_disk : gmap string (gset string);
  y_pushes : gmap (nat * string) PolicyPush;
  y_acks : gmap nat (string * PolicyAck);
}.
Definition held_on (c : string) (y : RecSys) : gset string := default ∅ (y_disk y !! c).

(** What may happen: an erasure asked for; a chunk reported to the index; the
    retention job; the sites' connectors changed; a chunk stored on a
    connector; a policy pushed to one connector ([pushConnectorPolicy], and the
    answer to its status report), or by the job that retries to every
    connector that owes an erasure ([reconcilePendingErasures]); the push sent
    at step [p] applied by connector [c]; the report sent at step [q] handled.
    A message that is never handled was lost. *)
Inductive rec_event :=
  | EvRequest (rq : Req) (userAgent : option string) (id : string)
  | EvIngest (secret header : option string) (on : bool) (contentLength : option string) (now : Z) (newId : string) (body : json)
  | EvRetention (now days : Z) (heartbeatFails : bool)
  | EvSites (connectors : list (string * option string))
  | EvChunk (c key : string)
  | EvPush (c : string) (days : Z)
  | EvReconcile (days : Z)
  | EvApply (p : nat) (c : string) (old fails : string → bool)
  | EvAck (q : nat) (now days : Z).

(** Only a chunk report makes a row. *)
Definition ids (y : RecSys) : list string := sr_id <$> rd_rows (y_db y).

Lemma ids_update p f (rs : list SessionRecording) :
  (∀ x, sr_id (f x) = sr_id x) → sr_id <$> update_where p f rs = sr_id <$> rs.
Proof.
  intros Hf. unfold update_where. rewrite <-list_fmap_compose. apply list_fmap_ext. intros i x _. simpl. by destruct (p x).
Qed.

Lemma upsert_ids now newId body k rs rs' :
  upsert_recording now newId body k rs = Some rs' → (sr_id <$> rs') ⊆ newId :: (sr_id <$> rs).
Proof.
  unfold upsert_recording. repeat (case_match; try done).
  all: intros [= <-]; rewrite ?ids_update, ?fmap_app; set_solver.
Qed.

(** The pushes one run of the retry job sends. *)
Lemma reconcile_pushes (k : nat) (cs : list string) (f : string → PolicyPush) (m : gmap (nat * string) PolicyPush) i c :
  foldr (λ c m, <[(k, c) := f c]> m) m cs !! (i, c) =
  if bool_decide (i = k ∧ c ∈ cs) then Some (f c) else m !! (i, c).
Proof.
  induction cs as [|c' cs IH]; simpl.
  - case_bool_decide as Hb; [by destruct Hb as [_ []%not_elem_of_nil]|done].
  - rewrite lookup_insert. destruct (decide ((k, c') = (i, c))) as [He|He]; simplify_eq.
    + rewrite bool_decide_eq_true_2; [done|]. split; [done|by left].
    + rewrite IH. case_bool_decide as H1; case_bool_decide as H2; rewrite ?elem_of_cons in *; [done| | |done].
      * by destruct H2 as []; destruct H1; auto.
      * destruct H1. destruct H2 as [-> [->|?]]; [by destruct He|done].
Qed.

Lemma upsert_keeps now newId body k rs rs' x :
  upsert_recording now newId body k rs = Some rs' → x ∈ sr_id <$> rs → x ∈ sr_id <$> rs'.
Proof.
  unfold upsert_recording. repeat (case_match; try done).
  all: intros [= <-]; rewrite ?ids_update, ?fmap_app; set_solver.
Qed.

Section erasure.
Context (date_parse : string → jsdate) (sha256 : string → string).
Context (frac_text : Z → string) (digest : string → string) (json_store : json → json).
Context (tenantId : string).

Definition policy_for (days : Z) (c : string) (db : RecDb) : PolicyPush := connectorPolicy tenantId None "" days c db.

Definition with_db (y : RecSys) (db : RecDb) : RecSys :=
  {| y_db := db; y_disk := y_disk y; y_pushes := y_pushes y; y_acks := y_acks y |}.

(** Step number [k]. *)
Definition rec_step (k : nat) (e : rec_event) (y : RecSys) : RecSys :=
  let db := y_db y in
  match e with
  | EvRequest rq ua id => with_db y (recordingDelete date_parse sha256 frac_text digest json_store rq ua id db).1
  | EvIngest secret header on cl now newId body => with_db y (recordingIngest secret header on cl now newId body db).1
  | EvRetention now days fails => with_db y (recordingRetention date_parse sha256 now days fails db).1
  | EvSites cs => with_db y
      {| rd_rows := rd_rows db; rd_connectors := cs; rd_cron := rd_cron db; rd_users := rd_users db;
         rd_sites := rd_sites db; rd_log := rd_log db; rd_admin := rd_admin db |}
  | EvChunk c key =>
      {| y_db := db; y_disk := <[c := held_on c y ∪ {[key]}]> (y_disk y); y_pushes := y_pushes y; y_acks := y_acks y |}
  | EvPush c days =>
      {| y_db := db; y_disk := y_disk y; y_pushes := <[(k, c) := policy_for days c db]> (y_pushes y); y_acks := y_acks y |}
  | EvReconcile days =>
      {| y_db := db; y_disk := y_disk y;
         y_pushes := foldr (λ c m, <[(k, c) := policy_for days c db]> m) (y_pushes y) (reconcilePendingErasures db);
         y_acks := y_acks y |}
  | EvApply p c old fails =>
      match y_pushes y !! (p, c) with
      | None => y
      | Some push =>
          let '(held, ack) := applyRecordingPolicy old fails push (held_on c y) in
          {| y_db := db; y_disk := <[c := held]> (y_disk y); y_pushes := y_pushes y;
             y_acks := if (0 <? pa_retentionRemoved ack) || negb (bool_decide (pa_purgedKeys ack = []))
                       then <[k := (c, ack)]> (y_acks y) else y_acks y |}
      end
  | EvAck q now days =>
      match y_acks y !! q with
      | None => y
      | Some (c, ack) => with_db y (erasureAck date_parse sha256 now days (ack_body c ack) db).1
      end
  end.

(** Logging changes neither the index nor the sites. *)
Lemma log_event_rows now e db :
  rd_rows (log_event date_parse sha256 now e db) = rd_rows db ∧
  rd_connectors (log_event date_parse sha256 now e db) = rd_connectors db.
Proof. unfold log_event. by destruct (appendAuditEvents _ _ _ _ _ _ _) as [[]|]. Qed.

Lemma erasureAck_rows now days body db :
  rd_connectors (erasureAck date_parse sha256 now days body db).1 = rd_connectors db ∧
  rd_rows (erasureAck date_parse sha256 now days body db).1 ⊆ (confirmErasures (json_strings (obj_get body "purgedKeys")) (rd_rows db)).1.
Proof.
  unfold erasureAck. destruct (confirmErasures _ _) as [rs1 n1]. cbn [fst].
  match goal with |- context [if ?b then trimIndexAfterRetention ?x ?y ?z else ?w] =>
    set (tr := if b then trimIndexAfterRetention x y z else w) end.
  assert (tr.1 ⊆ rs1) as Htr.
  { unfold tr, trimIndexAfterRetention. repeat case_match; simpl; try done. intros r [? _]%elem_of_delete_where. done. }
  destruct tr as [rs2 n2]. cbn [fst] in *.
  destruct (_ || _); cbn [fst]; [|done]. by rewrite !(proj1 (log_event_rows _ _ _)), !(proj2 (log_event_rows _ _ _)).
Qed.

Lemma confirm_subset keys rs r : r ∈ (confirmErasures keys rs).1 → r ∈ rs ∧ confirmable keys r = false.
Proof.
  unfold confirmErasures. destruct keys as [|k keys]; simpl.
  - intros Hr. split; [done|]. unfold confirmable. by rewrite bool_decide_eq_false_2 by apply not_elem_of_nil.
  - by intros [? ?]%elem_of_delete_where.
Qed.

(** A row that carries the pending recording [r]. *)
Definition tracked (r : SessionRecording) (db : RecDb) : Prop :=
  ∀ r', r' ∈ rd_rows db → sr_id r' = sr_id r →
    sr_key r' = sr_key r ∧ sr_siteId r' = sr_siteId r ∧ is_purge_pending r' = true.

Lemma tracked_update r p f rs db :
  rs = update_where p f (rd_rows db) →
  (∀ x, sr_id (f x) = sr_id x ∧ sr_key (f x) = sr_key x ∧ sr_siteId (f x) = sr_siteId x) →
  (∀ x, is_purge_pending x = true → is_purge_pending (f x) = true) →
  tracked r db → tracked r (with_recordings db rs).
Proof.
  intros -> Hf Hp Ht r' (x & Hx & ->)%elem_of_update_where Hid. destruct (p x); [|by apply Ht].
  destruct (Hf x) as (Hi & Hk & Hs). rewrite Hi in Hid. destruct (Ht x Hx Hid) as (? & ? & ?). rewrite Hk, Hs. auto.
Qed.

Lemma tracked_subset r db db' : rd_rows db' ⊆ rd_rows db → tracked r db → tracked r db'.
Proof. intros Hsub Ht r' Hr'. by apply Ht, Hsub. Qed.

Definition fresh_for (r : SessionRecording) (e : rec_event) : Prop :=
  match e with EvIngest _ _ _ _ _ newId _ => newId ≠ sr_id r | _ => True end.

Lemma upsert_tracked r now newId body k db rs :
  newId ≠ sr_id r → upsert_recording now newId body k (rd_rows db) = Some rs →
  tracked r db → tracked r (with_recordings db rs).
Proof.
  intros Hn. unfold upsert_recording. set (trunc := match obj_get body "truncated" with JBool true => true | _ => false end).
  destruct (string_column (obj_get body "userId") _) as [uid|]; [|done].
  destruct (string_column (obj_get body "siteId") _) as [sid|]; [|done].
  destruct (string_column (obj_get body "host") _) as [host|]; [|done].
  destruct (nullable_column _) as [protocol|]; [|done].
  destruct (if trunc then NInt 0 else _) as [bytes| | | |]; try done. destruct (negb _); [done|].
  destruct (find_row _ _) as [x|].
  - destruct (_ || _); [|done]. intros [= <-] Ht. by eapply tracked_update.
  - intros [= <-] Ht r' [Hr'|Hr']%elem_of_app Hid; [by apply Ht|]. by apply list_elem_of_singleton in Hr' as ->.
Qed.

(** Deleting rows keeps what is known of the others. *)
Lemma retention_subset now days fails db :
  rd_rows (recordingRetention date_parse sha256 now days fails db).1 ⊆ rd_rows db.
Proof.
  unfold recordingRetention.
  assert (∀ b, rd_rows (recordCronRun "recording-retention" now b db) = rd_rows db) as Hc by (by intros []).
  destruct (days <=? 0); cbn [fst]; [by rewrite Hc|].
  assert (∀ p, delete_where p (rd_rows db) ⊆ rd_rows db) as Hd by (intros p x [? _]%elem_of_delete_where; done).
  destruct (0 <? _); rewrite ?(proj1 (log_event_rows _ _ _)); cbn; rewrite Hc; apply Hd.
Qed.

Lemma ack_subset now days body db :
  rd_rows (erasureAck date_parse sha256 now days body db).1 ⊆ rd_rows db.
Proof. intros x Hx%erasureAck_rows. by apply confirm_subset in Hx as [? _]. Qed.

Lemma step_ids k e y r : fresh_for r e → sr_id r ∈ ids (rec_step k e y) → sr_id r ∈ ids y.
Proof.
  unfold ids. intros Hf. destruct e; cbn [rec_step] in *; try done.
  - unfold recordingDelete. destruct (rq_user rq) as [me|]; [|done]. destruct (negb _); [done|].
    destruct (find_row _ _) as [x|] eqn:Hx; [|done]. cbn [fst with_db y_db rd_rows with_admin].
    rewrite (proj1 (log_event_rows _ _ _)). cbn [rd_rows with_recordings]. unfold requestErasure. rewrite Hx.
    cbn [fst]. by rewrite ids_update.
  - unfold recordingIngest. destruct (negb _); [done|]. destruct (negb on); [done|]. destruct (contentLengthExceeds _ _); [done|].
    destruct (negb _); [done|]. destruct (obj_get body "recordingKey"); try done.
    destruct (upsert_recording _ _ _ _ _) as [rs|] eqn:Hu; [|done]. cbn.
    intros [?|?]%(upsert_ids _ _ _ _ _ _ Hu)%elem_of_cons; [by destruct Hf|done].
  - intros (x & -> & Hx%retention_subset)%list_elem_of_fmap. by apply list_elem_of_fmap_2.
  - destruct (y_pushes y !! (p, c)) as [push|]; [|done]. by destruct (applyRecordingPolicy _ _ _ _).
  - destruct (y_acks y !! q) as [[c ack]|]; [|done]. cbn.
    intros (x & -> & Hx%ack_subset)%list_elem_of_fmap. by apply list_elem_of_fmap_2.
Qed.

Lemma step_tracked k e y r : fresh_for r e → tracked r (y_db y) → tracked r (y_db (rec_step k e y)).
Proof.
  intros Hf Ht. destruct e; cbn [rec_step with_db y_db] in *; try done.
  - unfold recordingDelete. destruct (rq_user rq) as [me|]; [|done]. destruct (negb _); [done|].
    destruct (find_row _ _) as [x|] eqn:Hx; [|done]. cbn [fst]. unfold requestErasure. rewrite Hx. cbn [fst].
    eapply tracked_subset; [|eapply (tracked_update r _ (mark_pending (rq_now rq)) _ _ eq_refl); [done|done|exact Ht]].
    cbn [rd_rows with_admin]. by rewrite (proj1 (log_event_rows _ _ _)).
  - unfold recordingIngest. destruct (negb _); [done|]. destruct (negb on); [done|]. destruct (contentLengthExceeds _ _); [done|].
    destruct (negb _); [done|]. destruct (obj_get body "recordingKey"); try done.
    destruct (upsert_recording _ _ _ _ _) as [rs|] eqn:Hu; [|done]. by eapply upsert_tracked.
  - eapply tracked_subset; [apply retention_subset|exact Ht].
  - destruct (y_pushes y !! (p, c)) as [push|]; [|done]. by destruct (applyRecordingPolicy _ _ _ _).
  - destruct (y_acks y !! q) as [[c ack]|]; [|done]. eapply tracked_subset; [apply ack_subset|exact Ht].
Qed.

Lemma json_strings_JStr l : json_strings (JArr (map JStr l)) = l.
Proof. induction l as [|x l IH]; [done|]. unfold json_strings in *. csimpl. by rewrite IH. Qed.

(** A connector told to erase a recording no longer holds it once it says so,
    and says so unless its file system refused. *)
Lemma apply_erases old fails p held key :
  key ∈ pa_purgedKeys (applyRecordingPolicy old fails p held).2 → key ∉ (applyRecordingPolicy old fails p held).1.
Proof. unfold applyRecordingPolicy. destruct (negb _); cbn [fst snd pa_purgedKeys]; set_solver. Qed.

Lemma apply_confirms old fails p held key :
  truthy (pp_tenantId p) = true → key ∈ pp_purgeKeys p → fails key = false →
  key ∈ pa_purgedKeys (applyRecordingPolicy old fails p held).2.
Proof.
  intros Ht Hk Hf. unfold applyRecordingPolicy. rewrite Ht. cbn.
  rewrite list_elem_of_In, filter_In, <-list_elem_of_In, Hf. done.
Qed.

(** The messages of a run. *)
Section run.
Context (exec : nat → RecSys) (ev : nat → rec_event).
Hypothesis steps : ∀ k, exec (S k) = rec_step k (ev k) (exec k).

(** A push stays as it was sent. *)
Lemma push_kept p c j push :
  (p < j)%nat → y_pushes (exec (S p)) !! (p, c) = Some push → y_pushes (exec j) !! (p, c) = Some push.
Proof using steps.
  intros Hlt Hp. induction j as [|j IH]; [lia|]. destruct (decide (j = p)) as [->|Hne]; [done|].
  rewrite steps. specialize (IH ltac:(lia)).
  destruct (ev j); cbn [rec_step with_db y_pushes]; try done.
  - by rewrite lookup_insert_ne by congruence.
  - rewrite reconcile_pushes, bool_decide_eq_false_2; [done|]. intros [? _]. lia.
  - destruct (y_pushes (exec j) !! (p0, c0)) eqn:He; rewrite ?He; [|done]. by destruct (applyRecordingPolicy _ _ _ _).
  - by destruct (y_acks (exec j) !! _) as [[]|].
Qed.

Lemma step_acks k : y_acks (exec (S k)) = y_acks (exec k) ∨
  ∃ c ack, y_acks (exec (S k)) = <[k := (c, ack)]> (y_acks (exec k)) ∧
    ∀ key, key ∈ pa_purgedKeys ack → key ∉ held_on c (exec (S k)).
Proof using steps.
  rewrite steps. destruct (ev k) as [| | | | | | |p c old fails|q]; cbn [rec_step with_db y_acks]; try by left.
  - destruct (y_pushes (exec k) !! (p, c)) as [push|]; [|by left].
    destruct (applyRecordingPolicy old fails push (held_on c (exec k))) as [held ack] eqn:Ha. cbn [y_acks].
    destruct (_ || _); [|by left]. right. exists c, ack. split; [done|]. intros key Hk.
    unfold held_on. cbn [y_disk]. rewrite lookup_insert_eq. cbn [default from_option id].
    pose proof (apply_erases old fails push (held_on c (exec k)) key) as He. rewrite Ha in He. by apply He.
  - by destruct (y_acks (exec k) !! q) as [[]|]; left.
Qed.

Lemma ack_kept q c ack j :
  (q < j)%nat → y_acks (exec (S q)) !! q = Some (c, ack) → y_acks (exec j) !! q = Some (c, ack).
Proof using steps.
  intros Hlt Hq. induction j as [|j IH]; [lia|]. destruct (decide (j = q)) as [->|Hne]; [done|].
  specialize (IH ltac:(lia)). destruct (step_acks j) as [->|(c' & ack' & -> & _)]; [done|].
  by rewrite lookup_insert_ne.
Qed.

(** A report on its way was sent at its step, and what it names was gone then. *)
Lemma ack_honest (start : y_acks (exec 0) = ∅) j q c ack :
  y_acks (exec j) !! q = Some (c, ack) →
  (q < j)%nat ∧ ∀ key, key ∈ pa_purgedKeys ack → key ∉ held_on c (exec (S q)).
Proof using steps.
  induction j as [|j IH]; [by rewrite start, lookup_empty|].
  destruct (step_acks j) as [->|(c' & ack' & -> & Hh)].
  - intros [? ?]%IH. split; [lia|done].
  - rewrite lookup_insert. case_decide as He; [intros [= <- <-]; subst; split; [lia|done]|].
    intros [? ?]%IH. split; [lia|done].
Qed.

(** Bytes erased stay erased while no chunk of the recording is stored. *)
Lemma erased_stays n c key i j :
  (∀ k, (n ≤ k)%nat → ev k ≠ EvChunk c key) → (n ≤ i)%nat → (i ≤ j)%nat →
  key ∉ held_on c (exec i) → key ∉ held_on c (exec j).
Proof using steps.
  intros Hno Hn Hij Hi. induction Hij as [|j Hij IH]; [done|]. rewrite steps. specialize (Hno j ltac:(lia)).
  destruct (ev j) as [| | | |c' key'| | |p c' old fails|q]; cbn [rec_step with_db]; try done.
  - unfold held_on. cbn [y_disk]. rewrite lookup_insert. case_decide as He; [|done]. subst c'. cbn.
    destruct (decide (key' = key)) as [->|Hk]; [done|]. unfold held_on in IH. set_solver.
  - destruct (y_pushes (exec j) !! (p, c')) as [push|]; [|done].
    destruct (applyRecordingPolicy old fails push (held_on c' (exec j))) as [held ack] eqn:Ha.
    unfold held_on. cbn [y_disk]. rewrite lookup_insert. case_decide as He; [|done]. subst c'. cbn.
    unfold applyRecordingPolicy in Ha. destruct (negb _); injection Ha as <- _; unfold held_on in *; set_solver.
  - by destruct (y_acks (exec j) !! q) as [[]|].
Qed.

(** A row that is gone stays gone while its id is not given again. *)
Lemma gone_stays r n i j :
  (∀ k, fresh_for r (ev k)) → (n ≤ i)%nat → (i ≤ j)%nat → sr_id r ∉ ids (exec i) → sr_id r ∉ ids (exec j).
Proof using steps.
  intros Hf Hn Hij Hi. induction Hij as [|j Hij IH]; [done|]. rewrite steps. intros Hin%step_ids; done.
Qed.

Lemma last_present r n m :
  sr_id r ∈ ids (exec n) → (n ≤ m)%nat → sr_id r ∉ ids (exec m) →
  ∃ i, (n ≤ i)%nat ∧ (i < m)%nat ∧ sr_id r ∈ ids (exec i) ∧ sr_id r ∉ ids (exec (S i)).
Proof.
  intros Hn Hle. induction Hle as [|m Hle IH]; intros Hm; [done|].
  destruct (decide (sr_id r ∈ ids (exec m))) as [Hin|Hno]; [exists m; split_and!; [done|lia|done..]|].
  destruct (IH Hno) as (i & ? & ? & ? & ?). exists i. split_and!; [lia|lia|done..].
Qed.

(** A push sent while the row is pending names it. *)
Lemma push_names k r c :
  connector_of (y_db (exec k)) (sr_siteId r) = Some c → tracked r (y_db (exec k)) → sr_id r ∈ ids (exec k) →
  (∃ days, ev k = EvPush c days ∨ ev k = EvReconcile days) →
  ∃ days, y_pushes (exec (S k)) !! (k, c) = Some (policy_for days c (y_db (exec k))) ∧
    sr_key r ∈ pp_purgeKeys (policy_for days c (y_db (exec k))).
Proof using steps.
  intros Hc Ht (x & Hid & Hx)%list_elem_of_fmap (days & Hev). exists days.
  destruct (Ht x Hx (eq_sym Hid)) as (Hk & Hs & Hp).
  assert (x ∈ owed c (y_db (exec k))) as Howed.
  { unfold owed. rewrite list_elem_of_In, filter_In, <-list_elem_of_In. split; [done|].
    rewrite Hp, Hs. by rewrite bool_decide_eq_true_2. }
  split.
  - rewrite steps. destruct Hev as [-> | ->]; cbn [rec_step y_pushes]; [by rewrite lookup_insert_eq|].
    rewrite reconcile_pushes, bool_decide_eq_true_2; [done|]. split; [done|]. apply reconcile_reaches.
    intros Hnil. rewrite Hnil in Howed. by apply not_elem_of_nil in Howed.
  - unfold policy_for, connectorPolicy. cbn [pp_purgeKeys]. rewrite pending_keys, <-Hk. by apply list_elem_of_fmap_2.
Qed.

(** A report that names the row removes it. *)
Lemma ack_removes k r q c ack now days :
  tracked r (y_db (exec k)) → ev k = EvAck q now days → y_acks (exec k) !! q = Some (c, ack) →
  sr_key r ∈ pa_purgedKeys ack → sr_id r ∉ ids (exec (S k)).
Proof using steps.
  intros Ht Hev Hq Hin (x & Hid & Hx)%list_elem_of_fmap. rewrite steps, Hev in Hx. cbn [rec_step] in Hx. rewrite Hq in Hx.
  cbn [with_db y_db] in Hx. apply erasureAck_rows in Hx.
  change (obj_get (ack_body c ack) "purgedKeys") with (JArr (map JStr (pa_purgedKeys ack))) in Hx.
  rewrite json_strings_JStr in Hx. apply confirm_subset in Hx as [Hx Hno].
  destruct (Ht x Hx (eq_sym Hid)) as (Hk & _ & Hp). unfold confirmable in Hno.
  by rewrite Hp, Hk, bool_decide_eq_true_2 in Hno.
Qed.

(** The report of a push that was applied. *)
Lemma apply_reports p q c push old fails key :
  (p < q)%nat → truthy (pp_tenantId push) = true → y_pushes (exec (S p)) !! (p, c) = Some push →
  ev q = EvApply p c old fails → key ∈ pp_purgeKeys push → fails key = false →
  ∃ ack, y_acks (exec (S q)) !! q = Some (c, ack) ∧ key ∈ pa_purgedKeys ack.
Proof using steps.
  intros Hpq Ht Hsent Hev Hk Hok. pose proof (push_kept p c q push Hpq Hsent) as Hat.
  pose proof (apply_confirms old fails push (held_on c (exec q)) key Ht Hk Hok) as Hconf.
  destruct (applyRecordingPolicy old fails push (held_on c (exec q))) as [held ack] eqn:Ha. exists ack. split; [|done].
  rewrite steps, Hev. cbn [rec_step]. rewrite Hat, Ha. cbn [y_acks].
  rewrite (bool_decide_eq_false_2 (pa_purgedKeys ack = [])), orb_true_r; [by rewrite lookup_insert_eq|].
  intros Hnil. cbn in Hconf. rewrite Hnil in Hconf. by apply not_elem_of_nil in Hconf.
Qed.

(** What can take a row out of the index. *)
Lemma removal_cause k r :
  fresh_for r (ev k) → sr_id r ∈ ids (exec k) → sr_id r ∉ ids (exec (S k)) →
  (∃ now days fails, ev k = EvRetention now days fails) ∨
  ∃ q now days c ack, ev k = EvAck q now days ∧ y_acks (exec k) !! q = Some (c, ack).
Proof using steps.
  rewrite steps. unfold ids. intros Hf Hin Hno. destruct (ev k) as [rq ua i|s h on cl now i body| | | | | |p c|q now days];
    cbn [rec_step with_db y_db] in *; try done.
  - destruct Hno. unfold recordingDelete. destruct (rq_user rq) as [me|]; [|done]. destruct (negb _); [done|].
    destruct (find_row _ _) as [x|] eqn:Hx; [|done]. cbn [fst rd_rows with_admin].
    rewrite (proj1 (log_event_rows _ _ _)). cbn [rd_rows with_recordings]. unfold requestErasure. rewrite Hx.
    cbn [fst]. by rewrite ids_update.
  - destruct Hno. unfold recordingIngest. destruct (negb _); [done|]. destruct (negb on); [done|].
    destruct (contentLengthExceeds _ _); [done|]. destruct (negb _); [done|]. destruct (obj_get body "recordingKey"); try done.
    destruct (upsert_recording _ _ _ _ _) as [rs|] eqn:Hu; [|done]. by apply (upsert_keeps _ _ _ _ _ _ _ Hu).
  - left. eauto.
  - destruct (y_pushes (exec k) !! (p, c)) as [push|]; [|done]. by destruct (applyRecordingPolicy _ _ _ _).
  - destruct (y_acks (exec k) !! q) as [[c ack]|] eqn:Hq; [|done]. right. by exists q, now, days, c, ack.
Qed.
End run.

(** C14: an accepted erasure is carried out, when its connector is reached.
    Take any run of the index, the connectors' disks and the messages between
    them: erasures asked for, chunks reported, the retention job, sites moved
    to other connectors, chunks stored, policies pushed (also by the job that
    retries), applied, lost, their reports handled or lost, in any order.  Let
    a recording be marked for erasure, its site keep its connector and no
    further chunk of it be stored there, and let one push to that connector
    sent since be applied, with the file system removing the recording, and its
    report handled; row ids are not reused.  Then from some point on the
    connector holds none of its bytes and its row is gone, except when the row
    was taken out of the index earlier by the retention job, by a report that
    did not name it (the trim after a sweep), by another connector's report, or
    by one sent before.  In those cases nothing says the bytes are gone. *)
Theorem erasure_completes (exec : nat → RecSys) (ev : nat → rec_event) (n : nat) (r : SessionRecording) (c : string) :
  (∀ k, exec (S k) = rec_step k (ev k) (exec k)) → y_acks (exec 0%nat) = ∅ → truthy tenantId = true →
  NoDup (ids (exec n)) → (∀ k, fresh_for r (ev k)) →
  r ∈ rd_rows (y_db (exec n)) → is_purge_pending r = true →
  (∀ k, (n ≤ k)%nat → connector_of (y_db (exec k)) (sr_siteId r) = Some c) →
  (∀ k, (n ≤ k)%nat → ev k ≠ EvChunk c (sr_key r)) →
  (∃ p q a old fails now days, (n ≤ p < q)%nat ∧ (q < a)%nat ∧
     (∃ d, ev p = EvPush c d ∨ ev p = EvReconcile d) ∧
     ev q = EvApply p c old fails ∧ fails (sr_key r) = false ∧ ev a = EvAck q now days) →
  (∃ m, (n < m)%nat ∧ ∀ k, (m ≤ k)%nat → sr_key r ∉ held_on c (exec k) ∧ sr_id r ∉ ids (exec k)) ∨
  (∃ m, (n ≤ m)%nat ∧ sr_id r ∈ ids (exec m) ∧ sr_id r ∉ ids (exec (S m)) ∧
     ((∃ now days fails, ev m = EvRetention now days fails) ∨
      ∃ q now days c' ack, ev m = EvAck q now days ∧ y_acks (exec m) !! q = Some (c', ack) ∧
        (c' ≠ c ∨ (q < n)%nat ∨ sr_key r ∉ pa_purgedKeys ack))).
Proof.
  intros Hrun Hstart Htid Hnd Hfresh Hr Hp Hconn Hquiet (p & q & a & old & fails & now & days & Hpq & Hqa & Hpush & Happ & Hok & Hack).
  assert (sr_id r ∈ ids (exec n)) as Hpres by by apply list_elem_of_fmap_2.
  assert (∀ k, (n ≤ k)%nat → tracked r (y_db (exec k))) as Htr.
  { intros k Hk. induction Hk as [|k Hk IH]; [|rewrite Hrun; by apply step_tracked].
    intros x Hx Hid. by rewrite (NoDup_fmap_eq sr_id _ x r Hnd Hx Hr Hid). }
  assert (sr_id r ∉ ids (exec (S a))) as Hgone.
  { intros Hin. assert (∀ k, (n ≤ k ≤ S a)%nat → sr_id r ∈ ids (exec k)) as Hall.
    { intros k Hk. destruct (decide (sr_id r ∈ ids (exec k))) as [|Hno]; [done|].
      by destruct (gone_stays exec ev Hrun r n k (S a) Hfresh ltac:(lia) ltac:(lia) Hno). }
    destruct (push_names exec ev Hrun p r c) as (d & Hsent & Hnamed); [by apply Hconn; lia|by apply Htr; lia|by apply Hall; lia|done|].
    destruct (apply_reports exec ev Hrun p q c (policy_for d c (y_db (exec p))) old fails (sr_key r)) as (ack & Hq & Hk);
      [lia|done..|].
    apply (ack_removes exec ev Hrun a r q c ack now days); [by apply Htr; lia|done| |done|by apply Hall; lia].
    by apply (ack_kept exec ev Hrun q c ack a). }
  destruct (last_present exec r n (S a) Hpres ltac:(lia) Hgone) as (m & Hnm & Hma & Hin & Hout).
  destruct (removal_cause exec ev Hrun m r (Hfresh m) Hin Hout) as [Hret|(q' & now' & days' & c' & ack & Hev & Hq')].
  { right. exists m. auto. }
  destruct (decide (c' ≠ c ∨ (q' < n)%nat ∨ sr_key r ∉ pa_purgedKeys ack)) as [Hbad|Hgood].
  { right. exists m. split_and!; [done..|]. right. by exists q', now', days', c', ack. }
  left. exists (S m). split; [lia|]. intros k Hk. split; [|apply (gone_stays exec ev Hrun r n (S m)); [done|lia|done..]].
  destruct (ack_honest exec ev Hrun Hstart m q' c' ack Hq') as [Hlt Hh].
  apply (erased_stays exec ev Hrun n c (sr_key r) (S q') k Hquiet); [lia..|].
  destruct (decide (c' = c)) as [->|]; [|tauto]. apply Hh. destruct (decide (sr_key r ∈ pa_purgedKeys ack)); tauto.
Qed.
End erasure.

(** ** Theorems: command search *)

(** The candidates a connector holds. *)
Definition held_by (c : string) (cs : list (string * option string)) : list string :=
  map fst (List.filter (λ x, bool_decide (some_truthy x.2 = Some c)) cs).

Lemma group_candidates_eq cs : 
  (group_candidates cs).1 = grouped (λ x : string * option string, some_truthy x.2) fst cs ∧
  (group_candidates cs).2 = existsb (λ x, bool_decide (some_truthy x.2 = None)) cs.
Proof.
  unfold group_candidates, grouped.
  enough (∀ out b, let acc := foldl (λ acc (c : string * option string), match some_truthy c.2 with
      | Some cid => (map_push cid c.1 acc.1, acc.2) | None => (acc.1, true) end) (out, b) cs in
    acc.1 = foldl (λ out (a : string * option string), match some_truthy a.2 with Some c => map_push c a.1 out | None => out end) out cs ∧
    acc.2 = b || existsb (λ x, bool_decide (some_truthy x.2 = None)) cs) as H by apply H.
  induction cs as [|x cs IH]; intros out b; simpl; [by rewrite orb_false_r|].
  destruct (some_truthy x.2) as [c|]; simpl; [apply IH|]. rewrite (proj1 (IH _ _)), (proj2 (IH _ _)). by rewrite orb_true_r.
Qed.

Lemma add_matches ms : ∀ acc,
  (∀ k, k ∈ fo_matched (foldl add_match acc ms) ↔ k ∈ fo_matched acc ∨ k ∈ sm_key <$> ms) ∧
  (NoDup (fo_matched acc) → NoDup (fo_matched (foldl add_match acc ms))) ∧
  fo_truncated (foldl add_match acc ms) = fo_truncated acc ∧ fo_partial (foldl add_match acc ms) = fo_partial acc ∧
  fo_unreachable (foldl add_match acc ms) = fo_unreachable acc.
Proof.
  induction ms as [|m ms IH]; intros acc; simpl; [set_solver|]. destruct (IH (add_match acc m)) as (H1 & H2 & H3 & H4 & H5).
  split_and!; [| |by rewrite H3|by rewrite H4|by rewrite H5].
  - intros k. rewrite H1. simpl. case_bool_decide as Hm; set_solver.
  - intros Hnd. apply H2. simpl. case_bool_decide as Hm; [done|]. apply NoDup_app. split_and!; [done| |apply NoDup_singleton].
    by intros x Hx ->%list_elem_of_singleton.
Qed.

Lemma add_answer_one acc c a :
  (∀ k, k ∈ fo_matched (add_answer acc (c, a)) ↔ k ∈ fo_matched acc ∨ ∃ ms tr, a = Some (ms, tr) ∧ k ∈ sm_key <$> ms) ∧
  (NoDup (fo_matched acc) → NoDup (fo_matched (add_answer acc (c, a)))) ∧
  (fo_partial (add_answer acc (c, a)) = true ↔ fo_partial acc = true ∨ a = None) ∧
  (∀ c', c' ∈ fo_unreachable (add_answer acc (c, a)) ↔ c' ∈ fo_unreachable acc ∨ (c' = c ∧ a = None)).
Proof.
  unfold add_answer. cbn [snd fst]. destruct a as [[ms tr]|].
  - match goal with |- context [foldl add_match ?acc0 ms] => destruct (add_matches ms acc0) as (M1 & M2 & M3 & M4 & M5) end.
    rewrite M4, M5. cbn [fo_matched fo_partial fo_unreachable] in *. split_and!; [|done|naive_solver|naive_solver].
    intros k. rewrite M1. naive_solver.
  - cbn [fo_matched fo_partial fo_unreachable]. split_and!; [naive_solver|done|naive_solver|].
    intros c'. rewrite elem_of_app, list_elem_of_singleton. naive_solver.
Qed.

Lemma add_answers l : ∀ acc,
  (∀ k, k ∈ fo_matched (foldl add_answer acc l) ↔
        k ∈ fo_matched acc ∨ ∃ c ms tr, (c, Some (ms, tr)) ∈ l ∧ k ∈ sm_key <$> ms) ∧
  (NoDup (fo_matched acc) → NoDup (fo_matched (foldl add_answer acc l))) ∧
  (fo_partial (foldl add_answer acc l) = true ↔ fo_partial acc = true ∨ ∃ c, (c, None) ∈ l) ∧
  (∀ c, c ∈ fo_unreachable (foldl add_answer acc l) ↔ c ∈ fo_unreachable acc ∨ (c, None) ∈ l).
Proof.
  induction l as [|[c a] l IH]; intros acc.
  - simpl. split_and!; [|done| |].
    + intros k. split; [auto|]. intros [?|(c & ms & tr & Hx & _)]; [done|by apply not_elem_of_nil in Hx].
    + split; [auto|]. intros [?|(c & Hx)]; [done|by apply not_elem_of_nil in Hx].
    + intros c. split; [auto|]. intros [?|Hx]; [done|by apply not_elem_of_nil in Hx].
  - cbn [foldl]. destruct (IH (add_answer acc (c, a))) as (H1 & H2 & H3 & H4).
    destruct (add_answer_one acc c a) as (O1 & O2 & O3 & O4). split_and!; [|auto| |].
    + intros k. rewrite H1, O1. split.
      * intros [[?|(ms & tr & -> & ?)]|(c' & ms & tr & ? & ?)]; [by left| |]; right;
          [exists c, ms, tr|exists c', ms, tr]; (split; [|done]); [by left|by right].
      * intros [?|(c' & ms & tr & [[= -> <-]|?]%elem_of_cons & ?)]; [by left; left|left; right; eauto|right; eauto 6].
    + rewrite H3, O3. setoid_rewrite elem_of_cons. naive_solver.
    + intros c'. rewrite H4, O4, elem_of_cons. naive_solver.
Qed.

Lemma map_push_NoDup k x m : NoDup m.*1 → NoDup (map_push k x m).*1.
Proof.
  induction m as [|[k' xs] m IH]; simpl; [intros _; apply NoDup_singleton|]. intros [Hk Hm]%NoDup_cons.
  case_bool_decide as E; simpl; constructor; auto. rewrite map_push_keys. naive_solver.
Qed.

Lemma map_get_entry c xs (m : list (string * list string)) :
  NoDup m.*1 → (c, xs) ∈ m ↔ c ∈ m.*1 ∧ map_get c m = xs.
Proof.
  intros Hnd. unfold map_get. split.
  - intros Hin. split; [by apply (list_elem_of_fmap_2 fst) in Hin|]. destruct (find_row _ m) as [e|] eqn:Hf.
    + apply find_row_Some in Hf as [He Hk]. reflect_bool. by rewrite (NoDup_fmap_eq fst m e (c, xs) Hnd He Hin).
    + rewrite find_row_None in Hf. specialize (Hf _ Hin). simpl in Hf. by rewrite bool_decide_eq_true_2 in Hf.
  - intros [(e & -> & He)%list_elem_of_fmap <-]. destruct (find_row _ m) as [e'|] eqn:Hf.
    + apply find_row_Some in Hf as [He' Hk]. reflect_bool. rewrite (NoDup_fmap_eq fst m e' e Hnd He' He) by done. by destruct e.
    + rewrite find_row_None in Hf. specialize (Hf _ He). by rewrite bool_decide_eq_true_2 in Hf.
Qed.

Lemma grouped_NoDup {A} (conn : A → option string) (key : A → string) l : NoDup (grouped conn key l).*1.
Proof.
  unfold grouped. assert (NoDup (([] : list (string * list string)).*1)) as H0 by constructor. revert H0.
  generalize ([] : list (string * list string)). induction l as [|a l IH]; intros out H0; simpl; [done|]. apply IH.
  destruct (conn a); [|done]. by apply map_push_NoDup.
Qed.

(** The groups: each connector that holds a candidate, with what it holds. *)
Lemma group_entry cs c xs : (c, xs) ∈ (group_candidates cs).1 ↔ held_by c cs ≠ [] ∧ held_by c cs = xs.
Proof.
  rewrite (proj1 (group_candidates_eq cs)), map_get_entry by apply grouped_NoDup.
  rewrite (grouped_get _ fst). fold (held_by c cs). enough (c ∈ (grouped (λ x : string * option string, some_truthy x.2) fst cs).*1 ↔
    held_by c cs ≠ []) by naive_solver.
  rewrite grouped_keys. unfold held_by. split.
  - intros (x & Hx & Hc) Hnil. apply map_eq_nil in Hnil. assert (In x []) as []. rewrite <-Hnil. apply filter_In.
    rewrite <-list_elem_of_In. by rewrite bool_decide_eq_true.
  - destruct (List.filter _ cs) as [|x l] eqn:Hf; [done|]. intros _. exists x. assert (In x (x :: l)) as Hin by (by left).
    rewrite <-Hf in Hin. apply filter_In in Hin as [Hin Hc]. rewrite list_elem_of_In. by reflect_bool.
Qed.

Section fan_out.
Context (search : string → list string → SearchAnswer).

(** The search as one pass over the answers of the connectors. *)
Definition fan_start (cs : list (string * option string)) : FanOutResult :=
  {| fo_matched := []; fo_snippets := []; fo_truncated := false; fo_partial := (group_candidates cs).2; fo_unreachable := [] |}.
Definition fan_answers (cs : list (string * option string)) : list (string * SearchAnswer) :=
  map (λ g, (g.1, search g.1 g.2)) (group_candidates cs).1.

Lemma search_unfold query cs :
  truthy (trim query) = true →
  searchRecordingsOnConnectors search query cs = foldl add_answer (fan_start cs) (fan_answers cs).
Proof.
  intros Hq. unfold searchRecordingsOnConnectors, fan_start, fan_answers. rewrite Hq. cbn [negb orb].
  case_bool_decide as Hcs; [by subst cs|]. by destruct (group_candidates cs) as [[|g gs] p].
Qed.

Lemma fan_answers_spec cs c a : (c, a) ∈ fan_answers cs ↔ held_by c cs ≠ [] ∧ search c (held_by c cs) = a.
Proof.
  unfold fan_answers. rewrite list_elem_of_fmap. split.
  - intros ([c' xs] & [= -> ->] & [Hne <-]%group_entry). done.
  - intros [Hne <-]. exists (c, held_by c cs). split; [done|]. by apply group_entry.
Qed.

(** A command search says what it found and whether it could look.  The
    matched recordings are exactly those some connector that answered reported,
    each once; the answer is marked partial exactly when some candidate has no
    connector or its connector could not be asked, and the connectors named
    unreachable are those. *)
Theorem fan_out_honest (query : string) (cs : list (string * option string)) :
  truthy (trim query) = true →
  let fan := searchRecordingsOnConnectors search query cs in
  let answered c ms := ∃ tr, held_by c cs ≠ [] ∧ search c (held_by c cs) = Some (ms, tr) in
  let silent c := held_by c cs ≠ [] ∧ search c (held_by c cs) = None in
  (∀ k, k ∈ fo_matched fan ↔ ∃ c ms, answered c ms ∧ k ∈ sm_key <$> ms) ∧
  NoDup (fo_matched fan) ∧
  (fo_partial fan = true ↔ (∃ x, x ∈ cs ∧ some_truthy x.2 = None) ∨ ∃ c, silent c) ∧
  (∀ c, c ∈ fo_unreachable fan ↔ silent c).
Proof.
  intros Hq fan answered silent. unfold fan. rewrite search_unfold by done.
  destruct (add_answers (fan_answers cs) (fan_start cs)) as (A1 & A2 & A3 & A4).
  setoid_rewrite fan_answers_spec in A1. setoid_rewrite fan_answers_spec in A3. setoid_rewrite fan_answers_spec in A4.
  split_and!.
  - intros k. rewrite A1. cbn [fan_start fo_matched]. unfold answered. split.
    + intros [[]%not_elem_of_nil|(c & ms & tr & H1 & H2)]. exists c, ms. split; [by exists tr|done].
    + intros (c & ms & (tr & H1) & H2). right. by exists c, ms, tr.
  - apply A2. constructor.
  - rewrite A3. cbn [fan_start fo_partial]. rewrite (proj2 (group_candidates_eq cs)), existsb_exists.
    setoid_rewrite bool_decide_eq_true. by setoid_rewrite <-list_elem_of_In.
  - intros c. rewrite A4. cbn [fan_start fo_unreachable]. split; [intros [[]%not_elem_of_nil|?]; done|by right].
Qed.

(** The list drops that mark: when one connector reported a match, the answer
    is shown as complete whatever another could not be asked. *)
Theorem partial_answer_hidden f db cmd :
  trim <$> rf_cmd f = Some cmd → 2 ≤ js_length cmd →
  let cs := map (λ c, (sr_key c, find_row (λ s, s.1 =s sr_siteId c) (rd_connectors db) ≫= snd))
              (List.filter (buildRecordingWhere f) (rd_rows db)) in
  fo_matched (searchRecordingsOnConnectors search cmd cs) ≠ [] →
  rl_partial (listRecordings search f db) = false ∧ rl_unreachable (listRecordings search f db) = [].
Proof.
  intros Hcmd Hlen cs Hm. unfold listRecordings. rewrite Hcmd. destruct (truthy cmd && _); [|done].
  case_bool_decide; [done|]. fold cs. rewrite (bool_decide_eq_false_2 (fo_matched _ = [])) by done.
  by rewrite andb_false_r.
Qed.
End fan_out.

(** ** Further behaviour *)

(** The text of a masked keystroke never leaves. *)
Theorem masked_never_shown json_parse by_time text :
  (∀ l, by_time l ≡ₚ l) → Forall (λ k, ke_masked k = true → ke_text k = None) (assembleKeyEvents json_parse by_time text).
Proof.
  intros Hp. apply Forall_forall. intros k Hk. unfold assembleKeyEvents in Hk. rewrite Hp in Hk.
  apply list_elem_of_In, in_concat in Hk as (l & Hl & Hk). apply in_map_iff in Hl as (line & <- & _).
  destruct (parse_line _ _) as [[]|]; try done. apply list_elem_of_In, list_elem_of_omap in Hk as (e & _ & He).
  unfold key_event in He. destruct (negb _); [done|]. injection He as <-. simpl. by intros ->.
Qed.

(** *** Behaviour that differs from what the code intends *)

(** The row of a pending erasure is to go only when its connector confirms; the
    retention job deletes it by its age alone, and nothing is left to ask the
    connector for. *)
Theorem retention_drops_pending date_parse sha256 now days fails db r :
  0 < days → r ∈ rd_rows db → is_purge_pending r = true → sr_startedAt r < now - days * 24 * 60 * 60 * 1000 →
  r ∉ rd_rows (recordingRetention date_parse sha256 now days fails db).1.
Proof.
  intros Hd Hr Hp Hold. unfold recordingRetention.
  assert (rd_rows (recordCronRun "recording-retention" now fails db) = rd_rows db) as Hc by (by destruct fails).
  destruct (Z.leb_spec days 0); [lia|]. rewrite Hc.
  assert (∀ p, p r = true → r ∉ delete_where p (rd_rows db)) as Hno
    by (intros p Hpr [_ Hf]%elem_of_delete_where; congruence).
  destruct (0 <? _); cbn [fst]; rewrite ?(proj1 (log_event_rows _ _ _ _ _)); cbn; apply Hno; apply Z.ltb_lt; lia.
Qed.

(** Any connector of the tenant may confirm: the report of one removes a
    recording whose bytes another holds. *)
Theorem other_connector_confirms date_parse sha256 now days db r c :
  r ∈ rd_rows db → is_purge_pending r = true → connector_of db (sr_siteId r) ≠ Some c →
  r ∉ rd_rows (erasureAck date_parse sha256 now days (ack_body c {| pa_retentionRemoved := 0; pa_purgedKeys := [sr_key r] |}) db).1.
Proof.
  intros Hr Hp Hc Hin. apply erasureAck_rows in Hin. change (json_strings _) with [sr_key r] in Hin.
  apply confirm_subset in Hin as [_ Hno]. unfold confirmable in Hno. rewrite Hp, bool_decide_eq_true_2 in Hno by set_solver. done.
Qed.

(** The byte counter is a 32-bit column: once a recording passes it, every
    further chunk is refused, and the row stops moving. *)
Theorem counter_overflow_freezes secret now newId body db r key bytes :
  timingSafeEqualStr secret secret = true →
  obj_get body "recordingKey" = JStr key → truthy key = true → obj_get body "bytes" = JNum (NInt bytes) → 0 ≤ bytes →
  obj_get body "truncated" = JUndefined →
  find_row (λ x, sr_key x =s key) (rd_rows db) = Some r → 2147483647 < sr_bytes r + bytes →
  recordingIngest secret secret true None now newId body db = (db, Fail 500 "").
Proof.
  intros Hs Hk Ht Hb Hpos Htr Hf Hbig. unfold recordingIngest. rewrite Hs. cbn [negb contentLengthExceeds some_truthy].
  rewrite Hk. cbn [json_truthy]. rewrite Ht. cbn [negb]. unfold upsert_recording. rewrite Htr, Hb. cbn [read_bytes num_ge].
  destruct (Z.leb_spec 0 bytes); [|lia]. assert (int4 (sr_bytes r + bytes) = false) as Hof.
  { unfold int4. destruct (Z.leb_spec (sr_bytes r + bytes) 2147483647); [lia|]. by rewrite andb_false_r. }
  rewrite Hf, Hof. cbn [orb andb]. by repeat case_match.
Qed.

(** The route says a suffix range is refused; it serves the first bytes
    instead of the last. *)
Theorem suffix_range_guessed user got id db n total r c :
  can (u_role user) configure = true → find_row (λ x, sr_id x =s id) (rd_rows db) = Some r → sr_format r = VIDEO →
  some_truthy (connectorForRecording db (sr_siteId r)) = Some c →
  parse_range (Some ("bytes=-" +:+ n)) = Some ([], chars n) → n ≠ ""%string →
  0 < digits_to_Z (chars n) < total → got 0 (digits_to_Z (chars n)) = Some total →
  videoGet (Some user) (Some ("bytes=-" +:+ n)) got id db =
    Reply 206 {| va_status := 206; va_from := 0; va_to := digits_to_Z (chars n);
                 va_contentRange := Some (0, digits_to_Z (chars n), total); va_length := None |}.
Proof.
  intros Hcan Hf Hv Hc Hr Hn Hd Hg. unfold videoGet. rewrite Hcan, Hf, Hv, Hc, Hr. cbn [negb].
  rewrite bool_decide_eq_true_2 by done. cbn [negb digits_to_Z foldl] in *. change (foldl _ 0 []) with 0. rewrite Hg.
  rewrite (bool_decide_eq_false_2 (chars n = [])) by (by destruct n).
  cbn [andb negb]. destruct (Z.ltb_spec 0 total); [|lia]. destruct (Z.ltb_spec 0 (digits_to_Z (chars n))); [|lia].
  destruct (Z.ltb_spec (digits_to_Z (chars n)) total); [|lia]. done.
Qed.

Example suffix_range_500 : parse_range (Some "bytes=-500"%string) = Some ([], chars "500").
Proof. by vm_compute. Qed.

(** ** A concrete run *)

Definition demo_recording (id key : string) (pending : option Z) : SessionRecording :=
  {| sr_id := id; sr_key := key; sr_siteId := "s1"; sr_userId := "u1"; sr_host := "wiki"; sr_startedAt := 1000;
     sr_lastEventAt := 2000; sr_eventCount := 1; sr_bytes := 10; sr_format := RRWEB; sr_protocol := None;
     sr_encrypted := true; sr_truncated := false; sr_purgePendingAt := pending |}.
Definition demo_recordings : RecDb :=
  {| rd_rows := [demo_recording "r1" "k1" (Some 3000); demo_recording "r2" "k2" None];
     rd_connectors := [("s1", Some "c1")]%string; rd_cron := ∅; rd_users := []; rd_sites := [];
     rd_log := {| auditEvents := []; chainState := None |}; rd_admin := {| adminRows := []; adminHead := None |} |}.

(** A connector that is pushed to, erases and reports, over and over. *)
Definition demo_events (k : nat) : rec_event :=
  match (k mod 3)%nat with
  | 0%nat => EvReconcile 0
  | 1%nat => EvApply (k - 1) "c1" (λ _, false) (λ _, false)
  | _ => EvAck (k - 1) 4000 0
  end.
Fixpoint demo_exec (n : nat) : RecSys :=
  match n with
  | O => {| y_db := demo_recordings; y_disk := {[ "c1"%string := {[ "k1"; "k2" ]}%string ]}; y_pushes := ∅; y_acks := ∅ |}
  | S k => rec_step (λ _, InvalidDate) id dec id id "default" k (demo_events k) (demo_exec k)
  end.

Lemma demo_events_kind k :
  (∃ d, demo_events k = EvReconcile d) ∨ (∃ p o f, demo_events k = EvApply p "c1" o f) ∨ ∃ q now d, demo_events k = EvAck q now d.
Proof. unfold demo_events. destruct (k mod 3)%nat as [|[|]]; eauto 10. Qed.

Lemma demo_connectors k : rd_connectors (y_db (demo_exec k)) = [("s1", Some "c1")]%string.
Proof.
  induction k as [|k IH]; [done|]. cbn [demo_exec].
  destruct (demo_events_kind k) as [(d & ->)|[(p & o & f & ->)|(q & now & d & ->)]]; cbn [rec_step]; [done|..].
  - destruct (y_pushes _ !! _); [|done]. by destruct (applyRecordingPolicy _ _ _ _).
  - destruct (y_acks _ !! q) as [[c a]|]; [|done]. cbn [with_db y_db]. by rewrite (proj1 (erasureAck_rows _ _ _ _ _ _)).
Qed.

Lemma demo_fresh k : fresh_for (demo_recording "r1" "k1" (Some 3000)) (demo_events k).
Proof. by destruct (demo_events_kind k) as [(d & ->)|[(p & o & f & ->)|(q & now & d & ->)]]. Qed.

Lemma erasure_completes_witness :
  ∃ m, (0 < m)%nat ∧ ∀ k, (m ≤ k)%nat → "k1"%string ∉ held_on "c1" (demo_exec k) ∧ "r1"%string ∉ ids (demo_exec k).
Proof.
  destruct (erasure_completes (λ _, InvalidDate) id dec id id "default" demo_exec demo_events 0
           (demo_recording "r1" "k1" (Some 3000)) "c1") as [Hok|(m & _ & Hin & _ & Hev)].
  - done.
  - done.
  - done.
  - by apply (bool_decide_unpack _); vm_compute.
  - exact demo_fresh.
  - by left.
  - done.
  - intros k _. unfold connector_of. by rewrite demo_connectors.
  - intros k _. by destruct (demo_events_kind k) as [(d & ->)|[(p & o & f & ->)|(q & now & d & ->)]].
  - exists 0%nat, 1%nat, 2%nat, (λ _, false), (λ _, false), 4000, 0. split_and!; [lia|lia|lia|exists 0; by right|done|done|done].
  - exact Hok.
  - exfalso. assert (m < 3)%nat as Hm.
    { destruct (decide (m < 3)%nat) as [|Hge]; [done|]. destruct (gone_stays (λ _, InvalidDate) id dec id id "default"
        demo_exec demo_events (λ _, eq_refl) (demo_recording "r1" "k1" (Some 3000)) 0 3 m demo_fresh); [lia..| |done].
      apply (bool_decide_unpack _). vm_compute. exact I. }
    destruct Hev as [(now & days & f & Hev)|(q & now & days & c' & ack & Hev & Hq & Hbad)].
    + by destruct (demo_events_kind m) as [(d & He)|[(p & o & f' & He)|(q & now' & d & He)]]; rewrite He in Hev.
    + destruct m as [|[|[|m]]]; [done..| |lia]. injection Hev as <- <- <-. vm_compute in Hq. injection Hq as <- <-.
      destruct Hbad as [Hc|[Hc|Hc]]; [done|lia|]. apply Hc. by left.
Defined.

Definition demo_search (c : string) (_ : list string) : SearchAnswer :=
  if c =s "c1" then Some ([{| sm_key := "k1"; sm_seq := 0; sm_snippet := "rm -rf" |}], false) else None.

Lemma fan_out_honest_witness :
  fo_partial (searchRecordingsOnConnectors demo_search "rm" [("k1", Some "c1"); ("k2", Some "c2")]%string) = true ∧
  "c2"%string ∈ fo_unreachable (searchRecordingsOnConnectors demo_search "rm" [("k1", Some "c1"); ("k2", Some "c2")]%string).
Proof.
  destruct (fan_out_honest demo_search "rm" [("k1", Some "c1"); ("k2", Some "c2")]%string) as (_ & _ & Hp & Hu).
  - by vm_compute.
  - split.
    + apply Hp. right. exists "c2"%string. by vm_compute.
    + apply Hu. by vm_compute.
Defined.
