(* ===== verification/Live.v ===== *)
(** * Live: the sessions that are running now

    The registry of the data plane (dataplane/sessionhub.go, its endpoints in
    dataplane/main.go and the viewer's entry in dataplane/guacview.go), the
    client of it in src/lib/dataplane/client.ts, the live rows and their
    termination (src/lib/live), and the routes: admin/live, mobile/live,
    internal/gateway/view-authz, internal/session/resolve, gateway consent and
    watch-status, the file transfer of isolated sessions and the revocation of a
    sign-in session (admin/sessions/[id]).

    The registry holds the sessions of every tenant in one map; a tenant's own
    rows are its [World].  What a request cannot decide is an argument: whether
    the data plane answers, and what happened to the registry between the two
    calls of one request. *)

From S2P Require Import Prelude JsString JsValue Schema Transaction AuditChain AccessLog AdminLog Identity Schedule Cidr Access Sessions Settings Gateway Tenant Directory SignIn Connector.

(** ** The registry *)

(** [closer]: how to close the tunnel was recorded; [closed]: it was closed. *)
Record LiveSession := {
  ls_id : string;
  ls_siteId : string;
  ls_userId : string;
  ls_kind : string;
  ls_protocol : string;
  ls_host : string;
  ls_startedAt : string;
  ls_viewers : Z;
  ls_controlOwner : string;
  ls_closer : bool;
  ls_closed : bool;
}.
(** The map, in the order it is ranged over. *)
Definition Hub : Type := list LiveSession.

Definition set_viewers (n : Z) (s : LiveSession) : LiveSession :=
  {| ls_id := ls_id s; ls_siteId := ls_siteId s; ls_userId := ls_userId s; ls_kind := ls_kind s; ls_protocol := ls_protocol s;
     ls_host := ls_host s; ls_startedAt := ls_startedAt s; ls_viewers := n; ls_controlOwner := ls_controlOwner s;
     ls_closer := ls_closer s; ls_closed := ls_closed s |}.
Definition set_owner (o : string) (s : LiveSession) : LiveSession :=
  {| ls_id := ls_id s; ls_siteId := ls_siteId s; ls_userId := ls_userId s; ls_kind := ls_kind s; ls_protocol := ls_protocol s;
     ls_host := ls_host s; ls_startedAt := ls_startedAt s; ls_viewers := ls_viewers s; ls_controlOwner := o;
     ls_closer := ls_closer s; ls_closed := ls_closed s |}.
Definition set_closer (s : LiveSession) : LiveSession :=
  {| ls_id := ls_id s; ls_siteId := ls_siteId s; ls_userId := ls_userId s; ls_kind := ls_kind s; ls_protocol := ls_protocol s;
     ls_host := ls_host s; ls_startedAt := ls_startedAt s; ls_viewers := ls_viewers s; ls_controlOwner := ls_controlOwner s;
     ls_closer := true; ls_closed := ls_closed s |}.
Definition close (s : LiveSession) : LiveSession :=
  {| ls_id := ls_id s; ls_siteId := ls_siteId s; ls_userId := ls_userId s; ls_kind := ls_kind s; ls_protocol := ls_protocol s;
     ls_host := ls_host s; ls_startedAt := ls_startedAt s; ls_viewers := ls_viewers s; ls_controlOwner := ls_controlOwner s;
     ls_closer := ls_closer s; ls_closed := ls_closed s || ls_closer s |}.

Definition with_id (id : string) (s : LiveSession) : bool := ls_id s =s id.
Definition hub_get (id : string) (h : Hub) : option LiveSession := find_row (with_id id) h.
Definition hub_remove (id : string) (h : Hub) : Hub := delete_where (with_id id) h.
(** [Register] and [RegisterIsolated]: the entry replaces one of the same id. *)
Definition hub_register (id siteId userId kind protocol host startedAt : string) (h : Hub) : Hub :=
  hub_remove id h ++
  [{| ls_id := id; ls_siteId := siteId; ls_userId := userId; ls_kind := kind; ls_protocol := protocol; ls_host := host;
      ls_startedAt := startedAt; ls_viewers := 0; ls_controlOwner := ""; ls_closer := false; ls_closed := false |}].
Definition hub_setCloser (id : string) (h : Hub) : Hub := update_where (with_id id) set_closer h.

Definition addViewer (s : LiveSession) : LiveSession := set_viewers (ls_viewers s + 1) s.
Definition removeViewer (s : LiveSession) : LiveSession := if 0 <? ls_viewers s then set_viewers (ls_viewers s - 1) s else s.
Definition vendorInputAllowed (s : LiveSession) : bool := ls_controlOwner s =s "".
Definition viewerInputAllowed (userId : string) (s : LiveSession) : bool := truthy userId && (ls_controlOwner s =s userId).

Definition control_held (owner : string) (s : LiveSession) : bool := truthy (ls_controlOwner s) && negb (ls_controlOwner s =s owner).
(** [SetControl]: the registry and the error. *)
Definition hub_setControl (id owner : string) (h : Hub) : Hub * option string :=
  match hub_get id h with
  | None => (h, Some "session not found"%string)
  | Some s =>
      if control_held owner s then (h, Some "control already held"%string)
      else (update_where (with_id id) (set_owner owner) h, None)
  end.
Definition hub_releaseControl (id owner : string) (h : Hub) : Hub :=
  update_where (λ s, with_id id s && (ls_controlOwner s =s owner)) (set_owner "") h.
(** [Terminate]: closing the tunnel ends the relay, which removes the entry later. *)
Definition hub_terminate (id : string) (h : Hub) : Hub * bool :=
  match hub_get id h with
  | None => (h, false)
  | Some _ => (update_where (with_id id) close h, true)
  end.
Definition hub_watchStatus (userId siteId : string) (h : Hub) : bool * bool :=
  match find_row (λ s, (ls_userId s =s userId) && (ls_siteId s =s siteId)) h with
  | Some s => (0 <? ls_viewers s, truthy (ls_controlOwner s))
  | None => (false, false)
  end.

(** *** The endpoints *)

(** An answer as the client sees it: [None] when the call failed or was not 2xx. *)
Definition dp_control (id owner : string) (release : bool) (h : Hub) : Hub * option (bool * option string) :=
  if negb (truthy id) || negb (truthy owner) then (h, None) else
  if release then (hub_releaseControl id owner h, Some (true, None)) else
  match hub_setControl id owner h with
  | (h', None) => (h', Some (true, None))
  | (h', Some e) => (h', Some (false, Some e))
  end.
Definition dp_terminate (id : string) (h : Hub) : Hub * option (bool * bool) :=
  if negb (truthy id) then (h, None) else
  let '(h', found) := hub_terminate id h in (h', Some (true, found)).

(** ** The client *)

Record ActiveSession := {
  as_sessionId : string;
  as_siteId : string;
  as_userId : string;
  as_kind : string;
  as_protocol : string;
  as_host : string;
  as_startedAt : string;
  as_viewerCount : Z;
  as_controlOwner : string;
}.
Definition info (s : LiveSession) : ActiveSession :=
  {| as_sessionId := ls_id s; as_siteId := ls_siteId s; as_userId := ls_userId s; as_kind := ls_kind s; as_protocol := ls_protocol s;
     as_host := ls_host s; as_startedAt := ls_startedAt s; as_viewerCount := ls_viewers s; as_controlOwner := ls_controlOwner s |}.
Record WebSession := { ws_userId : string; ws_siteId : string; ws_host : string; ws_startedAt : string; ws_lastSeen : string }.

(** The ids among these that are sites of the current tenant. *)
Definition ownSiteIds (sites : list Site) (ids : list string) : list string :=
  map site_id (List.filter (λ s, bool_decide (site_id s ∈ List.filter truthy ids)) sites).

Definition fetchAllSessions (reachable : bool) (h : Hub) : list ActiveSession := if reachable then map info h else [].
Definition listActiveSessions (reachable : bool) (sites : list Site) (h : Hub) : list ActiveSession :=
  let all := fetchAllSessions reachable h in
  let own := ownSiteIds sites (map as_siteId all) in
  List.filter (λ s, bool_decide (as_siteId s ∈ own)) all.
Definition findOwnSession (reachable : bool) (sites : list Site) (id : string) (h : Hub) : option ActiveSession :=
  if negb (truthy id) then None else find_row (λ s, as_sessionId s =s id) (listActiveSessions reachable sites h).

Definition fetchAllWebSessions (reachable : bool) (web : list WebSession) : list WebSession := if reachable then web else [].
Definition listActiveWebSessions (reachable : bool) (sites : list Site) (web : list WebSession) : list WebSession :=
  let all := fetchAllWebSessions reachable web in
  let own := ownSiteIds sites (map ws_siteId all) in
  List.filter (λ s, bool_decide (ws_siteId s ∈ own)) all.

(** What is not this request's: does each of its calls reach the data plane, and
    what the registry went through in between. *)
Record DpCalls := { dc_list : bool; dc_act : bool; dc_between : Hub → Hub }.

Definition setSessionControl (c : DpCalls) (sites : list Site) (id owner : string) (release : bool) (h : Hub)
    : Hub * (bool * option string) :=
  match findOwnSession (dc_list c) sites id h with
  | None => (h, (false, Some "not_found"%string))
  | Some _ =>
      let h1 := dc_between c h in
      if negb (dc_act c) then (h1, (false, Some "unreachable"%string)) else
      match dp_control id owner release h1 with
      | (h2, Some r) => (h2, r)
      | (h2, None) => (h2, (false, Some "unreachable"%string))
      end
  end.
(** The answer: [ok] and [found]. *)
Definition terminateSession (c : DpCalls) (sites : list Site) (id : string) (h : Hub) : Hub * (bool * bool) :=
  match findOwnSession (dc_list c) sites id h with
  | None => (h, (true, false))
  | Some _ =>
      let h1 := dc_between c h in
      if negb (dc_act c) then (h1, (false, false)) else
      match dp_terminate id h1 with
      | (h2, Some r) => (h2, r)
      | (h2, None) => (h2, (false, false))
      end
  end.
Definition getWatchStatus (reachable : bool) (userId siteId : string) (h : Hub) : bool * bool :=
  if reachable then hub_watchStatus userId siteId h else (false, false).

(** ** The rows people see *)

Inductive LiveRow :=
  | GatewayRow (sessionId siteName userLabel protocol startedAt : string) (viewerCount : Z) (controlled : bool) (grantId : option string)
  | IsolatedRow (sessionId siteName userLabel host startedAt : string) (viewerCount : Z) (grantId : option string)
  | WebRow (siteName userLabel host startedAt : string) (grantId : option string).

(** [new Map(rows)]: of several rows with one key the last one stays. *)
Definition map_get {A} (key : A → bool) (rows : list A) : option A := last (List.filter key rows).

(** [users.get(id)?.name ?? users.get(id)?.email ?? id]: a name is never null. *)
Definition user_label (us : list User) (id : string) : string :=
  match map_get (λ u, u_id u =s id) us with Some u => u_name u | None => id end.
Definition site_label (ss : list Site) (id host : string) : string :=
  match map_get (λ s, site_id s =s id) ss with Some s => site_name s | None => host end.
(** The key is [userId + "\x1f" + siteId]. *)
Definition pair_key (userId siteId : string) : string := userId +:+ unchars [Ascii.ascii_of_N 31] +:+ siteId.
Definition grant_behind (gs : list AccessGrant) (userId siteId : string) : option string :=
  g_id <$> map_get (λ g, pair_key (g_userId g) (g_siteId g) =s pair_key userId siteId) gs.

Definition liveRows (sessions : list ActiveSession) (web : list WebSession) (w : World) : list LiveRow :=
  let userIds := map as_userId sessions ++ map ws_userId web in
  let siteIds := map as_siteId sessions ++ map ws_siteId web in
  let us := List.filter (λ u, bool_decide (u_id u ∈ userIds)) (users w) in
  let ss := List.filter (λ s, bool_decide (site_id s ∈ siteIds)) (sites w) in
  let gs := List.filter (λ g, bool_decide (g_status g = GActive) && bool_decide (g_userId g ∈ userIds) &&
                              bool_decide (g_siteId g ∈ siteIds)) (grants w) in
  map (λ s, GatewayRow (as_sessionId s) (site_label ss (as_siteId s) (as_host s)) (user_label us (as_userId s)) (as_protocol s)
              (as_startedAt s) (as_viewerCount s) (negb (as_controlOwner s =s "")) (grant_behind gs (as_userId s) (as_siteId s)))
    (List.filter (λ s, negb (as_kind s =s "isolated")) sessions) ++
  map (λ s, IsolatedRow (as_sessionId s) (site_label ss (as_siteId s) (as_host s)) (user_label us (as_userId s)) (as_host s)
              (as_startedAt s) (as_viewerCount s) (grant_behind gs (as_userId s) (as_siteId s)))
    (List.filter (λ s, as_kind s =s "isolated") sessions) ++
  map (λ s, WebRow (site_label ss (ws_siteId s) (ws_host s)) (user_label us (ws_userId s)) (ws_host s) (ws_startedAt s)
              (grant_behind gs (ws_userId s) (ws_siteId s))) web.

(** ** The routes *)

Record LiveDb := { ld_hub : Hub; ld_world : World; ld_log : AuditDb }.
Definition with_hub (db : LiveDb) (h : Hub) : LiveDb := {| ld_hub := h; ld_world := ld_world db; ld_log := ld_log db |}.

Record LiveReq := {
  lr_user : option User;
  lr_now : Z;
  lr_calls : DpCalls;
  lr_auditIds : string * string;
  lr_auditFails : bool * bool;
  lr_clientIp : option string;
  lr_userAgent : option string;
}.

Section routes.
Context (frac_text : Z → string) (sha256 : string → string) (json_store : json → json) (date_parse : string → jsdate).

(** An entry of the tenant's admin log about a session or a grant. *)
Definition log_live (fails : bool) (id : string) (rq : LiveReq) (me : User) (action targetType targetId summary : string) (w : World) : World :=
  {| users := users w; sites := sites w; grants := grants w;
     admin := recordAdminAction frac_text sha256 json_store fails id (lr_now rq) (admin w)
       {| in_actor := {| actor_id := u_id me; actor_email := Some (u_email me) |}; in_action := action;
          in_targetType := Some targetType; in_targetId := Some targetId; in_summary := summary;
          in_metadata := JUndefined; in_clientIp := lr_clientIp rq |} |}.

Record Terminated := { tm_ok : bool; tm_found : bool; tm_revoked : bool }.

Definition terminateLiveSession (app : bool) (rq : LiveReq) (me : User) (id : string) (grantId : option string) (db : LiveDb)
    : LiveDb * Terminated :=
  let suffix := if app then " (Captivo Admin app)"%string else ""%string in
  let '(h, (ok, found)) := terminateSession (lr_calls rq) (sites (ld_world db)) id (ld_hub db) in
  let w1 := log_live (lr_auditFails rq).1 (lr_auditIds rq).1 rq me "session.terminate" "session" id
              (match grantId with
               | Some g => "Terminated session " +:+ id +:+ " and revoked grant " +:+ g
               | None => "Terminated session " +:+ id
               end +:+ suffix) (ld_world db) in
  let w2 := match grantId with
            | Some g => log_live (lr_auditFails rq).2 (lr_auditIds rq).2 rq me "grant.revoke" "grant" g
                          ("Revoked access grant " +:+ g +:+ " (session terminate)" +:+ suffix)
                          (with_grants w1 (revokeGrant g (grants w1)))
            | None => w1
            end in
  ({| ld_hub := h; ld_world := w2; ld_log := ld_log db |},
   {| tm_ok := ok; tm_found := found; tm_revoked := bool_decide (is_Some grantId) |}).

Definition asked_grant (body : json) : option string := some_truthy (as_string (obj_get body "grantId")).

(** POST admin/live/[sessionId]/terminate; without a session the browser is sent
    to the login page. *)
Definition liveTerminatePost (rq : LiveReq) (id : string) (body : json) (db : LiveDb) : LiveDb * response Terminated :=
  match lr_user rq with
  | None => (db, Fail 307 "/login")
  | Some me =>
      if negb (can (u_role me) configure) then (db, Fail 403 "forbidden") else
      let '(db', r) := terminateLiveSession false rq me id (asked_grant body) db in (db', Reply 200 r)
  end.

(** POST mobile/live/[sessionId]/terminate, behind [mobileRoute]. *)
Definition mobileTerminatePost (rq : LiveReq) (id : string) (body : json) (db : LiveDb) : LiveDb * response Terminated :=
  match lr_user rq with
  | None => (db, Fail 401 "unauthorized")
  | Some me =>
      if negb (can (u_role me) configure) then (db, Fail 403 "forbidden") else
      let '(db', r) := terminateLiveSession true rq me id (asked_grant body) db in
      if tm_found r then (db', Reply 200 r) else (db', Fail 404 "not_found")
  end.

Definition control_event (rq : LiveReq) (me : User) (id : string) (release : bool) : AuditInput :=
  {| i_timestamp := None; i_userId := Some (u_id me); i_siteId := None; i_host := Some "manager"%string; i_method := Some "POST"%string;
     i_path := Some ("/live/" +:+ id); i_status := Some (NInt 200); i_bytesOut := None; i_decision := Some "ALLOW"%string;
     i_reason := Some (if release then "Admin released control of a live session" else "Admin took control of a live session")%string;
     i_clientIp := lr_clientIp rq; i_userAgent := lr_userAgent rq |}.
(** An append that throws is caught and logged. *)
Definition append_log (rq : LiveReq) (e : AuditInput) (db : LiveDb) : LiveDb :=
  match appendAuditEvents date_parse sha256 (users (ld_world db)) (sites (ld_world db)) (lr_now rq) (ld_log db) [e] with
  | Some (log, _) => if (lr_auditFails rq).1 then db else {| ld_hub := ld_hub db; ld_world := ld_world db; ld_log := log |}
  | None => db
  end.

(** POST admin/live/[sessionId]/control. *)
Definition liveControlPost (rq : LiveReq) (id : string) (body : json) (db : LiveDb) : LiveDb * response unit :=
  match lr_user rq with
  | None => (db, Fail 401 "unauthorized")
  | Some me =>
      if negb (can (u_role me) configure) then (db, Fail 403 "forbidden") else
      let release := json_str_is (obj_get body "action") "release" in
      let '(h, (ok, reason)) := setSessionControl (lr_calls rq) (sites (ld_world db)) id (u_id me) release (ld_hub db) in
      let db1 := with_hub db h in
      if negb ok then (db1, Fail 409 (reason ?? "failed")) else
      (append_log rq (control_event rq me id release) db1, Reply 200 tt)
  end.

(** GET admin/live/count and the list of GET mobile/live. *)
Definition liveCountGet (rq : LiveReq) (web : list WebSession) (db : LiveDb) : response Z :=
  match lr_user rq with
  | None => Fail 401 "unauthorized"
  | Some me =>
      if negb (can (u_role me) read_console) then Fail 403 "forbidden" else
      Reply 200 (Z.of_nat (length (listActiveSessions (dc_list (lr_calls rq)) (sites (ld_world db)) (ld_hub db))) +
                 Z.of_nat (length (listActiveWebSessions (dc_list (lr_calls rq)) (sites (ld_world db)) web)))
  end.
Definition mobileLiveGet (rq : LiveReq) (web : list WebSession) (db : LiveDb) : response (list LiveRow) :=
  match lr_user rq with
  | None => Fail 401 "unauthorized"
  | Some me =>
      if negb (can (u_role me) read_console) then Fail 403 "forbidden" else
      Reply 200 (liveRows (listActiveSessions (dc_list (lr_calls rq)) (sites (ld_world db)) (ld_hub db))
                          (listActiveWebSessions (dc_list (lr_calls rq)) (sites (ld_world db)) web) (ld_world db))
  end.

(** POST gateway/[siteId]/consent: the answer sets the cookie of this site. *)
Definition consentPost (rq : LiveReq) (siteId : string) (db : LiveDb) : LiveDb * response string :=
  match lr_user rq with
  | None => (db, Fail 307 "/login")
  | Some me =>
      if negb (existsb (λ s, site_id s =s siteId) (sites (ld_world db))) then (db, Fail 404 "not_found") else
      (append_log rq
         {| i_timestamp := None; i_userId := Some (u_id me); i_siteId := Some siteId; i_host := Some "manager"%string;
            i_method := Some "POST"%string; i_path := Some ("/gateway/" +:+ siteId +:+ "/session"); i_status := Some (NInt 200);
            i_bytesOut := None; i_decision := Some "ALLOW"%string;
            i_reason := Some "Vendor acknowledged that this session is recorded"%string;
            i_clientIp := lr_clientIp rq; i_userAgent := lr_userAgent rq |} db,
       Reply 200 ("ca_rec_consent_" +:+ siteId))
  end.

(** GET gateway/[siteId]/watch-status. *)
Definition watchStatusGet (rq : LiveReq) (siteId : string) (db : LiveDb) : response (bool * bool) :=
  match lr_user rq with
  | None => Fail 307 "/login"
  | Some me => Reply 200 (getWatchStatus (dc_list (lr_calls rq)) (u_id me) siteId (ld_hub db))
  end.

(** DELETE admin/sessions/[id]. *)
Definition sessionDelete (rq : ARq) (id : string) (a : Auth) (log : AdminDb) : Auth * AdminDb * response unit :=
  match q_user rq with
  | None => (a, log, Fail 401 "unauthorized")
  | Some me =>
      if negb (can (u_role me) configure) then (a, log, Fail 403 "forbidden") else
      if bool_decide (currentSessionId sha256 (q_cookie rq) a = Some id) then (a, log, Fail 409 "cannot_revoke_own_session") else
      (revokeSession id a,
       recordAdminAction frac_text sha256 json_store (q_auditFails rq) (q_auditId rq) (q_now rq) log
         {| in_actor := {| actor_id := u_id me; actor_email := Some (u_email me) |}; in_action := "authsession.revoke";
            in_targetType := Some "session"%string; in_targetId := Some id; in_summary := "Revoked auth session " +:+ id;
            in_metadata := JUndefined; in_clientIp := q_clientIp rq |},
       Reply 200 tt)
  end.
End routes.

(** *** What the data plane asks *)

Record DpEnv := {
  de_secret : option string;
  de_multi : bool;
  de_tenantByUser : string → option string;
  de_tenantByToken : string → option string;
}.

Definition view_authz_handler (env : DpEnv) (header : option string) (body : json) (w : World) : response bool :=
  if negb (timingSafeEqualStr header (de_secret env)) then Fail 403 "forbidden" else
  let userId := str_or_empty (obj_get body "userId") in
  let siteId := str_or_empty (obj_get body "siteId") in
  if negb (truthy userId) || negb (truthy siteId) then Reply 200 false else
  Reply 200 (match find_row (λ u, u_id u =s userId) (users w), find_row (λ s, site_id s =s siteId) (sites w) with
             | Some u, Some _ => can (u_role u) read_console
             | _, _ => false
             end).
(** POST internal/gateway/view-authz. *)
Definition viewAuthzPost (env : DpEnv) (header : option string) (body : json) (worlds : string → World) : response bool :=
  requireDataplaneSecret (de_secret env) header
    (withTenantFrom (de_multi env) (de_tenantByUser env (str_or_empty (obj_get body "userId")))
       (λ tid, view_authz_handler env header body (worlds tid))).

Section resolve.
Context (sha256 : string → string).
(** POST internal/session/resolve; looking a session up may end it (idle). *)
Definition sessionResolvePost (f : SessionFaults) (env : DpEnv) (header : option string) (body : json) (now : Z) (auths : string → Auth)
    : (string → Auth) * response (string * string) :=
  if negb (timingSafeEqualStr header (de_secret env)) then (auths, Fail 403 "forbidden") else
  let token := str_or_empty (obj_get body "token") in
  let go tid :=
    match (if truthy token then getSessionUser sha256 f tid now token (auths tid) else (auths tid, None)) with
    | (a, Some u) => (λ t, if t =s tid then a else auths t, Reply 200 (u_id u, u_email u))
    | (a, None) => (λ t, if t =s tid then a else auths t, Fail 401 "no_session")
    end in
  if negb (de_multi env) then go "default"%string else
  match some_truthy (if truthy token then de_tenantByToken env (sha256 token) else None) with
  | Some tid => go tid
  | None => (auths, Fail 404 "unknown_tenant")
  end.
End resolve.

(** [serveGuacView]: whom the data plane lets watch.  [resolved] is what resolving
    the viewer's cookie answered ([None]: an error), [authz] the manager's answer. *)
Definition serveGuacView (resolved : option string) (authz : string → string → option bool) (session : string) (h : Hub)
    : Z + LiveSession :=
  if negb (truthy session) then inl 400 else
  match some_truthy resolved with
  | None => inl 401
  | Some viewer =>
      match hub_get session h with
      | None => inl 404
      | Some s => match authz viewer (ls_siteId s) with Some true => inr s | _ => inl 403 end
      end
  end.

(** [serveKasmView]: the same for an isolated session, up to the attachment to
    its display (409 for a session that has none, a gateway one).  Follow-up
    requests name the session by the cookie pinned at the first; the cookie set
    comes first in the answer. *)
Definition view_session (query pinned : string) : string := if truthy query then query else pinned.
Definition serveKasmView (resolved : option string) (authz : string → string → option bool) (query pinned : string) (h : Hub)
    : option string * (Z + LiveSession) :=
  match some_truthy resolved with
  | None => (None, inl 401)
  | Some viewer =>
      (some_truthy (Some query),
       match hub_get (view_session query pinned) h with
       | None => inl 404
       | Some s =>
           match authz viewer (ls_siteId s) with
           | Some true => if ls_kind s =s "isolated" then inr s else inl 409
           | _ => inl 403
           end
       end)
  end.

(** *** Whose input a relay forwards *)

(** Protocol liveness, which a viewer may always send. *)
Definition viewerUpstreamAlways (op : string) : bool := (op =s "sync") || (op =s "nop").
Definition viewerMayForward (op : string) (hasControl : bool) : bool := viewerUpstreamAlways op || hasControl.

(** The gateway's relays to guacd: the vendor's (guactunnel.go) drops everything
    while someone else has control; a viewer's (guacview.go) judges each
    instruction by its opcode.  The relays of an isolated session (kasmview.go)
    forward whatever either side sends. *)
Definition vendor_reaches (s : LiveSession) : bool :=
  if ls_kind s =s "isolated" then true else vendorInputAllowed s.
Definition viewer_reaches (userId op : string) (s : LiveSession) : bool :=
  if ls_kind s =s "isolated" then true else viewerMayForward op (viewerInputAllowed userId s).

(** *** File transfer of an isolated session *)

Definition ISOLATED_FT_DEFAULT : Z := 100 * 1024 * 1024.
(** [Number(process.env.ISOLATED_FT_MAX_BYTES ?? 100 * 1024 * 1024)] *)
Definition MAX_BYTES (env : option string) : jsnum := match env with Some s => Number s | None => NInt ISOLATED_FT_DEFAULT end.

(** [len > max]; a Content-Length that gets this far has no fraction. *)
Definition exceeds (len max : jsnum) : bool :=
  match len, max with
  | NInt n, NInt m | NInt n, NFrac m => m <? n
  | NInt _, NNegInf => true
  | _, _ => false
  end.

Section files.
Context `{Intl}.

(** GET isolated/files/downloads and isolated/files/download, before they ask the data plane. *)
Definition downloadsGate (me : option User) (siteId : string) (now : Z) (w : World) : response unit :=
  match me with
  | None => Fail 307 "/login"
  | Some u =>
      if negb (truthy siteId) then Fail 400 "site_required" else
      if negb (allow (evaluateAccess (users w) (grants w) (u_id u) siteId now)) then Fail 403 "forbidden" else Reply 200 tt
  end.
Definition downloadGate (me : option User) (siteId name : string) (now : Z) (w : World) : response unit :=
  match me with
  | None => Fail 307 "/login"
  | Some u =>
      if negb (truthy siteId) || negb (truthy name) then Fail 400 "site_and_name_required" else
      if negb (allow (evaluateAccess (users w) (grants w) (u_id u) siteId now)) then Fail 403 "forbidden" else Reply 200 tt
  end.
(** POST isolated/files/upload: the gate, and the length that is let through. *)
Definition uploadGate (env : option string) (me : option User) (siteId name : string) (contentLength : option string) (now : Z) (w : World)
    : response jsnum :=
  if negb (truthy siteId) || negb (truthy name) then Fail 400 "site_and_name_required" else
  match me with
  | None => Fail 307 "/login"
  | Some u =>
      if negb (allow (evaluateAccess (users w) (grants w) (u_id u) siteId now)) then Fail 403 "forbidden" else
      let len := Number (contentLength ?? "0") in
      if bool_decide (len = NInt 0) || bool_decide (len = NNaN) then Fail 411 "length_required" else
      if exceeds len (MAX_BYTES env) then Fail 413 "too_large" else Reply 200 len
  end.
End files.

(** ** Theorems: one registry, many tenants *)

Definition own_site (ss : list Site) (siteId : string) : Prop := siteId ∈ site_id <$> ss.

Lemma elem_of_ownSiteIds ss ids x : x ∈ ownSiteIds ss ids ↔ own_site ss x ∧ x ∈ ids ∧ truthy x = true.
Proof.
  unfold ownSiteIds, own_site. rewrite list_elem_of_In, in_map_iff, list_elem_of_fmap. split.
  - intros (s & <- & [Hs Hb]%filter_In). apply bool_decide_eq_true, list_elem_of_In, filter_In in Hb as [Hi Ht].
    rewrite !list_elem_of_In. split_and!; try done. exists s. by rewrite list_elem_of_In.
  - intros ((s & -> & Hs) & Hi & Ht). exists s. split; [done|]. apply filter_In. rewrite <-list_elem_of_In. split; [done|].
    apply bool_decide_eq_true, list_elem_of_In, filter_In. by rewrite <-list_elem_of_In.
Qed.

Lemma elem_of_active r ss h a :
  a ∈ listActiveSessions r ss h ↔ r = true ∧ own_site ss (as_siteId a) ∧ truthy (as_siteId a) = true ∧ ∃ s, s ∈ h ∧ a = info s.
Proof.
  unfold listActiveSessions, fetchAllSessions. rewrite list_elem_of_In, filter_In, bool_decide_eq_true, elem_of_ownSiteIds.
  destruct r; cbn; [|by split; [intros [[] _]|intros [? _]]]. rewrite in_map_iff. split.
  - intros ((s & <- & Hs) & Ho & _ & Ht). split_and!; try done. exists s. by rewrite list_elem_of_In.
  - intros (_ & Ho & Ht & s & Hs & ->). split_and!; try done; [exists s; by rewrite <-list_elem_of_In|].
    rewrite list_elem_of_In, in_map_iff. exists (info s). split; [done|]. by apply in_map, list_elem_of_In.
Qed.

Lemma find_own r ss id h a :
  findOwnSession r ss id h = Some a → ∃ s, s ∈ h ∧ ls_id s = id ∧ own_site ss (ls_siteId s) ∧ truthy id = true.
Proof.
  unfold findOwnSession. destruct (truthy id) eqn:Ht; [|done]. cbn.
  intros [(_ & Ho & _ & s & Hs & ->)%elem_of_active Hid%bool_decide_eq_true]%find_row_Some. by exists s.
Qed.

(** [h'] is [h] with nothing changed but sessions on these sites. *)
Definition only_own (ss : list Site) (h h' : Hub) : Prop :=
  ∃ f, h' = f <$> h ∧ (∀ s, ls_id (f s) = ls_id s ∧ ls_siteId (f s) = ls_siteId s ∧ ls_userId (f s) = ls_userId s) ∧
       ∀ s, s ∈ h → ¬ own_site ss (ls_siteId s) → f s = s.

Lemma only_own_refl ss h : only_own ss h h.
Proof. exists id. split_and!; [by rewrite list_fmap_id|done|done]. Qed.

Lemma only_own_update ss (p : LiveSession → bool) g h :
  (∀ s, ls_id (g s) = ls_id s ∧ ls_siteId (g s) = ls_siteId s ∧ ls_userId (g s) = ls_userId s) →
  (∀ s, s ∈ h → p s = true → own_site ss (ls_siteId s)) → only_own ss h (update_where p g h).
Proof.
  intros Hg Hp. exists (λ s, if p s then g s else s). split_and!; [done|intros s; by case_match|].
  intros s Hs Hn. destruct (p s) eqn:E; [|done]. by destruct (Hn (Hp s Hs E)).
Qed.

(** Session ids are drawn once: two entries with one id are on one site. *)
Definition same_sites (h h' : Hub) : Prop := ∀ s s', s ∈ h → s' ∈ h' → ls_id s = ls_id s' → ls_siteId s = ls_siteId s'.

Lemma control_own c ss id owner rel h :
  same_sites h (dc_between c h) →
  ∃ h1, (h1 = h ∨ h1 = dc_between c h) ∧ only_own ss h1 (setSessionControl c ss id owner rel h).1.
Proof.
  intros Hsame. unfold setSessionControl. destruct (findOwnSession _ _ _ _) as [a|] eqn:Hf; [|exists h; split; [by left|apply only_own_refl]].
  apply find_own in Hf as (s & Hs & Hid & Ho & Ht). exists (dc_between c h). split; [by right|].
  destruct (dc_act c); cbn; [|apply only_own_refl]. unfold dp_control. destruct (_ || _); [apply only_own_refl|].
  assert (∀ x, x ∈ dc_between c h → with_id id x = true → own_site ss (ls_siteId x)) as Hown.
  { intros x Hx Hxi%bool_decide_eq_true. rewrite <-(Hsame s x); [done..|congruence]. }
  destruct rel; cbn.
  - apply only_own_update; [done|]. intros x Hx [Hxi _]%andb_prop. by apply Hown.
  - unfold hub_setControl. destruct (hub_get _ _) as [x|]; [|apply only_own_refl]. destruct (control_held _ _); [apply only_own_refl|].
    by apply only_own_update.
Qed.

Lemma terminate_own c ss id h :
  same_sites h (dc_between c h) →
  ∃ h1, (h1 = h ∨ h1 = dc_between c h) ∧ only_own ss h1 (terminateSession c ss id h).1.
Proof.
  intros Hsame. unfold terminateSession. destruct (findOwnSession _ _ _ _) as [a|] eqn:Hf; [|exists h; split; [by left|apply only_own_refl]].
  apply find_own in Hf as (s & Hs & Hid & Ho & Ht). exists (dc_between c h). split; [by right|].
  destruct (dc_act c); cbn; [|apply only_own_refl]. unfold dp_terminate. destruct (negb _); [apply only_own_refl|].
  unfold hub_terminate. destruct (hub_get _ _); [|apply only_own_refl]. apply only_own_update; [done|].
  intros x Hx Hxi%bool_decide_eq_true. rewrite <-(Hsame s x); [done..|congruence].
Qed.

Section isolated.
Context (frac_text : Z → string) (sha256 : string → string) (json_store : json → json) (date_parse : string → jsdate).

Inductive live_call := CallTerminate (app : bool) (id : string) (body : json) | CallControl (id : string) (body : json).
Definition run_live (rq : LiveReq) (c : live_call) (db : LiveDb) : LiveDb :=
  match c with
  | CallTerminate true id body => (mobileTerminatePost frac_text sha256 json_store rq id body db).1
  | CallTerminate false id body => (liveTerminatePost frac_text sha256 json_store rq id body db).1
  | CallControl id body => (liveControlPost sha256 date_parse rq id body db).1
  end.

Lemma terminate_hub app rq me id g db :
  ld_hub (terminateLiveSession frac_text sha256 json_store app rq me id g db).1 =
  (terminateSession (lr_calls rq) (sites (ld_world db)) id (ld_hub db)).1.
Proof. unfold terminateLiveSession. by destruct (terminateSession _ _ _ _) as [h [ok found]]. Qed.

Lemma append_log_hub rq e db : ld_hub (append_log sha256 date_parse rq e db) = ld_hub db.
Proof. unfold append_log. repeat case_match; done. Qed.

(** Which of the three things a request did to the registry. *)
Lemma run_live_hub rq c db :
  let h := ld_hub db in let ss := sites (ld_world db) in let h' := ld_hub (run_live rq c db) in
  h' = h ∨
  ∃ me id, lr_user rq = Some me ∧ can (u_role me) configure = true ∧
    (h' = (terminateSession (lr_calls rq) ss id h).1 ∨ ∃ rel, h' = (setSessionControl (lr_calls rq) ss id (u_id me) rel h).1).
Proof.
  cbv zeta. destruct c as [app id body|id body]; cbn [run_live].
  - destruct app; [unfold mobileTerminatePost|unfold liveTerminatePost]; (destruct (lr_user rq) as [me|]; [|by left]);
      destruct (can (u_role me) configure) eqn:Hc; cbn [negb]; try (by left); right; exists me, id;
      pose proof (terminate_hub) as Ht; (split_and!; [done..|left]).
    + specialize (Ht true rq me id (asked_grant body) db). destruct (terminateLiveSession _ _ _ _ _ _ _ _ _) as [db' r]. by destruct (tm_found r).
    + specialize (Ht false rq me id (asked_grant body) db). by destruct (terminateLiveSession _ _ _ _ _ _ _ _ _) as [db' r].
  - unfold liveControlPost. destruct (lr_user rq) as [me|]; [|by left]. destruct (can (u_role me) configure) eqn:Hc; cbn [negb]; [|by left].
    right. exists me, id. split_and!; [done..|right]. eexists. cbv zeta.
    match goal with |- context [setSessionControl _ _ _ _ ?r _] => instantiate (1 := r) end.
    destruct (setSessionControl _ _ _ _ _ _) as [h [ok reason]]. destruct ok; cbn [fst snd negb]; [by rewrite append_log_hub|done].
Qed.

(** The session behind a row is on a site of the tenant. *)
Definition row_owned (ss : list Site) (h : Hub) (web : list WebSession) (r : LiveRow) : Prop :=
  match r with
  | GatewayRow id _ _ _ _ _ _ _ | IsolatedRow id _ _ _ _ _ _ => ∃ s, s ∈ h ∧ ls_id s = id ∧ own_site ss (ls_siteId s)
  | WebRow _ _ host at0 _ => ∃ s, s ∈ web ∧ ws_host s = host ∧ ws_startedAt s = at0 ∧ own_site ss (ws_siteId s)
  end.

Lemma elem_of_web r ss web x : x ∈ listActiveWebSessions r ss web → x ∈ web ∧ own_site ss (ws_siteId x).
Proof.
  unfold listActiveWebSessions, fetchAllWebSessions. rewrite list_elem_of_In, filter_In, bool_decide_eq_true, elem_of_ownSiteIds.
  destruct r; cbn; [|by intros [[] _]]. rewrite <-list_elem_of_In. by intros (? & ? & _).
Qed.

Lemma liveRows_owned r1 r2 ss h web w row :
  row ∈ liveRows (listActiveSessions r1 ss h) (listActiveWebSessions r2 ss web) w → row_owned ss h web row.
Proof.
  unfold liveRows. cbv zeta. rewrite !elem_of_app, !list_elem_of_In, !in_map_iff.
  intros [(a & <- & [Ha _]%filter_In)|[(a & <- & [Ha _]%filter_In)|(a & <- & Ha)]]; rewrite <-list_elem_of_In in Ha.
  - apply elem_of_active in Ha as (_ & Ho & _ & s & Hs & ->). by exists s.
  - apply elem_of_active in Ha as (_ & Ho & _ & s & Hs & ->). by exists s.
  - apply elem_of_web in Ha as [Ha Ho]. by exists a.
Qed.

Lemma length_partition {A} (p : A → bool) (l : list A) :
  (length (List.filter (λ x, negb (p x)) l) + length (List.filter p l))%nat = length l.
Proof. induction l as [|x l IH]; [done|]. cbn. destruct (p x); cbn; lia. Qed.

Lemma length_liveRows s web w : length (liveRows s web w) = (length s + length web)%nat.
Proof.
  unfold liveRows. cbv zeta. rewrite !length_app, !length_map. rewrite <-(length_partition (λ x, as_kind x =s "isolated") s). lia.
Qed.

(** C25: one registry, many tenants.  The data plane keeps the sessions of all
    tenants together; what a tenant's console and app see and do stays inside the
    tenant: every row they list is a session on one of its own sites, the count
    of the console is the number of those rows, and a request to take or give
    back control or to terminate, whatever id it names and whatever happened to
    the registry while it ran, leaves every session on another tenant's site
    exactly as it was. *)
Theorem live_isolated rq c web db rows n :
  same_sites (ld_hub db) (dc_between (lr_calls rq) (ld_hub db)) →
  mobileLiveGet rq web db = Reply 200 rows → liveCountGet rq web db = Reply 200 n →
  (∃ h, (h = ld_hub db ∨ h = dc_between (lr_calls rq) (ld_hub db)) ∧ only_own (sites (ld_world db)) h (ld_hub (run_live rq c db))) ∧
  (∀ row, row ∈ rows → row_owned (sites (ld_world db)) (ld_hub db) web row) ∧
  n = Z.of_nat (length rows).
Proof.
  intros Hsame Hrows Hn. split_and!.
  - destruct (run_live_hub rq c db) as [->|(me & id & _ & _ & [->|[rel ->]])].
    + exists (ld_hub db). split; [by left|apply only_own_refl].
    + by apply terminate_own.
    + by apply control_own.
  - revert Hrows. unfold mobileLiveGet. destruct (lr_user rq); [|done]. case_match; [done|]. intros [= <-] row. apply liveRows_owned.
  - revert Hrows Hn. unfold mobileLiveGet, liveCountGet. destruct (lr_user rq); [|done]. case_match; [done|].
    intros [= <-] [= <-]. rewrite length_liveRows. lia.
Qed.
End isolated.

(** *** Watching *)

(** The tenant a request of the data plane is served in: the one found for it
    in the cloud, the only one there is when self-hosted. *)
Definition served_in (env : DpEnv) (found : option string) (tid : string) : Prop :=
  if de_multi env then found = Some tid else tid = "default"%string.

(** The data plane's two questions: whose cookie this is, and whether that
    person may watch the site. *)
Definition resolved_viewer sha256 f env header token now auths : option string :=
  match (sessionResolvePost sha256 f env header (JObj [("token"%string, JStr token)]) now auths).2 with
  | Reply _ (uid, _) => Some uid
  | _ => None
  end.
Definition asked_authz env header worlds (uid siteId : string) : option bool :=
  match viewAuthzPost env header (JObj [("userId"%string, JStr uid); ("siteId"%string, JStr siteId)]) worlds with
  | Reply _ b => Some b
  | Fail _ _ => None
  end.

Lemma resolved_sound sha256 f env header token now auths viewer :
  resolved_viewer sha256 f env header token now auths = Some viewer →
  ∃ home u, served_in env (de_tenantByToken env (sha256 token)) home ∧
    (getSessionUser sha256 f home now token (auths home)).2 = Some u ∧ viewer = u_id u.
Proof.
  unfold resolved_viewer, sessionResolvePost, served_in. destruct (timingSafeEqualStr header (de_secret env)); [|done]. cbn [negb].
  change (str_or_empty (obj_get (JObj [("token"%string, JStr token)]) "token")) with token. destruct (de_multi env); cbn [negb].
  - destruct (truthy token); [|done]. destruct (some_truthy (de_tenantByToken env (sha256 token))) as [home|] eqn:Hh; [|done].
    destruct (getSessionUser sha256 f home now token (auths home)) as [a [u|]] eqn:Hu; [|done]. intros [= <-].
    exists home, u. rewrite Hu. split_and!; [|done..]. revert Hh. unfold some_truthy.
    destruct (de_tenantByToken _ _); [|done]. case_match; by intros [= <-].
  - destruct (truthy token); [|done].
    destruct (getSessionUser sha256 f "default" now token (auths "default"%string)) as [a [u|]] eqn:Hu; [|done]. intros [= <-].
    exists "default"%string, u. by rewrite Hu.
Qed.

Lemma authz_sound env header worlds viewer siteId :
  asked_authz env header worlds viewer siteId = Some true →
  ∃ tid v, served_in env (de_tenantByUser env viewer) tid ∧
    find_row (λ x, u_id x =s viewer) (users (worlds tid)) = Some v ∧
    own_site (sites (worlds tid)) siteId ∧ can (u_role v) read_console = true.
Proof.
  unfold asked_authz, viewAuthzPost, requireDataplaneSecret, withTenantFrom, served_in.
  destruct (timingSafeEqualStr header (de_secret env)) eqn:Hs; [|done].
  change (str_or_empty (obj_get (JObj [("userId"%string, JStr viewer); ("siteId"%string, JStr siteId)]) "userId")) with viewer.
  assert (∀ tid, match view_authz_handler env header (JObj [("userId"%string, JStr viewer); ("siteId"%string, JStr siteId)]) (worlds tid) with
                 | Reply _ b => Some b | Fail _ _ => None end = Some true →
    ∃ v, find_row (λ x, u_id x =s viewer) (users (worlds tid)) = Some v ∧
      own_site (sites (worlds tid)) siteId ∧ can (u_role v) read_console = true) as Hh.
  { intros tid. unfold view_authz_handler. rewrite Hs. cbn [negb].
    change (str_or_empty (obj_get (JObj [("userId"%string, JStr viewer); ("siteId"%string, JStr siteId)]) "userId")) with viewer.
    change (str_or_empty (obj_get (JObj [("userId"%string, JStr viewer); ("siteId"%string, JStr siteId)]) "siteId")) with siteId.
    destruct (_ || _); [done|]. destruct (find_row _ (users _)) as [v|]; [|done].
    destruct (find_row _ (sites _)) as [st|] eqn:Hst; [|done]. intros [= Hcan]. exists v. split_and!; [done| |done].
    apply find_row_Some in Hst as [Hin Hid%bool_decide_eq_true]. unfold own_site. rewrite <-Hid. by apply (list_elem_of_fmap_2 site_id). }
  destruct (de_multi env); cbn [negb].
  - destruct (de_tenantByUser env viewer) as [tid|]; [|done]. destruct (truthy tid); [|done].
    intros (v & Hv)%Hh. by exists tid, v.
  - intros (v & Hv)%Hh. by exists "default"%string, v.
Qed.

(** C24: only one's own workspace can be watched, in the cloud and self-hosted.
    When the data plane lets a browser join a session, a gateway one or an
    isolated one, it is the session named in the request (or, for an isolated
    one, in the cookie pinned before), the manager had resolved the browser's
    cookie, in the tenant of that cookie's session, to a user the console's
    session check lets in ([getSessionUser], with whatever of its faults), and
    had answered, for that user and the session's site, that the tenant of that
    user has the site and the user's role may read the console there.
    Self-hosted there is one tenant, and it is that one. *)
Theorem watchers_sound sha256 f env header token now auths worlds session query pinned h s :
  let viewer := resolved_viewer sha256 f env header token now auths in
  let authz := asked_authz env header worlds in
  serveGuacView viewer authz session h = inr s ∨ (serveKasmView viewer authz query pinned h).2 = inr s →
  (hub_get session h = Some s ∨ hub_get (view_session query pinned) h = Some s ∧ ls_kind s = "isolated"%string) ∧
  ∃ home tid u v,
    served_in env (de_tenantByToken env (sha256 token)) home ∧
    (getSessionUser sha256 f home now token (auths home)).2 = Some u ∧
    served_in env (de_tenantByUser env (u_id u)) tid ∧ find_row (λ x, u_id x =s u_id u) (users (worlds tid)) = Some v ∧
    own_site (sites (worlds tid)) (ls_siteId s) ∧ can (u_role v) read_console = true.
Proof.
  cbv zeta. intros Hjoin. set (viewer := resolved_viewer _ _ _ _ _ _ _) in *.
  assert (∃ uid, viewer = Some uid ∧ asked_authz env header worlds uid (ls_siteId s) = Some true ∧
    (hub_get session h = Some s ∨ hub_get (view_session query pinned) h = Some s ∧ ls_kind s = "isolated"%string))
    as (uid & Hv & Ha & Hsess).
  { assert (∀ uid, some_truthy viewer = Some uid → viewer = Some uid) as Htr
      by (unfold some_truthy; destruct viewer; [case_match|]; naive_solver).
    destruct Hjoin as [Hg|Hk].
    - unfold serveGuacView in Hg. destruct (negb _); [done|]. destruct (some_truthy viewer) as [uid|] eqn:Hu; [|done].
      destruct (hub_get session h) as [x|]; [|done]. exists uid. destruct (asked_authz _ _ _ _ _) as [[]|] eqn:Hz; simplify_eq; auto.
    - unfold serveKasmView in Hk. destruct (some_truthy viewer) as [uid|] eqn:Hu; [|done]. cbn [snd] in Hk.
      destruct (hub_get (view_session query pinned) h) as [x|]; [|done]. exists uid.
      destruct (asked_authz _ _ _ _ _) as [[]|] eqn:Hz; [|done..]. case_bool_decide; simplify_eq; auto. }
  split; [done|]. apply resolved_sound in Hv as (home & u & Hhome & Hu & ->). apply authz_sound in Ha as (tid & v & ? & ? & ? & ?).
  by exists home, tid, u, v.
Qed.

(** ** Theorems: whose input reaches the session *)

Section control.
Context (frac_text : Z → string) (sha256 : string → string) (json_store : json → json) (date_parse : string → jsdate).
(** Who may configure the workspace a site belongs to. *)
Context (configures : string → string → Prop).

(** A request of a signed-in person of some tenant. *)
Definition genuine (rq : LiveReq) (db : LiveDb) : Prop :=
  ∀ me s, lr_user rq = Some me → can (u_role me) configure = true → s ∈ sites (ld_world db) → configures (u_id me) (site_id s).

(** What happens to the registry: tunnels open and close, viewers come and go,
    requests act on it, each with any such events between its two calls.  The
    second part remembers the ids ever drawn: 64 random bits are not drawn twice. *)
Inductive live_run : Hub * list string → Hub * list string → Prop :=
  | run_refl st : live_run st st
  | run_trans a b c : live_run a b → live_run b c → live_run a c
  | run_register id siteId userId kind protocol host at0 h used :
      id ∉ used → live_run (h, used) (hub_register id siteId userId kind protocol host at0 h, id :: used)
  | run_closer id h used : live_run (h, used) (hub_setCloser id h, used)
  | run_remove id h used : live_run (h, used) (hub_remove id h, used)
  | run_join id h used : live_run (h, used) (update_where (with_id id) addViewer h, used)
  | run_leave id h used : live_run (h, used) (update_where (with_id id) removeViewer h, used)
  | run_request rq c db used used' :
      genuine rq db → live_run (ld_hub db, used) (dc_between (lr_calls rq) (ld_hub db), used') →
      live_run (ld_hub db, used) (ld_hub (run_live frac_text sha256 json_store date_parse rq c db), used').

Record hub_wf (st : Hub * list string) : Prop := {
  hw_ids : NoDup (ls_id <$> st.1);
  hw_used : ∀ s, s ∈ st.1 → ls_id s ∈ st.2;
  hw_viewers : ∀ s, s ∈ st.1 → 0 ≤ ls_viewers s;
  hw_owner : ∀ s, s ∈ st.1 → ls_controlOwner s ≠ ""%string → configures (ls_controlOwner s) (ls_siteId s);
}.

(** An update of one entry that keeps its id and site. *)
Lemma wf_update p g h used :
  (∀ s, ls_id (g s) = ls_id s ∧ ls_siteId (g s) = ls_siteId s) → (∀ s, 0 ≤ ls_viewers s → 0 ≤ ls_viewers (g s)) →
  (∀ s, s ∈ h → p s = true → ls_controlOwner (g s) ≠ ""%string →
     ls_controlOwner (g s) = ls_controlOwner s ∨ configures (ls_controlOwner (g s)) (ls_siteId s)) →
  hub_wf (h, used) → hub_wf (update_where p g h, used).
Proof.
  intros Hid Hv Ho [W1 W2 W3 W4]. split; cbn in *.
  - rewrite update_where_column; [done|]. intros s. by destruct (Hid s).
  - intros s (x & Hx & ->)%elem_of_update_where. destruct (p x); [|by apply W2]. destruct (Hid x) as [-> _]. by apply W2.
  - intros s (x & Hx & ->)%elem_of_update_where. destruct (p x); [apply Hv|]; by apply W3.
  - intros s (x & Hx & ->)%elem_of_update_where. destruct (p x) eqn:E; [|by apply W4]. intros Hne. destruct (Hid x) as [_ ->].
    destruct (Ho x Hx E Hne) as [Heq|?]; [|done]. rewrite Heq in *. by apply W4.
Qed.

Lemma same_sites_update p g h h' : (∀ s, ls_id (g s) = ls_id s ∧ ls_siteId (g s) = ls_siteId s) →
  same_sites h h' → same_sites h (update_where p g h').
Proof.
  intros Hid Hs s s' Hin (x & Hx & ->)%elem_of_update_where. destruct (p x); [destruct (Hid x) as [-> ->]|]; by apply Hs.
Qed.

Lemma same_sites_self st : hub_wf st → same_sites st.1 st.1.
Proof. intros [W1 _ _ _] s s' Hs Hs' Heq. by rewrite (NoDup_fmap_eq ls_id st.1 s s' W1 Hs Hs' Heq). Qed.

Lemma request_acts rq c db h1 :
  same_sites (ld_hub db) h1 → genuine rq db → dc_between (lr_calls rq) (ld_hub db) = h1 →
  let h' := ld_hub (run_live frac_text sha256 json_store date_parse rq c db) in
  h' = ld_hub db ∨ ∃ p g, h' = update_where p g h1 ∧
    (∀ s, ls_id (g s) = ls_id s ∧ ls_siteId (g s) = ls_siteId s ∧ ls_viewers (g s) = ls_viewers s) ∧
    (∀ s, s ∈ h1 → p s = true → ls_controlOwner (g s) ≠ ""%string →
       ls_controlOwner (g s) = ls_controlOwner s ∨ configures (ls_controlOwner (g s)) (ls_siteId s)).
Proof.
  intros Hsame Hgen Hb. cbv zeta.
  assert (∀ h', h' = h1 → h' = ld_hub db ∨ ∃ p g, h' = update_where p g h1 ∧
    (∀ s, ls_id (g s) = ls_id s ∧ ls_siteId (g s) = ls_siteId s ∧ ls_viewers (g s) = ls_viewers s) ∧
    (∀ s, s ∈ h1 → p s = true → ls_controlOwner (g s) ≠ ""%string →
       ls_controlOwner (g s) = ls_controlOwner s ∨ configures (ls_controlOwner (g s)) (ls_siteId s))) as Hnone.
  { intros h' ->. right. exists (λ _, false), id. split_and!; [by rewrite update_where_id|done|done]. }
  destruct (run_live_hub frac_text sha256 json_store date_parse rq c db) as [->|(me & id & Hme & Hcan & [->|[rel ->]])]; [by left|..].
  - unfold terminateSession. destruct (findOwnSession _ _ _ _); [|by left]. rewrite Hb.
    destruct (dc_act _); cbn [negb fst]; [|by apply Hnone]. unfold dp_terminate, hub_terminate. destruct (negb _); [by apply Hnone|].
    destruct (hub_get id h1); [|by apply Hnone]. right. exists (with_id id), close. split_and!; [done..|]. intros s _ _ _. by left.
  - unfold setSessionControl. destruct (findOwnSession _ _ _ _) as [a|] eqn:Hf; [|by left]. rewrite Hb.
    apply find_own in Hf as (s0 & Hs0 & Hid0 & Ho0 & _).
    destruct (dc_act _); cbn [negb fst]; [|by apply Hnone]. unfold dp_control. destruct (_ || _); [by apply Hnone|]. destruct rel; cbn [fst].
    + right. exists (λ s, with_id id s && (ls_controlOwner s =s u_id me)), (set_owner ""). split_and!; [done..|]. by intros s _ _ [].
    + unfold hub_setControl. destruct (hub_get id h1); [|by apply Hnone]. destruct (control_held _ _); [by apply Hnone|].
      right. exists (with_id id), (set_owner (u_id me)). split_and!; [done..|]. intros s Hs Hsi%bool_decide_eq_true _. right. cbn.
      rewrite <-(Hsame s0 s); [|done..|congruence]. apply list_elem_of_fmap in Ho0 as (st & -> & Hst). by apply (Hgen me st).
Qed.

(** Entries whose id was known at the start were there at the start. *)
Definition descends (st st' : Hub * list string) : Prop :=
  (∀ i, i ∈ st.2 → i ∈ st'.2) ∧
  ∀ s', s' ∈ st'.1 → ls_id s' ∈ st.2 → ∃ s, s ∈ st.1 ∧ ls_id s = ls_id s' ∧ ls_siteId s = ls_siteId s'.
#[local] Instance descends_preorder : PreOrder descends.
Proof.
  split; [intros st; split; [done|eauto]|]. intros a b c [U1 D1] [U2 D2]. split; [by eauto|].
  intros s Hs Hi. destruct (D2 s Hs (U1 _ Hi)) as (s1 & Hs1 & Hi1 & Ht1). destruct (D1 s1 Hs1) as (s2 & ? & ? & ?); [by rewrite Hi1|].
  exists s2. split_and!; [done|congruence..].
Qed.

Lemma descends_same st st' : hub_wf st → descends st st' → same_sites st.1 st'.1.
Proof.
  intros [W1 W2 _ _] [_ D] s s' Hs Hs' Heq. destruct (D s' Hs') as (x & Hx & Hi & Ht); [rewrite <-Heq; by apply W2|].
  rewrite (NoDup_fmap_eq ls_id st.1 s x W1 Hs Hx); [done|congruence].
Qed.

Lemma descends_update p g h used : (∀ s, ls_id (g s) = ls_id s ∧ ls_siteId (g s) = ls_siteId s) →
  descends (h, used) (update_where p g h, used).
Proof.
  intros Hid. split; [done|]. cbn. intros s' (x & Hx & ->)%elem_of_update_where _. exists x. split; [done|].
  destruct (p x); [|done]. by destruct (Hid x) as [-> ->].
Qed.

Lemma hub_register_wf id siteId userId kind protocol host at0 h used :
  id ∉ used → hub_wf (h, used) → hub_wf (hub_register id siteId userId kind protocol host at0 h, id :: used).
Proof.
  intros Hn [W1 W2 W3 W4]. cbn in *.
  assert (hub_remove id h = h) as Hrm.
  { unfold hub_remove, delete_where. induction h as [|x h IH]; [done|]. cbn. unfold with_id at 1.
    rewrite bool_decide_eq_false_2 by (intros <-; apply Hn, W2; by left). cbn. f_equal. apply IH; [by inversion W1|..]; intros y Hy; [apply W2|apply W3|apply W4]; by right. }
  unfold hub_register. rewrite Hrm. split; cbn.
  - apply NoDup_fmap_snoc; [done|]. intros (x & Hx & Hin)%list_elem_of_fmap. apply Hn. cbn in Hx. rewrite Hx. by apply W2.
  - intros s [Hs|Hs%list_elem_of_singleton]%elem_of_app; [right; by apply W2|subst s; by left].
  - intros s [Hs|Hs%list_elem_of_singleton]%elem_of_app; [by apply W3|by subst s].
  - intros s [Hs|Hs%list_elem_of_singleton]%elem_of_app; [by apply W4|by subst s].
Qed.

Lemma live_run_wf st st' : live_run st st' → hub_wf st → hub_wf st' ∧ descends st st'.
Proof.
  induction 1 as [st|a b c _ IH1 _ IH2|id siteId userId kind protocol host at0 h used Hn|id h used|id h used|id h used|id h used
    |rq c db used used' Hgen Hr IH]; intros Hw.
  - done.
  - destruct (IH1 Hw) as [Wb Db], (IH2 Wb) as [Wc Dc]. split; [done|by etrans].
  - split; [by apply hub_register_wf|]. split; cbn; [by right|]. intros s [Hs|Hs%list_elem_of_singleton]%elem_of_app Hi; [|by subst s].
    apply elem_of_delete_where in Hs as [Hs _]. by exists s.
  - split; [apply wf_update; try done; intros s _ _ _; by left|by apply descends_update].
  - destruct Hw as [W1 W2 W3 W4]. split; [split; cbn in *|split; [done|]].
    + unfold hub_remove, delete_where. by apply NoDup_filter_fmap.
    + intros s [Hs _]%elem_of_delete_where. by apply W2.
    + intros s [Hs _]%elem_of_delete_where. by apply W3.
    + intros s [Hs _]%elem_of_delete_where. by apply W4.
    + cbn. intros s [Hs _]%elem_of_delete_where _. by exists s.
  - split; [apply wf_update; try done; [intros s; cbn; lia|intros s _ _ _; by left]|by apply descends_update].
  - split; [apply wf_update|apply descends_update]; try done; intros s; unfold removeViewer; case_match; cbn; try done; try lia; by left.
  - destruct (IH Hw) as [W1 D1].
    destruct (request_acts rq c db _ (descends_same _ _ Hw D1) Hgen eq_refl) as [->|(p & g & -> & Hg & Ho)].
    + split; [|split; [by apply D1|by eauto]]. destruct Hw as [V1 V2 V3 V4]. split; try done. intros s Hs. apply D1, V2, Hs.
    + split; [apply wf_update; try done|etrans; [exact D1|apply descends_update]]; intros s; destruct (Hg s) as (? & ? & Hv); try done; by rewrite Hv.
Qed.

End control.

(** While someone else has control nothing the vendor's browser sends reaches
    guacd, its liveness included, although a viewer's is let through because
    guacd disconnects whoever it hears nothing from. *)
Theorem vendor_liveness_dropped s u :
  ls_kind s = "gateway"%string → ls_controlOwner s ≠ ""%string →
  vendor_reaches s = false ∧ viewer_reaches u "sync" s = true.
Proof.
  intros Hk Ho. unfold vendor_reaches, viewer_reaches. rewrite Hk. split; [|done]. by apply bool_decide_eq_false_2.
Qed.

(** ** Theorems: termination *)

Section terminate.
Context `{Intl}.
Context (frac_text : Z → string) (sha256 : string → string) (json_store : json → json).

Lemma hub_get_iff id h s : NoDup (ls_id <$> h) → hub_get id h = Some s ↔ s ∈ h ∧ ls_id s = id.
Proof.
  intros Hnd. unfold hub_get. split.
  - intros [Hs Hi%bool_decide_eq_true]%find_row_Some. done.
  - intros [Hs Hi]. destruct (find_row _ h) as [x|] eqn:E.
    + apply find_row_Some in E as [Hx Hxi%bool_decide_eq_true]. f_equal. apply (NoDup_fmap_eq ls_id h); congruence.
    + rewrite find_row_None in E. specialize (E s Hs). by apply bool_decide_eq_false in E.
Qed.

Lemma pair_key_inj u1 s1 u2 s2 :
  sep_free (Ascii.ascii_of_N 31) u1 → sep_free (Ascii.ascii_of_N 31) u2 → pair_key u1 s1 = pair_key u2 s2 → u1 = u2 ∧ s1 = s2.
Proof.
  unfold sep_free, pair_key. intros H1 H2 Heq%(f_equal chars). rewrite !chars_append, !chars_unchars in Heq.
  apply cut_eq in Heq as [Hu Hs]; [|done..]. split; by apply (inj chars).
Qed.

(** What a terminate with a grant leaves of the grants. *)
Lemma terminate_grants app rq me id g db :
  grants (ld_world (terminateLiveSession frac_text sha256 json_store app rq me id (Some g) db).1) = revokeGrant g (grants (ld_world db)) ∧
  users (ld_world (terminateLiveSession frac_text sha256 json_store app rq me id (Some g) db).1) = users (ld_world db).
Proof. unfold terminateLiveSession. by destruct (terminateSession _ _ _ _) as [h [ok found]]. Qed.

Lemma revoked_denied us gs userId siteId g now :
  (∀ x, x ∈ gs → g_userId x = userId → g_siteId x = siteId → g_status x = GActive → g_id x = g) →
  allow (evaluateAccess us (revokeGrant g gs) userId siteId now) = false.
Proof.
  intros Hone. apply not_true_iff_false. rewrite evaluate_allow. intros (u & x & _ & _ & Hx & Hxu & Hxs & Ha).
  apply elem_of_update_where in Hx as (y & Hy & ->). case_bool_decide as E.
  - by destruct Ha.
  - apply E, Hone; [done..|]. by destruct Ha.
Qed.

Lemma row_grant w sessions web id nm lb pr at0 v ctl g :
  GatewayRow id nm lb pr at0 v ctl (Some g) ∈ liveRows sessions web w →
  ∃ a x, a ∈ sessions ∧ as_sessionId a = id ∧ x ∈ grants w ∧ g_id x = g ∧ g_status x = GActive ∧
    pair_key (g_userId x) (g_siteId x) = pair_key (as_userId a) (as_siteId a).
Proof.
  unfold liveRows. cbv zeta. rewrite !elem_of_app, !list_elem_of_In, !in_map_iff.
  intros [(a & Hrow & [Ha _]%filter_In)|[(a & Hrow & _)|(a & Hrow & _)]]; [|done..].
  injection Hrow as <- _ _ _ _ _ _ Hg. unfold grant_behind, map_get in Hg.
  match type of Hg with g_id <$> last (List.filter ?k ?l) = _ => destruct (last (List.filter k l)) as [x|] eqn:Hl; [|done] end.
  injection Hg as <-. apply last_Some_elem_of in Hl.
  apply list_elem_of_In, filter_In in Hl as [Hx Hk%bool_decide_eq_true]. apply filter_In in Hx as [Hx [[Hst _]%andb_prop _]%andb_prop].
  apply bool_decide_eq_true in Hst. exists a, x. by rewrite !list_elem_of_In.
Qed.

(** A terminated vendor stays out.  An administrator picks a row of the live
    list and terminates it together with the grant the row names: the answer says
    it was found, the tunnel of exactly that session is closed, and when that was
    the user's only active grant for the site the access decision refuses the
    user there at every later time. *)
Theorem terminate_sticks rq me web db rows id nm lb pr at0 v ctl g s s1 body :
  lr_user rq = Some me → can (u_role me) configure = true → dc_list (lr_calls rq) = true → dc_act (lr_calls rq) = true →
  mobileLiveGet rq web db = Reply 200 rows → GatewayRow id nm lb pr at0 v ctl (Some g) ∈ rows →
  NoDup (ls_id <$> ld_hub db) → hub_get id (ld_hub db) = Some s →
  hub_get id (dc_between (lr_calls rq) (ld_hub db)) = Some s1 → ls_closer s1 = true →
  (∀ x, x ∈ grants (ld_world db) → sep_free (Ascii.ascii_of_N 31) (g_userId x)) → sep_free (Ascii.ascii_of_N 31) (ls_userId s) →
  (∀ x y, x ∈ grants (ld_world db) → y ∈ grants (ld_world db) → g_status x = GActive → g_status y = GActive →
     g_userId x = ls_userId s → g_siteId x = ls_siteId s → g_userId y = ls_userId s → g_siteId y = ls_siteId s → g_id x = g_id y) →
  truthy id = true → truthy g = true → obj_get body "grantId" = JStr g →
  let r := liveTerminatePost frac_text sha256 json_store rq id body db in
  r.2 = Reply 200 {| tm_ok := true; tm_found := true; tm_revoked := true |} ∧
  ld_hub r.1 = update_where (with_id id) close (dc_between (lr_calls rq) (ld_hub db)) ∧ ls_closed (close s1) = true ∧
  ∀ now, allow (evaluateAccess (users (ld_world r.1)) (grants (ld_world r.1)) (ls_userId s) (ls_siteId s) now) = false.
Proof.
  intros Hme Hcan Hl Ha Hrows Hrow Hnd Hs Hs1 Hcl Hsep Hsepu Hone Htid Htg Hg. cbv zeta.
  assert (asked_grant body = Some g) as Hask by (unfold asked_grant; rewrite Hg; cbn; by rewrite Htg).
  unfold liveTerminatePost. rewrite Hme, Hcan, Hask. cbn [negb].
  destruct (terminate_grants false rq me id g db) as [Hgr Hus].
  pose proof (terminate_hub frac_text sha256 json_store false rq me id (Some g) db) as Hhub.
  revert Hrows. unfold mobileLiveGet. rewrite Hme. case_match; [done|]. intros [= <-]. rewrite Hl in Hrow.
  apply row_grant in Hrow as (a & x & Hina & Hid & Hx & Hxg & Hxs & Hkey).
  pose proof Hina as Hina'. apply elem_of_active in Hina as (_ & _ & _ & s2 & Hs2 & ->). cbn in Hid, Hkey.
  assert (s2 = s) as ->.
  { assert (hub_get id (ld_hub db) = Some s2) as Hq by (by apply hub_get_iff). congruence. }
  apply pair_key_inj in Hkey as [Hku Hks]; [|by apply Hsep|done].
  assert (terminateSession (lr_calls rq) (sites (ld_world db)) id (ld_hub db) =
          (update_where (with_id id) close (dc_between (lr_calls rq) (ld_hub db)), (true, true))) as Hts.
  { unfold terminateSession. destruct (findOwnSession _ _ _ _) as [a|] eqn:Hf.
    - rewrite Ha. unfold dp_terminate. rewrite Htid. cbn [negb]. unfold hub_terminate. by rewrite Hs1.
    - exfalso. revert Hf. unfold findOwnSession. rewrite Htid, Hl. cbn [negb]. rewrite find_row_None. intros Hf.
      specialize (Hf _ Hina'). apply bool_decide_eq_false in Hf. by apply Hf. }
  rewrite Hts in Hhub. unfold terminateLiveSession in *. rewrite Hts in *. cbn [fst snd] in *. split_and!; try done.
  - cbn. rewrite Hcl. by destruct (ls_closed s1).
  - intros now. rewrite Hgr, Hus. apply revoked_denied. intros y Hy Hyu Hys Hyst. rewrite <-Hxg. by apply Hone.
Qed.
End terminate.

(** ** Concrete runs *)

Definition demo_live_grant (id : string) : AccessGrant :=
  {| g_id := id; g_userId := "u1"; g_siteId := "s1"; g_startsAt := None; g_endsAt := None; g_status := GActive; g_note := None;
     g_denyReason := None; g_requiresApproval := false; g_approvedAt := None; g_approvedById := None; g_schedule := JNull;
     g_createdById := None; g_directoryManaged := false |}.
Definition demo_live_world (gs : list AccessGrant) : World :=
  {| users := [demo_user "op" ADMIN; demo_user "u1" VENDOR]; sites := [{| site_id := "s1"; site_name := "Wiki"; site_hostname := None |}];
     grants := gs; admin := {| adminRows := []; adminHead := None |} |}.
(** Two tenants' sessions: "a" is on this tenant's site, "b" on another's. *)
Definition demo_hub : Hub :=
  hub_setCloser "b" (hub_register "b" "s9" "u9" "gateway" "ssh" "10.0.0.9" "t1"
    (hub_setCloser "a" (hub_register "a" "s1" "u1" "gateway" "rdp" "10.0.0.1" "t0" []))).
Definition demo_live (gs : list AccessGrant) : LiveDb := {| ld_hub := demo_hub; ld_world := demo_live_world gs; ld_log := audit_init |}.
Definition demo_live_req (act : bool) : LiveReq :=
  {| lr_user := Some (demo_user "op" ADMIN); lr_now := 1800000000000; lr_calls := {| dc_list := true; dc_act := act; dc_between := id |};
     lr_auditIds := ("a1", "a2")%string; lr_auditFails := (false, false); lr_clientIp := None; lr_userAgent := None |}.
Definition demo_grant_body : json := JObj [("grantId"%string, JStr "g1")].

(** ** Findings *)

(** A second active grant for the same site: the row names one, terminating
    revokes that one, and the vendor is let in again at once. *)
Theorem second_grant_reopens :
  let db := demo_live [demo_live_grant "g2"; demo_live_grant "g1"] in
  let r := liveTerminatePost frac_digits demo_digest json_wire (demo_live_req true) "a" demo_grant_body db in
  (∃ rows, mobileLiveGet (demo_live_req true) [] db = Reply 200 rows ∧
     GatewayRow "a" "Wiki" (u_name (demo_user "u1" VENDOR)) "rdp" "t0" 0 false (Some "g1"%string) ∈ rows) ∧
  r.2 = Reply 200 {| tm_ok := true; tm_found := true; tm_revoked := true |} ∧
  allow (evaluateAccess (users (ld_world r.1)) (grants (ld_world r.1)) "u1" "s1" 1800000000001) = true.
Proof.
  split_and!; [|vm_compute; done|vm_compute; done].
  eexists. split; [vm_compute; reflexivity|]. by left.
Qed.

(** The data plane cannot be reached: the session runs on, and the admin log says
    it was terminated. *)
Theorem unreachable_terminate_logged :
  let r := liveTerminatePost frac_digits demo_digest json_wire (demo_live_req false) "a" (JObj []) (demo_live [demo_live_grant "g1"]) in
  r.2 = Reply 200 {| tm_ok := false; tm_found := false; tm_revoked := false |} ∧ ld_hub r.1 = demo_hub ∧
  (ab_summary ∘ ar_body <$> adminRows (admin (ld_world r.1))) = ["Terminated session a"%string].
Proof. vm_compute. done. Qed.

(** A limit that is not a number is no limit. *)
Theorem upload_unbounded n : 0 < n → exceeds (NInt n) (MAX_BYTES (Some "100MB"%string)) = false.
Proof. done. Qed.

(** A terminate that comes before the tunnel recorded how to close it: found, and
    nothing is closed. *)
Theorem early_terminate_lost :
  let h := hub_register "a" "s1" "u1" "gateway" "rdp" "10.0.0.1" "t0" [] in
  (dp_terminate "a" h).2 = Some (true, true) ∧ (ls_closed <$> (dp_terminate "a" h).1) = [false].
Proof. vm_compute. done. Qed.

(** ** Witnesses *)

Definition demo_one : LiveDb := demo_live [demo_live_grant "g1"].
Definition demo_rows : list LiveRow :=
  [GatewayRow "a" "Wiki" "u1" "rdp" "t0" 0 false (Some "g1"%string)].

Lemma live_isolated_witness :
  (∃ h, (h = demo_hub ∨ h = id demo_hub) ∧
     only_own (sites (ld_world demo_one)) h
       (ld_hub (run_live frac_digits demo_digest json_wire (λ _, InvalidDate) (demo_live_req true) (CallTerminate false "b" (JObj [])) demo_one))) ∧
  (∀ row, row ∈ demo_rows → row_owned (sites (ld_world demo_one)) demo_hub [] row) ∧ 1 = Z.of_nat (length demo_rows).
Proof.
  apply (live_isolated frac_digits demo_digest json_wire (λ _, InvalidDate) (demo_live_req true) (CallTerminate false "b" (JObj [])) [] demo_one demo_rows 1).
  - intros s s' Hs Hs' Heq. assert (NoDup (ls_id <$> demo_hub)) as Hnd by (apply (bool_decide_unpack _); vm_compute; exact I).
    by rewrite (NoDup_fmap_eq ls_id demo_hub s s' Hnd Hs Hs' Heq).
  - vm_compute. reflexivity.
  - vm_compute. reflexivity.
Defined.

Definition demo_env : DpEnv :=
  {| de_secret := Some "dp"%string; de_multi := true; de_tenantByUser := λ _, Some "t1"%string; de_tenantByToken := λ _, Some "t1"%string |}.
Definition demo_auth : Auth :=
  {| a_users := [demo_user "op" ADMIN];
     a_sessions := [{| se_id := "x"; se_userId := "op"; se_tokenHash := "tok"; se_expiresAt := 1900000000000; se_createdAt := 1800000000000;
                       se_lastSeenAt := 1800000000000; se_userAgent := None; se_ip := None; se_amr := []; se_mobile := false;
                       se_mobileChallenge := None |}];
     a_policy := {| policyRows := ∅; policyCache := None |} |}.
Definition demo_a : LiveSession :=
  {| ls_id := "a"; ls_siteId := "s1"; ls_userId := "u1"; ls_kind := "gateway"; ls_protocol := "rdp"; ls_host := "10.0.0.1";
     ls_startedAt := "t0"; ls_viewers := 0; ls_controlOwner := ""; ls_closer := true; ls_closed := false |}.

Lemma watchers_sound_witness : hub_get "a" demo_hub = Some demo_a ∧ own_site (sites (demo_live_world [])) "s1".
Proof.
  destruct (watchers_sound demo_digest no_faults demo_env (Some "dp"%string) "tok" 1800000000001 (λ _, demo_auth) (λ _, demo_live_world [])
    "a" "" "" demo_hub demo_a) as (H1 & home & tid & u & v & _ & _ & _ & _ & H2 & _).
  - left. vm_compute. reflexivity.
  - split; [|exact H2]. destruct H1 as [H1|[H1 _]]; [exact H1|vm_compute in H1; discriminate H1].
Defined.

(** The administrator takes control; from then on the vendor's input is held back. *)
Definition demo_taken : LiveDb :=
  run_live frac_digits demo_digest json_wire (λ _, InvalidDate) (demo_live_req true) (CallControl "a" (JObj [])) demo_one.
Definition demo_configures (u site : string) : Prop := u = "op"%string ∧ site = "s1"%string.


Lemma terminate_sticks_witness :
  (liveTerminatePost frac_digits demo_digest json_wire (demo_live_req true) "a" demo_grant_body demo_one).2 =
    Reply 200 {| tm_ok := true; tm_found := true; tm_revoked := true |} ∧
  ∀ now, let w := ld_world (liveTerminatePost frac_digits demo_digest json_wire (demo_live_req true) "a" demo_grant_body demo_one).1 in
    allow (evaluateAccess (users w) (grants w) "u1" "s1" now) = false.
Proof.
  destruct (terminate_sticks frac_digits demo_digest json_wire (demo_live_req true) (demo_user "op" ADMIN) [] demo_one demo_rows
    "a" "Wiki" "u1" "rdp" "t0" 0 false "g1" demo_a demo_a demo_grant_body) as (H1 & _ & _ & H2); try (vm_compute; reflexivity).
  - by left.
  - apply (bool_decide_unpack _); vm_compute; exact I.
  - intros x ->%list_elem_of_singleton. apply (bool_decide_unpack _); vm_compute; exact I.
  - apply (bool_decide_unpack _); vm_compute; exact I.
  - intros x y ->%list_elem_of_singleton ->%list_elem_of_singleton. done.
  - split; [exact H1|exact H2].
Defined.
