(* ===== verification/Mobile.v ===== *)
(** * Mobile: the administrators' app

    The app's sign-in from the browser hand-off to its bearer token
    (app/api/mobile/auth over src/lib/mobile/handoff.ts and session.ts), the gate
    every app route passes (src/lib/mobile/route.ts), the registration of phones
    for push messages and whom a message goes to (src/lib/mobile/push.ts), and
    the lists the app shows (mobile/sites, mobile/me, mobile/requests).

    A device row goes with its session ([onDelete: Cascade]).  Random values, the
    clock and the answers of the push service are arguments. *)

From S2P Require Import Prelude JsString JsValue Schema Transaction AuditChain AccessLog AdminLog Identity Schedule Cidr Access Sessions Settings Gateway Tenant.

(** ** Rows *)

Record MobileDevice := {
  md_id : string;
  md_userId : string;
  md_sessionId : string;
  md_expoPushToken : string;
  md_platform : option string;
}.
Record MobileDb := { mo_auth : Auth; mo_devices : list MobileDevice }.

(** The rows after a change of the sessions: a device whose session is gone goes too. *)
Definition cascade_devices (ss : list Session) (ds : list MobileDevice) : list MobileDevice :=
  List.filter (λ d, existsb (λ s, se_id s =s md_sessionId d) ss) ds.
Definition with_auth (db : MobileDb) (a : Auth) : MobileDb :=
  {| mo_auth := a; mo_devices := cascade_devices (a_sessions a) (mo_devices db) |}.
Definition with_devices (db : MobileDb) (ds : list MobileDevice) : MobileDb := {| mo_auth := mo_auth db; mo_devices := ds |}.

(** ** Sign-in *)

(** Where the browser is sent back to: the app, with a code or a reason. *)
Inductive AppRedirect := AppCode (code : string) | AppError (error : string).

Record MobileReq := {
  mr_tenantId : string;
  mr_now : Z;
  mr_ids : string * string;  (* a session id, a device id *)
  mr_secret : string;        (* the code or token generated *)
  mr_ip : option string;
  mr_faults : SessionFaults;
}.
(** The browser's two cookies. *)
Record Browser := { br_handoff : option string; br_session : option string }.

Section sign_in.
Context (sha256 sha256_b64url hmac : string → string).

(** GET mobile/auth/start: the cookie, and on to the console's own sign-in. *)
Definition authStart (now : Z) (challenge : option string) (b : Browser) : Browser * response string :=
  match challenge with
  | Some c =>
      if isPkceChallenge c
      then ({| br_handoff := Some (signHandoff hmac c now); br_session := br_session b |},
            Reply 307 "/api/auth/oidc/start?returnTo=%2Fapi%2Fmobile%2Fauth%2Ffinish"%string)
      else (b, Fail 400 "bad request")
  | None => (b, Fail 400 "bad request")
  end.

(** GET mobile/auth/finish. *)
Definition authFinish (rq : MobileReq) (b : Browser) (db : MobileDb) : Browser * MobileDb * AppRedirect :=
  let b1 := {| br_handoff := None; br_session := br_session b |} in
  match readHandoff hmac (br_handoff b) (mr_now rq) with
  | None => (b1, db, AppError "expired")
  | Some challenge =>
      let token := br_session b ?? "" in
      let '(a1, u) := if truthy token then getSessionUser sha256 (mr_faults rq) (mr_tenantId rq) (mr_now rq) token (mo_auth db) else (mo_auth db, None) in
      let db1 := with_auth db a1 in
      match u with
      | None => (b1, db1, AppError "signin")
      | Some user =>
          let amr := (se_amr <$> find_row (λ s, se_tokenHash s =s sha256 token) (a_sessions a1)) ?? [] in
          let db2 := with_auth db1 (destroySession sha256 token a1) in
          let b2 := {| br_handoff := None; br_session := None |} in
          if negb (can (u_role user) read_console) then (b2, db2, AppError "not_admin") else
          (b2,
           with_auth db2 (issueMobileCode sha256 (mr_now rq) (mr_ids rq).1 (mr_secret rq) (u_id user) challenge
             {| m_userAgent := Some "Captivo Admin app"%string; m_ip := mr_ip rq; m_amr := amr |} (mo_auth db2)),
           AppCode (mr_secret rq))
      end
  end.

(** POST mobile/auth/exchange: the token and whose it is. *)
Definition authExchange (between : list Session → list Session) (rq : MobileReq) (body : json) (db : MobileDb)
    : MobileDb * response (string * User) :=
  let device := match obj_get body "device" with JStr d => Some ("Captivo Admin app " +:+ unchars [Ascii.ascii_of_N 183] +:+ " " +:+ d) | _ => None end in
  let a := mo_auth db in
  let '(ss, r) := redeemMobileCode sha256 sha256_b64url between (mr_now rq) (mr_secret rq) (obj_get body "code") (obj_get body "verifier")
                    device (a_sessions a) in
  let db1 := with_auth db (with_sessions a ss) in
  match r with
  | None => (db1, Fail 400 "invalid_code")
  | Some (token, userId) =>
      match find_row (λ u, u_id u =s userId) (a_users a) with
      | Some u => if bool_decide (u_status u = UActive) then (db1, Reply 200 (token, u)) else (db1, Fail 400 "invalid_code")
      | None => (db1, Fail 400 "invalid_code")
      end
  end.

(** POST mobile/auth/logout. *)
Definition authLogout (unsaved : bool) (now : Z) (authorization : option string) (db : MobileDb) : MobileDb :=
  match mobileSessionFromRequest sha256 unsaved now authorization (mo_auth db) with
  | (a, Some (sid, _)) => with_auth db (endMobileSession sid a)
  | (a, None) => with_auth db a
  end.

(** [mobileRoute]: the person behind the token, and their role as it is now. *)
Definition mobileRoute {A} (unsaved : bool) (cap : Capability) (now : Z) (authorization : option string) (db : MobileDb)
    (h : string → User → MobileDb → MobileDb * response A) : MobileDb * response A :=
  match mobileSessionFromRequest sha256 unsaved now authorization (mo_auth db) with
  | (a, None) => (with_auth db a, Fail 401 "unauthorized")
  | (a, Some (sid, u)) =>
      if negb (can (u_role u) cap) then (with_auth db a, Fail 403 "forbidden") else h sid u (with_auth db a)
  end.

(** ** Push *)

(** [/^Expo(nent)?PushToken\[[^\]\s]+\]$/] and at most 200 units. *)
Definition token_body (t : string) : bool :=
  let l := chars t in
  match reverse l with
  | c :: rest => (code c =? 93) && negb (bool_decide (rest = [])) && forallb (λ x, negb (code x =? 93) && negb (is_ws x)) rest
  | [] => false
  end.
Definition isExpoToken (v : json) : bool :=
  match v with
  | JStr t =>
      (js_length t <=? 200) &&
      ((startsWith "ExpoPushToken[" t && token_body (slice_from 14 t)) ||
       (startsWith "ExponentPushToken[" t && token_body (slice_from 18 t)))
  | _ => false
  end.

(** POST mobile/push/register: the token's row is taken over. *)
Definition pushRegister (rq : MobileReq) (authorization : option string) (body : json) (db : MobileDb) : MobileDb * response unit :=
  mobileRoute (visitUnsaved (mr_faults rq)) read_console (mr_now rq) authorization db (λ sid u db,
    match obj_get body "expoPushToken" with
    | JStr t =>
        if negb (isExpoToken (JStr t)) then (db, Fail 400 "invalid_token") else
        let platform := match obj_get body "platform" with JStr p => Some (slice_to 20 p) | _ => None end in
        let mine d := md_expoPushToken d =s t in
        (with_devices db
           (if existsb mine (mo_devices db)
            then update_where mine (λ d, {| md_id := md_id d; md_userId := u_id u; md_sessionId := sid; md_expoPushToken := t; md_platform := platform |})
                   (mo_devices db)
            else mo_devices db ++ [{| md_id := (mr_ids rq).2; md_userId := u_id u; md_sessionId := sid; md_expoPushToken := t; md_platform := platform |}]),
         Reply 200 tt)
    | _ => (db, Fail 400 "invalid_token")
    end).

(** POST mobile/push/unregister. *)
Definition pushUnregister (unsaved : bool) (now : Z) (authorization : option string) (body : json) (db : MobileDb) : MobileDb * response unit :=
  mobileRoute unsaved read_console now authorization db (λ sid u db,
    (match obj_get body "expoPushToken" with
     | JStr t => with_devices db (delete_where (λ d, (md_sessionId d =s sid) && (md_expoPushToken d =s t)) (mo_devices db))
     | _ => db
     end, Reply 200 tt)).
End sign_in.

Definition EXPO_CHUNK : nat := 100.

(** [[...new Set(l)]]: the first of each. *)
Fixpoint distinct (l : list string) : list string :=
  match l with [] => [] | x :: l' => x :: List.filter (λ y, negb (y =s x)) (distinct l') end.

(** The batches of [sendExpo]'s loop. *)
Fixpoint chunks (fuel : nat) (l : list string) : list (list string) :=
  match fuel, l with
  | S f, _ :: _ => take EXPO_CHUNK l :: chunks f (drop EXPO_CHUNK l)
  | _, _ => []
  end.

(** One batch's answer: [None] when the request threw, otherwise for each message
    whether its device is no longer registered. *)
Definition BatchAnswer : Type := option (list bool).

(** The tokens to forget; [None]: a request threw, or an answer was longer than
    its batch. *)
Fixpoint collect_dead (batches : list (list string)) (answers : nat → BatchAnswer) (i : nat) : option (list string) :=
  match batches with
  | [] => Some []
  | b :: bs =>
      match answers i with
      | None => None
      | Some flags =>
          here ← mapM (λ j, b !! j) (List.filter (λ j, flags !! j ?? false) (seq 0 (length flags)));
          rest ← collect_dead bs answers (S i);
          Some (here ++ rest)
      end
  end.

(** [sendExpo]: what was sent, in which batches, and the devices left. *)
Definition sendExpo (tokens : list string) (answers : nat → BatchAnswer) (ds : list MobileDevice)
    : list (list string) * list MobileDevice :=
  let valid := distinct (List.filter (λ t, isExpoToken (JStr t)) tokens) in
  let batches := chunks (length valid) valid in
  (batches, match collect_dead batches answers 0 with
            | Some dead => delete_where (λ d, bool_decide (md_expoPushToken d ∈ dead)) ds
            | None => ds
            end).

(** The devices a message for [cap] goes to. *)
Definition entitled (cap : Capability) (now : Z) (a : Auth) (d : MobileDevice) : bool :=
  match find_row (λ u, u_id u =s md_userId d) (a_users a), find_row (λ s, se_id s =s md_sessionId d) (a_sessions a) with
  | Some u, Some s => bool_decide (u_status u = UActive) && (now <? se_expiresAt s) && can (u_role u) cap
  | _, _ => false
  end.
Definition pushToCapability (cap : Capability) (now : Z) (answers : nat → BatchAnswer) (db : MobileDb)
    : MobileDb * list (list string) :=
  let tokens := map md_expoPushToken (List.filter (entitled cap now (mo_auth db)) (mo_devices db)) in
  let '(sent, ds) := sendExpo tokens answers (mo_devices db) in
  (with_devices db ds, sent).

(** ** Theorems: signing in *)

Lemma find_row_snoc {A} (p : A → bool) (l : list A) x : (∀ y, y ∈ l → p y = false) → p x = true → find_row p (l ++ [x]) = Some x.
Proof.
  intros Hl Hx. unfold find_row. induction l as [|y l IH]; cbn; [by rewrite Hx|].
  rewrite Hl by (by left). apply IH. intros z Hz. apply Hl. by right.
Qed.
Lemma update_where_snoc {A} (p : A → bool) f (l : list A) x : (∀ y, y ∈ l → p y = false) → p x = true → update_where p f (l ++ [x]) = l ++ [f x].
Proof. intros Hl Hx. unfold update_where. rewrite fmap_app. cbn. rewrite Hx. f_equal. by apply (update_where_id p f l). Qed.
Lemma count_where_snoc {A} (p : A → bool) (l : list A) x : (∀ y, y ∈ l → p y = false) → p x = true → count_where p (l ++ [x]) = 1.
Proof.
  intros Hl Hx. unfold count_where. rewrite List.filter_app. cbn. rewrite Hx. induction l as [|y l IH]; [done|]. cbn.
  rewrite Hl by (by left). apply IH. intros z Hz. apply Hl. by right.
Qed.

Section sign_in_thms.
Context (sha256 sha256_b64url hmac : string → string).
(** base64url has no dot. *)
Context (hmac_no_dot : ∀ s, sep_free dot (hmac s)).

Lemma getSessionUser_rows f tid now token a a1 u :
  getSessionUser sha256 f tid now token a = (a1, Some u) →
  a_users a1 = a_users a ∧ (∃ p, a_sessions a1 = update_where p (set_lastSeen now) (a_sessions a)) ∧ u_status u = UActive ∧
  find_row (λ x, u_id x =s u_id u) (a_users a) = Some u.
Proof.
  unfold getSessionUser. destruct (negb (truthy token)); [done|]. destruct (find_row _ (a_sessions a)) as [s|]; [|done].
  destruct (_ <? _); [done|]. destruct (se_mobile s); [done|]. destruct (find_row _ (a_users a)) as [v|] eqn:Hv; [|done].
  destruct (bool_decide (u_status v = UActive)) eqn:Hst; [|done]. destruct (getSessionPolicy _ _ _ _) as [pst pol]. cbn [negb].
  case_match; [done|]. intros [= <- <-]. split_and!; [done|by eexists|by apply bool_decide_eq_true in Hst|].
  pose proof Hv as [_ Hid%bool_decide_eq_true]%find_row_Some. by rewrite Hid.
Qed.

Definition code_body (code verifier : string) : json := JObj [("code"%string, JStr code); ("verifier"%string, JStr verifier)].

(** The whole way into the app.  The app opens the start page with the hash of
    its verifier, the person signs in to the console in that browser within ten
    minutes, and the finish page hands the app a code, ending the browser's
    session; the app trades code and verifier within two minutes; for the next
    thirty days its token is answered as that same person, with the role they
    have when it is used, while the browser's token opens nothing any more. *)
Theorem app_sign_in t0 challenge verifier b tok rq1 rq2 db u unsaved t3 :
  0 ≤ t0 → isPkceChallenge challenge = true → is_verifier verifier = true → sha256_b64url verifier = challenge →
  mr_now rq1 ≤ (t0 / 1000 + HANDOFF_TTL_SEC) * 1000 → truthy tok = true →
  (getSessionUser sha256 (mr_faults rq1) (mr_tenantId rq1) (mr_now rq1) tok (mo_auth db)).2 = Some u → can (u_role u) read_console = true →
  (∀ s, s ∈ a_sessions (mo_auth db) → se_id s ≠ (mr_ids rq1).1 ∧ se_tokenHash s ≠ sha256 (mr_secret rq1) ∧ se_tokenHash s ≠ sha256 (mr_secret rq2)) →
  truthy (mr_secret rq1) = true → mr_now rq2 ≤ mr_now rq1 + CODE_TTL_MS →
  bearerToken (Some ("Bearer " +:+ mr_secret rq2)) = Some (mr_secret rq2) → sha256 tok ≠ sha256 (mr_secret rq2) →
  t3 ≤ mr_now rq2 + MOBILE_SESSION_DAYS * (24 * 60 * 60 * 1000) →
  let b1 := (authStart hmac t0 (Some challenge) b).1 in
  let '(b2, db1, out) := authFinish sha256 hmac rq1 {| br_handoff := br_handoff b1; br_session := Some tok |} db in
  let r := authExchange sha256 sha256_b64url id rq2 (code_body (mr_secret rq1) verifier) db1 in
  out = AppCode (mr_secret rq1) ∧ br_session b2 = None ∧ r.2 = Reply 200 (mr_secret rq2, u) ∧
  (mobileSessionFromRequest sha256 unsaved t3 (Some ("Bearer " +:+ mr_secret rq2)) (mo_auth r.1)).2 = Some ((mr_ids rq1).1, u) ∧
  (∀ f tid now, (getSessionUser sha256 f tid now tok (mo_auth r.1)).2 = None).
Proof using hmac_no_dot.
  intros Ht0 Hch Hver Hpk Ht1 Htok Hu Hcan Hfresh Hcode Ht2 Hbear Htok2 Ht3. cbv zeta.
  unfold authStart. rewrite Hch. cbn [fst br_handoff]. unfold authFinish. cbn [br_handoff br_session].
  rewrite (proj2 (proj1 (handoff_roundtrip hmac hmac_no_dot challenge t0 (mr_now rq1) "" "" Ht0 Hch)) Ht1).
  cbn [from_option id default]. rewrite Htok.
  destruct (getSessionUser sha256 (mr_faults rq1) (mr_tenantId rq1) (mr_now rq1) tok (mo_auth db)) as [a1 u1] eqn:Hg. cbn in Hu. subst u1.
  apply getSessionUser_rows in Hg as (Hus & [p Hss] & Hact & Hfind). rewrite Hcan. cbn [negb].
  set (ss2 := delete_where (λ s, se_tokenHash s =s sha256 tok) (a_sessions a1)).
  assert (∀ s, s ∈ ss2 → se_id s ≠ (mr_ids rq1).1 ∧ se_tokenHash s ≠ sha256 (mr_secret rq1) ∧ se_tokenHash s ≠ sha256 (mr_secret rq2) ∧
            se_tokenHash s ≠ sha256 tok) as Hf2.
  { intros s [Hs Hb%bool_decide_eq_false]%elem_of_delete_where. rewrite Hss in Hs.
    apply elem_of_update_where in Hs as (x & Hx & ->). destruct (Hfresh x Hx) as (?&?&?). by destruct (p x). }
  set (row := {| se_id := (mr_ids rq1).1; se_userId := u_id u; se_tokenHash := sha256 (mr_secret rq1); se_expiresAt := mr_now rq1 + CODE_TTL_MS;
    se_createdAt := mr_now rq1; se_lastSeenAt := mr_now rq1; se_userAgent := Some "Captivo Admin app"%string; se_ip := mr_ip rq1;
    se_amr := (se_amr <$> find_row (λ s, se_tokenHash s =s sha256 tok) (a_sessions a1)) ?? []; se_mobile := true;
    se_mobileChallenge := Some challenge |}).
  set (row' := redeemed (mr_now rq2) (sha256 (mr_secret rq2)) None row).
  unfold authExchange. cbn [mo_auth with_auth a_sessions].
  change (a_sessions (issueMobileCode sha256 (mr_now rq1) (mr_ids rq1).1 (mr_secret rq1) (u_id u) challenge _ _)) with (ss2 ++ [row]).
  change (a_users (issueMobileCode sha256 (mr_now rq1) (mr_ids rq1).1 (mr_secret rq1) (u_id u) challenge _ _)) with (a_users a1).
  assert (redeemMobileCode sha256 sha256_b64url id (mr_now rq2) (mr_secret rq2) (JStr (mr_secret rq1)) (JStr verifier) None (ss2 ++ [row]) =
          (ss2 ++ [row'], Some (mr_secret rq2, u_id u))) as Hred.
  { unfold redeemMobileCode. cbn [str_or_empty]. rewrite Hcode. cbn [negb].
    rewrite find_row_snoc; [|intros y Hy; rewrite (bool_decide_eq_false_2 (se_tokenHash y = sha256 (mr_secret rq1))) by (by apply Hf2); done
                            |cbn; by rewrite bool_decide_eq_true_2]. cbn [se_mobileChallenge row].
    assert (truthy challenge = true) as -> by (by destruct challenge).
    cbn [negb]. change (se_expiresAt row) with (mr_now rq1 + CODE_TTL_MS). rewrite (proj2 (Z.ltb_ge _ _) Ht2). unfold pkceMatches. rewrite Hver, Hpk, bool_decide_eq_true_2 by done. cbn [negb andb orb id].
    rewrite update_where_snoc, count_where_snoc; [done|..];
      try (intros y Hy; rewrite (bool_decide_eq_false_2 (se_id y = se_id row)) by (by apply Hf2); done); cbn; by rewrite !bool_decide_eq_true_2. }
  change (obj_get (code_body (mr_secret rq1) verifier) "device") with JUndefined.
  change (obj_get (code_body (mr_secret rq1) verifier) "code") with (JStr (mr_secret rq1)).
  change (obj_get (code_body (mr_secret rq1) verifier) "verifier") with (JStr verifier).
  cbv beta iota. rewrite Hred, Hus, Hfind, (bool_decide_eq_true_2 (u_status u = UActive)) by done. cbn [fst snd mo_auth with_auth].
  split_and!; [done..| |].
  - unfold mobileSessionFromRequest. rewrite Hbear. cbn [a_sessions with_sessions].
    rewrite find_row_snoc; [|intros y Hy; rewrite (bool_decide_eq_false_2 (se_tokenHash y = sha256 (mr_secret rq2))) by (by apply Hf2); done
                            |cbn; by rewrite bool_decide_eq_true_2].
    change (se_userId row') with (u_id u). cbn [a_users with_sessions].
    change (a_users (issueMobileCode _ _ _ _ _ _ _ _)) with (a_users a1). rewrite Hus, Hfind.
    rewrite (bool_decide_eq_true_2 (u_status u = UActive)) by done. cbn. by rewrite (proj2 (Z.ltb_ge _ _) Ht3).
  - intros f tid now. unfold getSessionUser. destruct (negb (truthy tok)); [done|]. cbn [a_sessions with_sessions].
    assert (find_row (λ s, se_tokenHash s =s sha256 tok) (ss2 ++ [row']) = None) as ->; [|done].
    apply find_row_None. intros y [Hy|Hy%list_elem_of_singleton]%elem_of_app; apply bool_decide_eq_false_2; [by apply Hf2|]. subst y. cbn. congruence.
Qed.
End sign_in_thms.

(** ** Theorems: whom a push message reaches *)

Lemma elem_of_distinct l x : x ∈ distinct l ↔ x ∈ l.
Proof.
  induction l as [|y l IH]; [done|]. cbn. rewrite !elem_of_cons, list_elem_of_In, filter_In, <-list_elem_of_In, IH, negb_true_iff, bool_decide_eq_false.
  destruct (decide (x = y)); naive_solver.
Qed.
Lemma NoDup_distinct l : NoDup (distinct l).
Proof.
  induction l as [|y l IH]; [constructor|]. cbn. constructor.
  - rewrite list_elem_of_In, filter_In, negb_true_iff, bool_decide_eq_false. by intros [_ []].
  - pose proof (NoDup_filter_fmap id (λ y0, negb (y0 =s y)) (distinct l)) as Hf. rewrite !list_fmap_id in Hf. by apply Hf.
Qed.

Lemma chunks_concat n l : (length l ≤ n)%nat → concat (chunks n l) = l.
Proof.
  revert l. induction n as [|n IH]; intros [|x l] Hl; try done; [cbn in Hl; lia|].
  change (take EXPO_CHUNK (x :: l) ++ concat (chunks n (drop EXPO_CHUNK (x :: l))) = x :: l).
  rewrite IH; [apply take_drop|]. rewrite length_drop. unfold EXPO_CHUNK. cbn [length] in *. lia.
Qed.
Lemma chunks_size n l b : b ∈ chunks n l → b ≠ [] ∧ (length b ≤ EXPO_CHUNK)%nat.
Proof.
  revert l. induction n as [|n IH]; intros [|x l]; try (by intros ?%elem_of_nil).
  intros [->|Hb]%elem_of_cons; [|by apply (IH (drop EXPO_CHUNK (x :: l)))]. split; [done|]. rewrite length_take. lia.
Qed.

Lemma collect_dead_sent bs answers i dead t : collect_dead bs answers i = Some dead → t ∈ dead → t ∈ concat bs.
Proof.
  revert i dead. induction bs as [|b bs IH]; intros i dead; cbn [collect_dead]; [intros [= <-]; by intros ?%elem_of_nil|].
  destruct (answers i) as [flags|]; [|done]. destruct (mapM _ _) as [here|] eqn:Hm; [|done]. cbn.
  destruct (collect_dead bs answers (S i)) as [rest|] eqn:Hr; [|done]. cbn. intros [= <-] [Ht|Ht]%elem_of_app; apply elem_of_app.
  - left. apply mapM_Some in Hm. apply list_elem_of_lookup in Ht as [k Hk].
    destruct (Forall2_lookup_r _ _ _ _ _ Hm Hk) as (j & _ & Hj). by eapply list_elem_of_lookup_2.
  - right. by eapply IH.
Qed.

Section push_thms.
Context (sha256 sha256_b64url hmac : string → string).

(** The sessions after some other change: an id that stays is the same sign-in. *)
Definition tracks (ss ss' : list Session) : Prop :=
  NoDup (se_id <$> ss') ∧
  ∀ s s', s ∈ ss → s' ∈ ss' → se_id s = se_id s' → se_userId s = se_userId s' ∧ se_mobile s = se_mobile s'.

Record mobile_wf (db : MobileDb) : Prop := {
  mw_sessions : NoDup (se_id <$> a_sessions (mo_auth db));
  mw_tokens : NoDup (md_expoPushToken <$> mo_devices db);
  mw_valid : ∀ d, d ∈ mo_devices db → isExpoToken (JStr (md_expoPushToken d)) = true;
  mw_owner : ∀ d, d ∈ mo_devices db → ∃ s, s ∈ a_sessions (mo_auth db) ∧ se_id s = md_sessionId d ∧ se_userId s = md_userId d ∧ se_mobile s = true;
}.

Lemma tracks_refl ss : NoDup (se_id <$> ss) → tracks ss ss.
Proof. intros Hn. split; [done|]. intros s s' Hs Hs' Heq. by rewrite (NoDup_fmap_eq se_id ss s s' Hn Hs Hs' Heq). Qed.
Lemma tracks_update p f ss ss' :
  (∀ s, se_id (f s) = se_id s ∧ se_userId (f s) = se_userId s ∧ se_mobile (f s) = se_mobile s) → tracks ss ss' → tracks ss (update_where p f ss').
Proof.
  intros Hf [Hn Ht]. split; [rewrite update_where_column; [done|intros s; by destruct (Hf s)]|].
  intros s s' Hs (x & Hx & ->)%elem_of_update_where. destruct (p x); [destruct (Hf x) as (-> & -> & ->)|]; by apply Ht.
Qed.
Lemma tracks_delete p ss ss' : tracks ss ss' → tracks ss (delete_where p ss').
Proof.
  intros [Hn Ht]. split; [unfold delete_where; by apply NoDup_filter_fmap|]. intros s s' Hs [Hs' _]%elem_of_delete_where. by apply Ht.
Qed.
Lemma tracks_snoc x ss : NoDup (se_id <$> ss) → se_id x ∉ se_id <$> ss → tracks ss (ss ++ [x]).
Proof.
  intros Hn Hx. split; [by apply NoDup_fmap_snoc|]. intros s s' Hs [Hs'|Hs'%list_elem_of_singleton]%elem_of_app Heq.
  - by apply (tracks_refl ss).
  - subst s'. destruct Hx. rewrite <-Heq. by apply (list_elem_of_fmap_2 se_id).
Qed.

Lemma with_auth_wf db a : mobile_wf db → tracks (a_sessions (mo_auth db)) (a_sessions a) → mobile_wf (with_auth db a).
Proof.
  intros [W1 W2 W3 W4] [Hn Ht]. split; cbn; [done|by apply NoDup_filter_fmap|..].
  - intros d [Hd _]%list_elem_of_In%filter_In. rewrite <-list_elem_of_In in Hd. by apply W3.
  - intros d [Hd He]%list_elem_of_In%filter_In. rewrite <-list_elem_of_In in Hd. apply existsb_exists in He as (s' & Hs' & Hi%bool_decide_eq_true).
    rewrite <-list_elem_of_In in Hs'. destruct (W4 d Hd) as (s & Hs & Hsi & Hsu & Hsm). exists s'.
    destruct (Ht s s' Hs Hs') as [Hu Hm]; [congruence|]. split_and!; congruence.
Qed.

Lemma with_auth_same db : mobile_wf db → mobile_wf (with_auth db (mo_auth db)).
Proof. intros Hw. apply with_auth_wf; [done|]. apply tracks_refl, Hw. Qed.

Lemma getSessionUser_tracks f tid now token a :
  NoDup (se_id <$> a_sessions a) → tracks (a_sessions a) (a_sessions (getSessionUser sha256 f tid now token a).1).
Proof.
  intros Hn. apply tracks_refl in Hn. unfold getSessionUser. destruct (negb _); [done|]. destruct (find_row _ (a_sessions a)) as [s|]; [|done].
  destruct (_ <? _); [done|]. destruct (se_mobile s); [done|]. destruct (find_row _ (a_users a)); [|done]. destruct (negb _); [done|].
  destruct (getSessionPolicy _ _ _ _). case_match; cbn; [by apply tracks_delete|by apply tracks_update].
Qed.
Lemma getSessionUser_ids f tid now token a i :
  i ∉ se_id <$> a_sessions a → i ∉ se_id <$> a_sessions (getSessionUser sha256 f tid now token a).1.
Proof.
  intros Hi. unfold getSessionUser. destruct (negb _); [done|]. destruct (find_row _ (a_sessions a)) as [s|]; [|done].
  destruct (_ <? _); [done|]. destruct (se_mobile s); [done|]. destruct (find_row _ (a_users a)); [|done]. destruct (negb _); [done|].
  destruct (getSessionPolicy _ _ _ _). case_match; cbn [fst a_sessions with_sessions with_policy].
  - intros (x & -> & [Hx _]%elem_of_delete_where)%list_elem_of_fmap. apply Hi. by apply (list_elem_of_fmap_2 se_id).
  - by rewrite update_where_column.
Qed.
Lemma mobileSession_tracks unsaved now auth a :
  NoDup (se_id <$> a_sessions a) → tracks (a_sessions a) (a_sessions (mobileSessionFromRequest sha256 unsaved now auth a).1).
Proof.
  intros Hn. apply tracks_refl in Hn. unfold mobileSessionFromRequest. destruct (bearerToken auth) as [tok|]; [|done].
  destruct (find_row _ (a_sessions a)) as [s|]; [|done]. destruct (find_row _ (a_users a)); [|done]. destruct (_ || _); [done|].
  cbn. by apply tracks_update.
Qed.
Lemma redeem_tracks between now token c v d ss :
  NoDup (se_id <$> ss) → tracks ss (between ss) → tracks ss (redeemMobileCode sha256 sha256_b64url between now token c v d ss).1.
Proof.
  intros Hn Ht. unfold redeemMobileCode. destruct (negb _); [by apply tracks_refl|]. destruct (find_row _ ss) as [row|]; [|by apply tracks_refl].
  destruct (se_mobileChallenge row); [|by apply tracks_refl]. destruct (negb _); [by apply tracks_refl|].
  destruct (_ || _); [by apply tracks_delete|by apply tracks_update].
Qed.
(** What happens to a workspace's phones; [OpOther]: what every other route does to
    accounts and sessions. *)
Inductive mobile_step : MobileDb → MobileDb → Prop :=
  | ms_finish rq b db : (mr_ids rq).1 ∉ se_id <$> a_sessions (mo_auth db) → mobile_step db (authFinish sha256 hmac rq b db).1.2
  | ms_exchange between rq body db :
      tracks (a_sessions (mo_auth db)) (between (a_sessions (mo_auth db))) →
      mobile_step db (authExchange sha256 sha256_b64url between rq body db).1
  | ms_logout unsaved now auth db : mobile_step db (authLogout sha256 unsaved now auth db)
  | ms_register rq auth body db : mobile_step db (pushRegister sha256 rq auth body db).1
  | ms_unregister unsaved now auth body db : mobile_step db (pushUnregister sha256 unsaved now auth body db).1
  | ms_push cap now answers db : mobile_step db (pushToCapability cap now answers db).1
  | ms_other a db : tracks (a_sessions (mo_auth db)) (a_sessions a) → mobile_step db (with_auth db a).

Lemma finish_wf rq b db :
  (mr_ids rq).1 ∉ se_id <$> a_sessions (mo_auth db) → mobile_wf db → mobile_wf (authFinish sha256 hmac rq b db).1.2.
Proof.
  intros Hid Hw. unfold authFinish. destruct (readHandoff _ _ _) as [ch|]; [|done]. cbv zeta.
  set (r := if truthy _ then _ else _). assert (tracks (a_sessions (mo_auth db)) (a_sessions r.1)) as Ht.
  { unfold r. case_match; [apply getSessionUser_tracks|apply tracks_refl]; apply Hw. }
  assert (∀ i, i ∉ se_id <$> a_sessions (mo_auth db) → i ∉ se_id <$> a_sessions r.1) as Hkeep.
  { intros i Hi. unfold r. case_match; [by apply getSessionUser_ids|done]. }
  specialize (Hkeep _ Hid). destruct r as [a1 [u|]]; cbn in Ht, Hkeep; [|by apply with_auth_wf].
  assert (mobile_wf (with_auth db a1)) as W1 by (by apply with_auth_wf).
  assert (mobile_wf (with_auth (with_auth db a1) (destroySession sha256 (br_session b ?? "") a1))) as W2.
  { apply with_auth_wf; [done|]. apply tracks_delete, tracks_refl, W1. }
  case_match; [done|]. apply (with_auth_wf _ _ W2). apply tracks_snoc; [apply W2|]. cbn.
  intros (x & Hx & [Hin _]%elem_of_delete_where)%list_elem_of_fmap. apply Hkeep. rewrite Hx. by apply (list_elem_of_fmap_2 se_id).
Qed.

Lemma route_wf {A} unsaved cap now auth db (h : string → User → MobileDb → MobileDb * response A) :
  mobile_wf db →
  (∀ sid u db', mobile_wf db' → (∃ s, s ∈ a_sessions (mo_auth db') ∧ se_id s = sid ∧ se_userId s = u_id u ∧ se_mobile s = true) →
     mobile_wf (h sid u db').1) →
  mobile_wf (mobileRoute sha256 unsaved cap now auth db h).1.
Proof.
  intros Hw Hh. unfold mobileRoute. pose proof (mobileSession_tracks unsaved now auth (mo_auth db) (mw_sessions _ Hw)) as Ht.
  destruct (mobileSessionFromRequest sha256 unsaved now auth (mo_auth db)) as [a r] eqn:Hm. cbn in Ht.
  assert (mobile_wf (with_auth db a)) as W1 by (by apply with_auth_wf).
  destruct r as [[sid u]|]; [|done]. destruct (can _ _); cbn [negb]; [|done]. apply Hh; [done|].
  revert Hm. unfold mobileSessionFromRequest. destruct (bearerToken auth) as [tok|]; [|done].
  destruct (find_row _ (a_sessions (mo_auth db))) as [s|] eqn:Hs; [|done]. destruct (find_row _ (a_users (mo_auth db))) as [v|] eqn:Hv; [|done].
  destruct (_ || _); [done|]. intros [= <- <- <-]. apply find_row_Some in Hs as [Hs [[_ Hmob]%andb_prop _]%andb_prop].
  apply find_row_Some in Hv as [_ Hv%bool_decide_eq_true]. exists (if unsaved then s else set_lastSeen now s). cbn.
  split_and!; [|by destruct unsaved..].
  apply elem_of_update_where. exists s. split; [done|]. rewrite bool_decide_eq_true_2 by done. by destruct unsaved.
Qed.

Lemma push_wf cap now answers db : mobile_wf db → mobile_wf (pushToCapability cap now answers db).1.
Proof.
  intros [W1 W2 W3 W4]. unfold pushToCapability, sendExpo. cbv zeta. destruct (collect_dead _ _ _) as [dead|]; [|done]. split; cbn; [done|..].
  - unfold delete_where. by apply NoDup_filter_fmap.
  - intros d [Hd _]%elem_of_delete_where. by apply W3.
  - intros d [Hd _]%elem_of_delete_where. by apply W4.
Qed.

Lemma register_step_wf rq auth body db : mobile_wf db → mobile_wf (pushRegister sha256 rq auth body db).1.
Proof.
  intros Hw. apply route_wf; [done|]. intros sid u db' [W1 W2 W3 W4] (s & Hs & Hsi & Hsu & Hsm).
  destruct (obj_get body "expoPushToken") as [| | | |t| |]; try done. destruct (isExpoToken (JStr t)) eqn:Ht; [|done]. cbn [negb]. cbv zeta.
  destruct (existsb _ (mo_devices db')) eqn:He; split; cbn; try done.
  - rewrite (list_fmap_ext _ (λ d, if md_expoPushToken d =s t then md_expoPushToken d else md_expoPushToken d)) in W2.
    2: { intros i d _. by case_match. }
    unfold update_where. rewrite <-list_fmap_compose. erewrite list_fmap_ext; [exact W2|]. intros i d _. cbn.
    destruct (md_expoPushToken d =s t) eqn:E; [|done]. cbn. by apply bool_decide_eq_true in E.
  - intros d (x & Hx & ->)%elem_of_update_where. case_match; [done|by apply W3].
  - intros d (x & Hx & ->)%elem_of_update_where. case_match; [by exists s|by apply W4].
  - apply NoDup_fmap_snoc; [done|]. intros (x & Hx & Hin)%list_elem_of_fmap. cbn in Hx. apply not_true_iff_false in He. apply He.
    apply existsb_exists. exists x. rewrite <-list_elem_of_In. split; [done|]. by apply bool_decide_eq_true_2.
  - intros d [Hd|Hd%list_elem_of_singleton]%elem_of_app; [by apply W3|by subst d].
  - intros d [Hd|Hd%list_elem_of_singleton]%elem_of_app; [by apply W4|subst d; by exists s].
Qed.

Lemma mobile_step_wf db db' : mobile_step db db' → mobile_wf db → mobile_wf db'.
Proof.
  intros Hst Hw. destruct Hst as [rq b db Hid|between rq body db Ht|unsaved now auth db|rq auth body db|unsaved now auth body db|cap now answers db|a db Ht].
  - by apply finish_wf.
  - unfold authExchange. cbv zeta.
    match goal with |- context [redeemMobileCode ?x1 ?x2 ?x3 ?x4 ?x5 ?x6 ?x7 ?x8 ?x9] =>
      pose proof (redeem_tracks x3 x4 x5 x6 x7 x8 x9 (mw_sessions _ Hw) Ht) as Hr; destruct (redeemMobileCode x1 x2 x3 x4 x5 x6 x7 x8 x9) as [ss r] end.
    assert (mobile_wf (with_auth db (with_sessions (mo_auth db) ss))) by (by apply with_auth_wf). by repeat case_match.
  - unfold authLogout. pose proof (mobileSession_tracks unsaved now auth (mo_auth db) (mw_sessions _ Hw)) as Ht.
    destruct (mobileSessionFromRequest _ _ _ _ _) as [a [[sid u]|]]; [|by apply with_auth_wf]. apply with_auth_wf; [done|]. by apply tracks_delete.
  - by apply register_step_wf.
  - apply route_wf; [done|]. intros sid u db' [W1 W2 W3 W4] _. destruct (obj_get body "expoPushToken"); try done. split; cbn; try done.
    + unfold delete_where. by apply NoDup_filter_fmap.
    + intros d [Hd _]%elem_of_delete_where. by apply W3.
    + intros d [Hd _]%elem_of_delete_where. by apply W4.
  - by apply push_wf.
  - by apply with_auth_wf.
Qed.

Lemma entitled_iff cap now a d :
  NoDup (u_id <$> a_users a) → NoDup (se_id <$> a_sessions a) →
  entitled cap now a d = true ↔ ∃ u s, u ∈ a_users a ∧ s ∈ a_sessions a ∧ u_id u = md_userId d ∧ se_id s = md_sessionId d ∧
    u_status u = UActive ∧ now < se_expiresAt s ∧ can (u_role u) cap = true.
Proof.
  intros Hnu Hns. unfold entitled. split.
  - destruct (find_row _ (a_users a)) as [u|] eqn:Hu; [|done]. destruct (find_row _ (a_sessions a)) as [s|] eqn:Hs; [|done].
    apply find_row_Some in Hu as [? ?%bool_decide_eq_true], Hs as [? ?%bool_decide_eq_true].
    intros [[?%bool_decide_eq_true ?%Z.ltb_lt]%andb_prop ?]%andb_prop. by exists u, s.
  - intros (u & s & Hu & Hs & Hui & Hsi & Hst & Hex & Hcan).
    destruct (find_row _ (a_users a)) as [u'|] eqn:Hu'.
    2: { rewrite find_row_None in Hu'. specialize (Hu' u Hu). by apply bool_decide_eq_false in Hu'. }
    destruct (find_row _ (a_sessions a)) as [s'|] eqn:Hs'.
    2: { rewrite find_row_None in Hs'. specialize (Hs' s Hs). by apply bool_decide_eq_false in Hs'. }
    apply find_row_Some in Hu' as [? ?%bool_decide_eq_true], Hs' as [? ?%bool_decide_eq_true].
    assert (u' = u) as -> by (apply (NoDup_fmap_eq u_id (a_users a)); congruence).
    assert (s' = s) as -> by (apply (NoDup_fmap_eq se_id (a_sessions a)); congruence).
    rewrite bool_decide_eq_true_2 by done. apply Z.ltb_lt in Hex. by rewrite Hex, Hcan.
Qed.

(** Whom a push message reaches.  In every run of sign-ins, sign-outs,
    registrations and whatever else happens to accounts and sessions, a message
    for a capability goes to a phone exactly when it is registered under an app
    sign-in that still exists and has not expired, whose owner is active and has
    the capability in their role of that moment; each phone gets it once, in
    batches of at most a hundred; and afterwards only phones it was sent to may
    have been forgotten. *)
Theorem push_recipients db0 db cap now answers :
  NoDup (se_id <$> a_sessions (mo_auth db0)) → mo_devices db0 = [] → rtc mobile_step db0 db → NoDup (u_id <$> a_users (mo_auth db)) →
  let '(db', sent) := pushToCapability cap now answers db in
  (∀ t, t ∈ concat sent ↔ ∃ d s u, d ∈ mo_devices db ∧ md_expoPushToken d = t ∧ s ∈ a_sessions (mo_auth db) ∧ se_id s = md_sessionId d ∧
     se_mobile s = true ∧ now < se_expiresAt s ∧ u ∈ a_users (mo_auth db) ∧ u_id u = se_userId s ∧ u_status u = UActive ∧ can (u_role u) cap = true) ∧
  NoDup (concat sent) ∧ (∀ b, b ∈ sent → b ≠ [] ∧ (length b ≤ 100)%nat) ∧
  (∀ d, d ∈ mo_devices db' → d ∈ mo_devices db) ∧ (∀ d, d ∈ mo_devices db → d ∉ mo_devices db' → md_expoPushToken d ∈ concat sent).
Proof.
  intros Hn Hd0 Hrun Hnu.
  assert (mobile_wf db) as [W1 W2 W3 W4].
  { assert (mobile_wf db0) as W0 by (split; rewrite ?Hd0; try done; [constructor|by intros d ?%elem_of_nil..]).
    clear Hn Hd0 Hnu. induction Hrun as [db|a b c Hab _ IH]; [done|]. by apply IH, (mobile_step_wf a). }
  unfold pushToCapability, sendExpo. cbv zeta. set (valid := distinct _). rewrite chunks_concat by done.
  assert (∀ t, t ∈ valid ↔ ∃ d, d ∈ mo_devices db ∧ md_expoPushToken d = t ∧ entitled cap now (mo_auth db) d = true) as Hv.
  { intros t. unfold valid. rewrite elem_of_distinct, list_elem_of_In, filter_In, in_map_iff. split.
    - intros [(d & <- & [Hd He]%filter_In) _]. exists d. by rewrite list_elem_of_In.
    - intros (d & Hd & <- & He). split; [exists d; rewrite filter_In, <-list_elem_of_In; done|by apply W3]. }
  split_and!.
  - intros t. rewrite Hv. split.
    + intros (d & Hd & <- & (u & s & Hu & Hs & Hui & Hsi & ? & ? & ?)%entitled_iff); [|done..]. exists d, s, u.
      destruct (W4 d Hd) as (s' & Hs' & Hsi' & Hsu' & Hsm').
      assert (s' = s) as -> by (apply (NoDup_fmap_eq se_id (a_sessions (mo_auth db))); congruence). split_and!; congruence.
    + intros (d & s & u & Hd & <- & Hs & Hsi & Hsm & Hex & Hu & Hui & Hst & Hcan). exists d. split_and!; [done..|].
      apply entitled_iff; [done..|]. exists u, s. destruct (W4 d Hd) as (s' & Hs' & Hsi' & Hsu' & _).
      assert (s' = s) as -> by (apply (NoDup_fmap_eq se_id (a_sessions (mo_auth db))); congruence). split_and!; congruence.
  - apply NoDup_distinct.
  - intros b Hb. by apply chunks_size in Hb.
  - intros d. destruct (collect_dead _ _ _); [|done]. by intros [? _]%elem_of_delete_where.
  - intros d Hd. destruct (collect_dead _ _ _) as [dead|] eqn:Hdead; [|done]. cbn. rewrite elem_of_delete_where. intros Hnd.
    destruct (decide (md_expoPushToken d ∈ dead)) as [Hin|Hin].
    + apply (collect_dead_sent _ _ _ _ _ Hdead) in Hin. by rewrite chunks_concat in Hin.
    + destruct Hnd. split; [done|]. by apply bool_decide_eq_false_2.
Qed.
End push_thms.

(** ** Concrete runs *)

Definition demo_verifier : string := "abcdefghijklmnopqrstuvwxyzABCDEFGHIJKLMNOPQ".
Definition demo_app_auth : Auth :=
  {| a_users := [demo_user "op" ADMIN];
     a_sessions := [{| se_id := "x"; se_userId := "op"; se_tokenHash := "tok"; se_expiresAt := 1900000000000; se_createdAt := 1800000000000;
                       se_lastSeenAt := 1800000000000; se_userAgent := None; se_ip := None; se_amr := []; se_mobile := false;
                       se_mobileChallenge := None |}];
     a_policy := {| policyRows := ∅; policyCache := None |} |}.
Definition demo_app_db : MobileDb := {| mo_auth := demo_app_auth; mo_devices := [] |}.
Definition demo_app_req (now : Z) (secret : string) : MobileReq :=
  {| mr_tenantId := "t1"; mr_now := now; mr_ids := ("m1", "d1")%string; mr_secret := secret; mr_ip := None; mr_faults := no_faults |}.
Definition demo_bearer : string := "bearer-bearer-bearer-1".
Definition demo_flow : Browser * MobileDb * AppRedirect :=
  authFinish (λ s, s) (λ _, "mac"%string) (demo_app_req 1800000060000 "code")
    {| br_handoff := br_handoff (authStart (λ _, "mac"%string) 1800000000000 (Some demo_verifier) {| br_handoff := None; br_session := None |}).1;
       br_session := Some "tok"%string |} demo_app_db.
Definition demo_signed : MobileDb :=
  (authExchange (λ s, s) (λ s, s) id (demo_app_req 1800000090000 demo_bearer) (code_body "code" demo_verifier) demo_flow.1.2).1.

Lemma app_sign_in_witness :
  demo_flow.2 = AppCode "code" ∧
  (mobileSessionFromRequest (λ s, s) false 1802000000000 (Some ("Bearer " +:+ demo_bearer)) (mo_auth demo_signed)).2 = Some ("m1"%string, demo_user "op" ADMIN).
Proof.
  assert (∀ s, s ∈ a_sessions demo_app_auth → se_id s ≠ "m1"%string ∧ se_tokenHash s ≠ "code"%string ∧ se_tokenHash s ≠ demo_bearer) as Hfresh.
  { intros s ->%list_elem_of_singleton. split_and!; vm_compute; discriminate. }
  pose proof (app_sign_in (λ s, s) (λ s, s) (λ _, "mac"%string) ltac:(intros; apply (bool_decide_unpack _); vm_compute; exact I)
    1800000000000 demo_verifier demo_verifier {| br_handoff := None; br_session := None |} "tok" (demo_app_req 1800000060000 "code")
    (demo_app_req 1800000090000 demo_bearer) demo_app_db (demo_user "op" ADMIN) false 1802000000000
    ltac:(discriminate) ltac:(vm_compute; reflexivity) ltac:(vm_compute; reflexivity) eq_refl ltac:(vm_compute; discriminate) eq_refl
    ltac:(vm_compute; reflexivity) eq_refl Hfresh eq_refl ltac:(vm_compute; discriminate) ltac:(vm_compute; reflexivity)
    ltac:(vm_compute; discriminate) ltac:(vm_compute; discriminate)) as Hw.
  cbv zeta in Hw. fold demo_flow in Hw. unfold demo_signed. destruct demo_flow as [[b2 db1] out].
  destruct Hw as (Ho & _ & _ & Hs & _). split; [exact Ho|exact Hs].
Defined.

(** The phone registers, and a message to the approvers reaches it. *)
Definition demo_push_token : string := "ExponentPushToken[abc]".
Definition demo_registered : MobileDb :=
  (pushRegister (λ s, s) (demo_app_req 1800000100000 "") (Some ("Bearer " +:+ demo_bearer))
     (JObj [("expoPushToken"%string, JStr demo_push_token)]) demo_signed).1.

Lemma push_recipients_witness :
  (pushToCapability approve_grants 1800000200000 (λ _, None) demo_registered).2 = [[demo_push_token]] ∧
  ∃ d s u, d ∈ mo_devices demo_registered ∧ md_expoPushToken d = demo_push_token ∧ s ∈ a_sessions (mo_auth demo_registered) ∧
    se_mobile s = true ∧ u ∈ a_users (mo_auth demo_registered) ∧ u_status u = UActive ∧ can (u_role u) approve_grants = true.
Proof.
  split; [vm_compute; reflexivity|].
  pose proof (push_recipients (λ s, s) (λ s, s) (λ _, "mac"%string) demo_app_db demo_registered approve_grants 1800000200000 (λ _, None)) as Hw.
  destruct (pushToCapability approve_grants 1800000200000 (λ _, None) demo_registered) as [db' sent] eqn:Hp.
  destruct Hw as (Hrec & _).
  - apply (bool_decide_unpack _); vm_compute; exact I.
  - reflexivity.
  - eapply rtc_l; [apply (ms_finish _ _ _ (demo_app_req 1800000060000 "code")
      {| br_handoff := br_handoff (authStart (λ _, "mac"%string) 1800000000000 (Some demo_verifier) {| br_handoff := None; br_session := None |}).1;
         br_session := Some "tok"%string |}); apply (bool_decide_unpack _); vm_compute; exact I|].
    eapply rtc_l; [apply (ms_exchange _ _ _ id (demo_app_req 1800000090000 demo_bearer) (code_body "code" demo_verifier)); apply tracks_refl;
      apply (bool_decide_unpack _); vm_compute; exact I|].
    eapply rtc_l; [apply (ms_register _ _ _ (demo_app_req 1800000100000 "") (Some ("Bearer " +:+ demo_bearer))
      (JObj [("expoPushToken"%string, JStr demo_push_token)]))|]. apply rtc_refl.
  - apply (bool_decide_unpack _); vm_compute; exact I.
  - destruct (proj1 (Hrec demo_push_token)) as (d & s & u & ? & ? & ? & _ & ? & _ & ? & _ & ? & ?).
    + replace sent with [[demo_push_token]] by (apply (f_equal snd) in Hp; vm_compute in Hp; exact Hp). by left.
    + exists d, s, u. split_and!; assumption.
Defined.
