(* ===== verification/Provider.v ===== *)
(** * The identity provider of a workspace

    src/lib/auth/oidc-source.ts, oidc-config.ts, oidc-state.ts,
    src/lib/deployment-mode.ts, src/lib/url.ts, the routes auth/oidc/start,
    admin/sso and admin/sso/test, and center/membership, by which the
    organisation centre announces that a member changed.

    One tenant's OidcConfig row is an [option]; the environment is a function;
    random values, discovery and the cipher are arguments.  [SignIn] models the
    callback that follows the start route. *)

From S2P Require Import Prelude JsString JsValue Schema Transaction AuditChain AccessLog AdminLog Identity Access Sessions Tenant Directory SignIn Passkeys.

(** ** Deployment *)

Inductive DeploymentMode := Saas | SelfHosted.
#[global] Instance DeploymentMode_eq_dec : EqDecision DeploymentMode.
Proof. solve_decision. Defined.

Definition Env : Type := string → option string.

Definition deploymentMode (env : Env) : DeploymentMode :=
  if bool_decide (env "CAPTIVO_DEPLOYMENT" = Some "saas"%string) then Saas else SelfHosted.
Definition isSelfHosted (env : Env) : bool := bool_decide (deploymentMode env = SelfHosted).

(** ** The source *)

Record PlatformOidc := { po_issuer : string; po_clientId : string; po_clientSecret : string }.
Record TenantOidc := { to_enabled : bool; to_issuer : string; to_clientId : string; to_hasSecret : bool }.
Inductive OidcSource := FromTenant | FromPlatform (config : PlatformOidc) | NoSource.

(** [env.X?.trim()] when it is not empty. *)
Definition env_trimmed (env : Env) (name : string) : option string := some_truthy (trim <$> env name).

Definition readPlatformOidc (env : Env) : option PlatformOidc :=
  if isSelfHosted env then None else
  match env_trimmed env "CAPTIVO_ID_ISSUER", env_trimmed env "CAPTIVO_ID_CLIENT_ID", env_trimmed env "CAPTIVO_ID_CLIENT_SECRET" with
  | Some i, Some c, Some s => Some {| po_issuer := i; po_clientId := c; po_clientSecret := s |}
  | _, _, _ => None
  end.

Definition pickOidcSource (tenant : option TenantOidc) (platform : option PlatformOidc) : OidcSource :=
  match tenant with
  | Some t => if to_enabled t then FromTenant else NoSource
  | None => match platform with Some p => FromPlatform p | None => NoSource end
  end.

(** ** The stored configuration *)

(** A row of OidcConfig; [or_secret] is the encrypted text. *)
Record OidcRow := {
  or_enabled : bool;
  or_issuer : string;
  or_clientId : string;
  or_secret : string;
  or_buttonLabel : option string;
  or_verifiedAt : option Z;
  or_verifiedOk : option bool;
  or_verifiedDetail : option string;
}.

Record OidcConfigView := {
  ov_isPlatform : bool;
  ov_enabled : bool;
  ov_issuer : string;
  ov_clientId : string;
  ov_buttonLabel : option string;
  ov_hasSecret : bool;
  ov_verifiedAt : option Z;
  ov_verifiedOk : option bool;
  ov_verifiedDetail : option string;
}.

Definition tenant_oidc (r : OidcRow) : TenantOidc :=
  {| to_enabled := or_enabled r; to_issuer := or_issuer r; to_clientId := or_clientId r; to_hasSecret := truthy (or_secret r) |}.

(** [dbError]: the read threw. *)
Definition getOidcConfig (env : Env) (dbError : bool) (c : option OidcRow) : option OidcConfigView :=
  if dbError then None else
  match pickOidcSource (tenant_oidc <$> c) (readPlatformOidc env) with
  | NoSource => None
  | FromPlatform p =>
      Some {| ov_isPlatform := true; ov_enabled := true; ov_issuer := po_issuer p; ov_clientId := po_clientId p;
              ov_buttonLabel := Some "Sign in with Captivo"%string; ov_hasSecret := true; ov_verifiedAt := None;
              ov_verifiedOk := None; ov_verifiedDetail := None |}
  | FromTenant =>
      match c with
      | None => None
      | Some r =>
          Some {| ov_isPlatform := false; ov_enabled := or_enabled r; ov_issuer := or_issuer r; ov_clientId := or_clientId r;
                  ov_buttonLabel := or_buttonLabel r; ov_hasSecret := truthy (or_secret r);
                  ov_verifiedAt := or_verifiedAt r; ov_verifiedOk := or_verifiedOk r;
                  ov_verifiedDetail := or_verifiedDetail r |}
      end
  end.

Section config.
(** AES-GCM of lib/crypto.ts; a text that was not encrypted here throws ([None]). *)
Context (encrypt : string → string) (decrypt : string → option string).

(** The outer [None] is a throw, the inner one [null]. *)
Definition getOidcSecret (env : Env) (c : option OidcRow) : option (option string) :=
  match pickOidcSource (tenant_oidc <$> c) (readPlatformOidc env) with
  | FromPlatform p => Some (Some (po_clientSecret p))
  | NoSource => Some None
  | FromTenant =>
      match c with
      | None => Some None
      | Some r => if truthy (or_secret r) then Some <$> decrypt (or_secret r) else Some None
      end
  end.

Definition saveOidcConfig (enabled : bool) (issuer0 clientId0 : string) (clientSecret buttonLabel0 : option string)
    (c : option OidcRow) : OidcRow :=
  let issuer := trim issuer0 in
  let clientId := trim clientId0 in
  let buttonLabel := some_truthy (trim <$> buttonLabel0) in
  let encSecret := (λ s, encrypt (trim s)) <$> some_truthy clientSecret in
  match c with
  | None =>
      {| or_enabled := enabled; or_issuer := issuer; or_clientId := clientId; or_secret := encSecret ?? "";
         or_buttonLabel := buttonLabel; or_verifiedAt := None; or_verifiedOk := None; or_verifiedDetail := None |}
  | Some r =>
      {| or_enabled := enabled; or_issuer := issuer; or_clientId := clientId; or_secret := encSecret ?? or_secret r;
         or_buttonLabel := buttonLabel; or_verifiedAt := or_verifiedAt r; or_verifiedOk := or_verifiedOk r;
         or_verifiedDetail := or_verifiedDetail r |}
  end.

(** What a console request of these routes brings along; [cq_dbError]: the read
    of the configuration throws. *)
Record ConfigReq := {
  cq_user : option User;
  cq_now : Z;
  cq_auditId : string;
  cq_auditFails : bool;
  cq_ip : option string;
  cq_dbError : bool;
}.
Record SsoDb := { sd_oidc : option OidcRow; sd_log : AdminDb }.

Context (frac_text : Z → string) (digest : string → string) (json_store : json → json).

(** POST admin/sso. *)
Definition ssoPost (env : Env) (rq : ConfigReq) (body : json) (db : SsoDb) : SsoDb * response unit :=
  match cq_user rq with
  | None => (db, Fail 401 "unauthorized")
  | Some me =>
      if negb (can (u_role me) configure) then (db, Fail 403 "forbidden") else
      let issuer := trim (str_or_empty (obj_get body "issuer")) in
      let clientId := trim (str_or_empty (obj_get body "clientId")) in
      let enabled := match obj_get body "enabled" with JBool true => true | _ => false end in
      let clientSecret := as_string (obj_get body "clientSecret") in
      let buttonLabel := as_string (obj_get body "buttonLabel") in
      if negb (truthy issuer) || negb (truthy clientId) then (db, Fail 400 "issuer_client_required") else
      if enabled && bool_decide (some_truthy clientSecret = None) &&
         negb (match getOidcConfig env (cq_dbError rq) (sd_oidc db) with Some v => ov_hasSecret v | None => false end)
      then (db, Fail 400 "secret_required") else
      ({| sd_oidc := Some (saveOidcConfig enabled issuer clientId clientSecret buttonLabel (sd_oidc db));
          sd_log := recordAdminAction frac_text digest json_store (cq_auditFails rq) (cq_auditId rq) (cq_now rq) (sd_log db)
            {| in_actor := {| actor_id := u_id me; actor_email := Some (u_email me) |}; in_action := "config.sso_update";
               in_targetType := None; in_targetId := None; in_summary := "Updated SSO settings";
               in_metadata := JUndefined; in_clientIp := cq_ip rq |} |}, Reply 200 tt)
  end.

(** [verifyResultFields] on a row. *)
Definition set_verified_oidc (ok : bool) (detail : option string) (now : Z) (r : OidcRow) : OidcRow :=
  {| or_enabled := or_enabled r; or_issuer := or_issuer r; or_clientId := or_clientId r; or_secret := or_secret r;
     or_buttonLabel := or_buttonLabel r; or_verifiedAt := Some now; or_verifiedOk := Some ok;
     or_verifiedDetail := if ok then None else detail |}.

(** POST admin/sso/test; [discovered]: whether discovery answered. *)
Definition ssoTest (env : Env) (rq : ConfigReq) (discovered : bool) (db : SsoDb) : SsoDb * response bool :=
  match cq_user rq with
  | None => (db, Fail 401 "unauthorized")
  | Some me =>
      if negb (can (u_role me) configure) then (db, Fail 403 "forbidden") else
      match getOidcConfig env (cq_dbError rq) (sd_oidc db) with
      | None => (db, Reply 200 false)
      | Some v =>
          if negb (truthy (ov_issuer v)) then (db, Reply 200 false) else
          ({| sd_oidc := set_verified_oidc discovered (Some "unreachable"%string) (cq_now rq) <$> sd_oidc db; sd_log := sd_log db |},
           Reply 200 discovered)
      end
  end.
End config.

(** ** Addresses of the manager *)

Definition slash_char : Ascii.ascii := Ascii.ascii_of_N 47.
(** [replace(/\/+$/, '')]. *)
Fixpoint drop_slashes (l : list Ascii.ascii) : list Ascii.ascii :=
  match l with
  | [] => []
  | c :: l' => if bool_decide (c = slash_char) then drop_slashes l' else l
  end.
Definition strip_slashes (s : string) : string := unchars (reverse (drop_slashes (reverse (chars s)))).

Section url.
Context (env : Env) (consoleDom : option string).

(** [managerBaseUrlFromHeaders]: [consoleDom] is [consoleDomain()]. *)
Definition managerBaseUrlFromHeaders (xfHost host xfProto : option string) (defaultProto fallbackOrigin : option string) : string :=
  let hst := match xfHost with Some h => Some h | None => host end in
  let fwd := match xfProto with Some p => trim (hd ""%string (split comma_char p)) | None => ""%string end in
  let proto := if truthy fwd then fwd else match some_truthy defaultProto with Some d => d | None => "https"%string end in
  let configured := env_trimmed env "MANAGER_PUBLIC_URL" in
  match some_truthy hst with
  | Some h =>
      if multiTenantEnabled env && bool_decide (is_Some (some_truthy (slugFromHost h consoleDom))) then proto +:+ "://" +:+ h
      else match configured with Some c => strip_slashes c | None => proto +:+ "://" +:+ h end
  | None => match configured with Some c => strip_slashes c | None => fallbackOrigin ?? "" end
  end.

Definition managerBaseUrl (h : OriginHeaders) : string :=
  managerBaseUrlFromHeaders (h_xForwardedHost h) (h_host h) (h_xForwardedProto h)
    (Some (drop_colon (h_protocol h))) (Some (h_selfOrigin h)).

Definition CONNECTOR_TUNNEL_PLACEHOLDER : string := "wss://connect.<your-access-domain>".

(** [parse]: protocol, hostname and port of [new URL]. *)
Definition deriveTunnelUrl (parse : string → option (string * string * string)) (managerPublicUrl : option string) : option string :=
  match some_truthy (trim <$> managerPublicUrl) with
  | None => None
  | Some raw =>
      match parse raw with
      | None => None
      | Some (protocol, hostname, port) =>
          if truthy port then None else
          if negb (startsWith "manager." hostname) then None else
          Some ((if protocol =s "https:" then "wss" else "ws") +:+ "://" +:+ "connect." +:+ slice_from 8 hostname)
      end
  end.

Definition connectorTunnelUrl (parse : string → option (string * string * string)) : string :=
  match env_trimmed env "CONNECTOR_TUNNEL_URL" with
  | Some c => strip_slashes c
  | None => deriveTunnelUrl parse (env "MANAGER_PUBLIC_URL") ?? CONNECTOR_TUNNEL_PLACEHOLDER
  end.
End url.

(** ** The sign-in round trip *)

Record OidcRoundTrip := {
  rt_state : string;
  rt_nonce : string;
  rt_codeVerifier : string;
  rt_returnTo : string;
  rt_stepUp : bool;
}.
(** What the callback of [SignIn] keeps of it. *)
Definition callback_state (d : OidcRoundTrip) : OidcState :=
  {| os_state := rt_state d; os_nonce := rt_nonce d; os_returnTo := rt_returnTo d; os_stepUp := rt_stepUp d |}.

Definition TTL_SECONDS : Z := 600.

Section round_trip.
Context `{Jwt}.

(** The cookie holds a signed token or nothing. *)
Definition setOidcState (now : Z) (d : OidcRoundTrip) : option token :=
  Some (signJwt [("state", JStr (rt_state d)); ("nonce", JStr (rt_nonce d)); ("codeVerifier", JStr (rt_codeVerifier d));
                 ("returnTo", JStr (rt_returnTo d)); ("stepUp", JBool (rt_stepUp d))]%string (now / 1000 + TTL_SECONDS)).

Definition readOidcState (now : Z) (cookie : option token) : option OidcRoundTrip :=
  match cookie ≫= jwtVerify now with
  | None => None
  | Some payload =>
      match as_string (obj_get payload "state"), as_string (obj_get payload "nonce"),
            as_string (obj_get payload "codeVerifier"), as_string (obj_get payload "returnTo") with
      | Some s, Some n, Some v, Some r =>
          Some {| rt_state := s; rt_nonce := n; rt_codeVerifier := v; rt_returnTo := r;
                  rt_stepUp := match obj_get payload "stepUp" with JBool true => true | _ => false end |}
      | _, _, _, _ => None
      end
  end.

(** What discovery answers. *)
Record Discovery := { di_authorization : string; di_scopes : json }.

(** A request to the start route, with the random values it draws. *)
Record StartReq := {
  sr_now : Z;
  sr_returnTo : option string;
  sr_stepUp : option string;
  sr_random : string * string * string;
  sr_base : string;
  sr_cookieDomain : option string;
  sr_dbError : bool;
}.

Inductive start_answer :=
  | ToLogin (error : option string)
  | ToProvider (endpoint : string) (query : list (string * string)).

Context (parse_url : string → option Url) (s256 : string → string) (discover : string → option Discovery).

Definition oidcStart (env : Env) (rq : StartReq) (c : option OidcRow) (cookie : option token) : option token * start_answer :=
  match getOidcConfig env (sr_dbError rq) c with
  | None => (cookie, ToLogin None)
  | Some cfg =>
      if negb (ov_enabled cfg) then (cookie, ToLogin None) else
      let returnTo := safeReturnTo parse_url (sr_cookieDomain rq) (sr_returnTo rq) in
      let stepUp := bool_decide (sr_stepUp rq = Some "1"%string) in
      let '(state, nonce, codeVerifier) := sr_random rq in
      match discover (ov_issuer cfg) with
      | None => (cookie, ToLogin (Some "sso"%string))
      | Some disc =>
          (setOidcState (sr_now rq)
             {| rt_state := state; rt_nonce := nonce; rt_codeVerifier := codeVerifier; rt_returnTo := returnTo; rt_stepUp := stepUp |},
           ToProvider (di_authorization disc)
             ([("response_type", "code"); ("client_id", ov_clientId cfg);
               ("redirect_uri", sr_base rq +:+ "/api/auth/oidc/callback");
               ("scope", authorizationScope (di_scopes disc)); ("state", state); ("nonce", nonce);
               ("code_challenge", s256 codeVerifier); ("code_challenge_method", "S256"); ("ui_locales", "en")]%string
              ++ (if stepUp then [("prompt", "login")]%string else [])))
      end
  end.
End round_trip.

(** ** Membership, as the centre announces it *)

(** The address test of the route: one [@], no blank, a dot inside the domain. *)
Definition email_re (s : string) : bool :=
  match split_chars at_char (chars s) with
  | [l; d] =>
      negb (bool_decide (l = [])) && forallb (λ c, negb (is_ws c)) (l ++ d) &&
      existsb (λ c, bool_decide (c = period)) (drop 1 (removelast d))
  | _ => false
  end.

Record MemberDb := { mb_users : list User; mb_sessions : list Session }.

Record MemberReq := {
  mr_secret : option string;
  mr_header : option string;
  mr_tenant : string;
  mr_slug : option string;
  mr_slugByOrg : string → option string;
}.

Inductive Outcome := OUnchanged | ORenamed | OSignedOut | ORevoked | OUpdate.

Definition set_email (email : string) (u : User) : User :=
  {| u_id := u_id u; u_email := email; u_name := u_name u; u_phone := u_phone u; u_company := u_company u;
     u_timezone := u_timezone u; u_role := u_role u; u_status := u_status u; u_directoryManaged := u_directoryManaged u;
     u_directoryLastVerifiedAt := u_directoryLastVerifiedAt u; u_centerRole := u_centerRole u |}.

(** The writes of one outcome: the user's row and the end of their sessions. *)
Definition apply_member (id : string) (f : User → User) (db : MemberDb) : MemberDb :=
  {| mb_users := update_where (λ u, u_id u =s id) f (mb_users db);
     mb_sessions := delete_where (λ s, se_userId s =s id) (mb_sessions db) |}.

(** [body.role]: [None] when it is neither null nor a text. *)
Definition pushed_role (body : json) : option json :=
  match obj_get body "role" with JNull => Some JNull | JStr s => Some (JStr s) | _ => None end.

Definition membershipPost (rq : MemberReq) (body : json) (db : MemberDb) : MemberDb * response Outcome :=
  let expected := trim (mr_secret rq ?? "") in
  let given := mr_header rq ?? "" in
  if negb (truthy expected) || negb (given =s expected) then (db, Fail 401 "unauthorized") else
  if mr_tenant rq =s PLATFORM_TENANT_ID then (db, Fail 404 "not_found") else
  let org := trim (str_or_empty (obj_get body "org")) in
  let email := toLowerCase (trim (str_or_empty (obj_get body "email"))) in
  let signOut := match obj_get body "signOut" with JBool true => true | _ => false end in
  let newEmail := toLowerCase (trim (str_or_empty (obj_get body "newEmail"))) in
  let role := pushed_role body in
  if negb (truthy org) || negb (truthy email) || (bool_decide (role = None) && negb signOut && negb (truthy newEmail))
  then (db, Fail 400 "bad_request") else
  match mr_slug rq with
  | None => (db, Fail 404 "not_found")
  | Some slug =>
      if negb (bool_decide (mr_slugByOrg rq org = Some slug)) then (db, Fail 404 "not_found") else
      match find_row (λ u, same_email (u_email u) email) (mb_users db) with
      | None => (db, Reply 200 OUnchanged)
      | Some user =>
          if bool_decide (u_centerRole user = None) then (db, Reply 200 OUnchanged) else
          if truthy newEmail then
            if negb (email_re newEmail) then (db, Fail 400 "bad_request") else
            match find_row (λ u, same_email (u_email u) newEmail) (mb_users db) with
            | Some taken =>
                if negb (u_id taken =s u_id user) then (db, Fail 409 "email_taken")
                else (apply_member (u_id user) (set_email newEmail) db, Reply 200 ORenamed)
            | None => (apply_member (u_id user) (set_email newEmail) db, Reply 200 ORenamed)
            end
          else if signOut then (apply_member (u_id user) (λ u, u) db, Reply 200 OSignedOut)
          else
            match reconcileCenterRole (u_role user) (u_centerRole user) (u_status user) (role ?? JUndefined) with
            | RUnchanged => (db, Reply 200 OUnchanged)
            | RRevoked => (apply_member (u_id user) (set_center None UDisabled) db, Reply 200 ORevoked)
            | RUpdate r c => (apply_member (u_id user) (set_center (Some (r, c)) UActive) db, Reply 200 OUpdate)
            end
      end
  end.

(** ** Theorems: one provider *)

Section provider.
Context (encrypt : string → string) (decrypt : string → option string).
Context (frac_text : Z → string) (digest : string → string) (json_store : json → json).
Context (decrypts : ∀ s, decrypt (encrypt s) = Some s) (encrypted : ∀ s, encrypt s ≠ ""%string).
Implicit Types (env : Env) (c : option OidcRow).

Lemma some_truthy_Some o s : some_truthy o = Some s → o = Some s ∧ truthy s = true.
Proof. unfold some_truthy. destruct o as [y|]; [destruct (truthy y) eqn:Hy|]; [|done..]. by intros [= <-]. Qed.

Lemma readPlatform_Some env p :
  readPlatformOidc env = Some p → deploymentMode env = Saas ∧
  truthy (po_issuer p) = true ∧ truthy (po_clientId p) = true ∧ truthy (po_clientSecret p) = true.
Proof.
  unfold readPlatformOidc, isSelfHosted. case_bool_decide as Hd; [done|].
  destruct (env_trimmed env "CAPTIVO_ID_ISSUER") as [i|] eqn:Hi; [|done].
  destruct (env_trimmed env "CAPTIVO_ID_CLIENT_ID") as [c|] eqn:Hc; [|done].
  destruct (env_trimmed env "CAPTIVO_ID_CLIENT_SECRET") as [s|] eqn:Hs; [|done]. intros [= <-].
  apply some_truthy_Some in Hi as [_ ?], Hc as [_ ?], Hs as [_ ?]. split_and!; try done. by destruct (deploymentMode env).
Qed.

Lemma getOidcConfig_cases env c v :
  getOidcConfig env false c = Some v →
  (∃ p, c = None ∧ readPlatformOidc env = Some p ∧ ov_isPlatform v = true ∧ ov_issuer v = po_issuer p ∧ ov_clientId v = po_clientId p) ∨
  (∃ r, c = Some r ∧ or_enabled r = true ∧ ov_isPlatform v = false ∧ ov_enabled v = true ∧ ov_issuer v = or_issuer r ∧
     ov_clientId v = or_clientId r ∧ ov_hasSecret v = truthy (or_secret r)).
Proof.
  unfold getOidcConfig, pickOidcSource. destruct c as [r|]; cbn [fmap option_fmap option_map tenant_oidc to_enabled].
  - destruct (or_enabled r) eqn:He; [|done]. intros [= <-]. right. exists r. by rewrite He.
  - destruct (readPlatformOidc env) as [p|]; [|done]. intros [= <-]. left. by exists p.
Qed.

(** A sign-in has one provider.  What a login starts with and the secret its
    code is exchanged with come from the same place: the workspace's own row when
    it is enabled, with that row's secret; the platform's settings when the
    workspace has no row, and then only on the hosted service; and no secret at
    all when there is no provider.  A workspace that switched its provider off
    is never moved to the platform's. *)
Theorem provider_coherent env c :
  match getOidcConfig env false c with
  | Some v =>
      if ov_isPlatform v then
        deploymentMode env = Saas ∧ c = None ∧ ∃ p, readPlatformOidc env = Some p ∧
          ov_issuer v = po_issuer p ∧ ov_clientId v = po_clientId p ∧ getOidcSecret decrypt env c = Some (Some (po_clientSecret p)) ∧
          truthy (po_issuer p) = true ∧ truthy (po_clientId p) = true ∧ truthy (po_clientSecret p) = true
      else ∃ r, c = Some r ∧ or_enabled r = true ∧ ov_issuer v = or_issuer r ∧ ov_clientId v = or_clientId r ∧
        getOidcSecret decrypt env c = (if truthy (or_secret r) then Some <$> decrypt (or_secret r) else Some None)
  | None => getOidcSecret decrypt env c = Some None ∧
      (∀ r, c = Some r → or_enabled r = false) ∧ (c = None → readPlatformOidc env = None)
  end.
Proof.
  destruct (getOidcConfig env false c) as [v|] eqn:Hv.
  - apply getOidcConfig_cases in Hv as [(p & -> & Hp & -> & Hi & Hc)|(r & -> & He & -> & _ & Hi & Hc & _)].
    + destruct (readPlatform_Some env p Hp) as (Hd & H1 & H2 & H3). split_and!; [done..|]. exists p.
      unfold getOidcSecret, pickOidcSource. cbn. rewrite Hp. by split_and!.
    + exists r. unfold getOidcSecret, pickOidcSource. cbn. by rewrite He.
  - revert Hv. unfold getOidcConfig, getOidcSecret, pickOidcSource. destruct c as [r|]; cbn.
    + destruct (or_enabled r) eqn:He; [done|]. intros _. split_and!; [done| |done]. by intros ? [= <-].
    + destruct (readPlatformOidc env); [done|]. intros _. by split_and!.
Qed.

(** What a request to save asks for. *)
Definition asked_secret (body : json) : option string := some_truthy (as_string (obj_get body "clientSecret")).
Definition asked_enabled (body : json) : bool := match obj_get body "enabled" with JBool true => true | _ => false end.

Lemma truthy_encrypt s : truthy (encrypt s) = true.
Proof using encrypted. unfold truthy. destruct (encrypt s) eqn:E; [by destruct (encrypted s)|done]. Qed.

(** What an administrator saves is what the next sign-in uses: the provider
    entered, trimmed, with the secret entered, or with the secret stored before
    when none is entered; a configuration saved as disabled offers no sign-in
    through a provider at all. *)
Theorem sso_saved_used env rq body db db' st x :
  ssoPost encrypt frac_text digest json_store env rq body db = (db', Reply st x) →
  let issuer := trim (str_or_empty (obj_get body "issuer")) in
  let clientId := trim (str_or_empty (obj_get body "clientId")) in
  (asked_enabled body = false → getOidcConfig env false (sd_oidc db') = None ∧ getOidcSecret decrypt env (sd_oidc db') = Some None) ∧
  (asked_enabled body = true →
     (∃ v, getOidcConfig env false (sd_oidc db') = Some v ∧ ov_isPlatform v = false ∧ ov_enabled v = true ∧
        ov_issuer v = issuer ∧ ov_clientId v = clientId) ∧
     (∀ s, asked_secret body = Some s → getOidcSecret decrypt env (sd_oidc db') = Some (Some (trim s))) ∧
     (∀ r s, asked_secret body = None → sd_oidc db = Some r → or_enabled r = true → or_secret r = encrypt s →
        getOidcSecret decrypt env (sd_oidc db') = Some (Some s))).
Proof using decrypts encrypted.
  unfold ssoPost. destruct (cq_user rq) as [me|]; [|done]. destruct (negb (can _ _)); [done|].
  case_match; [done|]. case_match; [done|]. intros [= <- <- <-]. cbn [sd_oidc].
  change (match obj_get body "enabled" with JBool true => true | _ => false end) with (asked_enabled body) in *.
  assert (∀ e i k o, or_enabled (saveOidcConfig encrypt (asked_enabled body) i k o e (sd_oidc db)) = asked_enabled body) as Hen
    by (intros; unfold saveOidcConfig; by destruct (sd_oidc db)).
  assert (∀ e i k o, or_issuer (saveOidcConfig encrypt (asked_enabled body) i k o e (sd_oidc db)) = trim i ∧
    or_clientId (saveOidcConfig encrypt (asked_enabled body) i k o e (sd_oidc db)) = trim k) as Hid
    by (intros; unfold saveOidcConfig; by destruct (sd_oidc db)).
  split; intros Ha; rewrite Ha in *.
  - unfold getOidcConfig, getOidcSecret, pickOidcSource. cbn. by rewrite Hen.
  - unfold getOidcConfig, getOidcSecret, pickOidcSource. cbn. rewrite Hen. split_and!.
    + eexists. split; [done|]. cbn. by rewrite (proj1 (Hid _ _ _ _)), (proj2 (Hid _ _ _ _)), !trim_idemp.
    + intros s Hs. fold (asked_secret body) in *. unfold saveOidcConfig. fold (asked_secret body). rewrite Hs.
      destruct (sd_oidc db); cbn; by rewrite truthy_encrypt, decrypts.
    + intros r s Hs Hr _ Hsec. unfold saveOidcConfig. fold (asked_secret body). rewrite Hs, Hr. cbn.
      by rewrite Hsec, truthy_encrypt, decrypts.
Qed.

(** Where the platform's provider is in use, its secret passes for the
    workspace's: a provider is enabled without any, and every sign-in fails. *)
Theorem sso_enabled_without_secret env rq issuer clientId me p log :
  cq_user rq = Some me → can (u_role me) configure = true → cq_dbError rq = false →
  readPlatformOidc env = Some p → truthy (trim issuer) = true → truthy (trim clientId) = true →
  let body := JObj [("issuer", JStr issuer); ("clientId", JStr clientId); ("enabled", JBool true)]%string in
  let res := ssoPost encrypt frac_text digest json_store env rq body {| sd_oidc := None; sd_log := log |} in
  res.2 = Reply 200 tt ∧ getOidcSecret decrypt env (sd_oidc res.1) = Some None.
Proof.
  intros Hu Hc Hd Hp Hi Hk body res. unfold res, ssoPost. rewrite Hu, Hc, Hd.
  change (obj_get body "issuer") with (JStr issuer). change (obj_get body "clientId") with (JStr clientId).
  change (obj_get body "enabled") with (JBool true). change (obj_get body "clientSecret") with JUndefined.
  change (obj_get body "buttonLabel") with JUndefined. cbn [str_or_empty as_string negb]. rewrite Hi, Hk.
  unfold getOidcConfig at 1, pickOidcSource. cbn. rewrite Hp. by split.
Qed.

(** A provider that was switched off cannot be switched on again without entering
    its secret anew, although the secret is stored: a disabled row is not shown to
    the check that looks for it. *)
Theorem stored_secret_not_found env rq issuer clientId me r log :
  cq_user rq = Some me → can (u_role me) configure = true → or_enabled r = false → truthy (or_secret r) = true →
  truthy (trim issuer) = true → truthy (trim clientId) = true →
  let body := JObj [("issuer", JStr issuer); ("clientId", JStr clientId); ("enabled", JBool true)]%string in
  let db := {| sd_oidc := Some r; sd_log := log |} in
  ssoPost encrypt frac_text digest json_store env rq body db = (db, Fail 400 "secret_required").
Proof.
  intros Hu Hc He _ Hi Hk body db. unfold ssoPost. rewrite Hu, Hc.
  change (obj_get body "issuer") with (JStr issuer). change (obj_get body "clientId") with (JStr clientId).
  change (obj_get body "enabled") with (JBool true). change (obj_get body "clientSecret") with JUndefined.
  cbn [str_or_empty as_string negb]. rewrite Hi, Hk. unfold getOidcConfig, pickOidcSource. cbn. rewrite He.
  by destruct (cq_dbError rq).
Qed.
End provider.

(** ** Theorems: the round trip *)

Section trip.
Context `{JwtLaws} (parse_url : string → option Url) (s256 : string → string) (discover : string → option Discovery).

(** The browser comes back with what it left with.  A start that redirects
    sends the browser to the endpoint the workspace's provider declares, with the
    state, the nonce and the PKCE challenge of this attempt, each parameter once,
    and asks for a fresh login exactly on a step-up; for ten minutes the cookie
    gives the callback the same state and nonce, the verifier of that challenge
    and a destination that passed the redirect guard, and then nothing.  A start
    that fails leaves the cookie as it was. *)
Theorem sign_in_round_trip env rq c cookie cookie' ans :
  oidcStart parse_url s256 discover env rq c cookie = (cookie', ans) →
  match ans with
  | ToLogin _ => cookie' = cookie
  | ToProvider endpoint query =>
      ∃ cfg disc, getOidcConfig env (sr_dbError rq) c = Some cfg ∧ ov_enabled cfg = true ∧
        discover (ov_issuer cfg) = Some disc ∧ endpoint = di_authorization disc ∧
        NoDup query.*1 ∧ ("client_id"%string, ov_clientId cfg) ∈ query ∧
        ("state"%string, (sr_random rq).1.1) ∈ query ∧ ("nonce"%string, (sr_random rq).1.2) ∈ query ∧
        ("code_challenge"%string, s256 (sr_random rq).2) ∈ query ∧
        (("prompt", "login")%string ∈ query ↔ sr_stepUp rq = Some "1"%string) ∧
        ∀ now, readOidcState now cookie' =
          if now / 1000 <? sr_now rq / 1000 + TTL_SECONDS
          then Some {| rt_state := (sr_random rq).1.1; rt_nonce := (sr_random rq).1.2; rt_codeVerifier := (sr_random rq).2;
                       rt_returnTo := safeReturnTo parse_url (sr_cookieDomain rq) (sr_returnTo rq);
                       rt_stepUp := bool_decide (sr_stepUp rq = Some "1"%string) |}
          else None
  end.
Proof using H0.
  unfold oidcStart. destruct (getOidcConfig _ _ _) as [cfg|] eqn:Hc; [|by intros [= <- <-]].
  destruct (ov_enabled cfg) eqn:He; [|by intros [= <- <-]]. cbn [negb].
  destruct (sr_random rq) as [[state nonce] verifier]. cbn [fst snd].
  destruct (discover (ov_issuer cfg)) as [disc|] eqn:Hd; [|by intros [= <- <-]]. intros [= <- <-].
  exists cfg, disc. split_and!; [done..| | | | | | |].
  - destruct (bool_decide _); apply (bool_decide_unpack _); vm_compute; exact I.
  - do 1 apply list_elem_of_further. apply list_elem_of_here.
  - do 4 apply list_elem_of_further. apply list_elem_of_here.
  - do 5 apply list_elem_of_further. apply list_elem_of_here.
  - do 6 apply list_elem_of_further. apply list_elem_of_here.
  - case_bool_decide as Hs.
    + split; [done|]. intros _. do 9 apply list_elem_of_further. apply list_elem_of_here.
    + split; [|done]. intros Hin. exfalso.
      repeat (apply elem_of_cons in Hin as [Hin|Hin]; [congruence|]). by apply elem_of_nil in Hin.
  - intros now. unfold readOidcState, setOidcState. cbn [mbind option_bind].
    destruct (Z.ltb_spec (now / 1000) (sr_now rq / 1000 + TTL_SECONDS)) as [Hlt|Hge].
    + rewrite jwt_live by done. cbn. by case_bool_decide.
    + by rewrite jwt_expired.
Qed.
End trip.

(** Links cannot be pointed elsewhere by a request's headers once the public
    address is configured: they use it, or in cloud the console host of a tenant. *)
Theorem base_url_trusted env dom xfHost host xfProto proto origin c :
  env_trimmed env "MANAGER_PUBLIC_URL" = Some c →
  managerBaseUrlFromHeaders env dom xfHost host xfProto proto origin = strip_slashes c ∨
  ∃ h slug p, slugFromHost h dom = Some slug ∧ multiTenantEnabled env = true ∧
    managerBaseUrlFromHeaders env dom xfHost host xfProto proto origin = p +:+ "://" +:+ h.
Proof.
  intros Hc. unfold managerBaseUrlFromHeaders. rewrite Hc. destruct (some_truthy _) as [h|]; [|by left].
  destruct (multiTenantEnabled env); [|by left]. cbn [andb]. case_bool_decide as Hs; [|by left].
  destruct Hs as [slug [Hs _]%some_truthy_Some]. right. by eexists h, slug, _.
Qed.

(** ** Theorems: membership *)

(** What may become of the row of the member named. *)
Definition member_row (body : json) (u u' : User) : Prop :=
  u' = u ∨
  (∃ e, u' = set_email e u ∧ e = toLowerCase (trim (str_or_empty (obj_get body "newEmail"))) ∧ email_re e = true) ∨
  (u' = set_center None UDisabled u ∧ obj_get body "role" = JNull) ∨
  (∃ r c, u' = set_center (Some (r, c)) UActive u ∧ c = centerRoleOf (obj_get body "role") ∧ consoleRoleAllowed c r = true).

Lemma apply_member_spec id f db :
  (∀ u, u_id (f u) = u_id u) →
  (∀ s, s ∈ mb_sessions (apply_member id f db) ↔ s ∈ mb_sessions db ∧ se_userId s ≠ id) ∧
  (∀ v, u_id v ≠ id → v ∈ mb_users (apply_member id f db) ↔ v ∈ mb_users db) ∧
  (∀ v, v ∈ mb_users (apply_member id f db) → u_id v = id → ∃ u, u ∈ mb_users db ∧ u_id u = id ∧ v = f u).
Proof.
  intros Hf. unfold apply_member; cbn. split_and!.
  - intros s. rewrite elem_of_delete_where. by rewrite bool_decide_eq_false.
  - intros v Hv. rewrite elem_of_update_where. split.
    + intros (u & Hu & ->). destruct (bool_decide (u_id u = id)) eqn:E; [|done]. apply bool_decide_eq_true_1 in E.
      by rewrite Hf in Hv.
    + intros Hin. exists v. by rewrite bool_decide_eq_false_2.
  - intros v (u & Hu & ->)%elem_of_update_where Hid. exists u. case_bool_decide as E; [by rewrite Hf in Hid|done].
Qed.

Lemma renamed_unique (e : string) id users :
  NoDup ((toLowerCase ∘ u_email) <$> users) → NoDup (u_id <$> users) →
  (∀ v, v ∈ users → same_email (u_email v) e = true → u_id v = id) →
  NoDup ((toLowerCase ∘ u_email) <$> update_where (λ u, u_id u =s id) (set_email e) users).
Proof.
  intros Hnd Hid Hfree. unfold update_where. induction users as [|x users IH]; [constructor|].
  cbn in Hnd, Hid |- *. apply NoDup_cons in Hnd as [Hx Hnd], Hid as [Hxi Hid].
  assert (∀ v, v ∈ users → same_email (u_email v) e = true → u_id v = id) as Hf' by (intros v Hv; apply Hfree; by right).
  constructor; [|by apply IH]. rewrite <-list_fmap_compose.
  intros (v & Hv & Hin)%list_elem_of_fmap. cbn in Hv.
  assert (u_id v ≠ u_id x) as Hne by (intros Heq; apply Hxi; rewrite <-Heq; by apply (list_elem_of_fmap_2 u_id)).
  case_bool_decide as Ex; case_bool_decide as Ev; cbn in Hv; [congruence| | |].
  - apply Ev, Hf'; [done|]. unfold same_email. by apply bool_decide_eq_true_2.
  - apply Ex, Hfree; [by left|]. unfold same_email. apply bool_decide_eq_true_2. by rewrite Hv.
  - apply Hx. rewrite Hv. by apply (list_elem_of_fmap_2 (toLowerCase ∘ u_email)).
Qed.

(** The effect of a push on the workspace: one member, and their sessions. *)
Definition touched_member (body : json) (db db' : MemberDb) : Prop :=
  ∃ user, user ∈ mb_users db ∧ u_centerRole user ≠ None ∧
    same_email (u_email user) (toLowerCase (trim (str_or_empty (obj_get body "email")))) = true ∧
    (∀ s, s ∈ mb_sessions db' ↔ s ∈ mb_sessions db ∧ se_userId s ≠ u_id user) ∧
    (∀ v, u_id v ≠ u_id user → v ∈ mb_users db' ↔ v ∈ mb_users db) ∧
    (∀ v, v ∈ mb_users db' → u_id v = u_id user → member_row body user v).

Lemma member_touched body db user f :
  NoDup (u_id <$> mb_users db) → user ∈ mb_users db → u_centerRole user ≠ None →
  same_email (u_email user) (toLowerCase (trim (str_or_empty (obj_get body "email")))) = true →
  (∀ u, u_id (f u) = u_id u) → member_row body user (f user) → touched_member body db (apply_member (u_id user) f db).
Proof.
  intros Hnd Hin Hc He Hf Hrow. destruct (apply_member_spec (u_id user) f db Hf) as (Hs & Hv & Hid).
  exists user. split_and!; [done..|]. intros v Hvin Heq. destruct (Hid v Hvin Heq) as (u & Hu & Hui & ->).
  by rewrite (NoDup_fmap_eq u_id (mb_users db) u user).
Qed.

(** What the centre can do to a workspace.  A push that is answered comes with
    the shared secret and names the organisation this workspace belongs to; it
    changes at most one user, one the centre manages, to one of: a new address
    nobody else has, disabled, or active with a console role the pushed role
    allows; whenever it is applied that person has no session left, and no other
    user, and no other session, is touched. *)
Theorem membership_sound rq body db db' st o :
  membershipPost rq body db = (db', Reply st o) → NoDup (u_id <$> mb_users db) →
  (∃ s, mr_secret rq = Some s ∧ truthy (trim s) = true ∧ mr_header rq ?? "" = trim s) ∧
  mr_tenant rq ≠ PLATFORM_TENANT_ID ∧
  (∃ slug, mr_slug rq = Some slug ∧ mr_slugByOrg rq (trim (str_or_empty (obj_get body "org"))) = Some slug) ∧
  (NoDup ((toLowerCase ∘ u_email) <$> mb_users db) → NoDup ((toLowerCase ∘ u_email) <$> mb_users db')) ∧
  ((o = OUnchanged ∧ db' = db) ∨ (o ≠ OUnchanged ∧ touched_member body db db')).
Proof.
  intros Hp Hnd. revert Hp. unfold membershipPost.
  set (email := toLowerCase (trim (str_or_empty (obj_get body "email")))).
  set (newEmail := toLowerCase (trim (str_or_empty (obj_get body "newEmail")))).
  destruct (truthy (trim (mr_secret rq ?? ""))) eqn:Hs; [|done]. cbn [negb orb].
  case_bool_decide as Hg; [|done]. cbn [negb orb]. case_bool_decide as Ht; [done|].
  destruct (negb _ || _ || _) eqn:Hguard; [done|].
  destruct (mr_slug rq) as [slug|]; [|done].
  destruct (bool_decide (mr_slugByOrg rq _ = Some slug)) eqn:Ho; [|done]. apply bool_decide_eq_true_1 in Ho. cbn [negb].
  intros Hp. split; [destruct (mr_secret rq) as [s|]; [by exists s|by vm_compute in Hs]|]. split; [done|]. split; [by exists slug|].
  revert Hp. destruct (find_row _ (mb_users db)) as [user|] eqn:Hf; [|intros [= <- <- <-]; split; [done|by left]].
  apply find_row_Some in Hf as [Hin He].
  destruct (bool_decide (u_centerRole user = None)) eqn:Hc; [intros [= <- <- <-]; split; [done|by left]|].
  apply bool_decide_eq_false_1 in Hc.
  assert (∀ f, (∀ u, u_id (f u) = u_id u) → member_row body user (f user) →
    touched_member body db (apply_member (u_id user) f db)) as Htouch by (intros f; by apply member_touched).
  assert (∀ f, (∀ u, u_email (f u) = u_email u) → NoDup ((toLowerCase ∘ u_email) <$> mb_users db) →
    NoDup ((toLowerCase ∘ u_email) <$> mb_users (apply_member (u_id user) f db))) as Hsame.
  { intros f Hfe. cbn. rewrite (update_where_column (toLowerCase ∘ u_email)); [done|]. intros u. cbn. by rewrite Hfe. }
  destruct (truthy newEmail) eqn:Hn.
  - destruct (email_re newEmail) eqn:Hre; [|done]. cbn [negb].
    assert (member_row body user (set_email newEmail user)) as Hrow by (right; left; by exists newEmail).
    destruct (find_row _ (mb_users db)) as [taken|] eqn:Hf.
    + apply find_row_Some in Hf as [Htin Hte]. destruct (bool_decide (u_id taken = u_id user)) eqn:Htk; [|done].
      apply bool_decide_eq_true_1 in Htk. cbn [negb]. intros [= <- <- <-].
      split; [|right; split; [done|by apply Htouch]]. intros Hu. apply renamed_unique; [done..|].
      intros v Hv Hve. rewrite <-Htk. f_equal.
      eapply (NoDup_fmap_eq (toLowerCase ∘ u_email)); [done..|]. unfold same_email in *. reflect_bool. cbn. congruence.
    + rewrite find_row_None in Hf. intros [= <- <- <-]. split; [|right; split; [done|by apply Htouch]].
      intros Hu. apply renamed_unique; [done..|]. intros v Hv Hve. by rewrite Hf in Hve.
  - destruct (match obj_get body "signOut" with JBool true => true | _ => false end).
    { intros [= <- <- <-]. split; [by apply Hsame|]. right. split; [done|]. apply Htouch; [done|by left]. }
    pose proof (reconcile_ceiling (u_role user) (u_centerRole user) (u_status user) (pushed_role body ?? JUndefined)) as Hv.
    assert (∃ r, pushed_role body = Some r ∧ r = obj_get body "role") as (r0 & Hr0 & Hrole).
    { apply orb_false_iff in Hguard as [_ Hguard]. rewrite !andb_false_iff, bool_decide_eq_false in Hguard.
      destruct Hguard as [[Hr|Hr]|Hr]; [|done..]. unfold pushed_role in *. destruct (obj_get body "role"); try done; by eexists. }
    rewrite Hr0 in *. cbn [default] in *.
    destruct (reconcileCenterRole _ _ _ _) as [| |r c].
    + intros [= <- <- <-]. split; [done|by left].
    + intros [= <- <- <-]. split; [by apply Hsame|]. right. split; [done|]. apply Htouch; [done|]. right. right. left.
      split; [done|]. destruct Hv as (_ & _ & Hv). rewrite <-Hrole. unfold pushed_role in Hr0.
      by destruct (obj_get body "role"); simplify_eq.
    + intros [= <- <- <-]. split; [by apply Hsame|]. right. split; [done|]. apply Htouch; [done|]. right. right. right.
      exists r, c. rewrite <-Hrole. by destruct Hv as (_ & ? & _ & _ & _ & ? & _).
Qed.

(** ** Witnesses *)

Definition demo_encrypt (s : string) : string := "k" +:+ s.
Definition demo_decrypt (s : string) : option string :=
  match s with String _ r => Some r | EmptyString => None end.
Definition demo_saas : Env := λ name,
  if name =s "CAPTIVO_DEPLOYMENT" then Some "saas"%string
  else if name =s "CAPTIVO_ID_ISSUER" then Some " https://id.example "%string
  else if name =s "CAPTIVO_ID_CLIENT_ID" then Some "access"%string
  else if name =s "CAPTIVO_ID_CLIENT_SECRET" then Some "s"%string else None.
Definition demo_config_req : ConfigReq :=
  {| cq_user := Some (demo_user "u1" ADMIN); cq_now := 1000; cq_auditId := "a1"; cq_auditFails := false; cq_ip := None;
     cq_dbError := false |}.
Definition demo_sso_body : json :=
  JObj [("issuer", JStr " https://idp.example"); ("clientId", JStr "console"); ("enabled", JBool true);
        ("clientSecret", JStr "hunter2 ")]%string.
Definition demo_sso : SsoDb * response unit :=
  ssoPost demo_encrypt frac_digits demo_digest reversing_store demo_saas demo_config_req demo_sso_body
    {| sd_oidc := None; sd_log := demo_admin |}.

(** Before it, the workspace signs in through the platform. *)
Example demo_platform : ov_isPlatform <$> getOidcConfig demo_saas false None = Some true.
Proof. reflexivity. Qed.

Lemma sso_saved_used_witness :
  demo_sso.2 = Reply 200 tt ∧
  (asked_enabled demo_sso_body = false →
     getOidcConfig demo_saas false (sd_oidc demo_sso.1) = None ∧ getOidcSecret demo_decrypt demo_saas (sd_oidc demo_sso.1) = Some None) ∧
  (asked_enabled demo_sso_body = true →
     (∃ v, getOidcConfig demo_saas false (sd_oidc demo_sso.1) = Some v ∧ ov_isPlatform v = false ∧ ov_enabled v = true ∧
        ov_issuer v = "https://idp.example"%string ∧ ov_clientId v = "console"%string) ∧
     (∀ s, asked_secret demo_sso_body = Some s → getOidcSecret demo_decrypt demo_saas (sd_oidc demo_sso.1) = Some (Some (trim s))) ∧
     (∀ r s, asked_secret demo_sso_body = None → @None OidcRow = Some r → or_enabled r = true → or_secret r = demo_encrypt s →
        getOidcSecret demo_decrypt demo_saas (sd_oidc demo_sso.1) = Some (Some s))).
Proof.
  split; [vm_compute; reflexivity|].
  apply (sso_saved_used demo_encrypt demo_decrypt frac_digits demo_digest reversing_store) with
    (rq := demo_config_req) (db := {| sd_oidc := None; sd_log := demo_admin |}) (st := 200) (x := tt).
  - reflexivity.
  - discriminate.
  - vm_compute. reflexivity.
Defined.

Definition demo_start_req : StartReq :=
  {| sr_now := 1800000000000; sr_returnTo := Some "/admin"%string; sr_stepUp := None; sr_random := ("st", "no", "ve")%string;
     sr_base := "https://acme.example"; sr_cookieDomain := None; sr_dbError := false |}.
Definition demo_discover (issuer : string) : option Discovery :=
  Some {| di_authorization := issuer +:+ "/auth"; di_scopes := JUndefined |}.
Definition demo_cookie := (oidcStart (λ _, None) (λ v, v) demo_discover demo_saas demo_start_req None None).1.

Lemma sign_in_round_trip_witness :
  (∃ cfg disc, getOidcConfig demo_saas false None = Some cfg ∧ ov_enabled cfg = true ∧
     demo_discover (ov_issuer cfg) = Some disc ∧ "https://id.example/auth"%string = di_authorization disc) ∧
  readOidcState 1800000599999 demo_cookie =
    Some {| rt_state := "st"; rt_nonce := "no"; rt_codeVerifier := "ve"; rt_returnTo := "/admin"; rt_stepUp := false |} ∧
  readOidcState 1800000600000 demo_cookie = None.
Proof.
  destruct (sign_in_round_trip (λ _, None) (λ v, v) demo_discover demo_saas demo_start_req None None demo_cookie
    (oidcStart (λ _, None) (λ v, v) demo_discover demo_saas demo_start_req None None).2) as (cfg & disc & Hc & He & Hd & Hep & _ & _ & _ & _ & _ & _ & Hr).
  - apply surjective_pairing.
  - split; [by exists cfg, disc|]. split; rewrite Hr; reflexivity.
Defined.

Definition demo_member : User :=
  {| u_id := "m1"; u_email := "Ada@example.com"; u_name := "Ada"; u_phone := None; u_company := None; u_timezone := None;
     u_role := ADMIN; u_status := UActive; u_directoryManaged := false; u_directoryLastVerifiedAt := None;
     u_centerRole := Some "ADMIN"%string |}.
Definition demo_members : MemberDb :=
  {| mb_users := [demo_user "u1" ADMIN; demo_member]; mb_sessions := [] |}.
Definition demo_member_req : MemberReq :=
  {| mr_secret := Some "top"%string; mr_header := Some "top"%string; mr_tenant := "t1"; mr_slug := Some "acme"%string;
     mr_slugByOrg := λ o, if o =s "org1" then Some "acme"%string else None |}.
Definition demo_push : json :=
  JObj [("org", JStr "org1"); ("email", JStr "ada@example.com"); ("role", JStr "MEMBER")]%string.
Definition demo_pushed : MemberDb := (membershipPost demo_member_req demo_push demo_members).1.

Lemma membership_sound_witness :
  (NoDup ((toLowerCase ∘ u_email) <$> mb_users demo_pushed)) ∧ touched_member demo_push demo_members demo_pushed ∧
  u_role <$> mb_users demo_pushed = [ADMIN; STAFF].
Proof.
  destruct (membership_sound demo_member_req demo_push demo_members demo_pushed 200 OUpdate) as (_ & _ & _ & Hu & [[? _]|[_ Ht]]).
  - vm_compute. reflexivity.
  - apply (bool_decide_unpack _). vm_compute. exact I.
  - discriminate.
  - split; [apply Hu, (bool_decide_unpack _); vm_compute; exact I|]. split; [exact Ht|vm_compute; reflexivity].
Defined.
