(* ===== verification/Workspaces.v ===== *)
(** * Workspaces: provisioning, the platform console and their life cycle

    src/lib/platform (config, tenants, tenant-admin, admins, audit, route, auth,
    ops, sql) with the SECURITY DEFINER functions of prisma/rls/bootstrap.sql
    they call, src/lib/signup (workspace-claim, entitled-flow, flow, token), the
    entitlement read of src/lib/auth/captivo-id-client.ts and the routes
    platform/tenants, platform/tenants/[id] and its actions, platform/config,
    platform/admins, workspace/create, signup/start, signup/verify and
    cron/platform-ops.

    The state is the platform's view of all tenants ([PlatformDb]); what a
    request draws (ids, tokens, the clock) and what fails is an argument. *)

From S2P Require Import Prelude JsString JsValue Schema Transaction AuditChain AccessLog AdminLog Identity Access Sessions Settings Tenant Directory SignIn Passkeys Provider.

(** ** Platform configuration *)

Inductive AnnouncementLevel := Linfo | Lwarn | Ldanger.
Definition level (v : option string) : AnnouncementLevel :=
  match v with
  | Some s => if s =s "warn" then Lwarn else if s =s "danger" then Ldanger else Linfo
  | None => Linfo
  end.
Definition level_name (l : AnnouncementLevel) : string := match l with Linfo => "info" | Lwarn => "warn" | Ldanger => "danger" end.

(** The settings an operator may preset: a partial record. *)
Record NewTenantDefaults := {
  nd_recordingMode : option string;
  nd_keystrokeLoggingMode : option string;
  nd_auditRetentionDays : option Z;
  nd_recordingRetentionDays : option Z;
  nd_maxGrantDays : option Z;
  nd_requireRequestJustification : option bool;
  nd_displayTimezone : option string;
}.

Record PlatformConfig := {
  pc_announcementText : option string;
  pc_announcementLevel : AnnouncementLevel;
  pc_announcementUntil : option Z;
  pc_newTenantDefaults : option NewTenantDefaults;
  pc_opsEmail : option string;
  pc_smtpFallback : bool;
  pc_signupEnabled : bool;
}.
Definition EMPTY_CONFIG : PlatformConfig :=
  {| pc_announcementText := None; pc_announcementLevel := Linfo; pc_announcementUntil := None;
     pc_newTenantDefaults := None; pc_opsEmail := None; pc_smtpFallback := false; pc_signupEnabled := false |}.

(** The stored row: the columns as they are. *)
Record ConfigRow := {
  cr_text : option string;
  cr_level : option string;
  cr_until : option Z;
  cr_defaults : json;
  cr_opsEmail : option string;
  cr_smtpFallback : bool;
  cr_signupEnabled : bool;
}.
Record ConfigStore := { cs_row : option ConfigRow; cs_cache : option (PlatformConfig * Z) }.

Definition CONFIG_CACHE_MS : Z := 15000.

Section config.
Context (isValidTimeZone : string → bool).

(** A number, or a non-blank text read as one; a non-negative integer. *)
Definition read_days (v : json) : option Z :=
  let n := match v with JStr s => if truthy (trim s) then JNum (Number s) else v | _ => v end in
  match n with JNum (NInt z) => if 0 <=? z then Some z else None | _ => None end.

Definition parseNewTenantDefaults (v : json) : option NewTenantDefaults :=
  if negb (is_object v) then None else
  let d := {| nd_recordingMode := some_truthy (as_string (obj_get v "recordingMode"));
              nd_keystrokeLoggingMode := some_truthy (as_string (obj_get v "keystrokeLoggingMode"));
              nd_auditRetentionDays := read_days (obj_get v "auditRetentionDays");
              nd_recordingRetentionDays := read_days (obj_get v "recordingRetentionDays");
              nd_maxGrantDays := read_days (obj_get v "maxGrantDays");
              nd_requireRequestJustification := match obj_get v "requireRequestJustification" with JBool b => Some b | _ => None end;
              nd_displayTimezone := match some_truthy (as_string (obj_get v "displayTimezone")) with
                                    | Some z => if isValidTimeZone z then Some z else None
                                    | None => None
                                    end |} in
  match d with
  | {| nd_recordingMode := None; nd_keystrokeLoggingMode := None; nd_auditRetentionDays := None; nd_recordingRetentionDays := None;
       nd_maxGrantDays := None; nd_requireRequestJustification := None; nd_displayTimezone := None |} => None
  | _ => Some d
  end.

Definition config_of (r : ConfigRow) : PlatformConfig :=
  {| pc_announcementText := some_truthy (trim <$> cr_text r); pc_announcementLevel := level (cr_level r);
     pc_announcementUntil := cr_until r; pc_newTenantDefaults := parseNewTenantDefaults (cr_defaults r);
     pc_opsEmail := some_truthy (trim <$> cr_opsEmail r); pc_smtpFallback := cr_smtpFallback r;
     pc_signupEnabled := cr_signupEnabled r |}.

Definition getPlatformConfig (now : Z) (dbError : bool) (st : ConfigStore) : ConfigStore * PlatformConfig :=
  match match cs_cache st with
        | Some (c, at_) => if now - at_ <? CONFIG_CACHE_MS then Some c else None
        | None => None
        end with
  | Some c => (st, c)
  | None =>
      if dbError then (st, EMPTY_CONFIG) else
      let c := match cs_row st with Some r => config_of r | None => EMPTY_CONFIG end in
      ({| cs_row := cs_row st; cs_cache := Some (c, now) |}, c)
  end.

(** The announcement shown now. *)
Definition activeAnnouncement (c : PlatformConfig) (now : Z) : option (string * AnnouncementLevel) :=
  match some_truthy (pc_announcementText c) with
  | None => None
  | Some t =>
      match pc_announcementUntil c with
      | Some u => if u <? now then None else Some (t, pc_announcementLevel c)
      | None => Some (t, pc_announcementLevel c)
      end
  end.

Definition newTenantDefaultsFrom (c : PlatformConfig) : option NewTenantDefaults := pc_newTenantDefaults c.
End config.

(** The text a jsonb column holds for the defaults: the members that are set. *)
Definition defaults_json (d : NewTenantDefaults) : json :=
  JObj (omap (λ p, match p.2 with Some v => Some (p.1, v) | None => None end)
    [("recordingMode", JStr <$> nd_recordingMode d); ("keystrokeLoggingMode", JStr <$> nd_keystrokeLoggingMode d);
     ("auditRetentionDays", (λ z, JNum (NInt z)) <$> nd_auditRetentionDays d);
     ("recordingRetentionDays", (λ z, JNum (NInt z)) <$> nd_recordingRetentionDays d);
     ("maxGrantDays", (λ z, JNum (NInt z)) <$> nd_maxGrantDays d);
     ("requireRequestJustification", JBool <$> nd_requireRequestJustification d);
     ("displayTimezone", JStr <$> nd_displayTimezone d)]%string).

(** [savePlatformConfig]: a missing preset clears the column on an update and
    leaves it null on a create; the cache is dropped. *)
Definition savePlatformConfig (i : PlatformConfig) (st : ConfigStore) : ConfigStore :=
  {| cs_row := Some {| cr_text := some_truthy (trim <$> pc_announcementText i);
                       cr_level := Some (level_name (pc_announcementLevel i)); cr_until := pc_announcementUntil i;
                       cr_defaults := match pc_newTenantDefaults i with Some d => defaults_json d | None => JNull end;
                       cr_opsEmail := some_truthy (trim <$> pc_opsEmail i); cr_smtpFallback := pc_smtpFallback i;
                       cr_signupEnabled := pc_signupEnabled i |};
     cs_cache := None |}.

(** [{ ...current, ...defaults }]. *)
Definition with_defaults (s : PlatformSettings) (d : NewTenantDefaults) : PlatformSettings :=
  let over {A} (a b : option A) := match a with Some x => Some x | None => b end in
  {| auditRetentionDays := over (nd_auditRetentionDays d) (auditRetentionDays s); inviteTtlHours := inviteTtlHours s;
     notificationWebhookUrl := notificationWebhookUrl s; vendorIpAllowlist := vendorIpAllowlist s;
     maxGrantDays := over (nd_maxGrantDays d) (maxGrantDays s); recordingConsentRequired := recordingConsentRequired s;
     watermarkDefault := watermarkDefault s; clipboardDefault := clipboardDefault s;
     displayTimezone := over (nd_displayTimezone d) (displayTimezone s);
     recordingRetentionDays := over (nd_recordingRetentionDays d) (recordingRetentionDays s);
     defaultConnectorLogLevel := defaultConnectorLogLevel s; externalAnchorEnabled := externalAnchorEnabled s;
     anchorTsaUrl := anchorTsaUrl s; anchorTsaAuth := anchorTsaAuth s; notifySiteHealth := notifySiteHealth s;
     notifyAccessRequests := notifyAccessRequests s; notifyAccessDecisions := notifyAccessDecisions s;
     requireRequestJustification := over (nd_requireRequestJustification d) (requireRequestJustification s);
     keystrokeLoggingMode := over (nd_keystrokeLoggingMode d) (keystrokeLoggingMode s);
     recordingMode := over (nd_recordingMode d) (recordingMode s) |}.

(** ** The tenants, as the platform sees them *)

(** A row of Tenant with the columns [Tenant.TenantRow] leaves out. *)
Record Workspace := {
  w_row : TenantRow;
  w_name : string;
  w_notes : option string;
  w_captivoOrgId : option string;
}.
Definition w_id (w : Workspace) : string := t_id (w_row w).
Definition w_slug (w : Workspace) : string := t_slug (w_row w).
Definition w_deletedAt (w : Workspace) : option Z := t_deletedAt (w_row w).

(** All tenants; the rows a tenant owns are listed by its id. *)
Record PlatformDb := {
  pf_tenants : list Workspace;
  pf_invites : string → list Invite;
  pf_sessions : string → list Session;
  pf_users : string → list User;
  pf_handoffs : string → list SupportHandoff;
  pf_settings : SettingsStore;
  pf_logs : string → AdminDb;
  pf_config : ConfigStore;
}.

Definition at_tenant {A} (tid : string) (f : A → A) (rows : string → A) : string → A :=
  λ t, if t =s tid then f (rows t) else rows t.
Definition no_admin_log : AdminDb := {| adminRows := []; adminHead := None |}.

Definition with_tenants (db : PlatformDb) (ts : list Workspace) : PlatformDb :=
  {| pf_tenants := ts; pf_invites := pf_invites db; pf_sessions := pf_sessions db; pf_users := pf_users db;
     pf_handoffs := pf_handoffs db; pf_settings := pf_settings db; pf_logs := pf_logs db; pf_config := pf_config db |}.
Definition with_invites (db : PlatformDb) (i : string → list Invite) : PlatformDb :=
  {| pf_tenants := pf_tenants db; pf_invites := i; pf_sessions := pf_sessions db; pf_users := pf_users db;
     pf_handoffs := pf_handoffs db; pf_settings := pf_settings db; pf_logs := pf_logs db; pf_config := pf_config db |}.
Definition with_sessions (db : PlatformDb) (s : string → list Session) : PlatformDb :=
  {| pf_tenants := pf_tenants db; pf_invites := pf_invites db; pf_sessions := s; pf_users := pf_users db;
     pf_handoffs := pf_handoffs db; pf_settings := pf_settings db; pf_logs := pf_logs db; pf_config := pf_config db |}.
Definition with_users (db : PlatformDb) (u : string → list User) : PlatformDb :=
  {| pf_tenants := pf_tenants db; pf_invites := pf_invites db; pf_sessions := pf_sessions db; pf_users := u;
     pf_handoffs := pf_handoffs db; pf_settings := pf_settings db; pf_logs := pf_logs db; pf_config := pf_config db |}.
Definition with_handoffs (db : PlatformDb) (h : string → list SupportHandoff) : PlatformDb :=
  {| pf_tenants := pf_tenants db; pf_invites := pf_invites db; pf_sessions := pf_sessions db; pf_users := pf_users db;
     pf_handoffs := h; pf_settings := pf_settings db; pf_logs := pf_logs db; pf_config := pf_config db |}.
Definition with_settings (db : PlatformDb) (s : SettingsStore) : PlatformDb :=
  {| pf_tenants := pf_tenants db; pf_invites := pf_invites db; pf_sessions := pf_sessions db; pf_users := pf_users db;
     pf_handoffs := pf_handoffs db; pf_settings := s; pf_logs := pf_logs db; pf_config := pf_config db |}.
Definition with_logs (db : PlatformDb) (l : string → AdminDb) : PlatformDb :=
  {| pf_tenants := pf_tenants db; pf_invites := pf_invites db; pf_sessions := pf_sessions db; pf_users := pf_users db;
     pf_handoffs := pf_handoffs db; pf_settings := pf_settings db; pf_logs := l; pf_config := pf_config db |}.
Definition with_config (db : PlatformDb) (c : ConfigStore) : PlatformDb :=
  {| pf_tenants := pf_tenants db; pf_invites := pf_invites db; pf_sessions := pf_sessions db; pf_users := pf_users db;
     pf_handoffs := pf_handoffs db; pf_settings := pf_settings db; pf_logs := pf_logs db; pf_config := c |}.

(** *** The SQL functions *)

Definition reserved_id (id : string) : bool := bool_decide (id ∈ ["platform"; "default"]%string).

(** What the unique indexes say of an insert. *)
Inductive UniqueClash := SlugClash | OrgClash.
Definition slug_clash (id slug : string) (ts : list Workspace) : bool := existsb (λ w, (w_id w =s id) || (w_slug w =s slug)) ts.
Definition org_clash (org : option string) (ts : list Workspace) : bool :=
  match org with Some o => existsb (λ w, bool_decide (w_captivoOrgId w = Some o)) ts | None => false end.

Definition new_workspace (id slug name : string) (org : option string) : Workspace :=
  {| w_row := {| t_id := id; t_slug := slug; t_status := "ACTIVE"; t_deletedAt := None; t_plan := "free";
                 t_limits := JNull; t_capabilities := JNull |};
     w_name := name; w_notes := None; w_captivoOrgId := org |}.

(** [platform_create_tenant]; when both indexes are violated, [orgFirst] says
    which one the database names. *)
Definition platform_create_tenant (orgFirst : bool) (id slug name : string) (org : option string) (db : PlatformDb)
    : UniqueClash + PlatformDb :=
  let s := slug_clash id slug (pf_tenants db) in
  let o := org_clash org (pf_tenants db) in
  if s || o then inl (if o && (negb s || orgFirst) then OrgClash else SlugClash)
  else inr (with_tenants db (pf_tenants db ++ [new_workspace id slug name org])).

Definition set_row (f : TenantRow → TenantRow) (w : Workspace) : Workspace :=
  {| w_row := f (w_row w); w_name := w_name w; w_notes := w_notes w; w_captivoOrgId := w_captivoOrgId w |}.

(** [platform_update_tenant]: [None] is the exception. *)
Definition platform_update_tenant (id name plan : string) (limits capabilities : json) (notes : option string) (db : PlatformDb)
    : option PlatformDb :=
  if reserved_id id || negb (isPlan (JStr plan)) then None else
  Some (with_tenants db (update_where (λ w, w_id w =s id)
    (λ w, {| w_row := {| t_id := w_id w; t_slug := w_slug w; t_status := t_status (w_row w); t_deletedAt := w_deletedAt w;
                         t_plan := plan; t_limits := limits; t_capabilities := capabilities |};
             w_name := name; w_notes := notes; w_captivoOrgId := w_captivoOrgId w |}) (pf_tenants db))).

Definition set_status_deleted (status : string) (deletedAt : option Z) (r : TenantRow) : TenantRow :=
  {| t_id := t_id r; t_slug := t_slug r; t_status := status; t_deletedAt := deletedAt; t_plan := t_plan r;
     t_limits := t_limits r; t_capabilities := t_capabilities r |}.

(** [platform_delete_tenant]: marks, suspends, and ends the sessions. *)
Definition platform_delete_tenant (now : Z) (id : string) (db : PlatformDb) : option PlatformDb :=
  if reserved_id id then None else
  Some (with_sessions
    (with_tenants db (update_where (λ w, (w_id w =s id) && bool_decide (w_deletedAt w = None))
      (set_row (set_status_deleted "SUSPENDED" (Some now))) (pf_tenants db)))
    (at_tenant id (λ _, []) (pf_sessions db))).

Definition platform_restore_tenant (id : string) (db : PlatformDb) : option PlatformDb :=
  if reserved_id id then None else
  Some (with_tenants db (update_where (λ w, w_id w =s id) (set_row (set_status_deleted "ACTIVE" None)) (pf_tenants db))).

(** Everything a tenant owns goes with it ([onDelete: Cascade]). *)
Definition cascade_tenant (id : string) (db : PlatformDb) : PlatformDb :=
  {| pf_tenants := delete_where (λ w, w_id w =s id) (pf_tenants db);
     pf_invites := at_tenant id (λ _, []) (pf_invites db); pf_sessions := at_tenant id (λ _, []) (pf_sessions db);
     pf_users := at_tenant id (λ _, []) (pf_users db); pf_handoffs := at_tenant id (λ _, []) (pf_handoffs db);
     pf_settings := {| settingsRows := delete id (settingsRows (pf_settings db)); settingsCache := settingsCache (pf_settings db) |};
     pf_logs := at_tenant id (λ _, no_admin_log) (pf_logs db); pf_config := pf_config db |}.

Definition platform_purge_tenant (id : string) (db : PlatformDb) : option PlatformDb :=
  if reserved_id id then None else
  Some (if existsb (λ w, (w_id w =s id) && negb (bool_decide (w_deletedAt w = None))) (pf_tenants db)
        then cascade_tenant id db else db).

Definition platform_set_tenant_status (id status : string) (db : PlatformDb) : option PlatformDb :=
  if negb (bool_decide (status ∈ ["ACTIVE"; "SUSPENDED"]%string)) || (id =s "platform") then None else
  Some (with_tenants db (update_where (λ w, w_id w =s id)
    (set_row (λ r, set_status_deleted status (t_deletedAt r) r)) (pf_tenants db))).

Definition platform_purge_candidates (now days : Z) (db : PlatformDb) : list string :=
  map w_id (List.filter (λ w, match w_deletedAt w with
                              | Some d => (d <? now - days * 86400000) && negb (reserved_id (w_id w))
                              | None => false
                              end) (pf_tenants db)).

(** [platform_list_tenants]: every tenant but the reserved two. *)
Definition listTenants (db : PlatformDb) : list Workspace := List.filter (λ w, negb (reserved_id (w_id w))) (pf_tenants db).
Definition getTenant (id : string) (db : PlatformDb) : option Workspace := find_row (λ w, w_id w =s id) (listTenants db).
Definition tenantSlugByOrg (org : string) (db : PlatformDb) : option string :=
  w_slug <$> find_row (λ w, bool_decide (w_captivoOrgId w = Some org)) (pf_tenants db).

(** [rollbackCreatedTenantRow]: both or neither. *)
Definition rollbackCreatedTenantRow (now : Z) (id : string) (db : PlatformDb) : option PlatformDb :=
  platform_delete_tenant now id db ≫= platform_purge_tenant id.

(** ** Creating a workspace *)

Inductive PlatformFailure := PlatformError (code : string) | Crashed.

Record CreateInput := {
  ci_name : string;
  ci_slug : string;
  ci_adminEmail : string;
  ci_adminName : option string;
  ci_plan : json;
  ci_limits : option TenantLimits;
  ci_captivoOrgId : option string;
}.
Record CreatedTenant := { ct_id : string; ct_slug : string; ct_name : string; ct_token : string; ct_inviteUrl : string }.

(** What a creation draws from outside: the clock, the new id, the invite's id and
    token, the tenant's invite lifetime; which statement throws, if any
    ([dr_failAt]: 0 the insert, 1 the invite, 2 the plan, 3 the settings) and
    whether the rollback throws too. *)
Record Draws := {
  dr_now : Z;
  dr_id : string;
  dr_inviteId : string;
  dr_token : string;
  dr_ttlHours : Z;
  dr_orgFirst : bool;
  dr_failAt : option nat;
  dr_undoFails : bool;
  dr_configError : bool;
  dr_settingsError : bool;
}.

Definition validateCreateInput (i : CreateInput) : option string :=
  if negb (truthy (trim (ci_name i))) then Some "invalid_name"%string else
  if negb (isValidTenantSlug (ci_slug i)) then Some "invalid_slug"%string else
  if negb (email_re (trim (ci_adminEmail i))) then Some "invalid_email"%string else None.

(** [JSON.stringify(limits)] in the column. *)
Definition limits_json (l : TenantLimits) : json := JObj (map (λ p, (limit_name p.1, JNum (NInt p.2))) l).

(** The link on the tenant's own console host. *)
Definition invite_url (domain : option string) (slug tok : string) : string :=
  match some_truthy domain with
  | Some dom => "https://" +:+ slug +:+ "." +:+ dom +:+ "/invite/" +:+ tok
  | None => "/invite/" +:+ tok
  end.

Section create.
Context (argon2hash : string → string) (isValidTimeZone : string → bool).
Context (domain : option string).

(** The n-th statement after the insert. *)
Definition step (d : Draws) (n : nat) (f : PlatformDb → option PlatformDb) : Tx PlatformDb unit := λ s,
  if bool_decide (dr_failAt d = Some n) then (s, inl DbFailed) else
  match f s with Some s' => (s', inr tt) | None => (s, inl DbFailed) end.

Definition invite_admin (d : Draws) (i : CreateInput) (db : PlatformDb) : PlatformDb :=
  let name := match some_truthy (trim <$> ci_adminName i) with Some n => n | None => ci_adminEmail i end in
  with_invites db (at_tenant (dr_id d)
    (createInvite argon2hash (dr_ttlHours d) (dr_now d) (dr_inviteId d) (dr_token d) (ci_adminEmail i) name ADMIN None None None)
    (pf_invites db)).

Definition set_plan (d : Draws) (i : CreateInput) (db : PlatformDb) : option PlatformDb :=
  let plan := match ci_plan i with JStr p => if isPlan (JStr p) then p else "free"%string | _ => "free"%string end in
  if negb (plan =s "free") || bool_decide (is_Some (ci_limits i))
  then platform_update_tenant (dr_id d) (trim (ci_name i)) plan
         (match ci_limits i with Some l => limits_json l | None => JNull end) JNull None db
  else Some db.

Definition preset_settings (d : Draws) (db : PlatformDb) : PlatformDb :=
  let '(cs, c) := getPlatformConfig isValidTimeZone (dr_now d) (dr_configError d) (pf_config db) in
  let db1 := with_config db cs in
  match newTenantDefaultsFrom c with
  | None => db1
  | Some def =>
      let '(st, current) := getPlatformSettings (dr_id d) (dr_now d) (dr_settingsError d) (pf_settings db1) in
      with_settings db1 (savePlatformSettings (dr_id d) (with_defaults current def) st)
  end.

Definition finish (d : Draws) (i : CreateInput) : Tx PlatformDb unit :=
  step d 1 (λ s, Some (invite_admin d i s)) ≫= λ _,
  step d 2 (set_plan d i) ≫= λ _,
  step d 3 (λ s, Some (preset_settings d s)).

Definition createTenant (d : Draws) (i : CreateInput) (db : PlatformDb) : PlatformDb * (PlatformFailure + CreatedTenant) :=
  match validateCreateInput i with
  | Some code => (db, inl (PlatformError code))
  | None =>
      if bool_decide (dr_failAt d = Some 0%nat) then (db, inl Crashed) else
      match platform_create_tenant (dr_orgFirst d) (dr_id d) (ci_slug i) (trim (ci_name i)) (ci_captivoOrgId i) db with
      | inl OrgClash => (db, inl (PlatformError "org_taken"))
      | inl SlugClash => (db, inl (PlatformError "slug_taken"))
      | inr db1 =>
          match finish d i db1 with
          | (db2, inl _) =>
              (if dr_undoFails d then db2 else rollbackCreatedTenantRow (dr_now d) (dr_id d) db2 ?? db2, inl Crashed)
          | (db2, inr _) =>
              (db2, inr {| ct_id := dr_id d; ct_slug := ci_slug i; ct_name := trim (ci_name i); ct_token := dr_token d;
                           ct_inviteUrl := invite_url domain (ci_slug i) (dr_token d) |})
          end
      end
  end.
End create.

(** ** The workspace an entitled identity is owed *)

Record WorkspaceClaim := { wc_org : string; wc_orgName : string; wc_email : string; wc_name : option string; wc_exp : jsnum }.
Definition CLAIM_TTL_MS : Z := 15 * 60 * 1000.

Section claim.
(** [JSON.stringify] and base64url, back again ([None]: it throws), and HMAC-SHA256. *)
Context (encode : json → string) (decode : string → option json) (hmac : string → string → string).

Definition claim_json (org orgName email : string) (name : option string) (exp : Z) : json :=
  JObj ([("org", JStr org); ("orgName", JStr orgName); ("email", JStr email)]%string ++
        (match name with Some n => [("name"%string, JStr n)] | None => [] end) ++ [("exp"%string, JNum (NInt exp))]).

Definition signWorkspaceClaim (org orgName email : string) (name : option string) (secret : string) (now : Z) : string :=
  let payload := encode (claim_json org orgName email name (now + CLAIM_TTL_MS)) in
  payload +:+ "." +:+ hmac payload secret.

(** A claim's members are the texts [signWorkspaceClaim] put there. *)
Definition readWorkspaceClaim (token : option string) (secret : string) (now : Z) : option WorkspaceClaim :=
  match some_truthy token with
  | None => None
  | Some t =>
      if negb (truthy secret) then None else
      match split period t with
      | [payload; sig] =>
          if negb (truthy payload) || negb (truthy sig) then None else
          if negb (hmac payload secret =s sig) then None else
          match decode payload with
          | None => None
          | Some c =>
              match obj_get c "exp", some_truthy (as_string (obj_get c "org")), some_truthy (as_string (obj_get c "orgName")),
                    some_truthy (as_string (obj_get c "email")) with
              | JNum e, Some o, Some n, Some m =>
                  if negb (num_gt e now) then None else
                  Some {| wc_org := o; wc_orgName := n; wc_email := m; wc_name := as_string (obj_get c "name"); wc_exp := e |}
              | _, _, _, _ => None
              end
          end
      | _ => None
      end
  end.
End claim.

Inductive EntitlementLookup :=
  | EntUnavailable
  | EntNone
  | EntOk (plan : option string) (limits : option json) (expiresAt : option string).

(** [find] over the rows; [None] when reading one throws. *)
Fixpoint find_access (rows : list json) : option (option json) :=
  match rows with
  | [] => Some None
  | r :: rows' =>
      if is_nullish r then None
      else if json_str_is (obj_get r "product") "ACCESS" then Some (Some r) else find_access rows'
  end.

(** [answer]: whether the response was ok and its body, [None] when the request or
    the parse threw. *)
Definition fetchAccessEntitlement (configured : bool) (answer : option (bool * json)) : EntitlementLookup :=
  if negb configured then EntUnavailable else
  match answer with
  | None => EntUnavailable
  | Some (ok, body) =>
      if negb ok then EntUnavailable else
      if is_nullish body then EntUnavailable else
      match (match obj_get body "entitlements" with
             | JArr l => find_access l
             | v => if is_nullish v then Some None else None
             end) with
      | None => EntUnavailable
      | Some None => EntNone
      | Some (Some row) =>
          EntOk (as_string (obj_get row "plan"))
                (if is_object (obj_get row "limits") then Some (obj_get row "limits") else None)
                (as_string (obj_get row "expiresAt"))
      end
  end.

Inductive ProvisionResult :=
  | Provisioned (inviteUrl : string) (linked : bool)
  | Refused (error : string) (existingSlug : option string)
  | ProvisionCrash.

Section provision.
Context (argon2hash : string → string) (isValidTimeZone : string → bool) (domain : option string).
Context (date_parse : string → jsdate).

Definition consoleOriginFor (slug : string) : option string :=
  (λ d, "https://" +:+ slug +:+ "." +:+ d) <$> some_truthy domain.

(** [linked] is what reporting the link answers. *)
Definition provisionEntitledWorkspace (d : Draws) (ent : EntitlementLookup) (linked : bool)
    (org orgName slug adminEmail : string) (adminName : option string) (db : PlatformDb) : PlatformDb * ProvisionResult :=
  match ent with
  | EntUnavailable => (db, Refused "centre_unavailable" None)
  | EntNone => (db, Refused "not_entitled" None)
  | EntOk plan limits0 expiresAt =>
      if match expiresAt with
         | Some e => match date_parse e with ValidDate t => t <=? dr_now d | InvalidDate => true end
         | None => false
         end
      then (db, Refused "entitlement_expired" None) else
      match some_truthy (tenantSlugByOrg org db) with
      | Some existing => (db, Refused "already_provisioned" (Some existing))
      | None =>
          match consoleOriginFor slug with
          | None => (db, Refused "no_console_domain" None)
          | Some _ =>
              let limits := parseLimits <$> limits0 in
              if bool_decide (limits = Some []) then (db, Refused "invalid_limits" None) else
              match createTenant argon2hash isValidTimeZone domain d
                      {| ci_name := orgName; ci_slug := slug; ci_adminEmail := adminEmail; ci_adminName := adminName;
                         ci_plan := JStr (plan ?? "free"); ci_limits := limits; ci_captivoOrgId := Some org |} db with
              | (db1, inr t) => (db1, Provisioned (ct_inviteUrl t) linked)
              | (db1, inl (PlatformError code)) =>
                  if code =s "slug_taken" then (db1, Refused "slug_taken" None)
                  else if code =s "org_taken" then (db1, Refused "already_provisioned" None)
                  else (db1, ProvisionCrash)
              | (db1, inl Crashed) => (db1, ProvisionCrash)
              end
          end
      end
  end.

Definition provision_status (error : string) : Z :=
  if error =s "slug_taken" then 409 else if error =s "already_provisioned" then 409
  else if error =s "not_entitled" then 403 else if error =s "entitlement_expired" then 403
  else if error =s "centre_unavailable" then 503 else 400.

(** POST workspace/create.  The cookie is dropped when the workspace was made. *)
Definition workspaceCreate (decode : string → option json) (hmac : string → string → string)
    (frac_text : Z → string) (tenantId : string) (cookie : option string) (clientSecret : option string) (body : json) (d : Draws)
    (configured : bool) (centre : string → option (bool * json)) (linked : bool) (db : PlatformDb)
    : PlatformDb * option string * response string :=
  if negb (tenantId =s PLATFORM_TENANT_ID) then (db, cookie, Fail 404 "not_found") else
  match readWorkspaceClaim decode hmac cookie (clientSecret ?? "") (dr_now d) with
  | None => (db, cookie, Fail 401 "unauthorized")
  | Some claim =>
      let raw := obj_get body "slug" in
      let slug := toLowerCase (trim (if is_nullish raw then "" else js_String frac_text raw)) in
      if isReservedSlug slug then (db, cookie, Fail 400 "reserved_slug") else
      if negb (isValidTenantSlug slug) then (db, cookie, Fail 400 "invalid_slug") else
      match provisionEntitledWorkspace d (fetchAccessEntitlement configured (centre (wc_org claim))) linked (wc_org claim) (wc_orgName claim) slug (wc_email claim)
              (wc_name claim) db with
      | (db1, Provisioned url _) => (db1, None, Reply 201 url)
      | (db1, Refused e _) => (db1, cookie, Fail (provision_status e) e)
      | (db1, ProvisionCrash) => (db1, cookie, Fail 500 "")
      end
  end.
End provision.

(** ** Self-service sign-up *)

Record SignupClaims := { sg_name : string; sg_slug : string; sg_email : string; sg_adminName : string }.
Definition SIGNUP_TTL_SECONDS : Z := 30 * 60.

Section signup.
Context `{Jwt} (argon2hash : string → string) (isValidTimeZone : string → bool) (domain : option string).
Context (frac_text : Z → string) (digest : string → string) (json_store : json → json).

Definition signSignup (now : Z) (c : SignupClaims) : token :=
  signJwt [("name", JStr (sg_name c)); ("slug", JStr (sg_slug c)); ("email", JStr (sg_email c));
           ("adminName", JStr (sg_adminName c)); ("purpose", JStr "signup")]%string (now / 1000 + SIGNUP_TTL_SECONDS).

Definition verifySignup (now : Z) (t : token) : option SignupClaims :=
  match jwtVerify now t with
  | None => None
  | Some p =>
      if negb (json_str_is (obj_get p "purpose") "signup") then None else
      match as_string (obj_get p "name"), as_string (obj_get p "slug"), as_string (obj_get p "email") with
      | Some n, Some s, Some e => Some {| sg_name := n; sg_slug := s; sg_email := e; sg_adminName := str_or_empty (obj_get p "adminName") |}
      | _, _, _ => None
      end
  end.

Definition slugAvailable (slug : string) (db : PlatformDb) : bool :=
  if negb (isValidTenantSlug slug) || isReservedSlug slug then false else
  negb (existsb (λ w, w_slug w =s slug) (listTenants db)).

(** [startSignup]: the mail with the link, or why there is none; [mailed] is
    whether it was sent. *)
Definition startSignup (now : Z) (mailed : bool) (name0 slug0 email0 adminName0 : string) (db : PlatformDb) : string + token :=
  let name := trim name0 in
  let slug := toLowerCase (trim slug0) in
  let email := normalizeEmail email0 in
  let adminName := normalizeDisplayName (JStr adminName0) ?? "" in
  if negb (truthy name) || (120 <? js_length name) then inl "invalid_name"%string else
  if negb (email_re email) then inl "invalid_email"%string else
  if negb (slugAvailable slug db) then inl "slug_taken"%string else
  match some_truthy domain with
  | None => inl "unavailable"%string
  | Some _ =>
      if mailed then inr (signSignup now {| sg_name := name; sg_slug := slug; sg_email := email; sg_adminName := adminName |})
      else inl "mail_failed"%string
  end.

(** One entry of an admin log. *)
Definition log_action (fails : bool) (id : string) (now : Z) (actor : AdminActor) (action : string) (targetType targetId : option string)
    (summary : string) (metadata : json) (ip : option string) (l : AdminDb) : AdminDb :=
  recordAdminAction frac_text digest json_store fails id now l
    {| in_actor := actor; in_action := action; in_targetType := targetType; in_targetId := targetId; in_summary := summary;
       in_metadata := metadata; in_clientIp := ip |}.

(** What an audited request of the platform brings along. *)
Record AuditDraws := { ad_ids : string * string; ad_fails : bool * bool; ad_ip : option string }.

(** [recordPlatformAction]: the platform's log, and the tenant's when there is one. *)
Definition recordPlatformAction (a : AuditDraws) (now : Z) (actor : AdminActor) (action : string) (tenant : option Workspace)
    (targetType targetId : option string) (summary : string) (metadata : list (string * json)) (db : PlatformDb) : PlatformDb :=
  let over (x y : option string) := match x with Some v => Some v | None => y end in
  let meta := metadata ++ match tenant with
                          | Some t => [("tenantId"%string, JStr (w_id t)); ("tenantSlug"%string, JStr (w_slug t))]
                          | None => []
                          end in
  let l1 := at_tenant PLATFORM_TENANT_ID
    (log_action (ad_fails a).1 (ad_ids a).1 now actor action (over targetType ((λ _, "tenant"%string) <$> tenant))
       (over targetId (w_id <$> tenant)) summary (JObj meta) (ad_ip a)) (pf_logs db) in
  with_logs db match tenant with
               | None => l1
               | Some t => at_tenant (w_id t)
                   (log_action (ad_fails a).2 (ad_ids a).2 now actor action (over targetType (Some "tenant"%string))
                      (over targetId (Some (w_id t))) ("[Captivo platform] " +:+ summary)
                      (JObj (metadata ++ [("platformActor"%string, match actor_email actor with Some e => JStr e | None => JUndefined end)]))
                      (ad_ip a)) l1
               end.

(** The free tier of a self-service workspace. *)
Definition FREE_LIMITS : TenantLimits := [(maxConnectors, 1); (maxSites, 5)].

(** [completeSignup]: registering with the centre is best effort and writes nothing here. *)
Definition completeSignup (a : AuditDraws) (d : Draws) (t : token) (db : PlatformDb) : PlatformDb * (PlatformFailure + string) :=
  match verifySignup (dr_now d) t with
  | None => (db, inl (PlatformError "invalid_token"))
  | Some c =>
      match createTenant argon2hash isValidTimeZone domain d
              {| ci_name := sg_name c; ci_slug := sg_slug c; ci_adminEmail := sg_email c; ci_adminName := some_truthy (Some (sg_adminName c));
                 ci_plan := JStr "free"; ci_limits := Some FREE_LIMITS; ci_captivoOrgId := None |} db with
      | (db1, inl e) => (db1, inl e)
      | (db1, inr r) =>
          (recordPlatformAction a (dr_now d) {| actor_id := "signup"; actor_email := Some (sg_email c) |} "platform.tenant.signup"
             (Some (new_workspace (ct_id r) (ct_slug r) (ct_name r) None)) None None
             ("Self-service signup created free-tier tenant " +:+ sg_slug c +:+ " for " +:+ sg_email c)
             [("plan"%string, JStr "free")] db1,
           inr (ct_inviteUrl r))
      end
  end.

(** The signup routes: the platform's host only, and only when sign-up is on. *)
Definition signup_open (multi : bool) (tenantId : string) (c : PlatformConfig) : bool :=
  (tenantId =s PLATFORM_TENANT_ID) && multi && pc_signupEnabled c.

Definition signupVerify (multi : bool) (tenantId : string) (a : AuditDraws) (d : Draws) (t : token) (db : PlatformDb)
    : PlatformDb * response string :=
  let '(cs, c) := getPlatformConfig isValidTimeZone (dr_now d) (dr_configError d) (pf_config db) in
  let db0 := with_config db cs in
  if negb (signup_open multi tenantId c) then (db0, Fail 404 "not_found") else
  match completeSignup a d t db0 with
  | (db1, inr url) => (db1, Reply 307 url)
  | (db1, inl (PlatformError code)) => (db1, Fail 307 code)
  | (db1, inl Crashed) => (db1, Fail 500 "")
  end.

(** ** The platform console *)

Definition PURGE_AFTER_DAYS : Z := 30.

Record PlatformReq := {
  pq_tenant : string;
  pq_user : option User;
  pq_audit : AuditDraws;
  pq_draws : Draws;
}.
Definition pq_now (rq : PlatformReq) : Z := dr_now (pq_draws rq).

(** [requirePlatformAdmin]: anyone else is told the page does not exist. *)
Definition as_platform_admin {A} (rq : PlatformReq) (db : PlatformDb) (h : User → PlatformDb * response A) : PlatformDb * response A :=
  match pq_user rq with
  | Some u => if (pq_tenant rq =s PLATFORM_TENANT_ID) && bool_decide (u_role u = PLATFORM) then h u else (db, Fail 404 "")
  | None => (db, Fail 404 "")
  end.
Definition actor_of (u : User) : AdminActor := {| actor_id := u_id u; actor_email := Some (u_email u) |}.

(** [tenantRoute]: the gate, then the tenant. *)
Definition tenantRoute {A} (rq : PlatformReq) (id : string) (db : PlatformDb) (h : User → Workspace → PlatformDb * response A)
    : PlatformDb * response A :=
  as_platform_admin rq db (λ me,
    match getTenant id db with None => (db, Fail 404 "not_found") | Some t => h me t end).

Definition record (rq : PlatformReq) (me : User) (action : string) (tenant : option Workspace) (targetType targetId : option string)
    (summary : string) (metadata : list (string * json)) (db : PlatformDb) : PlatformDb :=
  recordPlatformAction (pq_audit rq) (pq_now rq) (actor_of me) action tenant targetType targetId summary metadata db.

(** A SQL function that raised ends the request with a 500. *)
Definition or_crash {A} (db : PlatformDb) (o : option PlatformDb) (h : PlatformDb → PlatformDb * response A) : PlatformDb * response A :=
  match o with Some db' => h db' | None => (db, Fail 500 "") end.

(** POST platform/tenants. *)
Definition tenantsPost (rq : PlatformReq) (body : json) (db : PlatformDb) : PlatformDb * response CreatedTenant :=
  as_platform_admin rq db (λ me,
    match createTenant argon2hash isValidTimeZone domain (pq_draws rq)
            {| ci_name := str_or_empty (obj_get body "name"); ci_slug := trim (toLowerCase (str_or_empty (obj_get body "slug")));
               ci_adminEmail := str_or_empty (obj_get body "adminEmail"); ci_adminName := as_string (obj_get body "adminName");
               ci_plan := JUndefined; ci_limits := None; ci_captivoOrgId := None |} db with
    | (db1, inr t) => (db1, Reply 200 t)
    | (db1, inl (PlatformError code)) => (db1, Fail 400 code)
    | (db1, inl Crashed) => (db1, Fail 500 "")
    end).

(** [validateUpdateInput]: the name, the plan and the notes as they are stored. *)
Definition validateUpdateInput (name0 plan : string) (trial : jsdate + unit) (notes : option string) : string + (string * option string) :=
  let name := trim name0 in
  if negb (truthy name) || (120 <? js_length name) then inl "invalid_name"%string else
  if negb (isPlan (JStr plan)) then inl "invalid_plan"%string else
  if match trial with inl InvalidDate => true | _ => false end then inl "invalid_trial_end"%string else
  inr (name, slice_to 4000 <$> some_truthy (trim <$> notes)).

Definition stored_limits (l : TenantLimits) : json := match l with [] => JNull | _ => limits_json l end.
Definition stored_capabilities (c : TenantCapabilities) : json :=
  match c with [] => JNull | _ => JObj (map (λ p, (capability_name p.1, JBool p.2)) c) end.

(** PATCH platform/tenants/[id]; [toISO] is the text of the trial date. *)
Definition tenantPatch (date_parse : string → jsdate) (rq : PlatformReq) (id : string) (body : json) (db : PlatformDb)
    : PlatformDb * response unit :=
  tenantRoute rq id db (λ me t,
    let trial := match some_truthy (as_string (obj_get body "trialEndsAt")) with Some s => inl (date_parse s) | None => inr tt end in
    let name := as_string (obj_get body "name") ?? w_name t in
    let plan := as_string (obj_get body "plan") ?? t_plan (w_row t) in
    let notes := match as_string (obj_get body "notes") with Some n => Some n | None => w_notes t end in
    match validateUpdateInput name plan trial notes with
    | inl code => (db, Fail 400 code)
    | inr (name', notes') =>
        or_crash db (platform_update_tenant id name' plan (stored_limits (parseLimits (obj_get body "limits")))
                       (stored_capabilities (parseCapabilities (obj_get body "capabilities"))) notes' db) (λ db1,
          (record rq me "platform.tenant.update" (Some t) None None
             ("Updated tenant " +:+ w_slug t +:+ " (plan " +:+ plan +:+ ")")
             [("plan"%string, or_null (obj_get body "plan")); ("limits"%string, or_null (obj_get body "limits"));
              ("capabilities"%string, or_null (obj_get body "capabilities"));
              ("trialEndsAt"%string, match trial with inl (ValidDate z) => JStr (toISOString z) | _ => JNull end)] db1,
           Reply 200 tt))
    end).

Definition confirmed (body : json) (t : Workspace) : bool := json_str_is (obj_get body "confirmSlug") (w_slug t).

Definition tenantDeletePost (rq : PlatformReq) (id : string) (body : json) (db : PlatformDb) : PlatformDb * response unit :=
  tenantRoute rq id db (λ me t,
    if negb (confirmed body t) then (db, Fail 400 "confirm_mismatch") else
    let db1 := record rq me "platform.tenant.delete" (Some t) None None
                 ("Deleted tenant " +:+ w_slug t +:+ " (purge in 30 days)") [] db in
    or_crash db1 (platform_delete_tenant (pq_now rq) id db1) (λ db2, (db2, Reply 200 tt))).

Definition tenantRestorePost (rq : PlatformReq) (id : string) (db : PlatformDb) : PlatformDb * response unit :=
  tenantRoute rq id db (λ me t,
    if bool_decide (w_deletedAt t = None) then (db, Fail 409 "not_deleted") else
    or_crash db (platform_restore_tenant id db) (λ db1,
      (record rq me "platform.tenant.restore" (Some t) None None ("Restored tenant " +:+ w_slug t) [] db1, Reply 200 tt))).

Definition tenantPurgePost (rq : PlatformReq) (id : string) (body : json) (db : PlatformDb) : PlatformDb * response unit :=
  tenantRoute rq id db (λ me t,
    if bool_decide (w_deletedAt t = None) then (db, Fail 409 "not_deleted") else
    if negb (confirmed body t) then (db, Fail 400 "confirm_mismatch") else
    let db1 := record rq me "platform.tenant.purge" None (Some "tenant"%string) (Some id)
                 ("Purged tenant " +:+ w_slug t +:+ " permanently")
                 [("slug"%string, JStr (w_slug t)); ("name"%string, JStr (w_name t))] db in
    or_crash db1 (platform_purge_tenant id db1) (λ db2, (db2, Reply 200 tt))).

(** [forceLogoutTenant]: how many sessions ended. *)
Definition forceLogoutTenant (id : string) (db : PlatformDb) : PlatformDb * Z :=
  (with_sessions db (at_tenant id (λ _, []) (pf_sessions db)), Z.of_nat (length (pf_sessions db id))).

(** [logoutFails]: ending the sessions threw, which is caught. *)
Definition tenantStatusPost (logoutFails : bool) (rq : PlatformReq) (id : string) (body : json) (db : PlatformDb)
    : PlatformDb * response unit :=
  tenantRoute rq id db (λ me t,
    let st := obj_get body "status" in
    if negb (json_str_is st "SUSPENDED" || json_str_is st "ACTIVE") then (db, Fail 400 "invalid_status") else
    if negb (bool_decide (w_deletedAt t = None)) then (db, Fail 409 "tenant_deleted") else
    let suspend := json_str_is st "SUSPENDED" in
    or_crash db (platform_set_tenant_status id (if suspend then "SUSPENDED" else "ACTIVE") db) (λ db1,
      let '(db2, n) := if suspend && negb logoutFails then forceLogoutTenant id db1 else (db1, 0) in
      (record rq me (if suspend then "platform.tenant.suspend" else "platform.tenant.activate") (Some t) None None
         ((if suspend then "Suspended" else "Activated") +:+ " tenant " +:+ w_slug t +:+
          (if n =? 0 then "" else " (" +:+ dec n +:+ " sessions ended)"))
         [("reason"%string, match obj_get body "reason" with JStr r => JStr r | _ => JUndefined end)] db2,
       Reply 200 tt))).

Definition tenantLogoutPost (rq : PlatformReq) (id : string) (db : PlatformDb) : PlatformDb * response Z :=
  tenantRoute rq id db (λ me t,
    let '(db1, n) := forceLogoutTenant id db in
    (record rq me "platform.tenant.force_logout" (Some t) None None
       ("Ended all " +:+ dec n +:+ " sessions in " +:+ w_slug t) [("sessions"%string, JNum (NInt n))] db1, Reply 200 n)).

(** [inviteTenantAdmin]; [emailed] is what sending the mail answers. *)
Definition inviteTenantAdmin (d : Draws) (t : Workspace) (email0 : string) (name0 : option string) (db : PlatformDb)
    : PlatformDb * (string + string) :=
  let email := toLowerCase (trim email0) in
  if negb (email_re email) then (db, inl "invalid_email"%string) else
  let name := match some_truthy (trim <$> name0) with Some n => n | None => email end in
  if existsb (λ u, u_email u =s email) (pf_users db (w_id t)) then (db, inl "email_registered"%string) else
  (with_invites db (at_tenant (w_id t)
     (createInvite argon2hash (dr_ttlHours d) (dr_now d) (dr_inviteId d) (dr_token d) email name ADMIN None None None) (pf_invites db)),
   inr (invite_url domain (w_slug t) (dr_token d))).

Definition tenantInvitePost (emailed : bool) (rq : PlatformReq) (id : string) (body : json) (db : PlatformDb)
    : PlatformDb * response string :=
  tenantRoute rq id db (λ me t,
    if negb (bool_decide (w_deletedAt t = None)) then (db, Fail 409 "tenant_deleted") else
    match inviteTenantAdmin (pq_draws rq) t (str_or_empty (obj_get body "email")) (as_string (obj_get body "name")) db with
    | (db1, inl code) => (db1, Fail 400 code)
    | (db1, inr url) =>
        (record rq me "platform.tenant.invite_admin" (Some t) None None
           ("Invited admin " +:+ str_or_empty (obj_get body "email") +:+ " into " +:+ w_slug t +:+
            (if emailed then " (emailed)" else " (link only)"))
           [("email"%string, obj_get body "email"); ("emailed"%string, JBool emailed)] db1, Reply 200 url)
    end).

(** POST tenants/[id]/support: a hand-off for the tenant's own host. *)
Definition HANDOFF_TTL_MS : Z := 2 * 60000.
Definition tenantSupportPost (sha256 : string → string) (rq : PlatformReq) (id : string) (body : json) (db : PlatformDb)
    : PlatformDb * response string :=
  tenantRoute rq id db (λ me t,
    if negb (bool_decide (w_deletedAt t = None)) || negb (t_status (w_row t) =s "ACTIVE") then (db, Fail 409 "tenant_inactive") else
    let reason := slice_to 300 (trim (str_or_empty (obj_get body "reason"))) in
    if js_length reason <? 3 then (db, Fail 400 "reason_required") else
    match some_truthy domain with
    | None => (db, Fail 500 "no_console_domain")
    | Some dom =>
        let d := pq_draws rq in
        let h := {| h_id := dr_inviteId d; h_tokenHash := sha256 (dr_token d); h_actorEmail := u_email me; h_reason := reason;
                    h_expiresAt := dr_now d + HANDOFF_TTL_MS; h_usedAt := None; h_sessionId := None |} in
        let db1 := with_handoffs db (at_tenant id (λ l, l ++ [h]) (pf_handoffs db)) in
        (record rq me "platform.support.access" (Some t) None None ("Support access to " +:+ w_slug t +:+ ": " +:+ reason)
           [("reason"%string, JStr reason)] db1,
         Reply 200 ("https://" +:+ w_slug t +:+ "." +:+ dom +:+ "/api/support/handoff?t=" +:+ dr_token d))
    end).

(** POST platform/config. *)
Definition configPost (date_parse : string → jsdate) (rq : PlatformReq) (body : json) (db : PlatformDb) : PlatformDb * response unit :=
  as_platform_admin rq db (λ me,
    let until := date_parse <$> some_truthy (as_string (obj_get body "announcementUntil")) in
    if bool_decide (until = Some InvalidDate) then (db, Fail 400 "invalid_until") else
    let opsEmail := trim (str_or_empty (obj_get body "opsEmail")) in
    if truthy opsEmail && negb (email_re opsEmail) then (db, Fail 400 "invalid_email") else
    let text := slice_to 300 <$> as_string (obj_get body "announcementText") in
    let smtp := match obj_get body "smtpFallback" with JBool true => true | _ => false end in
    let signup := match obj_get body "signupEnabled" with JBool true => true | _ => false end in
    let cfg := {| pc_announcementText := text; pc_announcementLevel := level (as_string (obj_get body "announcementLevel"));
                  pc_announcementUntil := match until with Some (ValidDate z) => Some z | _ => None end;
                  pc_newTenantDefaults := parseNewTenantDefaults isValidTimeZone (obj_get body "defaults");
                  pc_opsEmail := some_truthy (Some opsEmail); pc_smtpFallback := smtp; pc_signupEnabled := signup |} in
    (record rq me "platform.config.update" None (Some "platform"%string) None "Updated platform settings"
       [("announcement"%string, JBool (truthy (trim (str_or_empty (obj_get body "announcementText")))));
        ("smtpFallback"%string, JBool smtp); ("signupEnabled"%string, JBool signup)]
       (with_config db (savePlatformConfig cfg (pf_config db))), Reply 200 tt)).

(** POST platform/admins: [invitePlatformAdmin]. *)
Definition adminsPost (rq : PlatformReq) (body : json) (db : PlatformDb) : PlatformDb * response string :=
  as_platform_admin rq db (λ me,
    let email := toLowerCase (trim (str_or_empty (obj_get body "email"))) in
    let d := pq_draws rq in
    if negb (email_re email) then (db, Fail 400 "invalid_email") else
    if existsb (λ u, u_email u =s email) (pf_users db PLATFORM_TENANT_ID) then (db, Fail 400 "email_registered") else
    let name := match some_truthy (trim <$> as_string (obj_get body "name")) with Some n => n | None => email end in
    let db1 := with_invites db (at_tenant PLATFORM_TENANT_ID
      (createInvite argon2hash (dr_ttlHours d) (dr_now d) (dr_inviteId d) (dr_token d) email name PLATFORM None None None) (pf_invites db)) in
    (record rq me "platform.admin.invite" None (Some "user"%string) None
       ("Invited platform operator " +:+ str_or_empty (obj_get body "email")) [("email"%string, obj_get body "email")] db1,
     Reply 200 (invite_url domain "platform" (dr_token d)))).

(** [removePlatformAdmin]: never oneself, never the last one; the delete cascades
    to the sessions. *)
Definition removePlatformAdmin (id actorId : string) (db : PlatformDb) : PlatformDb * option string :=
  let users := pf_users db PLATFORM_TENANT_ID in
  if id =s actorId then (db, Some "cannot_remove_self"%string) else
  if count_where (λ u, bool_decide (u_role u = PLATFORM) && bool_decide (u_status u = UActive)) users <=? 1
  then (db, Some "last_admin"%string) else
  match find_row (λ u, u_id u =s id) users with
  | Some u =>
      if negb (bool_decide (u_role u = PLATFORM)) then (db, Some "not_found"%string) else
      (with_sessions (with_users db (at_tenant PLATFORM_TENANT_ID (delete_where (λ u, u_id u =s id)) (pf_users db)))
         (at_tenant PLATFORM_TENANT_ID (delete_where (λ s, se_userId s =s id)) (pf_sessions db)), None)
  | None => (db, Some "not_found"%string)
  end.

Definition adminDelete (rq : PlatformReq) (id : string) (db : PlatformDb) : PlatformDb * response unit :=
  as_platform_admin rq db (λ me,
    let target := find_row (λ u, u_id u =s id) (pf_users db PLATFORM_TENANT_ID) in
    match removePlatformAdmin id (u_id me) db with
    | (db1, Some code) => (db1, Fail (if code =s "not_found" then 404 else 409) code)
    | (db1, None) =>
        (record rq me "platform.admin.remove" None (Some "user"%string) (Some id)
           ("Removed platform operator " +:+ ((u_email <$> target) ?? id)) [] db1, Reply 200 tt)
    end).

(** *** Daily maintenance *)

(** [runPlatformOps], its purge; the digest is mail.  [ids] draws the log rows. *)
Definition purge_one (a : AuditDraws) (now : Z) (db : PlatformDb) (id : string) : PlatformDb :=
  let t := getTenant id db in
  let db1 := recordPlatformAction a now {| actor_id := "system"; actor_email := Some "platform-ops@system"%string |}
    "platform.tenant.purge" None (Some "tenant"%string) (Some id)
    ("Purged tenant " +:+ ((w_slug <$> t) ?? id) +:+ " (30 days after deletion)")
    [("slug"%string, match t with Some w => JStr (w_slug w) | None => JUndefined end);
     ("name"%string, match t with Some w => JStr (w_name w) | None => JUndefined end)] db in
  platform_purge_tenant id db1 ?? db1.

Definition runPlatformOps (audits : string → AuditDraws) (now : Z) (db : PlatformDb) : PlatformDb * list string :=
  foldl (λ st id, (purge_one (audits id) now st.1 id, st.2 ++ [(w_slug <$> getTenant id st.1) ?? id])) (db, [])
    (platform_purge_candidates now PURGE_AFTER_DAYS db).

Definition platformOpsPost (authorized multi : bool) (audits : string → AuditDraws) (now : Z) (db : PlatformDb)
    : PlatformDb * response (list string) :=
  if negb authorized then (db, Fail 401 "unauthorized") else
  if negb multi then (db, Reply 200 []) else
  let '(db1, purged) := runPlatformOps audits now db in (db1, Reply 200 purged).
End signup.

(** ** Theorems: the tables *)

Definition ids (db : PlatformDb) : list string := w_id <$> pf_tenants db.

(** Nothing is kept under this id. *)
Definition unowned (db : PlatformDb) (t : string) : Prop :=
  pf_invites db t = [] ∧ pf_sessions db t = [] ∧ pf_users db t = [] ∧ pf_handoffs db t = [] ∧
  settingsRows (pf_settings db) !! t = None ∧ pf_logs db t = no_admin_log.

Record wf_platform (db : PlatformDb) : Prop := {
  wf_ids : NoDup (ids db);
  wf_slugs : NoDup (w_slug <$> pf_tenants db);
  wf_orgs : NoDup (omap w_captivoOrgId (pf_tenants db));
  wf_names : ∀ w, w ∈ pf_tenants db → reserved_id (w_id w) = false → isValidTenantSlug (w_slug w) = true;
  wf_reserved : ∀ w, w ∈ pf_tenants db → reserved_id (w_id w) = true → w_deletedAt w = None;
  wf_platform_row : PLATFORM_TENANT_ID ∈ ids db;
  wf_owned : ∀ t, t ∉ ids db → unowned db t;
}.

(** What the routes do to the tables, one statement at a time. *)
Inductive effect : PlatformDb → PlatformDb → Prop :=
  | eff_rows db db' :
      pf_tenants db' = pf_tenants db → (∀ t, t ∉ ids db → unowned db t → unowned db' t) → effect db db'
  | eff_create id slug name org db :
      slug_clash id slug (pf_tenants db) = false → org_clash org (pf_tenants db) = false → isValidTenantSlug slug = true →
      effect db (with_tenants db (pf_tenants db ++ [new_workspace id slug name org]))
  | eff_update p g db :
      (∀ w, p w = true → reserved_id (w_id w) = false) →
      (∀ w, w_id (g w) = w_id w ∧ w_slug (g w) = w_slug w ∧ w_captivoOrgId (g w) = w_captivoOrgId w) →
      effect db (with_tenants db (update_where p g (pf_tenants db)))
  | eff_purge id w db :
      reserved_id id = false → w ∈ pf_tenants db → w_id w = id → w_deletedAt w ≠ None → effect db (cascade_tenant id db).

Lemma slug_clash_false id slug ts :
  slug_clash id slug ts = false ↔ id ∉ w_id <$> ts ∧ slug ∉ w_slug <$> ts.
Proof.
  unfold slug_clash. rewrite <-not_true_iff_false, existsb_exists. split.
  - intros Hn. split; intros (w & -> & Hw)%list_elem_of_fmap; apply Hn; exists w; rewrite <-list_elem_of_In; (split; [done|]);
      rewrite orb_true_iff, !bool_decide_eq_true; auto.
  - intros [Hi Hs] (w & Hw & Hb). rewrite <-list_elem_of_In in Hw. rewrite orb_true_iff, !bool_decide_eq_true in Hb.
    destruct Hb as [<-|<-]; [apply Hi|apply Hs]; [by apply (list_elem_of_fmap_2 w_id)|by apply (list_elem_of_fmap_2 w_slug)].
Qed.

Lemma org_clash_false o ts : org_clash (Some o) ts = false → o ∉ omap w_captivoOrgId ts.
Proof.
  unfold org_clash. rewrite <-not_true_iff_false, existsb_exists. intros Hn (w & Hw & Ho)%list_elem_of_omap.
  apply Hn. exists w. rewrite <-list_elem_of_In. split; [done|]. by apply bool_decide_eq_true_2.
Qed.

Lemma update_orgs p g ts : (∀ w, w_captivoOrgId (g w) = w_captivoOrgId w) →
  omap w_captivoOrgId (update_where p g ts) = omap w_captivoOrgId ts.
Proof.
  intros Hg. unfold update_where. induction ts as [|w ts IH]; [done|]. cbn.
  assert (w_captivoOrgId (if p w then g w else w) = w_captivoOrgId w) as -> by (by case_match).
  destruct (w_captivoOrgId w); by rewrite IH.
Qed.

Lemma NoDup_delete_omap {A B} (f : A → option B) p ts : NoDup (omap f ts) → NoDup (omap f (delete_where p ts)).
Proof.
  unfold delete_where. induction ts as [|w ts IH]; [done|]. cbn.
  destruct (f w) as [b|] eqn:Hb.
  - intros [Hn Hnd]%NoDup_cons. destruct (negb (p w)); cbn; [|by apply IH]. rewrite Hb. constructor; [|by apply IH].
    intros (x & Hx & Hf)%list_elem_of_omap. apply Hn, list_elem_of_omap. exists x. split; [|done].
    apply list_elem_of_In, filter_In in Hx as [Hx _]. by apply list_elem_of_In.
  - intros Hnd. destruct (negb (p w)); cbn; [rewrite Hb|]; by apply IH.
Qed.

Lemma effect_ids_grow db db' : effect db db' → ∀ t, t ∉ ids db' → t ∉ ids db ∨ unowned db' t.
Proof.
  intros He. destruct He as [db db' Ht _|id slug name org db _ _ _|p g db _ Hg|id w db _ _ _ _]; intros t Hn.
  - left. unfold ids in *. by rewrite <-Ht.
  - left. unfold ids in *. cbn in Hn. rewrite fmap_app, elem_of_app in Hn. tauto.
  - left. unfold ids in *. cbn in Hn. rewrite update_where_column in Hn; [done|]. intros x. by destruct (Hg x).
  - destruct (decide (t = id)) as [->|Hne].
    + right. unfold unowned; cbn. unfold at_tenant. rewrite bool_decide_eq_true_2 by done. by rewrite lookup_delete_eq.
    + left. intros (x & -> & Hx)%list_elem_of_fmap. apply Hn. unfold ids; cbn. apply (list_elem_of_fmap_2 w_id).
      apply elem_of_delete_where. split; [done|]. by apply bool_decide_eq_false_2.
Qed.

Lemma unowned_kept db db' t : effect db db' → t ∉ ids db → t ∉ ids db' → unowned db t → unowned db' t.
Proof.
  intros He Hn _ Hu. destruct He as [db db' _ H|?|?|id w db _ Hw Hid _]; [by apply H|done|done|].
  assert (t ≠ id) as Hne. { intros ->. apply Hn. subst. by apply (list_elem_of_fmap_2 w_id). }
  unfold unowned in *; cbn. unfold at_tenant. rewrite bool_decide_eq_false_2 by done. by rewrite lookup_delete_ne.
Qed.

Lemma effect_wf db db' : effect db db' → wf_platform db → wf_platform db'.
Proof.
  intros He Hwf. assert (∀ t, t ∉ ids db' → unowned db' t) as Howned.
  { intros t Hn. destruct (effect_ids_grow _ _ He t Hn) as [Hn0|?]; [|done]. eapply unowned_kept; [done..|]. by apply Hwf. }
  destruct Hwf as [Hi Hs Ho Hv Hr Hp Hu].
  destruct He as [db db' Ht _|id slug name org db Hc Hoc Hval|p g db Hp' Hg|id w db Hres Hw Hid Hd].
  - split; unfold ids in *; rewrite ?Ht in *; done.
  - apply slug_clash_false in Hc as [Hci Hcs]. split; unfold ids in *; cbn.
    + by apply NoDup_fmap_snoc.
    + by apply NoDup_fmap_snoc.
    + rewrite omap_app. cbn. destruct org as [o|]; [|by rewrite app_nil_r]. apply NoDup_app.
      split_and!; [done| |apply NoDup_singleton]. intros x Hx ->%list_elem_of_singleton. by eapply org_clash_false.
    + intros x [Hx|Hx]%elem_of_app Hxr; [by apply Hv|]. by apply list_elem_of_singleton in Hx as ->.
    + intros x [Hx|Hx]%elem_of_app Hxr; [by apply Hr|]. by apply list_elem_of_singleton in Hx as ->.
    + rewrite fmap_app. apply elem_of_app. by left.
    + done.
  - split; unfold ids in *; cbn.
    + rewrite update_where_column; [done|]. intros x. by destruct (Hg x).
    + rewrite update_where_column; [done|]. intros x. by destruct (Hg x) as (_ & ? & _).
    + rewrite update_orgs; [done|]. intros x. by destruct (Hg x) as (_ & _ & ?).
    + intros x (y & Hy & ->)%elem_of_update_where Hxr. destruct (p y); [|by apply Hv].
      destruct (Hg y) as (Hyi & Hys & _). rewrite Hys. apply Hv; [done|]. by rewrite <-Hyi.
    + intros x (y & Hy & ->)%elem_of_update_where Hxr. destruct (p y) eqn:E; [|by apply Hr].
      destruct (Hg y) as (Hyi & _ & _). rewrite Hyi in Hxr. specialize (Hp' y E). congruence.
    + rewrite update_where_column; [done|]. intros x. by destruct (Hg x).
    + done.
  - split; unfold ids in *; cbn.
    + unfold delete_where. by apply NoDup_filter_fmap.
    + unfold delete_where. by apply NoDup_filter_fmap.
    + by apply NoDup_delete_omap.
    + intros x [Hx _]%elem_of_delete_where. by apply Hv.
    + intros x [Hx _]%elem_of_delete_where. by apply Hr.
    + apply list_elem_of_fmap in Hp as (x & Hxi & Hx). rewrite Hxi. apply (list_elem_of_fmap_2 w_id).
      apply elem_of_delete_where. split; [done|]. apply bool_decide_eq_false_2. intros Heq. rewrite Heq in Hxi. by rewrite <-Hxi in Hres.
    + done.
Qed.

(** *** The requests *)

Section served.
Context `{Jwt} (argon2hash : string → string) (isValidTimeZone : string → bool) (domain : option string).
Context (frac_text : Z → string) (digest sha256 : string → string) (json_store : json → json) (date_parse : string → jsdate).
Context (decode : string → option json) (hmac : string → string → string).
Implicit Types (db : PlatformDb) (d : Draws).

Inductive platform_call :=
  | CallCreate (rq : PlatformReq) (body : json)
  | CallPatch (rq : PlatformReq) (id : string) (body : json)
  | CallDelete (rq : PlatformReq) (id : string) (body : json)
  | CallRestore (rq : PlatformReq) (id : string)
  | CallPurge (rq : PlatformReq) (id : string) (body : json)
  | CallStatus (logoutFails : bool) (rq : PlatformReq) (id : string) (body : json)
  | CallLogout (rq : PlatformReq) (id : string)
  | CallInvite (emailed : bool) (rq : PlatformReq) (id : string) (body : json)
  | CallSupport (rq : PlatformReq) (id : string) (body : json)
  | CallConfig (rq : PlatformReq) (body : json)
  | CallAdmins (rq : PlatformReq) (body : json)
  | CallAdminDelete (rq : PlatformReq) (id : string)
  | CallWorkspace (tenantId : string) (cookie clientSecret : option string) (body : json) (d : Draws)
      (configured : bool) (centre : string → option (bool * json)) (linked : bool)
  | CallSignup (multi : bool) (tenantId : string) (a : AuditDraws) (d : Draws) (t : token)
  | CallOps (authorized multi : bool) (audits : string → AuditDraws) (now : Z).

Definition run_platform (c : platform_call) (db : PlatformDb) : PlatformDb :=
  match c with
  | CallCreate rq body => (tenantsPost argon2hash isValidTimeZone domain rq body db).1
  | CallPatch rq id body => (tenantPatch frac_text digest json_store date_parse rq id body db).1
  | CallDelete rq id body => (tenantDeletePost frac_text digest json_store rq id body db).1
  | CallRestore rq id => (tenantRestorePost frac_text digest json_store rq id db).1
  | CallPurge rq id body => (tenantPurgePost frac_text digest json_store rq id body db).1
  | CallStatus lf rq id body => (tenantStatusPost frac_text digest json_store lf rq id body db).1
  | CallLogout rq id => (tenantLogoutPost frac_text digest json_store rq id db).1
  | CallInvite em rq id body => (tenantInvitePost argon2hash domain frac_text digest json_store em rq id body db).1
  | CallSupport rq id body => (tenantSupportPost domain frac_text digest json_store sha256 rq id body db).1
  | CallConfig rq body => (configPost isValidTimeZone frac_text digest json_store date_parse rq body db).1
  | CallAdmins rq body => (adminsPost argon2hash domain frac_text digest json_store rq body db).1
  | CallAdminDelete rq id => (adminDelete frac_text digest json_store rq id db).1
  | CallWorkspace t c s b d cf e l =>
      (workspaceCreate argon2hash isValidTimeZone domain date_parse decode hmac frac_text t c s b d cf e l db).1.1
  | CallSignup m t a d tok => (signupVerify argon2hash isValidTimeZone domain frac_text digest json_store m t a d tok db).1
  | CallOps au m a now => (platformOpsPost frac_text digest json_store au m a now db).1
  end.

(** Rows filed under a tenant that exists. *)
Lemma at_tenant_unowned {A} (t tid : string) (f : A → A) rows : t ≠ tid → at_tenant tid f rows t = rows t.
Proof. intros Hne. unfold at_tenant. by rewrite bool_decide_eq_false_2. Qed.

Lemma filed t db db' :
  t ∈ ids db → pf_tenants db' = pf_tenants db →
  (∀ x, x ≠ t → pf_invites db' x = pf_invites db x ∧ pf_sessions db' x = pf_sessions db x ∧ pf_users db' x = pf_users db x ∧
     pf_handoffs db' x = pf_handoffs db x ∧ settingsRows (pf_settings db') !! x = settingsRows (pf_settings db) !! x ∧
     pf_logs db' x = pf_logs db x) →
  effect db db'.
Proof.
  intros Ht Hs Hx. apply eff_rows; [done|]. intros x Hn Hu.
  destruct (Hx x) as (H1 & H2 & H3 & H4 & H5 & H6); [by intros ->|]. unfold unowned in *.
  by rewrite H1, H2, H3, H4, H5, H6.
Qed.

Lemma getTenant_ids id db t :
  getTenant id db = Some t → w_id t = id ∧ id ∈ ids db ∧ reserved_id id = false ∧ t ∈ pf_tenants db.
Proof.
  intros [Hin Hid]%find_row_Some. apply bool_decide_eq_true_1 in Hid. unfold listTenants in Hin.
  apply list_elem_of_In, filter_In in Hin as [Hin Hr%negb_true_iff]. rewrite <-list_elem_of_In in Hin. subst.
  split_and!; try done. by apply (list_elem_of_fmap_2 w_id).
Qed.

(** Served from a well-formed state, by the statements above. *)
Definition reach db db' : Prop := wf_platform db → wf_platform db' ∧ rtc effect db db'.
#[local] Instance reach_preorder : PreOrder reach.
Proof.
  split; [by intros db ?|]. intros a b c H1 H2 Ha. destruct (H1 Ha) as [Hb R1], (H2 Hb) as [Hc R2]. split; [done|by etrans].
Qed.
Lemma reach_effect db db' : (wf_platform db → effect db db') → reach db db'.
Proof. intros He Hwf. split; [eapply effect_wf; eauto|by apply rtc_once, He]. Qed.

Lemma reach_filed t db db' :
  (wf_platform db → t ∈ ids db) → pf_tenants db' = pf_tenants db →
  (∀ x, x ≠ t → pf_invites db' x = pf_invites db x ∧ pf_sessions db' x = pf_sessions db x ∧ pf_users db' x = pf_users db x ∧
     pf_handoffs db' x = pf_handoffs db x ∧ settingsRows (pf_settings db') !! x = settingsRows (pf_settings db) !! x ∧
     pf_logs db' x = pf_logs db x) →
  reach db db'.
Proof. intros Ht Hs Hx. apply reach_effect. intros Hwf. by apply (filed t); [apply Ht| |]. Qed.

Lemma reach_config db cs : reach db (with_config db cs).
Proof. apply reach_effect. intros _. by apply eff_rows. Qed.

Lemma record_tenants a now actor action tenant tt ti s m db :
  pf_tenants (recordPlatformAction frac_text digest json_store a now actor action tenant tt ti s m db) = pf_tenants db.
Proof. done. Qed.

Lemma reach_record a now actor action tenant tt ti s m db :
  (∀ t, tenant = Some t → w_id t ∈ ids db) →
  reach db (recordPlatformAction frac_text digest json_store a now actor action tenant tt ti s m db).
Proof.
  intros Ht. unfold recordPlatformAction.
  set (l1 := at_tenant PLATFORM_TENANT_ID _ (pf_logs db)).
  assert (reach db (with_logs db l1)) as Hl1.
  { apply (reach_filed PLATFORM_TENANT_ID); [apply wf_platform_row|done|]. intros x Hx. cbn.
    split_and!; try done. by apply at_tenant_unowned. }
  destruct tenant as [t|]; [|done]. etrans; [exact Hl1|].
  apply (reach_filed (w_id t)); [intros _; by apply Ht|done|]. intros x Hx. cbn. split_and!; try done. by apply at_tenant_unowned.
Qed.

Lemma reach_update db db' id name plan l c n : platform_update_tenant id name plan l c n db = Some db' → reach db db'.
Proof.
  unfold platform_update_tenant. destruct (reserved_id id || _) eqn:Hr; [done|]. apply orb_false_iff in Hr as [Hr _].
  intros [= <-]. apply reach_effect. intros _. apply eff_update; [|done]. intros w Hw. by apply bool_decide_eq_true_1 in Hw as ->.
Qed.
Lemma reach_restore db db' id : platform_restore_tenant id db = Some db' → reach db db'.
Proof.
  unfold platform_restore_tenant. destruct (reserved_id id) eqn:Hr; [done|]. intros [= <-]. apply reach_effect. intros _.
  apply eff_update; [|done]. intros w Hw. by apply bool_decide_eq_true_1 in Hw as ->.
Qed.
Lemma reach_status db db' id st : reserved_id id = false → platform_set_tenant_status id st db = Some db' → reach db db'.
Proof.
  intros Hr. unfold platform_set_tenant_status. case_match; [done|]. intros [= <-]. apply reach_effect. intros _.
  apply eff_update; [|done]. intros w Hw. by apply bool_decide_eq_true_1 in Hw as ->.
Qed.
Lemma reach_no_sessions id db : id ∈ ids db → reach db (with_sessions db (at_tenant id (λ _, []) (pf_sessions db))).
Proof.
  intros Hin. apply (reach_filed id); [done|done|]. intros x Hx. cbn. split_and!; try done. by apply at_tenant_unowned.
Qed.
Lemma delete_update id now db :
  ids (with_tenants db (update_where (λ w, (w_id w =s id) && bool_decide (w_deletedAt w = None))
         (set_row (set_status_deleted "SUSPENDED" (Some now))) (pf_tenants db))) = ids db.
Proof. unfold ids; cbn. by apply update_where_column. Qed.
Lemma reach_delete now db db' id : id ∈ ids db → platform_delete_tenant now id db = Some db' → reach db db'.
Proof.
  intros Hin. unfold platform_delete_tenant. destruct (reserved_id id) eqn:Hr; [done|]. intros [= <-].
  etrans; [|apply (reach_no_sessions id (with_tenants db _)); by rewrite delete_update].
  apply reach_effect. intros _. apply eff_update; [|done]. intros w [Hw _]%andb_true_iff. by apply bool_decide_eq_true_1 in Hw as ->.
Qed.
Lemma reach_purge db db' id : platform_purge_tenant id db = Some db' → reach db db'.
Proof.
  unfold platform_purge_tenant. destruct (reserved_id id) eqn:Hr; [done|]. destruct (existsb _ _) eqn:He; intros [= <-]; [|done].
  apply existsb_exists in He as (w & Hw & Hb). rewrite <-list_elem_of_In in Hw. apply andb_true_iff in Hb as [Hi Hd].
  apply bool_decide_eq_true_1 in Hi. apply negb_true_iff, bool_decide_eq_false_1 in Hd.
  apply reach_effect. intros _. by eapply eff_purge.
Qed.

Lemma step_reach d n f db db' r :
  (∀ s s', ids s = ids db → f s = Some s' → reach s s') → step d n f db = (db', r) → reach db db'.
Proof.
  intros Hf. unfold step. case_bool_decide; [by intros [= <- <-]|].
  destruct (f db) as [s'|] eqn:E; intros [= <- <-]; [by apply (Hf db)|done].
Qed.

Definition stays db db' : Prop := reach db db' ∧ ids db' = ids db.
#[local] Instance stays_preorder : PreOrder stays.
Proof. split; [by intros db|]. intros a b c [R1 I1] [R2 I2]. split; [by etrans|congruence]. Qed.

Lemma step_stays d n f db db' r : (∀ s', f db = Some s' → stays db s') → step d n f db = (db', r) → stays db db'.
Proof.
  intros Hf. unfold step. case_bool_decide; [by intros [= <- <-]|].
  destruct (f db) as [s'|] eqn:E; intros [= <- <-]; [by apply Hf|done].
Qed.

Lemma update_stays db db' id name plan l c n : platform_update_tenant id name plan l c n db = Some db' → stays db db'.
Proof.
  intros Hu. split; [by eapply reach_update|]. revert Hu. unfold platform_update_tenant. case_match; [done|]. intros [= <-].
  unfold ids; cbn. by apply update_where_column.
Qed.

Lemma invite_stays d i db : dr_id d ∈ ids db → stays db (invite_admin argon2hash d i db).
Proof.
  intros Hin. split; [|done]. apply (reach_filed (dr_id d)); [done|done|]. intros x Hx. cbn. split_and!; try done.
  by apply at_tenant_unowned.
Qed.

Lemma preset_stays d db : dr_id d ∈ ids db → stays db (preset_settings isValidTimeZone d db).
Proof.
  intros Hin. unfold preset_settings. destruct (getPlatformConfig _ _ _ _) as [cs c].
  assert (stays db (with_config db cs)) as Hc by (split; [apply reach_config|done]).
  destruct (newTenantDefaultsFrom c) as [def|]; [|done]. cbn [pf_settings with_config].
  destruct (getPlatformSettings _ _ _ _) as [st cur] eqn:Hg. etrans; [exact Hc|]. split; [|done].
  apply (reach_filed (dr_id d)); [done|done|]. intros x Hx. cbn. split_and!; try done. rewrite lookup_insert_ne by done.
  revert Hg. unfold getPlatformSettings. repeat case_match; by intros [= <- <-].
Qed.

Lemma finish_stays d i db db' r :
  dr_id d ∈ ids db → finish argon2hash isValidTimeZone d i db = (db', r) → stays db db'.
Proof.
  intros Hin. unfold finish, mbind, tx_bind.
  destruct (step d 1 _ db) as [s1 [e1|[]]] eqn:E1; (apply step_stays in E1; [|intros s' [= <-]; by apply invite_stays]);
    [by intros [= <- <-]|].
  assert (dr_id d ∈ ids s1) as H1 by (by rewrite (proj2 E1)).
  destruct (step d 2 _ s1) as [s2 [e2|[]]] eqn:E2;
    (apply step_stays in E2; [|unfold set_plan; intros s'; case_match; [apply update_stays|by intros [= <-]]]);
    [intros [= <- <-]; by etrans|].
  assert (dr_id d ∈ ids s2) as H2 by (by rewrite (proj2 E2)).
  intros E3. apply step_stays in E3; [|intros s' [= <-]; by apply preset_stays]. etrans; [exact E1|]. by etrans.
Qed.

Lemma rollback_reach now id db db' : id ∈ ids db → rollbackCreatedTenantRow now id db = Some db' → reach db db'.
Proof.
  intros Hin. unfold rollbackCreatedTenantRow. destruct (platform_delete_tenant now id db) as [s|] eqn:E; [|done]. cbn.
  intros Hp. etrans; [by eapply reach_delete|by eapply reach_purge].
Qed.

Lemma create_reach d i db : reach db (createTenant argon2hash isValidTimeZone domain d i db).1.
Proof.
  unfold createTenant, validateCreateInput. case_match; [done|]. case_match; [done|]. case_match; [done|].
  case_bool_decide; [done|]. unfold platform_create_tenant. destruct (_ || _) eqn:Hc; [by repeat case_match|].
  apply orb_false_iff in Hc as [Hs Ho]. set (db1 := with_tenants db _).
  assert (reach db db1) as R1.
  { apply reach_effect. intros _. apply eff_create; try done. by apply negb_false_iff. }
  assert (dr_id d ∈ ids db1) as Hin by (unfold ids, db1; cbn; rewrite fmap_app; apply elem_of_app; right; by left).
  destruct (finish _ _ d i db1) as [db2 [e|u]] eqn:Hf; apply finish_stays in Hf as [R2 I2]; try done; cbn; [|by etrans].
  destruct (dr_undoFails d); [by etrans|]. destruct (rollbackCreatedTenantRow _ _ db2) as [db3|] eqn:Hr; cbn; [|by etrans].
  etrans; [exact R1|]. etrans; [exact R2|]. eapply rollback_reach; [|done]. by rewrite I2.
Qed.

Lemma create_listed d i db r :
  (createTenant argon2hash isValidTimeZone domain d i db).2 = inr r → ct_id r ∈ ids (createTenant argon2hash isValidTimeZone domain d i db).1.
Proof.
  unfold createTenant. destruct (validateCreateInput i); [done|]. case_bool_decide; [done|]. unfold platform_create_tenant.
  destruct (_ || _); [by repeat case_match|]. set (db1 := with_tenants db _).
  assert (dr_id d ∈ ids db1) as Hin by (unfold ids, db1; cbn; rewrite fmap_app; apply elem_of_app; right; by left).
  destruct (finish _ _ d i db1) as [db2 [e|u]] eqn:Hf; [done|]. apply finish_stays in Hf as [_ I2]; [|done].
  cbn. intros [= <-]. cbn. by rewrite I2.
Qed.

Lemma admin_reach {A} rq db (h : User → PlatformDb * response A) :
  (∀ me, reach db (h me).1) → reach db (as_platform_admin rq db h).1.
Proof. intros Hh. unfold as_platform_admin. destruct (pq_user rq); [case_match|]; [apply Hh|done..]. Qed.

Lemma route_reach {A} rq id db (h : User → Workspace → PlatformDb * response A) :
  (∀ me t, getTenant id db = Some t → reach db (h me t).1) → reach db (tenantRoute rq id db h).1.
Proof.
  intros Hh. apply admin_reach. intros me. destruct (getTenant id db) as [t|]; [by apply Hh|done].
Qed.

Lemma crash_reach {A} db o (h : PlatformDb → PlatformDb * response A) :
  (∀ db', o = Some db' → reach db (h db').1) → reach db (or_crash db o h).1.
Proof. intros Hh. unfold or_crash. destruct o; [by apply Hh|done]. Qed.

Lemma known_tenant id db t t' : getTenant id db = Some t → Some t = Some t' → w_id t' ∈ ids db.
Proof. intros (<- & ? & _)%getTenant_ids [= <-]. done. Qed.

Lemma ops_reach audits now l st :
  reach st.1 (foldl (λ s id, (purge_one frac_text digest json_store (audits id) now s.1 id, s.2 ++ [(w_slug <$> getTenant id s.1) ?? id])) st l).1.
Proof.
  revert st. induction l as [|id l IH]; intros [db out]; [done|]. cbn. etrans; [|apply IH]. cbn. unfold purge_one.
  set (db1 := recordPlatformAction _ _ _ _ _ _ _ _ _ _ _ _ _).
  assert (reach db db1) as R1 by (by apply reach_record).
  destruct (platform_purge_tenant id db1) as [db2|] eqn:Hp; cbn; [|done]. etrans; [exact R1|by eapply reach_purge].
Qed.

Lemma invite_tenant_reach d t e n db db' r :
  w_id t ∈ ids db → inviteTenantAdmin argon2hash domain d t e n db = (db', r) → stays db db'.
Proof.
  intros Hin. unfold inviteTenantAdmin. case_match; [by intros [= <- <-]|]. case_match; [by intros [= <- <-]|]. intros [= <- <-].
  split; [|done]. apply (reach_filed (w_id t)); [done|done|]. intros x Hx. cbn. split_and!; try done. by apply at_tenant_unowned.
Qed.

Lemma remove_reach id actor db db' r : removePlatformAdmin id actor db = (db', r) → reach db db'.
Proof.
  unfold removePlatformAdmin. case_match; [by intros [= <- <-]|]. case_match; [by intros [= <- <-]|].
  destruct (find_row _ _) as [u|]; [|by intros [= <- <-]]. case_match; [by intros [= <- <-]|]. intros [= <- <-].
  apply (reach_filed PLATFORM_TENANT_ID); [apply wf_platform_row|done|]. intros x Hx. cbn. split_and!; try done; by apply at_tenant_unowned.
Qed.

Lemma delete_reach rq id body db : reach db (tenantDeletePost frac_text digest json_store rq id body db).1.
Proof.
  apply route_reach. intros me t Ht. cbv zeta. case_match; [done|].
  match goal with |- reach db (or_crash ?d1 _ _).1 => transitivity d1 end; [apply reach_record; intros t' ?; by eapply known_tenant|].
  apply crash_reach. intros db2 Hd. eapply reach_delete; [|exact Hd]. by apply getTenant_ids in Ht as (_ & ? & _).
Qed.

Lemma restore_reach rq id db : reach db (tenantRestorePost frac_text digest json_store rq id db).1.
Proof.
  apply route_reach. intros me t Ht. cbv zeta. case_match; [done|]. apply crash_reach. intros db1 Hr.
  assert (ids db1 = ids db) as Hi.
  { revert Hr. unfold platform_restore_tenant. case_match; [done|]. intros [= <-]. unfold ids; cbn. by apply update_where_column. }
  etrans; [by eapply reach_restore|]. apply reach_record. rewrite Hi. intros t' ?. by eapply known_tenant.
Qed.

Lemma console_reach c db :
  match c with CallWorkspace _ _ _ _ _ _ _ _ | CallSignup _ _ _ _ _ | CallOps _ _ _ _ => True | _ => reach db (run_platform c db) end.
Proof.
  destruct c as [rq body|rq id body|rq id body|rq id|rq id body|lf rq id body|rq id|em rq id body|rq id body|rq body|rq body|rq id| | |];
    cbn [run_platform]; try done.
  - apply admin_reach. intros me. cbv zeta. pose proof (create_reach (pq_draws rq)) as Hc.
    match goal with |- context [createTenant _ _ _ _ ?i db] => specialize (Hc i db); destruct (createTenant _ _ _ _ i db) as [db1 [[]|]] end;
      exact Hc.
  - apply route_reach. intros me t Ht. cbv zeta. destruct (validateUpdateInput _ _ _ _) as [|[name' notes']]; [done|]. apply crash_reach.
    intros db1 Hu. apply update_stays in Hu as [Hu Hi]. etrans; [exact Hu|]. apply reach_record. rewrite Hi. intros t' ?. by eapply known_tenant.
  - apply delete_reach.
  - apply restore_reach.
  - apply route_reach. intros me t Ht. cbv zeta. case_match; [done|]. case_match; [done|].
    match goal with |- reach db (or_crash ?d1 _ _).1 => transitivity d1 end; [by apply reach_record|].
    apply crash_reach. intros db2 Hp. by eapply reach_purge.
  - apply route_reach. intros me t Ht. cbv zeta. case_match; [done|]. case_match; [done|]. apply crash_reach. intros db1 Hs.
    assert (ids db1 = ids db) as Hi.
    { revert Hs. unfold platform_set_tenant_status. case_match; [done|]. intros [= <-]. unfold ids; cbn. by apply update_where_column. }
    destruct (getTenant_ids _ _ _ Ht) as (_ & Hin & Hr & _). etrans; [by eapply reach_status|].
    destruct (_ && negb lf); cbn; [etrans; [apply (reach_no_sessions id); by rewrite Hi|]|];
      (apply reach_record; intros t' ?; unfold ids; cbn; fold (ids db1); rewrite Hi; by eapply known_tenant).
  - apply route_reach. intros me t Ht. cbv zeta. cbn. destruct (getTenant_ids _ _ _ Ht) as (_ & Hin & _).
    etrans; [by apply (reach_no_sessions id)|]. apply reach_record. intros t' ?. by eapply (known_tenant id db).
  - apply route_reach. intros me t Ht. cbv zeta. case_match; [done|]. destruct (inviteTenantAdmin _ _ _ _ _ _ _) as [db1 r] eqn:Hv.
    destruct (getTenant_ids _ _ _ Ht) as (Hid & Hin & _). apply invite_tenant_reach in Hv as [Hv Hi]; [|by rewrite Hid].
    destruct r; [done|]. etrans; [exact Hv|]. apply reach_record. rewrite Hi. intros t' ?. by eapply known_tenant.
  - apply route_reach. intros me t Ht. cbv zeta. case_match; [done|]. case_match; [done|]. destruct (some_truthy domain); [|done].
    destruct (getTenant_ids _ _ _ Ht) as (Hid & Hin & _).
    etrans; [|apply reach_record; intros t' ?; by eapply (known_tenant id db)].
    apply (reach_filed id); [done|done|]. intros x Hx. cbn. split_and!; try done. by apply at_tenant_unowned.
  - apply admin_reach. intros me. cbv zeta. case_match; [done|]. case_match; [done|].
    etrans; [apply reach_config|]. by apply reach_record.
  - apply admin_reach. intros me. cbv zeta. case_match; [done|]. case_match; [done|].
    etrans; [|by apply reach_record].
    apply (reach_filed PLATFORM_TENANT_ID); [apply wf_platform_row|done|]. intros x Hx. cbn. split_and!; try done. by apply at_tenant_unowned.
  - apply admin_reach. intros me. cbv zeta. destruct (removePlatformAdmin id (u_id me) db) as [db1 [code|]] eqn:Hr;
      apply remove_reach in Hr; [done|]. etrans; [exact Hr|]. by apply reach_record.
Qed.

Lemma provision_reach d ent linked org orgName slug email name db :
  reach db (provisionEntitledWorkspace argon2hash isValidTimeZone domain date_parse d ent linked org orgName slug email name db).1.
Proof.
  unfold provisionEntitledWorkspace. destruct ent as [| |plan l0 e]; [done..|]. case_match; [done|].
  destruct (some_truthy _); [done|]. destruct (consoleOriginFor domain slug); [|done]. cbv zeta.
  destruct (bool_decide (parseLimits <$> l0 = Some [])); [done|].
  match goal with |- context [createTenant _ _ _ d ?i db] => pose proof (create_reach d i db) as Hc;
    destruct (createTenant argon2hash isValidTimeZone domain d i db) as [db1 [[code|]|]] end; [|exact Hc..].
  by repeat case_match.
Qed.

Lemma signup_reach a d t db : reach db (completeSignup argon2hash isValidTimeZone domain frac_text digest json_store a d t db).1.
Proof.
  unfold completeSignup. destruct (verifySignup _ _) as [c|]; [|done].
  match goal with |- context [createTenant _ _ _ d ?i db] => pose proof (create_reach d i db) as Hc;
    pose proof (create_listed d i db) as Hin; destruct (createTenant argon2hash isValidTimeZone domain d i db) as [db1 [e|r]] end; [exact Hc|].
  cbn. etrans; [exact Hc|]. apply reach_record. intros t' [= <-]. by apply Hin.
Qed.

(** C22: every request over workspaces keeps the platform's tables well formed:
    ids, addresses and organisations are unique (one organisation never holds two
    workspaces), every address is a valid one, the reserved tenants are never
    marked deleted, and no row, log or setting is left under a tenant that is
    gone; whatever statement of a creation fails, and whether or not its rollback
    works. *)
Theorem platform_tables_wf c db : wf_platform db → wf_platform (run_platform c db).
Proof.
  intros Hwf. enough (reach db (run_platform c db)) as Hr by (by apply Hr).
  pose proof (console_reach c db) as Hc. destruct c; cbn [run_platform]; try exact Hc.
  - unfold workspaceCreate. case_match; [done|]. destruct (readWorkspaceClaim _ _ _ _ _) as [cl|]; [|done]. cbv zeta.
    destruct (isReservedSlug _); [done|]. destruct (negb (isValidTenantSlug _)); [done|].
    match goal with |- context [provisionEntitledWorkspace _ _ _ _ ?d ?e ?l ?o ?n ?s ?m ?k db] =>
      pose proof (provision_reach d e l o n s m k db) as Hp;
      destruct (provisionEntitledWorkspace argon2hash isValidTimeZone domain date_parse d e l o n s m k db) as [db1 []] end; exact Hp.
  - unfold signupVerify. destruct (getPlatformConfig _ _ _ _) as [cs cf]. case_match; [apply reach_config|].
    etrans; [apply reach_config|].
    match goal with |- context [completeSignup _ _ _ _ _ _ ?a ?d ?t ?s] => pose proof (signup_reach a d t s) as Hp;
      destruct (completeSignup argon2hash isValidTimeZone domain frac_text digest json_store a d t s) as [db1 [[]|]] end; exact Hp.
  - unfold platformOpsPost, runPlatformOps. case_match; [done|]. case_match; [done|].
    match goal with |- context [foldl ?f (db, []) ?l] => pose proof (ops_reach audits now l (db, [])) as Hp; destruct (foldl f (db, []) l) end.
    exact Hp.
Qed.
(** ** Theorems: creation *)

(** Only this tenant's own rows changed. *)
Definition elsewhere (id : string) db db' : Prop := ∀ t, t ≠ id →
  pf_invites db' t = pf_invites db t ∧ pf_sessions db' t = pf_sessions db t ∧ pf_users db' t = pf_users db t ∧
  pf_handoffs db' t = pf_handoffs db t ∧ settingsRows (pf_settings db') !! t = settingsRows (pf_settings db) !! t ∧
  pf_logs db' t = pf_logs db t.
#[local] Instance elsewhere_preorder id : PreOrder (elsewhere id).
Proof.
  split; [by intros db t|]. intros a b c H1 H2 t Ht. destruct (H1 t Ht) as (?&?&?&?&?&?), (H2 t Ht) as (?&?&?&?&?&?).
  split_and!; congruence.
Qed.

Lemma delete_of_update {A} (p q : A → bool) g l :
  (∀ x, q x = true → p x = true) → (∀ x, p (g x) = p x) → delete_where p (update_where q g l) = delete_where p l.
Proof.
  intros Hq Hg. unfold delete_where, update_where. induction l as [|x l IH]; [done|]. cbn. rewrite IH.
  destruct (q x) eqn:E; [|done]. by rewrite Hg, (Hq x E).
Qed.

Lemma delete_new id w (ts : list Workspace) : (∀ x, x ∈ ts → w_id x ≠ id) → w_id w = id → delete_where (λ x, w_id x =s id) (ts ++ [w]) = ts.
Proof.
  intros Hn Hw. induction ts as [|x ts IH]; cbn.
  - by rewrite bool_decide_eq_true_2.
  - rewrite bool_decide_eq_false_2 by (apply Hn; by left). cbn. f_equal. apply IH. intros y Hy. apply Hn. by right.
Qed.

(** The rollback takes the row and all it owns. *)
Lemma rollback_spec now id db :
  reserved_id id = false → id ∈ ids db →
  ∃ db', rollbackCreatedTenantRow now id db = Some db' ∧
    pf_tenants db' = delete_where (λ w, w_id w =s id) (pf_tenants db) ∧ unowned db' id ∧ elsewhere id db db'.
Proof.
  intros Hr (w & Hw & Hin)%list_elem_of_fmap.
  unfold rollbackCreatedTenantRow, platform_delete_tenant, platform_purge_tenant. rewrite Hr. cbn.
  match goal with |- context [existsb ?p ?l] => assert (existsb p l = true) as -> end.
  { apply existsb_exists.
    set (q := λ v, (w_id v =s id) && bool_decide (w_deletedAt v = None)).
    exists (if q w then set_row (set_status_deleted "SUSPENDED" (Some now)) w else w).
    rewrite <-list_elem_of_In. split; [apply elem_of_update_where; by exists w|].
    assert ((w_id w =s id) = true) as Hi by (by apply bool_decide_eq_true_2). unfold q. rewrite Hi. cbn.
    destruct (bool_decide (w_deletedAt w = None)) eqn:E; [by apply andb_true_intro|by rewrite Hi, E]. }
  eexists. split; [done|]. cbn. split_and!.
  - apply delete_of_update; [|done]. by intros x [? _]%andb_prop.
  - unfold unowned, cascade_tenant, at_tenant; cbn. rewrite bool_decide_eq_true_2 by done. by rewrite lookup_delete_eq.
  - intros t Ht. cbn. rewrite lookup_delete_ne by done. split_and!; try done; by rewrite ?at_tenant_unowned.
Qed.

(** The row a creation ends with. *)
Definition planned (id : string) (i : CreateInput) : Workspace :=
  {| w_row := {| t_id := id; t_slug := ci_slug i; t_status := "ACTIVE"; t_deletedAt := None;
                 t_plan := match ci_plan i with JStr p => if isPlan (JStr p) then p else "free"%string | _ => "free"%string end;
                 t_limits := match ci_limits i with Some l => limits_json l | None => JNull end; t_capabilities := JNull |};
     w_name := trim (ci_name i); w_notes := None; w_captivoOrgId := ci_captivoOrgId i |}.
Definition admin_invite d i : list Invite := pf_invites (invite_admin argon2hash d i
  {| pf_tenants := []; pf_invites := λ _, []; pf_sessions := λ _, []; pf_users := λ _, []; pf_handoffs := λ _, [];
     pf_settings := {| settingsRows := ∅; settingsCache := ∅ |}; pf_logs := λ _, no_admin_log;
     pf_config := {| cs_row := None; cs_cache := None |} |}) (dr_id d).

Lemma preset_frame d db : pf_tenants (preset_settings isValidTimeZone d db) = pf_tenants db ∧
  pf_invites (preset_settings isValidTimeZone d db) = pf_invites db ∧ elsewhere (dr_id d) db (preset_settings isValidTimeZone d db).
Proof.
  unfold preset_settings. destruct (getPlatformConfig _ _ _ _) as [cs c]. destruct (newTenantDefaultsFrom c) as [def|]; [|done].
  destruct (getPlatformSettings _ _ _ _) as [st cur] eqn:Hg. split_and!; [done..|]. intros t Ht. cbn. split_and!; try done.
  rewrite lookup_insert_ne by done. revert Hg. unfold getPlatformSettings. repeat case_match; by intros [= <- <-].
Qed.

Lemma set_plan_spec d i db : reserved_id (dr_id d) = false → dr_id d ∉ w_id <$> pf_tenants db →
  set_plan d i (with_tenants db (pf_tenants db ++ [new_workspace (dr_id d) (ci_slug i) (trim (ci_name i)) (ci_captivoOrgId i)])) =
  Some (with_tenants db (pf_tenants db ++ [planned (dr_id d) i])).
Proof.
  intros Hr Hn. unfold set_plan, planned.
  set (plan := match ci_plan i with JStr p => _ | _ => _ end).
  assert (isPlan (JStr plan) = true) as Hplan by (unfold plan; repeat case_match; done).
  destruct (negb (plan =s "free") || _) eqn:E.
  - unfold platform_update_tenant. rewrite Hr, Hplan. cbn. f_equal. unfold with_tenants at 1. cbn. unfold with_tenants. f_equal.
    unfold update_where. rewrite fmap_app. f_equal.
    + apply (update_where_id _ _ (pf_tenants db)). intros w Hw. apply bool_decide_eq_false_2. intros Heq. apply Hn. rewrite <-Heq.
      by apply (list_elem_of_fmap_2 w_id).
    + cbn. by rewrite bool_decide_eq_true_2.
  - apply orb_false_iff in E as [E1 E2]. apply negb_false_iff, bool_decide_eq_true in E1. rewrite E1.
    destruct (ci_limits i); [done|]. done.
Qed.

Lemma invite_frame d i db : pf_tenants (invite_admin argon2hash d i db) = pf_tenants db ∧
  pf_invites (invite_admin argon2hash d i db) (dr_id d) = pf_invites db (dr_id d) ++ admin_invite d i ∧
  elsewhere (dr_id d) db (invite_admin argon2hash d i db).
Proof.
  split_and!; [done| |].
  - unfold admin_invite, invite_admin, at_tenant, createInvite; cbn. by rewrite bool_decide_eq_true_2.
  - intros t Ht. unfold invite_admin; cbn. split_and!; try done. by rewrite at_tenant_unowned.
Qed.

Lemma finish_spec d i db db2 r :
  reserved_id (dr_id d) = false → dr_id d ∉ w_id <$> pf_tenants db →
  finish argon2hash isValidTimeZone d i (with_tenants db (pf_tenants db ++
    [new_workspace (dr_id d) (ci_slug i) (trim (ci_name i)) (ci_captivoOrgId i)])) = (db2, r) →
  elsewhere (dr_id d) db db2 ∧ (∃ w, w_id w = dr_id d ∧ pf_tenants db2 = pf_tenants db ++ [w]) ∧
  match r with
  | inr _ => pf_tenants db2 = pf_tenants db ++ [planned (dr_id d) i] ∧
             pf_invites db2 (dr_id d) = pf_invites db (dr_id d) ++ admin_invite d i
  | inl _ => True
  end.
Proof.
  intros Hr Hn. set (n := new_workspace _ _ _ _). unfold finish, mbind, tx_bind. unfold step at 1.
  case_bool_decide. { intros [= <- <-]. split_and!; [done|by exists n|done]. }
  set (db1 := invite_admin argon2hash d i db).
  change (invite_admin argon2hash d i (with_tenants db _)) with (with_tenants db1 (pf_tenants db1 ++ [n])).
  destruct (invite_frame d i db) as (_ & Hinv & Hel). fold db1 in Hinv, Hel.
  unfold step at 1. case_bool_decide. { intros [= <- <-]. split_and!; [done|by exists n|done]. }
  unfold n. rewrite set_plan_spec by done. unfold step. set (db3 := with_tenants db1 (pf_tenants db1 ++ [planned (dr_id d) i])).
  assert (elsewhere (dr_id d) db db3) as He3 by (intros t Ht; by apply Hel).
  assert (∃ w, w_id w = dr_id d ∧ pf_tenants db3 = pf_tenants db ++ [w]) as Hw by (by eexists (planned (dr_id d) i)).
  case_bool_decide; intros [= <- <-]; [done|]. destruct (preset_frame d db3) as (-> & -> & Hel4).
  split_and!; [by etrans|done|done|exact Hinv].
Qed.

(** C20: creating a workspace is all or nothing.  Either it answers with the new
    workspace, and then exactly one row was appended, with the requested
    address, name, organisation, plan and limits, and its administrator's invite
    is the one invite added under it; or it is refused with a named reason and
    nothing at all was written; or a statement failed after the insert, and then,
    when the compensating delete itself works, no row of it is left anywhere.
    No other tenant's rows change in any of these cases. *)
Theorem create_all_or_nothing d i db db' r :
  wf_platform db → reserved_id (dr_id d) = false →
  createTenant argon2hash isValidTimeZone domain d i db = (db', r) →
  elsewhere (dr_id d) db db' ∧
  match r with
  | inr t =>
      ct_id t = dr_id d ∧ ct_slug t = ci_slug i ∧ isValidTenantSlug (ci_slug i) = true ∧
      pf_tenants db' = pf_tenants db ++ [planned (dr_id d) i] ∧ pf_invites db' (dr_id d) = admin_invite d i
  | inl (PlatformError code) =>
      db' = db ∧ code ∈ ["invalid_name"; "invalid_slug"; "invalid_email"; "slug_taken"; "org_taken"]%string
  | inl Crashed => dr_undoFails d = false → pf_tenants db' = pf_tenants db ∧ (dr_id d ∉ ids db → unowned db' (dr_id d))
  end.
Proof.
  intros Hwf Hr. unfold createTenant. destruct (validateCreateInput i) as [code|] eqn:Hv.
  { intros [= <- <-]. split_and!; [done..|]. revert Hv. unfold validateCreateInput. repeat case_match; intros [= <-]; set_solver. }
  case_bool_decide. { intros [= <- <-]. split_and!; [done|]. intros _. split; [done|]. by apply Hwf. }
  unfold platform_create_tenant. destruct (_ || _) eqn:Hc.
  { destruct (_ && _); intros [= <- <-]; (split_and!; [done..|set_solver]). }
  apply orb_false_iff in Hc as [[Hci Hcs]%slug_clash_false _].
  assert (isValidTenantSlug (ci_slug i) = true) as Hslug.
  { revert Hv. unfold validateCreateInput. case_match; [done|]. destruct (isValidTenantSlug _); done. }
  destruct (finish _ _ d i _) as [db2 r2] eqn:Hf. apply finish_spec in Hf as (Hel & (w & Hw & Hts) & Hr2); [|done..].
  destruct r2 as [f|[]].
  - destruct (dr_undoFails d); [by intros [= <- <-]|].
    destruct (rollback_spec (dr_now d) (dr_id d) db2) as (db3 & -> & Ht3 & Hu3 & He3);
      [done|unfold ids; rewrite Hts, fmap_app; apply elem_of_app; right; apply list_elem_of_singleton; by rewrite Hw|].
    cbn. intros [= <- <-]. split; [by etrans|]. intros _. split; [|done]. rewrite Ht3, Hts. apply delete_new; [|done].
    intros x Hx Heq. apply Hci. rewrite <-Heq. by apply (list_elem_of_fmap_2 w_id).
  - intros [= <- <-]. destruct Hr2 as [Ht2 Hi2]. split_and!; try done. rewrite Hi2.
    by destruct (wf_owned _ Hwf (dr_id d) Hci) as (-> & _).
Qed.

(** ** Theorems: the workspace an entitlement buys *)

Lemma claim_authentic cookie secret now c :
  readWorkspaceClaim decode hmac cookie secret now = Some c →
  truthy secret = true ∧ (∃ payload, cookie = Some (payload +:+ "." +:+ hmac payload secret)) ∧ num_gt (wc_exp c) now = true.
Proof.
  unfold readWorkspaceClaim. destruct (some_truthy cookie) as [t|] eqn:Ht; [|done]. destruct (truthy secret) eqn:Hs; [|done]. cbn [negb].
  destruct (split period t) as [|payload [|sig []]] eqn:Hp; try done. destruct (_ || _); [done|].
  destruct (hmac payload secret =s sig) eqn:Hm; [|done]. cbn. apply bool_decide_eq_true in Hm. destruct (decode payload) as [v|]; [|done].
  destruct (obj_get v "exp") as [| | |e| | |]; try done.
  do 3 (match goal with |- context [some_truthy (as_string ?x)] => destruct (some_truthy (as_string x)); [|done] end).
  destruct (num_gt e now) eqn:He; [|done]. cbn. intros [= <-]. split_and!; [done| |done].
  apply some_truthy_Some in Ht as [-> _]. exists payload. f_equal. rewrite Hm. by apply split_two.
Qed.

Lemma create_ok d i db db' t :
  reserved_id (dr_id d) = false → createTenant argon2hash isValidTimeZone domain d i db = (db', inr t) →
  dr_id d ∉ ids db ∧ org_clash (ci_captivoOrgId i) (pf_tenants db) = false ∧ pf_tenants db' = pf_tenants db ++ [planned (dr_id d) i] ∧
  pf_invites db' (dr_id d) = pf_invites db (dr_id d) ++ admin_invite d i ∧ ct_inviteUrl t = invite_url domain (ci_slug i) (dr_token d).
Proof.
  intros Hr. unfold createTenant. destruct (validateCreateInput i); [done|]. case_bool_decide; [done|].
  unfold platform_create_tenant. destruct (_ || _) eqn:Hc; [by repeat case_match|].
  apply orb_false_iff in Hc as [[Hci _]%slug_clash_false Ho].
  destruct (finish _ _ d i _) as [db2 [f|[]]] eqn:Hf; [done|]. apply finish_spec in Hf as (_ & _ & ? & ?); [|done..].
  by intros [= <- <-].
Qed.

Lemma find_org org ts w :
  org_clash (Some org) ts = false → w_captivoOrgId w = Some org →
  find_row (λ v, bool_decide (w_captivoOrgId v = Some org)) (ts ++ [w]) = Some w.
Proof.
  intros Hn Hw. unfold find_row. induction ts as [|x ts IH]; cbn in *; [by rewrite bool_decide_eq_true_2|].
  apply orb_false_iff in Hn as [-> Hn]. by apply IH.
Qed.

Lemma find_access_Some rows row :
  find_access rows = Some (Some row) → row ∈ rows ∧ json_str_is (obj_get row "product") "ACCESS" = true.
Proof.
  induction rows as [|x rows IH]; [done|]. cbn. destruct (is_nullish x); [done|].
  destruct (json_str_is (obj_get x "product") "ACCESS") eqn:Hp; [intros Heq; simplify_eq; split; [by left|done]|]. intros [? ?]%IH. split; [by right|done].
Qed.

(** What an entitlement is read from: the first ACCESS row of the centre's answer. *)
Lemma fetch_ok configured answer plan limits expiresAt :
  fetchAccessEntitlement configured answer = EntOk plan limits expiresAt →
  configured = true ∧ ∃ body rows row, answer = Some (true, body) ∧ obj_get body "entitlements" = JArr rows ∧
    find_access rows = Some (Some row) ∧ plan = as_string (obj_get row "plan") ∧
    limits = (if is_object (obj_get row "limits") then Some (obj_get row "limits") else None) ∧
    expiresAt = as_string (obj_get row "expiresAt").
Proof.
  unfold fetchAccessEntitlement. destruct configured; [|done]. cbn [negb]. destruct answer as [[[] body]|]; [|done..]. cbn [negb].
  destruct (is_nullish body); [done|]. destruct (obj_get body "entitlements") as [| | | | |rows|] eqn:He; try (by cbn).
  destruct (find_access rows) as [[row|]|] eqn:Hf; [|done..]. intros [= <- <- <-]. split; [done|]. by exists body, rows, row.
Qed.

(** C19: no workspace without an entitlement at the centre.  When the route
    answers 201, the request came in on the platform's host with a claim this
    deployment signed and that has not expired; the centre, asked about the
    claim's organisation (never one the request names), answered with an ACCESS
    row, and an expiry that row gives as a text is a date still to come (an
    expiry that is not a text is taken for none); that organisation had no
    workspace before and has exactly the new one after, under an address that is
    valid and not reserved; the new row carries the plan and the limits that
    entitlement sells, at least one of them when it names limits; the
    administrator's invite goes to the claim's address and the cookie is spent.
    The platform's tables are assumed well formed and the id drawn not one of
    the built-in tenants'. *)
Theorem provisioning_sound tenantId cookie clientSecret body d configured centre linked db db' cookie' url :
  wf_platform db → reserved_id (dr_id d) = false →
  workspaceCreate argon2hash isValidTimeZone domain date_parse decode hmac frac_text tenantId cookie clientSecret body d configured centre linked db =
    (db', cookie', Reply 201 url) →
  tenantId = PLATFORM_TENANT_ID ∧ cookie' = None ∧
  ∃ c answer rows ent slug,
    readWorkspaceClaim decode hmac cookie (clientSecret ?? "") (dr_now d) = Some c ∧
    (∃ payload, cookie = Some (payload +:+ "." +:+ hmac payload (clientSecret ?? ""))) ∧
    (configured = true ∧ centre (wc_org c) = Some (true, answer) ∧ obj_get answer "entitlements" = JArr rows ∧
     ent ∈ rows ∧ json_str_is (obj_get ent "product") "ACCESS" = true) ∧
    (∀ e, obj_get ent "expiresAt" = JStr e → ∃ z, date_parse e = ValidDate z ∧ dr_now d < z) ∧
    org_clash (Some (wc_org c)) (pf_tenants db) = false ∧
    isValidTenantSlug slug = true ∧ isReservedSlug slug = false ∧
    tenantSlugByOrg (wc_org c) db' = Some slug ∧
    (∃ w, pf_tenants db' = pf_tenants db ++ [w] ∧ w_id w = dr_id d ∧ w_slug w = slug ∧
      (if is_object (obj_get ent "limits")
       then t_limits (w_row w) = limits_json (parseLimits (obj_get ent "limits")) ∧ parseLimits (obj_get ent "limits") ≠ []
       else t_limits (w_row w) = JNull) ∧
      (∀ p, obj_get ent "plan" = JStr p → isPlan (JStr p) = true → t_plan (w_row w) = p)) ∧
    inv_email <$> pf_invites db' (dr_id d) = [normalizeEmail (wc_email c)].
Proof.
  intros Hwf Hr. unfold workspaceCreate. destruct (tenantId =s PLATFORM_TENANT_ID) eqn:Ht; [|done]. apply bool_decide_eq_true in Ht.
  destruct (readWorkspaceClaim _ _ _ _ _) as [c|] eqn:Hc; [|done]. cbn [negb]. cbv zeta.
  set (slug := toLowerCase _). destruct (isReservedSlug slug) eqn:Hres; [done|]. destruct (isValidTenantSlug slug) eqn:Hval; [|done]. cbn [negb].
  unfold provisionEntitledWorkspace. destruct (fetchAccessEntitlement _ _) as [| |plan limits ex] eqn:He; [done..|].
  apply fetch_ok in He as (Hcf & answer & rows & ent & Hans & Hrows & [Hin Hprod]%find_access_Some & -> & -> & ->).
  match goal with |- context [if ?b then _ else _] => destruct b eqn:Hex; [done|] end.
  destruct (some_truthy (tenantSlugByOrg _ _)); [done|]. destruct (consoleOriginFor domain slug); [|done].
  match goal with |- context [bool_decide (parseLimits <$> ?l = Some [])] => destruct (bool_decide (parseLimits <$> l = Some [])) eqn:Hl end;
    [done|]. apply bool_decide_eq_false in Hl.
  match goal with |- context [createTenant _ _ _ d ?i db] => set (inp := i);
    destruct (createTenant argon2hash isValidTimeZone domain d inp db) as [db1 [e|t]] eqn:Hcr end; [by repeat case_match|].
  intros [= <- <- <-]. apply create_ok in Hcr as (Hni & Ho & Hts & Hi & _); [|done].
  split_and!; [done..|]. exists c, answer, rows, ent, slug. destruct (claim_authentic _ _ _ _ Hc) as (_ & Hm & _).
  split_and!; try done.
  - intros e He. rewrite He in Hex. cbn [as_string] in Hex. destruct (date_parse e) as [z|]; [|done]. apply Z.leb_gt in Hex. by exists z.
  - unfold tenantSlugByOrg. by rewrite Hts, (find_org _ _ (planned (dr_id d) inp) Ho eq_refl).
  - exists (planned (dr_id d) inp). split_and!; try done; cbn.
    + destruct (is_object (obj_get ent "limits")); [|done]. split; [done|]. intros Hnil. apply Hl. cbn. by rewrite Hnil.
    + intros p Hp Hpl. rewrite Hp. cbn [as_string default from_option id]. by rewrite Hpl.
  - rewrite Hi. destruct (wf_owned _ Hwf _ Hni) as (-> & _). unfold admin_invite, invite_admin, at_tenant; cbn.
    by rewrite bool_decide_eq_true_2.
Qed.

(** ** Theorems: deletion *)

(** Deleted more than thirty days ago. *)
Definition due (now : Z) (w : Workspace) : bool :=
  match w_deletedAt w with
  | Some d => (d <? now - PURGE_AFTER_DAYS * 86400000) && negb (reserved_id (w_id w))
  | None => false
  end.

(** Another tenant's purge: the tenant's own rows stay; the platform's log gets an entry. *)
Definition rows_kept (t : string) db db' : Prop :=
  pf_invites db' t = pf_invites db t ∧ pf_sessions db' t = pf_sessions db t ∧ pf_users db' t = pf_users db t ∧
  pf_handoffs db' t = pf_handoffs db t ∧ settingsRows (pf_settings db') !! t = settingsRows (pf_settings db) !! t ∧
  (t ≠ PLATFORM_TENANT_ID → pf_logs db' t = pf_logs db t).
#[local] Instance rows_kept_preorder t : PreOrder (rows_kept t).
Proof.
  split; [by intros db|]. intros a b c (?&?&?&?&?&Hab) (?&?&?&?&?&Hbc). split_and!; try congruence.
  intros Ht. rewrite (Hbc Ht). by apply Hab.
Qed.

Lemma purge_one_spec a now id db :
  reserved_id id = false → (∃ w, w ∈ pf_tenants db ∧ w_id w = id ∧ w_deletedAt w ≠ None) →
  let db' := purge_one frac_text digest json_store a now db id in
  pf_tenants db' = delete_where (λ w, w_id w =s id) (pf_tenants db) ∧ unowned db' id ∧ ∀ t, t ≠ id → rows_kept t db db'.
Proof.
  intros Hr (w & Hw & Hid & Hd). cbv zeta. unfold purge_one, recordPlatformAction. set (logs := at_tenant PLATFORM_TENANT_ID _ (pf_logs db)).
  unfold platform_purge_tenant. rewrite Hr. cbn.
  match goal with |- context [existsb ?p ?l] => assert (existsb p l = true) as -> end.
  { apply existsb_exists. exists w. rewrite <-list_elem_of_In. split; [done|]. by rewrite bool_decide_eq_true_2, bool_decide_eq_false_2. }
  cbn. split_and!; [done| |].
  - unfold unowned, cascade_tenant, at_tenant; cbn. rewrite (bool_decide_eq_true_2 (id = id)) by done. by rewrite lookup_delete_eq.
  - intros t Ht. unfold rows_kept, cascade_tenant; cbn. rewrite !at_tenant_unowned, lookup_delete_ne by done. split_and!; try done.
    intros Hp. unfold logs. by rewrite at_tenant_unowned.
Qed.

Lemma purge_fold audits now l st :
  NoDup l → (∀ id, id ∈ l → reserved_id id = false ∧ ∃ w, w ∈ pf_tenants st.1 ∧ w_id w = id ∧ w_deletedAt w ≠ None) →
  let db' := (foldl (λ s id, (purge_one frac_text digest json_store (audits id) now s.1 id,
                              s.2 ++ [(w_slug <$> getTenant id s.1) ?? id])) st l).1 in
  pf_tenants db' = List.filter (λ w, negb (bool_decide (w_id w ∈ l))) (pf_tenants st.1) ∧
  (∀ id, id ∈ l → unowned db' id) ∧ ∀ t, t ∉ l → rows_kept t st.1 db'.
Proof.
  cbv zeta. revert st. induction l as [|id l IH]; intros [db out] Hnd Hl; cbn [fst] in *.
  { split_and!; [|set_solver|done]. clear. cbn. induction (pf_tenants db) as [|x ts IHt]; [done|]. cbn.
    rewrite (bool_decide_eq_false_2 (w_id x ∈ [])) by apply not_elem_of_nil. cbn. by f_equal. }
  apply NoDup_cons in Hnd as [Hni Hnd]. destruct (Hl id) as (Hr & Hw); [by left|].
  destruct (purge_one_spec (audits id) now id db Hr Hw) as (Ht1 & Hu1 & Hk1). cbn [foldl fst snd].
  match goal with |- context [foldl _ ?s l] => set (st1 := s); destruct (IH st1 Hnd) as (Ht2 & Hu2 & Hk2) end.
  { intros id' Hin. destruct (Hl id') as (Hr' & w & Hw' & Hi' & Hd'); [by right|]. split; [done|]. exists w. split_and!; try done.
    cbn. rewrite Ht1. apply elem_of_delete_where. split; [done|]. apply bool_decide_eq_false_2. congruence. }
  cbn [fst st1] in *. split_and!.
  - rewrite Ht2, Ht1. unfold delete_where. clear. induction (pf_tenants db) as [|x ts IHt]; [done|]. cbn.
    destruct (decide (w_id x = id)) as [E|E].
    + rewrite (bool_decide_eq_true_2 (w_id x = id)), (bool_decide_eq_true_2 (w_id x ∈ id :: l)) by (done || (rewrite E; by left)). exact IHt.
    + rewrite (bool_decide_eq_false_2 (w_id x = id)) by done. cbn.
      rewrite (bool_decide_ext (w_id x ∈ id :: l) (w_id x ∈ l)) by (rewrite elem_of_cons; tauto). by rewrite IHt.
  - intros x [->|Hx]%elem_of_cons; [|by apply Hu2]. destruct (Hk2 id Hni) as (Hk&Hk'&Hk''&Hk3&Hk4&Hk5).
    unfold unowned. rewrite Hk, Hk', Hk'', Hk3, Hk4, Hk5; [exact Hu1|]. intros ->. by vm_compute in Hr.
  - intros t Hn. apply not_elem_of_cons in Hn as [Hne Hn]. etrans; [by apply Hk1|by apply Hk2].
Qed.

Lemma candidates_due now db :
  wf_platform db → let l := platform_purge_candidates now PURGE_AFTER_DAYS db in
  NoDup l ∧ (∀ w, w ∈ pf_tenants db → w_id w ∈ l ↔ due now w = true) ∧
  ∀ id, id ∈ l → reserved_id id = false ∧ ∃ w, w ∈ pf_tenants db ∧ w_id w = id ∧ w_deletedAt w ≠ None.
Proof.
  intros Hwf. cbv zeta. unfold platform_purge_candidates.
  assert (∀ id, id ∈ map w_id (List.filter (due now) (pf_tenants db)) ↔ ∃ w, w ∈ pf_tenants db ∧ w_id w = id ∧ due now w = true) as Hin.
  { intros id. rewrite list_elem_of_In, in_map_iff. split; intros (w & H1 & H2).
    - apply filter_In in H2 as [H2 H3]. exists w. by rewrite list_elem_of_In.
    - destruct H2 as [<- H2]. exists w. rewrite filter_In, <-list_elem_of_In. done. }
  split_and!.
  - apply (NoDup_filter_fmap w_id). apply Hwf.
  - intros w Hw. change (w_id w ∈ map w_id (List.filter (due now) (pf_tenants db)) ↔ due now w = true). rewrite Hin.
    split; [|by eauto]. intros (v & Hv & Hid & Hd). by rewrite <-(NoDup_fmap_eq w_id (pf_tenants db) v w (wf_ids _ Hwf) Hv Hw Hid).
  - intros id (w & Hw & Hid & Hd)%Hin. revert Hd. unfold due. destruct (w_deletedAt w) eqn:E; [|done].
    intros [_ Hr%negb_true_iff]%andb_prop. rewrite <-Hid. split; [done|]. exists w. by rewrite E.
Qed.

(** The daily maintenance purges exactly the tenants that are due.  After it
    the tenants left are those that were not deleted more than thirty days
    before, in their order; nothing at all is left under the id of a purged one;
    and every other tenant's rows are what they were (the platform's own log
    apart, which records each purge). *)
Theorem ops_purges_due audits now db :
  wf_platform db →
  let db' := (runPlatformOps frac_text digest json_store audits now db).1 in
  pf_tenants db' = List.filter (λ w, negb (due now w)) (pf_tenants db) ∧
  ∀ w, w ∈ pf_tenants db → if due now w then unowned db' (w_id w) else rows_kept (w_id w) db db'.
Proof.
  intros Hwf. cbv zeta. unfold runPlatformOps. destruct (candidates_due now db Hwf) as (Hnd & Hiff & Hc).
  set (l := platform_purge_candidates _ _ _) in *. destruct (purge_fold audits now l (db, []) Hnd Hc) as (Ht & Hu & Hk).
  cbn [fst] in *. split.
  - rewrite Ht. apply filter_ext_in. intros w Hw. f_equal. apply eq_true_iff_eq. rewrite bool_decide_eq_true.
    apply Hiff. by apply list_elem_of_In.
  - intros w Hw. destruct (due now w) eqn:E; [apply Hu|apply Hk]; rewrite (Hiff w Hw); [done|]. by rewrite E.
Qed.

Lemma getTenant_iff id db t :
  wf_platform db → getTenant id db = Some t ↔ t ∈ pf_tenants db ∧ w_id t = id ∧ reserved_id id = false.
Proof.
  intros Hwf. unfold getTenant, listTenants. split.
  - intros [Hin Hid]%find_row_Some. apply bool_decide_eq_true in Hid. apply list_elem_of_In, filter_In in Hin as [Hin Hr].
    rewrite list_elem_of_In. apply negb_true_iff in Hr. by subst.
  - intros (Hin & Hid & Hr). destruct (find_row _ _) as [x|] eqn:E.
    + apply find_row_Some in E as [Hx Hxi]. apply bool_decide_eq_true in Hxi. apply list_elem_of_In, filter_In in Hx as [Hx _].
      f_equal. eapply (NoDup_fmap_eq w_id (pf_tenants db)); [apply Hwf|by apply list_elem_of_In|done|congruence].
    + rewrite find_row_None in E. specialize (E t). rewrite bool_decide_eq_true_2 in E by done. discriminate E.
      apply list_elem_of_In, filter_In. rewrite <-list_elem_of_In, Hid, Hr. done.
Qed.

Lemma resolve_row db w :
  wf_platform db → w ∈ pf_tenants db →
  resolveTenantBySlug (map w_row (pf_tenants db)) (w_slug w) = if live_tenant (w_row w) then Some (w_id w) else None.
Proof.
  intros Hwf Hw. unfold resolveTenantBySlug. destruct (find_row _ _) as [r|] eqn:E.
  - apply find_row_Some in E as [(x & <- & Hx%list_elem_of_In)%list_elem_of_In%in_map_iff [Hs%bool_decide_eq_true Hl]%andb_prop].
    assert (x = w) as -> by (eapply (NoDup_fmap_eq w_slug (pf_tenants db)); [apply Hwf|done..]). cbn. by rewrite Hl.
  - rewrite find_row_None in E. specialize (E (w_row w)). destruct (live_tenant (w_row w)); [|done].
    rewrite bool_decide_eq_true_2 in E by done. discriminate E. rewrite list_elem_of_In. by apply in_map, list_elem_of_In.
Qed.

(** A request of a signed-in operator on the platform's host. *)
Definition by_operator (rq : PlatformReq) : Prop :=
  pq_tenant rq = PLATFORM_TENANT_ID ∧ ∃ u, pq_user rq = Some u ∧ u_role u = PLATFORM.

Lemma operator_route {A} rq id db t (h : User → Workspace → PlatformDb * response A) :
  by_operator rq → getTenant id db = Some t → ∃ u, tenantRoute rq id db h = h u t.
Proof.
  intros (Hp & u & Hu & Hr) Ht. exists u. unfold tenantRoute, as_platform_admin. rewrite Hu, Hp, Hr, Ht.
  by rewrite !bool_decide_eq_true_2.
Qed.

(** The marked row, and what is still there under its id. *)
Lemma delete_marks rq id body db t :
  wf_platform db → by_operator rq → getTenant id db = Some t → w_deletedAt t = None → confirmed body t = true →
  let r := tenantDeletePost frac_text digest json_store rq id body db in
  r.2 = Reply 200 tt ∧ wf_platform r.1 ∧ set_row (set_status_deleted "SUSPENDED" (Some (pq_now rq))) t ∈ pf_tenants r.1 ∧
  pf_sessions r.1 id = [] ∧ pf_invites r.1 id = pf_invites db id ∧ pf_users r.1 id = pf_users db id ∧
  settingsRows (pf_settings r.1) !! id = settingsRows (pf_settings db) !! id.
Proof.
  intros Hwf Hop Ht Hd Hc. cbv zeta. pose proof (delete_reach rq id body db Hwf) as [Hwf1 _].
  revert Hwf1. unfold tenantDeletePost. match goal with |- context [tenantRoute rq id db ?h] => destruct (operator_route rq id db t h Hop Ht) as [u ->] end.
  apply (getTenant_iff id db t Hwf) in Ht as (Hin & Hid & Hr). rewrite Hc. cbn [negb]. cbv zeta. unfold platform_delete_tenant. rewrite Hr. cbn.
  intros Hwf1. split_and!; try done.
  - apply elem_of_update_where. exists t. split; [done|]. by rewrite Hid, Hd, !bool_decide_eq_true_2.
  - unfold at_tenant. by rewrite bool_decide_eq_true_2.
Qed.

(** Maintenance that comes too early leaves a deleted tenant alone. *)
Lemma early_ops w (runs : list ((string → AuditDraws) * Z)) db :
  wf_platform db → w ∈ pf_tenants db → (∀ r, r ∈ runs → due r.2 w = false) →
  let db' := foldl (λ s r, (runPlatformOps frac_text digest json_store r.1 r.2 s).1) db runs in
  wf_platform db' ∧ w ∈ pf_tenants db' ∧ rows_kept (w_id w) db db'.
Proof.
  cbv zeta. revert db. induction runs as [|r runs IH]; intros db Hwf Hw Hr; [done|]. cbn.
  destruct (ops_purges_due r.1 r.2 db Hwf) as [Ht Hk]. specialize (Hk w Hw). rewrite Hr in Hk by (by left).
  match goal with |- context [foldl _ ?s runs] => destruct (IH s) as (? & ? & ?) end.
  - by apply (ops_reach r.1 r.2 _ (db, [])).
  - rewrite Ht. apply list_elem_of_In, filter_In. rewrite <-list_elem_of_In, Hr by (by left). done.
  - intros x Hx. apply Hr. by right.
  - split_and!; [done..|]. by etrans.
Qed.

Lemma restore_unmarks rq id db t :
  wf_platform db → by_operator rq → getTenant id db = Some t → w_deletedAt t ≠ None →
  let r := tenantRestorePost frac_text digest json_store rq id db in
  r.2 = Reply 200 tt ∧ wf_platform r.1 ∧ set_row (set_status_deleted "ACTIVE" None) t ∈ pf_tenants r.1 ∧
  pf_invites r.1 id = pf_invites db id ∧ pf_users r.1 id = pf_users db id ∧
  settingsRows (pf_settings r.1) !! id = settingsRows (pf_settings db) !! id.
Proof.
  intros Hwf Hop Ht Hd. cbv zeta. pose proof (restore_reach rq id db Hwf) as [Hwf1 _].
  revert Hwf1. unfold tenantRestorePost. match goal with |- context [tenantRoute rq id db ?h] => destruct (operator_route rq id db t h Hop Ht) as [u ->] end.
  apply (getTenant_iff id db t Hwf) in Ht as (Hin & Hid & Hr). rewrite bool_decide_eq_false_2 by done.
  unfold platform_restore_tenant. rewrite Hr. cbn. intros Hwf1. split_and!; try done.
  apply elem_of_update_where. exists t. split; [done|]. by rewrite Hid, bool_decide_eq_true_2.
Qed.

(** C21: deleting a tenant cuts it off at once and can be undone for thirty days.
    The confirmed delete ends all its sessions and its address no longer
    resolves; as many runs of the daily maintenance as like to come in the thirty
    days after leave it where it is; and a restore then brings the very same row
    back, active, its address resolves to it again, and its users, invites and
    settings are what they were. *)
Theorem deletion_recoverable rq rq' body id t runs db :
  wf_platform db → by_operator rq → by_operator rq' → getTenant id db = Some t → w_deletedAt t = None → confirmed body t = true →
  (∀ r, r ∈ runs → r.2 ≤ pq_now rq + PURGE_AFTER_DAYS * 86400000) →
  let r1 := tenantDeletePost frac_text digest json_store rq id body db in
  let db2 := foldl (λ s (r : (string → AuditDraws) * Z), (runPlatformOps frac_text digest json_store r.1 r.2 s).1) r1.1 runs in
  let r3 := tenantRestorePost frac_text digest json_store rq' id db2 in
  r1.2 = Reply 200 tt ∧ pf_sessions r1.1 id = [] ∧ resolveTenantBySlug (map w_row (pf_tenants r1.1)) (w_slug t) = None ∧
  r3.2 = Reply 200 tt ∧ getTenant id r3.1 = Some (set_row (set_status_deleted "ACTIVE" None) t) ∧
  resolveTenantBySlug (map w_row (pf_tenants r3.1)) (w_slug t) = Some id ∧
  pf_invites r3.1 id = pf_invites db id ∧ pf_users r3.1 id = pf_users db id ∧
  settingsRows (pf_settings r3.1) !! id = settingsRows (pf_settings db) !! id.
Proof.
  intros Hwf Hop Hop' Ht Hd Hc Hruns. cbv zeta.
  destruct (delete_marks rq id body db t Hwf Hop Ht Hd Hc) as (-> & Hwf1 & Hin1 & Hs1 & Hi1 & Hu1 & Hp1).
  apply (getTenant_iff id db t Hwf) in Ht as (Hin & Hid & Hr).
  set (t1 := set_row _ t) in *. assert (w_id t1 = id) as Hid1 by done.
  pose proof (resolve_row _ t1 Hwf1 Hin1) as Hres1. change (w_slug t1) with (w_slug t) in Hres1. rewrite Hres1.
  destruct (early_ops t1 runs _ Hwf1 Hin1) as (Hwf2 & Hin2 & Hk2).
  { intros r Hr0. specialize (Hruns r Hr0). unfold due, t1; cbn. apply andb_false_intro1, Z.ltb_ge. lia. }
  rewrite Hid1 in Hk2. destruct Hk2 as (Hi2 & _ & Hu2 & _ & Hp2 & _).
  set (db2 := foldl _ _ runs) in *.
  destruct (restore_unmarks rq' id db2 t1) as (-> & Hwf3 & Hin3 & Hi3 & Hu3 & Hp3); [done..|by apply getTenant_iff|done|].
  split_and!; try done; [by apply getTenant_iff| |congruence..].
  pose proof (resolve_row _ _ Hwf3 Hin3) as Hres3. change (w_slug (set_row (set_status_deleted "ACTIVE" None) t1)) with (w_slug t) in Hres3.
  rewrite Hres3. exact (f_equal Some Hid1).
Qed.

End served.

(** ** Findings *)

(** A change of the name alone lifts every cap of the tenant: the route fills in
    the name, plan and notes it was not given, but stores the limits as given. *)
Definition capped : Workspace :=
  {| w_row := {| t_id := "t1"; t_slug := "acme"; t_status := "ACTIVE"; t_deletedAt := None; t_plan := "free";
                 t_limits := limits_json FREE_LIMITS; t_capabilities := JNull |};
     w_name := "Acme"; w_notes := None; w_captivoOrgId := Some "org1" |}.
Definition platform_row : Workspace :=
  {| w_row := {| t_id := "platform"; t_slug := "platform"; t_status := "ACTIVE"; t_deletedAt := None; t_plan := "enterprise";
                 t_limits := JNull; t_capabilities := JNull |};
     w_name := "Platform"; w_notes := None; w_captivoOrgId := None |}.
Definition demo_draws : Draws :=
  {| dr_now := 1800000000000; dr_id := "t2"; dr_inviteId := "i1"; dr_token := "tok"; dr_ttlHours := 72; dr_orgFirst := false;
     dr_failAt := None; dr_undoFails := false; dr_configError := false; dr_settingsError := false |}.
Definition demo_seat : Session :=
  {| se_id := "s1"; se_userId := "u1"; se_tokenHash := "h"; se_expiresAt := 1900000000000; se_createdAt := 1700000000000;
     se_lastSeenAt := 1700000000000; se_userAgent := None; se_ip := None; se_amr := []; se_mobile := false; se_mobileChallenge := None |}.
Definition demo_platform : PlatformDb :=
  {| pf_tenants := [platform_row; capped]; pf_invites := λ _, [];
     pf_sessions := λ t, if t =s "t1" then [demo_seat] else [];
     pf_users := λ t, if t =s "t1" then [demo_user "u1" ADMIN] else []; pf_handoffs := λ _, [];
     pf_settings := {| settingsRows := ∅; settingsCache := ∅ |}; pf_logs := λ _, no_admin_log;
     pf_config := {| cs_row := None; cs_cache := None |} |}.
Definition demo_operator : PlatformReq :=
  {| pq_tenant := "platform"; pq_user := Some (demo_user "op" PLATFORM);
     pq_audit := {| ad_ids := ("a1", "a2")%string; ad_fails := (false, false); ad_ip := None |}; pq_draws := demo_draws |}.

Theorem partial_update_lifts_limits :
  let r := tenantPatch frac_digits demo_digest json_wire (λ _, InvalidDate) demo_operator "t1"
             (JObj [("name"%string, JStr "Acme Ltd")]) demo_platform in
  r.2 = Reply 200 tt ∧
  (parseLimits ∘ t_limits ∘ w_row <$> getTenant "t1" demo_platform) = Some [(maxSites, 5); (maxConnectors, 1)] ∧
  (parseLimits ∘ t_limits ∘ w_row <$> getTenant "t1" r.1) = Some [].
Proof. vm_compute. done. Qed.

(** An expiry that is not a text is read as no expiry at all: an entitlement that
    ran out in 1970 buys a workspace. *)
Theorem numeric_expiry_ignored :
  fetchAccessEntitlement true (Some (true, JObj [("entitlements"%string, JArr [JObj [("product", JStr "ACCESS"); ("expiresAt", JNum (NInt 0))]%string])]))
  = EntOk None None None.
Proof. vm_compute. done. Qed.

(** Suspending a tenant without giving a reason writes an entry into the
    platform's log that its own verifier rejects. *)
Theorem suspension_breaks_log :
  let r := tenantStatusPost frac_digits demo_digest json_wire false demo_operator "t1"
             (JObj [("status"%string, JStr "SUSPENDED")]) demo_platform in
  r.2 = Reply 200 tt ∧ ok (adminVerify frac_digits demo_digest (pf_logs r.1 "t1")) = false.
Proof. vm_compute. done. Qed.

(** ** Concrete runs *)

Lemma demo_platform_wf : wf_platform demo_platform.
Proof.
  split; try (apply (bool_decide_unpack _); vm_compute; exact I).
  - intros w [->|[->|[]%not_elem_of_nil]%elem_of_cons]%elem_of_cons; vm_compute; done.
  - intros w [->|[->|[]%not_elem_of_nil]%elem_of_cons]%elem_of_cons; vm_compute; done.
  - intros t [_ [H1 _]%not_elem_of_cons]%not_elem_of_cons. unfold unowned; cbn.
    change (t ≠ "t1"%string) in H1. by rewrite bool_decide_eq_false_2.
Qed.

Definition demo_new_body : json := JObj [("name", JStr "Beta"); ("slug", JStr "beta"); ("adminEmail", JStr "root@beta.example")]%string.
Definition demo_run : PlatformDb → PlatformDb :=
  run_platform (λ s, s) (λ _, true) (Some "access.example"%string) frac_digits demo_digest demo_digest json_wire (λ _, InvalidDate)
    (λ _, None) (λ _ _, ""%string) (CallCreate demo_operator demo_new_body).

Lemma platform_tables_wf_witness :
  ids (demo_run demo_platform) = ["platform"; "t1"; "t2"]%string ∧ wf_platform (demo_run demo_platform).
Proof.
  split; [vm_compute; reflexivity|].
  apply (platform_tables_wf (λ s, s) (λ _, true) (Some "access.example"%string) frac_digits demo_digest demo_digest json_wire (λ _, InvalidDate)
    (λ _, None) (λ _ _, ""%string) (CallCreate demo_operator demo_new_body)). apply demo_platform_wf.
Defined.

(** The settings write fails: the row is taken back. *)
Definition demo_failing : Draws :=
  {| dr_now := 1800000000000; dr_id := "t2"; dr_inviteId := "i1"; dr_token := "tok"; dr_ttlHours := 72; dr_orgFirst := false;
     dr_failAt := Some 3%nat; dr_undoFails := false; dr_configError := false; dr_settingsError := false |}.
Definition demo_input : CreateInput :=
  {| ci_name := "Beta"; ci_slug := "beta"; ci_adminEmail := "root@beta.example"; ci_adminName := None; ci_plan := JStr "pro";
     ci_limits := None; ci_captivoOrgId := None |}.

Lemma create_all_or_nothing_witness :
  (createTenant (λ s, s) (λ _, true) None demo_failing demo_input demo_platform).2 = inl Crashed ∧
  pf_tenants (createTenant (λ s, s) (λ _, true) None demo_failing demo_input demo_platform).1 = pf_tenants demo_platform.
Proof.
  split; [vm_compute; reflexivity|].
  destruct (create_all_or_nothing (λ s, s) (λ _, true) None demo_failing demo_input demo_platform
    (createTenant (λ s, s) (λ _, true) None demo_failing demo_input demo_platform).1 (inl Crashed) demo_platform_wf eq_refl) as [_ Hc].
  - vm_compute. reflexivity.
  - by apply Hc.
Defined.

Definition demo_decode (p : string) : option json :=
  if p =s "claim" then Some (claim_json "org2" "Beta" "root@beta.example" None 1800000900000) else None.
Definition demo_hmac (payload secret : string) : string := payload +:+ secret.
Definition demo_centre (_ : string) : option (bool * json) :=
  Some (true, JObj [("entitlements"%string, JArr [JObj [("product"%string, JStr "ACCESS"); ("plan"%string, JStr "pro");
                       ("limits"%string, JObj [("maxSites"%string, JNum (NInt 7))])]])]).
Definition demo_provision : PlatformDb * option string * response string :=
  workspaceCreate (λ s, s) (λ _, true) (Some "access.example"%string) (λ _, InvalidDate) demo_decode demo_hmac frac_digits "platform"
    (Some "claim.claimkey"%string) (Some "key"%string) (JObj [("slug"%string, JStr "beta")]) demo_draws true demo_centre true demo_platform.

Lemma provisioning_sound_witness :
  demo_provision.2 = Reply 201 "https://beta.access.example/invite/tok"%string ∧
  ∃ c slug, readWorkspaceClaim demo_decode demo_hmac (Some "claim.claimkey"%string) "key" 1800000000000 = Some c ∧
    tenantSlugByOrg (wc_org c) demo_provision.1.1 = Some slug.
Proof.
  split; [vm_compute; reflexivity|].
  destruct (provisioning_sound (λ s, s) (λ _, true) (Some "access.example"%string) frac_digits (λ _, InvalidDate) demo_decode demo_hmac "platform"
    (Some "claim.claimkey"%string) (Some "key"%string) (JObj [("slug"%string, JStr "beta")]) demo_draws true demo_centre true demo_platform
    demo_provision.1.1 demo_provision.1.2 "https://beta.access.example/invite/tok" demo_platform_wf eq_refl)
    as (_ & _ & c & answer & rows & ent & slug & Hc & _ & _ & _ & _ & _ & _ & Hs & _).
  - vm_compute. reflexivity.
  - by exists c, slug.
Defined.

Definition demo_confirm : json := JObj [("confirmSlug"%string, JStr "acme")].
Definition demo_deleted : PlatformDb * response unit := tenantDeletePost frac_digits demo_digest json_wire demo_operator "t1" demo_confirm demo_platform.
Definition demo_ops : list ((string → AuditDraws) * Z) := [(λ _, pq_audit demo_operator, 1800000000000 + 86400000)].

Lemma deletion_recoverable_witness :
  resolveTenantBySlug (map w_row (pf_tenants demo_deleted.1)) "acme" = None ∧
  getTenant "t1" (tenantRestorePost frac_digits demo_digest json_wire demo_operator "t1"
    (foldl (λ s (r : (string → AuditDraws) * Z), (runPlatformOps frac_digits demo_digest json_wire r.1 r.2 s).1) demo_deleted.1 demo_ops)).1 = Some capped.
Proof.
  destruct (deletion_recoverable frac_digits demo_digest json_wire demo_operator demo_operator demo_confirm "t1" capped demo_ops demo_platform
    demo_platform_wf) as (_ & _ & H1 & _ & H2 & _).
  - split; [done|by eexists].
  - split; [done|by eexists].
  - vm_compute. reflexivity.
  - reflexivity.
  - vm_compute. reflexivity.
  - intros r ->%list_elem_of_singleton. vm_compute. discriminate.
  - split; [exact H1|exact H2].
Defined.
