(* ===== verification/Anchor.v ===== *)
(** * External anchoring of the audit logs

    src/lib/audit/anchor.ts, anchor-verify.ts, rfc3161.ts, the hourly
    cron/audit-anchor route and the verify routes of the two anchor tables.  The
    head of each chain is sent to a time-stamping authority, whose signed token
    is stored; verification checks every token and that the log still holds
    the anchored hash at the anchored position.

    pkijs and asn1js are an interface (class [Pki]); the authority is an
    argument.  The two logs are used through an interface of their own (class
    [AnchoredLog] and its laws), which [AccessLog] and [AdminLog] implement. *)

From S2P Require Import Prelude JsString JsValue Schema Transaction AuditChain AccessLog AdminLog Identity Access Settings Tenant.

(** ** Tokens *)

(** The outcome of [signed.verify]: [signatureVerified], or what it threw. *)
Inductive VerifyOutcome := Verified (signatureVerified : bool) | VerifyThrew (message : string).

(** pkijs and asn1js: [inl] is a throw with its message.  [fromBER] is [None]
    when the offset is -1. *)
Class Pki := {
  Asn1 : Type;
  ContentInfo : Type;
  SignedData : Type;
  fromBER : string → option Asn1;
  newTimeStampResp : Asn1 → string + Z * option ContentInfo;
  newContentInfo : Asn1 → string + ContentInfo;
  newSignedData : ContentInfo → string + SignedData;
  toBER : ContentInfo → string;
  eContent : SignedData → option string;
  newTSTInfo : Asn1 → string + Z;
  signed_verify : SignedData → string → VerifyOutcome;
  timeStampReqDer : string → string;
}.

Definition Thrown (A : Type) : Type := (string + A)%type.
#[global] Instance thrown_ret : MRet Thrown := λ A a, inr a.
#[global] Instance thrown_bind : MBind Thrown := λ A B f t,
  match t with inl e => inl e | inr a => f a end.
Definition throw {A} (message : string) : Thrown A := inl message.

Record TokenVerdict := { tv_ok : bool; tv_genTime : option Z; tv_reason : option string }.

Section rfc3161.
Context `{Pki}.

(** The request is built by pkijs: version 1, the SHA-256 imprint, certReq. *)
Definition buildTimeStampRequest (digest : string) : string := timeStampReqDer digest.

Definition readTstInfo (signed : SignedData) : Thrown Z :=
  match eContent signed with
  | None => throw "token has no eContent"
  | Some c => match fromBER c with None => throw "bad TSTInfo DER" | Some a => newTSTInfo a end
  end.

Definition signedDataFromToken (token : string) : Thrown SignedData :=
  match fromBER token with
  | None => throw "bad token DER"
  | Some a => ci ← newContentInfo a; newSignedData ci
  end.

(** The token's DER and its time. *)
Definition parseTimeStampResponse (der : string) : Thrown (string * Z) :=
  match fromBER der with
  | None => throw "bad response DER"
  | Some a =>
      '(status, tok) ← newTimeStampResp a;
      if negb (status =? 0) && negb (status =? 1) then throw ("TSA did not grant (PKIStatus " +:+ dec status +:+ ")") else
      match tok with
      | None => throw "response has no token"
      | Some ci => signed ← newSignedData ci; t ← readTstInfo signed; mret (toBER ci, t)
      end
  end.

Definition verifyTimeStampToken (token preimage : string) : TokenVerdict :=
  match (signed ← signedDataFromToken token; t ← readTstInfo signed; mret (signed, t)) with
  | inl _ => {| tv_ok := false; tv_genTime := None; tv_reason := Some "parse_error"%string |}
  | inr (signed, t) =>
      match signed_verify signed preimage with
      | Verified true => {| tv_ok := true; tv_genTime := Some t; tv_reason := None |}
      | Verified false => {| tv_ok := false; tv_genTime := Some t; tv_reason := Some "signature_invalid"%string |}
      | VerifyThrew msg =>
          {| tv_ok := false; tv_genTime := Some t;
             tv_reason := Some (if includes "tstinfo" (toLowerCase msg) then "imprint_mismatch" else "signature_invalid")%string |}
      end
  end.
End rfc3161.

(** ** Anchors *)

Record AnchorRow := {
  an_id : string;
  an_seq : Z;
  an_hash : string;
  an_tsaUrl : string;
  an_token : string;
  an_genTime : Z;
}.

Definition anchorPreimage (anchoredSeq : Z) (anchoredHash : string) : string := dec anchoredSeq +:+ ":" +:+ anchoredHash.

Definition shouldAnchor (head : ChainHead) (lst : option AnchorRow) : bool :=
  if lastSeq head <=? 0 then false else
  match lst with
  | None => true
  | Some a => negb (an_seq a =? lastSeq head) || negb (an_hash a =s lastHash head)
  end.

Inductive AnchorRunResult :=
  | Disabled
  | Skipped
  | Anchored (anchoredSeq genTime : string)
  | Failed (error : string).

(** What [fetch] did, with the milliseconds it took: [None] when it threw or was
    aborted after 15 seconds. *)
Inductive FetchResult := FetchThrew (message : string) | HttpStatus (status : Z) | Body (der : string).
Definition Fetch : Type := string → list (string * string) → string → Z * FetchResult.

(** Where a chain's head and anchors are ([AnchorTarget]), over any store. *)
Record AnchorTarget (S : Type) := {
  tg_head : S → option ChainHead;
  tg_anchors : S → list AnchorRow;
  tg_create : AnchorRow → S → S;
}.
Arguments tg_head {S} _ _.
Arguments tg_anchors {S} _ _.
Arguments tg_create {S} _ _ _.

(** [orderBy: anchoredSeq desc], the first. *)
Definition findLastAnchor (rows : list AnchorRow) : option AnchorRow := last (order_by an_seq rows).

(** One tenant's rows. *)
Record AnchorDb := {
  nd_log : AuditDb;
  nd_admin : AdminDb;
  nd_anchors : list AnchorRow;
  nd_adminAnchors : list AnchorRow;
  nd_cron : gmap string Z;
}.
Definition with_log (db : AnchorDb) (l : AuditDb) : AnchorDb :=
  {| nd_log := l; nd_admin := nd_admin db; nd_anchors := nd_anchors db; nd_adminAnchors := nd_adminAnchors db;
     nd_cron := nd_cron db |}.
Definition with_admin (db : AnchorDb) (l : AdminDb) : AnchorDb :=
  {| nd_log := nd_log db; nd_admin := l; nd_anchors := nd_anchors db; nd_adminAnchors := nd_adminAnchors db;
     nd_cron := nd_cron db |}.
Definition with_anchors (db : AnchorDb) (l : list AnchorRow) : AnchorDb :=
  {| nd_log := nd_log db; nd_admin := nd_admin db; nd_anchors := l; nd_adminAnchors := nd_adminAnchors db;
     nd_cron := nd_cron db |}.
Definition with_adminAnchors (db : AnchorDb) (l : list AnchorRow) : AnchorDb :=
  {| nd_log := nd_log db; nd_admin := nd_admin db; nd_anchors := nd_anchors db; nd_adminAnchors := l;
     nd_cron := nd_cron db |}.

Definition access_target : AnchorTarget AnchorDb :=
  {| tg_head := λ db, chainState (nd_log db); tg_anchors := nd_anchors;
     tg_create := λ a db, with_anchors db (nd_anchors db ++ [a]) |}.
Definition admin_target : AnchorTarget AnchorDb :=
  {| tg_head := λ db, adminHead (nd_admin db); tg_anchors := nd_adminAnchors;
     tg_create := λ a db, with_adminAnchors db (nd_adminAnchors db ++ [a]) |}.

Section anchoring.
Context `{Pki}.
(** The raw SHA-256 digest, base64 and the authority. *)
Context (sha256raw base64 : string → string) (fetch : Fetch).

Definition anchorDigest (anchoredSeq : Z) (anchoredHash : string) : string :=
  sha256raw (anchorPreimage anchoredSeq anchoredHash).

(** A statement of a tenant scope after [used] milliseconds: the scope is a
    database transaction that is closed when its budget is spent; without a
    scope (self-host) there is no budget. *)
Definition closed (budget : option Z) (used : Z) : bool :=
  match budget with Some b => b <? used | None => false end.
Definition CLOSED : string := "Transaction already closed".

Definition tsa_headers (auth : string) : list (string * string) :=
  ("Content-Type", "application/timestamp-query")%string ::
  (if truthy auth then [("Authorization"%string, "Basic " +:+ base64 auth)] else []).

(** [runAnchorFor]: [newId] is the id the insert draws, [between] what others
    commit while the authority is asked.  Answers the milliseconds used. *)
Definition runAnchorFor {S} (target : AnchorTarget S) (s : PlatformSettings) (newId : string) (between : S → S)
    (budget : option Z) (used : Z) (db : S) : S * Z * AnchorRunResult :=
  if negb (resolvedExternalAnchorEnabled s) then (db, used, Disabled) else
  let tsaUrl := resolvedAnchorTsaUrl s in
  if tsaUrl =s "" then (db, used, Disabled) else
  if closed budget used then (db, used, Failed CLOSED) else
  match tg_head target db with
  | None => (db, used, Skipped)
  | Some head =>
      if negb (shouldAnchor head (findLastAnchor (tg_anchors target db))) then (db, used, Skipped) else
      let req := buildTimeStampRequest (anchorDigest (lastSeq head) (lastHash head)) in
      let '(ms, res) := fetch tsaUrl (tsa_headers (resolvedAnchorTsaAuth s)) req in
      let used1 := used + ms in
      let db1 := between db in
      match res with
      | FetchThrew m => (db1, used1, Failed m)
      | HttpStatus c => (db1, used1, Failed ("TSA HTTP " +:+ dec c))
      | Body der =>
          match parseTimeStampResponse der with
          | inl m => (db1, used1, Failed m)
          | inr (token, genTime) =>
              if closed budget used1 then (db1, used1, Failed CLOSED) else
              (tg_create target {| an_id := newId; an_seq := lastSeq head; an_hash := lastHash head; an_tsaUrl := tsaUrl;
                                   an_token := token; an_genTime := genTime |} db1,
               used1, Anchored (dec (lastSeq head)) (toISOString genTime))
          end
      end
  end.
Definition runAnchor := runAnchorFor access_target.
Definition runAdminAnchor := runAnchorFor admin_target.

(** What one tenant's pass draws from outside. *)
Record AnchorReq := {
  nq_now : Z;
  nq_settings : PlatformSettings;
  nq_ids : string * string;
  nq_between : (AnchorDb → AnchorDb) * (AnchorDb → AnchorDb);
}.

Definition stamp_cron (job : string) (now : Z) (db : AnchorDb) : AnchorDb :=
  {| nd_log := nd_log db; nd_admin := nd_admin db; nd_anchors := nd_anchors db; nd_adminAnchors := nd_adminAnchors db;
     nd_cron := <[job := now]> (nd_cron db) |}.

(** The job of one tenant inside its scope: heartbeat, then the two chains. *)
Definition anchor_job (q : AnchorReq) (budget : option Z) (db : AnchorDb)
    : AnchorDb * Z * (AnchorRunResult * AnchorRunResult) :=
  let db0 := stamp_cron "audit-anchor" (nq_now q) db in
  let '(db1, u1, access) := runAnchor (nq_settings q) (nq_ids q).1 (nq_between q).1 budget 0 db0 in
  let '(db2, u2, admin) := runAdminAnchor (nq_settings q) (nq_ids q).2 (nq_between q).2 budget u1 db1 in
  (db2, u2, (access, admin)).

Definition DEFAULT_SCOPE_BUDGET_MS : Z := 5000.
Definition SLOW_SCOPE_BUDGET_MS : Z := 30000.

(** [withTenant] around a job: in cloud a scope that outlived its budget cannot
    commit, its rows are those it started with and the promise is rejected. *)
Definition in_scope {A} (multi : bool) (budgetMs : Z) (job : option Z → AnchorDb → AnchorDb * Z * A) (db : AnchorDb)
    : AnchorDb * (failure + A) :=
  let budget := if multi then Some budgetMs else None in
  let '(db', used, a) := job budget db in
  if closed budget used then (db, inl (Threw CLOSED)) else (db', inr a).

Definition put_db (t : string) (db : AnchorDb) (dbs : string → AnchorDb) : string → AnchorDb :=
  λ t', if t' =s t then db else dbs t'.

(** [forEachTenant]: one tenant after the other, until one throws. *)
Fixpoint anchor_pass (multi : bool) (reqs : string → AnchorReq) (tids : list string) (dbs : string → AnchorDb)
    : (string → AnchorDb) * (failure + list (AnchorRunResult * AnchorRunResult)) :=
  match tids with
  | [] => (dbs, inr [])
  | t :: tids' =>
      match in_scope multi DEFAULT_SCOPE_BUDGET_MS (anchor_job (reqs t)) (dbs t) with
      | (db', inl e) => (put_db t db' dbs, inl e)
      | (db', inr r) =>
          match anchor_pass multi reqs tids' (put_db t db' dbs) with
          | (dbs', inl e) => (dbs', inl e)
          | (dbs', inr rs) => (dbs', inr (r :: rs))
          end
      end
  end.

Definition cronAuthorized (secret header : option string) : bool :=
  match secret with
  | Some s => truthy s && timingSafeEqualStr header (Some ("Bearer " +:+ s))
  | None => false
  end.

Definition auditAnchorPost (secret header : option string) (multi : bool) (tids : list string)
    (reqs : string → AnchorReq) (dbs : string → AnchorDb)
    : (string → AnchorDb) * response (list (AnchorRunResult * AnchorRunResult)) :=
  if negb (cronAuthorized secret header) then (dbs, Fail 401 "unauthorized") else
  match anchor_pass multi reqs (if multi then tids else ["default"%string]) dbs with
  | (dbs', inl _) => (dbs', Fail 500 "")
  | (dbs', inr rs) => (dbs', Reply 200 rs)
  end.
End anchoring.

(** ** Verification *)

Record AnchorVerdict := {
  av_id : string;
  av_seq : string;
  av_genTime : option string;
  av_ok : bool;
  av_beyondRetention : bool;
  av_reason : option string;
}.

Record AnchorReport := { rp_total : Z; rp_ok : Z; rp_failed : Z; rp_verdicts : list AnchorVerdict }.

Section verification.
(** [deps.tokenCheck]. *)
Context (tokenCheck : string → string → TokenVerdict).

Definition verifyOneAnchor (a : AnchorRow) (chainHashAtSeq : option string) : AnchorVerdict :=
  let tv := tokenCheck (an_token a) (anchorPreimage (an_seq a) (an_hash a)) in
  let verdict ok beyond reason :=
    {| av_id := an_id a; av_seq := dec (an_seq a); av_genTime := Some (toISOString (tv_genTime tv ?? an_genTime a));
       av_ok := ok; av_beyondRetention := beyond; av_reason := reason |} in
  if negb (tv_ok tv) then verdict false false (Some ("token_" +:+ (tv_reason tv ?? "invalid"))) else
  match chainHashAtSeq with
  | None => verdict true true None
  | Some h => if negb (h =s an_hash a) then verdict false false (Some "chain_mismatch"%string) else verdict true false None
  end.

Definition hash_at {E} `{Chainable E} (rows : list (Stored E)) (seq : Z) : option string :=
  s_hash <$> find_row (λ r, seq_of (s_event r) =? seq) rows.

(** The two routes differ in the tables they read. *)
Definition anchorsVerify {E} `{Chainable E} (user : option User) (anchors : list AnchorRow) (rows : list (Stored E))
    : response AnchorReport :=
  match user with
  | None => Fail 401 "unauthorized"
  | Some me =>
      if negb (can (u_role me) read_console) then Fail 403 "forbidden" else
      let verdicts := map (λ a, verifyOneAnchor a (hash_at rows (an_seq a))) (order_by an_seq anchors) in
      let okCount := count_where av_ok verdicts in
      let total := Z.of_nat (length verdicts) in
      Reply 200 {| rp_total := total; rp_ok := okCount; rp_failed := total - okCount; rp_verdicts := verdicts |}
  end.
End verification.

(** The rows of the admin log that are in the chain: [where: { seq }]. *)
Definition chained_rows (db : AdminDb) : list (Stored AdminChainable) := omap to_stored (adminRows db).

Definition auditAnchorsVerify `{Pki} (user : option User) (db : AnchorDb) : response AnchorReport :=
  anchorsVerify verifyTimeStampToken user (nd_anchors db) (auditEvents (nd_log db)).
Definition adminAnchorsVerify `{Pki} (frac_text : Z → string) (user : option User) (db : AnchorDb) : response AnchorReport :=
  anchorsVerify (H := admin_chainable frac_text) verifyTimeStampToken user (nd_adminAnchors db) (chained_rows (nd_admin db)).

(** The stored token, for an auditor's own tools. *)
Definition anchorToken (user : option User) (anchors : list AnchorRow) (id : string) : response (string * string) :=
  match user with
  | None => Fail 401 "unauthorized"
  | Some me =>
      if negb (can (u_role me) read_console) then Fail 403 "forbidden" else
      match find_row (λ a, an_id a =s id) anchors with
      | None => Fail 404 "not_found"
      | Some a => Reply 200 (an_token a, "anchor-seq-" +:+ dec (an_seq a) +:+ ".tsr")
      end
  end.

(** ** The logs as the anchors see them *)

(** A chained log: its head, its rows, how it may change, and what holds of it. *)
Class AnchoredLog (D E : Type) `{Chainable E} := {
  log_head : D → option ChainHead;
  log_rows : D → list (Stored E);
  log_step : relation D;
  log_inv : D → Prop;
}.

(** Its promises: the rows are a chain up to the head, and a step moves the head
    forward and leaves no row at or below the old head that was not there. *)
Class AnchoredLogLaws (sha256 : string → string) (D E : Type) `{AnchoredLog D E} := {
  log_linked d : log_inv d → ∃ h l, linked sha256 h l (log_head d ?? genesis_head) ∧ log_rows d ≡ₚ l;
  log_step_inv d d' : log_inv d → log_step d d' → log_inv d';
  log_step_grows d d' : log_inv d → log_step d d' →
    lastSeq (log_head d ?? genesis_head) ≤ lastSeq (log_head d' ?? genesis_head) ∧
    ∀ r, r ∈ log_rows d' → seq_of (s_event r) ≤ lastSeq (log_head d ?? genesis_head) → r ∈ log_rows d;
}.

Section pinned.
Context {D E : Type} (sha256 : string → string) `{AnchoredLogLaws sha256 D E}.
Implicit Types (d : D).

(** The position is within the log, and a row there, if any, has the hash. *)
Definition pinned (seq : Z) (hash : string) (d : D) : Prop :=
  seq ≤ lastSeq (log_head d ?? genesis_head) ∧
  ∀ r, r ∈ log_rows d → seq_of (s_event r) = seq → s_hash r = hash.

(** The row with the head's number is the one the head was taken from. *)
Lemma head_pinned d h : log_inv d → log_head d = Some h → pinned (lastSeq h) (lastHash h) d.
Proof using Type*.
  intros Hi Hh. destruct (log_linked d Hi) as (h0 & l & Hl & Hp). unfold pinned. rewrite Hh in *. simpl in *.
  split; [done|]. intros r Hr Hs. rewrite Hp in Hr.
  destruct (last l) as [z|] eqn:Hz; [|apply last_None in Hz as ->; by apply elem_of_nil in Hr].
  destruct (linked_last _ _ _ _ _ Hl Hz) as [Hzs Hzh].
  enough (r = z) as -> by done.
  eapply NoDup_fmap_eq; [by eapply increasing_NoDup, linked_increasing|done|by eapply last_Some_elem_of|].
  simpl. congruence.
Qed.

Lemma pinned_step seq hash d d' : log_inv d → log_step d d' → pinned seq hash d → pinned seq hash d'.
Proof using Type*.
  intros Hi Hs [Hle Hr]. destruct (log_step_grows d d' Hi Hs) as [Hg Hold].
  split; [lia|]. intros r Hin Heq. apply Hr; [|done]. apply Hold; [done|lia].
Qed.

Lemma hash_at_pinned seq hash d h : pinned seq hash d → hash_at (log_rows d) seq = Some h → h = hash.
Proof.
  unfold hash_at. intros [_ Hp]. destruct (find_row _ _) as [r|] eqn:Hf; [|done].
  apply find_row_Some in Hf as [Hr Hs%Z.eqb_eq]. intros [= <-]. by apply Hp.
Qed.
End pinned.

#[global] Instance access_anchored (date_parse : string → jsdate) (sha256 : string → string) : AnchoredLog AuditDb AuditEvent :=
  {| log_head := chainState; log_rows := auditEvents; log_step := audit_step date_parse sha256;
     log_inv := audit_inv sha256 |}.

#[global] Instance access_anchored_laws date_parse sha256 :
  AnchoredLogLaws (H0 := access_anchored date_parse sha256) sha256 AuditDb AuditEvent.
Proof.
  split; simpl.
  - intros d [[h Hl] _]. by exists h, (auditEvents d).
  - intros d d'. apply audit_step_inv.
  - intros d d' Hi Hs. destruct Hs as [users sites now events db db' n Ha|now days db db' n Hr].
    + apply append_rows in Ha as (rows & -> & _ & _ & Hl & _). split.
      { apply linked_length in Hl. lia. }
      intros r [Hr|Hr]%elem_of_app Hs; [done|]. pose proof (linked_seqs _ _ _ _ _ Hl Hr). simpl in *. lia.
    + destruct (retention_drop _ _ _ _ _ _ Hi Hr) as (-> & k & -> & _). split; [done|].
      intros r Hin _. rewrite <-(take_drop k (auditEvents db)). apply elem_of_app. by right.
Qed.

Section admin_log.
Context (frac_text : Z → string) (sha256 : string → string) (json_store : json → json).

#[global] Instance admin_anchored : AnchoredLog (H := admin_chainable frac_text) AdminDb AdminChainable :=
  {| log_head := adminHead; log_rows := chained_rows; log_step := clean_step frac_text sha256 json_store;
     log_inv := admin_inv frac_text sha256 |}.

(** A step of the admin log adds rows after the head. *)
Lemma clean_step_new d d' :
  admin_inv frac_text sha256 d → clean_step frac_text sha256 json_store d d' →
  lastSeq (adminHead d ?? genesis_head) ≤ lastSeq (adminHead d' ?? genesis_head) ∧
  ∀ r, r ∈ chained_rows d' → r ∈ chained_rows d ∨ lastSeq (adminHead d ?? genesis_head) < ac_seq (s_event r).
Proof.
  intros [Hnd (l & Hl & Hp)] Hs. destruct Hs as [dbError id now i db Hid Hc|db n db' Hb].
  - unfold recordAdminAction, chained_rows. destruct dbError; [by split; [|intros r Hr; left]|].
    cbn [adminHead adminRows default]. split; [simpl; lia|]. intros r. rewrite omap_app, elem_of_app. intros [Hr|Hr]; [by left|].
    right. simpl in Hr. apply list_elem_of_singleton in Hr as ->. simpl. lia.
  - apply (backfill_spec frac_text sha256) in Hb as (_ & new & Hl' & Hp' & _); [|done]. split.
    { apply linked_length in Hl'. lia. }
    intros r Hr. unfold chained_rows in *. rewrite Hp', elem_of_app in Hr. destruct Hr as [Hr|Hr]; [by left|]. right.
    by pose proof (linked_seqs _ _ _ _ _ Hl' Hr) as [? _].
Qed.

Context (stores : json_store_ok json_store).
Lemma admin_anchored_laws : AnchoredLogLaws (H := admin_chainable frac_text) (H0 := admin_anchored) sha256 AdminDb AdminChainable.
Proof using stores.
  split; simpl.
  - intros d [_ (l & Hl & Hp)]. by exists genesis_head, l.
  - intros d d'. by apply clean_step_inv.
  - intros d d' Hi Hs. destruct (clean_step_new d d' Hi Hs) as [Hle Hr]. split; [done|].
    intros r [?|?]%Hr ?; [done|lia].
Qed.
End admin_log.

(** ** Theorems *)

(** What a run does: nothing of its own, or one anchor for the head it read, with
    a token the authority's answer held. *)
Lemma run_cases `{Pki} (sha256raw base64 : string → string) (fetch : Fetch) {S} (target : AnchorTarget S) s newId between budget used db db' u res :
  runAnchorFor sha256raw base64 fetch target s newId between budget used db = (db', u, res) →
  db' = db ∨ db' = between db ∨
  ∃ head a hd ms der t, tg_head target db = Some head ∧ db' = tg_create target a (between db) ∧
    an_seq a = lastSeq head ∧ an_hash a = lastHash head ∧
    fetch (an_tsaUrl a) hd (buildTimeStampRequest (anchorDigest sha256raw (an_seq a) (an_hash a))) = (ms, Body der) ∧
    parseTimeStampResponse der = inr (an_token a, t).
Proof.
  unfold runAnchorFor. destruct (negb _); [naive_solver|]. case_match; [naive_solver|]. case_match; [naive_solver|].
  destruct (tg_head target db) as [head|] eqn:Hh; [|naive_solver]. case_match; [naive_solver|].
  destruct (fetch _ _ _) as [ms r] eqn:Hf. destruct r as [m|c|der]; [naive_solver..|].
  destruct (parseTimeStampResponse der) as [m|[token t]] eqn:Hp; [naive_solver|].
  destruct (closed budget (used + ms)); [naive_solver|]. intros [= <- <- <-]. right. right.
  eexists head, _, _, ms, der, t. by split_and!.
Qed.

Section machine.
Context `{Pki} (date_parse : string → jsdate) (frac_text : Z → string) (sha256 sha256raw base64 : string → string).
Context (json_store : json → json) (fetch : Fetch).
Implicit Types (db : AnchorDb) (a : AnchorRow).

#[local] Instance this_chainable : Chainable AdminChainable := admin_chainable frac_text.
#[local] Instance this_access : AnchoredLog AuditDb AuditEvent := access_anchored date_parse sha256.
#[local] Instance this_admin : AnchoredLog AdminDb AdminChainable := admin_anchored frac_text sha256 json_store.

(** The logs grow and are pruned while the job runs, in any order and in between
    its own statements. *)
Inductive anchor_served : AnchorDb → AnchorDb → Prop :=
  | served_nothing db : anchor_served db db
  | served_then db1 db2 db3 : anchor_served db1 db2 → anchor_served db2 db3 → anchor_served db1 db3
  | served_access db l : audit_step date_parse sha256 (nd_log db) l → anchor_served db (with_log db l)
  | served_admin db l : clean_step frac_text sha256 json_store (nd_admin db) l → anchor_served db (with_admin db l)
  | served_job q multi budgetMs db :
      (∀ d, anchor_served d ((nq_between q).1 d)) → (∀ d, anchor_served d ((nq_between q).2 d)) →
      anchor_served db (in_scope multi budgetMs (anchor_job sha256raw base64 fetch q) db).1.

Definition attests a : Prop :=
  tv_ok (verifyTimeStampToken (an_token a) (anchorPreimage (an_seq a) (an_hash a))) = true.

Definition pinned_by {D E} `{AnchoredLog D E} (anchors : list AnchorRow) (d : D) : Prop :=
  ∀ a, a ∈ anchors → attests a ∧ pinned (an_seq a) (an_hash a) d.

Definition anchors_ok db : Prop :=
  audit_inv sha256 (nd_log db) ∧ admin_inv frac_text sha256 (nd_admin db) ∧
  pinned_by (nd_anchors db) (nd_log db) ∧ pinned_by (nd_adminAnchors db) (nd_admin db).

(** Nothing that was pinned comes loose. *)
Definition keeps db db' : Prop :=
  anchors_ok db → anchors_ok db' ∧
    (∀ s h, pinned s h (nd_log db) → pinned s h (nd_log db')) ∧
    (∀ s h, pinned s h (nd_admin db) → pinned s h (nd_admin db')).

#[local] Instance keeps_preorder : PreOrder keeps.
Proof.
  split; [by intros db ?|]. intros x y z H1 H2 Hx. destruct (H1 Hx) as (Hy & L1 & A1), (H2 Hy) as (Hz & L2 & A2).
  split_and!; [done|by eauto..].
Qed.

Context (stores : json_store_ok json_store).
(** The authority's tokens attest the digest they were asked for (RFC 3161). *)
Context (authority : ∀ url hd digest ms der tok t p,
  fetch url hd (buildTimeStampRequest digest) = (ms, Body der) → parseTimeStampResponse der = inr (tok, t) →
  sha256raw p = digest → tv_ok (verifyTimeStampToken tok p) = true).

#[local] Instance this_admin_laws : AnchoredLogLaws sha256 AdminDb AdminChainable.
Proof using stores. by apply admin_anchored_laws. Qed.

Lemma keeps_stamp job now db : keeps db (stamp_cron job now db).
Proof. by intros ?. Qed.

Lemma keeps_access db l : audit_step date_parse sha256 (nd_log db) l → keeps db (with_log db l).
Proof.
  intros Hs (Hi & Ha & P1 & P2).
  assert (∀ s h, pinned s h (nd_log db) → pinned s h l) as Hp by (intros s h; by apply (pinned_step sha256)).
  split_and!; [split_and!|done..]; [by eapply audit_step_inv|done| |done].
  intros a Hin. destruct (P1 a Hin). split; [done|]. by apply Hp.
Qed.
Lemma keeps_admin db l : clean_step frac_text sha256 json_store (nd_admin db) l → keeps db (with_admin db l).
Proof using stores.
  intros Hs (Hi & Ha & P1 & P2).
  assert (∀ s h, pinned s h (nd_admin db) → pinned s h l) as Hp by (intros s h; by apply (pinned_step sha256)).
  split_and!; [split_and!|done..]; [done|by eapply clean_step_inv|done|].
  intros a Hin. destruct (P2 a Hin). split; [done|]. by apply Hp.
Qed.

Lemma keeps_run_access s newId between budget used db db' u res :
  (∀ d, keeps d (between d)) → runAnchor sha256raw base64 fetch s newId between budget used db = (db', u, res) →
  keeps db db'.
Proof using authority stores.
  intros Hb [->| [->|(head & a & hd & ms & der & t & Hh & -> & Hs & Hhash & Hf & Hp)]]%run_cases; [done|by apply Hb|].
  intros Hok. destruct (Hb db Hok) as ((Hi & Ha & P1 & P2) & L & A). split_and!; [split_and!|done..]; [done..| |done].
  intros x [Hx|Hx]%elem_of_app; [by apply P1|]. apply list_elem_of_singleton in Hx as ->. split.
  - by eapply authority.
  - rewrite Hs, Hhash. apply L, (head_pinned sha256); [apply Hok|done].
Qed.
Lemma keeps_run_admin s newId between budget used db db' u res :
  (∀ d, keeps d (between d)) → runAdminAnchor sha256raw base64 fetch s newId between budget used db = (db', u, res) →
  keeps db db'.
Proof using authority stores.
  intros Hb [->| [->|(head & a & hd & ms & der & t & Hh & -> & Hs & Hhash & Hf & Hp)]]%run_cases; [done|by apply Hb|].
  intros Hok. destruct (Hb db Hok) as ((Hi & Ha & P1 & P2) & L & A). split_and!; [split_and!|done..]; [done..|].
  intros x [Hx|Hx]%elem_of_app; [by apply P2|]. apply list_elem_of_singleton in Hx as ->. split.
  - by eapply authority.
  - rewrite Hs, Hhash. apply A, (head_pinned sha256); [apply Hok|done].
Qed.

Lemma served_keeps db db' : anchor_served db db' → keeps db db'.
Proof using authority stores.
  induction 1 as [|a b c Hab IH1 Hbc IH2| | |q multi budgetMs db Hb1 IH1 Hb2 IH2]; [done|by etrans|by apply keeps_access|by apply keeps_admin|].
  unfold in_scope, anchor_job.
  destruct (runAnchor _ _ _ _ _ _ _ _ _) as [[db1 u1] r1] eqn:R1.
  destruct (runAdminAnchor _ _ _ _ _ _ _ _ _) as [[db2 u2] r2] eqn:R2.
  apply keeps_run_access in R1; [|done]. apply keeps_run_admin in R2; [|done].
  destruct (closed _ _); [done|]. simpl. etrans; [apply keeps_stamp|]. by etrans.
Qed.

Lemma verdict_ok {D E} `{AnchoredLog D E} a (d : D) :
  attests a → pinned (an_seq a) (an_hash a) d →
  av_ok (verifyOneAnchor verifyTimeStampToken a (hash_at (log_rows d) (an_seq a))) = true ∧
  av_reason (verifyOneAnchor verifyTimeStampToken a (hash_at (log_rows d) (an_seq a))) = None ∧
  (av_beyondRetention (verifyOneAnchor verifyTimeStampToken a (hash_at (log_rows d) (an_seq a))) = true ↔
     ∀ r, r ∈ log_rows d → seq_of (s_event r) ≠ an_seq a).
Proof.
  intros Ha Hp. unfold verifyOneAnchor. rewrite Ha. cbn [negb].
  assert (hash_at (log_rows d) (an_seq a) = None ↔ ∀ r, r ∈ log_rows d → seq_of (s_event r) ≠ an_seq a) as Hn.
  { unfold hash_at. rewrite fmap_None, find_row_None. by setoid_rewrite Z.eqb_neq. }
  destruct (hash_at _ _) as [h|] eqn:Hh; cbn.
  - pose proof (hash_at_pinned _ _ _ _ Hp Hh) as ->. rewrite bool_decide_eq_true_2 by done. cbn.
    split_and!; [done..|]. split; [done|]. intros Hr. by apply Hn in Hr.
  - split_and!; [done..|]. split; [intros _; by apply Hn|done].
Qed.

Lemma report_ok {D E} `{AnchoredLog D E} me anchors (d : D) :
  can (u_role me) read_console = true → pinned_by anchors d →
  ∃ rp, anchorsVerify verifyTimeStampToken (Some me) anchors (log_rows d) = Reply 200 rp ∧
    rp_total rp = Z.of_nat (length anchors) ∧ rp_failed rp = 0 ∧
    ∀ a, a ∈ anchors → ∃ v, v ∈ rp_verdicts rp ∧ av_id v = an_id a ∧ av_ok v = true ∧ av_reason v = None ∧
      (av_beyondRetention v = true ↔ ∀ r, r ∈ log_rows d → seq_of (s_event r) ≠ an_seq a).
Proof.
  intros Hme Hp. unfold anchorsVerify. rewrite Hme. cbn [negb]. eexists. split; [done|]. cbn.
  set (vs := map _ _).
  assert (order_by an_seq anchors ≡ₚ anchors) as Hperm by apply merge_sort_Permutation.
  assert (∀ v, v ∈ vs → av_ok v = true) as Hall.
  { intros v (a & -> & Hin)%list_elem_of_fmap. rewrite Hperm in Hin. destruct (Hp a Hin). by apply verdict_ok. }
  assert (length vs = length anchors) as Hlen by (unfold vs; by rewrite length_map, Hperm).
  split_and!; [by rewrite Hlen| |].
  - unfold count_where. rewrite (List.filter_ext_in _ (λ _, true)) by (intros v Hv%list_elem_of_In; by apply Hall).
    rewrite List.filter_true. lia.
  - intros a Hin. destruct (Hp a Hin) as [Hat Hpin]. destruct (verdict_ok a d Hat Hpin) as (?&?&?).
    exists (verifyOneAnchor verifyTimeStampToken a (hash_at (log_rows d) (an_seq a))).
    split_and!; [apply (list_elem_of_fmap_2 (λ a, verifyOneAnchor verifyTimeStampToken a (hash_at (log_rows d) (an_seq a)))); by rewrite Hperm| |done..].
    unfold verifyOneAnchor. by repeat case_match.
Qed.

Definition fresh_db db : Prop :=
  nd_log db = audit_init ∧ admin_legacy (nd_admin db) ∧ nd_anchors db = [] ∧ nd_adminAnchors db = [].

(** Anchors never cry wolf.  In every run of a tenant's logs and of the
    anchoring job (events appended and pruned, actions recorded and backfilled
    while the authority is asked), the verify routes find every anchor of both
    chains good, and say of one that its row is beyond retention exactly when
    the log has no row there any more. *)
Theorem anchors_verify db0 db me :
  fresh_db db0 → anchor_served db0 db → can (u_role me) read_console = true →
  ∃ access admin,
    auditAnchorsVerify (Some me) db = Reply 200 access ∧ adminAnchorsVerify frac_text (Some me) db = Reply 200 admin ∧
    rp_total access = Z.of_nat (length (nd_anchors db)) ∧ rp_failed access = 0 ∧
    rp_total admin = Z.of_nat (length (nd_adminAnchors db)) ∧ rp_failed admin = 0 ∧
    ∀ a, a ∈ nd_anchors db → ∃ v, v ∈ rp_verdicts access ∧ av_id v = an_id a ∧
      (av_beyondRetention v = true ↔ ∀ r, r ∈ auditEvents (nd_log db) → ae_seq (s_event r) ≠ an_seq a).
Proof using authority stores.
  intros (Hl & Ha & H1 & H2) Hs Hme.
  assert (anchors_ok db0) as H0.
  { split_and!; [|by apply admin_legacy_inv|rewrite H1|rewrite H2]; [|by intros x Hx%elem_of_nil..].
    rewrite Hl. apply (audit_reachable_inv date_parse). done. }
  destruct (served_keeps db0 db Hs H0) as ((_ & _ & P1 & P2) & _).
  destruct (report_ok me _ _ Hme P1) as (access & E1 & T1 & F1 & V1).
  destruct (report_ok me _ _ Hme P2) as (admin & E2 & T2 & F2 & _).
  exists access, admin. split_and!; [done..|]. intros a Hin. destruct (V1 a Hin) as (v & ? & ? & _ & _ & ?). by exists v.
Qed.
End machine.

(** *** What an anchor proves *)

Lemma anchorPreimage_inj s1 h1 s2 h2 : anchorPreimage s1 h1 = anchorPreimage s2 h2 → s1 = s2 ∧ h1 = h2.
Proof.
  unfold anchorPreimage. intros Heq%(f_equal chars). rewrite !chars_append in Heq.
  destruct (cut_eq colon (chars (dec s1)) (chars (dec s2)) (chars h1) (chars h2)) as [Hs Hh].
  - by apply dec_sep_free.
  - by apply dec_sep_free.
  - done.
  - split; [by apply (inj dec), (inj chars)|by apply (inj chars)].
Qed.

(** In a chain, the rows up to a row are those not numbered after it. *)
Lemma rows_up_to {A} (key : A → Z) l1 r l2 :
  increasing key (l1 ++ r :: l2) → List.filter (λ x, key x <=? key r) (l1 ++ r :: l2) = l1 ++ [r].
Proof.
  unfold increasing. rewrite List.filter_app. intros Hs. rewrite StronglySorted_app in Hs. destruct Hs as (Hle & H1 & H2).
  inversion H2 as [|? ? H3 H4]; subst. simpl. rewrite Z.leb_refl. f_equal; [|f_equal].
  - rewrite (List.filter_ext_in _ (λ _, true)); [apply List.filter_true|].
    intros x Hx%list_elem_of_In. specialize (Hle x r Hx (list_elem_of_here _ _)). simpl in *. lia.
  - rewrite (List.filter_ext_in _ (λ _, false)); [clear; by induction l2|].
    intros x Hx%list_elem_of_In. rewrite Forall_forall in H4. specialize (H4 x Hx). simpl in *. lia.
Qed.

Section evidence.
Context `{Pki} (sha256 sha256raw : string → string).
(** The genuine log since its first event, pruned rows included. *)
Context (history : list (Stored AuditEvent)) (now_head : ChainHead).
Context (genuine : linked sha256 genesis_head history now_head) (one_line : one_line_digest sha256).
(** A token that verifies for a text carries the digest of that text (pkijs
    compares the imprint, RFC 3161). *)
Context (imprint : string → string).
Context (imprinted : ∀ tok p, tv_ok (verifyTimeStampToken tok p) = true → imprint tok = sha256raw p).

(** The token was issued for a head of the genuine log. *)
Definition issued (tok : string) : Prop :=
  ∃ n h, linked sha256 genesis_head (take n history) h ∧ 0 < lastSeq h ∧ imprint tok = anchorDigest sha256raw (lastSeq h) (lastHash h).

Lemma attested_head tok a :
  issued tok → tv_ok (verifyTimeStampToken tok (anchorPreimage (an_seq a) (an_hash a))) = true →
  collision sha256raw ∨ ∃ n r, last (take n history) = Some r ∧ seq_of (s_event r) = an_seq a ∧ s_hash r = an_hash a.
Proof using imprinted.
  intros (n & h & Hl & Hpos & Hd) Hv%imprinted. rewrite Hv in Hd. unfold anchorDigest in Hd.
  destruct (decide (anchorPreimage (an_seq a) (an_hash a) = anchorPreimage (lastSeq h) (lastHash h))) as [Heq|Hne].
  2: { left. by eexists _, _. }
  apply anchorPreimage_inj in Heq as [-> ->]. right.
  destruct (last (take n history)) as [r|] eqn:Hr.
  - destruct (linked_last _ _ _ _ _ Hl Hr). by exists n, r.
  - apply last_None in Hr. rewrite Hr in Hl. inversion Hl; subst. done.
Qed.

(** C23: an anchor pins the history before it.  Suppose its token was issued by the
    authority for a head of this log; the code does not check who signed a token, so
    that has to be known otherwise.  Whatever else was rewritten in the database
    since, rows, hashes, head or the anchor's number and hash: when the log verifies
    and the anchor, within its head, is found good with its row in place, the rows
    up to that one attest, row for row, the texts of the genuine rows up to it, save
    for rows missing or added at the old end, or two texts with one SHA-256 digest
    are in hand.  A row and its genuine counterpart are equal in every attested
    field whenever in both the date is a JavaScript date and no field holds the unit
    separator.  Assumed of the libraries: digests are one line, and a token verifies
    only for the text whose digest it carries. *)
Theorem anchor_pins_history (db : AuditDb) (a : AnchorRow) res :
  issued (an_token a) → NoDup (row_seq <$> auditEvents db) →
  verify_rows sha256 db = Some res → ok res = true →
  (∀ h, chainState db = Some h → an_seq a ≤ lastSeq h) →
  let v := verifyOneAnchor verifyTimeStampToken a (hash_at (auditEvents db) (an_seq a)) in
  av_ok v = true → av_beyondRetention v = false →
  let shown := List.filter (λ r, row_seq r <=? an_seq a) (rows_in_head (auditEvents db) (chainState db)) in
  collision sha256 ∨ collision sha256raw ∨
  ∃ n r, last (take n history) = Some r ∧ ae_seq (s_event r) = an_seq a ∧
    (older_attested shown (take n history) ∨ older_attested (take n history) shown).
Proof using genuine one_line imprinted.
  intros Hiss Hnd Hv Hok Hhead v. unfold v, verifyOneAnchor.
  destruct (tv_ok _) eqn:Htok; [|done]. cbn [negb].
  destruct (hash_at _ _) as [hh|] eqn:Hh; [|done]. case_bool_decide as Heq; [|done]. intros _ _. cbn. subst hh.
  destruct (attested_head _ _ Hiss Htok) as [?|(n & g & Hg & Hgs & Hgh)]; [by right; left|].
  unfold verify_rows in Hv. rewrite page_loop_all in Hv; [|unfold PAGE; lia|lia|done]. simpl in Hv. simplify_eq.
  apply verifyChain_ok in Hok as [Hc _].
  unfold hash_at in Hh. destruct (find_row _ _) as [r|] eqn:Hf; [|done]. simpl in Hh. injection Hh as Hh.
  apply find_row_Some in Hf as [Hr Hrs%Z.eqb_eq].
  assert (r ∈ rows_in_head (auditEvents db) (chainState db)) as Hin.
  { apply elem_of_rows_in_head. split; [done|]. unfold in_head, row_seq. destruct (chainState db) as [h|]; [|done].
    specialize (Hhead h eq_refl). simpl in Hrs. lia. }
  apply list_elem_of_split in Hin as (l1 & l2 & HL).
  assert (increasing row_seq (rows_in_head (auditEvents db) (chainState db))) as Hinc
    by (apply order_by_increasing, NoDup_filter_fmap, Hnd).
  simpl in Hrs, Hgs. rewrite HL in *. rewrite <-Hrs. change (ae_seq (s_event r)) with (row_seq r). rewrite rows_up_to by done.
  rewrite cons_middle, (assoc_L (++)) in Hc. apply consistent_app_inv in Hc as [Hc _].
  destruct (attested_agree sha256 (l1 ++ [r]) one_line (take n history) r g) as [?|?]; try done.
  - apply linked_consistent, consistent_weaken in genuine. rewrite <-(take_drop n history) in genuine.
    by apply consistent_app_inv in genuine as [? _].
  - apply last_snoc.
  - congruence.
  - by left.
  - right. right. exists n, g. split_and!; [done| |done]. unfold row_seq. congruence.
Qed.
End evidence.

(** *** What anchors do not catch *)

Section gaps.
Context `{Pki} (date_parse : string → jsdate) (sha256 sha256raw base64 : string → string).

Lemma linked_verify_rows h l h' :
  linked sha256 h l h' → ∃ res, verify_rows sha256 {| auditEvents := l; chainState := Some h' |} = Some res ∧ ok res = true.
Proof.
  intros Hl. eexists. split; [apply verify_rows_inv; by split; [exists h|]|]. by eapply linked_verifies.
Qed.

(** Cutting off the newest rows and putting the head back is not noticed: the
    log verifies, and every anchor of a cut row counts as good, taken for one
    whose row retention removed. *)
Theorem truncation_passes_anchors h0 h1 h2 (l1 l2 : list (Stored AuditEvent)) a :
  linked sha256 h0 l1 h1 → linked sha256 h1 l2 h2 →
  tv_ok (verifyTimeStampToken (an_token a) (anchorPreimage (an_seq a) (an_hash a))) = true → lastSeq h1 < an_seq a →
  (∃ res, verify_rows sha256 {| auditEvents := l1; chainState := Some h1 |} = Some res ∧ ok res = true) ∧
  let v := verifyOneAnchor verifyTimeStampToken a (hash_at l1 (an_seq a)) in
  av_ok v = true ∧ av_beyondRetention v = true.
Proof.
  intros Hl1 Hl2 Ht Hs. split; [by eapply linked_verify_rows|]. unfold verifyOneAnchor. rewrite Ht. cbn [negb].
  destruct (hash_at l1 (an_seq a)) as [x|] eqn:Hx; [|done]. unfold hash_at in Hx.
  destruct (find_row _ _) as [r|] eqn:Hf; [|done]. apply find_row_Some in Hf as [Hr Hrs%Z.eqb_eq].
  pose proof (linked_seqs _ _ _ _ _ Hl1 Hr). lia.
Qed.

(** A head set below the anchored row hides any other history: the verifier reads
    the rows up to the head only, and the anchor finds its row beyond it. *)
Theorem head_rewind_hides_rewrite h0 h1 (forged : list (Stored AuditEvent)) (r : Stored AuditEvent) a :
  linked sha256 h0 forged h1 → lastSeq h1 < row_seq r → an_seq a = row_seq r → an_hash a = s_hash r →
  tv_ok (verifyTimeStampToken (an_token a) (anchorPreimage (an_seq a) (an_hash a))) = true →
  let db := {| auditEvents := forged ++ [r]; chainState := Some h1 |} in
  (∃ res, verify_rows sha256 db = Some res ∧ ok res = true) ∧
  let v := verifyOneAnchor verifyTimeStampToken a (hash_at (auditEvents db) (an_seq a)) in
  av_ok v = true ∧ av_beyondRetention v = false.
Proof.
  intros Hl Hs Has Hah Ht db.
  assert (∀ x, x ∈ forged → row_seq x < row_seq r) as Hlt
    by (intros x Hx; pose proof (linked_seqs _ _ _ _ _ Hl Hx); unfold row_seq in *; simpl in *; lia).
  split.
  - eexists. split.
    + unfold verify_rows. rewrite page_loop_all; [done|unfold PAGE; lia|lia|].
      unfold db; simpl. rewrite fmap_app. apply NoDup_app. split_and!; [by eapply increasing_NoDup, linked_row_seq| |apply NoDup_singleton].
      intros z (x & -> & Hx)%list_elem_of_fmap Hz. simpl in Hz. apply list_elem_of_singleton in Hz. specialize (Hlt x Hx). lia.
    + unfold db, rows_in_head; simpl. rewrite List.filter_app. cbn [List.filter in_head].
      replace (row_seq r <=? lastSeq h1) with false by lia. rewrite app_nil_r.
      change (by_seq (List.filter (in_head (Some h1)) forged)) with (rows_in_head forged (Some h1)).
      erewrite linked_rows_in_head; [by eapply linked_verifies|done|done].
  - assert (hash_at (auditEvents db) (an_seq a) = Some (an_hash a)) as ->.
    { unfold hash_at, db; simpl. destruct (find_row _ _) as [x|] eqn:Hf; simpl.
      - apply find_row_Some in Hf as [[Hx|Hx]%elem_of_app Hxs%Z.eqb_eq].
        + specialize (Hlt x Hx). unfold row_seq in *. lia.
        + apply list_elem_of_singleton in Hx as ->. congruence.
      - rewrite find_row_None in Hf. specialize (Hf r ltac:(set_solver)). simpl in Hf. unfold row_seq in *. lia. }
    unfold verifyOneAnchor. rewrite Ht. cbn. by rewrite bool_decide_eq_true_2.
Qed.

(** In cloud an authority that takes longer than the scope's budget stops the
    whole pass: the route fails, and no tenant is anchored, although each fetch
    allows itself fifteen seconds and a failure is meant to stay with its chain. *)
Theorem slow_authority_stops_pass (fetch : Fetch) secret header t ts reqs dbs head :
  cronAuthorized secret header = true →
  (∀ url hd req, DEFAULT_SCOPE_BUDGET_MS < (fetch url hd req).1) →
  resolvedExternalAnchorEnabled (nq_settings (reqs t)) = true → resolvedAnchorTsaUrl (nq_settings (reqs t)) ≠ ""%string →
  chainState (nd_log (dbs t)) = Some head → shouldAnchor head (findLastAnchor (nd_anchors (dbs t))) = true →
  ∃ dbs', auditAnchorPost sha256raw base64 fetch secret header true (t :: ts) reqs dbs = (dbs', Fail 500 "") ∧
    ∀ t', dbs' t' = dbs t'.
Proof.
  intros Hc Hslow He Hu Hh Hs. unfold auditAnchorPost. rewrite Hc. cbn [negb]. cbn [anchor_pass]. unfold in_scope, anchor_job.
  assert (∃ db1 u1 r1, runAnchor sha256raw base64 fetch (nq_settings (reqs t)) (nq_ids (reqs t)).1 (nq_between (reqs t)).1
    (Some DEFAULT_SCOPE_BUDGET_MS) 0 (stamp_cron "audit-anchor" (nq_now (reqs t)) (dbs t)) = (db1, u1, r1) ∧
    DEFAULT_SCOPE_BUDGET_MS < u1) as (db1 & u1 & r1 & -> & Hu1).
  { unfold runAnchor, runAnchorFor. rewrite He, bool_decide_eq_false_2 by done. cbn [negb].
    replace (closed _ 0) with false by done.
    change (tg_head access_target _) with (chainState (nd_log (dbs t))). rewrite Hh.
    change (tg_anchors access_target _) with (nd_anchors (dbs t)). rewrite Hs. cbn [negb].
    match goal with |- context [fetch ?u ?h ?q] => pose proof (Hslow u h q) as Hms; destruct (fetch u h q) as [ms res] end.
    cbn [fst] in Hms. rewrite Z.add_0_l. destruct res as [m|c|der]; [by eexists _, _, _|by eexists _, _, _|].
    destruct (parseTimeStampResponse der) as [m|[tok tm]]; [by eexists _, _, _|].
    destruct (closed _ _); by eexists _, _, _. }
  assert (∃ db2 u2 r2, runAdminAnchor sha256raw base64 fetch (nq_settings (reqs t)) (nq_ids (reqs t)).2 (nq_between (reqs t)).2
    (Some DEFAULT_SCOPE_BUDGET_MS) u1 db1 = (db2, u2, r2) ∧ u1 ≤ u2) as (db2 & u2 & r2 & -> & Hu2).
  { unfold runAdminAnchor, runAnchorFor. rewrite He, bool_decide_eq_false_2 by done. cbn [negb].
    replace (closed _ u1) with true by (cbn; lia). by eexists _, _, _. }
  replace (closed _ u2) with true by (cbn; lia). eexists. split; [done|].
  intros t'. unfold put_db. case_bool_decide; [by subst|done].
Qed.
End gaps.

(** ** Witnesses *)

(** Structures as plain texts; a signature is valid for the text it is of, when
    the authority signs that text. *)
Definition demo_pki (signs : string → bool) : Pki :=
  {| Asn1 := string; ContentInfo := string; SignedData := string; fromBER := Some;
     newTimeStampResp := λ a, inr (0, Some a); newContentInfo := inr; newSignedData := inr; toBER := λ c, c;
     eContent := Some; newTSTInfo := λ _, inr 1800000000000;
     signed_verify := λ sd p, Verified ((sd =s p) && signs p); timeStampReqDer := λ d, d |}.
Definition demo_fetch : Fetch := λ _ _ req, (120, Body req).
Definition demo_anchor_settings : PlatformSettings :=
  {| auditRetentionDays := None; inviteTtlHours := None; notificationWebhookUrl := None; vendorIpAllowlist := None;
     maxGrantDays := None; recordingConsentRequired := None; watermarkDefault := None; clipboardDefault := None;
     displayTimezone := None; recordingRetentionDays := None; defaultConnectorLogLevel := None;
     externalAnchorEnabled := Some true; anchorTsaUrl := Some "https://tsa.example"%string; anchorTsaAuth := None;
     notifySiteHealth := None; notifyAccessRequests := None; notifyAccessDecisions := None;
     requireRequestJustification := None; keystrokeLoggingMode := None; recordingMode := None |}.
Definition demo_anchor_req : AnchorReq :=
  {| nq_now := 1800000000000; nq_settings := demo_anchor_settings; nq_ids := ("a1", "a2")%string;
     nq_between := (λ d, d, λ d, d) |}.
(** The digest the authority signs, for examples. *)
Definition demo_raw (s : string) : string := s.
Definition demo_unanchored : AnchorDb :=
  {| nd_log := audit_init; nd_admin := demo_legacy; nd_anchors := []; nd_adminAnchors := []; nd_cron := ∅ |}.
Definition demo_signs_all := demo_pki (λ _, true).
Definition demo_logged : AnchorDb := with_admin (with_log demo_unanchored demo_db) demo_backfilled.
Definition demo_anchored : AnchorDb :=
  (in_scope true 5000 (anchor_job (H := demo_signs_all) demo_raw demo_raw demo_fetch demo_anchor_req) demo_logged).1.

Lemma demo_anchored_served :
  anchor_served (H := demo_signs_all) demo_parse frac_digits demo_digest demo_raw demo_raw reversing_store demo_fetch
    demo_unanchored demo_anchored.
Proof.
  eapply served_then; [|apply served_job; intros d; apply served_nothing].
  eapply served_then; [apply (served_access _ _ _ _ _ _ _ demo_unanchored demo_db)|apply (served_admin _ _ _ _ _ _ _ _ demo_backfilled)].
  - apply (step_append _ _ [] [] 1800000000000 demo_batch _ _ 3). vm_compute. reflexivity.
  - apply (clean_backfill _ _ _ _ 1). vm_compute. reflexivity.
Qed.

Lemma anchors_verify_witness :
  (∃ access admin,
    auditAnchorsVerify (H := demo_signs_all) (Some (demo_user "u" AUDITOR)) demo_anchored = Reply 200 access ∧
    adminAnchorsVerify (H := demo_signs_all) frac_digits (Some (demo_user "u" AUDITOR)) demo_anchored = Reply 200 admin ∧
    rp_total access = Z.of_nat (length (nd_anchors demo_anchored)) ∧ rp_failed access = 0 ∧
    rp_total admin = Z.of_nat (length (nd_adminAnchors demo_anchored)) ∧ rp_failed admin = 0 ∧
    ∀ a, a ∈ nd_anchors demo_anchored → ∃ v, v ∈ rp_verdicts access ∧ av_id v = an_id a ∧
      (av_beyondRetention v = true ↔ ∀ r, r ∈ auditEvents (nd_log demo_anchored) → ae_seq (s_event r) ≠ an_seq a)) ∧
  length (nd_anchors demo_anchored) = 1%nat ∧ length (nd_adminAnchors demo_anchored) = 1%nat.
Proof.
  split; [|split; vm_compute; reflexivity].
  apply (anchors_verify (H := demo_signs_all) demo_parse frac_digits demo_digest demo_raw demo_raw reversing_store demo_fetch
    reversing_store_ok) with (db0 := demo_unanchored).
  - intros url hd digest ms der tok t p. unfold demo_fetch. intros [= <- <-]. cbn. intros [= <- <-] Hp.
    unfold demo_raw in Hp. subst. by rewrite bool_decide_eq_true_2.
  - split_and!; [reflexivity|exact demo_legacy_ok|reflexivity..].
  - exact demo_anchored_served.
  - reflexivity.
Defined.

(** The authority has signed the head of the whole demonstration log only. *)
Definition demo_head : ChainHead := chainState demo_db ?? genesis_head.
Definition demo_stamp : AnchorRow :=
  {| an_id := "a1"; an_seq := lastSeq demo_head; an_hash := lastHash demo_head; an_tsaUrl := "https://tsa.example";
     an_token := anchorPreimage (lastSeq demo_head) (lastHash demo_head); an_genTime := 0 |}.
Definition demo_signs_head := demo_pki (λ p, p =s anchorPreimage (lastSeq demo_head) (lastHash demo_head)).

Lemma demo_history : linked demo_digest genesis_head (auditEvents demo_db) demo_head.
Proof.
  assert (appendAuditEvents demo_parse demo_digest [] [] 1800000000000 audit_init demo_batch = Some (demo_db, 3)) as Ha
    by (vm_compute; reflexivity).
  apply append_rows in Ha as (rows & -> & _ & _ & Hl & _). exact Hl.
Qed.

Definition demo_shown : list (Stored AuditEvent) :=
  List.filter (λ r, row_seq r <=? an_seq demo_stamp) (rows_in_head (auditEvents demo_db) (chainState demo_db)).

Lemma anchor_pins_history_witness :
  collision demo_digest ∨ collision demo_digest ∨
  ∃ n r, last (take n (auditEvents demo_db)) = Some r ∧ ae_seq (s_event r) = an_seq demo_stamp ∧
    (older_attested demo_shown (take n (auditEvents demo_db)) ∨ older_attested (take n (auditEvents demo_db)) demo_shown).
Proof.
  eapply (anchor_pins_history (H := demo_signs_head) demo_digest demo_digest (auditEvents demo_db) demo_head demo_history demo_digest_line
    (λ tok, demo_digest (anchorPreimage (lastSeq demo_head) (lastHash demo_head))))
    with (res := verifyChain demo_digest (auditEvents demo_db) (chainState demo_db)).
  - intros tok p. cbn. intros Hp. by repeat case_bool_decide; subst.
  - exists 3%nat, demo_head. split_and!; [rewrite take_ge by (vm_compute; lia); exact demo_history|reflexivity|reflexivity].
  - apply (bool_decide_unpack _). vm_compute. exact I.
  - vm_compute. reflexivity.
  - vm_compute. reflexivity.
  - intros h [= <-]. vm_compute. discriminate.
  - vm_compute. reflexivity.
  - vm_compute. reflexivity.
Defined.
