(* ===== verification/Sites.v ===== *)
(** * Sites: what vendors reach

    Validation of a site form (src/lib/site/validate.ts, logo.ts), the suffix
    that makes a label a hostname (host-suffix.ts, hostname.ts), the console
    routes over sites, their credentials and custom domains (admin/sites and
    below, vault/store.ts, site/verify-domain.ts), the health pass
    (cron/site-health) and what the data plane asks: which site a host is
    (internal/site/by-host, tls-check) and how to open a remote session
    (internal/gateway/descriptor).

    URL parsing, base64, encryption, DNS and the probe through a connector are
    arguments. *)

From S2P Require Import Prelude JsString JsValue Schema Transaction AuditChain AccessLog AdminLog Identity Schedule Cidr Access Settings Gateway Tenant Directory Connector.

(** ** Rows *)

Inductive AccessMode := TRANSPARENT | GATEWAY | ISOLATED.
#[global] Instance AccessMode_eq_dec : EqDecision AccessMode.
Proof. solve_decision. Defined.

Record SiteRow := {
  st_id : string;
  st_connectorId : string;
  st_name : string;
  st_hostname : option string;
  st_customDomain : bool;
  st_domainVerifiedAt : option Z;
  st_upstreamUrl : option string;
  st_insecureSkipVerify : bool;
  st_description : option string;
  st_probedAt : option Z;
  st_probeOk : option bool;
  st_probeDetail : option string;
  st_probeLatencyMs : option Z;
  st_recordSessions : bool;
  st_keystrokeLogging : bool;
  st_clipboardMode : option string;
  st_watermark : option bool;
  st_fileTransferMode : string;
  st_accessMode : AccessMode;
  st_logo : option (string * string);
  st_createdAt : Z;
}.

Inductive SecretKind := PASSWORD | KEY.
#[global] Instance SecretKind_eq_dec : EqDecision SecretKind.
Proof. solve_decision. Defined.

Record VaultCredential := {
  vc_siteId : string;
  vc_protocol : VaultProtocol;
  vc_targetHost : string;
  vc_targetPort : Z;
  vc_username : string;
  vc_secret : string;
  vc_secretKind : SecretKind;
  vc_guacParams : json;
  vc_updatedAt : Z;
}.

Inductive NotificationType := site_down | site_recovered.
Record Notification := { nt_type : NotificationType; nt_siteId : string; nt_siteName : string; nt_detail : option string }.

Record SitesDb := {
  sd_sites : list SiteRow;
  sd_vault : list VaultCredential;
  sd_grants : list AccessGrant;
  sd_mappings : list GroupMapping;
  sd_connectors : list Connector;
  sd_notices : list Notification;
  sd_log : AdminDb;
}.
Definition with_sites (db : SitesDb) (ss : list SiteRow) : SitesDb :=
  {| sd_sites := ss; sd_vault := sd_vault db; sd_grants := sd_grants db; sd_mappings := sd_mappings db;
     sd_connectors := sd_connectors db; sd_notices := sd_notices db; sd_log := sd_log db |}.
Definition with_vault (db : SitesDb) (vs : list VaultCredential) : SitesDb :=
  {| sd_sites := sd_sites db; sd_vault := vs; sd_grants := sd_grants db; sd_mappings := sd_mappings db;
     sd_connectors := sd_connectors db; sd_notices := sd_notices db; sd_log := sd_log db |}.
Definition with_log (db : SitesDb) (l : AdminDb) : SitesDb :=
  {| sd_sites := sd_sites db; sd_vault := sd_vault db; sd_grants := sd_grants db; sd_mappings := sd_mappings db;
     sd_connectors := sd_connectors db; sd_notices := sd_notices db; sd_log := l |}.

(** ** Validation *)

Definition CLIP : list string := ["allow"; "no_copy"; "no_paste"; "none"]%string.
Definition FT : list string := ["allow"; "no_upload"; "no_download"; "none"]%string.
Definition PROTOCOLS : list VaultProtocol := [RDP; SSH; VNC].

Inductive SiteValidation :=
  | VTransparent (connectorId name hostname : string) (customDomain : bool) (upstreamUrl : string)
      (description : option string) (insecureSkipVerify : bool) (clipboardMode : option string) (recordSessions : bool)
  | VGateway (connectorId name : string) (description : option string) (protocol : VaultProtocol) (targetHost : string)
      (targetPort : Z) (username : string) (secret : option string) (recordSessions keystrokeLogging : bool)
      (guacParams : GuacParams)
  | VIsolated (connectorId name : string) (description : option string) (upstreamUrl : string)
      (insecureSkipVerify recordSessions : bool) (clipboardMode : option string) (watermark : option bool)
      (fileTransferMode : string)
  | VError (error : string).

Record SiteOpts := {
  nativeGateway : bool;
  requireSecret : bool;
  opt_recordingEnabled : bool;
  opt_isolationEnabled : bool;
  hostSuffix : option string;
}.

(** [str(v)] *)
Definition str (v : json) : string := trim (str_or_empty v).
Definition is_true (v : json) : bool := match v with JBool true => true | _ => false end.
Definition or_null_str (s : string) : option string := if truthy s then Some s else None.

(** [toUpperCase]: the sharp s becomes two letters; the two letters whose capital
    lies outside the alphabet stay as they are, so they match nothing here. *)
Definition upper_char (c : Ascii.ascii) : list Ascii.ascii :=
  let n := code c in
  if ((97 <=? n) && (n <=? 122)) || ((224 <=? n) && (n <=? 254) && negb (n =? 247))
  then [Ascii.ascii_of_N (Z.to_N (n - 32))] else
  if n =? 223 then chars "SS" else [c].
Definition toUpperCase (s : string) : string := unchars (concat (map upper_char (chars s))).
Definition read_protocol (s : string) : option VaultProtocol := find_row (λ p, protocol_name p =s s) PROTOCOLS.

(** [/^(?=.{1,253}$)(label\.)+[a-z]{2,}$/] *)
Definition is_az (c : Ascii.ascii) : bool := (97 <=? code c) && (code c <=? 122).
Definition is_fqdn (s : string) : bool :=
  (js_length s <=? 253) &&
  match reverse (split period s) with
  | tld :: (_ :: _) as labels =>
      forallb is_az (chars tld) && (2 <=? js_length tld) && forallb slug_re (tl labels)
  | _ => false
  end.

Section validation.
Context (parse_url : string → option Url).

Definition is_http (u : string) : bool :=
  match parse_url u with Some x => (u_protocol x =s "http:") || (u_protocol x =s "https:") | None => false end.

Definition validate_isolated (connectorId name : string) (description : option string) (body : json) (o : SiteOpts)
    : SiteValidation :=
  if negb (opt_isolationEnabled o) then VError "isolation_disabled" else
  let upstreamUrl := str (obj_get body "upstreamUrl") in
  if negb (truthy upstreamUrl) then VError "isolated_url_required" else
  if negb (is_http upstreamUrl) then VError "invalid_upstream_url" else
  let clip := str (obj_get body "clipboardMode") in
  let ft := str (obj_get body "fileTransferMode") in
  VIsolated connectorId name description upstreamUrl (is_true (obj_get body "insecureSkipVerify"))
    (opt_recordingEnabled o && is_true (obj_get body "recordSessions"))
    (if bool_decide (clip ∈ CLIP) then Some clip else None) (as_bool (obj_get body "watermark"))
    (if bool_decide (ft ∈ FT) then ft else "none").

Definition read_port (v : json) : option Z :=
  match match v with JNum n => n | _ => Number (str v) end with
  | NInt z => if (z <? 1) || (65535 <? z) then None else Some z
  | _ => None
  end.

Definition validate_gateway (connectorId name : string) (description : option string) (body : json) (o : SiteOpts)
    : SiteValidation :=
  if negb (nativeGateway o) then VError "native_gateway_disabled" else
  match read_protocol (toUpperCase (str (obj_get body "protocol"))) with
  | None => VError "invalid_protocol"
  | Some protocol =>
      let targetHost := str (obj_get body "targetHost") in
      let username := str (obj_get body "username") in
      let secret := str_or_empty (obj_get body "secret") in
      if negb (truthy targetHost) || negb (truthy username) then VError "remote_desktop_fields_required" else
      match read_port (obj_get body "targetPort") with
      | None => VError "invalid_port"
      | Some targetPort =>
          if requireSecret o && negb (truthy secret) then VError "remote_desktop_fields_required" else
          let rec := opt_recordingEnabled o && is_true (obj_get body "recordSessions") in
          VGateway connectorId name description protocol targetHost targetPort username (or_null_str secret) rec
            (rec && is_true (obj_get body "keystrokeLogging")) (parseGuacParams (obj_get body "guacParams"))
      end
  end.

(** The public hostname: a domain of the tenant's own, a label under the suffix,
    or without a suffix the value itself.  [None] is invalid_hostname. *)
Definition read_hostname (customDomain : bool) (suffix : option string) (rawHost : string) : option string :=
  if negb (truthy rawHost) then None else
  if customDomain then (if is_fqdn rawHost then Some rawHost else None) else
  match some_truthy suffix with
  | Some s => if slug_re rawHost then Some (rawHost +:+ s) else None
  | None => Some rawHost
  end.

Definition validate_transparent (connectorId name : string) (description : option string) (body : json) (o : SiteOpts)
    : SiteValidation :=
  let customDomain := is_true (obj_get body "customDomain") in
  let rawHost := trim (toLowerCase (str (obj_get body "hostname"))) in
  match read_hostname customDomain (hostSuffix o) rawHost with
  | None => VError "invalid_hostname"
  | Some hostname =>
      let upstreamUrl := str (obj_get body "upstreamUrl") in
      if negb (truthy upstreamUrl) then VError "connector_name_upstream_required" else
      if negb (is_http upstreamUrl) then VError "invalid_upstream_url" else
      let clip := str (obj_get body "clipboardMode") in
      VTransparent connectorId name hostname customDomain upstreamUrl description
        (is_true (obj_get body "insecureSkipVerify")) (if bool_decide (clip ∈ CLIP) then Some clip else None)
        (opt_recordingEnabled o && is_true (obj_get body "recordSessions"))
  end.

Definition validateSiteInput (body : json) (o : SiteOpts) : SiteValidation :=
  let connectorId := str (obj_get body "connectorId") in
  let name := str (obj_get body "name") in
  let description := or_null_str (str (obj_get body "description")) in
  if negb (truthy connectorId) || negb (truthy name) then VError "connector_name_required" else
  if json_str_is (obj_get body "accessMode") "GATEWAY" then validate_gateway connectorId name description body o else
  if json_str_is (obj_get body "accessMode") "ISOLATED" then validate_isolated connectorId name description body o else
  validate_transparent connectorId name description body o.
End validation.

(** ** Logos *)

Definition ALLOWED_LOGO_TYPES : list string := ["image/png"; "image/jpeg"; "image/svg+xml"; "image/webp"]%string.
Definition MAX_LOGO_BYTES : Z := 200 * 1024.
Inductive LogoUpdate := LKeep | LClear | LSet (data type_ : string) | LError (error : string).

(** [from_base64]: [Buffer.from(b64, "base64")], its bytes. *)
Definition parseLogoUpload (from_base64 : string → string) (logo logoType : json) : LogoUpdate :=
  match logo with
  | JUndefined => LKeep
  | JNull => LClear
  | JStr s =>
      if negb (truthy s) then LClear else
      match logoType with
      | JStr t =>
          if negb (bool_decide (t ∈ ALLOWED_LOGO_TYPES)) then LError "invalid_logo_type" else
          let b64 := match indexOf comma_char s with
                     | Some i => if startsWith "data:" s then slice_from (i + 1) s else s
                     | None => s
                     end in
          let buf := from_base64 b64 in
          if js_length buf =? 0 then LError "invalid_logo" else
          if MAX_LOGO_BYTES <? js_length buf then LError "logo_too_large" else LSet buf t
      | _ => LError "invalid_logo_type"
      end
  | _ => LError "invalid_logo"
  end.
(** [...logoData] of a new row and of an existing one. *)
Definition logo_of (l : LogoUpdate) (old : option (string * string)) : option (string * string) :=
  match l with LSet d t => Some (d, t) | LClear => None | _ => old end.

(** ** Hostnames *)

(** [siteHostSuffix]; [slug]: the tenant of the request's host. *)
Definition siteHostSuffix (multi : bool) (consoleDom slug accessDom : option string) : option string :=
  match (if multi then match some_truthy slug, some_truthy consoleDom with
                       | Some s, Some d => Some ("." +:+ s +:+ "." +:+ d)
                       | _, _ => None
                       end else None) with
  | Some x => Some x
  | None => match some_truthy accessDom with Some d => Some ("." +:+ d) | None => None end
  end.
(** [owner]: the tenant the hostname resolves to over all tenants. *)
Definition crossTenantHostnameTaken (multi : bool) (owner : string → option string) (acting : option string)
    (hostname : option string) : bool :=
  match some_truthy hostname with
  | Some h => if negb multi then false else
              match some_truthy (owner (trim (toLowerCase h))) with
              | Some o => negb (bool_decide (Some o = acting))
              | None => false
              end
  | None => false
  end.

(** ** Requests *)

Record SiteReq := {
  sq_user : option User;
  sq_now : Z;
  sq_tenant : string;
  sq_newId : string;
  sq_auditId : string;
  sq_auditFails : bool;
  sq_clientIp : option string;
  sq_multi : bool;
  sq_env : string → option string;
  sq_envelope : TenantEnvelope;
  sq_suffix : option string;
  sq_owner : string → option string;
  sq_acting : option string;
}.

(** The options both routes pass to the validation. *)
Definition site_opts (rq : SiteReq) (needSecret : bool) : SiteOpts :=
  let cap k := envDefault (sq_env rq) k && capabilityAllowed (sq_env rq) (sq_envelope rq) k in
  {| nativeGateway := cap gateway; requireSecret := needSecret; opt_recordingEnabled := cap recording;
     opt_isolationEnabled := cap isolated; hostSuffix := sq_suffix rq |}.
Definition error_status (e : string) : Z :=
  if (e =s "native_gateway_disabled") || (e =s "isolation_disabled") then 403 else 400.

Definition has_connector (db : SitesDb) (id : string) : bool := existsb (λ c, cn_id c =s id) (sd_connectors db).
(** The unique (tenantId, hostname): some other row has this hostname. *)
Definition hostname_clash (db : SitesDb) (id : string) (hostname : option string) : bool :=
  match hostname with
  | Some h => existsb (λ s, negb (st_id s =s id) && bool_decide (st_hostname s = Some h)) (sd_sites db)
  | None => false
  end.

(** Why the insert of a row fails: the hostname (P2002), or anything else. *)
Inductive write_error := Taken | Broken.
Definition insert_error (db : SitesDb) (row : SiteRow) : option write_error :=
  if hostname_clash db (st_id row) (st_hostname row) then Some Taken else
  if negb (has_connector db (st_connectorId row)) || existsb (λ s, st_id s =s st_id row) (sd_sites db) then Some Broken
  else None.
Definition update_error (db : SitesDb) (id connectorId : string) (hostname : option string) : option write_error :=
  if negb (existsb (λ s, st_id s =s id) (sd_sites db)) then Some Broken else
  if hostname_clash db id hostname then Some Taken else
  if negb (has_connector db connectorId) then Some Broken else None.

Definition set_site (id : string) (f : SiteRow → SiteRow) (db : SitesDb) : SitesDb :=
  with_sites db (update_where (λ s, st_id s =s id) f (sd_sites db)).
Definition drop_vault (id : string) (db : SitesDb) : SitesDb :=
  with_vault db (delete_where (λ c, vc_siteId c =s id) (sd_vault db)).

(** The columns a new row starts with; the rest are the schema's defaults. *)
Definition blank_site (id connectorId name : string) (mode : AccessMode) (now : Z) : SiteRow :=
  {| st_id := id; st_connectorId := connectorId; st_name := name; st_hostname := None; st_customDomain := false;
     st_domainVerifiedAt := None; st_upstreamUrl := None; st_insecureSkipVerify := false; st_description := None;
     st_probedAt := None; st_probeOk := None; st_probeDetail := None; st_probeLatencyMs := None;
     st_recordSessions := false; st_keystrokeLogging := false; st_clipboardMode := None; st_watermark := None;
     st_fileTransferMode := "none"; st_accessMode := mode; st_logo := None; st_createdAt := now |}.

(** The columns each mode writes; [existing]: the hostname before the update. *)
Definition put_transparent (connectorId name hostname : string) (customDomain : bool) (upstreamUrl : string)
    (description : option string) (insecure : bool) (clip : option string) (rec : bool) (logo : LogoUpdate)
    (existing : option string) (s : SiteRow) : SiteRow :=
  {| st_id := st_id s; st_connectorId := connectorId; st_name := name; st_hostname := Some hostname;
     st_customDomain := customDomain;
     st_domainVerifiedAt := if customDomain && bool_decide (existing = Some hostname) then st_domainVerifiedAt s else None;
     st_upstreamUrl := Some upstreamUrl; st_insecureSkipVerify := insecure; st_description := description;
     st_probedAt := st_probedAt s; st_probeOk := st_probeOk s; st_probeDetail := st_probeDetail s;
     st_probeLatencyMs := st_probeLatencyMs s; st_recordSessions := rec; st_keystrokeLogging := st_keystrokeLogging s;
     st_clipboardMode := clip; st_watermark := st_watermark s; st_fileTransferMode := st_fileTransferMode s;
     st_accessMode := TRANSPARENT; st_logo := logo_of logo (st_logo s); st_createdAt := st_createdAt s |}.
Definition put_isolated (connectorId name : string) (description : option string) (upstreamUrl : string)
    (insecure rec : bool) (clip : option string) (watermark : option bool) (ft : string) (logo : LogoUpdate)
    (s : SiteRow) : SiteRow :=
  {| st_id := st_id s; st_connectorId := connectorId; st_name := name; st_hostname := None;
     st_customDomain := st_customDomain s; st_domainVerifiedAt := st_domainVerifiedAt s;
     st_upstreamUrl := Some upstreamUrl; st_insecureSkipVerify := insecure; st_description := description;
     st_probedAt := st_probedAt s; st_probeOk := st_probeOk s; st_probeDetail := st_probeDetail s;
     st_probeLatencyMs := st_probeLatencyMs s; st_recordSessions := rec; st_keystrokeLogging := st_keystrokeLogging s;
     st_clipboardMode := clip; st_watermark := watermark; st_fileTransferMode := ft; st_accessMode := ISOLATED;
     st_logo := logo_of logo (st_logo s); st_createdAt := st_createdAt s |}.
Definition put_gateway (connectorId name : string) (description : option string) (rec keystrokes : bool)
    (logo : LogoUpdate) (s : SiteRow) : SiteRow :=
  {| st_id := st_id s; st_connectorId := connectorId; st_name := name; st_hostname := None;
     st_customDomain := st_customDomain s; st_domainVerifiedAt := st_domainVerifiedAt s; st_upstreamUrl := None;
     st_insecureSkipVerify := st_insecureSkipVerify s; st_description := description; st_probedAt := st_probedAt s;
     st_probeOk := st_probeOk s; st_probeDetail := st_probeDetail s; st_probeLatencyMs := st_probeLatencyMs s;
     st_recordSessions := rec; st_keystrokeLogging := keystrokes; st_clipboardMode := st_clipboardMode s;
     st_watermark := st_watermark s; st_fileTransferMode := st_fileTransferMode s; st_accessMode := GATEWAY;
     st_logo := logo_of logo (st_logo s); st_createdAt := st_createdAt s |}.
Definition set_verified (now : Z) (s : SiteRow) : SiteRow :=
  {| st_id := st_id s; st_connectorId := st_connectorId s; st_name := st_name s; st_hostname := st_hostname s;
     st_customDomain := st_customDomain s; st_domainVerifiedAt := Some now; st_upstreamUrl := st_upstreamUrl s;
     st_insecureSkipVerify := st_insecureSkipVerify s; st_description := st_description s; st_probedAt := st_probedAt s;
     st_probeOk := st_probeOk s; st_probeDetail := st_probeDetail s; st_probeLatencyMs := st_probeLatencyMs s;
     st_recordSessions := st_recordSessions s; st_keystrokeLogging := st_keystrokeLogging s;
     st_clipboardMode := st_clipboardMode s; st_watermark := st_watermark s;
     st_fileTransferMode := st_fileTransferMode s; st_accessMode := st_accessMode s; st_logo := st_logo s;
     st_createdAt := st_createdAt s |}.

Record ProbeResult := { probeOk : bool; probeDetail : string; probeLatencyMs : option Z }.
Definition set_probe (now : Z) (r : ProbeResult) (s : SiteRow) : SiteRow :=
  {| st_id := st_id s; st_connectorId := st_connectorId s; st_name := st_name s; st_hostname := st_hostname s;
     st_customDomain := st_customDomain s; st_domainVerifiedAt := st_domainVerifiedAt s;
     st_upstreamUrl := st_upstreamUrl s; st_insecureSkipVerify := st_insecureSkipVerify s;
     st_description := st_description s; st_probedAt := Some now; st_probeOk := Some (probeOk r);
     st_probeDetail := Some (probeDetail r); st_probeLatencyMs := probeLatencyMs r;
     st_recordSessions := st_recordSessions s; st_keystrokeLogging := st_keystrokeLogging s;
     st_clipboardMode := st_clipboardMode s; st_watermark := st_watermark s;
     st_fileTransferMode := st_fileTransferMode s; st_accessMode := st_accessMode s; st_logo := st_logo s;
     st_createdAt := st_createdAt s |}.

Section site_routes.
Context (parse_url : string → option Url) (from_base64 : string → string).
Context (encrypt : string → string) (decrypt : string → option string).
Context (frac_text : Z → string) (digest : string → string) (json_store : json → json).

Definition site_audit (rq : SiteReq) (me : User) (action targetId summary : string) (db : SitesDb) : SitesDb :=
  with_log db (recordAdminAction frac_text digest json_store (sq_auditFails rq) (sq_auditId rq) (sq_now rq) (sd_log db)
    {| in_actor := {| actor_id := u_id me; actor_email := Some (u_email me) |}; in_action := action;
       in_targetType := Some "resource"%string; in_targetId := Some targetId; in_summary := summary;
       in_metadata := JUndefined; in_clientIp := sq_clientIp rq |}).
Definition quoted (s : string) : string := unchars [Ascii.ascii_of_N 34] +:+ s +:+ unchars [Ascii.ascii_of_N 34].

Definition as_site_admin {A} (rq : SiteReq) (db : SitesDb) (h : User → SitesDb * response A) : SitesDb * response A :=
  match sq_user rq with
  | None => (db, Fail 401 "unauthorized")
  | Some me => if negb (can (u_role me) configure) then (db, Fail 403 "forbidden") else h me
  end.

(** The credential row of a validated remote-desktop form. *)
Definition vault_row (now : Z) (siteId : string) (protocol : VaultProtocol) (host : string) (port : Z) (user secret : string)
    (kind : SecretKind) (g : GuacParams) : VaultCredential :=
  {| vc_siteId := siteId; vc_protocol := protocol; vc_targetHost := host; vc_targetPort := port; vc_username := user;
     vc_secret := secret; vc_secretKind := kind; vc_guacParams := json_store (guac_json g); vc_updatedAt := now |}.

(** What is inserted for a validated form, with its credential if it has one. *)
Definition new_site (rq : SiteReq) (logo : LogoUpdate) (v : SiteValidation) : option (SiteRow * option VaultCredential) :=
  match v with
  | VTransparent c n h cd u d i clip r =>
      Some (put_transparent c n h cd u d i clip r logo None (blank_site (sq_newId rq) c n TRANSPARENT (sq_now rq)), None)
  | VIsolated c n d u i r clip w ft =>
      Some (put_isolated c n d u i r clip w ft logo (blank_site (sq_newId rq) c n ISOLATED (sq_now rq)), None)
  | VGateway c n d p host port user secret r k g =>
      Some (put_gateway c n d r k logo (blank_site (sq_newId rq) c n GATEWAY (sq_now rq)),
            Some (vault_row (sq_now rq) (sq_newId rq) p host port user (encrypt (secret ?? "")) PASSWORD g))
  | VError _ => None
  end.

Definition insert_site (row : SiteRow) (cred : option VaultCredential) (db : SitesDb) : SitesDb :=
  let db1 := with_sites db (sd_sites db ++ [row]) in
  match cred with Some c => with_vault db1 (sd_vault db1 ++ [c]) | None => db1 end.

Definition v_connector (v : SiteValidation) : string :=
  match v with
  | VTransparent c _ _ _ _ _ _ _ _ | VGateway c _ _ _ _ _ _ _ _ _ _ | VIsolated c _ _ _ _ _ _ _ _ => c
  | VError _ => ""
  end.
Definition v_hostname (v : SiteValidation) : option string :=
  match v with VTransparent _ _ h _ _ _ _ _ _ => Some h | _ => None end.

(** One statement's failure as the route answers it. *)
Definition write_failed {A} (e : write_error) (db : SitesDb) : SitesDb * response A :=
  match e with Taken => (db, Fail 409 "hostname_taken") | Broken => (db, Fail 500 "error") end.

(** [between]: what other requests committed before the insert. *)
Definition sitesPost (between : SitesDb → SitesDb) (rq : SiteReq) (body : json) (db : SitesDb)
    : SitesDb * response string :=
  as_site_admin rq db (λ me,
    let v := validateSiteInput parse_url body (site_opts rq true) in
    match v with
    | VError e => (db, Fail (error_status e) e)
    | _ =>
        match assertWithinLimit (sq_envelope rq) maxSites (count_where (λ _, true) (sd_sites db)) with
        | inl _ => (db, Fail 409 "limit_reached")
        | inr _ =>
            if negb (has_connector db (v_connector v)) then (db, Fail 400 "connector_not_found") else
            match parseLogoUpload from_base64 (obj_get body "logo") (obj_get body "logoType") with
            | LError e => (db, Fail 400 e)
            | logo =>
                if crossTenantHostnameTaken (sq_multi rq) (sq_owner rq) (sq_acting rq) (v_hostname v)
                then (db, Fail 409 "hostname_taken") else
                match new_site rq logo v with
                | None => (db, Fail 500 "error")
                | Some (row, cred) =>
                    let db1 := between db in
                    match insert_error db1 row with
                    | Some e => write_failed e db1
                    | None => (site_audit rq me "resource.create" (st_id row)
                                 ("Created resource " +:+ quoted (st_name row)) (insert_site row cred db1),
                               Reply 200 (st_id row))
                    end
                end
            end
        end
    end).

(** [upsert] of a site's credential. *)
Definition upsert_vault (id : string) (create : VaultCredential) (update : VaultCredential → VaultCredential)
    (db : SitesDb) : SitesDb :=
  if existsb (λ c, vc_siteId c =s id) (sd_vault db)
  then with_vault db (update_where (λ c, vc_siteId c =s id) update (sd_vault db))
  else with_vault db (sd_vault db ++ [create]).
Definition edit_vault (now : Z) (protocol : VaultProtocol) (host : string) (port : Z) (user : string) (secret : option string)
    (g : GuacParams) (c : VaultCredential) : VaultCredential :=
  {| vc_siteId := vc_siteId c; vc_protocol := protocol; vc_targetHost := host; vc_targetPort := port;
     vc_username := user; vc_secret := match secret with Some s => encrypt s | None => vc_secret c end;
     vc_secretKind := vc_secretKind c; vc_guacParams := json_store (guac_json g); vc_updatedAt := now |}.

Definition apply_update (rq : SiteReq) (id : string) (existing : SiteRow) (logo : LogoUpdate) (v : SiteValidation)
    (between : SitesDb → SitesDb) (db : SitesDb) : SitesDb * response string :=
  match v with
  | VTransparent c n h cd u d i clip r =>
      if crossTenantHostnameTaken (sq_multi rq) (sq_owner rq) (sq_acting rq) (Some h) then (db, Fail 409 "hostname_taken") else
      let db1 := between db in
      match update_error db1 id c (Some h) with
      | Some e => write_failed e db1
      | None => (set_site id (put_transparent c n h cd u d i clip r logo (st_hostname existing)) db1, Reply 200 n)
      end
  | VIsolated c n d u i r clip w ft =>
      let db1 := between db in
      match update_error db1 id c None with
      | Some e => write_failed e db1
      | None => (drop_vault id (set_site id (put_isolated c n d u i r clip w ft logo) db1), Reply 200 n)
      end
  | VGateway c n d p host port user secret r k g =>
      if negb (existsb (λ x, vc_siteId x =s id) (sd_vault db)) && bool_decide (secret = None)
      then (db, Fail 400 "remote_desktop_fields_required") else
      let db1 := between db in
      match update_error db1 id c None with
      | Some e => write_failed e db1
      | None => (upsert_vault id (vault_row (sq_now rq) id p host port user (encrypt (secret ?? "")) PASSWORD g)
                   (edit_vault (sq_now rq) p host port user secret g) (set_site id (put_gateway c n d r k logo) db1), Reply 200 n)
      end
  | VError e => (db, Fail (error_status e) e)
  end.

Definition sitePatch (between : SitesDb → SitesDb) (rq : SiteReq) (id : string) (body : json) (db : SitesDb)
    : SitesDb * response unit :=
  as_site_admin rq db (λ me,
    match validateSiteInput parse_url body (site_opts rq false) with
    | VError e => (db, Fail (error_status e) e)
    | v =>
        if negb (has_connector db (v_connector v)) then (db, Fail 400 "connector_not_found") else
        match find_row (λ s, st_id s =s id) (sd_sites db) with
        | None => (db, Fail 404 "not_found")
        | Some existing =>
            match parseLogoUpload from_base64 (obj_get body "logo") (obj_get body "logoType") with
            | LError e => (db, Fail 400 e)
            | logo =>
                match apply_update rq id existing logo v between db with
                | (db1, Reply _ name) =>
                    (site_audit rq me "resource.update" id ("Updated resource " +:+ quoted name) db1, Reply 200 tt)
                | (db1, Fail s e) => (db1, Fail s e)
                end
            end
        end
    end).

(** [db.site.delete]: the grants, mappings and the credential go with the row. *)
Definition delete_site (id : string) (db : SitesDb) : SitesDb :=
  {| sd_sites := delete_where (λ s, st_id s =s id) (sd_sites db);
     sd_vault := delete_where (λ c, vc_siteId c =s id) (sd_vault db);
     sd_grants := delete_where (λ g, g_siteId g =s id) (sd_grants db);
     sd_mappings := delete_where (λ m, bool_decide (gm_siteId m = Some id)) (sd_mappings db);
     sd_connectors := sd_connectors db; sd_notices := sd_notices db; sd_log := sd_log db |}.
Definition siteDelete (between : SitesDb → SitesDb) (rq : SiteReq) (id : string) (db : SitesDb) : SitesDb * response unit :=
  as_site_admin rq db (λ me,
    if negb (existsb (λ s, st_id s =s id) (sd_sites db)) then (db, Fail 404 "not_found") else
    let db1 := between db in
    if negb (existsb (λ s, st_id s =s id) (sd_sites db1)) then (db1, Fail 500 "error") else
    (site_audit rq me "resource.delete" id ("Deleted resource " +:+ id) (delete_site id db1), Reply 200 tt)).

(** The console's list, newest first. *)
Definition sitesGet (rq : SiteReq) (db : SitesDb) : response (list SiteRow) :=
  match sq_user rq with
  | None => Fail 401 "unauthorized"
  | Some me => if negb (can (u_role me) read_console) then Fail 403 "forbidden"
               else Reply 200 (order_by (λ s, - st_createdAt s) (sd_sites db))
  end.

(** *** Credentials *)

(** [Number(v)] *)
Definition js_Number (v : json) : jsnum :=
  match v with
  | JUndefined | JObj _ => NNaN
  | JNull => NInt 0
  | JBool b => NInt (if b then 1 else 0)
  | JNum n => n
  | JStr s => Number s
  | JArr _ => Number (js_String frac_text v)
  end.
Definition kind_name (k : SecretKind) : string := match k with PASSWORD => "PASSWORD" | KEY => "KEY" end.
Definition KINDS : list SecretKind := [PASSWORD; KEY].
Definition read_kind (s : string) : option SecretKind := find_row (λ k, kind_name k =s s) KINDS.

(** [setVaultCredential]: [None] when the site does not exist (foreign key). *)
Definition setVaultCredential (now : Z) (siteId : string) (protocol : VaultProtocol) (host : string) (port : Z) (user secret : string)
    (kind : SecretKind) (g : GuacParams) (db : SitesDb) : option SitesDb :=
  let row := vault_row now siteId protocol (trim host) port (trim user) (encrypt secret) kind (parseGuacParams (guac_json g)) in
  if negb (existsb (λ s, st_id s =s siteId) (sd_sites db)) then None else
  Some (upsert_vault siteId row (λ _, row) db).
Definition clearVaultCredential := drop_vault.

Definition vaultPut (rq : SiteReq) (id : string) (b : json) (db : SitesDb) : SitesDb * response unit :=
  as_site_admin rq db (λ me,
    if negb (envDefault (sq_env rq) vault) || negb (capabilityAllowed (sq_env rq) (sq_envelope rq) vault)
    then (db, Fail 403 "vault_disabled") else
    let kind := obj_get b "secretKind" in
    match read_protocol (js_String frac_text (obj_get b "protocol")),
          read_kind (if is_nullish kind then "PASSWORD" else js_String frac_text kind) with
    | Some protocol, Some secretKind =>
        let host := str (obj_get b "targetHost") in
        let user := str (obj_get b "username") in
        let secret := str_or_empty (obj_get b "secret") in
        match js_Number (obj_get b "targetPort") with
        | NInt port =>
            if negb (truthy host) || (port <? 1) || (65535 <? port) || negb (truthy user) || negb (truthy secret)
            then (db, Fail 400 "invalid_fields") else
            match setVaultCredential (sq_now rq) id protocol host port user secret secretKind (parseGuacParams (obj_get b "guacParams")) db with
            | Some db1 => (site_audit rq me "resource.vault_update" id ("Updated vault credential for resource " +:+ id) db1,
                           Reply 200 tt)
            | None => (db, Fail 500 "error")
            end
        | _ => (db, Fail 400 "invalid_fields")
        end
    | _, _ => (db, Fail 400 "invalid_protocol")
    end).
Definition vaultDelete (rq : SiteReq) (id : string) (db : SitesDb) : SitesDb * response unit :=
  as_site_admin rq db (λ me,
    (site_audit rq me "resource.vault_update" id ("Cleared vault credential for resource " +:+ id)
       (clearVaultCredential id db), Reply 200 tt)).

(** *** Custom domains *)

Inductive VerifyStatus := VOk | VMissing | VMismatch.
#[global] Instance VerifyStatus_eq_dec : EqDecision VerifyStatus.
Proof. solve_decision. Defined.
Definition classifyVerify (expectedIp : string) (resolvedIps : list string) : VerifyStatus :=
  match resolvedIps with [] => VMissing | _ => if bool_decide (expectedIp ∈ resolvedIps) then VOk else VMismatch end.

(** The A records of a host; a failed lookup answers none. *)
Context (resolve4 : string → list string).
Definition expectedServerIp (MANAGER_PUBLIC_URL : option string) : option string :=
  match some_truthy MANAGER_PUBLIC_URL with
  | Some raw => match parse_url raw with Some u => head (resolve4 (u_hostname u)) | None => None end
  | None => None
  end.

(** [None]: the server's own address is unknown. *)
Definition verifyDomainPost (between : SitesDb → SitesDb) (rq : SiteReq) (id : string) (db : SitesDb)
    : SitesDb * response (option (VerifyStatus * string * option string)) :=
  as_site_admin rq db (λ me,
    match find_row (λ s, st_id s =s id) (sd_sites db) with
    | None => (db, Fail 400 "not_custom_domain")
    | Some site =>
        match some_truthy (st_hostname site) with
        | None => (db, Fail 400 "not_custom_domain")
        | Some host =>
            if negb (bool_decide (st_accessMode site = TRANSPARENT)) || negb (st_customDomain site)
            then (db, Fail 400 "not_custom_domain") else
            match some_truthy (expectedServerIp (sq_env rq "MANAGER_PUBLIC_URL")) with
            | None => (db, Reply 200 None)
            | Some expected =>
                let resolved := resolve4 host in
                let status := classifyVerify expected resolved in
                let db1 := between db in
                if negb (bool_decide (status = VOk)) then (db1, Reply 200 (Some (status, expected, head resolved))) else
                if negb (existsb (λ s, st_id s =s id) (sd_sites db1)) then (db1, Fail 500 "error") else
                (set_site id (set_verified (sq_now rq)) db1, Reply 200 (Some (status, expected, head resolved)))
            end
        end
    end).

(** *** Health *)

Definition classifyTransition (oldOk : option bool) (newOk : bool) : option NotificationType :=
  if negb newOk && negb (bool_decide (oldOk = Some false)) then Some site_down else
  if newOk && bool_decide (oldOk = Some false) then Some site_recovered else None.

(** [notifyTransition]: the row; the webhook, the push and the mail are output. *)
Definition notify (n : Notification) (db : SitesDb) : SitesDb :=
  {| sd_sites := sd_sites db; sd_vault := sd_vault db; sd_grants := sd_grants db; sd_mappings := sd_mappings db;
     sd_connectors := sd_connectors db; sd_notices := sd_notices db ++ [n]; sd_log := sd_log db |}.
(** A failure carries its reason, a recovery none. *)
Definition notice_of (site : SiteRow) (r : ProbeResult) : option Notification :=
  match classifyTransition (st_probeOk site) (probeOk r) with
  | Some site_down => Some {| nt_type := site_down; nt_siteId := st_id site; nt_siteName := st_name site;
                              nt_detail := Some (probeDetail r) |}
  | Some site_recovered => Some {| nt_type := site_recovered; nt_siteId := st_id site; nt_siteName := st_name site;
                                   nt_detail := None |}
  | None => None
  end.
Definition notify_all (ns : list Notification) (db : SitesDb) : SitesDb := foldl (λ d n, notify n d) db ns.

Definition colon_in (s : string) : bool := includes_char colon s.
Definition gatewayProbeUrl (targetHost : string) (targetPort : Z) : string :=
  let host := if colon_in targetHost then "[" +:+ targetHost +:+ "]" else targetHost in
  "http://" +:+ host +:+ ":" +:+ dec targetPort.

(** A TCP connect through a connector: the latency, or why it failed. *)
Context (probeConnector : string → string → string + Z).
Definition probe_url (connectorId url : string) : ProbeResult :=
  match probeConnector connectorId url with
  | inl e => {| probeOk := false; probeDetail := e; probeLatencyMs := None |}
  | inr ms => {| probeOk := true; probeDetail := "reachable"; probeLatencyMs := Some ms |}
  end.

Definition vault_of (id : string) (db : SitesDb) : option VaultCredential := find_row (λ c, vc_siteId c =s id) (sd_vault db).

(** The probes of one pass: sites with an address, then remote desktops. *)
Definition to_probe (db : SitesDb) : list (SiteRow * ProbeResult) :=
  omap (λ s, match some_truthy (st_upstreamUrl s) with
             | Some u => Some (s, probe_url (st_connectorId s) u)
             | None => None
             end) (sd_sites db) ++
  omap (λ s, match vault_of (st_id s) db with
             | Some c => Some (s, probe_url (st_connectorId s) (gatewayProbeUrl (vc_targetHost c) (vc_targetPort c)))
             | None => None
             end) (List.filter (λ s, bool_decide (st_accessMode s = GATEWAY)) (sd_sites db)).

(** The writes of one pass, in order; [None]: a row is gone and the statement throws. *)
Fixpoint write_probes (now : Z) (os : list (SiteRow * ProbeResult)) (db : SitesDb) : SitesDb * bool :=
  match os with
  | [] => (db, true)
  | (s, r) :: os' =>
      if existsb (λ x, st_id x =s st_id s) (sd_sites db)
      then write_probes now os' (set_site (st_id s) (set_probe now r) db)
      else (db, false)
  end.

Record HealthReport := { hr_checked : Z; hr_reachable : Z; hr_unreachable : Z; hr_skipped : Z }.
(** One tenant's pass: read, probe ([between] is what happens meanwhile), write
    in one transaction in cloud, then notify.  [None]: the pass threw. *)
Definition siteHealthPass (multi : bool) (between : SitesDb → SitesDb) (now : Z) (db : SitesDb)
    : SitesDb * option HealthReport :=
  let os := to_probe db in
  let db1 := between db in
  let '(db2, ok) := write_probes now os db1 in
  if negb ok then (if multi then db1 else db2, None) else
  (notify_all (omap (λ o, notice_of o.1 o.2) os) db2,
   Some {| hr_checked := Z.of_nat (length os); hr_reachable := count_where (λ o, probeOk o.2) os;
           hr_unreachable := count_where (λ o, negb (probeOk o.2)) os;
           hr_skipped := Z.of_nat (length (sd_sites db)) - Z.of_nat (length os) |}).

(** A manual test refreshes the health and notifies as the pass does. *)
Definition record_probe (now : Z) (site : SiteRow) (r : ProbeResult) (db : SitesDb) : SitesDb :=
  set_site (st_id site) (set_probe now r)
    (match notice_of site r with Some n => notify n db | None => db end).

(** The manual test of one site: the answer of a request through the connector
    ([reply]) and the refreshed health. *)
Definition siteTestPost (reply : string) (rq : SiteReq) (id : string) (db : SitesDb) : SitesDb * response string :=
  as_site_admin rq db (λ me,
    match find_row (λ s, st_id s =s id) (sd_sites db) with
    | None => (db, Fail 404 "not_found")
    | Some site =>
        if match find_row (λ c, cn_id c =s st_connectorId site) (sd_connectors db) with
           | Some c => bool_decide (cn_status c = CRevoked)
           | None => false
           end
        then (db, Reply 200 "connector_revoked"%string) else
        if bool_decide (st_accessMode site = GATEWAY) then
          match vault_of id db with
          | None => (db, Reply 200 "no_upstream_url"%string)
          | Some c =>
              let r := probe_url (st_connectorId site) (gatewayProbeUrl (vc_targetHost c) (vc_targetPort c)) in
              (record_probe (sq_now rq) site r db, Reply 200 (if probeOk r then "ok"%string else probeDetail r))
          end
        else
          match some_truthy (st_upstreamUrl site) with
          | None => (db, Reply 200 "no_upstream_url"%string)
          | Some u => (record_probe (sq_now rq) site (probe_url (st_connectorId site) u) db, Reply 200 reply)
          end
    end).
End site_routes.

(** ** The data plane's questions *)

(** What one tenant's scope shows. *)
Record Workspace := {
  ws_users : list User;
  ws_db : SitesDb;
  ws_settings : PlatformSettings;
  ws_guacDefaults : json;
  ws_recordingAllowed : bool;
}.
Record PlaneEnv := {
  pl_secret : option string;
  pl_multi : bool;
  pl_byHostname : string → option string;
  pl_bySite : string → option string;
  pl_env : string → option string;
  pl_now : Z;
}.

Definition recordingEnabled (env : string → option string) : bool := flagOn (env "RECORDING_ENABLED") true.
Definition isolationEnabled (env : string → option string) : bool := flagOn (env "ISOLATED_ENABLED") true.
Definition site_recorded (e : PlaneEnv) (w : Workspace) (recordSessions : bool) : bool :=
  effectiveSiteRecording (recordingEnabled (pl_env e)) (resolvedRecordingMode (pl_env e) (ws_recordingAllowed w) (ws_settings w))
    recordSessions.

Record HostAnswer := {
  ha_siteId : string;
  ha_connectorId : string;
  ha_tenantId : string;
  ha_upstreamUrl : option string;
  ha_insecureSkipVerify : bool;
  ha_recordSessions : bool;
  ha_clipboardMode : string;
  ha_accessMode : AccessMode;
  ha_watermark : bool;
  ha_consentRequired : bool;
}.

Definition by_host_handler (e : PlaneEnv) (header : option string) (body : json) (w : Workspace) (tid : string)
    : response HostAnswer :=
  if negb (timingSafeEqualStr header (pl_secret e)) then Fail 403 "forbidden" else
  let hostname := trim (toLowerCase (str_or_empty (obj_get body "host"))) in
  if negb (truthy hostname) then Fail 404 "no_site" else
  match find_row (λ s, bool_decide (st_hostname s = Some hostname)) (sd_sites (ws_db w)) with
  | None => Fail 404 "no_site"
  | Some site =>
      let rec := site_recorded e w (st_recordSessions site) in
      Reply 200
        {| ha_siteId := st_id site; ha_connectorId := st_connectorId site; ha_tenantId := tid;
           ha_upstreamUrl := st_upstreamUrl site; ha_insecureSkipVerify := st_insecureSkipVerify site;
           ha_recordSessions := rec;
           ha_clipboardMode := if bool_decide (st_accessMode site = GATEWAY) then "allow"%string
                               else st_clipboardMode site ?? resolvedClipboardDefault (ws_settings w);
           ha_accessMode := st_accessMode site;
           ha_watermark := bool_decide (st_accessMode site = TRANSPARENT) &&
                           (st_watermark site ?? resolvedWatermarkDefault (pl_env e) (ws_settings w));
           ha_consentRequired := if rec then resolvedRecordingConsentRequired (pl_env e) (ws_settings w) else false |}
  end.
Definition byHostPost (e : PlaneEnv) (header : option string) (body : json) (ws : string → Workspace) : response HostAnswer :=
  let host := str_or_empty (obj_get body "host") in
  requireDataplaneSecret (pl_secret e) header
    (withTenantFrom (pl_multi e) (if truthy host then pl_byHostname e (trim (toLowerCase host)) else None)
       (λ tid, by_host_handler e header body (ws tid) tid)).

(** The certificate question: the status alone. *)
Definition tlsCheckGet (e : PlaneEnv) (domain : option string) (ws : string → Workspace) : response unit :=
  let d := some_truthy ((λ x, trim (toLowerCase x)) <$> domain) in
  withTenantFrom (pl_multi e) (d ≫= pl_byHostname e) (λ tid,
    match d with
    | None => Fail 403 ""
    | Some h => if existsb (λ s, bool_decide (st_hostname s = Some h)) (sd_sites (ws_db (ws tid)))
                then Reply 200 tt else Fail 403 ""
    end).

Inductive Descriptor :=
  | Kasm (navigateUrl tenantId kasmAddr kasmControlAddr connectorId clipboardMode : string) (record : bool)
      (watermarkText fileTransferMode : string) (insecureSkipVerify : bool)
  | Guac (tenantId protocol : string) (params : list (string * string)) (targetHost : string) (targetPort : Z)
      (username secret : string) (secretKind : SecretKind) (guacdAddress connectorId : string)
      (record keystrokeLogging : bool).

Section descriptor.
Context `{Intl}.
Context (decrypt : string → option string).

Definition addr_or (env : option string) (default : string) : string := trim (env ?? default).

(** [getVaultCredential]: [Some None] is a decryption that throws. *)
Definition getVaultCredential (siteId : string) (db : SitesDb) : option (option (VaultCredential * string)) :=
  match vault_of siteId db with
  | None => None
  | Some c => Some (match decrypt (vc_secret c) with Some s => Some (c, s) | None => None end)
  end.

Definition watermark_text (w : Workspace) (userId : string) : string :=
  match find_row (λ u, u_id u =s userId) (ws_users w) with
  | Some u => if truthy (u_email u) then u_email u +:+ "  %Y-%m-%d %H:%M UTC" else ""
  | None => ""
  end.

Definition isolated_descriptor (e : PlaneEnv) (w : Workspace) (tid userId clipboardMode : string) (record : bool)
    (site : SiteRow) : response Descriptor :=
  if negb (isolationEnabled (pl_env e)) then Fail 404 "isolation_disabled" else
  let on := st_watermark site ?? resolvedWatermarkDefault (pl_env e) (ws_settings w) in
  Reply 200 (Kasm (st_upstreamUrl site ?? "") tid (addr_or (pl_env e "ISOLATED_KASM_ADDR") "captivo-kasm:6901")
    (addr_or (pl_env e "ISOLATED_KASM_CONTROL_ADDR") "captivo-kasm:7900") (st_connectorId site) clipboardMode record
    (if on then watermark_text w userId else "") (st_fileTransferMode site) (st_insecureSkipVerify site)).

Definition guac_descriptor (e : PlaneEnv) (w : Workspace) (tid clipboardMode : string) (record : bool) (site : SiteRow)
    : response Descriptor :=
  match getVaultCredential (st_id site) (ws_db w) with
  | None => Fail 404 "no_credential"
  | Some None => Fail 500 "error"
  | Some (Some (cred, secret)) =>
      let resolved := resolveGuacParams (parseGuacParams (vc_guacParams cred)) (parseGuacParams (ws_guacDefaults w)) in
      Reply 200 (Guac tid (toLowerCase (protocol_name (vc_protocol cred)))
        (toGuacArgs resolved clipboardMode (vc_protocol cred) (Some (vc_username cred))) (vc_targetHost cred)
        (vc_targetPort cred) (vc_username cred) secret (vc_secretKind cred)
        (addr_or (pl_env e "GUACD_ADDR") "captivo-guacd:4822") (st_connectorId site) record
        (effectiveKeystrokeLogging (resolvedKeystrokeLoggingMode (ws_settings w)) (recordingEnabled (pl_env e))
           (st_recordSessions site) (st_keystrokeLogging site)))
  end.

Definition descriptor_handler (e : PlaneEnv) (header : option string) (body : json) (w : Workspace) (tid : string)
    : response Descriptor :=
  if negb (timingSafeEqualStr header (pl_secret e)) then Fail 403 "forbidden" else
  let userId := str_or_empty (obj_get body "userId") in
  let siteId := str_or_empty (obj_get body "siteId") in
  if negb (truthy userId) || negb (truthy siteId) then Fail 400 "bad_request" else
  match find_row (λ s, st_id s =s siteId) (sd_sites (ws_db w)) with
  | None => Fail 404 "not_gateway"
  | Some site =>
      if bool_decide (st_accessMode site = TRANSPARENT) then Fail 404 "not_gateway" else
      if negb (allow (evaluateAccess (ws_users w) (sd_grants (ws_db w)) userId siteId (pl_now e))) then Fail 403 "forbidden" else
      let clipboardMode := st_clipboardMode site ?? resolvedClipboardDefault (ws_settings w) in
      let record := site_recorded e w (st_recordSessions site) in
      if bool_decide (st_accessMode site = ISOLATED) then isolated_descriptor e w tid userId clipboardMode record site
      else guac_descriptor e w tid clipboardMode record site
  end.
Definition descriptorPost (e : PlaneEnv) (header : option string) (body : json) (ws : string → Workspace) : response Descriptor :=
  requireDataplaneSecret (pl_secret e) header
    (withTenantFrom (pl_multi e) (pl_bySite e (str_or_empty (obj_get body "siteId")))
       (λ tid, descriptor_handler e header body (ws tid) tid)).
End descriptor.

(** ** Theorems: well-formed sites *)

Section site_theorems.
Context (parse_url : string → option Url) (from_base64 : string → string).
Context (encrypt : string → string) (decrypt : string → option string).
Context (frac_text : Z → string) (digest : string → string) (json_store : json → json).
Context (resolve4 : string → list string) (probeConnector : string → string → string + Z).
Implicit Types (rq : SiteReq) (db : SitesDb) (s : SiteRow) (between : SitesDb → SitesDb).

(** What each access mode needs to work. *)
Definition shape_ok s : Prop :=
  (∀ c, st_clipboardMode s = Some c → c ∈ CLIP) ∧ st_fileTransferMode s ∈ FT ∧
  match st_accessMode s with
  | TRANSPARENT => ∃ h u, st_hostname s = Some h ∧ truthy h = true ∧ st_upstreamUrl s = Some u ∧ is_http parse_url u = true
  | ISOLATED => st_hostname s = None ∧ ∃ u, st_upstreamUrl s = Some u ∧ is_http parse_url u = true
  | GATEWAY => st_hostname s = None ∧ st_upstreamUrl s = None
  end.

Record wf_sites db : Prop := {
  ws_ids : NoDup (st_id <$> sd_sites db);
  ws_shape : ∀ s, s ∈ sd_sites db → shape_ok s;
  ws_hosts : ∀ s1 s2 h, s1 ∈ sd_sites db → s2 ∈ sd_sites db → st_hostname s1 = Some h → st_hostname s2 = Some h →
    st_id s1 = st_id s2;
  ws_conn : ∀ s, s ∈ sd_sites db → st_connectorId s ∈ cn_id <$> sd_connectors db;
  ws_vault_key : NoDup (vc_siteId <$> sd_vault db);
  ws_vault_site : ∀ c, c ∈ sd_vault db → vc_siteId c ∈ st_id <$> sd_sites db;
  ws_vault_port : ∀ c, c ∈ sd_vault db → 1 ≤ vc_targetPort c ≤ 65535;
}.

(** *** Validated forms *)

Lemma clip_ok clip x : (if bool_decide (clip ∈ CLIP) then Some clip else None) = Some x → x ∈ CLIP.
Proof. by case_bool_decide; intros [= <-]. Qed.
Lemma ft_ok ft : (if bool_decide (ft ∈ FT) then ft else "none"%string) ∈ FT.
Proof. case_bool_decide; [done|]. apply (bool_decide_unpack _). by vm_compute. Qed.
Lemma none_ft : "none"%string ∈ FT.
Proof. apply (bool_decide_unpack _). by vm_compute. Qed.

Lemma truthy_app a b : truthy a = true → truthy (a +:+ b) = true.
Proof. unfold truthy. by destruct a. Qed.

Lemma read_hostname_truthy cd suffix raw h : read_hostname cd suffix raw = Some h → truthy h = true.
Proof.
  unfold read_hostname. destruct (truthy raw) eqn:Ht; [cbn [negb]|done]. destruct cd.
  - destruct (is_fqdn raw); [|done]. by intros [= <-].
  - destruct (some_truthy suffix) as [x|]; [|by intros [= <-]]. destruct (slug_re raw); [|done].
    intros [= <-]. by apply truthy_app.
Qed.

Lemma read_port_bounds v z : read_port v = Some z → 1 ≤ z ≤ 65535.
Proof.
  unfold read_port. destruct (match v with JNum n => n | _ => _ end); try done.
  destruct (_ || _) eqn:E; [done|]. intros [= <-]. apply orb_false_iff in E as [? ?]. lia.
Qed.

(** What a validated form promises, by mode. *)
Definition valid_form (o : SiteOpts) (v : SiteValidation) : Prop :=
  match v with
  | VTransparent _ _ h _ u _ _ clip r =>
      truthy h = true ∧ is_http parse_url u = true ∧ (∀ c, clip = Some c → c ∈ CLIP) ∧
      (r = true → opt_recordingEnabled o = true)
  | VIsolated _ _ _ u _ r clip _ ft =>
      is_http parse_url u = true ∧ (∀ c, clip = Some c → c ∈ CLIP) ∧ ft ∈ FT ∧ opt_isolationEnabled o = true ∧
      (r = true → opt_recordingEnabled o = true)
  | VGateway _ _ _ _ host port user secret r k g =>
      truthy host = true ∧ truthy user = true ∧ 1 ≤ port ≤ 65535 ∧ wf_guac g ∧ nativeGateway o = true ∧
      (r = true → opt_recordingEnabled o = true) ∧ (k = true → r = true) ∧ (requireSecret o = true → secret ≠ None)
  | VError _ => True
  end.

Lemma validate_sound body o : valid_form o (validateSiteInput parse_url body o).
Proof.
  unfold validateSiteInput. destruct (_ || _); [done|].
  destruct (json_str_is _ "GATEWAY").
  { unfold validate_gateway. destruct (nativeGateway o) eqn:Hg; [cbn [negb]|done].
    destruct (read_protocol _) as [p|]; [|done]. destruct (_ || _) eqn:Hhu; [done|].
    apply orb_false_iff in Hhu as [Hh Hu]. apply negb_false_iff in Hh, Hu.
    destruct (read_port _) as [port|] eqn:Hp; [|done]. destruct (_ && _) eqn:Hs; [done|].
    cbn. split_and!; try done; [by eapply read_port_bounds|by eapply read_port_bounds|apply parse_wf| | |].
    - by intros [? _]%andb_true_iff.
    - by intros [? _]%andb_true_iff.
    - intros Hr. rewrite Hr in Hs. cbn in Hs. apply negb_false_iff in Hs. unfold or_null_str. by rewrite Hs. }
  destruct (json_str_is _ "ISOLATED").
  { unfold validate_isolated. destruct (opt_isolationEnabled o) eqn:Hi; [cbn [negb]|done].
    destruct (negb _); [done|]. destruct (is_http _ _) eqn:Hh; [cbn [negb]|done]. cbn.
    split_and!; try done; [by intros c ?%clip_ok|apply ft_ok|by intros [? _]%andb_true_iff]. }
  unfold validate_transparent. destruct (read_hostname _ _ _) as [h|] eqn:Hhost; [|done].
  destruct (negb (truthy _)); [done|]. destruct (is_http _ _) eqn:Hh; [cbn [negb]|done]. cbn.
  split_and!; [by eapply read_hostname_truthy|done|by intros c ?%clip_ok|by intros [? _]%andb_true_iff].
Qed.

(** *** Writes that keep the tables well formed *)

Lemma hostname_clash_false db id h s :
  hostname_clash db id (Some h) = false → s ∈ sd_sites db → st_hostname s = Some h → st_id s = id.
Proof.
  cbn. intros Hc Hs Hh. destruct (decide (st_id s = id)) as [|Hne]; [done|]. exfalso.
  apply not_true_iff_false in Hc. apply Hc. apply existsb_exists. exists s. split; [by apply list_elem_of_In|].
  apply andb_true_iff. split; [by rewrite bool_decide_eq_false_2|by apply bool_decide_eq_true_2].
Qed.

Lemma has_connector_elem db c : has_connector db c = true → c ∈ cn_id <$> sd_connectors db.
Proof.
  intros (x & Hx%list_elem_of_In & Hc)%existsb_exists. apply bool_decide_eq_true_1 in Hc as <-.
  by apply (list_elem_of_fmap_2 cn_id).
Qed.

Lemma site_exists db id : existsb (λ s, st_id s =s id) (sd_sites db) = true ↔ id ∈ st_id <$> sd_sites db.
Proof.
  rewrite existsb_exists, list_elem_of_fmap. split.
  - intros (s & Hs%list_elem_of_In & Hid%bool_decide_eq_true_1). eauto.
  - intros (s & -> & Hs%list_elem_of_In). exists s. split; [done|]. by apply bool_decide_eq_true_2.
Qed.

(** Columns outside the well-formedness do not matter. *)
Lemma wf_sites_log db l : wf_sites db → wf_sites (with_log db l).
Proof. intros [? ? ? ? ? ? ?]. by split. Qed.

Lemma set_site_wf id f c h db :
  (∀ s, st_id (f s) = st_id s ∧ st_connectorId (f s) = c ∧ st_hostname (f s) = h) →
  (∀ s, shape_ok s → shape_ok (f s)) →
  hostname_clash db id h = false → has_connector db c = true → wf_sites db → wf_sites (set_site id f db).
Proof.
  intros Hf Hsh Hcl Hc [Wi Ws Wh Wc Wk Wv Wp]. pose proof (has_connector_elem _ _ Hc) as Hin.
  assert (st_id <$> sd_sites (set_site id f db) = st_id <$> sd_sites db) as Hids.
  { apply update_where_column. intros s. apply Hf. }
  split; cbn [set_site with_sites sd_sites sd_vault sd_connectors] in *; rewrite ?Hids; try done.
  - intros s (x & Hx & ->)%elem_of_update_where. destruct (st_id x =s id); auto.
  - intros s1 s2 hh (x1 & Hx1 & ->)%elem_of_update_where (x2 & Hx2 & ->)%elem_of_update_where H1 H2.
    destruct (Hf x1) as (I1 & _ & N1), (Hf x2) as (I2 & _ & N2). revert H1 H2.
    destruct (bool_decide_reflect (st_id x1 = id)) as [E1|E1], (bool_decide_reflect (st_id x2 = id)) as [E2|E2];
      intros H1 H2; [congruence|..|by eapply Wh].
    + rewrite N1 in H1. rewrite H1 in Hcl. symmetry. rewrite I1, E1. by eapply hostname_clash_false.
    + rewrite N2 in H2. rewrite H2 in Hcl. rewrite I2, E2. by eapply hostname_clash_false.
  - intros s (x & Hx & ->)%elem_of_update_where. destruct (Hf x) as (_ & Ex & _).
    destruct (st_id x =s id); [by rewrite Ex|by apply Wc].
Qed.

(** An update of columns that are not part of a site's shape. *)
Lemma touch_site_wf id f db :
  (∀ s, st_id (f s) = st_id s ∧ st_connectorId (f s) = st_connectorId s ∧ st_hostname (f s) = st_hostname s) →
  (∀ s, shape_ok s → shape_ok (f s)) → wf_sites db → wf_sites (set_site id f db).
Proof.
  intros Hf Hsh [Wi Ws Wh Wc Wk Wv Wp].
  assert (st_id <$> sd_sites (set_site id f db) = st_id <$> sd_sites db) as Hids.
  { apply update_where_column. intros s. apply Hf. }
  split; cbn [set_site with_sites sd_sites sd_vault sd_connectors] in *; rewrite ?Hids; try done.
  - intros s (x & Hx & ->)%elem_of_update_where. destruct (st_id x =s id); auto.
  - intros s1 s2 hh (x1 & Hx1 & ->)%elem_of_update_where (x2 & Hx2 & ->)%elem_of_update_where H1 H2.
    destruct (Hf x1) as (I1 & _ & N1), (Hf x2) as (I2 & _ & N2).
    assert (st_hostname x1 = Some hh) as K1 by (revert H1; destruct (st_id x1 =s id); congruence).
    assert (st_hostname x2 = Some hh) as K2 by (revert H2; destruct (st_id x2 =s id); congruence).
    pose proof (Wh x1 x2 hh Hx1 Hx2 K1 K2). destruct (st_id x1 =s id), (st_id x2 =s id); congruence.
  - intros s (x & Hx & ->)%elem_of_update_where. destruct (Hf x) as (_ & Ex & _).
    destruct (st_id x =s id); [rewrite Ex|]; by apply Wc.
Qed.

Lemma insert_site_wf db row cred :
  insert_error db row = None → shape_ok row →
  (∀ c, cred = Some c → vc_siteId c = st_id row ∧ 1 ≤ vc_targetPort c ≤ 65535) →
  wf_sites db → wf_sites (insert_site row cred db).
Proof.
  unfold insert_error. destruct (hostname_clash _ _ _) eqn:Hcl; [done|]. destruct (_ || _) eqn:Hb; [done|]. intros _ Hsh Hcred.
  apply orb_false_iff in Hb as [Hc%negb_false_iff Hnew]. pose proof (has_connector_elem _ _ Hc) as Hin.
  assert (st_id row ∉ st_id <$> sd_sites db) as Hid by (rewrite <-site_exists; congruence).
  intros [Wi Ws Wh Wc Wk Wv Wp].
  assert (∀ c, c ∈ sd_vault db → vc_siteId c ≠ st_id row) as Hfresh by (intros c Hc' Heq; apply Hid; rewrite <-Heq; by apply Wv).
  assert (wf_sites (with_sites db (sd_sites db ++ [row]))) as [Vi Vs Vh Vc Vk Vv Vp].
  { split; cbn; try done.
    - by apply NoDup_fmap_snoc.
    - intros s [Hs| ->%list_elem_of_singleton]%elem_of_app; auto.
    - intros s1 s2 h [H1| ->%list_elem_of_singleton]%elem_of_app [H2| ->%list_elem_of_singleton]%elem_of_app E1 E2;
        [by eapply Wh|..|done].
      + rewrite E2 in Hcl. by eapply hostname_clash_false.
      + rewrite E1 in Hcl. symmetry. by eapply hostname_clash_false.
    - intros s [Hs| ->%list_elem_of_singleton]%elem_of_app; auto.
    - intros c Hc'. rewrite fmap_app. apply elem_of_app. left. by apply Wv. }
  unfold insert_site. destruct cred as [c|]; [|by split]. destruct (Hcred c eq_refl) as [Hs Hp]. split; try done; cbn.
  - apply NoDup_fmap_snoc; [done|]. intros (x & Heq & Hx)%list_elem_of_fmap. apply (Hfresh x Hx). congruence.
  - intros x [Hx| ->%list_elem_of_singleton]%elem_of_app; [by apply Vv|]. rewrite Hs, fmap_app. apply elem_of_app. right. by left.
  - intros x [Hx| ->%list_elem_of_singleton]%elem_of_app; auto.
Qed.

Lemma drop_vault_wf id db : wf_sites db → wf_sites (drop_vault id db).
Proof.
  intros [Wi Ws Wh Wc Wk Wv Wp]. split; try done; cbn; [by apply NoDup_filter_fmap|..];
    intros c [Hc _]%elem_of_delete_where; auto.
Qed.

Lemma upsert_vault_wf id create update db :
  id ∈ st_id <$> sd_sites db → vc_siteId create = id → 1 ≤ vc_targetPort create ≤ 65535 →
  (∀ c, vc_siteId c = id → vc_siteId (update c) = id ∧ 1 ≤ vc_targetPort (update c) ≤ 65535) →
  wf_sites db → wf_sites (upsert_vault id create update db).
Proof.
  intros Hid Hc Hp Hu [Wi Ws Wh Wc Wk Wv Wp]. unfold upsert_vault. destruct (existsb _ _) eqn:Hex; split; try done; cbn.
  - assert (vc_siteId <$> update_where (λ c, vc_siteId c =s id) update (sd_vault db) = vc_siteId <$> sd_vault db) as ->; [|done].
    unfold update_where. rewrite <-list_fmap_compose. apply list_fmap_ext. intros i c _. cbn.
    case_bool_decide as E; [|done]. rewrite E. by apply Hu.
  - intros c (x & Hx & ->)%elem_of_update_where. case_bool_decide as E; [|by apply Wv]. destruct (Hu x E) as [-> _]. done.
  - intros c (x & Hx & ->)%elem_of_update_where. case_bool_decide as E; [|by apply Wp]. by apply Hu.
  - apply NoDup_fmap_snoc; [done|]. rewrite Hc. intros (x & Heq & Hx)%list_elem_of_fmap.
    apply not_true_iff_false in Hex. apply Hex. apply existsb_exists. exists x. split; [by apply list_elem_of_In|].
    by apply bool_decide_eq_true_2.
  - intros c [Hx| ->%list_elem_of_singleton]%elem_of_app; [by apply Wv|]. by rewrite Hc.
  - intros c [Hx| ->%list_elem_of_singleton]%elem_of_app; auto.
Qed.

Lemma delete_site_wf id db : wf_sites db → wf_sites (delete_site id db).
Proof.
  intros [Wi Ws Wh Wc Wk Wv Wp]. split; cbn; try by apply NoDup_filter_fmap.
  - intros s [Hs _]%elem_of_delete_where. auto.
  - intros s1 s2 h [H1 _]%elem_of_delete_where [H2 _]%elem_of_delete_where. eauto.
  - intros s [Hs _]%elem_of_delete_where. auto.
  - intros c [Hc Hne]%elem_of_delete_where. apply bool_decide_eq_false in Hne.
    apply Wv in Hc as (s & Hs & Hin)%list_elem_of_fmap. rewrite Hs. apply (list_elem_of_fmap_2 st_id).
    apply elem_of_delete_where. split; [done|]. apply bool_decide_eq_false_2. congruence.
  - intros c [Hc _]%elem_of_delete_where. auto.
Qed.

(** *** Calls *)

Inductive site_call :=
  | SPost (between : SitesDb → SitesDb) (body : json)
  | SPatch (between : SitesDb → SitesDb) (id : string) (body : json)
  | SDelete (between : SitesDb → SitesDb) (id : string)
  | SVaultPut (id : string) (body : json)
  | SVaultDelete (id : string)
  | SVerify (between : SitesDb → SitesDb) (id : string)
  | STest (reply id : string)
  | SHealth (between : SitesDb → SitesDb).

Definition run_site (c : site_call) rq db : SitesDb :=
  match c with
  | SPost b body => (sitesPost parse_url from_base64 encrypt frac_text digest json_store b rq body db).1
  | SPatch b id body => (sitePatch parse_url from_base64 encrypt frac_text digest json_store b rq id body db).1
  | SDelete b id => (siteDelete frac_text digest json_store b rq id db).1
  | SVaultPut id body => (vaultPut encrypt frac_text digest json_store rq id body db).1
  | SVaultDelete id => (vaultDelete frac_text digest json_store rq id db).1
  | SVerify b id => (verifyDomainPost parse_url resolve4 b rq id db).1
  | STest reply id => (siteTestPost probeConnector reply rq id db).1
  | SHealth b => (siteHealthPass probeConnector (sq_multi rq) b (sq_now rq) db).1
  end.
Definition site_env (c : site_call) : SitesDb → SitesDb :=
  match c with SPost b _ | SPatch b _ _ | SDelete b _ | SVerify b _ | SHealth b => b | _ => λ d, d end.

Lemma as_site_admin_cases {A} rq db (h : User → SitesDb * response A) (Q : SitesDb * response A → Prop) :
  (∀ code e, Q (db, Fail code e)) → (∀ me, sq_user rq = Some me → can (u_role me) configure = true → Q (h me)) →
  Q (as_site_admin rq db h).
Proof.
  intros Hf Hok. unfold as_site_admin. destruct (sq_user rq) as [me|]; [|apply Hf].
  destruct (can (u_role me) configure) eqn:Hc; [|apply Hf]. by apply Hok.
Qed.

Lemma as_site_admin_reply {A} rq db (h : User → SitesDb * response A) db' code x :
  as_site_admin rq db h = (db', Reply code x) → ∃ me, h me = (db', Reply code x).
Proof. unfold as_site_admin. destruct (sq_user rq) as [me|]; [|done]. destruct (negb _); [done|eauto]. Qed.

(** The rows a validated form inserts have the shape of their mode. *)
Lemma new_site_shape rq logo o v row cred :
  valid_form o v → new_site encrypt json_store rq logo v = Some (row, cred) →
  shape_ok row ∧ st_hostname row = v_hostname v ∧ st_connectorId row = v_connector v ∧ st_id row = sq_newId rq ∧
  (∀ c, cred = Some c → vc_siteId c = st_id row ∧ 1 ≤ vc_targetPort c ≤ 65535).
Proof.
  destruct v; cbn; intros Hv; intros [= <- <-].
  - destruct Hv as (Hh & Hu & Hc & _). split_and!; try done. split_and!; [done|apply none_ft|]. cbn. eauto 6.
  - destruct Hv as (_ & _ & Hp & _). split_and!; try done; [|by intros ? [= <-]].
    split_and!; [done|apply none_ft|done].
  - destruct Hv as (Hu & Hc & Hft & _). split_and!; try done. split_and!; [done|done|]. cbn. eauto.
Qed.

Lemma put_transparent_shape c n h cd u d i clip r logo ex s :
  truthy h = true → is_http parse_url u = true → (∀ x, clip = Some x → x ∈ CLIP) →
  shape_ok s → shape_ok (put_transparent c n h cd u d i clip r logo ex s).
Proof. intros Hh Hu Hc (_ & Hft & _). split_and!; [done|done|]. cbn. eauto 6. Qed.
Lemma put_isolated_shape c n d u i r clip w ft logo s :
  is_http parse_url u = true → (∀ x, clip = Some x → x ∈ CLIP) → ft ∈ FT →
  shape_ok s → shape_ok (put_isolated c n d u i r clip w ft logo s).
Proof. intros Hu Hc Hft _. split_and!; [done|done|]. cbn. eauto. Qed.
Lemma put_gateway_shape c n d r k logo s : shape_ok s → shape_ok (put_gateway c n d r k logo s).
Proof. intros (Hc & Hft & _). split_and!; done. Qed.

Lemma update_error_None db id c h :
  update_error db id c h = None →
  id ∈ st_id <$> sd_sites db ∧ hostname_clash db id h = false ∧ has_connector db c = true.
Proof.
  unfold update_error. destruct (existsb _ _) eqn:He; [cbn [negb]|done]. destruct (hostname_clash _ _ _) eqn:Hc; [done|].
  destruct (has_connector _ _) eqn:Hn; [|done]. intros _. by rewrite <-site_exists.
Qed.

Lemma write_failed_wf {A} e db : wf_sites db → wf_sites (write_failed (A := A) e db).1.
Proof. by destruct e. Qed.

Lemma apply_update_wf rq id ex logo o v between db :
  valid_form o v → (∀ d, wf_sites d → wf_sites (between d)) → wf_sites db →
  wf_sites (apply_update encrypt json_store rq id ex logo v between db).1.
Proof.
  intros Hv Hb Hwf. pose proof (Hb db Hwf) as Hwf1. destruct v; cbn in *; [..|done].
  - destruct Hv as (Hh & Hu & Hc & _). destruct (crossTenantHostnameTaken _ _ _ _); [done|].
    destruct (update_error _ _ _ _) as [e|] eqn:He; [by apply write_failed_wf|]. apply update_error_None in He as (_ & Hcl & Hcn).
    cbn. eapply set_site_wf; [..|exact Hcl|exact Hcn|done]; [done|]. intros s. by apply put_transparent_shape.
  - destruct Hv as (_ & _ & Hp & _). destruct (_ && _); [done|].
    destruct (update_error _ _ _ _) as [e|] eqn:He; [by apply write_failed_wf|]. apply update_error_None in He as (Hid & Hcl & Hcn).
    cbn [fst]. apply upsert_vault_wf; [|done|done|done|].
    + cbn. by rewrite update_where_column.
    + eapply set_site_wf; [..|exact Hcl|exact Hcn|done]; [done|]. intros s. by apply put_gateway_shape.
  - destruct Hv as (Hu & Hc & Hft & _).
    destruct (update_error _ _ _ _) as [e|] eqn:He; [by apply write_failed_wf|]. apply update_error_None in He as (_ & Hcl & Hcn).
    cbn [fst]. apply drop_vault_wf. eapply set_site_wf; [..|exact Hcl|exact Hcn|done]; [done|].
    intros s. by apply put_isolated_shape.
Qed.

Lemma post_wf between rq body db :
  (∀ d, wf_sites d → wf_sites (between d)) → wf_sites db → wf_sites (run_site (SPost between body) rq db).
Proof.
  intros Hb Hwf. cbn [run_site]. unfold sitesPost. apply (as_site_admin_cases rq db _ (λ r, wf_sites r.1)); [done|].
  intros me _ _. cbv zeta. pose proof (validate_sound body (site_opts rq true)) as Hv.
  set (v := validateSiteInput _ _ _) in *. clearbody v.
  destruct v as [c n h cd u d i clip r|c n d p host port user secret r k g|c n d u i r clip w ft|e]; [..|done].
  all: destruct (assertWithinLimit _ _ _); [done|]; destruct (negb _); [done|].
  all: destruct (parseLogoUpload _ _ _) as [| |data ty|e]; [..|done].
  all: destruct (crossTenantHostnameTaken _ _ _ _); [done|].
  all: destruct (new_site encrypt json_store rq _ _) as [[row cred]|] eqn:Hn; [|done].
  all: destruct (new_site_shape _ _ _ _ _ _ Hv Hn) as (Hsh & _ & _ & _ & Hcr).
  all: destruct (insert_error _ _) as [e|] eqn:He; [by apply write_failed_wf, Hb|].
  all: cbn [fst]; apply wf_sites_log, insert_site_wf; auto.
Qed.

Lemma patch_wf between rq id body db :
  (∀ d, wf_sites d → wf_sites (between d)) → wf_sites db → wf_sites (run_site (SPatch between id body) rq db).
Proof.
  intros Hb Hwf. cbn [run_site]. unfold sitePatch. apply (as_site_admin_cases rq db _ (λ r, wf_sites r.1)); [done|].
  intros me _ _. pose proof (validate_sound body (site_opts rq false)) as Hv.
  set (v := validateSiteInput _ _ _) in *. clearbody v.
  assert (∀ ex logo, wf_sites (apply_update encrypt json_store rq id ex logo v between db).1) as Hap
    by (intros; by eapply apply_update_wf).
  destruct v as [c n h cd u d i clip r|c n d p host port user secret r k g|c n d u i r clip w ft|e]; [..|done].
  all: destruct (negb _); [done|]; destruct (find_row _ _) as [ex|]; [|done].
  all: destruct (parseLogoUpload _ _ _) as [| |data ty|e]; [..|done].
  all: match goal with |- context [apply_update _ _ _ _ _ ?logo _ _ _] => specialize (Hap ex logo) end.
  all: destruct (apply_update _ _ _ _ _ _ _ _ _) as [db1 [|]]; [done|by apply wf_sites_log].
Qed.

Lemma set_probe_shape now r s : shape_ok s → shape_ok (set_probe now r s).
Proof. done. Qed.

Lemma probe_wf id now r db : wf_sites db → wf_sites (set_site id (set_probe now r) db).
Proof. apply touch_site_wf; [done|apply set_probe_shape]. Qed.

Lemma write_probes_wf now os db : wf_sites db → wf_sites (write_probes now os db).1.
Proof.
  revert db. induction os as [|[s r] os IH]; intros db Hwf; cbn; [done|]. destruct (existsb _ _); [|done].
  apply IH. by apply probe_wf.
Qed.

Lemma notify_wf n db : wf_sites db → wf_sites (notify n db).
Proof. intros [? ? ? ? ? ? ?]. by split. Qed.
Lemma notify_all_wf ns db : wf_sites db → wf_sites (notify_all ns db).
Proof. revert db. induction ns as [|n ns IH]; intros db Hwf; cbn; [done|]. by apply IH, notify_wf. Qed.

Lemma test_wf reply rq id db : wf_sites db → wf_sites (run_site (STest reply id) rq db).
Proof.
  intros Hwf. cbn [run_site]. unfold siteTestPost. apply (as_site_admin_cases rq db _ (λ r, wf_sites r.1)); [done|].
  intros me _ _. assert (∀ s r, wf_sites (record_probe (sq_now rq) s r db)) as Hrec.
  { intros s r. unfold record_probe. apply probe_wf. destruct (notice_of s r); [by apply notify_wf|done]. }
  destruct (find_row _ _) as [s|]; [|done]. destruct (match find_row _ _ with Some c => _ | None => _ end); [done|].
  case_bool_decide; [destruct (vault_of _ _)|destruct (some_truthy _)]; try done; apply Hrec.
Qed.

Lemma vault_put_wf rq id body db : wf_sites db → wf_sites (run_site (SVaultPut id body) rq db).
Proof.
  intros Hwf. cbn [run_site]. unfold vaultPut. apply (as_site_admin_cases rq db _ (λ r, wf_sites r.1)); [done|].
  intros me _ _. destruct (_ || _); [done|]. cbv zeta.
  destruct (read_protocol _) as [p|]; [|done]. destruct (read_kind _) as [k|]; [|done].
  destruct (js_Number _ _) as [port| | | |]; try done. destruct (_ || _) eqn:Hb; [done|].
  repeat (apply orb_false_iff in Hb as [Hb ?]). unfold setVaultCredential.
  destruct (existsb _ _) eqn:He; [cbn [negb]|done]. apply site_exists in He. cbn [fst].
  apply wf_sites_log, upsert_vault_wf; [done|done|cbn; lia| |done]. intros c _. split; [done|cbn; lia].
Qed.

Lemma run_site_wf c rq db :
  (∀ d, wf_sites d → wf_sites (site_env c d)) → wf_sites db → wf_sites (run_site c rq db).
Proof.
  intros Hb Hwf. destruct c as [b body|b id body|b id|id body|id|b id|reply id|b]; cbn [site_env] in Hb;
    [by apply post_wf|by apply patch_wf| |by apply vault_put_wf| | |by apply test_wf|].
  - cbn [run_site]. unfold siteDelete. apply (as_site_admin_cases rq db _ (λ r, wf_sites r.1)); [done|].
    intros me _ _. destruct (negb _); [done|]. cbv zeta. destruct (negb _); [by apply Hb|]. cbn [fst].
    apply wf_sites_log, delete_site_wf. by apply Hb.
  - cbn [run_site]. unfold vaultDelete. apply (as_site_admin_cases rq db _ (λ r, wf_sites r.1)); [done|].
    intros me _ _. by apply wf_sites_log, drop_vault_wf.
  - cbn [run_site]. unfold verifyDomainPost. apply (as_site_admin_cases rq db _ (λ r, wf_sites r.1)); [done|].
    intros me _ _. destruct (find_row _ _) as [s|]; [|done]. destruct (some_truthy (st_hostname s)) as [h|]; [|done].
    destruct (_ || _); [done|]. destruct (some_truthy _) as [ip|]; [|done]. cbv zeta. destruct (negb _); [by apply Hb|].
    destruct (negb _); [by apply Hb|]. apply touch_site_wf; [done|done|]. by apply Hb.
  - cbn [run_site]. unfold siteHealthPass. cbv zeta. pose proof (write_probes_wf (sq_now rq) (to_probe probeConnector db) _ (Hb db Hwf)) as Hw.
    destruct (write_probes _ _ _) as [db2 ok]. destruct ok; cbn [negb fst] in *; [by apply notify_all_wf|].
    destruct (sq_multi rq); [by apply Hb|done].
Qed.
(** A request served, other requests of the same kind in between. *)
Definition site_served db db' : Prop := ∃ c rq,
  (∀ d, wf_sites d → wf_sites (site_env c d)) ∧ db' = run_site c rq db.

(** C15: every request over sites, their credentials, their domains and their
    health keeps the tables well formed, whatever other such requests commit in
    between: ids and hostnames are unique, each site has a connector and what its
    access mode needs (a web site a hostname and an http address, a remote
    desktop neither, an isolated one an address), clipboard and transfer modes are
    known ones, and each credential belongs to one site and names a valid port. *)
Theorem sites_kept_wf db db' : rtc site_served db db' → wf_sites db → wf_sites db'.
Proof.
  induction 1 as [|db db1 db' (c & rq & Hb & ->) _ IH]; [done|]. intros Hwf. apply IH. by apply run_site_wf.
Qed.

(** *** Custom domains *)

(** A web site shown as verified has a domain of its own that points here. *)
Definition points_here (ip : string) s : Prop :=
  st_accessMode s = TRANSPARENT → st_domainVerifiedAt s ≠ None →
  st_customDomain s = true ∧ ∃ h, st_hostname s = Some h ∧ ip ∈ resolve4 h.
Definition verified_ok (ip : string) db : Prop := ∀ s, s ∈ sd_sites db → points_here ip s.

(** One request with nothing in between, on a server whose address is [ip]. *)
Definition site_step (ip : string) db db' : Prop := ∃ c rq,
  site_env c = (λ d, d) ∧ expectedServerIp parse_url resolve4 (sq_env rq "MANAGER_PUBLIC_URL") = Some ip ∧
  db' = run_site c rq db.

Lemma verified_update ip id f db :
  (∀ s, s ∈ sd_sites db → st_id s = id → points_here ip s → points_here ip (f s)) →
  verified_ok ip db → verified_ok ip (set_site id f db).
Proof.
  intros Hf Hv s (x & Hx & ->)%elem_of_update_where. case_bool_decide as E; [apply Hf; auto|by apply Hv].
Qed.

Lemma verified_probe ip id now r db : verified_ok ip db → verified_ok ip (set_site id (set_probe now r) db).
Proof. apply verified_update. by intros s _ _. Qed.

Lemma verified_probes ip now os db : verified_ok ip db → verified_ok ip (write_probes now os db).1.
Proof.
  revert db. induction os as [|[s r] os IH]; intros db Hv; cbn; [done|]. destruct (existsb _ _); [|done].
  apply IH. by apply verified_probe.
Qed.

Lemma verified_notify ip ns db : verified_ok ip db → verified_ok ip (notify_all ns db).
Proof. revert db. induction ns as [|n ns IH]; intros db Hv; cbn; [done|]. by apply IH. Qed.

Lemma verified_apply ip rq id ex logo v db :
  wf_sites db → find_row (λ s, st_id s =s id) (sd_sites db) = Some ex → verified_ok ip db →
  verified_ok ip (apply_update encrypt json_store rq id ex logo v (λ d, d) db).1.
Proof.
  intros Hwf Hex Hv. apply find_row_Some in Hex as [Hin Hid]. apply bool_decide_eq_true_1 in Hid.
  destruct v as [c n h cd u d i clip r|c n d p host port user secret r k g|c n d u i r clip w ft|e]; cbn [apply_update]; [..|done].
  - destruct (crossTenantHostnameTaken _ _ _ _); [done|]. destruct (update_error _ _ _ _) as [[]|]; [done..|].
    apply verified_update; [|done]. intros s Hs Hsid Hp _. cbn.
    assert (s = ex) as -> by (eapply (NoDup_fmap_eq st_id); [apply Hwf|done..|congruence]).
    destruct cd; cbn; [|done]. case_bool_decide as Hh; [|done]. intros Hne.
    assert (st_accessMode ex = TRANSPARENT) as Hmode.
    { pose proof (ws_shape _ Hwf ex Hin) as (_ & _ & Hsh). destruct (st_accessMode ex); [done|..]; destruct Hsh; congruence. }
    destruct (Hp Hmode Hne) as (_ & h' & Hh' & Hip). split; [done|]. exists h. split; [done|]. congruence.
  - destruct (_ && _); [done|]. destruct (update_error _ _ _ _) as [[]|]; [done..|]. cbn [fst]. unfold upsert_vault.
    destruct (existsb _ _); apply verified_update; done.
  - destruct (update_error _ _ _ _) as [[]|]; [done..|]. cbn [fst]. apply verified_update; done.
Qed.

Lemma verified_verify ip rq id db :
  expectedServerIp parse_url resolve4 (sq_env rq "MANAGER_PUBLIC_URL") = Some ip → wf_sites db →
  verified_ok ip db → verified_ok ip (run_site (SVerify (λ d, d) id) rq db).
Proof.
  intros Hip Hwf Hv. cbn [run_site]. unfold verifyDomainPost.
  apply (as_site_admin_cases rq db _ (λ r, verified_ok ip r.1)); [done|]. intros me _ _.
  destruct (find_row _ _) as [ex|] eqn:Hf; [|done]. apply find_row_Some in Hf as [Hin Hid%bool_decide_eq_true_1].
  destruct (some_truthy (st_hostname ex)) as [h|] eqn:Hh; [|done]. destruct (_ || _) eqn:Hc; [done|].
  apply orb_false_iff in Hc as [_ Hc%negb_false_iff]. rewrite Hip. cbn [some_truthy].
  destruct (if truthy ip then Some ip else None) as [ip'|] eqn:Hip'; [|done].
  assert (ip' = ip) as -> by (destruct (truthy ip); congruence). cbv zeta.
  destruct (bool_decide_reflect (classifyVerify ip (resolve4 h) = VOk)) as [Hok|]; [cbn [negb]|done].
  destruct (negb _); [done|]. apply verified_update; [|done]. intros s Hs Hsid _ _ _. cbn.
  assert (s = ex) as -> by (eapply (NoDup_fmap_eq st_id); [apply Hwf|done..|congruence]). split; [done|].
  exists h. unfold classifyVerify in Hok. split.
  - destruct (st_hostname ex) as [x|]; [|done]. cbn in Hh. destruct (truthy x); congruence.
  - destruct (resolve4 h); [done|]. by case_bool_decide.
Qed.

Lemma verified_step ip db db' : site_step ip db db' → wf_sites db → verified_ok ip db → verified_ok ip db'.
Proof.
  intros (c & rq & Hb & Hip & ->) Hwf Hv.
  destruct c as [b body|b id body|b id|id body|id|b id|reply id|b]; cbn [site_env] in Hb; try subst b;
    [| | | | |by apply verified_verify| |].
  - cbn [run_site]. unfold sitesPost. apply (as_site_admin_cases rq db _ (λ r, verified_ok ip r.1)); [done|].
    intros me _ _. cbv zeta. set (v := validateSiteInput _ _ _). clearbody v.
    assert (∀ logo row cred, new_site encrypt json_store rq logo v = Some (row, cred) → verified_ok ip (insert_site row cred db)) as Hi.
    { intros logo row cred Hn s Hs. assert (st_domainVerifiedAt row = None) as Hnone.
      { destruct v; cbn in Hn; simplify_eq; cbn; try done. by destruct (_ && _). }
      assert (s ∈ sd_sites db ++ [row]) as [Hs'| ->%list_elem_of_singleton]%elem_of_app by (by destruct cred); [by apply Hv|].
      intros _ Hne. by rewrite Hnone in Hne. }
    destruct v; [..|done].
    all: destruct (assertWithinLimit _ _ _); [done|]; destruct (negb _); [done|].
    all: destruct (parseLogoUpload _ _ _); [..|done].
    all: destruct (crossTenantHostnameTaken _ _ _ _); [done|].
    all: destruct (new_site encrypt json_store rq _ _) as [[row cred]|] eqn:Hn; [|done].
    all: destruct (insert_error _ _) as [[]|]; [done..|]; exact (Hi _ _ _ Hn).
  - cbn [run_site]. unfold sitePatch. apply (as_site_admin_cases rq db _ (λ r, verified_ok ip r.1)); [done|].
    intros me _ _. set (v := validateSiteInput _ _ _). clearbody v.
    assert (∀ ex logo, find_row (λ s, st_id s =s id) (sd_sites db) = Some ex →
      verified_ok ip (apply_update encrypt json_store rq id ex logo v (λ d, d) db).1) as Hap
      by (intros; by apply verified_apply).
    destruct v; [..|done].
    all: destruct (negb _); [done|]; destruct (find_row _ _) as [ex|] eqn:Hf; [|done].
    all: destruct (parseLogoUpload _ _ _); [..|done].
    all: match goal with |- context [apply_update _ _ _ _ _ ?logo _ _ _] => specialize (Hap ex logo eq_refl) end.
    all: by destruct (apply_update _ _ _ _ _ _ _ _ _) as [db1 [|]].
  - cbn [run_site]. unfold siteDelete. apply (as_site_admin_cases rq db _ (λ r, verified_ok ip r.1)); [done|].
    intros me _ _. destruct (negb _); [done|]. intros s [Hs _]%elem_of_delete_where. by apply Hv.
  - cbn [run_site]. unfold vaultPut. apply (as_site_admin_cases rq db _ (λ r, verified_ok ip r.1)); [done|].
    intros me _ _. destruct (_ || _); [done|]. cbv zeta. destruct (read_protocol _); [|done]. destruct (read_kind _); [|done].
    destruct (js_Number _ _); try done. destruct (_ || _); [done|]. unfold setVaultCredential. destruct (negb _); [done|].
    unfold upsert_vault. by destruct (existsb _ _).
  - cbn [run_site]. unfold vaultDelete. apply (as_site_admin_cases rq db _ (λ r, verified_ok ip r.1)); done.
  - cbn [run_site]. unfold siteTestPost. apply (as_site_admin_cases rq db _ (λ r, verified_ok ip r.1)); [done|].
    intros me _ _. assert (∀ s r, verified_ok ip (record_probe (sq_now rq) s r db)) as Hrec.
    { intros s r. unfold record_probe. apply verified_probe. by destruct (notice_of s r). }
    destruct (find_row _ _) as [s|]; [|done]. destruct (match find_row _ _ with Some c => _ | None => _ end); [done|].
    case_bool_decide; [destruct (vault_of _ _)|destruct (some_truthy _)]; try done; apply Hrec.
  - cbn [run_site]. unfold siteHealthPass. cbv zeta.
    pose proof (verified_probes ip (sq_now rq) (to_probe probeConnector db) db Hv) as Hw.
    destruct (write_probes _ _ _) as [db2 []]; cbn [negb fst] in *; [by apply verified_notify|].
    by destruct (sq_multi rq).
Qed.

(** One request after the other, a web site is shown as verified only while
    its hostname is a domain of its own that resolves to this server: an edit
    that changes the domain, or the mode of the site, takes the mark away. *)
Theorem verified_domains_point_here ip db db' :
  wf_sites db → verified_ok ip db → rtc (site_step ip) db db' → verified_ok ip db' ∧ wf_sites db'.
Proof.
  intros Hwf Hv. induction 1 as [|db db1 db' Hstep _ IH]; [done|]. apply IH; [|by eapply verified_step].
  destruct Hstep as (c & rq & Hb & _ & ->). apply run_site_wf; [|done]. by rewrite Hb.
Qed.
End site_theorems.

(** ** Theorems: the names of sites and of consoles *)

Lemma slug_no_char c s : slug_re s = true → is_slug_char c = false → c ≠ hyphen → c ∉ chars s.
Proof. intros [_ Hs]%slug_re_chars Hc Hh Hin. destruct (Hs c Hin); congruence. Qed.

Lemma slug_no_period s : slug_re s = true → period ∉ chars s.
Proof. intros Hs. apply slug_no_char; [done|by vm_compute|by vm_compute]. Qed.
Lemma slug_no_colon s : slug_re s = true → colon ∉ chars s.
Proof. intros Hs. apply slug_no_char; [done|by vm_compute|by vm_compute]. Qed.

Lemma chars_inj s t : chars s = chars t → s = t.
Proof. intros H. by rewrite <-(unchars_chars s), <-(unchars_chars t), H. Qed.

Lemma chars_lower s : chars (toLowerCase s) = lower_char <$> chars s.
Proof. unfold toLowerCase. by rewrite chars_unchars. Qed.

Lemma toLowerCase_append s t : toLowerCase (s +:+ t) = toLowerCase s +:+ toLowerCase t.
Proof. apply chars_inj. by rewrite chars_append, !chars_lower, chars_append, fmap_app. Qed.

Lemma managed_host_split (label slug d : string) :
  chars (label +:+ "." +:+ slug +:+ "." +:+ d) = (chars label ++ period :: chars slug) ++ period :: chars d.
Proof. rewrite !chars_append, <-app_assoc. done. Qed.

(** In cloud a site named by a label lives under its tenant's own domain.
    Its hostname is never a console's, so no request for it is taken for one; two
    tenants never get the same hostname from labels, and one tenant only from the
    same label: the namespaces are separate, as the suffix intends. *)
Theorem managed_hosts_separate d accessDom slug1 slug2 raw1 raw2 h1 h2 :
  d ≠ ""%string → colon ∉ chars d → last (chars d) ≠ Some period →
  isValidTenantSlug slug1 = true → isValidTenantSlug slug2 = true →
  read_hostname false (siteHostSuffix true (Some d) (Some slug1) accessDom) raw1 = Some h1 →
  read_hostname false (siteHostSuffix true (Some d) (Some slug2) accessDom) raw2 = Some h2 →
  h1 = raw1 +:+ "." +:+ slug1 +:+ "." +:+ d ∧ slugFromHost h1 (Some d) = None ∧
  (h1 = h2 → slug1 = slug2 ∧ raw1 = raw2).
Proof.
  intros Hd Hcol Hlast [Hv1 _]%andb_true_iff [Hv2 _]%andb_true_iff.
  assert (∀ slug raw h, slug_re slug = true →
    read_hostname false (siteHostSuffix true (Some d) (Some slug) accessDom) raw = Some h →
    slug_re raw = true ∧ h = raw +:+ "." +:+ slug +:+ "." +:+ d) as Hread.
  { intros slug raw h Hv. unfold read_hostname, siteHostSuffix. destruct (negb (truthy raw)); [done|].
    assert (truthy slug = true) as Hs by (destruct (slug_re_chars _ Hv) as [Hne _]; destruct slug; [done|done]).
    assert (truthy d = true) as Hdt by (by destruct d). cbn [some_truthy]. rewrite Hs, Hdt.
    cbn. destruct (slug_re raw); [|done]. intros [= <-]. done. }
  intros [Hr1 ->]%(Hread slug1); [|done]. intros [Hr2 ->]%(Hread slug2); [|done].
  split; [done|]. split.
  - destruct (slugFromHost _ _) as [s|] eqn:Hs; [|done]. exfalso. apply slugFromHost_sound in Hs as (Hb & _ & Hp & _).
    destruct (bare_host_of raw1 (slug1 +:+ "." +:+ d)) as [Hb' _]; [done|..].
    + rewrite !chars_append. intros [H|[H|H]%elem_of_app]%elem_of_app; [by apply (slug_no_colon slug1 Hv1)| |done].
      by apply list_elem_of_singleton in H.
    + rewrite !chars_append. rewrite last_app. cbn [chars]. rewrite last_app.
      destruct (last (chars d)) as [c|] eqn:El; [done|]. apply last_None in El. destruct d; done.
    + by destruct slug1.
    + rewrite Hb in Hb'. apply (f_equal chars) in Hb'. rewrite !toLowerCase_append, managed_host_split in Hb'.
      rewrite !chars_append in Hb'. change (chars ".") with [period] in Hb'. cbn [app] in Hb'.
      apply (f_equal reverse) in Hb'. rewrite !reverse_app, !reverse_cons, <-!app_assoc in Hb'.
      apply app_inv_head in Hb'. cbn in Hb'. injection Hb' as Hb'. apply (f_equal reverse) in Hb'.
      rewrite reverse_involutive in Hb'. apply Hp. rewrite Hb'.
      apply elem_of_reverse, elem_of_app. right. apply list_elem_of_here.
  - intros Heq. apply (f_equal chars) in Heq. rewrite !managed_host_split in Heq.
    apply (f_equal reverse) in Heq. rewrite !reverse_app, !reverse_cons, <-!app_assoc in Heq.
    apply app_inv_head in Heq. cbn in Heq. injection Heq as Heq. apply (f_equal reverse) in Heq.
    rewrite !reverse_app, !reverse_cons, !reverse_involutive, <-!app_assoc in Heq. cbn [app] in Heq.
    apply cut_eq in Heq as [Hl Hr]; [|by apply slug_no_period..]. split; by apply chars_inj.
Qed.

(** ** Theorems: opening a remote session *)

Section descriptor_theorems.
Context `{Intl}.
Context (decrypt : string → option string).
Implicit Types (e : PlaneEnv) (w : Workspace).

(** What a descriptor may say of a site. *)
Definition faithful e w (tid : string) (site : SiteRow) (d : Descriptor) : Prop :=
  match d with
  | Kasm url t _ _ conn clip record _ ft _ =>
      st_accessMode site = ISOLATED ∧ t = tid ∧ conn = st_connectorId site ∧ url = st_upstreamUrl site ?? "" ∧
      ft = st_fileTransferMode site ∧ clip = st_clipboardMode site ?? resolvedClipboardDefault (ws_settings w) ∧
      record = site_recorded e w (st_recordSessions site)
  | Guac t _ params host port user secret kind _ conn record keys =>
      st_accessMode site = GATEWAY ∧ t = tid ∧ conn = st_connectorId site ∧
      record = site_recorded e w (st_recordSessions site) ∧
      ∃ c g, c ∈ sd_vault (ws_db w) ∧ vc_siteId c = st_id site ∧ decrypt (vc_secret c) = Some secret ∧
        (host, port, user, kind) = (vc_targetHost c, vc_targetPort c, vc_username c, vc_secretKind c) ∧ wf_guac g ∧
        params = toGuacArgs g (st_clipboardMode site ?? resolvedClipboardDefault (ws_settings w)) (vc_protocol c)
                   (Some (vc_username c)) ∧
        (keys = true → recordingEnabled (pl_env e) = true ∧ st_recordSessions site = true)
  end.

Lemma guac_faithful e w tid site clip st d :
  st_accessMode site = GATEWAY → clip = st_clipboardMode site ?? resolvedClipboardDefault (ws_settings w) →
  guac_descriptor decrypt e w tid clip (site_recorded e w (st_recordSessions site)) site = Reply st d →
  faithful e w tid site d.
Proof.
  intros Hm ->. unfold guac_descriptor, getVaultCredential. destruct (vault_of _ _) as [c|] eqn:Hc; [|done].
  apply find_row_Some in Hc as [Hin Hid%bool_decide_eq_true_1].
  destruct (decrypt _) as [s|] eqn:Hd; [|done]. intros [= <- <-]. split_and!; try done. eexists c, _. split_and!; try done.
  - apply resolve_wf; apply parse_wf.
  - unfold effectiveKeystrokeLogging. destruct (recordingEnabled _ && _) eqn:E; [cbn [negb]|done].
    apply andb_true_iff in E. tauto.
Qed.

(** C11: a connection descriptor, with its decrypted secret, leaves the manager
    only for a caller that holds the data-plane secret, for the tenant that owns
    the site, for an active user with a grant that admits them now; it describes
    that site, with the credential of that site and curated parameters, and a
    web site has none. *)
Theorem descriptor_sound e header body ws st d :
  descriptorPost decrypt e header body ws = Reply st d →
  (∃ s, header = Some s ∧ pl_secret e = Some s ∧ s ≠ ""%string) ∧
  ∃ tid site, (if pl_multi e then pl_bySite e (str_or_empty (obj_get body "siteId")) = Some tid else tid = "default"%string) ∧
    site ∈ sd_sites (ws_db (ws tid)) ∧ st_id site = str_or_empty (obj_get body "siteId") ∧
    st_accessMode site ≠ TRANSPARENT ∧
    (∃ u g, find_row (λ u, u_id u =s str_or_empty (obj_get body "userId")) (ws_users (ws tid)) = Some u ∧
       u_status u = UActive ∧ g ∈ sd_grants (ws_db (ws tid)) ∧ g_userId g = str_or_empty (obj_get body "userId") ∧
       g_siteId g = st_id site ∧ admits g (pl_now e)) ∧
    faithful e (ws tid) tid site d.
Proof.
  unfold descriptorPost, requireDataplaneSecret. destruct (timingSafeEqualStr _ _) eqn:Hsec; [|done]. intros Hp. split.
  { unfold timingSafeEqualStr in Hsec. destruct header as [h|], (pl_secret e) as [s|]; try done.
    unfold truthy in Hsec. reflect_bool. subst. by exists s. }
  assert (∀ tid, descriptor_handler decrypt e header body (ws tid) tid = Reply st d →
    ∃ site, site ∈ sd_sites (ws_db (ws tid)) ∧ st_id site = str_or_empty (obj_get body "siteId") ∧
      st_accessMode site ≠ TRANSPARENT ∧
      (∃ u g, find_row (λ u, u_id u =s str_or_empty (obj_get body "userId")) (ws_users (ws tid)) = Some u ∧
         u_status u = UActive ∧ g ∈ sd_grants (ws_db (ws tid)) ∧ g_userId g = str_or_empty (obj_get body "userId") ∧
         g_siteId g = st_id site ∧ admits g (pl_now e)) ∧
      faithful e (ws tid) tid site d) as Hh.
  { intros tid. unfold descriptor_handler. rewrite Hsec. cbn [negb]. cbv zeta. destruct (_ || _); [done|].
    destruct (find_row _ (sd_sites _)) as [site|] eqn:Hf; [|done]. apply find_row_Some in Hf as [Hin Hid%bool_decide_eq_true_1].
    case_bool_decide as Hm; [done|]. destruct (allow _) eqn:Ha; [cbn [negb]|done]. apply evaluate_allow in Ha.
    intros Hr. exists site. split_and!; [done..|by rewrite Hid|].
    case_bool_decide as Hi.
    - unfold isolated_descriptor in Hr. destruct (negb _); [done|]. injection Hr as <- <-. done.
    - eapply guac_faithful; [|done|done]. by destruct (st_accessMode site). }
  unfold withTenantFrom in Hp. destruct (pl_multi e); cbn [negb] in Hp.
  - destruct (pl_bySite e _) as [t|]; [|done]. destruct (truthy t); [|done].
    destruct (Hh t Hp) as (site & Hs). exists t, site. split; [done|apply Hs].
  - destruct (Hh _ Hp) as (site & Hs). exists "default"%string, site. split; [done|apply Hs].
Qed.
End descriptor_theorems.

(** ** Theorems: secrets of remote desktops *)

Section secrets.
Context (parse_url : string → option Url) (from_base64 : string → string).
Context (encrypt : string → string) (decrypt : string → option string).
Context (frac_text : Z → string) (digest : string → string) (json_store : json → json).
(** AES-GCM under the deployment's key, and a jsonb column that keeps members. *)
Context (decrypts : ∀ s, decrypt (encrypt s) = Some s).
Context (stores : ∀ g, parseGuacParams (json_store (guac_json g)) = parseGuacParams (guac_json g)).
Implicit Types (rq : SiteReq) (db : SitesDb).

(** The target, the secret in clear and the parameters a session would get. *)
Definition opens (id : string) db : option (VaultProtocol * string * Z * string * string * GuacParams) :=
  match getVaultCredential decrypt id db with
  | Some (Some (c, s)) => Some (vc_protocol c, vc_targetHost c, vc_targetPort c, vc_username c, s, parseGuacParams (vc_guacParams c))
  | _ => None
  end.
Definition secret_of (id : string) db : option string := (λ t, t.1.2) <$> opens id db.

Lemma vault_of_snoc id db c :
  vault_of id db = None → vc_siteId c = id → vault_of id (with_vault db (sd_vault db ++ [c])) = Some c.
Proof.
  intros Hn Hc. unfold vault_of, find_row in *. cbn.
  induction (sd_vault db) as [|x l IH]; cbn in *; [by rewrite bool_decide_eq_true_2|].
  destruct (vc_siteId x =s id); [done|by apply IH].
Qed.
Lemma vault_of_update id f db c :
  vault_of id db = Some c → (∀ x, vc_siteId (f x) = vc_siteId x) →
  vault_of id (with_vault db (update_where (λ x, vc_siteId x =s id) f (sd_vault db))) = Some (f c).
Proof.
  intros Hc Hf. unfold vault_of, find_row, update_where in *. cbn.
  induction (sd_vault db) as [|x l IH]; cbn in *; [done|]. destruct (vc_siteId x =s id) eqn:E.
  - simplify_eq. by rewrite Hf, E.
  - by rewrite E; apply IH.
Qed.
Lemma vault_of_existsb id db : vault_of id db = None ↔ existsb (λ c, vc_siteId c =s id) (sd_vault db) = false.
Proof.
  unfold vault_of, find_row. induction (sd_vault db) as [|x l IH]; cbn; [done|]. by destruct (vc_siteId x =s id).
Qed.
(** A new id has no credential yet. *)
Lemma vault_fresh id db :
  wf_sites parse_url db → existsb (λ s, st_id s =s id) (sd_sites db) = false → vault_of id db = None.
Proof.
  intros Hwf Hn. apply find_row_None. intros c Hc. apply bool_decide_eq_false_2. intros Heq.
  apply (ws_vault_site _ _ Hwf) in Hc. rewrite Heq in Hc. apply site_exists in Hc. congruence.
Qed.
Lemma vault_of_gone id db : vault_of id (drop_vault id db) = None.
Proof. apply find_row_None. intros c [_ Hne]%elem_of_delete_where. done. Qed.

Lemma opens_of id db c s :
  vault_of id db = Some c → decrypt (vc_secret c) = Some s →
  opens id db = Some (vc_protocol c, vc_targetHost c, vc_targetPort c, vc_username c, s, parseGuacParams (vc_guacParams c)).
Proof. intros Hc Hd. unfold opens, getVaultCredential. by rewrite Hc, Hd. Qed.
Lemma stored_params g : wf_guac g → parseGuacParams (json_store (guac_json g)) = g.
Proof using stores. intros Hg. by rewrite stores, parse_stored. Qed.

Lemma upsert_opens rq me now id p host port user secret g f db :
  wf_guac g →
  negb (existsb (λ x, vc_siteId x =s id) (sd_vault db)) && bool_decide (secret = None) = false →
  (secret = None → secret_of id db ≠ None) →
  ∃ s, opens id (site_audit frac_text digest json_store rq me "resource.update" id f
           (upsert_vault id (vault_row json_store now id p host port user (encrypt (secret ?? "")) PASSWORD g)
              (edit_vault encrypt json_store now p host port user secret g) db)) = Some (p, host, port, user, s, g) ∧
    Some s = match secret with Some x => Some x | None => secret_of id db end.
Proof using decrypts stores.
  intros Hg Hreq Hold.
  unfold opens, getVaultCredential; change (vault_of id (site_audit _ _ _ _ _ _ _ _ ?x)) with (vault_of id x).
  unfold upsert_vault. destruct (existsb _ _) eqn:Hex.
  - destruct (vault_of id db) as [c|] eqn:Hc; [|apply vault_of_existsb in Hc; congruence].
    rewrite (vault_of_update _ _ _ _ Hc) by done. cbn [vc_secret edit_vault]. destruct secret as [s|].
    + rewrite decrypts. exists s. cbn. by rewrite stored_params.
    + specialize (Hold eq_refl). unfold secret_of, opens, getVaultCredential in Hold |- *. rewrite Hc in Hold |- *.
      destruct (decrypt (vc_secret c)) as [s|]; [|done]. exists s. cbn. by rewrite stored_params.
  - apply vault_of_existsb in Hex as Hn. rewrite vault_of_snoc by done. cbn [vc_secret vault_row].
    rewrite decrypts. destruct secret as [s|]; [|done]. exists s. cbn. by rewrite stored_params.
Qed.

Lemma post_opens rq body db db' st newId c n d p host port user secret r k g :
  wf_sites parse_url db → wf_guac g →
  validateSiteInput parse_url body (site_opts rq true) = VGateway c n d p host port user secret r k g →
  sitesPost parse_url from_base64 encrypt frac_text digest json_store (λ x, x) rq body db = (db', Reply st newId) →
  ∃ s, secret = Some s ∧ opens newId db' = Some (p, host, port, user, s, g).
Proof using decrypts stores.
  intros Hwf Hg Hval. pose proof (validate_sound parse_url body (site_opts rq true)) as Hv. unfold sitesPost.
  rewrite Hval in Hv |- *. destruct Hv as (_ & _ & _ & _ & _ & _ & _ & Hs).
  destruct secret as [s|]; [|by specialize (Hs eq_refl)].
  intros [me Hrun]%as_site_admin_reply. revert Hrun. cbv zeta.
  destruct (assertWithinLimit _ _ _); [done|]. destruct (negb _); [done|].
  destruct (parseLogoUpload _ _ _); [..|done]; (destruct (crossTenantHostnameTaken _ _ _ _); [done|]); cbn [new_site];
    (destruct (insert_error _ _) as [[]|] eqn:He; [done..|]); intros [= <- <- <-];
    exists s; (split; [done|]); unfold insert_error in He; cbn [st_id put_gateway blank_site] in *;
    (destruct (hostname_clash _ _ _); [done|]); (destruct (_ || _) eqn:Ho; [done|]);
    apply orb_false_iff in Ho as [_ Hnew];
    (erewrite opens_of; [|exact (vault_of_snoc _ db (vault_row json_store (sq_now rq) (sq_newId rq) p host port user (encrypt s) PASSWORD g)
        (vault_fresh _ db Hwf Hnew) eq_refl)|apply decrypts]);
    cbn; by rewrite stored_params.
Qed.

Lemma patch_opens rq id body db db' st c n d p host port user secret r k g :
  wf_guac g →
  validateSiteInput parse_url body (site_opts rq false) = VGateway c n d p host port user secret r k g →
  sitePatch parse_url from_base64 encrypt frac_text digest json_store (λ x, x) rq id body db = (db', Reply st tt) →
  (secret = None → secret_of id db ≠ None) →
  ∃ s, opens id db' = Some (p, host, port, user, s, g) ∧
    Some s = match secret with Some x => Some x | None => secret_of id db end.
Proof using decrypts stores.
  intros Hg Hval. unfold sitePatch. rewrite Hval. intros [me Hrun]%as_site_admin_reply. revert Hrun.
  destruct (negb _); [done|]. destruct (find_row _ _) as [ex|]; [|done].
  destruct (parseLogoUpload _ _ _); [..|done]; cbn [apply_update]; (destruct (_ && _) eqn:Hreq; [done|]);
    (destruct (update_error _ _ _ _) as [[]|]; [done..|]); intros [= <- <-] Hold;
    match goal with |- context [put_gateway c n d r k ?logo] =>
      exact (upsert_opens rq me (sq_now rq) id p host port user secret g _ (set_site id (put_gateway c n d r k logo) db) Hg Hreq Hold)
    end.
Qed.

(** What an admin saves for a remote desktop is what a session gets.  A
    created resource opens its target with the secret that was entered; an edit
    changes the target and the parameters, and the secret only when a new one was
    entered; turning the resource into an isolated browser removes the secret. *)
Theorem gateway_secret_kept rq id body db db' st newId c n d p host port user secret r k g :
  wf_sites parse_url db → wf_guac g →
  (validateSiteInput parse_url body (site_opts rq true) = VGateway c n d p host port user secret r k g →
   sitesPost parse_url from_base64 encrypt frac_text digest json_store (λ x, x) rq body db = (db', Reply st newId) →
   ∃ s, secret = Some s ∧ opens newId db' = Some (p, host, port, user, s, g)) ∧
  (validateSiteInput parse_url body (site_opts rq false) = VGateway c n d p host port user secret r k g →
   sitePatch parse_url from_base64 encrypt frac_text digest json_store (λ x, x) rq id body db = (db', Reply st tt) →
   (secret = None → secret_of id db ≠ None) →
   ∃ s, opens id db' = Some (p, host, port, user, s, g) ∧ Some s = (match secret with Some x => Some x | None => secret_of id db end)) ∧
  (∀ c n d u i r clip wm ft, validateSiteInput parse_url body (site_opts rq false) = VIsolated c n d u i r clip wm ft →
   sitePatch parse_url from_base64 encrypt frac_text digest json_store (λ x, x) rq id body db = (db', Reply st tt) →
   opens id db' = None).
Proof using decrypts stores.
  intros Hwf Hg. split_and!; [intros; by eapply post_opens|intros; by eapply patch_opens|].
  intros c' n' d' u i r' clip wm ft Hval. unfold sitePatch. rewrite Hval. intros [me Hrun]%as_site_admin_reply. revert Hrun.
  destruct (negb _); [done|]. destruct (find_row _ _) as [ex|]; [|done].
  destruct (parseLogoUpload _ _ _); [..|done]; cbn [apply_update];
    (destruct (update_error _ _ _ _) as [[]|]; [done..|]); intros [= <- <-];
    unfold opens, getVaultCredential; change (vault_of id (site_audit _ _ _ _ _ _ _ _ ?x)) with (vault_of id x);
    by rewrite vault_of_gone.
Qed.
End secrets.

(** ** Concrete runs *)

Definition demo_urls (u : string) : option Url :=
  if startsWith "https://" u
  then Some {| u_protocol := "https:"; u_host := slice_from 8 u; u_hostname := slice_from 8 u; u_href := u |} else None.
(** The manager and one custom domain resolve to this server. *)
Definition demo_dns (h : string) : list string :=
  if (h =s "manager.example.com") || (h =s "wiki.acme.test") then ["192.0.2.9"%string] else ["198.51.100.1"%string].
Definition demo_admin_user : User := demo_user "admin" ADMIN.
Definition demo_connector_row : Connector :=
  {| cn_id := "c1"; cn_tenantId := "default"; cn_name := "C"; cn_tokenHash := "h"; cn_status := COnline;
     cn_lastSeenAt := None; cn_version := None; cn_remoteAddr := None; cn_egressPolicy := None; cn_logLevel := None |}.
Definition demo_sites : SitesDb :=
  {| sd_sites := []; sd_vault := []; sd_grants := []; sd_mappings := []; sd_connectors := [demo_connector_row];
     sd_notices := []; sd_log := {| adminRows := []; adminHead := None |} |}.
Definition demo_site_req (newId : string) : SiteReq :=
  {| sq_user := Some demo_admin_user; sq_now := 5000; sq_tenant := "default"; sq_newId := newId; sq_auditId := "a";
     sq_auditFails := false; sq_clientIp := None; sq_multi := false;
     sq_env := λ k, if k =s "MANAGER_PUBLIC_URL" then Some "https://manager.example.com"%string else None;
     sq_envelope := EMPTY_ENVELOPE; sq_suffix := Some ".access.example.com"%string; sq_owner := λ _, None; sq_acting := None |}.
Definition desktop_form (secret : json) : json :=
  JObj [("connectorId", JStr "c1"); ("name", JStr "PLC"); ("accessMode", JStr "GATEWAY"); ("protocol", JStr "rdp");
        ("targetHost", JStr "10.0.0.5"); ("targetPort", JStr "3389"); ("username", JStr "op"); ("secret", secret);
        ("guacParams", JObj [("enablePrinting", JBool true)])]%string.
Definition domain_form (host : string) : json :=
  JObj [("connectorId", JStr "c1"); ("name", JStr "Wiki"); ("customDomain", JBool true); ("hostname", JStr host);
        ("upstreamUrl", JStr "https://10.0.0.6")]%string.

Notation demo_site_run := (run_site demo_urls id id frac_digits id id demo_dns (λ _ _, inr 3)).
Notation demo_post := (sitesPost demo_urls id id frac_digits id id (λ d, d)).
Notation demo_patch := (sitePatch demo_urls id id frac_digits id id (λ d, d)).
Definition demo_desktop : SitesDb := demo_site_run (SPost (λ d, d) (desktop_form (JStr "s3cret"))) (demo_site_req "d1") demo_sites.
Definition demo_domain : SitesDb := demo_site_run (SPost (λ d, d) (domain_form "Wiki.Acme.test")) (demo_site_req "w1") demo_desktop.
Definition demo_verified : SitesDb := demo_site_run (SVerify (λ d, d) "w1") (demo_site_req "-") demo_domain.

Example demo_sites_built :
  map (λ s, (st_id s, st_hostname s, st_domainVerifiedAt s)) (sd_sites demo_verified) =
  [("d1", None, None); ("w1", Some "wiki.acme.test", Some 5000)]%string.
Proof. vm_compute. reflexivity. Qed.

Lemma demo_sites_wf : wf_sites demo_urls demo_sites.
Proof. split; try (intros ? Hin; by apply elem_of_nil in Hin); try by constructor. intros ? ? ? Hin. by apply elem_of_nil in Hin. Qed.

Lemma sites_kept_wf_witness : wf_sites demo_urls demo_verified.
Proof.
  apply (sites_kept_wf demo_urls id id frac_digits id id demo_dns (λ _ _, inr 3) demo_sites demo_verified).
  - eapply rtc_l; [exists (SPost (λ d, d) (desktop_form (JStr "s3cret"))), (demo_site_req "d1"); split; [done|reflexivity]|].
    eapply rtc_l; [exists (SPost (λ d, d) (domain_form "Wiki.Acme.test")), (demo_site_req "w1"); split; [done|reflexivity]|].
    apply rtc_once. exists (SVerify (λ d, d) "w1"), (demo_site_req "-"). split; [done|reflexivity].
  - apply demo_sites_wf.
Defined.

Lemma verified_domains_point_here_witness : verified_ok demo_dns "192.0.2.9" demo_verified.
Proof.
  apply (verified_domains_point_here demo_urls id id frac_digits id id demo_dns (λ _ _, inr 3) "192.0.2.9"
    demo_sites demo_verified).
  - apply demo_sites_wf.
  - intros s Hin. by apply elem_of_nil in Hin.
  - eapply rtc_l; [exists (SPost (λ d, d) (desktop_form (JStr "s3cret"))), (demo_site_req "d1"); split_and!; reflexivity|].
    eapply rtc_l; [exists (SPost (λ d, d) (domain_form "Wiki.Acme.test")), (demo_site_req "w1"); split_and!; reflexivity|].
    apply rtc_once. exists (SVerify (λ d, d) "w1"), (demo_site_req "-"). split_and!; reflexivity.
Defined.

Lemma managed_hosts_separate_witness :
  slugFromHost "wiki.acme.cloud.example" (Some "cloud.example"%string) = None.
Proof.
  destruct (managed_hosts_separate "cloud.example" None "acme" "acme" "wiki" "wiki" "wiki.acme.cloud.example"
    "wiki.acme.cloud.example") as (_ & H & _).
  - discriminate.
  - apply (bool_decide_unpack _). vm_compute. exact I.
  - vm_compute. discriminate.
  - vm_compute. reflexivity.
  - vm_compute. reflexivity.
  - vm_compute. reflexivity.
  - vm_compute. reflexivity.
  - exact H.
Defined.

(** The vendor's workspace: the desktop above with a grant. *)
Definition demo_workspace (settings : PlatformSettings) (record : bool) : Workspace :=
  {| ws_users := [demo_user "u1" VENDOR];
     ws_db := {| sd_sites := map (λ s, put_gateway "c1" "PLC" None record false LKeep s) (sd_sites demo_desktop);
                 sd_vault := sd_vault demo_desktop;
                 sd_grants := createGrant "g1" "admin" {| gi_userId := "u1"; gi_siteId := "d1"; gi_startsAt := None;
                   gi_endsAt := None; gi_note := None; gi_schedule := None |} [];
                 sd_mappings := []; sd_connectors := [demo_connector_row]; sd_notices := [];
                 sd_log := {| adminRows := []; adminHead := None |} |};
     ws_settings := settings; ws_guacDefaults := JNull; ws_recordingAllowed := true |}.
Definition demo_plane : PlaneEnv :=
  {| pl_secret := Some "dp"%string; pl_multi := false; pl_byHostname := λ _, None; pl_bySite := λ _, None;
     pl_env := λ _, None; pl_now := 1000 |}.
Definition open_body : json := JObj [("userId", JStr "u1"); ("siteId", JStr "d1"); ("clientIp", JStr "203.0.113.8")]%string.
Definition demo_descriptor : response Descriptor :=
  descriptorPost Some demo_plane (Some "dp"%string) open_body (λ _, demo_workspace EMPTY_SETTINGS false).
Definition opened_as (r : response Descriptor) : option (string * bool * bool) :=
  match r with Reply _ (Guac _ _ _ _ _ _ s _ _ _ rec keys) => Some (s, rec, keys) | _ => None end.

Lemma descriptor_sound_witness :
  replies demo_descriptor = true ∧ ∃ s, Some "dp"%string = Some s ∧ pl_secret demo_plane = Some s ∧ s ≠ ""%string.
Proof.
  destruct demo_descriptor as [st e|st d] eqn:Hd; [vm_compute in Hd; discriminate|]. split; [reflexivity|].
  destruct (descriptor_sound Some demo_plane (Some "dp"%string) open_body (λ _, demo_workspace EMPTY_SETTINGS false) st d Hd)
    as [H _]. exact H.
Defined.

Lemma gateway_secret_kept_witness :
  ∃ s, opens Some "d1" (demo_patch (demo_site_req "-") "d1" (desktop_form JUndefined) demo_desktop).1
         = Some (RDP, "10.0.0.5"%string, 3389, "op"%string, s, parseGuacParams (JObj [("enablePrinting"%string, JBool true)])) ∧
       Some s = secret_of Some "d1" demo_desktop.
Proof.
  destruct (gateway_secret_kept demo_urls id id Some frac_digits id id (λ s, eq_refl) (λ g, eq_refl)
    (demo_site_req "-") "d1" (desktop_form JUndefined) demo_desktop
    (demo_patch (demo_site_req "-") "d1" (desktop_form JUndefined) demo_desktop).1 200 "-" "c1" "PLC" None RDP "10.0.0.5" 3389
    "op" None false false (parseGuacParams (JObj [("enablePrinting"%string, JBool true)]))) as (_ & H & _).
  - apply run_site_wf; [intros d Hd; exact Hd|apply demo_sites_wf].
  - apply parse_wf.
  - apply H.
    + vm_compute. reflexivity.
    + vm_compute. reflexivity.
    + intros _. vm_compute. discriminate.
Defined.

(** *** What the code does not do *)

(** A domain edited while its DNS is looked up: the mark meant for the old name
    lands on the new one. *)
Theorem verify_marks_edited_domain :
  let edit d := (demo_patch (demo_site_req "-") "w1" (domain_form "other.test") d).1 in
  let db' := demo_site_run (SVerify edit "w1") (demo_site_req "-") demo_domain in
  map (λ s, (st_hostname s, st_domainVerifiedAt s)) (sd_sites db') =
    [(None, None); (Some "other.test", Some 5000)]%string ∧
  classifyVerify "192.0.2.9" (demo_dns "other.test") = VMismatch.
Proof. vm_compute. auto. Qed.

(** A domain "of one's own" is not compared with the names the platform hands
    out: one tenant can take the name another tenant's label would get, or the
    other tenant's console itself, and the other is then refused its own name. *)
Theorem custom_domain_squats :
  let suffix := siteHostSuffix true (Some "cloud.example"%string) (Some "acme"%string) None in
  read_hostname true (siteHostSuffix true (Some "cloud.example"%string) (Some "evil"%string) None) "wiki.acme.cloud.example"
    = read_hostname false suffix "wiki" ∧
  read_hostname true None "acme.cloud.example" = Some "acme.cloud.example"%string ∧
  slugFromHost "acme.cloud.example" (Some "cloud.example"%string) = Some "acme"%string ∧
  crossTenantHostnameTaken true (λ _, Some "evil"%string) (Some "acme"%string) (read_hostname false suffix "wiki") = true.
Proof. vm_compute. auto. Qed.

(** The source-address allowlist guards web sites only: from an address it does
    not cover the access check refuses, and the same user gets the remote desktop. *)
Theorem desktop_ignores_allowlist :
  let env := {| DATAPLANE_SECRET := Some "dp"%string; multiTenant := false; resolveTenantBySite := λ _, None;
                Access.vendorIpAllowlist := λ _, "10.0.0.7"%string |} in
  let w := demo_workspace EMPTY_SETTINGS false in
  accessCheckPost env (Some "dp"%string) open_body None 1000
    (λ _, {| users := ws_users w; sites := []; grants := sd_grants (ws_db w); admin := sd_log (ws_db w) |})
    = Reply 200 {| allow := false; dreason := r_ip_not_allowed |} ∧
  opened_as demo_descriptor = Some ("s3cret"%string, false, false).
Proof. vm_compute. auto. Qed.

(** Keystroke logging looks at the resource's own recording switch, not at
    whether the session is recorded: under a policy that requires recording and
    keystrokes, a resource with its switch off is recorded without keystrokes,
    and with recording off the descriptor still asks for keystrokes. *)
Definition recording_policy (mode keys : string) : PlatformSettings :=
  {| auditRetentionDays := None; inviteTtlHours := None; notificationWebhookUrl := None;
     Settings.vendorIpAllowlist := None; maxGrantDays := None; recordingConsentRequired := None;
     watermarkDefault := None; clipboardDefault := None; displayTimezone := None;
     recordingRetentionDays := None; defaultConnectorLogLevel := None; externalAnchorEnabled := None;
     anchorTsaUrl := None; anchorTsaAuth := None; notifySiteHealth := None; notifyAccessRequests := None;
     notifyAccessDecisions := None; requireRequestJustification := None; keystrokeLoggingMode := Some keys;
     recordingMode := Some mode |}.
Theorem required_keystrokes_missed :
  let open mode toggle := opened_as (descriptorPost Some demo_plane (Some "dp"%string) open_body
    (λ _, demo_workspace (recording_policy mode "required") toggle)) in
  open "required"%string false = Some ("s3cret"%string, true, false) ∧
  open "off"%string true = Some ("s3cret"%string, false, true).
Proof. vm_compute. auto. Qed.

(** A site deleted while the others are probed: in cloud none of the pass's
    results is written. *)
Theorem deletion_loses_health_pass :
  let pass between := siteHealthPass (λ _ _, inr 3) true between 9000 demo_domain in
  map st_probeOk (sd_sites (pass (λ d, d)).1) = [Some true; Some true] ∧
  map st_probeOk (sd_sites (pass (delete_site "w1")).1) = [None] ∧ (pass (delete_site "w1")).2 = None.
Proof. vm_compute. auto. Qed.

(** A remote desktop turned into a web site keeps its stored credential, unlike
    one turned into an isolated browser. *)
Theorem web_site_keeps_credential :
  let db' := (demo_patch (demo_site_req "-") "d1" (domain_form "wiki.acme.test") demo_desktop).1 in
  map st_accessMode (sd_sites db') = [TRANSPARENT] ∧ secret_of Some "d1" db' = Some "s3cret"%string.
Proof. vm_compute. auto. Qed.
