(* ===== verification/Authority.v ===== *)
(** Where access comes from: every writer of the grants table together.

    The grant routes of the console and of the app ([Access.call]), the
    directory check of a sign-in ([Directory.syncUserAtLogin]), the termination
    of a live session with its grant ([Live.terminateLiveSession]), and the
    deletion of a user ([People.cascade_user]) or of a site
    ([Sites.delete_site]) are the statements of the program that write grants.
    A [history] is what they did to one workspace's table, each request's reads
    and writes separated by whatever the others committed in between; the
    theorem names, for every grant that admits its user, the event that gave it. *)

From Stdlib Require Import ZArith List Bool String Lia.
From stdpp Require Import base list strings.
From S2P Require Import Prelude JsString JsValue Schema AdminLog Identity Access Directory People Live Sites.
Local Open Scope Z_scope.

Section authority.
Context `{Intl}.
Context (date_parse : string → jsdate) (frac_text : Z → string) (sha256 : string → string) (json_store : json → json).

(** One writer of the table: a request to a grant route, the directory check of
    a sign-in (against the rows it read), a live session ended with its grant,
    a user or a site deleted. *)
Inductive event :=
  | EvCall (c : call) (rq : Req)
  | EvSync (env : SyncEnv) (user : DirectoryUser) (db : DirDb)
  | EvTerminate (grantId : option string)
  | EvUserDeleted (id : string)
  | EvSiteDeleted (id : string).

(** [history gs evs gs']: the events [evs] took the table from [gs] to [gs'].
    The other tables a writer reads ([w], [db], [acc]) are arbitrary at each
    event.  A grant route reads the table [grants w] and writes the one left by
    the events [mid] that commit in between. *)
Inductive history (gs : list AccessGrant) : list event → list AccessGrant → Prop :=
  | h_start : history gs [] gs
  | h_call evs mid c rq w :
      history gs evs (grants w) → history (grants w) mid (call_between c (grants w)) →
      history gs (evs ++ mid ++ [EvCall c rq]) (grants (run date_parse frac_text sha256 json_store c rq w))
  | h_sync evs env user db db' refused :
      history gs evs (d_grants db) → syncUserAtLogin date_parse sha256 env user db = Some (db', refused) →
      history gs (evs ++ [EvSync env user db]) (d_grants db')
  | h_terminate evs app rq me id grantId db :
      history gs evs (grants (ld_world db)) →
      history gs (evs ++ [EvTerminate grantId])
        (grants (ld_world (terminateLiveSession frac_text sha256 json_store app rq me id grantId db).1))
  | h_user evs id acc :
      history gs evs (k_grants acc) → history gs (evs ++ [EvUserDeleted id]) (k_grants (cascade_user id acc))
  | h_site evs id db :
      history gs evs (sd_grants db) → history gs (evs ++ [EvSiteDeleted id]) (sd_grants (delete_site id db)).

(** ** Who gave a grant *)

(** Created for this user and site by an account that may approve grants. *)
Definition created_by_approver (evs : list event) (g : AccessGrant) : Prop :=
  ∃ m body rq me, EvCall (CallCreate m body) rq ∈ evs ∧ rq_id rq = g_id g ∧
    rq_user rq = Some me ∧ can (u_role me) approve_grants = true ∧
    g_userId g = trim (str_or_empty (obj_get body "userId")) ∧ g_siteId g = trim (str_or_empty (obj_get body "siteId")).

(** Approved, by its identifier, by an account that may approve grants. *)
Definition approved_by_approver (evs : list event) (g : AccessGrant) : Prop :=
  ∃ viaApp body rq me, EvCall (CallDecide viaApp (g_id g) body) rq ∈ evs ∧
    rq_user rq = Some me ∧ can (u_role me) approve_grants = true ∧
    read_verdict (obj_get body "decision") = Some Approve.

(** Given at a sign-in of this user, because the directory put them in a group
    that an enabled mapping gives this site. *)
Definition mapped_from_group (evs : list event) (g : AccessGrant) : Prop :=
  g_directoryManaged g = true ∧
  ∃ env user db groups, EvSync env user db ∈ evs ∧ du_id user = g_userId g ∧ definitive env user db groups ∧
    wanted groups (listGroupMappingsLite (s_mappingsError env) (d_mappings db)) (g_siteId g).

(** What every row of a reachable table satisfies. *)
Definition accounted (evs : list event) (g : AccessGrant) : Prop :=
  (g_requiresApproval g = false → created_by_approver evs g ∨ mapped_from_group evs g) ∧
  (g_requiresApproval g = true → g_status g = GActive → is_Some (g_approvedAt g) → approved_by_approver evs g).

(** A row that changed without being approved: still the same grant, not revived. *)
Definition follows (g g' : AccessGrant) : Prop :=
  g_id g' = g_id g ∧ g_userId g' = g_userId g ∧ g_siteId g' = g_siteId g ∧
  g_requiresApproval g' = g_requiresApproval g ∧ g_directoryManaged g' = g_directoryManaged g ∧
  g_approvedAt g' = g_approvedAt g ∧ (g_status g' = GActive → g_status g = GActive).

Lemma follows_refl g : follows g g.
Proof. done. Qed.
#[local] Hint Resolve follows_refl : captivo.

Lemma follows_accounted evs g g' : follows g g' → accounted evs g → accounted evs g'.
Proof.
  intros (Hi & Hu & Hs & Hr & Hd & Ha & Hst) [H1 H2]. split; rewrite Hr.
  - intros Hq. destruct (H1 Hq) as [Hc|Hm]; [left|right].
    + unfold created_by_approver. by rewrite Hi, Hu, Hs.
    + unfold mapped_from_group. by rewrite Hd, Hu, Hs.
  - rewrite Ha. intros Hq Hact Happ. unfold approved_by_approver. rewrite Hi. apply H2; auto.
Qed.

Lemma accounted_mono evs evs' g : evs ⊆ evs' → accounted evs g → accounted evs' g.
Proof.
  intros Hsub [H1 H2]. split.
  - intros Hq. destruct (H1 Hq) as [(m & body & rq & me & Hin & Hc)|(Hd & env & user & db & gr & Hin & Hc)].
    + left. exists m, body, rq, me. split; [by apply Hsub|done].
    + right. split; [done|]. exists env, user, db, gr. split; [by apply Hsub|done].
  - intros Hq Hact Ha. destruct (H2 Hq Hact Ha) as (v & body & rq & me & Hin & Hc).
    exists v, body, rq, me. split; [by apply Hsub|done].
Qed.

(** Every row of [gs'] is one of [gs] carried on, or satisfies [P]. *)
Definition carried (P : AccessGrant → Prop) (gs gs' : list AccessGrant) : Prop :=
  ∀ g', g' ∈ gs' → (∃ g, g ∈ gs ∧ follows g g') ∨ P g'.

Lemma carried_refl P gs : carried P gs gs.
Proof. intros g Hg. left. by exists g. Qed.

Lemma carried_update P p f gs :
  (∀ g, g ∈ gs → p g = true → follows g (f g) ∨ P (f g)) → carried P gs (update_where p f gs).
Proof.
  intros Hf g' (g & Hg & ->)%elem_of_update_where. destruct (p g) eqn:Hp; [|left; by exists g].
  destruct (Hf g Hg Hp) as [?|?]; [left; by exists g|by right].
Qed.

Lemma carried_app P gs gs1 l : carried P gs gs1 → (∀ g, g ∈ l → P g) → carried P gs (gs1 ++ l).
Proof. intros Hc Hl g [?|?]%elem_of_app; auto. Qed.

Lemma carried_delete P p gs : carried P gs (delete_where p gs).
Proof. intros g [Hg _]%elem_of_delete_where. left. by exists g. Qed.

#[local] Hint Resolve carried_refl carried_delete : captivo.

Lemma carried_accounted evs evs' gs gs' :
  evs ⊆ evs' → carried (accounted evs') gs gs' → Forall (accounted evs) gs → Forall (accounted evs') gs'.
Proof.
  intros Hsub Hc Hall. rewrite Forall_forall in Hall |- *. intros g' Hg'.
  destruct (Hc g' Hg') as [(g & Hg & Hf)|?]; [|done].
  eapply follows_accounted; [exact Hf|]. eapply accounted_mono; [done|by apply Hall].
Qed.

(** A row still waiting for its approval is accounted for by nobody. *)
Lemma waiting_accounted evs g : g_requiresApproval g = true → g_approvedAt g = None → accounted evs g.
Proof. intros Hr Ha. split; [by rewrite Hr|]. intros _ _. rewrite Ha. by intros []. Qed.

Lemma revoke_carried P id gs : carried P gs (revokeGrant id gs).
Proof. apply carried_update. intros g _ _. left. by split_and!. Qed.

(** ** Each writer *)

Lemma call_carried evs c rq w :
  EvCall c rq ∈ evs →
  carried (accounted evs) (call_between c (grants w)) (grants (run date_parse frac_text sha256 json_store c rq w)) ∨
  grants (run date_parse frac_text sha256 json_store c rq w) = grants w.
Proof.
  intros Hin. destruct c as [m body|id|m between id body|viaApp id body|m j between body|between id];
    cbn [run call_between].
  - unfold adminGrantsPost. destruct (rq_user rq) as [me|] eqn:Hme; [|by right].
    destruct (can (u_role me) approve_grants) eqn:Hcan; [cbn [negb]|by right].
    repeat (case_match; try by right).
    all: left; apply carried_app; [apply carried_refl|]; intros g ->%list_elem_of_singleton; split; [|done];
      intros _; left; by exists m, body, rq, me.
  - unfold adminGrantsDelete. repeat (case_match; try by right). left. apply revoke_carried.
  - unfold adminGrantPatch. repeat (case_match; try by right); left; try apply carried_refl.
    all: apply carried_update; intros ? _ _; left; by split_and!.
  - unfold decisionPost, applyGrantDecision. destruct (rq_user rq) as [me|] eqn:Hme; [|by right].
    destruct (can (u_role me) approve_grants) eqn:Hcan; [cbn [negb]|by right].
    destruct (read_verdict _) as [v|] eqn:Hv; [|by right]. destruct (decideGrant _ _ _ _ _ _) as [gs n] eqn:Hd.
    destruct (n =? 0); [by right|]. left. unfold decideGrant in Hd. injection Hd as <- _.
    apply carried_update. intros g _ Hp. right. unfold is_pending in Hp. reflect_bool. split.
    + cbn [decided g_requiresApproval]. congruence.
    + intros _ Hst _. destruct v; [|done]. exists viaApp, body, rq, me. cbn [decided g_id]. by subst id.
  - unfold requestsPost, createAccessRequest. repeat (case_match; try by right); simplify_eq/=; try by right.
    all: left; apply carried_app; [apply carried_refl|]; intros g ->%list_elem_of_singleton; by apply waiting_accounted.
  - unfold requestDelete. repeat (case_match; try by right); left; first [apply carried_refl|apply carried_delete].
Qed.

Lemma provision_carried P now newId user dec db db' :
  provisionUser date_parse sha256 now newId user dec db = Some db' →
  (∀ s, s ∈ grantSiteIds dec → P (dir_grant (newId s) (du_id user) s) ∧
        P (set_status GRevoked (dir_grant (newId s) (du_id user) s))) →
  carried P (d_grants db) (d_grants db').
Proof.
  unfold provisionUser. destruct (planGrantChanges _ _) as [toCreate toRevoke] eqn:Hp.
  apply planGrantChanges_spec in Hp as [Hc _]. destruct (negb _); [done|]. intros [= <-] HP.
  match goal with |- carried _ _ (d_grants (if ?b then _ else _)) => destruct b end;
    rewrite ?(proj2 (audit_rows _ _ _ _ _ _ _ _)); cbn [with_rows d_grants].
  all: intros g' (g & [Hg|(s & -> & [Hs _]%Hc)%list_elem_of_fmap]%elem_of_app & ->)%elem_of_update_where;
    destruct (_ && _); [left; exists g; by split_and!|left; by exists g|right; by apply HP..].
Qed.

Lemma sync_carried evs env user db db' refused :
  EvSync env user db ∈ evs → syncUserAtLogin date_parse sha256 env user db = Some (db', refused) →
  carried (accounted evs) (d_grants db) (d_grants db').
Proof.
  intros Hin [(-> & _)|(groups & Hdef & [[_ Hdep]|(_ & _ & Hout)])]%sync_cases.
  - apply carried_refl.
  - unfold deprovisionUser in Hdep. destruct (negb _); [done|]. injection Hdep as <-.
    rewrite (proj2 (audit_rows _ _ _ _ _ _ _ _)). apply carried_update. intros g _ _. left. by split_and!.
  - set (dec := computeReconcile _ _ _) in Hout.
    assert (∀ now newId, provisionUser date_parse sha256 now newId user dec db = Some db' →
      carried (accounted evs) (d_grants db) (d_grants db')) as Hprov.
    { intros now newId Hp. eapply provision_carried; [exact Hp|]. intros s Hs%grantSiteIds_iff.
      assert (mapped_from_group evs (dir_grant (newId s) (du_id user) s)) as Hm
        by (split; [done|by exists env, user, db, groups]).
      split; (split; [by right|done]). }
    destruct (d_role dec), (grantSiteIds dec); try by eapply Hprov. subst db'. apply carried_refl.
Qed.

Lemma history_accounted gs evs gs' : history gs evs gs' → ∀ evs0,
  Forall (accounted evs0) gs → Forall (accounted (evs0 ++ evs)) gs'.
Proof.
  induction 1 as [gs|gs evs mid c rq w _ IH1 _ IH2|gs evs env user db db' refused _ IH Hs
    |gs evs app rq me id grantId db _ IH|gs evs id acc _ IH|gs evs id db _ IH]; intros evs0 Hall.
  - by rewrite app_nil_r.
  - specialize (IH1 _ Hall). specialize (IH2 _ IH1). rewrite <-app_assoc in IH2.
    destruct (call_carried (evs0 ++ evs ++ mid ++ [EvCall c rq]) c rq w) as [Hc| ->]; [set_solver| |].
    + eapply carried_accounted; [|exact Hc|exact IH2]. set_solver.
    + eapply carried_accounted; [|apply carried_refl|exact IH1]. set_solver.
  - eapply carried_accounted; [|eapply sync_carried; [|exact Hs]|by apply IH]; set_solver.
  - eapply carried_accounted; [|destruct grantId as [i|]|by apply IH]; [set_solver|..].
    all: unfold terminateLiveSession; destruct (terminateSession _ _ _ _) as [h [ok found]]; cbn.
    + apply revoke_carried.
    + apply carried_refl.
  - eapply carried_accounted; [| |by apply IH]; [set_solver|].
    intros g' (g & -> & [Hg _]%elem_of_delete_where)%list_elem_of_fmap. left. exists g. by split_and!.
  - eapply carried_accounted; [|apply carried_delete|by apply IH]. set_solver.
Qed.

(** C8: nobody gets in without an approver or a group mapping.  Take any
    history of a workspace's grants table since it was empty: requests to the
    grant routes, directory checks at sign-in, sessions terminated with their
    grant, users and sites deleted, in any order, with anything committed
    between the reads and the write of a grant route (a directory check, and
    each deletion, is one step).  A grant that admits its user
    either needed no approval and was created for that user and site by a
    request of an account that may approve grants; or needed one and was
    approved by such an account; or is directory-managed and was made at a
    sign-in of that user, when the directory placed them in a group an enabled
    mapping gives that site.  So a user cannot give themselves access by
    requesting it. *)
Theorem access_needs_approver evs gs g now :
  history [] evs gs → g ∈ gs → admits g now →
  (g_requiresApproval g = false ∧ created_by_approver evs g) ∨
  (g_requiresApproval g = true ∧ approved_by_approver evs g) ∨
  (g_requiresApproval g = false ∧ mapped_from_group evs g).
Proof.
  intros Hh Hg (Hact & _ & _ & Happ & _).
  assert (Forall (accounted evs) gs) as Hall by (apply (history_accounted _ _ _ Hh []); constructor).
  rewrite Forall_forall in Hall. destruct (Hall g Hg) as [H1 H2].
  destruct (g_requiresApproval g) eqn:Hr; [|destruct (H1 eq_refl); auto].
  right. left. split; [done|]. apply H2; [done..|]. by apply Happ.
Qed.
End authority.

(** ** Concrete runs *)

Definition approve_call : call := CallDecide false "g1" approve_body.

(** A request, approved by an administrator. *)
Definition approved_run : list event := [EvCall request_call request_req; EvCall approve_call (admin_req 1000)].

Lemma approved_history :
  history (λ _, InvalidDate) frac_digits (λ s, s) json_wire [] approved_run (grants admitted_world).
Proof.
  apply (h_call _ _ _ _ _ [EvCall request_call request_req] [] approve_call (admin_req 1000) requested_world); [|constructor].
  apply (h_call _ _ _ _ _ [] [] request_call request_req (demo_world [])); constructor.
Qed.

(** A first sign-in of a user the directory places in the plant's group. *)
Definition fresh_dir_db : DirDb := with_rows demo_dir_db (d_users demo_dir_db) [].
Definition mapped_grants : list AccessGrant :=
  match syncUserAtLogin (λ _, InvalidDate) (λ s, s) (demo_sync demo_groups) demo_login fresh_dir_db with
  | Some (db', _) => d_grants db'
  | None => []
  end.
Definition mapped_run : list event := [EvSync (demo_sync demo_groups) demo_login fresh_dir_db].

Lemma mapped_history :
  history (λ _, InvalidDate) frac_digits (λ s, s) json_wire [] mapped_run mapped_grants.
Proof.
  unfold mapped_grants.
  destruct (syncUserAtLogin _ _ _ _ _) as [[db' refused]|] eqn:Hs; [|vm_compute in Hs; discriminate].
  by apply (h_sync _ _ _ _ _ [] _ _ fresh_dir_db db' refused); [constructor|].
Qed.

Definition approved_grant : AccessGrant := hd pending_grant (grants admitted_world).
Definition mapped_grant : AccessGrant := hd pending_grant mapped_grants.

Lemma access_needs_approver_witness :
  approved_by_approver approved_run approved_grant ∧ mapped_from_group mapped_run mapped_grant.
Proof.
  split.
  - destruct (access_needs_approver (λ _, InvalidDate) frac_digits (λ s, s) json_wire
      approved_run (grants admitted_world) approved_grant 2000) as [[H _]|[[_ H]|[H _]]].
    + apply approved_history.
    + vm_compute. left.
    + split_and!; [reflexivity|by vm_compute|by vm_compute|intros _; by eexists|by left].
    + vm_compute in H. discriminate.
    + exact H.
    + vm_compute in H. discriminate.
  - destruct (access_needs_approver (λ _, InvalidDate) frac_digits (λ s, s) json_wire
      mapped_run mapped_grants mapped_grant 2000) as [[_ (m & body & rq & me & Hin & _)]|[[H _]|[_ H]]].
    + apply mapped_history.
    + vm_compute. left.
    + split_and!; [reflexivity|by vm_compute..|by left].
    + apply list_elem_of_singleton in Hin. discriminate.
    + vm_compute in H. discriminate.
    + exact H.
Defined.
