(* ===== verification/WallClock.v ===== *)
(** * Wall clocks and calendar days (src/lib/time/datetime-local.ts)

    The console's date fields hold wall-clock times of a configured zone; the
    module turns them into instants and back with nothing but [Intl].  This file
    holds the Gregorian day count behind [Date.UTC], the module's functions, and
    when they are inverse to each other: always for a wall time the zone shows
    once, and with what outcome around a change of the clocks. *)

From S2P Require Import Prelude JsString JsValue.

(** ** The calendar *)

(** The day number of a date; [d] may lie outside the month, as [Date.UTC]
    allows. *)
Definition days_from_civil (y m d : Z) : Z :=
  let y' := if m <=? 2 then y - 1 else y in
  let mp := if m <=? 2 then m + 9 else m - 3 in
  365 * y' + y' / 4 - y' / 100 + y' / 400 + (153 * mp + 2) / 5 + d - 1 - 719468.

Definition is_leap (y : Z) : bool := (y mod 4 =? 0) && (negb (y mod 100 =? 0) || (y mod 400 =? 0)).
Definition days_in_month (y m : Z) : Z :=
  if m =? 2 then (if is_leap y then 29 else 28)
  else if (m =? 4) || (m =? 6) || (m =? 9) || (m =? 11) then 30 else 31.

(** [Date.UTC] for whole numbers: years 0 to 99 mean the twentieth century, and
    months and days beyond their range carry over. *)
Definition Date_UTC (y mo d h mi s : Z) : Z :=
  let y1 := if (0 <=? y) && (y <=? 99) then 1900 + y else y in
  days_from_civil (y1 + mo / 12) (mo mod 12 + 1) d * ms_per_day + h * hour_ms + mi * 60000 + s * 1000.

Lemma month_cases m : 1 ≤ m ≤ 12 →
  m = 1 ∨ m = 2 ∨ m = 3 ∨ m = 4 ∨ m = 5 ∨ m = 6 ∨ m = 7 ∨ m = 8 ∨ m = 9 ∨ m = 10 ∨ m = 11 ∨ m = 12.
Proof. lia. Qed.

Lemma yoe_of_year y doy :
  0 ≤ y < 400 → 0 ≤ doy → doy ≤ 364 ∨ (doy = 365 ∧ is_leap (y + 1) = true) →
  yoe_of (365 * y + y / 4 - y / 100 + doy) = y ∧ 365 * y + y / 4 - y / 100 + doy < 146097.
Proof.
  intros Hy H0 Hd. unfold yoe_of.
  assert (doy ≤ 365) by lia.
  assert (doy = 365 → (y + 1) mod 4 = 0 ∧ ((y + 1) mod 100 ≠ 0 ∨ y = 399)) as Hl.
  { intros ->. destruct Hd as [|[_ Hl]]; [lia|]. unfold is_leap in Hl. reflect_bool.
    split; [lia|]. apply orb_true_iff in H2 as [Hl|Hl]; reflect_bool; [by left|right]. dlia. }
  clear Hd. remember (y / 4) as k eqn:Ek. remember (y / 100) as c eqn:Ec.
  assert (4 * k ≤ y ≤ 4 * k + 3) by dlia. assert (100 * c ≤ y ≤ 100 * c + 99) by dlia.
  assert (doy = 365 → y = 4 * k + 3 ∧ (y ≠ 100 * c + 99 ∨ y = 399)) as Hl'.
  { intros Hx. destruct (Hl Hx) as [H4 H100]. clear Ek Ec. split; [dlia|]. destruct H100; [left; dlia|by right]. }
  clear Hl Ek Ec. set (doe := 365 * y + k - c + doy).
  assert (0 ≤ c ≤ 3) by lia. assert (0 ≤ doe < 146097) by lia. split; [|lia].
  remember (doe / 1460) as a eqn:Ea. remember (doe / 36524) as b eqn:Eb. remember (doe / 146096) as e eqn:Ee.
  assert (1460 * a ≤ doe < 1460 * a + 1460) by dlia.
  assert (36524 * b ≤ doe < 36524 * b + 36524) by dlia.
  assert (146096 * e ≤ doe < 146096 * e + 146096) by dlia.
  clear Ea Eb Ee. symmetry. apply Z.div_unique_pos with (doe - a + b - e - 365 * y); [|lia].
  subst doe. lia.
Qed.

Lemma div_step y n : 0 < n → y / n = (y - 1) / n + (if y mod n =? 0 then 1 else 0).
Proof.
  intros Hn. pose proof (Z.div_mod y n ltac:(lia)) as Hd. pose proof (Z.mod_pos_bound y n Hn).
  destruct (Z.eqb_spec (y mod n) 0) as [E|E].
  - rewrite E in Hd. symmetry. assert ((y - 1) / n = y / n - 1) as ->; [|lia].
    symmetry. apply Z.div_unique_pos with (n - 1); lia.
  - rewrite Z.add_0_r. apply Z.div_unique_pos with (y mod n - 1); lia.
Qed.
Lemma leap_step y : y / 4 - y / 100 + y / 400
  = (y - 1) / 4 - (y - 1) / 100 + (y - 1) / 400 + (if is_leap y then 1 else 0).
Proof.
  rewrite (div_step y 4), (div_step y 100), (div_step y 400) by lia. unfold is_leap.
  assert (y mod 100 = 0 → y mod 4 = 0) by (intros; dlia). assert (y mod 400 = 0 → y mod 100 = 0) by (intros; dlia).
  destruct (Z.eqb_spec (y mod 4) 0), (Z.eqb_spec (y mod 100) 0), (Z.eqb_spec (y mod 400) 0); simpl; lia.
Qed.

(** Splits on the month and evaluates the day of the year it starts at. *)
Ltac by_month m Hm :=
  destruct (month_cases m Hm) as [->|[->|[->|[->|[->|[->|[->|[->|[->|[->|[->| ->]]]]]]]]]]];
  simpl;
  repeat match goal with
  | |- context [(153 * ?a + 2) / 5] => let v := eval vm_compute in ((153 * a + 2) / 5) in
                                       progress change ((153 * a + 2) / 5) with v
  end.

(** One year and month later. *)
Definition next_month (y m : Z) : Z * Z := if m =? 12 then (y + 1, 1) else (y, m + 1).

(** The first day after a month is the first of the next one. *)
Lemma days_next_month y m d :
  1 ≤ m ≤ 12 →
  days_from_civil y m (days_in_month y m + d) = days_from_civil (next_month y m).1 (next_month y m).2 d.
Proof.
  intros Hm. pose proof (leap_step y). unfold days_from_civil, days_in_month, next_month.
  by_month m Hm; try lia.
  - destruct (is_leap y); lia.
  - replace (y + 1 - 1) with y by lia. lia.
Qed.

(** Within a month the day count is inverted by [civil_from_days]. *)
Lemma civil_days y m d :
  1 ≤ m ≤ 12 → 1 ≤ d ≤ days_in_month y m → civil_from_days (days_from_civil y m d) = (y, m, d).
Proof.
  intros Hm Hd. rewrite civil_from_days_unfold. cbv zeta.
  set (y' := if m <=? 2 then y - 1 else y). set (mp := if m <=? 2 then m + 9 else m - 3).
  set (doy := (153 * mp + 2) / 5 + d - 1).
  set (e := y' / 400). set (r := y' mod 400).
  assert (0 ≤ r < 400) as Hr by (apply Z.mod_pos_bound; lia).
  assert (y' = 400 * e + r) as Hy' by (apply Z.div_mod; lia).
  assert (0 ≤ mp ≤ 11 ∧ 0 ≤ doy ∧ (doy ≤ 364 ∨ (doy = 365 ∧ is_leap (r + 1) = true)) ∧ (5 * doy + 2) / 153 = mp)
    as (Hmp & Hdoy0 & Hdoy & Hmpe).
  { assert (is_leap y = true → m = 2 → is_leap (r + 1) = true) as Hlp.
    { intros Hl ->. simpl in y'. assert (y = 400 * e + (r + 1)) as Hy by (subst y'; lia). revert Hl. rewrite Hy.
      unfold is_leap. replace ((400 * e + (r + 1)) mod 4) with ((r + 1) mod 4) by dlia.
      replace ((400 * e + (r + 1)) mod 100) with ((r + 1) mod 100) by dlia.
      by replace ((400 * e + (r + 1)) mod 400) with ((r + 1) mod 400) by dlia. }
    clear Hy'. clearbody e r. clear y'. revert Hlp Hd. subst doy mp. unfold days_in_month.
    by_month m Hm; intros Hlp Hd;
      try (split_and!; [lia|lia|lia|left; lia|dlia]).
    destruct (is_leap y); split_and!; try lia; try dlia.
    destruct (decide (d = 29)) as [->|]; [right; split; [done|by apply Hlp]|left; lia]. }
  destruct (yoe_of_year r doy Hr Hdoy0 Hdoy) as [Hyoe Hdoe].
  assert (days_from_civil y m d + 719468 = 365 * r + r / 4 - r / 100 + doy + e * 146097) as Hz.
  { unfold days_from_civil. fold y' mp. subst doy. clearbody mp. clear Hmpe Hdoy Hdoy0 Hyoe Hdoe.
    rewrite Hy'. replace ((400 * e + r) / 4) with (100 * e + r / 4) by dlia.
    replace ((400 * e + r) / 100) with (4 * e + r / 100) by dlia.
    replace ((400 * e + r) / 400) with e by dlia. lia. }
  set (doe := 365 * r + r / 4 - r / 100 + doy) in *.
  assert (0 ≤ doe) by (subst doe; dlia).
  rewrite Hz. rewrite Z.mod_add, Z.mod_small by lia. rewrite Z.div_add, (Z.div_small doe) by lia.
  assert (doy_of doe = doy) as Hdo by (unfold doy_of; rewrite Hyoe; subst doe; lia).
  rewrite Hdo, Hyoe, Hmpe.
  assert ((if mp <? 10 then mp + 3 else mp - 9) = m) as Hmm.
  { subst mp. destruct (Z.leb_spec m 2); [rewrite (proj2 (Z.ltb_ge _ _)) by lia|rewrite (proj2 (Z.ltb_lt _ _)) by lia]; lia. }
  rewrite Hmm. f_equal; [f_equal|subst doy; lia].
  subst y'. destruct (m <=? 2); lia.
Qed.

Lemma days_in_month_bound y m : 28 ≤ days_in_month y m ≤ 31.
Proof. unfold days_in_month. cases; lia. Qed.

(** Every day number is the number of its date. *)
Lemma civil_valid z :
  let '(y, m, d) := civil_from_days z in
  1 ≤ m ≤ 12 ∧ 1 ≤ d ≤ 31 ∧ days_from_civil y m d = z.
Proof.
  rewrite civil_from_days_unfold. cbv zeta. set (doe := (z + 719468) mod 146097).
  assert (0 ≤ doe < 146097) as Hd by (subst doe; apply Z.mod_pos_bound; lia).
  pose proof (yoe_bound _ Hd) as Hy. pose proof (doy_bound _ Hd) as Hdoy.
  assert (doe = 365 * yoe_of doe + yoe_of doe / 4 - yoe_of doe / 100 + doy_of doe) as Hdoe by (unfold doy_of; lia).
  pose proof (Z.div_mod (z + 719468) 146097 ltac:(lia)) as Hz. fold doe in Hz.
  set (e := (z + 719468) / 146097) in *. clearbody doe e.
  remember (yoe_of doe) as r eqn:Er. remember (doy_of doe) as doy eqn:Edoy. clear Er Edoy.
  remember ((5 * doy + 2) / 153) as mp eqn:Emp. assert (0 ≤ mp ≤ 11) by dlia.
  assert (153 * mp ≤ 5 * doy + 2 < 153 * mp + 153) by dlia. clear Emp.
  assert (0 ≤ doy - (153 * mp + 2) / 5 ≤ 30) by dlia.
  assert (∀ k : bool, days_from_civil (r + e * 400 + (if k then 1 else 0)) (if k then mp - 9 else mp + 3)
                 (doy - (153 * mp + 2) / 5 + 1) = z ∨ (if k then mp < 10 else 10 ≤ mp)) as Hk.
  { intros k. unfold days_from_civil.
    assert ((r + e * 400) / 4 = 100 * e + r / 4) by dlia. assert ((r + e * 400) / 100 = 4 * e + r / 100) by dlia.
    assert ((r + e * 400) / 400 = e) by dlia.
    destruct k.
    - destruct (Z.leb_spec (mp - 9) 2); [|lia]. destruct (decide (mp < 10)); [by right|left].
      replace (r + e * 400 + 1 - 1) with (r + e * 400) by lia. replace (mp - 9 + 9) with mp by lia. lia.
    - destruct (Z.leb_spec (mp + 3) 2); [lia|]. destruct (decide (10 ≤ mp)); [by right|left].
      rewrite Z.add_0_r. replace (mp + 3 - 3) with mp by lia. lia. }
  destruct (Z.ltb_spec mp 10) as [Hlt|Hge].
  - destruct (Z.leb_spec (mp + 3) 2); [lia|]. destruct (Hk false) as [E|]; [|lia]. split_and!; try lia; done.
  - destruct (Z.leb_spec (mp - 9) 2); [|lia]. destruct (Hk true) as [E|]; [|lia]. split_and!; try lia; done.
Qed.

(** A day of the month that survives the calendar is a day of the month. *)
Lemma civil_day_kept y m d :
  1 ≤ m ≤ 12 → 1 ≤ d → (civil_from_days (days_from_civil y m d)).2 = d → d ≤ days_in_month y m.
Proof.
  intros Hm Hd Hk. destruct (decide (d ≤ days_in_month y m)) as [|Hgt]; [done|exfalso].
  pose proof (civil_valid (days_from_civil y m d)) as Hv. pose proof (days_in_month_bound y m).
  destruct (civil_from_days (days_from_civil y m d)) as [[y1 m1] d1] eqn:E. simpl in Hk. subst d1.
  destruct Hv as (_ & Hd31 & _). set (j := d - days_in_month y m).
  assert (d = days_in_month y m + j) as Hj by (subst j; lia).
  rewrite Hj, days_next_month in E by done.
  pose proof (days_in_month_bound (next_month y m).1 (next_month y m).2).
  rewrite civil_days in E; [simplify_eq; lia|unfold next_month; cases; reflect_bool; simpl; lia|lia].
Qed.

(** ** The module *)

Record Wall := { w_y : Z; w_mo : Z; w_d : Z; w_h : Z; w_mi : Z; w_s : Z }.
#[global] Instance Wall_eq_dec : EqDecision Wall.
Proof. solve_decision. Defined.

(** What the runtime offers: a formatter for the six fields of a zone's clock
    (no formatter is the [RangeError] of an unknown name), and the runtime's own
    zone behind [new Date(y, mo, ...)] and [getFullYear] and its companions. *)
Class Clock := {
  DateTimeFormat : string → option (Z → list (string * string));
  localInstant : Wall → jsdate;
  localWall : Z → Wall;
}.

Definition utc_of (w : Wall) : Z := Date_UTC (w_y w) (w_mo w - 1) (w_d w) (w_h w) (w_mi w) (w_s w).

Definition validWall (w : Wall) : bool :=
  if (w_mo w <? 1) || (12 <? w_mo w) || (w_d w <? 1) || (23 <? w_h w) || (59 <? w_mi w) || (59 <? w_s w) then false
  else (civil_from_days (Date_UTC (w_y w) (w_mo w - 1) (w_d w) 0 0 0 / ms_per_day)).2 =? w_d w.

(** The groups of [DT_RE] and [D_RE]. *)
Definition all_digits (l : list Ascii.ascii) : bool := forallb is_digit l.
Definition D_RE (l : list Ascii.ascii) : option (Z * Z * Z) :=
  match l with
  | [y3; y2; y1; y0; s1; m1; m0; s2; d1; d0] =>
      if all_digits [y3; y2; y1; y0; m1; m0; d1; d0] && (code s1 =? 45) && (code s2 =? 45)
      then Some (digits_val [y3; y2; y1; y0] 0, digits_val [m1; m0] 0, digits_val [d1; d0] 0) else None
  | _ => None
  end.
Definition DT_RE (l : list Ascii.ascii) : option Wall :=
  match D_RE (take 10 l), drop 10 l with
  | Some (y, mo, d), [t; h1; h0; c1; m1; m0] =>
      if all_digits [h1; h0; m1; m0] && (code t =? 84) && (code c1 =? 58)
      then Some {| w_y := y; w_mo := mo; w_d := d; w_h := digits_val [h1; h0] 0; w_mi := digits_val [m1; m0] 0; w_s := 0 |}
      else None
  | Some (y, mo, d), [t; h1; h0; c1; m1; m0; c2; s1; s0] =>
      if all_digits [h1; h0; m1; m0; s1; s0] && (code t =? 84) && (code c1 =? 58) && (code c2 =? 58)
      then Some {| w_y := y; w_mo := mo; w_d := d; w_h := digits_val [h1; h0] 0; w_mi := digits_val [m1; m0] 0;
                   w_s := digits_val [s1; s0] 0 |}
      else None
  | _, _ => None
  end.

(** [String(n).padStart(2, "0")] for a number that is not negative. *)
Definition pad2 (n : Z) : string := if n <? 10 then "0" +:+ dec n else dec n.

Section module.
Context `{Clock}.

Definition isValidTimeZone (tz : string) : bool := match DateTimeFormat tz with Some _ => true | None => false end.

(** A formatter gives every field it was asked for, as digits; [None] is the
    unknown zone, or a field it left out. *)
Definition part (parts : list (string * string)) (type : string) : jsnum :=
  match list_find (λ p, p.1 = type) parts with Some (_, p) => Number p.2 | None => NNaN end.
Definition wallIn (tz : string) (at_ : Z) : option Wall :=
  f ← DateTimeFormat tz;
  let parts := f at_ in
  match part parts "year", part parts "month", part parts "day", part parts "hour", part parts "minute", part parts "second" with
  | NInt y, NInt mo, NInt d, NInt h, NInt mi, NInt s =>
      Some {| w_y := y; w_mo := mo; w_d := d; w_h := Z.rem h 24; w_mi := mi; w_s := s |}
  | _, _, _, _, _, _ => None
  end.

Definition offsetMs (tz : string) (at_ : Z) : option Z :=
  w ← wallIn tz at_; Some (utc_of w - at_ / 1000 * 1000).

Definition instantOf (w : Wall) (tz : option string) : option jsdate :=
  match tz with
  | None => Some (localInstant w)
  | Some tz =>
      let asUtc := utc_of w in
      o1 ← offsetMs tz asUtc;
      let guess := asUtc - o1 in
      o2 ← offsetMs tz guess;
      let refined := asUtc - o2 in
      Some (ValidDate refined)
  end.

(** Outside [None] is a throw, inside it the [null] of a malformed value. *)
Definition parseDatetimeLocal (value : string) (tz : option string) : option (option jsdate) :=
  match DT_RE (chars value) with
  | None => Some None
  | Some w => if negb (validWall w) then Some None else Some <$> instantOf w tz
  end.

Definition formatDatetimeLocal (date : jsdate) (tz : option string) : option string :=
  match date with
  | InvalidDate => Some ""
  | ValidDate ms =>
      w ← match tz with None => Some (localWall ms) | Some tz => wallIn tz ms end;
      Some (dec (w_y w) +:+ "-" +:+ pad2 (w_mo w) +:+ "-" +:+ pad2 (w_d w) +:+ "T" +:+ pad2 (w_h w) +:+ ":" +:+ pad2 (w_mi w))
  end.

Definition midnight (y mo d : Z) : Wall := {| w_y := y; w_mo := mo; w_d := d; w_h := 0; w_mi := 0; w_s := 0 |}.

Definition startOfDayInZone (value : string) (tz : option string) : option (option jsdate) :=
  match D_RE (chars value) with
  | None => Some None
  | Some (y, mo, d) =>
      let w := midnight y mo d in
      if negb (validWall w) then Some None else Some <$> instantOf w tz
  end.

Definition endOfDayInZone (value : string) (tz : option string) : option (option jsdate) :=
  start ← startOfDayInZone value tz;
  match start, D_RE (chars value) with
  | Some _, Some (y, mo, d) =>
      let '(ny, nmo, nd) := civil_from_days (Date_UTC y (mo - 1) (d + 1) 0 0 0 / ms_per_day) in
      nextStart ← instantOf (midnight ny nmo nd) tz;
      Some (Some (match nextStart with ValidDate t => ValidDate (t - 1) | InvalidDate => InvalidDate end))
  | _, _ => Some None
  end.
End module.

(** ** Reading a clock *)

(** The wall clock that shows [l] milliseconds since the epoch. *)
Definition wall_of (l : Z) : Wall :=
  let '(y, mo, d) := civil_from_days (l / ms_per_day) in
  let t := l mod ms_per_day in
  {| w_y := y; w_mo := mo; w_d := d; w_h := t / hour_ms; w_mi := t / 60000 mod 60; w_s := t / 1000 mod 60 |}.

Definition two (z : Z) : string := unchars (pad 2 z).

(** What [Intl] documents of a known zone: an offset from UTC of whole seconds
    and less than a day, and fields that spell the local time (midnight's hour is
    00, or 24 in older engines) in the common era. *)
Class ClockLaws `{Clock} := {
  zone_offset : string → Z → Z;
  offset_small tz t : -ms_per_day < zone_offset tz t < ms_per_day;
  offset_seconds tz t : zone_offset tz t mod 1000 = 0;
  parts_spell tz f t :
    DateTimeFormat tz = Some f →
    let w := wall_of (t + zone_offset tz t) in
    1 ≤ w_y w →
    ∃ hour, (hour = two (w_h w) ∨ (w_h w = 0 ∧ hour = "24"%string)) ∧
    f t = [("month", two (w_mo w)); ("literal", "/"); ("day", two (w_d w)); ("literal", "/"); ("year", dec (w_y w));
           ("literal", ", "); ("hour", hour); ("literal", ":"); ("minute", two (w_mi w)); ("literal", ":");
           ("second", two (w_s w))]%string;
}.

Lemma digits_pad n z : 0 ≤ z < 10 ^ Z.of_nat n → digits_val (pad n z) 0 = z ∧ Forall (λ c, is_digit c) (pad n z).
Proof.
  revert z. induction n as [|n IH]; intros z Hz; [simpl in *; split; [unfold digits_val; simpl; lia|constructor]|].
  rewrite Nat2Z.inj_succ, Z.pow_succ_r in Hz by lia. simpl.
  assert (0 ≤ z mod 10 < 10) as Hm by (apply Z.mod_pos_bound; lia).
  destruct (IH (z / 10)) as [Hv Hf]; [split; [apply Z.div_pos; lia|apply Z.div_lt_upper_bound; lia]|].
  assert (code (digit_char (z mod 10)) = 48 + z mod 10) as Hc.
  { unfold code, digit_char. rewrite Ascii.N_ascii_embedding; lia. }
  split.
  - unfold digits_val in *. rewrite foldl_app, Hv. simpl. unfold digit_val. rewrite Hc.
    pose proof (Z.div_mod z 10). lia.
  - apply Forall_app. split; [done|]. constructor; [|done]. unfold is_digit. rewrite Hc.
    apply Is_true_true. apply andb_true_iff. split; apply Z.leb_le; lia.
Qed.

Lemma Number_two z : 0 ≤ z < 100 → Number (two z) = NInt z.
Proof.
  intros Hz. destruct (digits_pad 2 z) as [Hv Hf]; [simpl; lia|]. unfold two.
  rewrite Number_digits, Hv; [done|intros E%(f_equal length); by rewrite length_pad in E|done].
Qed.

Lemma wall_of_range l :
  let w := wall_of l in
  1 ≤ w_mo w ≤ 12 ∧ 1 ≤ w_d w ≤ 31 ∧ 0 ≤ w_h w < 24 ∧ 0 ≤ w_mi w < 60 ∧ 0 ≤ w_s w < 60.
Proof.
  pose proof (civil_valid (l / ms_per_day)) as Hv. unfold wall_of. destruct (civil_from_days _) as [[y m] d].
  simpl. destruct Hv as (?&?&_). unfold ms_per_day, hour_ms. split_and!; try lia; try apply Z.mod_pos_bound; try lia; dlia.
Qed.

Lemma Date_UTC_plain y mo d h mi s :
  100 ≤ y → 1 ≤ mo ≤ 12 →
  Date_UTC y (mo - 1) d h mi s = days_from_civil y mo d * ms_per_day + h * hour_ms + mi * 60000 + s * 1000.
Proof.
  intros Hy Hm. unfold Date_UTC. destruct (Z.leb_spec y 99); [lia|]. rewrite andb_false_r.
  rewrite Z.div_small, Z.mod_small, Z.add_0_r by lia. by replace (mo - 1 + 1) with mo by lia.
Qed.

(** [Date.UTC] of what a clock shows, to the second. *)
Lemma utc_wall l : 100 ≤ w_y (wall_of l) → utc_of (wall_of l) = l - l mod 1000.
Proof.
  pose proof (civil_valid (l / ms_per_day)) as Hv. unfold utc_of, wall_of in *.
  destruct (civil_from_days (l / ms_per_day)) as [[y m] d]. simpl. intros Hy. destruct Hv as (Hm & _ & Hz).
  rewrite Date_UTC_plain, Hz by lia.
  unfold ms_per_day, hour_ms. dlia.
Qed.

(** A valid wall time is what the clock shows at its own [Date.UTC]. *)
Lemma validWall_spec w :
  validWall w = true → 100 ≤ w_y w → 0 ≤ w_h w → 0 ≤ w_mi w → 0 ≤ w_s w →
  1 ≤ w_mo w ≤ 12 ∧ 1 ≤ w_d w ≤ days_in_month (w_y w) (w_mo w) ∧ w_h w < 24 ∧ w_mi w < 60 ∧ w_s w < 60.
Proof.
  unfold validWall. intros Hv Hy _ _ _. destruct (_ || _) eqn:E in Hv; [done|]. reflect_bool.
  rewrite Date_UTC_plain, !Z.mul_0_l, !Z.add_0_r, Z.div_mul in Hv by (done || lia). apply civil_day_kept in Hv; lia.
Qed.

Lemma wall_utc w :
  validWall w = true → 100 ≤ w_y w → 0 ≤ w_h w → 0 ≤ w_mi w → 0 ≤ w_s w →
  wall_of (utc_of w) = w ∧ utc_of w mod 1000 = 0.
Proof.
  intros Hv Hy H1 H2 H3. destruct (validWall_spec w Hv Hy H1 H2 H3) as (Hmo & Hd & Hh & Hmi & Hs).
  unfold wall_of, utc_of. rewrite Date_UTC_plain by lia.
  set (z := days_from_civil (w_y w) (w_mo w) (w_d w)).
  assert ((z * ms_per_day + w_h w * hour_ms + w_mi w * 60000 + w_s w * 1000) / ms_per_day = z) as ->
    by (unfold ms_per_day, hour_ms; dlia).
  subst z. rewrite civil_days by done. split; [|unfold ms_per_day, hour_ms; dlia].
  destruct w as [y mo d h mi s]; simpl in *. f_equal; unfold ms_per_day, hour_ms; dlia.
Qed.

Lemma part_fields mo d y h mi s :
  let l := [("month", mo); ("literal", "/"); ("day", d); ("literal", "/"); ("year", y); ("literal", ", "); ("hour", h);
            ("literal", ":"); ("minute", mi); ("literal", ":"); ("second", s)]%string in
  part l "year" = Number y ∧ part l "month" = Number mo ∧ part l "day" = Number d ∧
  part l "hour" = Number h ∧ part l "minute" = Number mi ∧ part l "second" = Number s.
Proof. split_and!; reflexivity. Qed.

(** The module's view of a known zone is its offset. *)
Section clock.
Context {CL : Clock} {LW : ClockLaws}.

Definition local (tz : string) (t : Z) : Z := t + zone_offset tz t.

Lemma wallIn_local tz t :
  isValidTimeZone tz = true → 1 ≤ w_y (wall_of (local tz t)) → wallIn tz t = Some (wall_of (local tz t)).
Proof.
  unfold isValidTimeZone, wallIn. destruct (DateTimeFormat tz) as [f|] eqn:Hf; [intros _ Hy|done].
  destruct (parts_spell tz f t Hf Hy) as (hour & Hh & Hp). fold (local tz t) in *.
  pose proof (wall_of_range (local tz t)) as (Hmo & Hd & Hhr & Hmi & Hs).
  cbn [mbind option_bind]. rewrite Hp. match goal with |- context [part [(_, ?mo); _; (_, ?d); _; (_, ?y); _; (_, ?h); _; (_, ?mi); _; (_, ?s)] _] =>
    destruct (part_fields mo d y h mi s) as (->&->&->&->&->&->) end.
  rewrite !Number_two, Number_dec by lia.
  assert (∃ h, Number hour = NInt h ∧ Z.rem h 24 = w_h (wall_of (local tz t))) as (h & Hn & Hr).
  { destruct Hh as [->|[E ->]].
    - exists (w_h (wall_of (local tz t))). rewrite Number_two by lia. split; [done|]. apply Z.rem_small. lia.
    - exists 24. by rewrite E. }
  rewrite Hn, Hr. by destruct (wall_of (local tz t)).
Qed.

Lemma offsetMs_zone tz t :
  isValidTimeZone tz = true → 100 ≤ w_y (wall_of (local tz t)) → offsetMs tz t = Some (zone_offset tz t).
Proof.
  intros Hv Hy. unfold offsetMs. rewrite wallIn_local by (done || lia). simpl. rewrite utc_wall by done.
  f_equal. unfold local. pose proof (offset_seconds tz t). dlia.
Qed.

(** The two steps of [instantOf] on the offsets alone. *)
Definition settle (off : Z → Z) (l : Z) : Z := l - off (l - off l).

Lemma year_mono a b : a ≤ b → w_y (wall_of a) ≤ w_y (wall_of b).
Proof.
  intros Hab. assert (a / ms_per_day ≤ b / ms_per_day) as Hd by (apply Z.div_le_mono; done).
  unfold wall_of. pose proof (civil_valid (a / ms_per_day)) as Ha. pose proof (civil_valid (b / ms_per_day)) as Hb.
  destruct (civil_from_days (a / ms_per_day)) as [[y m] d], (civil_from_days (b / ms_per_day)) as [[y' m'] d']; simpl.
  destruct Ha as (?&?&Ha), Hb as (?&?&Hb). rewrite <-Ha, <-Hb in Hd. clear Ha Hb Hab.
  destruct (decide (y ≤ y')) as [|Hgt]; [done|exfalso].
  unfold days_from_civil in Hd. destruct (Z.leb_spec m 2), (Z.leb_spec m' 2); dlia.
Qed.

Lemma instantOf_settle tz w :
  isValidTimeZone tz = true → validWall w = true → 1000 ≤ w_y w → 0 ≤ w_h w → 0 ≤ w_mi w → 0 ≤ w_s w →
  instantOf w (Some tz) = Some (ValidDate (settle (zone_offset tz) (utc_of w))).
Proof.
  intros Hz Hv Hy H1 H2 H3. destruct (wall_utc w Hv ltac:(lia) H1 H2 H3) as [Hw _].
  assert (∀ l, utc_of w - 3 * ms_per_day ≤ l → 100 ≤ w_y (wall_of l)) as Hyear.
  { intros l Hl. set (W := utc_of w) in *.
    assert (100 ≤ w_y (wall_of (Date_UTC 100 0 1 0 0 0))) as H100 by (vm_compute; done).
    etrans; [exact H100|]. apply year_mono.
    destruct (decide (Date_UTC 100 0 1 0 0 0 ≤ l)) as [|Hlt]; [done|exfalso].
    assert (w_y (wall_of W) ≤ w_y (wall_of (Date_UTC 200 0 1 0 0 0))) as Hbad.
    { apply year_mono. transitivity (l + 3 * ms_per_day); [lia|].
      transitivity (Date_UTC 100 0 1 0 0 0 + 3 * ms_per_day); [lia|]. vm_compute. done. }
    rewrite Hw in Hbad. change (w_y (wall_of (Date_UTC 200 0 1 0 0 0))) with 200 in Hbad. lia. }
  pose proof (offset_small tz (utc_of w)). unfold ms_per_day in *.
  pose proof (offset_small tz (utc_of w - zone_offset tz (utc_of w))). unfold ms_per_day in *.
  unfold instantOf. cbv zeta. rewrite offsetMs_zone by (done || (apply Hyear; unfold local; lia)). cbn [mbind option_bind].
  rewrite offsetMs_zone by (done || (apply Hyear; unfold local; lia)).
  unfold settle. cbn [mbind option_bind]. reflexivity.
Qed.
End clock.

(** ** The text of a wall time *)

#[local] Arguments all_digits : simpl never.
#[local] Arguments digits_val : simpl never.

Lemma pretty_char_digit x : (x < 10)%N → pretty_N_char x = digit_char (Z.of_N x).
Proof.
  intros Hx. assert (x = 0 ∨ x = 1 ∨ x = 2 ∨ x = 3 ∨ x = 4 ∨ x = 5 ∨ x = 6 ∨ x = 7 ∨ x = 8 ∨ x = 9)%N as Hc by lia.
  by destruct_or!; subst.
Qed.

Lemma pretty_go_pad n : ∀ x s,
  (x < 10 ^ N.of_nat n)%N → (n ≠ 0%nat → 10 ^ (N.of_nat n - 1) ≤ x)%N →
  chars (pretty_N_go x s) = pad n (Z.of_N x) ++ chars s.
Proof.
  induction n as [|n IH]; intros x s Hx Hlow.
  - replace x with 0%N by (simpl in Hx; lia). by rewrite pretty_N_go_0.
  - specialize (Hlow ltac:(done)). rewrite Nat2N.inj_succ in Hx, Hlow. rewrite N.pow_succ_r' in Hx.
    replace (N.succ (N.of_nat n) - 1)%N with (N.of_nat n) in Hlow by lia.
    assert (0 < 10 ^ N.of_nat n)%N by (apply N.neq_0_lt_0, N.pow_nonzero; lia).
    rewrite pretty_N_go_step by lia. rewrite IH.
    + simpl. rewrite N2Z.inj_div, <-(assoc_L (++)). f_equal. simpl. f_equal.
      rewrite pretty_char_digit by (apply N.mod_lt; lia). by rewrite N2Z.inj_mod.
    + apply N.Div0.div_lt_upper_bound. lia.
    + intros Hn. apply N.div_le_lower_bound; [lia|]. etrans; [|exact Hlow].
      replace (N.of_nat n) with (N.succ (N.of_nat n - 1)) at 2 by lia. by rewrite N.pow_succ_r'.
Qed.

Lemma dec_pad n z : 10 ^ (Z.of_nat n) ≤ z < 10 ^ (Z.of_nat (S n)) → chars (dec z) = pad (S n) z.
Proof.
  intros Hz. assert (0 < 10 ^ Z.of_nat n) by (apply Z.pow_pos_nonneg; lia).
  destruct z as [|p|p]; [lia| |lia].
  change (dec (Z.pos p)) with (pretty (N.pos p)). unfold pretty, pretty_N. case_decide; [done|].
  rewrite (pretty_go_pad (S n)); [apply app_nil_r| |].
  - apply N2Z.inj_lt. rewrite N2Z.inj_pow. rewrite nat_N_Z. simpl (Z.of_N 10). simpl (Z.of_N (N.pos p)). lia.
  - intros _. replace (N.of_nat (S n) - 1)%N with (N.of_nat n) by lia.
    apply N2Z.inj_le. rewrite N2Z.inj_pow, nat_N_Z. simpl (Z.of_N 10). simpl (Z.of_N (N.pos p)). lia.
Qed.

Lemma pad2_two z : 0 ≤ z < 100 → chars (pad2 z) = pad 2 z.
Proof.
  intros Hz. unfold pad2. destruct (Z.ltb_spec z 10) as [Hlt|Hge].
  - assert (z = 0 ∨ z = 1 ∨ z = 2 ∨ z = 3 ∨ z = 4 ∨ z = 5 ∨ z = 6 ∨ z = 7 ∨ z = 8 ∨ z = 9) as Hc by lia.
    by destruct_or!; subst.
  - apply (dec_pad 1). simpl. lia.
Qed.

(** The value of a [datetime-local] field, with and without seconds. *)
Definition field_text (seconds : bool) (w : Wall) : string :=
  unchars (pad 4 (w_y w) ++ chars "-" ++ pad 2 (w_mo w) ++ chars "-" ++ pad 2 (w_d w) ++ chars "T"
    ++ pad 2 (w_h w) ++ chars ":" ++ pad 2 (w_mi w) ++ (if seconds then chars ":" ++ pad 2 (w_s w) else [])).
Definition date_text (y mo d : Z) : string := unchars (pad 4 y ++ chars "-" ++ pad 2 mo ++ chars "-" ++ pad 2 d).

(** Every field in the width it is printed with. *)
Definition wall_fits (w : Wall) : Prop :=
  1000 ≤ w_y w ≤ 9999 ∧ 0 ≤ w_mo w < 100 ∧ 0 ≤ w_d w < 100 ∧ 0 ≤ w_h w < 100 ∧ 0 ≤ w_mi w < 100 ∧ 0 ≤ w_s w < 100.

Lemma pad_reads n z : 0 ≤ z < 10 ^ Z.of_nat n → all_digits (pad n z) = true ∧ digits_val (pad n z) 0 = z.
Proof.
  intros Hz. destruct (digits_pad n z Hz) as [Hv Hf]. split; [|done]. unfold all_digits. apply forallb_forall.
  intros c Hc%list_elem_of_In. rewrite Forall_forall in Hf. by apply Is_true_true, Hf.
Qed.

Lemma list_2 {A} (l : list A) : length l = 2%nat → ∃ a b, l = [a; b].
Proof. destruct l as [|a [|b [|? ?]]]; try done. eauto. Qed.
Lemma list_4 {A} (l : list A) : length l = 4%nat → ∃ a b c d, l = [a; b; c; d].
Proof. destruct l as [|a [|b [|c [|d [|? ?]]]]]; try done. eauto 10. Qed.

Lemma all_digits_app l k : all_digits (l ++ k) = all_digits l && all_digits k.
Proof. apply forallb_app. Qed.

Lemma D_RE_date y mo d rest :
  0 ≤ y < 10000 → 0 ≤ mo < 100 → 0 ≤ d < 100 →
  let l := pad 4 y ++ chars "-" ++ pad 2 mo ++ chars "-" ++ pad 2 d ++ rest in
  D_RE (take 10 l) = Some (y, mo, d) ∧ drop 10 l = rest.
Proof.
  intros Hy Hm Hd. destruct (pad_reads 4 y) as [Dy Vy]; [simpl; lia|].
  destruct (pad_reads 2 mo) as [Dm Vm]; [simpl; lia|]. destruct (pad_reads 2 d) as [Dd Vd]; [simpl; lia|].
  destruct (list_4 (pad 4 y) (length_pad _ _)) as (a&b&c&e&Ey). rewrite Ey in *.
  destruct (list_2 (pad 2 mo) (length_pad _ _)) as (m1&m0&Em). rewrite Em in *.
  destruct (list_2 (pad 2 d) (length_pad _ _)) as (d1&d0&Ed). rewrite Ed in *.
  simpl. split; [|by rewrite drop_0].
  change [a; b; c; e; m1; m0; d1; d0] with ([a; b; c; e] ++ [m1; m0] ++ [d1; d0]).
  rewrite !all_digits_app, Dy, Dm, Dd, Vy, Vm, Vd. done.
Qed.

Lemma DT_RE_text seconds w :
  wall_fits w → (seconds = false → w_s w = 0) → DT_RE (chars (field_text seconds w)) = Some w.
Proof.
  intros (Hy & Hmo & Hd & Hh & Hmi & Hs) Hsec. unfold DT_RE, field_text. rewrite chars_unchars.
  match goal with |- context [take 10 (pad 4 _ ++ _ ++ pad 2 _ ++ _ ++ pad 2 _ ++ ?r)] =>
    destruct (D_RE_date (w_y w) (w_mo w) (w_d w) r) as [-> ->]; [lia..|] end.
  destruct (pad_reads 2 (w_h w)) as [Dh Vh]; [simpl; lia|]. destruct (pad_reads 2 (w_mi w)) as [Dm Vm]; [simpl; lia|].
  destruct (pad_reads 2 (w_s w)) as [Ds Vs]; [simpl; lia|].
  destruct (list_2 (pad 2 (w_h w)) (length_pad _ _)) as (h1&h0&Eh). rewrite Eh in *.
  destruct (list_2 (pad 2 (w_mi w)) (length_pad _ _)) as (m1&m0&Em). rewrite Em in *.
  destruct (list_2 (pad 2 (w_s w)) (length_pad _ _)) as (s1&s0&Es). rewrite Es in *.
  destruct seconds; simpl.
  - change [h1; h0; m1; m0; s1; s0] with ([h1; h0] ++ [m1; m0] ++ [s1; s0]).
    rewrite !all_digits_app, Dh, Dm, Ds, Vh, Vm, Vs. by destruct w.
  - change [h1; h0; m1; m0] with ([h1; h0] ++ [m1; m0]).
    rewrite !all_digits_app, Dh, Dm, Vh, Vm. simpl. rewrite <-(Hsec eq_refl). by destruct w.
Qed.

(** ** A change of the clocks *)

(** Within three days of local time [l] the zone changes its offset at most
    once, at [T], from [a] to [b]. *)
Definition one_change (off : Z → Z) (l T a b : Z) : Prop :=
  ∀ t, l - 3 * ms_per_day ≤ t ≤ l + 3 * ms_per_day → off t = if t <? T then a else b.

Section offsets.
Context (off : Z → Z) (l T a b : Z).
Context (small : ∀ t, -ms_per_day < off t < ms_per_day) (shape : one_change off l T a b).

(** The bounds and the value of the offset at an instant the computation looks
    at. *)
Ltac look t := pose proof (small t); unfold ms_per_day in *;
  let E := fresh "E" in pose proof (shape t ltac:(unfold ms_per_day in *; lia)) as E; destruct (Z.ltb_spec t T).

(** A local time that occurs is found. *)
Lemma settle_shows t0 : t0 + off t0 = l → settle off l + off (settle off l) = l.
Proof using small shape.
  intros H0. unfold settle. look t0; look l; look (l - off l); look (l - off (l - off l)); lia.
Qed.

(** A local time that occurs twice: the answer is the first occurrence exactly
    when, read as UTC, it lies before the change. *)
Lemma settle_twice t1 t2 :
  t1 < t2 → t1 + off t1 = l → t2 + off t2 = l → settle off l = if l <? T then t1 else t2.
Proof using small shape.
  intros Hlt H1 H2. unfold settle. look t1; look t2; look l; look (l - off l); lia.
Qed.

(** A local time that is skipped: the answer is off by the width of the gap,
    early when, read as UTC, it lies before the change, late otherwise. *)
Lemma settle_skipped :
  (∀ t, t + off t ≠ l) → settle off l + off (settle off l) = if l <? T then l - (b - a) else l + (b - a).
Proof using small shape.
  intros H0. pose proof (H0 (l - off l)). pose proof (H0 (settle off l)). unfold settle in *.
  look l; look (l - off l); look (l - off (l - off l)); lia.
Qed.

(** A local time the change does not touch splits the instants: those from the
    answer on show it or a later one. *)
Lemma settle_splits t :
  (l < T + Z.min a b ∨ T + Z.max a b ≤ l) → l - 2 * ms_per_day ≤ t ≤ l + 2 * ms_per_day →
  (settle off l ≤ t ↔ l ≤ t + off t).
Proof using small shape.
  intros Hc Ht. unfold settle. look t; look l; look (l - off l); lia.
Qed.
(** Such a local time is shown, and at one instant only. *)
Lemma settle_clear : (l < T + Z.min a b ∨ T + Z.max a b ≤ l) → settle off l + off (settle off l) = l.
Proof using small shape. intros Hc. unfold settle. look l; look (l - off l); look (l - off (l - off l)); lia. Qed.
Lemma settle_only t :
  (l < T + Z.min a b ∨ T + Z.max a b ≤ l) → t + off t = l → t = settle off l.
Proof using small shape.
  intros Hc Ht. unfold settle. look t; look l; look (l - off l); lia.
Qed.
End offsets.

(** ** Theorems *)

Section theorems.
Context {CL : Clock} {LW : ClockLaws}.

(** The zone's clock shows [w] at the whole second [t]. *)
Definition shows (tz : string) (t : Z) (w : Wall) : Prop := t mod 1000 = 0 ∧ wall_of (local tz t) = w.

Lemma shows_local tz t w : 100 ≤ w_y w → shows tz t w → local tz t = utc_of w.
Proof.
  intros Hy [Ht Hw]. rewrite <-Hw in *. rewrite utc_wall by done. pose proof (offset_seconds tz t).
  unfold local in *. dlia.
Qed.
Lemma local_shows tz t w :
  validWall w = true → wall_fits w → local tz t = utc_of w → shows tz t w.
Proof.
  intros Hv (Hy & _ & _ & Hh & Hmi & Hs) Hl. destruct (wall_utc w Hv) as [Hw Hm]; [lia..|].
  split; [|by rewrite Hl]. pose proof (offset_seconds tz t). unfold local in Hl. dlia.
Qed.

Lemma format_shown tz t w :
  isValidTimeZone tz = true → wall_fits w → wall_of (local tz t) = w →
  formatDatetimeLocal (ValidDate t) (Some tz) = Some (field_text false w).
Proof.
  intros Hz (Hy & Hmo & Hd & Hh & Hmi & Hs) Hw. unfold formatDatetimeLocal.
  rewrite wallIn_local by (done || (rewrite Hw; lia)). rewrite Hw. cbn [mbind option_bind]. f_equal.
  apply (inj chars). unfold field_text. rewrite chars_unchars, !chars_append, !pad2_two, (dec_pad 3) by (simpl; lia).
  by rewrite (right_id_L [] (++)).
Qed.

(** C33: what a date field says is what the zone's clock shows.  For a valid
    field value, with or without seconds, of a year from 1000 to 9999, in a known
    zone whose clock changes at most once in the days around it, the parsed
    instant exists and: when the zone shows that wall time at all, the instant
    shows it, and formatting the instant gives a value without seconds back (a
    formatted value never has them); when it is shown once, that is the instant;
    when the clock is turned back over it, the first of the two is taken exactly
    if the value read as UTC lies before the change, and otherwise the second
    (the module's comment promises the first: [overlap_takes_second]); when it is
    skipped, the instant shows the value moved by exactly the width of the gap,
    back if the value read as UTC lies before the change and on otherwise (which
    is not the nearest valid instant of the comment: [gap_not_nearest]). *)
Theorem wall_time_round_trip tz seconds w T a b :
  isValidTimeZone tz = true → validWall w = true → wall_fits w → (seconds = false → w_s w = 0) →
  one_change (zone_offset tz) (utc_of w) T a b →
  ∃ t, parseDatetimeLocal (field_text seconds w) (Some tz) = Some (Some (ValidDate t)) ∧
    (∀ t0, shows tz t0 w →
       wallIn tz t = Some w ∧
       (seconds = false → formatDatetimeLocal (ValidDate t) (Some tz) = Some (field_text seconds w))) ∧
    (∀ t0, shows tz t0 w → (∀ t1, shows tz t1 w → t1 = t0) → t = t0) ∧
    (∀ t1 t2, t1 < t2 → shows tz t1 w → shows tz t2 w → t = if utc_of w <? T then t1 else t2) ∧
    ((∀ t0, ¬ shows tz t0 w) →
       local tz t = if utc_of w <? T then utc_of w - (b - a) else utc_of w + (b - a)).
Proof.
  intros Hz Hv Hf Hsec Hone. pose proof Hf as (Hy & _ & _ & Hh & Hmi & Hs).
  exists (settle (zone_offset tz) (utc_of w)).
  assert (∀ t0, shows tz t0 w → shows tz (settle (zone_offset tz) (utc_of w)) w) as Hfound.
  { intros t0 Ht0%shows_local; [|lia]. apply local_shows; [done..|].
    by apply (settle_shows _ _ T a b (offset_small tz) Hone t0). }
  split_and!.
  - unfold parseDatetimeLocal. rewrite DT_RE_text by done. rewrite Hv. simpl negb. cbv iota.
    rewrite instantOf_settle by (done || lia). done.
  - intros t0 [_ Hw]%Hfound. split; [rewrite <-Hw at 2; apply wallIn_local; [done|]; rewrite Hw; lia|].
    intros ->. by apply format_shown.
  - intros t0 Ht0 Huniq. by apply Huniq, (Hfound t0).
  - intros t1 t2 Hlt Ht1%shows_local Ht2%shows_local; [|lia..].
    by apply (settle_twice _ _ T a b (offset_small tz) Hone).
  - intros Hnone. apply (settle_skipped _ _ T a b (offset_small tz) Hone).
    intros t E. by apply (Hnone t), local_shows.
Qed.

(** The midnight a date starts at, and the next one. *)
Lemma midnight_utc y mo d :
  validWall (midnight y mo d) = true → 1000 ≤ y →
  1 ≤ mo ≤ 12 ∧ 1 ≤ d ≤ days_in_month y mo ∧ utc_of (midnight y mo d) = days_from_civil y mo d * ms_per_day.
Proof.
  intros Hv Hy. destruct (validWall_spec _ Hv) as (?&?&_); simpl in *; [lia..|]. split_and!; try lia.
  unfold utc_of. cbn [midnight w_y w_mo w_d w_h w_mi w_s]. rewrite Date_UTC_plain by lia. lia.
Qed.

Lemma next_midnight y mo d ny nmo nd :
  validWall (midnight y mo d) = true → 1000 ≤ y →
  civil_from_days (Date_UTC y (mo - 1) (d + 1) 0 0 0 / ms_per_day) = (ny, nmo, nd) →
  validWall (midnight ny nmo nd) = true ∧ 1000 ≤ ny ∧
  utc_of (midnight ny nmo nd) = utc_of (midnight y mo d) + ms_per_day.
Proof.
  intros Hv Hy E. destruct (midnight_utc y mo d Hv Hy) as (Hmo & Hd & ->).
  rewrite Date_UTC_plain, !Z.mul_0_l, !Z.add_0_r, Z.div_mul in E by (done || lia).
  assert (days_from_civil y mo (d + 1) = days_from_civil y mo d + 1) as Hz by (unfold days_from_civil; lia).
  rewrite Hz in E. pose proof (civil_valid (days_from_civil y mo d + 1)) as Hn. rewrite E in Hn.
  destruct Hn as (Hnm & Hnd & Hdays).
  assert (1000 ≤ ny) as Hny.
  { pose proof (year_mono (days_from_civil y mo d * ms_per_day) ((days_from_civil y mo d + 1) * ms_per_day)) as Hm.
    unfold wall_of in Hm. rewrite !Z.div_mul, civil_days, E in Hm by done. simpl in Hm. unfold ms_per_day in Hm. lia. }
  assert (Date_UTC ny (nmo - 1) nd 0 0 0 = (days_from_civil y mo d + 1) * ms_per_day) as Hu.
  { rewrite Date_UTC_plain by lia. rewrite Hdays. lia. }
  split_and!; [|done|unfold utc_of; cbn [midnight w_y w_mo w_d w_h w_mi w_s]; rewrite Hu; lia].
  unfold validWall. cbn [midnight w_y w_mo w_d w_h w_mi w_s]. rewrite Hu, Z.div_mul, E by done.
  destruct (Z.ltb_spec nmo 1), (Z.ltb_spec 12 nmo), (Z.ltb_spec nd 1); try lia. apply Z.eqb_refl.
Qed.

Lemma instant_range tz l : l - ms_per_day < settle (zone_offset tz) l < l + ms_per_day.
Proof. unfold settle. pose proof (offset_small tz (l - zone_offset tz l)). lia. Qed.

(** A date means its day.  For a known zone whose clock changes at most once
    in the days around each of the two midnights, and not across them, the
    instants between [startOfDayInZone] and [endOfDayInZone] of a date are
    exactly those at which the zone's calendar shows that date, however long the
    day is. *)
Theorem day_bounds tz y mo d T a b T' a' b' :
  isValidTimeZone tz = true → validWall (midnight y mo d) = true → 1000 ≤ y ≤ 9999 →
  let l := utc_of (midnight y mo d) in
  let l' := l + ms_per_day in
  one_change (zone_offset tz) l T a b → (l < T + Z.min a b ∨ T + Z.max a b ≤ l) →
  one_change (zone_offset tz) l' T' a' b' → (l' < T' + Z.min a' b' ∨ T' + Z.max a' b' ≤ l') →
  ∃ s e, startOfDayInZone (date_text y mo d) (Some tz) = Some (Some (ValidDate s)) ∧
    endOfDayInZone (date_text y mo d) (Some tz) = Some (Some (ValidDate e)) ∧
    ∀ t, s ≤ t ≤ e ↔ civil_from_days (local tz t / ms_per_day) = (y, mo, d).
Proof.
  intros Hz Hv Hy l l' Hone Hclear Hone' Hclear'. destruct (midnight_utc y mo d Hv) as (Hmo & Hd & Hl); [lia|].
  pose proof (days_in_month_bound y mo). fold l in Hl.
  assert (D_RE (chars (date_text y mo d)) = Some (y, mo, d)) as HD.
  { unfold date_text. rewrite chars_unchars. destruct (D_RE_date y mo d []) as [Hr _]; [lia..|].
    rewrite (right_id_L [] (++)) in Hr. rewrite take_ge in Hr; [done|].
    rewrite !length_app, !length_pad. simpl. lia. }
  exists (settle (zone_offset tz) l), (settle (zone_offset tz) l' - 1).
  assert (startOfDayInZone (date_text y mo d) (Some tz) = Some (Some (ValidDate (settle (zone_offset tz) l)))) as Hs.
  { unfold startOfDayInZone. rewrite HD. cbv zeta. rewrite Hv. simpl negb. cbv iota.
    rewrite instantOf_settle by (done || (simpl; lia)). done. }
  split_and!; [done| |].
  - unfold endOfDayInZone. rewrite Hs. cbn [mbind option_bind]. rewrite HD.
    destruct (civil_from_days (Date_UTC _ _ _ _ _ _ / _)) as [[ny nmo] nd] eqn:E.
    destruct (next_midnight y mo d ny nmo nd Hv ltac:(lia) E) as (Hv' & Hny & Hu).
    rewrite instantOf_settle by (done || (simpl; lia)). rewrite Hu. done.
  - intros t. assert (civil_from_days (local tz t / ms_per_day) = (y, mo, d) ↔ l ≤ local tz t < l') as ->.
    { transitivity (local tz t / ms_per_day = days_from_civil y mo d).
      - rewrite <-(civil_days y mo d) by done. split; [apply civil_from_days_inj|by intros ->].
      - subst l'. rewrite Hl. unfold ms_per_day. clear. split; intros; dlia. }
    pose proof (instant_range tz l). pose proof (instant_range tz l'). pose proof (offset_small tz t).
    destruct (decide (l - ms_per_day ≤ t ≤ l + 2 * ms_per_day)) as [Hin|Hout].
    + pose proof (settle_splits _ _ T a b (offset_small tz) Hone t Hclear ltac:(unfold ms_per_day in *; lia)).
      pose proof (settle_splits _ _ T' a' b' (offset_small tz) Hone' t Hclear' ltac:(subst l'; unfold ms_per_day in *; lia)).
      unfold local. lia.
    + unfold local. subst l'. unfold ms_per_day in *. lia.
Qed.
End theorems.

(** ** Three zones in 2026 *)

Definition demo_zone (tz : string) : option (Z * Z * Z) :=
  if tz =s "Europe/Berlin" then Some (Date_UTC 2026 9 25 1 0 0, 7200000, 3600000)
  else if tz =s "America/New_York" then Some (Date_UTC 2026 10 1 6 0 0, -14400000, -18000000)
  else if tz =s "America/Santiago" then Some (Date_UTC 2026 8 6 4 0 0, -14400000, -10800000)
  else None.
Definition demo_offset (tz : string) (t : Z) : Z :=
  match demo_zone tz with Some (T, a, b) => if t <? T then a else b | None => 0 end.
Definition demo_fields (l : Z) : list (string * string) :=
  let w := wall_of l in
  [("month", two (w_mo w)); ("literal", "/"); ("day", two (w_d w)); ("literal", "/"); ("year", dec (w_y w));
   ("literal", ", "); ("hour", two (w_h w)); ("literal", ":"); ("minute", two (w_mi w)); ("literal", ":");
   ("second", two (w_s w))]%string.
#[local] Instance demo_clock : Clock := {|
  DateTimeFormat tz := _ ← demo_zone tz; Some (λ t, demo_fields (t + demo_offset tz t));
  localInstant w := ValidDate (utc_of w);
  localWall := wall_of |}.
#[local] Instance demo_laws : ClockLaws.
Proof.
  refine {| zone_offset := demo_offset |}.
  - intros tz t. unfold demo_offset, demo_zone, ms_per_day. repeat case_match; simplify_eq; lia.
  - intros tz t. unfold demo_offset, demo_zone. repeat case_match; simplify_eq; reflexivity.
  - intros tz f t Hf w _. exists (two (w_h w)). split; [by left|]. simpl in Hf.
    destruct (demo_zone tz); [|done]. cbn [mbind option_bind] in Hf. injection Hf as <-. reflexivity.
Defined.

Lemma demo_change tz l T a b : demo_zone tz = Some (T, a, b) → one_change (zone_offset tz) l T a b.
Proof. intros Hz t _. unfold zone_offset. simpl. unfold demo_offset. by rewrite Hz. Qed.

Definition demo_wall : Wall := {| w_y := 2026; w_mo := 10; w_d := 1; w_h := 9; w_mi := 30; w_s := 0 |}.
Lemma wall_time_round_trip_witness :
  parseDatetimeLocal "2026-10-01T09:30" (Some "Europe/Berlin") = Some (Some (ValidDate (Date_UTC 2026 9 1 7 30 0))) ∧
  ∃ t, parseDatetimeLocal (field_text false demo_wall) (Some "Europe/Berlin") = Some (Some (ValidDate t)) ∧
    formatDatetimeLocal (ValidDate t) (Some "Europe/Berlin") = Some "2026-10-01T09:30"%string.
Proof.
  split; [vm_compute; reflexivity|].
  destruct (wall_time_round_trip (CL := demo_clock) (LW := demo_laws) "Europe/Berlin" false demo_wall (Date_UTC 2026 9 25 1 0 0) 7200000 3600000
    ltac:(vm_compute; reflexivity) ltac:(vm_compute; reflexivity) ltac:(vm_compute; split_and!; (discriminate || reflexivity))
    (λ _, eq_refl) (demo_change "Europe/Berlin" _ _ _ _ eq_refl)) as (t & Hp & Hs & _).
  exists t. split; [exact Hp|].
  destruct (Hs (Date_UTC 2026 9 1 7 30 0) ltac:(split; vm_compute; reflexivity)) as [_ Hf].
  exact (Hf eq_refl).
Defined.

Lemma day_bounds_witness :
  ∃ s e, startOfDayInZone (date_text 2026 10 25) (Some "Europe/Berlin") = Some (Some (ValidDate s)) ∧
    endOfDayInZone (date_text 2026 10 25) (Some "Europe/Berlin") = Some (Some (ValidDate e)) ∧ e - s + 1 = 25 * hour_ms.
Proof.
  destruct (day_bounds (CL := demo_clock) (LW := demo_laws) "Europe/Berlin" 2026 10 25 (Date_UTC 2026 9 25 1 0 0) 7200000 3600000
    (Date_UTC 2026 9 25 1 0 0) 7200000 3600000
    ltac:(vm_compute; reflexivity) ltac:(vm_compute; reflexivity) ltac:(split; discriminate)
    (demo_change "Europe/Berlin" _ _ _ _ eq_refl) ltac:(left; vm_compute; reflexivity)
    (demo_change "Europe/Berlin" _ _ _ _ eq_refl) ltac:(right; vm_compute; discriminate)) as (s & e & Hs & He & _).
  exists s, e. split; [exact Hs|]. split; [exact He|].
  assert (startOfDayInZone (date_text 2026 10 25) (Some "Europe/Berlin") = Some (Some (ValidDate (Date_UTC 2026 9 24 22 0 0))))
    as Hs' by (vm_compute; reflexivity).
  assert (endOfDayInZone (date_text 2026 10 25) (Some "Europe/Berlin") = Some (Some (ValidDate (Date_UTC 2026 9 25 23 0 0 - 1))))
    as He' by (vm_compute; reflexivity).
  rewrite Hs' in Hs. rewrite He' in He. injection Hs as <-. injection He as <-. vm_compute. reflexivity.
Defined.

(** The module's comment promises the first of two occurrences.  West of
    Greenwich it is; east of it the second is taken. *)
Theorem overlap_takes_second :
  parseDatetimeLocal "2026-11-01T01:30" (Some "America/New_York") = Some (Some (ValidDate (Date_UTC 2026 10 1 5 30 0))) ∧
  (∃ t1 t2, t1 < t2 ∧
     formatDatetimeLocal (ValidDate t1) (Some "Europe/Berlin") = Some "2026-10-25T02:30"%string ∧
     formatDatetimeLocal (ValidDate t2) (Some "Europe/Berlin") = Some "2026-10-25T02:30"%string ∧
     parseDatetimeLocal "2026-10-25T02:30" (Some "Europe/Berlin") = Some (Some (ValidDate t2))).
Proof.
  split; [vm_compute; reflexivity|].
  exists (Date_UTC 2026 9 25 0 30 0), (Date_UTC 2026 9 25 1 30 0). split_and!; vm_compute; reflexivity.
Qed.

(** Where the clocks go forward at midnight, a day west of Greenwich starts an
    hour early: the last hour of the fifth belongs to the sixth. *)
Theorem skipped_midnight_starts_early :
  startOfDayInZone "2026-09-06" (Some "America/Santiago") = Some (Some (ValidDate (Date_UTC 2026 8 6 3 0 0))) ∧
  endOfDayInZone "2026-09-05" (Some "America/Santiago") = Some (Some (ValidDate (Date_UTC 2026 8 6 3 0 0 - 1))) ∧
  formatDatetimeLocal (ValidDate (Date_UTC 2026 8 6 3 0 0)) (Some "America/Santiago") = Some "2026-09-05T23:00"%string.
Proof. split_and!; vm_compute; reflexivity. Qed.

(** The comment promises the nearest valid instant for a wall time that is
    skipped: 00:30 in a gap from 00:00 to 01:00 is half an hour from either edge,
    and is read as 23:30 of the day before, an hour away. *)
Theorem gap_not_nearest :
  ∃ t, parseDatetimeLocal "2026-09-06T00:30" (Some "America/Santiago") = Some (Some (ValidDate t)) ∧
    formatDatetimeLocal (ValidDate t) (Some "America/Santiago") = Some "2026-09-05T23:30"%string ∧
    formatDatetimeLocal (ValidDate (Date_UTC 2026 8 6 4 0 0)) (Some "America/Santiago") = Some "2026-09-06T01:00"%string.
Proof. exists (Date_UTC 2026 8 6 3 30 0). split_and!; vm_compute; reflexivity. Qed.

(** [Date.UTC] reads the years 0 to 99 as 1900 to 1999. *)
Theorem two_digit_years :
  parseDatetimeLocal "0026-09-10T09:00" (Some "Europe/Berlin") = Some (Some (ValidDate (Date_UTC 1926 8 10 7 0 0))).
Proof. vm_compute. reflexivity. Qed.
