(* ===== verification/Config.v ===== *)
(** * What an administrator configures

    The routes admin/policy/platform, admin/directory (settings, test, mappings,
    preview), admin/smtp, admin/branding/splash, admin/updates and
    center/settings, with the rest of src/lib/settings/platform.ts,
    src/lib/tenant/center-time-zone.ts, src/lib/email/mailer.ts and transport.ts,
    src/lib/branding/splash.ts and src/lib/updates.

    Every table keeps one row per tenant, keyed by [tenantId]; a handler runs for
    one tenant [tid].  A body that is JSON [null] makes the first field access
    throw.  The cipher, the parse of a URL or of base64, the names [Intl] knows,
    the answers of the connector, of GitHub and of the mail relay are arguments. *)

From S2P Require Import Prelude JsString JsValue Schema Transaction AuditChain AccessLog AdminLog Identity Cidr Access Sessions Settings Gateway Tenant Directory SignIn Passkeys Provider.

(** ** State *)

Record SmtpRow := {
  sm_host : string; sm_port : Z; sm_secure : bool; sm_username : string; sm_password : string;
  sm_fromName : string; sm_fromEmail : string; sm_enabled : bool; sm_verified : option (Z * bool * option string);
}.
Record BrandingRow := { br_splash : option string; br_type : option string }.
Record UpdateRow := {
  up_enabled : bool; up_latestVersion : option string; up_latestUrl : option string;
  up_checkedAt : option Z; up_checkOk : option bool;
}.

Record Setup := {
  su_settings : SettingsStore;
  (** The columns guacParamDefaults and displayTimezoneFromCenterAt. *)
  su_guac : gmap string json;
  su_zoneAt : gmap string Z;
  su_orgs : gmap string string;
  su_smtp : gmap string SmtpRow;
  su_directory : gmap string DirectoryConfig;
  su_mappings : gmap string (list GroupMapping);
  (** Connectors of a tenant with their status, and its sites. *)
  su_connectors : gmap string (list (string * string));
  su_sites : gmap string (list string);
  su_branding : gmap string BrandingRow;
  su_updates : gmap string UpdateRow;
  su_log : AdminDb;
}.

Definition set_settings (st : SettingsStore) (db : Setup) : Setup :=
  {| su_settings := st; su_guac := su_guac db; su_zoneAt := su_zoneAt db; su_orgs := su_orgs db; su_smtp := su_smtp db;
     su_directory := su_directory db; su_mappings := su_mappings db; su_connectors := su_connectors db; su_sites := su_sites db;
     su_branding := su_branding db; su_updates := su_updates db; su_log := su_log db |}.
Definition set_guac (g : gmap string json) (db : Setup) : Setup :=
  {| su_settings := su_settings db; su_guac := g; su_zoneAt := su_zoneAt db; su_orgs := su_orgs db; su_smtp := su_smtp db;
     su_directory := su_directory db; su_mappings := su_mappings db; su_connectors := su_connectors db; su_sites := su_sites db;
     su_branding := su_branding db; su_updates := su_updates db; su_log := su_log db |}.
Definition set_zoneAt (z : gmap string Z) (db : Setup) : Setup :=
  {| su_settings := su_settings db; su_guac := su_guac db; su_zoneAt := z; su_orgs := su_orgs db; su_smtp := su_smtp db;
     su_directory := su_directory db; su_mappings := su_mappings db; su_connectors := su_connectors db; su_sites := su_sites db;
     su_branding := su_branding db; su_updates := su_updates db; su_log := su_log db |}.
Definition set_smtp (m : gmap string SmtpRow) (db : Setup) : Setup :=
  {| su_settings := su_settings db; su_guac := su_guac db; su_zoneAt := su_zoneAt db; su_orgs := su_orgs db; su_smtp := m;
     su_directory := su_directory db; su_mappings := su_mappings db; su_connectors := su_connectors db; su_sites := su_sites db;
     su_branding := su_branding db; su_updates := su_updates db; su_log := su_log db |}.
Definition set_directory (m : gmap string DirectoryConfig) (db : Setup) : Setup :=
  {| su_settings := su_settings db; su_guac := su_guac db; su_zoneAt := su_zoneAt db; su_orgs := su_orgs db; su_smtp := su_smtp db;
     su_directory := m; su_mappings := su_mappings db; su_connectors := su_connectors db; su_sites := su_sites db;
     su_branding := su_branding db; su_updates := su_updates db; su_log := su_log db |}.
Definition set_mappings (m : gmap string (list GroupMapping)) (db : Setup) : Setup :=
  {| su_settings := su_settings db; su_guac := su_guac db; su_zoneAt := su_zoneAt db; su_orgs := su_orgs db; su_smtp := su_smtp db;
     su_directory := su_directory db; su_mappings := m; su_connectors := su_connectors db; su_sites := su_sites db;
     su_branding := su_branding db; su_updates := su_updates db; su_log := su_log db |}.
Definition set_branding (m : gmap string BrandingRow) (db : Setup) : Setup :=
  {| su_settings := su_settings db; su_guac := su_guac db; su_zoneAt := su_zoneAt db; su_orgs := su_orgs db; su_smtp := su_smtp db;
     su_directory := su_directory db; su_mappings := su_mappings db; su_connectors := su_connectors db; su_sites := su_sites db;
     su_branding := m; su_updates := su_updates db; su_log := su_log db |}.
Definition set_updates (m : gmap string UpdateRow) (db : Setup) : Setup :=
  {| su_settings := su_settings db; su_guac := su_guac db; su_zoneAt := su_zoneAt db; su_orgs := su_orgs db; su_smtp := su_smtp db;
     su_directory := su_directory db; su_mappings := su_mappings db; su_connectors := su_connectors db; su_sites := su_sites db;
     su_branding := su_branding db; su_updates := m; su_log := su_log db |}.
Definition set_log (l : AdminDb) (db : Setup) : Setup :=
  {| su_settings := su_settings db; su_guac := su_guac db; su_zoneAt := su_zoneAt db; su_orgs := su_orgs db; su_smtp := su_smtp db;
     su_directory := su_directory db; su_mappings := su_mappings db; su_connectors := su_connectors db; su_sites := su_sites db;
     su_branding := su_branding db; su_updates := su_updates db; su_log := l |}.

(** ** Reading a body *)

(** [await req.json().catch(() => ({}))], whose first use throws on [null]. *)
Definition reading {A} (body : json) (db : Setup) (h : Setup * response A) : Setup * response A :=
  match body with JNull => (db, Fail 500 "") | _ => h end.
Definition is_true (v : json) : bool := match v with JBool true => true | _ => false end.
Definition not_false (v : json) : bool := match v with JBool false => false | _ => true end.

(** [Number(v)] of any value. *)
Definition js_Number (frac_text : Z → string) (v : json) : jsnum :=
  match v with
  | JUndefined => NNaN
  | JNull => NInt 0
  | JBool b => NInt (if b then 1 else 0)
  | JNum n => n
  | JStr s => Number s
  | JArr _ | JObj _ => Number (js_String frac_text v)
  end.

Definition toIntMin (v : json) (min : Z) : option Z :=
  let n := match v with
           | JNum n => n
           | JStr s => if truthy (trim s) then Number s else NNaN
           | _ => NNaN
           end in
  if isFinite n && num_ge n min then num_floor n else None.

(** A known name, or nothing. *)
Definition choice (allowed : list string) (v : json) : option string :=
  match v with JStr s => if bool_decide (s ∈ allowed) then Some s else None | _ => None end.

Section urls.
Context (parse_url : string → option Url).

Definition is_http (s : string) : bool :=
  match parse_url s with
  | Some u => (u_protocol u =s "http:") || (u_protocol u =s "https:")
  | None => false
  end.

(** [None] is [ok: false]. *)
Definition toWebhook (v : json) : option (option string) :=
  match v with
  | JStr s => if negb (truthy (trim s)) then Some None else if is_http (trim s) then Some (Some (trim s)) else None
  | _ => Some None
  end.
End urls.

(** ** The platform settings *)

(** The integers of the row are 32-bit columns: a larger value makes the write
    throw. *)
Definition int4_columns (s : PlatformSettings) : bool :=
  forallb (λ o, match o with Some z => int4 z | None => true end)
    [auditRetentionDays s; inviteTtlHours s; maxGrantDays s; recordingRetentionDays s].

Section config.
Context `{Net} (parse_url : string → option Url) (isValidTimeZone : string → bool).
Context (frac_text : Z → string) (digest : string → string) (json_store : json → json).
Context (encrypt : string → string) (decrypt : string → option string) (from_base64 : string → string).
(** Whether CAPTIVO_ID_ISSUER and CAPTIVO_ID_SERVICE_SECRET are set. *)
Context (centreConfigured : bool).

(** The guard of every admin route here. *)
Definition configuring {A} (rq : ConfigReq) (db : Setup) (h : User → Setup * response A) : Setup * response A :=
  match cq_user rq with
  | None => (db, Fail 401 "unauthorized")
  | Some me => if negb (can (u_role me) configure) then (db, Fail 403 "forbidden") else h me
  end.

Definition logged (rq : ConfigReq) (me : User) (action : string) (target : option (string * option string)) (summary : string)
    (db : Setup) : Setup :=
  set_log (recordAdminAction frac_text digest json_store (cq_auditFails rq) (cq_auditId rq) (cq_now rq) (su_log db)
    {| in_actor := {| actor_id := u_id me; actor_email := Some (u_email me) |}; in_action := action;
       in_targetType := fst <$> target; in_targetId := target ≫= snd; in_summary := summary;
       in_metadata := JUndefined; in_clientIp := cq_ip rq |}) db.

Definition managingOrganisation (tid : string) (db : Setup) : option string :=
  if (tid =s PLATFORM_TENANT_ID) || negb centreConfigured then None else su_orgs db !! tid.
Definition displayTimezoneFromCenter (tid : string) (db : Setup) : bool := bool_decide (is_Some (su_zoneAt db !! tid)).
Definition timeZoneManaged (tid : string) (db : Setup) : bool :=
  bool_decide (is_Some (managingOrganisation tid db)) && displayTimezoneFromCenter tid db.

Definition resolvedGuacParamDefaults (dbError : bool) (tid : string) (db : Setup) : GuacParams :=
  if dbError then parseGuacParams (JObj []) else parseGuacParams (su_guac db !! tid ?? JUndefined).

(** The upsert creates the row with nothing else set when there is none. *)
Definition touch_row (tid : string) (st : SettingsStore) : SettingsStore :=
  {| settingsRows := <[tid := settingsRows st !! tid ?? EMPTY_SETTINGS]> (settingsRows st);
     settingsCache := delete tid (settingsCache st) |}.
Definition saveGuacParamDefaults (tid : string) (p : GuacParams) (db : Setup) : Setup :=
  set_settings (touch_row tid (su_settings db))
    (set_guac (<[tid := json_store (guac_json (parseGuacParams (guac_json p)))]> (su_guac db)) db).

(** [saveDisplayTimezone] with its second column. *)
Definition saveCenterZone (tid : string) (now : Z) (zone : string) (db : Setup) : Setup :=
  set_zoneAt (<[tid := now]> (su_zoneAt db)) (set_settings (saveDisplayTimezone tid zone (su_settings db)) db).

(** [applyCenterTimeZone], answering whether anything changed. *)
Definition applyCenterZone (tid : string) (now : Z) (dbError : bool) (zone : string) (db : Setup) : Setup * bool :=
  if negb (isValidTimeZone zone) then (db, false) else
  let '(st, s) := getPlatformSettings tid now dbError (su_settings db) in
  let db1 := set_settings st db in
  if bool_decide (displayTimezone s = Some zone) && displayTimezoneFromCenter tid db1 then (db1, false)
  else (saveCenterZone tid now zone db1, true).

Definition policy_input (body : json) (webhook : option string) (rawAllow : string) (zone : option string)
    (anchorEnabled : bool) (tsaUrl tsaAuth : string) : PlatformSettings :=
  {| auditRetentionDays := toIntMin (obj_get body "auditRetentionDays") 0;
     inviteTtlHours := toIntMin (obj_get body "inviteTtlHours") 1;
     notificationWebhookUrl := webhook;
     vendorIpAllowlist := some_truthy (Some (trim rawAllow));
     maxGrantDays := toIntMin (obj_get body "maxGrantDays") 1;
     recordingConsentRequired := Some (is_true (obj_get body "recordingConsentRequired"));
     watermarkDefault := Some (is_true (obj_get body "watermarkDefault"));
     clipboardDefault := choice CLIPBOARD_MODES (obj_get body "clipboardDefault");
     displayTimezone := zone;
     recordingRetentionDays := toIntMin (obj_get body "recordingRetentionDays") 1;
     defaultConnectorLogLevel := Some (choice LOG_LEVELS (obj_get body "defaultConnectorLogLevel") ?? "info");
     externalAnchorEnabled := Some anchorEnabled;
     anchorTsaUrl := some_truthy (Some tsaUrl);
     anchorTsaAuth := some_truthy (Some tsaAuth);
     notifySiteHealth := Some (not_false (obj_get body "notifySiteHealth"));
     notifyAccessRequests := Some (not_false (obj_get body "notifyAccessRequests"));
     notifyAccessDecisions := Some (not_false (obj_get body "notifyAccessDecisions"));
     requireRequestJustification := Some (not_false (obj_get body "requireRequestJustification"));
     keystrokeLoggingMode := Some (choice KEYSTROKE_MODES (obj_get body "keystrokeLoggingMode") ?? "per_resource");
     recordingMode := Some (choice RECORDING_MODES (obj_get body "recordingMode") ?? "per_resource") |}.

(** POST admin/policy/platform. *)
Definition policyPost (tid : string) (rq : ConfigReq) (body : json) (db : Setup) : Setup * response unit :=
  configuring rq db (λ me, reading body db (
    match toWebhook parse_url (obj_get body "notificationWebhookUrl") with
    | None => (db, Fail 400 "invalid_webhook_url")
    | Some webhook =>
        let rawAllow := str_or_empty (obj_get body "vendorIpAllowlist") in
        if negb (bool_decide (validateAllowlist rawAllow = [])) then (db, Fail 400 "invalid_cidr") else
        let zoneManaged := timeZoneManaged tid db in
        let posted := some_truthy (as_string (obj_get body "displayTimezone")) in
        if negb zoneManaged && match posted with Some z => negb (isValidTimeZone z) | None => false end
        then (db, Fail 400 "invalid_timezone") else
        let anchorEnabled := is_true (obj_get body "externalAnchorEnabled") in
        let anchorTsaUrl := trim (str_or_empty (obj_get body "anchorTsaUrl")) in
        let anchorTsaAuth := trim (str_or_empty (obj_get body "anchorTsaAuth")) in
        if anchorEnabled && negb (truthy anchorTsaUrl) then (db, Fail 400 "anchor_tsa_required") else
        if truthy anchorTsaUrl && negb (is_http parse_url anchorTsaUrl) then (db, Fail 400 "anchor_tsa_invalid") else
        let '(st, zone) := if zoneManaged
                           then let '(st, s) := getPlatformSettings tid (cq_now rq) (cq_dbError rq) (su_settings db) in
                                (st, displayTimezone s)
                           else (su_settings db, posted) in
        let db1 := set_settings st db in
        let input := policy_input body webhook rawAllow zone anchorEnabled anchorTsaUrl anchorTsaAuth in
        if negb (int4_columns input) then (db1, Fail 500 "") else
        let db2 := set_settings (savePlatformSettings tid input (su_settings db1)) db1 in
        let db3 := saveGuacParamDefaults tid (parseGuacParams (obj_get body "guacParamDefaults")) db2 in
        (logged rq me "config.platform_update" None "Updated platform settings" db3, Reply 200 tt)
    end)).

(** ** The centre's push *)

Record CenterReq := {
  ce_secret : option string;
  ce_header : option string;
  ce_now : Z;
  ce_dbError : bool;
  (** platform_tenant_slug_and_name and platform_slug_by_org. *)
  ce_slug : option string;
  ce_slugByOrg : string → option string;
}.

(** POST center/settings. *)
Definition centerSettingsPost (tid : string) (rq : CenterReq) (body : json) (db : Setup) : Setup * response bool :=
  let expected := trim (ce_secret rq ?? "") in
  let given := ce_header rq ?? "" in
  if negb (truthy expected) || negb (given =s expected) then (db, Fail 401 "unauthorized") else
  if tid =s PLATFORM_TENANT_ID then (db, Fail 404 "not_found") else
  let org := trim (str_or_empty (obj_get body "org")) in
  let zone := str_or_empty (obj_get body "timeZone") in
  if negb (truthy org) || negb (isValidTimeZone zone) then (db, Fail 400 "bad_request") else
  match ce_slug rq with
  | None => (db, Fail 404 "not_found")
  | Some slug =>
      if negb (bool_decide (ce_slugByOrg rq org = Some slug)) then (db, Fail 404 "not_found") else
      let '(db1, changed) := applyCenterZone tid (ce_now rq) (ce_dbError rq) zone db in
      (db1, Reply 200 changed)
  end.

(** ** The directory connection *)

(** POST admin/directory. *)
Definition directoryPost (tid : string) (rq : ConfigReq) (body : json) (db : Setup) : Setup * response unit :=
  configuring rq db (λ me, reading body db (
    let connectorId := some_truthy (trim <$> as_string (obj_get body "connectorId")) in
    if match connectorId with
       | Some c => negb (existsb (λ k, (k.1 =s c) && negb (k.2 =s "REVOKED")) (su_connectors db !! tid ?? []))
       | None => false
       end
    then (db, Fail 400 "connector_not_found") else
    let port := match obj_get body "port" with
                | JNum n => n
                | v => let n := js_Number frac_text v in if json_truthy (JNum n) then n else NInt 389
                end in
    let row := saveDirectoryConfig encrypt
      {| di_enabled := is_true (obj_get body "enabled"); di_connectorId := connectorId;
         di_host := str_or_empty (obj_get body "host"); di_port := port;
         di_security := Directory.asSecurity (str_or_empty (obj_get body "security"));
         di_insecureSkipVerify := is_true (obj_get body "insecureSkipVerify");
         di_caCertPem := Some (str_or_empty (obj_get body "caCertPem"));
         di_baseDN := str_or_empty (obj_get body "baseDN"); di_bindDN := str_or_empty (obj_get body "bindDN");
         di_bindPassword := as_string (obj_get body "bindPassword") |} (su_directory db !! tid) in
    if negb (int4 (dc_port row)) then (db, Fail 500 "") else
    (logged rq me "config.directory_update" None "Updated directory settings"
       (set_directory (<[tid := row]> (su_directory db)) db), Reply 200 tt))).

(** What the connector answers to a bind and a search. *)
Record LdapTest := { lt_ok : bool; lt_baseDnFound : bool; lt_error : option string }.

(** POST admin/directory/test. *)
Definition directoryTestPost (tid : string) (rq : ConfigReq) (ldap : DirectoryConfigView → string → LdapTest) (db : Setup)
    : Setup * response (bool * string) :=
  configuring rq db (λ me,
    match getDirectoryConfig (cq_dbError rq) (su_directory db !! tid) with
    | None => (db, Reply 200 (false, "Choose a connector and save the directory settings first."%string))
    | Some cfg =>
        if negb (truthy_opt (v_connectorId cfg))
        then (db, Reply 200 (false, "Choose a connector and save the directory settings first."%string)) else
        if negb (truthy (v_host cfg)) || negb (truthy (v_baseDN cfg)) || negb (truthy (v_bindDN cfg))
        then (db, Reply 200 (false, "Host, base DN and bind DN are required — save them first."%string)) else
        match getDirectoryBindPassword decrypt (su_directory db !! tid) with
        | None => (db, Fail 500 "")
        | Some pw =>
            let result := ldap cfg (pw ?? "") in
            let detail := lt_error result ?? (if lt_baseDnFound result then "Bound OK; base DN found."
                                              else "Bound OK; base DN not found.")%string in
            (set_directory (match recordDirectoryTest (cq_now rq) (lt_ok result) detail (su_directory db !! tid) with
                            | Some row => <[tid := row]> (su_directory db)
                            | None => su_directory db
                            end) db, Reply 200 (lt_ok result, detail))
        end
    end).

(** ** Group mappings *)

Definition ALL_ROLES : list Role := [ADMIN; OPERATOR; AUDITOR; STAFF; VENDOR; PLATFORM].
Definition read_enum (s : string) : option Role := find_row (λ r, role_name r =s s) ALL_ROLES.
Definition mappings_of (tid : string) (db : Setup) : list GroupMapping := su_mappings db !! tid ?? [].
Definition site_exists (tid : string) (db : Setup) (s : string) : bool := bool_decide (s ∈ su_sites db !! tid ?? []).

(** GET admin/directory/mappings; [dbError] is answered with none. *)
Definition mappingsGet (tid : string) (rq : ConfigReq) (db : Setup) : Setup * response (list GroupMapping) :=
  configuring rq db (λ me, (db, Reply 200 (if cq_dbError rq then [] else mappings_of tid db))).

(** POST admin/directory/mappings.  A site that is no string, or no site of the
    workspace, makes the insert throw. *)
Definition mappingsPost (tid : string) (rq : ConfigReq) (newId : string) (body : json) (db : Setup) : Setup * response unit :=
  configuring rq db (λ me,
    match obj_get body "groupDN", choice ["ROLE"; "SITE"]%string (obj_get body "kind") with
    | JStr groupDN, Some kind =>
        let role := if kind =s "ROLE" then as_string (obj_get body "role") ≫= read_enum else None in
        let site := if kind =s "SITE" then obj_get body "siteId" else JNull in
        match createGroupMapping newId
                {| mi_groupDN := groupDN; mi_kind := kind; mi_role := role; mi_siteId := as_string site;
                   mi_enabled := not_false (obj_get body "enabled") |} (mappings_of tid db) with
        | (_, inl e) =>
            if json_truthy site && bool_decide (as_string site = None) && truthy (trim groupDN)
            then (db, Fail 500 "") else (db, Fail 400 e)
        | (rows, inr _) =>
            if match as_string site with Some s => negb (site_exists tid db s) | None => false end
            then (db, Fail 500 "") else
            (logged rq me "config.directory_mapping_create" (Some ("mapping"%string, None)) "Created directory mapping"
               (set_mappings (<[tid := rows]> (su_mappings db)) db), Reply 200 tt)
        end
    | _, _ => (db, Fail 400 "Invalid request.")
    end).

(** A field of the patch: left out, cleared, set, or of a type or value the
    column refuses. *)
Definition patched {A} (read : string → option A) (v : json) : option (option (option A)) :=
  match v with
  | JUndefined => Some None
  | JNull => Some (Some None)
  | JStr s => match read s with Some a => Some (Some (Some a)) | None => None end
  | _ => None
  end.

(** PATCH admin/directory/mappings/[id]. *)
Definition mappingPatch (tid : string) (rq : ConfigReq) (id : string) (body : json) (db : Setup) : Setup * response unit :=
  configuring rq db (λ me, reading body db (
    match patched read_enum (obj_get body "role"),
          patched (λ s, if site_exists tid db s then Some s else None) (obj_get body "siteId") with
    | Some role, Some siteId =>
        match updateGroupMapping id (as_string (obj_get body "groupDN"))
                (match obj_get body "enabled" with JBool b => Some b | _ => None end) role siteId (mappings_of tid db) with
        | Some rows =>
            (logged rq me "config.directory_mapping_update" (Some ("mapping"%string, Some id)) ("Updated directory mapping " +:+ id)
               (set_mappings (<[tid := rows]> (su_mappings db)) db), Reply 200 tt)
        | None => (db, Fail 500 "")
        end
    | _, _ => (db, Fail 500 "")
    end)).

(** DELETE admin/directory/mappings/[id]. *)
Definition mappingDelete (tid : string) (rq : ConfigReq) (id : string) (db : Setup) : Setup * response unit :=
  configuring rq db (λ me,
    (logged rq me "config.directory_mapping_delete" (Some ("mapping"%string, Some id)) ("Deleted directory mapping " +:+ id)
       (set_mappings (<[tid := deleteGroupMapping id (mappings_of tid db)]> (su_mappings db)) db), Reply 200 tt)).

(** What the connector answers about one address. *)
Record LdapUser := { lu_found : bool; lu_memberOf : option (list string); lu_displayName : option string; lu_error : option string }.
Inductive Preview := PreviewError (e : string) | PreviewOk (found : bool) (displayName : option string) (groups : list string) (d : ReconcileDecision).

(** POST admin/directory/resolve-preview. *)
Definition resolvePreview (tid : string) (rq : ConfigReq) (ldap : DirectoryConfigView → string → string → LdapUser)
    (body : json) (db : Setup) : Setup * response Preview :=
  configuring rq db (λ me,
    let email := trim (str_or_empty (obj_get body "email")) in
    if negb (truthy email) then (db, Fail 400 "Enter an email address.") else
    match getDirectoryConfig (cq_dbError rq) (su_directory db !! tid) with
    | None => (db, Reply 200 (PreviewError "Enable and save the directory connection first."))
    | Some cfg =>
        if negb (v_enabled cfg) || negb (truthy_opt (v_connectorId cfg))
        then (db, Reply 200 (PreviewError "Enable and save the directory connection first.")) else
        match getDirectoryBindPassword decrypt (su_directory db !! tid) with
        | None => (db, Fail 500 "")
        | Some pw =>
            let resolved := ldap cfg (pw ?? "") email in
            match some_truthy (lu_error resolved) with
            | Some e => (db, Reply 200 (PreviewError e))
            | None =>
                let groups := if lu_found resolved then lu_memberOf resolved ?? [] else [] in
                (db, Reply 200 (PreviewOk (lu_found resolved) (lu_displayName resolved) groups
                   (computeReconcile groups (listGroupMappingsLite (cq_dbError rq) (mappings_of tid db)) true)))
            end
        end
    end).

(** ** Mail *)

(** POST admin/smtp.  A port that is no 32-bit integer makes the write throw. *)
Definition smtpPost (tid : string) (rq : ConfigReq) (body : json) (db : Setup) : Setup * response unit :=
  configuring rq db (λ me, reading body db (
    let host := trim (str_or_empty (obj_get body "host")) in
    let port := js_Number frac_text (obj_get body "port") in
    let username := trim (str_or_empty (obj_get body "username")) in
    let password := str_or_empty (obj_get body "password") in
    let fromName := trim (str_or_empty (obj_get body "fromName")) in
    let fromEmail := trim (str_or_empty (obj_get body "fromEmail")) in
    if negb (truthy host) || negb (isFinite port) || negb (num_gt port 0) || negb (truthy fromEmail)
    then (db, Fail 400 "host_port_from_required") else
    let existing := su_smtp db !! tid in
    let encPassword := if truthy password then encrypt password else (sm_password <$> existing) ?? "" in
    if negb (truthy encPassword) then (db, Fail 400 "password_required") else
    match port with
    | NInt p =>
        if negb (int4 p) then (db, Fail 500 "") else
        let row := {| sm_host := host; sm_port := p; sm_secure := is_true (obj_get body "secure"); sm_username := username;
                      sm_password := encPassword; sm_fromName := fromName; sm_fromEmail := fromEmail;
                      sm_enabled := is_true (obj_get body "enabled"); sm_verified := existing ≫= sm_verified |} in
        (logged rq me "config.smtp_update" None "Updated SMTP settings" (set_smtp (<[tid := row]> (su_smtp db)) db), Reply 200 tt)
    | _ => (db, Fail 500 "")
    end)).

Definition getSmtpConfig (dbError : bool) (tid : string) (db : Setup) : option SmtpRow :=
  if dbError then None else su_smtp db !! tid.
(** platform_smtp_config(). *)
Definition platformSmtpConfig (db : Setup) : option SmtpRow :=
  match su_smtp db !! PLATFORM_TENANT_ID with Some r => if sm_enabled r then Some r else None | None => None end.

(** [fallback]: the platform's switch, [None] when reading it throws. *)
Definition getSendingSmtpConfig (dbError multiTenant : bool) (fallback : option bool) (tid : string) (db : Setup) : option SmtpRow :=
  let own := getSmtpConfig dbError tid db in
  if match own with Some r => sm_enabled r | None => false end then own else
  if multiTenant && negb (tid =s PLATFORM_TENANT_ID) && bool_decide (fallback = Some true) then
    match platformSmtpConfig db with Some p => Some p | None => own end
  else own.

Record TransportOptions := {
  tp_host : string; tp_port : Z; tp_secure : bool; tp_user : string; tp_pass : string;
  tp_connectionTimeout : Z; tp_greetingTimeout : Z; tp_socketTimeout : Z;
}.
Definition buildTransportOptions (c : SmtpRow) (password : string) : TransportOptions :=
  {| tp_host := sm_host c; tp_port := sm_port c; tp_secure := sm_secure c; tp_user := sm_username c; tp_pass := password;
     tp_connectionTimeout := 10000; tp_greetingTimeout := 10000; tp_socketTimeout := 20000 |}.

Record Mail := { ml_from : string; ml_to : list string; ml_subject : string; ml_html : string; ml_text : string }.
Inductive mail_result := Sent | NotSent (reason : string).
Definition is_sent (r : mail_result) : bool := match r with Sent => true | NotSent _ => false end.

Definition quote : string := unchars [Ascii.ascii_of_N 34].
Definition mail_from (c : SmtpRow) : string := quote +:+ sm_fromName c +:+ quote +:+ " <" +:+ sm_fromEmail c +:+ ">".

(** [sendMail]: its result and what the relay was handed.  The relay answers
    [None], or the message of what it threw. *)
Definition sendMail (relay : TransportOptions → Mail → option string) (dbError multiTenant : bool) (fallback : option bool)
    (tid : string) (to : list string) (subject html text : string) (db : Setup) : mail_result * option (TransportOptions * Mail) :=
  match getSendingSmtpConfig dbError multiTenant fallback tid db with
  | None => (NotSent "not_configured", None)
  | Some cfg =>
      if negb (sm_enabled cfg) then (NotSent "disabled", None) else
      match decrypt (sm_password cfg) with
      | None => (NotSent "Encrypted data is corrupted", None)
      | Some pw =>
          let m := {| ml_from := mail_from cfg; ml_to := to; ml_subject := subject; ml_html := html; ml_text := text |} in
          let o := buildTransportOptions cfg pw in
          (match relay o m with None => Sent | Some e => NotSent e end, Some (o, m))
      end
  end.

(** The row's result columns. *)
Definition set_verified_smtp (v : Z * bool * option string) (r : SmtpRow) : SmtpRow :=
  {| sm_host := sm_host r; sm_port := sm_port r; sm_secure := sm_secure r; sm_username := sm_username r;
     sm_password := sm_password r; sm_fromName := sm_fromName r; sm_fromEmail := sm_fromEmail r; sm_enabled := sm_enabled r;
     sm_verified := Some v |}.

(** POST admin/smtp/test. *)
Definition smtpTestPost (tid : string) (rq : ConfigReq) (relay : TransportOptions → Mail → option string) (multiTenant : bool)
    (fallback : option bool) (body : json) (db : Setup) : Setup * response mail_result :=
  configuring rq db (λ me, reading body db (
    let to := some_truthy (trim <$> as_string (obj_get body "to")) ?? u_email me in
    let '(result, _) := sendMail relay (cq_dbError rq) multiTenant fallback tid [to]
      "Captivo Access — SMTP test" "<p>This is a test email from Captivo Access. Your SMTP settings are working.</p>"
      "This is a test email from Captivo Access. Your SMTP settings are working." db in
    let fields := (cq_now rq, is_sent result, match result with Sent => None | NotSent e => Some e end) in
    (set_smtp (match su_smtp db !! tid with
               | Some r => <[tid := set_verified_smtp fields r]> (su_smtp db)
               | None => su_smtp db
               end) db, Reply 200 result))).

(** ** The splash image *)

Definition ALLOWED_SPLASH_TYPES : list string := ["image/png"; "image/jpeg"; "image/gif"; "image/webp"]%string.
Definition MAX_SPLASH_BYTES : Z := 2 * 1024 * 1024.
Inductive SplashUpdate := SplashClear | SplashSet (data type : string) | SplashError (e : string).
Definition byte_count (s : string) : Z := Z.of_nat (length (chars s)).

Definition parseSplashUpload (image type : json) : SplashUpdate :=
  match image with
  | JNull => SplashClear
  | JStr s =>
      if negb (truthy s) then SplashClear else
      match choice ALLOWED_SPLASH_TYPES type with
      | None => SplashError "invalid_image_type"
      | Some ty =>
          let b64 := match indexOf comma_char s with
                     | Some comma => if startsWith "data:" s then slice_from (S comma) s else s
                     | None => s
                     end in
          let buf := from_base64 b64 in
          if byte_count buf =? 0 then SplashError "invalid_image" else
          if MAX_SPLASH_BYTES <? byte_count buf then SplashError "image_too_large" else SplashSet buf ty
      end
  | _ => SplashError "invalid_image"
  end.

Definition clear_splash (tid : string) (db : Setup) : Setup :=
  set_branding (<[tid := {| br_splash := None; br_type := None |}]> (su_branding db)) db.

(** [requireUser] redirects whoever is not signed in. *)
Definition configuring_page {A} (rq : ConfigReq) (db : Setup) (h : User → Setup * response A) : Setup * response A :=
  match cq_user rq with None => (db, Fail 307 "/login") | Some _ => configuring rq db h end.

(** POST and DELETE admin/branding/splash. *)
Definition splashPost (tid : string) (rq : ConfigReq) (body : json) (db : Setup) : Setup * response unit :=
  configuring_page rq db (λ me, reading body db (
    match parseSplashUpload (obj_get body "splashImage") (obj_get body "splashImageType") with
    | SplashError e => (db, Fail 400 e)
    | SplashClear => (logged rq me "branding.update" (Some ("branding"%string, Some "splash"%string)) "Removed the custom splash image"
                        (clear_splash tid db), Reply 200 tt)
    | SplashSet data ty =>
        (logged rq me "branding.update" (Some ("branding"%string, Some "splash"%string)) "Updated the custom splash image"
           (set_branding (<[tid := {| br_splash := Some data; br_type := Some ty |}]> (su_branding db)) db), Reply 200 tt)
    end)).
Definition splashDelete (tid : string) (rq : ConfigReq) (db : Setup) : Setup * response unit :=
  configuring_page rq db (λ me,
    (logged rq me "branding.update" (Some ("branding"%string, Some "splash"%string)) "Removed the custom splash image"
       (clear_splash tid db), Reply 200 tt)).

(** GET branding/splash: the bytes and their type. *)
Definition splashGet (tid : string) (rq : ConfigReq) (db : Setup) : response (string * string) :=
  match cq_user rq with
  | None => Fail 401 "unauthorized"
  | Some _ =>
      match su_branding db !! tid with
      | Some {| br_splash := Some d; br_type := Some t |} => if truthy t then Reply 200 (d, t) else Fail 404 ""
      | _ => Fail 404 ""
      end
  end.

(** ** Updates *)

Definition getUpdateCheckConfig (dbError : bool) (row : option UpdateRow) : option UpdateRow :=
  if dbError then None else
  Some (row ?? {| up_enabled := true; up_latestVersion := None; up_latestUrl := None; up_checkedAt := None; up_checkOk := None |}).
Definition setUpdateCheckEnabled (enabled : bool) (row : option UpdateRow) : UpdateRow :=
  {| up_enabled := enabled; up_latestVersion := row ≫= up_latestVersion; up_latestUrl := row ≫= up_latestUrl;
     up_checkedAt := row ≫= up_checkedAt; up_checkOk := row ≫= up_checkOk |}.
Definition saveUpdateCheckResult (now : Z) (version url : option string) (ok : bool) (row : option UpdateRow) : UpdateRow :=
  match row with
  | None => {| up_enabled := true; up_latestVersion := version; up_latestUrl := url; up_checkedAt := Some now; up_checkOk := Some ok |}
  | Some r => {| up_enabled := up_enabled r; up_latestVersion := if ok then version else up_latestVersion r;
                 up_latestUrl := if ok then url else up_latestUrl r; up_checkedAt := Some now; up_checkOk := Some ok |}
  end.
End config.

(** [.trim().replace(/^v/i, "")] *)
Definition strip_v (s : string) : list Ascii.ascii :=
  match chars (trim s) with c :: l => if (code c =? 118) || (code c =? 86) then l else c :: l | [] => [] end.

(** [/^(\d+)\.(\d+)\.(\d+)/] *)
Definition digits1 (l : list Ascii.ascii) : option (Z * list Ascii.ascii) :=
  let '(v, n, rest) := take_digits l 0 0 in if (n =? 0)%nat then None else Some (v, rest).
Definition dot (l : list Ascii.ascii) : option (list Ascii.ascii) :=
  match l with c :: l' => if code c =? 46 then Some l' else None | [] => None end.
Definition semver (l : list Ascii.ascii) : option (Z * Z * Z) :=
  '(a, l1) ← digits1 l; l2 ← dot l1; '(b, l3) ← digits1 l2; l4 ← dot l3; '(c, _) ← digits1 l4; Some (a, b, c).

Definition parse_version (v : option string) : option (Z * Z * Z) := some_truthy v ≫= (λ s, semver (strip_v s)).

Definition cmp (a b : Z) (next : Z) : Z := if a <? b then -1 else if b <? a then 1 else next.
Definition compareSemver (a b : option string) : option Z :=
  '(a1, a2, a3) ← parse_version a; '(b1, b2, b3) ← parse_version b;
  Some (cmp a1 b1 (cmp a2 b2 (cmp a3 b3 0))).
Definition isConnectorOutdated (connector : option string) (manager : string) : bool :=
  bool_decide (compareSemver connector (Some manager) = Some (-1)).
Definition isUpdateAvailable (latest : option string) (manager : string) : bool :=
  bool_decide (compareSemver latest (Some manager) = Some 1).

Definition parseLatestRelease (body : json) : option string * option string :=
  if negb (json_truthy body) || negb (is_object body) then (None, None) else
  let tag := strip_v (str_or_empty (obj_get body "tag_name")) in
  (if bool_decide (is_Some (semver tag)) then Some (unchars tag) else None, as_string (obj_get body "html_url")).

Section updates.
Context (frac_text : Z → string) (digest : string → string) (json_store : json → json).

(** POST admin/updates and admin/updates/check.  [answer]: the body of a 2xx
    answer; [None] for any other status and for a request that failed. *)
Definition updatesPost (tid : string) (rq : ConfigReq) (body : json) (db : Setup) : Setup * response unit :=
  configuring rq db (λ me, reading body db (
    (logged frac_text digest json_store rq me "config.updates_update" None "Updated update settings"
       (set_updates (<[tid := setUpdateCheckEnabled (is_true (obj_get body "enabled")) (su_updates db !! tid)]> (su_updates db)) db),
     Reply 200 tt))).
Definition updatesCheck (tid : string) (rq : ConfigReq) (answer : option json) (db : Setup) : Setup * response (bool * option string) :=
  configuring rq db (λ me,
    match getUpdateCheckConfig (cq_dbError rq) (su_updates db !! tid) with
    | None => (db, Reply 200 (false, None))
    | Some cfg =>
        if negb (up_enabled cfg) then (db, Reply 200 (false, None)) else
        let save := λ v u ok, set_updates (<[tid := saveUpdateCheckResult (cq_now rq) v u ok (su_updates db !! tid)]> (su_updates db)) db in
        match answer with
        | None => (save None None false, Reply 200 (false, None))
        | Some b => let '(v, u) := parseLatestRelease b in (save v u true, Reply 200 (true, v))
        end
    end).
End updates.

(** ** Lemmas *)

Lemma trim_decompose l : ∃ p q, l = p ++ trim_chars l ++ q ∧ Forall (λ c, is_ws c) p ∧ Forall (λ c, is_ws c) q.
Proof.
  destruct (drop_ws_suffix l) as (p & Hp & Hpw). destruct (drop_ws_suffix (reverse (drop_ws l))) as (q & Hq & Hqw).
  exists p, (reverse q). split_and!; [|done|by apply Forall_reverse].
  rewrite Hp at 1. f_equal. rewrite <-(reverse_involutive (drop_ws l)) at 1. rewrite Hq, reverse_app. done.
Qed.

Lemma runs_trailing q : Forall (λ c, is_ws c) q → ∀ l cur, runs (l ++ q) cur = runs l cur ++ replicate (length q) [].
Proof.
  intros Hq. induction l as [|c l IH]; intros cur; simpl; [|destruct (is_sep c); simpl; by rewrite IH].
  revert cur. induction Hq as [|c q Hc Hq IH]; intros cur; simpl; [done|].
  unfold is_sep. apply Is_true_true in Hc. rewrite Hc. simpl. by rewrite (IH []).
Qed.
Lemma runs_leading p l : Forall (λ c, is_ws c) p → runs (p ++ l) [] = replicate (length p) [] ++ runs l [].
Proof.
  induction 1 as [|c p Hc Hp IH]; simpl; [done|]. unfold is_sep at 1. apply Is_true_true in Hc. rewrite Hc. simpl. by rewrite IH.
Qed.
Lemma blank_entries n : List.filter truthy (map (λ w, trim (unchars w)) (replicate n [])) = [].
Proof. induction n as [|n IH]; simpl; done. Qed.

Lemma entriesOf_trim raw : entriesOf (trim raw) = entriesOf raw.
Proof.
  unfold entriesOf. destruct (trim_decompose (chars raw)) as (p & q & E & Hp & Hq).
  rewrite E at 1. rewrite runs_leading, runs_trailing by done.
  rewrite !map_app, !List.filter_app, !blank_entries, app_nil_r. simpl. unfold trim at 2. by rewrite chars_unchars.
Qed.
Lemma validate_trim `{Net} raw : validateAllowlist (trim raw) = validateAllowlist raw.
Proof. unfold validateAllowlist. by rewrite entriesOf_trim. Qed.

Lemma toIntMin_min v m z : toIntMin v m = Some z → m ≤ z.
Proof.
  unfold toIntMin. set (n := match v with JNum n => n | JStr s => _ | _ => NNaN end). clearbody n.
  destruct (isFinite n) eqn:Hf; [|done]. destruct n; simpl; try done; case_match; try done; reflect_bool; intros [= <-]; lia.
Qed.

Lemma choice_in allowed v s : choice allowed v = Some s → s ∈ allowed.
Proof. unfold choice. destruct v; try done. by case_bool_decide; intros [= <-]. Qed.

Lemma choice_or allowed v d : d ∈ allowed → choice allowed v ?? d ∈ allowed.
Proof. intros Hd. destruct (choice allowed v) eqn:E; simpl; [by eapply choice_in|done]. Qed.

Lemma toWebhook_http parse_url v u : toWebhook parse_url v = Some (Some u) → is_http parse_url u = true ∧ trim u = u.
Proof.
  unfold toWebhook. destruct v; try done. destruct (truthy (trim s)); simpl; [|done].
  destruct (is_http parse_url (trim s)) eqn:E; [|done]. intros [= <-]. by rewrite trim_idemp.
Qed.

Lemma some_truthy_text o s : some_truthy o = Some s → o = Some s ∧ truthy s = true.
Proof. unfold some_truthy. destruct o as [x|]; [|done]. destruct (truthy x) eqn:E; [|done]. by intros [= <-]. Qed.

(** ** What the rows keep *)

Section wf.
Context `{Net} (parse_url : string → option Url) (isValidTimeZone : string → bool) (json_store : json → json).

(** A row of PlatformSettings every reader can use as it is. *)
Record settings_ok (s : PlatformSettings) : Prop := {
  ok_retention z : auditRetentionDays s = Some z → 0 ≤ z;
  ok_invite z : inviteTtlHours s = Some z → 1 ≤ z;
  ok_cap z : maxGrantDays s = Some z → 1 ≤ z;
  ok_recordings z : recordingRetentionDays s = Some z → 1 ≤ z;
  ok_webhook u : notificationWebhookUrl s = Some u → is_http parse_url u = true;
  ok_allowlist a : vendorIpAllowlist s = Some a → validateAllowlist a = [] ∧ truthy a = true;
  ok_zone z : displayTimezone s = Some z → isValidTimeZone z = true;
  ok_clipboard m : clipboardDefault s = Some m → m ∈ CLIPBOARD_MODES;
  ok_level m : defaultConnectorLogLevel s = Some m → m ∈ LOG_LEVELS;
  ok_keystroke m : keystrokeLoggingMode s = Some m → m ∈ KEYSTROKE_MODES;
  ok_recording m : recordingMode s = Some m → m ∈ RECORDING_MODES;
  ok_tsa u : anchorTsaUrl s = Some u → is_http parse_url u = true;
  ok_anchor : externalAnchorEnabled s = Some true → is_Some (anchorTsaUrl s);
}.

Record smtp_ok (r : SmtpRow) : Prop := {
  ok_host : truthy (sm_host r) = true;
  ok_port : 0 < sm_port r ≤ 2147483647;
  ok_from : truthy (sm_fromEmail r) = true;
  ok_password : truthy (sm_password r) = true;
}.
Definition directory_ok (r : DirectoryConfig) : Prop :=
  0 ≤ dc_port r ≤ 2147483647 ∧ dc_security r ∈ ["PLAIN"; "STARTTLS"; "LDAPS"]%string.
Definition branding_ok (r : BrandingRow) : Prop :=
  match br_splash r, br_type r with
  | None, None => True
  | Some d, Some t => 0 < byte_count d ≤ MAX_SPLASH_BYTES ∧ t ∈ ALLOWED_SPLASH_TYPES
  | _, _ => False
  end.
Definition updates_ok (r : UpdateRow) : Prop :=
  match up_latestVersion r with Some v => is_Some (semver (chars v)) | None => True end.
(** Only a mapping with a target of its kind was ever created. *)
Definition guac_ok (g : json) : Prop := ∃ p, wf_guac p ∧ g = json_store (guac_json p).

Record setup_ok (db : Setup) : Prop := {
  so_settings tid s : settingsRows (su_settings db) !! tid = Some s → settings_ok s;
  so_cache : coherent (su_settings db);
  so_guac tid g : su_guac db !! tid = Some g → guac_ok g;
  so_smtp tid r : su_smtp db !! tid = Some r → smtp_ok r;
  so_directory tid r : su_directory db !! tid = Some r → directory_ok r;
  so_branding tid r : su_branding db !! tid = Some r → branding_ok r;
  so_updates tid r : su_updates db !! tid = Some r → updates_ok r;
}.
End wf.

Lemma insert_all {V} (P : V → Prop) (m : gmap string V) k v :
  (∀ j w, m !! j = Some w → P w) → P v → ∀ j w, <[k := v]> m !! j = Some w → P w.
Proof. intros Hm Hv j w [[-> ->]|[_ Hw]]%lookup_insert_Some; eauto. Qed.

Lemma security_in v : Directory.asSecurity v ∈ ["PLAIN"; "STARTTLS"; "LDAPS"]%string.
Proof. unfold Directory.asSecurity. repeat case_bool_decide; subst; simpl; set_solver. Qed.

(** ** Runs *)

Inductive setup_op :=
  | SRead (tid : string) (now : Z) (dbError : bool)
  | SPolicy (tid : string) (rq : ConfigReq) (body : json)
  | SCenter (tid : string) (rq : CenterReq) (body : json)
  | SDirectory (tid : string) (rq : ConfigReq) (body : json)
  | SDirectoryTest (tid : string) (rq : ConfigReq) (ldap : DirectoryConfigView → string → LdapTest)
  | SMappingPost (tid : string) (rq : ConfigReq) (newId : string) (body : json)
  | SMappingPatch (tid : string) (rq : ConfigReq) (id : string) (body : json)
  | SMappingDelete (tid : string) (rq : ConfigReq) (id : string)
  | SSmtp (tid : string) (rq : ConfigReq) (body : json)
  | SSmtpTest (tid : string) (rq : ConfigReq) (relay : TransportOptions → Mail → option string) (multi : bool)
      (fallback : option bool) (body : json)
  | SSplash (tid : string) (rq : ConfigReq) (body : json)
  | SSplashDelete (tid : string) (rq : ConfigReq)
  | SUpdates (tid : string) (rq : ConfigReq) (body : json)
  | SUpdatesCheck (tid : string) (rq : ConfigReq) (answer : option json).

Definition op_tenant (op : setup_op) : string :=
  match op with
  | SRead t _ _ | SPolicy t _ _ | SCenter t _ _ | SDirectory t _ _ | SDirectoryTest t _ _ | SMappingPost t _ _ _
  | SMappingPatch t _ _ _ | SMappingDelete t _ _ | SSmtp t _ _ | SSmtpTest t _ _ _ _ _ | SSplash t _ _ | SSplashDelete t _
  | SUpdates t _ _ | SUpdatesCheck t _ _ => t
  end.

(** Who an operation is carried out for: a reader, the centre with its secret, or
    the console user. *)
Definition op_entitled (op : setup_op) : Prop :=
  match op with
  | SRead _ _ _ => False
  | SCenter _ rq body =>
      truthy (trim (ce_secret rq ?? "")) = true ∧ ce_header rq ?? "" = trim (ce_secret rq ?? "") ∧
      (∃ slug, ce_slug rq = Some slug ∧ ce_slugByOrg rq (trim (str_or_empty (obj_get body "org"))) = Some slug)
  | SPolicy _ rq _ | SDirectory _ rq _ | SDirectoryTest _ rq _ | SMappingPost _ rq _ _ | SMappingPatch _ rq _ _
  | SMappingDelete _ rq _ | SSmtp _ rq _ | SSmtpTest _ rq _ _ _ _ | SSplash _ rq _ | SSplashDelete _ rq | SUpdates _ rq _
  | SUpdatesCheck _ rq _ => ∃ me, cq_user rq = Some me ∧ can (u_role me) configure = true
  end.

Section runs.
Context `{Net} (parse_url : string → option Url) (isValidTimeZone : string → bool).
Context (frac_text : Z → string) (digest : string → string) (json_store : json → json).
Context (encrypt : string → string) (decrypt : string → option string) (from_base64 : string → string).
Context (centreConfigured : bool).

Definition setup_apply (db : Setup) (op : setup_op) : Setup :=
  match op with
  | SRead tid now e => set_settings (getPlatformSettings tid now e (su_settings db)).1 db
  | SPolicy tid rq body =>
      (policyPost parse_url isValidTimeZone frac_text digest json_store centreConfigured tid rq body db).1
  | SCenter tid rq body => (centerSettingsPost isValidTimeZone tid rq body db).1
  | SDirectory tid rq body => (directoryPost frac_text digest json_store encrypt tid rq body db).1
  | SDirectoryTest tid rq ldap => (directoryTestPost decrypt tid rq ldap db).1
  | SMappingPost tid rq id body => (mappingsPost frac_text digest json_store tid rq id body db).1
  | SMappingPatch tid rq id body => (mappingPatch frac_text digest json_store tid rq id body db).1
  | SMappingDelete tid rq id => (mappingDelete frac_text digest json_store tid rq id db).1
  | SSmtp tid rq body => (smtpPost frac_text digest json_store encrypt tid rq body db).1
  | SSmtpTest tid rq relay multi fallback body => (smtpTestPost decrypt tid rq relay multi fallback body db).1
  | SSplash tid rq body => (splashPost frac_text digest json_store from_base64 tid rq body db).1
  | SSplashDelete tid rq => (splashDelete frac_text digest json_store tid rq db).1
  | SUpdates tid rq body => (updatesPost frac_text digest json_store tid rq body db).1
  | SUpdatesCheck tid rq answer => (updatesCheck tid rq answer db).1
  end.

Notation setup_ok := (setup_ok parse_url isValidTimeZone json_store).
Notation settings_ok := (settings_ok parse_url isValidTimeZone).

(** Each setter keeps what it does not write. *)
Lemma ok_log db l : setup_ok db → setup_ok (set_log l db).
Proof. intros []. by constructor. Qed.
Lemma ok_mappings db m : setup_ok db → setup_ok (set_mappings m db).
Proof. intros []. by constructor. Qed.
Lemma ok_zoneAt db m : setup_ok db → setup_ok (set_zoneAt m db).
Proof. intros []. by constructor. Qed.
Lemma ok_smtp db tid r : setup_ok db → smtp_ok r → setup_ok (set_smtp (<[tid := r]> (su_smtp db)) db).
Proof. intros [] Hr. constructor; try done. simpl. by apply insert_all. Qed.
Lemma ok_directory db tid r : setup_ok db → directory_ok r → setup_ok (set_directory (<[tid := r]> (su_directory db)) db).
Proof. intros [] Hr. constructor; try done. simpl. by apply insert_all. Qed.
Lemma ok_branding db tid r : setup_ok db → branding_ok r → setup_ok (set_branding (<[tid := r]> (su_branding db)) db).
Proof. intros [] Hr. constructor; try done. simpl. by apply insert_all. Qed.
Lemma ok_updates db tid r : setup_ok db → updates_ok r → setup_ok (set_updates (<[tid := r]> (su_updates db)) db).
Proof. intros [] Hr. constructor; try done. simpl. by apply insert_all. Qed.
Lemma ok_settings db tid s :
  setup_ok db → settings_ok s →
  setup_ok (set_settings {| settingsRows := <[tid := s]> (settingsRows (su_settings db));
                            settingsCache := delete tid (settingsCache (su_settings db)) |} db).
Proof. intros [] Hs. constructor; try done; simpl; [by apply insert_all|by apply write_coherent]. Qed.
Lemma ok_read db tid now e : setup_ok db → setup_ok (set_settings (getPlatformSettings tid now e (su_settings db)).1 db).
Proof.
  intros []. constructor; try done; simpl; [|by apply read_coherent].
  unfold getPlatformSettings. by repeat case_match.
Qed.
Lemma ok_guac db tid p : setup_ok db → wf_guac p →
  setup_ok (set_guac (<[tid := json_store (guac_json p)]> (su_guac db)) db).
Proof. intros [] Hp. constructor; try done. simpl. apply insert_all; [done|by exists p]. Qed.

Lemma empty_ok : settings_ok EMPTY_SETTINGS.
Proof. by constructor. Qed.
Lemma row_ok db tid : setup_ok db → settings_ok (settingsRows (su_settings db) !! tid ?? EMPTY_SETTINGS).
Proof. intros Hok. destruct (settingsRows (su_settings db) !! tid) eqn:E; [by eapply so_settings|apply empty_ok]. Qed.
Lemma read_ok db tid now e : setup_ok db → settings_ok (getPlatformSettings tid now e (su_settings db)).2.
Proof.
  intros Hok. pose proof (row_ok db tid Hok) as Hrow. unfold getPlatformSettings.
  destruct (settingsCache (su_settings db) !! tid) as [[s at_]|] eqn:Hc.
  - apply (so_cache _ _ _ _ Hok) in Hc. rewrite Hc in Hrow. destruct (now - at_ <? 30000); [done|]. rewrite Hc.
    destruct e; [apply empty_ok|done].
  - destruct e; [apply empty_ok|done].
Qed.

Lemma touch_ok db tid : setup_ok db → setup_ok (set_settings (touch_row tid (su_settings db)) db).
Proof. intros Hok. apply ok_settings; [done|by apply row_ok]. Qed.
Lemma saveGuac_ok db tid p : setup_ok db → setup_ok (saveGuacParamDefaults json_store tid p db).
Proof.
  intros Hok. pose proof (ok_guac db tid (parseGuacParams (guac_json p)) Hok (parse_wf _)) as H1.
  apply (touch_ok _ tid) in H1. exact H1.
Qed.

Lemma policy_input_ok body webhook raw zone anchor tsa auth :
  toWebhook parse_url (obj_get body "notificationWebhookUrl") = Some webhook →
  validateAllowlist raw = [] → (∀ z, zone = Some z → isValidTimeZone z = true) →
  (anchor && negb (truthy tsa)) = false → (truthy tsa && negb (is_http parse_url tsa)) = false →
  settings_ok (policy_input body webhook raw zone anchor tsa auth).
Proof.
  clear frac_text digest json_store encrypt decrypt from_base64.
  intros Hw Hr Hz Ha Ht. constructor; simpl; try (intros z Hz'; by apply toIntMin_min in Hz').
  - intros u ->. by eapply toWebhook_http.
  - intros a. destruct (truthy (trim raw)) eqn:E; [|done]. intros [= <-]. by rewrite validate_trim.
  - done.
  - intros m Hm. by eapply choice_in.
  - intros m [= <-]. apply choice_or. set_solver.
  - intros m [= <-]. apply choice_or. set_solver.
  - intros m [= <-]. apply choice_or. set_solver.
  - intros u. destruct (truthy tsa); [|done]. intros [= <-]. by destruct (is_http parse_url tsa).
  - intros [= ->]. destruct (truthy tsa); [eauto|done].
Qed.

(** The guard: nothing happens without a configurer. *)
Lemma configuring_cases {A} rq db (h : User → Setup * response A) (P : Setup → Prop) :
  P db → (∀ me, cq_user rq = Some me → can (u_role me) configure = true → P (h me).1) → P (configuring rq db h).1.
Proof.
  intros Hd Hh. unfold configuring. destruct (cq_user rq) as [me|]; [|done].
  destruct (can (u_role me) configure) eqn:Hc; simpl; [by apply Hh|done].
Qed.
Lemma configuring_page_cases {A} rq db (h : User → Setup * response A) (P : Setup → Prop) :
  P db → (∀ me, cq_user rq = Some me → can (u_role me) configure = true → P (h me).1) → P (configuring_page rq db h).1.
Proof. intros Hd Hh. unfold configuring_page. destruct (cq_user rq) eqn:E; [|done]. apply configuring_cases; [done|]. by rewrite E. Qed.
Lemma reading_cases {A} body db (h : Setup * response A) (P : Setup → Prop) : P db → P h.1 → P (reading body db h).1.
Proof. intros. by destruct body. Qed.

Lemma reading_object {A} body db (h : Setup * response A) : body ≠ JNull → reading body db h = h.
Proof. by destruct body. Qed.

Lemma policy_ok tid rq body db :
  setup_ok db →
  setup_ok (policyPost parse_url isValidTimeZone frac_text digest json_store centreConfigured tid rq body db).1.
Proof.
  intros Hok. unfold policyPost. apply (configuring_cases _ _ _ setup_ok); [done|]. intros me _ _.
  apply (reading_cases _ _ _ setup_ok); [done|].
  destruct (toWebhook _ _) as [webhook|] eqn:Hw; [|done]. case_bool_decide as Ha; [|done]. simpl negb. cbv iota.
  set (posted := some_truthy (as_string (obj_get body "displayTimezone"))).
  destruct (negb (timeZoneManaged _ tid db) && _) eqn:Hz; [done|].
  destruct (is_true _ && negb (truthy _)) eqn:H1; [done|]. destruct (truthy _ && negb (is_http _ _)) eqn:H2; [done|].
  assert (∃ st zone, (if timeZoneManaged centreConfigured tid db
            then let '(st, s) := getPlatformSettings tid (cq_now rq) (cq_dbError rq) (su_settings db) in (st, displayTimezone s)
            else (su_settings db, posted)) = (st, zone) ∧ setup_ok (set_settings st db) ∧
            (∀ z, zone = Some z → isValidTimeZone z = true)) as (st & zone & -> & Hst & Hzone).
  { destruct (timeZoneManaged centreConfigured tid db).
    - destruct (getPlatformSettings _ _ _ _) as [st s] eqn:Hg. exists st, (displayTimezone s). split; [done|].
      pose proof (ok_read db tid (cq_now rq) (cq_dbError rq) Hok) as Hr.
      pose proof (read_ok db tid (cq_now rq) (cq_dbError rq) Hok) as Hs. rewrite Hg in Hr, Hs.
      split; [done|]. intros z. by apply (ok_zone _ _ _ Hs).
    - exists (su_settings db), posted. split; [done|]. split; [by destruct db|].
      intros z E. simpl in Hz. rewrite E in Hz. by destruct (isValidTimeZone z). }
  cbv beta iota zeta. destruct (negb (int4_columns _)); [done|]. apply ok_log, saveGuac_ok. apply (ok_settings _ tid); [done|]. by apply policy_input_ok.
Qed.

Lemma center_ok tid rq body db : setup_ok db → setup_ok (centerSettingsPost isValidTimeZone tid rq body db).1.
Proof.
  intros Hok. unfold centerSettingsPost. repeat (case_match; [done|]). destruct (ce_slug rq); [|done]. case_match; [done|].
  unfold applyCenterZone. destruct (isValidTimeZone (str_or_empty _)) eqn:Hz; simpl negb; cbv iota; [|done].
  pose proof (ok_read db tid (ce_now rq) (ce_dbError rq) Hok) as Hr.
  destruct (getPlatformSettings _ _ _ _) as [st s0]. cbv beta iota zeta. destruct (bool_decide _ && _); [done|].
  pose proof (row_ok _ tid Hr) as Hrow. apply ok_zoneAt. apply (ok_settings _ tid); [done|].
  destruct Hrow. constructor; simpl; try done. by intros z [= <-].
Qed.

Lemma js_port n : isFinite n = true → num_gt n 0 = true → ∀ p, n = NInt p → 0 < p.
Proof. intros _ Hgt p ->. simpl in Hgt. by reflect_bool. Qed.

Lemma smtpPost_ok (Henc : ∀ s, encrypt s ≠ ""%string) tid rq body db :
  setup_ok db → setup_ok (smtpPost frac_text digest json_store encrypt tid rq body db).1.
Proof.
  intros Hok. unfold smtpPost. apply (configuring_cases _ _ _ setup_ok); [done|]. intros me _ _.
  apply (reading_cases _ _ _ setup_ok); [done|]. cbv zeta.
  destruct (truthy (trim (str_or_empty (obj_get body "host")))) eqn:Hh; [|done].
  destruct (isFinite _) eqn:Hf; [|done]. destruct (num_gt _ 0) eqn:Hg; [|done].
  destruct (truthy (trim (str_or_empty (obj_get body "fromEmail")))) eqn:He; [|done]. cbn [negb orb]. cbv iota.
  destruct (truthy (if truthy _ then _ else _)) eqn:Hp; [|done]. cbn [negb]. cbv iota.
  destruct (js_Number _ _) as [p| | | |]; try done. destruct (int4 p) eqn:Hi; [|done]. cbn [negb]. cbv iota.
  apply ok_log, ok_smtp; [done|]. unfold int4 in Hi. simpl in Hg. reflect_bool. by constructor; simpl; try lia.
Qed.

Lemma smtpTest_ok tid rq relay multi fb body db :
  setup_ok db → setup_ok (smtpTestPost decrypt tid rq relay multi fb body db).1.
Proof.
  intros Hok. unfold smtpTestPost. apply (configuring_cases _ _ _ setup_ok); [done|]. intros me _ _.
  apply (reading_cases _ _ _ setup_ok); [done|]. destruct (sendMail _ _ _ _ _ _ _ _ _ _ _) as [res o]. simpl.
  destruct (su_smtp db !! tid) as [r|] eqn:E; [|by destruct db].
  apply ok_smtp; [done|]. apply (so_smtp _ _ _ _ Hok) in E as []. by constructor.
Qed.

Lemma directoryPost_ok tid rq body db :
  setup_ok db → setup_ok (directoryPost frac_text digest json_store encrypt tid rq body db).1.
Proof.
  intros Hok. unfold directoryPost. apply (configuring_cases _ _ _ setup_ok); [done|]. intros me _ _.
  apply (reading_cases _ _ _ setup_ok); [done|]. cbv zeta. case_match; [done|].
  set (row := saveDirectoryConfig _ _ _). destruct (int4 (dc_port row)) eqn:Hi; [|done]. cbn [negb]. cbv iota.
  apply ok_log, ok_directory; [done|]. split; [|apply security_in].
  assert (0 ≤ dc_port row) as Hpos.
  { subst row. cbn [saveDirectoryConfig dc_port di_port]. destruct (_ && _) eqn:E; [|lia]. reflect_bool.
    match goal with H : num_gt ?n 0 = true |- _ => destruct n; simpl in *; try done; reflect_bool; try lia end. }
  unfold int4 in Hi. reflect_bool. lia.
Qed.

Lemma directoryTest_ok tid rq ldap db : setup_ok db → setup_ok (directoryTestPost decrypt tid rq ldap db).1.
Proof.
  intros Hok. unfold directoryTestPost. apply (configuring_cases _ _ _ setup_ok); [done|]. intros me _ _.
  destruct (getDirectoryConfig _ _) as [cfg|]; [|done]. case_match; [done|]. case_match; [done|].
  destruct (getDirectoryBindPassword _ _); [|done]. cbn [fst]. destruct (su_directory db !! tid) as [r|] eqn:E; [|by destruct db].
  cbn [recordDirectoryTest fmap option_fmap option_map]. apply ok_directory; [done|]. exact (so_directory _ _ _ _ Hok _ _ E).
Qed.

Lemma splash_ok tid rq body db :
  setup_ok db → setup_ok (splashPost frac_text digest json_store from_base64 tid rq body db).1.
Proof.
  intros Hok. unfold splashPost. apply (configuring_page_cases _ _ _ setup_ok); [done|]. intros me _ _.
  apply (reading_cases _ _ _ setup_ok); [done|].
  destruct (parseSplashUpload _ _ _) as [|data ty|] eqn:Hs; [by apply ok_log, ok_branding| |done].
  apply ok_log, ok_branding; [done|]. unfold parseSplashUpload in Hs.
  destruct (obj_get body "splashImage") as [| | | |s| |]; try done. destruct (truthy s); [|done]. cbn [negb] in Hs.
  destruct (choice _ _) as [ty0|] eqn:Hc; [|done]. cbv zeta in Hs. cbv iota in Hs.
  destruct (byte_count _ =? 0) eqn:H0 in Hs; [done|]. destruct (MAX_SPLASH_BYTES <? _) eqn:H1 in Hs; [done|].
  injection Hs as <- <-. unfold branding_ok. cbn [br_splash br_type]. apply choice_in in Hc. split; [|done].
  apply Z.eqb_neq in H0. apply Z.ltb_ge in H1. unfold byte_count in *. lia.
Qed.

Lemma release_ok body v u : parseLatestRelease body = (Some v, u) → is_Some (semver (chars v)).
Proof.
  unfold parseLatestRelease. destruct (_ || _); [done|]. case_bool_decide as Hs; [|done].
  intros [= <- _]. by rewrite chars_unchars.
Qed.

Lemma updatesCheck_ok tid rq answer db : setup_ok db → setup_ok (updatesCheck tid rq answer db).1.
Proof.
  intros Hok. unfold updatesCheck. apply (configuring_cases _ _ _ setup_ok); [done|]. intros me _ _.
  destruct (getUpdateCheckConfig _ _) as [cfg|]; [|done]. case_match; [done|].
  assert (∀ v u k, match v with Some x => is_Some (semver (chars x)) | None => True end →
    updates_ok (saveUpdateCheckResult (cq_now rq) v u k (su_updates db !! tid))) as Hsave.
  { intros v u k Hv. destruct (su_updates db !! tid) as [r|] eqn:E; [|done]. pose proof (so_updates _ _ _ _ Hok _ _ E).
    unfold updates_ok. simpl. by destruct k. }
  destruct answer as [b|]; [|by apply ok_updates, Hsave].
  destruct (parseLatestRelease b) as [v u] eqn:Hr. apply ok_updates; [done|]. apply Hsave.
  destruct v; [|done]. by eapply release_ok.
Qed.

Lemma updates_post_ok tid rq body db : setup_ok db → setup_ok (updatesPost frac_text digest json_store tid rq body db).1.
Proof.
  intros Hok. unfold updatesPost. apply (configuring_cases _ _ _ setup_ok); [done|]. intros me _ _.
  apply (reading_cases _ _ _ setup_ok); [done|]. apply ok_log, ok_updates; [done|].
  unfold updates_ok. simpl. destruct (su_updates db !! tid) as [r|] eqn:E; [|done]. exact (so_updates _ _ _ _ Hok _ _ E).
Qed.

Lemma mappings_ok op db :
  setup_ok db →
  match op with SMappingPost _ _ _ _ | SMappingPatch _ _ _ _ | SMappingDelete _ _ _ => True | _ => False end →
  setup_ok (setup_apply db op).
Proof.
  intros Hok Hop. destruct op; try done; simpl.
  - unfold mappingsPost. apply (configuring_cases _ _ _ setup_ok); [done|]. intros me _ _.
    repeat (case_match; try done); by apply ok_log, ok_mappings.
  - unfold mappingPatch. apply (configuring_cases _ _ _ setup_ok); [done|]. intros me _ _.
    apply (reading_cases _ _ _ setup_ok); [done|]. repeat (case_match; try done); by apply ok_log, ok_mappings.
  - unfold mappingDelete. apply (configuring_cases _ _ _ setup_ok); [done|]. intros me _ _. by apply ok_log, ok_mappings.
Qed.

Lemma step_ok (Henc : ∀ s, encrypt s ≠ ""%string) op db : setup_ok db → setup_ok (setup_apply db op).
Proof.
  intros Hok. destruct op; cbn [setup_apply].
  - by apply ok_read.
  - by apply policy_ok.
  - by apply center_ok.
  - by apply directoryPost_ok.
  - by apply directoryTest_ok.
  - by apply (mappings_ok (SMappingPost _ _ _ _)).
  - by apply (mappings_ok (SMappingPatch _ _ _ _)).
  - by apply (mappings_ok (SMappingDelete _ _ _)).
  - by apply smtpPost_ok.
  - by apply smtpTest_ok.
  - by apply splash_ok.
  - unfold splashDelete. apply (configuring_page_cases _ _ _ setup_ok); [done|]. intros me _ _. by apply ok_log, ok_branding.
  - by apply updates_post_ok.
  - by apply updatesCheck_ok.
Qed.

(** The configuration is usable, always.  However administrators of any
    workspaces save policies, mail, directory, branding and update settings, and
    however the centre pushes zones, every stored row keeps its ranges: retention,
    invite and grant limits in range, only http(s) addresses, an allowlist of
    which every entry parses, a zone [Intl] knows, modes from their lists, an
    anchoring switch only with an authority, a mail relay with host, port, sender
    and password, an image of a known type and bounded size; and the settings
    cache never differs from its row. *)
Theorem configuration_wf (Henc : ∀ s, encrypt s ≠ ""%string) (ops : list setup_op) db :
  setup_ok db → setup_ok (foldl setup_apply db ops).
Proof. revert db. induction ops as [|op ops IH]; intros db Hok; [done|]. apply IH. by apply step_ok. Qed.

(** ** Who changes what *)

(** Everything a workspace's administrators configure. *)
Record own_config := {
  oc_settings : option PlatformSettings; oc_guac : option json; oc_zoneAt : option Z; oc_smtp : option SmtpRow;
  oc_directory : option DirectoryConfig; oc_mappings : option (list GroupMapping); oc_branding : option BrandingRow;
  oc_updates : option UpdateRow;
}.
Definition config_of (tid : string) (db : Setup) : own_config :=
  {| oc_settings := settingsRows (su_settings db) !! tid; oc_guac := su_guac db !! tid; oc_zoneAt := su_zoneAt db !! tid;
     oc_smtp := su_smtp db !! tid; oc_directory := su_directory db !! tid; oc_mappings := su_mappings db !! tid;
     oc_branding := su_branding db !! tid; oc_updates := su_updates db !! tid |}.

(** [db'] differs from [db] for [tid] only, if [who]. *)
Definition only_by (tid : string) (who : Prop) (db db' : Setup) : Prop :=
  (∀ t, config_of t db' = config_of t db) ∨ (who ∧ ∀ t, t ≠ tid → config_of t db' = config_of t db).

Lemma only_refl tid who db : only_by tid who db db.
Proof. by left. Qed.
Lemma only_other tid (who : Prop) db db' : who → (∀ t, t ≠ tid → config_of t db' = config_of t db) → only_by tid who db db'.
Proof. by right. Qed.
Lemma read_rows tid now e st : settingsRows (getPlatformSettings tid now e st).1 = settingsRows st.
Proof. unfold getPlatformSettings. by repeat case_match. Qed.

(** Any nest of setters on the rows of [tid]. *)
Ltac elsewhere := let t := fresh in let Ht := fresh in
  apply only_other; [eauto|]; intros t Ht; unfold config_of, saveGuacParamDefaults, saveCenterZone, clear_splash; cbn;
  rewrite ?lookup_insert_ne by done; done.

Lemma policy_only tid rq body db :
  only_by tid (op_entitled (SPolicy tid rq body)) db
    (policyPost parse_url isValidTimeZone frac_text digest json_store centreConfigured tid rq body db).1.
Proof.
  cbn [op_entitled]. unfold policyPost. apply (configuring_cases _ _ _ (only_by _ _ db)); [apply only_refl|]. intros me Hme Hcan.
  apply (reading_cases _ _ _ (only_by _ _ db)); [apply only_refl|].
  destruct (toWebhook _ _) as [webhook|]; [|apply only_refl]. cbv zeta.
  destruct (negb (bool_decide _)); [apply only_refl|]. destruct (negb (timeZoneManaged _ _ _) && _); [apply only_refl|].
  destruct (is_true _ && _); [apply only_refl|]. destruct (truthy _ && _); [apply only_refl|].
  destruct (if timeZoneManaged _ _ _ then _ else _) as [st zone] eqn:Hst.
  assert (settingsRows st = settingsRows (su_settings db)) as Hrows.
  { destruct (timeZoneManaged _ _ _); [|by simplify_eq]. destruct (getPlatformSettings _ _ _ _) as [st' s] eqn:Hg.
    simplify_eq. by rewrite <-(read_rows tid (cq_now rq) (cq_dbError rq) (su_settings db)), Hg. }
  destruct (negb (int4_columns _)); [left; intros t; unfold config_of; cbn; by rewrite Hrows|].
  apply only_other; [eauto|]. intros t Ht. unfold config_of, saveGuacParamDefaults. cbn. rewrite Hrows.
  by rewrite !lookup_insert_ne by done.
Qed.

Lemma center_only tid rq body db :
  only_by tid (op_entitled (SCenter tid rq body)) db (centerSettingsPost isValidTimeZone tid rq body db).1.
Proof.
  cbn [op_entitled]. unfold centerSettingsPost. destruct (truthy (trim (ce_secret rq ?? ""))) eqn:Hs; [|apply only_refl]. cbn [negb orb].
  case_bool_decide as Hg; [|apply only_refl]. cbn [negb]. case_bool_decide; [apply only_refl|].
  destruct (negb _ || _); [apply only_refl|]. destruct (ce_slug rq) as [slug|]; [|apply only_refl]. case_bool_decide as Ho; [|apply only_refl]. cbn [negb].
  unfold applyCenterZone. destruct (negb (isValidTimeZone _)); [apply only_refl|].
  pose proof (read_rows tid (ce_now rq) (ce_dbError rq) (su_settings db)) as Hr.
  destruct (getPlatformSettings _ _ _ _) as [st s]. cbn in Hr. cbv beta iota zeta.
  destruct (bool_decide _ && _); [left; intros t; unfold config_of; cbn; by rewrite Hr|].
  apply only_other; [eauto 6|]. intros t Ht. unfold config_of, saveCenterZone. cbn. by rewrite Hr, !lookup_insert_ne by done.
Qed.

(** One request. *)
Lemma step_only op db : only_by (op_tenant op) (op_entitled op) db (setup_apply db op).
Proof.
  destruct op as [tid now e|tid rq body|tid rq body|tid rq body|tid rq ldap|tid rq id body|tid rq id body|tid rq id
                 |tid rq body|tid rq relay multi fb body|tid rq body|tid rq|tid rq body|tid rq answer]; cbn [setup_apply op_tenant op_entitled].
  - left. intros t. unfold config_of. simpl. by rewrite read_rows.
  - apply policy_only.
  - apply center_only.
  - unfold directoryPost. apply (configuring_cases _ _ _ (only_by _ _ db)); [apply only_refl|]. intros me Hme Hcan.
    apply (reading_cases _ _ _ (only_by _ _ db)); [apply only_refl|]. cbv zeta.
    case_match; [apply only_refl|]. set (row := saveDirectoryConfig _ _ _).
    destruct (negb (int4 _)); [apply only_refl|]. elsewhere.
  - unfold directoryTestPost. apply (configuring_cases _ _ _ (only_by _ _ db)); [apply only_refl|]. intros me Hme Hcan.
    destruct (getDirectoryConfig _ _); [|apply only_refl]. do 2 (case_match; [apply only_refl|]).
    destruct (getDirectoryBindPassword _ _); [|apply only_refl]. cbv zeta. cbn [fst].
    destruct (recordDirectoryTest _ _ _ _); elsewhere.
  - unfold mappingsPost. apply (configuring_cases _ _ _ (only_by _ _ db)); [apply only_refl|]. intros me Hme Hcan.
    repeat (case_match; try apply only_refl); elsewhere.
  - unfold mappingPatch. apply (configuring_cases _ _ _ (only_by _ _ db)); [apply only_refl|]. intros me Hme Hcan.
    apply (reading_cases _ _ _ (only_by _ _ db)); [apply only_refl|]. repeat (case_match; try apply only_refl); elsewhere.
  - unfold mappingDelete. apply (configuring_cases _ _ _ (only_by _ _ db)); [apply only_refl|]. intros me Hme Hcan. elsewhere.
  - unfold smtpPost. apply (configuring_cases _ _ _ (only_by _ _ db)); [apply only_refl|]. intros me Hme Hcan.
    apply (reading_cases _ _ _ (only_by _ _ db)); [apply only_refl|]. cbv zeta.
    destruct (_ || _ || _ || _); [apply only_refl|]. destruct (negb (truthy _)); [apply only_refl|].
    destruct (js_Number _ _); try apply only_refl. destruct (negb (int4 _)); [apply only_refl|]. elsewhere.
  - unfold smtpTestPost. apply (configuring_cases _ _ _ (only_by _ _ db)); [apply only_refl|]. intros me Hme Hcan.
    apply (reading_cases _ _ _ (only_by _ _ db)); [apply only_refl|]. destruct (sendMail _ _ _ _ _ _ _ _ _ _ _). cbv zeta. cbn [fst].
    destruct (su_smtp db !! tid); elsewhere.
  - unfold splashPost. apply (configuring_page_cases _ _ _ (only_by _ _ db)); [apply only_refl|]. intros me Hme Hcan.
    apply (reading_cases _ _ _ (only_by _ _ db)); [apply only_refl|]. destruct (parseSplashUpload _ _ _); [elsewhere..|apply only_refl].
  - unfold splashDelete. apply (configuring_page_cases _ _ _ (only_by _ _ db)); [apply only_refl|]. intros me Hme Hcan. elsewhere.
  - unfold updatesPost. apply (configuring_cases _ _ _ (only_by _ _ db)); [apply only_refl|]. intros me Hme Hcan.
    apply (reading_cases _ _ _ (only_by _ _ db)); [apply only_refl|]. elsewhere.
  - unfold updatesCheck. apply (configuring_cases _ _ _ (only_by _ _ db)); [apply only_refl|]. intros me Hme Hcan.
    destruct (getUpdateCheckConfig _ _); [|apply only_refl]. case_match; [apply only_refl|]. cbv zeta.
    destruct answer as [b|]; [destruct (parseLatestRelease b)|]; elsewhere.
Qed.

(** A workspace's configuration is its own.  After any requests by any
    workspaces, the rows of a workspace are what they were, unless one of its own
    requests came from a user who may configure it, or from the centre with the
    service secret and for the organisation the workspace is linked to; reading
    changes no row at all. *)
Theorem configuration_guarded (ops : list setup_op) db t :
  config_of t (foldl setup_apply db ops) = config_of t db ∨
  ∃ op, op ∈ ops ∧ op_tenant op = t ∧ op_entitled op.
Proof.
  revert db. induction ops as [|op ops IH]; intros db; [by left|]. simpl.
  destruct (IH (setup_apply db op)) as [->|(o & Ho & Ht & He)]; [|right; exists o; split; [by right|done]].
  destruct (step_only op db) as [Hs|[He Hs]]; [left; apply Hs|].
  destruct (decide (op_tenant op = t)) as [<-|Hne]; [right; exists op; split; [by left|done]|left; by apply Hs].
Qed.

(** ** The centre's zone *)

Definition zone_of (tid : string) (db : Setup) : option string := settingsRows (su_settings db) !! tid ≫= displayTimezone.

(** Requests by which the zone of [tid] may change hands: a push of the centre,
    and a policy saved while the settings cannot be read. *)
Definition zone_untouched (tid : string) (op : setup_op) : bool :=
  match op with
  | SCenter t _ _ => negb (t =s tid)
  | SPolicy t rq _ => negb (t =s tid) || negb (cq_dbError rq)
  | _ => true
  end.

(** The requests that write the row of settings. *)
Definition writes_settings (op : setup_op) : bool :=
  match op with SRead _ _ _ | SPolicy _ _ _ | SCenter _ _ _ => true | _ => false end.

Definition writes_smtp (op : setup_op) : bool := match op with SSmtp _ _ _ | SSmtpTest _ _ _ _ _ _ => true | _ => false end.

(** What every setter keeps, every request keeps. *)
Lemma step_frame (P : Setup → Prop) op db :
  P db → (writes_smtp op = true → ∀ d m, P d → P (set_smtp m d)) → (∀ d m, P d → P (set_directory m d)) → (∀ d m, P d → P (set_mappings m d)) →
  (∀ d m, P d → P (set_branding m d)) → (∀ d m, P d → P (set_updates m d)) → (∀ d l, P d → P (set_log l d)) →
  (writes_settings op = true →
     (∀ d st, P d → P (set_settings st d)) ∧ (∀ d m, P d → P (set_guac m d)) ∧ (∀ d m, P d → P (set_zoneAt m d))) →
  P (setup_apply db op).
Proof.
  intros H0 Hsm Hdi Hma Hbr Hup Hlo Hw. destruct op; cbn [setup_apply].
  - destruct (Hw eq_refl) as (Hse & _ & _). auto.
  - destruct (Hw eq_refl) as (Hse & Hgu & _). unfold policyPost. apply (configuring_cases _ _ _ P); [done|]. intros me _ _.
    apply (reading_cases _ _ _ P); [done|]. destruct (toWebhook _ _); [|done]. cbv zeta.
    destruct (negb (bool_decide _)); [done|]. do 3 (destruct (_ && _); [done|]).
    destruct (if timeZoneManaged _ _ _ then _ else _). destruct (negb (int4_columns _)); [by apply Hse|].
    apply Hlo, Hse, Hgu, Hse, Hse, H0.
  - destruct (Hw eq_refl) as (Hse & _ & Hzo). unfold centerSettingsPost. destruct (negb _ || _); [done|].
    case_bool_decide; [done|]. destruct (negb _ || _); [done|]. destruct (ce_slug rq); [|done]. case_bool_decide; [|done].
    cbn [negb]. unfold applyCenterZone. destruct (negb _); [done|]. destruct (getPlatformSettings _ _ _ _).
    destruct (bool_decide _ && _); [by apply Hse|]. apply Hzo, Hse, Hse, H0.
  - unfold directoryPost. apply (configuring_cases _ _ _ P); [done|]. intros me _ _. apply (reading_cases _ _ _ P); [done|].
    cbv zeta. case_match; [done|]. destruct (negb (int4 _)); [done|]. apply Hlo, Hdi, H0.
  - unfold directoryTestPost. apply (configuring_cases _ _ _ P); [done|]. intros me _ _. repeat (case_match; try done); apply Hdi, H0.
  - unfold mappingsPost. apply (configuring_cases _ _ _ P); [done|]. intros me _ _. repeat (case_match; try done); apply Hlo, Hma, H0.
  - unfold mappingPatch. apply (configuring_cases _ _ _ P); [done|]. intros me _ _. apply (reading_cases _ _ _ P); [done|].
    repeat (case_match; try done); apply Hlo, Hma, H0.
  - unfold mappingDelete. apply (configuring_cases _ _ _ P); [done|]. intros me _ _. apply Hlo, Hma, H0.
  - unfold smtpPost. apply (configuring_cases _ _ _ P); [done|]. intros me _ _. apply (reading_cases _ _ _ P); [done|].
    cbv zeta. destruct (_ || _ || _ || _); [done|]. destruct (negb (truthy _)); [done|].
    destruct (js_Number _ _); try done. destruct (negb (int4 _)); [done|]. apply Hlo, Hsm, H0; done.
  - unfold smtpTestPost. apply (configuring_cases _ _ _ P); [done|]. intros me _ _. apply (reading_cases _ _ _ P); [done|].
    destruct (sendMail _ _ _ _ _ _ _ _ _ _ _). by apply Hsm, H0.
  - unfold splashPost. apply (configuring_page_cases _ _ _ P); [done|]. intros me _ _. apply (reading_cases _ _ _ P); [done|].
    destruct (parseSplashUpload _ _ _); [apply Hlo, Hbr, H0..|done].
  - unfold splashDelete. apply (configuring_page_cases _ _ _ P); [done|]. intros me _ _. apply Hlo, Hbr, H0.
  - unfold updatesPost. apply (configuring_cases _ _ _ P); [done|]. intros me _ _. apply (reading_cases _ _ _ P); [done|]. apply Hlo, Hup, H0.
  - unfold updatesCheck. apply (configuring_cases _ _ _ P); [done|]. intros me _ _. repeat (case_match; try done); apply Hup, H0.
Qed.

Lemma step_settings op db :
  writes_settings op = false →
  su_settings (setup_apply db op) = su_settings db ∧ su_zoneAt (setup_apply db op) = su_zoneAt db.
Proof. intros Hw. by apply (step_frame (λ d, su_settings d = su_settings db ∧ su_zoneAt d = su_zoneAt db)); [..|rewrite Hw]. Qed.
(** No request links a workspace to an organisation. *)
Lemma step_orgs op db : su_orgs (setup_apply db op) = su_orgs db.
Proof. by apply (step_frame (λ d, su_orgs d = su_orgs db)). Qed.

Lemma policy_zone tid rq body db :
  setup_ok db → timeZoneManaged centreConfigured tid db = true → cq_dbError rq = false →
  let db' := (policyPost parse_url isValidTimeZone frac_text digest json_store centreConfigured tid rq body db).1 in
  zone_of tid db' = zone_of tid db ∧ su_zoneAt db' = su_zoneAt db.
Proof.
  intros Hok Hm He. set (P := λ db', zone_of tid db' = zone_of tid db ∧ su_zoneAt db' = su_zoneAt db). cbv zeta.
  match goal with |- zone_of tid ?d = _ ∧ _ => change (P d) end.
  unfold policyPost. apply (configuring_cases _ _ _ P); [done|]. intros me _ _. apply (reading_cases _ _ _ P); [done|].
  destruct (toWebhook _ _); [|done]. cbv zeta. rewrite Hm, He. cbn [negb andb]. case_bool_decide; [|done]. cbn [negb].
  destruct (is_true _ && _); [done|]. destruct (truthy _ && _); [done|].
  pose proof (read_row tid (cq_now rq) (su_settings db) (so_cache _ _ _ _ Hok)) as Hrow.
  pose proof (read_rows tid (cq_now rq) false (su_settings db)) as Hrows.
  destruct (getPlatformSettings _ _ _ _) as [st s0]. cbn in Hrow, Hrows. cbv beta iota.
  destruct (negb (int4_columns _)); [split; [unfold zone_of; cbn; by rewrite Hrows|done]|].
  split; [|done]. unfold zone_of, saveGuacParamDefaults. cbn. rewrite !lookup_insert_eq. cbn. rewrite Hrow.
  by destruct (settingsRows (su_settings db) !! tid).
Qed.

Lemma step_zone tid op db :
  setup_ok db → timeZoneManaged centreConfigured tid db = true → zone_untouched tid op = true →
  zone_of tid (setup_apply db op) = zone_of tid db ∧ timeZoneManaged centreConfigured tid (setup_apply db op) = true.
Proof.
  intros Hok Hm Hz.
  enough (zone_of tid (setup_apply db op) = zone_of tid db ∧ su_zoneAt (setup_apply db op) !! tid = su_zoneAt db !! tid) as [Hzo Hat].
  { split; [done|]. unfold timeZoneManaged, managingOrganisation, displayTimezoneFromCenter in *. by rewrite step_orgs, Hat. }
  destruct (decide (op_tenant op = tid)) as [Ht|Hne].
  - destruct op as [t now e|t rq body|t rq body| | | | | | | | | | |]; cbn [op_tenant] in Ht; subst;
      try (match goal with |- context [setup_apply db ?o] => destruct (step_settings o db eq_refl) as [Hs Hat] end;
           unfold zone_of; by rewrite Hs, Hat).
    + unfold zone_of. simpl. by rewrite read_rows.
    + simpl in Hz. rewrite bool_decide_eq_true_2 in Hz by done. simpl in Hz. apply negb_true_iff in Hz.
      destruct (policy_zone tid rq body db Hok Hm Hz) as [Hzo Hat]. split; [exact Hzo|]. cbn [setup_apply]. by rewrite Hat.
    + simpl in Hz. by rewrite bool_decide_eq_true_2 in Hz.
  - assert (config_of tid (setup_apply db op) = config_of tid db) as Hc.
    { destruct (step_only op db) as [Hs|[_ Hs]]; [apply Hs|apply Hs; congruence]. }
    unfold config_of in Hc. injection Hc as Hs _ Hat _ _ _ _ _. split; [unfold zone_of; by rewrite Hs|done].
Qed.


Lemma push_applied tid rq body db db' changed :
  setup_ok db → centerSettingsPost isValidTimeZone tid rq body db = (db', Reply 200 changed) →
  zone_of tid db' = Some (str_or_empty (obj_get body "timeZone")) ∧ is_Some (su_zoneAt db' !! tid) ∧ tid ≠ PLATFORM_TENANT_ID.
Proof.
  intros Hok. unfold centerSettingsPost. destruct (negb _ || _); [done|]. case_bool_decide as Hp; [done|].
  destruct (negb _ || _) eqn:Hv; [done|]. apply orb_false_iff in Hv as [_ Hv].
  destruct (ce_slug rq); [|done]. case_bool_decide; [|done]. cbn [negb]. unfold applyCenterZone. rewrite Hv.
  pose proof (read_row tid (ce_now rq) (su_settings db) (so_cache _ _ _ _ Hok)) as Hrow.
  pose proof (read_rows tid (ce_now rq) (ce_dbError rq) (su_settings db)) as Hrows.
  assert ((getPlatformSettings tid (ce_now rq) (ce_dbError rq) (su_settings db)).2 = EMPTY_SETTINGS ∨
    (getPlatformSettings tid (ce_now rq) (ce_dbError rq) (su_settings db)).2 = settingsRows (su_settings db) !! tid ?? EMPTY_SETTINGS) as Hs.
  { destruct (ce_dbError rq); [|by right]. unfold getPlatformSettings in Hrow |- *. revert Hrow. case_match; [by right|by left]. }
  clear Hrow. destruct (getPlatformSettings _ _ _ _) as [st s0]. cbn in Hs, Hrows. cbv beta iota zeta.
  destruct (bool_decide _ && _) eqn:Hb; intros [= <- <-].
  - unfold displayTimezoneFromCenter in Hb. reflect_bool. split_and!; [|done|done]. unfold zone_of. cbn. rewrite Hrows. destruct Hs as [->| ->]; [done|].
    by destruct (settingsRows (su_settings db) !! tid).
  - unfold zone_of. cbn. rewrite !lookup_insert_eq. split_and!; [done|eauto|done].
Qed.

(** The centre's zone stays.  Once the organisation a workspace is linked to
    has sent its time zone, no request of the console changes the display zone
    (as long as the settings can be read when a policy is saved), whatever zone
    it posts and however requests interleave; the next push does, and the zone
    remains the centre's. *)
Theorem centre_owns_zone (Henc : ∀ s, encrypt s ≠ ""%string) (ops : list setup_op) tid db :
  setup_ok db → timeZoneManaged centreConfigured tid db = true → Forall (λ op, zone_untouched tid op = true) ops →
  let db1 := foldl setup_apply db ops in
  zone_of tid db1 = zone_of tid db ∧ timeZoneManaged centreConfigured tid db1 = true ∧
  (∀ rq body db2 changed, centerSettingsPost isValidTimeZone tid rq body db1 = (db2, Reply 200 changed) →
     zone_of tid db2 = Some (str_or_empty (obj_get body "timeZone")) ∧ timeZoneManaged centreConfigured tid db2 = true).
Proof.
  intros Hok Hm Hops. cbv zeta.
  assert (zone_of tid (foldl setup_apply db ops) = zone_of tid db ∧
    timeZoneManaged centreConfigured tid (foldl setup_apply db ops) = true ∧ setup_ok (foldl setup_apply db ops)) as (Hz & Hm' & Hok').
  { revert db Hok Hm. induction Hops as [|op ops Hop Hops IH]; intros db Hok Hm; [done|]. simpl.
    destruct (step_zone tid op db Hok Hm Hop) as [Hz Hm']. rewrite <-Hz. apply IH; [by apply step_ok|done]. }
  split_and!; [done|done|]. intros rq body db2 changed Hp.
  destruct (push_applied _ _ _ _ _ _ Hok' Hp) as (Hzone & Hat & Ht). split; [done|].
  pose proof (step_orgs (SCenter tid rq body) (foldl setup_apply db ops)) as Ho. cbn [setup_apply] in Ho. rewrite Hp in Ho.
  unfold timeZoneManaged, managingOrganisation, displayTimezoneFromCenter in *. cbn [fst] in Ho. rewrite Ho.
  apply andb_true_iff in Hm' as [Hm1 _]. rewrite Hm1. by apply bool_decide_eq_true_2.
Qed.

(** ** Mail *)

(** A save of the mail settings of [tid] that names a new password. *)
Definition renames_password (tid : string) (op : setup_op) : bool :=
  match op with SSmtp t _ body => (t =s tid) && truthy (str_or_empty (obj_get body "password")) | _ => false end.
Definition password_of (tid : string) (db : Setup) : option string := su_smtp db !! tid ≫= (λ r, decrypt (sm_password r)).

Lemma step_password tid op db :
  is_Some (su_smtp db !! tid) → renames_password tid op = false → password_of tid (setup_apply db op) = password_of tid db ∧
  is_Some (su_smtp (setup_apply db op) !! tid).
Proof.
  intros [r Hr] Hop. destruct (decide (op_tenant op = tid)) as [Ht|Hne].
  2:{ assert (config_of tid (setup_apply db op) = config_of tid db) as Hc.
      { destruct (step_only op db) as [Hs|[_ Hs]]; [apply Hs|apply Hs; congruence]. }
      unfold config_of in Hc. injection Hc as _ _ _ Hsm _ _ _ _. unfold password_of. rewrite Hsm, Hr. eauto. }
  destruct (writes_smtp op) eqn:Hw.
  2:{ assert (su_smtp (setup_apply db op) = su_smtp db) as Hs; [|unfold password_of; by rewrite Hs, Hr].
      apply (step_frame (λ d, su_smtp d = su_smtp db)); try done. by rewrite Hw. }
  enough (∃ r', su_smtp (setup_apply db op) !! tid = Some r' ∧ sm_password r' = sm_password r) as (r' & Hr' & Hp).
  { unfold password_of. rewrite Hr, Hr'. cbn. rewrite Hp. eauto. }
  set (P := λ d, ∃ r', su_smtp d !! tid = Some r' ∧ sm_password r' = sm_password r).
  change (P (setup_apply db op)). assert (P db) as H0 by (by exists r).
  destruct op; try done; cbn [op_tenant] in Ht; subst; cbn [setup_apply].
  - simpl in Hop. rewrite bool_decide_eq_true_2 in Hop by done. simpl in Hop.
    unfold smtpPost. apply (configuring_cases _ _ _ P); [done|]. intros me _ _. apply (reading_cases _ _ _ P); [done|].
    cbv zeta. destruct (_ || _ || _ || _); [done|]. destruct (negb (truthy _)); [done|].
    destruct (js_Number _ _); try done. destruct (negb (int4 _)); [done|].
    eexists. cbn. rewrite lookup_insert_eq. split; [done|]. cbn. rewrite Hop, Hr. done.
  - unfold smtpTestPost. apply (configuring_cases _ _ _ P); [done|]. intros me _ _. apply (reading_cases _ _ _ P); [done|].
    destruct (sendMail _ _ _ _ _ _ _ _ _ _ _). cbn [fst]. rewrite Hr. eexists. cbn. rewrite lookup_insert_eq. done.
Qed.

(** What is saved is what sends.  Mail settings saved with a password and
    switched on make the next mail go to that host and port, signed in as that
    user with that very password, from that sender.  After any later requests of
    any workspaces, among them saves that leave the password blank, mail that the
    workspace's own settings send is still signed in with that password. *)
Theorem mail_saved_used (Hdec : ∀ s, decrypt (encrypt s) = Some s) tid rq body db db1 (ops : list setup_op) :
  smtpPost frac_text digest json_store encrypt tid rq body db = (db1, Reply 200 tt) →
  truthy (str_or_empty (obj_get body "password")) = true →
  (is_true (obj_get body "enabled") = true → ∀ relay multi fb to subject html text,
     ∃ p, js_Number frac_text (obj_get body "port") = NInt p ∧ 0 < p ≤ 2147483647 ∧
     ∃ o m, (sendMail decrypt relay false multi fb tid to subject html text db1).2 = Some (o, m) ∧
     tp_host o = trim (str_or_empty (obj_get body "host")) ∧ tp_port o = p ∧
     tp_user o = trim (str_or_empty (obj_get body "username")) ∧ tp_pass o = str_or_empty (obj_get body "password") ∧
     ml_to m = to ∧ ml_from m = quote +:+ trim (str_or_empty (obj_get body "fromName")) +:+ quote +:+ " <" +:+
                                trim (str_or_empty (obj_get body "fromEmail")) +:+ ">") ∧
  (Forall (λ op, renames_password tid op = false) ops →
   ∀ relay multi fb to subject html text o m r,
     su_smtp (foldl setup_apply db1 ops) !! tid = Some r → sm_enabled r = true →
     (sendMail decrypt relay false multi fb tid to subject html text (foldl setup_apply db1 ops)).2 = Some (o, m) →
     tp_pass o = str_or_empty (obj_get body "password")).
Proof.
  intros Hpost Hpw.
  assert (∃ p r, js_Number frac_text (obj_get body "port") = NInt p ∧ 0 < p ≤ 2147483647 ∧ su_smtp db1 !! tid = Some r ∧
    sm_host r = trim (str_or_empty (obj_get body "host")) ∧ sm_port r = p ∧
    sm_username r = trim (str_or_empty (obj_get body "username")) ∧ sm_password r = encrypt (str_or_empty (obj_get body "password")) ∧
    sm_fromName r = trim (str_or_empty (obj_get body "fromName")) ∧ sm_fromEmail r = trim (str_or_empty (obj_get body "fromEmail")) ∧
    sm_enabled r = is_true (obj_get body "enabled")) as (p & r & Hp & Hrange & Hr & Hh & Hpo & Hu & Hsp & Hn & Hm & Hen).
  { revert Hpost. unfold smtpPost, configuring. destruct (cq_user rq); [|done]. destruct (negb _); [done|].
    rewrite reading_object by (intros ->; done). cbv zeta.
    destruct (_ || _ || _ || _) eqn:Hg; [done|]. rewrite Hpw. destruct (negb (truthy (encrypt _))); [done|].
    destruct (js_Number _ _) as [p| | | |]; try done. destruct (int4 p) eqn:Hi; [|done]. intros [= <-].
    unfold int4 in Hi. reflect_bool. simpl in *. reflect_bool. eexists p, _. split; [done|]. split; [lia|].
    rewrite lookup_insert_eq. split; [done|]. by split_and!. }
  assert (password_of tid db1 = Some (str_or_empty (obj_get body "password"))) as Hpass.
  { unfold password_of. rewrite Hr. cbn. by rewrite Hsp, Hdec. }
  split.
  - intros He relay multi fb to subject html text. exists p. split; [done|]. split; [done|].
    unfold sendMail, getSendingSmtpConfig, getSmtpConfig. rewrite Hr, Hen, He. cbn. rewrite Hen, He. cbn. rewrite Hsp, Hdec. cbn.
    eexists _, _. split; [done|]. cbn. unfold mail_from. rewrite Hn, Hm. by split_and!.
  - intros Hops relay multi fb to subject html text o m r' Hr' He' Hsend.
    assert (password_of tid (foldl setup_apply db1 ops) = password_of tid db1) as Hkept.
    { clear Hr' Hsend. assert (is_Some (su_smtp db1 !! tid)) as Hsome by eauto. clear Hpost Hr Hpass. revert Hsome.
      generalize db1. induction Hops as [|op ops Hop Hops IH]; intros d Hsome; [done|]. simpl.
      destruct (step_password tid op d Hsome Hop) as [Hq Hs]. rewrite <-Hq. by apply IH. }
    unfold sendMail, getSendingSmtpConfig, getSmtpConfig in Hsend. rewrite Hr', He' in Hsend. cbn in Hsend. rewrite He' in Hsend.
    cbn in Hsend. unfold password_of in Hkept at 1. rewrite Hr', Hpass in Hkept. cbn in Hkept. rewrite Hkept in Hsend.
    cbn in Hsend. by injection Hsend as <- _.
Qed.
End runs.

(** ** Versions *)

(** The order of versions, field by field. *)
Definition version_lt (a b : Z * Z * Z) : Prop :=
  let '(a1, a2, a3) := a in let '(b1, b2, b3) := b in
  a1 < b1 ∨ (a1 = b1 ∧ (a2 < b2 ∨ (a2 = b2 ∧ a3 < b3))).

Lemma compare_spec x y v w :
  parse_version x = Some v → parse_version y = Some w →
  (compareSemver x y = Some (-1) ↔ version_lt v w) ∧ (compareSemver x y = Some 1 ↔ version_lt w v) ∧
  (compareSemver x y = Some 0 ↔ v = w).
Proof.
  destruct v as [[a1 a2] a3], w as [[b1 b2] b3]. unfold compareSemver, version_lt, cmp. intros -> ->. cbn.
  destruct (Z.ltb_spec a1 b1), (Z.ltb_spec b1 a1), (Z.ltb_spec a2 b2), (Z.ltb_spec b2 a2), (Z.ltb_spec a3 b3), (Z.ltb_spec b3 a3);
    try lia; (split_and!; split; intros Hx; try lia; try done; simplify_eq; try lia; repeat f_equal; lia).
Qed.

(** The badges follow the order: an update is offered exactly when the latest
    release and the manager's version both parse and the release is the later
    one; a connector is outdated exactly when both parse and its version is the
    earlier one.  No version is offered to itself, and never both ways round. *)
Theorem updates_follow_order latest manager :
  (isUpdateAvailable latest manager = true ↔
     ∃ v w, parse_version latest = Some v ∧ parse_version (Some manager) = Some w ∧ version_lt w v) ∧
  (isConnectorOutdated latest manager = true ↔
     ∃ v w, parse_version latest = Some v ∧ parse_version (Some manager) = Some w ∧ version_lt v w) ∧
  ¬ (isUpdateAvailable latest manager = true ∧ isConnectorOutdated latest manager = true).
Proof.
  unfold isUpdateAvailable, isConnectorOutdated. rewrite !bool_decide_eq_true.
  destruct (parse_version latest) as [v|] eqn:Hv, (parse_version (Some manager)) as [w|] eqn:Hw.
  - destruct (compare_spec latest (Some manager) v w Hv Hw) as (Hlt & Hgt & _). split_and!.
    + rewrite Hgt. split; [eauto|]. by intros (? & ? & [= <-] & [= <-] & ?).
    + rewrite Hlt. split; [eauto|]. by intros (? & ? & [= <-] & [= <-] & ?).
    + intros [E1 E2]. by rewrite E1 in E2.
  - unfold compareSemver. rewrite Hv, Hw. cbn. destruct v as [[? ?] ?]. split_and!; [split; [done|naive_solver]..|naive_solver].
  - unfold compareSemver. rewrite Hv. split_and!; [split; [done|naive_solver]..|naive_solver].
  - unfold compareSemver. rewrite Hv. split_and!; [split; [done|naive_solver]..|naive_solver].
Qed.

Example semver_examples :
  (compareSemver (Some "0.9.0"%string) (Some "0.9.1"%string), compareSemver (Some "v0.10.0"%string) (Some "0.9.9"%string),
   compareSemver (Some "0.9.0-rc1"%string) (Some "0.9.0"%string), compareSemver (Some "dev"%string) (Some "0.9.0"%string))
  = (Some (-1), Some 1, Some 0, None).
Proof. reflexivity. Qed.

(** ** Concrete runs *)

Definition demo_setup : Setup :=
  {| su_settings := {| settingsRows := {["t1"%string := set_displayTimezone "Europe/Istanbul" EMPTY_SETTINGS]}; settingsCache := ∅ |};
     su_guac := ∅; su_zoneAt := {["t1"%string := 5]}; su_orgs := {["t1"%string := "org1"%string]}; su_smtp := ∅; su_directory := ∅;
     su_mappings := ∅; su_connectors := ∅; su_sites := ∅; su_branding := ∅; su_updates := ∅;
     su_log := {| adminRows := []; adminHead := None |} |}.
Definition demo_http (s : string) : option Url :=
  if startsWith "https:" s then Some {| u_protocol := "https:"; u_host := ""; u_hostname := ""; u_href := s |} else None.
Definition demo_zones (z : string) : bool := (z =s "Europe/Istanbul") || (z =s "UTC").
Definition demo_policy (zone : string) : json :=
  JObj [("maxGrantDays", JNum (NInt 30)); ("vendorIpAllowlist", JStr " 10.0.0.0/8, 192.0.2.1 "); ("displayTimezone", JStr zone);
        ("notificationWebhookUrl", JStr "https://hooks.example/x")]%string.
Definition demo_push : CenterReq :=
  {| ce_secret := Some "s3cret"%string; ce_header := Some "s3cret"%string; ce_now := 9000; ce_dbError := false;
     ce_slug := Some "acme"%string; ce_slugByOrg := λ o, if o =s "org1" then Some "acme"%string else None |}.

Notation demo_apply := (setup_apply demo_http demo_zones frac_digits demo_digest id demo_encrypt demo_decrypt id true).

Lemma demo_setup_ok : setup_ok demo_http demo_zones id demo_setup.
Proof.
  constructor; cbn; try (intros ? ? Hl; by rewrite lookup_empty in Hl).
  - intros tid s [<- <-]%lookup_singleton_Some. constructor; cbn; try done. by intros z [= <-].
  - intros t s a Hl. cbn in Hl. by rewrite lookup_empty in Hl.
Qed.
Lemma demo_encrypt_full : ∀ s, demo_encrypt s ≠ ""%string.
Proof. done. Qed.

Lemma configuration_wf_witness :
  setup_ok demo_http demo_zones id (foldl demo_apply demo_setup [SPolicy "t1" demo_config_req (demo_policy "UTC")]).
Proof.
  exact (configuration_wf demo_http demo_zones frac_digits demo_digest id demo_encrypt demo_decrypt id true demo_encrypt_full
    [SPolicy "t1" demo_config_req (demo_policy "UTC")] demo_setup demo_setup_ok).
Defined.

Lemma centre_owns_zone_witness :
  zone_of "t1" (foldl demo_apply demo_setup [SPolicy "t1" demo_config_req (demo_policy "UTC")]) = Some "Europe/Istanbul"%string ∧
  maxGrantDays <$> (settingsRows (su_settings (foldl demo_apply demo_setup [SPolicy "t1" demo_config_req (demo_policy "UTC")])) !! "t1"%string)
    = Some (Some 30).
Proof.
  destruct (centre_owns_zone demo_http demo_zones frac_digits demo_digest id demo_encrypt demo_decrypt id true demo_encrypt_full
    [SPolicy "t1" demo_config_req (demo_policy "UTC")] "t1" demo_setup demo_setup_ok ltac:(vm_compute; reflexivity)
    ltac:(apply (bool_decide_unpack _); vm_compute; exact I)) as (Hz & _ & _).
  split; [exact Hz|vm_compute; reflexivity].
Defined.

Definition demo_smtp_body (password : string) : json :=
  JObj [("host", JStr " mail.example "); ("port", JStr "587"); ("username", JStr "svc"); ("password", JStr password);
        ("fromEmail", JStr "access@example.test"); ("enabled", JBool true)]%string.
Definition demo_mailed : Setup :=
  (smtpPost frac_digits demo_digest id demo_encrypt "t1" demo_config_req (demo_smtp_body " pw ") demo_setup).1.
Lemma mail_saved_used_witness :
  ∃ o m, (sendMail demo_decrypt (λ _ _, None) false false None "t1" ["x@example.test"%string] "s" "h" "t"
            (foldl demo_apply demo_mailed [SSmtp "t1" demo_config_req (demo_smtp_body "")])).2 = Some (o, m) ∧ tp_pass o = " pw "%string.
Proof.
  destruct (mail_saved_used demo_http demo_zones frac_digits demo_digest id demo_encrypt demo_decrypt id true (λ _, eq_refl)
    "t1" demo_config_req (demo_smtp_body " pw ") demo_setup demo_mailed [SSmtp "t1" demo_config_req (demo_smtp_body "")]
    ltac:(vm_compute; reflexivity) ltac:(vm_compute; reflexivity)) as [_ Hkept].
  pose proof (Hkept ltac:(apply (bool_decide_unpack _); vm_compute; exact I) (λ _ _, None) false None ["x@example.test"%string]
    "s"%string "h"%string "t"%string) as Hk.
  eexists _, _. split; [vm_compute; reflexivity|].
  refine (Hk _ _ _ _ _ _); vm_compute; reflexivity.
Defined.

(** Saving a policy while the settings cannot be read loses the centre's zone,
    which the route means to keep. *)
Theorem read_error_loses_zone :
  let rq := {| cq_user := Some (demo_user "u1" ADMIN); cq_now := 1000; cq_auditId := "a1"; cq_auditFails := false; cq_ip := None;
               cq_dbError := true |} in
  timeZoneManaged true "t1" demo_setup = true ∧
  zone_of "t1" (demo_apply demo_setup (SPolicy "t1" rq (demo_policy "UTC"))) = None.
Proof. vm_compute. done. Qed.

(** Between two whole ports the directory settings keep port 0. *)
Theorem half_port_stored :
  dc_port <$> (su_directory (demo_apply demo_setup (SDirectory "t1" demo_config_req (JObj [("port"%string, JStr "0.5")]))) !! "t1"%string)
    = Some 0.
Proof. vm_compute. reflexivity. Qed.
