(* ===== verification/Dashboard.v ===== *)
(** * What the console shows

    src/lib/dashboard/insights.ts, stats.ts and heatmap-zone.ts, and
    src/lib/console/activity-feed.ts: read-only views over the audit log, the
    grants, the sites and the recordings.

    The SQL of [getInsights] is written over lists of rows: a [GROUP BY] gives one
    row per key that occurs, [COUNT(DISTINCT x)] the number of different values.
    Which row comes first among equal counts is left to the database, so nothing
    here depends on it.  Zones are those of [WallClock]. *)

From S2P Require Import Prelude JsString JsValue Schema Transaction AuditChain AccessLog AdminLog Schedule Identity Access Tenant AuditQuery Recordings WallClock.

(** ** Grids of counts *)

Notation grid := (list (list Z)).
Definition grid_get (g : grid) (d h : Z) : Z := ((g !! Z.to_nat d) ≫= (λ r, r !! Z.to_nat h)) ?? 0.
Definition grid_set (g : grid) (d h v : Z) : grid := alter (λ r, <[Z.to_nat h := v]> r) (Z.to_nat d) g.
Definition zero_grid : grid := replicate 7 (replicate 24 0).

Definition in_grid (d h : Z) : bool := (0 <=? d) && (d <=? 6) && (0 <=? h) && (h <=? 23).

(** ** Pure parts of insights.ts *)

Record DailyCount := { dy_day : string; dy_count : Z }.
Record HourCell := { hc_dow : Z; hc_hour : Z; hc_count : Z }.
Record TrendDay := { td_date : string; td_allow : Z; td_deny : Z }.
Record RefCount := { rc_id : string; rc_label : string; rc_count : Z }.
Record Labeled := { lb_label : string; lb_count : Z }.

Definition IP_FLAG_THRESHOLD : Z := 3.

(** The day [i] before the one that starts at [base]: [setUTCDate] carries over
    months and years. *)
Definition days_back (now : Z) (i : Z) : Z :=
  let '(y, mo, d) := civil_from_days (now / ms_per_day) in Date_UTC y (mo - 1) (d - i) 0 0 0.
Definition zeroFillDays (now : Z) (days : nat) : list string :=
  map (λ i, slice_to 10 (toISOString (days_back now (Z.of_nat i)))) (rev (seq 0 days)).

(** [new Map(rows.map(r => [r.day, r.count])).get(k) ?? 0]: the last row wins. *)
Definition map_count (rows : list DailyCount) (k : string) : Z :=
  match find_row (λ r, dy_day r =s k) (rev rows) with Some r => dy_count r | None => 0 end.

Definition buildTrend (allow deny : list DailyCount) (now : Z) (days : nat) : list TrendDay :=
  map (λ k, {| td_date := k; td_allow := map_count allow k; td_deny := map_count deny k |}) (zeroFillDays now days).
Definition seriesFor (days : list string) (allow : list DailyCount) : list Z := map (map_count allow) days.

Definition buildHeatmap (cells : list HourCell) : grid * Z :=
  foldl (λ acc c, if negb (in_grid (hc_dow c) (hc_hour c)) then acc else
                  (grid_set acc.1 (hc_dow c) (hc_hour c) (hc_count c), Z.max acc.2 (hc_count c)))
    (zero_grid, 0) cells.

Definition toRefCounts (rows : list (string * option string * Z)) : list RefCount :=
  map (λ r, {| rc_id := r.1.1; rc_label := r.1.2 ?? r.1.1; rc_count := r.2 |}) rows.

Definition buildTypeMix (rows : list (string * Z)) : Z * Z :=
  foldl (λ acc r, if r.1 =s "GATEWAY" then (acc.1, acc.2 + r.2) else (acc.1 + r.2, acc.2)) (0, 0) rows.

Definition toDenyReasons (rows : list (string * Z)) (limit : nat) : Z * list Labeled :=
  (foldl (λ s r, s + r.2) 0 rows,
   map (λ r, {| lb_label := r.1; lb_count := r.2 |}) (take limit (newest_first snd rows))).

(** [Math.round(a / b)] for a positive [b]: halves go up. *)
Definition round_div (a b : Z) : Z := (2 * a + b) / (2 * b).
Definition sessionStats (recs : list SessionRecording) : Z * Z * Z :=
  let totalMs := foldl (λ s r, s + Z.max 0 (sr_lastEventAt r - sr_startedAt r)) 0 recs in
  let n := Z.of_nat (length recs) in
  if n =? 0 then (0, 0, 0) else (n, round_div totalMs 3600000, round_div totalMs (n * 60000)).

(** ** heatmap-zone.ts *)

(** [new Intl.DateTimeFormat("en-US", { timeZone, hourCycle: "h23", ... })] of this
    module: its fields have no seconds, and hours run from 0 to 23. *)
Class ZoneFormat := { zoneFormat : string → option (Z → list (string * string)) }.

Section zone.
Context {ZF : ZoneFormat}.

(** A field left out counts as 0; [None] is the throw of an unknown zone. *)
Definition part_or_0 (parts : list (string * string)) (type : string) : jsnum :=
  match list_find (λ p, p.1 = type) parts with Some (_, p) => Number p.2 | None => NInt 0 end.
Definition zoneOffsetMinutes (tz : string) (at_ : Z) : option Z :=
  f ← zoneFormat tz;
  let parts := f at_ in
  match part_or_0 parts "year", part_or_0 parts "month", part_or_0 parts "day", part_or_0 parts "hour", part_or_0 parts "minute" with
  | NInt y, NInt mo, NInt d, NInt h, NInt mi =>
      let asUtc := Date_UTC y (mo - 1) d h mi 0 in
      Some (round_div (asUtc - at_ / 60000 * 60000) 60000)
  | _, _, _, _, _ => None
  end.

(** The slots of the grid, day by day. *)
Definition slots : list (Z * Z) := flat_map (λ d, map (λ h, (Z.of_nat d, Z.of_nat h)) (seq 0 24)) (seq 0 7).
Definition rotate (g : grid) (shift : Z) : grid :=
  foldl (λ out p, let s := Z.rem (Z.rem (p.1 * 24 + p.2 + shift) 168 + 168) 168 in
                  grid_set out (s / 24) (Z.rem s 24) (grid_get g p.1 p.2)) zero_grid slots.

Definition heatmapInZone (g : grid) (tz : option string) (at_ : Z) : option grid :=
  match some_truthy tz with
  | None => None
  | Some z =>
      if z =s "UTC" then None else
      match zoneOffsetMinutes z at_ with
      | None => None
      | Some offset => if negb (Z.rem offset 60 =? 0) then None else Some (rotate g (Z.quot offset 60))
      end
  end.
End zone.

(** ** getInsights *)

(** [to_char(ts, 'YYYY-MM-DD')]. *)
Definition day_of (ms : Z) : string :=
  let '(y, mo, d) := civil_from_days (ms / ms_per_day) in date_text y mo d.
Definition dow_of (ms : Z) : Z := weekday_at ms.
Definition hour_of (ms : Z) : Z := ms mod ms_per_day / hour_ms.

Section sql.
Context {R K : Type} `{EqDecision K}.
(** [GROUP BY]: the keys that occur, and the rows of one. *)
Definition group_keys (key : R → K) (rows : list R) : list K := remove_dups (map key rows).
Definition group (key : R → K) (k : K) (rows : list R) : list R := List.filter (λ r, bool_decide (key r = k)) rows.
End sql.
Definition count_rows {R} (rows : list R) : Z := Z.of_nat (length rows).
(** [COUNT(DISTINCT x)] *)
Definition count_distinct {R K} `{EqDecision K} (f : R → option K) (rows : list R) : Z :=
  Z.of_nat (length (remove_dups (omap f rows))).
(** [ORDER BY n DESC LIMIT k] *)
Definition top {R} (k : nat) (n : R → Z) (rows : list R) : list R := take k (newest_first n rows).

Record InsightsDb := {
  in_events : list (string * AuditEvent);
  (** Id and access mode of every site. *)
  in_sites : list (string * string);
  (** Grants with the email of their user and the name of their site. *)
  in_grants : list (AccessGrant * option string * string);
  in_recordings : list SessionRecording;
  in_active : list string;
}.

Record Insights := {
  is_trend : list TrendDay;
  is_heatmap : grid * Z;
  is_topResources : list RefCount;
  is_topVendors : list RefCount;
  is_deny : Z * list Labeled;
  is_ipFlags : list (string * Z);
  is_expiring : Z * list (string * string * string);
  is_active : Z * option string;
  is_activeVendors : Z * list Z;
  is_typeMix : Z * Z;
  is_sessionStats : Z * Z * Z;
  is_topDenied : list Labeled;
}.

Definition allowed (e : AuditEvent) : bool := ae_decision e =s "ALLOW".
Definition denied (e : AuditEvent) : bool := ae_decision e =s "DENY".
Definition has {A} (o : option A) : bool := match o with Some _ => true | None => false end.
(** The greatest of the labels that are set, [MAX(column)]. *)
Definition max_label (labels : list (option string)) : option string :=
  foldl (λ m l, match m, l with
                | Some a, Some b => if bool_decide (String.leb a b) then Some b else Some a
                | None, b => b
                | a, None => a
                end) None labels.

(** One tenant's events since [since]. *)
Definition recent (tenant : string) (since : Z) (rows : list (string * AuditEvent)) : list AuditEvent :=
  map snd (List.filter (λ r, (r.1 =s tenant) && (since <=? ae_timestamp r.2)) rows).

(** Distinct users per day, of one decision. *)
Definition vendors_by_day (decision : AuditEvent → bool) (evs : list AuditEvent) : list DailyCount :=
  let rows := List.filter (λ e, has (ae_userId e) && decision e) evs in
  let key := λ e, day_of (ae_timestamp e) in
  map (λ k, {| dy_day := k; dy_count := count_distinct ae_userId (group key k rows) |}) (group_keys key rows).

(** Id, label and number of days with access, of sites or of users. *)
Definition by_days (id label : AuditEvent → option string) (evs : list AuditEvent) : list (string * option string * Z) :=
  let rows := List.filter (λ e, allowed e && has (id e)) evs in
  top 5 snd (map (λ k, let g := group id k rows in
                       (k ?? "", max_label (map label g), count_distinct (λ e, Some (day_of (ae_timestamp e))) g))
               (group_keys id rows)).

(** Pairs of user and site with access, by the access mode of the site. *)
Definition type_mix_rows (sites : list (string * string)) (evs : list AuditEvent) : list (string * Z) :=
  let rows := flat_map (λ e, map (λ s, (e, s.2)) (List.filter (λ s, bool_decide (Some s.1 = ae_siteId e)) sites))
                (List.filter (λ e, allowed e && has (ae_userId e)) evs) in
  map (λ m, (m, count_distinct (λ r, Some (ae_userId r.1, ae_siteId r.1)) (group snd m rows))) (group_keys snd rows).

(** [COALESCE(column, dflt)] and the number of rows, by the column: the name in
    [GROUP BY] is the column's, so a [NULL] and the text [dflt] are two rows. *)
Definition count_by (key : AuditEvent → option string) (dflt : string) (evs : list AuditEvent) : list (string * Z) :=
  map (λ k, (k ?? dflt, count_rows (group key k evs))) (group_keys key evs).

Definition hour_cells (evs : list AuditEvent) : list HourCell :=
  let key := λ e, (dow_of (ae_timestamp e), hour_of (ae_timestamp e)) in
  map (λ k, {| hc_dow := k.1; hc_hour := k.2; hc_count := count_rows (group key k evs) |}) (group_keys key evs).

Definition ip_flags (evs : list AuditEvent) : list (string * Z) :=
  let rows := List.filter (λ e, has (ae_userEmail e) && has (ae_clientIp e)) evs in
  newest_first snd (List.filter (λ r, IP_FLAG_THRESHOLD <=? r.2)
    (map (λ k, (k ?? "", count_distinct ae_clientIp (group ae_userEmail k rows))) (group_keys ae_userEmail rows))).

Definition expiring_soon (now : Z) (gs : list (AccessGrant * option string * string)) : list (AccessGrant * option string * string) :=
  List.filter (λ g, bool_decide (g_status g.1.1 = GActive) &&
                    match g_endsAt g.1.1 with Some e => (now <=? e) && (e <=? now + 7 * ms_per_day) | None => false end) gs.

(** The smallest of some texts, [sort()[0]]. *)
Definition min_text (l : list string) : option string :=
  foldl (λ m x, match m with Some a => Some (if bool_decide (String.leb a x) then a else x) | None => Some x end) None l.

Definition getInsights (tenant : string) (now : Z) (db : InsightsDb) : Insights :=
  let evs := recent tenant (now - 30 * ms_per_day) (in_events db) in
  let allowByDay := vendors_by_day allowed evs in
  let denyByDay := vendors_by_day denied evs in
  let denyRows := newest_first snd (count_by ae_reason "unspecified" (List.filter denied evs)) in
  let exp := expiring_soon now (in_grants db) in
  {| is_trend := buildTrend allowByDay denyByDay now 30;
     is_heatmap := buildHeatmap (hour_cells evs);
     is_topResources := toRefCounts (by_days ae_siteId ae_siteName evs);
     is_topVendors := toRefCounts (by_days ae_userId ae_userEmail evs);
     is_deny := toDenyReasons denyRows 5;
     is_ipFlags := ip_flags evs;
     is_expiring := (count_rows exp,
       map (λ g, (g.1.2 ?? "—", g.2, toISOString (g_endsAt g.1.1 ?? 0))) (take 5 (order_by (λ g, g_endsAt g.1.1 ?? 0) exp)));
     is_active := (count_rows (in_active db), min_text (in_active db));
     is_activeVendors := (count_distinct ae_userId (List.filter allowed evs), seriesFor (zeroFillDays now 30) allowByDay);
     is_typeMix := buildTypeMix (type_mix_rows (in_sites db) evs);
     is_sessionStats := sessionStats (List.filter (λ r, now - 30 * ms_per_day <=? sr_startedAt r) (in_recordings db));
     is_topDenied := map (λ r, {| lb_label := r.1; lb_count := r.2 |})
       (top 3 snd (count_by ae_userEmail "" (List.filter (λ e, denied e && has (ae_userEmail e)) evs))) |}.

(** ** stats.ts *)

Inductive tone := ok | warn | danger | neutral.
Definition healthTone (reachable total : Z) : tone :=
  if total =? 0 then neutral else if reachable =? total then ok else if reachable =? 0 then danger else warn.
Definition siteStatePill (probeOk : option bool) : string * tone :=
  match probeOk with
  | Some true => ("Reachable"%string, ok)
  | Some false => ("Down"%string, danger)
  | None => ("Unknown"%string, neutral)
  end.

Record StatsDb := {
  st_connectors : list string;
  st_probes : list (option bool);
  st_grants : list AccessGrant;
  st_notices : list (option Z);
}.
Record DashboardStats := {
  ds_connectors : Z; ds_connectorsOnline : Z; ds_sites : Z; ds_sitesReachable : Z; ds_sitesDown : Z; ds_sitesUnknown : Z;
  ds_activeGrants : Z; ds_pending : Z; ds_unreadAlerts : Z;
}.
(** [st_connectors]: the status of every connector; [st_notices]: when each
    notification was read. *)
Definition getDashboardStats (db : StatsDb) : DashboardStats :=
  let sites := count_rows (st_probes db) in
  let reachable := count_where (λ p, bool_decide (p = Some true)) (st_probes db) in
  let down := count_where (λ p, bool_decide (p = Some false)) (st_probes db) in
  {| ds_connectors := count_rows (st_connectors db);
     ds_connectorsOnline := count_where (λ s, s =s "ONLINE") (st_connectors db);
     ds_sites := sites; ds_sitesReachable := reachable; ds_sitesDown := down; ds_sitesUnknown := sites - reachable - down;
     ds_activeGrants := count_where (λ g, bool_decide (g_status g = GActive)) (st_grants db);
     ds_pending := count_where is_pending (st_grants db);
     ds_unreadAlerts := count_where (λ r, bool_decide (r = None)) (st_notices db) |}.

Record SetupStatus := {
  su_connectors : Z; su_connectorsOnline : Z; su_sites : Z; su_grants : Z; su_pending : Z; su_sitesReachable : Z; su_sitesUnreachable : Z;
}.
Definition getSetupStatus (db : StatsDb) : SetupStatus :=
  {| su_connectors := count_rows (st_connectors db);
     su_connectorsOnline := count_where (λ s, s =s "ONLINE") (st_connectors db);
     su_sites := count_rows (st_probes db); su_grants := count_rows (st_grants db);
     su_pending := count_where is_pending (st_grants db);
     su_sitesReachable := count_where (λ p, bool_decide (p = Some true)) (st_probes db);
     su_sitesUnreachable := count_where (λ p, bool_decide (p = Some false)) (st_probes db) |}.

(** ** activity-feed.ts *)

Inductive ActivityTone := TOk | TDeny | TInfo | TMuted.
Record ActivityItem := { ai_id : string; ai_at : Z; ai_kind : string; ai_text : string; ai_tone : ActivityTone }.

Definition mergeActivity (sources : list (list ActivityItem)) (limit : nat) : list ActivityItem :=
  take limit (newest_first ai_at (concat sources)).

(** One proxied request, not worth a line: an ALLOW with no reason. *)
Definition noise (e : AuditEvent) : bool := allowed e && negb (truthy_opt (ae_reason e)).

Definition access_item (id : string) (e : AuditEvent) : ActivityItem :=
  let reason := ae_reason e ?? "" in
  let who := ae_userEmail e ?? "someone" in
  let where_ := ae_siteName e ?? ae_host e in
  if startsWith "session_open" reason then
    {| ai_id := "a:" +:+ id; ai_at := ae_timestamp e; ai_kind := "session.connect";
       ai_text := who +:+ " connected to " +:+ where_; ai_tone := TOk |}
  else if startsWith "session_close" reason then
    let dur := trim (slice_from 13 reason) in
    {| ai_id := "a:" +:+ id; ai_at := ae_timestamp e; ai_kind := "session.disconnect";
       ai_text := who +:+ " disconnected from " +:+ where_ +:+ (if truthy dur then " · " +:+ dur else ""); ai_tone := TMuted |}
  else
    {| ai_id := "a:" +:+ id; ai_at := ae_timestamp e; ai_kind := if allowed e then "access.allow" else "access.deny";
       ai_text := who +:+ " " +:+ (if allowed e then "accessed" else "blocked at") +:+ " " +:+ where_;
       ai_tone := if allowed e then TOk else TDeny |}.

(** [/revoke|deny|delete|disable/.test(action)] *)
Definition closing_action (action : string) : bool :=
  includes "revoke" action || includes "deny" action || includes "delete" action || includes "disable" action.

Record AdminEntry := { ad_id : string; ad_at : Z; ad_actorEmail : option string; ad_action : string; ad_summary : string }.
Definition admin_item (e : AdminEntry) : ActivityItem :=
  {| ai_id := "m:" +:+ ad_id e; ai_at := ad_at e; ai_kind := ad_action e;
     ai_text := match some_truthy (ad_actorEmail e) with Some a => a +:+ " · " +:+ ad_summary e | None => ad_summary e end;
     ai_tone := if closing_action (ad_action e) then TDeny else TInfo |}.
Definition recording_item (r : SessionRecording) : ActivityItem :=
  {| ai_id := "r:" +:+ sr_id r; ai_at := sr_lastEventAt r; ai_kind := "rec.saved";
     ai_text := "session recording · " +:+ sr_host r; ai_tone := TMuted |}.

Record FeedDb := { fd_access : list (string * AuditEvent); fd_admin : list AdminEntry; fd_recordings : list SessionRecording }.

(** [findMany] with an order and a [take]. *)
Definition latest {R} (limit : nat) (at_ : R → Z) (rows : list R) : list R := take limit (newest_first at_ rows).

Definition getActivityFeed (limit : nat) (db : FeedDb) : list ActivityItem :=
  mergeActivity
    [map (λ r, access_item r.1 r.2) (latest limit (λ r, ae_timestamp r.2) (List.filter (λ r, negb (noise r.2)) (fd_access db)));
     map admin_item (latest limit ad_at (fd_admin db));
     map recording_item (latest limit sr_lastEventAt (fd_recordings db))] limit.

(** ** Lemmas: sorted lists *)

(** Newest first, on the times alone. *)
Definition desc (l : list Z) : list Z := newest_first id l.

Lemma desc_unique l k : StronglySorted (λ a b, b ≤ a) l → StronglySorted (λ a b, b ≤ a) k → l ≡ₚ k → l = k.
Proof.
  intros Hl Hk Hp. assert (AntiSymm (=) (λ a b : Z, b ≤ a)) by (intros a b Hab Hba; lia).
  by apply (StronglySorted_unique (λ a b : Z, b ≤ a)).
Qed.
Lemma desc_sorted l : StronglySorted (λ a b, b ≤ a) (desc l).
Proof. apply (newest_first_sorted id). Qed.
Lemma desc_perm l : desc l ≡ₚ l.
Proof. apply newest_first_Permutation. Qed.
#[local] Instance desc_proper : Proper ((≡ₚ) ==> eq) desc.
Proof. intros l k Hp. apply desc_unique; [apply desc_sorted..|]. by rewrite !desc_perm. Qed.

Lemma sorted_map {A} (key : A → Z) l :
  StronglySorted (λ a b, key b ≤ key a) l → StronglySorted (λ a b : Z, b ≤ a) (map key l).
Proof.
  induction 1 as [|a l Hs IH Hf]; simpl; constructor; [done|]. rewrite Forall_forall in Hf. rewrite Forall_forall.
  intros x (y & -> & Hy)%list_elem_of_fmap. by apply Hf.
Qed.
Lemma map_newest {A} (key : A → Z) l : map key (newest_first key l) = desc (map key l).
Proof.
  apply desc_unique; [apply sorted_map, newest_first_sorted|apply desc_sorted|].
  rewrite desc_perm. by rewrite newest_first_Permutation.
Qed.

(** A sorted list is its part from [r] up, then the rest. *)
Lemma sorted_split r l :
  StronglySorted (λ a b : Z, b ≤ a) l → l = List.filter (λ a, r <=? a) l ++ List.filter (λ a, a <? r) l.
Proof.
  induction 1 as [|a l Hs IH Hf]; [done|]. simpl. destruct (Z.leb_spec r a) as [Hr|Hr].
  - destruct (Z.ltb_spec a r); [lia|]. simpl. by f_equal.
  - destruct (Z.ltb_spec a r); [|lia].
    assert (List.filter (λ a, r <=? a) l = []) as E.
    { rewrite Forall_forall in Hf. destruct (List.filter (λ a, r <=? a) l) as [|b k] eqn:E; [done|exfalso].
      assert (In b (List.filter (λ a, r <=? a) l)) as Hb by (rewrite E; by left).
      apply filter_In in Hb as [Hb Hrb]. reflect_bool. specialize (Hf b (proj2 (list_elem_of_In _ _) Hb)). simpl in Hf. lia. }
    rewrite E in IH |- *. simpl in *. by f_equal.
Qed.

(** A time that [n] others reach does not appear among the first [n]. *)
Lemma desc_extra (n : nat) (r : Z) (l : list Z) :
  (n ≤ length (List.filter (λ a, Z.leb r a) l))%nat → take n (desc (r :: l)) = take n (desc l).
Proof.
  intros Hn. pose proof (desc_sorted l) as Hs. pose proof (sorted_split r _ Hs) as Hsp.
  set (hi := List.filter (λ a, r <=? a) (desc l)) in *. set (lo := List.filter (λ a, a <? r) (desc l)) in *.
  assert (length hi = length (List.filter (λ a, r <=? a) l)) as Hlen.
  { apply Permutation_length, list_filter_Permutation, desc_perm. }
  assert (desc (r :: l) = hi ++ r :: lo) as ->.
  { apply desc_unique; [apply desc_sorted| |].
    - rewrite Hsp in Hs. clear Hsp Hn Hlen.
      assert (Forall (λ a, r ≤ a) hi) as Hhi.
      { apply Forall_forall. intros a Ha%list_elem_of_In. apply filter_In in Ha as [_ Ha]. by reflect_bool. }
      assert (Forall (λ a, a < r) lo) as Hlo.
      { apply Forall_forall. intros a Ha%list_elem_of_In. apply filter_In in Ha as [_ Ha]. by reflect_bool. }
      clearbody hi lo. induction hi as [|a hi IH]; simpl in *.
      + constructor; [done|]. eapply Forall_impl; [exact Hlo|]. simpl. lia.
      + inversion Hhi; subst. inversion Hs as [|? ? Hs' Hf]; subst. constructor; [by apply IH|].
        apply Forall_app in Hf as [Hf1 Hf2]. apply Forall_app. split; [done|]. by constructor.
    - rewrite desc_perm, <-(desc_perm l), Hsp at 1. by rewrite Permutation_middle. }
  rewrite Hsp, !take_app_le by lia. done.
Qed.
Lemma desc_extras (n : nat) (extra l : list Z) :
  Forall (λ r, (n ≤ length (List.filter (λ a, Z.leb r a) l))%nat) extra → take n (desc (extra ++ l)) = take n (desc l).
Proof.
  induction 1 as [|r extra Hr Hx IH]; [done|]. simpl. rewrite desc_extra; [done|].
  rewrite List.filter_app, length_app. lia.
Qed.

(** ** The feed *)

(** Every event the feed could show. *)
Definition every_item (db : FeedDb) : list ActivityItem :=
  map (λ r, access_item r.1 r.2) (List.filter (λ r, negb (noise r.2)) (fd_access db)) ++
  map admin_item (fd_admin db) ++ map recording_item (fd_recordings db).

Lemma access_item_at id e : ai_at (access_item id e) = ae_timestamp e.
Proof. unfold access_item. cbv zeta. by repeat case_match. Qed.

Lemma latest_split {R} (limit : nat) (at_ : R → Z) rows :
  map at_ rows ≡ₚ map at_ (drop limit (newest_first at_ rows)) ++ map at_ (latest limit at_ rows) ∧
  Forall (λ r, (limit ≤ length (List.filter (λ a, Z.leb r a) (map at_ (latest limit at_ rows))))%nat)
    (map at_ (drop limit (newest_first at_ rows))).
Proof.
  unfold latest. split.
  - rewrite <-(newest_first_Permutation at_ rows) at 1. rewrite <-(take_drop limit (newest_first at_ rows)) at 1.
    rewrite map_app. apply Permutation_app_comm.
  - pose proof (sorted_map at_ _ (newest_first_sorted at_ rows)) as Hs.
    rewrite <-(take_drop limit (newest_first at_ rows)), map_app in Hs.
    apply Forall_forall. intros r Hr.
    assert (length (map at_ (take limit (newest_first at_ rows))) = limit) as Hlen.
    { rewrite length_map, length_take. destruct (drop limit (newest_first at_ rows)) as [|x l] eqn:E; [by apply not_elem_of_nil in Hr|].
      assert (limit < length (newest_first at_ rows))%nat; [|lia]. apply (f_equal length) in E. rewrite length_drop in E. simpl in E. lia. }
    rewrite <-Hlen at 1. clear Hlen. induction (map at_ (take limit (newest_first at_ rows))) as [|a l IH]; [simpl; lia|].
    simpl in Hs. inversion Hs as [|? ? Hs' Hf]; subst. simpl.
    rewrite Forall_forall in Hf. specialize (Hf r ltac:(apply elem_of_app; by right)). simpl in Hf.
    destruct (Z.leb_spec r a); [|lia]. simpl. specialize (IH Hs'). lia.
Qed.

Lemma latest_subset {R} (limit : nat) (at_ : R → Z) rows x : x ∈ latest limit at_ rows → x ∈ rows.
Proof. unfold latest. intros Hx%elem_of_take. rewrite <-(newest_first_Permutation at_ rows). apply list_elem_of_lookup. naive_solver. Qed.

(** The feed shows the latest.  Though each source is read only up to the
    feed's length, the times shown are those of the latest events of all sources
    together, newest first, and every line is one of them: none is invented, none
    that is later than a line shown is left out. *)
Theorem feed_complete (limit : nat) (db : FeedDb) :
  map ai_at (getActivityFeed limit db) = take limit (desc (map ai_at (every_item db))) ∧
  (∀ i, i ∈ getActivityFeed limit db → i ∈ every_item db).
Proof.
  unfold getActivityFeed, mergeActivity. split.
  - rewrite <-firstn_map, map_newest. set (acc := List.filter _ (fd_access db)). cbn [concat]. unfold every_item. fold acc.
    rewrite (right_id_L [] (++)), !map_app, !map_map.
    assert (∀ l, map (λ x : string * AuditEvent, ai_at (access_item x.1 x.2)) l = map (λ r, ae_timestamp r.2) l) as Hacc
      by (intros l; apply map_ext; intros r; apply access_item_at). rewrite !Hacc.
    change (map (λ x, ai_at (admin_item x))) with (map ad_at). change (map (λ x, ai_at (recording_item x))) with (map sr_lastEventAt).
    destruct (latest_split limit (λ r, ae_timestamp r.2) acc) as [Hp1 Hf1]. destruct (latest_split limit ad_at (fd_admin db)) as [Hp2 Hf2].
    destruct (latest_split limit sr_lastEventAt (fd_recordings db)) as [Hp3 Hf3].
    set (a := map _ (latest limit _ acc)) in *. set (b := map ad_at (latest _ _ _)) in *. set (c := map sr_lastEventAt (latest _ _ _)) in *.
    set (a' := map _ (drop limit (newest_first _ acc))) in *. set (b' := map ad_at (drop _ _)) in *. set (c' := map sr_lastEventAt (drop _ _)) in *.
    rewrite Hp1, Hp2, Hp3. assert (((a' ++ a) ++ (b' ++ b) ++ (c' ++ c)) ≡ₚ (a' ++ b' ++ c') ++ (a ++ b ++ c)) as -> by solve_Permutation.
    symmetry. apply desc_extras. rewrite !Forall_app.
    split_and!; (eapply Forall_impl; [eassumption|]); intros r Hr; cbv beta in Hr |- *; rewrite !List.filter_app, !length_app; lia.
  - intros i Hi%elem_of_take. destruct Hi as (k & Hi & _). apply list_elem_of_lookup_2 in Hi.
    rewrite newest_first_Permutation in Hi. cbn [concat] in Hi. rewrite (right_id_L [] (++)), !elem_of_app in Hi.
    unfold every_item. rewrite !elem_of_app.
    destruct Hi as [Hi|[Hi|Hi]]; apply list_elem_of_fmap in Hi as (x & -> & Hx%latest_subset);
      [left|right; left|right; right]; apply list_elem_of_fmap; by exists x.
Qed.

(** ** The heat map *)

Definition wf_grid (g : grid) : Prop := length g = 7%nat ∧ Forall (λ r, length r = 24%nat) g.

Lemma in_grid_spec d h : in_grid d h = true ↔ 0 ≤ d ≤ 6 ∧ 0 ≤ h ≤ 23.
Proof. unfold in_grid. rewrite !andb_true_iff, !Z.leb_le. lia. Qed.
Lemma zero_wf : wf_grid zero_grid.
Proof. split; [done|]. repeat constructor. Qed.
Lemma set_wf g d h v : wf_grid g → wf_grid (grid_set g d h v).
Proof.
  intros [Hl Hf]. unfold grid_set. split; [by rewrite length_alter|]. apply Forall_alter; [done|].
  intros r _ Hr. by rewrite length_insert.
Qed.
Lemma zero_get d h : grid_get zero_grid d h = 0.
Proof.
  unfold grid_get, zero_grid. destruct (replicate 7 (replicate 24 0) !! Z.to_nat d) as [r|] eqn:E; [|done].
  apply lookup_replicate in E as [-> _]. cbn [mbind option_bind].
  destruct (replicate 24 0 !! Z.to_nat h) as [v|] eqn:Eh; [|done]. by apply lookup_replicate in Eh as [-> _].
Qed.
Lemma set_get g d h v d' h' :
  wf_grid g → in_grid d h = true → in_grid d' h' = true →
  grid_get (grid_set g d h v) d' h' = if bool_decide ((d, h) = (d', h')) then v else grid_get g d' h'.
Proof.
  intros [Hl Hf] Hin%in_grid_spec Hin'%in_grid_spec. unfold grid_get, grid_set.
  destruct (decide (d = d')) as [<-|Hd].
  - destruct (lookup_lt_is_Some_2 g (Z.to_nat d)) as [r Hr]; [lia|]. rewrite list_lookup_alter_eq, Hr.
    cbn [fmap option_fmap option_map mbind option_bind].
    assert (length r = 24%nat) as Hlen by (rewrite Forall_forall in Hf; apply Hf; by eapply list_elem_of_lookup_2).
    case_bool_decide as E; [simplify_eq; by rewrite list_lookup_insert_eq by lia|].
    rewrite list_lookup_insert_ne; [done|]. intros Hh. apply E. f_equal. lia.
  - rewrite list_lookup_alter_ne by (intros E; apply Hd; lia). case_bool_decide; [simplify_eq|done].
Qed.

(** Writes at different places: each finds its place. *)
Lemma fold_writes {P} (pos : P → Z * Z) (val : P → Z) l : ∀ g,
  wf_grid g → NoDup l → (∀ p, p ∈ l → in_grid (pos p).1 (pos p).2 = true) →
  (∀ p q, p ∈ l → q ∈ l → pos p = pos q → p = q) →
  let g' := foldl (λ g p, grid_set g (pos p).1 (pos p).2 (val p)) g l in
  (∀ p, p ∈ l → grid_get g' (pos p).1 (pos p).2 = val p) ∧
  (∀ d h, in_grid d h = true → (∀ p, p ∈ l → pos p ≠ (d, h)) → grid_get g' d h = grid_get g d h).
Proof.
  induction l as [|p l IH]; intros g Hg Hnd Hin Hinj; simpl; [split; [by intros ? ?%not_elem_of_nil|done]|].
  apply NoDup_cons in Hnd as [Hp Hnd].
  destruct (IH (grid_set g (pos p).1 (pos p).2 (val p))) as [Hat Hoff];
    [by apply set_wf|done|intros; apply Hin; by right|intros ? ? ? ? ?; apply Hinj; try (by right); done|].
  split.
  - intros q [->|Hq]%elem_of_cons; [|by apply Hat]. rewrite Hoff; [|apply Hin; by left|].
    + rewrite set_get by (done || (apply Hin; by left)). by rewrite bool_decide_eq_true_2.
    + intros q Hq E. apply Hp. rewrite <-(Hinj q p); [done|by right|by left|]. rewrite E. by destruct (pos p).
  - intros d h Hdh Hne. rewrite Hoff by (done || (intros q Hq; apply Hne; by right)).
    rewrite set_get by (done || (apply Hin; by left)). rewrite bool_decide_eq_false_2; [done|].
    intros E. apply (Hne p); [by left|]. by destruct (pos p).
Qed.

(** [buildHeatmap] of one row per slot. *)
Definition slot_of (ms : Z) : Z * Z := (dow_of ms, hour_of ms).
Definition in_slot (ms : AuditEvent → Z) (d h : Z) (evs : list AuditEvent) : Z :=
  count_where (λ e, bool_decide (slot_of (ms e) = (d, h))) evs.

Lemma slot_range ms : in_grid (dow_of ms) (hour_of ms) = true.
Proof.
  apply in_grid_spec. unfold dow_of, hour_of, weekday_at.
  pose proof (Z.mod_pos_bound (ms / ms_per_day + 4) 7 ltac:(lia)). split; [lia|]. unfold ms_per_day, hour_ms. clear. dlia.
Qed.

Lemma heatmap_grid cells : Forall (λ c, in_grid (hc_dow c) (hc_hour c) = true) cells → ∀ g m,
  (foldl (λ acc c, if negb (in_grid (hc_dow c) (hc_hour c)) then acc else
                  (grid_set acc.1 (hc_dow c) (hc_hour c) (hc_count c), Z.max acc.2 (hc_count c))) (g, m) cells).1
  = foldl (λ g c, grid_set g (hc_dow c) (hc_hour c) (hc_count c)) g cells.
Proof. induction 1 as [|c cells Hc Hcs IH]; intros g m; simpl; [done|]. rewrite Hc. simpl. apply IH. Qed.

Lemma heatmap_counts evs d h :
  in_grid d h = true → grid_get (buildHeatmap (hour_cells evs)).1 d h = in_slot ae_timestamp d h evs.
Proof.
  intros Hdh. unfold buildHeatmap, hour_cells. set (key := λ e, (dow_of (ae_timestamp e), hour_of (ae_timestamp e))).
  set (keys := group_keys key evs). set (cell := λ k : Z * Z, {| hc_dow := k.1; hc_hour := k.2; hc_count := count_rows (group key k evs) |}).
  assert (∀ k, k ∈ keys → in_grid k.1 k.2 = true) as Hkeys.
  { intros k Hk. unfold keys, group_keys in Hk. apply elem_of_remove_dups, list_elem_of_fmap in Hk as (e & -> & _). apply slot_range. }
  change (map _ keys) with (map cell keys). rewrite heatmap_grid.
  2:{ apply Forall_forall. intros c (k & -> & Hk)%list_elem_of_fmap. by apply Hkeys. }
  assert (∀ l g, foldl (λ g c, grid_set g (hc_dow c) (hc_hour c) (hc_count c)) g (map cell l)
    = foldl (λ g k, grid_set g k.1 k.2 (count_rows (group key k evs))) g l) as Hmap.
  { induction l as [|k l IH]; intros g; simpl; [done|]. apply IH. }
  rewrite Hmap. destruct (fold_writes id (λ k, count_rows (group key k evs)) keys zero_grid zero_wf) as [Hat Hoff];
    [apply NoDup_remove_dups|done|done|].
  assert (count_rows (group key (d, h) evs) = in_slot ae_timestamp d h evs) as Hc by done.
  destruct (decide ((d, h) ∈ keys)) as [Hin|Hout].
  - specialize (Hat _ Hin). simpl in Hat. by rewrite Hat.
  - etrans; [apply Hoff; [done|]|]. { intros p Hp E. simpl in E. subst p. done. }
    rewrite zero_get, <-Hc. symmetry. unfold count_rows.
    destruct (group key (d, h) evs) as [|e l] eqn:E; [done|]. exfalso. apply Hout.
    assert (In e (group key (d, h) evs)) as Hin by (rewrite E; by left). apply filter_In in Hin as [Hin Hk]. reflect_bool.
    unfold keys, group_keys. apply elem_of_remove_dups. rewrite <-Hk. apply list_elem_of_In, in_map, Hin.
Qed.

(** The hour of the week, from Sunday midnight. *)
Definition week_hour (p : Z * Z) : Z := p.1 * 24 + p.2.
Lemma week_hour_of ms : week_hour (slot_of ms) = (ms / hour_ms + 96) mod 168.
Proof. unfold week_hour, slot_of, dow_of, hour_of, weekday_at, ms_per_day, hour_ms. simpl. dlia. Qed.
Lemma week_hour_inj p q :
  in_grid p.1 p.2 = true → in_grid q.1 q.2 = true → week_hour p = week_hour q → p = q.
Proof.
  destruct p as [a b], q as [c d]. intros Hp%in_grid_spec Hq%in_grid_spec. unfold week_hour. simpl in *. intros E. f_equal; lia.
Qed.

Lemma slots_spec p : p ∈ slots ↔ in_grid p.1 p.2 = true.
Proof.
  rewrite in_grid_spec. unfold slots. rewrite list_elem_of_In, in_flat_map. split.
  - intros (d & Hd & Hp). apply in_map_iff in Hp as (h & <- & Hh). apply in_seq in Hd, Hh. simpl. lia.
  - intros [Hd Hh]. exists (Z.to_nat p.1). split; [apply in_seq; lia|]. apply in_map_iff. exists (Z.to_nat p.2).
    split; [destruct p; simpl in *; f_equal; lia|apply in_seq; lia].
Qed.
Lemma slots_NoDup : NoDup slots.
Proof. apply (bool_decide_unpack _). vm_compute. exact I. Qed.

(** Where a slot is moved to. *)
Definition moved (shift : Z) (p : Z * Z) : Z * Z :=
  let s := Z.rem (Z.rem (p.1 * 24 + p.2 + shift) 168 + 168) 168 in (s / 24, Z.rem s 24).
Lemma moved_hour shift p :
  week_hour (moved shift p) = (week_hour p + shift) mod 168 ∧ in_grid (moved shift p).1 (moved shift p).2 = true.
Proof.
  unfold moved, week_hour. set (k := p.1 * 24 + p.2 + shift). cbn [fst snd].
  assert (Z.rem (Z.rem k 168 + 168) 168 = k mod 168) as ->.
  { pose proof (Z.rem_bound_abs k 168 ltac:(lia)). pose proof (Z.quot_rem k 168 ltac:(lia)) as Hq.
    rewrite Z.rem_mod_nonneg by lia. apply (Z.mod_unique_pos k 168 (Z.quot k 168 + (Z.rem k 168 + 168) / 168 - 1));
      [apply Z.mod_pos_bound; lia|]. pose proof (Z.div_mod (Z.rem k 168 + 168) 168 ltac:(lia)). lia. }
  pose proof (Z.mod_pos_bound k 168 ltac:(lia)). rewrite Z.rem_mod_nonneg by lia.
  set (m := k mod 168) in *. clearbody m. split; [|apply in_grid_spec]; dlia.
Qed.

Lemma rotate_get g shift p : in_grid p.1 p.2 = true → grid_get (rotate g shift) (moved shift p).1 (moved shift p).2 = grid_get g p.1 p.2.
Proof.
  intros Hp. change (rotate g shift) with
    (foldl (λ out q, grid_set out (moved shift q).1 (moved shift q).2 (grid_get g q.1 q.2)) zero_grid slots).
  destruct (fold_writes (moved shift) (λ q, grid_get g q.1 q.2) slots zero_grid zero_wf slots_NoDup) as [Hat _].
  - intros q _. apply moved_hour.
  - intros q r Hq%slots_spec Hr%slots_spec E. apply week_hour_inj; [done..|].
    pose proof (proj1 (moved_hour shift q)) as H1. rewrite E, (proj1 (moved_hour shift r)) in H1.
    apply in_grid_spec in Hq, Hr. unfold week_hour in *. clear E. dlia.
  - apply Hat. by apply slots_spec.
Qed.

Lemma moved_back shift d h : in_grid d h = true → ∃ p, in_grid p.1 p.2 = true ∧ moved shift p = (d, h).
Proof.
  intros Hdh. exists (moved (- shift) (d, h)). destruct (moved_hour (- shift) (d, h)) as [Hw Hin]. split; [done|].
  destruct (moved_hour shift (moved (- shift) (d, h))) as [Hw' Hin']. apply week_hour_inj; [done..|].
  rewrite Hw', Hw. apply in_grid_spec in Hdh. unfold week_hour. simpl. clear Hw Hw' Hin Hin'. dlia.
Qed.

Lemma part_or_0_fields mo d y h mi :
  let l := [("month", mo); ("literal", "/"); ("day", d); ("literal", "/"); ("year", y); ("literal", ", "); ("hour", h);
            ("literal", ":"); ("minute", mi)]%string in
  part_or_0 l "year" = Number y ∧ part_or_0 l "month" = Number mo ∧ part_or_0 l "day" = Number d ∧
  part_or_0 l "hour" = Number h ∧ part_or_0 l "minute" = Number mi.
Proof. split_and!; reflexivity. Qed.

Lemma wall_seconds l : w_s (wall_of l) = l mod 60000 / 1000.
Proof. unfold wall_of. destruct (civil_from_days _) as [[? ?] ?]. cbn [w_s]. unfold ms_per_day. dlia. Qed.
Lemma utc_plain w :
  100 ≤ w_y w → 1 ≤ w_mo w ≤ 12 →
  utc_of w = days_from_civil (w_y w) (w_mo w) (w_d w) * ms_per_day + w_h w * hour_ms + w_mi w * 60000 + w_s w * 1000.
Proof. apply Date_UTC_plain. Qed.
Lemma minutes_ahead at_ o x h mi :
  o mod 60000 = 0 →
  x * ms_per_day + h * hour_ms + mi * 60000 + (at_ + o) mod 60000 / 1000 * 1000 = at_ + o - (at_ + o) mod 1000 →
  round_div (x * ms_per_day + h * hour_ms + mi * 60000 + 0 * 1000 - at_ / 60000 * 60000) 60000 = o / 60000.
Proof.
  unfold round_div. generalize (x * ms_per_day + h * hour_ms + mi * 60000). intros y Hm Hu.
  assert (y - at_ / 60000 * 60000 = o) as E by dlia. replace (y + 0 * 1000) with y by lia. rewrite E. dlia.
Qed.

(** What [Intl] documents of this format: the fields of the local time. *)
Class ZoneFormatLaws {CL : Clock} {LW : ClockLaws} {ZF : ZoneFormat} := {
  zone_fields tz f t :
    zoneFormat tz = Some f →
    let w := wall_of (local tz t) in
    1 ≤ w_y w →
    f t = [("month", two (w_mo w)); ("literal", "/"); ("day", two (w_d w)); ("literal", "/"); ("year", dec (w_y w));
           ("literal", ", "); ("hour", two (w_h w)); ("literal", ":"); ("minute", two (w_mi w))]%string;
}.

Section local_heatmap.
Context {CL : Clock} {LW : ClockLaws} {ZF : ZoneFormat} {ZL : ZoneFormatLaws}.

Lemma slot_moved tz ms shift : zone_offset tz ms = shift * hour_ms → slot_of (local tz ms) = moved shift (slot_of ms).
Proof.
  intros Ho. apply week_hour_inj; [apply slot_range|apply moved_hour|].
  rewrite (proj1 (moved_hour _ _)), !week_hour_of. unfold local. rewrite Ho. unfold hour_ms. clear. dlia.
Qed.

(** The minutes the wall clock is ahead, from its fields without the seconds. *)
Lemma ahead_minutes at_ o :
  100 ≤ w_y (wall_of (at_ + o)) → o mod 60000 = 0 →
  round_div (Date_UTC (w_y (wall_of (at_ + o))) (w_mo (wall_of (at_ + o)) - 1) (w_d (wall_of (at_ + o)))
    (w_h (wall_of (at_ + o))) (w_mi (wall_of (at_ + o))) 0 - at_ / 60000 * 60000) 60000 = o / 60000.
Proof.
  intros Hy Hm. pose proof (wall_of_range (at_ + o)) as (Hmo & _). pose proof (utc_wall (at_ + o) Hy) as Hu.
  rewrite utc_plain, (wall_seconds (at_ + o)) in Hu by done. rewrite Date_UTC_plain by done.
  exact (minutes_ahead at_ o _ _ _ Hm Hu).
Qed.

Lemma zoneOffset_law tz at_ f :
  zoneFormat tz = Some f → 100 ≤ w_y (wall_of (local tz at_)) →
  zone_offset tz at_ mod 60000 = 0 → zoneOffsetMinutes tz at_ = Some (zone_offset tz at_ / 60000).
Proof using ZL.
  unfold zoneOffsetMinutes. intros Hf Hy Hm. rewrite Hf. cbn [mbind option_bind].
  rewrite (zone_fields tz f at_ Hf) by lia. pose proof (wall_of_range (local tz at_)) as (Hmo & Hd & Hhr & Hmi & Hs).
  match goal with |- context [part_or_0 [(_, ?mo); _; (_, ?d); _; (_, ?y); _; (_, ?h); _; (_, ?mi)] _] =>
    destruct (part_or_0_fields mo d y h mi) as (->&->&->&->&->) end.
  rewrite !Number_two, Number_dec by lia. f_equal. by apply ahead_minutes.
Qed.

(** The heat map in the viewer's zone.  For a zone ahead of UTC by whole
    hours, the same for all events of the window, the rotated grid of the
    dashboard counts, in every slot, exactly the tenant's events of the last
    thirty days whose local weekday and hour are that slot. *)
Theorem heatmap_local tenant now tz shift (db : InsightsDb) :
  is_Some (zoneFormat tz) → truthy tz = true → tz ≠ "UTC"%string →
  100 ≤ w_y (wall_of (local tz now)) → zone_offset tz now = shift * hour_ms →
  let evs := recent tenant (now - 30 * ms_per_day) (in_events db) in
  (∀ e, e ∈ evs → zone_offset tz (ae_timestamp e) = shift * hour_ms) →
  ∃ g, heatmapInZone (is_heatmap (getInsights tenant now db)).1 (Some tz) now = Some g ∧
    ∀ d h, in_grid d h = true → grid_get g d h = in_slot (λ e, local tz (ae_timestamp e)) d h evs.
Proof using ZL.
  intros [f Hz] Ht Hu Hy Ho evs Hevs. unfold heatmapInZone, some_truthy. rewrite Ht, bool_decide_eq_false_2 by done.
  rewrite (zoneOffset_law tz now f); [|done..|rewrite Ho; unfold hour_ms; clear; dlia].
  assert (zone_offset tz now / 60000 = 60 * shift) as -> by (rewrite Ho; unfold hour_ms; clear; dlia).
  assert (Z.rem (60 * shift) 60 = 0) as -> by (rewrite Z.mul_comm; apply Z.rem_mul; lia).
  assert (Z.quot (60 * shift) 60 = shift) as -> by (rewrite Z.mul_comm; apply Z.quot_mul; lia).
  cbn [negb Z.eqb]. eexists. split; [reflexivity|]. intros d h Hdh.
  destruct (moved_back shift d h Hdh) as (p & Hp & Hm).
  pose proof (rotate_get (is_heatmap (getInsights tenant now db)).1 shift p Hp) as Hr. rewrite Hm in Hr. cbn [fst snd] in Hr.
  rewrite Hr. change (is_heatmap (getInsights tenant now db)) with (buildHeatmap (hour_cells evs)).
  rewrite heatmap_counts by done. unfold in_slot, count_where. f_equal.
  assert (∀ l, (∀ e, e ∈ l → zone_offset tz (ae_timestamp e) = shift * hour_ms) →
    List.filter (λ e, bool_decide (slot_of (ae_timestamp e) = (p.1, p.2))) l =
    List.filter (λ e, bool_decide (slot_of (local tz (ae_timestamp e)) = (d, h))) l) as Hf; [|by rewrite Hf].
  induction l as [|e l IH]; intros Hl; simpl; [done|].
  rewrite IH by (intros; apply Hl; by right).
  rewrite (bool_decide_ext (slot_of (ae_timestamp e) = (p.1, p.2)) (slot_of (local tz (ae_timestamp e)) = (d, h))); [done|].
  rewrite (slot_moved tz _ shift) by (apply Hl; by left). split.
  - intros ->. rewrite <-Hm. by destruct p.
  - intros E. rewrite <-Hm in E. apply week_hour_inj; [apply slot_range|done|].
    apply (f_equal week_hour) in E. rewrite !(proj1 (moved_hour _ _)) in E.
    pose proof (slot_range (ae_timestamp e)) as Hs. apply in_grid_spec in Hs, Hp. unfold week_hour, slot_of in *. simpl in *. clear Hr. dlia.
Qed.
End local_heatmap.

(** ** The daily trend *)

(** A day whose year is written with four digits. *)
Definition four_digit_day (day : Z) : bool :=
  let '(y, _, _) := civil_from_days day in (100 <=? y) && (y <=? 9999).
Definition day_text (day : Z) : string := let '(y, mo, d) := civil_from_days day in date_text y mo d.

Lemma day_text_inj a b : four_digit_day a = true → four_digit_day b = true → day_text a = day_text b → a = b.
Proof.
  unfold four_digit_day, day_text, date_text. pose proof (civil_valid a) as Ha. pose proof (civil_valid b) as Hb.
  destruct (civil_from_days a) as [[ya ma] da] eqn:Ea, (civil_from_days b) as [[yb mb] db_] eqn:Eb.
  intros Hya Hyb E%unchars_inj. reflect_bool.
  apply app_inj_1 in E as [Ey E]; [|by rewrite !length_pad]. apply app_inj_1 in E as [_ E]; [|done].
  apply app_inj_1 in E as [Em E]; [|by rewrite !length_pad]. apply app_inj_1 in E as [_ Ed]; [|done].
  apply civil_from_days_inj. rewrite Ea, Eb. apply pad_inj in Ey, Em, Ed; [by subst|simpl; lia..].
Qed.

Lemma iso_day day : four_digit_day day = true → slice_to 10 (toISOString (day * ms_per_day)) = day_text day.
Proof.
  intros Hy. unfold slice_to, toISOString, day_text, date_text, four_digit_day, year_chars in *. rewrite Z.div_mul by done.
  destruct (civil_from_days day) as [[y mo] d]. reflect_bool. rewrite chars_unchars. f_equal.
  destruct (Z.leb_spec 0 y), (Z.leb_spec y 9999); try lia. cbn [andb].
  match goal with |- take 10 ?l = _ => assert (∃ rest, l = (pad 4 y ++ chars "-" ++ pad 2 mo ++ chars "-" ++ pad 2 d) ++ rest) as (rest & ->) end.
  { eexists. rewrite <-!(assoc_L (++)). reflexivity. }
  rewrite take_app_length'; [done|]. rewrite !length_app, !length_pad. done.
Qed.

Lemma days_back_spec now i : four_digit_day (now / ms_per_day) = true → days_back now i = (now / ms_per_day - i) * ms_per_day.
Proof.
  unfold days_back, four_digit_day. pose proof (civil_valid (now / ms_per_day)) as Hv.
  destruct (civil_from_days (now / ms_per_day)) as [[y mo] d]. destruct Hv as (Hm & _ & Hz). intros Hy. reflect_bool.
  rewrite Date_UTC_plain by lia. rewrite <-Hz. unfold days_from_civil. lia.
Qed.

(** The users of one day with one decision, counted over the whole log. *)
Definition users_on (tenant : string) (decision : AuditEvent → bool) (day : Z) (rows : list (string * AuditEvent)) : Z :=
  count_distinct ae_userId
    (map snd (List.filter (λ r, (r.1 =s tenant) && decision r.2 && (ae_timestamp r.2 / ms_per_day =? day)) rows)).

Lemma omap_filter_has {R K} (f : R → option K) (p : R → bool) rows :
  omap f (List.filter (λ e, has (f e) && p e) rows) = omap f (List.filter p rows).
Proof.
  induction rows as [|e rows IH]; simpl; [done|]. destruct (f e) as [k|] eqn:E; simpl.
  - destruct (p e); simpl; [|exact IH]. rewrite E. f_equal. exact IH.
  - destruct (p e); simpl; [rewrite E|]; exact IH.
Qed.

(** The count of a day, the days with no row included. *)
Lemma vendors_of_day decision evs day :
  map_count (vendors_by_day decision evs) day =
  count_distinct ae_userId (List.filter (λ e, decision e && bool_decide (day_of (ae_timestamp e) = day)) evs).
Proof.
  unfold map_count, vendors_by_day. set (rows := List.filter _ evs). set (key := λ e, day_of (ae_timestamp e)).
  assert (count_distinct ae_userId (group key day rows)
    = count_distinct ae_userId (List.filter (λ e, decision e && bool_decide (day_of (ae_timestamp e) = day)) evs)) as <-.
  { unfold count_distinct, group, rows. do 3 f_equal. rewrite <-(omap_filter_has _ (λ e, decision e && _) evs). f_equal.
    clear rows. induction evs as [|e evs IH]; simpl; [done|].
    destruct (has (ae_userId e)) eqn:Eh; simpl; [|exact IH]. destruct (decision e) eqn:Ed; simpl; [|exact IH].
    unfold key at 1. destruct (bool_decide _); [f_equal|]; exact IH. }
  set (row := λ k, {| dy_day := k; dy_count := count_distinct ae_userId (group key k rows) |}).
  destruct (find_row _ _) as [r|] eqn:E.
  - apply find_row_Some in E as [Hin Hk]. apply list_elem_of_In, in_rev, in_map_iff in Hin as (k & <- & _). simpl in Hk. reflect_bool. by subst.
  - destruct (group key day rows) as [|e l] eqn:Eg; [done|exfalso].
    assert (In e (group key day rows)) as He by (rewrite Eg; by left). apply filter_In in He as [He Hk]. reflect_bool.
    assert (row day ∈ rev (map row (group_keys key rows))) as Hr.
    { apply list_elem_of_In. rewrite <-in_rev. apply in_map, list_elem_of_In. unfold group_keys. apply elem_of_remove_dups.
      rewrite <-Hk. apply list_elem_of_In, in_map, He. }
    pose proof (proj1 (find_row_None _ _) E _ Hr) as Hn. simpl in Hn. reflect_bool. done.
Qed.

(** C34: the daily trend.  The dashboard's thirty days are the last thirty days in
    order, today last; each shows how many different users had access that whole
    day and how many were denied, also the first, which the thirty-day window
    might have cut, and the days without events. *)
Theorem trend_complete tenant now (db : InsightsDb) :
  (∀ i : nat, (i < 30)%nat → four_digit_day (now / ms_per_day - Z.of_nat i) = true) →
  (∀ r, r ∈ in_events db → four_digit_day (ae_timestamp r.2 / ms_per_day) = true) →
  is_trend (getInsights tenant now db) =
  map (λ i, let day := now / ms_per_day - Z.of_nat i in
    {| td_date := day_text day; td_allow := users_on tenant allowed day (in_events db);
       td_deny := users_on tenant denied day (in_events db) |}) (rev (seq 0 30)).
Proof.
  intros Hnow Hevs. unfold getInsights. cbn [is_trend]. unfold buildTrend, zeroFillDays. rewrite map_map. apply map_ext_in.
  intros i Hi. rewrite <-in_rev in Hi. apply in_seq in Hi. specialize (Hnow i ltac:(lia)) as Hd. specialize (Hnow O ltac:(lia)).
  rewrite Z.sub_0_r in Hnow. rewrite days_back_spec, iso_day by done. set (day := now / ms_per_day - Z.of_nat i) in *.
  assert (∀ decision, map_count (vendors_by_day decision (recent tenant (now - 30 * ms_per_day) (in_events db))) (day_text day)
    = users_on tenant decision day (in_events db)) as Hu; [|by rewrite !Hu].
  intros decision. rewrite vendors_of_day. unfold users_on, recent. f_equal. clear Hnow.
  induction (in_events db) as [|[t e] rows IH]; [done|]. cbn [List.filter fst snd].
  specialize (IH ltac:(intros; apply Hevs; by right)). specialize (Hevs (t, e) ltac:(by left)). cbn [snd] in Hevs.
  destruct (t =s tenant); cbn [andb]; [|done].
  assert (bool_decide (day_of (ae_timestamp e) = day_text day) = (ae_timestamp e / ms_per_day =? day)) as Hday.
  { change (day_of (ae_timestamp e)) with (day_text (ae_timestamp e / ms_per_day)).
    case_bool_decide as E; symmetry; [apply Z.eqb_eq; by apply day_text_inj|apply Z.eqb_neq; by intros E'; rewrite E' in E]. }
  destruct (Z.leb_spec (now - 30 * ms_per_day) (ae_timestamp e)) as [Hin|Hout]; cbn [map snd List.filter].
  - rewrite Hday. destruct (decision e && _); cbn [map snd]; [by rewrite IH|done].
  - assert (ae_timestamp e / ms_per_day =? day = false) as ->; [|by rewrite andb_false_r].
    apply Z.eqb_neq. unfold day, ms_per_day in *. clear - Hout Hi. dlia.
Qed.

(** ** The tiles *)

(** The sites of the three states are all the sites, and every pending request is
    counted among the active grants. *)
Theorem tiles_partition (db : StatsDb) :
  let s := getDashboardStats db in
  ds_sitesUnknown s = count_where (λ p, bool_decide (p = None)) (st_probes db) ∧
  ds_activeGrants s = ds_pending s +
    count_where (λ g, bool_decide (g_status g = GActive) && negb (is_pending g)) (st_grants db).
Proof.
  unfold getDashboardStats. cbn [ds_sitesUnknown ds_activeGrants ds_pending]. unfold count_where, count_rows. split.
  - induction (st_probes db) as [|[[]|] l IH]; simpl in *; lia.
  - induction (st_grants db) as [|g l IH]; simpl; [done|].
    destruct (is_pending g) eqn:E; [pose proof E as E'; unfold is_pending in E'; reflect_bool; rewrite bool_decide_eq_true_2 by done|
      destruct (bool_decide (g_status g = GActive))]; simpl in *; lia.
Qed.

(** ** Witnesses *)

Definition demo_access (user decision : string) (at_ : Z) : AuditEvent :=
  {| ae_seq := 1; ae_timestamp := at_; ae_userId := Some user; ae_userEmail := Some (user +:+ "@x.de"); ae_userName := None;
     ae_company := None; ae_siteId := Some "s1"; ae_siteName := Some "Plant"; ae_host := "plant.x.de";
     ae_method := "GET"; ae_path := "/"; ae_status := 200; ae_bytesOut := 7;
     ae_decision := decision; ae_reason := None; ae_clientIp := None; ae_userAgent := None |}.
(** Saturday 1 August 2026, noon; three events of the acme tenant, one of another. *)
Definition demo_noon : Z := Date_UTC 2026 7 1 12 0 0.
Definition demo_insights : InsightsDb :=
  {| in_events := [("acme", demo_access "u1" "ALLOW" (demo_noon - 3600000)); ("acme", demo_access "u2" "ALLOW" (demo_noon - 1800000));
                   ("acme", demo_access "u1" "DENY" (demo_noon - 29 * ms_per_day - 11 * 3600000)); ("other", demo_access "u9" "ALLOW" demo_noon)]%string;
     in_sites := [("s1", "GATEWAY")]%string; in_grants := []; in_recordings := []; in_active := [] |}.

Definition demo_minutes (l : Z) : list (string * string) :=
  let w := wall_of l in
  [("month", two (w_mo w)); ("literal", "/"); ("day", two (w_d w)); ("literal", "/"); ("year", dec (w_y w));
   ("literal", ", "); ("hour", two (w_h w)); ("literal", ":"); ("minute", two (w_mi w))]%string.
#[local] Instance demo_format : ZoneFormat := {| zoneFormat tz := _ ← demo_zone tz; Some (λ t, demo_minutes (t + demo_offset tz t)) |}.
#[local] Instance demo_format_laws : ZoneFormatLaws (CL := demo_clock) (LW := demo_laws).
Proof.
  constructor. intros tz f t Hf. unfold zoneFormat, demo_format in Hf. destruct (demo_zone tz); [|done].
  cbn [mbind option_bind] in Hf. injection Hf as <-. reflexivity.
Qed.

Lemma heatmap_local_witness :
  ∃ g, heatmapInZone (ZF := demo_format) (is_heatmap (getInsights "acme" demo_noon demo_insights)).1 (Some "Europe/Berlin"%string) demo_noon = Some g ∧
    grid_get g 6 13 = 2.
Proof.
  destruct (heatmap_local (CL := demo_clock) (LW := demo_laws) (ZL := demo_format_laws) "acme" demo_noon "Europe/Berlin" 2 demo_insights) as (g & Hg & Hc);
    [by eexists|vm_compute; reflexivity|discriminate|vm_compute; discriminate|vm_compute; reflexivity| |].
  - intros e He. vm_compute in He. repeat (apply elem_of_cons in He as [->|He]; [vm_compute; reflexivity|]). by apply not_elem_of_nil in He.
  - exists g. split; [exact Hg|]. rewrite Hc by reflexivity. vm_compute. reflexivity.
Defined.

Lemma trend_complete_witness :
  is_trend (getInsights "acme" demo_noon demo_insights) !! 29%nat = Some {| td_date := "2026-08-01"; td_allow := 2; td_deny := 0 |} ∧
  is_trend (getInsights "acme" demo_noon demo_insights) !! 0%nat = Some {| td_date := "2026-07-03"; td_allow := 0; td_deny := 1 |}.
Proof.
  rewrite (trend_complete "acme" demo_noon demo_insights); [split; vm_compute; reflexivity| |].
  - intros i Hi. do 30 (destruct i as [|i]; [vm_compute; reflexivity|]). lia.
  - intros r Hr. vm_compute in Hr. repeat (apply elem_of_cons in Hr as [->|Hr]; [vm_compute; reflexivity|]). by apply not_elem_of_nil in Hr.
Defined.
