(* ===== verification/Overview.v ===== *)
(** * The operator's overview of all workspaces

    src/lib/platform/overview.ts and health.ts with the SQL functions
    [platform_tenant_stats] and [platform_cron_runs] they read, and the
    heartbeats of the background jobs (src/lib/cron/heartbeat.ts).

    Name resolution and the TLS handshake are arguments that may answer
    differently from one moment to the next; within one check the clock stands
    still.  The probes of one pool run at the same time; they share nothing but
    the caches, so they are taken in order. *)

From S2P Require Import Prelude JsString JsValue Schema AuditChain AccessLog Access Settings Tenant AuditQuery Workspaces.

(** ** Numbers per tenant *)

(** The columns of a tenant's rows that are counted. *)
Record TenantTables := {
  tt_roles : list Role;
  tt_sites : list string;
  tt_connectors : list string;
  tt_grants : list AccessGrant;
  tt_events : list Z;
  tt_recordings : list Z;
  tt_sessions : list Z;
  tt_admin : list Z;
}.
Record TenantStats := {
  ts_id : string; ts_users : Z; ts_admins : Z; ts_vendors : Z; ts_sites : Z; ts_connectors : Z; ts_connectorsOnline : Z;
  ts_grantsActive : Z; ts_requestsPending : Z; ts_auditEvents : Z; ts_recordings : Z; ts_recordingBytes : Z; ts_sessions24h : Z;
  ts_lastActivity : option Z;
}.

Definition count_all {A} (l : list A) : Z := Z.of_nat (length l).
Definition sum (l : list Z) : Z := foldr Z.add 0 l.
(** [max(column)] and [greatest], which pass over nulls. *)
Definition greatest (l : list Z) : option Z :=
  foldl (λ m x, match m with Some a => Some (Z.max a x) | None => Some x end) None l.

(** Usable now: approved if it must be, and not over. *)
Definition usable (now : Z) (g : AccessGrant) : bool :=
  bool_decide (g_status g = GActive) && (negb (g_requiresApproval g) || negb (bool_decide (g_approvedAt g = None))) &&
  match g_endsAt g with Some e => now <? e | None => true end.

Definition stats_of (now : Z) (id : string) (t : TenantTables) : TenantStats :=
  {| ts_id := id; ts_users := count_all (tt_roles t);
     ts_admins := count_where (λ r, bool_decide (r = ADMIN)) (tt_roles t);
     ts_vendors := count_where (λ r, bool_decide (r = VENDOR)) (tt_roles t);
     ts_sites := count_all (tt_sites t);
     ts_connectors := count_where (λ s, negb (s =s "REVOKED")) (tt_connectors t);
     ts_connectorsOnline := count_where (λ s, s =s "ONLINE") (tt_connectors t);
     ts_grantsActive := count_where (usable now) (tt_grants t);
     ts_requestsPending := count_where is_pending (tt_grants t);
     ts_auditEvents := count_all (tt_events t); ts_recordings := count_all (tt_recordings t); ts_recordingBytes := sum (tt_recordings t);
     ts_sessions24h := count_where (λ s, now - 24 * hour_ms <? s) (tt_sessions t);
     ts_lastActivity := greatest (tt_events t ++ tt_sessions t ++ tt_admin t) |}.

Definition tenantStats (now : Z) (tables : string → TenantTables) (ws : list Workspace) : list TenantStats :=
  map (λ w, stats_of now (w_id w) (tables (w_id w))) (List.filter (λ w, negb (reserved_id (w_id w))) ws).

(** ** Heartbeats *)

Record CronRun := { cr_tenant : string; cr_job : string; cr_ranAt : Z }.
Definition run_of (tenant job : string) (r : CronRun) : bool := (cr_tenant r =s tenant) && (cr_job r =s job).

(** [upsert] on (tenant, job); an error is swallowed. *)
Definition recordCronRun (fails : bool) (tenant job : string) (now : Z) (runs : list CronRun) : list CronRun :=
  if fails then runs
  else if existsb (run_of tenant job) runs
  then update_where (run_of tenant job) (λ r, {| cr_tenant := cr_tenant r; cr_job := cr_job r; cr_ranAt := now |}) runs
  else runs ++ [{| cr_tenant := tenant; cr_job := job; cr_ranAt := now |}].

Record CronHealth := { ch_anyRun : bool; ch_stale : list (string * option Z) }.

Definition last_run (runs : list CronRun) (tenant job : string) : option Z := cr_ranAt <$> find_row (run_of tenant job) runs.
Definition agedOut (now : Z) (d ms : Z) : bool := ms <? now - d.
(** A daily job that ran and then stopped. *)
Definition stopped (now : Z) (relevant : bool) (job : string) (last : option Z) : list (string * option Z) :=
  match last with
  | Some d => if relevant && agedOut now d (26 * hour_ms) then [(job, last)] else []
  | None => []
  end.

(** [cronHealth] of one tenant; [readFails]: one of the reads threw. *)
Definition cronHealth (readFails : bool) (now : Z) (tenant : string) (settings : PlatformSettings) (all : list CronRun) : CronHealth :=
  if readFails then {| ch_anyRun := true; ch_stale := [] |} else
  let runs := List.filter (λ r, cr_tenant r =s tenant) all in
  let recRetention := recordingRetentionDays settings ?? 0 in
  let anchorOn := bool_decide (externalAnchorEnabled settings = Some true) in
  let siteHealth := last_run runs tenant "site-health" in
  let schedulerHealthy := match siteHealth with Some d => negb (agedOut now d (20 * 60000)) | None => false end in
  {| ch_anyRun := negb (bool_decide (runs = []));
     ch_stale :=
       if negb schedulerHealthy then [("site-health"%string, siteHealth)] else
       stopped now true "audit-retention" (last_run runs tenant "audit-retention") ++
       stopped now (0 <? recRetention) "recording-retention" (last_run runs tenant "recording-retention") ++
       stopped now anchorOn "audit-anchor" (last_run runs tenant "audit-anchor") |}.

(** ** Provisioning health *)

Inductive DnsState := DnsOk | DnsMissing | DnsWrong | DnsUnknown.
Inductive CertState := CertOk | CertExpiring | CertMissing | CertMismatch | CertError | CertUnknown.
#[global] Instance DnsState_eq_dec : EqDecision DnsState.
Proof. solve_decision. Defined.
#[global] Instance CertState_eq_dec : EqDecision CertState.
Proof. solve_decision. Defined.

Record TenantHealth := {
  th_slug : string; th_host : string; th_dns : DnsState; th_dnsAddresses : list string;
  th_cert : CertState; th_certExpiresAt : option Z; th_certDaysLeft : option Z; th_checkedAt : Z;
}.
Definition CACHE_MS : Z := 60000.
(** The module's two caches: health by slug, and the server's addresses. *)
Record HealthCache := { hc_health : gmap string (TenantHealth * Z); hc_ips : option (list string * Z) }.

(** What one TLS handshake shows: the alternative names and the expiry of the
    leaf certificate; [None]: an error or no answer in time. *)
Definition Leaf : Type := option (option string * option Z).
Definition comma : Ascii.ascii := Ascii.ascii_of_N 44.
Definition strip_DNS (s : string) : string := if startsWith "DNS:" s then slice_from 4 s else s.
Definition sans_of (subjectaltname : option string) : list string :=
  List.filter truthy (map (λ s, strip_DNS (trim s)) (split comma (subjectaltname ?? ""))).

Definition includes_dot (s : string) : bool := includes "." s.
Definition sanMatches (sans : list string) (host : string) : bool :=
  let h := toLowerCase host in
  existsb (λ san,
    let s := toLowerCase san in
    (s =s h) ||
    (startsWith "*." s &&
     (let suffix := slice_from 1 s in
      endsWith suffix h && negb (includes_dot (slice_to (String.length h - String.length suffix) h))))) sans.

Section health.
(** The world at a moment: A records and handshakes. *)
Context (resolve4 : Z → string → list string) (handshake : Z → string → string → Leaf) (domain : option string).

Definition serverIps (now : Z) (dom : string) (c : HealthCache) : HealthCache * list string :=
  match hc_ips c with
  | Some (ips, at_) =>
      if now - at_ <? CACHE_MS * 5 then (c, ips)
      else let ips := resolve4 now ("platform." +:+ dom) in ({| hc_health := hc_health c; hc_ips := Some (ips, now) |}, ips)
  | None => let ips := resolve4 now ("platform." +:+ dom) in ({| hc_health := hc_health c; hc_ips := Some (ips, now) |}, ips)
  end.

Definition dns_state (addrs expected : list string) : DnsState :=
  match addrs, expected with
  | [], _ => DnsMissing
  | _, [] => DnsOk
  | _, _ => if existsb (λ a, bool_decide (a ∈ expected)) addrs then DnsOk else DnsWrong
  end.

(** The certificate, its expiry and the days left. *)
Definition cert_state (now : Z) (host : string) (dns : DnsState) (addrs expected : list string) : CertState * option Z * option Z :=
  match dns with
  | DnsOk | DnsWrong =>
      match handshake now (head (expected ++ addrs) ?? "") host with
      | None => (CertError, None, None)
      | Some (san, validTo) =>
          if negb (sanMatches (sans_of san) host) then (CertMismatch, None, None) else
          let days := (λ v, (v - now) / ms_per_day) <$> validTo in
          (match days with Some d => if d <? 14 then CertExpiring else CertOk | None => CertOk end, validTo, days)
      end
  | _ => (CertMissing, None, None)
  end.

(** One check with the addresses the server is expected to have. *)
Definition check (now : Z) (dom slug : string) (expected : list string) : TenantHealth :=
  let host := "probe." +:+ slug +:+ "." +:+ dom in
  let addrs := resolve4 now host in
  let dns := dns_state addrs expected in
  let '(cert, expires, days) := cert_state now host dns addrs expected in
  {| th_slug := slug; th_host := host; th_dns := dns; th_dnsAddresses := addrs; th_cert := cert; th_certExpiresAt := expires;
     th_certDaysLeft := days; th_checkedAt := now |}.

Definition tenantHealth (now : Z) (slug : string) (c : HealthCache) : HealthCache * TenantHealth :=
  let fresh :=
    match some_truthy domain with
    | None => (c, {| th_slug := slug; th_host := ""; th_dns := DnsUnknown; th_dnsAddresses := []; th_cert := CertUnknown;
                     th_certExpiresAt := None; th_certDaysLeft := None; th_checkedAt := now |})
    | Some dom =>
        let '(c1, expected) := serverIps now dom c in
        let h := check now dom slug expected in
        ({| hc_health := <[slug := (h, now)]> (hc_health c1); hc_ips := hc_ips c1 |}, h)
    end in
  match hc_health c !! slug with
  | Some (h, at_) => if now - at_ <? CACHE_MS then (c, h) else fresh
  | None => fresh
  end.

(** The map by slug, as an association list in insertion order; a second value
    for a slug takes the place of the first. *)
Definition map_set {V} (k : string) (v : V) (m : list (string * V)) : list (string * V) :=
  if existsb (λ p, p.1 =s k) m then map (λ p, if p.1 =s k then (k, v) else p) m else m ++ [(k, v)].
Definition tenantsHealth (now : Z) (slugs : list string) (c : HealthCache) : HealthCache * list (string * TenantHealth) :=
  foldl (λ acc s, let '(c', h) := tenantHealth now s acc.1 in (c', map_set s h acc.2)) (c, []) slugs.
End health.

Definition healthProblems (h : TenantHealth) : list string :=
  (if bool_decide (th_dns h = DnsMissing) then ["DNS record missing"] else []) ++
  (if bool_decide (th_dns h = DnsWrong) then ["DNS points elsewhere"] else []) ++
  (if bool_decide (th_cert h = CertMissing) || bool_decide (th_cert h = CertError) then ["certificate not served"] else []) ++
  (if bool_decide (th_cert h = CertMismatch) then ["certificate does not cover the namespace"] else []) ++
  (if bool_decide (th_cert h = CertExpiring)
   then ["certificate expires in " +:+ match th_certDaysLeft h with Some d => dec d | None => "null" end +:+ " days"] else []).

(** ** The snapshot *)

Inductive AlertLevel := LInfo | LWarn | LDanger.
#[global] Instance AlertLevel_eq_dec : EqDecision AlertLevel.
Proof. solve_decision. Defined.
Record PlatformAlert := { al_level : AlertLevel; al_kind : string; al_tenant : string; al_text : string; al_href : string }.

Definition STALE_HEARTBEAT_MS : Z := 20 * 60000.
Definition STALE_DAILY_MS : Z := 26 * hour_ms.
Definition DAILY_JOBS : list string := ["audit-retention"; "recording-retention"; "audit-anchor"].
Definition PURGE_AFTER_DAYS : Z := 30.

(** A tenant of the console, with when it was created. *)
Record OverviewTenant := { ot_ws : Workspace; ot_createdAt : Z }.
Record OverviewRow := {
  or_tenant : OverviewTenant; or_stats : option TenantStats; or_health : option TenantHealth;
  or_heartbeatAt : option Z; or_stale : bool; or_problems : list string;
}.
Definition ot_id (t : OverviewTenant) : string := w_id (ot_ws t).
Definition ot_active (t : OverviewTenant) : bool := t_status (w_row (ot_ws t)) =s "ACTIVE".
Definition ot_deleted (t : OverviewTenant) : bool := negb (bool_decide (w_deletedAt (ot_ws t) = None)).

Definition overview_row (now : Z) (stats : list TenantStats) (runs : list CronRun) (health : list (string * TenantHealth))
    (t : OverviewTenant) : OverviewRow :=
  let hb := last_run runs (ot_id t) "site-health" in
  let isNew := now - ot_createdAt t <? STALE_HEARTBEAT_MS in
  let stale := ot_active t && negb (ot_deleted t) && negb isNew &&
    match hb with Some at_ => STALE_HEARTBEAT_MS <? now - at_ | None => true end in
  let h := snd <$> find_row (λ p, p.1 =s w_slug (ot_ws t)) health in
  {| or_tenant := t; or_stats := find_row (λ s, ts_id s =s ot_id t) stats; or_health := h; or_heartbeatAt := hb; or_stale := stale;
     or_problems := match h with Some h => healthProblems h | None => [] end ++ (if stale then ["background jobs not running"] else []) |}.

Definition tenant_href (t : OverviewTenant) : string := "/platform/tenants/" +:+ ot_id t.
Definition plural (n : Z) : string := if n =? 1 then "" else "s".

(** The alerts of one row, in the order they are pushed. *)
Definition alerts_of (now : Z) (runs : list CronRun) (r : OverviewRow) : list PlatformAlert :=
  let t := or_tenant r in
  let alert := λ level kind text href, {| al_level := level; al_kind := kind; al_tenant := ot_id t; al_text := text; al_href := href |} in
  match w_deletedAt (ot_ws t) with
  | Some d =>
      let days := Z.max 0 (PURGE_AFTER_DAYS - (now - d) / ms_per_day) in
      [alert LInfo "deleted" ("Deleted — purged in " +:+ dec days +:+ " day" +:+ plural days) (tenant_href t)]
  | None =>
      (if t_status (w_row (ot_ws t)) =s "SUSPENDED" then [alert LInfo "suspended" "Suspended" (tenant_href t)] else []) ++
      match or_health r with
      | Some h => map (λ p, alert (if bool_decide (th_cert h = CertExpiring) then LWarn else LDanger) "provisioning" p "/platform/jobs")
                    (healthProblems h)
      | None => []
      end ++
      (if or_stale r then
         [alert LWarn "cron_stale" (match or_heartbeatAt r with Some _ => "Background jobs stale (no heartbeat in 20 min)"
                                    | None => "Background jobs never ran" end) "/platform/jobs"] else []) ++
      (if ot_active t then
         flat_map (λ job, match last_run runs (ot_id t) job with
                          | Some at_ => if STALE_DAILY_MS <? now - at_
                                        then [alert LWarn "cron_daily_stale" (job +:+ " last ran " +:+ dec ((now - at_) / hour_ms) +:+ "h ago") "/platform/jobs"]
                                        else []
                          | None => []
                          end) DAILY_JOBS else []) ++
      match or_stats r with
      | Some s => if (0 <? ts_sites s) && (0 <? ts_connectors s) && (ts_connectorsOnline s =? 0) && ot_active t
                  then [alert LWarn "connectors_offline" "All connectors offline" (tenant_href t)] else []
      | None => []
      end
  end.

Definition level_order (l : AlertLevel) : Z := match l with LDanger => 0 | LWarn => 1 | LInfo => 2 end.

Record Totals := {
  to_tenants : Z; to_active : Z; to_suspended : Z; to_deleted : Z; to_users : Z; to_vendors : Z; to_sessions24h : Z;
  to_connectors : Z; to_connectorsOnline : Z; to_sites : Z; to_grantsActive : Z; to_requestsPending : Z; to_recordings : Z;
  to_recordingBytes : Z; to_auditEvents : Z;
}.
Definition no_totals : Totals :=
  {| to_tenants := 0; to_active := 0; to_suspended := 0; to_deleted := 0; to_users := 0; to_vendors := 0; to_sessions24h := 0;
     to_connectors := 0; to_connectorsOnline := 0; to_sites := 0; to_grantsActive := 0; to_requestsPending := 0; to_recordings := 0;
     to_recordingBytes := 0; to_auditEvents := 0 |}.
Definition count_row (t : Totals) (r : OverviewRow) : Totals :=
  if ot_deleted (or_tenant r) then
    {| to_tenants := to_tenants t; to_active := to_active t; to_suspended := to_suspended t; to_deleted := to_deleted t + 1;
       to_users := to_users t; to_vendors := to_vendors t; to_sessions24h := to_sessions24h t; to_connectors := to_connectors t;
       to_connectorsOnline := to_connectorsOnline t; to_sites := to_sites t; to_grantsActive := to_grantsActive t;
       to_requestsPending := to_requestsPending t; to_recordings := to_recordings t; to_recordingBytes := to_recordingBytes t;
       to_auditEvents := to_auditEvents t |}
  else
    let add := λ f : TenantStats → Z, match or_stats r with Some s => f s | None => 0 end in
    let act := ot_active (or_tenant r) in
    {| to_tenants := to_tenants t + 1; to_active := to_active t + (if act then 1 else 0);
       to_suspended := to_suspended t + (if act then 0 else 1); to_deleted := to_deleted t;
       to_users := to_users t + add ts_users; to_vendors := to_vendors t + add ts_vendors;
       to_sessions24h := to_sessions24h t + add ts_sessions24h; to_connectors := to_connectors t + add ts_connectors;
       to_connectorsOnline := to_connectorsOnline t + add ts_connectorsOnline; to_sites := to_sites t + add ts_sites;
       to_grantsActive := to_grantsActive t + add ts_grantsActive; to_requestsPending := to_requestsPending t + add ts_requestsPending;
       to_recordings := to_recordings t + add ts_recordings; to_recordingBytes := to_recordingBytes t + add ts_recordingBytes;
       to_auditEvents := to_auditEvents t + add ts_auditEvents |}.
Definition totalsOf (rows : list OverviewRow) : Totals := foldl count_row no_totals rows.

Section snapshot.
Context (resolve4 : Z → string → list string) (handshake : Z → string → string → Leaf) (domain : option string).

(** [tenants] is the answer of [listTenants], [runs] of [cronRuns]. *)
Definition platformSnapshot (health : bool) (now : Z) (tenants : list OverviewTenant) (tables : string → TenantTables)
    (runs : list CronRun) (c : HealthCache) : HealthCache * (list OverviewRow * list PlatformAlert * Totals) :=
  let stats := tenantStats now tables (map ot_ws tenants) in
  let live := List.filter (λ t, negb (ot_deleted t)) tenants in
  let '(c', hs) :=
    if health then tenantsHealth resolve4 handshake domain now (map (λ t, w_slug (ot_ws t)) (List.filter ot_active live)) c
    else (c, []) in
  let rows := map (overview_row now stats runs hs) tenants in
  let alerts := order_by (λ a, level_order (al_level a)) (flat_map (alerts_of now runs) rows) in
  (c', (rows, alerts, totalsOf rows)).

Definition platformAlerts (now : Z) (tenants : list OverviewTenant) (tables : string → TenantTables) (runs : list CronRun)
    (c : HealthCache) : list PlatformAlert := (platformSnapshot false now tenants tables runs c).2.1.2.
End snapshot.

(** ** Lemmas: certificates *)

Lemma string_length_append a b : String.length (a +:+ b) = (String.length a + String.length b)%nat.
Proof. induction a as [|c a IH]; simpl; [done|]. by f_equal. Qed.
Lemma length_chars s : length (chars s) = String.length s.
Proof. induction s as [|c s IH]; simpl; [done|]. by f_equal. Qed.
Lemma slice_to_app a b : slice_to (String.length (a +:+ b) - String.length b) (a +:+ b) = a.
Proof.
  unfold slice_to. rewrite chars_append. rewrite take_app_length'; [apply unchars_chars|].
  rewrite string_length_append, length_chars. lia.
Qed.
Lemma endsWith_append p s : endsWith p s = true ↔ ∃ q, s = q +:+ p.
Proof.
  rewrite endsWith_spec. split.
  - intros [q Hq]. exists (unchars q). apply chars_inj. by rewrite chars_append, chars_unchars.
  - intros [q ->]. exists (chars q). apply chars_append.
Qed.
Lemma startsWith_append p s : startsWith p s = true ↔ ∃ q, s = p +:+ q.
Proof.
  unfold startsWith. rewrite starts_chars_spec. split.
  - intros [q Hq]. exists (unchars q). apply chars_inj. by rewrite chars_append, chars_unchars.
  - intros [q ->]. exists (chars q). apply chars_append.
Qed.

(** A name matches itself, and a wildcard one more label. *)
Lemma sanMatches_spec sans host :
  sanMatches sans host = true ↔ ∃ san, san ∈ sans ∧
    (toLowerCase san = toLowerCase host ∨
     ∃ rest label, toLowerCase san = "*." +:+ rest ∧ toLowerCase host = label +:+ "." +:+ rest ∧ includes_dot label = false).
Proof.
  unfold sanMatches. rewrite existsb_exists. split; intros (san & Hin & H); exists san; rewrite list_elem_of_In in *; (split; [done|]).
  - apply orb_true_iff in H as [H|H]; [left; by reflect_bool|right]. apply andb_true_iff in H as [Hs H].
    apply startsWith_append in Hs as [rest Hs]. rewrite Hs in H. apply andb_true_iff in H as [He Hd].
    change (slice_from 1 ("*." +:+ rest)) with (unchars (chars ("." +:+ rest))) in *. rewrite unchars_chars in *.
    apply endsWith_append in He as [label He]. exists rest, label. rewrite He, slice_to_app in Hd. apply negb_true_iff in Hd. done.
  - apply orb_true_iff. destruct H as [H|(rest & label & Hs & Hh & Hd)]; [left; by apply bool_decide_eq_true_2|right].
    rewrite Hs. change (slice_from 1 ("*." +:+ rest)) with (unchars (chars ("." +:+ rest))). rewrite unchars_chars, Hh, slice_to_app, Hd.
    apply andb_true_iff. split; [apply startsWith_append; by exists rest|]. rewrite andb_true_r. apply endsWith_append. by exists label.
Qed.

(** ** Lemmas: the caches *)

Section health_cache.
Context (resolve4 : Z → string → list string) (handshake : Z → string → string → Leaf) (dom : string).
Local Notation probe := (check resolve4 handshake).
Local Notation ask := (tenantHealth resolve4 handshake (Some dom)).

(** A check no older than the cache allows, against addresses of the server
    that were no older than theirs. *)
Definition recent_check (now : Z) (slug : string) (h : TenantHealth) : Prop :=
  ∃ t t', t ≤ now < t + CACHE_MS ∧ t' ≤ t < t' + CACHE_MS * 5 ∧ h = probe t dom slug (resolve4 t' ("platform." +:+ dom)).

(** The caches a process can have: empty, or after a question. *)
Inductive cache_at : Z → HealthCache → Prop :=
  | cache_empty now : cache_at now {| hc_health := ∅; hc_ips := None |}
  | cache_asked now now' slug c : cache_at now c → now ≤ now' → cache_at now' (ask now' slug c).1.

Definition cache_ok (now : Z) (c : HealthCache) : Prop :=
  (∀ ips t, hc_ips c = Some (ips, t) → t ≤ now ∧ ips = resolve4 t ("platform." +:+ dom)) ∧
  (∀ slug h t, hc_health c !! slug = Some (h, t) →
     t ≤ now ∧ ∃ t', t' ≤ t < t' + CACHE_MS * 5 ∧ h = probe t dom slug (resolve4 t' ("platform." +:+ dom))).

Lemma serverIps_ok now now' c :
  cache_ok now c → now ≤ now' →
  let r := serverIps resolve4 now' dom c in
  cache_ok now' r.1 ∧ ∃ t, t ≤ now' < t + CACHE_MS * 5 ∧ r.2 = resolve4 t ("platform." +:+ dom).
Proof.
  intros [Hips Hh] Hle. unfold serverIps.
  assert (∀ slug h t, hc_health c !! slug = Some (h, t) →
     t ≤ now' ∧ ∃ t', t' ≤ t < t' + CACHE_MS * 5 ∧ h = probe t dom slug (resolve4 t' ("platform." +:+ dom))) as Hh'.
  { intros slug h t Hl. destruct (Hh slug h t Hl). split; [lia|done]. }
  assert (0 < CACHE_MS * 5) by done.
  destruct (hc_ips c) as [[ips t]|] eqn:Ei; [destruct (Z.ltb_spec (now' - t) (CACHE_MS * 5))|]; cbn [fst snd].
  - destruct (Hips ips t eq_refl) as [Ht Hr]. split; [split; [|done]|exists t; split; [lia|done]].
    intros ips' t' E. rewrite E in Ei. simplify_eq. split; [lia|done].
  - split; [split; [|done]|exists now'; split; [lia|done]]. intros ips' t' [= <- <-]. split; [lia|done].
  - split; [split; [|done]|exists now'; split; [lia|done]]. intros ips' t' [= <- <-]. split; [lia|done].
Qed.

Lemma ask_ok now now' slug c :
  some_truthy (Some dom) = Some dom → cache_ok now c → now ≤ now' →
  cache_ok now' (ask now' slug c).1 ∧ recent_check now' slug (ask now' slug c).2.
Proof.
  intros Hdom Hc Hle. pose proof (serverIps_ok now now' c Hc Hle) as Hs. unfold tenantHealth. rewrite Hdom.
  destruct (serverIps resolve4 now' dom c) as [c1 expected]. cbn [fst snd] in Hs. destruct Hs as [[Hi1 Hh1] (t' & Ht' & ->)].
  assert (0 < CACHE_MS) by done.
  assert (∀ r, r = ({| hc_health := <[slug:=(probe now' dom slug (resolve4 t' ("platform." +:+ dom)), now')]> (hc_health c1); hc_ips := hc_ips c1 |},
      probe now' dom slug (resolve4 t' ("platform." +:+ dom))) → cache_ok now' r.1 ∧ recent_check now' slug r.2) as Hfresh.
  { intros r ->. cbn [fst snd]. split.
    - split; [done|]. intros s h t. cbn [hc_health]. destruct (decide (s = slug)) as [->|Hne].
      + rewrite lookup_insert_eq. intros [= <- <-]. split; [lia|]. exists t'. split; [lia|done].
      + rewrite lookup_insert_ne by done. apply Hh1.
    - exists now', t'. split_and!; [lia..|done]. }
  destruct (hc_health c !! slug) as [[h t]|] eqn:El; [destruct (Z.ltb_spec (now' - t) CACHE_MS)|]; [|by apply Hfresh..].
  destruct Hc as [Hips Hh]. destruct (Hh slug h t El) as [Ht (t0 & Ht0 & Eh)]. cbn [fst snd]. split.
  - split; [intros ips ti Hi|intros s h0 t1 Hl].
    + destruct (Hips ips ti Hi). split; [lia|done].
    + destruct (Hh s h0 t1 Hl). split; [lia|done].
  - exists t, t0. split_and!; [lia..|done].
Qed.

Lemma cache_at_ok now c : some_truthy (Some dom) = Some dom → cache_at now c → cache_ok now c.
Proof. intros Hdom. induction 1 as [now|now now' slug c Hc IH Hle]; [split; [done|by intros ? ? ?]|]. by eapply ask_ok. Qed.

Lemma cache_later now now' c : now ≤ now' → cache_ok now c → cache_ok now' c.
Proof.
  intros Hle [Hi Hh]. split; [intros ips t E; destruct (Hi ips t E); split; [lia|done]|].
  intros s h t E. destruct (Hh s h t E). split; [lia|done].
Qed.

Lemma tenantsHealth_recent now slugs : ∀ c acc,
  some_truthy (Some dom) = Some dom → cache_ok now c → (∀ s h, (s, h) ∈ acc → recent_check now s h) →
  let r := foldl (λ acc s, let '(c', h) := ask now s acc.1 in (c', map_set s h acc.2)) (c, acc) slugs in
  (∀ s h, (s, h) ∈ r.2 → recent_check now s h) ∧
  (∀ s, s ∈ slugs ∨ s ∈ map fst acc → s ∈ map fst r.2).
Proof.
  induction slugs as [|s slugs IH]; intros c acc Hdom Hc Hacc; [split; [done|]; intros s [Hs%not_elem_of_nil|Hs]; done|].
  cbn [foldl]. cbn [fst snd]. destruct (ask_ok now now s c Hdom Hc ltac:(lia)) as [Hc' Hr].
  destruct (ask now s c) as [c' h]. cbn [fst snd] in *.
  destruct (IH c' (map_set s h acc) Hdom Hc') as [H1 H2].
  - intros s' h' Hin. unfold map_set in Hin. destruct (existsb _ acc).
    + apply list_elem_of_fmap in Hin as ([s0 h0] & E & Hin). cbn [fst] in E. case_bool_decide; simplify_eq; [done|by apply Hacc].
    + apply elem_of_app in Hin as [Hin|Hin]; [by apply Hacc|]. apply list_elem_of_singleton in Hin. by simplify_eq.
  - split; [done|]. intros s' Hs'. apply H2. unfold map_set. destruct (existsb (λ p, p.1 =s s) acc) eqn:Ex.
    + assert (map fst (map (λ p : string * TenantHealth, if p.1 =s s then (s, h) else p) acc) = map fst acc) as ->.
      { rewrite map_map. apply map_ext. intros [s0 h0]. cbn [fst]. case_bool_decide; [by subst|done]. }
      destruct Hs' as [[->|Hs']%elem_of_cons|Hs']; [right|by left|by right].
      apply existsb_exists in Ex as ([s0 h0] & Hin & E). reflect_bool. cbn [fst] in E. subst.
      apply list_elem_of_In. apply (in_map fst _ _ Hin).
    + rewrite map_app. destruct Hs' as [[->|Hs']%elem_of_cons|Hs']; [right|by left|right]; apply elem_of_app; [right; by left|by left].
Qed.

(** ** Lemmas: problems *)

Lemma problems_nil h :
  healthProblems h = [] ↔ (th_dns h = DnsOk ∨ th_dns h = DnsUnknown) ∧ (th_cert h = CertOk ∨ th_cert h = CertUnknown).
Proof. unfold healthProblems. destruct (th_dns h), (th_cert h); simpl; naive_solver. Qed.
Lemma check_known t slug expected :
  th_dns (probe t dom slug expected) ≠ DnsUnknown ∧ th_cert (probe t dom slug expected) ≠ CertUnknown.
Proof.
  unfold check. destruct (cert_state _ _ _ _ _ _) as [[cert e] d] eqn:E. cbn [th_dns th_cert]. split.
  - unfold dns_state. by repeat case_match.
  - unfold cert_state in E. repeat case_match; simplify_eq; done.
Qed.
End health_cache.

(** What a check that found nothing wrong has seen. *)
Definition seen_well (resolve4 : Z → string → list string) (handshake : Z → string → string → Leaf) (dom slug : string) (t t' : Z) : Prop :=
  let host := "probe." +:+ slug +:+ "." +:+ dom in
  let ours := resolve4 t' ("platform." +:+ dom) in
  (∃ a, a ∈ resolve4 t host ∧ (ours = [] ∨ a ∈ ours)) ∧
  ∃ target san validTo, handshake t target host = Some (san, validTo) ∧ sanMatches (sans_of san) host = true ∧
    (∀ v, validTo = Some v → 14 * ms_per_day ≤ v - t).

Lemma check_well resolve4 handshake dom slug t t' :
  let h := check resolve4 handshake t dom slug (resolve4 t' ("platform." +:+ dom)) in
  healthProblems h = [] → seen_well resolve4 handshake dom slug t t'.
Proof.
  cbn zeta. intros Hp. apply problems_nil in Hp as [Hd Hc].
  destruct (check_known resolve4 handshake dom t slug (resolve4 t' ("platform." +:+ dom))) as [Hd' Hc'].
  destruct Hd as [Hd|]; [|done]. destruct Hc as [Hc|]; [|done]. clear Hd' Hc'. unfold check, seen_well in *.
  set (host := "probe." +:+ slug +:+ "." +:+ dom) in *. set (ours := resolve4 t' _) in *. cbn zeta in *.
  destruct (cert_state handshake t host _ _ ours) as [[cert e] d] eqn:E. cbn [th_dns th_cert] in *. subst cert. split.
  - unfold dns_state in Hd. destruct (resolve4 t host) as [|a l]; [done|]. destruct ours as [|o os].
    + exists a. split; [by left|by left].
    + destruct (existsb _ (a :: l)) eqn:Ex; [|done]. apply existsb_exists in Ex as (b & Hb & Hin). reflect_bool.
      exists b. rewrite list_elem_of_In. split; [done|by right].
  - unfold cert_state in E. rewrite Hd in E. destruct (handshake t _ host) as [[san validTo]|] eqn:Eh; [|done].
    eexists _, san, validTo. split; [exact Eh|]. destruct (sanMatches (sans_of san) host); [|done]. split; [done|].
    cbn [negb] in E. intros v ->. cbn [fmap option_fmap option_map] in E. destruct (Z.ltb_spec ((v - t) / ms_per_day) 14) as [|Hge]; [done|].
    clear E. unfold ms_per_day in *. dlia.
Qed.

Section quiet.
Context (resolve4 : Z → string → list string) (handshake : Z → string → string → Leaf) (dom : string).

(** The alerts of the snapshot are those of its rows. *)
Lemma quiet_row health now tenants tables runs c t :
  t ∈ tenants →
  let '(rows, alerts, _) := (platformSnapshot resolve4 handshake (Some dom) health now tenants tables runs c).2 in
  (∀ a, a ∈ alerts → al_tenant a ≠ ot_id t) → ∃ r, r ∈ rows ∧ or_tenant r = t ∧ alerts_of now runs r = [].
Proof.
  intros Ht. unfold platformSnapshot. destruct (if health then _ else _) as [c' hs]. cbn [snd].
  set (row := overview_row now (tenantStats now tables (map ot_ws tenants)) runs hs). intros Hq. exists (row t).
  split; [by apply list_elem_of_fmap_2|]. split; [done|]. destruct (alerts_of now runs (row t)) as [|a l] eqn:E; [done|exfalso].
  assert (In a (alerts_of now runs (row t))) as Ha by (rewrite E; by left).
  apply (Hq a).
  - unfold order_by. rewrite merge_sort_Permutation. apply list_elem_of_In, in_flat_map. exists (row t). split; [|done].
    apply in_map. by apply list_elem_of_In.
  - clear Hq E. unfold alerts_of in Ha. change (or_tenant (row t)) with t in Ha.
    destruct (w_deletedAt (ot_ws t)); [by destruct Ha as [<-|[]]|].
    repeat (apply in_app_iff in Ha as [Ha|Ha]).
    + destruct (_ =s "SUSPENDED"); [by destruct Ha as [<-|[]]|done].
    + destruct (or_health (row t)); [|done]. by apply in_map_iff in Ha as (p & <- & _).
    + destruct (or_stale (row t)); [by destruct Ha as [<-|[]]|done].
    + destruct (ot_active t); [|done]. apply in_flat_map in Ha as (job & _ & Ha). destruct (last_run _ _ _); [|done].
      destruct (_ <? _); [by destruct Ha as [<-|[]]|done].
    + destruct (or_stats (row t)); [|done]. destruct (_ && _); [by destruct Ha as [<-|[]]|done].
Qed.

Lemma stats_found now tables ws id :
  reserved_id id = false → id ∈ map w_id ws → find_row (λ s, ts_id s =s id) (tenantStats now tables ws) = Some (stats_of now id (tables id)).
Proof.
  intros Hres Hin. unfold tenantStats. induction ws as [|w ws IH]; [by apply not_elem_of_nil in Hin|]. simpl in Hin |- *.
  destruct (decide (w_id w = id)) as [Hw|Hw].
  - rewrite Hw, Hres. cbn [negb map]. unfold find_row. cbn [find ts_id stats_of]. rewrite Hw. by rewrite bool_decide_eq_true_2.
  - apply elem_of_cons in Hin as [->|Hin]; [done|]. specialize (IH Hin). destruct (negb (reserved_id (w_id w))); [|done].
    cbn [map]. unfold find_row in *. cbn [find ts_id stats_of]. by rewrite bool_decide_eq_false_2 by done.
Qed.

(** A row without alerts, part by part. *)
Lemma quiet_health now stats runs hs t :
  (∀ s h, (s, h) ∈ hs → recent_check resolve4 handshake dom now s h) → w_slug (ot_ws t) ∈ map fst hs →
  match or_health (overview_row now stats runs hs t) with Some h => healthProblems h | None => [] end = [] →
  ∃ t1 t2, t1 ≤ now < t1 + CACHE_MS ∧ t2 ≤ t1 < t2 + CACHE_MS * 5 ∧ seen_well resolve4 handshake dom (w_slug (ot_ws t)) t1 t2.
Proof.
  intros Hrec Hin. unfold overview_row. cbn [or_health]. destruct (find_row _ hs) as [[s h]|] eqn:Ef.
  - apply find_row_Some in Ef as [Hsh Hs]. reflect_bool. cbn [fst] in Hs. subst s. cbn [fmap option_fmap option_map snd]. intros Hp.
    destruct (Hrec _ _ Hsh) as (t1 & t2 & H1 & H2 & ->). exists t1, t2. split_and!; [lia..|]. by apply check_well.
  - exfalso. apply list_elem_of_fmap in Hin as (p & Hp & Hin). pose proof (proj1 (find_row_None _ _) Ef p Hin) as Hf. cbn in Hf.
    reflect_bool. by rewrite Hp in Hf.
Qed.

Lemma quiet_beat now stats runs hs t :
  ot_active t = true → ot_deleted t = false → or_stale (overview_row now stats runs hs t) = false →
  now - ot_createdAt t < STALE_HEARTBEAT_MS ∨
  ∃ beat, last_run runs (ot_id t) "site-health" = Some beat ∧ now - beat ≤ STALE_HEARTBEAT_MS.
Proof.
  intros Hact Hdel. unfold overview_row. cbn [or_stale]. rewrite Hact, Hdel. cbn [negb andb].
  destruct (Z.ltb_spec (now - ot_createdAt t) STALE_HEARTBEAT_MS); [by left|]. right. cbn [negb andb] in *.
  destruct (last_run runs (ot_id t) "site-health") as [beat|]; [|done]. exists beat. split; [done|].
  destruct (Z.ltb_spec STALE_HEARTBEAT_MS (now - beat)); [done|lia].
Qed.

Lemma some_online now id (t : TenantTables) :
  let s := stats_of now id t in
  (0 <? ts_sites s) && (0 <? ts_connectors s) && (ts_connectorsOnline s =? 0) = false →
  tt_sites t ≠ [] → (∃ c, c ∈ tt_connectors t ∧ c ≠ "REVOKED"%string) → "ONLINE"%string ∈ tt_connectors t.
Proof.
  cbn zeta. unfold stats_of. cbn [ts_sites ts_connectors ts_connectorsOnline]. intros Hs Hsites (c & Hc & Hne).
  destruct (decide ("ONLINE"%string ∈ tt_connectors t)) as [|Hno]; [done|exfalso]. revert Hs.
  assert (count_where (λ s, s =s "ONLINE") (tt_connectors t) = 0) as ->.
  { apply count_where_0. intros x Hx. apply bool_decide_eq_false_2. by intros ->. }
  assert (0 < count_where (λ s, negb (s =s "REVOKED")) (tt_connectors t)) as Hp.
  { apply Z.le_neq. split; [apply count_where_nonneg|]. intros E. symmetry in E. rewrite count_where_0 in E. specialize (E c Hc).
    apply negb_false_iff in E. by reflect_bool. }
  assert (0 < count_all (tt_sites t)) as Hsz by (unfold count_all; destruct (tt_sites t); [done|simpl; lia]).
  apply Z.ltb_lt in Hp, Hsz. by rewrite Hp, Hsz.
Qed.

(** Silence of the operator's console.  An active workspace that no alert of
    a full snapshot names is well: within the last minute its namespace resolved
    to the server and a certificate covering it had two weeks to run, its
    background jobs beat within twenty minutes (or it is newer than that), no
    daily job that ever ran is more than 26 hours late, and if it has sites and
    connectors one of them is online. *)
Theorem quiet_healthy t0 now tenants tables runs c t :
  some_truthy (Some dom) = Some dom → cache_at resolve4 handshake dom t0 c → t0 ≤ now →
  t ∈ tenants → reserved_id (ot_id t) = false → ot_active t = true → ot_deleted t = false →
  let alerts := (platformSnapshot resolve4 handshake (Some dom) true now tenants tables runs c).2.1.2 in
  (∀ a, a ∈ alerts → al_tenant a ≠ ot_id t) →
  (∃ t1 t2, t1 ≤ now < t1 + CACHE_MS ∧ t2 ≤ t1 < t2 + CACHE_MS * 5 ∧ seen_well resolve4 handshake dom (w_slug (ot_ws t)) t1 t2) ∧
  (now - ot_createdAt t < STALE_HEARTBEAT_MS ∨
   ∃ beat, last_run runs (ot_id t) "site-health" = Some beat ∧ now - beat ≤ STALE_HEARTBEAT_MS) ∧
  (∀ job ran, job ∈ DAILY_JOBS → last_run runs (ot_id t) job = Some ran → now - ran ≤ STALE_DAILY_MS) ∧
  (tt_sites (tables (ot_id t)) ≠ [] → (∃ s, s ∈ tt_connectors (tables (ot_id t)) ∧ s ≠ "REVOKED"%string) →
   "ONLINE"%string ∈ tt_connectors (tables (ot_id t))).
Proof.
  intros Hdom Hcache Hle Ht Hres Hact Hdel alerts Hq.
  pose proof (quiet_row true now tenants tables runs c t Ht) as Hrow. subst alerts. unfold platformSnapshot in Hrow, Hq.
  pose proof (cache_later resolve4 handshake dom t0 now c Hle (cache_at_ok resolve4 handshake dom t0 c Hdom Hcache)) as Hc.
  set (slugs := map _ (List.filter ot_active _)) in *.
  destruct (tenantsHealth_recent resolve4 handshake dom now slugs c [] Hdom Hc) as [Hrec Hall]; [by intros ? ? ?%not_elem_of_nil|].
  fold (tenantsHealth resolve4 handshake (Some dom) now slugs c) in Hrec, Hall.
  destruct (tenantsHealth resolve4 handshake (Some dom) now slugs c) as [c' hs]. cbn [snd fst] in *.
  destruct (Hrow Hq) as (r & Hr & Hrt & Hnone). clear Hrow Hq.
  apply list_elem_of_fmap in Hr as (t' & -> & _). cbn [overview_row or_tenant] in Hrt. subst t'.
  set (row := overview_row now _ runs hs t) in *. unfold alerts_of in Hnone. change (or_tenant row) with t in Hnone.
  assert (w_deletedAt (ot_ws t) = None) as Hd by (unfold ot_deleted in Hdel; apply negb_false_iff in Hdel; by reflect_bool).
  rewrite Hd in Hnone. apply app_eq_nil in Hnone as [_ Hnone]. apply app_eq_nil in Hnone as [Hhealth Hnone].
  apply app_eq_nil in Hnone as [Hstale Hnone]. apply app_eq_nil in Hnone as [Hdaily Hconn]. rewrite Hact in Hdaily. split_and!.
  - apply (quiet_health now (tenantStats now tables (map ot_ws tenants)) runs hs t Hrec).
    + apply Hall. left. apply list_elem_of_In, (in_map (λ t, w_slug (ot_ws t))), filter_In. split; [|done].
      apply filter_In. split; [by apply list_elem_of_In|]. by rewrite Hdel.
    + fold row. destruct (or_health row) as [h|]; [exact (map_eq_nil _ _ Hhealth)|reflexivity].
  - apply (quiet_beat now (tenantStats now tables (map ot_ws tenants)) runs hs t Hact Hdel). fold row. by destruct (or_stale row).
  - intros job ran Hjob%list_elem_of_In Hran. destruct (Z.leb_spec (now - ran) STALE_DAILY_MS); [done|exfalso].
    eapply in_nil. rewrite <-Hdaily. apply in_flat_map. exists job. split; [done|]. rewrite Hran.
    destruct (Z.ltb_spec STALE_DAILY_MS (now - ran)); [by left|lia].
  - apply (some_online now (ot_id t)). unfold row, overview_row in Hconn. cbn [or_stats] in Hconn.
    rewrite stats_found, Hact, andb_true_r in Hconn; [by destruct (_ && _)|done|].
    rewrite map_map. by apply (list_elem_of_fmap_2 (λ x, w_id (ot_ws x))).
Qed.
End quiet.

(** ** Totals *)

(** The live tenants of a list. *)
Definition live_of (tenants : list OverviewTenant) : list OverviewTenant := List.filter (λ t, negb (ot_deleted t)) tenants.

Lemma totals_rows (rows : list OverviewRow) : ∀ acc,
  let t := foldl count_row acc rows in
  let live := List.filter (λ r, negb (ot_deleted (or_tenant r))) rows in
  let add := λ f : TenantStats → Z, sum (map (λ r, match or_stats r with Some s => f s | None => 0 end) live) in
  to_active t + to_suspended t - to_tenants t = to_active acc + to_suspended acc - to_tenants acc ∧
  to_tenants t + to_deleted t = to_tenants acc + to_deleted acc + count_all rows ∧
  to_users t = to_users acc + add ts_users ∧ to_sites t = to_sites acc + add ts_sites ∧
  to_auditEvents t = to_auditEvents acc + add ts_auditEvents ∧ to_recordingBytes t = to_recordingBytes acc + add ts_recordingBytes.
Proof.
  induction rows as [|r rows IH]; intros acc; [unfold count_all, sum; simpl; lia|]. cbn [foldl]. specialize (IH (count_row acc r)).
  cbn zeta in *. unfold count_all in *. cbn [List.filter length]. rewrite Nat2Z.inj_succ. set (t := foldl _ _ rows) in *. clearbody t.
  unfold count_row in IH. destruct (ot_deleted (or_tenant r)); cbn in IH; cbn [negb map]; [lia|].
  unfold sum in *. cbn [foldr]. destruct (ot_active (or_tenant r)); lia.
Qed.

(** The totals count every tenant once, as active, suspended or deleted, and add
    up the tables of the tenants that are not deleted. *)
Theorem totals_add_up resolve4 handshake domain health now tenants tables runs c :
  Forall (λ t, reserved_id (ot_id t) = false) tenants →
  let t := (platformSnapshot resolve4 handshake domain health now tenants tables runs c).2.2 in
  to_active t + to_suspended t = to_tenants t ∧ to_tenants t + to_deleted t = count_all tenants ∧
  to_users t = sum (map (λ w, count_all (tt_roles (tables (ot_id w)))) (live_of tenants)) ∧
  to_sites t = sum (map (λ w, count_all (tt_sites (tables (ot_id w)))) (live_of tenants)) ∧
  to_auditEvents t = sum (map (λ w, count_all (tt_events (tables (ot_id w)))) (live_of tenants)) ∧
  to_recordingBytes t = sum (map (λ w, sum (tt_recordings (tables (ot_id w)))) (live_of tenants)).
Proof.
  intros Hres t. subst t. unfold platformSnapshot. destruct (if health then _ else _) as [c' hs]. cbn [snd].
  set (row := overview_row now (tenantStats now tables (map ot_ws tenants)) runs hs).
  assert (∀ f (g : TenantTables → Z), (∀ t, f (stats_of now (ot_id t) (tables (ot_id t))) = g (tables (ot_id t))) →
    sum (map (λ r, match or_stats r with Some s => f s | None => 0 end)
      (List.filter (λ r, negb (ot_deleted (or_tenant r))) (map row tenants))) = sum (map (λ w, g (tables (ot_id w))) (live_of tenants))) as Hsum.
  { intros f g Hfg. assert (∀ t, t ∈ tenants → or_stats (row t) = Some (stats_of now (ot_id t) (tables (ot_id t)))) as Hst.
    { intros t Ht. unfold row, overview_row. cbn [or_stats]. rewrite Forall_forall in Hres. apply stats_found; [by apply Hres|].
      rewrite map_map. by apply (list_elem_of_fmap_2 (λ x, w_id (ot_ws x))). }
    assert (∀ t, or_tenant (row t) = t) as Ht by done. clearbody row. unfold live_of. clear Hres.
    induction tenants as [|t ts IH]; [done|]. cbn [map List.filter]. rewrite Ht.
    specialize (IH ltac:(intros; apply Hst; by right)).
    destruct (ot_deleted t); cbn [negb map]; [done|]. unfold sum in *. cbn [foldr]. rewrite IH, Hst, Hfg by (by left). done. }
  pose proof (totals_rows (map row tenants) no_totals) as H. cbv beta zeta in H. fold (totalsOf (map row tenants)) in H.
  rewrite (Hsum ts_users (λ t, count_all (tt_roles t))), (Hsum ts_sites (λ t, count_all (tt_sites t))),
    (Hsum ts_auditEvents (λ t, count_all (tt_events t))), (Hsum ts_recordingBytes (λ t, sum (tt_recordings t))) in H by done.
  unfold count_all in *. rewrite length_map in H. cbn in H. split_and!; lia.
Qed.

(** ** Heartbeats *)

(** A job that has just stamped its heartbeat is not reported, for as long as
    the job's allowance lasts. *)
Theorem stamped_not_stale readFails tenant job now now' settings runs :
  now' - now ≤ (if job =s "site-health" then 20 * 60000 else 26 * hour_ms) →
  ∀ last, (job, last) ∉ ch_stale (cronHealth readFails now' tenant settings (recordCronRun false tenant job now runs)).
Proof.
  intros Hle last Hin. unfold cronHealth in Hin. destruct readFails; [by apply not_elem_of_nil in Hin|]. cbn zeta in Hin. cbn [ch_stale] in Hin.
  set (runs' := List.filter _ _) in Hin.
  assert (last_run runs' tenant job = Some now) as Hlast.
  { unfold last_run, runs', recordCronRun. unfold find_row. destruct (existsb (run_of tenant job) runs) eqn:Ex.
    - apply existsb_exists in Ex as (r & Hr & Hm). clear Hin runs'.
      induction runs as [|x runs IH]; [done|]. cbn [update_where map List.filter]. destruct (run_of tenant job x) eqn:Ex.
      + unfold run_of in Ex. apply andb_true_iff in Ex as [E1 E2]. cbn [cr_tenant]. rewrite E1. cbn [find]. unfold run_of at 1.
        cbn [cr_tenant cr_job]. by rewrite E1, E2.
      + destruct Hr as [->|Hr]; [by rewrite Ex in Hm|]. specialize (IH Hr). destruct (cr_tenant x =s tenant); [|exact IH].
        cbn [find]. by rewrite Ex.
    - rewrite List.filter_app. clear Hin runs'. induction runs as [|x runs IH].
      + cbn. rewrite bool_decide_eq_true_2 by done. cbn. unfold run_of. cbn. by rewrite !bool_decide_eq_true_2.
      + cbn [existsb] in Ex. apply orb_false_iff in Ex as [Ex Exs]. specialize (IH Exs). cbn [List.filter].
        destruct (cr_tenant x =s tenant); [|exact IH]. cbn [app find]. by rewrite Ex. }
  assert (∀ relevant j, (job, last) ∈ stopped now' relevant j (last_run runs' tenant j) → job = j ∧ 26 * hour_ms < now' - now) as Hstop.
  { intros relevant j Hj. unfold stopped in Hj. destruct (last_run runs' tenant j) as [d|] eqn:Ed; [|by apply not_elem_of_nil in Hj].
    destruct (relevant && agedOut now' d (26 * hour_ms)) eqn:Ea; [|by apply not_elem_of_nil in Hj].
    apply list_elem_of_singleton in Hj. injection Hj as -> _. rewrite Hlast in Ed. injection Ed as <-. split; [done|].
    apply andb_true_iff in Ea as [_ Ea]. unfold agedOut in Ea. by apply Z.ltb_lt in Ea. }
  destruct (last_run runs' tenant "site-health") as [d|] eqn:Eh.
  - destruct (agedOut now' d (20 * 60000)) eqn:Ea; cbn [negb] in Hin.
    + apply list_elem_of_singleton in Hin. injection Hin as -> _. rewrite Hlast in Eh. injection Eh as <-.
      unfold agedOut in Ea. apply Z.ltb_lt in Ea. rewrite bool_decide_eq_true_2 in Hle by done. lia.
    + rewrite !elem_of_app in Hin. destruct Hin as [Hin|[Hin|Hin]]; apply Hstop in Hin as [-> Hlt]; rewrite bool_decide_eq_false_2 in Hle by done; lia.
  - cbn [negb] in Hin. apply list_elem_of_singleton in Hin. injection Hin as -> _. congruence.
Qed.

(** ** Witnesses *)

Definition demo_now : Z := 1785585600000.
Definition demo_ws (id slug : string) : OverviewTenant :=
  {| ot_ws := new_workspace id slug "Acme" None; ot_createdAt := demo_now - 90 * ms_per_day |}.
Definition demo_dns (_ : Z) (host : string) : list string :=
  if (host =s "probe.acme.cloud.test") || (host =s "platform.cloud.test") then ["203.0.113.7"%string] else [].
Definition demo_tls (days : Z) (_ : Z) (_ host : string) : Leaf :=
  Some (Some "DNS:acme.cloud.test, DNS:*.acme.cloud.test"%string, Some (demo_now + days * ms_per_day)).
Definition demo_tables (_ : string) : TenantTables :=
  {| tt_roles := [ADMIN; VENDOR]; tt_sites := ["s1"%string]; tt_connectors := ["REVOKED"; "ONLINE"]%string; tt_grants := [];
     tt_events := [demo_now]; tt_recordings := [5; 7]; tt_sessions := []; tt_admin := [] |}.
Definition demo_runs : list CronRun :=
  [{| cr_tenant := "t1"; cr_job := "site-health"; cr_ranAt := demo_now - 60000 |};
   {| cr_tenant := "t1"; cr_job := "audit-retention"; cr_ranAt := demo_now - 3 * hour_ms |}].
Definition no_cache : HealthCache := {| hc_health := ∅; hc_ips := None |}.

Lemma quiet_healthy_witness :
  ∃ t1 t2, t1 ≤ demo_now < t1 + CACHE_MS ∧ t2 ≤ t1 < t2 + CACHE_MS * 5 ∧ seen_well demo_dns (demo_tls 60) "cloud.test" "acme" t1 t2.
Proof.
  destruct (quiet_healthy demo_dns (demo_tls 60) "cloud.test" demo_now demo_now [demo_ws "t1" "acme"] demo_tables demo_runs no_cache
    (demo_ws "t1" "acme")) as [Hs _]; [vm_compute; reflexivity|constructor|reflexivity|by left|vm_compute; reflexivity..| |exact Hs].
  intros a Ha. vm_compute in Ha. by apply not_elem_of_nil in Ha.
Defined.

Lemma totals_add_up_witness :
  to_recordingBytes (platformSnapshot demo_dns (demo_tls 60) (Some "cloud.test") true demo_now [demo_ws "t1" "acme"; demo_ws "t2" "beta"]
    demo_tables demo_runs no_cache).2.2 = 24.
Proof.
  destruct (totals_add_up demo_dns (demo_tls 60) (Some "cloud.test") true demo_now [demo_ws "t1" "acme"; demo_ws "t2" "beta"]
    demo_tables demo_runs no_cache) as (_ & _ & _ & _ & _ & ->); [repeat constructor|reflexivity].
Defined.

Lemma stamped_not_stale_witness :
  ("site-health"%string, Some demo_now) ∉
    ch_stale (cronHealth false (demo_now + 600000) "t1" EMPTY_SETTINGS (recordCronRun false "t1" "site-health" demo_now demo_runs)).
Proof. apply stamped_not_stale. vm_compute. discriminate. Defined.

(** The level of every provisioning alert is taken from the certificate: with
    a certificate about to expire, an address that points elsewhere is only a
    warning too, and so is a certificate that expired days ago. *)
Theorem expiring_downgrades :
  let elsewhere := λ (_ : Z) (host : string), if host =s "platform.cloud.test" then ["203.0.113.7"%string] else ["198.51.100.9"%string] in
  map (λ a, (al_level a, al_text a))
    (platformSnapshot elsewhere (demo_tls 60) (Some "cloud.test") true demo_now [demo_ws "t1" "acme"] demo_tables demo_runs no_cache).2.1.2
  = [(LDanger, "DNS points elsewhere"%string)] ∧
  map (λ a, (al_level a, al_text a))
    (platformSnapshot elsewhere (demo_tls 3) (Some "cloud.test") true demo_now [demo_ws "t1" "acme"] demo_tables demo_runs no_cache).2.1.2
  = [(LWarn, "DNS points elsewhere"%string); (LWarn, "certificate expires in 3 days"%string)] ∧
  map (λ a, (al_level a, al_text a))
    (platformSnapshot demo_dns (demo_tls (-3)) (Some "cloud.test") true demo_now [demo_ws "t1" "acme"] demo_tables demo_runs no_cache).2.1.2
  = [(LWarn, "certificate expires in -3 days"%string)].
Proof. vm_compute. done. Qed.
