(* ===== verification/Centre.v ===== *)
(** * Captivo ID, the centre of organisations

    The manager's side of its calls to the centre: src/lib/auth/captivo-id-client.ts
    and captivo-id-register.ts, the product switcher (src/lib/products), the page
    that leaves for the other product (app/(app)/go) and the numbers the centre
    reads of a workspace (center/summary).

    The centre is a function from a call to its answer, which may be anything;
    a function of the client gives the calls it made with its result.  A value
    read off a row that is not an object is a [TypeError], [None] here. *)

From S2P Require Import Prelude JsString JsValue Schema AuditChain AccessLog Identity Access Settings Gateway Tenant Provider Workspaces Overview.

(** ** Calls *)

(** A request: method, address, the secret in [X-Captivo-Service], the body. *)
Record Call := { cl_method : string; cl_url : string; cl_secret : string; cl_body : json }.
(** No answer (refused, timed out), or a status with a body that may not be JSON. *)
Inductive Answer := NoAnswer | Answered (status : Z) (body : option json).
Definition status_ok (status : Z) : bool := (200 <=? status) && (status <=? 299).

Record Service := { sv_issuer : string; sv_secret : string }.
Definition service (env : Env) : option Service :=
  match some_truthy (strip_slashes <$> (trim <$> env "CAPTIVO_ID_ISSUER"%string)), env_trimmed env "CAPTIVO_ID_SERVICE_SECRET" with
  | Some i, Some s => Some {| sv_issuer := i; sv_secret := s |}
  | _, _ => None
  end.
Definition isCentreConfigured (env : Env) : bool := bool_decide (is_Some (service env)).
Definition captivoAccountUrl (env : Env) : option string := (λ s, sv_issuer s +:+ "/account") <$> service env.
Definition captivoRegisterUrl (env : Env) : option string := (λ s, sv_issuer s +:+ "/register?product=ACCESS&lang=en") <$> service env.

(** [encodeURIComponent], byte by byte. *)
Definition unreserved (c : Ascii.ascii) : bool :=
  let n := Ascii.N_of_ascii c in
  ((48 <=? n) && (n <=? 57) || (65 <=? n) && (n <=? 90) || (97 <=? n) && (n <=? 122) || bool_decide (n ∈ [45; 95; 46; 33; 126; 42; 39; 40; 41]))%N.
Definition hex_digit (n : N) : Ascii.ascii := Ascii.ascii_of_N (if (n <? 10)%N then 48 + n else 55 + n)%N.
Definition percent : Ascii.ascii := Ascii.ascii_of_N 37.
Definition encode_char (c : Ascii.ascii) : list Ascii.ascii :=
  if unreserved c then [c] else [percent; hex_digit (Ascii.N_of_ascii c / 16); hex_digit (Ascii.N_of_ascii c mod 16)].
Definition encodeURIComponent (s : string) : string := unchars (flat_map encode_char (chars s)).

(** ** Dates and rows from the wire *)

(** [v.k], which throws on [null] and [undefined]. *)
Definition get (v : json) (k : string) : option json := if is_nullish v then None else Some (obj_get v k).
Definition isKeyedRow (v : json) : bool := is_object v && match obj_get v "product" with JStr _ => true | _ => false end.

Definition max_time : Z := 8640000000000000.
Definition time_clip (z : Z) : option Z := if Z.abs z <=? max_time then Some z else None.

Inductive ProductCode := PORTAL | ACCESS.
#[global] Instance ProductCode_eq_dec : EqDecision ProductCode.
Proof. solve_decision. Defined.
Definition code_text (p : ProductCode) : string := match p with PORTAL => "PORTAL" | ACCESS => "ACCESS" end.
Inductive ProductState := Current | Open | Setup.
#[global] Instance ProductState_eq_dec : EqDecision ProductState.
Proof. solve_decision. Defined.
Record ProductMenuItem := { mi_product : ProductCode; mi_state : ProductState; mi_href : string }.
Definition ORDER : list ProductCode := [PORTAL; ACCESS].
Definition ACCESS_SSO_ENTRY : string := "/api/auth/oidc/start".
Definition SSO_ENTRY (p : ProductCode) : string := match p with PORTAL => "" | ACCESS => ACCESS_SSO_ENTRY end.

Record CenterPicture := { cp_entitlements : list json; cp_links : list json }.

(** [{ ...row, consoleOrigin: v }] *)
Definition set_member (fs : list (string * json)) (k : string) (v : json) : list (string * json) :=
  List.filter (λ p, negb (p.1 =s k)) fs ++ [(k, v)].
Definition withUsableOrigin (row : json) : json :=
  match row with
  | JObj fs => JObj (set_member fs "consoleOrigin" (match obj_get row "consoleOrigin" with JStr o => JStr o | _ => JNull end))
  | v => v
  end.

(** [rows.find(r => r.product === p)]: [None] is the throw. *)
Fixpoint find_product (p : ProductCode) (rows : list json) : option (option json) :=
  match rows with
  | [] => Some None
  | r :: rows' =>
      match get r "product" with
      | None => None
      | Some v => if json_str_is v (code_text p) then Some (Some r) else find_product p rows'
      end
  end.

Section switcher.
(** [Date.parse] and the text of a non-integral number. *)
Context (Date_parse : string → option Z) (frac_text : Z → string).

(** [new Date(v).getTime()]; [None] is [NaN]. *)
Definition getTime (v : json) : option Z :=
  match v with
  | JUndefined => None
  | JNull => Some 0
  | JBool b => Some (if b then 1 else 0)
  | JNum (NInt z) => time_clip z
  | JNum (NFrac fl) => time_clip (if fl <? 0 then fl + 1 else fl)
  | JNum _ => None
  | JStr s => Date_parse s
  | JArr _ | JObj _ => Date_parse (js_String frac_text v)
  end.
Definition isLive (expiresAt : json) (now : Z) : bool :=
  if negb (json_truthy expiresAt) then true else match getTime expiresAt with Some at_ => now <? at_ | None => false end.

(** One turn of the loop: what it pushes. *)
Definition menu_item (data : CenterPicture) (current : ProductCode) (portal accessSetup : string) (now : Z) (p : ProductCode)
    : option (list ProductMenuItem) :=
  entitlement ← find_product p (cp_entitlements data);
  match entitlement with
  | None => Some []
  | Some e =>
      expiresAt ← get e "expiresAt";
      if negb (isLive expiresAt now) then Some [] else
      if bool_decide (p = current) then Some [{| mi_product := p; mi_state := Current; mi_href := "" |}] else
      bridge ← find_product p (cp_links data);
      let fallback := if bool_decide (p = PORTAL) then portal else accessSetup in
      origin ← (match bridge with
                | None => Some fallback
                | Some b => v ← get b "consoleOrigin";
                            if is_nullish v then Some fallback else as_string v
                end);
      Some [{| mi_product := p; mi_state := match bridge with Some _ => Open | None => Setup end; mi_href := strip_slashes origin +:+ SSO_ENTRY p |}]
  end.
Definition productMenu (data : CenterPicture) (current : ProductCode) (portal accessSetup : string) (now : Z) : option (list ProductMenuItem) :=
  items ← mapM (menu_item data current portal accessSetup now) ORDER;
  let items := concat items in
  Some (if existsb (λ i, negb (bool_decide (mi_state i = Current))) items then items else []).

(** ** The client *)

Context (centre : Call → Answer).

Definition entitlements_call (s : Service) (org : string) : Call :=
  {| cl_method := "GET"; cl_url := sv_issuer s +:+ "/api/entitlements?org=" +:+ encodeURIComponent org; cl_secret := sv_secret s; cl_body := JUndefined |}.

Definition askAccessEntitlement (env : Env) (org : string) : list Call * EntitlementLookup :=
  match service env with
  | None => ([], fetchAccessEntitlement false None)
  | Some s =>
      let c := entitlements_call s org in
      ([c], fetchAccessEntitlement true
              match centre c with Answered status (Some body) => Some (status_ok status, body)
                                | Answered status None => if status_ok status then None else Some (false, JUndefined)
                                | NoAnswer => None end)
  end.

Definition reportTenantLink (env : Env) (organizationId tenantId consoleOrigin : string) : list Call * bool :=
  match service env with
  | None => ([], false)
  | Some s =>
      let c := {| cl_method := "POST"; cl_url := sv_issuer s +:+ "/api/tenant-link"; cl_secret := sv_secret s;
                  cl_body := JObj [("organizationId", JStr organizationId); ("tenantId", JStr tenantId);
                                   ("consoleOrigin", JStr consoleOrigin); ("product", JStr "ACCESS")]%string |} in
      ([c], match centre c with Answered status _ => status_ok status | NoAnswer => false end)
  end.

Definition reportLastProduct (env : Env) (email : string) (product : ProductCode) : list Call :=
  match service env with
  | None => []
  | Some s => [{| cl_method := "POST"; cl_url := sv_issuer s +:+ "/api/last-product"; cl_secret := sv_secret s;
                  cl_body := JObj [("email", JStr email); ("product", JStr (code_text product))]%string |}]
  end.

Definition fetchCenterPicture (env : Env) (org : string) : list Call * option CenterPicture :=
  match service env with
  | None => ([], None)
  | Some s =>
      let c := entitlements_call s org in
      ([c], match centre c with
            | Answered status (Some body) =>
                if negb (status_ok status) then None else
                rows ← get body "entitlements";
                match rows with
                | JArr es => Some {| cp_entitlements := List.filter isKeyedRow es;
                                     cp_links := map withUsableOrigin
                                       (List.filter isKeyedRow (match obj_get body "links" with JArr ls => ls | _ => [] end)) |}
                | _ => None
                end
            | _ => None
            end)
  end.

(** [lookup]: the organisation of the tenant's row; [None]: the query threw. *)
Definition getCenterPicture (env : Env) (lookup : option (option string)) : list Call * option CenterPicture :=
  if negb (isCentreConfigured env) then ([], None) else
  match lookup with
  | Some org => match some_truthy org with Some o => fetchCenterPicture env o | None => ([], None) end
  | None => ([], None)
  end.

Definition PORTAL_URL : string := "https://app.captivo.io".
Definition ACCESS_SETUP_URL : string := "https://platform.cloud.captivo.io".
Definition getProductMenu (env : Env) (lookup : option (option string)) (now : Z) : list Call * option (list ProductMenuItem) :=
  let '(calls, data) := getCenterPicture env lookup in
  (calls, match data with Some d => productMenu d ACCESS PORTAL_URL ACCESS_SETUP_URL now | None => Some [] end).

(** The page that leaves for Portal: where it redirects; [None]: an exception. *)
Definition goPage (env : Env) (lookup : option (option string)) (now : Z) (userEmail : string) : list Call * option string :=
  let '(calls, menu) := getProductMenu env lookup now in
  match menu with
  | None => (calls, None)
  | Some items =>
      match find_row (λ i, bool_decide (mi_product i = PORTAL)) items with
      | Some i =>
          if negb (truthy (mi_href i)) then (calls, Some "/"%string)
          else (calls ++ (if truthy userEmail then reportLastProduct env userEmail PORTAL else []), Some (mi_href i))
      | None => (calls, Some "/"%string)
      end
  end.

(** ** Registration *)

Record CaptivoIdRegistration := { rg_email : string; rg_organizationName : string; rg_name : string; rg_clientIp : option string }.
Inductive RegisterOutcome := NotHere | NotConfigured | Registered | AlreadyThere | RegisterFailed.

Definition registerWithCaptivoId (env : Env) (input : CaptivoIdRegistration) : list Call * RegisterOutcome :=
  if isSelfHosted env then ([], NotHere) else
  match env_trimmed env "CAPTIVO_ID_ISSUER", env_trimmed env "CAPTIVO_ID_SERVICE_SECRET" with
  | Some issuer, Some secret =>
      let c := {| cl_method := "POST"; cl_url := issuer +:+ "/api/register"; cl_secret := secret;
                  cl_body := JObj ([("email", JStr (rg_email input)); ("organizationName", JStr (rg_organizationName input));
                                    ("product", JStr "ACCESS"); ("name", JStr (rg_name input)); ("emailVerified", JBool true)]%string ++
                                   match some_truthy (rg_clientIp input) with Some ip => [("clientIp"%string, JStr ip)] | None => [] end) |} in
      ([c], match centre c with
            | Answered status _ => if status_ok status then Registered else if status =? 409 then AlreadyThere else RegisterFailed
            | NoAnswer => RegisterFailed
            end)
  | _, _ => ([], NotConfigured)
  end.
End switcher.

(** ** What the centre reads *)

Record Summary := { sm_name : string; sm_facts : list (string * json) }.
Definition facts_of (s : TenantStats) : list (string * json) :=
  [("sites", JNum (NInt (ts_sites s))); ("connectors", JNum (NInt (ts_connectors s)));
   ("connectorsOnline", JNum (NInt (ts_connectorsOnline s))); ("sessions24h", JNum (NInt (ts_sessions24h s)))]%string ++
  match ts_lastActivity s with Some t => [("lastActivity"%string, JStr (toISOString t))] | None => [] end.

(** [tenantId] is the tenant of the host; [header] and [org] come with the
    request. *)
Definition centerSummaryGet (secret header : option string) (tenantId : string) (org : option string) (now : Z)
    (tables : string → TenantTables) (db : PlatformDb) : response Summary :=
  let expected := trim (secret ?? "") in
  let given := header ?? "" in
  if negb (truthy expected) || negb (given =s expected) then Fail 401 "unauthorized" else
  if tenantId =s PLATFORM_TENANT_ID then Fail 404 "not_found" else
  let org := trim (org ?? "") in
  if negb (truthy org) then Fail 400 "missing_org" else
  match getTenant tenantId db with
  | None => Fail 404 "not_found"
  | Some t =>
      if negb (bool_decide (tenantSlugByOrg org db = Some (w_slug t))) then Fail 404 "not_found" else
      let stats := find_row (λ s, ts_id s =s tenantId) (tenantStats now tables (pf_tenants db)) in
      Reply 200 {| sm_name := w_name t; sm_facts := match stats with Some s => facts_of s | None => [] end |}
  end.

(** ** Lemmas: percent encoding *)

(** The inverse, as the centre reads a query. *)
Definition unhex (c : Ascii.ascii) : N := let n := Ascii.N_of_ascii c in (if n <? 65 then n - 48 else n - 55)%N.
Fixpoint decode_chars (l : list Ascii.ascii) : list Ascii.ascii :=
  match l with
  | c :: ((h :: k :: l') as rest) =>
      if bool_decide (c = percent) then Ascii.ascii_of_N (16 * unhex h + unhex k) :: decode_chars l' else c :: decode_chars rest
  | c :: rest => c :: decode_chars rest
  | [] => []
  end.

Definition encodes_well (c : Ascii.ascii) : bool :=
  let h := hex_digit (Ascii.N_of_ascii c / 16) in
  let k := hex_digit (Ascii.N_of_ascii c mod 16) in
  if unreserved c then negb (bool_decide (c = percent))
  else bool_decide (Ascii.ascii_of_N (16 * unhex h + unhex k) = c) && unreserved h && unreserved k.
Lemma all_encode_well c : encodes_well c = true.
Proof. destruct c as [[] [] [] [] [] [] [] []]; vm_compute; reflexivity. Qed.
Lemma encode_cases c :
  (unreserved c = true ∧ c ≠ percent ∧ encode_char c = [c]) ∨
  ∃ h k, encode_char c = [percent; h; k] ∧ Ascii.ascii_of_N (16 * unhex h + unhex k) = c ∧ unreserved h = true ∧ unreserved k = true.
Proof.
  pose proof (all_encode_well c) as H. unfold encodes_well in H. unfold encode_char. destruct (unreserved c); [left|right].
  - split_and!; [done| |done]. apply negb_true_iff in H. by reflect_bool.
  - do 2 eexists. split; [reflexivity|]. apply andb_true_iff in H as [H Hk]. apply andb_true_iff in H as [H Hh]. by reflect_bool.
Qed.
Lemma decode_plain c l : c ≠ percent → decode_chars (c :: l) = c :: decode_chars l.
Proof. intros Hc. destruct l as [|h [|k l]]; cbn; [done..|]. by rewrite bool_decide_eq_false_2. Qed.
Lemma decode_encode l : decode_chars (flat_map encode_char l) = l.
Proof.
  induction l as [|c l IH]; [done|]. cbn [flat_map]. destruct (encode_cases c) as [(_ & Hc & ->)|(h & k & -> & E & _)].
  - cbn [app]. rewrite decode_plain by done. by rewrite IH.
  - change (decode_chars ([percent; h; k] ++ flat_map encode_char l))
      with (Ascii.ascii_of_N (16 * unhex h + unhex k) :: decode_chars (flat_map encode_char l)). by rewrite E, IH.
Qed.

(** An encoded text is read back, and cannot add to the query it is put in. *)
Lemma encode_faithful s :
  unchars (decode_chars (chars (encodeURIComponent s))) = s ∧
  Forall (λ c, unreserved c = true ∨ c = percent) (chars (encodeURIComponent s)).
Proof.
  unfold encodeURIComponent. rewrite chars_unchars. split; [by rewrite decode_encode, unchars_chars|].
  induction (chars s) as [|c l IH]; [constructor|]. cbn [flat_map]. apply Forall_app. split; [|done].
  destruct (encode_cases c) as [(Hu & _ & ->)|(h & k & -> & _ & Hh & Hk)]; repeat first [apply Forall_cons_2|apply Forall_nil_2]; auto.
Qed.

(** ** The calls *)

Inductive centre_op :=
  | OpEntitlement (org : string)
  | OpTenantLink (org tenantId origin : string)
  | OpLastProduct (email : string) (p : ProductCode)
  | OpMenu (lookup : option (option string)) (now : Z)
  | OpGo (lookup : option (option string)) (now : Z) (email : string)
  | OpRegister (input : CaptivoIdRegistration).

Section calls.
Context (Date_parse : string → option Z) (frac_text : Z → string) (centre : Call → Answer).

Definition calls_of (env : Env) (o : centre_op) : list Call :=
  match o with
  | OpEntitlement org => (askAccessEntitlement centre env org).1
  | OpTenantLink org tid origin => (reportTenantLink centre env org tid origin).1
  | OpLastProduct email p => reportLastProduct env email p
  | OpMenu lookup now => (getProductMenu Date_parse frac_text centre env lookup now).1
  | OpGo lookup now email => (goPage Date_parse frac_text centre env lookup now email).1
  | OpRegister input => (registerWithCaptivoId centre env input).1
  end.

(** The addresses of a service. *)
Definition service_address (s : Service) (url : string) : Prop :=
  (∃ org, url = sv_issuer s +:+ "/api/entitlements?org=" +:+ encodeURIComponent org) ∨
  url = sv_issuer s +:+ "/api/tenant-link" ∨ url = sv_issuer s +:+ "/api/last-product".
Definition to_service (env : Env) (c : Call) : Prop :=
  ∃ s, service env = Some s ∧ cl_secret c = sv_secret s ∧ service_address s (cl_url c).

Lemma last_product_calls env email p c : c ∈ reportLastProduct env email p → to_service env c.
Proof.
  unfold reportLastProduct. destruct (service env) as [s|] eqn:Es; [|by intros ?%not_elem_of_nil].
  intros ->%list_elem_of_singleton. exists s. split_and!; [done..|]. by right; right.
Qed.
Lemma picture_calls env lookup c : c ∈ (getCenterPicture centre env lookup).1 → to_service env c.
Proof.
  unfold getCenterPicture. destruct (isCentreConfigured env); [cbn [negb]|by intros ?%not_elem_of_nil].
  destruct lookup as [org|]; [|by intros ?%not_elem_of_nil]. destruct (some_truthy org) as [o|]; [|by intros ?%not_elem_of_nil].
  unfold fetchCenterPicture. destruct (service env) as [s|] eqn:Es; [|by intros ?%not_elem_of_nil]. cbn [fst].
  intros ->%list_elem_of_singleton. exists s. split_and!; [done..|]. left. by exists o.
Qed.
Lemma menu_calls env lookup now : (getProductMenu Date_parse frac_text centre env lookup now).1 = (getCenterPicture centre env lookup).1.
Proof. unfold getProductMenu. by destruct (getCenterPicture centre env lookup). Qed.

(** Where the shared secret goes.  Whatever the centre answers, the manager
    sends its service secret only to the configured centre, to the addresses of
    the service; without both settings it sends nothing, and a self-hosted
    installation registers nobody. *)
Theorem secret_stays_home env o c :
  c ∈ calls_of env o →
  env_trimmed env "CAPTIVO_ID_SERVICE_SECRET" = Some (cl_secret c) ∧
  ∃ issuer, env_trimmed env "CAPTIVO_ID_ISSUER" = Some issuer ∧
    match o with
    | OpRegister _ => isSelfHosted env = false ∧ cl_url c = issuer +:+ "/api/register"
    | _ => ∃ s, service env = Some s ∧ sv_issuer s = strip_slashes issuer ∧ service_address s (cl_url c)
    end.
Proof.
  intros Hc. assert (∀ Q : string → Prop, to_service env c →
    (∀ issuer s, service env = Some s → sv_issuer s = strip_slashes issuer → service_address s (cl_url c) → Q issuer) →
    env_trimmed env "CAPTIVO_ID_SERVICE_SECRET" = Some (cl_secret c) ∧
    ∃ issuer, env_trimmed env "CAPTIVO_ID_ISSUER" = Some issuer ∧ Q issuer) as Hk.
  { intros Q (s & Hs & Hsec & Ha) HQ. pose proof Hs as Hs'. unfold service, env_trimmed in Hs |- *.
    destruct (env "CAPTIVO_ID_ISSUER") as [raw|]; [|done]. cbn [fmap option_fmap option_map some_truthy] in Hs |- *.
    destruct (truthy (strip_slashes (trim raw))) eqn:Et; [|done].
    destruct (some_truthy (trim <$> env "CAPTIVO_ID_SERVICE_SECRET")) as [sec|]; [|done]. injection Hs as <-. cbn [sv_secret sv_issuer] in *.
    split; [by rewrite Hsec|]. exists (trim raw). assert (truthy (trim raw) = true) as ->.
    { destruct (trim raw); [|done]. by cbn in Et. }
    split; [done|]. by eapply HQ. }
  destruct o as [org|org tid origin|email p|lookup now|lookup now email|input]; cbn [calls_of] in Hc.
  - apply Hk; [|naive_solver]. unfold askAccessEntitlement in Hc. destruct (service env) as [s|] eqn:Es; [|by apply not_elem_of_nil in Hc].
    apply list_elem_of_singleton in Hc as ->. exists s. split_and!; [done..|]. left. by exists org.
  - apply Hk; [|naive_solver]. unfold reportTenantLink in Hc. destruct (service env) as [s|] eqn:Es; [|by apply not_elem_of_nil in Hc].
    apply list_elem_of_singleton in Hc as ->. exists s. split_and!; [done..|]. by right; left.
  - apply Hk; [by eapply last_product_calls|naive_solver].
  - apply Hk; [|naive_solver]. rewrite menu_calls in Hc. by eapply picture_calls.
  - apply Hk; [|naive_solver]. unfold goPage in Hc. pose proof (menu_calls env lookup now) as Hm.
    destruct (getProductMenu Date_parse frac_text centre env lookup now) as [calls menu]. cbn [fst] in Hm. subst calls.
    destruct menu as [items|]; [|exact (picture_calls env lookup c Hc)]. destruct (find_row _ items) as [i|]; [|exact (picture_calls env lookup c Hc)].
    destruct (truthy (mi_href i)); [|exact (picture_calls env lookup c Hc)]. cbn [negb fst] in Hc.
    apply elem_of_app in Hc as [Hc|Hc]; [by eapply picture_calls|]. destruct (truthy email); [by eapply last_product_calls|by apply not_elem_of_nil in Hc].
  - unfold registerWithCaptivoId in Hc. destruct (isSelfHosted env); [by apply not_elem_of_nil in Hc|].
    destruct (env_trimmed env "CAPTIVO_ID_ISSUER") as [issuer|]; [|by apply not_elem_of_nil in Hc].
    destruct (env_trimmed env "CAPTIVO_ID_SERVICE_SECRET") as [secret|]; [|by apply not_elem_of_nil in Hc].
    apply list_elem_of_singleton in Hc as ->. split; [done|]. by exists issuer.
Qed.
End calls.

(** ** The switcher *)

Lemma set_member_get fs k v k' : obj_get (JObj (set_member fs k v)) k' = if decide (k = k') then v else obj_get (JObj fs) k'.
Proof.
  unfold set_member. induction fs as [|[j w] fs IH]; cbn [List.filter app fst]; [by rewrite obj_get_cons|].
  rewrite (obj_get_cons k' j w fs). destruct (bool_decide_reflect (j = k)) as [->|Hne]; cbn [negb app].
  - rewrite IH. by repeat case_decide.
  - rewrite obj_get_cons, IH. repeat case_decide; congruence.
Qed.
Lemma keyed_object v : isKeyedRow v = true → ∃ fs s, v = JObj fs ∧ obj_get v "product" = JStr s.
Proof.
  unfold isKeyedRow. destruct v as [| | | | |l|fs]; try done. destruct (obj_get (JObj fs) "product") as [| | | |s| |] eqn:E; try done. eauto.
Qed.
Lemma usable_row v : isKeyedRow v = true →
  isKeyedRow (withUsableOrigin v) = true ∧ obj_get (withUsableOrigin v) "product" = obj_get v "product" ∧
  match obj_get (withUsableOrigin v) "consoleOrigin" with
  | JStr o => obj_get v "consoleOrigin" = JStr o
  | w => w = JNull
  end.
Proof.
  intros (fs & s & -> & Hp)%keyed_object. cbn [withUsableOrigin]. unfold isKeyedRow. rewrite !set_member_get.
  rewrite decide_False by done. rewrite decide_True by done.
  rewrite Hp. cbn [is_object andb]. split_and!; [done..|]. by destruct (obj_get (JObj fs) "consoleOrigin").
Qed.

(** Keyed rows are searched without a throw. *)
Lemma find_keyed p rows : Forall (λ r, isKeyedRow r = true) rows →
  ∃ o, find_product p rows = Some o ∧ ∀ r, o = Some r → r ∈ rows ∧ obj_get r "product" = JStr (code_text p) ∧ isKeyedRow r = true.
Proof.
  induction 1 as [|r rows Hr Hrs IH]; [by exists None|]. cbn [find_product].
  destruct (keyed_object r Hr) as (fs & s & -> & Hs). unfold get. cbn [is_nullish]. rewrite Hs. cbn [json_str_is].
  case_bool_decide as E.
  - exists (Some (JObj fs)). split; [done|]. intros r [= <-]. subst s. split_and!; [by left|done..].
  - destruct IH as (o & -> & Ho). exists o. split; [done|]. intros r ->. destruct (Ho r eq_refl) as (? & ? & ?). split_and!; [by right|done..].
Qed.

Lemma strip_no_slash s : endsWith "/" (strip_slashes s) = false.
Proof.
  unfold endsWith, strip_slashes. rewrite chars_unchars, reverse_involutive.
  assert (∀ l, starts_chars (reverse (chars "/")) (drop_slashes l) = false) as H; [|apply H].
  induction l as [|c l IH]; [done|]. cbn [drop_slashes]. case_bool_decide as E; [done|].
  cbn. by rewrite bool_decide_eq_false_2 by (intros <-; by apply E).
Qed.

Section switcher_sound.
Context (Date_parse : string → option Z) (frac_text : Z → string) (centre : Call → Answer).

(** The picture the client makes of any answer. *)
Definition clean (d : CenterPicture) : Prop :=
  Forall (λ r, isKeyedRow r = true) (cp_entitlements d) ∧
  Forall (λ r, isKeyedRow r = true ∧ match obj_get r "consoleOrigin" with JStr _ | JNull => True | _ => False end) (cp_links d).

(** What an item of the menu stands on. *)
Definition founded (d : CenterPicture) (now : Z) (i : ProductMenuItem) : Prop :=
  (∃ e, e ∈ cp_entitlements d ∧ obj_get e "product" = JStr (code_text (mi_product i)) ∧
     isLive Date_parse frac_text (obj_get e "expiresAt") now = true) ∧
  match mi_product i with
  | ACCESS => mi_state i = Current ∧ mi_href i = ""%string
  | PORTAL => mi_state i ≠ Current ∧ endsWith "/" (mi_href i) = false ∧
      ∃ origin, mi_href i = strip_slashes origin ∧
        (origin = PORTAL_URL ∨ ∃ l, l ∈ cp_links d ∧ obj_get l "product" = JStr "PORTAL" ∧ obj_get l "consoleOrigin" = JStr origin)
  end.

Lemma get_keyed v k : isKeyedRow v = true → get v k = Some (obj_get v k).
Proof. by intros (fs & s & -> & _)%keyed_object. Qed.
Lemma append_nil_r s : s +:+ "" = s.
Proof. apply chars_inj. rewrite chars_append. apply app_nil_r. Qed.

Lemma menu_item_total d now p : clean d →
  ∃ l, menu_item Date_parse frac_text d ACCESS PORTAL_URL ACCESS_SETUP_URL now p = Some l ∧ ∀ i, i ∈ l → mi_product i = p ∧ founded d now i.
Proof.
  intros [He Hl]. unfold menu_item. destruct (find_keyed p _ He) as (o & -> & Ho). cbn [mbind option_bind].
  destruct o as [e|]; [|exists []; split; [done|by intros ? ?%not_elem_of_nil]]. destruct (Ho e eq_refl) as (Hin & Hp & Hk).
  rewrite (get_keyed e "expiresAt" Hk). cbn [mbind option_bind].
  destruct (isLive Date_parse frac_text (obj_get e "expiresAt") now) eqn:Elive; cbn [negb]; [|exists []; split; [done|by intros ? ?%not_elem_of_nil]].
  case_bool_decide as Ep.
  { eexists. split; [done|]. intros i ->%list_elem_of_singleton. split; [done|]. split; [by exists e|]. by rewrite Ep. }
  assert (p = PORTAL) as -> by (by destruct p).
  assert (Forall (λ r, isKeyedRow r = true) (cp_links d)) as Hl' by (eapply Forall_impl; [exact Hl|]; naive_solver).
  destruct (find_keyed PORTAL _ Hl') as (b & -> & Hb). cbn [mbind option_bind]. rewrite bool_decide_eq_true_2 by done.
  assert (∃ origin, (match b with
      | None => Some PORTAL_URL
      | Some b => v ← get b "consoleOrigin"; if is_nullish v then Some PORTAL_URL else as_string v
      end) = Some origin ∧ (origin = PORTAL_URL ∨ ∃ l, l ∈ cp_links d ∧ obj_get l "product" = JStr "PORTAL" ∧ obj_get l "consoleOrigin" = JStr origin))
    as (origin & -> & Horigin).
  { destruct b as [r|]; [|by exists PORTAL_URL; split; [|left]]. destruct (Hb r eq_refl) as (Hr & Hrp & Hrk). rewrite (get_keyed r _ Hrk).
    cbn [mbind option_bind]. rewrite Forall_forall in Hl. destruct (Hl r Hr) as [_ Hor].
    destruct (obj_get r "consoleOrigin") as [| | | |o| |] eqn:Er; try done; [by exists PORTAL_URL; split; [|left]|].
    exists o. split; [done|]. right. by exists r. }
  cbn [mbind option_bind]. eexists. split; [done|]. intros i ->%list_elem_of_singleton. split; [done|]. split; [by exists e|].
  cbn [mi_product mi_state mi_href SSO_ENTRY]. rewrite append_nil_r. split_and!; [by destruct b|apply strip_no_slash|by exists origin].
Qed.

Lemma picture_clean env org calls d : fetchCenterPicture centre env org = (calls, Some d) → clean d.
Proof.
  unfold fetchCenterPicture. destruct (service env) as [s|]; [|done]. intros [= _ H].
  destruct (centre _) as [|status [body|]]; try done. destruct (status_ok status); [|done]. cbn [negb] in H.
  unfold get in H. destruct (is_nullish body); [done|]. cbn [mbind option_bind] in H.
  destruct (obj_get body "entitlements") as [| | | | |es|]; try done. injection H as <-. split; cbn [cp_entitlements cp_links].
  - apply Forall_forall. intros r Hr%list_elem_of_In. by apply filter_In in Hr as [_ Hr].
  - apply Forall_forall. intros r (r' & -> & Hr)%list_elem_of_fmap. apply list_elem_of_In, filter_In in Hr as [_ Hr].
    destruct (usable_row r' Hr) as (Hk & _ & Ho). split; [done|]. by destruct (obj_get (withUsableOrigin r') "consoleOrigin").
Qed.

(** The product switcher.  Whatever the centre sends (rows that are null,
    rows without a product, addresses that are numbers, no JSON at all), the
    menu of the console is drawn without an exception; it is empty or leads to
    the other product; every product shown is one the centre lists as live;
    one's own is never a link; and Portal's link is its fixed address or one the
    centre named for it, with no slash at its end. *)
Theorem switcher_safe env lookup now :
  ∃ items, (getProductMenu Date_parse frac_text centre env lookup now).2 = Some items ∧
    (items = [] ∨ ∃ i, i ∈ items ∧ mi_product i = PORTAL) ∧
    (items ≠ [] → ∃ d, (getCenterPicture centre env lookup).2 = Some d ∧ ∀ i, i ∈ items → founded d now i).
Proof.
  unfold getProductMenu. destruct (getCenterPicture centre env lookup) as [calls [d|]] eqn:E; cbn [snd]; [|by exists []; split_and!; [|left|]].
  assert (clean d) as Hd.
  { unfold getCenterPicture in E. destruct (isCentreConfigured env); [cbn [negb] in E|done]. destruct lookup as [o|]; [|done].
    destruct (some_truthy o); [|done]. by eapply picture_clean. }
  unfold productMenu. destruct (menu_item_total d now PORTAL Hd) as (lp & Hlp & Hp). destruct (menu_item_total d now ACCESS Hd) as (la & Hla & Ha).
  unfold ORDER. cbn [mapM]. rewrite Hlp, Hla. cbn [mbind option_bind mret option_ret concat]. rewrite (right_id_L [] (++)).
  assert (∀ i, i ∈ lp ++ la → founded d now i) as Hall by (intros i [Hi|Hi]%elem_of_app; [by apply Hp|by apply Ha]).
  eexists. split; [done|]. destruct (existsb _ (lp ++ la)) eqn:Ex; [|split; [by left|done]]. split.
  - right. apply existsb_exists in Ex as (i & Hi & Hs). apply list_elem_of_In in Hi. exists i. split; [done|].
    destruct (Hall i Hi) as [_ Hf]. destruct (mi_product i); [done|]. destruct Hf as [Hc _]. rewrite Hc in Hs. done.
  - intros _. by exists d.
Qed.
End switcher_sound.

(** ** The summary *)

Lemma stats_listed now tables db id t :
  getTenant id db = Some t → find_row (λ s, ts_id s =s id) (tenantStats now tables (pf_tenants db)) = Some (stats_of now id (tables id)).
Proof.
  unfold getTenant, listTenants. intros Hf. apply find_row_Some in Hf as [Hin Hid]. reflect_bool.
  apply list_elem_of_In, filter_In in Hin as [Hin Hres]. apply negb_true_iff in Hres. subst id. apply stats_found; [done|].
  by apply list_elem_of_In, in_map.
Qed.

(** What the centre can read.  Numbers are given only to a caller with the
    whole service secret, on the host of a workspace, for the organisation that
    workspace is linked to; they are then that workspace's own, and nobody
    else's tables can change them. *)
Theorem summary_scoped secret header tenantId org now tables db s :
  centerSummaryGet secret header tenantId org now tables db = Reply 200 s →
  (∃ key, secret = Some key ∧ trim key ≠ ""%string ∧ header = Some (trim key)) ∧
  (∃ o t, org = Some o ∧ getTenant tenantId db = Some t ∧ tenantSlugByOrg (trim o) db = Some (w_slug t) ∧
     sm_name s = w_name t ∧ sm_facts s = facts_of (stats_of now tenantId (tables tenantId))) ∧
  (∀ tables', tables' tenantId = tables tenantId → centerSummaryGet secret header tenantId org now tables' db = Reply 200 s).
Proof.
  intros Hs. pose proof Hs as Hs'. unfold centerSummaryGet in Hs |- *. cbn zeta in *.
  destruct (truthy (trim (secret ?? ""))) eqn:Ek; [cbn [negb orb] in *|done].
  destruct (bool_decide_reflect (header ?? "" = trim (secret ?? ""))) as [Eh|]; [cbn [negb] in *|done].
  destruct (tenantId =s PLATFORM_TENANT_ID); [done|]. destruct (truthy (trim (org ?? ""))) eqn:Eo; [cbn [negb] in *|done].
  destruct (getTenant tenantId db) as [t|] eqn:Et; [|done].
  destruct (bool_decide_reflect (tenantSlugByOrg (trim (org ?? "")) db = Some (w_slug t))) as [Esl|]; [cbn [negb] in *|done].
  rewrite (stats_listed now tables db tenantId t Et) in Hs. injection Hs as <-. cbn [sm_name sm_facts]. split_and!.
  - destruct secret as [key|]; [|done]. change (Some key ?? ""%string) with key in *. exists key. split_and!; [done| |].
    + intros E. by rewrite E in Ek.
    + destruct header as [h|]; [f_equal; exact Eh|]. by rewrite <-Eh in Ek.
  - destruct org as [o|]; [|done]. by exists o, t.
  - intros tables' Ht. by rewrite (stats_listed now tables' db tenantId t Et), Ht.
Qed.

(** ** Witnesses *)

Definition demo_env (issuer : string) : Env := λ k,
  if k =s "CAPTIVO_ID_ISSUER" then Some issuer else if k =s "CAPTIVO_ID_SERVICE_SECRET" then Some " k3y "%string
  else if k =s "CAPTIVO_DEPLOYMENT" then Some "saas"%string else None.
(** An answer with bad rows: null, no product, an address that is a number. *)
Definition demo_centre (_ : Call) : Answer :=
  Answered 200 (Some (JObj [("entitlements", JArr [JNull; JObj [("plan", JStr "x")]; JObj [("product", JStr "ACCESS")];
                                                    JObj [("product", JStr "PORTAL"); ("expiresAt", JStr "later")]]);
                            ("links", JArr [JNum (NInt 3); JObj [("product", JStr "PORTAL"); ("consoleOrigin", JNum (NInt 42))]])]%string)).
Definition demo_parse (s : string) : option Z := if s =s "later" then Some 5000 else None.

(** The menu of that answer, before and after Portal lapses. *)
Example demo_menu :
  (getProductMenu demo_parse (λ _, ""%string) demo_centre (demo_env "https://id.test/") (Some (Some "org 1"%string)) 100).2 =
    Some [{| mi_product := PORTAL; mi_state := Open; mi_href := "https://app.captivo.io" |}; {| mi_product := ACCESS; mi_state := Current; mi_href := "" |}] ∧
  (getProductMenu demo_parse (λ _, ""%string) demo_centre (demo_env "https://id.test/") (Some (Some "org 1"%string)) 6000).2 = Some [] ∧
  map cl_url (getProductMenu demo_parse (λ _, ""%string) demo_centre (demo_env "https://id.test/") (Some (Some "org 1"%string)) 100).1 =
    ["https://id.test/api/entitlements?org=org%201"%string].
Proof. vm_compute. done. Qed.

Lemma secret_stays_home_witness :
  ∃ s, service (demo_env "https://id.test/") = Some s ∧ service_address s "https://id.test/api/last-product" ∧ sv_secret s = "k3y"%string.
Proof.
  destruct (secret_stays_home demo_parse (λ _, ""%string) demo_centre (demo_env "https://id.test/") (OpLastProduct "a@x.de" PORTAL)
    {| cl_method := "POST"; cl_url := "https://id.test/api/last-product"; cl_secret := "k3y";
       cl_body := JObj [("email", JStr "a@x.de"); ("product", JStr "PORTAL")]%string |}) as (_ & issuer & _ & s & Hs & _ & Ha); [by left|].
  exists s. split; [exact Hs|]. split; [exact Ha|]. vm_compute in Hs. injection Hs as <-. reflexivity.
Defined.

Definition demo_platform : PlatformDb :=
  {| pf_tenants := [new_workspace "t1" "acme" "Acme GmbH" (Some "org1"%string); new_workspace "t2" "beta" "Beta" (Some "org2"%string)];
     pf_invites := λ _, []; pf_sessions := λ _, []; pf_users := λ _, []; pf_handoffs := λ _, [];
     pf_settings := {| settingsRows := ∅; settingsCache := ∅ |}; pf_logs := λ _, no_admin_log;
     pf_config := {| cs_row := None; cs_cache := None |} |}.
Lemma summary_scoped_witness :
  centerSummaryGet (Some " k3y "%string) (Some "k3y"%string) "t1" (Some "org2"%string) demo_now demo_tables demo_platform = Fail 404 "not_found" ∧
  ∃ o t, Some "org1"%string = Some o ∧ getTenant "t1" demo_platform = Some t ∧ tenantSlugByOrg (trim o) demo_platform = Some (w_slug t).
Proof.
  split; [vm_compute; reflexivity|].
  destruct (summary_scoped (Some " k3y "%string) (Some "k3y"%string) "t1" (Some "org1"%string) demo_now demo_tables demo_platform
    {| sm_name := "Acme GmbH"; sm_facts := facts_of (stats_of demo_now "t1" (demo_tables "t1")) |}) as (_ & (o & t & Ho & Ht & Hsl & _) & _).
  - vm_compute. reflexivity.
  - exists o, t. split; [exact Ho|]. split; [exact Ht|exact Hsl].
Defined.

(** A slash at the end of the configured address: every other call drops it, the
    registration does not and posts to another path. *)
Theorem register_keeps_slash :
  map cl_url (registerWithCaptivoId demo_centre (demo_env "https://id.test/")
    {| rg_email := "a@x.de"; rg_organizationName := "X"; rg_name := "A"; rg_clientIp := None |}).1 = ["https://id.test//api/register"%string] ∧
  map cl_url (reportTenantLink demo_centre (demo_env "https://id.test/") "org1" "t1" "https://acme.test").1 = ["https://id.test/api/tenant-link"%string].
Proof. vm_compute. done. Qed.
