(* ===== verification/Notices.v ===== *)
(** * Notices: what people are told

    The mails (src/lib/email/layout.ts and templates.ts), the switches for them
    (src/lib/notifications), the notice of a site that goes down or recovers with
    its webhook, push and mail (src/lib/notifications.ts), the bell of the
    console (admin/notifications and below), the address links are built on
    (src/lib/tenant/console-url.ts), relative times (src/lib/format.ts) and the
    navigation of the console (src/lib/nav/model.ts) with the guards of the pages
    it leads to.

    What leaves the manager is a list of [Output]s.  A channel that fails is
    swallowed and the next one is tried, so failures do not appear. *)

From S2P Require Import Prelude JsString JsValue Schema AuditChain AccessLog Identity Access Settings Tenant AuditQuery Provider Sites.

(** ** HTML *)

(** Character constants by code. *)
Definition chr (n : N) : Ascii.ascii := Ascii.ascii_of_N n.
Definition lt_char := chr 60.
Definition gt_char := chr 62.
Definition quot_char := chr 34.
Definition newline : string := unchars [chr 10].
(** Constant text with [^] written for a double quote. *)
Definition quoted (s : string) : string := unchars (map (λ c, if bool_decide (c = chr 94) then quot_char else c) (chars s)).

(** [s.replace(/c/g, r)] for a single character. *)
Definition replace_char (c : Ascii.ascii) (r s : string) : string :=
  unchars (flat_map (λ d, if bool_decide (d = c) then chars r else [d]) (chars s)).
Definition escapeHtml (s : string) : string :=
  replace_char quot_char "&quot;" (replace_char gt_char "&gt;" (replace_char lt_char "&lt;" (replace_char (chr 38) "&amp;" s))).

(** [l.replace(/<[^>]+>/g, '')]: a [<] opens a tag when a [>] follows, not at once. *)
Definition closes (l : list Ascii.ascii) : bool :=
  match l with d :: l' => negb (bool_decide (d = gt_char)) && existsb (λ c, bool_decide (c = gt_char)) l' | [] => false end.
Fixpoint strip_chars (intag : bool) (l : list Ascii.ascii) : list Ascii.ascii :=
  match l with
  | [] => []
  | c :: l' =>
      if intag then strip_chars (negb (bool_decide (c = gt_char))) l'
      else if bool_decide (c = lt_char) && closes l' then strip_chars true l'
      else c :: strip_chars false l'
  end.
Definition stripTags (s : string) : string := unchars (strip_chars false (chars s)).

Record Rendered := { rd_html : string; rd_text : string }.
Definition paragraph (l : string) : string :=
  quoted "<p style=^margin:0 0 12px;font-size:15px;line-height:1.6;color:#18202e^>" +:+ l +:+ "</p>".
Definition button_html (label url : string) : string :=
  quoted "<p style=^margin:20px 0 0^><a href=^" +:+ url +:+
  quoted "^ style=^display:inline-block;background:#3358d4;color:#ffffff;text-decoration:none;font-weight:600;font-size:14px;padding:10px 18px;border-radius:6px^>" +:+
  label +:+ "</a></p>".
Definition page_top : string :=
  quoted "<!doctype html><html><body style=^margin:0;background:#f6f8fb;padding:24px;font-family:-apple-system,BlinkMacSystemFont,'Segoe UI',Roboto,Helvetica,Arial,sans-serif^>" +:+ newline +:+
  quoted "<table role=^presentation^ width=^100%^ cellpadding=^0^ cellspacing=^0^><tr><td align=^center^>" +:+ newline +:+
  quoted "<table role=^presentation^ width=^480^ cellpadding=^0^ cellspacing=^0^ style=^max-width:480px;background:#ffffff;border:1px solid #e2e7ef;border-radius:12px;overflow:hidden^>" +:+ newline +:+
  quoted "<tr><td style=^padding:18px 24px;border-bottom:1px solid #e2e7ef;font-weight:700;font-size:16px;color:#18202e^>Captivo <span style=^color:#647083;font-weight:400^>Access</span></td></tr>" +:+ newline +:+
  quoted "<tr><td style=^padding:24px^>" +:+ newline +:+ quoted "<h1 style=^margin:0 0 14px;font-size:18px;color:#18202e^>".
Definition page_end : string :=
  newline +:+ "</td></tr>" +:+ newline +:+ "</table></td></tr></table></body></html>".

Definition renderEmail (heading : string) (bodyLines : list string) (button : option (string * string)) : Rendered :=
  {| rd_html := page_top +:+ heading +:+ "</h1>" +:+ newline +:+ join "" (map paragraph bodyLines) +:+
       match button with Some (label, url) => button_html label url | None => "" end +:+ page_end;
     rd_text := join newline ([heading; ""%string] ++ map stripTags bodyLines ++
       match button with Some (label, url) => [""%string; label +:+ ": " +:+ url] | None => [] end) |}.

(** ** Templates *)

Record Mail := { ml_subject : string; ml_html : string; ml_text : string }.
Definition mail (subject : string) (r : Rendered) : Mail := {| ml_subject := subject; ml_html := rd_html r; ml_text := rd_text r |}.

Definition inviteEmail (name link : string) : Mail :=
  let subject := "You've been invited to Captivo Access"%string in
  mail subject (renderEmail subject
    ["Hi " +:+ escapeHtml name +:+ ",";
     "You've been invited to reach internal applications through Captivo Access. Use the button below to set up your passkey and get started.";
     "This invite link is single-use and time-limited."] (Some ("Open your invite"%string, link))).

Definition console_button (consoleUrl label path : string) : option (string * string) :=
  if truthy consoleUrl then Some (label, consoleUrl +:+ path) else None.

Definition approvalRequestEmail (vendorName vendorEmail siteName consoleUrl : string) : Mail :=
  mail ("Access request: " +:+ siteName) (renderEmail "Access request pending review"
    [escapeHtml vendorName +:+ " (" +:+ escapeHtml vendorEmail +:+ ") requested access to " +:+ escapeHtml siteName +:+ ".";
     "It stays pending — and denied — until an admin approves it."] (console_button consoleUrl "Review in the console" "/admin/grants")).

Definition accessDecisionEmail (approved : bool) (siteName consoleUrl : string) : Mail :=
  let subject := (if approved then "Access approved: " else "Access request declined: ") +:+ siteName in
  mail subject (renderEmail (escapeHtml subject)
    ["Your request to access " +:+ escapeHtml siteName +:+
     (if approved then " was approved. It's ready in your access list." else " was declined.")] (console_button consoleUrl "Open My access" "/access")).

Definition siteEventEmail (type : NotificationType) (siteName : string) (detail : option string) (consoleUrl : string) : Mail :=
  let down := match type with site_down => true | site_recovered => false end in
  let subject := (if down then "Site down: " else "Site recovered: ") +:+ siteName in
  mail subject (renderEmail (escapeHtml subject)
    [if down then "Captivo Access can no longer reach " +:+ escapeHtml siteName +:+
                  match some_truthy detail with Some d => " — " +:+ escapeHtml d | None => "" end +:+ "."
     else escapeHtml siteName +:+ " is reachable again."] (console_button consoleUrl "View notifications" "/admin/notifications")).

(** *** The two mails written without a template *)

(** The sign-up's own [escapeHtml], and what the digest does to a line. *)
Definition signup_escape (s : string) : string :=
  replace_char gt_char "&gt;" (replace_char lt_char "&lt;" (replace_char (chr 38) "&amp;" s)).
Definition digest_escape (s : string) : string := replace_char lt_char "&lt;" (replace_char (chr 38) "&amp;" s).

(** [startSignup]'s confirmation. *)
Definition signupMail (name slug domain link : string) : Mail :=
  {| ml_subject := "Confirm your Captivo Access workspace: " +:+ slug;
     ml_text := quoted "Confirm your email to create the ^" +:+ name +:+ quoted "^ workspace at https://" +:+ slug +:+ "." +:+ domain +:+
       newline +:+ newline +:+ link +:+ newline +:+ newline +:+
       "The link is valid for 30 minutes. If you did not request this, ignore this email.";
     ml_html := "<p>Confirm your email to create the <b>" +:+ signup_escape name +:+ "</b> workspace at <code>" +:+ slug +:+ "." +:+ domain +:+
       "</code>.</p><p><a href=" +:+ quoted "^" +:+ link +:+ quoted "^" +:+ ">Create my workspace</a></p>" +:+
       "<p>The link is valid for 30 minutes. If you did not request this, ignore this email.</p>" |}.
(** [runPlatformOps]'s digest: [lines] are the alerts and purges, [alerts] counts
    the alerts, [day] is the date; [link] is empty without a console domain. *)
Definition digestMail (alerts : Z) (day : string) (lines : list string) (link : string) : Mail :=
  {| ml_subject := "[Captivo platform] " +:+ dec alerts +:+ " alert" +:+ (if alerts =? 1 then "" else "s");
     ml_text := "Captivo platform digest — " +:+ day +:+ newline +:+ newline +:+ join newline lines +:+ newline +:+ newline +:+ link;
     ml_html := "<p><b>Captivo platform digest</b> — " +:+ day +:+ "</p><ul>" +:+
       join "" (map (λ l, "<li>" +:+ digest_escape l +:+ "</li>") lines) +:+ "</ul>" +:+
       (if truthy link then "<p><a href=" +:+ quoted "^" +:+ link +:+ quoted "^" +:+ ">Open the platform console</a></p>" else "") |}.

(** ** Switches *)

Inductive NotifKey := site_health | access_requests | access_decisions.
Definition emailEnabledFromValue (v : option bool) : bool := negb (bool_decide (v = Some false)).
Definition notifyEmailEnabled (s : PlatformSettings) (key : NotifKey) : bool :=
  emailEnabledFromValue match key with
                        | site_health => notifySiteHealth s
                        | access_requests => notifyAccessRequests s
                        | access_decisions => notifyAccessDecisions s
                        end.

(** The address of the tenant's console; [slug]: what its row gives. *)
Definition consoleBaseUrl (env : Env) (domain slug : option string) : string :=
  let configured := strip_slashes (trim (env "MANAGER_PUBLIC_URL"%string ?? "")) in
  if multiTenantEnabled env then
    match some_truthy domain, some_truthy slug with
    | Some d, Some s => "https://" +:+ s +:+ "." +:+ d
    | _, _ => configured
    end
  else configured.

(** ** A site goes down or recovers *)

Inductive Output :=
  | Webhook (url : string) (payload : json)
  | Push (cap : Capability) (title body : string) (data : json)
  | SendMail (to : list string) (m : Mail).

Definition getAdminEmails (users : list User) : list string :=
  map u_email (List.filter (λ u, bool_decide (u_role u = ADMIN) && bool_decide (u_status u = UActive)) users).

Record Notice := {
  no_id : string; no_type : NotificationType; no_siteName : option string; no_detail : option string;
  no_createdAt : Z; no_readAt : option Z;
}.
Definition type_name (t : NotificationType) : string := match t with site_down => "site_down" | site_recovered => "site_recovered" end.
Definition detail_suffix (detail : option string) : string := match some_truthy detail with Some d => ": " +:+ d | None => "" end.

Definition webhook_payload (now : Z) (n : Notification) : json :=
  JObj [("text", JStr (match nt_type n with
                       | site_down => nt_siteName n +:+ " is down" +:+ detail_suffix (nt_detail n)
                       | site_recovered => nt_siteName n +:+ " recovered"
                       end));
        ("event", JStr (type_name (nt_type n))); ("site", JStr (nt_siteName n));
        ("detail", match nt_detail n with Some d => JStr d | None => JUndefined end); ("at", JStr (toISOString now))]%string.

Section notify.
Context (env : Env).

(** [insertFails]: the row could not be written; [origin] is [consoleBaseUrl()]. *)
Definition notifyTransition (insertFails : bool) (id : string) (now : Z) (s : PlatformSettings) (origin : string) (users : list User)
    (n : Notification) (rows : list Notice) : list Notice * list Output :=
  let rows' := if insertFails then rows else
    rows ++ [{| no_id := id; no_type := nt_type n; no_siteName := Some (nt_siteName n); no_detail := nt_detail n;
                no_createdAt := now; no_readAt := None |}] in
  let url := resolvedNotificationWebhookUrl env s in
  let admins := getAdminEmails users in
  (rows',
   (if truthy url then [Webhook url (webhook_payload now n)] else []) ++
   [Push read_console (match nt_type n with site_down => "Site down" | site_recovered => "Site recovered" end)
      (match nt_type n with
       | site_down => nt_siteName n +:+ " is unreachable" +:+ detail_suffix (nt_detail n)
       | site_recovered => nt_siteName n +:+ " is reachable again"
       end)
      (JObj [("type", JStr (type_name (nt_type n))); ("siteId", JStr (nt_siteId n)); ("origin", JStr origin)]%string)] ++
   (if notifyEmailEnabled s site_health && negb (bool_decide (admins = []))
    then [SendMail admins (siteEventEmail (nt_type n) (nt_siteName n) (nt_detail n) origin)] else [])).
End notify.

(** ** The bell *)

Definition unread (n : Notice) : bool := bool_decide (no_readAt n = None).
Definition countUnreadNotifications (rows : list Notice) : Z := count_where unread rows.

(** [Math.round(a / b)] *)
Definition round_to (a b : Z) : Z := (2 * a + b) / (2 * b).
Definition timeAgo (at_ now : Z) : string :=
  let secs := Z.max 0 (round_to (now - at_) 1000) in
  if secs <? 60 then dec secs +:+ "s ago" else
  let mins := round_to secs 60 in
  if mins <? 60 then dec mins +:+ "m ago" else
  let hrs := round_to mins 60 in
  if hrs <? 24 then dec hrs +:+ "h ago" else dec (round_to hrs 24) +:+ "d ago".

Record BellItem := { bi_id : string; bi_type : NotificationType; bi_siteName : string; bi_detail : option string; bi_when : string }.
(** Every route of the bell: the signed-in user, then [read_console]. *)
Definition bell {A} (user : option User) (rows : list Notice) (h : list Notice * response A) : list Notice * response A :=
  match user with
  | None => (rows, Fail 401 "unauthorized")
  | Some u => if negb (can (u_role u) read_console) then (rows, Fail 403 "forbidden") else h
  end.
Definition notificationsGet (user : option User) (now : Z) (rows : list Notice) : list Notice * response (list BellItem * Z) :=
  bell user rows
    (rows, Reply 200 (map (λ n, {| bi_id := no_id n; bi_type := no_type n; bi_siteName := no_siteName n ?? "—";
                                   bi_detail := no_detail n; bi_when := timeAgo (no_createdAt n) now |})
                        (take 8 (newest_first no_createdAt (List.filter unread rows))), countUnreadNotifications rows)).
Definition mark_read (now : Z) (n : Notice) : Notice :=
  {| no_id := no_id n; no_type := no_type n; no_siteName := no_siteName n; no_detail := no_detail n; no_createdAt := no_createdAt n;
     no_readAt := Some now |}.
Definition notificationDelete (user : option User) (id : string) (rows : list Notice) : list Notice * response unit :=
  bell user rows (delete_where (λ n, no_id n =s id) rows, Reply 200 tt).
Definition notificationRead (user : option User) (now : Z) (id : string) (rows : list Notice) : list Notice * response unit :=
  bell user rows (update_where (λ n, (no_id n =s id) && unread n) (mark_read now) rows, Reply 200 tt).
Definition notificationsReadAll (user : option User) (now : Z) (rows : list Notice) : list Notice * response unit :=
  bell user rows (update_where unread (mark_read now) rows, Reply 200 tt).

(** ** Navigation *)

Record NavItem := { ni_label : string; ni_href : string; ni_badge : option Z; ni_icon : option string; ni_desc : option string }.
Record NavColumn := { nc_heading : string; nc_items : list NavItem }.
Record NavGroup := { ng_label : string; ng_columns : list NavColumn }.
Record NavModel := {
  nm_primary : list NavItem; nm_groups : list NavGroup; nm_showSearch : bool; nm_showNotifications : bool; nm_notificationsBadge : Z;
}.
Definition plain (label href : string) : NavItem := {| ni_label := label; ni_href := href; ni_badge := None; ni_icon := None; ni_desc := None |}.
Definition card (label href icon desc : string) : NavItem :=
  {| ni_label := label; ni_href := href; ni_badge := None; ni_icon := Some icon; ni_desc := Some desc |}.

Definition infrastructure (multi : bool) : NavGroup :=
  {| ng_label := "Infrastructure"; ng_columns :=
     [{| nc_heading := "Connectivity"; nc_items :=
         [card "Connectors" "/admin/connectors" "connectors" "Outbound agents linking your sites";
          card "Resources" "/admin/sites" "resources" "Hosts & apps vendors can reach"] ++
         (if multi then [] else [card "Custom domain" "/admin/domain" "domain" "Your own hostname for the portal"]) |};
      {| nc_heading := "Identity & access"; nc_items :=
         [card "Directory" "/admin/directory" "directory" "Sync users from your IdP groups";
          card "Single sign-on" "/admin/sso" "sso" "OIDC login for your operators";
          card "Policy" "/admin/policy" "policy" "Access rules, approvals & limits"] |};
      {| nc_heading := "Platform"; nc_items :=
         [card "Email" "/admin/email" "email" "SMTP for invites & notifications";
          card "Updates" "/admin/updates" "updates" "New releases & changelog"] |}] |}.
Definition people : NavGroup :=
  {| ng_label := "People"; ng_columns :=
     [{| nc_heading := "Team & sessions"; nc_items :=
         [card "Users" "/admin/users" "users" "Operators & their roles";
          card "Invites" "/admin/invites" "invites" "Pending & sent invitations";
          card "Sessions" "/admin/sessions" "opsessions" "Signed-in operator sessions"] |}] |}.

Definition buildNavModel (multi : bool) (role : Role) (pending unreadCount : Z) : NavModel :=
  let read := can role read_console in
  let config := can role configure in
  let grants := can role approve_grants in
  {| nm_primary :=
       (if read then
          [plain "Console" "/";
           {| ni_label := "Access"; ni_href := "/admin/grants"; ni_badge := if grants && (0 <? pending) then Some pending else None;
              ni_icon := None; ni_desc := None |};
           plain "Sessions" "/admin/live"] else []) ++
       (if config then [plain "Recordings" "/admin/recordings"] else []) ++
       (if read then [plain "Audit" "/admin/audit"] else []) ++
       (if read then [plain "Insights" "/admin/insights"] else []);
     nm_groups := if config then [infrastructure multi; people] else [];
     nm_showSearch := read; nm_showNotifications := read; nm_notificationsBadge := if read then unreadCount else 0 |}.

(** The guards of the console's pages: [requireCapability], [requireAdmin] or
    their own check. *)
Definition PAGES : list (string * Capability) :=
  [("/", read_console); ("/admin/audit", read_console); ("/admin/connectors", configure); ("/admin/directory", configure); ("/admin/domain", configure);
   ("/admin/email", configure); ("/admin/grants", read_console); ("/admin/insights", read_console); ("/admin/invites", configure);
   ("/admin/live", read_console); ("/admin/notifications", read_console); ("/admin/policy", configure); ("/admin/recordings", configure);
   ("/admin/sessions", configure); ("/admin/sites", configure); ("/admin/sso", configure); ("/admin/updates", configure);
   ("/admin/users", configure)]%string.
Definition nav_links (m : NavModel) : list string :=
  map ni_href (nm_primary m ++ flat_map (λ g, flat_map nc_items (ng_columns g)) (nm_groups m)).
Definition opens (role : Role) (href : string) : bool :=
  match find_row (λ p, p.1 =s href) PAGES with Some p => can role p.2 | None => false end.

(** ** Theorems: mail *)

(** The markup of a text: its angle brackets and quotes, in order. *)
Definition is_markup (c : Ascii.ascii) : bool := bool_decide (c ∈ [lt_char; gt_char; quot_char]).
Definition markup (s : string) : list Ascii.ascii := List.filter is_markup (chars s).

Lemma markup_append a b : markup (a +:+ b) = markup a ++ markup b.
Proof. unfold markup. by rewrite chars_append, List.filter_app. Qed.
Lemma join_empty l : join "" l = foldr (λ a b, a +:+ b) ""%string l.
Proof.
  unfold join. induction l as [|s l IH]; [done|]. cbn [map join_chars foldr]. destruct l as [|t l].
  - cbn. apply chars_inj. rewrite chars_unchars, chars_append. by rewrite app_nil_r.
  - cbn [map] in *. rewrite <-IH. apply chars_inj. rewrite chars_unchars, chars_append, chars_unchars. done.
Qed.

(** The four replacements are one pass. *)
Definition escape_char (c : Ascii.ascii) : list Ascii.ascii :=
  if bool_decide (c = chr 38) then chars "&amp;" else if bool_decide (c = lt_char) then chars "&lt;"
  else if bool_decide (c = gt_char) then chars "&gt;" else if bool_decide (c = quot_char) then chars "&quot;" else [c].
Lemma escape_one_pass s : escapeHtml s = unchars (flat_map escape_char (chars s)).
Proof.
  unfold escapeHtml, replace_char. rewrite !chars_unchars. f_equal. induction (chars s) as [|c l IH]; [done|].
  cbn [flat_map]. rewrite !flat_map_app, IH. f_equal. unfold escape_char.
  destruct (bool_decide_reflect (c = chr 38)) as [->|H1]; [reflexivity|]. cbn [flat_map app].
  destruct (bool_decide_reflect (c = lt_char)) as [->|H2]; [reflexivity|]. cbn [flat_map app].
  destruct (bool_decide_reflect (c = gt_char)) as [->|H3]; [reflexivity|]. cbn [flat_map app].
  destruct (bool_decide_reflect (c = quot_char)) as [->|H4]; reflexivity.
Qed.
Lemma escape_no_markup s : markup (escapeHtml s) = [].
Proof.
  rewrite escape_one_pass. unfold markup. rewrite chars_unchars. induction (chars s) as [|c l IH]; [done|].
  cbn [flat_map]. rewrite List.filter_app, IH, app_nil_r. unfold escape_char.
  destruct (bool_decide_reflect (c = chr 38)) as [->|H1]; [reflexivity|]. destruct (bool_decide_reflect (c = lt_char)) as [->|H2]; [reflexivity|].
  destruct (bool_decide_reflect (c = gt_char)) as [->|H3]; [reflexivity|]. destruct (bool_decide_reflect (c = quot_char)) as [->|H4]; [reflexivity|].
  cbn [List.filter]. unfold is_markup. rewrite bool_decide_eq_false_2; [done|].
  rewrite !elem_of_cons. intros [?|[?|[?|?%not_elem_of_nil]]]; done.
Qed.
Lemma render_markup heading lines button :
  markup (rd_html (renderEmail heading lines button)) =
  markup page_top ++ markup heading ++ markup "</h1>" ++ markup newline ++ concat (map (λ l, markup (paragraph l)) lines) ++
  match button with Some (label, url) => markup (button_html label url) | None => [] end ++ markup page_end.
Proof.
  unfold renderEmail. cbn [rd_html]. rewrite !markup_append, join_empty.
  assert (∀ ls, markup (foldr (λ a b, a +:+ b) ""%string (map paragraph ls)) = concat (map (λ l, markup (paragraph l)) ls)) as ->.
  { induction ls as [|l ls IH]; [done|]. cbn [map foldr concat]. by rewrite markup_append, IH. }
  do 5 f_equal. by destruct button as [[label url]|].
Qed.

(** The brackets that open a tag. *)
Definition is_opening (c : Ascii.ascii) : bool := bool_decide (c = lt_char).
Definition openings (s : string) : list Ascii.ascii := List.filter is_opening (chars s).
Lemma openings_append a b : openings (a +:+ b) = openings a ++ openings b.
Proof. unfold openings. by rewrite chars_append, List.filter_app. Qed.

(** Replacing a character by text without brackets. *)
Lemma openings_replace c r s :
  openings r = [] → openings (replace_char c r s) = if bool_decide (c = lt_char) then [] else openings s.
Proof.
  unfold openings, replace_char. intros Hr. rewrite chars_unchars. induction (chars s) as [|d l IH]; [by case_bool_decide|].
  cbn [flat_map]. rewrite List.filter_app, IH. cbn [List.filter]. unfold is_opening at 3.
  destruct (bool_decide_reflect (d = c)) as [->|Hd].
  - rewrite Hr. by destruct (bool_decide_reflect (c = lt_char)).
  - cbn [List.filter]. unfold is_opening at 1. destruct (bool_decide_reflect (c = lt_char)) as [->|Hc].
    + by rewrite bool_decide_eq_false_2.
    + by destruct (bool_decide (d = lt_char)).
Qed.
Lemma signup_escape_closed s : openings (signup_escape s) = [].
Proof. unfold signup_escape. by rewrite !openings_replace. Qed.
Lemma digest_escape_closed s : openings (digest_escape s) = [].
Proof. unfold digest_escape. by rewrite !openings_replace. Qed.

Lemma openings_lines lines :
  openings (join "" (map (λ l, "<li>" +:+ digest_escape l +:+ "</li>") lines)) = concat (replicate (length lines) [lt_char; lt_char]).
Proof.
  rewrite join_empty. induction lines as [|l ls IH]; [done|]. cbn [map foldr length replicate concat].
  by rewrite !openings_append, digest_escape_closed, IH.
Qed.

(** C29: no markup from outside, in every mail the manager sends.  In the mails
    made from the four templates (invitation, access request, decision, site
    notice) the brackets and quotes of the HTML are those of the template and of
    the link the manager builds: names, addresses, sites and error texts,
    whatever they hold, add none.  In the two written without a template, the
    sign-up's confirmation and the platform's digest, such texts stand between
    tags, not in them, and add no bracket that opens a tag: the digest leaves
    quotes and closing brackets, the confirmation quotes, as they are.  Links,
    and in the confirmation the address of the workspace, are the manager's own or
    checked before; the test mail is a fixed text. *)
Theorem mail_markup_fixed :
  (∀ name name' link, markup (ml_html (inviteEmail name link)) = markup (ml_html (inviteEmail name' link))) ∧
  (∀ n n' e e' s s' url, markup (ml_html (approvalRequestEmail n e s url)) = markup (ml_html (approvalRequestEmail n' e' s' url))) ∧
  (∀ ok ok' s s' url, markup (ml_html (accessDecisionEmail ok s url)) = markup (ml_html (accessDecisionEmail ok' s' url))) ∧
  (∀ t t' s s' d d' url, markup (ml_html (siteEventEmail t s d url)) = markup (ml_html (siteEventEmail t' s' d' url))) ∧
  (∀ name name' slug domain link, openings (ml_html (signupMail name slug domain link)) = openings (ml_html (signupMail name' slug domain link))) ∧
  (∀ n day lines link, openings (ml_html (digestMail n day lines link)) =
     openings (ml_html (digestMail n day (replicate (length lines) ""%string) link))).
Proof.
  unfold inviteEmail, approvalRequestEmail, accessDecisionEmail, siteEventEmail, mail. cbn [ml_html]. split_and!.
  - intros name name' link. rewrite !render_markup. cbn [map]. unfold paragraph. rewrite !markup_append, !escape_no_markup. done.
  - intros n n' e e' s s' url. rewrite !render_markup. cbn [map]. unfold paragraph. rewrite !markup_append, !escape_no_markup. done.
  - intros ok ok' s s' url. rewrite !render_markup, !escape_no_markup. cbn [map]. unfold paragraph.
    rewrite !markup_append, !escape_no_markup. by destruct ok, ok'.
  - intros t t' s s' d d' url. rewrite !render_markup, !escape_no_markup. cbn [map]. unfold paragraph. rewrite !markup_append.
    assert (∀ t s d, markup (if match t with site_down => true | site_recovered => false end
        then "Captivo Access can no longer reach " +:+ escapeHtml s +:+
             match some_truthy d with Some d => " — " +:+ escapeHtml d | None => "" end +:+ "."
        else escapeHtml s +:+ " is reachable again.") = []) as Hbody.
    { intros [] s0 d0; rewrite !markup_append, escape_no_markup; [|done]. destruct (some_truthy d0); [|done]. by rewrite markup_append, escape_no_markup. }
    by rewrite !Hbody.
  - intros name name' slug domain link. unfold signupMail. cbn [ml_html]. by rewrite !openings_append, !signup_escape_closed.
  - intros n day lines link. unfold digestMail. cbn [ml_html]. by rewrite !openings_append, !openings_lines, length_replicate.
Qed.

Lemma mail_markup_fixed_witness :
  markup (ml_html (inviteEmail "<script>" "https://a.example/invite/t")) = markup (ml_html (inviteEmail "" "https://a.example/invite/t")) ∧
  openings (ml_html (digestMail 1 "2026-01-01" ["<img>"%string] "")) = openings (ml_html (digestMail 1 "2026-01-01" [""%string] "")).
Proof.
  destruct mail_markup_fixed as (Hinvite & _ & _ & _ & _ & Hdigest). split.
  - exact (Hinvite "<script>"%string ""%string "https://a.example/invite/t"%string).
  - exact (Hdigest 1 "2026-01-01"%string ["<img>"%string] ""%string).
Defined.

(** The plain-text part is made of the escaped lines: a name with an ampersand
    reaches the reader as an entity. *)
Theorem text_shows_entities :
  ml_text (accessDecisionEmail true "R&D" "") =
  ("Access approved: R&amp;D" +:+ newline +:+ newline +:+ "Your request to access R&amp;D was approved. It's ready in your access list.").
Proof. vm_compute. reflexivity. Qed.

(** ** Theorems: notices *)

#[local] Instance NotificationType_eq_dec : EqDecision NotificationType.
Proof. solve_decision. Defined.

(** The notices of a run of probes of one site, which was last seen as [old]. *)
Fixpoint notices_of (old : option bool) (probes : list bool) : list NotificationType :=
  match probes with
  | [] => []
  | ok :: rest => match classifyTransition old ok with Some t => [t] | None => [] end ++ notices_of (Some ok) rest
  end.
Fixpoint alternating (next : NotificationType) (l : list NotificationType) : bool :=
  match l with
  | [] => true
  | t :: l' => bool_decide (t = next) && alternating (match next with site_down => site_recovered | site_recovered => site_down end) l'
  end.
(** What the last notice, or the state before, says of the site. *)
Definition told (old : option bool) (l : list NotificationType) : option bool :=
  match last l with Some site_down => Some false | Some site_recovered => Some true | None => old end.
Definition same_health (a b : option bool) : Prop := bool_decide (a = Some false) = bool_decide (b = Some false).

Ltac eval_decide :=
  repeat match goal with
         | |- context [bool_decide (?a = ?b)] => let v := eval vm_compute in (bool_decide (a = b)) in
             lazymatch v with true => idtac | false => idtac end; change (bool_decide (a = b)) with v
         | H : context [bool_decide (?a = ?b)] |- _ => let v := eval vm_compute in (bool_decide (a = b)) in
             lazymatch v with true => idtac | false => idtac end; change (bool_decide (a = b)) with v in H
         end.
Lemma notices_down old probes :
  alternating (if bool_decide (old = Some false) then site_recovered else site_down) (notices_of old probes) = true ∧
  same_health (told old (notices_of old probes)) (match last probes with Some ok => Some ok | None => old end).
Proof.
  revert old. induction probes as [|ok probes IH]; intros old; [by split|]. destruct (IH (Some ok)) as [Ha Ht]. cbn [notices_of].
  assert (match last (ok :: probes) with Some o => Some o | None => old end = match last probes with Some o => Some o | None => Some ok end) as ->
    by (destruct probes; [done|]; rewrite last_cons_cons; by destruct (last (_ :: _)) eqn:E; [|apply last_None in E]).
  assert (∀ t l, told old (t :: l) = told (match t with site_down => Some false | site_recovered => Some true end) l) as Hcons.
  { intros t l. unfold told. rewrite last_cons. destruct (last l); [done|]. by destruct t. }
  assert (∀ l, same_health (told None l) (told (Some true) l)) as Hnone by (intros l; unfold told; by destruct (last l) as [[]|]).
  unfold classifyTransition in *.
  destruct old as [[]|], ok; eval_decide; cbn [app negb andb alternating] in *; eval_decide; try rewrite Hcons; (split; [done|]); try done.
  unfold same_health in *. by rewrite Hnone.
Qed.

(** Notices are edges.  Over any run of probes of a site its notices
    alternate between down and recovered, beginning with down unless it was
    known to be down, and the last one says how the site is now: a site that
    stays down is announced once, and none goes unannounced. *)
Theorem notices_alternate old probes :
  let l := notices_of old probes in
  alternating (if bool_decide (old = Some false) then site_recovered else site_down) l = true ∧
  (∀ ok, last probes = Some ok → (bool_decide (told old l = Some false) = negb ok)).
Proof.
  destruct (notices_down old probes) as [Ha Ht]. split; [done|]. intros ok Hl. rewrite Hl in Ht. unfold same_health in Ht.
  rewrite Ht. by destruct ok.
Qed.

(** ** Theorems: the bell *)

Inductive bell_op := BGet (now : Z) | BDelete (id : string) | BRead (now : Z) (id : string) | BReadAll (now : Z).
Definition run_bell (user : option User) (o : bell_op) (rows : list Notice) : list Notice :=
  match o with
  | BGet now => (notificationsGet user now rows).1
  | BDelete id => (notificationDelete user id rows).1
  | BRead now id => (notificationRead user now id rows).1
  | BReadAll now => (notificationsReadAll user now rows).1
  end.

Lemma count_unread_update p now rows :
  (∀ n, p n = true → unread n = true) →
  countUnreadNotifications (update_where p (mark_read now) rows) + count_where p rows = countUnreadNotifications rows.
Proof.
  intros Hp. unfold countUnreadNotifications, count_where, update_where. induction rows as [|n rows IH]; [done|]. cbn [map List.filter].
  destruct (p n) eqn:E; cbn [unread mark_read no_readAt].
  - rewrite (Hp n E). change (unread (mark_read now n)) with false. cbn [length]. lia.
  - destruct (unread n); cbn [length]; lia.
Qed.

(** The bell is the console's: without [read_console] nothing is shown and
    nothing changes.  With it, what is shown is unread and newest first, the
    count beside it is of all unread notices, reading one or all takes exactly
    those off the count, and reading never loses a notice. *)
Theorem bell_sound user rows :
  (match user with Some u => can (u_role u) read_console | None => false end = false →
     ∀ o, run_bell user o rows = rows) ∧
  (∀ now items n rows', notificationsGet user now rows = (rows', Reply 200 (items, n)) →
     rows' = rows ∧ n = count_where unread rows ∧ (length items ≤ 8)%nat ∧
     (∀ i, i ∈ items → ∃ r, r ∈ rows ∧ no_readAt r = None ∧ bi_id i = no_id r)) ∧
  (∀ now id rows' , notificationRead user now id rows = (rows', Reply 200 tt) →
     map no_id rows' = map no_id rows ∧
     countUnreadNotifications rows' + count_where (λ n, (no_id n =s id) && unread n) rows = countUnreadNotifications rows) ∧
  (∀ now rows', notificationsReadAll user now rows = (rows', Reply 200 tt) →
     map no_id rows' = map no_id rows ∧ countUnreadNotifications rows' = 0).
Proof.
  assert (∀ p now, map no_id (update_where p (mark_read now) rows) = map no_id rows) as Hids.
  { intros p now. unfold update_where. rewrite map_map. apply map_ext. intros n. by destruct (p n). }
  unfold run_bell, notificationsGet, notificationRead, notificationsReadAll, notificationDelete, bell. split_and!.
  - intros Hu o. destruct user as [u|]; [rewrite Hu|]; by destruct o.
  - intros now items n rows' Hg. destruct user as [u|]; [destruct (can (u_role u) read_console)|]; [|done..]. injection Hg as <- <- <-.
    split_and!; [done..| |].
    + rewrite length_map, length_take. lia.
    + intros i Hi. apply list_elem_of_fmap in Hi as (r & -> & Hr). apply elem_of_take in Hr as (k & Hr & _). apply list_elem_of_lookup_2 in Hr.
      rewrite newest_first_Permutation in Hr. apply list_elem_of_In, filter_In in Hr as [Hr Hu]. rewrite <-list_elem_of_In in Hr.
      exists r. split_and!; [done| |done]. unfold unread in Hu. by reflect_bool.
  - intros now id rows' Hr. destruct user as [u|]; [destruct (can (u_role u) read_console)|]; [|done..]. injection Hr as <-.
    split; [apply Hids|]. apply count_unread_update. intros n Hn. by apply andb_true_iff in Hn as [_ Hn].
  - intros now rows' Hr. destruct user as [u|]; [destruct (can (u_role u) read_console)|]; [|done..]. injection Hr as <-.
    split; [apply Hids|]. pose proof (count_unread_update unread now rows (λ _ H, H)) as H. unfold countUnreadNotifications in *. lia.
Qed.

(** ** Theorems: navigation *)

(** The navigation is honest.  Every link it shows a role leads to a page
    whose guard lets that role in, and every page of the console that would let
    the role in is linked, but for the notices (they have the bell) and, on the
    hosted service, the custom domain. *)
Theorem nav_honest multi role pending n :
  let m := buildNavModel multi role pending n in
  (∀ href, href ∈ nav_links m → opens role href = true) ∧
  (∀ href cap, (href, cap) ∈ PAGES → can role cap = true →
     href ∈ nav_links m ∨ (href = "/admin/notifications"%string ∧ nm_showNotifications m = true) ∨ (href = "/admin/domain"%string ∧ multi = true)).
Proof.
  cbn zeta. split.
  - intros href Hin. rewrite list_elem_of_In in Hin. unfold nav_links, buildNavModel in Hin. cbn [nm_primary nm_groups] in Hin.
    destruct role, multi; vm_compute in Hin; repeat destruct Hin as [<-|Hin]; try done; vm_compute; reflexivity.
  - intros href cap Hin Hcan. rewrite list_elem_of_In in Hin. unfold nav_links, buildNavModel. cbn [nm_primary nm_groups nm_showNotifications].
    cbn [PAGES In] in Hin. rewrite list_elem_of_In.
    destruct role, multi; repeat destruct Hin as [Hin|Hin]; try done; injection Hin as <- <-; try (vm_compute in Hcan; discriminate);
      first [by right; left | by right; right | left; vm_compute; tauto].
Qed.

(** ** Theorems: the channels *)

Definition is_mail (o : Output) : bool := match o with SendMail _ _ => true | _ => false end.

(** The switch is for mail alone: the row, the webhook and the push are the same
    whatever it says; mail goes out unless it says no, in one message to the
    active administrators and to nobody else. *)
Theorem switch_governs_mail env fails id now s s' origin users n rows :
  notificationWebhookUrl s = notificationWebhookUrl s' →
  let r := notifyTransition env fails id now s origin users n rows in
  let r' := notifyTransition env fails id now s' origin users n rows in
  r.1 = r'.1 ∧ List.filter (λ o, negb (is_mail o)) r.2 = List.filter (λ o, negb (is_mail o)) r'.2 ∧
  (∀ to m, SendMail to m ∈ r.2 → notifySiteHealth s ≠ Some false ∧
     ∀ e, e ∈ to ↔ ∃ u, u ∈ users ∧ u_role u = ADMIN ∧ u_status u = UActive ∧ u_email u = e) ∧
  (notifySiteHealth s ≠ Some false → (∃ u, u ∈ users ∧ u_role u = ADMIN ∧ u_status u = UActive) → existsb is_mail r.2 = true).
Proof.
  intros Hurl. unfold notifyTransition. cbn [fst snd].
  assert (resolvedNotificationWebhookUrl env s = resolvedNotificationWebhookUrl env s') as -> by (unfold resolvedNotificationWebhookUrl; by rewrite Hurl).
  assert (∀ e, e ∈ getAdminEmails users ↔ ∃ u, u ∈ users ∧ u_role u = ADMIN ∧ u_status u = UActive ∧ u_email u = e) as Hadm.
  { intros e. unfold getAdminEmails. rewrite list_elem_of_fmap. split.
    - intros (u & -> & Hu). apply list_elem_of_In, filter_In in Hu as [Hu Hr]. rewrite <-list_elem_of_In in Hu. apply andb_true_iff in Hr as [Hr Ha]. reflect_bool. by exists u.
    - intros (u & Hu & Hr & Hs & <-). exists u. split; [done|]. apply list_elem_of_In, filter_In. rewrite <-list_elem_of_In.
      split; [done|]. by rewrite !bool_decide_eq_true_2. }
  unfold notifyEmailEnabled, emailEnabledFromValue. set (hook := truthy (resolvedNotificationWebhookUrl env s')). split_and!.
  - done.
  - rewrite !List.filter_app. do 2 f_equal. by repeat case_match.
  - intros to m Hin. rewrite !elem_of_app in Hin. destruct Hin as [Hin|[Hin|Hin]].
    + destruct hook; [apply list_elem_of_singleton in Hin; done|by apply not_elem_of_nil in Hin].
    + apply list_elem_of_singleton in Hin. done.
    + destruct (negb (bool_decide (notifySiteHealth s = Some false))) eqn:E; cbn [andb] in Hin; [|by apply not_elem_of_nil in Hin].
      apply negb_true_iff in E. reflect_bool. split; [done|]. destruct (negb _); [|by apply not_elem_of_nil in Hin].
      apply list_elem_of_singleton in Hin. injection Hin as -> _. exact Hadm.
  - intros Hs (u & Hu & Hr & Ha). rewrite !existsb_app. rewrite (bool_decide_eq_false_2 (notifySiteHealth s = Some false)) by done. cbn [negb andb].
    destruct (bool_decide_reflect (getAdminEmails users = [])) as [E|]; [|by rewrite !orb_true_r].
    exfalso. apply (not_elem_of_nil (u_email u)). rewrite <-E. apply Hadm. by exists u.
Qed.

(** ** Witnesses *)

Definition demo_admin (id : string) (status : UserStatus) : User :=
  {| u_id := id; u_email := id +:+ "@x.de"; u_name := id; u_phone := None; u_company := None; u_timezone := None; u_role := ADMIN;
     u_status := status; u_directoryManaged := false; u_directoryLastVerifiedAt := None; u_centerRole := None |}.
Lemma switch_governs_mail_witness :
  existsb is_mail (notifyTransition (λ _, None) true "n1" 0 EMPTY_SETTINGS "" [demo_admin "a" UActive]
    {| nt_type := site_down; nt_siteId := "s1"; nt_siteName := "Plant"; nt_detail := None |} []).2 = true.
Proof.
  destruct (switch_governs_mail (λ _, None) true "n1" 0 EMPTY_SETTINGS EMPTY_SETTINGS "" [demo_admin "a" UActive]
    {| nt_type := site_down; nt_siteId := "s1"; nt_siteName := "Plant"; nt_detail := None |} [] eq_refl) as (_ & _ & _ & H).
  apply H; [discriminate|]. exists (demo_admin "a" UActive). split; [by left|]. split; reflexivity.
Defined.
Example demo_notices : notices_of None [true; false; false; true; false] = [site_down; site_recovered; site_down].
Proof. reflexivity. Qed.
