(* ===== verification/Crypto.v ===== *)
(** * Secrets at rest

    src/lib/crypto.ts: AES-256-GCM over the key in ENCRYPTION_KEY, stored as
    base64 of nonce, tag and ciphertext (texts) or as those bytes (recording
    chunks).  Other components take [encrypt] and [decrypt] as arguments with
    the round trip as hypothesis; this file is what they are given.

    The cipher of node:crypto is an interface (class [Aead] and its laws); random
    nonces are arguments.  A buffer is a list of 8-bit characters, a text a list
    of UTF-16 code units, and the conversion between them is UTF-8 as Node does
    it: a lone surrogate is written as U+FFFD, and a byte sequence that is not
    UTF-8 is read with U+FFFD for each part that is broken. *)

From S2P Require Import Prelude JsString JsValue Schema.

Notation bytes := (list Ascii.ascii).
Definition byte_val (c : Ascii.ascii) : Z := Z.of_N (Ascii.N_of_ascii c).
Definition byte_of (z : Z) : Ascii.ascii := Ascii.ascii_of_N (Z.to_N z).

(** ** base64 *)

(** The digit of a sextet and back; [None]: a character that is skipped.  The
    decoder of Node takes the URL alphabet too. *)
Definition b64_char (n : Z) : Ascii.ascii :=
  byte_of (if n <? 26 then 65 + n else if n <? 52 then 71 + n else if n <? 62 then n - 4 else if n =? 62 then 43 else 47).
Definition b64_val (c : Ascii.ascii) : option Z :=
  let n := byte_val c in
  if (65 <=? n) && (n <=? 90) then Some (n - 65) else if (97 <=? n) && (n <=? 122) then Some (n - 71)
  else if (48 <=? n) && (n <=? 57) then Some (n + 4) else if (n =? 43) || (n =? 45) then Some 62
  else if (n =? 47) || (n =? 95) then Some 63 else None.
Definition b64_pad : Ascii.ascii := byte_of 61.

(** [buf.toString("base64")] *)
Fixpoint b64_encode (l : list Z) : bytes :=
  match l with
  | a :: b :: c :: l' =>
      map b64_char [a / 4; a mod 4 * 16 + b / 16; b mod 16 * 4 + c / 64; c mod 64] ++ b64_encode l'
  | [a; b] => map b64_char [a / 4; a mod 4 * 16 + b / 16; b mod 16 * 4] ++ [b64_pad]
  | [a] => map b64_char [a / 4; a mod 4 * 16] ++ [b64_pad; b64_pad]
  | [] => []
  end.
Fixpoint b64_sextets (l : bytes) : list Z :=
  match l with
  | [] => []
  | c :: l' => if bool_decide (c = b64_pad) then [] else match b64_val c with Some n => n :: b64_sextets l' | None => b64_sextets l' end
  end.
Fixpoint b64_bytes (l : list Z) : list Z :=
  match l with
  | w :: x :: y :: z :: l' => [w * 4 + x / 16; x mod 16 * 16 + y / 4; y mod 4 * 64 + z] ++ b64_bytes l'
  | [w; x; y] => [w * 4 + x / 16; x mod 16 * 16 + y / 4]
  | [w; x] => [w * 4 + x / 16]
  | _ => []
  end.
Definition to_base64 (b : bytes) : string := unchars (b64_encode (map byte_val b)).
(** [Buffer.from(s, "base64")] *)
Definition from_base64 (s : string) : bytes := map byte_of (b64_bytes (b64_sextets (chars s))).

(** ** UTF-8 *)

Definition is_high (u : Z) : bool := (55296 <=? u) && (u <=? 56319).
Definition is_low (u : Z) : bool := (56320 <=? u) && (u <=? 57343).
(** The code point of a surrogate pair, and the units of a code point. *)
Definition pair_point (u v : Z) : Z := 65536 + (u - 55296) * 1024 + (v - 56320).
Definition point_units (cp : Z) : list Z :=
  if cp <? 65536 then [cp] else [55296 + (cp - 65536) / 1024; 56320 + (cp - 65536) mod 1024].
Definition REPLACEMENT : Z := 65533.

Definition point_bytes (cp : Z) : list Z :=
  if cp <? 128 then [cp]
  else if cp <? 2048 then [192 + cp / 64; 128 + cp mod 64]
  else if cp <? 65536 then [224 + cp / 4096; 128 + cp / 64 mod 64; 128 + cp mod 64]
  else [240 + cp / 262144; 128 + cp / 4096 mod 64; 128 + cp / 64 mod 64; 128 + cp mod 64].

(** The code points of a text, a lone surrogate as U+FFFD. *)
Fixpoint code_points (l : list Z) : list Z :=
  match l with
  | [] => []
  | u :: l' =>
      if is_high u then
        match l' with
        | v :: l'' => if is_low v then pair_point u v :: code_points l'' else REPLACEMENT :: code_points l'
        | [] => [REPLACEMENT]
        end
      else if is_low u then REPLACEMENT :: code_points l' else u :: code_points l'
  end.
(** [Buffer.from(s, "utf8")] *)
Definition utf8_encode (units : list Z) : bytes := map byte_of (concat (map point_bytes (code_points units))).

(** What the decoder still expects: how many bytes, between which bounds the
    next, and the bits so far. *)
Record Utf8State := { need : nat; lower : Z; upper : Z; bits : Z }.
Definition utf8_idle : Utf8State := {| need := 0; lower := 128; upper := 191; bits := 0 |}.
(** The first byte of a sequence: the units it completes and what follows. *)
Definition utf8_lead (b : Z) : list Z * Utf8State :=
  if b <? 128 then ([b], utf8_idle)
  else if (194 <=? b) && (b <=? 223) then ([], {| need := 1; lower := 128; upper := 191; bits := b mod 32 |})
  else if (224 <=? b) && (b <=? 239) then
    ([], {| need := 2; lower := if b =? 224 then 160 else 128; upper := if b =? 237 then 159 else 191; bits := b mod 16 |})
  else if (240 <=? b) && (b <=? 244) then
    ([], {| need := 3; lower := if b =? 240 then 144 else 128; upper := if b =? 244 then 143 else 191; bits := b mod 8 |})
  else ([REPLACEMENT], utf8_idle).
Definition utf8_feed (st : Utf8State) (b : Z) : list Z * Utf8State :=
  match need st with
  | O => utf8_lead b
  | S n =>
      if (lower st <=? b) && (b <=? upper st) then
        let cp := bits st * 64 + b mod 64 in
        match n with
        | O => (point_units cp, utf8_idle)
        | _ => ([], {| need := n; lower := 128; upper := 191; bits := cp |})
        end
      else let '(out, st') := utf8_lead b in (REPLACEMENT :: out, st')
  end.
Fixpoint utf8_run (st : Utf8State) (l : list Z) : list Z :=
  match l with
  | [] => match need st with O => [] | _ => [REPLACEMENT] end
  | b :: l' => let '(out, st') := utf8_feed st b in out ++ utf8_run st' l'
  end.
(** [buf.toString("utf8")] *)
Definition utf8_decode (b : bytes) : list Z := utf8_run utf8_idle (map byte_val b).

(** ** The cipher *)

Class Aead := {
  seal : bytes → bytes → bytes → bytes * bytes;
  unseal : bytes → bytes → bytes → bytes → option bytes;
}.
(** What AES-256-GCM promises under a 32-byte key and a 12-byte nonce: a tag of
    16 bytes, and the plaintext back from what was sealed. *)
Class AeadLaws `{Aead} := {
  seal_tag k iv p : length k = 32%nat → length iv = 12%nat → length (seal k iv p).2 = 16%nat;
  unseal_seal k iv p : length k = 32%nat → length iv = 12%nat → unseal k iv (seal k iv p).1 (seal k iv p).2 = Some p;
}.

(** ** crypto.ts *)

Definition hex_val (c : Ascii.ascii) : option Z :=
  let n := byte_val c in
  if (48 <=? n) && (n <=? 57) then Some (n - 48) else if (65 <=? n) && (n <=? 70) then Some (n - 55)
  else if (97 <=? n) && (n <=? 102) then Some (n - 87) else None.
Fixpoint from_hex (l : bytes) : option bytes :=
  match l with
  | [] => Some []
  | h :: k :: l' => match hex_val h, hex_val k, from_hex l' with Some a, Some b, Some r => Some (byte_of (16 * a + b) :: r) | _, _, _ => None end
  | [_] => None
  end.
(** [key()]: [None] is the throw. *)
Definition key (ENCRYPTION_KEY : option string) : option bytes :=
  match ENCRYPTION_KEY with
  | Some hex => if bool_decide (length (chars hex) = 64%nat) then from_hex (chars hex) else None
  | None => None
  end.

Section crypto.
Context `{Aead} (ENCRYPTION_KEY : option string).

Definition encryptBytes (iv plaintext : bytes) : option bytes :=
  k ← key ENCRYPTION_KEY;
  let '(ct, tag) := seal k iv plaintext in
  Some (iv ++ tag ++ ct).
Definition decryptBytes (payload : bytes) : option bytes :=
  if (length payload <? 28)%nat then None else
  k ← key ENCRYPTION_KEY;
  unseal k (take 12 payload) (drop 28 payload) (take 16 (drop 12 payload)).

(** A text is its UTF-16 code units. *)
Definition encrypt (iv : bytes) (plaintext : list Z) : option string := to_base64 <$> encryptBytes iv (utf8_encode plaintext).
Definition decrypt (payload : string) : option (list Z) := utf8_decode <$> decryptBytes (from_base64 payload).
End crypto.

(** ** Lemmas *)

Lemma byte_val_range c : 0 ≤ byte_val c < 256.
Proof. unfold byte_val. pose proof (Ascii.N_ascii_bounded c). lia. Qed.
Lemma byte_of_val c : byte_of (byte_val c) = c.
Proof. unfold byte_of, byte_val. by rewrite N2Z.id, Ascii.ascii_N_embedding. Qed.
Lemma byte_val_of z : 0 ≤ z < 256 → byte_val (byte_of z) = z.
Proof. intros Hz. unfold byte_val, byte_of. rewrite Ascii.N_ascii_embedding by lia. lia. Qed.

Lemma b64_digit n : 0 ≤ n < 64 → b64_char n ≠ b64_pad ∧ b64_val (b64_char n) = Some n.
Proof.
  intros Hn. assert (forallb (λ n, negb (bool_decide (b64_char n = b64_pad)) && bool_decide (b64_val (b64_char n) = Some n)) (seqZ 0 64) = true)
    as Hall by (vm_compute; reflexivity).
  rewrite forallb_forall in Hall. specialize (Hall n). rewrite <-list_elem_of_In, elem_of_seqZ in Hall. specialize (Hall ltac:(lia)).
  apply andb_true_iff in Hall as [Hp Hv]. apply negb_true_iff in Hp. by reflect_bool.
Qed.
Lemma sextets_digit n l : 0 ≤ n < 64 → b64_sextets (b64_char n :: l) = n :: b64_sextets l.
Proof. intros Hn. destruct (b64_digit n Hn) as [Hp Hv]. cbn [b64_sextets]. rewrite bool_decide_eq_false_2 by done. by rewrite Hv. Qed.
Lemma sextets_pad l : b64_sextets (b64_pad :: l) = [].
Proof. cbn [b64_sextets]. by rewrite bool_decide_eq_true_2. Qed.

(** Induction three bytes at a time. *)
Lemma triples_ind (P : list Z → Prop) :
  P [] → (∀ a, P [a]) → (∀ a b, P [a; b]) → (∀ a b c l, P l → P (a :: b :: c :: l)) → ∀ l, P l.
Proof.
  intros H0 H1 H2 H3. assert (∀ n l, (length l ≤ n)%nat → P l) as H.
  { induction n as [|n IH]; intros l Hl; [by destruct l; [|simpl in Hl; lia]|].
    destruct l as [|a [|b [|c l]]]; [done..|]. apply H3, IH. simpl in Hl. lia. }
  intros l. by apply (H (length l)).
Qed.

Lemma base64_bytes l : Forall (λ z, 0 ≤ z < 256) l → b64_bytes (b64_sextets (b64_encode l)) = l.
Proof.
  induction l as [|a|a b|a b c l IH] using triples_ind; intros Hl.
  - done.
  - apply Forall_cons in Hl as [Ha _]. cbn [b64_encode map app].
    rewrite !sextets_digit by dlia. rewrite sextets_pad. cbn [b64_bytes]. f_equal. dlia.
  - apply Forall_cons in Hl as [Ha Hl]. apply Forall_cons in Hl as [Hb _]. cbn [b64_encode map app].
    rewrite !sextets_digit by dlia. rewrite sextets_pad. cbn [b64_bytes]. f_equal; [dlia|]. f_equal. dlia.
  - apply Forall_cons in Hl as [Ha Hl]. apply Forall_cons in Hl as [Hb Hl]. apply Forall_cons in Hl as [Hc Hl].
    cbn [b64_encode map app]. rewrite !sextets_digit by dlia. cbn [b64_bytes app]. rewrite IH by done. f_equal; [dlia|]. f_equal; [dlia|]. f_equal. dlia.
Qed.

(** Encoded bytes are read back. *)
Lemma from_to_base64 b : from_base64 (to_base64 b) = b.
Proof.
  unfold from_base64, to_base64. rewrite chars_unchars, base64_bytes.
  - rewrite map_map. rewrite <-(map_id b) at 2. apply map_ext. apply byte_of_val.
  - apply Forall_forall. intros z (c & -> & _)%list_elem_of_fmap. apply byte_val_range.
Qed.

Lemma from_hex_length l b : from_hex l = Some b → (2 * length b = length l)%nat.
Proof.
  revert b. assert (∀ n l b, (length l ≤ n)%nat → from_hex l = Some b → (2 * length b = length l)%nat) as H; [|intros b; by apply (H (length l))].
  clear. induction n as [|n IH]; intros l b Hl; [destruct l; [by intros [= <-]|simpl in Hl; lia]|].
  destruct l as [|h [|k l]]; [by intros [= <-]|done|]. cbn [from_hex].
  destruct (hex_val h), (hex_val k); try done. destruct (from_hex l) as [r|] eqn:E; [|done]. intros [= <-].
  apply IH in E; [|simpl in Hl; lia]. simpl. lia.
Qed.
Lemma key_length e k : key e = Some k → length k = 32%nat.
Proof. unfold key. destruct e as [hex|]; [|done]. case_bool_decide as El; [|done]. intros Hk%from_hex_length. lia. Qed.

Lemma from_hex_total l : (∃ n, length l = 2 * n)%nat → Forall (λ c, is_Some (hex_val c)) l → is_Some (from_hex l).
Proof.
  intros [n Hn]. revert l Hn. induction n as [|n IH]; intros l Hn Hl.
  - destruct l; [by eexists|simpl in Hn; lia].
  - destruct l as [|h [|k l]]; [by eexists|simpl in Hn; lia|]. apply Forall_cons in Hl as [[a Ha] Hl]. apply Forall_cons in Hl as [[b Hb] Hl].
    cbn [from_hex]. destruct (IH l ltac:(simpl in Hn; lia) Hl) as [r ->]. rewrite Ha, Hb. by eexists.
Qed.

Lemma good_key hex :
  length (chars hex) = 64%nat → Forall (λ c, is_Some (hex_val c)) (chars hex) → is_Some (key (Some hex)).
Proof.
  intros Hlen Hhex. unfold key. rewrite bool_decide_eq_true_2 by done. apply from_hex_total; [by exists 32%nat; rewrite Hlen|done].
Qed.

Lemma from_hex_bad n l c : (length l ≤ n)%nat → ∀ r, from_hex l = Some r → c ∈ l → hex_val c ≠ None.
Proof.
  revert l. induction n as [|n IH]; intros l Hl r E Hin; [destruct l; [by apply not_elem_of_nil in Hin|simpl in Hl; lia]|].
  destruct l as [|h [|k l]]; [by apply not_elem_of_nil in Hin|done|]. cbn [from_hex] in E.
  destruct (hex_val h) eqn:Eh, (hex_val k) eqn:Ek; try done. destruct (from_hex l) eqn:El; [|done].
  apply elem_of_cons in Hin as [->|[->|Hin]%elem_of_cons]; [congruence..|]. by eapply (IH l); [simpl in Hl; lia|..].
Qed.

Lemma bad_key hex :
  length (chars hex) ≠ 64%nat ∨ Exists (λ c, hex_val c = None) (chars hex) → key (Some hex) = None.
Proof.
  intros Hbad. unfold key. case_bool_decide as Hl; [|done]. destruct Hbad as [?|Hx]; [done|].
  destruct (from_hex (chars hex)) as [r|] eqn:E; [|done]. apply Exists_exists in Hx as (c & Hin & Hc).
  by destruct (from_hex_bad _ _ c (Nat.le_refl _) r E Hin).
Qed.

(** *** UTF-8 there and back *)

(** [s.toWellFormed()] *)
Definition to_well_formed (units : list Z) : list Z := concat (map point_units (code_points units)).
(** No surrogate stands alone. *)
Fixpoint well_formed (l : list Z) : Prop :=
  match l with
  | [] => True
  | u :: l' =>
      if is_high u then match l' with v :: l'' => is_low v = true ∧ well_formed l'' | [] => False end
      else is_low u = false ∧ well_formed l'
  end.

Definition scalar (cp : Z) : Prop := 0 ≤ cp < 55296 ∨ 57344 ≤ cp < 1114112.

Lemma surrogate_high u : is_high u = true ↔ 55296 ≤ u ≤ 56319.
Proof. unfold is_high. rewrite andb_true_iff, !Z.leb_le. done. Qed.
Lemma surrogate_low u : is_low u = true ↔ 56320 ≤ u ≤ 57343.
Proof. unfold is_low. rewrite andb_true_iff, !Z.leb_le. done. Qed.

(** Induction over a text, pair by pair. *)
Lemma units_ind (P : list Z → Prop) :
  P [] → (∀ u l, P l → (∀ v l', l = v :: l' → P l') → P (u :: l)) → ∀ l, P l.
Proof.
  intros H0 H1 l. assert (P l ∧ ∀ v l', l = v :: l' → P l') as [? _]; [|done].
  induction l as [|u l [IH1 IH2]]; [done|]. split; [by apply H1|]. by intros v l' [= -> ->].
Qed.

Lemma code_points_scalar l : Forall (λ u, 0 ≤ u < 65536) l → Forall scalar (code_points l).
Proof.
  assert (scalar REPLACEMENT) as Hr by (unfold scalar, REPLACEMENT; lia).
  induction l as [|u l IH1 IH2] using units_ind; intros Hl; [constructor|]. apply Forall_cons in Hl as [Hu Hl].
  cbn [code_points]. destruct (is_high u) eqn:Eh.
  - apply surrogate_high in Eh. destruct l as [|v l]; [by repeat constructor|]. destruct (is_low v) eqn:El.
    + apply surrogate_low in El. constructor; [unfold scalar, pair_point; lia|]. apply (IH2 v l eq_refl). by apply Forall_cons in Hl as [_ ?].
    + constructor; [done|by apply IH1].
  - destruct (is_low u) eqn:El; constructor; try done; try by apply IH1. unfold scalar.
    rewrite <-not_true_iff_false, surrogate_high in Eh. rewrite <-not_true_iff_false, surrogate_low in El. lia.
Qed.

Lemma well_formed_kept l : Forall (λ u, 0 ≤ u < 65536) l → well_formed l → to_well_formed l = l.
Proof.
  unfold to_well_formed. induction l as [|u l IH1 IH2] using units_ind; [done|]. intros [Hu Hl]%Forall_cons.
  cbn [well_formed code_points]. destruct (is_high u) eqn:Eh.
  - apply surrogate_high in Eh. destruct l as [|v l]; [done|]. intros [El Hw]. rewrite El. apply surrogate_low in El.
    cbn [map concat]. rewrite (IH2 v l eq_refl); [|by apply Forall_cons in Hl as [_ ?]|done]. unfold point_units, pair_point.
    destruct (Z.ltb_spec (65536 + (u - 55296) * 1024 + (v - 56320)) 65536); [lia|]. cbn [app]. f_equal; [dlia|]. f_equal. dlia.
  - intros [El Hw]. rewrite El. cbn [map concat]. rewrite IH1 by done. unfold point_units. by destruct (Z.ltb_spec u 65536); [|lia].
Qed.

Lemma no_surrogates l : Forall (λ u, u < 55296) l → well_formed l.
Proof.
  induction l as [|u l IH]; [done|]. intros [Hu Hl]%Forall_cons. cbn [well_formed].
  destruct (is_high u) eqn:Eh; [apply surrogate_high in Eh; lia|].
  destruct (is_low u) eqn:El; [apply surrogate_low in El; lia|]. auto.
Qed.

Lemma point_bytes_range cp : scalar cp → Forall (λ z, 0 ≤ z < 256) (point_bytes cp).
Proof.
  unfold scalar, point_bytes. intros Hs.
  destruct (Z.ltb_spec cp 128) as [H1|H1]; [|destruct (Z.ltb_spec cp 2048) as [H2|H2]; [|destruct (Z.ltb_spec cp 65536) as [H3|H3]]].
  all: rewrite ?Forall_cons; split_and!; try dlia; by apply Forall_nil.
Qed.

(** A byte in its bounds continues the sequence. *)
Lemma feed_more n lo hi bs b l :
  lo ≤ b ≤ hi →
  utf8_run {| need := S n; lower := lo; upper := hi; bits := bs |} (b :: l) =
  match n with
  | O => point_units (bs * 64 + b mod 64) ++ utf8_run utf8_idle l
  | _ => utf8_run {| need := n; lower := 128; upper := 191; bits := bs * 64 + b mod 64 |} l
  end.
Proof.
  intros Hb. cbn [utf8_run]. unfold utf8_feed. cbn [need lower upper bits].
  destruct (Z.leb_spec lo b), (Z.leb_spec b hi); try lia. cbn [andb]. by destruct n.
Qed.

Lemma run_lead b l : utf8_run utf8_idle (b :: l) = (utf8_lead b).1 ++ utf8_run (utf8_lead b).2 l.
Proof. cbn [utf8_run]. unfold utf8_feed. cbn [need utf8_idle]. by destruct (utf8_lead b). Qed.

(** The bytes of a code point are read as that code point. *)
Lemma run_point cp l : scalar cp → utf8_run utf8_idle (point_bytes cp ++ l) = point_units cp ++ utf8_run utf8_idle l.
Proof.
  unfold scalar, point_bytes. intros Hs.
  destruct (Z.ltb_spec cp 128) as [H1|H1]; [|destruct (Z.ltb_spec cp 2048) as [H2|H2]; [|destruct (Z.ltb_spec cp 65536) as [H3|H3]]];
    cbn [app]; rewrite run_lead; unfold utf8_lead.
  - destruct (Z.ltb_spec cp 128); [|lia]. unfold point_units. by destruct (Z.ltb_spec cp 65536); [|lia].
  - destruct (Z.ltb_spec (192 + cp / 64) 128), (Z.leb_spec 194 (192 + cp / 64)), (Z.leb_spec (192 + cp / 64) 223); try dlia.
    cbn [andb app fst snd]. rewrite feed_more by dlia. do 2 f_equal. dlia.
  - destruct (Z.ltb_spec (224 + cp / 4096) 128), (Z.leb_spec (224 + cp / 4096) 223), (Z.leb_spec 224 (224 + cp / 4096)),
      (Z.leb_spec (224 + cp / 4096) 239); try dlia. rewrite ?andb_false_r. cbn [andb app fst snd].
    rewrite feed_more by (destruct (Z.eqb_spec (224 + cp / 4096) 224), (Z.eqb_spec (224 + cp / 4096) 237); dlia).
    rewrite feed_more by dlia. do 2 f_equal. dlia.
  - destruct (Z.ltb_spec (240 + cp / 262144) 128), (Z.leb_spec (240 + cp / 262144) 223), (Z.leb_spec (240 + cp / 262144) 239),
      (Z.leb_spec 240 (240 + cp / 262144)), (Z.leb_spec (240 + cp / 262144) 244); try dlia. rewrite ?andb_false_r. cbn [andb app fst snd].
    rewrite feed_more by (destruct (Z.eqb_spec (240 + cp / 262144) 240), (Z.eqb_spec (240 + cp / 262144) 244); dlia).
    rewrite feed_more by dlia. rewrite feed_more by dlia. do 2 f_equal. dlia.
Qed.

Lemma utf8_roundtrip units : Forall (λ u, 0 ≤ u < 65536) units → utf8_decode (utf8_encode units) = to_well_formed units.
Proof.
  intros Hu%code_points_scalar. unfold utf8_decode, utf8_encode, to_well_formed. rewrite map_map.
  rewrite (map_ext_in _ id), map_id.
  - induction Hu as [|cp l Hcp Hl IH]; [done|]. cbn [map concat]. by rewrite run_point, IH.
  - intros z Hz%list_elem_of_In. apply byte_val_of. apply list_elem_of_In, in_concat in Hz as (bs & Hbs & Hz).
    apply in_map_iff in Hbs as (cp & <- & Hcp). rewrite Forall_forall in Hu.
    pose proof (point_bytes_range cp (Hu cp ltac:(by apply list_elem_of_In))) as Hr. rewrite Forall_forall in Hr.
    by apply Hr, list_elem_of_In.
Qed.

(** ** Theorems *)

Section roundtrip.
Context {AE : Aead} {AL : AeadLaws}.

Lemma bytes_roundtrip e iv p c : length iv = 12%nat → encryptBytes e iv p = Some c → decryptBytes e c = Some p.
Proof using AL.
  intros Hiv. unfold encryptBytes, decryptBytes. destruct (key e) as [k|] eqn:Ek; [|done]. cbn [mbind option_bind].
  pose proof (key_length e k Ek) as Hk. pose proof (seal_tag k iv p Hk Hiv) as Ht. pose proof (unseal_seal k iv p Hk Hiv) as Hu.
  destruct (seal k iv p) as [ct tag]. cbn [fst snd] in *. intros [= <-].
  rewrite !length_app. destruct (Nat.ltb_spec (length iv + (length tag + length ct)) 28); [lia|].
  rewrite (take_app_length' iv) by done. rewrite (drop_app_length' iv _ 12) by done. rewrite (take_app_length' tag) by done.
  replace 28%nat with (12 + 16)%nat by done. rewrite <-drop_drop. rewrite (drop_app_length' iv _ 12) by done.
  by rewrite (drop_app_length' tag _ 16).
Qed.

(** Text after the round trip: each lone surrogate has become U+FFFD. *)
Lemma text_roundtrip e iv units c :
  length iv = 12%nat → Forall (λ u, 0 ≤ u < 65536) units → encrypt e iv units = Some c →
  decrypt e c = Some (to_well_formed units).
Proof using AL.
  intros Hiv Hu. unfold encrypt, decrypt. destruct (encryptBytes e iv (utf8_encode units)) as [b|] eqn:Hb; [|done]. intros [= <-].
  rewrite from_to_base64, (bytes_roundtrip _ _ _ _ Hiv Hb). cbn. by rewrite utf8_roundtrip.
Qed.

Lemma bad_key_throws e iv units :
  key e = None → encrypt e iv units = None ∧ ∀ c, decrypt e c = None.
Proof.
  intros Hk. split; [|intros c]; unfold encrypt, decrypt, encryptBytes, decryptBytes; rewrite Hk; [done|]. by destruct (_ <? _)%nat.
Qed.

(** The secrets of the other components, texts of Latin-1 units, come back as
    they were. *)
Lemma latin1_secrets e iv (s : string) c :
  length iv = 12%nat → encrypt e iv (map byte_val (chars s)) = Some c → decrypt e c = Some (map byte_val (chars s)).
Proof using AL.
  intros Hiv Hc. assert (Forall (λ u, 0 ≤ u < 256) (map byte_val (chars s))) as Hl.
  { apply Forall_forall. intros z (x & -> & _)%list_elem_of_fmap. apply byte_val_range. }
  assert (Forall (λ u, 0 ≤ u < 65536) (map byte_val (chars s))) as Hu by (eapply Forall_impl; [exact Hl|]; simpl; lia).
  rewrite (text_roundtrip e iv (map byte_val (chars s)) c Hiv Hu Hc).
  f_equal. apply well_formed_kept; [done|]. apply no_surrogates. eapply Forall_impl; [exact Hl|]. simpl. lia.
Qed.

(** C28: secrets at rest.  With a key of 64 hexadecimal digits every text (any
    sequence of UTF-16 code units) is encrypted, the stored form is never empty,
    and decrypting it gives the text back with each lone surrogate replaced by
    U+FFFD, so a text without lone surrogates comes back unchanged, whatever
    nonce was drawn; with any other key, or none, both throw.  This is what the
    stores of the provider, the directory, mail and the vault rely on.  The
    cipher is assumed to open what it sealed. *)
Theorem secrets_roundtrip (env : option string) (iv : bytes) (units : list Z) :
  length iv = 12%nat → Forall (λ u, 0 ≤ u < 65536) units →
  (∀ hex, env = Some hex → length (chars hex) = 64%nat → Forall (λ c, is_Some (hex_val c)) (chars hex) →
     ∃ c, encrypt env iv units = Some c ∧ c ≠ ""%string ∧ decrypt env c = Some (to_well_formed units) ∧
          (well_formed units → decrypt env c = Some units)) ∧
  ((∀ hex, env = Some hex → length (chars hex) ≠ 64%nat ∨ Exists (λ c, hex_val c = None) (chars hex)) →
     encrypt env iv units = None ∧ ∀ c, decrypt env c = None).
Proof using AL.
  intros Hiv Hu. split.
  - intros hex -> Hlen Hhex. destruct (good_key hex Hlen Hhex) as [k Hk].
    assert (∃ b, encryptBytes (Some hex) iv (utf8_encode units) = Some b ∧ b ≠ []) as (b & Hb & Hne).
    { unfold encryptBytes. rewrite Hk. cbn [mbind option_bind]. destruct (seal k iv _) as [ct tag]. eexists. split; [done|]. by destruct iv. }
    assert (encrypt (Some hex) iv units = Some (to_base64 b)) as He by (unfold encrypt; by rewrite Hb).
    exists (to_base64 b). split_and!; [done| |by eapply text_roundtrip|].
    + intros E. apply Hne. by rewrite <-(from_to_base64 b), E.
    + intros Hw. rewrite (text_roundtrip _ _ _ _ Hiv Hu He). by rewrite (well_formed_kept units Hu Hw).
  - intros Hbad. apply bad_key_throws. destruct env as [hex|]; [|done]. by apply bad_key, Hbad.
Qed.
End roundtrip.

(** ** Recording chunks (src/lib/recording/assemble-guac.ts) *)

Class Gzip := { gzip : bytes → bytes; gunzip : bytes → option bytes }.
Class GzipLaws `{Gzip} := { gunzip_gzip b : gunzip (gzip b) = Some b }.

Section chunks.
Context `{Aead} `{Gzip} (ENCRYPTION_KEY : option string).

Record Chunk := { ck_seq : Z; ck_data : bytes }.
Definition serializeGuacChunk (iv raw : bytes) : option bytes := encryptBytes ENCRYPTION_KEY iv (gzip raw).
(** A chunk that fails to decode is skipped. *)
Definition chunk_part (encrypted : bool) (c : Chunk) : bytes :=
  match (gz ← (if encrypted then decryptBytes ENCRYPTION_KEY (ck_data c) else Some (ck_data c)); gunzip gz) with
  | Some raw => raw
  | None => []
  end.
Definition assembleGuac (chunks : list Chunk) (encrypted : bool) : bytes :=
  concat (map (chunk_part encrypted) (order_by ck_seq chunks)).
End chunks.

Section replay.
Context {AE : Aead} {AL : AeadLaws} {GZ : Gzip} {GL : GzipLaws}.

(** The chunk the ingest writer stores for one piece. *)
Definition stored_chunk (hex : option string) (piece : Z * bytes * bytes) (c : Chunk) : Prop :=
  ck_seq c = piece.1.1 ∧ serializeGuacChunk hex piece.1.2 piece.2 = Some (ck_data c).

Lemma stored_part hex piece c : length piece.1.2 = 12%nat → stored_chunk hex piece c → chunk_part hex true c = piece.2.
Proof using AL GL.
  intros Hiv [_ Hs]. unfold serializeGuacChunk in Hs. unfold chunk_part. rewrite (bytes_roundtrip hex _ _ _ Hiv Hs).
  cbn [mbind option_bind]. by rewrite gunzip_gzip.
Qed.

(** A recording is replayed as it was written: from the stored chunks in any
    order, with other chunks that do not decode among them, the pieces come back
    in the order of their numbers. *)
Theorem replay_roundtrip hex (pieces : list (Z * bytes * bytes)) (written broken chunks : list Chunk) :
  Forall2 (stored_chunk hex) pieces written → Forall (λ p, length p.1.2 = 12%nat) pieces → increasing (λ p, p.1.1) pieces →
  chunks ≡ₚ written ++ broken → Forall (λ c, chunk_part hex true c = []) broken → NoDup (map ck_seq chunks) →
  assembleGuac hex chunks true = concat (map snd pieces).
Proof using AL GL.
  intros Hw Hiv Hinc Hp Hb Hnd. unfold assembleGuac.
  assert (∀ l, concat (map (chunk_part hex true) l) =
    concat (map (chunk_part hex true) (List.filter (λ c, negb (bool_decide (chunk_part hex true c = []))) l))) as Hskip.
  { induction l as [|c l IH]; [done|]. cbn [map concat List.filter]. case_bool_decide as E; cbn [negb]; [by rewrite E, IH|]. cbn [map concat]. by rewrite IH. }
  set (ok := λ c, negb (bool_decide (chunk_part hex true c = []))) in *.
  assert (List.filter ok (order_by ck_seq chunks) = List.filter ok written) as E.
  { apply (increasing_unique ck_seq).
    - by apply increasing_filter, order_by_increasing.
    - apply increasing_filter. clear -Hw Hinc. revert Hinc. induction Hw as [|p c ps cs Hpc Hw IH]; intros Hinc; [constructor|].
      inversion Hinc as [|? ? Hi Hf]; subst. constructor; [by apply IH|]. destruct Hpc as [Hs _]. clear -Hs Hf Hw.
      induction Hw as [|p' c' ps cs [Hs' _] Hw IH]; [constructor|]. inversion Hf; subst. constructor; [simpl in *; lia|]. by apply IH.
    - etrans; [apply list_filter_Permutation, merge_sort_Permutation; tc_solve|]. etrans; [apply list_filter_Permutation, Hp|]. rewrite List.filter_app.
      assert (List.filter ok broken = []) as ->; [|by rewrite app_nil_r].
      clear -Hb. induction Hb as [|c l Hc Hl IH]; [done|]. cbn [List.filter]. unfold ok at 1. by rewrite bool_decide_eq_true_2. }
  rewrite Hskip, E, <-Hskip. f_equal. clear -Hw Hiv AL GL. induction Hw as [|p c ps cs Hpc Hw IH]; [done|].
  apply Forall_cons in Hiv as [Hp Hiv]. cbn [map]. f_equal; [by apply stored_part|by apply IH].
Qed.
End replay.

(** ** Witnesses *)

(** A cipher and a compressor that change nothing. *)
#[local] Instance demo_aead : Aead :=
  {| seal k iv p := (p, take 16 (k ++ iv)); unseal k iv ct tag := Some ct |}.
#[local] Instance demo_aead_laws : AeadLaws (H := demo_aead).
Proof. constructor; [|done]. intros k iv p Hk Hiv. cbn [seal demo_aead snd]. rewrite length_take, length_app. lia. Qed.
#[local] Instance demo_gzip : Gzip := {| gzip b := b; gunzip b := Some b |}.
#[local] Instance demo_gzip_laws : GzipLaws (H := demo_gzip).
Proof. constructor. done. Qed.
Definition demo_hex : string := "00112233445566778899aabbccddeeff00112233445566778899AABBCCDDEEFF".
Definition demo_iv : bytes := replicate 12 (byte_of 7).

(** Accented letters and a pair of surrogates. *)
Definition demo_text : list Z := [233; 116; 233; 55357; 56960].
Lemma secrets_roundtrip_witness :
  ∃ c, encrypt (Some demo_hex) demo_iv demo_text = Some c ∧ c ≠ ""%string ∧ decrypt (Some demo_hex) c = Some demo_text.
Proof.
  destruct (secrets_roundtrip (AE := demo_aead) (AL := demo_aead_laws) (Some demo_hex) demo_iv demo_text) as [Hok _].
  - reflexivity.
  - repeat constructor; discriminate.
  - destruct (Hok demo_hex) as (c & H1 & H2 & _ & H3); [reflexivity|reflexivity| |].
    + apply (bool_decide_unpack _). vm_compute. exact I.
    + exists c. split; [exact H1|]. split; [exact H2|]. apply H3. by vm_compute.
Defined.
Example lone_surrogate : utf8_decode (utf8_encode [97; 55357; 98]) = [97; 65533; 98].
Proof. vm_compute. reflexivity. Qed.
Example broken_utf8 : utf8_decode (map byte_of [240; 144; 65; 255]) = [65533; 65; 65533].
Proof. vm_compute. reflexivity. Qed.

Definition demo_chunk (seq : Z) (text : string) : Chunk :=
  {| ck_seq := seq; ck_data := serializeGuacChunk (Some demo_hex) demo_iv (chars text) ?? [] |}.
Lemma replay_roundtrip_witness :
  assembleGuac (Some demo_hex) [demo_chunk 2 "cd"; {| ck_seq := 9; ck_data := [] |}; demo_chunk 1 "ab"] true = chars "abcd".
Proof.
  rewrite (replay_roundtrip (AL := demo_aead_laws) (GL := demo_gzip_laws) (Some demo_hex) [(1, demo_iv, chars "ab"); (2, demo_iv, chars "cd")]
    [demo_chunk 1 "ab"; demo_chunk 2 "cd"] [{| ck_seq := 9; ck_data := [] |}]).
  - reflexivity.
  - repeat constructor.
  - repeat constructor.
  - repeat constructor.
  - solve_Permutation.
  - repeat constructor.
  - apply (bool_decide_unpack _). vm_compute. exact I.
Defined.
