(* ===== verification/Input.v ===== *)
(** * Input of a remote session, in the vendor's browser

    The keyboard of a gateway session and its paste gesture
    (app/gateway/[siteId]/session/session-client.tsx with
    src/lib/gateway/paste-keys.ts), the clipboard bridge (clipboard.ts), the
    on-screen keyboard with its sticky modifiers (src/lib/session/modifiers.ts,
    keysyms.ts) and the synthetic keys of an isolated browser
    (src/lib/session/dom-key.ts, isolated-client.tsx).

    Keys are X11 keysyms; what is sent to the remote side is a list of events,
    and the remote side is the set of keys it holds down. *)

From S2P Require Import Prelude JsString JsValue Gateway.

(** ** Keys *)

Record KeyEvent := { ke_keysym : Z; ke_pressed : bool }.
Definition press (k : Z) : KeyEvent := {| ke_keysym := k; ke_pressed := true |}.
Definition release (k : Z) : KeyEvent := {| ke_keysym := k; ke_pressed := false |}.

Definition KEY_esc : Z := 0xff1b.
Definition KEY_tab : Z := 0xff09.
Definition KEY_backspace : Z := 0xff08.
Definition KEY_enter : Z := 0xff0d.
Definition KEY_caps : Z := 0xffe5.
Definition KEY_shift : Z := 0xffe1.
Definition KEY_ctrl : Z := 0xffe3.
Definition KEY_alt : Z := 0xffe9.
Definition KEY_super : Z := 0xffeb.
Definition KEY_menu : Z := 0xff67.
Definition KEY_del : Z := 0xffff.
Definition KEY_ins : Z := 0xff63.
Definition KEY_home : Z := 0xff50.
Definition KEY_end : Z := 0xff57.
Definition KEY_pgup : Z := 0xff55.
Definition KEY_pgdn : Z := 0xff56.
Definition KEY_left : Z := 0xff51.
Definition KEY_up : Z := 0xff52.
Definition KEY_right : Z := 0xff53.
Definition KEY_down : Z := 0xff54.
Definition KEY_space : Z := 0x20.
(** f1 .. f12 *)
Definition KEY_f (i : Z) : Z := 0xffbe + i - 1.

(** ** The on-screen keyboard *)

Inductive Modifier := MCtrl | MAlt | MShift.
Record KeyDef := { kd_label : string; kd_keysym : Z; kd_modifier : option Modifier }.
Definition key_def (label : string) (keysym : Z) : KeyDef := {| kd_label := label; kd_keysym := keysym; kd_modifier := None |}.
Definition mod_def (label : string) (keysym : Z) (m : Modifier) : KeyDef := {| kd_label := label; kd_keysym := keysym; kd_modifier := Some m |}.
(** [charKeysym]: the code unit of a one-character label. *)
Definition charKeysym (ch : string) : Z := match chars ch with c :: _ => Z.of_N (Ascii.N_of_ascii c) | [] => 0 end.
Definition char_key (c : string) : KeyDef := key_def c (charKeysym c).
(** The layout; the widths of the keys are presentation. *)
Definition KEYBOARD_ROWS : list (list KeyDef) :=
  [key_def "Esc" KEY_esc :: map (λ i, key_def ("F" +:+ dec (Z.of_nat i)) (KEY_f (Z.of_nat i))) (seq 1 12);
   map char_key ["`"; "1"; "2"; "3"; "4"; "5"; "6"; "7"; "8"; "9"; "0"; "-"; "="]%string ++ [key_def "Back" KEY_backspace];
   key_def "Tab" KEY_tab :: map char_key ["q"; "w"; "e"; "r"; "t"; "y"; "u"; "i"; "o"; "p"; "["; "]"; "\"]%string;
   key_def "Caps" KEY_caps :: map char_key ["a"; "s"; "d"; "f"; "g"; "h"; "j"; "k"; "l"; ";"; "'"]%string ++ [key_def "Enter" KEY_enter];
   mod_def "Shift" KEY_shift MShift :: map char_key ["z"; "x"; "c"; "v"; "b"; "n"; "m"; ","; "."; "/"]%string ++ [mod_def "Shift" KEY_shift MShift];
   [mod_def "Ctrl" KEY_ctrl MCtrl; mod_def "Alt" KEY_alt MAlt; key_def "Space" KEY_space; mod_def "Alt" KEY_alt MAlt; key_def "Menu" KEY_menu;
    mod_def "Ctrl" KEY_ctrl MCtrl];
   [key_def "Ins" KEY_ins; key_def "Home" KEY_home; key_def "PgUp" KEY_pgup; key_def "Del" KEY_del; key_def "End" KEY_end; key_def "PgDn" KEY_pgdn;
    key_def "←" KEY_left; key_def "↑" KEY_up; key_def "↓" KEY_down; key_def "→" KEY_right]].
Record ModState := { m_ctrl : bool; m_alt : bool; m_shift : bool }.
Definition EMPTY_MODS : ModState := {| m_ctrl := false; m_alt := false; m_shift := false |}.
Definition toggle (m : Modifier) (s : ModState) : ModState :=
  match m with
  | MCtrl => {| m_ctrl := negb (m_ctrl s); m_alt := m_alt s; m_shift := m_shift s |}
  | MAlt => {| m_ctrl := m_ctrl s; m_alt := negb (m_alt s); m_shift := m_shift s |}
  | MShift => {| m_ctrl := m_ctrl s; m_alt := m_alt s; m_shift := negb (m_shift s) |}
  end.
Definition armed (s : ModState) : list Z :=
  (if m_ctrl s then [KEY_ctrl] else []) ++ (if m_alt s then [KEY_alt] else []) ++ (if m_shift s then [KEY_shift] else []).
Definition applyKey (s : ModState) (k : KeyDef) : list KeyEvent * ModState :=
  match kd_modifier k with
  | Some m => ([], toggle m s)
  | None => (map press (armed s) ++ [press (kd_keysym k); release (kd_keysym k)] ++ map release (rev (armed s)), EMPTY_MODS)
  end.
(** The component: the events of one click are sent, then the state is set. *)
Fixpoint type_keys (s : ModState) (ks : list KeyDef) : list KeyEvent * ModState :=
  match ks with
  | [] => ([], s)
  | k :: ks' => let '(e, s') := applyKey s k in let '(es, s'') := type_keys s' ks' in (e ++ es, s'')
  end.

(** ** The physical keyboard *)

Definition ctrlL : Z := 0xffe3.
Definition ctrlR : Z := 0xffe4.
Definition shiftL : Z := 0xffe1.
Definition shiftR : Z := 0xffe2.
Definition altL : Z := 0xffe9.
Definition altR : Z := 0xffea.
Definition insertK : Z := 0xff63.
Definition key_v : Z := 0x76.
Definition key_V : Z := 0x56.

Inductive GatewayProtocol := RDP | SSH | VNC.
#[global] Instance GatewayProtocol_eq_dec : EqDecision GatewayProtocol.
Proof. solve_decision. Defined.
Definition pasteKeySequence (protocol : GatewayProtocol) (ctrlHeld : bool) : list Z :=
  let chord := if bool_decide (protocol = SSH) then [shiftL; key_V] else [key_v] in
  if ctrlHeld then chord else ctrlL :: chord.

(** [modsRef] *)
Record Mods := { mo_ctrl : bool; mo_alt : bool; mo_shift : bool; mo_insert : bool }.
Definition no_mods : Mods := {| mo_ctrl := false; mo_alt := false; mo_shift := false; mo_insert := false |}.
Definition isBrowserPasteKey (keysym : Z) (m : Mods) : bool := (keysym =? key_v) && mo_ctrl m && negb (mo_alt m).
Definition trackMods (k : Z) (down : bool) (m : Mods) : Mods :=
  {| mo_ctrl := if (k =? ctrlL) || (k =? ctrlR) then down else mo_ctrl m;
     mo_alt := if (k =? altL) || (k =? altR) then down else mo_alt m;
     mo_shift := if (k =? shiftL) || (k =? shiftR) then down else mo_shift m;
     mo_insert := if k =? insertK then down else mo_insert m |}.
(** [kd] and [ku]. *)
Definition on_key (k : Z) (down : bool) (m : Mods) : Mods * list KeyEvent :=
  let m' := trackMods k down m in
  (m', if isBrowserPasteKey k m' then [] else [{| ke_keysym := k; ke_pressed := down |}]).
Definition sendChord (keys : list Z) : list KeyEvent := map press keys ++ map release (rev keys).

(** ** The clipboard bridge *)

Inductive PushResult := Pushed | Unchanged | Blocked | Empty.
(** What crosses: text to the session, text to the browser's clipboard. *)
Inductive Crossing := ToSession (text : string) | ToBrowser (text : string).
Record Bridge := { br_remoteText : string; br_lastPushed : option string; br_blocked : bool }.

Section bridge.
(** [canRead], [canWrite]: whether the browser has the two Clipboard calls. *)
Context (caps : ClipboardCaps) (canRead canWrite : bool).

Definition bridge_start : Bridge := {| br_remoteText := ""; br_lastPushed := None; br_blocked := negb canRead |}.
(** [client.onclipboard], once the stream has ended. *)
Definition onclipboard (mimetype text : string) (b : Bridge) : Bridge * list Crossing :=
  if truthy mimetype && negb (startsWith "text/" mimetype) then (b, []) else
  ({| br_remoteText := text; br_lastPushed := Some text; br_blocked := br_blocked b |},
   if allowCopyOut caps && canWrite then [ToBrowser text] else []).
Definition pushLocal (text : string) (b : Bridge) : Bridge * list Crossing * PushResult :=
  if negb (allowPasteIn caps) then (b, [], Blocked) else
  if negb (truthy text) then (b, [], Empty) else
  if bool_decide (br_lastPushed b = Some text) then (b, [], Unchanged) else
  ({| br_remoteText := br_remoteText b; br_lastPushed := Some text; br_blocked := br_blocked b |}, [ToSession text], Pushed).
(** [syncFromBrowser], when [readText] has answered; [None]: it was refused. *)
Definition syncFromBrowser (read : option string) (b : Bridge) : Bridge * list Crossing :=
  if negb (allowPasteIn caps) || negb canRead then (b, []) else
  match read with
  | Some t =>
      let b1 := {| br_remoteText := br_remoteText b; br_lastPushed := br_lastPushed b; br_blocked := false |} in
      if truthy t then (pushLocal t b1).1 else (b1, [])
  | None => ({| br_remoteText := br_remoteText b; br_lastPushed := br_lastPushed b; br_blocked := true |}, [])
  end.

(** ** The session: keys and pastes together *)

Context (protocol : GatewayProtocol).
Record Session := { se_mods : Mods; se_bridge : Bridge; se_panelOpen : bool }.
(** What reaches the component.  [Key]: a callback of the keyboard library;
    [OpenPanel order]: the clipboard panel is opened, where [order] is the order
    in which the library's [reset] fires the releases of the keys it has down. *)
Inductive user_event :=
  | Key (k : Z) (down : bool)
  | Paste (text : string)
  | Focus (read : option string)
  | RemoteClipboard (mimetype text : string)
  | OpenPanel (order : list Z)
  | ClosePanel.

(** [onPaste] *)
Definition onPaste (text : string) (s : Session) : Session * list KeyEvent * list Crossing :=
  if se_panelOpen s then (s, [], []) else
  let shiftInsert := mo_shift (se_mods s) && mo_insert (se_mods s) in
  let chord := sendChord (pasteKeySequence protocol (mo_ctrl (se_mods s))) in
  if negb (allowPasteIn caps) then (s, if negb shiftInsert then chord else [], []) else
  let '(b, out, r) := pushLocal text (se_bridge s) in
  ({| se_mods := se_mods s; se_bridge := b; se_panelOpen := se_panelOpen s |},
   if shiftInsert then [] else match r with Blocked => [] | _ => chord end, out).

Definition keys_step (s : Session) (k : Z) (down : bool) : Session * list KeyEvent :=
  let '(m, es) := on_key k down (se_mods s) in
  ({| se_mods := m; se_bridge := se_bridge s; se_panelOpen := se_panelOpen s |}, es).
(** [suspendKeyboard]: [kb.reset()], then the callbacks are taken off. *)
Fixpoint reset_keys (s : Session) (order : list Z) : Session * list KeyEvent :=
  match order with
  | [] => (s, [])
  | k :: order' => let '(s1, es) := keys_step s k false in let '(s2, es') := reset_keys s1 order' in (s2, es ++ es')
  end.
Definition set_panel (open : bool) (s : Session) : Session :=
  {| se_mods := se_mods s; se_bridge := se_bridge s; se_panelOpen := open |}.

Definition session_step (s : Session) (e : user_event) : Session * list KeyEvent * list Crossing :=
  match e with
  | Key k down => if se_panelOpen s then (s, [], []) else (keys_step s k down, [])
  | Paste text => onPaste text s
  | Focus read => let '(b, out) := syncFromBrowser read (se_bridge s) in
                  ({| se_mods := se_mods s; se_bridge := b; se_panelOpen := se_panelOpen s |}, [], out)
  | RemoteClipboard mime text => let '(b, out) := onclipboard mime text (se_bridge s) in
                  ({| se_mods := se_mods s; se_bridge := b; se_panelOpen := se_panelOpen s |}, [], out)
  | OpenPanel order => if se_panelOpen s then (s, [], []) else
                  let '(s1, es) := reset_keys s order in (set_panel true s1, es, [])
  | ClosePanel => (set_panel false s, [], [])
  end.
Fixpoint session_run (s : Session) (es : list user_event) : Session * list KeyEvent * list Crossing :=
  match es with
  | [] => (s, [], [])
  | e :: es' => let '(s1, ks, cs) := session_step s e in let '(s2, ks', cs') := session_run s1 es' in (s2, ks ++ ks', cs ++ cs')
  end.
Definition session_start : Session := {| se_mods := no_mods; se_bridge := bridge_start; se_panelOpen := false |}.
End bridge.

(** ** Synthetic keys of the isolated browser *)

Record DomKeyInit := { dk_key : string; dk_code : string; dk_keyCode : Z }.
Definition key_init (key code : string) (n : Z) : DomKeyInit := {| dk_key := key; dk_code := code; dk_keyCode := n |}.
Definition char_text (n : Z) : string := unchars [Ascii.ascii_of_N (Z.to_N n)].

(** Punctuation by character code. *)
Definition PUNCT : list (Z * (string * Z)) :=
  [(96, ("Backquote", 192)); (45, ("Minus", 189)); (61, ("Equal", 187)); (91, ("BracketLeft", 219)); (93, ("BracketRight", 221));
   (92, ("Backslash", 220)); (59, ("Semicolon", 186)); (39, ("Quote", 222)); (44, ("Comma", 188)); (46, ("Period", 190));
   (47, ("Slash", 191)); (32, ("Space", 32))]%string.
Definition SHIFTED : list (Z * Z) :=
  [(126, 96); (33, 49); (64, 50); (35, 51); (36, 52); (37, 53); (94, 54); (38, 55); (42, 56); (40, 57); (41, 48); (95, 45); (43, 61);
   (123, 91); (125, 93); (124, 92); (58, 59); (34, 39); (60, 44); (62, 46); (63, 47)].
Definition SPECIAL : list (Z * DomKeyInit) :=
  [(KEY_esc, key_init "Escape" "Escape" 27); (KEY_tab, key_init "Tab" "Tab" 9); (KEY_backspace, key_init "Backspace" "Backspace" 8);
   (KEY_enter, key_init "Enter" "Enter" 13); (KEY_caps, key_init "CapsLock" "CapsLock" 20); (KEY_shift, key_init "Shift" "ShiftLeft" 16);
   (KEY_ctrl, key_init "Control" "ControlLeft" 17); (KEY_alt, key_init "Alt" "AltLeft" 18); (KEY_super, key_init "Meta" "MetaLeft" 91);
   (KEY_menu, key_init "ContextMenu" "ContextMenu" 93); (KEY_del, key_init "Delete" "Delete" 46); (KEY_ins, key_init "Insert" "Insert" 45);
   (KEY_home, key_init "Home" "Home" 36); (KEY_end, key_init "End" "End" 35); (KEY_pgup, key_init "PageUp" "PageUp" 33);
   (KEY_pgdn, key_init "PageDown" "PageDown" 34); (KEY_left, key_init "ArrowLeft" "ArrowLeft" 37); (KEY_up, key_init "ArrowUp" "ArrowUp" 38);
   (KEY_right, key_init "ArrowRight" "ArrowRight" 39); (KEY_down, key_init "ArrowDown" "ArrowDown" 40)] ++
  map (λ i, (KEY_f (Z.of_nat i), key_init ("F" +:+ dec (Z.of_nat i)) ("F" +:+ dec (Z.of_nat i)) (111 + Z.of_nat i))) (seq 1 12).
Definition assoc {V} (k : Z) (l : list (Z * V)) : option V := snd <$> find (λ p, p.1 =? k) l.

Definition upper (n : Z) : Z := if (97 <=? n) && (n <=? 122) then n - 32 else n.
Definition keysymToDomKey (keysym : Z) (shift : bool) : option DomKeyInit :=
  match assoc keysym SPECIAL with
  | Some sp => Some sp
  | None =>
      if (keysym <? 0x20) || (0x7e <? keysym) then None else
      if (97 <=? keysym) && (keysym <=? 122) then
        Some (key_init (char_text (if shift then upper keysym else keysym)) ("Key" +:+ char_text (upper keysym)) (upper keysym)) else
      if (65 <=? keysym) && (keysym <=? 90) then Some (key_init (char_text keysym) ("Key" +:+ char_text keysym) keysym) else
      if (48 <=? keysym) && (keysym <=? 57) then Some (key_init (char_text keysym) ("Digit" +:+ char_text keysym) keysym) else
      let base := match assoc keysym SHIFTED with Some b => b | None => keysym end in
      match assoc base PUNCT with Some p => Some (key_init (char_text keysym) p.1 p.2) | None => None end
  end.

(** [sendKeysym] of isolated-client.tsx, once the client's input is there. *)
Record IsoMods := { iso_shift : bool; iso_ctrl : bool; iso_alt : bool; iso_meta : bool }.
Definition iso_none : IsoMods := {| iso_shift := false; iso_ctrl := false; iso_alt := false; iso_meta := false |}.
Record DomEvent := { de_init : DomKeyInit; de_down : bool; de_mods : IsoMods }.
Definition iso_track (keysym : Z) (pressed : bool) (m : IsoMods) : IsoMods :=
  {| iso_shift := if keysym =? KEY_shift then pressed else iso_shift m;
     iso_ctrl := if keysym =? KEY_ctrl then pressed else iso_ctrl m;
     iso_alt := if keysym =? KEY_alt then pressed else iso_alt m;
     iso_meta := if keysym =? KEY_super then pressed else iso_meta m |}.
Definition sendKeysym (e : KeyEvent) (m : IsoMods) : IsoMods * list DomEvent :=
  let m' := iso_track (ke_keysym e) (ke_pressed e) m in
  (m', match keysymToDomKey (ke_keysym e) (iso_shift m') with
       | None => []
       | Some i => [{| de_init := i; de_down := ke_pressed e; de_mods := m' |}]
       end).
Fixpoint send_all (es : list KeyEvent) (m : IsoMods) : IsoMods * list DomEvent :=
  match es with
  | [] => (m, [])
  | e :: es' => let '(m1, d) := sendKeysym e m in let '(m2, ds) := send_all es' m1 in (m2, d ++ ds)
  end.

(** ** What is held down *)

Section holding.
Context `{Countable K}.
Definition hold (h : gset K) (e : K * bool) : gset K := if e.2 then {[e.1]} ∪ h else h ∖ {[e.1]}.
Definition held_after (h : gset K) (es : list (K * bool)) : gset K := fold_left hold es h.
End holding.
Definition edge (e : KeyEvent) : Z * bool := (ke_keysym e, ke_pressed e).
Definition dom_edge (e : DomEvent) : string * bool := (dk_code (de_init e), de_down e).
(** The keys the remote side holds down. *)
Definition remote_held (h : gset Z) (es : list KeyEvent) : gset Z := held_after h (map edge es).

(** ** Chords leave nothing behind *)

Section holding_facts.
Context `{Countable K}.
Implicit Types h : gset K.

Lemma held_app h es fs : held_after h (es ++ fs) = held_after (held_after h es) fs.
Proof. apply fold_left_app. Qed.
Lemma held_presses h ks : held_after h (map (λ k, (k, true)) ks) = list_to_set ks ∪ h.
Proof.
  unfold held_after; revert h; induction ks as [|k ks IH]; intros h; simpl; [set_solver|].
  rewrite IH. unfold hold; simpl. set_solver.
Qed.
Lemma held_releases h ks : held_after h (map (λ k, (k, false)) ks) = h ∖ list_to_set ks.
Proof.
  unfold held_after; revert h; induction ks as [|k ks IH]; intros h; simpl; [set_solver|].
  rewrite IH. unfold hold; simpl. set_solver.
Qed.
(** Keys pressed in order and released in reverse order: what was held before,
    less those keys. *)
Lemma held_chord h ks :
  held_after h (map (λ k, (k, true)) ks ++ map (λ k, (k, false)) (rev ks)) = h ∖ list_to_set ks.
Proof.
  rewrite held_app, held_presses, held_releases. apply set_eq; intros x.
  rewrite !elem_of_difference, elem_of_union, !elem_of_list_to_set, !list_elem_of_In, <- in_rev. tauto.
Qed.
End holding_facts.

Lemma edges_chord ks : map edge (sendChord ks) = map (λ k, (k, true)) ks ++ map (λ k, (k, false)) (rev ks).
Proof. unfold sendChord. rewrite map_app, !map_map. done. Qed.
Lemma remote_chord h ks : remote_held h (sendChord ks) = h ∖ list_to_set ks.
Proof. unfold remote_held. rewrite edges_chord. apply held_chord. Qed.
Lemma remote_app h es fs : remote_held h (es ++ fs) = remote_held (remote_held h es) fs.
Proof. unfold remote_held. rewrite map_app. apply held_app. Qed.
(** A click on a key that is no modifier is a chord. *)
Lemma applyKey_chord s k :
  (applyKey s k).1 = match kd_modifier k with Some _ => [] | None => sendChord (armed s ++ [kd_keysym k]) end.
Proof.
  unfold applyKey, sendChord; destruct (kd_modifier k); [done|]; cbn [fst].
  rewrite map_app, rev_app_distr, map_app, <- app_assoc. done.
Qed.

(** The on-screen keyboard never leaves a key down: whatever keys are
    clicked, with whatever modifiers armed, the remote side holds after the clicks
    what it held before less the keys that were clicked, so nothing when it held
    nothing; and while a key is struck exactly the armed modifiers are down. *)
Theorem osk_balanced s ks k :
  remote_held ∅ (type_keys s ks).1 = ∅ ∧
  (kd_modifier k = None →
   ∃ pre post, (applyKey s k).1 = pre ++ [press (kd_keysym k)] ++ post ∧
               remote_held ∅ pre = list_to_set (armed s) ∧ remote_held ∅ (pre ++ [press (kd_keysym k)] ++ post) = ∅ ∧
               (applyKey s k).2 = EMPTY_MODS).
Proof.
  split.
  - revert s; induction ks as [|k0 ks IH]; intros s; cbn -[applyKey]; [done|].
    pose proof (applyKey_chord s k0) as Hc. destruct (applyKey s k0) as [e s'] eqn:Ha; cbn [fst] in Hc; subst e.
    specialize (IH s'). destruct (type_keys s' ks) as [es s'']; cbn [fst] in *. rewrite remote_app.
    destruct (kd_modifier k0); [exact IH|]. rewrite remote_chord.
    replace (_ ∖ _) with (∅ : gset Z) by set_solver. exact IH.
  - intros Hk. exists (map press (armed s)), (release (kd_keysym k) :: map release (rev (armed s))).
    unfold applyKey; rewrite Hk; cbn [fst snd]. repeat split.
    + unfold remote_held. rewrite map_map. change (map _ _) with (map (λ k, (k, true)) (armed s)).
      rewrite held_presses. set_solver.
    + pose proof (applyKey_chord s k) as Hc. unfold applyKey in Hc; rewrite Hk in Hc; cbn [fst] in Hc.
      simpl in Hc |- *. rewrite Hc, remote_chord. set_solver.
Qed.

(** ** No key is left down on the remote side *)

(** What the keyboard library has down after an event, given whether the panel
    is open: its [pressed] map is kept also while the callbacks are off. *)
Definition is_ctrl_alt (k : Z) : bool := (k =? ctrlL) || (k =? ctrlR) || (k =? altL) || (k =? altR).
(** No Ctrl or Alt key changes while V is down. *)
Definition steady_key (h : gset Z) (k : Z) : Prop := is_ctrl_alt k = true → key_v ∉ h.
Fixpoint steady_resets (h : gset Z) (order : list Z) : Prop :=
  match order with [] => h = ∅ | k :: order' => steady_key h k ∧ steady_resets (h ∖ {[k]}) order' end.
Definition pressed_step (h : gset Z) (open : bool) (e : user_event) : gset Z :=
  match e with
  | Key k down => hold h (k, down)
  | OpenPanel _ => if open then h else ∅
  | _ => h
  end.
Definition steady_event (h : gset Z) (open : bool) (e : user_event) : Prop :=
  match e with
  | Key k _ => steady_key h k
  | OpenPanel order => open = false → steady_resets h order
  | _ => True
  end.
Definition panel_step (open : bool) (e : user_event) : bool :=
  match e with OpenPanel _ => true | ClosePanel => false | _ => open end.
Fixpoint pressed_after (h : gset Z) (open : bool) (es : list user_event) : gset Z :=
  match es with [] => h | e :: es' => pressed_after (pressed_step h open e) (panel_step open e) es' end.
Fixpoint steady (h : gset Z) (open : bool) (es : list user_event) : Prop :=
  match es with [] => True | e :: es' => steady_event h open e ∧ steady (pressed_step h open e) (panel_step open e) es' end.

Definition swallows (m : Mods) : bool := mo_ctrl m && negb (mo_alt m).
(** The remote holds only what the user holds; nothing while the panel is open;
    and V only when its release will be forwarded. *)
Record keys_inv (s : Session) (h r : gset Z) : Prop := {
  ki_sub : r ⊆ h;
  ki_panel : se_panelOpen s = true → r = ∅;
  ki_v : key_v ∈ r → swallows (se_mods s) = false }.

Lemma paste_key_swallows k m : isBrowserPasteKey k m = (k =? key_v) && swallows m.
Proof. unfold isBrowserPasteKey, swallows. by rewrite andb_assoc. Qed.
Lemma track_swallows k d m : is_ctrl_alt k = false → swallows (trackMods k d m) = swallows m.
Proof.
  unfold is_ctrl_alt, swallows, trackMods; cbn. intros Hk.
  destruct (k =? ctrlL), (k =? ctrlR), (k =? altL), (k =? altR); done.
Qed.
Lemma keys_step_inv s k d h r :
  keys_inv s h r → steady_key h k → se_panelOpen s = false →
  let '(s', es) := keys_step s k d in keys_inv s' (hold h (k, d)) (remote_held r es) ∧ se_panelOpen s' = false.
Proof.
  intros [Hsub Hpan Hv] Hst Hop. unfold keys_step, on_key; cbn -[isBrowserPasteKey].
  split; [|done]. rewrite paste_key_swallows.
  assert (Hkeep : key_v ∈ r → swallows (trackMods k d (se_mods s)) = false).
  { intros Hin. rewrite track_swallows; [by apply Hv|]. destruct (is_ctrl_alt k) eqn:E; [|done].
    exfalso; apply (Hst E). by apply Hsub. }
  destruct (Z.eqb_spec k key_v) as [->|Hne]; simpl.
  - destruct (swallows (trackMods key_v d (se_mods s))) eqn:E.
    + assert (key_v ∉ r) by (intros Hin; specialize (Hkeep Hin); congruence).
      split; cbn; [|congruence|done]. destruct d; unfold remote_held, hold; simpl; set_solver.
    + split; cbn; [|congruence|done]. destruct d; unfold remote_held, held_after, hold; simpl; set_solver.
  - split; cbn; [|congruence|].
    + destruct d; unfold remote_held, held_after, hold; simpl; set_solver.
    + intros Hin. apply Hkeep. destruct d; unfold remote_held, held_after, hold in Hin; simpl in Hin; set_solver.
Qed.
Lemma reset_inv order s h r :
  keys_inv s h r → steady_resets h order → se_panelOpen s = false →
  let '(_, es) := reset_keys s order in remote_held r es = ∅.
Proof.
  revert s h r; induction order as [|k order IH]; intros s h r Hi Hst Hop; cbn -[keys_step].
  - simpl in Hst; subst h. destruct Hi as [Hsub _ _]. unfold remote_held; simpl. set_solver.
  - destruct Hst as [Hk Hst]. pose proof (keys_step_inv s k false h r Hi Hk Hop) as H1.
    destruct (keys_step s k false) as [s1 es]. destruct H1 as [H1 Hop1].
    specialize (IH s1 (h ∖ {[k]}) (remote_held r es) H1 Hst Hop1).
    destruct (reset_keys s1 order) as [s2 es']. by rewrite remote_app.
Qed.

(** A chord can only take keys off the remote side. *)
Lemma paste_inv caps protocol text s h r :
  keys_inv s h r → se_panelOpen s = false →
  let '(s', es, _) := onPaste caps protocol text s in keys_inv s' h (remote_held r es) ∧ se_panelOpen s' = false.
Proof.
  intros [Hsub Hpan Hv] Hop. unfold onPaste. rewrite Hop.
  assert (Hc : ∀ b : bool, remote_held r (if b then sendChord (pasteKeySequence protocol (mo_ctrl (se_mods s))) else []) ⊆ r).
  { intros []; [rewrite remote_chord; set_solver | done]. }
  assert (Hgo : ∀ b s', se_mods s' = se_mods s → se_panelOpen s' = false →
    keys_inv s' h (remote_held r (if b : bool then sendChord (pasteKeySequence protocol (mo_ctrl (se_mods s))) else [])) ∧ se_panelOpen s' = false).
  { intros b s' Hm Ho. specialize (Hc b). repeat split; [set_solver | congruence | | done].
    intros Hin. rewrite Hm. apply Hv. set_solver. }
  destruct (allowPasteIn caps); simpl; [|apply Hgo; done].
  destruct (pushLocal caps text (se_bridge s)) as [[b out] res].
  destruct (mo_shift (se_mods s) && mo_insert (se_mods s)); [apply (Hgo false); done|].
  destruct res; (apply (Hgo true); done) || (apply (Hgo false); done).
Qed.
Lemma inv_swap s s' h r : se_mods s' = se_mods s → se_panelOpen s' = se_panelOpen s → keys_inv s h r → keys_inv s' h r.
Proof. intros Hm Ho [H1 H2 H3]. split; rewrite ?Hm, ?Ho; done. Qed.

Lemma step_inv caps canRead canWrite protocol s e h r :
  keys_inv s h r → steady_event h (se_panelOpen s) e →
  let '(s', es, _) := session_step caps canRead canWrite protocol s e in
  keys_inv s' (pressed_step h (se_panelOpen s) e) (remote_held r es) ∧ se_panelOpen s' = panel_step (se_panelOpen s) e.
Proof.
  intros Hi Hst. destruct e as [k d|text|read|mime text|order|]; cbn -[keys_step onPaste syncFromBrowser onclipboard reset_keys].
  - destruct (se_panelOpen s) eqn:Ho.
    + split; [|done]. destruct Hi as [Hsub Hpan Hv]. specialize (Hpan Ho). subst r.
      unfold remote_held; simpl. split; [set_solver | done | set_solver].
    + pose proof (keys_step_inv s k d h r Hi Hst Ho) as H1. destruct (keys_step s k d) as [s' es]. exact H1.
  - destruct (se_panelOpen s) eqn:Ho.
    + unfold onPaste. rewrite Ho. done.
    + pose proof (paste_inv caps protocol text s h r Hi Ho) as H1. destruct (onPaste _ _ _ _) as [[s' es] cs]. exact H1.
  - destruct (syncFromBrowser _ _ _ _) as [b out]. split; [|done]. by eapply inv_swap, Hi.
  - destruct (onclipboard _ _ _ _ _) as [b out]. split; [|done]. by eapply inv_swap, Hi.
  - destruct (se_panelOpen s) eqn:Ho; [done|].
    pose proof (reset_inv order s h r Hi (Hst eq_refl) Ho) as H1. destruct (reset_keys s order) as [s' es]. rewrite H1.
    split; [|done]. split; cbn; set_solver.
  - split; [|done]. destruct Hi as [H1 H2 H3]. by split.
Qed.
Lemma run_inv caps canRead canWrite protocol es s h r :
  keys_inv s h r → steady h (se_panelOpen s) es →
  let '(s', out, _) := session_run caps canRead canWrite protocol s es in
  keys_inv s' (pressed_after h (se_panelOpen s) es) (remote_held r out).
Proof.
  revert s h r; induction es as [|e es IH]; intros s h r Hi Hst; cbn -[session_step]; [done|].
  destruct Hst as [He Hst]. pose proof (step_inv caps canRead canWrite protocol s e h r Hi He) as H1.
  destruct (session_step _ _ _ _ s e) as [[s1 ks] cs]. destruct H1 as [H1 Ho]. rewrite <- Ho in *.
  specialize (IH s1 _ _ H1 Hst). destruct (session_run _ _ _ _ s1 es) as [[s2 ks'] cs']. by rewrite remote_app.
Qed.

(** C32: no key sticks on the remote side: through any sequence of key events,
    pastes, clipboard synchronisations and openings of the clipboard panel in
    which no Ctrl or Alt key changes while V is down, the remote holds only keys
    the user holds; nothing is down once the user has let go, and nothing is down
    while the panel has the keyboard. *)
Theorem no_stuck_keys caps canRead canWrite protocol es :
  steady ∅ false es →
  let '(s', out, _) := session_run caps canRead canWrite protocol (session_start canRead) es in
  remote_held ∅ out ⊆ pressed_after ∅ false es ∧
  (pressed_after ∅ false es = ∅ → remote_held ∅ out = ∅) ∧
  (se_panelOpen s' = true → remote_held ∅ out = ∅).
Proof.
  intros Hst. assert (H0 : keys_inv (session_start canRead) ∅ ∅) by (split; done).
  pose proof (run_inv caps canRead canWrite protocol es _ ∅ ∅ H0 Hst) as H1.
  destruct (session_run _ _ _ _ _ es) as [[s' out] cs]. destruct H1 as [Hsub Hpan _].
  split; [exact Hsub|]. split; [|exact Hpan]. intros Hn. cbn [se_panelOpen session_start] in Hsub. set_solver.
Qed.

Definition demo_trace : list user_event :=
  [Key ctrlL true; Key key_v true; Paste "hunter2"; Key key_v false; Key ctrlL false; Key 97 true; OpenPanel [97]; Key 98 true; ClosePanel; Key 98 false].
Lemma no_stuck_keys_witness :
  remote_held ∅ (session_run {| allowCopyOut := true; allowPasteIn := true |} true true SSH (session_start true) demo_trace).1.2 = ∅.
Proof.
  pose proof (no_stuck_keys {| allowCopyOut := true; allowPasteIn := true |} true true SSH demo_trace) as H.
  destruct (session_run _ _ _ _ _ _) as [[s out] cs]. destruct H as (_ & H & _).
  - cbn -[elem_of union difference empty singleton key_v]. unfold steady_key.
    repeat split; try (intros E; vm_compute in E; discriminate E); try (intros _); repeat split;
      try (intros E; vm_compute in E; discriminate E); try (intros _); try exact (bool_decide_unpack _ I); vm_compute; reflexivity.
  - apply H. vm_compute; reflexivity.
Defined.

(** Pressing Ctrl while V is down: the release of V is taken for the paste
    gesture and not forwarded, and the remote repeats V when nothing is held. *)
Theorem release_swallowed caps canRead canWrite protocol :
  let trace := [Key key_v true; Key ctrlL true; Key key_v false; Key ctrlL false] in
  let '(_, out, _) := session_run caps canRead canWrite protocol (session_start canRead) trace in
  pressed_after ∅ false trace = ∅ ∧ remote_held ∅ out = {[key_v]}.
Proof. split; vm_compute; reflexivity. Qed.

(** With both Ctrl keys down, letting go of one makes the session forget the
    other: V is forwarded as a key and is not the paste gesture. *)
Theorem second_ctrl_forgotten caps canRead canWrite protocol :
  let trace := [Key ctrlL true; Key ctrlR true; Key ctrlR false] in
  let '(s, out, _) := session_run caps canRead canWrite protocol (session_start canRead) trace in
  remote_held ∅ out = {[ctrlL]} ∧ mo_ctrl (se_mods s) = false ∧
  (session_step caps canRead canWrite protocol s (Key key_v true)).1.2 = [press key_v].
Proof. split; [|split]; vm_compute; reflexivity. Qed.

(** ** The clipboard *)

Definition crossing_ok (caps : ClipboardCaps) (canWrite : bool) (c : Crossing) : Prop :=
  match c with
  | ToSession t => allowPasteIn caps = true ∧ t ≠ ""%string
  | ToBrowser _ => allowCopyOut caps = true ∧ canWrite = true
  end.
(** What the session's clipboard holds, whatever its type. *)
Definition clip_step (c : option string) (e : user_event) (out : list Crossing) : option string :=
  match e with
  | RemoteClipboard _ text => Some text
  | _ => fold_left (λ c x, match x with ToSession t => Some t | ToBrowser _ => c end) out c
  end.
Fixpoint clip_after caps canRead canWrite protocol (c : option string) (s : Session) (es : list user_event) : option string :=
  match es with
  | [] => c
  | e :: es' => let '(s1, _, out) := session_step caps canRead canWrite protocol s e in
                clip_after caps canRead canWrite protocol (clip_step c e out) s1 es'
  end.
Definition text_event (e : user_event) : Prop :=
  match e with RemoteClipboard mime _ => truthy mime && negb (startsWith "text/" mime) = false | _ => True end.

Lemma push_gated caps canWrite text b : Forall (crossing_ok caps canWrite) (pushLocal caps text b).1.2.
Proof.
  unfold pushLocal. destruct (allowPasteIn caps) eqn:Hp; simpl; [|constructor].
  destruct (truthy text) eqn:Ht; simpl; [|constructor]. case_bool_decide; simpl; [constructor|].
  constructor; [|constructor]. split; [done|]. intros ->. done.
Qed.
Lemma step_gated caps canRead canWrite protocol s e :
  Forall (crossing_ok caps canWrite) (session_step caps canRead canWrite protocol s e).2.
Proof.
  destruct e as [k d|text|read|mime text|order|]; cbn -[keys_step reset_keys onPaste syncFromBrowser onclipboard].
  - destruct (se_panelOpen s); constructor.
  - unfold onPaste. destruct (se_panelOpen s); [constructor|]. destruct (allowPasteIn caps) eqn:Hp; simpl; [|constructor].
    pose proof (push_gated caps canWrite text (se_bridge s)) as H. destruct (pushLocal _ _ _) as [[b out] res]. exact H.
  - unfold syncFromBrowser. destruct (negb _ || negb _); [constructor|]. destruct read as [t|]; [|constructor].
    destruct (truthy t); [|constructor].
    match goal with |- context [pushLocal _ _ ?b] => pose proof (push_gated caps canWrite t b) as H end.
    destruct (pushLocal _ _ _) as [[b out] res]. exact H.
  - unfold onclipboard. destruct (truthy mime && _); [constructor|]. destruct (allowCopyOut caps && canWrite) eqn:E; simpl; [|constructor].
    apply andb_true_iff in E. constructor; [done | constructor].
  - destruct (se_panelOpen s); [constructor|]. destruct (reset_keys s order) as [s1 es]. constructor.
  - constructor.
Qed.

(** The clipboard crosses only where the resource allows it: in any run of
    a session, text goes to the session only when pasting in is allowed and never
    empty, and to the browser only when copying out is allowed. *)
Theorem clipboard_gated caps canRead canWrite protocol s es :
  Forall (crossing_ok caps canWrite) (session_run caps canRead canWrite protocol s es).2.
Proof.
  revert s; induction es as [|e es IH]; intros s; cbn -[session_step]; [constructor|].
  pose proof (step_gated caps canRead canWrite protocol s e) as H1. destruct (session_step _ _ _ _ s e) as [[s1 ks] cs].
  specialize (IH s1). destruct (session_run _ _ _ _ s1 es) as [[s2 ks'] cs']. apply Forall_app; done.
Qed.

(** While only text is copied on the remote side, the bridge remembers what the
    session's clipboard holds. *)
Lemma push_tracks caps text b c out b' res :
  br_lastPushed b = c → pushLocal caps text b = (b', out, res) →
  br_lastPushed b' = fold_left (λ c x, match x with ToSession t => Some t | ToBrowser _ => c end) out c ∧
  (allowPasteIn caps = true → truthy text = true → br_lastPushed b' = Some text).
Proof.
  unfold pushLocal. intros <- Hp. destruct (allowPasteIn caps); simpl in Hp; [|by simplify_eq].
  destruct (truthy text); simpl in Hp; [|by simplify_eq].
  case_bool_decide as E; simplify_eq; simpl; split; done.
Qed.
Lemma step_tracks caps canRead canWrite protocol s e c :
  br_lastPushed (se_bridge s) = c → text_event e →
  let '(s', _, out) := session_step caps canRead canWrite protocol s e in br_lastPushed (se_bridge s') = clip_step c e out.
Proof.
  intros Hc He. destruct e as [k d|text|read|mime text|order|]; cbn -[keys_step reset_keys onPaste syncFromBrowser onclipboard].
  - destruct (se_panelOpen s); [done|]. unfold keys_step. by destruct (on_key k d (se_mods s)).
  - unfold onPaste. destruct (se_panelOpen s); [done|]. destruct (allowPasteIn caps) eqn:Hp; simpl; [|done].
    destruct (pushLocal caps text (se_bridge s)) as [[b out] res] eqn:E. by eapply push_tracks in E as [H _].
  - unfold syncFromBrowser. destruct (negb _ || negb _); [done|]. destruct read as [t|]; [|done].
    destruct (truthy t); [|done].
    match goal with |- context [pushLocal ?a ?b ?d] => destruct (pushLocal a b d) as [[b' out] res] eqn:E end.
    eapply push_tracks in E as [H _]; [exact H | exact Hc].
  - unfold onclipboard. simpl in He. rewrite He. done.
  - destruct (se_panelOpen s); [done|].
    assert (Hr : ∀ l s0, se_bridge (reset_keys s0 l).1 = se_bridge s0).
    { induction l as [|k l IH]; intros s0; cbn -[keys_step]; [done|]. specialize (IH (keys_step s0 k false).1).
      unfold keys_step in *. destruct (on_key k false (se_mods s0)) as [m es]; cbn [fst] in IH.
      destruct (reset_keys _ l); cbn [fst] in *. exact IH. }
    specialize (Hr order s). destruct (reset_keys s order) as [s1 es]; cbn [fst] in Hr. cbn. by rewrite Hr.
  - done.
Qed.
Lemma run_tracks caps canRead canWrite protocol es s c :
  br_lastPushed (se_bridge s) = c → Forall text_event es →
  br_lastPushed (se_bridge (session_run caps canRead canWrite protocol s es).1.1) = clip_after caps canRead canWrite protocol c s es.
Proof.
  revert s c; induction es as [|e es IH]; intros s c Hc Hf; cbn -[session_step]; [done|].
  apply Forall_cons in Hf as [He Hf]. pose proof (step_tracks caps canRead canWrite protocol s e c Hc He) as H1.
  destruct (session_step _ _ _ _ s e) as [[s1 ks] out]. specialize (IH s1 _ H1 Hf).
  destruct (session_run _ _ _ _ s1 es) as [[s2 ks'] cs']. exact IH.
Qed.

(** A paste pastes what the user copied: when pasting in is allowed and the
    remote side has copied only text, a paste of a text that is not empty leaves
    exactly that text on the session's clipboard, whether or not it had to be sent
    again, and then strikes the paste chord of the protocol (nothing, when the
    gesture was Shift+Insert, which the remote has seen). *)
Theorem paste_inserts caps canRead canWrite protocol es text :
  allowPasteIn caps = true → truthy text = true → Forall text_event es →
  let s := (session_run caps canRead canWrite protocol (session_start canRead) es).1.1 in
  se_panelOpen s = false →
  let '(s', keys, out) := session_step caps canRead canWrite protocol s (Paste text) in
  clip_step (clip_after caps canRead canWrite protocol None (session_start canRead) es) (Paste text) out = Some text ∧
  keys = (if mo_shift (se_mods s) && mo_insert (se_mods s) then [] else sendChord (pasteKeySequence protocol (mo_ctrl (se_mods s)))).
Proof.
  intros Hp Ht Hf s Ho. pose proof (run_tracks caps canRead canWrite protocol es (session_start canRead) None eq_refl Hf) as Hrun.
  fold s in Hrun. unfold session_step, onPaste. rewrite Ho, Hp. cbn [negb].
  destruct (pushLocal caps text (se_bridge s)) as [[b out] res] eqn:E.
  pose proof (push_tracks _ _ _ _ _ _ _ Hrun E) as [H1 H2]. split.
  - unfold clip_step. rewrite <- H1. by apply H2.
  - destruct (_ && _); [done|]. unfold pushLocal in E. rewrite Hp, Ht in E. simpl in E. case_bool_decide; simplify_eq; done.
Qed.
Lemma paste_inserts_witness :
  let caps := {| allowCopyOut := true; allowPasteIn := true |} in
  let s := (session_run caps true true SSH (session_start true) [RemoteClipboard "text/plain" "a"; Key ctrlL true]).1.1 in
  (session_step caps true true SSH s (Paste "b")).1.2 = [press shiftL; press key_V; release key_V; release shiftL].
Proof.
  assert (Hf : Forall text_event [RemoteClipboard "text/plain" "a"; Key ctrlL true]) by (repeat constructor).
  pose proof (paste_inserts {| allowCopyOut := true; allowPasteIn := true |} true true SSH
    [RemoteClipboard "text/plain" "a"; Key ctrlL true] "b" eq_refl eq_refl Hf eq_refl) as H.
  cbv zeta. destruct (session_step _ _ _ _ _ _) as [[s' keys] out]. destruct H as [_ H]. exact H.
Defined.

(** A picture copied on the remote side replaces the session's clipboard but is
    not remembered: the text last pasted is then not sent again, and the paste
    chord inserts the picture. *)
Theorem image_keeps_stale caps canRead canWrite protocol :
  allowPasteIn caps = true →
  let es := [Paste "x"; RemoteClipboard "image/png" "..."] in
  let s := (session_run caps canRead canWrite protocol (session_start canRead) es).1.1 in
  let '(_, keys, out) := session_step caps canRead canWrite protocol s (Paste "x") in
  out = [] ∧ keys ≠ [] ∧ clip_step (clip_after caps canRead canWrite protocol None (session_start canRead) es) (Paste "x") out = Some "..."%string.
Proof.
  destruct caps as [co pi]. simpl. intros ->. destruct protocol, canRead, canWrite, co; vm_compute; repeat split; congruence.
Qed.

(** ** The on-screen keyboard of the isolated browser *)

(** The code of a key does not depend on Shift. *)
Definition code_of (k : Z) : option string := dk_code <$> keysymToDomKey k false.
Lemma code_shift_free k b : dk_code <$> keysymToDomKey k b = code_of k.
Proof.
  unfold code_of, keysymToDomKey. destruct (assoc k SPECIAL); [done|].
  repeat match goal with |- context [if ?c then _ else _] => lazymatch c with b => fail | _ => destruct c end end; done.
Qed.
Definition layout : list KeyDef := concat KEYBOARD_ROWS.
Lemma layout_coded : forallb (λ k, match code_of (kd_keysym k) with Some _ => true | None => false end) layout = true.
Proof. vm_compute; reflexivity. Qed.
Definition coded (k : Z) : Prop := is_Some (code_of k).
Definition code (k : Z) : string := default ""%string (code_of k).

Lemma send_edges es m :
  Forall (λ e, coded (ke_keysym e)) es →
  map dom_edge (send_all es m).2 = map (λ e, (code (ke_keysym e), ke_pressed e)) es.
Proof.
  revert m; induction es as [|e es IH]; intros m Hf; cbn -[keysymToDomKey]; [done|].
  apply Forall_cons in Hf as [[c Hc] Hf]. pose proof (code_shift_free (ke_keysym e) (iso_shift (iso_track (ke_keysym e) (ke_pressed e) m))) as Hs.
  specialize (IH (iso_track (ke_keysym e) (ke_pressed e) m) Hf). unfold sendKeysym. cbn -[keysymToDomKey] in *.
  destruct (keysymToDomKey _ _) as [i|]; [|rewrite Hc in Hs; discriminate].
  destruct (send_all es _) as [m2 ds]; cbn in *. unfold code, dom_edge at 1; cbn. rewrite IH, <- Hs. done.
Qed.
Lemma armed_coded s : Forall coded (armed s).
Proof. unfold armed. destruct (m_ctrl s), (m_alt s), (m_shift s); repeat constructor; by eexists; vm_compute. Qed.
Lemma layout_key_coded k : k ∈ layout → coded (kd_keysym k).
Proof.
  intros Hk. pose proof layout_coded as H. rewrite forallb_forall in H. specialize (H k (proj1 (list_elem_of_In _ _) Hk)).
  unfold coded. destruct (code_of _); [by eexists | done].
Qed.
Lemma chord_coded ks : Forall coded ks → Forall (λ e, coded (ke_keysym e)) (sendChord ks).
Proof.
  intros H. unfold sendChord. apply Forall_app. split; apply Forall_fmap; [exact H|].
  by rewrite <- Permutation_rev.
Qed.
Lemma click_codes s k :
  k ∈ layout →
  Forall (λ e, coded (ke_keysym e)) (applyKey s k).1 ∧
  ∀ h : gset string, held_after h (map (λ e, (code (ke_keysym e), ke_pressed e)) (applyKey s k).1) ⊆ h.
Proof.
  intros Hk. rewrite applyKey_chord. destruct (kd_modifier k).
  { split; [constructor | done]. }
  split.
  - apply chord_coded, Forall_app. split; [apply armed_coded|]. repeat constructor. by apply layout_key_coded.
  - intros h. unfold sendChord. rewrite map_app, !map_map. cbn.
    rewrite <- (map_map code (λ c, (c, true))), <- (map_map code (λ c, (c, false)) (rev _)), map_rev, held_chord. set_solver.
Qed.
Lemma type_keys_codes s ks :
  Forall (λ k, k ∈ layout) ks →
  Forall (λ e, coded (ke_keysym e)) (type_keys s ks).1 ∧
  ∀ h : gset string, held_after h (map (λ e, (code (ke_keysym e), ke_pressed e)) (type_keys s ks).1) ⊆ h.
Proof.
  revert s; induction ks as [|k ks IH]; intros s Hf; cbn -[applyKey]; [split; [constructor | done]|].
  apply Forall_cons in Hf as [Hk Hf]. pose proof (click_codes s k Hk) as [H1 H2].
  destruct (applyKey s k) as [e s']. specialize (IH s' Hf) as [H3 H4]. destruct (type_keys s' ks) as [es s''].
  cbn [fst] in *. split; [by apply Forall_app|]. intros h. rewrite map_app, held_app. etrans; [apply H4 | apply H2].
Qed.

(** Typing on the on-screen keyboard reaches the isolated browser whole:
    whatever keys of the layout are clicked, every press and every release is
    dispatched as a keyboard event, with the same physical code on both edges
    whatever Shift does between them, and no code is left down. *)
Theorem isolated_types s ks m :
  Forall (λ k, k ∈ layout) ks →
  let es := (type_keys s ks).1 in
  map dom_edge (send_all es m).2 = map (λ e, (code (ke_keysym e), ke_pressed e)) es ∧
  held_after ∅ (map dom_edge (send_all es m).2) = ∅.
Proof.
  intros Hf es. destruct (type_keys_codes s ks Hf) as [H1 H2]. pose proof (send_edges es m H1) as He.
  split; [exact He|]. rewrite He. specialize (H2 ∅). set_solver.
Qed.
Lemma isolated_types_witness :
  Forall (λ k, k ∈ layout) [mod_def "Shift" KEY_shift MShift; char_key "a"] ∧
  held_after ∅ (map dom_edge (send_all (type_keys EMPTY_MODS [mod_def "Shift" KEY_shift MShift; char_key "a"]).1 iso_none).2) = ∅.
Proof.
  assert (Hf : Forall (λ k, k ∈ layout) [mod_def "Shift" KEY_shift MShift; char_key "a"]).
  { apply Forall_cons; split; [exact (list_elem_of_lookup_2 layout 54 _ eq_refl)|].
    apply Forall_cons; split; [exact (list_elem_of_lookup_2 layout 42 _ eq_refl) | constructor]. }
  split; [exact Hf|]. exact (proj2 (isolated_types EMPTY_MODS [mod_def "Shift" KEY_shift MShift; char_key "a"] iso_none Hf)).
Defined.

(** The shifted digits of the table of shifted punctuation lead to a digit, which
    the table of punctuation does not have: they have no event at all. *)
Theorem shifted_digits_dropped :
  filter (λ k, keysymToDomKey k true = None) (seqZ 0x20 95) = map charKeysym ["!"; "#"; "$"; "%"; "&"; "("; ")"; "*"; "@"; "^"]%string.
Proof. vm_compute; reflexivity. Qed.
