(* ===== verification/SiteForm.v ===== *)
(** * The resource form of the console

    The form that creates and edits a resource
    (app/(app)/admin/sites/site-form.tsx), with the Guacamole fields
    (components/guac-params-fields.tsx) and the page that opens it on a stored
    resource (admin/sites/[id]/edit/page.tsx), composed with the routes that
    save it ([Sites]).  The body travels as JSON: members that are undefined
    disappear and numbers that are not finite become null ([json_wire]). *)

From S2P Require Import Prelude JsString JsValue Schema AdminLog Identity Settings Gateway Tenant Sites.

#[local] Arguments obj_get : simpl never.

(** ** The Guacamole fields *)

Record GuacFields := {
  f_serverLayout : string;
  f_colorDepth : string;
  f_enableWallpaper : string;
  f_enableTheming : string;
  f_enableFontSmoothing : string;
  f_enableFullWindowDrag : string;
  f_fileTransfer : string;
  f_blockUpload : string;
  f_audio : string;
  f_printing : string;
  f_terminalFontSize : string;
  f_terminalColorScheme : string;
  f_terminalScrollback : string;
  f_blockDownload : string;
  f_sftpRoot : string;
  f_rdpSecurity : string;
}.

Definition tri (b : option bool) : string := match b with None => "" | Some true => "on" | Some false => "off" end.
Definition paramsToGuacFields (p : GuacParams) : GuacFields :=
  {| f_serverLayout := serverLayout p ?? "";
     f_colorDepth := match colorDepth p with Some z => if z =? 0 then "" else dec z | None => "" end;
     f_enableWallpaper := tri (enableWallpaper p);
     f_enableTheming := tri (enableTheming p);
     f_enableFontSmoothing := tri (enableFontSmoothing p);
     f_enableFullWindowDrag := tri (enableFullWindowDrag p);
     f_fileTransfer := tri (enableFileTransfer p);
     f_blockUpload := tri (blockUpload p);
     f_audio := match disableAudio p with None => "" | Some true => "off" | Some false => "on" end;
     f_printing := tri (enablePrinting p);
     f_terminalFontSize := match terminalFontSize p with Some z => dec z | None => "" end;
     f_terminalColorScheme := terminalColorScheme p ?? "";
     f_terminalScrollback := match terminalScrollback p with Some z => dec z | None => "" end;
     f_blockDownload := tri (blockDownload p);
     f_sftpRoot := sftpRoot p ?? "";
     f_rdpSecurity := rdpSecurity p ?? "" |}.

(** A member that is set when its field is. *)
Definition text_member (s : string) : option json := if truthy s then Some (JStr s) else None.
Definition triToBool (v : string) : option json :=
  if v =s "on" then Some (JBool true) else if v =s "off" then Some (JBool false) else None.
Definition trimmed_member (s : string) : option json := if truthy (trim s) then Some (JStr (trim s)) else None.
Definition number_member (s : string) : option json := if truthy (trim s) then Some (JNum (Number s)) else None.
Definition guac_members (f : GuacFields) : list (string * option json) :=
  [("serverLayout", text_member (f_serverLayout f));
   ("colorDepth", if truthy (f_colorDepth f) then Some (JNum (Number (f_colorDepth f))) else None);
   ("enableWallpaper", triToBool (f_enableWallpaper f)); ("enableTheming", triToBool (f_enableTheming f));
   ("enableFontSmoothing", triToBool (f_enableFontSmoothing f)); ("enableFullWindowDrag", triToBool (f_enableFullWindowDrag f));
   ("enableFileTransfer", triToBool (f_fileTransfer f)); ("blockUpload", triToBool (f_blockUpload f));
   ("blockDownload", triToBool (f_blockDownload f)); ("sftpRoot", trimmed_member (f_sftpRoot f));
   ("disableAudio", if f_audio f =s "off" then Some (JBool true) else if f_audio f =s "on" then Some (JBool false) else None);
   ("enablePrinting", triToBool (f_printing f)); ("terminalFontSize", number_member (f_terminalFontSize f));
   ("terminalColorScheme", text_member (f_terminalColorScheme f)); ("terminalScrollback", number_member (f_terminalScrollback f));
   ("rdpSecurity", text_member (f_rdpSecurity f))]%string.
Definition guacFieldsToParams (f : GuacFields) : json := members (guac_members f).

(** ** The state of the form *)

Inductive WatermarkChoice := WInherit | WOn | WOff.
Record SiteForm := {
  sf_connectorId : string;
  sf_name : string;
  sf_hostname : string;
  sf_customDomain : bool;
  sf_upstreamUrl : string;
  sf_description : string;
  sf_insecureSkipVerify : bool;
  sf_recordSessions : bool;
  sf_keystrokeLogging : bool;
  sf_clipboardMode : string;
  sf_watermark : WatermarkChoice;
  sf_fileTransferMode : string;
  sf_accessMode : AccessMode;
  sf_protocol : string;
  sf_targetHost : string;
  sf_targetPort : string;
  sf_username : string;
  sf_secret : string;
  sf_guac : GuacFields;
  sf_logo : json;
  sf_logoType : json;
}.

(** The label shown for a stored hostname: without the suffix the server owns. *)
Definition shown_label (suffix : option string) (host : string) : string :=
  let x := suffix ?? "" in
  if truthy host && truthy x && endsWith x host then slice_to (length (chars host) - length (chars x)) host else host.
(** [getVaultCredentialMeta], which the page asks for a remote session only. *)
Definition vault_meta (s : SiteRow) (db : SitesDb) : option VaultCredential :=
  match st_accessMode s with GATEWAY => vault_of (st_id s) db | _ => None end.
(** The fields seeded from the credential; the secret is never sent here. *)
Definition open_form (suffix : option string) (connectors : list string) (site : option SiteRow) (vault : option VaultCredential)
    : SiteForm :=
  {| sf_connectorId := match site with Some s => st_connectorId s | None => hd "" connectors end;
     sf_name := match site with Some s => st_name s | None => "" end;
     sf_hostname := match site with Some s => shown_label suffix (st_hostname s ?? "") | None => "" end;
     sf_customDomain := match site with Some s => st_customDomain s | None => false end;
     sf_upstreamUrl := match site with Some s => st_upstreamUrl s ?? "" | None => "" end;
     sf_description := match site with Some s => st_description s ?? "" | None => "" end;
     sf_insecureSkipVerify := match site with Some s => st_insecureSkipVerify s | None => false end;
     sf_recordSessions := match site with Some s => st_recordSessions s | None => false end;
     sf_keystrokeLogging := match site with Some s => st_keystrokeLogging s | None => false end;
     sf_clipboardMode := match site with Some s => st_clipboardMode s ?? "inherit" | None => "inherit" end;
     sf_watermark := match site with
                     | Some s => match st_watermark s with None => WInherit | Some true => WOn | Some false => WOff end
                     | None => WInherit
                     end;
     sf_fileTransferMode := match site with Some s => st_fileTransferMode s | None => "none" end;
     sf_accessMode := match site with Some s => st_accessMode s | None => TRANSPARENT end;
     sf_protocol := match vault with Some c => protocol_name (vc_protocol c) | None => "RDP" end;
     sf_targetHost := match vault with Some c => vc_targetHost c | None => "" end;
     sf_targetPort := match vault with Some c => dec (vc_targetPort c) | None => "3389" end;
     sf_username := match vault with Some c => vc_username c | None => "" end;
     sf_secret := "";
     sf_guac := paramsToGuacFields (parseGuacParams (match vault with Some c => vc_guacParams c | None => JUndefined end));
     sf_logo := JUndefined; sf_logoType := JUndefined |}.

(** The fields whose change does more than store the value: the protocol also
    sets its standard port, the type is coerced, a logo is read from a file. *)
Definition defaultPort (protocol : string) : Z := if protocol =s "SSH" then 22 else if protocol =s "VNC" then 5900 else 3389.
Definition choose_protocol (p : string) (f : SiteForm) : SiteForm :=
  {| sf_connectorId := sf_connectorId f; sf_name := sf_name f; sf_hostname := sf_hostname f; sf_customDomain := sf_customDomain f;
     sf_upstreamUrl := sf_upstreamUrl f; sf_description := sf_description f; sf_insecureSkipVerify := sf_insecureSkipVerify f;
     sf_recordSessions := sf_recordSessions f; sf_keystrokeLogging := sf_keystrokeLogging f; sf_clipboardMode := sf_clipboardMode f;
     sf_watermark := sf_watermark f; sf_fileTransferMode := sf_fileTransferMode f; sf_accessMode := sf_accessMode f;
     sf_protocol := p; sf_targetHost := sf_targetHost f; sf_targetPort := dec (defaultPort p); sf_username := sf_username f;
     sf_secret := sf_secret f; sf_guac := sf_guac f; sf_logo := sf_logo f; sf_logoType := sf_logoType f |}.
Definition mode_of_text (t : string) : AccessMode := if t =s "GATEWAY" then GATEWAY else if t =s "ISOLATED" then ISOLATED else TRANSPARENT.
Definition mode_text (m : AccessMode) : string := match m with TRANSPARENT => "TRANSPARENT" | GATEWAY => "GATEWAY" | ISOLATED => "ISOLATED" end.
Definition with_logo (logo logoType : json) (f : SiteForm) : SiteForm :=
  {| sf_connectorId := sf_connectorId f; sf_name := sf_name f; sf_hostname := sf_hostname f; sf_customDomain := sf_customDomain f;
     sf_upstreamUrl := sf_upstreamUrl f; sf_description := sf_description f; sf_insecureSkipVerify := sf_insecureSkipVerify f;
     sf_recordSessions := sf_recordSessions f; sf_keystrokeLogging := sf_keystrokeLogging f; sf_clipboardMode := sf_clipboardMode f;
     sf_watermark := sf_watermark f; sf_fileTransferMode := sf_fileTransferMode f; sf_accessMode := sf_accessMode f;
     sf_protocol := sf_protocol f; sf_targetHost := sf_targetHost f; sf_targetPort := sf_targetPort f; sf_username := sf_username f;
     sf_secret := sf_secret f; sf_guac := sf_guac f; sf_logo := logo; sf_logoType := logoType |}.
(** A picked file of [size] bytes, read as the data URL [url]; [inl]: the error. *)
Definition onLogoFile (size : Z) (url type_ : string) (f : SiteForm) : string + SiteForm :=
  if 200 * 1024 <? size then inl "The logo must be 200 KB or smaller."%string else inr (with_logo (JStr url) (JStr type_) f).
Definition removeLogo (f : SiteForm) : SiteForm := with_logo JNull JUndefined f.

(** ** What the form shows *)

Definition effectiveRecord (recordingMode : string) (f : SiteForm) : bool :=
  let '(locked, forcedValue) := recordToggleLock recordingMode in if locked then forcedValue ?? false else sf_recordSessions f.
(** Whether the keystroke box is shown and can be changed. *)
Definition keystroke_box (recordingEnabled : bool) (recordingMode : string) (keystrokeMode : string) (f : SiteForm) : bool :=
  recordingEnabled && bool_decide (sf_accessMode f = GATEWAY) && effectiveRecord recordingMode f &&
  negb (keystrokeMode =s "off") && negb (keystrokeMode =s "required").

(** ** Saving *)

Definition watermark_json (w : WatermarkChoice) : json := match w with WInherit => JNull | WOn => JBool true | WOff => JBool false end.
Definition form_members (f : SiteForm) : list (string * json) :=
  [("connectorId", JStr (sf_connectorId f)); ("name", JStr (sf_name f)); ("accessMode", JStr (mode_text (sf_accessMode f)));
   ("hostname", JStr (sf_hostname f)); ("customDomain", JBool (sf_customDomain f)); ("upstreamUrl", JStr (sf_upstreamUrl f));
   ("description", if truthy (trim (sf_description f)) then JStr (trim (sf_description f)) else JUndefined);
   ("insecureSkipVerify", JBool (sf_insecureSkipVerify f)); ("recordSessions", JBool (sf_recordSessions f));
   ("keystrokeLogging", JBool (sf_keystrokeLogging f)); ("clipboardMode", JStr (sf_clipboardMode f));
   ("watermark", watermark_json (sf_watermark f)); ("fileTransferMode", JStr (sf_fileTransferMode f))]%string ++
  (if bool_decide (sf_accessMode f = GATEWAY) then
     [("protocol", JStr (sf_protocol f)); ("targetHost", JStr (sf_targetHost f)); ("targetPort", JNum (Number (sf_targetPort f)));
      ("username", JStr (sf_username f)); ("secret", JStr (sf_secret f)); ("guacParams", guacFieldsToParams (sf_guac f))]%string
   else []) ++
  [("logo", sf_logo f); ("logoType", sf_logoType f)]%string.
Definition submit_body (f : SiteForm) : json := json_wire (JObj (form_members f)).

Definition errorMessage (code : string) (isEdit : bool) : string :=
  if code =s "connector_name_upstream_required" then "Connector, name, and internal address are required." else
  if code =s "invalid_hostname" then "A public hostname is required." else
  if code =s "invalid_upstream_url" then "The internal address must be a valid http:// or https:// URL." else
  if code =s "connector_not_found" then "Select a valid connector." else
  if code =s "hostname_taken" then "That public hostname is already used by another site." else
  if code =s "remote_desktop_fields_required" then "Fill protocol, host, port, username, and password." else
  if code =s "invalid_protocol" then "Pick a protocol (RDP, SSH, or VNC)." else
  if code =s "invalid_port" then "Port must be between 1 and 65535." else
  if code =s "native_gateway_disabled" then "Remote session gateway is not enabled." else
  if code =s "connector_name_required" then "Connector and name are required." else
  if code =s "forbidden" then "Admin privileges are required for this action." else
  if code =s "limit_reached" then "Your plan's resource limit is reached — contact your platform operator to raise it." else
  if isEdit then "Couldn't save the resource, please try again." else "Couldn't create the resource, please try again.".

Section saving.
Context (parse_url : string → option Url) (from_base64 : string → string).
Context (encrypt : string → string).
Context (frac_text : Z → string) (digest : string → string) (json_store : json → json).

(** [handleSubmit]: the tables after the call, and the error shown if any. *)
Definition handleSubmit (between : SitesDb → SitesDb) (rq : SiteReq) (site : option string) (f : SiteForm) (db : SitesDb)
    : SitesDb * option string :=
  match site with
  | Some id =>
      match sitePatch parse_url from_base64 encrypt frac_text digest json_store between rq id (submit_body f) db with
      | (db', Reply _ _) => (db', None)
      | (db', Fail _ e) => (db', Some (errorMessage e true))
      end
  | None =>
      match sitesPost parse_url from_base64 encrypt frac_text digest json_store between rq (submit_body f) db with
      | (db', Reply _ id) => (db', if truthy id then None else Some (errorMessage "" false))
      | (db', Fail _ e) => (db', Some (errorMessage e false))
      end
  end.
(** Opening the form on a stored resource. *)
Definition edit_form (rq : SiteReq) (s : SiteRow) (db : SitesDb) : SiteForm :=
  open_form (sq_suffix rq) [] (Some s) (vault_meta s db).
End saving.

(** ** Theorems: the Guacamole fields *)

Lemma wire_get fs k v :
  NoDup fs.*1 → (k, v) ∈ fs → obj_get (json_wire (JObj fs)) k = match v with JUndefined => JUndefined | _ => json_wire v end.
Proof.
  cbn [json_wire]. induction fs as [|[x w] fs IH]; intros Hnd Hin; [by apply elem_of_nil in Hin|].
  rewrite fmap_cons in Hnd. apply NoDup_cons in Hnd as [Hx Hnd]. cbn [flat_map fst snd].
  assert (Hno : ∀ l, x ∉ l.*1 → obj_get (JObj (flat_map (λ p, match p.2 with JUndefined => [] | _ => [(p.1, json_wire p.2)] end) l)) x = JUndefined).
  { clear. induction l as [|[y w] l IH]; intros H; [done|]. cbn in H. cbn [flat_map fst snd].
    assert (x ≠ y ∧ x ∉ l.*1) as [? ?] by set_solver.
    destruct w; cbn [app]; rewrite ?obj_get_cons, ?decide_False by done; by apply IH. }
  apply elem_of_cons in Hin as [[= -> ->]|Hin].
  - destruct w; cbn [app]; [by apply Hno|..]; by rewrite obj_get_cons, decide_True.
  - assert (x ≠ k) as Hne. { intros ->. apply Hx. by apply (list_elem_of_fmap_2 fst) in Hin. }
    destruct w; cbn [app]; rewrite ?obj_get_cons, ?decide_False by done; by apply IH.
Qed.

(** A scalar that JSON can express travels as itself. *)
Definition scalar (v : json) : bool :=
  match v with JBool _ | JStr _ | JNull => true | JNum n => isFinite n | _ => false end.
Lemma wire_members (fs : list (string * option json)) :
  Forall (λ f, ∀ v, f.2 = Some v → scalar v = true) fs → json_wire (members fs) = members fs.
Proof.
  unfold members. cbn [json_wire]. intros H. f_equal. induction H as [|[k [v|]] fs Hv Hf IH]; [done| |exact IH].
  cbn [omap list_omap fst snd fmap option_fmap option_map]. cbn [flat_map fst snd]. rewrite IH. specialize (Hv v eq_refl).
  destruct v; cbn in *; try done. by rewrite Hv.
Qed.

Lemma truthy_in (s : string) l : s ∈ l → forallb truthy l = true → truthy s = true.
Proof. intros Hin%list_elem_of_In H. rewrite forallb_forall in H. by apply H. Qed.
Lemma text_back l o : (∀ s, o = Some s → s ∈ l) → forallb truthy l = true → text_member (o ?? "") = JStr <$> o.
Proof. intros H Hl. destruct o as [s|]; [|done]. cbn. unfold text_member. by rewrite (truthy_in s l) by auto. Qed.
Lemma tri_back o : triToBool (tri o) = JBool <$> o.
Proof. by destruct o as [[]|]. Qed.
Lemma audio_back o :
  (let v := match o with None => "" | Some true => "off" | Some false => "on" end in
   if v =s "off" then Some (JBool true) else if v =s "on" then Some (JBool false) else None) = JBool <$> o.
Proof. by destruct o as [[]|]. Qed.
Lemma dec_trim z : 0 ≤ z → trim (dec z) = dec z.
Proof. intros Hz. unfold trim. rewrite trim_digits by by apply dec_digits. apply unchars_chars. Qed.
Lemma dec_truthy z : 0 < z → truthy (dec z) = true.
Proof.
  intros Hz. unfold truthy. apply negb_true_iff, bool_decide_eq_false_2. intros H.
  pose proof (dec_val z ltac:(lia)) as Hd. rewrite H in Hd. cbn in Hd. lia.
Qed.
Lemma number_back lo hi o :
  0 < lo → (∀ z, o = Some z → lo ≤ z ≤ hi) →
  number_member (match o with Some z => dec z | None => "" end) = (λ z, JNum (NInt z)) <$> o.
Proof.
  intros Hlo H. destruct o as [z|]; [|done]. specialize (H z eq_refl). unfold number_member.
  rewrite dec_trim, dec_truthy, Number_dec by lia. done.
Qed.
Lemma depth_back o :
  (∀ z, o = Some z → z ∈ DEPTHS) →
  (let d := match o with Some z => if z =? 0 then ""%string else dec z | None => ""%string end in
   if truthy d then Some (JNum (Number d)) else None) = (λ z, JNum (NInt z)) <$> o.
Proof.
  intros H. destruct o as [z|]; [|done]. specialize (H z eq_refl).
  repeat (apply elem_of_cons in H as [->|H]; [vm_compute; reflexivity|]). by apply elem_of_nil in H.
Qed.
Lemma root_back o :
  (∀ s, o = Some s → trim s = s ∧ startsWith "/" s = true ∧ js_length s ≤ 1024 ∧ existsb is_control (chars s) = false) →
  trimmed_member (o ?? "") = JStr <$> o.
Proof.
  intros H. destruct o as [s|]; [|done]. destruct (H s eq_refl) as (Ht & Hs & _). unfold trimmed_member. change (Some s ?? _) with s. rewrite Ht.
  destruct (truthy s) eqn:E; [done|]. unfold truthy in E. apply negb_false_iff, bool_decide_eq_true_1 in E. subst s. done.
Qed.

Lemma form_guac_members p : wf_guac p → guac_members (paramsToGuacFields p) =
  [("serverLayout", JStr <$> serverLayout p); ("colorDepth", (λ z, JNum (NInt z)) <$> colorDepth p);
   ("enableWallpaper", JBool <$> enableWallpaper p); ("enableTheming", JBool <$> enableTheming p);
   ("enableFontSmoothing", JBool <$> enableFontSmoothing p); ("enableFullWindowDrag", JBool <$> enableFullWindowDrag p);
   ("enableFileTransfer", JBool <$> enableFileTransfer p); ("blockUpload", JBool <$> blockUpload p);
   ("blockDownload", JBool <$> blockDownload p); ("sftpRoot", JStr <$> sftpRoot p); ("disableAudio", JBool <$> disableAudio p);
   ("enablePrinting", JBool <$> enablePrinting p); ("terminalFontSize", (λ z, JNum (NInt z)) <$> terminalFontSize p);
   ("terminalColorScheme", JStr <$> terminalColorScheme p); ("terminalScrollback", (λ z, JNum (NInt z)) <$> terminalScrollback p);
   ("rdpSecurity", JStr <$> rdpSecurity p)]%string.
Proof.
  intros [W1 W2 W3 W4 W5 W6 W7]. unfold guac_members. cbn [paramsToGuacFields f_serverLayout f_colorDepth f_enableWallpaper f_enableTheming
    f_enableFontSmoothing f_enableFullWindowDrag f_fileTransfer f_blockUpload f_audio f_printing f_terminalFontSize f_terminalColorScheme
    f_terminalScrollback f_blockDownload f_sftpRoot f_rdpSecurity].
  rewrite !tri_back, (text_back LAYOUTS), (text_back SCHEMES), (text_back RDP_SECURITY), root_back, (number_back 8 32), (number_back 100 100000)
    by (done || lia || (vm_compute; reflexivity)).
  pose proof (depth_back _ W2) as Hd. cbv zeta in Hd. rewrite Hd. pose proof (audio_back (disableAudio p)) as Ha. cbv zeta in Ha. rewrite Ha. done.
Qed.

(** The Guacamole fields lose nothing: stored parameters shown in the form
    and sent back as JSON are read by the server as the same parameters, an
    explicit off included, which is not the same as unset. *)
Lemma guac_form_roundtrip p : wf_guac p → parseGuacParams (json_wire (guacFieldsToParams (paramsToGuacFields p))) = p.
Proof.
  intros W. unfold guacFieldsToParams. rewrite form_guac_members by done. rewrite wire_members.
  2: { repeat constructor; cbn; intros v; destruct_or?; intros Hv;
       match type of Hv with _ <$> ?o = _ => destruct o; cbn in Hv; simplify_eq; done end. }
  match goal with |- context [members ?fs] => set (l := fs); assert (Hnd : NoDup l.*1) by (apply (bool_decide_unpack _); vm_compute; reflexivity) end.
  pose proof (λ k v, obj_get_members l k v Hnd) as Hget. unfold parseGuacParams.
  repeat (erewrite Hget by (unfold l; repeat first [apply list_elem_of_here|apply list_elem_of_further])).
  destruct W as [W1 W2 W3 W4 W5 W6 W7].
  rewrite !as_bool_back, !member_of_back, read_depth_back, read_root_back, !read_int_back by done. by destruct p.
Qed.

(** ** Theorems: saving an untouched form *)

Lemma form_keys_NoDup f : NoDup (form_members f).*1.
Proof.
  apply (bool_decide_unpack _). unfold form_members. destruct (bool_decide (sf_accessMode f = GATEWAY)); vm_compute; reflexivity.
Qed.
Lemma body_get f k v : (k, v) ∈ form_members f → obj_get (submit_body f) k = match v with JUndefined => JUndefined | _ => json_wire v end.
Proof. apply wire_get, form_keys_NoDup. Qed.
Ltac in_form :=
  unfold form_members; rewrite ?bool_decide_eq_true_2 by done; rewrite !elem_of_app;
  first [solve [left; repeat first [apply list_elem_of_here|apply list_elem_of_further]]
        |solve [right; left; repeat first [apply list_elem_of_here|apply list_elem_of_further]]
        |solve [right; right; repeat first [apply list_elem_of_here|apply list_elem_of_further]]].

(** What the server reads back of a form. *)
Lemma body_common f :
  str (obj_get (submit_body f) "connectorId") = trim (sf_connectorId f) ∧
  str (obj_get (submit_body f) "name") = trim (sf_name f) ∧
  or_null_str (str (obj_get (submit_body f) "description")) = or_null_str (trim (sf_description f)) ∧
  obj_get (submit_body f) "accessMode" = JStr (mode_text (sf_accessMode f)) ∧
  str (obj_get (submit_body f) "hostname") = trim (sf_hostname f) ∧
  is_true (obj_get (submit_body f) "customDomain") = sf_customDomain f ∧
  str (obj_get (submit_body f) "upstreamUrl") = trim (sf_upstreamUrl f) ∧
  is_true (obj_get (submit_body f) "insecureSkipVerify") = sf_insecureSkipVerify f ∧
  is_true (obj_get (submit_body f) "recordSessions") = sf_recordSessions f ∧
  is_true (obj_get (submit_body f) "keystrokeLogging") = sf_keystrokeLogging f ∧
  str (obj_get (submit_body f) "clipboardMode") = trim (sf_clipboardMode f) ∧
  as_bool (obj_get (submit_body f) "watermark") = match sf_watermark f with WInherit => None | WOn => Some true | WOff => Some false end ∧
  str (obj_get (submit_body f) "fileTransferMode") = trim (sf_fileTransferMode f).
Proof.
  repeat (erewrite body_get by in_form). cbn [json_wire].
  split_and!; try done; try (by destruct (sf_customDomain f)); try (by destruct (sf_insecureSkipVerify f));
    try (by destruct (sf_recordSessions f)); try (by destruct (sf_keystrokeLogging f)); try (by destruct (sf_watermark f)).
  destruct (truthy (trim (sf_description f))) eqn:E; unfold str, or_null_str; cbn [str_or_empty json_wire].
  - rewrite trim_idemp, E. done.
  - rewrite E. done.
Qed.
Lemma body_gateway f :
  sf_accessMode f = GATEWAY →
  str (obj_get (submit_body f) "protocol") = trim (sf_protocol f) ∧
  str (obj_get (submit_body f) "targetHost") = trim (sf_targetHost f) ∧
  obj_get (submit_body f) "targetPort" = json_wire (JNum (Number (sf_targetPort f))) ∧
  str (obj_get (submit_body f) "username") = trim (sf_username f) ∧
  str_or_empty (obj_get (submit_body f) "secret") = sf_secret f ∧
  obj_get (submit_body f) "guacParams" = json_wire (guacFieldsToParams (sf_guac f)).
Proof.
  intros Hm. repeat (erewrite body_get by in_form). split_and!; done.
Qed.
Lemma body_logo f : sf_logo f = JUndefined → obj_get (submit_body f) "logo" = JUndefined.
Proof. intros H. erewrite body_get by in_form. by rewrite H. Qed.

Section untouched.
Context (parse_url : string → option Url) (from_base64 : string → string).
Context (encrypt : string → string).
Context (frac_text : Z → string) (digest : string → string) (json_store : json → json).

Definition neat (s : string) : Prop := trim s = s ∧ truthy s = true.
(** The credential of a saved remote session. *)
Definition tidy_vault (c : VaultCredential) : Prop :=
  neat (vc_targetHost c) ∧ neat (vc_username c) ∧ 1 ≤ vc_targetPort c ≤ 65535 ∧
  ∃ g, wf_guac g ∧ vc_guacParams c = json_store (guac_json g).
(** A row as a validated form leaves it. *)
Record tidy (o : SiteOpts) (db : SitesDb) (s : SiteRow) : Prop := {
  td_connector : neat (st_connectorId s);
  td_name : neat (st_name s);
  td_description : ∀ d, st_description s = Some d → neat d;
  td_record : st_recordSessions s = true → opt_recordingEnabled o = true;
  td_clip : ∀ m, st_clipboardMode s = Some m → m ∈ CLIP;
  td_mode : match st_accessMode s with
    | TRANSPARENT => ∃ h u, st_hostname s = Some h ∧ st_upstreamUrl s = Some u ∧ neat u ∧ is_http parse_url u = true ∧
        read_hostname (st_customDomain s) (hostSuffix o) (trim (toLowerCase (trim (shown_label (hostSuffix o) h)))) = Some h ∧
        (st_customDomain s = false → st_domainVerifiedAt s = None)
    | ISOLATED => opt_isolationEnabled o = true ∧ st_hostname s = None ∧ st_fileTransferMode s ∈ FT ∧ vault_of (st_id s) db = None ∧
        ∃ u, st_upstreamUrl s = Some u ∧ neat u ∧ is_http parse_url u = true
    | GATEWAY => nativeGateway o = true ∧ st_hostname s = None ∧ st_upstreamUrl s = None ∧
        (st_keystrokeLogging s = true → st_recordSessions s = true) ∧ ∃ c, vault_of (st_id s) db = Some c ∧ tidy_vault c
    end }.

Lemma neat_or_null s : neat s → or_null_str (trim s) = Some s.
Proof. intros [-> H]. unfold or_null_str. by rewrite H. Qed.
Lemma description_back d : (∀ x, d = Some x → neat x) → or_null_str (trim (d ?? "")) = d.
Proof. intros H. destruct d as [x|]; [|done]. by apply neat_or_null, H. Qed.
Lemma clip_back m : (∀ x, m = Some x → x ∈ CLIP) →
  (if bool_decide (trim (m ?? "inherit"%string) ∈ CLIP) then Some (trim (m ?? "inherit"%string)) else None) = m.
Proof.
  intros H. destruct m as [x|]; [|vm_compute; reflexivity]. specialize (H x eq_refl). cbn [from_option].
  repeat (apply elem_of_cons in H as [->|H]; [vm_compute; reflexivity|]). by apply elem_of_nil in H.
Qed.
Lemma ft_back m : m ∈ FT → (if bool_decide (trim m ∈ FT) then trim m else "none"%string) = m.
Proof. intros H. repeat (apply elem_of_cons in H as [->|H]; [vm_compute; reflexivity|]). by apply elem_of_nil in H. Qed.
Lemma watermark_back (w : option bool) :
  match match w with None => WInherit | Some true => WOn | Some false => WOff end with WInherit => None | WOn => Some true | WOff => Some false end = w.
Proof. by destruct w as [[]|]. Qed.
Lemma and_keep a b : (b = true → a = true) → a && b = b.
Proof. destruct a, b; intros H; try done. by specialize (H eq_refl). Qed.
Lemma protocol_back p : read_protocol (toUpperCase (trim (protocol_name p))) = Some p.
Proof. destruct p; vm_compute; reflexivity. Qed.
Lemma port_back z : 1 ≤ z ≤ 65535 → read_port (json_wire (JNum (Number (dec z)))) = Some z.
Proof.
  intros Hz. rewrite Number_dec by lia. cbn. destruct (Z.ltb_spec z 1), (Z.ltb_spec 65535 z); (lia || done).
Qed.

(** The validated values of the form opened on a tidy row. *)
Definition reread (s : SiteRow) (c : option VaultCredential) : SiteValidation :=
  match st_accessMode s with
  | TRANSPARENT => VTransparent (st_connectorId s) (st_name s) (st_hostname s ?? "") (st_customDomain s) (st_upstreamUrl s ?? "")
      (st_description s) (st_insecureSkipVerify s) (st_clipboardMode s) (st_recordSessions s)
  | ISOLATED => VIsolated (st_connectorId s) (st_name s) (st_description s) (st_upstreamUrl s ?? "") (st_insecureSkipVerify s)
      (st_recordSessions s) (st_clipboardMode s) (st_watermark s) (st_fileTransferMode s)
  | GATEWAY => match c with
      | Some c => VGateway (st_connectorId s) (st_name s) (st_description s) (vc_protocol c) (vc_targetHost c) (vc_targetPort c)
          (vc_username c) None (st_recordSessions s) (st_keystrokeLogging s) (parseGuacParams (vc_guacParams c))
      | None => VError ""
      end
  end.

Lemma reread_valid o db s :
  tidy o db s → requireSecret o = false →
  validateSiteInput parse_url (submit_body (open_form (hostSuffix o) [] (Some s) (vault_meta s db))) o = reread s (vault_of (st_id s) db).
Proof.
  intros [Hc Hn Hd Hr Hcl Hm] Hq. set (f := open_form _ _ _ _).
  destruct (body_common f) as (B1 & B2 & B3 & B4 & B5 & B6 & B7 & B8 & B9 & B10 & B11 & B12 & B13).
  unfold validateSiteInput. rewrite B1, B2, B3, B4. cbn [f open_form sf_connectorId sf_name sf_description sf_accessMode].
  destruct Hc as [-> Hc], Hn as [-> Hn]. rewrite Hc, Hn, (description_back _ Hd). cbn [negb orb]. unfold reread.
  destruct (st_accessMode s) eqn:Em; cbn [mode_text].
  - change (json_str_is (JStr "TRANSPARENT") "GATEWAY") with false. change (json_str_is (JStr "TRANSPARENT") "ISOLATED") with false. cbv iota.
    destruct Hm as (h & u & Hh & Hu & [Hut Hu1] & Hu2 & Hrd & _). unfold validate_transparent.
    rewrite B5, B6, B7, B8, B9, B11. cbn [f open_form sf_hostname sf_customDomain sf_upstreamUrl sf_insecureSkipVerify sf_recordSessions sf_clipboardMode].
    rewrite Hh, Hu. change (Some h ?? "") with h. change (Some u ?? "") with u. rewrite Hrd, Hut, Hu1, Hu2. cbn [negb].
    rewrite clip_back, and_keep by done. done.
  - change (json_str_is (JStr "GATEWAY") "GATEWAY") with true. cbv iota.
    destruct Hm as (Hg & Hh & Hu & Hk & c & Hv & (Hho & Hus & Hp & g & Wg & Hgp)). unfold validate_gateway.
    assert (Hf : sf_accessMode f = GATEWAY) by done. destruct (body_gateway f Hf) as (G1 & G2 & G3 & G4 & G5 & G6).
    rewrite Hg, G1, G2, G3, G4, G5, G6, B9, B10. cbn [negb]. unfold f, open_form, vault_meta. rewrite Em, Hv.
    cbn [sf_protocol sf_targetHost sf_targetPort sf_username sf_secret sf_guac sf_recordSessions sf_keystrokeLogging].
    rewrite protocol_back, port_back by done. destruct Hho as [-> Hho], Hus as [-> Hus]. rewrite Hho, Hus, Hq. cbn [negb orb andb].
    rewrite guac_form_roundtrip by apply parse_wf. rewrite (and_keep _ _ Hr), and_keep by done. done.
  - change (json_str_is (JStr "ISOLATED") "GATEWAY") with false. change (json_str_is (JStr "ISOLATED") "ISOLATED") with true. cbv iota.
    destruct Hm as (Hi & Hh & Hft & Hv & u & Hu & [Hut Hu1] & Hu2). unfold validate_isolated.
    rewrite Hi, B7, B8, B9, B11, B12, B13. cbn [negb f open_form sf_upstreamUrl sf_insecureSkipVerify sf_recordSessions sf_clipboardMode sf_watermark sf_fileTransferMode].
    rewrite Hu. change (Some u ?? "") with u. rewrite Hut, Hu1, Hu2. cbn [negb].
    rewrite clip_back, (and_keep _ _ Hr), ft_back, watermark_back by done. done.
Qed.

Lemma update_where_fix {A} (p : A → bool) f (rows : list A) : (∀ r, r ∈ rows → p r = true → f r = r) → update_where p f rows = rows.
Proof.
  unfold update_where. induction rows as [|x rows IH]; intros H; [done|]. simpl. rewrite IH by (intros; apply H; set_solver).
  f_equal. destruct (p x) eqn:E; [|done]. apply H; [set_solver | done].
Qed.
Lemma delete_where_none {A} (p : A → bool) (rows : list A) : find_row p rows = None → delete_where p rows = rows.
Proof.
  intros H. rewrite find_row_None in H. unfold delete_where. induction rows as [|x rows IH]; [done|]. simpl.
  rewrite H by set_solver. simpl. f_equal. apply IH. intros r Hr. apply H. set_solver.
Qed.
Lemma same_sites db : with_sites db (sd_sites db) = db.
Proof. by destruct db. Qed.
Lemma same_vault db : with_vault db (sd_vault db) = db.
Proof. by destruct db. Qed.
Lemma row_of_id db s r : wf_sites parse_url db → s ∈ sd_sites db → r ∈ sd_sites db → (st_id r =s st_id s) = true → r = s.
Proof. intros W Hs Hr Hid%bool_decide_eq_true_1. by apply (NoDup_fmap_eq st_id (sd_sites db)); [apply (ws_ids _ _ W)|..]. Qed.
Lemma set_site_same db s f : wf_sites parse_url db → s ∈ sd_sites db → f s = s → set_site (st_id s) f db = db.
Proof.
  intros W Hs Hf. unfold set_site. rewrite update_where_fix; [apply same_sites|].
  intros r Hr Hid. by rewrite (row_of_id db s r).
Qed.
Lemma update_allowed db s :
  wf_sites parse_url db → s ∈ sd_sites db → update_error db (st_id s) (st_connectorId s) (st_hostname s) = None ∧
  has_connector db (st_connectorId s) = true.
Proof.
  intros W Hs. assert (Hc : has_connector db (st_connectorId s) = true).
  { pose proof (ws_conn _ _ W s Hs) as (c & Hc & Hin)%list_elem_of_fmap. unfold has_connector. apply existsb_exists.
    exists c. split; [by apply list_elem_of_In|]. by apply bool_decide_eq_true_2. }
  split; [|done]. unfold update_error. rewrite Hc.
  replace (existsb _ _) with true by (symmetry; apply site_exists; by apply (list_elem_of_fmap_2 st_id)).
  cbn [negb]. destruct (hostname_clash _ _ _) eqn:E; [exfalso|done]. unfold hostname_clash in E.
  destruct (st_hostname s) as [h|] eqn:Hh; [|done]. apply existsb_exists in E as (r & Hr%list_elem_of_In & E).
  apply andb_true_iff in E as [E1 E2%bool_decide_eq_true_1]. apply negb_true_iff, bool_decide_eq_false_1 in E1.
  apply E1. by eapply (ws_hosts _ _ W).
Qed.
(** The credential as an upsert that keeps every value leaves it: written anew. *)
Definition rewritten (now : Z) (c : VaultCredential) : VaultCredential :=
  {| vc_siteId := vc_siteId c; vc_protocol := vc_protocol c; vc_targetHost := vc_targetHost c; vc_targetPort := vc_targetPort c;
     vc_username := vc_username c; vc_secret := vc_secret c; vc_secretKind := vc_secretKind c; vc_guacParams := vc_guacParams c;
     vc_updatedAt := now |}.
Definition rewrite_vault (now : Z) (s : SiteRow) (vs : list VaultCredential) : list VaultCredential :=
  if bool_decide (st_accessMode s = GATEWAY) then update_where (λ c, vc_siteId c =s st_id s) (rewritten now) vs else vs.
Lemma vault_rewritten db s c create f now : wf_sites parse_url db → vault_of (st_id s) db = Some c → f c = rewritten now c →
  upsert_vault (st_id s) create f db = with_vault db (update_where (λ c, vc_siteId c =s st_id s) (rewritten now) (sd_vault db)).
Proof.
  intros W Hv Hf. pose proof (find_row_Some _ _ _ Hv) as [Hin Hid]. unfold upsert_vault.
  replace (existsb _ _) with true.
  2: { symmetry. apply existsb_exists. exists c. split; [by apply list_elem_of_In | done]. }
  f_equal. unfold update_where. apply map_ext_in. intros r Hr%list_elem_of_In. destruct (vc_siteId r =s st_id s) eqn:Hri; [|done].
  replace r with c; [done|]. apply (NoDup_fmap_eq vc_siteId (sd_vault db)); [apply (ws_vault_key _ _ W)|done|done|].
  apply bool_decide_eq_true_1 in Hid, Hri. congruence.
Qed.
(** What a validated form says of its texts. *)
Lemma or_null_neat s x : or_null_str (trim s) = Some x → neat x.
Proof. unfold or_null_str. destruct (truthy (trim s)) eqn:E; [|done]. intros [= <-]. split; [apply trim_idemp | done]. Qed.
Lemma str_neat v : truthy (str v) = true → neat (str v).
Proof. intros H. split; [apply trim_idemp | done]. Qed.
Lemma shown_strips suffix raw : truthy raw = true → truthy suffix = true → shown_label (Some suffix) (raw +:+ suffix) = raw.
Proof.
  intros Hr Hs. unfold shown_label. change (Some suffix ?? "") with suffix.
  rewrite truthy_app, Hs by done. cbn [andb].
  replace (endsWith suffix (raw +:+ suffix)) with true by (symmetry; apply endsWith_spec; exists (chars raw); apply chars_append).
  unfold slice_to. rewrite chars_append, length_app, Nat.add_sub, take_app_length. apply unchars_chars.
Qed.
Lemma hostname_back cd suffix raw h :
  read_hostname cd suffix raw = Some h → trim raw = raw → toLowerCase raw = raw →
  (cd = true → shown_label suffix h = h) →
  read_hostname cd suffix (trim (toLowerCase (trim (shown_label suffix h)))) = Some h.
Proof.
  intros Hrd Ht Hl Hcd. pose proof Hrd as Hrd'. unfold read_hostname in Hrd'.
  destruct (truthy raw) eqn:Hraw; [cbn [negb] in Hrd'|done].
  assert (Hshown : shown_label suffix h = raw); [|by rewrite Hshown, Ht, Hl, Ht].
  destruct cd.
  - rewrite Hcd by done. destruct (is_fqdn raw); [|done]. by simplify_eq.
  - destruct (some_truthy suffix) as [x|] eqn:Hx.
    + destruct suffix as [y|]; [|done]. cbn in Hx. destruct (truthy y) eqn:Hy; [|done]. simplify_eq.
      destruct (slug_re raw); [|done]. simplify_eq. by apply shown_strips.
    + simplify_eq. unfold shown_label. destruct suffix as [y|]; cbn in Hx |- *; [|by rewrite andb_false_r].
      destruct (truthy y); [done|]. by rewrite andb_false_r.
Qed.

Definition validated (o : SiteOpts) (v : SiteValidation) : Prop :=
  match v with
  | VTransparent c n h cd u d i clip r =>
      neat c ∧ neat n ∧ (∀ x, d = Some x → neat x) ∧ neat u ∧
      ∃ raw, read_hostname cd (hostSuffix o) raw = Some h ∧ trim raw = raw ∧ toLowerCase raw = raw
  | VIsolated c n d u i r clip w ft => neat c ∧ neat n ∧ (∀ x, d = Some x → neat x) ∧ neat u
  | VGateway c n d p host port user secret r k g =>
      neat c ∧ neat n ∧ (∀ x, d = Some x → neat x) ∧ neat host ∧ neat user
  | VError _ => True
  end.
Lemma validate_texts body o : validated o (validateSiteInput parse_url body o).
Proof.
  unfold validateSiteInput. destruct (_ || _) eqn:Hcn; [done|]. apply orb_false_iff in Hcn as [Hc Hn]. apply negb_false_iff in Hc, Hn.
  assert (Hd : ∀ x, or_null_str (str (obj_get body "description")) = Some x → neat x) by apply or_null_neat.
  destruct (json_str_is _ "GATEWAY").
  { unfold validate_gateway. destruct (negb _); [done|]. destruct (read_protocol _) as [p|]; [|done]. destruct (_ || _) eqn:Hhu; [done|].
    apply orb_false_iff in Hhu as [Hh Hu]. apply negb_false_iff in Hh, Hu. destruct (read_port _); [|done]. destruct (_ && _); [done|].
    cbn. split_and!; auto using str_neat. }
  destruct (json_str_is _ "ISOLATED").
  { unfold validate_isolated. destruct (negb _); [done|]. destruct (negb (truthy _)) eqn:Hu; [done|]. apply negb_false_iff in Hu.
    destruct (negb _); [done|]. cbn. split_and!; auto using str_neat. }
  unfold validate_transparent. destruct (read_hostname _ _ _) as [h|] eqn:Hhost; [|done].
  destruct (negb (truthy _)) eqn:Hu; [done|]. apply negb_false_iff in Hu. destruct (negb _); [done|]. cbn.
  split_and!; auto using str_neat. eexists. split; [exact Hhost|]. split; [apply trim_idemp|].
  rewrite <- trim_toLowerCase, toLowerCase_idemp. done.
Qed.

(** The row a validated form leaves, and its credential. *)
Definition saved_as (v : SiteValidation) (db : SitesDb) (s : SiteRow) : Prop :=
  (∀ m, st_clipboardMode s = Some m → m ∈ CLIP) ∧
  match v with
  | VTransparent c n h cd u d i clip r => ∃ logo old s0, s = put_transparent c n h cd u d i clip r logo old s0
  | VIsolated c n d u i r clip w ft => (∃ logo s0, s = put_isolated c n d u i r clip w ft logo s0) ∧ vault_of (st_id s) db = None
  | VGateway c n d p host port user secret r k g =>
      (∃ logo s0, s = put_gateway c n d r k logo s0) ∧
      ∃ x, vault_of (st_id s) db = Some x ∧ vc_targetHost x = host ∧ vc_targetPort x = port ∧ vc_username x = user ∧
           vc_guacParams x = json_store (guac_json g)
  | VError _ => False
  end.
Definition same_caps (o o' : SiteOpts) : Prop :=
  nativeGateway o = nativeGateway o' ∧ opt_recordingEnabled o = opt_recordingEnabled o' ∧
  opt_isolationEnabled o = opt_isolationEnabled o' ∧ hostSuffix o = hostSuffix o'.
Lemma saved_tidy o o' body db s :
  saved_as (validateSiteInput parse_url body o) db s → same_caps o o' →
  (st_customDomain s = true → ∀ h, st_hostname s = Some h → shown_label (hostSuffix o') h = h) →
  tidy o' db s.
Proof.
  intros [Hcl Hs] (E1 & E2 & E3 & E4) Hcd. pose proof (validate_texts body o) as Ht. pose proof (validate_sound parse_url body o) as Hv.
  destruct (validateSiteInput parse_url body o) as [c n h cd u d i clip r|c n d p host port user secret r k g|c n d u i r clip w ft|e]; [| | |done].
  - destruct Hs as (logo & old & s0 & ->). destruct Ht as (T1 & T2 & T3 & T4 & raw & T5 & T6 & T7). destruct Hv as (V1 & V2 & V3 & V4).
    split; cbn in *; [done..|by rewrite <- E2|done|].
    exists h, u. split_and!; try done; [|by intros ->].
    rewrite <- E4. eapply hostname_back; [exact T5|done|done|]. intros ->. rewrite E4. by apply Hcd.
  - destruct Hs as ((logo & s0 & ->) & x & Hx & X1 & X2 & X3 & X4). destruct Ht as (T1 & T2 & T3 & T4 & T5).
    destruct Hv as (V1 & V2 & V3 & V4 & V5 & V6 & V7 & V8). split; cbn in *; [done..|by rewrite <- E2|done|].
    rewrite <- E1. split_and!; try done. exists x. split; [done|]. unfold tidy_vault. rewrite X1, X2, X3. split_and!; try done; [lia|lia|]. by exists g.
  - destruct Hs as ((logo & s0 & ->) & Hx). destruct Ht as (T1 & T2 & T3 & T4). destruct Hv as (V1 & V2 & V3 & V4 & V5).
    split; cbn in *; [done..|by rewrite <- E2|done|]. rewrite <- E3. split_and!; try done. by exists u.
Qed.

(** What the two routes leave behind when they succeed. *)
Lemma vault_of_log id db l : vault_of id (with_log db l) = vault_of id db.
Proof. done. Qed.
Lemma find_row_fresh {A} (p : A → bool) l x : (∀ y, y ∈ l → p y = false) → p x = true → find_row p (l ++ [x]) = Some x.
Proof.
  intros Hl Hx. unfold find_row. induction l as [|y l IH]; cbn; [by rewrite Hx|]. rewrite Hl by (by left). apply IH. intros z Hz. apply Hl. by right.
Qed.
Lemma insert_saved rq logo body db row cred :
  wf_sites parse_url db → new_site encrypt json_store rq logo (validateSiteInput parse_url body (site_opts rq true)) = Some (row, cred) →
  insert_error db row = None → saved_as (validateSiteInput parse_url body (site_opts rq true)) (insert_site row cred db) row.
Proof.
  intros W Hn He. pose proof (validate_sound parse_url body (site_opts rq true)) as Hv.
  destruct (new_site_shape parse_url encrypt json_store _ _ _ _ _ _ Hv Hn) as ((Hcl & _) & _ & _ & Hid & _).
  split; [exact Hcl|]. unfold insert_error in He. destruct (hostname_clash _ _ _); [done|]. destruct (_ || _) eqn:Hb; [done|].
  apply orb_false_iff in Hb as [_ Hnew]. apply not_true_iff_false in Hnew. rewrite site_exists in Hnew.
  assert (Hfresh : ∀ c, c ∈ sd_vault db → (vc_siteId c =s st_id row) = false).
  { intros c Hc. apply bool_decide_eq_false_2. intros E. apply Hnew. rewrite <- E. by apply (ws_vault_site _ _ W). }
  destruct (validateSiteInput parse_url body (site_opts rq true)); cbn in Hn; simplify_eq.
  - by eexists _, _, _.
  - split; [by eexists _, _|]. eexists. split.
    { unfold vault_of, insert_site. cbn [with_vault with_sites sd_vault]. apply find_row_fresh; [exact Hfresh|]. by apply bool_decide_eq_true_2. }
    split_and!; reflexivity.
  - split; [by eexists _, _|]. unfold vault_of, insert_site. cbn [with_sites sd_vault]. by apply find_row_None.
Qed.
Lemma post_saved between rq body db db' st id :
  wf_sites parse_url (between db) →
  sitesPost parse_url from_base64 encrypt frac_text digest json_store between rq body db = (db', Reply st id) →
  ∃ s, s ∈ sd_sites db' ∧ st_id s = id ∧ saved_as (validateSiteInput parse_url body (site_opts rq true)) db' s.
Proof.
  intros W H. unfold sitesPost in H. apply as_site_admin_reply in H as [me H]. cbv zeta in H.
  pose proof (λ logo row cred, insert_saved rq logo body (between db) row cred W) as Hins.
  set (v := validateSiteInput _ _ _) in *. clearbody v.
  assert (Hgo : ∀ logo, match new_site encrypt json_store rq logo v with
    | None => (db, Fail 500 "error"%string)
    | Some (row, cred) => match insert_error (between db) row with
       | Some e => write_failed e (between db)
       | None => (site_audit frac_text digest json_store rq me "resource.create" (st_id row)
                   ("Created resource " +:+ quoted (st_name row)) (insert_site row cred (between db)), Reply 200 (st_id row))
       end end = (db', Reply st id) → ∃ s, s ∈ sd_sites db' ∧ st_id s = id ∧ saved_as v db' s).
  { intros logo Hw. destruct (new_site encrypt json_store rq logo v) as [[row cred]|] eqn:Hn; [|done].
    destruct (insert_error (between db) row) as [[]|] eqn:He; [done|done|]. injection Hw as <- <- <-.
    exists row. split; [|split; [done|exact (Hins logo row cred Hn He)]].
    unfold insert_site. destruct cred; cbn; apply elem_of_app; right; by left. }
  destruct v; [..|done].
  all: destruct (assertWithinLimit _ _ _); [done|]; destruct (negb _); [done|].
  all: destruct (parseLogoUpload _ _ _) as [| |data ty|e]; [..|done].
  all: destruct (crossTenantHostnameTaken _ _ _ _); [done|]; by eapply Hgo.
Qed.

Lemma set_site_row id f db s : s ∈ sd_sites db → st_id s = id → f s ∈ sd_sites (set_site id f db).
Proof. intros Hs <-. cbn. apply elem_of_update_where. exists s. split; [done|]. by rewrite bool_decide_eq_true_2. Qed.
Lemma update_saved rq id ex logo v between db db' st name :
  wf_sites parse_url (between db) → valid_form parse_url (site_opts rq false) v →
  apply_update encrypt json_store rq id ex logo v between db = (db', Reply st name) →
  ∃ s, s ∈ sd_sites db' ∧ st_id s = id ∧ saved_as v db' s.
Proof.
  intros W Hv H. assert (Hrow : ∀ c h, update_error (between db) id c h = None → ∃ s, s ∈ sd_sites (between db) ∧ st_id s = id).
  { intros c h (Hin & _)%update_error_None. apply list_elem_of_fmap in Hin as (s & -> & Hs). eauto. }
  destruct v as [c n h cd u d i clip r|c n d p host port user secret r k g|c n d u i r clip w ft|e]; cbn [apply_update] in H; [..|done].
  - destruct (crossTenantHostnameTaken _ _ _ _); [done|]. destruct (update_error _ _ _ _) as [[]|] eqn:He; [done|done|]. simplify_eq.
    destruct (Hrow _ _ He) as (s & Hs & Hid). eexists. split; [by apply (set_site_row id _ _ s)|]. split; [done|].
    destruct Hv as (_ & _ & Hc & _). split; [exact Hc|]. by eexists _, _, _.
  - destruct (_ && _); [done|]. destruct (update_error _ _ _ _) as [[]|] eqn:He; [done|done|]. simplify_eq.
    destruct (Hrow _ _ He) as (s & Hs & Hid).
    assert (Hsites : ∀ a b d, sd_sites (upsert_vault id a b d) = sd_sites d) by (intros a b x; unfold upsert_vault; by destruct (existsb _ _)).
    exists (put_gateway c name d r k logo s). rewrite Hsites. split; [by apply (set_site_row id _ _ s)|]. split; [done|].
    split; [apply (ws_shape _ _ W s Hs)|]. split; [by eexists _, _|]. cbn [put_gateway st_id]. rewrite Hid.
    unfold vault_of, upsert_vault. cbn [set_site with_sites sd_vault].
    destruct (existsb (λ c0, vc_siteId c0 =s id) (sd_vault (between db))) eqn:Hex; cbn [with_vault sd_vault set_site with_sites].
    + apply existsb_exists in Hex as (x & Hx%list_elem_of_In & Hxi).
      destruct (find_row _ (update_where _ _ _)) as [y|] eqn:Hf.
      * exists y. split; [done|]. apply find_row_Some in Hf as [(z & Hz & ->)%elem_of_update_where Hy].
        destruct (vc_siteId z =s id) eqn:Hzi; [done|]. congruence.
      * rewrite find_row_None in Hf. exfalso.
        assert (Hin : edit_vault encrypt json_store (sq_now rq) p host port user secret g x ∈ update_where (λ c0, vc_siteId c0 =s id)
          (edit_vault encrypt json_store (sq_now rq) p host port user secret g) (sd_vault (between db))).
        { apply elem_of_update_where. exists x. split; [done|]. by rewrite Hxi. }
        specialize (Hf _ Hin). cbn in Hf. congruence.
    + eexists. split; [|split_and!].
      { apply find_row_fresh; [|by apply bool_decide_eq_true_2].
        intros y Hy. apply not_true_iff_false. intros Hyi. apply not_true_iff_false in Hex. apply Hex. apply existsb_exists. exists y.
        split; [by apply list_elem_of_In|done]. }
      all: reflexivity.
  - destruct (update_error _ _ _ _) as [[]|] eqn:He; [done|done|]. simplify_eq. destruct (Hrow _ _ He) as (s & Hs & Hid).
    exists (put_isolated c name d u i r clip w ft logo s). split; [by apply (set_site_row id _ _ s)|]. split; [done|].
    destruct Hv as (_ & Hc & _). split; [exact Hc|]. split; [by eexists _, _|]. cbn [put_isolated st_id]. rewrite Hid.
    unfold vault_of, drop_vault. cbn [with_vault sd_vault set_site with_sites]. apply find_row_None.
    intros y [_ Hy]%elem_of_delete_where. done.
Qed.
Lemma patch_saved between rq id body db db' st u :
  wf_sites parse_url (between db) →
  sitePatch parse_url from_base64 encrypt frac_text digest json_store between rq id body db = (db', Reply st u) →
  ∃ s, s ∈ sd_sites db' ∧ st_id s = id ∧ saved_as (validateSiteInput parse_url body (site_opts rq false)) db' s.
Proof.
  intros W H. unfold sitePatch in H. apply as_site_admin_reply in H as [me H].
  pose proof (validate_sound parse_url body (site_opts rq false)) as Hv. set (v := validateSiteInput _ _ _) in *. clearbody v.
  pose proof (λ ex logo db1 st1 name, update_saved rq id ex logo v between db db1 st1 name W Hv) as Hup.
  destruct v; [..|done]; (destruct (negb _); [done|]); (destruct (find_row _ _) as [ex|]; [|done]).
  all: destruct (parseLogoUpload _ _ _) as [| |data ty|e]; [..|done].
  all: match type of H with context [apply_update _ _ _ _ ?ex ?logo _ _ _] => specialize (Hup ex logo) end.
  all: destruct (apply_update _ _ _ _ _ _ _ _ _) as [db1 [?|? ?]]; simplify_eq.
  all: destruct (Hup _ _ _ eq_refl) as (s & Hs & Hid & Hsv); by exists s.
Qed.

(** What the jsonb column gives back reads as what was stored. *)
Context (stores : ∀ g, parseGuacParams (json_store (guac_json g)) = parseGuacParams (guac_json g)).
Lemma guac_same g : wf_guac g → json_store (guac_json (parseGuacParams (json_store (guac_json g)))) = json_store (guac_json g).
Proof using stores. intros W. by rewrite stores, parse_stored. Qed.

Lemma patch_same rq me db s :
  wf_sites parse_url db → s ∈ sd_sites db → tidy (site_opts rq false) db s →
  sq_user rq = Some me → can (u_role me) configure = true →
  crossTenantHostnameTaken (sq_multi rq) (sq_owner rq) (sq_acting rq) (st_hostname s) = false →
  sitePatch parse_url from_base64 encrypt frac_text digest json_store (λ d, d) rq (st_id s) (submit_body (edit_form rq s db)) db =
  (site_audit frac_text digest json_store rq me "resource.update" (st_id s) ("Updated resource " +:+ quoted (st_name s))
     (with_vault db (rewrite_vault (sq_now rq) s (sd_vault db))), Reply 200 tt).
Proof using stores.
  intros W Hs T Hme Hcan Hx. pose proof (update_allowed db s W Hs) as [Hup Hconn].
  unfold sitePatch, as_site_admin. rewrite Hme, Hcan. cbn [negb].
  assert (Hval := reread_valid (site_opts rq false) db s T eq_refl). change (hostSuffix (site_opts rq false)) with (sq_suffix rq) in Hval.
  unfold edit_form. rewrite Hval. destruct T as [_ _ _ _ _ Hm].
  assert (Hfind : find_row (λ s0, st_id s0 =s st_id s) (sd_sites db) = Some s).
  { destruct (find_row _ _) as [r|] eqn:E.
    - apply find_row_Some in E as [Hr Hid]. f_equal. by apply (row_of_id db).
    - rewrite find_row_None in E. specialize (E s Hs). by rewrite bool_decide_eq_true_2 in E. }
  rewrite body_logo by done. unfold reread, rewrite_vault. destruct (st_accessMode s) eqn:Em; cbn [bool_decide decide].
  - destruct Hm as (h & u & Hh & Hu & _ & _ & _ & Hver). cbn [v_connector]. rewrite Hconn, Hfind. cbn [negb parseLogoUpload apply_update].
    rewrite Hh, Hu. change (Some h ?? "") with h. change (Some u ?? "") with u. rewrite <- Hh, Hx. cbv beta. rewrite Hup.
    rewrite (set_site_same db s); [by rewrite same_vault|done|done|]. unfold put_transparent. cbn [logo_of]. rewrite Hh.
    rewrite bool_decide_eq_true_2, andb_true_r by done.
    destruct s; cbn in *; subst. destruct st_customDomain; [done|]. by rewrite Hver.
  - destruct Hm as (_ & Hh & Hu & _ & c & Hv & (_ & _ & _ & g & Wg & Hg)). rewrite Hv. cbn [v_connector]. rewrite Hconn, Hfind.
    cbn [negb parseLogoUpload apply_update]. pose proof (find_row_Some _ _ _ Hv) as [Hin Hid].
    replace (existsb _ _) with true by (symmetry; apply existsb_exists; exists c; split; [by apply list_elem_of_In | done]).
    cbn [negb andb]. cbv beta. rewrite Hh in Hup. rewrite Hup.
    rewrite (set_site_same db s); [|done|done|unfold put_gateway; cbn [logo_of]; destruct s; cbn in *; by subst].
    rewrite (vault_rewritten db s c _ _ (sq_now rq)); [done|done|done|].
    unfold edit_vault. rewrite Hg, guac_same by done. destruct c; cbn in *; by subst.
  - destruct Hm as (_ & Hh & _ & Hv & u & Hu & _). cbn [v_connector]. rewrite Hconn, Hfind. cbn [negb parseLogoUpload apply_update].
    cbv beta. rewrite Hh in Hup. rewrite Hup. rewrite (set_site_same db s); [|done|done|].
    2: { unfold put_isolated. cbn [logo_of]. rewrite Hu. change (Some u ?? "") with u. destruct s; cbn in *; by subst. }
    unfold drop_vault. rewrite delete_where_none by exact Hv. by rewrite same_vault.
Qed.

(** C35: a saved resource can be opened and saved again without changing.
    Whatever form was accepted, for a new resource or an existing one, opening
    the edit form on the stored resource and pressing save succeeds and leaves
    the resources and the credentials as they were: the hostname without and with
    its suffix, unset and explicit choices, the stored secret that the form never
    sees.  Only the time of the last write of a remote desktop's credential moves
    to the time of the save.  This is so for a save with the same host suffix and the
    same capabilities (remote desktops, recording, isolation) as when the form was
    accepted, by someone who may configure, with no other write in between, a hostname no other tenant has
    taken, and no own domain of the tenant under the suffix the server owns.  (A capability turned off in between is
    applied by the next save, which then drops what it covers or is refused.)
    Assumed of the database: a stored parameter object reads as what was stored. *)
Theorem reopen_changes_nothing between rq rq2 me body db db1 st ident :
  wf_sites parse_url db → (∀ d, wf_sites parse_url d → wf_sites parse_url (between d)) →
  (sitesPost parse_url from_base64 encrypt frac_text digest json_store between rq body db = (db1, Reply st ident) ∨
   ∃ u, sitePatch parse_url from_base64 encrypt frac_text digest json_store between rq ident body db = (db1, Reply st u)) →
  site_opts rq2 false = site_opts rq false → sq_user rq2 = Some me → can (u_role me) configure = true →
  ∃ s, s ∈ sd_sites db1 ∧ st_id s = ident ∧
    ((st_customDomain s = true → ∀ h, st_hostname s = Some h → endsWith (sq_suffix rq2 ?? "") h = false ∨ sq_suffix rq2 ?? "" = ""%string) →
     crossTenantHostnameTaken (sq_multi rq2) (sq_owner rq2) (sq_acting rq2) (st_hostname s) = false →
     let '(db2, shown) := handleSubmit parse_url from_base64 encrypt frac_text digest json_store (λ d, d) rq2 (Some ident) (edit_form rq2 s db1) db1 in
     shown = None ∧ sd_sites db2 = sd_sites db1 ∧ sd_vault db2 = rewrite_vault (sq_now rq2) s (sd_vault db1)).
Proof using stores.
  intros W Hb Hsave Hopts Hme Hcan.
  assert (W1 : wf_sites parse_url db1 ∧ ∃ s o, s ∈ sd_sites db1 ∧ st_id s = ident ∧ same_caps o (site_opts rq false) ∧
    saved_as (validateSiteInput parse_url body o) db1 s).
  { destruct Hsave as [H|[u H]]; split.
    - pose proof (post_wf parse_url from_base64 encrypt frac_text digest json_store (λ _, []) (λ _ _, inr 0) between rq body db Hb W) as Hw.
      cbn [run_site] in Hw. by rewrite H in Hw.
    - destruct (post_saved between rq body db db1 st ident (Hb _ W) H) as (s & Hs & Hid & Hsv). exists s, (site_opts rq true). done.
    - pose proof (patch_wf parse_url from_base64 encrypt frac_text digest json_store (λ _, []) (λ _ _, inr 0) between rq ident body db Hb W) as Hw.
      cbn [run_site] in Hw. by rewrite H in Hw.
    - destruct (patch_saved between rq ident body db db1 st u (Hb _ W) H) as (s & Hs & Hid & Hsv). exists s, (site_opts rq false). done. }
  destruct W1 as (W1 & s & o & Hs & <- & Hcaps & Hsv). exists s. split; [done|]. split; [done|]. intros Hcd Hx.
  assert (T : tidy (site_opts rq2 false) db1 s).
  { rewrite Hopts. eapply saved_tidy; [exact Hsv|exact Hcaps|]. intros Hc h Hh. rewrite <- Hopts. cbn [site_opts hostSuffix].
    unfold shown_label. destruct (Hcd Hc h Hh) as [->| ->]; by rewrite ?andb_false_r. }
  unfold handleSubmit. rewrite (patch_same rq2 me db1 s W1 Hs T Hme Hcan Hx). done.
Qed.
End untouched.

Notation demo_submit := (handleSubmit demo_urls id id frac_digits id id (λ d, d)).
Lemma reopen_changes_nothing_witness :
  ∃ s, s ∈ sd_sites demo_desktop ∧ st_id s = "d1"%string ∧
    (demo_submit (demo_site_req "-") (Some "d1"%string) (edit_form (demo_site_req "-") s demo_desktop) demo_desktop).2 = None ∧
    sd_vault (demo_submit (demo_site_req "-") (Some "d1"%string) (edit_form (demo_site_req "-") s demo_desktop) demo_desktop).1
      = rewrite_vault 5000 s (sd_vault demo_desktop).
Proof.
  assert (Hb : ∀ d, wf_sites demo_urls d → wf_sites demo_urls ((λ d, d) d)) by done.
  destruct (reopen_changes_nothing demo_urls id id frac_digits id id (λ g, eq_refl) (λ d, d) (demo_site_req "d1") (demo_site_req "-")
    demo_admin_user (desktop_form (JStr "s3cret")) demo_sites demo_desktop 200 "d1" demo_sites_wf Hb
    (or_introl eq_refl) eq_refl eq_refl eq_refl) as (s & Hs & Hid & H).
  exists s. split; [exact Hs|]. split; [exact Hid|].
  assert (Hrow : st_customDomain s = false ∧ st_hostname s = None).
  { apply list_elem_of_In in Hs. destruct Hs as [<-|Hs]; [split; vm_compute; reflexivity | destruct Hs]. }
  destruct Hrow as [Hc Hh]. destruct (demo_submit _ _ _ _) as [db2 shown].
  destruct H as (Hshown & _ & Hv); [intros E; rewrite Hc in E; discriminate E | rewrite Hh; reflexivity|].
  split; [exact Hshown | exact Hv].
Defined.

(** ** Choices that are not saved *)

Definition with_clipboard (m : string) (f : SiteForm) : SiteForm :=
  {| sf_connectorId := sf_connectorId f; sf_name := sf_name f; sf_hostname := sf_hostname f; sf_customDomain := sf_customDomain f;
     sf_upstreamUrl := sf_upstreamUrl f; sf_description := sf_description f; sf_insecureSkipVerify := sf_insecureSkipVerify f;
     sf_recordSessions := sf_recordSessions f; sf_keystrokeLogging := sf_keystrokeLogging f; sf_clipboardMode := m;
     sf_watermark := sf_watermark f; sf_fileTransferMode := sf_fileTransferMode f; sf_accessMode := sf_accessMode f;
     sf_protocol := sf_protocol f; sf_targetHost := sf_targetHost f; sf_targetPort := sf_targetPort f; sf_username := sf_username f;
     sf_secret := sf_secret f; sf_guac := sf_guac f; sf_logo := sf_logo f; sf_logoType := sf_logoType f |}.

Lemma validate_form_gateway parse_url f o :
  sf_accessMode f = GATEWAY →
  validateSiteInput parse_url (submit_body f) o =
  (let c := trim (sf_connectorId f) in let n := trim (sf_name f) in
   if negb (truthy c) || negb (truthy n) then VError "connector_name_required" else
   if negb (nativeGateway o) then VError "native_gateway_disabled" else
   match read_protocol (toUpperCase (trim (sf_protocol f))) with
   | None => VError "invalid_protocol"
   | Some p =>
       if negb (truthy (trim (sf_targetHost f))) || negb (truthy (trim (sf_username f))) then VError "remote_desktop_fields_required" else
       match read_port (json_wire (JNum (Number (sf_targetPort f)))) with
       | None => VError "invalid_port"
       | Some port =>
           if requireSecret o && negb (truthy (sf_secret f)) then VError "remote_desktop_fields_required" else
           VGateway c n (or_null_str (trim (sf_description f))) p (trim (sf_targetHost f)) port (trim (sf_username f)) (or_null_str (sf_secret f))
             (opt_recordingEnabled o && sf_recordSessions f) (opt_recordingEnabled o && sf_recordSessions f && sf_keystrokeLogging f)
             (parseGuacParams (json_wire (guacFieldsToParams (sf_guac f))))
       end
   end).
Proof.
  intros Hm. destruct (body_common f) as (B1 & B2 & B3 & B4 & _ & _ & _ & _ & B9 & B10 & _).
  destruct (body_gateway f Hm) as (G1 & G2 & G3 & G4 & G5 & G6). unfold validateSiteInput. rewrite B1, B2, B3, B4, Hm. cbn [mode_text].
  change (json_str_is (JStr "GATEWAY") "GATEWAY") with true. unfold validate_gateway. rewrite G1, G2, G3, G4, G5, G6, B9, B10. done.
Qed.
Lemma body_logos f :
  obj_get (submit_body f) "logo" = match sf_logo f with JUndefined => JUndefined | v => json_wire v end ∧
  obj_get (submit_body f) "logoType" = match sf_logoType f with JUndefined => JUndefined | v => json_wire v end.
Proof. repeat (erewrite body_get by in_form). split; [by destruct (sf_logo f) | by destruct (sf_logoType f)]. Qed.

(** The clipboard choice of a remote session is not saved: whatever is chosen
    there, the request does the same.  What the session engine enforces is the
    value the resource had before, or the policy's. *)
Theorem gateway_clipboard_dropped parse_url from_base64 encrypt frac_text digest json_store between rq site f db m :
  sf_accessMode f = GATEWAY →
  handleSubmit parse_url from_base64 encrypt frac_text digest json_store between rq site (with_clipboard m f) db =
  handleSubmit parse_url from_base64 encrypt frac_text digest json_store between rq site f db.
Proof.
  intros Hm. assert (Hv : ∀ o, validateSiteInput parse_url (submit_body (with_clipboard m f)) o = validateSiteInput parse_url (submit_body f) o).
  { intros o. by rewrite !validate_form_gateway. }
  destruct (body_logos f) as [L1 L2], (body_logos (with_clipboard m f)) as [M1 M2]. cbn [with_clipboard sf_logo sf_logoType] in M1, M2.
  unfold handleSubmit, sitePatch, sitesPost. rewrite !Hv, L1, L2, M1, M2. done.
Qed.

Definition demo_keystroke_form : SiteForm :=
  let f := open_form None ["c1"%string] None None in
  {| sf_connectorId := "c1"; sf_name := "PLC"; sf_hostname := ""; sf_customDomain := false; sf_upstreamUrl := ""; sf_description := "";
     sf_insecureSkipVerify := false; sf_recordSessions := false; sf_keystrokeLogging := true; sf_clipboardMode := "inherit";
     sf_watermark := WInherit; sf_fileTransferMode := "none"; sf_accessMode := GATEWAY; sf_protocol := "RDP"; sf_targetHost := "10.0.0.5";
     sf_targetPort := "3389"; sf_username := "op"; sf_secret := "s3cret"; sf_guac := sf_guac f; sf_logo := JUndefined; sf_logoType := JUndefined |}.
(** Under a policy that requires recording the keystroke box is shown and can be
    ticked, but the server takes it only together with the resource's own
    recording switch, which the same policy locks: the tick is dropped. *)
Theorem keystroke_choice_lost parse_url f o c n d p host port user secret r k g :
  sf_accessMode f = GATEWAY → sf_recordSessions f = false →
  keystroke_box true "required" "per_resource" f = true ∧
  (validateSiteInput parse_url (submit_body f) o = VGateway c n d p host port user secret r k g → k = false).
Proof.
  intros Hm Hr. split.
  - unfold keystroke_box, effectiveRecord. rewrite Hm. vm_compute. reflexivity.
  - rewrite validate_form_gateway by done. cbv zeta. rewrite Hr, andb_false_r. cbn [andb].
    repeat case_match; intros E; try discriminate E.
    exact (eq_sym (f_equal (λ v, match v with VGateway _ _ _ _ _ _ _ _ _ k _ => k | _ => false end) E)).
Qed.
Example keystroke_choice_lost_demo :
  map st_keystrokeLogging (sd_sites (demo_submit (demo_site_req "d1") None demo_keystroke_form demo_sites).1) = [false].
Proof. vm_compute. reflexivity. Qed.

(** A domain of the tenant's own under the suffix the server owns is accepted,
    but the edit form cuts the suffix off and the unchanged form is refused. *)
Theorem own_domain_under_suffix_unsavable :
  let rq := demo_site_req "w1" in
  let '(db1, reply) := demo_post rq (domain_form "wiki.access.example.com") demo_sites in
  reply = Reply 200 "w1"%string ∧
  ∃ s, s ∈ sd_sites db1 ∧ (demo_submit rq (Some "w1"%string) (edit_form rq s db1) db1).2 = Some "A public hostname is required."%string.
Proof.
  cbv zeta. match goal with |- let '(_, _) := ?c in _ => destruct c as [db1 reply] eqn:E end. vm_compute in E. simplify_eq.
  split; [reflexivity|]. eexists. split; [apply list_elem_of_here|]. vm_compute. reflexivity.
Qed.
