(* ===== verification/Recorder.v ===== *)
(** * The in-page recorder of a web session

    The script injected into a recorded web site
    (src/recorder/record-init.ts): it numbers batches of events under a key that
    the tab keeps across navigations and posts them.  What becomes of a batch is
    followed to the replay: the data plane passes it on with a line feed
    (dataplane/recrrweb.go), the connector writes it to the file of its number
    and reads the files back in order (connector/recstore.go), and the manager
    assembles the stream ([Recordings.assembleEvents]). *)

From S2P Require Import Prelude JsString JsValue Schema AuditQuery Recordings.

(** ** The tab's session storage *)

(** [sg_reads], [sg_writes]: whether the calls work; otherwise they throw. *)
Record Storage := { sg_key : option string; sg_seq : option string; sg_reads : bool; sg_writes : bool }.
Definition put_key (k : string) (st : Storage) : Storage :=
  {| sg_key := Some k; sg_seq := sg_seq st; sg_reads := sg_reads st; sg_writes := sg_writes st |}.
Definition put_seq (n : Z) (st : Storage) : Storage :=
  {| sg_key := sg_key st; sg_seq := Some (dec n); sg_reads := sg_reads st; sg_writes := sg_writes st |}.

(** ** The recorder *)

Record Batch := { b_key : string; b_seq : Z; b_events : list json; b_final : bool }.
Record Rec := { r_key : string; r_seq : Z; r_buf : list json }.
Definition with_buf (l : list json) (r : Rec) : Rec := {| r_key := r_key r; r_seq := r_seq r; r_buf := l |}.

(** [Number(item ?? "0") || 0]; only the recorder writes the item. *)
Definition read_seq (item : option string) : Z := match Number (item ?? "0") with NInt z => z | _ => 0 end.
(** The start of a page; [newId], [newId']: the two calls of [newId]. *)
Definition start (newId newId' : string) (st : Storage) : Rec * Storage :=
  let failed := {| r_key := newId'; r_seq := 0; r_buf := [] |} in
  if negb (sg_reads st) then (failed, st) else
  let key := sg_key st ?? newId in
  if negb (sg_writes st) then (failed, st) else
  let st' := put_key key st in ({| r_key := key; r_seq := read_seq (sg_seq st'); r_buf := [] |}, st').
Definition persistSeq (n : Z) (st : Storage) : Storage := if sg_writes st then put_seq n st else st.
Definition flush (terminal : bool) (r : Rec) (st : Storage) : Rec * Storage * list Batch :=
  match r_buf r with
  | [] => (r, st, [])
  | batch => let s := r_seq r in
             ({| r_key := r_key r; r_seq := s + 1; r_buf := [] |}, persistSeq (s + 1) st,
              [{| b_key := r_key r; b_seq := s; b_events := batch; b_final := terminal |}])
  end.

Definition is_snapshot (e : json) : bool := match obj_get e "type" with JNum (NInt 2) => true | _ => false end.
Inductive page_event := Emit (e : json) | Tick | Hidden | PageHide.
Definition page_step (r : Rec) (st : Storage) (ev : page_event) : Rec * Storage * list Batch :=
  match ev with
  | Emit e => let r1 := with_buf (r_buf r ++ [e]) r in
              if is_snapshot e || (50 <=? Z.of_nat (length (r_buf r1))) then flush false r1 st else (r1, st, [])
  | Tick => flush false r st
  | Hidden | PageHide => flush true r st
  end.
Fixpoint page_run (r : Rec) (st : Storage) (evs : list page_event) : Rec * Storage * list Batch :=
  match evs with
  | [] => (r, st, [])
  | ev :: evs' => let '(r1, st1, b) := page_step r st ev in let '(r2, st2, bs) := page_run r1 st1 evs' in (r2, st2, b ++ bs)
  end.
(** A tab: its pages one after the other, with the ids drawn at their starts. *)
Fixpoint tab_run (st : Storage) (pages : list (string * string * list page_event)) : Storage * list Batch :=
  match pages with
  | [] => (st, [])
  | (i, j, evs) :: pages' =>
      let '(r, st1) := start i j st in
      let '(_, st2, b) := page_run r st1 evs in
      let '(st3, bs) := tab_run st2 pages' in (st3, b ++ bs)
  end.

(** ** Where the batches end up *)

(** The connector's directory of one recording: one file per number. *)
Definition Append (b : Batch) (files : list (Z * list json)) : list (Z * list json) :=
  (b_seq b, b_events b) :: List.filter (λ f, negb (f.1 =? b_seq b)) files.
Definition write_all (bs : list Batch) : list (Z * list json) := fold_left (λ files b, Append b files) bs [].

Section stream.
Context (json_print : json → string).
(** The stream of a recording: its chunks in the order of their numbers. *)
Definition Read (files : list (Z * list json)) : string :=
  foldr (λ f text, json_print (JArr f.2) +:+ unchars [LF] +:+ text) ""%string (order_by fst files).
End stream.

(** ** One page *)

Definition emitted (evs : list page_event) : list json := omap (λ ev, match ev with Emit e => Some e | _ => None end) evs.
Definition sent_events (bs : list Batch) : list json := concat (map b_events bs).

Lemma flush_spec t r st r' st' bs :
  flush t r st = (r', st', bs) →
  r_key r' = r_key r ∧ r_buf r' = [] ∧ r_seq r' = r_seq r + Z.of_nat (length bs) ∧ sent_events bs = r_buf r ∧
  map b_seq bs = seqZ (r_seq r) (Z.of_nat (length bs)) ∧ Forall (λ b, b_key b = r_key r ∧ b_final b = t) bs ∧
  st' = (if bool_decide (bs = []) then st else persistSeq (r_seq r') st).
Proof.
  unfold flush. destruct (r_buf r) as [|e l] eqn:E; intros [= <- <- <-].
  - split_and!; try done. cbn. lia.
  - cbn. split_and!; try done; [by rewrite app_nil_r | by repeat constructor].
Qed.

(** The storage holds the recorder's key and the next number. *)
Definition holds (k : string) (n : Z) (st : Storage) : Prop :=
  sg_reads st = true ∧ sg_writes st = true ∧ sg_key st = Some k ∧ read_seq (sg_seq st) = n ∧ 0 ≤ n.
Lemma read_seq_dec n : 0 ≤ n → read_seq (Some (dec n)) = n.
Proof. intros Hn. unfold read_seq. change (Some (dec n) ?? "0") with (dec n). by rewrite Number_dec. Qed.
Lemma persist_holds k n m st : holds k n st → 0 ≤ m → holds k m (persistSeq m st).
Proof.
  intros (H1 & H2 & H3 & H4 & H5) Hm. unfold persistSeq, holds. rewrite H2. cbn. split_and!; try done. by apply read_seq_dec.
Qed.
(** What a run of batches from number [n] looks like. *)
Definition numbered (k : string) (n : Z) (bs : list Batch) : Prop :=
  map b_seq bs = seqZ n (Z.of_nat (length bs)) ∧ Forall (λ b, b_key b = k) bs.
Lemma numbered_app k n bs bs' : numbered k n bs → numbered k (n + Z.of_nat (length bs)) bs' → numbered k n (bs ++ bs').
Proof.
  intros [H1 H2] [H3 H4]. split; [|by apply Forall_app]. rewrite map_app, H1, H3, length_app, Nat2Z.inj_add, seqZ_app by lia. done.
Qed.
Lemma numbered_nil k n : numbered k n [].
Proof. split; [done|constructor]. Qed.

Lemma flush_ok t r st r' st' bs :
  holds (r_key r) (r_seq r) st → flush t r st = (r', st', bs) →
  holds (r_key r') (r_seq r') st' ∧ r_key r' = r_key r ∧ r_seq r' = r_seq r + Z.of_nat (length bs) ∧
  numbered (r_key r) (r_seq r) bs ∧ sent_events bs = r_buf r ∧ r_buf r' = [] ∧ Forall (λ b, b_final b = t) bs.
Proof.
  intros Hh Hf. apply flush_spec in Hf as (Hk & Hb & Hs & He & Hn & Hall & Hst). split_and!; try done.
  - rewrite Hk. case_bool_decide as E; subst; [by replace (r_seq r') with (r_seq r) by (cbn in Hs; lia)|].
    apply (persist_holds _ (r_seq r)); [done|]. destruct Hh as (_ & _ & _ & _ & ?). lia.
  - split; [done|]. eapply Forall_impl; [exact Hall|]. by intros b [? _].
  - eapply Forall_impl; [exact Hall|]. by intros b [_ ?].
Qed.
Lemma page_step_ok r st ev r' st' bs :
  holds (r_key r) (r_seq r) st → page_step r st ev = (r', st', bs) →
  holds (r_key r') (r_seq r') st' ∧ r_key r' = r_key r ∧ r_seq r' = r_seq r + Z.of_nat (length bs) ∧
  numbered (r_key r) (r_seq r) bs ∧ sent_events bs ++ r_buf r' = r_buf r ++ emitted [ev] ∧ (ev = PageHide → r_buf r' = []).
Proof.
  intros Hh Hp. destruct ev as [e| | |]; cbn [page_step] in Hp.
  - destruct (is_snapshot e || _).
    + apply flush_ok in Hp as (H1 & H2 & H3 & H4 & H5 & H6 & _); [|done]. cbn in *. split_and!; try done. by rewrite H5, H6, app_nil_r.
    + simplify_eq. cbn. split_and!; try done; try lia; try apply numbered_nil.
  - apply flush_ok in Hp as (H1 & H2 & H3 & H4 & H5 & H6 & _); [|done]. split_and!; try done. by rewrite H5, H6.
  - apply flush_ok in Hp as (H1 & H2 & H3 & H4 & H5 & H6 & _); [|done]. split_and!; try done. by rewrite H5, H6.
  - apply flush_ok in Hp as (H1 & H2 & H3 & H4 & H5 & H6 & _); [|done]. split_and!; try done. by rewrite H5, H6.
Qed.
Lemma sent_app bs bs' : sent_events (bs ++ bs') = sent_events bs ++ sent_events bs'.
Proof. unfold sent_events. by rewrite map_app, concat_app. Qed.
Lemma emitted_cons ev evs : emitted (ev :: evs) = emitted [ev] ++ emitted evs.
Proof. by destruct ev. Qed.
Lemma page_run_ok evs r st r' st' bs :
  holds (r_key r) (r_seq r) st → page_run r st evs = (r', st', bs) →
  holds (r_key r') (r_seq r') st' ∧ r_key r' = r_key r ∧ r_seq r' = r_seq r + Z.of_nat (length bs) ∧
  numbered (r_key r) (r_seq r) bs ∧ sent_events bs ++ r_buf r' = r_buf r ++ emitted evs ∧
  (last evs = Some PageHide → r_buf r' = []).
Proof.
  revert r st r' st' bs; induction evs as [|ev evs IH]; intros r st r' st' bs Hh Hr; cbn -[page_step] in Hr.
  - simplify_eq. split_and!; try done; try (cbn; lia); try apply numbered_nil; by rewrite app_nil_r.
  - destruct (page_step r st ev) as [[r1 st1] b] eqn:E1. destruct (page_run r1 st1 evs) as [[r2 st2] bs2] eqn:E2. simplify_eq.
    apply page_step_ok in E1 as (H1 & K1 & S1 & N1 & B1 & L1); [|done].
    destruct (IH _ _ _ _ _ H1 E2) as (H2 & K2 & S2 & N2 & B2 & L2). rewrite K1, S1 in N2.
    split_and!; [done|congruence|rewrite length_app; lia|by apply numbered_app| |].
    + rewrite sent_app, emitted_cons, <- app_assoc, B2, (app_assoc (sent_events b)), B1, <- app_assoc. done.
    + destruct evs as [|ev2 evs]; [|exact L2]. cbn in E2. simplify_eq. cbn. intros [= ->]. by apply L1.
Qed.
Lemma start_ok i j st :
  sg_reads st = true → sg_writes st = true → 0 ≤ read_seq (sg_seq st) →
  let '(r, st') := start i j st in
  holds (r_key r) (r_seq r) st' ∧ r_key r = sg_key st ?? i ∧ r_seq r = read_seq (sg_seq st) ∧ r_buf r = [].
Proof. intros H1 H2 H3. unfold start. rewrite H1, H2. cbn. split_and!; done. Qed.

Definition tab_events (pages : list (string * string * list page_event)) : list json := concat (map (λ p, emitted p.2) pages).
Lemma tab_run_ok pages st st' bs :
  sg_reads st = true → sg_writes st = true → 0 ≤ read_seq (sg_seq st) →
  Forall (λ p, last p.2 = Some PageHide) pages → tab_run st pages = (st', bs) →
  numbered (sg_key st ?? (match pages with [] => ""%string | p :: _ => p.1.1 end)) (read_seq (sg_seq st)) bs ∧
  sent_events bs = tab_events pages.
Proof.
  revert st st' bs; induction pages as [|[[i j] evs] pages IH]; intros st st' bs H1 H2 H3 Hl Ht; cbn -[start] in Ht.
  - simplify_eq. split; [apply numbered_nil | done].
  - apply Forall_cons in Hl as [Hl Hls]. cbn in Hl. pose proof (start_ok i j st H1 H2 H3) as Hs.
    destruct (start i j st) as [r st1]. destruct Hs as (Hh & Hk & Hq & Hb).
    destruct (page_run r st1 evs) as [[r2 st2] b] eqn:E1. destruct (tab_run st2 pages) as [st3 bs2] eqn:E2. simplify_eq.
    apply page_run_ok in E1 as (Hh2 & Hk2 & Hq2 & Hn & He & Hend); [|done]. specialize (Hend Hl). rewrite Hend, Hb, app_nil_r in He. cbn in He.
    destruct Hh2 as (R1 & R2 & R3 & R4 & R5).
    destruct (IH _ _ _ R1 R2 ltac:(lia) Hls E2) as [Hn2 He2]. rewrite R3 in Hn2. change (Some (r_key r2) ?? _) with (r_key r2) in Hn2.
    rewrite Hk2, R4, Hq2 in Hn2. cbn [fst]. rewrite <- Hk, <- Hq. split; [by apply numbered_app|].
    rewrite sent_app, He, He2. done.
Qed.

(** ** From the batches to the replay *)

Definition chunk (b : Batch) : Z * list json := (b_seq b, b_events b).
Lemma write_all_perm bs : NoDup (map b_seq bs) → write_all bs ≡ₚ map chunk bs.
Proof.
  unfold write_all. intros Hnd.
  assert (Hgen : ∀ l files, NoDup (map b_seq l) → (∀ f, f ∈ files → f.1 ∉ map b_seq l) →
    fold_left (λ files b, Append b files) l files ≡ₚ map chunk l ++ files).
  { clear. induction l as [|b l IH]; intros files Hnd Hf; [done|]. cbn in *. apply NoDup_cons in Hnd as [Hb Hnd].
    assert (Hsame : List.filter (λ f, negb (f.1 =? b_seq b)) files = files).
    { rewrite (List.filter_ext_in _ (λ _, true)).
      - clear. induction files as [|f files IH]; cbn; [done|by f_equal].
      - intros f Hin%list_elem_of_In. apply negb_true_iff, Z.eqb_neq. intros E. apply (Hf f Hin). rewrite E. left. }
    unfold Append at 2. rewrite Hsame, IH; [|done|].
    - symmetry. apply Permutation_middle.
    - intros f [->|Hin]%elem_of_cons; [exact Hb|]. intros H. apply (Hf f Hin). by right. }
  rewrite Hgen; [by rewrite app_nil_r|done|]. intros f H. by apply elem_of_nil in H.
Qed.
Lemma seqZ_increasing n m : StronglySorted Z.lt (seqZ n m).
Proof.
  revert n. assert (∀ k n, StronglySorted Z.lt (seqZ n (Z.of_nat k))) as H.
  { induction k as [|k IH]; intros n; [constructor|]. rewrite seqZ_cons by lia. constructor.
    - replace (Z.pred (Z.of_nat (S k))) with (Z.of_nat k) by lia. apply IH.
    - apply Forall_forall. intros x [? ?]%elem_of_seqZ. lia. }
  intros n. destruct (Z.le_gt_cases 0 m); [rewrite <- (Z2Nat.id m) by done; apply H|]. rewrite seqZ_nil by lia. constructor.
Qed.
Lemma numbered_increasing k n bs : numbered k n bs → increasing fst (map chunk bs).
Proof.
  intros [Hn _]. pose proof (seqZ_increasing n (Z.of_nat (length bs))) as Hs. rewrite <- Hn in Hs. clear Hn.
  unfold increasing. induction bs as [|b bs IH]; cbn in *; [constructor|]. apply StronglySorted_inv in Hs as [Hs Hf].
  constructor; [by apply IH|]. apply Forall_fmap. rewrite Forall_fmap in Hf. exact Hf.
Qed.
Lemma files_in_order k n bs got : numbered k n bs → got ≡ₚ bs → order_by fst (write_all got) = map chunk bs.
Proof.
  intros Hn Hp. pose proof (numbered_increasing k n bs Hn) as Hi.
  assert (Hnd : NoDup (map b_seq bs)). { destruct Hn as [-> _]. apply NoDup_seqZ. }
  assert (Hg : write_all got ≡ₚ map chunk bs).
  { rewrite write_all_perm; [by rewrite Hp|]. by rewrite Hp. }
  apply (increasing_unique fst); [|done|].
  - apply order_by_increasing. rewrite Hg. by apply increasing_NoDup.
  - unfold order_by. by rewrite merge_sort_Permutation.
Qed.

(** What is used of JSON text: the printed array of a batch reads back, has no
    line feed and no blanks around it. *)
Record prints (json_parse : string → option json) (json_print : json → string) (l : list json) : Prop := {
  print_parse : json_parse (json_print (JArr l)) = Some (JArr l);
  print_line : sep_free LF (json_print (JArr l));
  print_trim : trim (json_print (JArr l)) = json_print (JArr l);
  print_some : truthy (json_print (JArr l)) = true }.

Section replay.
Context (json_parse : string → option json) (json_print : json → string).
Notation printed := (prints json_parse json_print).

Definition stream_of (chunks : list (Z * list json)) : string :=
  foldr (λ f text, json_print (JArr f.2) +:+ unchars [LF] +:+ text) ""%string chunks.
Lemma split_stream chunks :
  Forall (λ f, printed f.2) chunks → split LF (stream_of chunks) = map (λ f, json_print (JArr f.2)) chunks ++ [""%string].
Proof.
  induction 1 as [|f chunks Hf Hfs IH]; [done|]. cbn [stream_of foldr map app]. unfold split in *. rewrite !chars_append, chars_unchars.
  cbn [app]. rewrite split_chars_app by apply (print_line _ _ _ Hf). cbn [map]. rewrite unchars_chars. f_equal. exact IH.
Qed.
Lemma assemble_stream chunks :
  Forall (λ f, printed f.2) chunks → assembleEvents json_parse (stream_of chunks) = concat (map snd chunks).
Proof.
  intros Hp. unfold assembleEvents. rewrite split_stream, map_app, concat_app by done. cbn [map concat].
  change (parse_line json_parse "") with (@None json). rewrite app_nil_r, map_map. f_equal.
  apply map_ext_in. intros f Hf%list_elem_of_In. rewrite Forall_forall in Hp. specialize (Hp f Hf). unfold parse_line.
  by rewrite (print_trim _ _ _ Hp), (print_some _ _ _ Hp), (print_parse _ _ _ Hp).
Qed.

(** C31: a recorded visit replays whole.  Over any number of pages of one tab,
    with its storage working and each page ended by its pagehide, every event is
    posted in exactly one batch, all batches carry one key and are numbered from
    zero; and when they arrive, in whatever order the network delivers them, the
    replay of that recording is the events of the visit in their order. *)
Theorem visit_replays st pages got :
  sg_reads st = true → sg_writes st = true → sg_key st = None → sg_seq st = None →
  Forall (λ p, last p.2 = Some PageHide) pages →
  let '(_, bs) := tab_run st pages in
  Forall (λ b, printed (b_events b)) bs → got ≡ₚ bs →
  Forall (λ b, b_key b = match pages with [] => ""%string | p :: _ => p.1.1 end) bs ∧
  map b_seq bs = seqZ 0 (Z.of_nat (length bs)) ∧
  assembleEvents json_parse (Read json_print (write_all got)) = tab_events pages.
Proof.
  intros H1 H2 Hk Hs Hl. assert (H3 : 0 ≤ read_seq (sg_seq st)) by (by rewrite Hs). destruct (tab_run st pages) as [st' bs] eqn:E. intros Hpr Hp.
  destruct (tab_run_ok pages st st' bs H1 H2 H3 Hl E) as [Hn He]. rewrite Hk, Hs in Hn. change (read_seq None) with 0 in Hn.
  split; [apply Hn|]. split; [apply Hn|]. unfold Read. rewrite (files_in_order _ _ _ _ Hn Hp).
  change (foldr _ _ _) with (stream_of (map chunk bs)). rewrite assemble_stream by (by apply Forall_fmap). rewrite map_map, <- He. done.
Qed.
End replay.

Definition demo_event (n : Z) : json := JObj [("type", JNum (NInt n))]%string.
Definition demo_pages : list (string * string * list page_event) :=
  [("k", "-", [Emit (demo_event 4); Emit (demo_event 2); Emit (demo_event 3); Tick; Hidden; PageHide]);
   ("l", "-", [Emit (demo_event 2); Emit (demo_event 5); PageHide])]%string.
Definition demo_storage : Storage := {| sg_key := None; sg_seq := None; sg_reads := true; sg_writes := true |}.
(** Printing and reading arrays of such events. *)
Definition demo_print (v : json) : string :=
  match v with JArr l => "[" +:+ join "," (map (λ e, match obj_get e "type" with JNum (NInt n) => dec n | _ => "" end) l) +:+ "]" | _ => "" end.
Definition demo_parse (t : string) : option json :=
  if startsWith "[" t then Some (JArr (map (λ w, match Number w with NInt n => demo_event n | _ => JNull end)
    (split (Ascii.ascii_of_N 44) (slice_to (length (chars t) - 2) (slice_from 1 t))))) else None.
Lemma visit_replays_witness :
  assembleEvents demo_parse (Read demo_print (write_all (rev (tab_run demo_storage demo_pages).2))) = map demo_event [4; 2; 3; 2; 5].
Proof.
  assert (Hl : Forall (λ p : string * string * list page_event, last p.2 = Some PageHide) demo_pages) by (repeat constructor).
  pose proof (visit_replays demo_parse demo_print demo_storage demo_pages (rev (tab_run demo_storage demo_pages).2)
    eq_refl eq_refl eq_refl eq_refl Hl) as H.
  destruct (tab_run demo_storage demo_pages) as [st bs] eqn:E. destruct H as (_ & _ & H).
  - vm_compute in E. injection E as <- <-. repeat apply List.Forall_cons; try apply List.Forall_nil; split;
      first [vm_compute; reflexivity | unfold sep_free; apply (bool_decide_unpack _); vm_compute; exact I].
  - symmetry. apply Permutation_rev.
  - exact H.
Defined.

(** ** What the recorder never risks *)

(** The replay anchor is never left to the last moment.  A full snapshot is
    posted as soon as it is emitted, by the post that has no size limit; and at
    most 49 events, none of them a snapshot, ever wait in the buffer, so this is
    all that the limited post of a closing page can carry. *)
Theorem snapshot_sent_at_once evs r st r' st' bs :
  Forall (λ e, is_snapshot e = false) (r_buf r) → (length (r_buf r) < 50)%nat →
  page_run r st evs = (r', st', bs) →
  Forall (λ e, is_snapshot e = false) (r_buf r') ∧ (length (r_buf r') < 50)%nat ∧
  Forall (λ b, b_final b = true → Forall (λ e, is_snapshot e = false) (b_events b) ∧ (length (b_events b) < 50)%nat) bs ∧
  Forall (λ b, (length (b_events b) ≤ 50)%nat) bs.
Proof.
  assert (Hflush : ∀ t r st r' st' bs, flush t r st = (r', st', bs) →
    r_buf r' = [] ∧ ∀ P : Batch → Prop, (∀ k n, r_buf r ≠ [] → P {| b_key := k; b_seq := n; b_events := r_buf r; b_final := t |}) → Forall P bs).
  { clear. intros t r st r' st' bs. unfold flush. destruct (r_buf r) as [|e l] eqn:E; intros [= <- <- <-].
    - split; [done|]. constructor.
    - split; [done|]. intros P HP. constructor; [by apply HP|constructor]. }
  revert r st r' st' bs; induction evs as [|ev evs IH]; intros r st r' st' bs Hs Hb Hr; cbn -[page_step] in Hr.
  { simplify_eq. split_and!; try done; constructor. }
  destruct (page_step r st ev) as [[r1 st1] b] eqn:E1. destruct (page_run r1 st1 evs) as [[r2 st2] bs2] eqn:E2. simplify_eq.
  assert (Hstep : Forall (λ e, is_snapshot e = false) (r_buf r1) ∧ (length (r_buf r1) < 50)%nat ∧
    Forall (λ b, b_final b = true → Forall (λ e, is_snapshot e = false) (b_events b) ∧ (length (b_events b) < 50)%nat) b ∧
    Forall (λ b, (length (b_events b) ≤ 50)%nat) b).
  { destruct ev as [e| | |]; cbn [page_step] in E1.
    - destruct (is_snapshot e || _) eqn:Ec.
      + apply Hflush in E1 as [-> HP]. split_and!; [constructor|cbn; lia|by apply HP|]. apply HP. intros k n _. cbn. rewrite length_app. cbn. lia.
      + simplify_eq. apply orb_false_iff in Ec as [Ee El]. cbn in El. apply Z.leb_gt in El. cbn.
        split_and!; [apply Forall_app; split; [done|by repeat constructor]|rewrite length_app in *; cbn in *; lia|constructor|constructor].
    - apply Hflush in E1 as [-> HP]. split_and!; [constructor|cbn; lia|by apply HP|]. apply HP. intros k n _. cbn. lia.
    - apply Hflush in E1 as [-> HP]. split_and!; [constructor|cbn; lia|by apply HP|]. apply HP. intros k n _. cbn. lia.
    - apply Hflush in E1 as [-> HP]. split_and!; [constructor|cbn; lia|by apply HP|]. apply HP. intros k n _. cbn. lia. }
  destruct Hstep as (S1 & S2 & S3 & S4). destruct (IH _ _ _ _ _ S1 S2 E2) as (T1 & T2 & T3 & T4).
  split_and!; [done|done|by apply Forall_app|by apply Forall_app].
Qed.
Lemma snapshot_sent_at_once_witness :
  Forall (λ b, (length (b_events b) ≤ 50)%nat)
    (page_run {| r_key := "k"; r_seq := 0; r_buf := [] |} demo_storage [Emit (demo_event 3); Emit (demo_event 2); PageHide]).2.
Proof.
  destruct (page_run {| r_key := "k"; r_seq := 0; r_buf := [] |} demo_storage [Emit (demo_event 3); Emit (demo_event 2); PageHide])
    as [[r' st'] bs] eqn:E.
  assert (H0 : (length (@nil json) < 50)%nat) by (cbn; lia).
  exact (proj2 (proj2 (proj2 (snapshot_sent_at_once _ {| r_key := "k"; r_seq := 0; r_buf := [] |} _ _ _ _ (List.Forall_nil _) H0 E)))).
Defined.

(** ** Two writers of one recording *)

(** A duplicated tab starts with a copy of the storage: both number their batches
    alike under one key, and the connector keeps one file per number.  Here the
    second tab's batch takes the place of the first tab's snapshot. *)
Theorem duplicate_tab_overwrites :
  let '(st, _) := tab_run demo_storage [("k", "-", [])]%string in
  let '(_, one) := tab_run st [("-", "-", [Emit (demo_event 2); PageHide])]%string in
  let '(_, two) := tab_run st [("-", "-", [Emit (demo_event 3); PageHide])]%string in
  map b_key (one ++ two) = ["k"; "k"]%string ∧ hasFullSnapshot (sent_events (one ++ two)) = true ∧
  write_all (one ++ two) = [(0, [demo_event 3])] ∧
  hasFullSnapshot (assembleEvents demo_parse (Read demo_print (write_all (one ++ two)))) = false.
Proof. vm_compute. repeat split. Qed.

(** A write of the counter that fails (a full quota) is ignored: the next page
    numbers from zero again under the same key and overwrites the first batches. *)
Theorem lost_counter_overwrites :
  let stuck := {| sg_key := Some "k"%string; sg_seq := None; sg_reads := true; sg_writes := true |} in
  let '(r, st) := start "-" "-" stuck in
  let full := {| sg_key := sg_key st; sg_seq := sg_seq st; sg_reads := true; sg_writes := false |} in
  let '(_, full', one) := page_run r full [Emit (demo_event 2); PageHide] in
  let freed := {| sg_key := sg_key full'; sg_seq := sg_seq full'; sg_reads := true; sg_writes := true |} in
  let '(_, two) := tab_run freed [("-", "-", [Emit (demo_event 3); PageHide])]%string in
  map b_key (one ++ two) = ["k"; "k"]%string ∧ write_all (one ++ two) = [(0, [demo_event 3])].
Proof. vm_compute. repeat split. Qed.
