(* ===== verification/PolicyForm.v ===== *)
(** * The policy page of the console

    The two forms of admin/policy (platform-settings-form.tsx and
    session-policy-form.tsx) and the page that seeds them (page.tsx), composed
    with the routes that save them ([Config] and [Sessions]).  Saving an untouched
    form leaves every setting as it was in force; what goes wrong when a read
    behind the page fails is recorded at the end. *)

From S2P Require Import Prelude JsString JsValue Schema AuditChain AccessLog AdminLog Identity Cidr Access Sessions Settings Gateway Tenant Directory SignIn Passkeys Provider Config SiteForm.

#[local] Arguments obj_get : simpl never.

(** ** The state of the forms *)

(** [str] of both forms. *)
Definition num_text (n : option Z) : string := match n with Some z => dec z | None => "" end.

Record PlatformForm := {
  pf_audit : string;
  pf_invite : string;
  pf_webhook : string;
  pf_ipAllow : string;
  pf_maxGrant : string;
  pf_requireJustif : bool;
  pf_consent : bool;
  pf_watermark : bool;
  pf_clipboardDefault : string;
  pf_ksMode : string;
  pf_recMode : string;
  pf_tz : string;
  pf_recRetention : string;
  pf_connLog : string;
  pf_anchorOn : bool;
  pf_anchorUrl : string;
  pf_anchorAuth : string;
  pf_siteHealth : bool;
  pf_accessRequests : bool;
  pf_accessDecisions : bool;
  pf_guac : GuacFields;
}.

(** [v !== false] of a nullable boolean. *)
Definition on_unless_false (v : option bool) : bool := negb (bool_decide (v = Some false)).
Definition open_platform (initial : PlatformSettings) (consentEffective watermarkEffective : bool) (recordingModeEffective : string)
    (guacDefaults : GuacParams) : PlatformForm :=
  {| pf_audit := num_text (auditRetentionDays initial);
     pf_invite := num_text (inviteTtlHours initial);
     pf_webhook := notificationWebhookUrl initial ?? "";
     pf_ipAllow := vendorIpAllowlist initial ?? "";
     pf_maxGrant := num_text (maxGrantDays initial);
     pf_requireJustif := on_unless_false (requireRequestJustification initial);
     pf_consent := consentEffective;
     pf_watermark := watermarkDefault initial ?? watermarkEffective;
     pf_clipboardDefault := clipboardDefault initial ?? "allow";
     pf_ksMode := keystrokeLoggingMode initial ?? "per_resource";
     pf_recMode := recordingMode initial ?? recordingModeEffective;
     pf_tz := displayTimezone initial ?? "";
     pf_recRetention := num_text (recordingRetentionDays initial);
     pf_connLog := defaultConnectorLogLevel initial ?? "info";
     pf_anchorOn := bool_decide (externalAnchorEnabled initial = Some true);
     pf_anchorUrl := anchorTsaUrl initial ?? "";
     pf_anchorAuth := anchorTsaAuth initial ?? "";
     pf_siteHealth := on_unless_false (notifySiteHealth initial);
     pf_accessRequests := on_unless_false (notifyAccessRequests initial);
     pf_accessDecisions := on_unless_false (notifyAccessDecisions initial);
     pf_guac := paramsToGuacFields guacDefaults |}.

(** The entries counted under the allowlist: split on blanks and commas. *)
Definition allowEntries (ipAllow : string) : list string := List.filter truthy (map unchars (runs (chars ipAllow) [])).

Record SessionForm := { sp_idle : string; sp_maxHours : string; sp_maxConc : string; sp_requireSecondFactor : bool }.
Definition open_session (initial : SessionPolicy) : SessionForm :=
  {| sp_idle := num_text (idleTimeoutMinutes initial); sp_maxHours := num_text (maxSessionHours initial);
     sp_maxConc := num_text (maxConcurrentPerUser initial); sp_requireSecondFactor := requireSecondFactor initial |}.

(** ** Saving *)

Definition platform_members (f : PlatformForm) : list (string * json) :=
  [("auditRetentionDays", JStr (pf_audit f)); ("inviteTtlHours", JStr (pf_invite f)); ("notificationWebhookUrl", JStr (pf_webhook f));
   ("vendorIpAllowlist", JStr (pf_ipAllow f)); ("maxGrantDays", JStr (pf_maxGrant f));
   ("requireRequestJustification", JBool (pf_requireJustif f)); ("recordingConsentRequired", JBool (pf_consent f));
   ("watermarkDefault", JBool (pf_watermark f)); ("clipboardDefault", JStr (pf_clipboardDefault f));
   ("keystrokeLoggingMode", JStr (pf_ksMode f)); ("recordingMode", JStr (pf_recMode f));
   ("displayTimezone", if truthy (pf_tz f) then JStr (pf_tz f) else JNull); ("recordingRetentionDays", JStr (pf_recRetention f));
   ("defaultConnectorLogLevel", JStr (pf_connLog f)); ("externalAnchorEnabled", JBool (pf_anchorOn f));
   ("anchorTsaUrl", JStr (pf_anchorUrl f)); ("anchorTsaAuth", JStr (pf_anchorAuth f)); ("notifySiteHealth", JBool (pf_siteHealth f));
   ("notifyAccessRequests", JBool (pf_accessRequests f)); ("notifyAccessDecisions", JBool (pf_accessDecisions f));
   ("guacParamDefaults", guacFieldsToParams (pf_guac f))]%string.
Definition platform_body (f : PlatformForm) : json := json_wire (JObj (platform_members f)).

(** The notice under the form: [inl] an error, [inr] "Saved."; [invalid] are the
    refused entries the answer names. *)
Definition platform_notice (invalid : list string) (r : response unit) : string + string :=
  match r with
  | Reply _ _ => inr "Saved."%string
  | Fail _ e =>
      inl (if e =s "invalid_cidr" then "Invalid IP/CIDR entries: " +:+ join ", " invalid else
           if e =s "invalid_webhook_url" then "The webhook URL must be a valid http(s) URL." else
           if e =s "anchor_tsa_required" then "Enter a TSA URL to enable external anchoring." else
           if e =s "anchor_tsa_invalid" then "The TSA URL must be a valid http(s) URL." else "Could not save.")
  end.

Definition session_members (f : SessionForm) : list (string * json) :=
  [("idleTimeoutMinutes", JStr (sp_idle f)); ("maxSessionHours", JStr (sp_maxHours f)); ("maxConcurrentPerUser", JStr (sp_maxConc f));
   ("requireSecondFactor", JBool (sp_requireSecondFactor f))]%string.
Definition session_body (f : SessionForm) : json := json_wire (JObj (session_members f)).
Definition session_notice (r : response unit) : string + string :=
  match r with
  | Reply _ _ => inr "Saved."%string
  | Fail _ e =>
      inl (if e =s "own_session_lacks_second_factor"
           then "Your own sign-in did not use a second factor, so this would lock you out too. Sign in again with two-step verification (or a passkey that asks for your PIN or fingerprint), then turn this on."%string
           else "Could not save."%string)
  end.

(** ** The page and the two saves *)

(** Which of the page's reads fail. *)
Record PageReads := { rd_platform : bool; rd_consent : bool; rd_guac : bool; rd_watermark : bool; rd_mode : bool }.

Section page.
Context `{Net} (parse_url : string → option Url) (isValidTimeZone : string → bool).
Context (frac_text : Z → string) (digest : string → string) (json_store : json → json).
Context (centreConfigured : bool) (env : string → option string).

(** One read of the settings through the cache. *)
Definition reads (tid : string) (now : Z) (e : bool) (db : Setup) : Setup * PlatformSettings :=
  let '(st, s) := getPlatformSettings tid now e (su_settings db) in (set_settings st db, s).
(** The page: five reads, then the form; [recordingAllowed] is the platform's
    capability. *)
Definition policy_page (rd : PageReads) (recordingAllowed : bool) (tid : string) (now : Z) (db : Setup) : Setup * PlatformForm :=
  let '(db1, platform) := reads tid now (rd_platform rd) db in
  let '(db2, s2) := reads tid now (rd_consent rd) db1 in
  let guacDefaults := resolvedGuacParamDefaults (rd_guac rd) tid db2 in
  let '(db3, s3) := reads tid now (rd_watermark rd) db2 in
  let '(db4, s4) := reads tid now (rd_mode rd) db3 in
  (db4, open_platform platform (resolvedRecordingConsentRequired env s2) (resolvedWatermarkDefault env s3)
          (resolvedRecordingMode env recordingAllowed s4) guacDefaults).
(** [save] of the platform form. *)
Definition platform_save (tid : string) (rq : ConfigReq) (f : PlatformForm) (db : Setup) : Setup * (string + string) :=
  let '(db', r) := policyPost parse_url isValidTimeZone frac_text digest json_store centreConfigured tid rq (platform_body f) db in
  (db', platform_notice (validateAllowlist (pf_ipAllow f)) r).

Context (sha256 : string → string).
(** The page's read of the session policy, and [save] of its form. *)
Definition session_page (tid : string) (now : Z) (dbError : bool) (a : Auth) : Auth * SessionForm :=
  let '(p, policy) := getSessionPolicy tid now dbError (a_policy a) in (with_policy a p, open_session policy).
Definition session_save (rq : ARq) (f : SessionForm) (a : Auth) (log : AdminDb) : Auth * AdminDb * (string + string) :=
  let '(a', log', r) := sessionPolicyPost sha256 frac_text digest json_store rq (session_body f) a log in
  (a', log', session_notice r).
End page.

(** What is in force for a tenant, under a platform cap [max] on retention and
    the platform's permission to record. *)
Definition in_force (env : string → option string) (max : option Z) (allowed : bool) (s : PlatformSettings) :=
  ((resolvedAuditRetentionDays env s, resolvedInviteTtlHours env s, resolvedNotificationWebhookUrl env s, resolvedVendorIpAllowlist s,
    resolvedMaxGrantDays s, resolvedRecordingConsentRequired env s, resolvedWatermarkDefault env s, resolvedClipboardDefault s),
   (displayTimezone s, resolvedRecordingRetentionDays max s, resolvedDefaultConnectorLogLevel s, resolvedExternalAnchorEnabled s,
    resolvedAnchorTsaUrl s, resolvedAnchorTsaAuth s),
   (on_unless_false (notifySiteHealth s), on_unless_false (notifyAccessRequests s), on_unless_false (notifyAccessDecisions s),
    resolvedRequireRequestJustification s, resolvedKeystrokeLoggingMode s, resolvedRecordingMode env allowed s)).
Definition settings_of (tid : string) (db : Setup) : PlatformSettings := settingsRows (su_settings db) !! tid ?? EMPTY_SETTINGS.

(** ** Fields there and back *)

Lemma dec_shown z : 0 ≤ z → truthy (trim (dec z)) = true.
Proof. intros Hz. rewrite dec_trim by done. destruct (decide (z = 0)) as [->|]; [done|]. apply dec_truthy. lia. Qed.
Lemma num_back m o : 0 ≤ m → (∀ z, o = Some z → m ≤ z) → toIntMin (JStr (num_text o)) m = o.
Proof.
  intros Hm H. destruct o as [z|]; [|done]. specialize (H z eq_refl). unfold toIntMin. cbn [num_text].
  rewrite dec_shown, Number_dec by lia. cbn. by destruct (Z.leb_spec m z); [|lia].
Qed.
Lemma int_back o : (∀ z, o = Some z → 1 ≤ z) → toInt (JStr (num_text o)) = o.
Proof.
  intros H. destruct o as [z|]; [|done]. specialize (H z eq_refl). unfold toInt. cbn [num_text].
  rewrite Number_dec by lia. cbn. by destruct (Z.ltb_spec 0 z); [|lia].
Qed.

(** A text as the routes store it. *)
Definition stored_text (s : string) : Prop := trim s = s ∧ truthy s = true.
Lemma stored_back o : (∀ s, o = Some s → stored_text s) → some_truthy (Some (trim (o ?? ""))) = o.
Proof.
  intros H. destruct o as [s|]; [|done]. destruct (H s eq_refl) as [Ht Hs]. change (Some s ?? "") with s.
  unfold some_truthy. by rewrite Ht, Hs.
Qed.
Lemma trim_stored s : truthy (trim s) = true → stored_text (trim s).
Proof. intros H. split; [apply trim_idemp|done]. Qed.

Lemma choice_back allowed s : s ∈ allowed → choice allowed (JStr s) = Some s.
Proof. intros H. unfold choice. by rewrite bool_decide_eq_true_2. Qed.
Lemma one_of_in v allowed d s : v = Some s → s ∈ allowed → truthy s = true → one_of v allowed d = s.
Proof. intros -> Hs Ht. unfold one_of. by rewrite Ht, bool_decide_eq_true_2. Qed.
Lemma one_of_mem v allowed d : d ∈ allowed → one_of v allowed d ∈ allowed.
Proof. intros Hd. unfold one_of. destruct v as [x|]; [|done]. destruct (truthy x); [|done]. by case_bool_decide. Qed.
(** A choice shown with its default and stored again resolves to the same. *)
Lemma one_of_back o allowed d :
  forallb truthy allowed = true → d ∈ allowed → (∀ s, o = Some s → s ∈ allowed) →
  one_of (choice allowed (JStr (o ?? d))) allowed d = one_of o allowed d ∧
  one_of (Some (choice allowed (JStr (o ?? d)) ?? d)) allowed d = one_of o allowed d.
Proof.
  intros Hl Hd Ho. assert (o ?? d ∈ allowed) as Hin by (destruct o as [s|]; [by apply Ho|done]).
  rewrite choice_back by done. cbn [default]. assert (truthy (o ?? d) = true) as Ht by by eapply truthy_in.
  assert (one_of o allowed d = o ?? d) as -> by (destruct o as [s|]; [by apply one_of_in; [|apply Ho|]|done]).
  split; by apply one_of_in.
Qed.

Lemma platform_keys_NoDup f : NoDup (platform_members f).*1.
Proof. apply (bool_decide_unpack _). vm_compute. reflexivity. Qed.
Lemma platform_get f k v :
  (k, v) ∈ platform_members f → obj_get (platform_body f) k = match v with JUndefined => JUndefined | _ => json_wire v end.
Proof. apply wire_get, platform_keys_NoDup. Qed.
Ltac in_members := unfold platform_members; repeat first [apply list_elem_of_here|apply list_elem_of_further].

(** ** What the rows hold *)

(** A row as the routes write it: widths of the columns, trimmed texts. *)
Record saved_row (s : PlatformSettings) : Prop := {
  sr_int4 : int4_columns s = true;
  sr_webhook u : notificationWebhookUrl s = Some u → stored_text u;
  sr_allowlist a : vendorIpAllowlist s = Some a → stored_text a;
  sr_tsa u : anchorTsaUrl s = Some u → stored_text u;
  sr_auth a : anchorTsaAuth s = Some a → stored_text a;
}.
Definition saved_rows (db : Setup) : Prop := ∀ tid s, settingsRows (su_settings db) !! tid = Some s → saved_row s.

Lemma empty_saved : saved_row EMPTY_SETTINGS.
Proof. by constructor. Qed.
Lemma settings_of_saved tid db : saved_rows db → saved_row (settings_of tid db).
Proof. intros H. unfold settings_of. destruct (settingsRows _ !! tid) eqn:E; [by eapply H|apply empty_saved]. Qed.

Lemma some_truthy_stored s x : some_truthy (Some (trim s)) = Some x → stored_text x.
Proof. intros [[= <-] Ht]%some_truthy_text. by apply trim_stored. Qed.

Section kept.
Context `{Net} (parse_url : string → option Url) (isValidTimeZone : string → bool).
Context (frac_text : Z → string) (digest : string → string) (json_store : json → json).
Context (encrypt : string → string) (decrypt : string → option string) (from_base64 : string → string).
Context (centreConfigured : bool).
Notation setup_apply := (setup_apply parse_url isValidTimeZone frac_text digest json_store encrypt decrypt from_base64 centreConfigured).

Lemma policy_input_saved body webhook raw zone anchor tsa auth :
  toWebhook parse_url (obj_get body "notificationWebhookUrl") = Some webhook →
  int4_columns (policy_input body webhook raw zone anchor (trim tsa) (trim auth)) = true →
  saved_row (policy_input body webhook raw zone anchor (trim tsa) (trim auth)).
Proof.
  intros Hw Hi. constructor; [done|..]; cbn [policy_input notificationWebhookUrl vendorIpAllowlist anchorTsaUrl anchorTsaAuth];
    [|apply some_truthy_stored..].
  intros u ->. unfold toWebhook in Hw. destruct (obj_get body _); try done. destruct (truthy (trim s)) eqn:E; [|done].
  cbn [negb] in Hw. destruct (is_http _ _); [|done]. injection Hw as <-. by apply trim_stored.
Qed.

Lemma rows_insert tid s db st :
  saved_rows db → saved_row s → settingsRows st = <[tid := s]> (settingsRows (su_settings db)) → ∀ db', su_settings db' = st → saved_rows db'.
Proof. intros Hdb Hs Hst db' <- t x. rewrite Hst. intros [[_ <-]|[_ Hl]]%lookup_insert_Some; [done|by eapply Hdb]. Qed.

Lemma policy_saved tid rq body db :
  saved_rows db → saved_rows (policyPost parse_url isValidTimeZone frac_text digest json_store centreConfigured tid rq body db).1.
Proof.
  intros Hs. unfold policyPost. apply (configuring_cases _ _ _ saved_rows); [done|]. intros me _ _.
  apply (reading_cases _ _ _ saved_rows); [done|]. destruct (toWebhook _ _) as [webhook|] eqn:Hw; [|done]. cbv zeta.
  destruct (negb (bool_decide _)); [done|]. do 3 (destruct (_ && _); [done|]).
  assert (settingsRows (if timeZoneManaged centreConfigured tid db
            then let '(st, s) := getPlatformSettings tid (cq_now rq) (cq_dbError rq) (su_settings db) in (st, displayTimezone s)
            else (su_settings db, some_truthy (as_string (obj_get body "displayTimezone")))).1 = settingsRows (su_settings db)) as Hrows.
  { destruct (timeZoneManaged _ _ _); [|done]. pose proof (read_rows tid (cq_now rq) (cq_dbError rq) (su_settings db)) as Hr.
    by destruct (getPlatformSettings _ _ _ _). }
  destruct (if timeZoneManaged _ _ _ then _ else _) as [st zone]. cbn [fst] in Hrows. cbv beta iota zeta.
  destruct (int4_columns _) eqn:Hi; cbn [negb].
  - pose proof (policy_input_saved _ _ _ _ _ _ _ Hw Hi) as Hnew. eapply (rows_insert tid); [exact Hs|exact Hnew| |reflexivity].
    cbn. rewrite lookup_insert_eq, insert_insert_eq. cbn. by rewrite Hrows.
  - intros t x. cbn. rewrite Hrows. apply Hs.
Qed.

Lemma center_saved tid rq body db : saved_rows db → saved_rows (centerSettingsPost isValidTimeZone tid rq body db).1.
Proof.
  intros Hs. unfold centerSettingsPost. destruct (negb _ || _); [done|]. case_bool_decide; [done|]. destruct (negb _ || _); [done|].
  destruct (ce_slug rq); [|done]. destruct (negb _); [done|]. unfold applyCenterZone. destruct (negb _); [done|].
  pose proof (read_rows tid (ce_now rq) (ce_dbError rq) (su_settings db)) as Hr. destruct (getPlatformSettings _ _ _ _) as [st s0].
  cbn [fst] in Hr. cbv beta iota zeta. destruct (bool_decide _ && _); [intros t x; cbn; rewrite Hr; apply Hs|].
  eapply (rows_insert tid (set_displayTimezone _ (settings_of tid db))); [exact Hs| | |reflexivity].
  - destruct (settings_of_saved tid db Hs) as [H1 H2 H3 H4 H5]. constructor; cbn [set_displayTimezone]; eauto.
  - cbn. by rewrite Hr.
Qed.

(** Every request keeps the rows that way. *)
Lemma step_saved op db : saved_rows db → saved_rows (setup_apply db op).
Proof.
  intros Hs. destruct (writes_settings op) eqn:Hw.
  - destruct op; try done; cbn [Config.setup_apply]; [|by apply policy_saved|by apply center_saved].
    intros t x. cbn. rewrite read_rows. apply Hs.
  - intros t x. rewrite (proj1 (step_settings _ _ _ _ _ _ _ _ _ op db Hw)). apply Hs.
Qed.
Lemma run_saved ops db : saved_rows db → saved_rows (foldl setup_apply db ops).
Proof. revert db. induction ops as [|op ops IH]; intros db Hs; [done|]. apply IH. by apply step_saved. Qed.
End kept.

(** Membership in a list of constants. *)
Ltac listed := apply (bool_decide_unpack _); vm_compute; exact I.

(** ** Saving the untouched form *)

Section untouched.
Context `{Net} (parse_url : string → option Url) (isValidTimeZone : string → bool).
Context (frac_text : Z → string) (digest : string → string) (json_store : json → json).
Context (encrypt : string → string) (decrypt : string → option string) (from_base64 : string → string).
Context (centreConfigured : bool) (env : string → option string).
Notation setup_apply := (setup_apply parse_url isValidTimeZone frac_text digest json_store encrypt decrypt from_base64 centreConfigured).
Notation setup_ok := (setup_ok parse_url isValidTimeZone json_store).
Notation settings_ok := (settings_ok parse_url isValidTimeZone).


Definition all_read (rd : PageReads) : bool :=
  negb (rd_platform rd || rd_consent rd || rd_guac rd || rd_watermark rd || rd_mode rd).
Definition form_of (recordingAllowed : bool) (tid : string) (db : Setup) : PlatformForm :=
  let s := settings_of tid db in
  open_platform s (resolvedRecordingConsentRequired env s) (resolvedWatermarkDefault env s)
    (resolvedRecordingMode env recordingAllowed s) (resolvedGuacParamDefaults false tid db).

Lemma reads_spec tid now db :
  setup_ok db → ∃ st, reads tid now false db = (set_settings st db, settings_of tid db) ∧
    setup_ok (set_settings st db) ∧ settingsRows st = settingsRows (su_settings db).
Proof.
  intros Hok. exists (getPlatformSettings tid now false (su_settings db)).1. unfold reads.
  pose proof (read_row tid now (su_settings db) (so_cache _ _ _ _ Hok)) as Hr.
  pose proof (ok_read _ _ _ db tid now false Hok) as Hk. pose proof (read_rows tid now false (su_settings db)) as Hrows.
  destruct (getPlatformSettings _ _ _ _) as [st s]. cbn [fst snd] in *. subst s. done.
Qed.
Lemma page_spec rd recordingAllowed tid now db :
  setup_ok db → all_read rd = true →
  ∃ st, policy_page env rd recordingAllowed tid now db = (set_settings st db, form_of recordingAllowed tid db) ∧
    setup_ok (set_settings st db) ∧ settingsRows st = settingsRows (su_settings db).
Proof.
  intros Hok Hrd. destruct rd as [e1 e2 e3 e4 e5]. unfold all_read in Hrd. cbn in Hrd.
  destruct e1, e2, e3, e4, e5; try discriminate Hrd. clear Hrd. unfold policy_page.
  cbn [rd_platform rd_consent rd_guac rd_watermark rd_mode].
  destruct (reads_spec tid now db Hok) as (st1 & -> & Hok1 & R1).
  destruct (reads_spec tid now _ Hok1) as (st2 & -> & Hok2 & R2).
  destruct (reads_spec tid now _ Hok2) as (st3 & -> & Hok3 & R3).
  destruct (reads_spec tid now _ Hok3) as (st4 & -> & Hok4 & R4). cbn in R2, R3, R4.
  exists st4. split; [|split; [exact Hok4|congruence]]. unfold form_of, settings_of. cbn. by rewrite R3, R2, R1.
Qed.

(** The row the route writes for the untouched form. *)
Definition resaved (recordingAllowed : bool) (tid : string) (db : Setup) : PlatformSettings :=
  let f := form_of recordingAllowed tid db in let s := settings_of tid db in
  policy_input (platform_body f) (notificationWebhookUrl s) (pf_ipAllow f) (displayTimezone s) (pf_anchorOn f)
    (trim (pf_anchorUrl f)) (trim (pf_anchorAuth f)).

Lemma row_sound tid db : setup_ok db → settings_ok (settings_of tid db).
Proof. apply row_ok. Qed.

(** The columns that come back as they were. *)
Lemma resaved_same recordingAllowed tid db :
  setup_ok db → saved_rows db →
  let s := settings_of tid db in let s' := resaved recordingAllowed tid db in
  (auditRetentionDays s' = auditRetentionDays s ∧ inviteTtlHours s' = inviteTtlHours s ∧ maxGrantDays s' = maxGrantDays s ∧
   recordingRetentionDays s' = recordingRetentionDays s) ∧
  (notificationWebhookUrl s' = notificationWebhookUrl s ∧ vendorIpAllowlist s' = vendorIpAllowlist s ∧
   anchorTsaUrl s' = anchorTsaUrl s ∧ anchorTsaAuth s' = anchorTsaAuth s ∧ displayTimezone s' = displayTimezone s).
Proof.
  intros Hok Hs. cbv zeta. pose proof (row_sound tid db Hok) as Hrow. pose proof (settings_of_saved tid db Hs) as Hsav.
  unfold resaved. cbn [policy_input auditRetentionDays inviteTtlHours maxGrantDays recordingRetentionDays notificationWebhookUrl
    vendorIpAllowlist anchorTsaUrl anchorTsaAuth displayTimezone].
  split; split_and!; try done.
  - erewrite (platform_get _ "auditRetentionDays") by in_members. apply num_back; [done|apply Hrow].
  - erewrite (platform_get _ "inviteTtlHours") by in_members. apply num_back; [done|apply Hrow].
  - erewrite (platform_get _ "maxGrantDays") by in_members. apply num_back; [done|apply Hrow].
  - erewrite (platform_get _ "recordingRetentionDays") by in_members. apply num_back; [done|apply Hrow].
  - apply stored_back, Hsav.
  - apply stored_back, Hsav.
  - apply stored_back, Hsav.
Qed.

(** A switch shown on unless it is off, and stored again. *)
Lemma switch_back (o : option bool) : on_unless_false (Some (not_false (JBool (on_unless_false o)))) = on_unless_false o.
Proof. by destruct o as [[]|]. Qed.
Lemma checked_back (b : bool) : is_true (JBool b) = b.
Proof. by destruct b. Qed.

(** The choices and switches, which come back with their defaults filled in. *)
Lemma resaved_choices recordingAllowed tid db :
  setup_ok db →
  let s := settings_of tid db in let s' := resaved recordingAllowed tid db in
  recordingConsentRequired s' = Some (resolvedRecordingConsentRequired env s) ∧
  watermarkDefault s' = Some (resolvedWatermarkDefault env s) ∧
  resolvedClipboardDefault s' = resolvedClipboardDefault s ∧
  resolvedDefaultConnectorLogLevel s' = resolvedDefaultConnectorLogLevel s ∧
  resolvedExternalAnchorEnabled s' = resolvedExternalAnchorEnabled s ∧
  resolvedKeystrokeLoggingMode s' = resolvedKeystrokeLoggingMode s.
Proof.
  intros Hok. cbv zeta. pose proof (row_sound tid db Hok) as Hrow. unfold resaved, resolvedClipboardDefault, coerceClipboardDefault,
    resolvedDefaultConnectorLogLevel, resolvedExternalAnchorEnabled, resolvedKeystrokeLoggingMode.
  cbn [policy_input recordingConsentRequired watermarkDefault clipboardDefault defaultConnectorLogLevel externalAnchorEnabled
    keystrokeLoggingMode].
  erewrite (platform_get _ "recordingConsentRequired"), (platform_get _ "watermarkDefault"), (platform_get _ "clipboardDefault"),
    (platform_get _ "defaultConnectorLogLevel"), (platform_get _ "keystrokeLoggingMode") by in_members.
  cbn [json_wire form_of open_platform pf_consent pf_watermark pf_clipboardDefault pf_connLog pf_ksMode pf_anchorOn].
  rewrite !checked_back. split_and!.
  - done.
  - unfold resolvedWatermarkDefault. by destruct (watermarkDefault _).
  - apply one_of_back; [done|listed|apply Hrow].
  - apply one_of_back; [done|listed|apply Hrow].
  - by destruct (externalAnchorEnabled (settings_of tid db)) as [[]|].
  - apply one_of_back; [done|listed|apply Hrow].
Qed.

Lemma resaved_switches recordingAllowed tid db :
  let s := settings_of tid db in let s' := resaved recordingAllowed tid db in
  on_unless_false (notifySiteHealth s') = on_unless_false (notifySiteHealth s) ∧
  on_unless_false (notifyAccessRequests s') = on_unless_false (notifyAccessRequests s) ∧
  on_unless_false (notifyAccessDecisions s') = on_unless_false (notifyAccessDecisions s) ∧
  on_unless_false (requireRequestJustification s') = on_unless_false (requireRequestJustification s).
Proof.
  cbv zeta. unfold resaved.
  cbn [policy_input notifySiteHealth notifyAccessRequests notifyAccessDecisions requireRequestJustification].
  erewrite (platform_get _ "notifySiteHealth"), (platform_get _ "notifyAccessRequests"), (platform_get _ "notifyAccessDecisions"),
    (platform_get _ "requireRequestJustification") by in_members.
  cbn [json_wire form_of open_platform pf_siteHealth pf_accessRequests pf_accessDecisions pf_requireJustif].
  by rewrite !switch_back.
Qed.

Lemma mode_kept allowed recordingAllowed tid db :
  setup_ok db → (is_Some (recordingMode (settings_of tid db)) ∨ recordingAllowed = true) →
  resolvedRecordingMode env allowed (resaved recordingAllowed tid db) = resolvedRecordingMode env allowed (settings_of tid db).
Proof.
  intros Hok Hm. pose proof (row_sound tid db Hok) as Hrow. unfold resolvedRecordingMode at 1, resaved. cbn [policy_input recordingMode].
  erewrite (platform_get _ "recordingMode") by in_members. cbn [json_wire form_of open_platform pf_recMode].
  unfold resolvedRecordingMode. destruct allowed; [|done]. cbn [negb].
  set (fb := one_of _ RECORDING_MODES "per_resource").
  assert (fb ∈ RECORDING_MODES) as Hfb by (apply one_of_mem; listed).
  assert (∀ m, m ∈ RECORDING_MODES → one_of (Some (choice RECORDING_MODES (JStr m) ?? "per_resource")) RECORDING_MODES fb = m) as Hback.
  { intros m Hin. rewrite choice_back by done. apply one_of_in; [done|done|by eapply truthy_in]. }
  destruct (recordingMode (settings_of tid db)) as [m|] eqn:E.
  - pose proof (ok_recording _ _ _ Hrow m E) as Hin. change (Some m ?? _) with m. rewrite Hback by done.
    symmetry. apply one_of_in; [done|done|by eapply truthy_in].
  - destruct Hm as [[? [=]]| ->]. cbn [negb]. change (None ?? ?x) with x. by rewrite Hback.
Qed.

Lemma in_force_same max allowed recordingAllowed tid db :
  setup_ok db → saved_rows db → (is_Some (recordingMode (settings_of tid db)) ∨ recordingAllowed = true) →
  in_force env max allowed (resaved recordingAllowed tid db) = in_force env max allowed (settings_of tid db).
Proof.
  intros Hok Hs Hmode. destruct (resaved_same recordingAllowed tid db Hok Hs) as [(E1 & E2 & E3 & E4) (E5 & E6 & E7 & E8 & E9)].
  destruct (resaved_choices recordingAllowed tid db Hok) as (F1 & F2 & F3 & F4 & F5 & F6).
  destruct (resaved_switches recordingAllowed tid db) as (G1 & G2 & G3 & G4).
  pose proof (mode_kept allowed recordingAllowed tid db Hok Hmode) as Hm. unfold in_force.
  assert (∀ s, resolvedRequireRequestJustification s = on_unless_false (requireRequestJustification s)) as HJ by done.
  rewrite !HJ, F3, F4, F5, F6, G1, G2, G3, G4, Hm.
  unfold resolvedAuditRetentionDays, resolvedInviteTtlHours, resolvedNotificationWebhookUrl, resolvedVendorIpAllowlist,
    resolvedMaxGrantDays, resolvedRecordingRetentionDays, resolvedAnchorTsaUrl, resolvedAnchorTsaAuth.
  rewrite E1, E2, E3, E4, E5, E6, E7, E8, E9. unfold resolvedRecordingConsentRequired at 1, resolvedWatermarkDefault at 1.
  by rewrite F1, F2.
Qed.

Lemma settings_of_rows st tid db : settingsRows st = settingsRows (su_settings db) → settings_of tid (set_settings st db) = settings_of tid db.
Proof. intros H1. unfold settings_of. cbn. by rewrite H1. Qed.
Lemma form_of_rows st a tid db : settingsRows st = settingsRows (su_settings db) → form_of a tid (set_settings st db) = form_of a tid db.
Proof. intros H1. unfold form_of. by rewrite settings_of_rows. Qed.

Lemma int4_resaved a tid db : setup_ok db → saved_rows db → int4_columns (resaved a tid db) = true.
Proof.
  intros Hok Hs. destruct (resaved_same a tid db Hok Hs) as [(E1 & E2 & E3 & E4) _]. unfold int4_columns. rewrite E1, E2, E3, E4.
  apply (sr_int4 _ (settings_of_saved tid db Hs)).
Qed.

(** What the route reads from the body of the untouched form, and that its
    checks pass. *)
Lemma untouched_reads a tid db :
  setup_ok db → saved_rows db → isValidTimeZone "" = false →
  let f := form_of a tid db in let body := platform_body f in let s := settings_of tid db in
  (toWebhook parse_url (obj_get body "notificationWebhookUrl") = Some (notificationWebhookUrl s) ∧
   some_truthy (as_string (obj_get body "displayTimezone")) = displayTimezone s ∧
   parseGuacParams (obj_get body "guacParamDefaults") = resolvedGuacParamDefaults false tid db) ∧
  (str_or_empty (obj_get body "vendorIpAllowlist") = pf_ipAllow f ∧ str_or_empty (obj_get body "anchorTsaUrl") = pf_anchorUrl f ∧
   str_or_empty (obj_get body "anchorTsaAuth") = pf_anchorAuth f ∧
   is_true (obj_get body "externalAnchorEnabled") = pf_anchorOn f).
Proof.
  intros Hok Hs Hz. cbv zeta. pose proof (row_sound tid db Hok) as Hrow. pose proof (settings_of_saved tid db Hs) as Hsav. split; split_and!.
  - erewrite platform_get by in_members. cbn [json_wire form_of open_platform pf_webhook].
    destruct (notificationWebhookUrl (settings_of tid db)) as [u|] eqn:E; [|done]. change (Some u ?? "") with u.
    destruct (sr_webhook _ Hsav u E) as [Ht Hu]. unfold toWebhook. by rewrite Ht, Hu, (ok_webhook _ _ _ Hrow u E).
  - erewrite platform_get by in_members. cbn [form_of open_platform pf_tz].
    destruct (displayTimezone (settings_of tid db)) as [z|] eqn:E; [|done]. change (Some z ?? "") with z.
    assert (truthy z = true) as Ht.
    { unfold truthy. apply negb_true_iff, bool_decide_eq_false_2. intros ->. pose proof (ok_zone _ _ _ Hrow _ E) as Hv. by rewrite Hz in Hv. }
    rewrite Ht. cbn. by rewrite Ht.
  - erewrite platform_get by in_members. apply guac_form_roundtrip. apply parse_wf.
  - by erewrite platform_get by in_members.
  - by erewrite platform_get by in_members.
  - by erewrite platform_get by in_members.
  - erewrite platform_get by in_members. apply checked_back.
Qed.

Lemma untouched_checks a tid db :
  setup_ok db → saved_rows db →
  let f := form_of a tid db in let s := settings_of tid db in
  validateAllowlist (pf_ipAllow f) = [] ∧
  match displayTimezone s with Some z => negb (isValidTimeZone z) | None => false end = false ∧
  (pf_anchorOn f && negb (truthy (trim (pf_anchorUrl f)))) = false ∧
  (truthy (trim (pf_anchorUrl f)) && negb (is_http parse_url (trim (pf_anchorUrl f)))) = false.
Proof.
  intros Hok Hs. cbv zeta. pose proof (row_sound tid db Hok) as Hrow. pose proof (settings_of_saved tid db Hs) as Hsav.
  cbn [form_of open_platform pf_ipAllow pf_anchorOn pf_anchorUrl]. split_and!.
  - destruct (vendorIpAllowlist (settings_of tid db)) as [x|] eqn:E; [|done]. by apply (ok_allowlist _ _ _ Hrow x).
  - destruct (displayTimezone (settings_of tid db)) as [z|] eqn:E; [|done]. by rewrite (ok_zone _ _ _ Hrow z E).
  - case_bool_decide as Ha; [|done]. destruct (ok_anchor _ _ _ Hrow Ha) as [u Hu]. rewrite Hu. change (Some u ?? "") with u.
    destruct (sr_tsa _ Hsav u Hu) as [-> ->]. done.
  - destruct (anchorTsaUrl (settings_of tid db)) as [u|] eqn:E; [|done]. change (Some u ?? "") with u.
    destruct (sr_tsa _ Hsav u E) as [-> _]. rewrite (ok_tsa _ _ _ Hrow u E). by rewrite andb_false_r.
Qed.

Lemma untouched_saved tid rq me a db :
  setup_ok db → saved_rows db → isValidTimeZone "" = false →
  cq_user rq = Some me → can (u_role me) configure = true → cq_dbError rq = false →
  ∃ db', platform_save parse_url isValidTimeZone frac_text digest json_store centreConfigured tid rq (form_of a tid db) db = (db', inr "Saved."%string) ∧
    settings_of tid db' = resaved a tid db ∧
    su_guac db' !! tid = Some (json_store (guac_json (resolvedGuacParamDefaults false tid db))).
Proof.
  intros Hok Hs Hz Hme Hcan He.
  destruct (untouched_reads a tid db Hok Hs Hz) as [(R1 & R2 & R3) (R4 & R5 & R6 & R7)].
  destruct (untouched_checks a tid db Hok Hs) as (C1 & C2 & C3 & C4). pose proof (int4_resaved a tid db Hok Hs) as Hi.
  unfold platform_save, policyPost, configuring. rewrite Hme, Hcan. cbn [negb]. rewrite reading_object by done.
  rewrite R1. cbv zeta. rewrite R2, R3, R4, R5, R6, R7, C1, C2, C3, C4, andb_false_r, bool_decide_eq_true_2 by done. cbn [negb].
  assert (∃ st, (if timeZoneManaged centreConfigured tid db
            then let '(st, s) := getPlatformSettings tid (cq_now rq) (cq_dbError rq) (su_settings db) in (st, displayTimezone s)
            else (su_settings db, displayTimezone (settings_of tid db))) = (st, displayTimezone (settings_of tid db))) as [st ->].
  { destruct (timeZoneManaged _ _ _); [|by eexists]. rewrite He.
    pose proof (read_row tid (cq_now rq) (su_settings db) (so_cache _ _ _ _ Hok)) as Hr.
    destruct (getPlatformSettings _ _ _ _) as [st s]. cbn in Hr. subst s. by eexists. }
  cbv beta iota. unfold resaved in Hi |- *. rewrite Hi. cbn [negb]. eexists. split; [reflexivity|].
  unfold settings_of at 1, saveGuacParamDefaults.
  cbn [logged set_log set_settings set_guac su_settings su_guac touch_row settingsRows savePlatformSettings].
  split; rewrite !lookup_insert_eq; [reflexivity|]. by rewrite parse_stored by apply parse_wf.
Qed.

Context (stores : ∀ g, parseGuacParams (json_store (guac_json g)) = parseGuacParams (guac_json g)).

(** C27: opening the policy page and pressing Save changes nothing, when every
    read behind the page and behind the save succeeded, the workspace has a
    recording mode of its own or the platform allows it to record, the person
    may configure, and nothing else was written between the two.  After any
    history of requests by any workspaces (from rows as the routes write them
    and a cache that agrees with them), the form shows the workspace's policy as
    it is in force; saved as it is, it is accepted, and every setting resolves
    as before under any platform limits: retention, invitations, webhook,
    allowlist, grant cap, consent, watermark, clipboard, zone, log level,
    anchoring, notices, keystrokes, recording and the remote session defaults.
    Both conditions are needed: [read_error_clears_allowlist] and
    [capability_off_frozen] are what happens without them.  Assumed of the
    libraries: an encrypted text is not empty, the empty text is no time zone, and
    stored parameters read as what was stored. *)
Theorem policy_untouched (Henc : ∀ s, encrypt s ≠ ""%string) ops db0 tid rq me rd now recordingAllowed :
  setup_ok db0 → saved_rows db0 → isValidTimeZone "" = false →
  cq_user rq = Some me → can (u_role me) configure = true → cq_dbError rq = false → all_read rd = true →
  let db := foldl setup_apply db0 ops in
  is_Some (recordingMode (settings_of tid db)) ∨ recordingAllowed = true →
  let '(db1, f) := policy_page env rd recordingAllowed tid now db in
  let '(db2, notice) := platform_save parse_url isValidTimeZone frac_text digest json_store centreConfigured tid rq f db1 in
  notice = inr "Saved."%string ∧
  (∀ max allowed, in_force env max allowed (settings_of tid db2) = in_force env max allowed (settings_of tid db)) ∧
  resolvedGuacParamDefaults false tid db2 = resolvedGuacParamDefaults false tid db.
Proof using stores.
  intros Hok0 Hs0 Hz Hme Hcan He Hrd db Hmode.
  assert (setup_ok db) as Hok.
  { unfold db. clear Hmode db Hs0. revert db0 Hok0. induction ops as [|op ops IH]; intros d Hd; [done|]. by apply IH, step_ok. }
  assert (saved_rows db) as Hs by by apply run_saved.
  destruct (page_spec rd recordingAllowed tid now db Hok Hrd) as (st & -> & Hok1 & Hrows).
  assert (saved_rows (set_settings st db)) as Hs1 by (intros t x; cbn; rewrite Hrows; apply Hs).
  rewrite <- (form_of_rows st) by done.
  destruct (untouched_saved tid rq me recordingAllowed (set_settings st db) Hok1 Hs1 Hz Hme Hcan He) as (db2 & -> & Hset & Hguac).
  split; [done|]. split.
  - intros max allowed. rewrite Hset, in_force_same, settings_of_rows by (rewrite ?settings_of_rows; done). done.
  - unfold resolvedGuacParamDefaults. rewrite Hguac. change (Some ?x ?? _) with x. rewrite stores. by rewrite parse_stored by apply parse_wf.
Qed.
End untouched.

(** ** The session policy *)

Section session.
Context (sha256 : string → string) (frac_text : Z → string) (digest : string → string) (json_store : json → json).

Definition policy_row_ok (p : SessionPolicy) : Prop :=
  (∀ z, idleTimeoutMinutes p = Some z → 1 ≤ z) ∧ (∀ z, maxSessionHours p = Some z → 1 ≤ z) ∧
  (∀ z, maxConcurrentPerUser p = Some z → 1 ≤ z).

Lemma session_get f k v : (k, v) ∈ session_members f → obj_get (session_body f) k = match v with JUndefined => JUndefined | _ => json_wire v end.
Proof. apply wire_get. apply (bool_decide_unpack _). vm_compute. reflexivity. Qed.
Lemma session_reads p :
  policy_row_ok p →
  toInt (obj_get (session_body (open_session p)) "idleTimeoutMinutes") = idleTimeoutMinutes p ∧
  toInt (obj_get (session_body (open_session p)) "maxSessionHours") = maxSessionHours p ∧
  toInt (obj_get (session_body (open_session p)) "maxConcurrentPerUser") = maxConcurrentPerUser p ∧
  match obj_get (session_body (open_session p)) "requireSecondFactor" with JBool true => true | _ => false end = requireSecondFactor p.
Proof.
  intros (H1 & H2 & H3). split_and!; erewrite session_get
    by (unfold session_members; repeat first [apply list_elem_of_here|apply list_elem_of_further]); [by apply int_back..|].
  cbn. by destruct (requireSecondFactor p).
Qed.

(** Whether the signed-in administrator's own session proved a second factor. *)
Definition own_second_factor (rq : ARq) (a : Auth) : bool :=
  match currentSessionId sha256 (q_cookie rq) a ≫= λ sid, find_row (λ s, se_id s =s sid) (a_sessions a) with
  | Some s => hasSecondFactor (se_amr s)
  | None => false
  end.

(** The form is saved as the page showed it, whichever policy that was: refused
    only when it demands a second factor the administrator did not show. *)
Lemma session_saved_as_shown rq me p a log :
  policy_row_ok p → q_user rq = Some me → can (u_role me) configure = true →
  let '(a', _, notice) := session_save frac_text digest json_store sha256 rq (open_session p) a log in
  if requireSecondFactor p && negb (own_second_factor rq a) then a' = a ∧ notice ≠ inr "Saved."%string
  else notice = inr "Saved."%string ∧ policyRows (a_policy a') = <[q_tenant rq := p]> (policyRows (a_policy a)) ∧
       a_sessions a' = a_sessions a.
Proof.
  intros Hp Hme Hcan. destruct (session_reads p Hp) as (R1 & R2 & R3 & R4). unfold session_save, sessionPolicyPost.
  rewrite Hme, Hcan. cbn [negb]. cbv zeta. rewrite R1, R2, R3, R4. unfold own_second_factor.
  destruct (currentSessionId _ _ _ ≫= _) as [s|]; [destruct (hasSecondFactor (se_amr s))|];
    destruct p as [i m c []]; cbn; split; try split; try done; eauto.
Qed.

(** The session policy form changes nothing when it is saved as it was
    opened.  With the workspace's own policy behind the page, saving the
    untouched form stores the row that was there; it is refused only when the
    policy demands a second factor the administrator's own session lacks. *)
Theorem session_untouched rq me now p a log :
  policyRows (a_policy a) !! q_tenant rq = Some p → policy_row_ok p →
  (∀ q at_, policyCache (a_policy a) = Some (q, at_) → q = p) →
  q_user rq = Some me → can (u_role me) configure = true →
  let '(a1, f) := session_page (q_tenant rq) now false a in
  let '(a2, _, notice) := session_save frac_text digest json_store sha256 rq f a1 log in
  policyRows (a_policy a2) = policyRows (a_policy a) ∧ a_sessions a2 = a_sessions a ∧
  (requireSecondFactor p = false ∨ own_second_factor rq a = true → notice = inr "Saved."%string).
Proof.
  intros Hrow Hp Hc Hme Hcan. unfold session_page.
  assert (∃ st, getSessionPolicy (q_tenant rq) now false (a_policy a) = (st, p) ∧ policyRows st = policyRows (a_policy a)) as (st & -> & Hr).
  { unfold getSessionPolicy. destruct (policyCache (a_policy a)) as [[q at_]|] eqn:E; cbn [option_map].
    - rewrite (Hc q at_ eq_refl). destruct (now - at_ <? 30000); [by eexists|]. rewrite Hrow. by eexists.
    - rewrite Hrow. by eexists. }
  pose proof (session_saved_as_shown rq me p (with_policy a st) log Hp Hme Hcan) as H.
  destruct (session_save _ _ _ _ _ _ _ _) as [[a2 log2] notice].
  change (own_second_factor rq (with_policy a st)) with (own_second_factor rq a) in H.
  destruct (requireSecondFactor p && negb (own_second_factor rq a)) eqn:E.
  - destruct H as [-> _]. cbn. split_and!; [done|done|]. intros [H2|H2]; rewrite H2 in E; by destruct (requireSecondFactor p).
  - destruct H as (Hn & Hrows & Hse). cbn in Hrows, Hse. rewrite Hrows, Hse, Hr. split_and!; [by apply insert_id|done|done].
Qed.
End session.

(** ** Concrete runs *)

Definition no_env (name : string) : option string := None.
Definition good_reads : PageReads := {| rd_platform := false; rd_consent := false; rd_guac := false; rd_watermark := false; rd_mode := false |}.
Definition demo_saved : Setup := foldl demo_apply demo_setup [SPolicy "t1" demo_config_req (demo_policy "UTC")].
Notation demo_platform_save := (platform_save demo_http demo_zones frac_digits demo_digest id true).

Lemma demo_rows_saved : saved_rows demo_setup.
Proof. intros t s Hl. cbn in Hl. apply lookup_singleton_Some in Hl as [_ <-]. by constructor. Qed.
Lemma policy_untouched_witness :
  let '(db1, f) := policy_page no_env good_reads true "t1" 2000 demo_saved in
  let '(db2, notice) := demo_platform_save "t1" demo_config_req f db1 in
  notice = inr "Saved."%string ∧
  (∀ max allowed, in_force no_env max allowed (settings_of "t1" db2) = in_force no_env max allowed (settings_of "t1" demo_saved)) ∧
  resolvedGuacParamDefaults false "t1" db2 = resolvedGuacParamDefaults false "t1" demo_saved.
Proof.
  exact (policy_untouched demo_http demo_zones frac_digits demo_digest id demo_encrypt demo_decrypt id true no_env (λ g, eq_refl)
    demo_encrypt_full [SPolicy "t1" demo_config_req (demo_policy "UTC")] demo_setup "t1" demo_config_req (demo_user "u1" ADMIN)
    good_reads 2000 true demo_setup_ok demo_rows_saved eq_refl eq_refl eq_refl eq_refl eq_refl (or_intror eq_refl)).
Defined.

Definition demo_policy_row : SessionPolicy :=
  {| idleTimeoutMinutes := Some 15; maxSessionHours := None; maxConcurrentPerUser := Some 2; requireSecondFactor := true |}.
Definition demo_policy_req (tid : string) : ARq :=
  {| q_user := Some (demo_user "u1" ADMIN); q_now := 1000; q_tenant := tid; q_cookie := Some "proved"%string; q_auditId := "a1";
     q_auditFails := false; q_clientIp := None |}.
(** A session that proved a second factor. *)
Definition proved_session : Session :=
  {| se_id := "p"; se_userId := "u1"; se_tokenHash := tag "proved"; se_expiresAt := 100000; se_createdAt := 10;
     se_lastSeenAt := 10; se_userAgent := None; se_ip := None; se_amr := ["passkey"; "mfa"]%string; se_mobile := false; se_mobileChallenge := None |}.
Definition policy_auth (rows : gmap string SessionPolicy) (slot : option (SessionPolicy * Z)) : Auth :=
  {| a_users := [demo_account]; a_sessions := [proved_session]; a_policy := {| policyRows := rows; policyCache := slot |} |}.
Definition no_log : AdminDb := {| adminRows := []; adminHead := None |}.
Notation demo_session_save := (session_save frac_digits demo_digest id tag).

Lemma session_untouched_witness :
  let '(a1, f) := session_page "t1" 1000 false (policy_auth {["t1"%string := demo_policy_row]} None) in
  let '(a2, _, notice) := demo_session_save (demo_policy_req "t1") f a1 no_log in
  policyRows (a_policy a2) = {["t1"%string := demo_policy_row]} ∧ notice = inr "Saved."%string.
Proof.
  pose proof (session_untouched tag frac_digits demo_digest id (demo_policy_req "t1") (demo_user "u1" ADMIN) 1000 demo_policy_row
    (policy_auth {["t1"%string := demo_policy_row]} None) no_log) as H.
  assert (policy_row_ok demo_policy_row) as Hp.
  { repeat split; intros z Hz; cbn in Hz; try discriminate Hz; injection Hz as <-; lia. }
  specialize (H (lookup_singleton_eq _ _) Hp ltac:(discriminate) eq_refl eq_refl).
  change (q_tenant (demo_policy_req "t1")) with "t1"%string in H.
  destruct (session_page _ _ _ _) as [a1 f]. destruct (session_save _ _ _ _ _ _ _ _) as [[a2 log2] notice].
  destruct H as (H1 & _ & H3). split; [exact H1|]. apply H3. right. vm_compute. reflexivity.
Defined.

(** ** What an unlucky read does to a saved policy *)

(** A failed read behind the page shows an empty form, and saving it erases the
    allowlist. *)
Theorem read_error_clears_allowlist :
  let rd := {| rd_platform := true; rd_consent := false; rd_guac := false; rd_watermark := false; rd_mode := false |} in
  let '(db1, f) := policy_page no_env rd true "t1" 2000 demo_saved in
  let '(db2, notice) := demo_platform_save "t1" demo_config_req f db1 in
  notice = inr "Saved."%string ∧ vendorIpAllowlist (settings_of "t1" demo_saved) = Some "10.0.0.0/8, 192.0.2.1"%string ∧
  vendorIpAllowlist (settings_of "t1" db2) = None.
Proof. vm_compute. done. Qed.

(** While the platform has recording switched off, a workspace that never chose a
    mode is shown "off", and saving any change stores it: recording stays off
    when the platform allows it again. *)
Theorem capability_off_frozen :
  let '(db1, f) := policy_page no_env good_reads false "t1" 2000 demo_setup in
  let '(db2, notice) := demo_platform_save "t1" demo_config_req f db1 in
  notice = inr "Saved."%string ∧ resolvedRecordingMode no_env true (settings_of "t1" demo_setup) = "per_resource"%string ∧
  resolvedRecordingMode no_env true (settings_of "t1" db2) = "off"%string.
Proof. vm_compute. done. Qed.

(** The page reads the session policy through a cache all workspaces share: one
    workspace's policy is shown in another's form, and saving it makes it that
    workspace's own. *)
Theorem session_form_copies_tenant :
  let rows : gmap string SessionPolicy := <["t1"%string := EMPTY_POLICY]> {["t2"%string := demo_policy_row]} in
  let a := with_policy (policy_auth rows None) (getSessionPolicy "t1" 900 false {| policyRows := rows; policyCache := None |}).1 in
  let '(a1, f) := session_page "t2" 1000 false a in
  let '(a2, _, notice) := demo_session_save (demo_policy_req "t2") f a1 no_log in
  notice = inr "Saved."%string ∧ policyRows (a_policy a) !! "t2"%string = Some demo_policy_row ∧
  policyRows (a_policy a2) !! "t2"%string = Some EMPTY_POLICY.
Proof. vm_compute. done. Qed.

(** A failed read shows no policy, and saving the form drops the requirement of
    a second factor. *)
Theorem read_error_drops_second_factor :
  let a := policy_auth {["t1"%string := demo_policy_row]} None in
  let '(a1, f) := session_page "t1" 1000 true a in
  let '(a2, _, notice) := demo_session_save (demo_policy_req "t1") f a1 no_log in
  notice = inr "Saved."%string ∧ policyRows (a_policy a2) !! "t1"%string = Some EMPTY_POLICY.
Proof. vm_compute. done. Qed.

(** The count under the allowlist is the number of entries that are enforced. *)
Lemma runs_no_sep l : ∀ cur, forallb (λ c, negb (is_sep c)) cur = true →
  Forall (λ w, forallb (λ c, negb (is_sep c)) w = true) (runs l cur).
Proof.
  induction l as [|c l IH]; intros cur Hc; cbn [runs]; [by repeat constructor|].
  destruct (is_sep c) eqn:E; [constructor; [done|by apply IH]|]. apply IH. rewrite forallb_app, Hc. cbn. by rewrite E.
Qed.
Lemma trim_run w : forallb (λ c, negb (is_sep c)) w = true → trim (unchars w) = unchars w.
Proof.
  intros Hw. apply trim_no_ws. rewrite chars_unchars. apply Forall_forall. intros c Hc%list_elem_of_In.
  rewrite forallb_forall in Hw. specialize (Hw c Hc). unfold is_sep in Hw. by destruct (is_ws c).
Qed.
Lemma shown_entries_enforced raw : allowEntries raw = entriesOf raw.
Proof.
  unfold allowEntries, entriesOf. f_equal. pose proof (runs_no_sep (chars raw) [] eq_refl) as H.
  induction H as [|w ws Hw _ IH]; [done|]. cbn [map]. by rewrite trim_run, IH.
Qed.
