(* ===== verification/GrantForm.v ===== *)
(** * The forms that give, edit and request access

    The grant form and the grant editor of the console
    (admin/grants/grant-form.tsx and edit-grant-button.tsx), the request form of
    the portal ((portal)/access/request-access-form.tsx) and the builder of weekly
    hours they share (components/schedule-builder.tsx), composed with the routes
    of [Access].  The fields hold wall-clock times of the display zone
    ([WallClock]); what is typed is what the access decision later enforces. *)

From S2P Require Import Prelude JsString JsValue Schema AdminLog Schedule Identity Access Tenant WallClock SiteForm.

#[local] Arguments obj_get : simpl never.

(** ** The builder of weekly hours *)

Record BuilderState := { sb_enabled : bool; sb_days : list Z; sb_start : string; sb_end : string; sb_tz : string }.
Definition builder_init (displayTz : option string) : BuilderState :=
  {| sb_enabled := false; sb_days := [1; 2; 3; 4; 5]; sb_start := "09:00"; sb_end := "18:00"; sb_tz := displayTz ?? "UTC" |}.
(** The effect after mounting: without a display zone, the browser's. *)
Definition builder_mount (displayTz browser : option string) (s : BuilderState) : BuilderState :=
  if truthy_opt displayTz then s else
  match some_truthy browser with
  | Some b => {| sb_enabled := sb_enabled s; sb_days := sb_days s; sb_start := sb_start s; sb_end := sb_end s; sb_tz := b |}
  | None => s
  end.

Inductive builder_event :=
  | BEnable (b : bool)
  | BDay (i : Z)
  | BStart (t : string)
  | BEnd (t : string)
  | BZone (z : string).
Definition DAYS : list Z := [1; 2; 3; 4; 5; 6; 0].
Definition toggleDay (i : Z) (ds : list Z) : list Z :=
  if bool_decide (i ∈ ds) then List.filter (λ d, negb (d =? i)) ds else ds ++ [i].
Definition patch (e : builder_event) (s : BuilderState) : BuilderState :=
  {| sb_enabled := match e with BEnable b => b | _ => sb_enabled s end;
     sb_days := match e with BDay i => toggleDay i (sb_days s) | _ => sb_days s end;
     sb_start := match e with BStart t => t | _ => sb_start s end;
     sb_end := match e with BEnd t => t | _ => sb_end s end;
     sb_tz := match e with BZone z => z | _ => sb_tz s end |}.
(** What the builder shows, as the schedule it stands for. *)
Definition shown_schedule (s : BuilderState) : option Schedule :=
  if sb_enabled s then Some {| timezone := sb_tz s; days := sb_days s; start := sb_start s; end_ := sb_end s |} else None.
(** [update]: the new state, and what [onChange] hands to the form. *)
Definition update (e : builder_event) (s : BuilderState) : BuilderState * option Schedule :=
  let next := patch e s in (next, shown_schedule next).
(** A form with its builder: the builder's state and the schedule the form
    holds, [null] until the builder reports. *)
Definition build (displayTz browser : option string) (es : list builder_event) : BuilderState * option Schedule :=
  foldl (λ st e, update e st.1) (builder_mount displayTz browser (builder_init displayTz), None) es.

(** ** The forms *)

Record GrantForm := {
  gf_userId : string; gf_siteId : string; gf_startsAt : string; gf_endsAt : string; gf_note : string; gf_schedule : option Schedule;
}.
(** What a submit leaves on screen: nothing, a message, or an error nobody
    catches. *)
Inductive shown := Closed | Message (m : string) | Uncaught.
#[global] Instance shown_eq_dec : EqDecision shown.
Proof. solve_decision. Defined.

Definition grant_error (code : string) : string :=
  if code =s "user_site_required" then "A user and a resource are required." else
  if code =s "invalid_date" then "Start and end must be valid dates." else
  if code =s "invalid_user" then "Select a valid user." else
  if code =s "invalid_site" then "Select a valid resource." else
  if code =s "grant_requires_end" then "Policy requires an end date — permanent grants aren't allowed here." else
  if code =s "grant_exceeds_max" then "This grant is longer than the maximum duration allowed by policy." else
  if code =s "forbidden" then "Admin privileges are required for this action." else
  "Couldn't create the grant, please try again.".
Definition saveError (code : string) : string :=
  if code =s "ends_at_in_past" then "The end date must be in the future." else
  if code =s "ends_at_before_start" then "The end date must be after the start date." else
  if code =s "invalid_ends_at" then "Enter a valid end date." else
  if code =s "grant_requires_end" then "Policy requires an end date — permanent grants aren't allowed here." else
  if code =s "grant_exceeds_max" then "This grant is longer than the maximum duration allowed by policy." else
  if code =s "note_too_long" then "The note is too long (max 500 characters)." else
  if code =s "invalid_note" then "The note must be text." else
  if code =s "not_active" then "This grant is no longer active and can't be edited." else
  if code =s "nothing_to_update" then "Nothing to save." else
  if code =s "forbidden" then "Admin privileges are required." else
  "Couldn't save, please try again.".

Section forms.
Context `{IN : Intl} `{CL : Clock}.
Context (date_parse : string → jsdate).
Context (frac_text : Z → string) (sha256 : string → string) (json_store : json → json).

(** [value ? parseDatetimeLocal(value, tz) : null]: [None] is a throw, inside it
    the [null]. *)
Definition read_field (value : string) (tz : option string) : option (option jsdate) :=
  if truthy value then parseDatetimeLocal value tz else Some None.
(** [(startsAt && !startsDate) || (endsAt && !endsDate)]. *)
Definition field_missing (value : string) (d : option jsdate) : bool := truthy value && bool_decide (d = None).
(** [d ? d.toISOString() : absent]; [None] is the throw of an invalid date. *)
Definition iso_member (d : option jsdate) (absent : json) : option json :=
  match d with
  | None => Some absent
  | Some (ValidDate t) => Some (JStr (toISOString t))
  | Some InvalidDate => None
  end.
Definition schedule_member (s : option Schedule) : json := match s with Some x => schedule_json x | None => JUndefined end.

Definition grant_members (f : GrantForm) (startsAt endsAt : json) : list (string * json) :=
  [("userId", JStr (gf_userId f)); ("siteId", JStr (gf_siteId f)); ("startsAt", startsAt); ("endsAt", endsAt);
   ("note", if truthy (trim (gf_note f)) then JStr (trim (gf_note f)) else JUndefined);
   ("schedule", schedule_member (gf_schedule f))]%string.

(** [handleSubmit] of the grant form, in display zone [tz]. *)
Definition grant_submit (maxGrantDays : Z) (rq : Req) (tz : option string) (f : GrantForm) (w : World) : World * shown :=
  match read_field (gf_startsAt f) tz, read_field (gf_endsAt f) tz with
  | Some startsDate, Some endsDate =>
      if field_missing (gf_startsAt f) startsDate || field_missing (gf_endsAt f) endsDate
      then (w, Message (grant_error "invalid_date")) else
      match iso_member startsDate JNull, iso_member endsDate JNull with
      | Some s, Some e =>
          match adminGrantsPost date_parse frac_text sha256 json_store maxGrantDays rq (json_wire (JObj (grant_members f s e))) w with
          | (w', Reply _ id) => (w', if truthy id then Closed else Message (grant_error ""))
          | (w', Fail _ c) => (w', Message (grant_error c))
          end
      | _, _ => (w, Message "Couldn't create the grant, please try again.")
      end
  | _, _ => (w, Uncaught)
  end.

Definition request_members (f : GrantForm) (startsAt endsAt : json) : list (string * json) :=
  [("siteId", JStr (gf_siteId f)); ("note", JStr (gf_note f)); ("startsAt", startsAt); ("endsAt", endsAt);
   ("schedule", schedule_member (gf_schedule f))]%string.
(** [submit] of the request form. *)
Definition request_submit (maxGrantDays : Z) (requireJustification : bool) (between : list AccessGrant → list AccessGrant)
    (rq : Req) (tz : option string) (f : GrantForm) (w : World) : World * shown :=
  match read_field (gf_startsAt f) tz, read_field (gf_endsAt f) tz with
  | Some startsDate, Some endsDate =>
      if field_missing (gf_startsAt f) startsDate || field_missing (gf_endsAt f) endsDate
      then (w, Message "Enter valid dates.") else
      match iso_member startsDate JUndefined, iso_member endsDate JUndefined with
      | Some s, Some e =>
          match requestsPost date_parse maxGrantDays requireJustification between rq (json_wire (JObj (request_members f s e))) w with
          | (w', Reply _ _) => (w', Closed)
          | (w', Fail st c) =>
              (w', Message (if st =? 409 then "You already have a pending request for this app."
                            else if c =s "grant_requires_end" then "Please set an end date — permanent access isn't allowed here."
                            else if c =s "grant_exceeds_max" then "Your requested duration is longer than this deployment allows."
                            else "Could not submit the request. Check the fields and try again."))
          end
      | _, _ => (w, Message "Could not submit the request.")
      end
  | _, _ => (w, Uncaught)
  end.

(** ** The editor of a grant *)

(** [toLocalInput]; [None] is a throw. *)
Definition toLocalInput (iso : option string) (tz : option string) : option string :=
  match some_truthy iso with
  | None => Some ""%string
  | Some x => formatDatetimeLocal (date_parse x) tz
  end.
(** Opening the editor on a row of the list: its end as the field shows it, and
    its note. *)
Definition open_editor (tz : option string) (g : AccessGrant) : option (string * string) :=
  e ← toLocalInput (toISOString <$> g_endsAt g) tz; Some (e, g_note g ?? "").
Definition edit_members (note : string) (endsAt : option json) : list (string * json) :=
  [("note", JStr note)]%string ++ match endsAt with Some e => [("endsAt"%string, e)] | None => [] end.
(** [save] of the editor: every throw ends in its catch. *)
Definition editor_save (maxGrantDays : Z) (between : list AccessGrant → list AccessGrant) (rq : Req) (tz : option string)
    (id endsAtLocal note : string) (w : World) : World * shown :=
  match read_field endsAtLocal tz with
  | None => (w, Message "Couldn't save, please try again.")
  | Some d =>
      if field_missing endsAtLocal d then (w, Message "Enter a valid end date.") else
      match match d with None => Some None | Some x => Some <$> iso_member (Some x) JNull end with
      | None => (w, Message "Couldn't save, please try again.")
      | Some e =>
          match adminGrantPatch date_parse frac_text sha256 json_store maxGrantDays between rq id
                  (json_wire (JObj (edit_members note e))) w with
          | (w', Reply _ _) => (w', Closed)
          | (w', Fail _ c) => (w', Message (saveError c))
          end
      end
  end.
End forms.

(** ** The form holds what the builder shows *)

Definition day_event (e : builder_event) : Prop := match e with BDay i => i ∈ DAYS | _ => True end.

Lemma toggle_days i ds : i ∈ DAYS → NoDup ds → Forall day_ok ds → NoDup (toggleDay i ds) ∧ Forall day_ok (toggleDay i ds).
Proof.
  intros Hi Hnd Hok. unfold toggleDay. case_bool_decide as Hin.
  - split.
    + clear Hin Hok. induction Hnd as [|d ds Hd Hnd IH]; cbn; [constructor|]. destruct (d =? i); cbn; [done|]. constructor; [|done].
      rewrite list_elem_of_In, filter_In, <- list_elem_of_In. tauto.
    + rewrite Forall_forall in *. intros d. rewrite list_elem_of_In, filter_In, <- list_elem_of_In. intros [Hd _]. by apply Hok.
  - split; [apply NoDup_app; split_and!; [done| |apply NoDup_singleton]; set_solver|].
    apply Forall_app. split; [done|]. apply Forall_singleton. unfold day_ok.
    assert (Forall day_ok DAYS) as H by (repeat constructor; unfold day_ok; lia). unfold day_ok in H. rewrite Forall_forall in H. by apply H.
Qed.

(** Whatever is clicked and in whichever order, the form holds exactly the
    schedule the builder shows, and none while it is off; the days are distinct
    days of the week. *)
Theorem builder_reports displayTz browser es :
  Forall day_event es →
  let '(s, held) := build displayTz browser es in
  held = shown_schedule s ∧ NoDup (sb_days s) ∧ Forall day_ok (sb_days s).
Proof.
  intros Hes. unfold build.
  assert (∀ st : BuilderState * option Schedule, st.2 = shown_schedule st.1 ∧ NoDup (sb_days st.1) ∧ Forall day_ok (sb_days st.1) →
    let '(s, held) := foldl (λ st e, update e st.1) st es in held = shown_schedule s ∧ NoDup (sb_days s) ∧ Forall day_ok (sb_days s)) as H.
  { induction Hes as [|e es He Hes IH]; intros [s held] Hst; [exact Hst|]. cbn [foldl fst]. apply IH. cbn [fst snd] in Hst |- *.
    destruct Hst as (_ & Hnd & Hok). split; [done|]. destruct e; cbn; try done. by apply toggle_days. }
  apply H. clear H Hes. cbn [fst snd]. unfold builder_mount. destruct (truthy_opt displayTz), (some_truthy browser); cbn;
    (split_and!; [done|apply (bool_decide_unpack _); vm_compute; exact I|repeat constructor; unfold day_ok; lia]).
Qed.

(** ** A field and the instant it stands for *)

Section typed.
Context {CL : Clock} {LW : ClockLaws}.

(** A field that holds wall time [l]. *)
Definition typed (field : string) (l : Z) : Prop :=
  ∃ seconds w, field = field_text seconds w ∧ l = utc_of w ∧ validWall w = true ∧ wall_fits w ∧ (seconds = false → w_s w = 0).
(** The clock of [tz] changes at most once around [l], and not across it. *)
Definition clear_of_change (tz : string) (l : Z) : Prop :=
  ∃ T a b, one_change (zone_offset tz) l T a b ∧ (l < T + Z.min a b ∨ T + Z.max a b ≤ l).
(** What a field is read as in display zone [tz], set or not: no bound when it
    is empty, and otherwise an instant. *)
Definition reads_as (tz : option string) (field : string) (o : option Z) : Prop :=
  match o with
  | Some t => truthy field = true ∧ parseDatetimeLocal field tz = Some (Some (ValidDate t)) ∧ valid_time t
  | None => field = ""%string
  end.

Lemma field_truthy seconds w : truthy (field_text seconds w) = true.
Proof.
  unfold truthy. apply negb_true_iff, bool_decide_eq_false_2. intros H. apply (f_equal chars) in H. unfold field_text in H.
  rewrite chars_unchars in H. apply (f_equal length) in H. rewrite !length_app, !length_pad in H. cbn in H. lia.
Qed.

Lemma typed_parse tz field l :
  isValidTimeZone tz = true → typed field l →
  truthy field = true ∧ parseDatetimeLocal field (Some tz) = Some (Some (ValidDate (settle (zone_offset tz) l))).
Proof.
  intros Hz (sec & w & -> & -> & Hv & Hf & Hs). split; [apply field_truthy|].
  unfold parseDatetimeLocal. rewrite DT_RE_text, Hv by done. cbn [negb]. destruct Hf as (Hy & _ & _ & Hh & Hmi & Hse).
  by rewrite instantOf_settle by (done || lia).
Qed.

Lemma read_typed tz field o :
  reads_as tz field o → read_field field tz = Some (ValidDate <$> o) ∧ field_missing field (ValidDate <$> o) = false.
Proof.
  intros H. unfold read_field, field_missing. destruct o as [t|]; cbn [reads_as fmap option_fmap option_map] in *.
  - by destruct H as (-> & -> & _).
  - by subst.
Qed.

Lemma civil_range y m d : 1000 ≤ y ≤ 9999 → 1 ≤ m ≤ 12 → 1 ≤ d ≤ 31 → -1000000 ≤ days_from_civil y m d ≤ 4000000.
Proof. intros Hy Hm Hd. unfold days_from_civil. destruct (Z.leb_spec m 2); dlia. Qed.
Lemma typed_range tz field l : typed field l → valid_time (settle (zone_offset tz) l).
Proof.
  intros (sec & w & _ & -> & Hv & (Hy & Hmo & Hd & Hh & Hmi & Hse) & _).
  destruct (validWall_spec w Hv) as (Hm & Hd' & _); [lia..|]. pose proof (days_in_month_bound (w_y w) (w_mo w)).
  pose proof (civil_range (w_y w) (w_mo w) (w_d w) Hy Hm ltac:(lia)). pose proof (instant_range tz (utc_of w)) as Hr.
  pose proof (Date_UTC_plain (w_y w) (w_mo w) (w_d w) (w_h w) (w_mi w) (w_s w) ltac:(lia) Hm) as Hu. fold (utc_of w) in Hu.
  generalize dependent (settle (zone_offset tz) (utc_of w)). generalize dependent (utc_of w).
  generalize dependent (days_from_civil (w_y w) (w_mo w) (w_d w)). clear - Hh Hmi Hse.
  intros n Hn u Hu t Ht. unfold valid_time, ms_per_day, hour_ms in *. lia.
Qed.

Lemma typed_reads tz field l :
  isValidTimeZone tz = true → typed field l → reads_as (Some tz) field (Some (settle (zone_offset tz) l)).
Proof. intros Hz Ht. destruct (typed_parse tz field l Hz Ht) as [H1 H2]. split_and!; [done|done|by eapply typed_range]. Qed.

(** The instants from the one a wall time settles on are those at which the zone's clock shows
    the field's time or a later one, and likewise before it. *)
Lemma clear_splits tz l t :
  clear_of_change tz l → (settle (zone_offset tz) l ≤ t ↔ l ≤ local tz t) ∧ (t ≤ settle (zone_offset tz) l ↔ local tz t ≤ l).
Proof.
  intros (T & a & b & Hone & Hclear).
  pose proof (instant_range tz l). pose proof (offset_small tz t). pose proof (offset_small tz (settle (zone_offset tz) l)).
  unfold local. unfold ms_per_day in *. destruct (decide (l - 2 * 86400000 ≤ t ≤ l + 2 * 86400000)) as [Hin|Hout]; [|lia].
  pose proof (settle_splits _ l T a b (offset_small tz) Hone t Hclear Hin) as Hs.
  pose proof (settle_only _ l T a b (offset_small tz) Hone t Hclear) as Ho.
  pose proof (settle_clear _ l T a b (offset_small tz) Hone Hclear) as Hself.
  destruct (decide (t = settle (zone_offset tz) l)) as [E|E]; [rewrite E in *|]; lia.
Qed.

(** The minute a clock shows. *)
Definition to_minute (w : Wall) : Wall := {| w_y := w_y w; w_mo := w_mo w; w_d := w_d w; w_h := w_h w; w_mi := w_mi w; w_s := 0 |}.
Lemma minute_valid l : 1000 ≤ w_y (wall_of l) ≤ 9999 →
  validWall (to_minute (wall_of l)) = true ∧ wall_fits (to_minute (wall_of l)) ∧ utc_of (to_minute (wall_of l)) = l - l mod 60000.
Proof.
  intros Hy. pose proof (wall_of_range l) as (Hmo & Hd & Hh & Hmi & Hs). split_and!.
  - unfold validWall. cbn [to_minute w_y w_mo w_d w_h w_mi w_s].
    destruct (Z.ltb_spec (w_mo (wall_of l)) 1), (Z.ltb_spec 12 (w_mo (wall_of l))), (Z.ltb_spec (w_d (wall_of l)) 1),
      (Z.ltb_spec 23 (w_h (wall_of l))), (Z.ltb_spec 59 (w_mi (wall_of l))); try lia. cbn [orb].
    rewrite Date_UTC_plain, !Z.mul_0_l, !Z.add_0_r, Z.div_mul by (lia || done).
    pose proof (civil_valid (l / ms_per_day)) as Hv. unfold wall_of in *. destruct (civil_from_days (l / ms_per_day)) as [[y m] d] eqn:E.
    cbn [w_y w_mo w_d w_h w_mi w_s] in *. destruct Hv as (_ & _ & ->). rewrite E. apply Z.eqb_refl.
  - unfold wall_fits. cbn [to_minute w_y w_mo w_d w_h w_mi w_s]. lia.
  - unfold utc_of. cbn [to_minute w_y w_mo w_d w_h w_mi w_s]. rewrite Date_UTC_plain by lia.
    pose proof (civil_valid (l / ms_per_day)) as Hv. unfold wall_of in *. destruct (civil_from_days (l / ms_per_day)) as [[y m] d] eqn:E.
    cbn [w_y w_mo w_d w_h w_mi w_s] in *. destruct Hv as (_ & _ & ->). unfold ms_per_day, hour_ms. dlia.
Qed.

(** The last instant at which the clock of [tz] showed a full minute before [e],
    as a local time. *)
Definition shown_minute (tz : string) (e : Z) : Z := local tz e - local tz e mod 60000.

Lemma editor_field tz e :
  isValidTimeZone tz = true → 1000 ≤ w_y (wall_of (local tz e)) ≤ 9999 →
  ∃ field, formatDatetimeLocal (ValidDate e) (Some tz) = Some field ∧ typed field (shown_minute tz e).
Proof.
  intros Hz Hy. destruct (minute_valid (local tz e) Hy) as (Hv & Hf & Hu).
  pose proof (wall_of_range (local tz e)) as (Hmo & Hd & Hh & Hmi & Hs).
  exists (field_text false (to_minute (wall_of (local tz e)))). split.
  - rewrite (format_shown tz e (wall_of (local tz e))) by (done || (unfold wall_fits; lia)). done.
  - exists false, (to_minute (wall_of (local tz e))). rewrite Hu. done.
Qed.

(** The instant the editor would save for an end it shows. *)
Definition resaved_end (tz : string) (e : Z) : Z := settle (zone_offset tz) (shown_minute tz e).
Lemma resaved_minute tz e :
  clear_of_change tz (shown_minute tz e) →
  local tz (resaved_end tz e) = shown_minute tz e ∧ (local tz e mod 60000 = 0 → resaved_end tz e = e).
Proof.
  intros (T & a & b & Hone & Hclear). unfold resaved_end. split.
  - apply (settle_clear _ _ T a b (offset_small tz) Hone Hclear).
  - intros H0. symmetry. apply (settle_only _ _ T a b (offset_small tz) Hone e Hclear). unfold shown_minute, local in *. lia.
Qed.
End typed.

(** ** The weekly hours on their way *)

Section hours.
Context `{IN : Intl}.

(** Hours the route accepts: of a known zone, on some day of the week, from a
    start to a later end. *)
Definition sound_hours (s : Schedule) : Prop :=
  Schedule.isValidTimeZone (timezone s) = true ∧ days s ≠ [] ∧ NoDup (days s) ∧ Forall day_ok (days s) ∧
  ∃ a b, timeToMinutes (start s) = Some a ∧ timeToMinutes (end_ s) = Some b ∧ a < b.
(** The same hours as they are stored: the days in order. *)
Definition stored_hours (s : Schedule) : Schedule :=
  {| timezone := timezone s; days := order_by (λ d : Z, d) (days s); start := start s; end_ := end_ s |}.

Lemma wire_days ds : map json_wire (map (λ d, JNum (NInt d)) ds) = map (λ d, JNum (NInt d)) ds.
Proof. rewrite map_map. by apply map_ext. Qed.
Lemma wire_schedule s : json_wire (schedule_json s) = schedule_json s.
Proof. unfold schedule_json. cbn. by rewrite wire_days. Qed.
Lemma hours_accepted s : sound_hours s → validateSchedule (schedule_json s) = inr (stored_hours s).
Proof.
  intros (Htz & Hne & Hnd & Hok & a & b & Ha & Hb & Hab). unfold validateSchedule.
  change (is_object (schedule_json s)) with true. change (obj_get (schedule_json s) "timezone") with (JStr (timezone s)).
  change (obj_get (schedule_json s) "days") with (JArr (map (λ d, JNum (NInt d)) (days s))).
  change (obj_get (schedule_json s) "start") with (JStr (start s)). change (obj_get (schedule_json s) "end") with (JStr (end_ s)).
  cbn [negb]. rewrite Htz. cbn [negb]. pose proof (collect_days_json (days s) [] Hnd Hok) as Hc.
  destruct (days s) as [|d ds] eqn:E; [done|]. cbn [map] in Hc |- *. rewrite Hc, Ha, Hb. destruct (Z.leb_spec b a); [lia|].
  unfold stored_hours. by rewrite E.
Qed.
(** The builder's other hours are refused. *)
Lemma hours_refused s : NoDup (days s) → Forall day_ok (days s) → ¬ sound_hours s → ∃ e, validateSchedule (schedule_json s) = inl e.
Proof.
  intros Hnd Hok Hns. unfold validateSchedule.
  change (is_object (schedule_json s)) with true. change (obj_get (schedule_json s) "timezone") with (JStr (timezone s)).
  change (obj_get (schedule_json s) "days") with (JArr (map (λ d, JNum (NInt d)) (days s))).
  change (obj_get (schedule_json s) "start") with (JStr (start s)). change (obj_get (schedule_json s) "end") with (JStr (end_ s)).
  cbn [negb]. destruct (Schedule.isValidTimeZone (timezone s)) eqn:Htz; cbn [negb]; [|eauto].
  pose proof (collect_days_json (days s) [] Hnd Hok) as Hc. destruct (days s) as [|d ds] eqn:E; [eauto|].
  cbn [map] in Hc |- *. rewrite Hc. destruct (timeToMinutes (start s)) as [a|] eqn:Ha; [|eauto].
  destruct (timeToMinutes (end_ s)) as [b|] eqn:Hb; [|eauto]. destruct (Z.leb_spec b a); [eauto|].
  destruct Hns. unfold sound_hours. rewrite E. split_and!; [done..|]. by exists a, b.
Qed.
Lemma hours_stored s : sound_hours s → parseSchedule (schedule_json (stored_hours s)) = Some (stored_hours s).
Proof.
  intros Hs. destruct (validate_wf _ _ (hours_accepted s Hs)) as [Hw _]. unfold parseSchedule. by rewrite schedule_json_parses.
Qed.
Lemma hours_same s now : isWithinSchedule (stored_hours s) now = isWithinSchedule s now.
Proof.
  unfold isWithinSchedule. cbn [stored_hours timezone days start end_]. destruct (read_parts _ _) as [[wd h] m].
  assert (order_by (λ d : Z, d) (days s) ≡ₚ days s) as Hp by apply merge_sort_Permutation.
  assert (bool_decide (wd ∈ order_by (λ d : Z, d) (days s)) = bool_decide (wd ∈ days s)) as ->; [|done].
  apply bool_decide_ext. by rewrite Hp.
Qed.

Lemma hours_read o :
  (∀ s, o = Some s → sound_hours s) →
  parse_body_schedule (match schedule_member o with JUndefined => JUndefined | _ => json_wire (schedule_member o) end) = Some (stored_hours <$> o).
Proof.
  intros H. destruct o as [s|]; [|done]. unfold parse_body_schedule. cbn [schedule_member fmap option_fmap option_map].
  change (match schedule_json s with JUndefined => JUndefined | _ => json_wire (schedule_json s) end) with (json_wire (schedule_json s)).
  rewrite wire_schedule. change (is_nullish (schedule_json s)) with false. cbv iota. by rewrite hours_accepted by auto.
Qed.

Lemma hours_unread s :
  NoDup (days s) → Forall day_ok (days s) → ¬ sound_hours s → parse_body_schedule (json_wire (schedule_json s)) = None.
Proof.
  intros Hnd Hok Hns. destruct (hours_refused s Hnd Hok Hns) as [e He]. unfold parse_body_schedule. rewrite wire_schedule.
  change (is_nullish (schedule_json s)) with false. cbv iota. by rewrite He.
Qed.

(** When a grant of the form admits. *)
Lemma classify_form id u s ls le note o by_ :
  (∀ x, o = Some x → sound_hours x) →
  let g := {| g_id := id; g_userId := u; g_siteId := s; g_startsAt := ls; g_endsAt := le; g_status := GActive; g_note := note;
              g_denyReason := None; g_requiresApproval := false; g_approvedAt := None; g_approvedById := None;
              g_schedule := schedule_column (stored_hours <$> o); g_createdById := by_; g_directoryManaged := false |} in
  ∀ now, classifyGrant g now = r_allow ↔
    (∀ t, ls = Some t → t ≤ now) ∧ (∀ t, le = Some t → now ≤ t) ∧ (∀ x, o = Some x → isWithinSchedule x now = true).
Proof.
  intros Hh g now. unfold classifyGrant, g. cbn [g_status g_startsAt g_endsAt g_requiresApproval g_schedule andb].
  rewrite !bool_decide_eq_false_2 by done.
  assert (match ls with Some t => now <? t | None => false end = false ↔ (∀ t, ls = Some t → t ≤ now)) as Hs.
  { destruct ls as [t|]; [rewrite Z.ltb_ge|]; naive_solver. }
  assert (match le with Some t => t <? now | None => false end = false ↔ (∀ t, le = Some t → now ≤ t)) as He.
  { destruct le as [t|]; [rewrite Z.ltb_ge|]; naive_solver. }
  assert ((negb (is_nullish (schedule_column (stored_hours <$> o))) && match parseSchedule (schedule_column (stored_hours <$> o)) with
            None => true | Some s => negb (isWithinSchedule s now) end) = false ↔ (∀ x, o = Some x → isWithinSchedule x now = true)) as Hw.
  { destruct o as [x|]; cbn [fmap option_fmap option_map schedule_column]; [|cbn; naive_solver].
    rewrite hours_stored by auto. change (is_nullish (schedule_json _)) with false. cbn [negb andb]. rewrite hours_same, negb_false_iff.
    naive_solver. }
  rewrite <- Hs, <- He, <- Hw. destruct (match ls with Some _ => _ | None => _ end); [naive_solver|].
  destruct (match le with Some _ => _ | None => _ end); [naive_solver|]. destruct (_ && _); naive_solver.
Qed.
End hours.

(** ** What is typed is what is enforced *)

Section enforced.
Context `{IN : Intl} {CL : Clock} {LW : ClockLaws}.
Context (date_parse : string → jsdate).
Context (frac_text : Z → string) (sha256 : string → string) (json_store : json → json).

(** [Date] reads back what [toISOString] prints (ECMA-262). *)
Definition reads_iso : Prop := ∀ t, valid_time t → date_parse (toISOString t) = ValidDate t.

Lemma iso_text t : toISOString t ≠ ""%string.
Proof. unfold toISOString. destruct (civil_from_days _) as [[y m] d]. intros H. apply (f_equal chars) in H. rewrite chars_unchars in H.
  apply (f_equal length) in H. rewrite !length_app in H. cbn in H. lia. Qed.

Lemma iso_back tz field o absent :
  reads_iso → reads_as tz field o → absent = JNull ∨ absent = JUndefined →
  ∃ v, iso_member (ValidDate <$> o) absent = Some v ∧ (v = absent ∨ ∃ s, v = JStr s) ∧
    parseDate date_parse (match v with JUndefined => JUndefined | _ => json_wire v end) = Some o.
Proof.
  intros Hi Ht Ha. destruct o as [l|]; cbn [fmap option_fmap option_map iso_member reads_as] in *.
  - eexists. split; [reflexivity|]. split; [eauto|]. cbn [json_wire parseDate]. rewrite bool_decide_eq_false_2 by apply iso_text.
    by rewrite Hi by apply Ht.
  - exists absent. split; [done|]. split; [by left|]. by destruct Ha as [-> | ->].
Qed.
Lemma grant_keys f s e : NoDup (grant_members f s e).*1.
Proof. apply (bool_decide_unpack _). vm_compute. reflexivity. Qed.
Ltac in_grant := unfold grant_members; repeat first [apply list_elem_of_here|apply list_elem_of_further].
Lemma grant_get f s e k v :
  (k, v) ∈ grant_members f s e → obj_get (json_wire (JObj (grant_members f s e))) k = match v with JUndefined => JUndefined | _ => json_wire v end.
Proof. apply wire_get, grant_keys. Qed.

(** An identifier as the database issues it. *)
Definition plain_id (id : string) : Prop := trim id = id ∧ truthy id = true.

Lemma body_note f s e :
  (let t := trim (str_or_empty (obj_get (json_wire (JObj (grant_members f s e))) "note")) in if truthy t then Some t else None)
  = some_truthy (Some (trim (gf_note f))).
Proof.
  erewrite grant_get by in_grant. cbv zeta. unfold some_truthy. destruct (truthy (trim (gf_note f))) eqn:E; [|done].
  cbn [json_wire str_or_empty]. by rewrite trim_idemp, E.
Qed.

(** The route, on the body of a filled form. *)
Lemma grant_posted maxGrantDays rq me f ts te w s e :
  (∀ x, gf_schedule f = Some x → sound_hours x) → rq_user rq = Some me → can (u_role me) approve_grants = true →
  plain_id (gf_userId f) → plain_id (gf_siteId f) →
  (∃ u, u ∈ users w ∧ u_id u = gf_userId f) → (∃ x, x ∈ sites w ∧ site_id x = gf_siteId f) →
  parseDate date_parse (match s with JUndefined => JUndefined | _ => json_wire s end) = Some ts →
  parseDate date_parse (match e with JUndefined => JUndefined | _ => json_wire e end) = Some te →
  grantCapError ts te (rq_now rq) maxGrantDays = None →
  ∃ w', adminGrantsPost date_parse frac_text sha256 json_store maxGrantDays rq (json_wire (JObj (grant_members f s e))) w
      = (w', Reply 201 (rq_id rq)) ∧
    grants w' = createGrant (rq_id rq) (u_id me)
      {| gi_userId := gf_userId f; gi_siteId := gf_siteId f; gi_startsAt := ts; gi_endsAt := te;
         gi_note := some_truthy (Some (trim (gf_note f))); gi_schedule := stored_hours <$> gf_schedule f |} (grants w).
Proof.
  intros Hh Hme Hcan [Hu1 Hu2] [Hs1 Hs2] Hu Hs Hps Hpe Hcap. unfold adminGrantsPost. rewrite Hme, Hcan. cbn [negb]. cbv zeta.
  pose proof (body_note f s e) as Hn. cbv zeta in Hn.
  erewrite (grant_get f s e "userId"), (grant_get f s e "siteId"), (grant_get f s e "startsAt"), (grant_get f s e "endsAt"),
    (grant_get f s e "schedule") by in_grant.
  change (json_wire (JStr ?x)) with (JStr x). cbn [str_or_empty]. rewrite Hu1, Hs1, Hu2, Hs2. cbn [negb orb]. rewrite Hps, Hpe, Hcap, hours_read, Hn by done.
  destruct Hu as (u & Hin & Hid), Hs as (x & Hxin & Hxid).
  destruct (find_row (λ u : User, u_id u =s gf_userId f) (users w)) as [u'|] eqn:Eu.
  2: { rewrite find_row_None in Eu. specialize (Eu u Hin). by rewrite bool_decide_eq_true_2 in Eu. }
  destruct (find_row (λ s0 : Site, site_id s0 =s gf_siteId f) (sites w)) as [x'|] eqn:Ex.
  2: { rewrite find_row_None in Ex. specialize (Ex x Hxin). by rewrite bool_decide_eq_true_2 in Ex. }
  eexists. split; reflexivity.
Qed.
(** The route, on hours it refuses. *)
Lemma grant_unposted maxGrantDays rq me f ts te w s e x :
  gf_schedule f = Some x → NoDup (days x) → Forall day_ok (days x) → ¬ sound_hours x →
  rq_user rq = Some me → can (u_role me) approve_grants = true → plain_id (gf_userId f) → plain_id (gf_siteId f) →
  parseDate date_parse (match s with JUndefined => JUndefined | _ => json_wire s end) = Some ts →
  parseDate date_parse (match e with JUndefined => JUndefined | _ => json_wire e end) = Some te →
  grantCapError ts te (rq_now rq) maxGrantDays = None →
  adminGrantsPost date_parse frac_text sha256 json_store maxGrantDays rq (json_wire (JObj (grant_members f s e))) w
  = (w, Fail 400 "invalid_schedule").
Proof.
  intros Hx Hnd Hok Hns Hme Hcan [Hu1 Hu2] [Hs1 Hs2] Hps Hpe Hcap. unfold adminGrantsPost. rewrite Hme, Hcan. cbn [negb]. cbv zeta.
  erewrite (grant_get f s e "userId"), (grant_get f s e "siteId"), (grant_get f s e "startsAt"), (grant_get f s e "endsAt"),
    (grant_get f s e "schedule") by in_grant.
  change (json_wire (JStr ?x)) with (JStr x). cbn [str_or_empty]. rewrite Hu1, Hs1, Hu2, Hs2. cbn [negb orb]. rewrite Hps, Hpe, Hcap, Hx.
  cbn [schedule_member]. change (match schedule_json x with JUndefined => JUndefined | _ => json_wire (schedule_json x) end) with (json_wire (schedule_json x)).
  by rewrite (hours_unread x).
Qed.

(** What the builder hands over has distinct days of the week. *)
Lemma built_days displayTz browser es x :
  Forall day_event es → (build displayTz browser es).2 = Some x → NoDup (days x) ∧ Forall day_ok (days x).
Proof.
  intros Hes Hx. pose proof (builder_reports displayTz browser es Hes) as H. destruct (build displayTz browser es) as [b held].
  destruct H as (-> & Hnd & Hok). cbn [snd] in Hx. unfold shown_schedule in Hx. destruct (sb_enabled b); [|done]. by injection Hx as <-.
Qed.

(** C36: a grant means what its form says.  Let the form hold what the builder of
    hours hands over after any clicks, let its two fields be empty or read as
    instants (in the display zone, or by the browser's clock when none is set),
    let person and resource exist, the duration be within policy and the signed-in
    person one who may approve grants.  When the
    hours, if enabled, are of a known zone with some day ticked and a start before
    the end, submitting closes the form and adds one grant to the table, and that
    grant admits exactly from the first instant to the second while the weekly
    hours are open; with any other hours the form shows its general message and
    nothing changes.  A wall time of a year from 1000 on always reads as an instant
    of a known display zone, and, unless the zone's clocks change across it, the
    instants from that one on are exactly those at which the zone's clock shows at
    least the time typed, and likewise up to it.  (A time the zone shows twice or
    never still reads as one instant and is enforced as that; which one it is,
    the round trip of a field says.)  Assumed: Date reads back the texts that
    toISOString prints. *)
Theorem grant_as_typed maxGrantDays rq me tz browser es f ts te w :
  reads_iso → Forall day_event es → gf_schedule f = (build tz browser es).2 →
  reads_as tz (gf_startsAt f) ts → reads_as tz (gf_endsAt f) te →
  rq_user rq = Some me → can (u_role me) approve_grants = true → truthy (rq_id rq) = true →
  plain_id (gf_userId f) → plain_id (gf_siteId f) →
  (∃ u, u ∈ users w ∧ u_id u = gf_userId f) → (∃ x, x ∈ sites w ∧ site_id x = gf_siteId f) →
  grantCapError ts te (rq_now rq) maxGrantDays = None →
  let submitted := grant_submit date_parse frac_text sha256 json_store maxGrantDays rq tz f w in
  ((∀ x, gf_schedule f = Some x → sound_hours x) →
   ∃ w' g, submitted = (w', Closed) ∧
    grants w' = grants w ++ [g] ∧ g_userId g = gf_userId f ∧ g_siteId g = gf_siteId f ∧
    g_note g = some_truthy (Some (trim (gf_note f))) ∧
    ∀ now, classifyGrant g now = r_allow ↔
      (∀ t, ts = Some t → t ≤ now) ∧ (∀ t, te = Some t → now ≤ t) ∧ (∀ x, gf_schedule f = Some x → isWithinSchedule x now = true)) ∧
  (∀ x, gf_schedule f = Some x → ¬ sound_hours x → submitted = (w, Message "Couldn't create the grant, please try again.")) ∧
  (∀ zone field l, tz = Some zone → isValidTimeZone zone = true → typed field l →
   ∃ t, reads_as tz field (Some t) ∧
    (clear_of_change zone l → ∀ now, (t ≤ now ↔ l ≤ local zone now) ∧ (now ≤ t ↔ local zone now ≤ l))).
Proof.
  intros Hi Hes Hb Hts Hte Hme Hcan Hid Hu1 Hs1 Hu Hs Hcap. cbv zeta. unfold grant_submit.
  destruct (read_typed tz _ ts Hts) as [-> ->]. destruct (read_typed tz _ te Hte) as [-> ->]. cbn [orb].
  destruct (iso_back tz _ ts JNull Hi Hts (or_introl eq_refl)) as (s & -> & _ & Hps).
  destruct (iso_back tz _ te JNull Hi Hte (or_introl eq_refl)) as (e & -> & _ & Hpe). split_and!.
  - intros Hh. destruct (grant_posted maxGrantDays rq me f ts te w s e Hh Hme Hcan Hu1 Hs1 Hu Hs Hps Hpe Hcap) as (w' & -> & Hg).
    rewrite Hid. eexists w', _. split; [reflexivity|]. split; [exact Hg|]. split_and!; [done..|].
    exact (classify_form (rq_id rq) (gf_userId f) (gf_siteId f) ts te _ (gf_schedule f) (Some (u_id me)) Hh).
  - intros x Hx Hns. destruct (built_days tz browser es x Hes) as [Hnd Hok]; [congruence|].
    by rewrite (grant_unposted maxGrantDays rq me f ts te w s e x).
  - intros zone field l -> Hz Ht. eexists. split; [by apply typed_reads|]. intros Hc now. by apply clear_splits.
Qed.

(** ** The editor *)

Lemma iso_not_ws c : iso_char c = true → is_ws c = false.
Proof. by destruct c as [[] [] [] [] [] [] [] []]. Qed.
Lemma iso_trim t : valid_time t → trim (toISOString t) = toISOString t.
Proof.
  intros Ht. apply trim_no_ws. eapply Forall_impl; [by apply toISOString_chars|]. intros c Hc%Is_true_true. by apply iso_not_ws.
Qed.
Lemma iso_truthy t : truthy (toISOString t) = true.
Proof. unfold truthy. apply negb_true_iff, bool_decide_eq_false_2, iso_text. Qed.
Lemma edit_read maxGrantDays now startsAt note (e : Z) :
  reads_iso → valid_time e → js_length (trim note) ≤ NOTE_MAX →
  grantEndsAtError (ValidDate e) startsAt now = None → grantCapError startsAt (Some e) now maxGrantDays = None →
  read_edit date_parse maxGrantDays now startsAt (json_wire (JObj (edit_members note (Some (JStr (toISOString e))))))
  = inr {| ed_endsAt := Some e; ed_note := Some (some_truthy (Some (trim note))) |}.
Proof.
  intros Hi Hv Hn He Hc. unfold read_edit.
  change (json_wire (JObj (edit_members note (Some (JStr (toISOString e))))))
    with (JObj [("note", JStr note); ("endsAt", JStr (toISOString e))]%string).
  change (obj_get (JObj [("note", JStr note); ("endsAt", JStr (toISOString e))]%string) "endsAt") with (JStr (toISOString e)).
  change (obj_get (JObj [("note", JStr note); ("endsAt", JStr (toISOString e))]%string) "note") with (JStr note).
  change (has_key (JObj [("note", JStr note); ("endsAt", JStr (toISOString e))]%string) "note") with true.
  cbn [str_or_empty]. cbv zeta. rewrite iso_trim by done.
  rewrite iso_truthy, Hi by done. rewrite He, Hc.
  destruct (Z.ltb_spec NOTE_MAX (js_length (trim note))); [lia|]. done.
Qed.

(** The text of a note as it is stored. *)
Definition kept_note (o : option string) : Prop := ∀ n, o = Some n → trim n = n ∧ truthy n = true ∧ js_length n ≤ NOTE_MAX.
Lemma note_back o : kept_note o → some_truthy (Some (trim (o ?? ""))) = o ∧ js_length (trim (o ?? "")) ≤ NOTE_MAX.
Proof.
  intros H. destruct o as [n|]; [|done]. destruct (H n eq_refl) as (Ht & Hn & Hl). change (Some n ?? "") with n. rewrite Ht.
  unfold some_truthy. by rewrite Hn.
Qed.

(** A grant whose end is moved. *)
Definition with_end (e : Z) (g : AccessGrant) : AccessGrant := edit_grant {| ed_endsAt := Some e; ed_note := None |} g.

(** The rows with one grant's identifier. *)
Lemma update_one g (p : AccessGrant → bool) f h gs :
  NoDup (g_id <$> gs) → g ∈ gs → (∀ x, p x = true → g_id x = g_id g) → p g = true → f g = h g →
  update_where p f gs = update_where (λ x, g_id x =s g_id g) h gs.
Proof.
  intros Hnd Hin Hp Hg Hf. unfold update_where. apply map_ext_in. intros x Hx%list_elem_of_In.
  destruct (decide (g_id x = g_id g)) as [E|E].
  - assert (x = g) as -> by by apply (NoDup_fmap_eq g_id gs). by rewrite Hg, bool_decide_eq_true_2.
  - rewrite bool_decide_eq_false_2 by done. destruct (p x) eqn:Ep; [|done]. by apply Hp in Ep.
Qed.
Lemma find_by_id g gs : NoDup (g_id <$> gs) → g ∈ gs → find_row (λ x, g_id x =s g_id g) gs = Some g.
Proof.
  intros Hnd Hin. destruct (find_row _ gs) as [x|] eqn:E.
  - apply find_row_Some in E as [Hx He]. reflect_bool. f_equal. by apply (NoDup_fmap_eq g_id gs).
  - rewrite find_row_None in E. specialize (E g Hin). by rewrite bool_decide_eq_true_2 in E.
Qed.

Lemma edit_posted maxGrantDays rq me g e w :
  reads_iso → valid_time e → rq_user rq = Some me → can (u_role me) configure = true → NoDup (g_id <$> grants w) → g ∈ grants w →
  g_status g = GActive → kept_note (g_note g) →
  grantEndsAtError (ValidDate e) (g_startsAt g) (rq_now rq) = None →
  grantCapError (g_startsAt g) (Some e) (rq_now rq) maxGrantDays = None →
  ∃ w', adminGrantPatch date_parse frac_text sha256 json_store maxGrantDays (λ gs, gs) rq (g_id g)
      (json_wire (JObj (edit_members (g_note g ?? "") (Some (JStr (toISOString e)))))) w = (w', Reply 200 tt) ∧
    grants w' = update_where (λ x, g_id x =s g_id g) (with_end e) (grants w).
Proof.
  intros Hi Hv Hme Hcan Hnd Hin Hact Hnote He Hcap. destruct (note_back _ Hnote) as [Hn1 Hn2].
  unfold adminGrantPatch. rewrite Hme, Hcan. cbn [negb]. cbv zeta.
  rewrite (find_by_id g) by done. rewrite (bool_decide_eq_true_2 (g_status g = GActive)) by done. cbn [negb].
  rewrite edit_read by done. rewrite Hn1.
  change (has_key (json_wire (JObj (edit_members (g_note g ?? "") (Some (JStr (toISOString e)))))) "note") with true.
  rewrite andb_false_r. set (p := λ x, (g_id x =s g_id g) && bool_decide (g_status x = GActive)).
  assert (count_where p (grants w) ≠ 0) as Hcount.
  { rewrite count_where_0. intros H0. specialize (H0 g Hin). unfold p in H0. by rewrite !bool_decide_eq_true_2 in H0. }
  destruct (Z.eqb_spec (count_where p (grants w)) 0); [done|]. eexists. split; [reflexivity|].
  cbn [audit with_grants grants]. apply update_one; [done|done| | |].
  - intros x Hx. unfold p in Hx. by reflect_bool.
  - unfold p. by rewrite !bool_decide_eq_true_2.
  - unfold with_end, edit_grant. by destruct g.
Qed.

(** Saving the untouched editor of a grant keeps its note and its end, to
    the minute the editor shows: away from a change of the clocks the stored end
    becomes the instant at which the zone's clock showed that minute, which is the
    end itself when it lies on a full minute. *)
Theorem editor_untouched maxGrantDays rq me tz g e w :
  reads_iso → isValidTimeZone tz = true → valid_time e →
  1000 ≤ w_y (wall_of (local tz e)) ≤ 9999 → clear_of_change tz (shown_minute tz e) →
  rq_user rq = Some me → can (u_role me) configure = true → NoDup (g_id <$> grants w) → g ∈ grants w → g_status g = GActive →
  g_endsAt g = Some e → kept_note (g_note g) →
  grantEndsAtError (ValidDate (resaved_end tz e)) (g_startsAt g) (rq_now rq) = None →
  grantCapError (g_startsAt g) (Some (resaved_end tz e)) (rq_now rq) maxGrantDays = None →
  ∃ field note w', open_editor date_parse (Some tz) g = Some (field, note) ∧
    editor_save date_parse frac_text sha256 json_store maxGrantDays (λ gs, gs) rq (Some tz) (g_id g) field note w = (w', Closed) ∧
    grants w' = update_where (λ x, g_id x =s g_id g) (with_end (resaved_end tz e)) (grants w) ∧
    local tz (resaved_end tz e) = shown_minute tz e ∧ (local tz e mod 60000 = 0 → grants w' = grants w).
Proof.
  intros Hi Hz Hv Hy Hc Hme Hcan Hnd Hin Hact Hend Hnote He Hcap.
  destruct (editor_field tz e Hz Hy) as (field & Hfmt & Htyped). destruct (resaved_minute tz e Hc) as [Hmin Hexact].
  destruct (note_back _ Hnote) as [Hn1 Hn2]. 
  pose proof (typed_reads tz field _ Hz Htyped) as Hreads. destruct (read_typed _ _ _ Hreads) as [Hread Hmiss].
  exists field, (g_note g ?? ""). unfold open_editor, toLocalInput. rewrite Hend.
  cbn [fmap option_fmap option_map some_truthy]. rewrite iso_truthy, Hi, Hfmt by done.
  pose proof (typed_range tz field _ Htyped) as Hv'. fold (resaved_end tz e) in Hv'.
  destruct (edit_posted maxGrantDays rq me g (resaved_end tz e) w Hi Hv' Hme Hcan Hnd Hin Hact Hnote He Hcap) as (w' & Hpost & Hg).
  exists w'. split; [done|]. split.
  { unfold editor_save. rewrite Hread. cbn [fmap option_fmap option_map] in Hmiss |- *. rewrite Hmiss.
    cbn [iso_member fmap option_fmap option_map]. fold (resaved_end tz e). by rewrite Hpost. }
  split; [exact Hg|]. split; [done|]. intros H0. rewrite Hg, (Hexact H0). apply update_where_fix. intros r Hr Hid. reflect_bool.
  assert (r = g) as -> by by apply (NoDup_fmap_eq g_id (grants w)). unfold with_end, edit_grant. destruct g; cbn in *. by rewrite Hend.
Qed.
End enforced.

(** ** Concrete runs *)

(** [Date] on the texts [toISOString] prints: its inverse over all time values. *)
Definition iso_date (s : string) : jsdate :=
  match list_find (λ t, toISOString t = s) (seqZ (-8640000000000000) 17280000000000001) with
  | Some (_, t) => ValidDate t
  | None => InvalidDate
  end.
Lemma iso_date_reads : reads_iso iso_date.
Proof.
  intros t Ht. unfold iso_date. assert (t ∈ seqZ (-8640000000000000) 17280000000000001) as Hin.
  { apply elem_of_seqZ. unfold valid_time in Ht. lia. }
  destruct (list_find (λ x, toISOString x = toISOString t) _) as [[i x]|] eqn:E.
  - apply list_find_Some in E as (Hx & He & _). f_equal. apply toISOString_inj; [|done|done].
    apply list_elem_of_lookup_2, elem_of_seqZ in Hx. unfold valid_time. lia.
  - apply list_find_None in E. rewrite Forall_forall in E. by destruct (E t Hin).
Qed.
(** The same for a few known instants, to evaluate with. *)
Definition iso_table (ts : list Z) (s : string) : jsdate :=
  match list_find (λ t, toISOString t = s) ts with Some (_, t) => ValidDate t | None => InvalidDate end.

Definition berlin : string := "Europe/Berlin".
Definition demo_end : Wall := {| w_y := 2026; w_mo := 10; w_d := 2; w_h := 18; w_mi := 0; w_s := 0 |}.
Definition demo_clicks : list builder_event := [BEnable true; BEnd "17:30"; BDay 5; BDay 5; BZone "UTC"].
Definition demo_hours : option Schedule := (build (Some berlin) None demo_clicks).2.
Definition demo_grant_form : GrantForm :=
  {| gf_userId := "u1"; gf_siteId := "s1"; gf_startsAt := field_text false demo_wall; gf_endsAt := field_text false demo_end;
     gf_note := " printer "; gf_schedule := demo_hours |}.
Definition demo_admin_req : Req := demo_req (demo_user "admin" ADMIN) (Date_UTC 2026 8 30 12 0 0).

Lemma demo_typed w t : validWall w = true → wall_fits w → w_s w = 0 → settle (zone_offset (ClockLaws := demo_laws) berlin) (utc_of w) = t →
  reads_as (CL := demo_clock) (Some berlin) (field_text false w) (Some t).
Proof. intros Hv Hf Hs <-. apply (typed_reads (LW := demo_laws)); [reflexivity|]. by exists false, w. Qed.
Lemma demo_clicked : Forall day_event demo_clicks.
Proof. repeat constructor; apply (bool_decide_unpack _); vm_compute; exact I. Qed.
Lemma demo_hours_sound x : demo_hours = Some x → sound_hours x.
Proof.
  intros H. vm_compute in H. injection H as <-. split_and!; [done|done|apply (bool_decide_unpack _); vm_compute; exact I| |].
  - repeat constructor; unfold day_ok; lia.
  - exists 540, 1050. split_and!; [reflexivity|reflexivity|lia].
Qed.
Lemma plain_u1 : plain_id "u1" ∧ plain_id "s1".
Proof. repeat split; vm_compute; reflexivity. Qed.

Lemma demo_person : ∃ u, u ∈ users (demo_world []) ∧ u_id u = "u1"%string.
Proof. exists (demo_user "u1" VENDOR). split; [|done]. cbn. set_solver. Qed.
Lemma demo_resource : ∃ x, x ∈ sites (demo_world []) ∧ site_id x = "s1"%string.
Proof. exists demo_site. split; [|done]. cbn. set_solver. Qed.

Lemma grant_as_typed_witness :
  ∃ w' g, grant_submit (CL := demo_clock) iso_date frac_digits id json_wire 30 demo_admin_req (Some berlin) demo_grant_form (demo_world []) = (w', Closed) ∧
    grants w' = [g] ∧ g_note g = Some "printer"%string ∧
    (classifyGrant g (Date_UTC 2026 9 1 9 0 0) = r_allow ↔
      Date_UTC 2026 9 1 7 30 0 ≤ Date_UTC 2026 9 1 9 0 0 ∧ Date_UTC 2026 9 1 9 0 0 ≤ Date_UTC 2026 9 2 16 0 0 ∧
      (∀ x, demo_hours = Some x → isWithinSchedule x (Date_UTC 2026 9 1 9 0 0) = true)).
Proof.
  destruct (grant_as_typed (CL := demo_clock) (LW := demo_laws) iso_date frac_digits id json_wire 30 demo_admin_req (demo_user "admin" ADMIN)
    (Some berlin) None demo_clicks demo_grant_form (Some (Date_UTC 2026 9 1 7 30 0)) (Some (Date_UTC 2026 9 2 16 0 0)) (demo_world [])
    iso_date_reads demo_clicked eq_refl
    (demo_typed demo_wall _ eq_refl ltac:(vm_compute; split_and!; (discriminate || reflexivity)) eq_refl ltac:(vm_compute; reflexivity))
    (demo_typed demo_end _ eq_refl ltac:(vm_compute; split_and!; (discriminate || reflexivity)) eq_refl ltac:(vm_compute; reflexivity))
    eq_refl eq_refl eq_refl (proj1 plain_u1) (proj2 plain_u1)
    demo_person demo_resource
    ltac:(vm_compute; reflexivity)) as (Hsub & _ & _).
  destruct (Hsub demo_hours_sound) as (w' & g & Hs & Hg & _ & _ & Hn & Ha).
  exists w', g. split; [exact Hs|]. split; [exact Hg|]. split; [rewrite Hn; vm_compute; reflexivity|].
  rewrite (Ha (Date_UTC 2026 9 1 9 0 0)). split.
  - intros (H1 & H2 & H3). split_and!; [by apply H1|by apply H2|exact H3].
  - intros (H1 & H2 & H3). split_and!; [by intros l [= <-]|by intros l [= <-]|exact H3].
Defined.

(** A running grant that ends at [e]. *)
Definition grant_until (e : Z) : AccessGrant :=
  {| g_id := "g1"; g_userId := "u1"; g_siteId := "s1"; g_startsAt := None; g_endsAt := Some e; g_status := GActive;
     g_note := Some "printer"%string; g_denyReason := None; g_requiresApproval := false; g_approvedAt := None; g_approvedById := None;
     g_schedule := JNull; g_createdById := None; g_directoryManaged := false |}.
Definition on_the_minute : Z := Date_UTC 2026 9 2 16 0 0.
Lemma editor_untouched_witness :
  ∃ field note w', open_editor (CL := demo_clock) iso_date (Some berlin) (grant_until on_the_minute) = Some (field, note) ∧
    editor_save (CL := demo_clock) iso_date frac_digits id json_wire 30 (λ gs, gs) demo_admin_req (Some berlin) "g1" field note
      (demo_world [grant_until on_the_minute]) = (w', Closed) ∧ grants w' = [grant_until on_the_minute].
Proof.
  assert (clear_of_change (LW := demo_laws) berlin (shown_minute (LW := demo_laws) berlin on_the_minute)) as Hc.
  { exists (Date_UTC 2026 9 25 1 0 0), 7200000, 3600000. split; [exact (demo_change berlin _ _ _ _ eq_refl)|left; vm_compute; reflexivity]. }
  assert (kept_note (g_note (grant_until on_the_minute))) as Hn.
  { intros n [= <-]. split_and!; vm_compute; (reflexivity || discriminate). }
  destruct (editor_untouched (CL := demo_clock) (LW := demo_laws) iso_date frac_digits id json_wire 30 demo_admin_req (demo_user "admin" ADMIN)
    berlin (grant_until on_the_minute) on_the_minute (demo_world [grant_until on_the_minute]) iso_date_reads eq_refl
    ltac:(vm_compute; split; discriminate) ltac:(vm_compute; split; discriminate) Hc eq_refl eq_refl
    ltac:(apply NoDup_singleton) ltac:(by apply list_elem_of_singleton) eq_refl eq_refl Hn
    ltac:(vm_compute; reflexivity) ltac:(vm_compute; reflexivity)) as (field & note & w' & Ho & Hs & _ & _ & Hsame).
  exists field, note, w'. split; [exact Ho|]. split; [exact Hs|]. apply Hsame. vm_compute. reflexivity.
Defined.

(** ** What the forms do not say *)

Notation demo_editor ts := (editor_save (CL := demo_clock) (iso_table ts) frac_digits id json_wire 0 (λ gs, gs) demo_admin_req (Some berlin) "g1").
(** The end of the one grant, after opening its editor and saving at once. *)
Definition end_after_save (e : Z) (ts : list Z) : option (option Z * shown) :=
  '(field, note) ← open_editor (CL := demo_clock) (iso_table ts) (Some berlin) (grant_until e);
  let '(w, r) := demo_editor ts field note (demo_world [grant_until e]) in
  g ← hd_error (grants w); Some (g_endsAt g, r).

(** The editor shows minutes and always sends the end: saving a note moves an end
    that has seconds to the start of its minute. *)
Theorem edit_cuts_seconds :
  end_after_save (on_the_minute + 59999) [on_the_minute + 59999; on_the_minute] = Some (Some on_the_minute, Closed).
Proof. vm_compute. reflexivity. Qed.

(** In the hour that the clock shows twice, saving a note moves the end by that
    hour: access that was to end at the first 02:30 ends at the second. *)
Theorem edit_in_overlap_extends :
  end_after_save (Date_UTC 2026 9 25 0 30 0) [Date_UTC 2026 9 25 0 30 0; Date_UTC 2026 9 25 1 30 0]
  = Some (Some (Date_UTC 2026 9 25 1 30 0), Closed).
Proof. vm_compute. reflexivity. Qed.

(** Emptying the end field is accepted and changes nothing: the end stays, and
    the editor reports success. *)
Theorem emptied_end_stays :
  let '(w, r) := demo_editor [] "" "printer" (demo_world [grant_until on_the_minute]) in
  r = Closed ∧ grants w = [grant_until on_the_minute].
Proof. vm_compute. done. Qed.

(** The grant form and its route accept an end before the start, which the
    request route and the editor refuse: the grant is listed and never admits. *)
Definition backwards_form : GrantForm :=
  {| gf_userId := "u1"; gf_siteId := "s1"; gf_startsAt := field_text false demo_end; gf_endsAt := field_text false demo_wall;
     gf_note := ""; gf_schedule := None |}.
Theorem backwards_grant_accepted :
  let ts := [Date_UTC 2026 9 1 7 30 0; Date_UTC 2026 9 2 16 0 0] in
  let '(w, r) := grant_submit (CL := demo_clock) (iso_table ts) frac_digits id json_wire 30 demo_admin_req (Some berlin) backwards_form (demo_world []) in
  r = Closed ∧ ∃ g, grants w = [g] ∧ (∀ now, classifyGrant g now ≠ r_allow) ∧
  (request_submit (CL := demo_clock) (iso_table ts) 30 false (λ gs, gs) (demo_req (demo_user "u1" VENDOR) 1000) (Some berlin) backwards_form (demo_world [])).2
  = Message "Could not submit the request. Check the fields and try again.".
Proof.
  cbv zeta. destruct (grant_submit _ _ _ _ _ _ _ _ _) as [w r] eqn:E. vm_compute in E. injection E as <- <-. split; [done|].
  eexists. split; [reflexivity|]. split; [|vm_compute; reflexivity].
  intros now. unfold classifyGrant. cbn [g_status g_startsAt g_endsAt]. rewrite !bool_decide_eq_false_2 by done.
  destruct (Z.ltb_spec now 1790956800000); [done|]. destruct (Z.ltb_spec 1790839800000 now); [done|lia].
Qed.

(** Whoever already has access is told that a request is pending. *)
Theorem access_shown_as_pending :
  (request_submit (CL := demo_clock) (iso_table []) 0 false (λ gs, gs) (demo_req (demo_user "u1" VENDOR) 1000) (Some berlin)
     {| gf_userId := ""; gf_siteId := "s1"; gf_startsAt := ""; gf_endsAt := ""; gf_note := "x"; gf_schedule := None |}
     (demo_world [grant_until on_the_minute])).2 = Message "You already have a pending request for this app.".
Proof. vm_compute. reflexivity. Qed.
