(* ===== verification/Transfer.v ===== *)
(** * Bytes through the data plane

    Recordings and files do not live in the manager.  Replay asks the connector
    that holds a recording (src/lib/dataplane/recordings.ts, the routes
    admin/recordings, [id]/guac and [id]/keyevents), and file transfer with an
    isolated browser goes through the data plane's relay (isolated/files/upload,
    download and downloads; dataplane/kasmfiles.go).  Both wait with a ceiling
    (src/lib/net/fetch-timeout.ts).  An exchange is the time at which the head of
    the answer arrives, the time at which its body ends, and what was sent; the
    two waits differ in what they cut off. *)

From S2P Require Import Prelude JsString JsValue Schema AccessLog AdminLog Identity Schedule Access Tenant AuditQuery Recordings Live Centre.

#[local] Arguments obj_get : simpl never.

(** ** Waiting *)

Record Exchange (A : Type) := { ex_head : Z; ex_done : Z; ex_status : Z; ex_header : option string; ex_body : option A }.
Arguments ex_head {A} _.
Arguments ex_done {A} _.
Arguments ex_status {A} _.
Arguments ex_header {A} _.
Arguments ex_body {A} _.
(** The answer as the caller reads it: a body that is cut off throws when it is
    read. *)
Record Answer (A : Type) := { an_status : Z; an_header : option string; an_body : option A; an_cut : bool }.
Arguments an_status {A} _.
Arguments an_header {A} _.
Arguments an_body {A} _.
Arguments an_cut {A} _.

(** [None]: the call throws, because nobody answers or the head is late. *)
Definition fetchWithTimeout {A} (timeoutMs : Z) (x : option (Exchange A)) : option (Answer A) :=
  e ← x;
  if timeoutMs <? ex_head e then None else
  Some {| an_status := ex_status e; an_header := ex_header e; an_body := ex_body e; an_cut := timeoutMs <? ex_done e |}.
(** The timer is cleared when the head is there. *)
Definition fetchStreamWithHeaderTimeout {A} (headerTimeoutMs : Z) (x : option (Exchange A)) : option (Answer A) :=
  e ← x;
  if headerTimeoutMs <? ex_head e then None else
  Some {| an_status := ex_status e; an_header := ex_header e; an_body := ex_body e; an_cut := false |}.

Definition REC_SEARCH_TIMEOUT_MS : Z := 20000.
Definition REC_HEAD_TIMEOUT_MS : Z := 20000.
Definition FILE_HEAD_TIMEOUT_MS : Z := 20000.
Definition FILE_TRANSFER_TIMEOUT_MS : Z := 300000.
Definition DP_TIMEOUT_MS : Z := 5000.

(** ** Recordings *)

Inductive Stream := SGuac | SRrweb | SVideo | SKeys.
#[global] Instance Stream_eq_dec : EqDecision Stream.
Proof. solve_decision. Defined.
Record RecRequest := {
  rr_connectorId : string; rr_tenantId : string; rr_key : string; rr_format : Stream; rr_fromSeq : Z; rr_fromByte : Z; rr_toByte : Z;
}.
Record RecFetch := { rf_body : string; rf_totalBytes : jsnum }.

(** [Number(x ?? 0) || 0]. *)
Definition total_bytes (h : option string) : jsnum :=
  let n := match h with Some s => Number s | None => NInt 0 end in if json_truthy (JNum n) then n else NInt 0.
Definition fetchFromConnector (plane : RecRequest → option (Exchange string)) (rq : RecRequest) : option RecFetch :=
  a ← fetchStreamWithHeaderTimeout REC_HEAD_TIMEOUT_MS (plane rq);
  if negb (status_ok (an_status a)) then None else
  b ← an_body a;
  Some {| rf_body := b; rf_totalBytes := total_bytes (an_header a) |}.

Record SearchRequest := { sq_connectorId : string; sq_tenantId : string; sq_query : string; sq_keys : list string; sq_maxDecrypt : Z }.
(** The JSON of a search, when it could be read; [None] is the [{}] of a body that
    could not. *)
Record SearchBody := { sb_matches : option (list RecSearchMatch); sb_truncated : bool; sb_error : option string }.
(** [inl]: not ok, with its error; the text of a thrown error is not kept. *)
Definition searchOnConnector (plane : SearchRequest → option (Exchange SearchBody)) (rq : SearchRequest)
    : string + (list RecSearchMatch * bool) :=
  match fetchWithTimeout REC_SEARCH_TIMEOUT_MS (plane rq) with
  | None => inl "dataplane unreachable"%string
  | Some a =>
      let body := if an_cut a then None else an_body a in
      if negb (status_ok (an_status a))
      then inl (some_truthy (body ≫= sb_error) ?? "dataplane " +:+ dec (an_status a))
      else inr (default [] (body ≫= sb_matches), match body with Some b => sb_truncated b | None => false end)
  end.

Section replay.
Context (plane : RecRequest → option (Exchange string)) (json_parse : string → option json) (by_time : list KeyEvent → list KeyEvent).

(** The request a replay route sends for a row. *)
Definition replay_request (tid : string) (connectorId : string) (r : SessionRecording) (s : Stream) : RecRequest :=
  {| rr_connectorId := connectorId; rr_tenantId := tid; rr_key := sr_key r; rr_format := s; rr_fromSeq := 0; rr_fromByte := 0; rr_toByte := 0 |}.
(** What the routes share: who may ask, which row, which connector.  The list
    holds what was sent to the data plane. *)
Definition replaying {A} (tid : string) (user : option User) (id : string) (s : Stream) (suits : SessionRecording → bool) (db : RecDb)
    (h : SessionRecording → RecFetch → response A) : list RecRequest * response A :=
  match user with
  | None => ([], Fail 401 "unauthorized")
  | Some u =>
      if negb (can (u_role u) configure) then ([], Fail 403 "forbidden") else
      match find_row (λ r, sr_id r =s id) (rd_rows db) with
      | None => ([], Fail 404 "not_found")
      | Some r =>
          if negb (suits r) then ([], Fail 404 "not_found") else
          match some_truthy (connectorForRecording db (sr_siteId r)) with
          | None => ([], Fail 503 "no_connector")
          | Some c =>
              let rq := replay_request tid c r s in
              ([rq], match fetchFromConnector plane rq with
                     | None => Fail 503 "connector_offline"
                     | Some got => h r got
                     end)
          end
      end
  end.

(** GET admin/recordings/[id]/keyevents. *)
Definition keyeventsGet (tid : string) (user : option User) (id : string) (db : RecDb) : list RecRequest * response (list KeyEvent) :=
  replaying tid user id SKeys (λ _, true) db (λ r got, Reply 200 (assembleKeyEvents json_parse by_time (rf_body got))).
(** GET admin/recordings/[id]/guac: the stream, and its Content-Length if known. *)
Definition guacGet (tid : string) (user : option User) (id : string) (db : RecDb) : list RecRequest * response (string * option jsnum) :=
  replaying tid user id SGuac (λ r, bool_decide (sr_format r = GUAC)) db
    (λ r got, Reply 200 (rf_body got, if num_gt (rf_totalBytes got) 0 then Some (rf_totalBytes got) else None)).
(** GET admin/recordings/[id]/events. *)
Definition rrwebGet (tid : string) (user : option User) (id : string) (db : RecDb)
    : list RecRequest * response (string * Z * list json) :=
  replaying tid user id SRrweb (λ _, true) db (λ r got, Reply 200 (sr_id r, sr_startedAt r, assembleEvents json_parse (rf_body got))).
End replay.

(** *** The list of recordings *)

Record ListedRecording := {
  lr_id : string; lr_startedAt : string; lr_lastEventAt : string; lr_host : string; lr_bytes : Z; lr_userId : string;
  lr_userName : option string; lr_userEmail : option string; lr_siteId : string; lr_siteName : option string;
  lr_format : RecordingFormat; lr_protocol : option string; lr_truncated : bool;
}.
Definition listed_row (db : RecDb) (r : SessionRecording) : ListedRecording :=
  let u := find_row (λ u, u_id u =s sr_userId r) (rd_users db) in
  let s := find_row (λ s, site_id s =s sr_siteId r) (rd_sites db) in
  {| lr_id := sr_id r; lr_startedAt := toISOString (sr_startedAt r); lr_lastEventAt := toISOString (sr_lastEventAt r); lr_host := sr_host r;
     lr_bytes := sr_bytes r; lr_userId := sr_userId r; lr_userName := u_name <$> u; lr_userEmail := u_email <$> u;
     lr_siteId := sr_siteId r; lr_siteName := site_name <$> s; lr_format := sr_format r; lr_protocol := sr_protocol r;
     lr_truncated := sr_truncated r |}.
(** GET admin/recordings. *)
Definition recordingsGet (date_parse : string → jsdate) (search : string → list string → SearchAnswer) (user : option User)
    (sp : string → option string) (db : RecDb) : response (list ListedRecording * RecordingList) :=
  match user with
  | None => Fail 401 "unauthorized"
  | Some u =>
      if negb (can (u_role u) configure) then Fail 403 "forbidden" else
      let l := listRecordings search (parseRecordingFilter date_parse sp 50 200) db in
      Reply 200 (map (listed_row db) (rl_rows l), l)
  end.

(** ** Files of an isolated browser *)

(** A session of the data plane's registry that has a browser, as the relay
    needs it. *)
Record KasmSession := {
  ks_kind : string; ks_userId : string; ks_siteId : string; ks_connectorId : string; ks_controlAddr : string; ks_brokerSID : string;
  ks_ftMode : string; ks_host : string;
}.
(** The registry is a Go map: [hub] lists it in the order of this iteration. *)
Definition IsolatedFileTarget (userId siteId : string) (hub : list KasmSession) : option KasmSession :=
  find_row (λ s, (ks_kind s =s "isolated") && (ks_userId s =s userId) && (ks_siteId s =s siteId)) hub.
Definition fileTransferAllows (mode : string) : bool * bool :=
  if mode =s "allow" then (true, true) else
  if mode =s "no_upload" then (false, true) else
  if mode =s "no_download" then (true, false) else (false, false).

(** [strings.TrimSpace], for the blanks of ASCII. *)
Definition go_space (c : Ascii.ascii) : bool := let n := code c in ((9 <=? n) && (n <=? 13)) || (n =? 32).
Fixpoint drop_while (p : Ascii.ascii → bool) (l : list Ascii.ascii) : list Ascii.ascii :=
  match l with c :: l' => if p c then drop_while p l' else l | [] => [] end.
Definition TrimSpace (l : list Ascii.ascii) : list Ascii.ascii := reverse (drop_while go_space (reverse (drop_while go_space l))).
Definition is_slash (c : Ascii.ascii) : bool := (code c =? 47) || (code c =? 92).
Definition is_control (c : Ascii.ascii) : bool := (code c <? 32) || (code c =? 127).
(** What follows the last separator. *)
Fixpoint after_last (l : list Ascii.ascii) : list Ascii.ascii :=
  match l with
  | [] => []
  | c :: l' => if existsb is_slash l' then after_last l' else if is_slash c then l' else l
  end.
Definition safeSeg (name : string) : string :=
  let n := after_last (TrimSpace (chars name)) in
  if existsb is_control n then "" else
  if (unchars n =s ".") || (unchars n =s "..") then "" else unchars n.

(** [r.URL.Query()]: pairs split at "&" and at the first "=", with "+" a blank and
    percent escapes decoded; [Get] answers the first, or the empty text. *)
Definition go_unescape (l : list Ascii.ascii) : list Ascii.ascii :=
  decode_chars (map (λ c, if code c =? 43 then Ascii.ascii_of_N 32 else c) l).
Fixpoint cut_eq (l : list Ascii.ascii) : list Ascii.ascii * list Ascii.ascii :=
  match l with
  | [] => ([], [])
  | c :: l' => if code c =? 61 then ([], l') else let '(k, v) := cut_eq l' in (c :: k, v)
  end.
Definition parse_query (qs : string) : list (string * string) :=
  map (λ p, let '(k, v) := cut_eq p in (unchars (go_unescape k), unchars (go_unescape v))) (split_chars (Ascii.ascii_of_N 38) (chars qs)).
Definition q_get (q : list (string * string)) (k : string) : string := match find_row (λ p, p.1 =s k) q with Some p => p.2 | None => "" end.

(** What the relay says to the broker next to the browser. *)
Inductive BrokerOp := BUpload (name : string) (contentLength : string) (body : string) | BDownload (name : string) | BList.
Record BrokerRequest := { bq_connectorId : string; bq_addr : string; bq_sid : string; bq_op : BrokerOp }.
Record FileAudit := { fa_verdict : string; fa_reason : string; fa_userId : string; fa_siteId : string; fa_host : string; fa_status : Z; fa_bytes : Z }.
Record Relayed := { re_audit : list FileAudit; re_sent : list BrokerRequest; re_status : Z; re_body : option string }.
Definition refused (status : Z) : Relayed := {| re_audit := []; re_sent := []; re_status := status; re_body := None |}.

Section relay.
Context (online : string → string → bool) (broker : BrokerRequest → option (Z * string)).

(** The answer of the broker passed on, with the entry of a transfer that
    succeeded. *)
Definition relay_answer (rq : BrokerRequest) (userId siteId host op name : string) (uploaded : Z) : Relayed :=
  match broker rq with
  | None => {| re_audit := []; re_sent := [rq]; re_status := 502; re_body := None |}
  | Some (status, body) =>
      {| re_audit := if (status / 100 =? 2) && negb (op =s "list")
                     then [{| fa_verdict := "ALLOW"; fa_reason := (if op =s "upload" then "UPLOAD" else "DOWNLOAD") +:+ " file:" +:+ name;
                              fa_userId := userId; fa_siteId := siteId; fa_host := host; fa_status := status;
                              fa_bytes := if op =s "upload" then uploaded else js_length body |}] else [];
         re_sent := [rq]; re_status := status; re_body := Some body |}
  end.
Definition serveKasmFiles (hub : list KasmSession) (q : list (string * string)) (contentLength body : string) : Relayed :=
  let userId := q_get q "userId" in
  let siteId := q_get q "siteId" in
  let op := q_get q "op" in
  match IsolatedFileTarget userId siteId hub with
  | None => refused 409
  | Some s =>
      let '(up, down) := fileTransferAllows (ks_ftMode s) in
      let isUpload := op =s "upload" in
      if (isUpload && negb up) || (negb isUpload && negb down)
      then {| re_audit := [{| fa_verdict := "DENY"; fa_reason := "file-transfer-denied:" +:+ op; fa_userId := userId; fa_siteId := siteId;
                              fa_host := ks_host s; fa_status := 403; fa_bytes := 0 |}]; re_sent := []; re_status := 403; re_body := None |}
      else if negb (online (ks_connectorId s) (ks_controlAddr s)) then refused 502 else
      let name := safeSeg (q_get q "name") in
      let ask := λ o, {| bq_connectorId := ks_connectorId s; bq_addr := ks_controlAddr s; bq_sid := ks_brokerSID s; bq_op := o |} in
      if isUpload then
        if negb (truthy name) then refused 400
        else relay_answer (ask (BUpload name contentLength body)) userId siteId (ks_host s) op name (js_length body)
      else if op =s "download" then
        if negb (truthy name) then refused 400
        else relay_answer (ask (BDownload name)) userId siteId (ks_host s) op name 0
      else relay_answer (ask BList) userId siteId (ks_host s) op name 0
  end.
Definition dpAuthorized (secret : string) (header : option string) : bool := truthy secret && ((header ?? "") =s secret).
(** The handler of /kasm-files. *)
Definition kasm_files (secret : string) (hub : list KasmSession) (header : option string) (qs contentLength body : string) : Relayed :=
  if negb (dpAuthorized secret header) then refused 403 else serveKasmFiles hub (parse_query qs) contentLength body.
End relay.

(** ** The manager's file routes *)

Section routes.
Context `{Intl}.
(** The data plane, with the header and query of a call, its Content-Length and
    body; and how long the call takes, [None] when nobody answers. *)
Context (plane : option string → string → string → string → Relayed) (timing : Relayed → option (Z * Z)).
Context (secret : string) (json_parse : string → option json).

Definition exchange (r : Relayed) : option (Exchange string) :=
  '(h, d) ← timing r; Some {| ex_head := h; ex_done := d; ex_status := re_status r; ex_header := None; ex_body := re_body r |}.

Definition files_query (op userId siteId : string) : string :=
  "op=" +:+ op +:+ "&userId=" +:+ encodeURIComponent userId +:+ "&siteId=" +:+ encodeURIComponent siteId.
Definition named_query (op userId siteId name : string) : string := files_query op userId siteId +:+ "&name=" +:+ encodeURIComponent name.

(** POST isolated/files/upload.  [None] of the first: nothing was sent. *)
Definition uploadPost (env : option string) (me : option User) (siteId name : string) (contentLength : option string) (body : string)
    (now : Z) (w : World) : option Relayed * response bool :=
  match uploadGate env me siteId name contentLength now w, me with
  | Fail st e, _ => (None, Fail st e)
  | Reply _ _, None => (None, Fail 500 "")
  | Reply _ _, Some u =>
      let r := plane (Some secret) (named_query "upload" (u_id u) siteId name) (dec (js_length body)) body in
      (Some r, match fetchWithTimeout FILE_TRANSFER_TIMEOUT_MS (exchange r) with
               | None => Fail 500 ""
               | Some a => Reply (an_status a) (status_ok (an_status a))
               end)
  end.
(** GET isolated/files/download. *)
Definition downloadGet (me : option User) (siteId name : string) (now : Z) (w : World) : option Relayed * response string :=
  match downloadGate me siteId name now w, me with
  | Fail st e, _ => (None, Fail st e)
  | Reply _ _, None => (None, Fail 500 "")
  | Reply _ _, Some u =>
      let r := plane (Some secret) (named_query "download" (u_id u) siteId name) "" "" in
      (Some r, match fetchStreamWithHeaderTimeout FILE_HEAD_TIMEOUT_MS (exchange r) with
               | None => Fail 500 ""
               | Some a => match an_body a with
                           | Some b => if status_ok (an_status a) then Reply 200 b else Fail (an_status a) "unavailable"
                           | None => Fail (if an_status a =? 0 then 502 else an_status a) "unavailable"
                           end
               end)
  end.
(** [listIsolatedDownloads], and GET isolated/files/downloads. *)
Definition listIsolatedDownloads (userId siteId : string) : Relayed * list json :=
  let r := plane (Some secret) (files_query "list" userId siteId) "" "" in
  (r, match fetchWithTimeout DP_TIMEOUT_MS (exchange r) with
      | Some a =>
          if negb (status_ok (an_status a)) || an_cut a then [] else
          match an_body a ≫= json_parse with Some (JArr l) => l | _ => [] end
      | None => []
      end).
Definition downloadsGet (me : option User) (siteId : string) (now : Z) (w : World) : option Relayed * response (list json) :=
  match downloadsGate me siteId now w, me with
  | Fail st e, _ => (None, Fail st e)
  | Reply _ _, None => (None, Fail 500 "")
  | Reply _ _, Some u => let '(r, l) := listIsolatedDownloads (u_id u) siteId in (Some r, Reply 200 l)
  end.
End routes.

(** ** Theorems: replay *)

Section replay_theorems.
Context (plane : RecRequest → option (Exchange string)) (json_parse : string → option json) (by_time : list KeyEvent → list KeyEvent).

Lemma fetch_complete rq got :
  fetchFromConnector plane rq = Some got ↔
  ∃ x, plane rq = Some x ∧ ex_head x ≤ REC_HEAD_TIMEOUT_MS ∧ status_ok (ex_status x) = true ∧
    ex_body x = Some (rf_body got) ∧ rf_totalBytes got = total_bytes (ex_header x).
Proof.
  unfold fetchFromConnector, fetchStreamWithHeaderTimeout. destruct (plane rq) as [x|]; cbn [mbind option_bind].
  2: { split; [done|]. by intros (? & [=] & _). }
  destruct (Z.ltb_spec REC_HEAD_TIMEOUT_MS (ex_head x)); cbn [mbind option_bind an_status an_body an_header].
  { split; [done|]. intros (? & [= <-] & ? & _). lia. }
  destruct (status_ok (ex_status x)) eqn:Hs; cbn [negb].
  2: { split; [done|]. intros (? & [= <-] & _ & Hs' & _). congruence. }
  destruct (ex_body x) as [b|] eqn:Hb; cbn [mbind option_bind].
  2: { split; [done|]. intros (? & [= <-] & _ & _ & Hb' & _). congruence. }
  split; [intros [= <-]; exists x; done|]. intros (? & [= <-] & _ & _ & Hb' & Ht). rewrite Hb in Hb'. injection Hb' as ->.
  destruct got as [gb gt]. cbn in *. by subst.
Qed.

Lemma replaying_sound {A} tid user id s suits db (h : SessionRecording → RecFetch → response A) :
  let '(sent, answer) := replaying plane tid user id s suits db h in
  (∀ rq, rq ∈ sent → ∃ u r c, user = Some u ∧ can (u_role u) configure = true ∧ r ∈ rd_rows db ∧ sr_id r = id ∧ suits r = true ∧
     connectorForRecording db (sr_siteId r) = Some c ∧ rq = replay_request tid c r s) ∧
  (∀ st a, answer = Reply st a → ∃ rq x r got, sent = [rq] ∧ plane rq = Some x ∧ ex_head x ≤ REC_HEAD_TIMEOUT_MS ∧
     status_ok (ex_status x) = true ∧ ex_body x = Some (rf_body got) ∧ h r got = Reply st a ∧ r ∈ rd_rows db ∧ sr_id r = id).
Proof.
  unfold replaying. destruct user as [u|]; [|split; [set_solver|done]].
  destruct (can (u_role u) configure) eqn:Hc; cbn [negb]; [|split; [set_solver|done]].
  destruct (find_row _ _) as [r|] eqn:Hr; [|split; [set_solver|done]]. apply find_row_Some in Hr as [Hin Hid]. reflect_bool.
  destruct (suits r) eqn:Hsu; cbn [negb]; [|split; [set_solver|done]].
  destruct (some_truthy (connectorForRecording db (sr_siteId r))) as [c|] eqn:Hco; [|split; [set_solver|done]].
  assert (connectorForRecording db (sr_siteId r) = Some c) as Hco'.
  { unfold some_truthy in Hco. destruct (connectorForRecording _ _); [|done]. destruct (truthy _); [by simplify_eq|done]. }
  cbv zeta. split.
  - intros rq ->%list_elem_of_singleton. exists u, r, c. split_and!; done.
  - intros st a Ha. destruct (fetchFromConnector plane _) as [got|] eqn:Hf; [|done].
    apply fetch_complete in Hf as (x & Hx & Hh & Hst & Hb & _). exists (replay_request tid c r s), x, r, got. done.
Qed.

Ltac by_replaying H1 H2 :=
  match goal with |- context [replaying ?p ?t ?u ?i ?s ?su ?d ?h] =>
    pose proof (replaying_sound t u i s su d h) as H1; destruct (replaying p t u i s su d h) as [sent answer]; destruct H1 as [H1 H2] end.

(** Replay hands out a recording to those who may, whole, or not at all.
    The three replay routes ask the data plane only for a signed-in user who may
    configure, for a row of the workspace's own index, at the connector of that
    row's site, with the workspace's identifier, the row's key and the stream of
    that player; a success carries the complete body the connector sent, however
    long it took after the head was there, and every other case is an error:
    never an empty recording. *)
Theorem replay_guarded tid user id db :
  (let '(sent, answer) := guacGet plane tid user id db in
   (∀ rq, rq ∈ sent → ∃ u r c, user = Some u ∧ can (u_role u) configure = true ∧ r ∈ rd_rows db ∧ sr_id r = id ∧ sr_format r = GUAC ∧
      connectorForRecording db (sr_siteId r) = Some c ∧ rq = replay_request tid c r SGuac) ∧
   (∀ st body len, answer = Reply st (body, len) → ∃ rq x, sent = [rq] ∧ plane rq = Some x ∧ status_ok (ex_status x) = true ∧ ex_body x = Some body)) ∧
  (let '(sent, answer) := keyeventsGet plane json_parse by_time tid user id db in
   (∀ rq, rq ∈ sent → ∃ u r c, user = Some u ∧ can (u_role u) configure = true ∧ r ∈ rd_rows db ∧ sr_id r = id ∧
      connectorForRecording db (sr_siteId r) = Some c ∧ rq = replay_request tid c r SKeys) ∧
   (∀ st l, answer = Reply st l → ∃ rq x body, sent = [rq] ∧ plane rq = Some x ∧ status_ok (ex_status x) = true ∧ ex_body x = Some body ∧
      l = assembleKeyEvents json_parse by_time body)) ∧
  (let '(sent, answer) := rrwebGet plane json_parse tid user id db in
   (∀ rq, rq ∈ sent → ∃ u r c, user = Some u ∧ can (u_role u) configure = true ∧ r ∈ rd_rows db ∧ sr_id r = id ∧
      connectorForRecording db (sr_siteId r) = Some c ∧ rq = replay_request tid c r SRrweb) ∧
   (∀ st i t l, answer = Reply st (i, t, l) → ∃ rq x body, sent = [rq] ∧ plane rq = Some x ∧ status_ok (ex_status x) = true ∧
      ex_body x = Some body ∧ l = assembleEvents json_parse body)).
Proof.
  split_and!; unfold guacGet, keyeventsGet, rrwebGet.
  - by_replaying H1 H2. split.
    + intros rq (u & r & c & ? & ? & ? & ? & Hg & ?)%H1. reflect_bool. exists u, r, c. done.
    + intros st body len (rq & x & r & got & ? & ? & _ & ? & ? & [= _ <- _] & _)%H2. exists rq, x. done.
  - by_replaying H1 H2. split.
    + intros rq (u & r & c & ? & ? & ? & ? & _ & ? & ?)%H1. exists u, r, c. done.
    + intros st l (rq & x & r & got & ? & ? & _ & ? & ? & [= _ <-] & _)%H2. exists rq, x, (rf_body got). done.
  - by_replaying H1 H2. split.
    + intros rq (u & r & c & ? & ? & ? & ? & _ & ? & ?)%H1. exists u, r, c. done.
    + intros st i t l (rq & x & r & got & ? & ? & _ & ? & ? & [= _ _ _ <-] & _)%H2. exists rq, x, (rf_body got). done.
Qed.
End replay_theorems.

(** ** Theorems: what a query says *)

Lemma encoded_clean s : Forall (λ c, code c ≠ 38 ∧ code c ≠ 43) (chars (encodeURIComponent s)).
Proof.
  destruct (encode_faithful s) as [_ H]. eapply Forall_impl; [exact H|]. intros c [Hc| ->]; [|by vm_compute].
  revert Hc. destruct c as [[] [] [] [] [] [] [] []]; vm_compute; try discriminate; intros _; split; discriminate.
Qed.
Lemma unescape_encoded s : unchars (go_unescape (chars (encodeURIComponent s))) = s.
Proof.
  unfold go_unescape. rewrite (map_ext_in _ id).
  - rewrite map_id. apply encode_faithful.
  - intros c Hc%list_elem_of_In. pose proof (encoded_clean s) as H. rewrite Forall_forall in H. destruct (H c Hc) as [_ Hp].
    by destruct (Z.eqb_spec (code c) 43).
Qed.
Lemma no_ampersand s : Ascii.ascii_of_N 38 ∉ chars (encodeURIComponent s).
Proof. intros Hin. pose proof (encoded_clean s) as H. rewrite Forall_forall in H. by destruct (H _ Hin). Qed.

(** Each member reads back as itself, whatever its text holds. *)
Definition file_op (op : string) : Prop := op = "upload"%string ∨ op = "download"%string ∨ op = "list"%string.
Definition member (k : string) (v : list Ascii.ascii) : list Ascii.ascii := chars k ++ Ascii.ascii_of_N 61 :: v.
Lemma cut_member k v : forallb (λ c, negb (code c =? 61)) (chars k) = true → cut_eq (member k v) = (chars k, v).
Proof.
  unfold member. induction (chars k) as [|c l IH]; intros Hk; [done|]. cbn in Hk. apply andb_true_iff in Hk as [Hc Hl].
  cbn [app cut_eq]. apply negb_true_iff in Hc. by rewrite Hc, IH.
Qed.
Lemma member_amp k v :
  forallb (λ c, negb (code c =? 38)) (chars k) = true → Ascii.ascii_of_N 38 ∉ v → Ascii.ascii_of_N 38 ∉ member k v.
Proof.
  intros Hk Hv [Hin|Hin]%elem_of_app; [|by apply elem_of_cons in Hin as [|]].
  rewrite forallb_forall in Hk. by specialize (Hk _ (proj1 (list_elem_of_In _ _) Hin)).
Qed.

Lemma files_query_chars op u s :
  chars (files_query op u s) = member "op" (chars op) ++ Ascii.ascii_of_N 38 :: member "userId" (chars (encodeURIComponent u)) ++
    Ascii.ascii_of_N 38 :: member "siteId" (chars (encodeURIComponent s)).
Proof. unfold files_query, member. rewrite !chars_append. reflexivity. Qed.
Lemma op_plain op : file_op op → unchars (go_unescape (chars op)) = op ∧ Ascii.ascii_of_N 38 ∉ chars op.
Proof. intros [->|[->| ->]]; (split; [reflexivity|apply (bool_decide_unpack _); vm_compute; exact I]). Qed.
Lemma files_query_read op u s :
  file_op op → parse_query (files_query op u s) = [("op", op); ("userId", u); ("siteId", s)]%string.
Proof.
  intros [Hop Hamp]%op_plain. unfold parse_query. rewrite files_query_chars.
  rewrite split_chars_app, split_chars_app, split_chars_free by (apply member_amp; [done|first [done|apply no_ampersand]]).
  cbn [map]. rewrite !cut_member by done. by rewrite Hop, !unescape_encoded.
Qed.
Lemma app_four {A} (a b c d : list A) x : (a ++ x :: b ++ x :: c) ++ x :: d = a ++ x :: b ++ x :: c ++ x :: d.
Proof. rewrite <- app_assoc. cbn. by rewrite <- app_assoc. Qed.
Lemma named_query_read op u s n :
  file_op op → parse_query (named_query op u s n) = [("op", op); ("userId", u); ("siteId", s); ("name", n)]%string.
Proof.
  intros [Hop Hamp]%op_plain. unfold parse_query, named_query. rewrite chars_append, files_query_chars.
  change (chars ("&name=" +:+ encodeURIComponent n)) with (Ascii.ascii_of_N 38 :: member "name" (chars (encodeURIComponent n))).
  rewrite app_four. rewrite split_chars_app, split_chars_app, split_chars_app, split_chars_free by (apply member_amp; [done|first [done|apply no_ampersand]]).
  cbn [map]. rewrite !cut_member by done. by rewrite Hop, !unescape_encoded.
Qed.

(** ** Theorems: safe names *)

Lemma after_last_safe l : Forall (λ c, is_slash c = false) (after_last l).
Proof.
  induction l as [|c l IH]; cbn; [constructor|]. destruct (existsb is_slash l) eqn:E; [done|].
  assert (Forall (λ c, is_slash c = false) l) as Hl.
  { apply Forall_forall. intros x Hx. destruct (is_slash x) eqn:Ex; [|done]. rewrite <- E. symmetry. apply existsb_exists.
    exists x. by rewrite <- list_elem_of_In. }
  destruct (is_slash c) eqn:Ec; [done|by constructor].
Qed.
(** One segment of a path, and nothing that ends a line. *)
Definition safe_name (n : string) : Prop :=
  Forall (λ c, is_slash c = false ∧ is_control c = false) (chars n) ∧ n ≠ "."%string ∧ n ≠ ".."%string ∧ truthy n = true.
Lemma safeSeg_safe name : truthy (safeSeg name) = true → safe_name (safeSeg name).
Proof.
  unfold safeSeg. set (n := after_last _). pose proof (after_last_safe (TrimSpace (chars name))) as Hs. fold n in Hs.
  destruct (existsb is_control n) eqn:Ec; [done|]. destruct (_ || _) eqn:Ed; [done|]. intros Ht. reflect_bool. split_and!; try done.
  rewrite chars_unchars. apply Forall_forall. intros c Hc. rewrite Forall_forall in Hs. split; [by apply Hs|].
  destruct (is_control c) eqn:Ex; [|done]. rewrite <- Ec. symmetry. apply existsb_exists. exists c. by rewrite <- list_elem_of_In.
Qed.

(** ** Theorems: file transfer *)

Section files_theorems.
Context `{Intl}.
Context (online : string → string → bool) (broker : BrokerRequest → option (Z * string)).
Context (timing : Relayed → option (Z * Z)) (secret : string) (json_parse : string → option json) (hub : list KasmSession).

(** What may be said to a browser for a user: through the user's own running
    session of that site, in a direction its mode allows, under a safe name. *)
Definition may_say (userId siteId : string) (b : BrokerRequest) : Prop :=
  ∃ s, s ∈ hub ∧ ks_kind s = "isolated"%string ∧ ks_userId s = userId ∧ ks_siteId s = siteId ∧
    bq_connectorId b = ks_connectorId s ∧ bq_addr b = ks_controlAddr s ∧ bq_sid b = ks_brokerSID s ∧
    match bq_op b with
    | BUpload n _ _ => (fileTransferAllows (ks_ftMode s)).1 = true ∧ safe_name n
    | BDownload n => (fileTransferAllows (ks_ftMode s)).2 = true ∧ safe_name n
    | BList => (fileTransferAllows (ks_ftMode s)).2 = true
    end.
(** A transfer the browser carried out is on record. *)
Definition on_record (userId siteId : string) (r : Relayed) : Prop :=
  ∀ b, b ∈ re_sent r → bq_op b ≠ BList → (∃ st body, broker b = Some (st, body) ∧ st / 100 = 2) →
    ∃ e, re_audit r = [e] ∧ fa_verdict e = "ALLOW"%string ∧ fa_userId e = userId ∧ fa_siteId e = siteId.
(** A relay that answers 403 has said nothing and recorded the refusal. *)
Definition relay_fair (userId siteId : string) (r : Relayed) : Prop :=
  (∀ b, b ∈ re_sent r → may_say userId siteId b) ∧ on_record userId siteId r ∧
  (re_sent r = [] → re_status r = 403 →
   ∃ e, re_audit r = [e] ∧ fa_verdict e = "DENY"%string ∧ fa_userId e = userId ∧ fa_siteId e = siteId).

Lemma refused_fair u s st : st ≠ 403 → relay_fair u s (refused st).
Proof. intros Hst. split_and!; [by intros b ?%elem_of_nil|by intros b ?%elem_of_nil|done]. Qed.
Lemma relay_answer_fair u s b host op name n :
  may_say u s b → (bq_op b ≠ BList → op = "upload"%string ∨ op = "download"%string) →
  relay_fair u s (relay_answer broker b u s host op name n).
Proof.
  intros Hm Hop. unfold relay_answer. destruct (broker b) as [[st body]|] eqn:Hb.
  - split_and!; cbn; [by intros x ->%list_elem_of_singleton| |done].
    intros x ->%list_elem_of_singleton Hl (st' & body' & Hb' & H2). rewrite Hb in Hb'. injection Hb' as <- <-.
    rewrite (proj2 (Z.eqb_eq _ _) H2). assert (negb (op =s "list") = true) as -> by (by destruct (Hop Hl) as [-> | ->]).
    cbn [andb]. eexists. split; [reflexivity|]. done.
  - split_and!; cbn; [by intros x ->%list_elem_of_singleton| |done].
    intros x ->%list_elem_of_singleton _ (st' & body' & Hb' & _). congruence.
Qed.

Lemma serve_fair q cl body : relay_fair (q_get q "userId") (q_get q "siteId") (serveKasmFiles online broker hub q cl body).
Proof.
  unfold serveKasmFiles. cbv zeta. destruct (IsolatedFileTarget _ _ _) as [s|] eqn:Ht; [|by apply refused_fair].
  unfold IsolatedFileTarget in Ht. apply find_row_Some in Ht as [Hin Hs]. reflect_bool.
  destruct (fileTransferAllows (ks_ftMode s)) as [up down] eqn:Hm. destruct (_ || _) eqn:Hdir.
  { split_and!; cbn; [by intros b ?%elem_of_nil|by intros b ?%elem_of_nil|]. intros _ _. eexists. split; [reflexivity|]. done. }
  apply orb_false_iff in Hdir as [Hup Hdown]. destruct (negb (online _ _)); [by apply refused_fair|].
  destruct (decide (q_get q "op" = "upload"%string)) as [Eu|Eu].
  - rewrite bool_decide_eq_true_2 in * by done. cbn [andb negb] in *. apply negb_false_iff in Hup. subst up.
    destruct (truthy (safeSeg (q_get q "name"))) eqn:En; cbn [negb]; [|by apply refused_fair].
    apply relay_answer_fair; [|by left]. exists s. rewrite Hm. cbn. split_and!; try done. by apply safeSeg_safe.
  - rewrite bool_decide_eq_false_2 in * by done. cbn [andb negb] in *. apply negb_false_iff in Hdown. subst down.
    destruct (decide (q_get q "op" = "download"%string)) as [Ed|Ed].
    + rewrite (bool_decide_eq_true_2 (q_get q "op" = "download"%string)) by done.
      destruct (truthy (safeSeg (q_get q "name"))) eqn:En; cbn [negb]; [|by apply refused_fair].
      apply relay_answer_fair; [|by right]. exists s. rewrite Hm. cbn. split_and!; try done. by apply safeSeg_safe.
    + rewrite (bool_decide_eq_false_2 (q_get q "op" = "download"%string)) by done.
      apply relay_answer_fair; [|done]. exists s. rewrite Hm. cbn. done.
Qed.
Lemma kasm_fair qs cl body : truthy secret = true →
  relay_fair (q_get (parse_query qs) "userId") (q_get (parse_query qs) "siteId") (kasm_files online broker secret hub (Some secret) qs cl body).
Proof.
  intros Hs. unfold kasm_files, dpAuthorized. rewrite Hs. cbn [andb default]. rewrite bool_decide_eq_true_2 by done. apply serve_fair.
Qed.

Notation plane := (kasm_files online broker secret hub).

(** C17: files move only where they may.  With the secret shared by manager and
    data plane, each of the three file routes reaches a browser only for a
    signed-in user whose access to the resource holds at that moment, through that
    user's own running session of that resource, in a direction the session's
    mode allows, and with a name that is one path segment without separators or
    control characters; every transfer that is carried out is recorded for that
    user and resource, and so is every one the mode refuses. *)
Theorem files_guarded env me siteId name contentLength body now w :
  truthy secret = true →
  (∀ r a, uploadPost plane timing secret env me siteId name contentLength body now w = (Some r, a) →
     ∃ u, me = Some u ∧ allow (evaluateAccess (users w) (grants w) (u_id u) siteId now) = true ∧ relay_fair (u_id u) siteId r) ∧
  (∀ r a, downloadGet plane timing secret me siteId name now w = (Some r, a) →
     ∃ u, me = Some u ∧ allow (evaluateAccess (users w) (grants w) (u_id u) siteId now) = true ∧ relay_fair (u_id u) siteId r) ∧
  (∀ r a, downloadsGet plane timing secret json_parse me siteId now w = (Some r, a) →
     ∃ u, me = Some u ∧ allow (evaluateAccess (users w) (grants w) (u_id u) siteId now) = true ∧ relay_fair (u_id u) siteId r).
Proof.
  intros Hs. split_and!; intros r a.
  - unfold uploadPost, uploadGate. destruct (negb (truthy siteId) || _); [done|]. destruct me as [u|]; [|done].
    destruct (allow _) eqn:Ha; cbn [negb]; [|done]. destruct (_ || _); [done|]. destruct (exceeds _ _); [done|].
    intros [= <- _]. exists u. split_and!; [done|done|].
    pose proof (kasm_fair (named_query "upload" (u_id u) siteId name) (dec (js_length body)) body Hs) as Hf.
    rewrite named_query_read in Hf by (by left). exact Hf.
  - unfold downloadGet, downloadGate. destruct me as [u|]; [|done]. destruct (negb (truthy siteId) || _); [done|].
    destruct (allow _) eqn:Ha; cbn [negb]; [|done]. intros [= <- _]. exists u. split_and!; [done|done|].
    pose proof (kasm_fair (named_query "download" (u_id u) siteId name) "" "" Hs) as Hf.
    rewrite named_query_read in Hf by (by right; left). exact Hf.
  - unfold downloadsGet, downloadsGate. destruct me as [u|]; [|done]. destruct (negb (truthy siteId)); [done|].
    destruct (allow _) eqn:Ha; cbn [negb]; [|done]. unfold listIsolatedDownloads. intros [= <- _]. exists u. split_and!; [done|done|].
    pose proof (kasm_fair (files_query "list" (u_id u) siteId) "" "" Hs) as Hf.
    rewrite files_query_read in Hf by (by right; right). exact Hf.
Qed.
End files_theorems.

(** ** Concrete runs *)

Definition file_grant : AccessGrant :=
  {| g_id := "g1"; g_userId := "u1"; g_siteId := "s1"; g_startsAt := None; g_endsAt := None; g_status := GActive; g_note := None;
     g_denyReason := None; g_requiresApproval := false; g_approvedAt := None; g_approvedById := None; g_schedule := JNull;
     g_createdById := None; g_directoryManaged := false |}.
Definition browser_session (mode : string) : KasmSession :=
  {| ks_kind := "isolated"; ks_userId := "u1"; ks_siteId := "s1"; ks_connectorId := "c1"; ks_controlAddr := "captivo-kasm:9000";
     ks_brokerSID := "b7"; ks_ftMode := mode; ks_host := "wiki.internal" |}.
Definition storing_broker (b : BrokerRequest) : option (Z * string) := Some (200, "stored"%string).
Notation demo_plane mode := (kasm_files (λ _ _, true) storing_broker "k3y" [browser_session mode]).
Notation demo_upload mode name :=
  (uploadPost (demo_plane mode) (λ _, Some (10, 20)) "k3y" None (Some (demo_user "u1" VENDOR)) "s1" name (Some "5"%string) "hello" 1000
     (demo_world [file_grant])).

Lemma files_guarded_witness :
  ∃ r a, demo_upload "no_download" "../a&op=list.txt" = (Some r, a) ∧ relay_fair storing_broker [browser_session "no_download"] "u1" "s1" r ∧
    re_sent r = [{| bq_connectorId := "c1"; bq_addr := "captivo-kasm:9000"; bq_sid := "b7"; bq_op := BUpload "a&op=list.txt" "5" "hello" |}] ∧
    a = Reply 200 true.
Proof.
  destruct (demo_upload "no_download" "../a&op=list.txt") as [o a] eqn:E.
  assert (o = (demo_upload "no_download" "../a&op=list.txt").1 ∧ a = (demo_upload "no_download" "../a&op=list.txt").2) as [Ho Ha] by (by rewrite E).
  vm_compute in Ho. subst o. eexists _, a. split; [reflexivity|].
  destruct (files_guarded (λ _ _, true) storing_broker (λ _, Some (10, 20)) "k3y" (λ _, None) [browser_session "no_download"] None
    (Some (demo_user "u1" VENDOR)) "s1" "../a&op=list.txt" (Some "5"%string) "hello" 1000 (demo_world [file_grant]) eq_refl) as [Hu _].
  destruct (Hu _ _ E) as (u & Hme & _ & Hf). injection Hme as <-. split; [exact Hf|]. split; [reflexivity|]. rewrite Ha. vm_compute. reflexivity.
Defined.

Example mode_refuses :
  match demo_upload "no_upload" "a.txt" with
  | (Some r, a) => re_sent r = [] ∧ map fa_reason (re_audit r) = ["file-transfer-denied:upload"%string] ∧ a = Reply 403 false
  | _ => False
  end.
Proof. vm_compute. done. Qed.

(** A search whose answer is cut off after its head counts as a search that found
    nothing: the body that cannot be read is taken as empty, and the status says
    success. *)
Theorem cut_search_is_empty rq (b : SearchBody) :
  let plane (_ : SearchRequest) := Some {| ex_head := 100; ex_done := 30000; ex_status := 200; ex_header := None; ex_body := Some b |} in
  searchOnConnector plane rq = inr ([], false).
Proof. reflexivity. Qed.

(** The same exchange as a download arrives whole; as an upload it would be cut. *)
Example waits_differ (b : string) :
  let x := Some {| ex_head := 100; ex_done := 900000; ex_status := 200; ex_header := None; ex_body := Some b |} in
  an_cut <$> fetchStreamWithHeaderTimeout FILE_HEAD_TIMEOUT_MS x = Some false ∧ an_cut <$> fetchWithTimeout FILE_TRANSFER_TIMEOUT_MS x = Some true.
Proof. done. Qed.
