(* ===== verification/Console.v ===== *)
(** * The snapshot of the security console (src/lib/console/data.ts)

    The home page's numbers and cards, drawn from the workspace's grants and
    recordings, the data plane's registry and the activity feed.  Columns that
    [Schema] leaves out are arguments: when a grant was created, and whether a
    site records. *)

From S2P Require Import Prelude JsString JsValue Schema Schedule AccessLog AdminLog Identity Access Settings Gateway Tenant Recordings Live WallClock Dashboard GrantForm.

Record ConsoleKpis := { kp_grants : Z; kp_live : Z; kp_pending : Z; kp_expiring24h : Z; kp_recordings7d : Z }.
Inductive LiveCard :=
  | GatewayCard (sessionId protocol host userLabel startedAt : string) (recorded : bool) (viewerCount : Z) (grantId : option string)
  | IsolatedCard (sessionId host userLabel startedAt : string) (recorded : bool) (viewerCount : Z) (grantId : option string)
  | WebCard (userLabel siteName host startedAt lastSeen : string) (grantId : option string).
Record PendingCard := { pc_id : string; pc_userLabel : string; pc_siteName : string; pc_detail : string }.
(** The end as an instant; the page gets its [toISOString]. *)
Record ExpiringRow := { er_id : string; er_userLabel : string; er_siteName : string; er_endsAt : Z }.
Record ConnectorRow := { cr_id : string; cr_name : string; cr_online : bool }.
Record ConsoleData := {
  cd_kpis : ConsoleKpis; cd_live : list LiveCard; cd_pending : list PendingCard; cd_expiring : list ExpiringRow;
  cd_connectors : list ConnectorRow; cd_audit : list ActivityItem;
}.

(** What the snapshot is drawn from. *)
Record ConsoleDb := {
  co_world : World;
  co_createdAt : AccessGrant → Z;
  co_records : string → bool;
  co_recordings : list SessionRecording;
  (** Identifier, name and status, in the order of their names. *)
  co_connectors : list (string * string * string);
  co_feed : FeedDb;
}.

Definition in24h (now : Z) : Z := now + 24 * 3600 * 1000.
Definition weekAgo (now : Z) : Z := now - 7 * 24 * 3600 * 1000.
Definition expires_soon (now : Z) (g : AccessGrant) : bool :=
  bool_decide (g_status g = GActive) && match g_endsAt g with Some e => (now <? e) && (e <=? in24h now) | None => false end.
(** [u.name || u.email] of the person a row belongs to. *)
Definition name_or_email (u : User) : string := if truthy (u_name u) then u_name u else u_email u.
Definition owner_label (w : World) (g : AccessGrant) : string :=
  match find_row (λ u, u_id u =s g_userId g) (users w) with Some u => name_or_email u | None => "" end.
Definition owner_site (w : World) (g : AccessGrant) : string :=
  match find_row (λ s, site_id s =s g_siteId g) (sites w) with Some s => site_name s | None => "" end.

(** The maps of the cards. *)
Definition card_label (us : list User) (id : string) : string :=
  match map_get (λ u, u_id u =s id) us with Some u => name_or_email u | None => "unknown" end.
Definition card_recorded (recEnabled : bool) (recMode : string) (records : string → bool) (ss : list Site) (siteId : string) : bool :=
  recEnabled && match map_get (λ s, site_id s =s siteId) ss with
                | Some s => effectiveRecordSessions recMode (records (site_id s))
                | None => false
                end.

Definition getConsoleData (now : Z) (recEnabled : bool) (recMode : string) (sessions : list ActiveSession) (web : list WebSession)
    (db : ConsoleDb) : ConsoleData :=
  let w := co_world db in
  let userIds := map as_userId sessions ++ map ws_userId web in
  let siteIds := map as_siteId sessions ++ map ws_siteId web in
  let us := List.filter (λ u, bool_decide (u_id u ∈ userIds)) (users w) in
  let ss := List.filter (λ s, bool_decide (site_id s ∈ siteIds)) (sites w) in
  let gs := List.filter (λ g, bool_decide (g_status g = GActive) && bool_decide (g_userId g ∈ userIds) &&
                              bool_decide (g_siteId g ∈ siteIds)) (grants w) in
  let recorded := card_recorded recEnabled recMode (co_records db) ss in
  let gateway := map (λ s, GatewayCard (as_sessionId s) (as_protocol s) (as_host s) (card_label us (as_userId s)) (as_startedAt s)
                             (recorded (as_siteId s)) (as_viewerCount s) (grant_behind gs (as_userId s) (as_siteId s)))
                   (List.filter (λ s, negb (as_kind s =s "isolated")) sessions) in
  let isolated := map (λ s, IsolatedCard (as_sessionId s) (as_host s) (card_label us (as_userId s)) (as_startedAt s)
                              (recorded (as_siteId s)) (as_viewerCount s) (grant_behind gs (as_userId s) (as_siteId s)))
                    (List.filter (λ s, as_kind s =s "isolated") sessions) in
  let webCards := map (λ s, WebCard (card_label us (ws_userId s)) (site_label ss (ws_siteId s) (ws_host s)) (ws_host s) (ws_startedAt s)
                              (ws_lastSeen s) (grant_behind gs (ws_userId s) (ws_siteId s))) web in
  {| cd_kpis := {| kp_grants := count_where (λ g, bool_decide (g_status g = GActive)) (grants w);
                   kp_live := Z.of_nat (length sessions) + Z.of_nat (length web);
                   kp_pending := countPendingGrants (grants w);
                   kp_expiring24h := count_where (expires_soon now) (grants w);
                   kp_recordings7d := count_where (λ r, weekAgo now <=? sr_startedAt r) (co_recordings db) |};
     cd_live := gateway ++ isolated ++ webCards;
     cd_pending := map (λ g, {| pc_id := g_id g; pc_userLabel := owner_label w g; pc_siteName := owner_site w g; pc_detail := g_note g ?? "" |})
                     (order_by (co_createdAt db) (List.filter is_pending (grants w)));
     cd_expiring := map (λ g, {| er_id := g_id g; er_userLabel := owner_label w g; er_siteName := owner_site w g; er_endsAt := g_endsAt g ?? 0 |})
                      (take 6 (order_by (λ g, g_endsAt g ?? 0) (List.filter (expires_soon now) (grants w))));
     cd_connectors := map (λ c, {| cr_id := c.1.1; cr_name := c.1.2; cr_online := c.2 =s "ONLINE" |})
                        (List.filter (λ c, negb (c.2 =s "REVOKED")) (co_connectors db));
     cd_audit := getActivityFeed 8 (co_feed db) |}.

(** ** Extending a grant from its row (src/lib/console/extend.ts and
    _console/extend-button.tsx) *)

Definition EXTEND_OPTIONS : list (string * Z) := [("+1h", 1); ("+1d", 24); ("+7d", 168)]%string.

Section extending.
Context (date_parse : string → jsdate).
Context (frac_text : Z → string) (sha256 : string → string) (json_store : json → json).

(** [None]: the time value is not one, and [toISOString] throws. *)
Definition nextEndsAt (currentEndISO : option string) (hours now : Z) : option string :=
  base ← match some_truthy currentEndISO with
         | Some s => match date_parse s with ValidDate t => Some (Z.max now t) | InvalidDate => None end
         | None => Some now
         end;
  let e := base + hours * 3600 * 1000 in
  if bool_decide (-8640000000000000 ≤ e ≤ 8640000000000000) then Some (toISOString e) else None.

(** What the button shows after it was pressed; [now] is the browser's clock. *)
Definition extend (maxGrantDays : Z) (between : list AccessGrant → list AccessGrant) (rq : Req) (now : Z)
    (grantId : string) (endsAt : option string) (hours : Z) (w : World) : World * option string :=
  match nextEndsAt endsAt hours now with
  | None => (w, Some "Couldn't extend"%string)
  | Some iso =>
      match adminGrantPatch date_parse frac_text sha256 json_store maxGrantDays between rq grantId
              (json_wire (JObj [("endsAt"%string, JStr iso)])) w with
      | (w', Reply _ _) => (w', None)
      | (w', Fail _ _) => (w', Some "Exceeds the maximum grant length"%string)
      end
  end.
End extending.

(** ** Theorems *)

Lemma map_get_filtered {A} (key keep : A → bool) rows :
  (∀ x, key x = true → keep x = true) → map_get key (List.filter keep rows) = map_get key rows.
Proof.
  intros H. unfold map_get. f_equal. induction rows as [|x rows IH]; [done|]. cbn. destruct (keep x) eqn:Ek; cbn.
  - destruct (key x); by rewrite IH.
  - destruct (key x) eqn:Ex; [|done]. apply H in Ex. congruence.
Qed.
Lemma map_get_found {A} (key : A → bool) rows x : x ∈ rows → key x = true → ∃ y, map_get key rows = Some y ∧ key y = true.
Proof.
  intros Hin Hx. unfold map_get. destruct (last (List.filter key rows)) as [y|] eqn:E.
  - exists y. split; [done|]. apply last_Some_elem_of in E. apply list_elem_of_In, filter_In in E. by destruct E.
  - apply last_None in E. assert (x ∈ List.filter key rows) as Hf by (apply list_elem_of_In, filter_In; rewrite <- list_elem_of_In; done).
    rewrite E in Hf. by apply elem_of_nil in Hf.
Qed.

(** The flag of a card is whether its site is recorded. *)
Lemma recorded_flag recEnabled recMode records ss (ids : list string) siteId :
  siteId ∈ ids → own_site ss siteId →
  card_recorded recEnabled recMode records (List.filter (λ s, bool_decide (site_id s ∈ ids)) ss) siteId
  = effectiveSiteRecording recEnabled recMode (records siteId).
Proof.
  intros Hid Hown. unfold card_recorded, effectiveSiteRecording. rewrite map_get_filtered.
  - unfold own_site in Hown. apply list_elem_of_fmap in Hown as (s & -> & Hs).
    destruct (map_get_found (λ x, site_id x =s site_id s) ss s Hs) as (y & -> & Hy); [by rewrite bool_decide_eq_true_2|].
    reflect_bool. by rewrite Hy.
  - intros x Hx. reflect_bool. by rewrite Hx, bool_decide_eq_true_2.
Qed.

Definition card_recorded_flag (c : LiveCard) : option bool :=
  match c with GatewayCard _ _ _ _ _ r _ _ | IsolatedCard _ _ _ _ r _ _ => Some r | WebCard _ _ _ _ _ _ => None end.
Definition card_session (c : LiveCard) : option string :=
  match c with GatewayCard i _ _ _ _ _ _ _ | IsolatedCard i _ _ _ _ _ _ => Some i | WebCard _ _ _ _ _ _ => None end.

Lemma filter_partition {A} (p : A → bool) (l : list A) :
  (length (List.filter (λ x, negb (p x)) l) + length (List.filter p l) = length l)%nat.
Proof. induction l as [|x l IH]; [done|]. cbn. destruct (p x); cbn; lia. Qed.

Lemma ordered_prefix {A} (key : A → Z) (l : list A) n x y :
  x ∈ take n (order_by key l) → y ∈ drop n (order_by key l) → key x ≤ key y.
Proof.
  intros Hx Hy. pose proof (StronglySorted_merge_sort (key_le key) l) as Hs.
  assert (StronglySorted (key_le key) (take n (order_by key l) ++ drop n (order_by key l))) as Hs' by (by rewrite take_drop).
  apply StronglySorted_app in Hs' as (H & _ & _). by apply (H x y).
Qed.

Lemma soon_listed now gs g :
  g ∈ order_by (λ g, g_endsAt g ?? 0) (List.filter (expires_soon now) gs) ↔ g ∈ gs ∧ expires_soon now g = true.
Proof. unfold order_by. by rewrite merge_sort_Permutation, list_elem_of_In, filter_In, <- list_elem_of_In. Qed.

Section snapshot.
Context (now : Z) (recEnabled : bool) (recMode : string) (sessions : list ActiveSession) (web : list WebSession) (db : ConsoleDb).
Let d := getConsoleData now recEnabled recMode sessions web db.

Lemma expiring_sound e : e ∈ cd_expiring d →
  ∃ g, g ∈ grants (co_world db) ∧ g_id g = er_id e ∧ g_status g = GActive ∧ g_endsAt g = Some (er_endsAt e) ∧ now < er_endsAt e ≤ in24h now.
Proof.
  intros (g & -> & Hg)%list_elem_of_fmap. apply subseteq_take, soon_listed in Hg as [Hin He].
  exists g. unfold expires_soon in He. apply andb_true_iff in He as [Ha He]. destruct (g_endsAt g) as [x|] eqn:Ex; [|done].
  cbn [er_id er_endsAt]. reflect_bool. cbn. split_and!; done || lia.
Qed.

Lemma expiring_soonest g x : g ∈ grants (co_world db) → expires_soon now g = true → g_endsAt g = Some x →
  (∃ e, e ∈ cd_expiring d ∧ er_id e = g_id g) ∨ ∀ e, e ∈ cd_expiring d → er_endsAt e ≤ x.
Proof.
  intros Hg Hs Hx. assert (g ∈ order_by (λ g, g_endsAt g ?? 0) (List.filter (expires_soon now) (grants (co_world db)))) as Hin by by apply soon_listed.
  rewrite <- (take_drop 6) in Hin. apply elem_of_app in Hin as [Hin|Hin].
  - left. eexists. split; [apply list_elem_of_fmap; exists g; split; [reflexivity|exact Hin]|done].
  - right. intros e (g' & -> & Hg')%list_elem_of_fmap. cbn [er_endsAt].
    pose proof (ordered_prefix (λ g, g_endsAt g ?? 0) _ 6 g' g Hg' Hin) as Hle. cbn beta in Hle. by rewrite Hx in Hle.
Qed.

Lemma card_of_session c : c ∈ cd_live d → is_Some (card_recorded_flag c) →
  ∃ s, s ∈ sessions ∧ card_session c = Some (as_sessionId s) ∧
    (own_site (sites (co_world db)) (as_siteId s) →
     card_recorded_flag c = Some (effectiveSiteRecording recEnabled recMode (co_records db (as_siteId s)))).
Proof.
  intros Hc Hf. unfold d in Hc. cbn [cd_live getConsoleData] in Hc. rewrite !elem_of_app in Hc.
  destruct Hc as [Hc|[Hc|Hc]]; apply list_elem_of_fmap in Hc as (s & -> & Hs); [..|by destruct Hf].
  all: apply list_elem_of_In, filter_In in Hs as [Hs _]; apply list_elem_of_In in Hs; exists s; split_and!; [done|done|].
  all: intros Ho; cbn [card_recorded_flag]; f_equal; apply recorded_flag; [|done].
  all: apply elem_of_app; left; apply list_elem_of_fmap; by exists s.
Qed.
End snapshot.

(** The console's numbers are its lists.  The live count is the number of cards
    and the pending count the number of requests shown; the expiring list holds the
    six soonest of exactly the grants that are counted: active, ending within the
    next day, none left out that ends before one that is shown; and every card of
    a session stands for a session of the registry at a site of the workspace and
    carries the recording mark exactly when the policy has that site recorded. *)
Theorem console_honest now recEnabled recMode reach h web db :
  let w := co_world db in
  let d := getConsoleData now recEnabled recMode (listActiveSessions reach (sites w) h) (listActiveWebSessions reach (sites w) web) db in
  kp_live (cd_kpis d) = Z.of_nat (length (cd_live d)) ∧
  kp_pending (cd_kpis d) = Z.of_nat (length (cd_pending d)) ∧
  Z.of_nat (length (cd_expiring d)) = Z.min 6 (kp_expiring24h (cd_kpis d)) ∧
  (∀ e, e ∈ cd_expiring d → ∃ g, g ∈ grants w ∧ g_id g = er_id e ∧ g_status g = GActive ∧ g_endsAt g = Some (er_endsAt e) ∧
     now < er_endsAt e ≤ in24h now) ∧
  (∀ g x, g ∈ grants w → expires_soon now g = true → g_endsAt g = Some x →
     (∃ e, e ∈ cd_expiring d ∧ er_id e = g_id g) ∨ ∀ e, e ∈ cd_expiring d → er_endsAt e ≤ x) ∧
  (∀ c r, c ∈ cd_live d → card_recorded_flag c = Some r →
     ∃ s, s ∈ h ∧ own_site (sites w) (ls_siteId s) ∧ card_session c = Some (ls_id s) ∧
       r = effectiveSiteRecording recEnabled recMode (co_records db (ls_siteId s))).
Proof.
  cbv zeta. set (w := co_world db). split_and!.
  - cbn [cd_kpis kp_live cd_live getConsoleData]. rewrite !length_app, !length_map.
    pose proof (filter_partition (λ s, as_kind s =s "isolated") (listActiveSessions reach (sites w) h)). cbv beta in *. fold w. lia.
  - cbn [cd_kpis kp_pending cd_pending getConsoleData]. unfold countPendingGrants, count_where, order_by. by rewrite length_map, merge_sort_Permutation.
  - cbn [cd_kpis kp_expiring24h cd_expiring getConsoleData]. rewrite length_map, length_take. unfold count_where, order_by.
    rewrite merge_sort_Permutation. lia.
  - apply expiring_sound.
  - apply expiring_soonest.
  - intros c r Hc Hr. apply (card_of_session now recEnabled recMode) in Hc as (a & Ha & Hid & Hrec); [|by exists r].
    apply elem_of_active in Ha as (_ & Hown & _ & s & Hs & ->). exists s. split_and!; [done..|]. rewrite Hrec in Hr by done. by injection Hr.
Qed.

(** ** Extending *)

Section extension.
Context (date_parse : string → jsdate).
Context (frac_text : Z → string) (sha256 : string → string) (json_store : json → json).

Lemma extend_read maxGrantDays now startsAt (e : Z) :
  reads_iso date_parse → valid_time e → grantEndsAtError (ValidDate e) startsAt now = None →
  read_edit date_parse maxGrantDays now startsAt (json_wire (JObj [("endsAt"%string, JStr (toISOString e))]))
  = match grantCapError startsAt (Some e) now maxGrantDays with
    | Some c => inl c
    | None => inr {| ed_endsAt := Some e; ed_note := None |}
    end.
Proof.
  intros Hi Hv He. unfold read_edit.
  change (json_wire (JObj [("endsAt"%string, JStr (toISOString e))])) with (JObj [("endsAt"%string, JStr (toISOString e))]).
  change (obj_get (JObj [("endsAt"%string, JStr (toISOString e))]) "endsAt") with (JStr (toISOString e)).
  change (has_key (JObj [("endsAt"%string, JStr (toISOString e))]) "note") with false.
  cbn [str_or_empty]. cbv zeta. rewrite iso_trim by done. rewrite iso_truthy, Hi by done. rewrite He.
  by destruct (grantCapError _ _ _ _).
Qed.

Lemma next_end e hours now :
  reads_iso date_parse → valid_time e → valid_time (Z.max now e + hours * 3600 * 1000) →
  nextEndsAt date_parse (Some (toISOString e)) hours now = Some (toISOString (Z.max now e + hours * 3600 * 1000)).
Proof.
  intros Hi Hv Hv'. unfold nextEndsAt, some_truthy. rewrite iso_truthy, Hi by done. cbn. by rewrite bool_decide_eq_true_2.
Qed.

(** The hour buttons do what they say.  On the row of an active grant that has
    not ended, a press moves the end by exactly the hours on the button, counted
    from the end shown or from the browser's clock, whichever is later, and changes
    no other grant; or the new end is beyond the longest grant the workspace
    allows, nothing changes and the button says so. *)
Theorem extend_exact maxGrantDays rq me now g e label hours w :
  reads_iso date_parse → (label, hours) ∈ EXTEND_OPTIONS →
  rq_user rq = Some me → can (u_role me) configure = true → NoDup (g_id <$> grants w) → g ∈ grants w → g_status g = GActive →
  g_endsAt g = Some e → rq_now rq < e → (∀ s, g_startsAt g = Some s → s ≤ e) →
  let e' := Z.max now e + hours * 3600 * 1000 in
  valid_time e → valid_time e' →
  ∃ w' shown, extend date_parse frac_text sha256 json_store maxGrantDays (λ gs, gs) rq now (g_id g) (Some (toISOString e)) hours w = (w', shown) ∧
    if decide (grantCapError (g_startsAt g) (Some e') (rq_now rq) maxGrantDays = None)
    then shown = None ∧ grants w' = update_where (λ x, g_id x =s g_id g) (with_end e') (grants w)
    else shown = Some "Exceeds the maximum grant length"%string ∧ w' = w.
Proof.
  intros Hi Hopt Hme Hcan Hnd Hin Hact Hend Hnow Hstart e' Hv Hv'.
  assert (e < e') as Hlater.
  { unfold EXTEND_OPTIONS in Hopt. rewrite !elem_of_cons, elem_of_nil in Hopt. unfold e'. destruct Hopt as [[= -> ->]|[[= -> ->]|[[= -> ->]|[]]]]; lia. }
  assert (grantEndsAtError (ValidDate e') (g_startsAt g) (rq_now rq) = None) as Herr.
  { unfold grantEndsAtError. destruct (Z.leb_spec e' (rq_now rq)); [lia|]. destruct (g_startsAt g) as [s|]; [|done].
    specialize (Hstart s eq_refl). destruct (Z.leb_spec e' s); [lia|done]. }
  unfold extend. rewrite next_end by done. fold e'. unfold adminGrantPatch. rewrite Hme, Hcan. cbn [negb]. cbv zeta.
  rewrite (find_by_id g), (bool_decide_eq_true_2 (g_status g = GActive)), extend_read by done. cbn [negb].
  change (obj_get (json_wire (JObj [("endsAt"%string, JStr (toISOString e'))])) "endsAt") with (JStr (toISOString e')).
  cbn [str_or_empty]. rewrite iso_trim, iso_truthy by done. cbn [negb andb].
  destruct (grantCapError _ _ _ _) as [c|]; [eexists _, _; split; [reflexivity|]; by case_decide|].
  set (p := λ x, (g_id x =s g_id g) && bool_decide (g_status x = GActive)).
  assert (p g = true) as Hp by (unfold p; by rewrite !bool_decide_eq_true_2).
  destruct (Z.eqb_spec (count_where p (grants w)) 0) as [H0|_].
  { rewrite count_where_0 in H0. by rewrite H0 in Hp. }
  eexists _, _. split; [reflexivity|]. case_decide; [|done]. split; [done|].
  cbn [audit with_grants grants]. apply update_one; [done|done| |done|done]. intros x Hx. unfold p in Hx. by reflect_bool.
Qed.
End extension.

Lemma extend_exact_witness :
  ∃ w' shown, extend iso_date frac_digits id json_wire 30 (λ gs, gs) demo_admin_req (Date_UTC 2026 8 30 12 0 0) "g1"
      (Some (toISOString on_the_minute)) 24 (demo_world [grant_until on_the_minute]) = (w', shown) ∧
    shown = None ∧ grants w' = [with_end (on_the_minute + 86400000) (grant_until on_the_minute)].
Proof.
  apply (extend_exact iso_date frac_digits id json_wire 30 demo_admin_req (demo_user "admin" ADMIN) (Date_UTC 2026 8 30 12 0 0)
    (grant_until on_the_minute) on_the_minute "+1d" 24 (demo_world [grant_until on_the_minute]) iso_date_reads).
  - right. left.
  - reflexivity.
  - reflexivity.
  - apply NoDup_singleton.
  - by apply list_elem_of_singleton.
  - reflexivity.
  - reflexivity.
  - vm_compute. reflexivity.
  - done.
  - vm_compute. split; discriminate.
  - vm_compute. split; discriminate.
Defined.

(** Every refusal reads as the same one: a grant that was revoked while its row was
    on the screen is reported as too long. *)
Theorem extend_misreports :
  extend (iso_table [on_the_minute; on_the_minute + 3600000]) frac_digits id json_wire 0 (map (set_status GRevoked)) demo_admin_req
    (Date_UTC 2026 8 30 12 0 0) "g1" (Some (toISOString on_the_minute)) 1 (demo_world [grant_until on_the_minute])
  = (demo_world [set_status GRevoked (grant_until on_the_minute)], Some "Exceeds the maximum grant length"%string).
Proof. vm_compute. reflexivity. Qed.
