(* ===== verification/Tunnel.v ===== *)
(** * Calls that go through a connector

    The manager reaches the inside network only by asking the data plane
    (src/lib/connector/dataplane.ts), which keeps the connectors' tunnels in a
    registry (dataplane/registry.go, wss.go) and serves the internal endpoints
    /probe, /proxy, /kick, /ldap-test and /ldap-resolve (dataplane/main.go,
    proxy.go, ldap.go).  Both ends are modelled and composed with the health pass
    of [Sites], the directory routes of [Config] and the reconciliation at sign-in
    of [Directory].  What a connector answers inside its tunnel is an argument. *)

From S2P Require Import Prelude JsString JsValue Schema AccessLog AdminLog Identity Schedule Access Tenant Directory Connector Sites Config Centre Recordings Live Crypto Transfer.

(** ** The registry of tunnels *)

(** A tunnel is known by the order in which it was opened; [rg_owner] is the
    connector it was opened for. *)
Record Registry := { rg_map : gmap string nat; rg_closed : gset nat; rg_owner : list string }.
Definition NewRegistry : Registry := {| rg_map := ∅; rg_closed := ∅; rg_owner := [] |}.
Definition close_mux (s : option nat) (closed : gset nat) : gset nat := match s with Some n => {[ n ]} ∪ closed | None => closed end.
Definition reg_Set (id : string) (r : Registry) : Registry :=
  {| rg_map := <[id := length (rg_owner r)]> (rg_map r); rg_closed := close_mux (rg_map r !! id) (rg_closed r);
     rg_owner := rg_owner r ++ [id] |}.
Definition reg_Get (id : string) (r : Registry) : option nat := rg_map r !! id.
Definition reg_Remove (id : string) (r : Registry) : Registry :=
  {| rg_map := delete id (rg_map r); rg_closed := rg_closed r; rg_owner := rg_owner r |}.
Definition reg_RemoveIfSame (id : string) (s : nat) (r : Registry) : Registry * bool :=
  if bool_decide (rg_map r !! id = Some s) then (reg_Remove id r, true) else (r, false).
Definition mux_Close (s : option nat) (r : Registry) : Registry :=
  {| rg_map := rg_map r; rg_closed := close_mux s (rg_closed r); rg_owner := rg_owner r |}.

(** The end of [HandleTunnel]: the tunnel died, for whatever reason. *)
Definition tunnel_ended (s : nat) (r : Registry) : Registry :=
  match rg_owner r !! s with
  | Some id => mux_Close (Some s) (reg_RemoveIfSame id s (mux_Close (Some s) r)).1
  | None => r
  end.

(** ** What the data plane answers *)

(** The far end of a tunnel: each request fails in transport or is answered. *)
Record LdapConfig := {
  lc_host : string; lc_port : Z; lc_security : string; lc_insecureSkipVerify : bool; lc_caCertPem : string; lc_baseDN : string;
  lc_bindDN : string; lc_bindPassword : string;
}.
Record ProbeResponse := { pr_ok : bool; pr_latencyMs : Z; pr_error : string }.
Record DialRequest := { dr_upstreamUrl : string; dr_method : string; dr_path : string; dr_insecureSkipVerify : bool }.
Record DialResponse := { dl_status : Z; dl_error : string; dl_body : bytes }.
Record LdapEntry := { le_memberOf : list string; le_displayName : string }.
Record Peer := {
  pe_probe : string → string + ProbeResponse;
  pe_dial : DialRequest → string + DialResponse;
  (** Reaching the directory and binding, then a search. *)
  pe_bind : LdapConfig → option string;
  pe_base : LdapConfig → string + bool;
  pe_find : LdapConfig → string → string + list LdapEntry;
}.

Section plane.
Context (peers : nat → Peer).

(** [mux.Open]: [inl] is the error. *)
Definition open_stream (r : Registry) (id : string) : string + Peer :=
  match reg_Get id r with
  | None => inl "connector offline"%string
  | Some s => if bool_decide (s ∈ rg_closed r) then inl "session shutdown"%string else inr (peers s)
  end.
Definition Probe (r : Registry) (id upstreamUrl : string) : string + ProbeResponse :=
  match open_stream r id with inl e => inl e | inr p => pe_probe p upstreamUrl end.

Definition maxProxyBody : nat := Z.to_nat 65536.
Record ProxyResult := { px_status : Z; px_body : bytes; px_truncated : bool }.
Definition Proxy (r : Registry) (id : string) (dr : DialRequest) : string + ProxyResult :=
  match open_stream r id with
  | inl e => inl e
  | inr p =>
      match pe_dial p dr with
      | inl e => inl e
      | inr resp =>
          if truthy (dl_error resp) then inl (dl_error resp) else
          let body := take (S maxProxyBody) (dl_body resp) in
          let truncated := bool_decide (maxProxyBody < length body)%nat in
          inr {| px_status := dl_status resp; px_body := if truncated then take maxProxyBody body else body; px_truncated := truncated |}
      end
  end.

Definition default_port (c : LdapConfig) : LdapConfig :=
  {| lc_host := lc_host c; lc_port := (if lc_port c =? 0 then 389 else lc_port c); lc_security := lc_security c;
     lc_insecureSkipVerify := lc_insecureSkipVerify c; lc_caCertPem := lc_caCertPem c; lc_baseDN := lc_baseDN c; lc_bindDN := lc_bindDN c;
     lc_bindPassword := lc_bindPassword c |}.
Definition connectAndBind (r : Registry) (id : string) (cfg : LdapConfig) : string + Peer :=
  match open_stream r id with
  | inl e => inl e
  | inr p => match pe_bind p (default_port cfg) with Some e => inl e | None => inr p end
  end.
(** An empty error is left out of the JSON. *)
Definition omitempty (s : string) : option string := if truthy s then Some s else None.
Definition TestLdap (r : Registry) (id : string) (cfg : LdapConfig) : LdapTest :=
  match connectAndBind r id cfg with
  | inl e => {| lt_ok := false; lt_baseDnFound := false; lt_error := omitempty e |}
  | inr p => match pe_base p cfg with
             | inl e => {| lt_ok := true; lt_baseDnFound := false; lt_error := Some ("bound OK, but the base DN search failed: " +:+ e) |}
             | inr found => {| lt_ok := true; lt_baseDnFound := found; lt_error := None |}
             end
  end.
Definition entryToResolve (e : LdapEntry) : LdapUser :=
  {| lu_found := true; lu_memberOf := (match le_memberOf e with [] => None | l => Some l end); lu_displayName := omitempty (le_displayName e);
     lu_error := None |}.
Definition unresolved (error : option string) : LdapUser :=
  {| lu_found := false; lu_memberOf := None; lu_displayName := None; lu_error := error |}.
Definition ResolveUser (r : Registry) (id : string) (cfg : LdapConfig) (email : string) : LdapUser :=
  match connectAndBind r id cfg with
  | inl e => unresolved (omitempty e)
  | inr p => match pe_find p cfg email with
             | inl e => unresolved (Some ("search failed: " +:+ e))
             | inr [] => unresolved None
             | inr (e :: _) => entryToResolve e
             end
  end.

(** ** The endpoints *)

Definition dpAuthorized (got secret : string) : bool := truthy secret && (got =s secret).
(** Status and JSON body; the text of the refusal is no JSON. *)
Definition guarded {B} (got secret : string) (answer : Z * B) : Z * option B :=
  if dpAuthorized got secret then (answer.1, Some answer.2) else (403, None).

Record ProbeBody := { pb_ok : bool; pb_latencyMs : Z; pb_error : option string }.
Definition serve_probe (r : Registry) (id url : string) : Z * ProbeBody :=
  match Probe r id url with
  | inl e => (502, {| pb_ok := false; pb_latencyMs := 0; pb_error := Some e |})
  | inr x => (200, {| pb_ok := pr_ok x; pb_latencyMs := pr_latencyMs x; pb_error := Some (pr_error x) |})
  end.
Inductive ProxyBody := ProxyError (e : string) | ProxyOk (status : Z) (bodyPreview : string) (truncated : bool).
Definition serve_proxy (r : Registry) (id : string) (dr : DialRequest) : Z * ProxyBody :=
  match Proxy r id dr with
  | inl e => (502, ProxyError e)
  | inr x => (200, ProxyOk (px_status x) (to_base64 (px_body x)) (px_truncated x))
  end.
(** Closing and removing are taken as one step; [kick_orphans_tunnel] is what may
    happen between them. *)
Definition serve_kick (id : string) (r : Registry) : Registry * Z :=
  if negb (truthy id) then (r, 400) else (reg_Remove id (mux_Close (reg_Get id r) r), 200).
End plane.

(** ** The manager's calls *)

Definition CONNECTOR_PROBE_TIMEOUT_MS : Z := 15000.
Definition DIRECTORY_TEST_TIMEOUT_MS : Z := 20000.
Definition CONTROL_TIMEOUT_MS : Z := 5000.

(** [res.json()]: a body that is cut off or no JSON throws. *)
Definition read_json {B} (a : Answer B) : option B := if an_cut a then None else an_body a.

(** [None]: the call throws; [inl]: the error it returns. *)
Definition proxyThroughConnector (x : option (Exchange ProxyBody)) : option (string + ProxyBody) :=
  match fetchWithTimeout CONNECTOR_PROBE_TIMEOUT_MS x with
  | None => Some (inl "dataplane_unreachable"%string)
  | Some a =>
      if negb (status_ok (an_status a))
      then Some (inl (match read_json a with Some (ProxyError e) => e | _ => "proxy_failed"%string end))
      else inr <$> read_json a
  end.
Definition probeConnector (x : option (Exchange ProbeBody)) : option (string + Z) :=
  match fetchWithTimeout CONNECTOR_PROBE_TIMEOUT_MS x with
  | None => Some (inl "dataplane_unreachable"%string)
  | Some a =>
      if negb (status_ok (an_status a))
      then Some (inl ((read_json a ≫= pb_error) ?? "probe_failed"))
      else data ← read_json a;
           Some (if negb (pb_ok data) then inl (some_truthy (pb_error data) ?? "unreachable") else inr (pb_latencyMs data))
  end.
Definition testDirectory (x : option (Exchange LdapTest)) : option LdapTest :=
  match fetchWithTimeout DIRECTORY_TEST_TIMEOUT_MS x with
  | None => Some {| lt_ok := false; lt_baseDnFound := false; lt_error := Some "The data-plane is unreachable."%string |}
  | Some a =>
      if negb (status_ok (an_status a))
      then Some {| lt_ok := false; lt_baseDnFound := false; lt_error := Some "The directory test request failed."%string |}
      else read_json a
  end.
Definition directoryResolveTimeoutMs (env : option string) : Z :=
  let raw := trim (env ?? "") in
  let n := if truthy raw then Number raw else NNaN in
  if isFinite n && num_ge n 500 then num_floor n ?? 4000 else 4000.
Definition resolveDirectoryUser (env : option string) (x : option (Exchange LdapUser)) : option LdapUser :=
  match fetchWithTimeout (directoryResolveTimeoutMs env) x with
  | None => Some (unresolved (Some "The directory resolve timed out or the data-plane is unreachable."%string))
  | Some a =>
      if negb (status_ok (an_status a)) then Some (unresolved (Some "The directory resolve request failed."%string)) else read_json a
  end.
(** Nothing of the answer is used. *)
Definition kickConnector (arrives : bool) (got secret id : string) (r : Registry) : Registry :=
  if arrives && dpAuthorized got secret then (serve_kick id r).1 else r.

(** ** Both ends together *)

(** One exchange with the data plane: when head and body of its answer arrive, or
    [None] when nobody answers. *)
Definition over {B} (net : option (Z * Z)) (answer : Z * option B) : option (Exchange B) :=
  '(head, fin) ← net; Some {| ex_head := head; ex_done := fin; ex_status := answer.1; ex_header := None; ex_body := answer.2 |}.

Section calls.
Context (peers : nat → Peer) (got secret : string).
Definition probe_call (net : option (Z * Z)) (r : Registry) (id url : string) : option (string + Z) :=
  probeConnector (over net (guarded got secret (serve_probe peers r id url))).
Definition proxy_call (net : option (Z * Z)) (r : Registry) (id : string) (url : string) (insecureSkipVerify : bool) : option (string + ProxyBody) :=
  proxyThroughConnector (over net (guarded got secret (serve_proxy peers r id
    {| dr_upstreamUrl := url; dr_method := "GET"; dr_path := "/"; dr_insecureSkipVerify := insecureSkipVerify |}))).
(** The settings of the directory as they are sent. *)
Definition ldap_config (cfg : DirectoryConfigView) (password : string) : LdapConfig :=
  {| lc_host := v_host cfg; lc_port := v_port cfg; lc_security := v_security cfg; lc_insecureSkipVerify := v_insecureSkipVerify cfg;
     lc_caCertPem := v_caCertPem cfg; lc_baseDN := v_baseDN cfg; lc_bindDN := v_bindDN cfg; lc_bindPassword := password |}.
Definition test_call (net : option (Z * Z)) (r : Registry) (cfg : DirectoryConfigView) (password : string) : option LdapTest :=
  testDirectory (over net (guarded got secret (200, TestLdap peers r (v_connectorId cfg ?? "") (ldap_config cfg password)))).
Definition resolve_call (env : option string) (net : option (Z * Z)) (r : Registry) (cfg : DirectoryConfigView) (password email : string)
    : option LdapUser :=
  resolveDirectoryUser env (over net (guarded got secret (200, ResolveUser peers r (v_connectorId cfg ?? "") (ldap_config cfg password) email))).
(** As [syncUserAtLogin] takes it. *)
Definition ldap_answer_of (u : option LdapUser) : ldap_answer :=
  match u with Some u => LdapAnswer (lu_found u) (lu_memberOf u) (lu_error u) | None => LdapThrew end.
End calls.

(** ** Policy and telemetry (connector/policy.ts, connector/telemetry.ts) *)

Definition POLICY_PUSH_TIMEOUT_MS : Z := 10000.
Definition TELEMETRY_TIMEOUT_MS : Z := 10000.

Record PushAnswer := { pa_ok : bool; pa_reason : option string }.
(** /connector-policy: the frames written, each into its tunnel, and the answer.
    [ready]: the tunnels whose control stream is there. *)
Definition serve_policy (ready : nat → bool) (r : Registry) (id : string) (p : PolicyPush) : list (nat * PolicyPush) * PushAnswer :=
  match reg_Get id r with
  | None => ([], {| pa_ok := false; pa_reason := Some "offline"%string |})
  | Some s => if ready s && bool_decide (s ∉ rg_closed r) then ([(s, p)], {| pa_ok := true; pa_reason := None |})
              else ([], {| pa_ok := false; pa_reason := Some "not_ready"%string |})
  end.
(** [arrives]: the request reached the data plane, whether or not its answer came
    back.  The result of the second part is [None] when the call throws. *)
Definition pushConnectorPolicy (got secret : string) (arrives : bool) (net : option (Z * Z)) (ready : nat → bool) (r : Registry) (id : string)
    (p : PolicyPush) : list (nat * PolicyPush) * option PushAnswer :=
  let served := serve_policy ready r id p in
  (if arrives && dpAuthorized got secret then served.1 else [],
   match fetchWithTimeout POLICY_PUSH_TIMEOUT_MS (over (if arrives then net else None) (guarded got secret (200, served.2))) with
   | None => Some {| pa_ok := false; pa_reason := Some "unreachable"%string |}
   | Some a => if negb (status_ok (an_status a)) then Some {| pa_ok := false; pa_reason := Some "unreachable"%string |} else read_json a
   end).

(** What a tunnel last reported, and how long ago. *)
Record TelemetryAnswer (T : Type) := { ta_online : bool; ta_ageMs : option Z; ta_telemetry : option T }.
Arguments ta_online {T} _.
Arguments ta_ageMs {T} _.
Arguments ta_telemetry {T} _.
Definition serve_telemetry {T} (reported : nat → option (Z * T)) (r : Registry) (id : string) : TelemetryAnswer T :=
  match reg_Get id r with
  | None => {| ta_online := false; ta_ageMs := None; ta_telemetry := None |}
  | Some s => {| ta_online := true; ta_ageMs := fst <$> reported s; ta_telemetry := snd <$> reported s |}
  end.
Definition getConnectorTelemetry {T} (got secret : string) (net : option (Z * Z)) (reported : nat → option (Z * T)) (r : Registry) (id : string)
    : option (TelemetryAnswer T) :=
  match fetchWithTimeout TELEMETRY_TIMEOUT_MS (over net (guarded got secret (200, serve_telemetry reported r id))) with
  | None => Some {| ta_online := false; ta_ageMs := None; ta_telemetry := None |}
  | Some a => if negb (status_ok (an_status a)) then Some {| ta_online := false; ta_ageMs := None; ta_telemetry := None |} else read_json a
  end.

(** ** The health pass over all workspaces (cron/site-health/route.ts) *)

(** What a pass probes: the sites with an address, then the remote desktops. *)
Definition probe_targets (db : SitesDb) : list (string * string) :=
  omap (λ s, (λ u, (st_connectorId s, u)) <$> some_truthy (st_upstreamUrl s)) (sd_sites db) ++
  omap (λ s, (λ c, (st_connectorId s, gatewayProbeUrl (vc_targetHost c) (vc_targetPort c))) <$> vault_of (st_id s) db)
    (List.filter (λ s, bool_decide (st_accessMode s = GATEWAY)) (sd_sites db)).
(** One workspace: a probe that throws ends the pass before anything is written. *)
Definition health_pass (multi : bool) (probe : string → string → option (string + Z)) (between : SitesDb → SitesDb) (now : Z) (db : SitesDb)
    : SitesDb * option HealthReport :=
  if forallb (λ t, match probe t.1 t.2 with Some _ => true | None => false end) (probe_targets db)
  then siteHealthPass (λ c u, probe c u ?? inl ""%string) multi between now db
  else (between db, None).
(** [forEachTenantId]: a throw ends the loop.  [false]: the job failed. *)
Fixpoint health_job (probe : string → string → option (string + Z)) (now : Z) (tenants : list (SitesDb * (SitesDb → SitesDb)))
    : list SitesDb * bool :=
  match tenants with
  | [] => ([], true)
  | (db, between) :: rest =>
      match health_pass true probe between now db with
      | (db', Some _) => let '(dbs, ok) := health_job probe now rest in (db' :: dbs, ok)
      | (db', None) => (db' :: map fst rest, false)
      end
  end.

(** ** Theorems: what a call tells *)

Lemma over_guarded {B} net got secret (answer : Z * B) timeoutMs :
  fetchWithTimeout timeoutMs (over net (guarded got secret answer)) =
  match net with
  | Some (hd, fin) =>
      if timeoutMs <? hd then None else
      Some (if dpAuthorized got secret
            then {| an_status := answer.1; an_header := None; an_body := Some answer.2; an_cut := timeoutMs <? fin |}
            else {| an_status := 403; an_header := None; an_body := None; an_cut := timeoutMs <? fin |})
  | None => None
  end.
Proof. unfold fetchWithTimeout, over, guarded. destruct net as [[hd fin]|]; [|done]. cbn. destruct (_ <? hd); [done|]. by destruct (dpAuthorized _ _). Qed.

Section reach.
Context (peers : nat → Peer) (got secret : string).

(** A connector that can be asked: its registered tunnel is open. *)
Definition reaches (r : Registry) (id : string) (p : Peer) : Prop := ∃ s, rg_map r !! id = Some s ∧ s ∉ rg_closed r ∧ p = peers s.
Lemma open_stream_reaches r id p : open_stream peers r id = inr p ↔ reaches r id p.
Proof.
  unfold open_stream, reaches, reg_Get. split.
  - destruct (rg_map r !! id) as [s|]; [|done]. case_bool_decide; [done|]. intros [= <-]. by exists s.
  - intros (s & -> & Hs & ->). by rewrite bool_decide_eq_false_2.
Qed.
(** An answer in time, from a data plane that shares the secret. *)
Definition answered (limit : Z) (net : option (Z * Z)) : Prop :=
  ∃ hd fin, net = Some (hd, fin) ∧ hd ≤ limit ∧ fin ≤ limit ∧ dpAuthorized got secret = true.

(** A probe reports a latency exactly when the connector's tunnel is open and the
    connector itself reported it, in time. *)
Theorem probe_reaches net r id url ms :
  probe_call peers got secret net r id url = Some (inr ms) ↔
  answered CONNECTOR_PROBE_TIMEOUT_MS net ∧
  ∃ p x, reaches r id p ∧ pe_probe p url = inr x ∧ pr_ok x = true ∧ pr_latencyMs x = ms.
Proof.
  unfold probe_call, probeConnector, answered. rewrite over_guarded. destruct net as [[hd fin]|]; [|split; [done|]; by intros ((? & ? & ? & _) & _)].
  destruct (Z.ltb_spec CONNECTOR_PROBE_TIMEOUT_MS hd). { split; [done|]. intros ((h & f & [= <- <-] & ? & _) & _). lia. }
  destruct (dpAuthorized got secret) eqn:Ha; [|split; [done|]; by intros ((? & ? & ? & ? & ? & ?) & _)].
  unfold serve_probe, Probe, read_json. cbn [an_status an_cut an_body].
  destruct (open_stream peers r id) as [e|p] eqn:Ho.
  { split; [done|]. intros (_ & p & x & Hp%open_stream_reaches & _). congruence. }
  destruct (pe_probe p url) as [e|x] eqn:Hx.
  { split; [done|]. intros (_ & q & x & Hq%open_stream_reaches & Hx' & _). congruence. }
  cbn [fst snd]. change (negb (status_ok 200)) with false. cbn iota. destruct (Z.ltb_spec CONNECTOR_PROBE_TIMEOUT_MS fin) as [Hf|Hf].
  { split; [done|]. intros ((h & f & [= <- <-] & ? & ? & _) & _). lia. }
  cbn. split.
  - intros [= Hr]. destruct (pr_ok x) eqn:Hok; [|done]. cbn in Hr. injection Hr as <-. split; [by exists hd, fin|]. exists p, x.
    split; [by apply open_stream_reaches|done].
  - intros (_ & q & y & Hq%open_stream_reaches & Hy & Hok & <-). assert (q = p) as -> by congruence. assert (y = x) as -> by congruence.
    by rewrite Hok.
Qed.

(** What an administrator sees of a tested site is the start of what the site
    answered: at most 64 KiB of it, marked as cut exactly when there is more. *)
Theorem preview_is_prefix net r id url skip status preview truncated :
  proxy_call peers got secret net r id url skip = Some (inr (ProxyOk status preview truncated)) →
  ∃ p resp, reaches r id p ∧
    pe_dial p {| dr_upstreamUrl := url; dr_method := "GET"; dr_path := "/"; dr_insecureSkipVerify := skip |} = inr resp ∧
    dl_error resp = ""%string ∧ status = dl_status resp ∧ from_base64 preview = take (Z.to_nat 65536) (dl_body resp) ∧
    truncated = bool_decide (65536 < Z.of_nat (length (dl_body resp))).
Proof.
  unfold proxy_call, proxyThroughConnector. rewrite over_guarded. destruct net as [[hd fin]|]; [|done]. destruct (_ <? hd); [done|].
  destruct (dpAuthorized got secret); [|done]. unfold serve_proxy, Proxy, read_json. cbn [an_status an_cut an_body].
  destruct (open_stream peers r id) as [e|p] eqn:Ho; [done|]. destruct (pe_dial p _) as [e|resp] eqn:Hd; [done|].
  destruct (truthy (dl_error resp)) eqn:He; [done|]. cbn [fst snd px_status px_body px_truncated].
  change (negb (status_ok 200)) with false. cbn iota. destruct (_ <? fin); [done|]. cbn [fmap option_fmap option_map].
  intros [= <- <- <-]. exists p, resp. split; [by apply open_stream_reaches|]. split; [done|]. split.
  { unfold truthy in He. apply negb_false_iff in He. by apply bool_decide_eq_true in He. }
  split; [done|]. rewrite from_to_base64, length_take. change maxProxyBody with (Z.to_nat 65536). set (n := Z.to_nat 65536).
  assert (Z.of_nat n = 65536) as Hn by (unfold n; rewrite Z2Nat.id; lia). clearbody n. split.
  - case_bool_decide; [rewrite take_take; f_equal; lia|]. rewrite !take_ge; [done|lia|lia].
  - apply bool_decide_ext. lia.
Qed.

Lemma resolve_timeout_floor env : 500 ≤ directoryResolveTimeoutMs env.
Proof.
  unfold directoryResolveTimeoutMs. destruct (isFinite _ && num_ge _ 500) eqn:E; [|done]. apply andb_prop in E as [_ E].
  set (n := if truthy _ then _ else _) in *. clearbody n. destruct n; cbn in *; try done; destruct_and?; lia.
Qed.

(** A sign-in is refused only on a definite answer of the directory: the tunnel was
    open, the bind and the search succeeded in time, and the groups found (none,
    if there is no such person) call for it.  Every failure on the way, the
    manager's own timeout included, lets the person in. *)
Theorem refusal_is_definite date_parse sha256 env user db db' tenv net r cfg pw :
  (∀ s c, pe_bind (peers s) c ≠ Some ""%string) →
  s_answer env = ldap_answer_of (resolve_call peers got secret tenv net r cfg pw (du_email user)) →
  syncUserAtLogin date_parse sha256 env user db = Some (db', true) →
  answered (directoryResolveTimeoutMs tenv) net ∧
  ∃ p entries, reaches r (v_connectorId cfg ?? "") p ∧
    pe_bind p (default_port (ldap_config cfg pw)) = None ∧ pe_find p (ldap_config cfg pw) (du_email user) = inr entries ∧
    deprovision (computeReconcile (match entries with e :: _ => le_memberOf e | [] => [] end)
      (listGroupMappingsLite (s_mappingsError env) (d_mappings db)) (du_directoryManaged user)) = true.
Proof.
  intros Herr Hans. unfold syncUserAtLogin. destruct (getDirectoryConfig _ _) as [c|]; [|done]. destruct (_ || _); [done|].
  destruct (verified_recently _ _ _); [done|]. destruct (s_bindPasswordThrows env); [done|]. rewrite Hans. clear Hans.
  unfold resolve_call, resolveDirectoryUser. rewrite over_guarded. destruct net as [[hd fin]|]; [|done].
  destruct (Z.ltb_spec (directoryResolveTimeoutMs tenv) hd); [done|]. destruct (dpAuthorized got secret) eqn:Ha; [|done].
  cbn [an_status fst]. change (negb (status_ok 200)) with false. cbn iota. unfold read_json. cbn [an_cut an_body snd].
  destruct (Z.ltb_spec (directoryResolveTimeoutMs tenv) fin); [done|]. cbn [ldap_answer_of].
  unfold ResolveUser, connectAndBind. destruct (open_stream peers r (v_connectorId cfg ?? "")) as [e|p] eqn:Ho.
  { unfold open_stream in Ho. repeat case_match; by simplify_eq. }
  pose proof Ho as (s & _ & _ & ->)%open_stream_reaches.
  destruct (pe_bind (peers s) _) as [e|] eqn:Hb.
  { intros Hs. destruct (decide (e = ""%string)) as [->|Hne]; [by destruct (Herr s _ Hb)|]. exfalso. revert Hs. cbn. assert (truthy e = true) as Ht by (unfold truthy; by rewrite bool_decide_eq_false_2).
    unfold omitempty. rewrite Ht. cbn. by rewrite Ht. } destruct (pe_find (peers s) _ _) as [e|entries] eqn:Hf; [done|].
  intros Hs. split; [by exists hd, fin|]. exists (peers s), entries. split; [by apply open_stream_reaches|]. split; [done|]. split; [done|].
  destruct entries as [|e es]; cbn in Hs.
  - destruct (deprovision _); [done|]. repeat case_match; simplify_eq.
  - destruct (le_memberOf e); cbn in Hs; destruct (deprovision _); try done; repeat case_match; simplify_eq.
Qed.
End reach.

(** ** Theorems: tunnels and revocation *)

(** What the registry goes through: a connector is authenticated, and later its
    tunnel is registered ([HandleTunnel] does other work in between); a tunnel
    ends; the manager kicks; a revocation is committed.  A connector whose
    revocation is committed does not authenticate (theorem [revocation_final] of
    [Connector]). *)
Record Plane := { pn_reg : Registry; pn_pending : list string; pn_revoked : gset string }.
Inductive plane_event := Authenticates (id : string) | Registers (id : string) | Ends (s : nat) | Kicks (id : string) | Revokes (id : string).
(** One occurrence less. *)
Fixpoint drop_first (id : string) (l : list string) : list string :=
  match l with [] => [] | x :: l' => if x =s id then l' else x :: drop_first id l' end.
Definition plane_next (e : plane_event) (p : Plane) : option Plane :=
  match e with
  | Authenticates id =>
      if bool_decide (id ∈ pn_revoked p) then None
      else Some {| pn_reg := pn_reg p; pn_pending := pn_pending p ++ [id]; pn_revoked := pn_revoked p |}
  | Registers id =>
      if bool_decide (id ∈ pn_pending p)
      then Some {| pn_reg := reg_Set id (pn_reg p); pn_pending := drop_first id (pn_pending p); pn_revoked := pn_revoked p |} else None
  | Ends s => Some {| pn_reg := tunnel_ended s (pn_reg p); pn_pending := pn_pending p; pn_revoked := pn_revoked p |}
  | Kicks id => Some {| pn_reg := (serve_kick id (pn_reg p)).1; pn_pending := pn_pending p; pn_revoked := pn_revoked p |}
  | Revokes id => Some {| pn_reg := pn_reg p; pn_pending := pn_pending p; pn_revoked := {[ id ]} ∪ pn_revoked p |}
  end.
Definition plane_run (es : list plane_event) (p : Plane) : option Plane := foldl (λ o e, o ≫= plane_next e) (Some p) es.
Definition plane_step (p p' : Plane) : Prop := ∃ e, plane_next e p = Some p'.
Definition plane_init : Plane := {| pn_reg := NewRegistry; pn_pending := []; pn_revoked := ∅ |}.

(** A connector's registered tunnel was opened for it, and a tunnel that is open is
    registered: there is at most one open tunnel for a connector. *)
Definition tunnels_wf (r : Registry) : Prop :=
  (∀ id s, rg_map r !! id = Some s → rg_owner r !! s = Some id) ∧
  (∀ s id, rg_owner r !! s = Some id → s ∉ rg_closed r → rg_map r !! id = Some s).

Lemma wf_set id r : tunnels_wf r → tunnels_wf (reg_Set id r).
Proof.
  intros [H1 H2]. unfold reg_Set. split; cbn.
  - intros x s. destruct (decide (x = id)) as [->|Hne].
    + rewrite lookup_insert_eq. intros [= <-]. by rewrite lookup_app_r, Nat.sub_diag by done.
    + rewrite lookup_insert_ne by done. intros Hs%H1. by apply lookup_app_l_Some.
  - intros s x [Hs|[Hl Hs]]%lookup_app_Some Hc.
    + assert (s ∉ rg_closed r) as Hc' by (destruct (rg_map r !! id); cbn in Hc; set_solver).
      pose proof (H2 s x Hs Hc') as Hm. rewrite lookup_insert_ne; [done|]. intros <-. rewrite Hm in Hc. cbn in Hc. set_solver.
    + apply list_lookup_singleton_Some in Hs as [Hz <-]. rewrite lookup_insert_eq. f_equal. lia.
Qed.
Lemma wf_close s r : tunnels_wf r → tunnels_wf (mux_Close s r).
Proof.
  intros [H1 H2]. split; cbn; [done|]. intros n id Hn Hc. apply H2; [done|]. destruct s; cbn in Hc; set_solver.
Qed.
(** A connector is taken out of the registry only when its tunnel is closed. *)
Lemma wf_remove id r : tunnels_wf r → (∀ s, rg_map r !! id = Some s → s ∈ rg_closed r) → tunnels_wf (reg_Remove id r).
Proof.
  intros [H1 H2] Hc. split; cbn.
  - intros x s [_ Hs]%lookup_delete_Some. by apply H1.
  - intros s x Hs Hn. pose proof (H2 s x Hs Hn) as Hm. rewrite lookup_delete_ne; [done|]. intros <-. by apply Hn, Hc.
Qed.
Lemma wf_kick id r : tunnels_wf r → tunnels_wf (serve_kick id r).1.
Proof.
  intros H. unfold serve_kick. destruct (truthy id); [|done]. cbn. apply wf_remove; [by apply wf_close|].
  unfold reg_Get. cbn. intros s ->. cbn. set_solver.
Qed.
Lemma wf_ended s r : tunnels_wf r → tunnels_wf (tunnel_ended s r).
Proof.
  intros H. unfold tunnel_ended. destruct (rg_owner r !! s) as [id|]; [|done]. apply wf_close. unfold reg_RemoveIfSame.
  case_bool_decide as E; cbn; [|by apply wf_close]. apply wf_remove; [by apply wf_close|]. cbn in E |- *. intros n. rewrite E. intros [= <-]. set_solver.
Qed.

(** In every state of the data plane a connector has at most one open tunnel, and
    it is the registered one. *)
Theorem tunnels_kept p p' : rtc plane_step p p' → tunnels_wf (pn_reg p) → tunnels_wf (pn_reg p').
Proof.
  induction 1 as [p|p q p' [e He] _ IH]; [done|]. intros Hwf. apply IH. destruct e; cbn in He; try case_bool_decide; simplify_eq; cbn;
    auto using wf_set, wf_kick, wf_ended.
Qed.

(** Other connectors do not notice a kick. *)
Theorem kick_spares_others peers id other r : tunnels_wf r → other ≠ id → open_stream peers (serve_kick id r).1 other = open_stream peers r other.
Proof.
  intros [H1 _] Hne. unfold serve_kick, open_stream, reg_Get. destruct (truthy id); [|done]. cbn. rewrite lookup_delete_ne by done.
  destruct (rg_map r !! other) as [s|] eqn:Hs; [|done]. apply (f_equal (λ b : bool, if b then _ else _)), bool_decide_ext.
  destruct (rg_map r !! id) as [n|] eqn:Hn; cbn; [|done]. assert (s ≠ n); [|set_solver].
  intros ->. apply H1 in Hs, Hn. congruence.
Qed.

(** A policy reaches its connector and no other, and the manager believes it was
    delivered only when it was. *)
Theorem policy_delivered got secret arrives net ready r id p frames answer :
  tunnels_wf r → pushConnectorPolicy got secret arrives net ready r id p = (frames, answer) →
  (∀ s p', (s, p') ∈ frames → p' = p ∧ rg_owner r !! s = Some id ∧ s ∉ rg_closed r) ∧
  (pa_ok <$> answer = Some true → ∃ s, frames = [(s, p)] ∧ rg_map r !! id = Some s).
Proof.
  intros [H1 _] [= <- <-]. unfold serve_policy, reg_Get. destruct (rg_map r !! id) as [s|] eqn:Hs; cbn [fst snd].
  - destruct (ready s && bool_decide (s ∉ rg_closed r)) eqn:E; cbn [fst snd].
    + apply andb_prop in E as [_ Hc%bool_decide_eq_true]. split.
      * intros s' p' Hin. destruct (arrives && _); [|by apply elem_of_nil in Hin]. apply list_elem_of_singleton in Hin as [= -> ->]. auto.
      * destruct arrives; cbn [andb]; [|done]. rewrite over_guarded. destruct net as [[hd fin]|]; [|done]. destruct (_ <? hd); [done|].
        destruct (dpAuthorized got secret); [|done]. intros _. by exists s.
    + split; [intros s' p' Hin; destruct (arrives && _); by apply elem_of_nil in Hin|]. rewrite over_guarded. destruct (if arrives then net else None) as [[hd fin]|]; [|done].
      destruct (_ <? hd); [done|]. destruct (dpAuthorized got secret); [|done]. cbn. unfold read_json. cbn. by destruct (_ <? fin).
  - split; [intros s' p' Hin; destruct (arrives && _); by apply elem_of_nil in Hin|]. rewrite over_guarded. destruct (if arrives then net else None) as [[hd fin]|]; [|done].
    destruct (_ <? hd); [done|]. destruct (dpAuthorized got secret); [|done]. cbn. unfold read_json. cbn. by destruct (_ <? fin).
Qed.

(** A connector shown as online is registered, and what is shown is its report. *)
Theorem telemetry_of_connector {T} got secret net (reported : nat → option (Z * T)) r id a :
  getConnectorTelemetry got secret net reported r id = Some a → ta_online a = true →
  ∃ s, rg_map r !! id = Some s ∧ ta_telemetry a = snd <$> reported s ∧ answered got secret TELEMETRY_TIMEOUT_MS net.
Proof.
  unfold getConnectorTelemetry, serve_telemetry, reg_Get. rewrite over_guarded. destruct net as [[hd fin]|]; [|by intros [= <-]].
  destruct (Z.ltb_spec TELEMETRY_TIMEOUT_MS hd); [by intros [= <-]|]. destruct (dpAuthorized got secret) eqn:Ha; [|by intros [= <-]].
  cbn [an_status fst]. change (negb (status_ok 200)) with false. cbn iota. unfold read_json. cbn [an_cut an_body snd].
  destruct (Z.ltb_spec TELEMETRY_TIMEOUT_MS fin); [done|]. intros [= <-]. destruct (rg_map r !! id) as [s|]; [|done]. intros _.
  exists s. split_and!; [done|done|]. by exists hd, fin.
Qed.

(** Cut off: not in the registry, not about to be, and every tunnel that was ever
    opened for it is closed. *)
Definition cut_off (id : string) (p : Plane) : Prop :=
  id ∉ pn_pending p ∧ rg_map (pn_reg p) !! id = None ∧ tunnels_wf (pn_reg p) ∧
  ∀ s, rg_owner (pn_reg p) !! s = Some id → s ∈ rg_closed (pn_reg p).

Lemma unregistered_closed id r : tunnels_wf r → rg_map r !! id = None → ∀ s, rg_owner r !! s = Some id → s ∈ rg_closed r.
Proof. intros [_ H2] Hn s Hs. destruct (decide (s ∈ rg_closed r)) as [|Hc]; [done|]. by rewrite (H2 s id Hs Hc) in Hn. Qed.
Lemma drop_first_subset id l x : x ∈ drop_first id l → x ∈ l.
Proof. induction l as [|y l IH]; [done|]. cbn. case_bool_decide; rewrite ?elem_of_cons; [by right|]. intros [->|?]; [by left|right; auto]. Qed.
Lemma ended_map s r id : rg_map r !! id = None → rg_map (tunnel_ended s r) !! id = None.
Proof.
  intros Hn. unfold tunnel_ended, reg_RemoveIfSame. destruct (rg_owner r !! s) as [x|]; [|done]. case_bool_decide; cbn; [|done].
  apply lookup_delete_None. by right.
Qed.
Lemma kick_map x r id : rg_map r !! id = None → rg_map (serve_kick x r).1 !! id = None.
Proof. intros Hn. unfold serve_kick. destruct (truthy x); [|done]. cbn. apply lookup_delete_None. by right. Qed.

Lemma stays_cut id p p' : rtc plane_step p p' → id ∈ pn_revoked p → cut_off id p → id ∈ pn_revoked p' ∧ cut_off id p'.
Proof.
  induction 1 as [p|p q p' Hstep _ IH]; [done|]. intros Hrev (Hpend & Hmap & Hwf & _). assert (tunnels_wf (pn_reg q)) as Hwf'.
  { by apply (tunnels_kept p q); [apply rtc_once|]. }
  apply IH.
  - destruct Hstep as [[] He]; cbn in He; try case_bool_decide; simplify_eq; cbn; set_solver.
  - assert (id ∉ pn_pending q ∧ rg_map (pn_reg q) !! id = None) as [Hp Hm]; [|split_and!; try done; by apply unregistered_closed].
    destruct Hstep as [[] He]; cbn in He; try case_bool_decide as E; simplify_eq; cbn; split; auto using ended_map, kick_map.
    + rewrite elem_of_app, list_elem_of_singleton. intros [?| ->]; done.
    + intros ?%drop_first_subset. done.
    + rewrite lookup_insert_ne; [done|]. by intros ->.
Qed.

(** C30: revoked is cut off.  When the revocation of a connector is committed and no
    handshake of it is under way, the kick closes every tunnel it has, and
    whatever happens afterwards none is ever opened for it again: no probe and
    no test reaches it, and a directory behind it is never consulted. *)
Theorem revoked_cut peers got secret id p q p' :
  tunnels_wf (pn_reg p) → id ∈ pn_revoked p → id ∉ pn_pending p → truthy id = true →
  plane_next (Kicks id) p = Some q → rtc plane_step q p' →
  (∀ s, rg_owner (pn_reg p') !! s = Some id → s ∈ rg_closed (pn_reg p')) ∧
  (∀ net url ms, probe_call peers got secret net (pn_reg p') id url ≠ Some (inr ms)) ∧
  (∀ net url skip b, proxy_call peers got secret net (pn_reg p') id url skip ≠ Some (inr b)) ∧
  (∀ tenv net cfg pw email u, v_connectorId cfg = Some id →
     resolve_call peers got secret tenv net (pn_reg p') cfg pw email = Some u → truthy_opt (lu_error u) = true).
Proof.
  intros Hwf Hrev Hpend Htr Hk Hrun. assert (cut_off id q) as Hcut.
  { cbn in Hk. injection Hk as <-. unfold serve_kick. rewrite Htr. cbn. assert (tunnels_wf (serve_kick id (pn_reg p)).1) as Hw by by apply wf_kick.
    unfold serve_kick in Hw. rewrite Htr in Hw. cbn in Hw. assert (delete id (rg_map (pn_reg p)) !! id = None) as Hn by apply lookup_delete_eq.
    split_and!; [done|exact Hn|exact Hw|]. by apply unregistered_closed. }
  assert (id ∈ pn_revoked q) as Hrq by (cbn in Hk; by injection Hk as <-).
  destruct (stays_cut id q p' Hrun Hrq Hcut) as [_ (_ & Hmap & _ & Hcl)].
  assert (open_stream peers (pn_reg p') id = inl "connector offline"%string) as Hoff by (unfold open_stream, reg_Get; by rewrite Hmap).
  split_and!; [done| | |].
  - intros net url ms (_ & pr & x & Hp%open_stream_reaches & _)%probe_reaches. congruence.
  - intros net url skip b. unfold proxy_call, proxyThroughConnector. rewrite over_guarded. destruct net as [[hd fin]|]; [|done].
    destruct (_ <? hd); [done|]. destruct (dpAuthorized _ _); [|done]. unfold serve_proxy, Proxy. by rewrite Hoff.
  - intros tenv net cfg pw email u Hc. unfold resolve_call, resolveDirectoryUser. rewrite over_guarded, Hc. change (Some id ?? "") with id.
    destruct net as [[hd fin]|]; [|by intros [= <-]]. destruct (_ <? hd); [by intros [= <-]|]. destruct (dpAuthorized _ _); [|by intros [= <-]].
    unfold ResolveUser, connectAndBind. rewrite Hoff. unfold read_json. cbn. destruct (_ <? fin); [done|]. by intros [= <-].
Qed.

(** A site is found reachable only through an open tunnel of its connector, by a
    connector that says so. *)
Theorem reachable_is_answered peers got secret net r db s res :
  (s, res) ∈ to_probe (λ c u, probe_call peers got secret net r c u ?? inl ""%string) db → probeOk res = true →
  answered got secret CONNECTOR_PROBE_TIMEOUT_MS net ∧ ∃ p url x, reaches peers r (st_connectorId s) p ∧ pe_probe p url = inr x ∧ pr_ok x = true ∧
    probeLatencyMs res = Some (pr_latencyMs x).
Proof.
  intros Hin Hok. assert (∃ url, res = probe_url (λ c u, probe_call peers got secret net r c u ?? inl ""%string) (st_connectorId s) url) as [url ->].
  { unfold to_probe in Hin. apply elem_of_app in Hin as [Hin|Hin]; apply list_elem_of_omap in Hin as (x & _ & Hx); case_match; simplify_eq; by eexists. }
  unfold probe_url in *. destruct (probe_call peers got secret net r (st_connectorId s) url) as [[e|ms]|] eqn:E; cbn in *; try done.
  apply probe_reaches in E as (Ha & p & x & Hp & Hx & Hox & <-). split; [done|]. by exists p, url, x.
Qed.

(** ** Concrete runs *)

Definition demo_peer : Peer :=
  {| pe_probe := λ _, inr {| pr_ok := true; pr_latencyMs := 7; pr_error := "" |};
     pe_dial := λ _, inr {| dl_status := 200; dl_error := ""; dl_body := chars "hello" |};
     pe_bind := λ _, None; pe_base := λ _, inr true; pe_find := λ _ _, inr [] |}.
Definition demo_peers (s : nat) : Peer := demo_peer.
Definition connects (id : string) : list plane_event := [Authenticates id; Registers id].
Definition probe_after (es : list plane_event) (id : string) : option (string + Z) :=
  p ← plane_run es plane_init; probe_call demo_peers "k" "k" (Some (10, 10)) (pn_reg p) id "http://wiki".

(** A revoked and kicked connector, next to another that stays. *)
Definition demo_plane : Plane :=
  {| pn_reg := reg_Set "c2" (reg_Set "c1" NewRegistry); pn_pending := []; pn_revoked := {["c1"%string]} |}.
Lemma demo_plane_wf : tunnels_wf (pn_reg demo_plane).
Proof. apply wf_set, wf_set. split; [intros id s; cbn; by rewrite lookup_empty|done]. Qed.
Lemma revoked_cut_witness :
  ∃ q, plane_next (Kicks "c1") demo_plane = Some q ∧
    ∀ url ms, probe_call demo_peers "k" "k" (Some (10, 10)) (pn_reg q) "c1" url ≠ Some (inr ms).
Proof.
  eexists. split; [reflexivity|]. intros url ms.
  eapply (revoked_cut demo_peers "k" "k" "c1" demo_plane).
  - exact demo_plane_wf.
  - apply (bool_decide_unpack _). vm_compute. exact I.
  - apply (bool_decide_unpack _). vm_compute. exact I.
  - reflexivity.
  - reflexivity.
  - apply rtc_refl.
Defined.
Example kick_then_gone : probe_after (connects "c1" ++ [Revokes "c1"; Kicks "c1"]) "c1" = Some (inl "connector offline"%string) ∧
  probe_after (connects "c1" ++ connects "c2" ++ [Revokes "c1"; Kicks "c1"]) "c2" = Some (inr 7) ∧
  plane_run (connects "c1" ++ [Revokes "c1"; Kicks "c1"] ++ connects "c1") plane_init = None.
Proof. vm_compute. auto. Qed.

(** ** Findings *)

(** In cloud the route's writes are committed when it returns, after the kick: a
    connector that reconnects in between is let in on its old status and keeps
    its tunnel. *)
Theorem kick_before_commit :
  probe_after (connects "c1" ++ [Kicks "c1"] ++ connects "c1" ++ [Revokes "c1"]) "c1" = Some (inr 7).
Proof. vm_compute. reflexivity. Qed.
(** A handshake that was authenticated before the revocation registers its tunnel
    after the kick. *)
Theorem handshake_survives_kick : probe_after [Authenticates "c1"; Revokes "c1"; Kicks "c1"; Registers "c1"] "c1" = Some (inr 7).
Proof. vm_compute. reflexivity. Qed.

(** The kick removes whatever is registered by then: a tunnel registered between
    its two halves stays open and is in no registry, so its connector believes to be
    connected and is offline to the manager. *)
Theorem kick_orphans_tunnel :
  let r := reg_Set "c1" NewRegistry in
  let r' := reg_Remove "c1" (reg_Set "c1" (mux_Close (reg_Get "c1" r) r)) in
  rg_owner r' !! 1%nat = Some "c1"%string ∧ 1%nat ∉ rg_closed r' ∧ open_stream demo_peers r' "c1" = inl "connector offline"%string.
Proof. split_and!; [reflexivity|apply (bool_decide_unpack _); vm_compute; exact I|vm_compute; reflexivity]. Qed.

(** Three steps of ten seconds, each within its own twelve: the test of a directory
    that answers is reported as an unreachable data plane. *)
Theorem directory_steps_exceed_wait :
  let steps := [10000; 10000; 10000] in
  Forall (λ t, t ≤ 12000) steps ∧
  testDirectory (over (Some (foldr Z.add 0 steps, foldr Z.add 0 steps)) (200, Some {| lt_ok := true; lt_baseDnFound := true; lt_error := None |}))
  = Some {| lt_ok := false; lt_baseDnFound := false; lt_error := Some "The data-plane is unreachable."%string |}.
Proof. split; [repeat constructor; lia|vm_compute; reflexivity]. Qed.

(** One probe whose answer breaks off after its head ends the health pass of that
    workspace, its other site included, and of every workspace after it. *)
Theorem one_answer_ends_health_job :
  let r := reg_Set "c1" NewRegistry in
  let good := probe_call demo_peers "k" "k" (Some (10, 10)) r in
  let bad c u := probe_call demo_peers "k" "k" (Some (10, if u =s "https://10.0.0.6" then 16000 else 10)) r c u in
  let seen probe := (λ db, map st_probeOk (sd_sites db)) <$> (health_job probe 9000 [(demo_domain, id); (demo_desktop, id)]).1 in
  seen good = [[Some true; Some true]; [Some true]] ∧ seen bad = [[None; None]; [None]].
Proof. vm_compute. auto. Qed.
