(* ===== verification/Install.v ===== *)
(** * The command an operator pastes on a connector's host

    The command of an installation, an update and a re-pairing
    (src/lib/connector/repair.ts with the image names of src/lib/images.ts), and
    how the console prints it over several lines (src/lib/format/docker-command.ts).
    The printed form is what people read before they run the other as root: it is
    shown to be the same command. *)

From S2P Require Import Prelude JsString.

Notation text := (list Ascii.ascii).
Definition LF : string := unchars [Ascii.ascii_of_N 10].
Definition backslash : text := [Ascii.ascii_of_N 92].

(** ** Images *)

Definition IMAGE_REGISTRY : string := "ghcr.io".
Definition IMAGE_OWNER : string := "captivo-io".
Definition IMAGE_PREFIX : string := IMAGE_REGISTRY +:+ "/" +:+ IMAGE_OWNER +:+ "/captivo-access".
Inductive PublishedImage := ImgManager | ImgDataplane | ImgConnector | ImgMigrate | ImgKasmBrowser.
Definition image_name (i : PublishedImage) : string :=
  match i with ImgManager => "manager" | ImgDataplane => "dataplane" | ImgConnector => "connector" | ImgMigrate => "migrate"
          | ImgKasmBrowser => "kasm-browser" end.
Definition accessImage (i : PublishedImage) : string := IMAGE_PREFIX +:+ "-" +:+ image_name i +:+ ":latest".
Definition PRUNE_LABEL_FILTER : string := "label=org.opencontainers.image.title=captivo-access".

(** ** The command *)

Definition GATEWAY_NETWORK : string := "captivo-gateway".
Definition GUACD : string := "guacamole/guacd:1.6.0".
Definition quiet : string := " >/dev/null 2>&1".

Definition cmd_network : string :=
  "docker network inspect " +:+ GATEWAY_NETWORK +:+ quiet +:+ " || docker network create " +:+ GATEWAY_NETWORK +:+ quiet +:+ "; ".
Definition cmd_chown : string :=
  "docker run --rm --user 0 --entrypoint chown -v captivo_guacd_recordings:/rec -v captivo_guacd_logs:/log -v captivo_guacd_drive:/drive2 "
  +:+ GUACD +:+ " -R 1000:1000 /rec /log /drive2; ".
Definition cmd_clear (clearVolume : bool) : string :=
  if clearVolume then "docker rm -f access-connector" +:+ quiet +:+ "; docker volume rm access_connector_data" +:+ quiet +:+ "; " else "".
Definition cmd_connector (managerUrl tunnelUrl : string) (code : option string) : string :=
  "docker pull " +:+ accessImage ImgConnector +:+ "; docker rm -f access-connector" +:+ quiet +:+ "; " +:+
  "docker run -d --name access-connector --restart unless-stopped --network " +:+ GATEWAY_NETWORK +:+ " " +:+
  "-e MANAGER_URL=" +:+ managerUrl +:+ " -e DATAPLANE_URL=" +:+ tunnelUrl +:+ " " +:+
  (match code with Some c => if truthy c then "-e PAIR_CODE=" +:+ c +:+ " " else "" | None => "" end) +:+
  "-v access_connector_data:/data -v captivo_guacd_logs:/guaclog:ro -v captivo_guacd_drive:/drive:rw -v captivo_kasm_logs:/kasmlog:ro "
  +:+ accessImage ImgConnector +:+ "; ".
Definition cmd_guacd : string :=
  "docker rm -f captivo-guacd" +:+ quiet +:+ "; " +:+
  "docker run -d --name captivo-guacd --restart unless-stopped --network " +:+ GATEWAY_NETWORK +:+ " " +:+
  "-v captivo_guacd_recordings:/recordings -v captivo_guacd_logs:/guaclog -v captivo_guacd_drive:/drive " +:+
  "--entrypoint /bin/sh " +:+ GUACD +:+ " -c '/opt/guacamole/sbin/guacd -b 0.0.0.0 -L info -f 2>&1 | tee /guaclog/guacd.log'; ".
Definition cmd_kasm : string :=
  "docker pull " +:+ accessImage ImgKasmBrowser +:+ "; docker rm -f captivo-kasm" +:+ quiet +:+
  "; docker run -d --name captivo-kasm --restart unless-stopped --network " +:+ GATEWAY_NETWORK +:+
  " --shm-size=1g -v captivo_kasm_logs:/kasmlog " +:+ accessImage ImgKasmBrowser +:+ "; ".
Definition cmd_prune : string := "docker image prune -f --filter " +:+ PRUNE_LABEL_FILTER +:+ quiet.

Definition runCommand (managerUrl tunnelUrl : string) (code : option string) (clearVolume : bool) : string :=
  cmd_network +:+ cmd_chown +:+ cmd_clear clearVolume +:+ cmd_connector managerUrl tunnelUrl code +:+ cmd_guacd +:+ cmd_kasm +:+ cmd_prune.
Definition buildInstallCommand (code managerUrl tunnelUrl : string) : string := runCommand managerUrl tunnelUrl (Some code) false.
Definition buildReconfigureCommand (code managerUrl tunnelUrl : string) : string := runCommand managerUrl tunnelUrl (Some code) true.
Definition buildConnectorUpdateCommand (managerUrl tunnelUrl : string) : string := runCommand managerUrl tunnelUrl None false.

(** ** Printing it over several lines *)

(** [split(/\s+/)] of a trimmed text: its words. *)
Definition flush (w : text) : list text := if bool_decide (w = []) then [] else [w].
Fixpoint words_from (w : text) (l : text) : list text :=
  match l with
  | [] => flush w
  | c :: l' => if is_ws c then flush w ++ words_from [] l' else words_from (w ++ [c]) l'
  end.
Definition words (l : text) : list text := words_from [] l.

Definition dash (t : text) : bool := starts_chars (chars "-") t.
Definition is_letter (c : Ascii.ascii) : bool := ((65 <=? code c) && (code c <=? 90)) || ((97 <=? code c) && (code c <=? 122)).
(** [/^-[a-zA-Z]$/]. *)
Definition short_flag (t : text) : bool := match t with [d; c] => (dash [d]) && is_letter c | _ => false end.
(** The flags that stay on the first line, and the rest. *)
Fixpoint first_flags (ts : list text) : list text * list text :=
  match ts with
  | t :: rest =>
      if short_flag t && match rest with u :: _ => dash u | [] => true end
      then let '(fs, r) := first_flags rest in (t :: fs, r) else ([], ts)
  | [] => ([], [])
  end.
Definition space : text := chars " ".
Fixpoint flag_groups (ts : list text) : list text :=
  match ts with
  | [] => []
  | [t] => [t]
  | t :: ((u :: r) as rest) => if dash t && negb (dash u) then (t ++ space ++ u) :: flag_groups r else t :: flag_groups rest
  end.
Definition continuation : text := space ++ backslash ++ chars LF ++ chars "  ".
Definition formatDockerRun (oneLiner : text) : text :=
  match words oneLiner with
  | d :: r :: ts =>
      if bool_decide (d = chars "docker") && bool_decide (r = chars "run") then
        let '(fs, rest) := first_flags ts in
        join_chars continuation ((chars "docker run" ++ concat (map (λ f, space ++ f) fs)) :: flag_groups rest)
      else oneLiner
  | _ => oneLiner
  end.

(** A separator at the start of a text, and what comes after it:
    [\s+&&\s+], [\s+\|\|\s+] or [;\s+]. *)
Definition ws_head (l : text) : bool := match l with c :: _ => is_ws c | [] => false end.
Definition spaced (op : text) (l : text) : option (text * text) :=
  if starts_chars op l && ws_head (drop (length op) l) then Some (op, drop_ws (drop (length op) l)) else None.
Definition separator (l : text) : option (text * text) :=
  match l with
  | [] => None
  | c :: l' =>
      if is_ws c then match spaced (chars "&&") (drop_ws l') with Some x => Some x | None => spaced (chars "||") (drop_ws l') end
      else spaced (chars ";") l
  end.
(** The capturing split: every command with the separator after it, trimmed. *)
Fixpoint split_steps (fuel : nat) (acc l : text) : list (text * text) :=
  match fuel with
  | O => [(acc ++ l, [])]
  | S n => match l with
           | [] => [(acc, [])]
           | c :: l' => match separator l with
                        | Some (sep, rest) => (acc, sep) :: split_steps n [] rest
                        | None => split_steps n (acc ++ [c]) l'
                        end
           end
  end.
Definition steps (l : text) : list (text * text) := split_steps (length l) [] l.
Definition print_cmd (cmd : text) : text :=
  if starts_chars (chars "docker run") cmd && negb (includes_chars (chars "'") cmd) then formatDockerRun cmd else cmd.
Definition print_step (x : text * text) : option text :=
  let cmd := trim_chars x.1 in
  if bool_decide (cmd = []) then None else
  Some (if bool_decide (x.2 = []) then print_cmd cmd else print_cmd cmd ++ space ++ x.2).
Definition formatShellCommand (oneLiner : text) : text :=
  let trimmed := trim_chars oneLiner in
  if bool_decide (trimmed = []) then oneLiner else join_chars (chars LF) (omap print_step (steps trimmed)).

(** ** Theorems *)

(** How a reader of shell text sees it: in words, with a semicolon a word of its
    own, and the continuation of a line no word at all. *)
Definition pad (l : text) : text := concat (map (λ c, if bool_decide (chars ";" = [c]) then chars " ; " else [c]) l).
Definition not_continued (w : text) : bool := negb (bool_decide (w = backslash)).
Definition tokens (l : text) : list text := List.filter not_continued (words (pad l)).

(** What a reading has to respect for the printed form to be the same: nothing
    is nothing, and a blank always separates. *)
Class Reading (W : text → list text) := {
  reading_nil : W [] = [];
  reading_ws : ∀ a c b, is_ws c = true → W (a ++ c :: b) = W a ++ W b;
}.

Lemma words_from_ws w a c b : is_ws c = true → words_from w (a ++ c :: b) = words_from w a ++ words b.
Proof.
  intros Hc. revert w. induction a as [|x a IH]; intros w; cbn; [by rewrite Hc|]. destruct (is_ws x); [by rewrite IH, app_assoc|apply IH].
Qed.
#[global] Instance words_reading : Reading words.
Proof. split; [done|]. intros a c b Hc. by apply words_from_ws. Qed.
Lemma pad_app a b : pad (a ++ b) = pad a ++ pad b.
Proof. unfold pad. by rewrite map_app, concat_app. Qed.
Lemma pad_ws c : is_ws c = true → pad [c] = [c].
Proof. intros Hc. unfold pad. cbn. case_bool_decide as E; [|done]. by injection E as <-. Qed.
#[global] Instance tokens_reading : Reading tokens.
Proof.
  split; [done|]. intros a c b Hc. unfold tokens. change (c :: b) with ([c] ++ b). rewrite !pad_app, (pad_ws c) by done. cbn [app].
  by rewrite reading_ws, List.filter_app.
Qed.

Section reading.
Context (W : text → list text) {RW : Reading W}.

Lemma read_ws_cons c b : is_ws c = true → W (c :: b) = W b.
Proof using RW. intros Hc. pose proof (reading_ws [] c b Hc) as H. cbn in H. by rewrite H, reading_nil. Qed.
Lemma read_drop_ws l : W (drop_ws l) = W l.
Proof using RW. induction l as [|c l IH]; [done|]. cbn. destruct (is_ws c) eqn:E; [|done]. by rewrite IH, read_ws_cons. Qed.
Lemma read_ws_end l b : Forall (λ c, is_ws c) b → W (l ++ b) = W l.
Proof using RW.
  intros Hb. destruct b as [|c b]; [by rewrite app_nil_r|]. apply Forall_cons in Hb as [Hc%Is_true_true Hb]. rewrite reading_ws by done.
  assert (W b = []) as ->; [|by rewrite app_nil_r]. induction Hb as [|x b Hx%Is_true_true _ IH]; [apply reading_nil|]. by rewrite read_ws_cons.
Qed.
Lemma read_trim l : W (trim_chars l) = W l.
Proof using RW.
  destruct (drop_ws_suffix (reverse (drop_ws l))) as (p & Hp & Hws). transitivity (W (drop_ws l)); [|apply read_drop_ws].
  unfold trim_chars. assert (drop_ws l = reverse (drop_ws (reverse (drop_ws l))) ++ reverse p) as E.
  { by rewrite <- reverse_app, <- Hp, reverse_involutive. }
  rewrite E at 2. symmetry. apply read_ws_end. by apply Forall_reverse.
Qed.
(** A text reads as its words read. *)
Lemma read_words_from w l : W (w ++ l) = concat (map W (words_from w l)).
Proof using RW.
  revert w. induction l as [|c l IH]; intros w; cbn.
  - rewrite app_nil_r. unfold flush. case_bool_decide as E; [rewrite E; apply reading_nil|]. cbn. by rewrite app_nil_r.
  - destruct (is_ws c) eqn:E.
    + rewrite reading_ws, map_app, concat_app by done. f_equal; [|apply (IH [])]. unfold flush. case_bool_decide as Ew; [rewrite Ew; apply reading_nil|].
      cbn. by rewrite app_nil_r.
    + rewrite <- IH, <- app_assoc. done.
Qed.
Lemma read_words l : W l = concat (map W (words l)).
Proof using RW. apply (read_words_from []). Qed.

Lemma read_join sep ls : (∀ a b, W (a ++ sep ++ b) = W a ++ W b) → W (join_chars sep ls) = concat (map W ls).
Proof using RW.
  intros Hsep. induction ls as [|a ls IH]; [apply reading_nil|]. destruct ls as [|b ls]; [cbn; by rewrite app_nil_r|].
  change (join_chars sep (a :: b :: ls)) with (a ++ sep ++ join_chars sep (b :: ls)). rewrite Hsep, IH. done.
Qed.
End reading.

(** ** The printed command is the command *)

Section docker_run.
Context (W : text → list text) {RW : Reading W}.
Context (W_backslash : W backslash = []).

Lemma read_space a b : W (a ++ space ++ b) = W a ++ W b.
Proof using RW. by apply (reading_ws a). Qed.
Lemma read_continuation a b : W (a ++ continuation ++ b) = W a ++ W b.
Proof using RW W_backslash.
  unfold continuation. rewrite <- !app_assoc, (read_space a). f_equal. change (W (backslash ++ Ascii.ascii_of_N 10 :: (chars "  " ++ b)) = W b).
  rewrite reading_ws, W_backslash by done.
  change (W (Ascii.ascii_of_N 32 :: Ascii.ascii_of_N 32 :: b) = W b). by rewrite !read_ws_cons.
Qed.
Lemma flag_groups_cons t u r :
  flag_groups (t :: u :: r) = if dash t && negb (dash u) then (t ++ space ++ u) :: flag_groups r else t :: flag_groups (u :: r).
Proof. done. Qed.
Lemma read_groups ts : concat (map W (flag_groups ts)) = concat (map W ts).
Proof using RW.
  induction ts as [ts IH] using (induction_ltof1 _ length). unfold ltof in IH. destruct ts as [|t [|u r]]; [done|done|].
  rewrite flag_groups_cons. destruct (dash t && negb (dash u)).
  - cbn [map concat]. rewrite read_space, (IH r) by (cbn; lia). by rewrite <- app_assoc.
  - rewrite map_cons, concat_cons, (IH (u :: r)) by (cbn; lia). done.
Qed.
Lemma first_flags_app ts : (first_flags ts).1 ++ (first_flags ts).2 = ts.
Proof. induction ts as [|t ts IH]; [done|]. cbn. destruct (_ && _); [|done]. destruct (first_flags ts) as [fs r]. cbn in *. by rewrite IH. Qed.
Lemma read_flags a fs : W (a ++ concat (map (λ f, space ++ f) fs)) = W a ++ concat (map W fs).
Proof using RW.
  revert a. induction fs as [|f fs IH]; intros a; cbn [map concat]; [by rewrite !app_nil_r|]. rewrite app_assoc, IH, read_space. by rewrite <- app_assoc.
Qed.
Lemma read_docker_run l : W (formatDockerRun l) = W l.
Proof using RW W_backslash.
  unfold formatDockerRun. rewrite (read_words W l). destruct (words l) as [|d [|r ts]] eqn:Hw; [by rewrite (read_words W l), Hw|by rewrite (read_words W l), Hw|].
  destruct (bool_decide (d = chars "docker") && _) eqn:E; [|by rewrite (read_words W l), Hw].
  apply andb_prop in E as [Hd%bool_decide_eq_true Hr%bool_decide_eq_true]. subst d r. pose proof (first_flags_app ts) as Hts.
  destruct (first_flags ts) as [fs rest]. cbn in Hts. rewrite (read_join W) by apply read_continuation. cbn [map concat].
  rewrite read_groups, read_flags, <- Hts, map_app, concat_app. change (chars "docker run") with (chars "docker" ++ space ++ chars "run").
  by rewrite read_space, <- !app_assoc.
Qed.
End docker_run.

Definition operators : list text := [chars "&&"; chars "||"; chars ";"].
Lemma tokens_op op : op ∈ operators → tokens op = [op] ∧ op ≠ [].
Proof. unfold operators. rewrite !elem_of_cons, elem_of_nil. intros [->|[->|[->|[]]]]; (split; [vm_compute; reflexivity|done]). Qed.
Lemma tokens_semicolon a b : tokens (a ++ chars ";" ++ b) = tokens a ++ [chars ";"] ++ tokens b.
Proof.
  unfold tokens. rewrite !pad_app.
  change (pad (chars ";") ++ pad b) with (Ascii.ascii_of_N 32 :: (chars ";" ++ Ascii.ascii_of_N 32 :: pad b)).
  rewrite (reading_ws (pad a)), (reading_ws (chars ";")) by done. by rewrite !List.filter_app.
Qed.
Lemma spaced_spec op l sep rest :
  spaced op l = Some (sep, rest) → sep = op ∧ ∃ c b, l = op ++ c :: b ∧ is_ws c = true ∧ rest = drop_ws (c :: b).
Proof.
  unfold spaced. destruct (starts_chars op l) eqn:Hs; [|done]. apply starts_chars_spec in Hs as [q ->]. cbn [andb]. rewrite drop_app_length.
  destruct q as [|c b]; [done|]. cbn [ws_head]. destruct (is_ws c) eqn:Hc; [|done]. intros [= <- <-]. split; [done|]. by exists c, b.
Qed.
Lemma drop_ws_length l : (length (drop_ws l) ≤ length l)%nat.
Proof. induction l as [|c l IH]; [done|]. cbn. destruct (is_ws c); cbn; lia. Qed.
(** A separator reads as a word of its own, and takes up room. *)
Lemma separator_read l sep rest :
  separator l = Some (sep, rest) →
  (∀ acc, tokens (acc ++ l) = tokens acc ++ [sep] ++ tokens rest) ∧ sep ∈ operators ∧ (length rest < length l)%nat.
Proof.
  destruct l as [|x l]; [done|]. cbn [separator]. destruct (is_ws x) eqn:Hx.
  - assert (∀ op, op ∈ operators → spaced op (drop_ws l) = Some (sep, rest) →
              (∀ acc, tokens (acc ++ x :: l) = tokens acc ++ [sep] ++ tokens rest) ∧ sep ∈ operators ∧ (length rest < length (x :: l))%nat) as H.
    { intros op Hop (-> & c & b & Hl & Hc & ->)%spaced_spec. destruct (tokens_op op Hop) as [Ht Hne]. split_and!; [|done|].
      - intros acc. rewrite (reading_ws acc x l) by done. f_equal. rewrite <- (read_drop_ws tokens l), Hl, (read_drop_ws tokens).
        rewrite (read_ws_cons tokens c b) by done. by rewrite (reading_ws op c b), Ht by done.
      - pose proof (drop_ws_length l) as H1. pose proof (drop_ws_length (c :: b)) as H2. rewrite Hl, length_app in H1. cbn [length] in *. lia. }
    intros Hsep. destruct (spaced (chars "&&") (drop_ws l)) as [[s r]|] eqn:E.
    + injection Hsep as -> ->. apply (H (chars "&&")); [by left|done].
    + apply (H (chars "||")); [by right; left|done].
  - intros (-> & c & b & Hl & Hc & ->)%spaced_spec. rewrite Hl. split_and!; [|by right; right; left|].
    + intros acc. rewrite (read_drop_ws tokens). apply tokens_semicolon.
    + pose proof (drop_ws_length (c :: b)) as H1. rewrite length_app. change (length (chars ";")) with 1%nat. lia.
Qed.
Lemma split_read n acc l : concat (map (λ x, tokens x.1 ++ flush x.2) (split_steps n acc l)) = tokens (acc ++ l).
Proof.
  revert acc l. induction n as [|n IH]; intros acc l; cbn [split_steps]; [cbn; by rewrite !app_nil_r|].
  destruct l as [|c l']; [cbn; by rewrite !app_nil_r|]. destruct (separator (c :: l')) as [[sep rest]|] eqn:E.
  - apply separator_read in E as (-> & Hop & _). cbn [map concat fst snd]. rewrite IH. unfold flush.
    rewrite bool_decide_eq_false_2 by (by apply tokens_op). by rewrite <- app_assoc.
  - rewrite IH, <- app_assoc. done.
Qed.
Lemma split_ops n acc l : Forall (λ x, x.2 = [] ∨ x.2 ∈ operators) (split_steps n acc l).
Proof.
  revert acc l. induction n as [|n IH]; intros acc l; cbn [split_steps]; [by repeat constructor|].
  destruct l as [|c l']; [by repeat constructor|]. destruct (separator (c :: l')) as [[sep rest]|] eqn:E; [|done].
  apply separator_read in E as (_ & Hop & _). constructor; [by right|done].
Qed.
(** One unit of fuel for each character is enough. *)
Lemma split_fuel n acc l : (length l ≤ n)%nat → split_steps n acc l = split_steps (length l) acc l.
Proof.
  revert acc l. induction n as [n IH] using (well_founded_induction lt_wf). intros acc l Hn.
  destruct n as [|n]; [by destruct l; [|cbn in Hn; lia]|]. destruct l as [|c l']; [cbn; by rewrite app_nil_r|]. cbn [length split_steps].
  destruct (separator (c :: l')) as [[sep rest]|] eqn:E; cbn [length] in Hn.
  - apply separator_read in E as (_ & _ & Hlt). cbn [length] in Hlt. f_equal.
    rewrite (IH n) by lia. symmetry. apply IH; lia.
  - by rewrite (IH n) by lia.
Qed.
Lemma print_read x line : x.2 = [] ∨ x.2 ∈ operators → print_step x = Some line → tokens line = tokens x.1 ++ flush x.2.
Proof.
  intros Hop. unfold print_step. case_bool_decide; [done|]. intros Hl%(inj Some). subst line.
  assert (tokens (print_cmd (trim_chars x.1)) = tokens x.1) as Hf.
  { unfold print_cmd. destruct (_ && _); rewrite ?(read_docker_run tokens) by done; apply (read_trim tokens). }
  unfold flush. destruct (decide (x.2 = [])) as [E|E].
  { rewrite !(bool_decide_eq_true_2 _ E). by rewrite Hf, app_nil_r. }
  rewrite !(bool_decide_eq_false_2 _ E), (read_space tokens), Hf. f_equal. destruct Hop as [|Hop]; [done|]. by apply tokens_op.
Qed.

(** Every command of the text is there: nothing is cut between two separators. *)
Definition no_empty_step (l : text) : Prop := Forall (λ x, trim_chars x.1 ≠ [] ∨ x.2 = []) (steps (trim_chars l)).
#[global] Instance no_empty_step_dec l : Decision (no_empty_step l).
Proof. unfold no_empty_step. apply _. Defined.

Lemma printed_read xs :
  Forall (λ x, x.2 = [] ∨ x.2 ∈ operators) xs → Forall (λ x, trim_chars x.1 ≠ [] ∨ x.2 = []) xs →
  concat (map tokens (omap print_step xs)) = concat (map (λ x, tokens x.1 ++ flush x.2) xs).
Proof.
  intros Hop Hne. induction xs as [|x xs IH]; [done|]. apply Forall_cons in Hop as [Hx Hop], Hne as [Hy Hne]. cbn [omap list_omap map concat].
  rewrite <- IH by done. destruct (print_step x) as [line|] eqn:E.
  - cbn [map concat]. by rewrite (print_read x line).
  - unfold print_step in E. case_bool_decide as Ht; [|done]. destruct Hy as [|Hy]; [done|]. by rewrite Hy, <- (read_trim tokens), Ht.
Qed.

(** The command that is printed over several lines is the command that is copied:
    read as shell text, with the continued lines joined, both are the same words
    in the same order. *)
Theorem printed_is_copied l : no_empty_step l → tokens (formatShellCommand l) = tokens l.
Proof.
  intros Hne. unfold formatShellCommand. case_bool_decide; [done|]. rewrite (read_join tokens) by (intros a b; by apply (reading_ws a)).
  rewrite printed_read by (apply split_ops || done). unfold steps. rewrite split_read. apply (read_trim tokens).
Qed.

Definition demo_install : string := buildInstallCommand "AB-12" "https://manager.acme.test" "wss://connect.acme.test".
Lemma printed_is_copied_witness : tokens (formatShellCommand (chars demo_install)) = tokens (chars demo_install).
Proof. apply printed_is_copied. apply (bool_decide_unpack _). vm_compute. exact I. Defined.

(** The three commands differ as they should: an update is an installation without
    the code, a re-pairing one that drops the token first. *)
Definition step_texts (s : string) : list string := map (λ x, unchars (trim_chars x.1)) (steps (chars s)).
Example repair_drops_token :
  filter (.∉ step_texts demo_install) (step_texts (buildReconfigureCommand "AB-12" "https://manager.acme.test" "wss://connect.acme.test"))
  = ["docker volume rm access_connector_data >/dev/null 2>&1"%string].
Proof. vm_compute. reflexivity. Qed.
(** The connector comes up before the services it uses, and the clean-up is last. *)
Example connector_first_prune_last :
  fst <$> list_find (λ t, startsWith "docker run -d --name access-connector" t = true) (step_texts demo_install) = Some 5%nat ∧
  fst <$> list_find (λ t, startsWith "docker run -d --name captivo-guacd" t = true) (step_texts demo_install) = Some 7%nat ∧
  last (step_texts demo_install) = Some (cmd_prune).
Proof. vm_compute. auto. Qed.

(** A separator after nothing is dropped by the printer. *)
Theorem empty_step_unprinted : unchars (formatShellCommand (chars "a; ; b")) = "a ;" +:+ LF +:+ "b".
Proof. vm_compute. reflexivity. Qed.
